(* ===== verification/_CoqProject ===== *)
-Q . S2P
Prelude.v
AdxList.v
AdxListSort.v
AdxRbtree.v
AdxRbtreeRep.v
AdxRbtreeInsert.v
AdxRbtreeMap.v
AdxRbtreeDelete.v
AdxRbtreeSpec.v
AdxAlloc.v
AdxString.v
AdxQueue.v
AdxLog.v
AdxKv.v
AdxConf.v
AdxTime.v
AdxJson.v
AdxJsonDoc.v
AdxJsonRound.v
AdxJsonPrint.v
AdxJsonApi.v
AdxJsonHeap.v
AdxIndex.v
AdxCache.v
AdxCacheSpec.v
AdxCacheStore.v
ZplaySha1.v
ZplayHmac.v
ZplayPrice.v
AutohomePrice.v
GdtBase64.v
AdxChain.v
AdxNetwork.v
TrackerFlume.v
NgxProtobuf.v
NgxProtobufWire.v
NgxProtobufMsg.v
NgxProtobufCodec.v
NgxProtobufRead.v
NgxProtobufMember.v
NgxProtobufScalar.v
NgxProtobufScalarLaws.v
NgxProtobufLaws.v
NgxRbtree.v
NgxRbtreeHeap.v
NgxProtobufExt.v
NgxProtobufExtTree.v
NgxProtobufExtLaws.v
NgxProtobufExtRead.v
NgxProtobufSpec.v
NgxComProto.v
NgxComProtoLaws.v
AdxCom.v
NgxBaiduProto.v
NgxBaiduProtoLaws.v
NgxBaiduResponse.v
NgxBaiduResponseLaws.v
NgxBaiduResponseSpec.v
NgxProtobufTyped.v
NgxComTyped.v
NgxBaiduTyped.v
AdxComBaidu.v
AdxComBaiduSpec.v
NgxBaiduSpec.v
AdxComModule.v
AdxComInmobi.v
AdxComInmobiModule.v
