(* ===== verification/Prelude.v ===== *)
(** * Verification library of the adx-dsp repository

    The repository is an advertising exchange: bidding servers and trackers
    in C++ around a C library of containers, JSON, caching, logging and
    configuration, an nginx module, and decoders for the winning prices that
    the exchanges send enciphered.  This development models the C code: the
    library of adx_dsp/src, the strings, HTTP responses and protocol buffers of
    adx_module/adx_com_libs, the nginx modules of Baidu's and of InMobi's
    exchange in adx_module/adx_com_baidu and adx_module/adx_com_inmobi, the
    Flume client of tracker/src, and the price decoders written in C under
    BidCore/common/adx_decode.  Paths below are relative to src/.

    ** Outcomes and conventions

    Every definition is executable.  A C function returns [Ok v], or [UB]
    where the language gives its execution no meaning (NULL or released
    memory, accesses outside an object, signed overflow), or [NoFuel] when a
    loop of the model is cut off; theorems prove [Ok] or [UB] outright, with
    fuel given by a bound stated in the theorem (the length of the text or of
    the message, the height of the tree, the depth of the document), so that
    each is also a
    theorem of termination.  Where the code never ends this is proved as
    [NoFuel] for every fuel.  [char] data is a list of numbers from 0 to 255
    ([schar] where the sign matters); machine integers are [Z] with their
    wrap-around ([u8], [u32], [u64], [i32], [i64]) or with the test
    [int_ok].  Two expressions of hmac_sha1.c that overflow an [int], and the
    left shift of a negative number in hl64ton, ntohl64 and the zigzag macros
    of ngx_protobuf.h, have their two's-complement value, as the deployed
    compiler gives it.

    Lengths are kept in the type the code gives them: [adx_alloc] adds the
    header of a block to a [size_t] that wraps around; the copies of
    adx_json.c, adx_cache.c, adx_queue.c and adx_network.c take the length of
    a text as an [int], truncated where the code converts it.
    Where these limits matter the theorem says so: texts of fewer than
    2^31 - 1 characters, and what happens at the limit.  The stack is taken to
    be large enough: the parsers and importers recurse to the depth of the
    document.

    Memory is modelled at the grain at which the code shares it: list links,
    tree nodes, JSON and cache nodes and buffer chains live in stores by
    address, because they are changed through pointers; strings and buffers
    are arrays of bytes with their bounds.  What belongs to the system is a
    parameter: which allocations are refused, the answers of system calls,
    the text or the failure [vsnprintf] gives, OpenSSL's HMAC, nginx's readers, senders,
    filters and subrequests, what a released block or an array of a function
    that has returned reads as.  Threads are step relations whose steps are
    the critical sections of the code.

    ** The files

    - Prelude.v: outcomes, arrays, integers, the C library functions the code
      calls on strings, shared tactics and list lemmas.
    - AdxList.v, AdxListSort.v: adx_list.h and adx_list.c, the intrusive
      circular list and its merge sort.
    - AdxRbtree.v (operations), AdxRbtreeRep.v (memory and contexts),
      AdxRbtreeInsert.v, AdxRbtreeDelete.v (balance), AdxRbtreeMap.v (the two
      key types through the class [RbKey]), AdxRbtreeSpec.v (contract):
      adx_rbtree.h and adx_rbtree.c.
    - AdxAlloc.v: the pool, adx_alloc.c.  AdxString.v: adx_string.c.
      AdxQueue.v: adx_queue.c.  AdxLog.v: adx_log.c.  AdxKv.v: adx_kv.c.
      AdxConf.v: adx_conf_file.c.  AdxTime.v: adx_time.c.
    - AdxJson.v (nodes and parser), AdxJsonDoc.v (building, lookup, printer),
      AdxJsonRound.v (values and their text), AdxJsonPrint.v (the growing
      buffer and the round trip), AdxJsonApi.v (building and lookup),
      AdxJsonHeap.v (the nodes after any parse): adx_json.h and adx_json.c.
    - AdxIndex.v (the interface [Index] between the cache and the trees, with
      its red-black instances), AdxCache.v (operations), AdxCacheSpec.v
      (invariant), AdxCacheStore.v (contract): adx_cache.h and adx_cache.c.
    - ZplaySha1.v, ZplayHmac.v, ZplayPrice.v: hmac_sha1.c, and base64.c,
      hex.c and decode.c of adx_decode/zplay.  AutohomePrice.v:
      adx_encrypt.c of adx_decode/autohome.  GdtBase64.v: base64.c of
      adx_decode/gdt.
    - AdxChain.v, AdxNetwork.v: adx_string.c (where it differs from the one
      of adx_dsp) and adx_network.c of adx_module/adx_com_libs.
    - TrackerFlume.v: adx_flume.c of tracker/src with its queue.
    - NgxProtobuf.v (integers, strings, fields), NgxProtobufMsg.v (arrays,
      unknown fields, and the code the generator writes for a field),
      NgxProtobufScalar.v (that for the remaining types of a field):
      ngx_protobuf.h and ngx_protobuf.c of adx_module/adx_com_libs.
      NgxProtobufWire.v: the base-128 bytes of integers.  NgxProtobufCodec.v,
      NgxProtobufRead.v, NgxProtobufMember.v, NgxProtobufScalarLaws.v: the
      laws of fields, and those of messages as the classes [Message] and
      [MessageLaws].  NgxProtobufLaws.v: the tactics that prove them of a
      message field by field.  NgxProtobufSpec.v: properties of the runtime.
      NgxProtobufExt.v: the registry and the extension fields of a message in
      trees, the rest of ngx_protobuf.c, with NgxProtobufExtTree.v (trees, and
      the operations on extensions as operations on a map),
      NgxProtobufExtLaws.v (their size and their bytes) and
      NgxProtobufExtRead.v (reading them back).
      NgxProtobufTyped.v: the ranges that unpacking keeps on any bytes, as the
      class [TypedLaws], whose instances are in NgxComTyped.v and
      NgxBaiduTyped.v.
    - NgxRbtree.v: trees by position and the class [NgxRbtree], the interface
      of nginx's trees; NgxRbtreeHeap.v: ngx_rbtree.c and ngx_rbtree.h of
      nginx-1.12.2/src/core in memory.
    - NgxComProto.v, NgxComProtoLaws.v: the ten messages of
      ngx_adx_com_proto.c.  AdxCom.v: adx_com.c.
    - NgxBaiduProto.v, NgxBaiduProtoLaws.v, NgxBaiduSpec.v: the request of
      ngx_baidu_proto.c and three messages of the response.
      NgxBaiduResponse.v, NgxBaiduResponseLaws.v, NgxBaiduResponseSpec.v: the
      response, its Ad, and the extension ad_status.  AdxComBaidu.v,
      AdxComBaiduSpec.v: adx_com_adapter.c.  AdxComModule.v:
      adx_com_module.c.
    - AdxComInmobi.v, AdxComInmobiModule.v: adx_com_adapter.c and
      adx_com_module.c of adx_com_inmobi.

    Definitions keep the names of the C functions; loops are separate
    fixpoints named after the function.

    ** How the parts use each other

    Pool blocks, queue nodes, JSON children and cache children are linked by
    the list of AdxList.v; the queue and the log reuse its representation
    predicate [ring].  The cache looks its nodes up through the interface of
    AdxIndex.v, which the red-black trees discharge, and imports JSON
    documents by the definitions of AdxJson.v.  The logger and the Flume
    client share the queue lemmas of AdxQueue.v.  The price decoders share
    the standard Base64 text [enc64], and Autohome's the URL codec of
    AdxString.v; the keyed hash proved equal to RFC 2104 for Zplay is the
    concrete hash of Autohome's examples.

    A request of Baidu's exchange crosses five parts.  The module
    (AdxComModule.v) gets it as a chain of buffers (AdxChain.v) and calls its
    adapter through the class [ComAdapter]; the adapter (AdxComBaidu.v) joins
    the chain, unpacks the message in place (NgxBaiduProto.v), translates it
    to the common protocol (NgxComProto.v), and packs it to a new chain
    (AdxCom.v), which the module forwards.  Messages know of the messages
    inside them only what the class [MessageLaws] promises: their size, their
    bytes, and what they are unpacked to; the environment [NgxEnv] holds the
    addresses, the pool's answers, uninitialised variables, the message that
    strings refer to, and the arrays of returned functions.  The loops over
    fields and packed values need as much fuel as the message has bytes.

    The trees of extensions are those of nginx.  Their clients know of an
    insertion what the class [NgxRbtree] says, that it keeps the order of the
    nodes; [ngx_rbtree_insertion] is the one of nginx, and the code in memory
    computes it (NgxRbtreeHeap.v), with fuel for twice the logarithm of the
    number of nodes.  What depends on the message is in the class [NgxExtensions]: the messages its extensions may
    hold, the registry, and what a [double] is after a [float].  A response
    (NgxBaiduResponse.v) meets the laws of [Message] with its extensions as one
    more field.  InMobi's module uses the definitions of Baidu's with an
    adapter of its own, which reads JSON by the definitions of AdxJson.v and
    AdxJsonDoc.v.

    ** What the theorems show

    - Refinement: lists refine sequences, trees refine finite maps, and so do
      the extensions of a message; nginx's insertion in memory refines that of
      trees by position; responses refine sequences of texts; every sequence
      of calls that respects the contract runs without [UB]; the adapter and
      the module compute the translation [com_of] of a request, from chain to
      chain.
    - Types: numbers unpacked from any bytes, and those they are translated
      to, lie in the ranges of their C types.
    - Invariants: trees stay balanced; the store keeps the invariant of its
      trees; the queues of the logger and of the Flume client neither lose,
      repeat nor reorder messages under any interleaving.
    - Equivalence: [sha1] is FIPS 180's, [hmac_sha1] RFC 2104's, the sort is
      a stable sort, macro replacement is left-to-right replacement.
    - Round trips: URL and Base64 codecs, JSON, configuration files, query
      strings, prices of both exchanges, licence keys, integers and messages
      of protocol buffers with their strings copied or in place, and with
      their extensions where these are single strings or base-128 numbers.
    - Safety and errors: the JSON parser on any text, refused allocations,
      the prices that are accepted and the released signature they are
      compared with, short or long inputs that leave their arrays,
      failing sockets, requests that make the module follow a NULL pointer,
      packed values written past the announced size, strings that refer to
      arrays that are gone, a status that is never stored.
    - Bounds: messages and extensions take the bytes their size function says
      and nothing past a buffer that is too short.
    - Function: what InMobi's adapter prints of any text that is posted.
    - Termination and liveness: importing documents, delivering messages,
      messages whose unpacking never ends.

    Behaviours that the code does not mean are stated as they are, in
    theorems of their own or as further branches of a theorem.

    ** Not modelled

    The clients of Kafka, curl and MySQL only pass calls on.  The C++ servers,
    the PHP and Python extensions, nginx but for its trees (of these deletion,
    the next node and timers are left out too, as nothing modelled calls them)
    and the third-party json.c are outside; adx_uri.c is excluded by its own #if 0.  Of the protocol buffers
    the tables of field descriptors, which nothing reads, and the function that
    nginx calls to register modules are left out.  Extensions that are arrays,
    messages or numbers of fixed width are modelled, measured and packed, but
    no theorem says that they are read back: a number of fixed width is not
    read at all (NgxProtobufSpec.v), and a message has no functions here.
    The directories adx_core, tracker, adx_auto_cost and adx_module hold
    copies or earlier versions of the files modelled from adx_dsp; of these
    only what differs in kind is modelled.  Of modelled files, functions that
    only print, and the readers of CPU and network card identifiers are left
    out, and in the Flume client the wrappers of fcntl and getsockopt. *)

From Stdlib Require Import ZArith Lia.
From stdpp Require Export prelude numbers gmap strings.

Open Scope Z_scope.

(** ** Outcomes of C code

    A C function either returns a value ([Ok]), performs an operation the
    language gives no meaning to ([UB]: dereference of NULL or of memory that
    is not live, access outside an array, misuse of a union), or is cut off
    by the fuel of the model ([NoFuel]).  No theorem of the library accepts
    [NoFuel] as an outcome. *)
Inductive cres (A : Type) : Type :=
| Ok (a : A)
| UB
| NoFuel.
Arguments Ok {A} a.
Arguments UB {A}.
Arguments NoFuel {A}.

#[export] Instance cres_ret : MRet cres := fun A a => Ok a.
#[export] Instance cres_bind : MBind cres := fun A B f m =>
  match m with Ok a => f a | UB => UB | NoFuel => NoFuel end.

Lemma cres_bind_ok {A B} (m : cres A) (f : A -> cres B) b :
  m ≫= f = Ok b -> exists a, m = Ok a /\ f a = Ok b.
Proof. destruct m; simpl; intros H; try discriminate; eauto. Qed.

(** One step of a computation, without unfolding what follows. *)
Lemma ok_bind {A B} (a : A) (f : A -> cres B) : (Ok a ≫= f) = f a.
Proof. done. Qed.

Lemma bind_assoc_c {A B C} (m : cres A) (f : A -> cres B) (g : B -> cres C) :
  (m ≫= (fun a => f a ≫= g)) = (m ≫= f) ≫= g.
Proof. by destruct m. Qed.

Definition of_opt {A} (o : option A) : cres A :=
  match o with Some a => Ok a | None => UB end.

Lemma of_opt_ok {A} (o : option A) a : of_opt o = Ok a <-> o = Some a.
Proof. destruct o; simpl; split; congruence. Qed.

(** A call that reports failure by a negative result, which the caller passes
    on: [None] is the failure. *)
Definition obind {A B} (m : cres (option A)) (f : A -> cres (option B)) : cres (option B) :=
  r ← m; match r with None => mret None | Some a => f a end.

Declare Scope c_scope.
Notation "x ⇐ y ; z" := (obind y (fun x => z))
  (at level 20, y at level 100, z at level 200, only parsing) : c_scope.
#[global] Open Scope c_scope.

(** Symbolic execution: expose the value a bound computation returns. *)
Ltac inv_ok :=
  repeat match goal with
  | H : ?m ≫= _ = Ok _ |- _ =>
      apply cres_bind_ok in H; destruct H as (? & ? & H)
  | H : of_opt _ = Ok _ |- _ => apply of_opt_ok in H
  | H : mret ?a = Ok ?b |- _ => change (Ok a = Ok b) in H
  | H : Ok _ = Ok _ |- _ => injection H as H; try subst
  | H : UB = Ok _ |- _ => discriminate H
  | H : NoFuel = Ok _ |- _ => discriminate H
  end.

(** The same, splitting the tests and the pairs the computation goes through. *)
Ltac inv_all :=
  repeat (inv_ok; simplify_eq/=;
    try match goal with
    | H : (match ?x with pair _ _ => _ end) = Ok _ |- _ => destruct x
    | H : (if decide ?P then _ else _) = Ok _ |- _ => destruct (decide P)
    | H : (if ?b then _ else _) = Ok _ |- _ => destruct b eqn:?
    end).

(** Linear arithmetic with division and remainder by constants. *)
Ltac zdiv := cbn [Z.b2z] in *; Z.to_euclidean_division_equations; lia.

(** ** Lists *)

Lemma filter_none {A} (P : A -> Prop) `{!forall x, Decision (P x)} (l : list A) :
  (forall x, x ∈ l -> ~ P x) -> filter P l = [].
Proof.
  intros Hno. destruct (filter P l) as [|w ws] eqn:E; [done|].
  assert (w ∈ filter P l) as Hw by (rewrite E; apply list_elem_of_here).
  apply list_elem_of_filter in Hw as [? ?]. by exfalso; eapply Hno.
Qed.

Lemma filter_all {A} (P : A -> Prop) `{!forall x, Decision (P x)} (l : list A) :
  (forall x, x ∈ l -> P x) -> filter P l = l.
Proof.
  induction l as [|a l IH]; intros Hall; [done|].
  rewrite filter_cons_True by (apply Hall, list_elem_of_here).
  f_equal. apply IH. intros x Hx. by apply Hall, list_elem_of_further.
Qed.

Lemma insert_replicate_next {A} (d s : A) n tl :
  <[n := d]> (replicate n d ++ s :: tl) = replicate (S n) d ++ tl.
Proof. induction n as [|n IH]; simpl; [done|]. by rewrite IH. Qed.

Lemma concat_replicate_nil {A} n (tl : list (list A)) :
  concat (replicate n [] ++ tl) = concat tl.
Proof. by induction n. Qed.

Lemma insert_middle {A} (l : list A) x y r :
  <[length l := x]> (l ++ y :: r) = l ++ x :: r.
Proof. induction l as [|a l IH]; simpl; [done|]. by rewrite IH. Qed.

Lemma concat_rev_replicate_nil {A} n (tl : list (list A)) :
  concat (rev (replicate n [] ++ tl)) = concat (rev tl).
Proof.
  induction n as [|n IH]; simpl; [done|]. rewrite concat_app. simpl. by rewrite IH, app_nil_r.
Qed.

Lemma concat_rev_perm {A} (l : list (list A)) : concat (rev l) ≡ₚ concat l.
Proof.
  induction l as [|x l IH]; simpl; [done|].
  rewrite concat_app. simpl. rewrite app_nil_r, IH. apply Permutation_app_comm.
Qed.

Lemma concat_replicate_nil' {A} n : concat (replicate n ([] : list A)) = [].
Proof. by induction n. Qed.

Lemma rev_replicate_nil {A} n : concat (rev (replicate n ([] : list A))) = [].
Proof. by rewrite <- (app_nil_r (replicate n [])), concat_rev_replicate_nil. Qed.

(** ** Bytes and C strings

    A byte is a [Z] between 0 and 255; the contents of a C string is the list
    of its bytes before the terminator, none of which is 0. *)
#[global] Abbreviation bytes := (list Z) (only parsing).

Definition B (s : string) : bytes :=
  map (fun a => Z.of_N (Ascii.N_of_ascii a)) (String.list_ascii_of_string s).

Definition is_byte (c : Z) : Prop := 0 <= c < 256.
Definition is_char (c : Z) : Prop := 0 < c < 256.

(** A plain [char] is signed on the platforms the program is built for. *)
Definition schar (c : Z) : Z := if decide (c < 128) then c else c - 256.

(** [strcmp]: the sign of the first difference of the unsigned bytes. *)
Fixpoint strcmp (a b : bytes) : Z :=
  match a, b with
  | [], [] => 0
  | [], _ :: _ => -1
  | _ :: _, [] => 1
  | x :: a, y :: b => if decide (x < y) then -1 else if decide (y < x) then 1 else strcmp a b
  end.

Lemma strcmp_refl a : strcmp a a = 0.
Proof. induction a as [|x a IH]; simpl; [done|]. by rewrite !decide_False by lia. Qed.

Lemma strcmp_eq a b : strcmp a b = 0 <-> a = b.
Proof.
  split; [|intros ->; apply strcmp_refl]. revert b.
  induction a as [|x a IH]; intros [|y b]; simpl; try done.
  repeat case_decide; try done. intros ?. f_equal; [lia|auto].
Qed.

Lemma strcmp_antisym a b : strcmp b a = - strcmp a b.
Proof.
  revert b. induction a as [|x a IH]; intros [|y b]; simpl; try done.
  repeat case_decide; try done; lia.
Qed.

Lemma strcmp_trans a b c : strcmp a b < 0 -> strcmp b c < 0 -> strcmp a c < 0.
Proof.
  revert b c. induction a as [|x a IH]; intros [|y b] [|z c]; simpl; try lia.
  repeat case_decide; try lia. apply IH.
Qed.

(** ** Machine integers *)

Definition u8 (z : Z) : Z := z mod 256.
Definition u32 (z : Z) : Z := z mod 4294967296.
Definition u64 (z : Z) : Z := z mod 18446744073709551616.
Definition i32 (z : Z) : Z := (z + 2147483648) mod 4294967296 - 2147483648.
Definition i64 (z : Z) : Z := (z + 9223372036854775808) mod 18446744073709551616 - 9223372036854775808.

(** The result of a signed [int] operation: no value outside the range. *)
Definition int_ok (z : Z) : cres Z :=
  if decide (-2147483648 <= z <= 2147483647) then Ok z else UB.

(** A value in the range of [int] is its own conversion. *)
Lemma i32_small z : -2147483648 <= z <= 2147483647 -> i32 z = z.
Proof. intros H. unfold i32. rewrite Z.mod_small; lia. Qed.

Lemma int_ok_in z : -2147483648 <= z <= 2147483647 -> int_ok z = Ok z.
Proof. intros H. unfold int_ok. by rewrite decide_True. Qed.

(** ** Arrays of bytes

    An object of the C program of fixed size; an access outside it is [UB]. *)
Definition bget (b : bytes) (i : Z) : cres Z :=
  if decide (0 <= i) then of_opt (b !! Z.to_nat i) else UB.

Definition bset (b : bytes) (i v : Z) : cres bytes :=
  if decide (0 <= i < Z.of_nat (length b)) then Ok (<[Z.to_nat i := v]> b) else UB.

(** [memcpy(&b[i], src, length src)] *)
Definition bwrite (b : bytes) (i : Z) (src : bytes) : cres bytes :=
  if decide (0 <= i /\ i + Z.of_nat (length src) <= Z.of_nat (length b))
  then Ok (take (Z.to_nat i) b ++ src ++ drop (Z.to_nat i + length src) b) else UB.

(** The C string that starts an array: the bytes before the terminator. *)
Fixpoint cstr (b : bytes) : cres bytes :=
  match b with
  | [] => UB
  | c :: b => if decide (c = 0) then Ok [] else s ← cstr b; mret (c :: s)
  end.

(** A string that can be the contents of a C string. *)
Definition no_nul (s : bytes) : Prop := Forall (fun c => c ≠ 0) s.

Lemma cstr_app s rest : no_nul s -> cstr (s ++ 0 :: rest) = Ok s.
Proof.
  induction s as [|c s IH]; intros Hs; simpl; [done|].
  apply Forall_cons in Hs as [Hc Hs]. rewrite decide_False by done. by rewrite IH.
Qed.

Lemma bget_app l x r i : i = Z.of_nat (length l) -> bget (l ++ x :: r) i = Ok x.
Proof.
  intros ->. unfold bget. rewrite decide_True by lia. rewrite Nat2Z.id. by rewrite list_lookup_middle.
Qed.

Lemma bset_app l x r i v : i = Z.of_nat (length l) -> bset (l ++ x :: r) i v = Ok (l ++ v :: r).
Proof.
  intros ->. unfold bset. rewrite length_app. simpl. rewrite decide_True by lia.
  rewrite Nat2Z.id. by rewrite insert_middle.
Qed.

Lemma bwrite_app l m r i src :
  i = Z.of_nat (length l) -> length src = length m -> bwrite (l ++ m ++ r) i src = Ok (l ++ src ++ r).
Proof.
  intros -> Hl. unfold bwrite. rewrite !length_app, decide_True by lia. rewrite Nat2Z.id.
  by rewrite take_app_length, Hl, (app_assoc l m r), <- length_app, drop_app_length.
Qed.

Lemma bwrite_app0 m r src : length src = length m -> bwrite (m ++ r) 0 src = Ok (src ++ r).
Proof. intros Hl. exact (bwrite_app [] m r 0 src eq_refl Hl). Qed.

(** ** The C locale *)

Definition islower (c : Z) : bool := bool_decide (97 <= c <= 122).
Definition isupper (c : Z) : bool := bool_decide (65 <= c <= 90).
Definition isdigit (c : Z) : bool := bool_decide (48 <= c <= 57).
Definition isxdigit (c : Z) : bool :=
  bool_decide (48 <= c <= 57 ∨ 65 <= c <= 70 ∨ 97 <= c <= 102).
Definition isspace (c : Z) : bool := bool_decide (c = 32 ∨ 9 <= c <= 13).
Definition toupper (c : Z) : Z := if islower c then c - 32 else c.
Definition tolower (c : Z) : Z := if isupper c then c + 32 else c.

(** [strncmp(a, b, n) == 0] and [strncasecmp(a, b, n) == 0]. *)
Fixpoint strncmp_eq (f : Z -> Z) (a b : bytes) (n : nat) {struct n} : bool :=
  match n with
  | O => true
  | S n =>
      match a, b with
      | [], [] => true
      | x :: a, y :: b => bool_decide (f x = f y) && strncmp_eq f a b n
      | _, _ => false
      end
  end.

(** [strtol] in base 10 as [atoi] uses it: white space, a sign, digits. *)
Fixpoint skip_spaces (s : bytes) : bytes :=
  match s with c :: s' => if isspace c then skip_spaces s' else s | [] => [] end.
Fixpoint digits_value (acc : Z) (s : bytes) : Z :=
  match s with
  | c :: s => if isdigit c then digits_value (acc * 10 + (c - 48)) s else acc
  | [] => acc
  end.
Definition strtol (s : bytes) : Z :=
  match skip_spaces s with
  | c :: s' => if decide (c = 45) then - digits_value 0 s'
               else if decide (c = 43) then digits_value 0 s' else digits_value 0 (c :: s')
  | [] => 0
  end.
(** The conversion of [strtol]'s [long] (saturating) to [int]. *)
Definition atoi (s : bytes) : Z :=
  i32 (Z.max (-9223372036854775808) (Z.min 9223372036854775807 (strtol s))).

(** ** Bit fields as arithmetic *)

Lemma lor_shiftl x y k : 0 <= k -> 0 <= y < 2 ^ k -> Z.lor (Z.shiftl x k) y = x * 2 ^ k + y.
Proof.
  intros Hk Hy. rewrite <- (Z.shiftl_mul_pow2 x k) by done.
  assert (Z.land (Z.shiftl x k) y = 0) as Hl.
  { apply Z.bits_inj'. intros n Hn. rewrite Z.land_spec, Z.bits_0, Z.shiftl_spec by done.
    destruct (decide (n < k)); [by rewrite Z.testbit_neg_r by lia|].
    replace (Z.testbit y n) with false; [by rewrite andb_false_r|].
    symmetry. destruct (decide (y = 0)) as [->|]; [apply Z.bits_0|].
    apply Z.bits_above_log2; [lia|]. apply Z.log2_lt_pow2; [lia|].
    eapply Z.lt_le_trans; [apply Hy|]. apply Z.pow_le_mono_r; lia. }
  rewrite <- Z.lxor_lor by done. by rewrite Z.add_nocarry_lxor.
Qed.

Lemma land_mask x k : 0 <= k -> Z.land x (Z.ones k) = x mod 2 ^ k.
Proof. apply Z.land_ones. Qed.

Lemma land_255 x : Z.land x 255 = x mod 256.
Proof. apply (Z.land_ones x 8). lia. Qed.
Lemma land_63 x : Z.land x 63 = x mod 64.
Proof. apply (Z.land_ones x 6). lia. Qed.
Lemma land_15 x : Z.land x 15 = x mod 16.
Proof. apply (Z.land_ones x 4). lia. Qed.

(** ** Decimal text *)

(** The digits of [n], for [n] below [10 ^ fuel], before [acc]. *)
Fixpoint digits (fuel : nat) (n : Z) (acc : bytes) : bytes :=
  match fuel with
  | O => acc
  | S fuel => if decide (n < 10) then (48 + n) :: acc
              else digits fuel (n / 10) ((48 + n mod 10) :: acc)
  end.

(** [%d], for values of at most 64 bits. *)
Definition dec (z : Z) : bytes := if decide (z < 0) then 45 :: digits 20 (- z) [] else digits 20 z [].

(** [%0wd] *)
Definition dec0 (w : nat) (z : Z) : bytes :=
  if decide (z < 0) then 45 :: replicate (w - 1 - length (digits 20 (- z) [])) 48 ++ digits 20 (- z) []
  else replicate (w - length (digits 20 z [])) 48 ++ digits 20 z [].

Lemma digits_value_app acc s c rest :
  Forall (fun d => isdigit d = true) s -> isdigit c = false ->
  digits_value acc (s ++ c :: rest) = digits_value acc s.
Proof.
  revert acc. induction s as [|d s IH]; intros acc Hs Hc; simpl; [by rewrite Hc|].
  apply Forall_cons in Hs as [Hd Hs]. rewrite Hd. by apply IH.
Qed.

Lemma digits_spec fuel n acc :
  0 <= n < 10 ^ Z.of_nat fuel -> Forall (fun d => isdigit d = true) acc ->
  exists k, Forall (fun d => isdigit d = true) (digits fuel n acc) /\
    (length (digits fuel n acc) = k + length acc)%nat /\ 0 <= n < 10 ^ Z.of_nat k /\
    (forall a, digits_value a (digits fuel n acc) = digits_value (a * 10 ^ Z.of_nat k + n) acc).
Proof.
  revert n acc. induction fuel as [|fuel IH]; intros n acc Hn Hacc; simpl.
  { exists 0%nat. simpl in *. split_and!; try done; try lia. intros a. f_equal. lia. }
  case_decide as Hlt.
  - exists 1%nat. assert (isdigit (48 + n) = true) as Hd by (apply bool_decide_eq_true; lia).
    split_and!; [by constructor|done|lia|lia|]. intros a. simpl. rewrite Hd. f_equal. lia.
  - assert (isdigit (48 + n mod 10) = true) as Hd.
    { apply bool_decide_eq_true. pose proof (Z.mod_pos_bound n 10). lia. }
    rewrite Nat2Z.inj_succ, Z.pow_succ_r in Hn by lia.
    destruct (IH (n / 10) ((48 + n mod 10) :: acc)) as (k & H1 & H2 & H3 & H4); [|by constructor|].
    { split; [apply Z.div_pos; lia|apply Z.div_lt_upper_bound; lia]. }
    exists (S k). split_and!; [done|simpl in *; lia|lia| |].
    + rewrite Nat2Z.inj_succ, Z.pow_succ_r by lia. pose proof (Z.div_mod n 10). pose proof (Z.mod_pos_bound n 10). lia.
    + intros a. rewrite H4. simpl. rewrite Hd. f_equal. rewrite Nat2Z.inj_succ, Z.pow_succ_r by lia.
      pose proof (Z.div_mod n 10). lia.
Qed.

Lemma digits_nonempty fuel n acc : digits (S fuel) n acc ≠ [].
Proof.
  revert n acc. induction fuel as [|fuel IH]; intros n acc; cbn [digits]; case_decide; try done.
  apply IH.
Qed.

Lemma digits_length fuel n acc k :
  0 <= n < 10 ^ Z.of_nat k -> (0 < k)%nat -> (length (digits fuel n acc) <= k + length acc)%nat.
Proof.
  revert n acc k. induction fuel as [|fuel IH]; intros n acc k Hn Hk; cbn [digits]; [lia|].
  case_decide; [simpl; lia|]. destruct k as [|[|k]]; [lia|simpl in Hn; lia|].
  rewrite Nat2Z.inj_succ, Z.pow_succ_r in Hn by lia.
  etransitivity; [apply (IH _ _ (S k)); [|lia]|simpl; lia].
  split; [apply Z.div_pos; lia|apply Z.div_lt_upper_bound; lia].
Qed.

Lemma digits_le fuel : forall n acc, (length (digits fuel n acc) <= fuel + length acc)%nat.
Proof.
  induction fuel as [|fuel IH]; intros n acc; cbn [digits]; [lia|]. case_decide; [cbn [length]; lia|].
  specialize (IH (n / 10) ((48 + n mod 10) :: acc)). cbn [length] in IH. lia.
Qed.
Lemma dec_le z : (length (dec z) <= 21)%nat.
Proof.
  unfold dec. pose proof (digits_le 20 z []). pose proof (digits_le 20 (- z) []). cbn [length] in *.
  case_decide; cbn [length]; lia.
Qed.

(** [%0wd] of a value of at most [w] digits is [w] characters long. *)
Lemma dec0_length w v : 0 <= v < 10 ^ Z.of_nat w -> (0 < w)%nat -> length (dec0 w v) = w.
Proof.
  intros Hv Hw. unfold dec0. rewrite decide_False by lia. rewrite length_app, length_replicate.
  pose proof (digits_length 20 v [] w Hv Hw). cbn [length] in H. lia.
Qed.

Lemma digits_no_nul fuel n : 0 <= n < 10 ^ Z.of_nat fuel -> Forall (fun c => c ≠ 0) (digits fuel n []).
Proof.
  intros Hn. destruct (digits_spec fuel n [] Hn (Forall_nil_2 _)) as (k & H & _).
  eapply Forall_impl; [exact H|]. simpl. intros c Hc%bool_decide_eq_true. lia.
Qed.

Lemma dec0_no_nul w v : 0 <= v < 10 ^ 20 -> Forall (fun c => c ≠ 0) (dec0 w v).
Proof.
  intros Hv. unfold dec0. rewrite decide_False by lia. apply Forall_app. split.
  - apply Forall_replicate. discriminate.
  - by apply digits_no_nul.
Qed.

Lemma isdigit_space d : isdigit d = true -> isspace d = false /\ d ≠ 45 /\ d ≠ 43.
Proof. intros H%bool_decide_eq_true. split; [apply bool_decide_eq_false|]; lia. Qed.

(** [atoi] reads back what [%d] printed, whatever follows the digits. *)
Lemma strtol_digits n rest :
  0 <= n < 10 ^ 20 -> (forall c r, rest = c :: r -> isdigit c = false) ->
  strtol (digits 20 n [] ++ rest) = n.
Proof.
  intros Hn Hrest. destruct (digits_spec 20 n []) as (k & Hd & _ & _ & Hv); [done|constructor|].
  destruct (digits 20 n []) as [|d ds] eqn:E; [by destruct (digits_nonempty 19 n [])|].
  apply Forall_cons in Hd as Hd'. destruct Hd' as [Hd0 Hds]. destruct (isdigit_space d Hd0) as (Hsp & H1 & H2).
  unfold strtol. cbn [app skip_spaces]. rewrite Hsp, !decide_False by done.
  change (d :: ds ++ rest) with ((d :: ds) ++ rest).
  destruct rest as [|c rest].
  - rewrite app_nil_r, Hv. simpl. lia.
  - rewrite digits_value_app by (done || by eapply Hrest). rewrite Hv. simpl. lia.
Qed.

Lemma strtol_dec z rest :
  -10 ^ 20 < z < 10 ^ 20 -> (forall c r, rest = c :: r -> isdigit c = false) -> strtol (dec z ++ rest) = z.
Proof.
  intros Hz Hrest. unfold dec. case_decide.
  - unfold strtol. cbn [app skip_spaces]. replace (isspace 45) with false by done.
    rewrite decide_True by done. destruct (digits_spec 20 (- z) []) as (k & Hd & _ & _ & Hv); [lia|constructor|].
    destruct rest as [|c rest].
    + rewrite app_nil_r, Hv. simpl. lia.
    + rewrite digits_value_app by (done || by eapply Hrest). rewrite Hv. simpl. lia.
  - apply strtol_digits; [lia|done].
Qed.

Lemma atoi_dec z rest :
  -2147483648 <= z <= 2147483647 -> (forall c r, rest = c :: r -> isdigit c = false) ->
  atoi (dec z ++ rest) = z.
Proof.
  intros Hz Hrest. unfold atoi. rewrite strtol_dec by (done || lia).
  unfold i32. rewrite Z.min_r, Z.max_r by lia. rewrite Z.mod_small by lia. lia.
Qed.

(** ** [strtok_r]

    On the text still to be scanned: the next token and the text after it. *)
Fixpoint strtok_skip (delim : Z -> bool) (s : bytes) : bytes :=
  match s with c :: s' => if delim c then strtok_skip delim s' else s | [] => [] end.
Fixpoint strtok_span (delim : Z -> bool) (s : bytes) : bytes * bytes :=
  match s with
  | [] => ([], [])
  | c :: s => if delim c then ([], s) else let '(t, r) := strtok_span delim s in (c :: t, r)
  end.
Definition strtok (delim : Z -> bool) (s : bytes) : option (bytes * bytes) :=
  match strtok_skip delim s with [] => None | s => Some (strtok_span delim s) end.

Definition is_in (cs : bytes) (c : Z) : bool := bool_decide (c ∈ cs).

Lemma strtok_span_app delim t c rest :
  Forall (fun x => delim x = false) t -> delim c = true ->
  strtok_span delim (t ++ c :: rest) = (t, rest) /\ strtok_span delim t = (t, []).
Proof.
  intros Ht Hc. induction Ht as [|x t Hx Ht [IH1 IH2]]; simpl; [by rewrite Hc|].
  by rewrite Hx, IH1, IH2.
Qed.

Lemma strtok_app delim t c rest :
  t ≠ [] -> Forall (fun x => delim x = false) t -> delim c = true ->
  strtok delim (t ++ c :: rest) = Some (t, rest) /\ strtok delim t = Some (t, []).
Proof.
  intros Hne Ht Hc. destruct (strtok_span_app delim t c rest Ht Hc) as [H1 H2].
  destruct t as [|x t]; [done|]. apply Forall_cons in Ht as [Hx Ht].
  unfold strtok. simpl in *. by rewrite Hx, H1, H2.
Qed.

(** ** Reading text

[fgets(buf, size, fp)]: at most [size - 1] bytes, up to a newline. *)
Fixpoint fgets (size : nat) (s : bytes) : bytes * bytes :=
  match size, s with
  | S (S _ as n), c :: s => if decide (c = 10) then ([c], s)
                            else let '(l, r) := fgets n s in (c :: l, r)
  | _, _ => ([], s)
  end.

Lemma fgets_line n l rest :
  Forall (fun c => c ≠ 10) l -> (length l + 2 <= n)%nat -> fgets n (l ++ 10 :: rest) = (l ++ [10], rest).
Proof.
  intros Hl. revert n. induction Hl as [|c l Hc Hl IH]; intros [|[|n]] Hn; simpl in Hn; try lia.
  - done.
  - change (fgets (S (S n)) ((c :: l) ++ 10 :: rest)) with
      (if decide (c = 10) then ([c], l ++ 10 :: rest) else
       let '(a, r) := fgets (S n) (l ++ 10 :: rest) in (c :: a, r)).
    rewrite decide_False by done. by rewrite (IH (S n)) by lia.
Qed.

(** The conversions of [sscanf]: a non-empty run of characters of a set,
    white space in the format, a literal character. *)
Fixpoint span (p : Z -> bool) (s : bytes) : bytes * bytes :=
  match s with
  | c :: s' => if p c then let '(a, b) := span p s' in (c :: a, b) else ([], s)
  | [] => ([], [])
  end.
Definition scan_set (p : Z -> bool) (s : bytes) : option (bytes * bytes) :=
  match span p s with ([], _) => None | (a, b) => Some (a, b) end.
Definition scan_lit (c : Z) (s : bytes) : option bytes :=
  match s with x :: s => if decide (x = c) then Some s else None | [] => None end.

Lemma span_app p a rest :
  Forall (fun c => p c = true) a -> (forall c r, rest = c :: r -> p c = false) -> span p (a ++ rest) = (a, rest).
Proof.
  intros Ha Hr. induction Ha as [|c a Hc Ha IH]; simpl.
  - destruct rest as [|c r]; [done|]. simpl. by rewrite (Hr c r).
  - by rewrite Hc, IH.
Qed.

Lemma scan_set_app p a rest :
  a ≠ [] -> Forall (fun c => p c = true) a -> (forall c r, rest = c :: r -> p c = false) ->
  scan_set p (a ++ rest) = Some (a, rest).
Proof. intros Hne Ha Hr. unfold scan_set. rewrite span_app by done. by destruct a. Qed.

(** ** Separated text *)

Fixpoint join (sep : bytes) (l : list bytes) : bytes :=
  match l with
  | [] => []
  | [x] => x
  | x :: l => x ++ sep ++ join sep l
  end.

Lemma join_snoc sep l x : join sep (l ++ [x]) = match l with [] => x | _ => join sep l ++ sep ++ x end.
Proof.
  induction l as [|y l IH]; [done|]. destruct l as [|z l]; [done|].
  change (join sep ((y :: z :: l) ++ [x])) with (y ++ sep ++ join sep ((z :: l) ++ [x])). rewrite IH.
  change (join sep (y :: z :: l)) with (y ++ sep ++ join sep (z :: l)). by rewrite <- !app_assoc.
Qed.

Lemma join_no_nul sep l : no_nul sep -> Forall no_nul l -> no_nul (join sep l).
Proof.
  intros Hs. induction 1 as [|x l Hx Hl IH]; [constructor|]. destruct l as [|y l]; [done|].
  change (no_nul (x ++ sep ++ join sep (y :: l))). apply Forall_app. split; [done|]. by apply Forall_app.
Qed.
