(* ===== verification/AdxList.v ===== *)
(** Intrusive circular doubly linked lists: adx_dsp/src/adx_list.h and
    adx_list.c.

    The memory of the list nodes is modelled field by field: [nx] maps the
    address of a node to its [next] pointer and [pv] to its [prev] pointer.
    A list head is itself a node.  [ring m head xs] says that the memory [m]
    holds at [head] the circular list whose elements are, in order, [xs].
    The operations are the pointer assignments of the source; the theorems
    relate them to operations on [xs] and to a stable merge sort. *)

From Stdlib Require Import ZArith Lia Sorted Permutation.
From S2P Require Import Prelude.

Open Scope Z_scope.

(** ** Memory *)

Definition NULL : Z := 0.

Record lmem := LMem { nx : gmap Z Z; pv : gmap Z Z }.

Definition get_next (m : lmem) (p : Z) : cres Z := of_opt (nx m !! p).
Definition get_prev (m : lmem) (p : Z) : cres Z := of_opt (pv m !! p).

Definition set_next (m : lmem) (p v : Z) : cres lmem :=
  _ ← get_next m p; mret (LMem (<[p := v]> (nx m)) (pv m)).
Definition set_prev (m : lmem) (p v : Z) : cres lmem :=
  _ ← get_prev m p; mret (LMem (nx m) (<[p := v]> (pv m))).

(** ** adx_list.h *)

Definition adx_list_init (m : lmem) (head : Z) : cres lmem :=
  m ← set_next m head head;
  set_prev m head head.

Definition _adx_list_add (m : lmem) (node prev next : Z) : cres lmem :=
  m ← set_prev m next node;
  m ← set_next m node next;
  m ← set_prev m node prev;
  set_next m prev node.

Definition adx_list_add (m : lmem) (head node : Z) : cres lmem :=
  prev ← get_prev m head;
  _adx_list_add m node prev head.

Definition adx_list_add_tail (m : lmem) (head node : Z) : cres lmem :=
  next ← get_next m head;
  _adx_list_add m node head next.

Definition _adx_list_del (m : lmem) (prev next : Z) : cres lmem :=
  m ← set_prev m next prev;
  set_next m prev next.

Definition adx_list_del (m : lmem) (node : Z) : cres lmem :=
  prev ← get_prev m node;
  next ← get_next m node;
  _adx_list_del m prev next.

Definition adx_list_empty (m : lmem) (head : Z) : cres bool :=
  next ← get_next m head;
  if decide (next = head)
  then (prev ← get_prev m head; mret (bool_decide (next = prev)))
  else mret false.

(** [adx_list_for_each(pos, head)]: the nodes the loop visits, in order. *)
Fixpoint for_each_from (fuel : nat) (m : lmem) (pos head : Z) : cres (list Z) :=
  match fuel with
  | O => NoFuel
  | S fuel =>
      if decide (pos = head) then mret []
      else next ← get_next m pos;
           rest ← for_each_from fuel m next head;
           mret (pos :: rest)
  end.

Definition adx_list_for_each (fuel : nat) (m : lmem) (head : Z) : cres (list Z) :=
  pos ← get_next m head; for_each_from fuel m pos head.

(** [adx_queue]: unlink and return the first node, NULL when empty. *)
Definition adx_queue (m : lmem) (head : Z) : cres (Z * lmem) :=
  p ← get_next m head;
  if decide (p = head) then mret (NULL, m)
  else m ← adx_list_del m p; mret (p, m).

(** ** adx_list_sort

    [cmp] is the caller's comparison on nodes; [stack_head] is the address
    of the local variable [head] of [adx_list_merge]. *)
Section Sort.
Context (cmp : Z -> Z -> Z) (stack_head : Z).

Fixpoint adx_list_merge_loop (fuel : nat) (m : lmem) (tail a b : Z) : cres lmem :=
  match fuel with
  | O => NoFuel
  | S fuel =>
      if decide (a ≠ NULL ∧ b ≠ NULL) then
        if decide (cmp a b <= 0) then
          m ← set_next m tail a;
          a' ← get_next m a;
          tail ← get_next m tail;
          adx_list_merge_loop fuel m tail a' b
        else
          m ← set_next m tail b;
          b' ← get_next m b;
          tail ← get_next m tail;
          adx_list_merge_loop fuel m tail a b'
      else set_next m tail (if decide (a ≠ NULL) then a else b)
  end.

Definition adx_list_merge (fuel : nat) (m : lmem) (a b : Z) : cres (Z * lmem) :=
  m ← adx_list_merge_loop fuel m stack_head a b;
  r ← get_next m stack_head;
  mret (r, m).

(** The loop of [adx_list_merge_and_restore_back_links]; it returns the
    tail it reached. *)
Fixpoint merge_restore_loop (fuel : nat) (m : lmem) (tail a b : Z) : cres (Z * lmem) :=
  match fuel with
  | O => NoFuel
  | S fuel =>
      if decide (a ≠ NULL ∧ b ≠ NULL) then
        if decide (cmp a b <= 0) then
          m ← set_next m tail a;
          m ← set_prev m a tail;
          a' ← get_next m a;
          tail ← get_next m tail;
          merge_restore_loop fuel m tail a' b
        else
          m ← set_next m tail b;
          m ← set_prev m b tail;
          b' ← get_next m b;
          tail ← get_next m tail;
          merge_restore_loop fuel m tail a b'
      else
        m ← set_next m tail (if decide (a ≠ NULL) then a else b);
        mret (tail, m)
  end.

(** The do-while loop: restore [prev] along the rest of the chain.  The
    value of the extra call of [cmp] is not used by the source. *)
Fixpoint restore_prev_loop (fuel : nat) (m : lmem) (tail : Z) : cres (Z * lmem) :=
  match fuel with
  | O => NoFuel
  | S fuel =>
      next ← get_next m tail;
      m ← set_prev m next tail;
      tail ← get_next m tail;
      next ← get_next m tail;
      if decide (next = NULL) then mret (tail, m)
      else restore_prev_loop fuel m tail
  end.

Definition adx_list_merge_and_restore_back_links (fuel : nat) (m : lmem)
    (head a b : Z) : cres lmem :=
  '(tail, m) ← merge_restore_loop fuel m head a b;
  '(tail, m) ← restore_prev_loop fuel m tail;
  m ← set_next m tail head;
  set_prev m head tail.

(** [for (lev = 0; part[lev]; lev++) cur = merge(part[lev], cur), part[lev] = NULL] *)
Fixpoint sort_carry (fuel : nat) (m : lmem) (part : list Z) (lev : nat) (cur : Z)
    : cres (nat * Z * list Z * lmem) :=
  match fuel with
  | O => NoFuel
  | S fuel' =>
      p ← of_opt (part !! lev);
      if decide (p = NULL) then mret (lev, cur, part, m)
      else '(cur, m) ← adx_list_merge fuel m p cur;
           sort_carry fuel' m (<[lev := NULL]> part) (S lev) cur
  end.

(** The body of [while (list)], one node at a time. *)
Fixpoint sort_distribute (fuel : nat) (m : lmem) (part : list Z) (max_lev : nat)
    (l : Z) : cres (nat * list Z * lmem) :=
  match fuel with
  | O => NoFuel
  | S fuel' =>
      if decide (l = NULL) then mret (max_lev, part, m)
      else
        let cur := l in
        next ← get_next m l;
        m ← set_next m cur NULL;
        '(lev, cur, part, m) ← sort_carry fuel m part 0 cur;
        let '(lev, max_lev) :=
          if decide (max_lev < lev)%nat then
            let lev := if decide (length part - 1 <= lev)%nat then pred lev else lev in
            (lev, lev)
          else (lev, max_lev) in
        if decide (lev < length part)%nat then
          sort_distribute fuel' m (<[lev := cur]> part) max_lev next
        else UB
  end.

(** [for (lev = 0; lev < max_lev; lev++) if (part[lev]) list = merge(part[lev], list)] *)
Fixpoint sort_collect (fuel : nat) (m : lmem) (part : list Z) (n lev : nat) (l : Z)
    : cres (Z * lmem) :=
  match n with
  | O => mret (l, m)
  | S n =>
      p ← of_opt (part !! lev);
      if decide (p = NULL) then sort_collect fuel m part n (S lev) l
      else '(l, m) ← adx_list_merge fuel m p l;
           sort_collect fuel m part n (S lev) l
  end.

Definition adx_list_sort (fuel : nat) (m : lmem) (head : Z) (size : nat) : cres lmem :=
  e ← adx_list_empty m head;
  if (e : bool) then mret m
  else
    last ← get_prev m head;
    m ← set_next m last NULL;
    l ← get_next m head;
    '(max_lev, part, m) ← sort_distribute fuel m (replicate size NULL) 0 l;
    '(l, m) ← sort_collect fuel m part max_lev 0 NULL;
    p ← of_opt (part !! max_lev);
    adx_list_merge_and_restore_back_links fuel m head p l.

End Sort.

(** ** Linked segments and rings *)

Definition link (m : lmem) (a b : Z) : Prop :=
  nx m !! a = Some b /\ pv m !! b = Some a.

Fixpoint lseg (m : lmem) (a : Z) (xs : list Z) (b : Z) : Prop :=
  match xs with
  | [] => link m a b
  | x :: xs => link m a x /\ lseg m x xs b
  end.

Definition ring (m : lmem) (head : Z) (xs : list Z) : Prop :=
  lseg m head xs head /\ NoDup (head :: xs) /\ NULL ∉ head :: xs.

(** A node that is live memory but in no list of interest. *)
Definition live (m : lmem) (p : Z) : Prop :=
  is_Some (nx m !! p) /\ is_Some (pv m !! p).

Lemma set_next_ok m p v :
  is_Some (nx m !! p) -> set_next m p v = Ok (LMem (<[p := v]> (nx m)) (pv m)).
Proof. intros [q Hq]. unfold set_next, get_next. by rewrite Hq. Qed.

Lemma set_prev_ok m p v :
  is_Some (pv m !! p) -> set_prev m p v = Ok (LMem (nx m) (<[p := v]> (pv m))).
Proof. intros [q Hq]. unfold set_prev, get_prev. by rewrite Hq. Qed.

Lemma lseg_app m xs ys a y b :
  lseg m a (xs ++ y :: ys) b <-> lseg m a xs y /\ lseg m y ys b.
Proof. revert a. induction xs as [|x xs IH]; intros a; simpl; [tauto|]. rewrite IH. tauto. Qed.

Lemma lseg_frame m m' xs a b :
  (forall p, p ∈ a :: xs -> nx m' !! p = nx m !! p) ->
  (forall p, p ∈ xs ++ [b] -> pv m' !! p = pv m !! p) ->
  lseg m a xs b -> lseg m' a xs b.
Proof.
  revert a. induction xs as [|x xs IH]; intros a Hn Hp; simpl.
  - unfold link. rewrite Hn, Hp by (clear; set_solver). done.
  - intros [[H1 H2] H3]. split.
    + split; [rewrite Hn by (clear; set_solver)|rewrite Hp by (clear; set_solver)]; done.
    + apply IH; [| |done]; intros p ?; [apply Hn|apply Hp]; set_solver.
Qed.

Lemma lseg_live m xs a b :
  lseg m a xs b ->
  (forall p, p ∈ a :: xs -> is_Some (nx m !! p)) /\
  (forall p, p ∈ xs ++ [b] -> is_Some (pv m !! p)).
Proof.
  revert a. induction xs as [|x xs IH]; intros a; simpl.
  - intros [H1 H2]. split; intros p ->%list_elem_of_singleton; eauto.
  - intros [[H1 H2] H3]. destruct (IH _ H3) as [IH1 IH2]. split; intros p Hp.
    + apply elem_of_cons in Hp as [->|Hp]; eauto.
    + apply elem_of_cons in Hp as [->|Hp]; eauto.
Qed.

Lemma _adx_list_add_spec m node prev next :
  link m prev next -> live m node ->
  exists m', _adx_list_add m node prev next = Ok m' /\
    nx m' = <[prev := node]> (<[node := next]> (nx m)) /\
    pv m' = <[node := prev]> (<[next := node]> (pv m)).
Proof.
  intros [H1 H2] [[a Ha] [b Hb]]. unfold _adx_list_add.
  rewrite set_prev_ok by eauto. cbn [mbind cres_bind nx pv].
  rewrite set_next_ok by (simpl; eauto). cbn [mbind cres_bind nx pv].
  rewrite set_prev_ok by (simpl; rewrite lookup_insert; case_decide; eauto).
  cbn [mbind cres_bind nx pv].
  rewrite set_next_ok by (simpl; rewrite lookup_insert; case_decide; eauto).
  eexists; split; [done|]. done.
Qed.

Lemma adx_list_init_ring m head :
  live m head -> head ≠ NULL ->
  exists m', adx_list_init m head = Ok m' /\ ring m' head [].
Proof.
  intros [? ?] ?. unfold adx_list_init.
  rewrite set_next_ok by done. cbn [mbind cres_bind nx pv].
  rewrite set_prev_ok by done. eexists; split; [done|].
  split; [split; by simplify_map_eq|]. split; [|clear -H1; set_solver].
  apply NoDup_cons; split; [set_solver|constructor].
Qed.


(** *** Cycles

    [ring m head xs] is the cycle through [head :: xs]; a cycle may be read
    from any of its nodes, so insertion and deletion need only be proved at
    its first link. *)
Definition cyc (m : lmem) (a : Z) (l : list Z) : Prop :=
  lseg m a l a /\ NoDup (a :: l) /\ NULL ∉ a :: l.

Lemma cyc_rotate m a l1 b l2 :
  cyc m a (l1 ++ b :: l2) <-> cyc m b (l2 ++ a :: l1).
Proof.
  unfold cyc. rewrite !lseg_app, !app_comm_cons.
  rewrite (Permutation_app_comm (a :: l1) (b :: l2)). tauto.
Qed.

Lemma cyc_first m a l :
  cyc m a l -> exists y, link m a y /\ y = default a (head l).
Proof. intros (Hs & _). destruct l as [|x l]; simpl in *; [eauto|]. destruct Hs; eauto. Qed.

Lemma cyc_insert m a l node :
  cyc m a l -> live m node -> node ∉ a :: l -> node ≠ NULL ->
  exists m', _adx_list_add m node a (default a (head l)) = Ok m' /\ cyc m' a (node :: l).
Proof.
  intros Hc Hl Hn Hnn. destruct (cyc_first _ _ _ Hc) as (y & Hlk & <-).
  destruct Hc as (Hs & Hnd & Hnull).
  destruct (_adx_list_add_spec m node a y Hlk Hl) as (m' & Hm & Hnx & Hpv).
  exists m'; split; [done|].
  assert (node ≠ a) as Hna by (clear -Hn; set_solver).
  assert (NoDup (a :: node :: l)) as Hnd'.
  { apply NoDup_cons in Hnd as [H1 H2]. rewrite !NoDup_cons. clear -Hn H1 H2. set_solver. }
  split; [|split; [done|clear -Hnull Hnn; set_solver]].
  assert (link m' a node) as Hl1. { unfold link. rewrite Hnx, Hpv. split; by simplify_map_eq. }
  destruct l as [|x l]; simpl in Hs.
  - assert (y = a) as -> by (destruct Hs, Hlk; congruence). simpl. split; [done|].
    unfold link. rewrite Hnx, Hpv. split; by simplify_map_eq.
  - destruct Hs as [Hax Hseg]. assert (y = x) as -> by (destruct Hax, Hlk; congruence).
    rewrite !NoDup_cons in Hnd'. destruct Hnd' as (Ha & Hn' & Hx & _).
    assert (node ≠ x) by (clear -Hn; set_solver).
    simpl. split; [done|]. split.
    { unfold link. rewrite Hnx, Hpv. split; by simplify_map_eq. }
    eapply lseg_frame; [| |exact Hseg]; intros p Hp.
    + rewrite Hnx. assert (p ≠ node /\ p ≠ a) as [? ?] by (clear -Hn' Ha Hp; set_solver).
      by simplify_map_eq.
    + rewrite Hpv. assert (p ≠ node /\ p ≠ x) as [? ?] by (clear -Hn Hp Ha Hx; set_solver).
      by simplify_map_eq.
Qed.

Lemma cyc_delete m a node l :
  cyc m a (node :: l) ->
  exists m', adx_list_del m node = Ok m' /\ cyc m' a l /\ live m' node.
Proof.
  intros (Hs & Hnd & Hnull). simpl in Hs. destruct Hs as [Han Hs].
  unfold adx_list_del, get_prev, get_next. rewrite (proj2 Han). cbn [of_opt mbind cres_bind].
  rewrite !NoDup_cons in Hnd. destruct Hnd as (Ha & Hn & Hnd).
  assert (exists y, link m node y /\ y = default a (head l)) as (y & Hlk & ->).
  { destruct l; simpl in *; [eauto|]. destruct Hs; eauto. }
  rewrite (proj1 Hlk). cbn [of_opt mbind cres_bind]. unfold _adx_list_del.
  rewrite set_prev_ok by (destruct Hlk; eauto). cbn [mbind cres_bind nx pv].
  rewrite set_next_ok by (destruct Han; simpl; eauto).
  eexists; split; [done|]. assert (a ≠ node) by (clear -Ha; set_solver).
  split; [split; [|split]|split; simpl; apply lookup_insert_is_Some'; right; destruct Han, Hlk; eauto].
  - destruct l as [|x l]; simpl in *; [split; simpl; by simplify_map_eq|].
    destruct Hs as [Hx Hs]. split; [split; simpl; by simplify_map_eq|].
    rewrite NoDup_cons in Hnd. destruct Hnd as [Hxl _].
    eapply lseg_frame; [| |exact Hs]; intros p Hp; simpl.
    + assert (p ≠ a) by (clear -Ha Hp; set_solver). by simplify_map_eq.
    + assert (p ≠ x) by (clear -Ha Hxl Hp; set_solver). by simplify_map_eq.
  - rewrite NoDup_cons. clear -Ha Hnd. set_solver.
  - clear -Hnull. set_solver.
Qed.

(** *** The operations on rings *)

Lemma adx_list_add_ring m head xs node :
  ring m head xs -> live m node -> node ∉ head :: xs -> node ≠ NULL ->
  exists m', adx_list_add m head node = Ok m' /\ ring m' head (xs ++ [node]).
Proof.
  intros Hr Hl Hn Hnn. unfold adx_list_add, get_prev.
  destruct xs as [|z zs _] using rev_ind.
  - destruct (cyc_first m head [] Hr) as (y & [_ Hp] & ->). simpl in Hp. rewrite Hp.
    exact (cyc_insert m head [] node Hr Hl Hn Hnn).
  - apply (cyc_rotate m head zs z []) in Hr. simpl in Hr.
    destruct (cyc_first _ _ _ Hr) as (y & [_ Hp] & ->). simpl in Hp. rewrite Hp.
    destruct (cyc_insert m z (head :: zs) node Hr Hl) as (m' & Hm & Hc);
      [clear -Hn; set_solver|done|].
    exists m'; split; [exact Hm|]. rewrite <- app_assoc.
    apply (cyc_rotate m' head zs z [node]). exact Hc.
Qed.

Lemma adx_list_add_tail_ring m head xs node :
  ring m head xs -> live m node -> node ∉ head :: xs -> node ≠ NULL ->
  exists m', adx_list_add_tail m head node = Ok m' /\ ring m' head (node :: xs).
Proof.
  intros Hr Hl Hn Hnn. unfold adx_list_add_tail, get_next.
  destruct (cyc_first _ _ _ Hr) as (y & [Hp _] & ->). rewrite Hp.
  exact (cyc_insert m head xs node Hr Hl Hn Hnn).
Qed.

Lemma adx_list_del_ring m head xs node ys :
  ring m head (xs ++ node :: ys) ->
  exists m', adx_list_del m node = Ok m' /\ ring m' head (xs ++ ys) /\ live m' node.
Proof.
  intros Hr. destruct xs as [|z zs _] using rev_ind; [exact (cyc_delete _ _ _ _ Hr)|].
  rewrite <- app_assoc in Hr. apply (cyc_rotate m head zs z (node :: ys)) in Hr.
  destruct (cyc_delete _ _ _ _ Hr) as (m' & Hm & Hc & Hl). exists m'. split_and!; [done| |done].
  rewrite <- app_assoc. apply (cyc_rotate m' head zs z ys). exact Hc.
Qed.

Lemma adx_list_empty_ring m head xs :
  ring m head xs -> adx_list_empty m head = Ok (bool_decide (xs = [])).
Proof.
  intros Hr. destruct (cyc_first _ _ _ Hr) as (y & [Hp Hq] & ->).
  unfold adx_list_empty, get_next, get_prev. rewrite Hp. simpl.
  destruct xs as [|x xs]; simpl in Hp, Hq |- *.
  - rewrite Hq. simpl. rewrite decide_True by done. by rewrite !bool_decide_eq_true_2.
  - destruct Hr as (_ & Hnd & _). apply NoDup_cons in Hnd as [Hnd _].
    assert (x ≠ head) by (intros ->; apply Hnd, list_elem_of_here).
    by rewrite decide_False.
Qed.

Lemma for_each_from_ring m head xs a fuel :
  lseg m a xs head -> head ∉ xs -> (length xs < fuel)%nat ->
  (next ← get_next m a; for_each_from fuel m next head) = Ok xs.
Proof.
  revert a fuel. induction xs as [|x xs IH]; intros a fuel Hs Hn Hf; simpl in *.
  - unfold get_next. rewrite (proj1 Hs). destruct fuel; [lia|]. simpl. by case_decide.
  - destruct Hs as [Hax Hs]. unfold get_next at 1. rewrite (proj1 Hax).
    destruct fuel; [lia|]. simpl. rewrite decide_False by (intros ->; apply Hn, list_elem_of_here).
    specialize (IH x fuel Hs ltac:(clear -Hn; set_solver) ltac:(lia)). unfold mbind, cres_bind in IH |- *.
    destruct (get_next m x); [|done..]. by rewrite IH.
Qed.

(** ** A list as an abstract sequence

    The calls a client makes on one list, the sequence they act on and the
    value they return. *)
Inductive list_op : Type :=
| OpAdd (node : Z)
| OpAddTail (node : Z)
| OpDel (node : Z)
| OpEmpty
| OpQueue
| OpForEach.

Inductive list_obs : Type :=
| ObsUnit
| ObsBool (b : bool)
| ObsNode (p : Z)
| ObsNodes (ps : list Z).

Definition list_step (fuel : nat) (m : lmem) (head : Z) (op : list_op)
    : cres (list_obs * lmem) :=
  match op with
  | OpAdd n => m ← adx_list_add m head n; mret (ObsUnit, m)
  | OpAddTail n => m ← adx_list_add_tail m head n; mret (ObsUnit, m)
  | OpDel n => m ← adx_list_del m n; mret (ObsUnit, m)
  | OpEmpty => b ← adx_list_empty m head; mret (ObsBool b, m)
  | OpQueue => '(p, m) ← adx_queue m head; mret (ObsNode p, m)
  | OpForEach => ps ← adx_list_for_each fuel m head; mret (ObsNodes ps, m)
  end.

Fixpoint list_run (fuel : nat) (m : lmem) (head : Z) (ops : list list_op)
    : cres (list list_obs * lmem) :=
  match ops with
  | [] => mret ([], m)
  | op :: ops => '(o, m) ← list_step fuel m head op;
                 '(os, m) ← list_run fuel m head ops; mret (o :: os, m)
  end.

(** The specification: a client may add a node of its pool that is not in
    the list and delete one that is; [None] is a call outside the contract. *)
Definition seq_step (pool : list Z) (xs : list Z) (op : list_op)
    : option (list_obs * list Z) :=
  match op with
  | OpAdd n => if decide (n ∈ pool ∧ n ∉ xs) then Some (ObsUnit, xs ++ [n]) else None
  | OpAddTail n => if decide (n ∈ pool ∧ n ∉ xs) then Some (ObsUnit, n :: xs) else None
  | OpDel n => if decide (n ∈ xs) then Some (ObsUnit, filter (fun x => x ≠ n) xs) else None
  | OpEmpty => Some (ObsBool (bool_decide (xs = [])), xs)
  | OpQueue => Some (match xs with [] => (ObsNode NULL, []) | x :: xs => (ObsNode x, xs) end)
  | OpForEach => Some (ObsNodes xs, xs)
  end.

Fixpoint seq_run (pool : list Z) (xs : list Z) (ops : list list_op)
    : option (list list_obs * list Z) :=
  match ops with
  | [] => Some ([], xs)
  | op :: ops => '(o, xs) ← seq_step pool xs op;
                 '(os, xs) ← seq_run pool xs ops; Some (o :: os, xs)
  end.

(** The concrete state: the list and the live nodes of the pool outside it. *)
Definition list_rep (m : lmem) (head : Z) (pool xs : list Z) : Prop :=
  ring m head xs /\ xs ⊆ pool /\ head ∉ pool /\ NULL ∉ pool /\ (forall n, n ∈ pool -> live m n).

Lemma set_next_live m m' p v q : set_next m p v = Ok m' -> live m q -> live m' q.
Proof.
  unfold set_next, get_next. destruct (nx m !! p) eqn:E; simpl; [|done]. intros [= <-] [? ?].
  split; simpl; [|done]. apply lookup_insert_is_Some'; auto.
Qed.

Lemma set_prev_live m m' p v q : set_prev m p v = Ok m' -> live m q -> live m' q.
Proof.
  unfold set_prev, get_prev. destruct (pv m !! p) eqn:E; simpl; [|done]. intros [= <-] [? ?].
  split; simpl; [done|]. apply lookup_insert_is_Some'; auto.
Qed.

Create HintDb adx_live.
#[export] Hint Resolve set_next_live set_prev_live : adx_live.

Lemma list_step_live fuel m head op o m' n :
  list_step fuel m head op = Ok (o, m') -> live m n -> live m' n.
Proof.
  destruct op; simpl;
    unfold adx_list_add, adx_list_add_tail, adx_list_del, adx_queue, adx_list_del,
      _adx_list_add, _adx_list_del; intros H Hl; inv_all; eauto 8 with adx_live.
Qed.

Lemma adx_queue_ring m head xs :
  ring m head xs ->
  exists m', adx_queue m head = Ok (default NULL (hd_error xs), m') /\ ring m' head (tail xs).
Proof.
  intros Hr. destruct (cyc_first _ _ _ Hr) as (y & [Hp Hq] & ->).
  unfold adx_queue, get_next. rewrite Hp. cbn [of_opt mbind cres_bind].
  destruct xs as [|x xs]; simpl.
  - rewrite decide_True by done. eauto.
  - rewrite decide_False; [|destruct Hr as (_ & Hnd%NoDup_cons & _); intros ->;
      by apply Hnd, list_elem_of_here].
    destruct (cyc_delete _ _ _ _ Hr) as (m' & Hm & Hc & _). rewrite Hm. simpl. eauto.
Qed.

Lemma list_step_refines fuel m head pool xs op o ys :
  list_rep m head pool xs -> seq_step pool xs op = Some (o, ys) -> (length xs < fuel)%nat ->
  exists m', list_step fuel m head op = Ok (o, m') /\ list_rep m' head pool ys.
Proof.
  intros (Hr & Hsub & Hh & Hn0 & Hlive) Hop Hf.
  assert (Hstep : exists m', list_step fuel m head op = Ok (o, m') /\ ring m' head ys /\ ys ⊆ pool).
  { destruct op; simpl in *; repeat case_decide; simplify_eq/=.
    - destruct H as [Hin Hnin].
      destruct (adx_list_add_ring m head xs node) as (m' & E & Hr'); [done|auto| | |].
      + clear -Hh Hin Hnin. set_solver.
      + by intros ->.
      + exists m'. rewrite E. split_and!; [done..|]. clear -Hsub Hin. set_solver.
    - destruct H as [Hin Hnin].
      destruct (adx_list_add_tail_ring m head xs node) as (m' & E & Hr'); [done|auto| | |].
      + clear -Hh Hin Hnin. set_solver.
      + by intros ->.
      + exists m'. rewrite E. split_and!; [done..|]. clear -Hsub Hin. set_solver.
    - apply list_elem_of_split in H as (l1 & l2 & ->).
      destruct (adx_list_del_ring _ _ _ _ _ Hr) as (m' & E & Hr' & _). exists m'. rewrite E.
      destruct Hr as (_ & Hnd%NoDup_cons & _). destruct Hnd as [_ Hnd].
      apply NoDup_app in Hnd as (_ & Hdis & Hnd%NoDup_cons).
      assert (filter (fun x => x ≠ node) (l1 ++ node :: l2) = l1 ++ l2) as ->.
      { rewrite filter_app, filter_cons_False by (intros ?; done). f_equal; apply filter_all.
        - intros x Hx ->. apply (Hdis node Hx), list_elem_of_here.
        - intros x Hx ->. tauto. }
      split_and!; [done..|]. clear -Hsub. set_solver.
    - exists m. rewrite (adx_list_empty_ring m head ys) by done. done.
    - destruct (adx_queue_ring m head xs Hr) as (m' & E & Hr'). exists m'. rewrite E. simpl.
      destruct xs; simplify_eq/=; split_and!; try done. clear -Hsub. set_solver.
    - exists m. unfold adx_list_for_each. destruct Hr as (Hs & Hnd & Hr).
      rewrite (for_each_from_ring m head ys head fuel); [done|done| |done].
      by apply NoDup_cons in Hnd as [? _]. }
  destruct Hstep as (m' & E & Hr' & Hsub'). exists m'. split; [done|].
  split_and!; [done..|]. intros n Hn. eapply list_step_live; eauto.
Qed.

Lemma seq_step_length pool xs op o ys :
  seq_step pool xs op = Some (o, ys) -> (length ys <= S (length xs))%nat.
Proof.
  destruct op; simpl; intros; repeat case_decide; simplify_eq/=; rewrite ?length_app; simpl; try lia.
  - etrans; [apply length_filter|]. lia.
  - destruct xs; simplify_eq/=; lia.
Qed.

(** C24: the list functions implement a sequence.  For every sequence of
    calls that respects the contract, the pointer code runs to completion
    without touching memory that is not live, returns at every call what the
    sequence specification returns ([adx_list_add] appends, [adx_list_add_tail]
    prepends, [adx_queue] dequeues from the front and gives NULL exactly on an
    empty list), and leaves the heads and links of a circular list of the
    specified nodes. *)
Theorem adx_list_refines_sequence fuel m head pool xs ops os ys :
  list_rep m head pool xs -> seq_run pool xs ops = Some (os, ys) ->
  (length xs + length ops < fuel)%nat ->
  exists m', list_run fuel m head ops = Ok (os, m') /\ list_rep m' head pool ys.
Proof.
  revert m xs os. induction ops as [|op ops IH]; intros m xs os Hr Hs Hf; simpl in *.
  - simplify_eq. eauto.
  - destruct (seq_step pool xs op) as [[o zs]|] eqn:Eo; simplify_eq/=.
    destruct (seq_run pool zs ops) as [[os' ws]|] eqn:Er; simplify_eq/=.
    destruct (list_step_refines fuel m head pool xs op o zs Hr Eo) as (m1 & E1 & Hr1); [lia|].
    apply seq_step_length in Eo.
    destruct (IH m1 zs os' Hr1 Er) as (m2 & E2 & Hr2); [lia|].
    exists m2. rewrite E1. simpl. by rewrite E2.
Qed.

Definition demo_mem : lmem :=
  LMem {[100 := 100; 8 := 0; 16 := 0; 24 := 0]} {[100 := 100; 8 := 0; 16 := 0; 24 := 0]}.

Definition demo_ops : list list_op :=
  [OpAdd 8; OpAdd 16; OpAddTail 24; OpForEach; OpDel 8; OpQueue; OpQueue; OpQueue; OpEmpty].

Lemma demo_rep : list_rep demo_mem 100 [8; 16; 24] [].
Proof.
  split; [split; [split; reflexivity|split; [apply NoDup_singleton|]]|].
  - intros Hn%list_elem_of_singleton. discriminate.
  - split; [intros x Hx; by apply elem_of_nil in Hx|].
    split; [rewrite !elem_of_cons, elem_of_nil; lia|].
    split; [unfold NULL; rewrite !elem_of_cons, elem_of_nil; lia|].
    intros n Hn. rewrite !elem_of_cons, elem_of_nil in Hn.
    destruct Hn as [->|[->|[->|[]]]]; split; eexists; reflexivity.
Qed.

Lemma adx_list_refines_sequence_witness :
  exists m', list_run 10 demo_mem 100 demo_ops =
      Ok ([ObsUnit; ObsUnit; ObsUnit; ObsNodes [24; 8; 16]; ObsUnit; ObsNode 24; ObsNode 16;
           ObsNode NULL; ObsBool true], m') /\ list_rep m' 100 [8; 16; 24] [].
Proof.
  apply (adx_list_refines_sequence 10 demo_mem 100 [8; 16; 24] [] demo_ops).
  - exact demo_rep.
  - vm_compute. reflexivity.
  - simpl. lia.
Defined.
