(* ===== verification/AdxListSort.v ===== *)
(** [adx_list_sort] of adx_dsp/src/adx_list.c is a stable merge sort.

    The file defines the list-level merge, relates the pointer merge of
    AdxList.v to it, and carries the invariant of the bottom-up sort: the
    chains held in [part] and the nodes not yet distributed always contain,
    class by class, the nodes of the input in their input order. *)

From Stdlib Require Import ZArith Lia Sorted Permutation.
From S2P Require Import Prelude AdxList.

Open Scope Z_scope.

Section Sort.
Context (cmp : Z -> Z -> Z).

Definition le (a b : Z) : Prop := cmp a b <= 0.
Definition eqv (z x : Z) : Prop := le z x /\ le x z.
#[export] Instance le_dec a b : Decision (le a b).
Proof. unfold le. apply _. Defined.
#[export] Instance eqv_dec z x : Decision (eqv z x).
Proof. unfold eqv. apply _. Defined.

(** The elements of [xs] the comparison does not separate from [z], in order. *)
Definition eqclass (z : Z) (xs : list Z) : list Z := filter (eqv z) xs.

Fixpoint lmerge (xs : list Z) : list Z -> list Z :=
  fix go ys :=
    match xs, ys with
    | [], _ => ys
    | _, [] => xs
    | x :: xs', y :: ys' =>
        if decide (cmp x y <= 0) then x :: lmerge xs' ys else y :: go ys'
    end.

Lemma lmerge_nil_r xs : lmerge xs [] = xs.
Proof. by destruct xs. Qed.

Lemma lmerge_perm xs ys : lmerge xs ys ≡ₚ xs ++ ys.
Proof.
  revert ys. induction xs as [|x xs IHx]; intros ys; [by destruct ys|].
  induction ys as [|y ys IHy]; [by rewrite app_nil_r|]. simpl. case_decide.
  - by rewrite IHx.
  - simpl in IHy. rewrite IHy. apply (Permutation_middle (x :: xs)).
Qed.

Section Order.
Context (Htrans : forall a b c, le a b -> le b c -> le a c)
        (Htotal : forall a b, le a b \/ le b a).

Lemma lmerge_sorted xs ys :
  StronglySorted le xs -> StronglySorted le ys -> StronglySorted le (lmerge xs ys).
Proof.
  revert ys. induction xs as [|x xs IHx]; intros ys Hx Hy; [by destruct ys|].
  induction ys as [|y ys IHy]; [done|]. simpl.
  apply StronglySorted_inv in Hx as [Hx1 Hx2]. pose proof Hy as [Hy1 Hy2]%StronglySorted_inv.
  case_decide as Hxy.
  - constructor; [by apply IHx|]. rewrite lmerge_perm. apply Forall_app. split; [done|].
    constructor; [done|]. eapply Forall_impl; [exact Hy2|]. intros. by eapply Htrans.
  - assert (le y x) by (destruct (Htotal x y); done).
    constructor; [by apply IHy|].
    change (Forall (le y) (lmerge (x :: xs) ys)). rewrite lmerge_perm.
    apply Forall_app. split; [|done]. constructor; [done|].
    eapply Forall_impl; [exact Hx2|]. intros. by eapply Htrans.
Qed.

Lemma lmerge_eqclass z xs ys :
  StronglySorted le xs -> StronglySorted le ys ->
  eqclass z (lmerge xs ys) = eqclass z xs ++ eqclass z ys.
Proof.
  unfold eqclass. revert ys. induction xs as [|x xs IHx]; intros ys Hx Hy; [by destruct ys|].
  induction ys as [|y ys IHy]; [by rewrite lmerge_nil_r, app_nil_r|].
  pose proof Hx as [Hx1 Hx2]%StronglySorted_inv. pose proof Hy as [Hy1 Hy2]%StronglySorted_inv.
  cbn [lmerge]. case_decide as Hxy.
  - rewrite !(filter_cons _ x), IHx by done. by case_decide.
  - change (filter (eqv z) (y :: lmerge (x :: xs) ys) =
            filter (eqv z) (x :: xs) ++ filter (eqv z) (y :: ys)).
    rewrite (filter_cons _ y (lmerge _ _)), (filter_cons _ y ys), IHy by done.
    case_decide as Hzy; [|done].
    assert (filter (eqv z) (x :: xs) = []) as ->; [|done].
    apply filter_none. intros w Hw [Hzw Hwz].
    apply Hxy. change (le x y). destruct Hzy as [Hzy Hyz].
    assert (le x w). { apply elem_of_cons in Hw as [->|Hw]; [destruct (Htotal x x); done|].
      rewrite Forall_forall in Hx2. by apply Hx2. }
    eauto.
Qed.
End Order.

(** ** NULL-terminated chains *)

Fixpoint chain (n : gmap Z Z) (p : Z) (xs : list Z) : Prop :=
  match xs with
  | [] => p = NULL
  | x :: xs => p = x /\ x ≠ NULL /\ exists q, n !! x = Some q /\ chain n q xs
  end.

Lemma chain_frame n n' p xs :
  (forall x, x ∈ xs -> n' !! x = n !! x) -> chain n p xs -> chain n' p xs.
Proof.
  revert p. induction xs as [|x xs IH]; intros p Hf; simpl; [done|].
  intros (-> & Hx & q & Hq & Hc). split_and!; [done..|]. exists q.
  rewrite Hf by apply list_elem_of_here. split; [done|]. apply IH; [|done].
  intros y Hy. apply Hf. by apply list_elem_of_further.
Qed.

Lemma chain_null n p xs : chain n p xs -> (p = NULL <-> xs = []).
Proof. destruct xs; simpl; [naive_solver|]. intros (-> & ? & _). naive_solver. Qed.

(** ** The pointer merge *)

Lemma chain_head n p x xs : chain n p (x :: xs) -> p = x /\ x ≠ NULL /\ is_Some (n !! x).
Proof. intros (-> & ? & q & ? & _). eauto. Qed.

(** The chain without its first node, after the [next] of another node changed. *)
Lemma chain_tail n p x xs t v :
  chain n p (x :: xs) -> t ∉ x :: xs ->
  exists q, <[t := v]> n !! x = Some q /\ chain (<[t := v]> n) q xs.
Proof.
  intros (-> & ? & q & Hq & Hc) Ht.
  assert (t ≠ x) by (intros ->; apply Ht, list_elem_of_here).
  exists q. split; [by rewrite lookup_insert_ne|].
  eapply chain_frame; [|exact Hc]. intros y Hy.
  rewrite lookup_insert_ne; [done|]. intros ->. by apply Ht, list_elem_of_further.
Qed.

Lemma chain_set n p xs t v : chain n p xs -> t ∉ xs -> chain (<[t := v]> n) p xs.
Proof.
  intros Hc Ht. eapply chain_frame; [|exact Hc]. intros y Hy.
  rewrite lookup_insert_ne; [done|]. by intros ->.
Qed.

Lemma get_next_ok m p q : nx m !! p = Some q -> get_next m p = Ok q.
Proof. intros Hq. unfold get_next. by rewrite Hq. Qed.

Lemma get_prev_ok m p q : pv m !! p = Some q -> get_prev m p = Ok q.
Proof. intros Hq. unfold get_prev. by rewrite Hq. Qed.

Definition merged (m m' : lmem) (tail : Z) (xs ys : list Z) : Prop :=
  pv m' = pv m /\
  (forall p, p ∉ tail :: xs ++ ys -> nx m' !! p = nx m !! p) /\
  exists q, nx m' !! tail = Some q /\ chain (nx m') q (lmerge xs ys).

(** One step of the merge: [tail->next = x], then the merge continues from
    [x] and leaves [tail] alone. *)
Lemma merged_step m m' tail x xs ys xs' ys' :
  tail ∉ x :: xs' ++ ys' -> x ≠ NULL ->
  (forall p, p ∈ x :: xs' ++ ys' -> p ∈ xs ++ ys) ->
  lmerge xs ys = x :: lmerge xs' ys' ->
  merged (LMem (<[tail := x]> (nx m)) (pv m)) m' x xs' ys' ->
  merged m m' tail xs ys.
Proof.
  intros Ht Hx Hsub Heq (Hpv & Hfr & q & Hq & Hc). split_and!; [done| |].
  - intros p Hp. rewrite not_elem_of_cons in Hp. destruct Hp as [Hp1 Hp2].
    rewrite Hfr by (intros Hin; by apply Hp2, Hsub). simpl. by rewrite lookup_insert_ne.
  - exists x. rewrite Hfr by done. simpl. rewrite lookup_insert_eq. split; [done|].
    rewrite Heq. simpl. eauto.
Qed.

Lemma merge_loop_spec fuel m tail a b xs ys :
  chain (nx m) a xs -> chain (nx m) b ys -> NoDup (tail :: xs ++ ys) ->
  is_Some (nx m !! tail) -> (length xs + length ys < fuel)%nat ->
  exists m', adx_list_merge_loop cmp fuel m tail a b = Ok m' /\ merged m m' tail xs ys.
Proof.
  revert m tail a b xs ys. induction fuel as [|fuel IH]; intros m tail a b xs ys Ha Hb Hnd Ht Hf;
    [lia|]. apply NoDup_cons in Hnd as [Htn Hnd]. simpl.
  destruct xs as [|x xs], ys as [|y ys].
  1-3: rewrite decide_False by (pose proof (chain_null _ _ _ Ha); pose proof (chain_null _ _ _ Hb); naive_solver);
    rewrite set_next_ok by done; eexists; split; [done|]; split_and!; [done| |];
    [intros p Hp; simpl; rewrite lookup_insert_ne; [done|]; intros ->; by apply Hp, list_elem_of_here|];
    cbn [nx]; rewrite lookup_insert_eq; eexists; split; [done|].
  - case_decide; [simpl in Ha; done|]. exact Hb.
  - simpl in Ha; subst a. rewrite decide_False by (intros Hne; by apply Hne).
    apply (chain_set _ _ (y :: ys)); [done|]. exact Htn.
  - destruct (chain_head _ _ _ _ Ha) as (-> & Hx & _). rewrite decide_True by done.
    apply (chain_set _ _ (x :: xs)); [done|]. rewrite app_nil_r in Htn. exact Htn.
  - destruct (chain_head _ _ _ _ Ha) as (-> & Hx & _).
    destruct (chain_head _ _ _ _ Hb) as (-> & Hy & _).
    rewrite decide_True by done.
    assert ((tail ∉ x :: xs) /\ (tail ∉ y :: ys)) as [Htx Hty] by (clear -Htn; set_solver).
    destruct (decide (cmp x y <= 0)) as [Hle|Hle]; rewrite set_next_ok by done;
      cbn [mbind cres_bind mret cres_ret].
    + destruct (chain_tail _ _ _ _ tail x Ha Htx) as (q & Hq & Hc).
      rewrite (get_next_ok _ x q) by exact Hq. cbn [mbind cres_bind].
      rewrite (get_next_ok _ tail x) by (simpl; apply lookup_insert_eq). cbn [mbind cres_bind].
      destruct (IH (LMem (<[tail := x]> (nx m)) (pv m)) x q y xs (y :: ys) Hc (chain_set _ _ _ _ _ Hb Hty)) as (m' & -> & Hm');
        [exact Hnd| |simpl in *; lia|].
      { exists q. exact Hq. }
      exists m'. split; [done|]. eapply merged_step; [| | | |exact Hm'].
      * clear -Htn. set_solver.
      * done.
      * clear. set_solver.
      * simpl. by rewrite decide_True.
    + destruct (chain_tail _ _ _ _ tail y Hb Hty) as (q & Hq & Hc).
      rewrite (get_next_ok _ y q) by exact Hq. cbn [mbind cres_bind].
      rewrite (get_next_ok _ tail y) by (simpl; apply lookup_insert_eq). cbn [mbind cres_bind].
      destruct (IH (LMem (<[tail := y]> (nx m)) (pv m)) y x q (x :: xs) ys (chain_set _ _ _ _ _ Ha Htx) Hc) as (m' & -> & Hm');
        [|by exists q|simpl in *; lia|].
      { rewrite (Permutation_middle (x :: xs) ys y). exact Hnd. }
      exists m'. split; [done|]. eapply merged_step; [| | | |exact Hm'].
      * clear -Htn. set_solver.
      * done.
      * clear. set_solver.
      * simpl. by rewrite decide_False.
Qed.

(** ** Restoring the back links *)

(** [path m a xs t]: both links are in place along [a, xs], which ends at [t]. *)
Fixpoint path (m : lmem) (a : Z) (xs : list Z) (t : Z) : Prop :=
  match xs with
  | [] => a = t
  | x :: xs => link m a x /\ path m x xs t
  end.

Lemma path_last m a xs t : path m a xs t -> t ∈ a :: xs.
Proof.
  revert a. induction xs as [|x xs IH]; intros a; simpl; [intros ->; apply list_elem_of_here|].
  intros [_ Hp]. apply list_elem_of_further. eauto.
Qed.

Lemma path_app m a xs ys t u : path m a xs t -> path m t ys u -> path m a (xs ++ ys) u.
Proof.
  revert a. induction xs as [|x xs IH]; intros a; simpl; [by intros ->|]. intros [? ?] ?. eauto.
Qed.

Lemma path_frame m m' a xs t :
  (forall p, p ∈ a :: xs -> p ≠ t -> nx m' !! p = nx m !! p) ->
  (forall p, p ∈ xs -> pv m' !! p = pv m !! p) ->
  NoDup (a :: xs) -> path m a xs t -> path m' a xs t.
Proof.
  revert a. induction xs as [|x xs IH]; intros a Hn Hp Hnd; simpl; [done|].
  apply NoDup_cons in Hnd as [Ha Hnd]. intros [[H1 H2] H3]. pose proof (path_last _ _ _ _ H3).
  split.
  - split; [rewrite Hn; [done|apply list_elem_of_here|by intros ->]|].
    rewrite Hp; [done|apply list_elem_of_here].
  - apply IH; [| |done..]; intros p ?; [intros ?; apply Hn; [|done]|apply Hp];
      by apply list_elem_of_further.
Qed.

Lemma path_close m a xs t b :
  path m a xs t -> NoDup (a :: xs) -> b ∉ xs ->
  lseg (LMem (<[t := b]> (nx m)) (<[b := t]> (pv m))) a xs b.
Proof.
  revert a. induction xs as [|x xs IH]; intros a Hp Hnd Hb; simpl in *.
  - subst. split; simpl; apply lookup_insert_eq.
  - destruct Hp as [[H1 H2] H3]. apply NoDup_cons in Hnd as [Ha Hnd].
    pose proof (path_last _ _ _ _ H3) as Ht. split.
    + split; simpl; rewrite lookup_insert_ne; [done|by intros ->|done|].
      intros ->. apply Hb, list_elem_of_here.
    + apply IH; [done..|]. intros ?. by apply Hb, list_elem_of_further.
Qed.

Definition restoring (m m' : lmem) (tail t : Z) (xs ys : list Z) : Prop :=
  (forall p, p ∉ tail :: xs ++ ys -> nx m' !! p = nx m !! p) /\
  (forall p, p ∉ xs ++ ys -> pv m' !! p = pv m !! p) /\
  (forall p, is_Some (pv m !! p) -> is_Some (pv m' !! p)) /\
  exists pre post q, lmerge xs ys = pre ++ post /\ post ≠ [] /\ path m' tail pre t /\
    nx m' !! t = Some q /\ chain (nx m') q post.

Lemma restoring_step m m' tail t x xs ys xs' ys' :
  tail ∉ x :: xs' ++ ys' -> x ∉ xs' ++ ys' ->
  (forall p, p ∈ x :: xs' ++ ys' -> p ∈ xs ++ ys) ->
  lmerge xs ys = x :: lmerge xs' ys' ->
  restoring (LMem (<[tail := x]> (nx m)) (<[x := tail]> (pv m))) m' x t xs' ys' ->
  restoring m m' tail t xs ys.
Proof.
  intros Ht Hx Hsub Heq (Hnx & Hpv & Hlive & pre & post & q & Hl & Hne & Hp & Hq & Hc).
  split_and!.
  - intros p [Hp1 Hp2]%not_elem_of_cons.
    rewrite Hnx by (intros Hin; by apply Hp2, Hsub). simpl. by rewrite lookup_insert_ne.
  - intros p Hp1. assert (p ∉ x :: xs' ++ ys') as [Hpx Hp2]%not_elem_of_cons by auto.
    rewrite Hpv by done. simpl. by rewrite lookup_insert_ne.
  - intros p Hp1. apply Hlive. simpl. apply lookup_insert_is_Some'. by right.
  - exists (x :: pre), post, q. rewrite Heq, Hl. split_and!; [done..| |done|done]. simpl.
    split; [|done]. split; [rewrite Hnx by done|rewrite Hpv by done]; simpl; apply lookup_insert_eq.
Qed.
Lemma merge_restore_loop_spec fuel m tail a b xs ys :
  chain (nx m) a xs -> chain (nx m) b ys -> NoDup (tail :: xs ++ ys) ->
  is_Some (nx m !! tail) -> (forall p, p ∈ xs ++ ys -> is_Some (pv m !! p)) ->
  xs ++ ys ≠ [] -> (length xs + length ys < fuel)%nat ->
  exists m' t, merge_restore_loop cmp fuel m tail a b = Ok (t, m') /\ restoring m m' tail t xs ys.
Proof.
  revert m tail a b xs ys.
  induction fuel as [|fuel IH]; intros m tail a b xs ys Ha Hb Hnd Ht Hl Hne Hf; [lia|].
  pose proof Hnd as [Htn Hnd']%NoDup_cons. simpl.
  destruct (decide (xs = [] \/ ys = [])) as [Hor|Hand].
  - rewrite decide_False by (pose proof (chain_null _ _ _ Ha); pose proof (chain_null _ _ _ Hb); naive_solver).
    rewrite set_next_ok by done. eexists _, tail. split; [done|]. split_and!.
    + intros p [Hp _]%not_elem_of_cons. simpl. by rewrite lookup_insert_ne.
    + done.
    + done.
    + eexists [], (lmerge xs ys), _. split_and!; [done| |done|apply lookup_insert_eq|].
      { intros E. apply Hne. symmetry. apply Permutation_nil_l. rewrite <- E. by rewrite lmerge_perm. }
      simpl. apply chain_set; [|by rewrite lmerge_perm].
      destruct xs as [|x xs].
      * simpl in Ha; subst a. rewrite decide_False by (intros Hn; by apply Hn). by destruct ys.
      * destruct Hor as [|Hor]; [done|subst ys].
        destruct (chain_head _ _ _ _ Ha) as (-> & Hx & _). by rewrite decide_True.
  - destruct xs as [|x xs]; [naive_solver|]. destruct ys as [|y ys]; [naive_solver|].
    destruct (chain_head _ _ _ _ Ha) as (-> & Hx & _).
    destruct (chain_head _ _ _ _ Hb) as (-> & Hy & _).
    rewrite decide_True by done.
    assert ((tail ∉ x :: xs) /\ (tail ∉ y :: ys)) as [Htx Hty] by (clear -Htn; set_solver).
    destruct (decide (cmp x y <= 0)) as [Hle|Hle]; rewrite set_next_ok by done;
      cbn [mbind cres_bind mret cres_ret]; rewrite set_prev_ok by (simpl; apply Hl; clear; set_solver);
      cbn [mbind cres_bind nx pv].
    + destruct (chain_tail _ _ _ _ tail x Ha Htx) as (q & Hq & Hc).
      rewrite (get_next_ok _ x q) by exact Hq. cbn [mbind cres_bind].
      rewrite (get_next_ok _ tail x) by (simpl; apply lookup_insert_eq). cbn [mbind cres_bind].
      destruct (IH (LMem (<[tail := x]> (nx m)) (<[x := tail]> (pv m))) x q y xs (y :: ys) Hc
                  (chain_set _ _ _ _ _ Hb Hty)) as (m' & t & -> & Hm');
        [exact Hnd'|by exists q| |destruct xs; done|simpl in *; lia|].
      { intros p Hp. simpl. apply lookup_insert_is_Some'. right. apply Hl. clear -Hp. set_solver. }
      exists m', t. split; [done|]. eapply restoring_step; [| | | |exact Hm'].
      * clear -Htn. set_solver.
      * apply NoDup_cons in Hnd' as [? _]. done.
      * clear. set_solver.
      * simpl. by rewrite decide_True.
    + destruct (chain_tail _ _ _ _ tail y Hb Hty) as (q & Hq & Hc).
      rewrite (get_next_ok _ y q) by exact Hq. cbn [mbind cres_bind].
      rewrite (get_next_ok _ tail y) by (simpl; apply lookup_insert_eq). cbn [mbind cres_bind].
      rewrite <- (Permutation_middle (x :: xs) ys y) in Hnd'.
      destruct (IH (LMem (<[tail := y]> (nx m)) (<[y := tail]> (pv m))) y x q (x :: xs) ys
                  (chain_set _ _ _ _ _ Ha Htx) Hc) as (m' & t & -> & Hm');
        [exact Hnd'|by exists q| |done|simpl in *; lia|].
      { intros p Hp. simpl. apply lookup_insert_is_Some'. right. apply Hl. clear -Hp. set_solver. }
      exists m', t. split; [done|]. eapply restoring_step; [| | | |exact Hm'].
      * clear -Htn. set_solver.
      * apply NoDup_cons in Hnd' as [? _]. done.
      * clear. set_solver.
      * simpl. by rewrite decide_False.
Qed.

Lemma restore_prev_loop_spec fuel m tail q post :
  nx m !! tail = Some q -> chain (nx m) q post -> post ≠ [] -> NoDup (tail :: post) ->
  (forall p, p ∈ post -> is_Some (pv m !! p)) -> (length post <= fuel)%nat ->
  exists m' t, restore_prev_loop fuel m tail = Ok (t, m') /\ nx m' = nx m /\
    (forall p, p ∉ post -> pv m' !! p = pv m !! p) /\
    (forall p, is_Some (pv m !! p) -> is_Some (pv m' !! p)) /\
    path m' tail post t.
Proof.
  revert m tail q post. induction fuel as [|fuel IH]; intros m tail q post Hq Hc Hne Hnd Hl Hf;
    destruct post as [|x post]; try done; [simpl in Hf; lia|]. simpl in Hc.
  destruct Hc as (-> & Hx & q' & Hq' & Hc). pose proof Hnd as [Ht Hnd']%NoDup_cons.
  simpl. rewrite (get_next_ok _ tail x) by done. cbn [mbind cres_bind].
  rewrite set_prev_ok by (apply Hl, list_elem_of_here). cbn [mbind cres_bind nx pv].
  rewrite (get_next_ok _ tail x) by done. cbn [mbind cres_bind].
  rewrite (get_next_ok _ x q') by done. cbn [mbind cres_bind].
  pose proof (chain_null _ _ _ Hc) as Hnil. case_decide as Hd.
  - rewrite (proj1 Hnil Hd). eexists _, x. split; [done|]. simpl. split_and!; [done| | | |done].
    + intros p [Hp _]%not_elem_of_cons. by rewrite lookup_insert_ne.
    + intros p Hp. apply lookup_insert_is_Some'. by right.
    + split; [done|]. simpl. apply lookup_insert_eq.
  - destruct (IH (LMem (nx m) (<[x:=tail]> (pv m))) x q' post) as (m' & t & -> & Hnx & Hpv & Hlv & Hp);
      [done|done|naive_solver|done| |simpl in Hf; lia|].
    { intros p Hp. simpl. apply lookup_insert_is_Some'. right. apply Hl. by apply list_elem_of_further. }
    exists m', t. simpl in Hpv, Hnx.
    split; [done|split; [done|split; [|split; [|split]]]].
    + intros p [Hp1 Hp2]%not_elem_of_cons. rewrite Hpv by done. by rewrite lookup_insert_ne.
    + intros p Hp1. apply Hlv. simpl. apply lookup_insert_is_Some'. by right.
    + split; [by rewrite Hnx|].
      apply NoDup_cons in Hnd' as [? _]. rewrite Hpv by done. apply lookup_insert_eq.
    + exact Hp.
Qed.

Lemma merge_and_restore_ring fuel m head a b xs ys :
  chain (nx m) a xs -> chain (nx m) b ys -> NoDup (head :: xs ++ ys) -> NULL ∉ head :: xs ++ ys ->
  is_Some (nx m !! head) -> is_Some (pv m !! head) ->
  (forall p, p ∈ xs ++ ys -> is_Some (pv m !! p)) ->
  xs ++ ys ≠ [] -> (length xs + length ys < fuel)%nat ->
  exists m', adx_list_merge_and_restore_back_links cmp fuel m head a b = Ok m' /\
    ring m' head (lmerge xs ys).
Proof.
  intros Ha Hb Hnd Hnull Hn Hp Hl Hne Hf.
  assert (NoDup (head :: lmerge xs ys)) as Hnd2 by (by rewrite lmerge_perm).
  destruct (merge_restore_loop_spec fuel m head a b xs ys)
    as (m1 & t1 & E1 & Hnx1 & Hpv1 & Hlv1 & pre & post & q & Hpp & Hpost & Hpath & Hq & Hc); [done..|].
  assert (length (pre ++ post) = length xs + length ys)%nat as Hlen
    by (by rewrite <- Hpp, lmerge_perm, length_app).
  rewrite Hpp, app_comm_cons in Hnd2. pose proof Hnd2 as (Hnpre & Hdisj & Hnpost)%NoDup_app.
  pose proof (path_last _ _ _ _ Hpath) as Ht1.
  destruct (restore_prev_loop_spec fuel m1 t1 q post) as (m2 & t2 & E2 & Hnx2 & Hpv2 & Hlv2 & Hpath2);
    [done..| | |rewrite length_app in Hlen; lia|].
  { apply NoDup_cons. split; [by apply Hdisj|done]. }
  { intros p Hp'. apply Hlv1, Hl. rewrite <- lmerge_perm, Hpp. apply elem_of_app. by right. }
  assert (path m2 head (pre ++ post) t2) as Hpath3.
  { eapply path_app; [|exact Hpath2]. eapply path_frame; [..|exact Hpath]; [by rewrite Hnx2| |done].
    intros p Hp'. apply Hpv2. apply Hdisj. by apply list_elem_of_further. }
  unfold adx_list_merge_and_restore_back_links. rewrite E1. cbn [mbind cres_bind].
  rewrite E2. cbn [mbind cres_bind].
  assert (is_Some (nx m2 !! t2)) as Ht2.
  { apply path_last in Hpath2. rewrite Hnx2. apply elem_of_cons in Hpath2 as [->|Hin]; [eauto|].
    clear -Hc Hin. revert q Hc. induction post as [|x post IH]; intros q; [by apply not_elem_of_nil in Hin|].
    intros (_ & _ & q' & Hq' & Hc). apply elem_of_cons in Hin as [->|Hin]; eauto. }
  rewrite set_next_ok by done. cbn [mbind cres_bind]. rewrite set_prev_ok by (simpl; auto).
  eexists. split; [done|]. rewrite Hpp. split; [|split].
  - refine (path_close m2 _ _ t2 _ Hpath3 _ _); [by rewrite app_comm_cons|].
    intros Hin. rewrite <- app_comm_cons in Hnd2. by apply NoDup_cons in Hnd2 as [? _].
  - by rewrite app_comm_cons.
  - rewrite <- Hpp, lmerge_perm. done.
Qed.

(** ** The bottom-up passes *)

Definition chains (n : gmap Z Z) (ps : list Z) (segs : list (list Z)) : Prop :=
  Forall2 (chain n) ps segs.

Lemma chains_frame n n' ps segs :
  (forall x, x ∈ concat segs -> n' !! x = n !! x) -> chains n ps segs -> chains n' ps segs.
Proof.
  intros Hf Hc. induction Hc as [|p seg ps segs Hp Hc IH]; constructor.
  - eapply chain_frame; [|exact Hp]. intros x Hx. apply Hf. simpl. apply elem_of_app. by left.
  - apply IH. intros x Hx. apply Hf. simpl. apply elem_of_app. by right.
Qed.

(** [out] is a stable sorting of [src]. *)
Definition stable_of (src out : list Z) : Prop :=
  StronglySorted le out /\ out ≡ₚ src /\ forall z, eqclass z out = eqclass z src.

Context (stack_head : Z).
Context (Htrans : forall a b c, le a b -> le b c -> le a c)
        (Htotal : forall a b, le a b \/ le b a).

Lemma stable_of_merge sx sy xs ys :
  stable_of sx xs -> stable_of sy ys -> stable_of (sx ++ sy) (lmerge xs ys).
Proof.
  intros (Hx1 & Hx2 & Hx3) (Hy1 & Hy2 & Hy3). split_and!.
  - by apply lmerge_sorted.
  - by rewrite lmerge_perm, Hx2, Hy2.
  - intros z. rewrite lmerge_eqclass by done. unfold eqclass in *.
    by rewrite filter_app, Hx3, Hy3.
Qed.

Lemma stable_of_sorted xs : StronglySorted le xs -> stable_of xs xs.
Proof. done. Qed.

Lemma stable_of_trans a b c :
  b ≡ₚ a -> (forall z, eqclass z b = eqclass z a) -> stable_of b c -> stable_of a c.
Proof.
  intros Hp He (H1 & H2 & H3). split_and!; [done|by rewrite H2|]. intros z. by rewrite H3, He.
Qed.

(** What every pass does to memory: only [next] fields of the list nodes and
    of the local [head] change. *)
Definition frame (m m' : lmem) (xs : list Z) : Prop :=
  pv m' = pv m /\ is_Some (nx m' !! stack_head) /\
  forall p, p ∉ stack_head :: xs -> nx m' !! p = nx m !! p.

Lemma frame_trans m1 m2 m3 xs ys :
  (forall p, p ∈ xs -> p ∈ ys) -> frame m1 m2 xs -> frame m2 m3 ys -> frame m1 m3 ys.
Proof.
  intros Hsub (H1 & H2 & H3) (H4 & H5 & H6). split_and!; [congruence|done|].
  intros p Hp. rewrite H6, H3; [done| |done]. clear -Hp Hsub. set_solver.
Qed.

Lemma merge_spec fuel m a b xs ys :
  chain (nx m) a xs -> chain (nx m) b ys -> NoDup (stack_head :: xs ++ ys) ->
  is_Some (nx m !! stack_head) -> (length xs + length ys < fuel)%nat ->
  exists q m', adx_list_merge cmp stack_head fuel m a b = Ok (q, m') /\
    frame m m' (xs ++ ys) /\ chain (nx m') q (lmerge xs ys).
Proof.
  intros Ha Hb Hnd Hs Hf.
  destruct (merge_loop_spec fuel m stack_head a b xs ys) as (m' & E & Hpv & Hfr & q & Hq & Hc); [done..|].
  unfold adx_list_merge. rewrite E. cbn [mbind cres_bind]. rewrite (get_next_ok _ _ q) by done.
  exists q, m'. split; [done|]. split; [|done]. split; [done|]. split; [eauto|done].
Qed.

Lemma sort_carry_spec fuel m part lev cur tl cs :
  chains (nx m) part (replicate lev [] ++ tl) -> chain (nx m) cur cs ->
  NoDup (stack_head :: concat tl ++ cs) -> is_Some (nx m !! stack_head) ->
  [] ∈ tl -> Forall (StronglySorted le) tl -> StronglySorted le cs ->
  (length (concat tl ++ cs) + length tl < fuel)%nat ->
  exists r0 r1 cur' part' m' cs',
    sort_carry cmp stack_head fuel m part lev cur = Ok ((lev + length r0)%nat, cur', part', m') /\
    tl = r0 ++ [] :: r1 /\
    chains (nx m') part' (replicate (lev + length r0) [] ++ [] :: r1) /\
    chain (nx m') cur' cs' /\ frame m m' (concat tl ++ cs) /\
    stable_of (concat (rev r0) ++ cs) cs'.
Proof.
  revert m part lev cur tl cs.
  induction fuel as [|fuel IH]; intros m part lev cur tl cs Hp Hcur Hnd Hst Hin Hso Hcs Hf; [lia|].
  destruct tl as [|s tl]; [by apply not_elem_of_nil in Hin|].
  assert (exists p, part !! lev = Some p /\ chain (nx m) p s) as (p & Hpl & Hps).
  { edestruct (Forall2_lookup_r _ _ _ lev s Hp) as (p & ? & ?); [|eauto].
    rewrite lookup_app_r by (rewrite length_replicate; lia).
    by rewrite length_replicate, Nat.sub_diag. }
  simpl. rewrite Hpl. cbn [of_opt mbind cres_bind].
  pose proof (chain_null _ _ _ Hps) as Hnil. case_decide as Hd.
  - rewrite (proj1 Hnil Hd) in *. exists [], tl, cur, part, m, cs. simpl. rewrite Nat.add_0_r.
    by split_and!.
  - apply Forall_cons in Hso as [Hs1 Hs2]. simpl in Hnd, Hf. rewrite <- app_assoc in Hnd, Hf.
    assert (NoDup (stack_head :: (s ++ cs) ++ concat tl)) as Hnd2.
    { by rewrite <- app_assoc, (Permutation_app_comm cs). }
    rewrite app_comm_cons in Hnd2. apply NoDup_app in Hnd2 as (Hnd2 & Hdis & Hnd3).
    assert (s ≠ []) as Hsne by naive_solver.
    rewrite !length_app in Hf.
    destruct (merge_spec (S fuel) m p cur s cs) as (q & m1 & E & Hfr & Hc); [done..|lia|].
    rewrite E. cbn [mbind cres_bind].
    destruct (IH m1 (<[lev:=NULL]> part) (S lev) q tl (lmerge s cs))
      as (r0 & r1 & cur' & part' & m' & cs' & E' & Htl & Hp' & Hc' & Hfr' & Hstab).
    + eapply (chains_frame (nx m)).
      * intros x Hx. rewrite concat_replicate_nil in Hx. apply Hfr. clear -Hx Hnd Hdis. set_solver.
      * rewrite <- (insert_replicate_next [] s). by apply Forall2_insert.
    + done.
    + rewrite lmerge_perm, (Permutation_app_comm (concat tl)), <- app_assoc.
      by rewrite (Permutation_app_comm cs).
    + apply Hfr.
    + apply elem_of_cons in Hin as [<-|Hin]; done.
    + done.
    + by apply lmerge_sorted.
    + rewrite length_app, lmerge_perm, !length_app. simpl in Hf. lia.
    + exists (s :: r0), r1, cur', part', m', cs'. simpl. rewrite Nat.add_succ_r.
      split_and!; [done|by rewrite Htl|done|done| |].
      * eapply frame_trans; [|exact Hfr|].
        { intros x. rewrite !elem_of_app. tauto. }
        destruct Hfr' as (F1 & F2 & F3). split_and!; [done..|].
        intros x Hx. apply F3. rewrite lmerge_perm. clear -Hx. set_solver.
      * rewrite concat_app. simpl. rewrite app_nil_r, <- app_assoc.
        eapply stable_of_trans; [| |exact Hstab].
        -- by rewrite lmerge_perm.
        -- intros z. unfold eqclass. rewrite !filter_app. f_equal. by apply lmerge_eqclass.
Qed.

(** Levels above [max_lev] are empty, and there is always one such level. *)
Definition levels_ok (segs : list (list Z)) (max_lev : nat) : Prop :=
  (2 <= length segs)%nat /\ (max_lev <= length segs - 2)%nat /\
  (forall i s, (max_lev < i)%nat -> segs !! i = Some s -> s = []) /\
  Forall (StronglySorted le) segs.

Definition place (k size max_lev : nat) : nat * nat :=
  if decide (max_lev < k)%nat then
    let lev := if decide (size - 1 <= k)%nat then pred k else k in (lev, lev)
  else (k, max_lev).

(** Storing the carried chain at the level the code chooses. *)
Lemma place_spec r0 r1 cs max_lev lev' max' :
  levels_ok (r0 ++ [] :: r1) max_lev ->
  StronglySorted le cs ->
  place (length r0) (length (r0 ++ [] :: r1)) max_lev = (lev', max') ->
  let segs' := <[lev' := cs]> (replicate (length r0) [] ++ [] :: r1) in
  (lev' < length (r0 ++ [] :: r1))%nat /\ length segs' = length (r0 ++ [] :: r1) /\
  levels_ok segs' max' /\ concat segs' ≡ₚ cs ++ concat r1 /\
  concat (rev segs') = concat (rev r1) ++ cs.
Proof.
  intros (Hsz & Hmax & Hemp & Hso) Hcs Hpl segs'.
  assert (length segs' = length (r0 ++ [] :: r1)) as Hlen.
  { unfold segs'. by rewrite length_insert, !length_app, length_replicate. }
  apply Forall_app in Hso as [_ Hso]. apply Forall_cons in Hso as [_ Hso].
  rewrite length_app in Hsz, Hmax, Hpl, Hlen |- *. simpl in Hsz, Hmax, Hpl, Hlen |- *.
  assert (forall k, k = length r0 -> lev' = k -> segs' = replicate k [] ++ cs :: r1) as HA.
  { intros k -> E. unfold segs'. rewrite E.
    replace (length r0) with (length (replicate (length r0) ([] : list Z))) at 1
      by apply length_replicate. apply insert_middle. }
  destruct (decide (lev' = length r0)) as [Hl|Hl].
  - specialize (HA _ eq_refl Hl). rewrite HA in Hlen |- *.
    assert (max' = Nat.max max_lev lev') as Hm'.
    { unfold place in Hpl. repeat case_decide; injection Hpl as <- <-; lia. }
    split; [lia|]. split; [done|]. split; [|split].
    + split; [lia|]. split; [|split].
      * rewrite Hlen. unfold place in Hpl. repeat case_decide; injection Hpl as <- <-; lia.
      * intros i s Hi Hs. apply (Hemp i); [lia|].
        rewrite lookup_app_r in Hs |- * by (rewrite ?length_replicate; lia).
        rewrite length_replicate in Hs. destruct (i - length r0)%nat as [|j] eqn:Ej; [lia|]. exact Hs.
      * apply Forall_app. split; [|by constructor].
        apply Forall_replicate. constructor.
    + by rewrite concat_replicate_nil.
    + rewrite concat_rev_replicate_nil. simpl. rewrite concat_app. simpl. by rewrite app_nil_r.
  - assert (lev' = max' /\ S lev' = length r0 /\ r1 = []) as (Hm' & Hk & ->).
    { unfold place in Hpl. repeat case_decide; injection Hpl as <- <-; try done.
      split; [done|]. split; [lia|]. apply nil_length_inv. lia. }
    assert (segs' = replicate lev' [] ++ cs :: [[]]) as ->.
    { unfold segs'. rewrite <- Hk. rewrite replicate_S_end, <- app_assoc. simpl.
      replace lev' with (length (replicate lev' ([] : list Z))) at 1 by apply length_replicate.
      apply insert_middle. }
    split; [lia|]. split; [done|]. split; [|split].
    + split; [lia|]. split; [simpl in *; lia|]. split.
      * intros i s Hi Hs. rewrite lookup_app_r in Hs by (rewrite length_replicate; lia).
        rewrite length_replicate in Hs. destruct (i - lev')%nat as [|[|j]] eqn:Ej; [lia| |done].
        simpl in Hs. congruence.
      * apply Forall_app. split; [apply Forall_replicate; constructor|].
        constructor; [done|]. constructor; constructor.
    + by rewrite concat_replicate_nil.
    + rewrite concat_rev_replicate_nil. simpl. by rewrite app_nil_r.
Qed.

Lemma sort_distribute_unfold fuel m part max_lev l :
  sort_distribute cmp stack_head (S fuel) m part max_lev l =
  if decide (l = NULL) then Ok (max_lev, part, m) else
  next ← get_next m l;
  m ← set_next m l NULL;
  '(lev, cur, part, m) ← sort_carry cmp stack_head (S fuel) m part 0 l;
  let '(lev, max_lev) := place lev (length part) max_lev in
  if decide (lev < length part)%nat
  then sort_distribute cmp stack_head fuel m (<[lev := cur]> part) max_lev next
  else UB.
Proof. done. Qed.

Lemma chains_length n ps segs : chains n ps segs -> length ps = length segs.
Proof. apply Forall2_length. Qed.

(** Detaching the next node from the chain still to be distributed. *)
Lemma detach_frame m x : is_Some (nx m !! stack_head) -> x ≠ stack_head ->
  frame m (LMem (<[x := NULL]> (nx m)) (pv m)) [x].
Proof.
  intros ? ?. split_and!; [done| |].
  - simpl. by rewrite lookup_insert_ne.
  - intros p Hp. simpl. rewrite lookup_insert_ne; [done|]. intros ->. clear -Hp. set_solver.
Qed.

Lemma sort_distribute_spec fuel m part segs max_lev l rest :
  chains (nx m) part segs -> levels_ok segs max_lev -> chain (nx m) l rest ->
  NoDup (stack_head :: concat segs ++ rest) -> is_Some (nx m !! stack_head) ->
  (length (concat segs ++ rest) + length segs + length rest < fuel)%nat ->
  exists max' part' segs' m',
    sort_distribute cmp stack_head fuel m part max_lev l = Ok (max', part', m') /\
    chains (nx m') part' segs' /\ levels_ok segs' max' /\ length segs' = length segs /\
    frame m m' (concat segs ++ rest) /\ concat segs' ≡ₚ concat segs ++ rest /\
    forall z, eqclass z (concat (rev segs')) = eqclass z (concat (rev segs) ++ rest).
Proof.
  revert m part segs max_lev l rest.
  induction fuel as [|fuel IH]; intros m part segs max_lev l rest Hp Hlv Hc Hnd Hst Hf; [lia|].
  rewrite sort_distribute_unfold. destruct rest as [|x rest].
  { rewrite decide_True by done. exists max_lev, part, segs, m.
    rewrite !app_nil_r. split_and!; try done. }
  simpl in Hc. destruct Hc as (-> & Hx & next & Hnext & Hrest). rewrite decide_False by done.
  rewrite (get_next_ok _ x next) by done. cbn [mbind cres_bind].
  rewrite set_next_ok by eauto. cbn [mbind cres_bind].
  assert (NoDup (stack_head :: concat segs ++ x :: rest)) as Hnd' by done.
  rewrite <- Permutation_middle, !NoDup_cons in Hnd'. destruct Hnd' as (Hs & Hx' & Hnd').
  assert (x ≠ stack_head) as Hxs by (clear -Hs; set_solver).
  pose proof (detach_frame m x Hst Hxs) as Hf1. set (m1 := LMem _ _) in *.
  destruct (sort_carry_spec (S fuel) m1 part 0 x segs [x])
    as (r0 & r1 & cur & part' & m2 & cs & E & Hsegs & Hp2 & Hc2 & Hf2 & Hstab).
  - simpl. eapply chains_frame; [|exact Hp]. intros y Hy. apply Hf1. clear -Hy Hs Hx'. set_solver.
  - simpl. split_and!; [done..|]. eexists. split; [apply lookup_insert_eq|done].
  - rewrite (Permutation_app_comm _ [x]). simpl. rewrite !NoDup_cons.
    apply NoDup_app in Hnd' as (? & _). clear -Hs Hx' H Hxs. set_solver.
  - apply Hf1.
  - destruct Hlv as (H1 & H2 & H3 & _).
    destruct (lookup_lt_is_Some_2 segs (length segs - 1)) as [s Hl]; [lia|].
    rewrite (H3 (length segs - 1)%nat s ltac:(lia) Hl) in Hl. by eapply list_elem_of_lookup_2.
  - apply Hlv.
  - constructor; constructor.
  - rewrite length_app in *. simpl in *. lia.
  - rewrite E. cbn [mbind cres_bind]. simpl in Hp2. rewrite (chains_length _ _ _ Hp2).
    rewrite length_app, length_replicate. subst segs. rewrite <- (length_app r0 ([] :: r1)).
    destruct (place _ _ _) as [lev max'] eqn:Epl.
    destruct Hstab as (Hs1 & Hs2 & Hs3).
    destruct (place_spec r0 r1 cs max_lev lev max' Hlv Hs1 Epl) as (Hb & Hlen & Hlv' & Hperm & Hrev).
    set (segs' := <[lev := cs]> _) in *. rewrite decide_True by done.
    assert (concat segs' ++ rest ≡ₚ concat (r0 ++ [] :: r1) ++ x :: rest) as Hperm2.
    { rewrite Hperm, Hs2, concat_app. simpl.
      rewrite (concat_rev_perm r0), <- !app_assoc. f_equiv.
      apply (Permutation_middle (concat r1)). }
    assert (frame m m2 (concat (r0 ++ [] :: r1) ++ x :: rest)) as Hf12.
    { eapply (frame_trans _ m1); [|exact Hf1|]; [clear; set_solver|].
      destruct Hf2 as (F1 & F2 & F3). split_and!; [done..|]. intros y Hy. apply F3. clear -Hy. set_solver. }
    destruct (IH m2 (<[lev:=cur]> part') segs' max' next rest) as
      (mx & p3 & sg3 & m3 & E3 & Hp3 & Hlv3 & Hln3 & Hf3 & Hpm3 & Heq3).
    + by apply Forall2_insert.
    + done.
    + eapply chain_frame; [|exact Hrest]. intros y Hy.
      destruct Hf2 as (_ & _ & F3). rewrite F3.
      * apply Hf1. clear -Hy Hx' Hs. set_solver.
      * apply NoDup_app in Hnd' as (_ & Hd & _). specialize (Hd y). clear -Hy Hx' Hs Hd. set_solver.
    + by rewrite Hperm2.
    + apply Hf2.
    + rewrite Hlen, Hperm2. rewrite !length_app in *. simpl in *. lia.
    + exists mx, p3, sg3, m3. split_and!; [done..|congruence| | |].
      * eapply frame_trans; [|exact Hf12|]; [done|].
        destruct Hf3 as (F1 & F2 & F3). split_and!; [done..|]. intros y Hy. apply F3. by rewrite Hperm2.
      * by rewrite Hpm3.
      * intros z. rewrite Heq3, Hrev, rev_app_distr. simpl. rewrite !concat_app. simpl.
        rewrite !app_nil_r. change (x :: rest) with ([x] ++ rest).
        unfold eqclass in *. rewrite !filter_app, Hs3, !filter_app. by rewrite <- !app_assoc.
Qed.

Lemma sort_collect_spec fuel m part lev l tl ls :
  chains (nx m) (take (length tl) (drop lev part)) tl -> chain (nx m) l ls ->
  NoDup (stack_head :: concat tl ++ ls) -> is_Some (nx m !! stack_head) ->
  Forall (StronglySorted le) tl -> StronglySorted le ls ->
  (length (concat tl ++ ls) < fuel)%nat ->
  exists q m' ls',
    sort_collect cmp stack_head fuel m part (length tl) lev l = Ok (q, m') /\
    chain (nx m') q ls' /\ frame m m' (concat tl ++ ls) /\
    stable_of (concat (rev tl) ++ ls) ls'.
Proof.
  revert m lev l ls. induction tl as [|s tl IH]; intros m lev l ls Hp Hc Hnd Hst Hso Hls Hf.
  { exists l, m, ls. by split_and!. }
  destruct (drop lev part) as [|p ps] eqn:Ed; [by inversion Hp|].
  assert (part !! lev = Some p /\ drop (S lev) part = ps) as [Hl Hd].
  { split; [by rewrite <- (Nat.add_0_r lev), <- lookup_drop, Ed|].
    replace (S lev) with (lev + 1)%nat by lia. by rewrite <- drop_drop, Ed. }
  apply Forall2_cons in Hp as [Hps Hp]. apply Forall_cons in Hso as [Hs1 Hs2].
  cbn [length sort_collect]. rewrite Hl. cbn [of_opt mbind cres_bind].
  pose proof (chain_null _ _ _ Hps) as Hnil. simpl in Hnd, Hf. case_decide as Hdd.
  - rewrite (proj1 Hnil Hdd) in *. subst ps. simpl in *.
    destruct (IH m (S lev) l ls) as (q & m' & ls' & E & Hc' & Hfr & Hstab); [done..|].
    exists q, m', ls'. rewrite concat_app. simpl. rewrite app_nil_r. by split_and!.
  - rewrite <- app_assoc in Hnd, Hf.
    assert (NoDup (stack_head :: (s ++ ls) ++ concat tl)) as Hnd2.
    { by rewrite <- app_assoc, (Permutation_app_comm ls). }
    rewrite app_comm_cons in Hnd2. apply NoDup_app in Hnd2 as (Hnd2 & Hdis & Hnd3).
    rewrite !length_app in Hf.
    destruct (merge_spec fuel m p l s ls) as (q & m1 & E & Hfr & Hc1); [done..|lia|].
    rewrite E. cbn [mbind cres_bind]. subst ps.
    destruct (IH m1 (S lev) q (lmerge s ls)) as (q' & m' & ls' & E' & Hc' & Hfr' & Hstab).
    + eapply chains_frame; [|exact Hp]. intros x Hx. apply Hfr. clear -Hx Hnd Hdis. set_solver.
    + done.
    + rewrite lmerge_perm, (Permutation_app_comm (concat tl)), <- app_assoc.
      by rewrite (Permutation_app_comm ls).
    + apply Hfr.
    + done.
    + by apply lmerge_sorted.
    + rewrite length_app, lmerge_perm, !length_app. lia.
    + exists q', m', ls'. simpl. split_and!; [done..| |].
      * eapply frame_trans; [|exact Hfr|]; [clear; set_solver|].
        destruct Hfr' as (F1 & F2 & F3). split_and!; [done..|].
        intros x Hx. apply F3. rewrite lmerge_perm. clear -Hx. set_solver.
      * rewrite concat_app. simpl. rewrite app_nil_r, <- app_assoc.
        eapply stable_of_trans; [| |exact Hstab].
        -- by rewrite lmerge_perm.
        -- intros z. unfold eqclass. rewrite !filter_app. f_equal. by apply lmerge_eqclass.
Qed.

(** Cutting a ring open: the source's [head->prev->next = NULL]. *)
Lemma lseg_chain m a xs z b :
  lseg m a (xs ++ [z]) b -> NoDup (xs ++ [z]) -> NULL ∉ xs ++ [z] ->
  exists x, nx m !! a = Some x /\ head (xs ++ [z]) = Some x /\
    chain (<[z := NULL]> (nx m)) x (xs ++ [z]).
Proof.
  revert a. induction xs as [|y xs IH]; intros a Hs Hnd Hnull; simpl in *.
  - destruct Hs as [[H1 H2] [H3 H4]]. exists z. split_and!; try done.
    + intros ->. apply Hnull, list_elem_of_here.
    + exists NULL. split; [apply lookup_insert_eq|done].
  - destruct Hs as [[H1 H2] Hs]. apply NoDup_cons in Hnd as [Hy Hnd].
    destruct (IH y Hs Hnd) as (x & Hx & Hh & Hc).
    { intros ?. by apply Hnull, list_elem_of_further. }
    exists y. split_and!; [done|done|done| |].
    + intros ->. apply Hnull, list_elem_of_here.
    + exists x. split; [|done]. rewrite lookup_insert_ne; [done|]. intros ->.
      apply Hy, elem_of_app. right. apply list_elem_of_here.
Qed.

(** The levels at and below [max_lev] hold all the nodes. *)
Lemma levels_split segs mx :
  levels_ok segs mx -> exists low top,
    length low = mx /\ segs !! mx = Some top /\ take mx segs = low /\
    concat segs = concat low ++ top /\ concat (rev segs) = top ++ concat (rev low).
Proof.
  intros (Hsz & Hmx & Hemp & _).
  destruct (lookup_lt_is_Some_2 segs mx) as [top Htop]; [lia|].
  pose proof (take_drop_middle segs mx top Htop) as Hsp.
  assert (drop (S mx) segs = replicate (length segs - S mx) []) as Hhi.
  { symmetry. apply replicate_as_elem_of. rewrite length_drop. split; [done|].
    intros a [i Ha]%list_elem_of_lookup. rewrite lookup_drop in Ha. apply Hemp in Ha; [done|lia]. }
  exists (take mx segs), top. split_and!; [rewrite length_take; lia|done|done| |].
  - rewrite <- Hsp at 1. rewrite Hhi, concat_app. simpl.
    rewrite <- (app_nil_r (replicate _ [])), concat_replicate_nil. simpl. by rewrite app_nil_r.
  - rewrite <- Hsp at 1. rewrite Hhi, rev_app_distr. simpl.
    rewrite <- app_assoc, concat_app. simpl. rewrite <- (app_nil_r (replicate _ [])).
    by rewrite concat_rev_replicate_nil.
Qed.

Lemma sort_finish fuel m part segs mx head :
  chains (nx m) part segs -> levels_ok segs mx ->
  NoDup (stack_head :: head :: concat segs) -> NULL ∉ head :: concat segs ->
  is_Some (nx m !! stack_head) -> is_Some (nx m !! head) -> is_Some (pv m !! head) ->
  (forall p, p ∈ concat segs -> is_Some (pv m !! p)) ->
  concat segs ≠ [] -> (length (concat segs) < fuel)%nat ->
  exists m' ys,
    ('(l, m) ← sort_collect cmp stack_head fuel m part mx 0 NULL;
     p ← of_opt (part !! mx);
     adx_list_merge_and_restore_back_links cmp fuel m head p l) = Ok m' /\
    ring m' head ys /\ stable_of (concat (rev segs)) ys.
Proof.
  intros Hp Hlv Hnd Hnull Hst Hn1 Hp1 Hl Hne Hf.
  destruct (levels_split _ _ Hlv) as (low & top & Hlen & Htop & Htake & Hcat & Hrev).
  destruct Hlv as (Hsz & Hmx & _ & Hso).
  assert (Forall (StronglySorted le) low) as Hslow by (rewrite <- Htake; by apply Forall_take).
  assert (StronglySorted le top) as Hstop by (by eapply (Forall_lookup_1 _ _ _ _ Hso)).
  rewrite Hcat in *. rewrite Hrev.
  apply NoDup_cons in Hnd as [Hsh Hnd]. apply NoDup_cons in Hnd as [Hhd Hnd].
  pose proof Hnd as (Hndl & Hdis & Hndt)%NoDup_app.
  destruct (sort_collect_spec fuel m part 0 NULL low []) as (l & m1 & ls & E1 & Hc1 & Hf1 & Hst1);
    rewrite ?app_nil_r; try done.
  - rewrite Hlen, drop_0, <- Htake. by apply Forall2_take.
  - apply NoDup_cons. split; [clear -Hsh; set_solver|done].
  - constructor.
  - rewrite length_app in Hf. lia.
  - rewrite Hlen in E1. rewrite E1. cbn [mbind cres_bind]. rewrite app_nil_r in *.
    destruct (Forall2_lookup_r _ _ _ _ _ Hp Htop) as (p & Hpm & Hpc). rewrite Hpm.
    cbn [of_opt mbind cres_bind]. destruct Hf1 as (F1 & F2 & F3).
    assert (top ++ ls ≡ₚ concat low ++ top) as Hperm.
    { destruct Hst1 as (_ & -> & _). by rewrite concat_rev_perm, Permutation_app_comm. }
    destruct (merge_and_restore_ring fuel m1 head p l top ls) as (m' & E2 & Hring).
    + eapply chain_frame; [|exact Hpc]. intros x Hx. apply F3. clear -Hx Hdis Hsh. set_solver.
    + done.
    + rewrite Hperm. by apply NoDup_cons.
    + by rewrite Hperm.
    + rewrite F3; [done|]. clear -Hhd Hsh. set_solver.
    + by rewrite F1.
    + intros x. rewrite Hperm, F1. apply Hl.
    + intros E. apply Hne. symmetry. apply Permutation_nil_l. by rewrite <- Hperm, E.
    + rewrite <- length_app, Hperm. done.
    + exists m', (lmerge top ls). split_and!; [done..|]. apply stable_of_merge; [|done].
      by apply stable_of_sorted.
Qed.

Lemma adx_list_sort_ring fuel m head xs size :
  ring m head xs -> (2 <= size)%nat -> stack_head ∉ head :: xs ->
  is_Some (nx m !! stack_head) -> (2 * length xs + size + 1 < fuel)%nat ->
  exists m' ys, adx_list_sort cmp stack_head fuel m head size = Ok m' /\
    ring m' head ys /\ stable_of xs ys.
Proof.
  intros Hr Hsize Hsh Hst Hf. unfold adx_list_sort.
  rewrite (adx_list_empty_ring m head xs) by done. cbn [mbind cres_bind].
  destruct xs as [|z zs _] using rev_ind.
  { rewrite bool_decide_eq_true_2 by done. exists m, []. split; [done|]. split; [done|].
    apply stable_of_sorted. constructor. }
  rewrite bool_decide_eq_false_2 by (by destruct zs).
  destruct Hr as (Hseg & Hnd & Hnull).
  apply NoDup_cons in Hnd as [Hhd Hnd]. rewrite not_elem_of_cons in Hnull. destruct Hnull as [Hhn Hnull].
  apply not_elem_of_cons in Hsh as [Hsh1 Hsh2].
  pose proof (proj1 (lseg_app m zs [] head z head) Hseg) as [_ [Hz1 Hz2]].
  destruct (lseg_live _ _ _ _ Hseg) as [Hlivn Hlivp].
  destruct (lseg_chain _ _ _ _ _ Hseg Hnd Hnull) as (x & Hx & _ & Hc).
  rewrite (get_prev_ok _ head z) by done. cbn [mbind cres_bind].
  rewrite set_next_ok by eauto. cbn [mbind cres_bind].
  assert (head ≠ z /\ stack_head ≠ z) as [Hhz Hshz] by (clear -Hhd Hsh2; set_solver).
  rewrite (get_next_ok _ head x) by (simpl; by rewrite lookup_insert_ne). cbn [mbind cres_bind].
  set (m1 := LMem _ _). set (xs := zs ++ [z]) in *.
  destruct (sort_distribute_spec fuel m1 (replicate size NULL) (replicate size []) 0 x xs)
    as (mx & part & segs & m2 & E2 & Hp2 & Hlv2 & Hln2 & Hf2 & Hpm2 & Heq2).
  - apply Forall2_replicate. done.
  - unfold levels_ok. rewrite length_replicate. split_and!; [done|lia| |].
    + intros i s _ Hs. by apply lookup_replicate in Hs as [-> _].
    + apply Forall_replicate. constructor.
  - exact Hc.
  - rewrite concat_replicate_nil'. simpl. by apply NoDup_cons.
  - simpl. by rewrite lookup_insert_ne.
  - rewrite concat_replicate_nil', length_replicate. simpl. lia.
  - rewrite E2. cbn [mbind cres_bind]. rewrite concat_replicate_nil' in Hf2, Hpm2. simpl in Hf2, Hpm2.
    destruct Hf2 as (F1 & F2 & F3).
    destruct (sort_finish fuel m2 part segs mx head) as (m' & ys & E3 & Hring & Hstab).
    + done.
    + done.
    + rewrite Hpm2, !NoDup_cons. clear -Hhd Hnd Hsh1 Hsh2. set_solver.
    + rewrite Hpm2. clear -Hhn Hnull. set_solver.
    + done.
    + rewrite F3 by (clear -Hhd Hsh1; set_solver). simpl. by rewrite lookup_insert_ne.
    + rewrite F1. simpl. apply Hlivp. clear. set_solver.
    + intros p Hin. rewrite F1. simpl. apply Hlivp. rewrite Hpm2 in Hin. by apply elem_of_app; left.
    + intros E. rewrite E in Hpm2. apply Permutation_nil_l in Hpm2. by destruct zs.
    + rewrite Hpm2. lia.
    + exists m', ys. split; [done|]. split; [done|].
      eapply stable_of_trans; [| |exact Hstab].
      * by rewrite concat_rev_perm, Hpm2.
      * intros w. rewrite Heq2, rev_replicate_nil. done.
Qed.
End Sort.

(** C25: [adx_list_sort] is a stable sort.  On a well-formed list of any
    length, with any [size] of at least 2 for the [part] array, the pointer
    merge sort stays inside [part], terminates, leaves a well-formed circular
    list (both directions of links) that is a permutation of the input, in
    the order of [cmp], and in which the nodes [cmp] does not separate keep
    the order they had. *)
Theorem adx_list_sort_stable (cmp : Z -> Z -> Z) stack_head fuel m head xs size :
  (forall a b c, cmp a b <= 0 -> cmp b c <= 0 -> cmp a c <= 0) ->
  (forall a b, cmp a b <= 0 \/ cmp b a <= 0) ->
  ring m head xs -> (2 <= size)%nat -> stack_head ∉ head :: xs ->
  is_Some (nx m !! stack_head) -> (2 * length xs + size + 1 < fuel)%nat ->
  exists m' ys, adx_list_sort cmp stack_head fuel m head size = Ok m' /\
    ring m' head ys /\ ys ≡ₚ xs /\ StronglySorted (fun a b => cmp a b <= 0) ys /\
    (forall z, filter (fun x => cmp z x <= 0 ∧ cmp x z <= 0) ys =
               filter (fun x => cmp z x <= 0 ∧ cmp x z <= 0) xs).
Proof.
  intros Htr Hto Hr Hs Hsh Hst Hf.
  destruct (adx_list_sort_ring cmp stack_head Htr Hto fuel m head xs size)
    as (m' & ys & E & Hr' & H1 & H2 & H3); [done..|].
  exists m', ys. split_and!; try done. 
Qed.

Definition sort_mem : lmem :=
  LMem {[100 := 24; 24 := 8; 8 := 16; 16 := 31; 31 := 100; 1000 := 0]}
       {[24 := 100; 8 := 24; 16 := 8; 31 := 16; 100 := 31]}.

(** A comparison that does not separate the nodes of one block of twenty. *)
Lemma adx_list_sort_stable_witness :
  exists m' ys, adx_list_sort (fun a b => a / 20 - b / 20) 1000 20 sort_mem 100 5 = Ok m' /\
    ring m' 100 ys /\ ys ≡ₚ [24; 8; 16; 31] /\
    StronglySorted (fun a b => a / 20 - b / 20 <= 0) ys /\
    (forall z, filter (fun x => z / 20 - x / 20 <= 0 ∧ x / 20 - z / 20 <= 0) ys =
               filter (fun x => z / 20 - x / 20 <= 0 ∧ x / 20 - z / 20 <= 0) [24; 8; 16; 31]).
Proof.
  apply (adx_list_sort_stable (fun a b => a / 20 - b / 20) 1000 20 sort_mem 100 [24; 8; 16; 31] 5).
  - intros. lia.
  - intros. lia.
  - split; [repeat split; reflexivity|]. split; [|unfold NULL; rewrite !elem_of_cons, elem_of_nil; lia].
    apply (bool_decide_unpack (NoDup [100; 24; 8; 16; 31])). vm_compute. exact I.
  - lia.
  - rewrite !elem_of_cons, elem_of_nil. lia.
  - eexists. reflexivity.
  - simpl. lia.
Defined.
