(* ===== verification/AdxRbtree.v ===== *)
(** Red-black trees: adx_dsp/src/adx_rbtree.h and adx_rbtree.c.

    The memory maps the address of a node to its fields.  As in the source,
    the parent pointer and the colour share one word: nodes are aligned to
    four bytes, the low bit is the colour (1 is black) and the rest is the
    parent.  The union of the node is a number or a string pointer. *)

From Stdlib Require Import ZArith Lia.
From S2P Require Import Prelude.

Open Scope Z_scope.

Module Rb.

Definition NULL : Z := 0.

(** The union of a node; [KStr None] is a NULL string. *)
Inductive rbkey : Type :=
| KNum (number : Z)
| KStr (str : option bytes).

Record rbnode := Node {
  rb_parent_color : Z;
  rb_right : Z;
  rb_left : Z;
  rb_key : rbkey }.

(** The nodes and the [rb_node] field of the head. *)
Record rbs := Rbs { heap : gmap Z rbnode; rb_node : Z }.

Definition rd (s : rbs) (p : Z) : cres rbnode := of_opt (heap s !! p).
Definition upd (s : rbs) (p : Z) (f : rbnode -> rbnode) : cres rbs :=
  n ← rd s p; mret (Rbs (<[p := f n]> (heap s)) (rb_node s)).

Definition set_right (v : Z) (n : rbnode) : rbnode :=
  Node (rb_parent_color n) v (rb_left n) (rb_key n).
Definition set_left (v : Z) (n : rbnode) : rbnode :=
  Node (rb_parent_color n) (rb_right n) v (rb_key n).
Definition set_pc (v : Z) (n : rbnode) : rbnode :=
  Node v (rb_right n) (rb_left n) (rb_key n).
Definition set_root (v : Z) (s : rbs) : rbs := Rbs (heap s) v.

(** The macros of the header. *)
Definition rb_parent (n : rbnode) : Z := Z.land (rb_parent_color n) (Z.lnot 3).
Definition rb_color (n : rbnode) : Z := Z.land (rb_parent_color n) 1.
Definition rb_is_red (n : rbnode) : bool := bool_decide (rb_color n = 0).
Definition rb_is_black (n : rbnode) : bool := bool_decide (rb_color n ≠ 0).
Definition rb_set_red (s : rbs) (p : Z) : cres rbs :=
  upd s p (fun n => set_pc (Z.land (rb_parent_color n) (Z.lnot 1)) n).
Definition rb_set_black (s : rbs) (p : Z) : cres rbs :=
  upd s p (fun n => set_pc (Z.lor (rb_parent_color n) 1) n).

Definition adx_rbtree_set_parent (s : rbs) (rb p : Z) : cres rbs :=
  upd s rb (fun n => set_pc (Z.lor (Z.land (rb_parent_color n) 3) p) n).
Definition adx_rbtree_set_color (s : rbs) (rb color : Z) : cres rbs :=
  upd s rb (fun n => set_pc (Z.lor (Z.land (rb_parent_color n) (Z.lnot 1)) color) n).

(** The [rb_node **] a descent ends at: the root field or a child field. *)
Inductive slot : Type :=
| SRoot
| SLeft (p : Z)
| SRight (p : Z).

Definition read_slot (s : rbs) (l : slot) : cres Z :=
  match l with
  | SRoot => mret (rb_node s)
  | SLeft p => n ← rd s p; mret (rb_left n)
  | SRight p => n ← rd s p; mret (rb_right n)
  end.
Definition write_slot (s : rbs) (l : slot) (v : Z) : cres rbs :=
  match l with
  | SRoot => mret (set_root v s)
  | SLeft p => upd s p (set_left v)
  | SRight p => upd s p (set_right v)
  end.

Definition adx_rbtree_link_node (s : rbs) (node parent : Z) (rb_link : slot) : cres rbs :=
  s ← upd s node (set_pc parent);
  s ← upd s node (set_right NULL);
  s ← upd s node (set_left NULL);
  write_slot s rb_link node.

Definition adx_rbtree_rotate_left (s : rbs) (node : Z) : cres rbs :=
  nd ← rd s node;
  let right := rb_right nd in
  let parent := rb_parent nd in
  rn ← rd s right;
  s ← upd s node (set_right (rb_left rn));
  s ← (if decide (rb_left rn ≠ NULL) then adx_rbtree_set_parent s (rb_left rn) node else mret s);
  s ← upd s right (set_left node);
  s ← adx_rbtree_set_parent s right parent;
  s ← (if decide (parent ≠ NULL) then
         pn ← rd s parent;
         if decide (rb_left pn = node) then upd s parent (set_left right)
         else upd s parent (set_right right)
       else mret (set_root right s));
  adx_rbtree_set_parent s node right.

Definition adx_rbtree_rotate_right (s : rbs) (node : Z) : cres rbs :=
  nd ← rd s node;
  let left := rb_left nd in
  let parent := rb_parent nd in
  ln ← rd s left;
  s ← upd s node (set_left (rb_right ln));
  s ← (if decide (rb_right ln ≠ NULL) then adx_rbtree_set_parent s (rb_right ln) node else mret s);
  s ← upd s left (set_right node);
  s ← adx_rbtree_set_parent s left parent;
  s ← (if decide (parent ≠ NULL) then
         pn ← rd s parent;
         if decide (rb_right pn = node) then upd s parent (set_right left)
         else upd s parent (set_left left)
       else mret (set_root left s));
  adx_rbtree_set_parent s node left.

(** [p && rb_is_red(p)], [!p || rb_is_black(p)] *)
Definition nonnull_red (s : rbs) (p : Z) : cres bool :=
  if decide (p ≠ NULL) then n ← rd s p; mret (rb_is_red n) else mret false.
Definition null_or_black (s : rbs) (p : Z) : cres bool :=
  if decide (p = NULL) then mret true else n ← rd s p; mret (rb_is_black n).

(** The loop of [adx_rbtree_insert_color]. *)
Fixpoint insert_color_loop (fuel : nat) (s : rbs) (node : Z) : cres rbs :=
  match fuel with
  | O => NoFuel
  | S fuel =>
      nd ← rd s node;
      let parent := rb_parent nd in
      red ← nonnull_red s parent;
      if negb red then mret s else
      pn ← rd s parent;
      let gparent := rb_parent pn in
      gn ← rd s gparent;
      if decide (parent = rb_left gn) then
        let uncle := rb_right gn in
        ured ← nonnull_red s uncle;
        if (ured : bool) then
          s ← rb_set_black s uncle;
          s ← rb_set_black s parent;
          s ← rb_set_red s gparent;
          insert_color_loop fuel s gparent
        else
          '(s, parent, node) ←
            (if decide (rb_right pn = node) then
               s ← adx_rbtree_rotate_left s parent; mret (s, node, parent)
             else mret (s, parent, node));
          s ← rb_set_black s parent;
          s ← rb_set_red s gparent;
          s ← adx_rbtree_rotate_right s gparent;
          insert_color_loop fuel s node
      else
        let uncle := rb_left gn in
        ured ← nonnull_red s uncle;
        if (ured : bool) then
          s ← rb_set_black s uncle;
          s ← rb_set_black s parent;
          s ← rb_set_red s gparent;
          insert_color_loop fuel s gparent
        else
          '(s, parent, node) ←
            (if decide (rb_left pn = node) then
               s ← adx_rbtree_rotate_right s parent; mret (s, node, parent)
             else mret (s, parent, node));
          s ← rb_set_black s parent;
          s ← rb_set_red s gparent;
          s ← adx_rbtree_rotate_left s gparent;
          insert_color_loop fuel s node
  end.

Definition adx_rbtree_insert_color (fuel : nat) (s : rbs) (node : Z) : cres rbs :=
  s ← insert_color_loop fuel s node;
  rb_set_black s (rb_node s).

(** The loop of [adx_rbtree_delete_color]; it returns the last [node]. *)
Fixpoint delete_color_loop (fuel : nat) (s : rbs) (node parent : Z) : cres (Z * rbs) :=
  match fuel with
  | O => NoFuel
  | S fuel =>
      nb ← null_or_black s node;
      if negb (nb && bool_decide (node ≠ rb_node s)) then mret (node, s) else
      pn ← rd s parent;
      if decide (rb_left pn = node) then
        let other := rb_right pn in
        on ← rd s other;
        '(s, other) ←
          (if rb_is_red on then
             s ← rb_set_black s other;
             s ← rb_set_red s parent;
             s ← adx_rbtree_rotate_left s parent;
             pn ← rd s parent; mret (s, rb_right pn)
           else mret (s, other));
        on ← rd s other;
        lb ← null_or_black s (rb_left on);
        rb ← (if (lb : bool) then null_or_black s (rb_right on) else mret false);
        if (rb : bool) then
          s ← rb_set_red s other;
          let node := parent in
          nd ← rd s node;
          delete_color_loop fuel s node (rb_parent nd)
        else
          far ← null_or_black s (rb_right on);
          '(s, other) ←
            (if (far : bool) then
               s ← rb_set_black s (rb_left on);
               s ← rb_set_red s other;
               s ← adx_rbtree_rotate_right s other;
               pn ← rd s parent; mret (s, rb_right pn)
             else mret (s, other));
          pn ← rd s parent;
          s ← adx_rbtree_set_color s other (rb_color pn);
          s ← rb_set_black s parent;
          on ← rd s other;
          s ← rb_set_black s (rb_right on);
          s ← adx_rbtree_rotate_left s parent;
          mret (rb_node s, s)
      else
        let other := rb_left pn in
        on ← rd s other;
        '(s, other) ←
          (if rb_is_red on then
             s ← rb_set_black s other;
             s ← rb_set_red s parent;
             s ← adx_rbtree_rotate_right s parent;
             pn ← rd s parent; mret (s, rb_left pn)
           else mret (s, other));
        on ← rd s other;
        lb ← null_or_black s (rb_left on);
        rb ← (if (lb : bool) then null_or_black s (rb_right on) else mret false);
        if (rb : bool) then
          s ← rb_set_red s other;
          let node := parent in
          nd ← rd s node;
          delete_color_loop fuel s node (rb_parent nd)
        else
          far ← null_or_black s (rb_left on);
          '(s, other) ←
            (if (far : bool) then
               s ← rb_set_black s (rb_right on);
               s ← rb_set_red s other;
               s ← adx_rbtree_rotate_left s other;
               pn ← rd s parent; mret (s, rb_left pn)
             else mret (s, other));
          pn ← rd s parent;
          s ← adx_rbtree_set_color s other (rb_color pn);
          s ← rb_set_black s parent;
          on ← rd s other;
          s ← rb_set_black s (rb_left on);
          s ← adx_rbtree_rotate_right s parent;
          mret (rb_node s, s)
  end.

Definition adx_rbtree_delete_color (fuel : nat) (s : rbs) (node parent : Z) : cres rbs :=
  '(node, s) ← delete_color_loop fuel s node parent;
  if decide (node ≠ NULL) then rb_set_black s node else mret s.

(** [while ((left = node->rb_left) != NULL) node = left;] *)
Fixpoint leftmost_loop (fuel : nat) (s : rbs) (node : Z) : cres Z :=
  match fuel with
  | O => NoFuel
  | S fuel =>
      nd ← rd s node;
      if decide (rb_left nd ≠ NULL) then leftmost_loop fuel s (rb_left nd) else mret node
  end.

(** The end of [adx_rbtree_delete], for a node with at most one child. *)
Definition delete_unlink (fuel : nat) (s : rbs) (node child : Z) : cres rbs :=
  nd ← rd s node;
  let parent := rb_parent nd in
  let color := rb_color nd in
  s ← (if decide (child ≠ NULL) then adx_rbtree_set_parent s child parent else mret s);
  s ← (if decide (parent ≠ NULL) then
         pn ← rd s parent;
         if decide (rb_left pn = node) then upd s parent (set_left child)
         else upd s parent (set_right child)
       else mret (set_root child s));
  if decide (color = 1) then adx_rbtree_delete_color fuel s child parent else mret s.

Definition adx_rbtree_delete (fuel : nat) (s : rbs) (node : Z) : cres rbs :=
  nd ← rd s node;
  if decide (rb_left nd = NULL) then delete_unlink fuel s node (rb_right nd)
  else if decide (rb_right nd = NULL) then delete_unlink fuel s node (rb_left nd)
  else
    let old := node in
    node ← leftmost_loop fuel s (rb_right nd);
    s ← (if decide (rb_parent nd ≠ NULL) then
           pn ← rd s (rb_parent nd);
           if decide (rb_left pn = old) then upd s (rb_parent nd) (set_left node)
           else upd s (rb_parent nd) (set_right node)
         else mret (set_root node s));
    nn ← rd s node;
    let child := rb_right nn in
    let parent := rb_parent nn in
    let color := rb_color nn in
    '(s, parent) ←
      (if decide (parent = old) then mret (s, node)
       else
         s ← (if decide (child ≠ NULL) then adx_rbtree_set_parent s child parent else mret s);
         s ← upd s parent (set_left child);
         on ← rd s old;
         s ← upd s node (set_right (rb_right on));
         s ← adx_rbtree_set_parent s (rb_right on) node;
         mret (s, parent));
    on ← rd s old;
    s ← upd s node (set_pc (rb_parent_color on));
    on ← rd s old;
    s ← upd s node (set_left (rb_left on));
    s ← adx_rbtree_set_parent s (rb_left on) node;
    if decide (color = 1) then adx_rbtree_delete_color fuel s child parent else mret s.

(** The [number] or [string] member of the union. *)
Definition number (n : rbnode) : cres Z :=
  match rb_key n with KNum k => mret k | KStr _ => UB end.
Definition str (n : rbnode) : cres (option bytes) :=
  match rb_key n with KStr k => mret k | KNum _ => UB end.

Fixpoint string_add_loop (fuel : nat) (s : rbs) (new_node : Z) (new_string : bytes)
    (p : slot) (parent node : Z) : cres (Z * rbs) :=
  match fuel with
  | O => NoFuel
  | S fuel' =>
      cur ← read_slot s p;
      if decide (cur ≠ NULL) then
        n ← rd s cur;
        k ← str n;
        match k with
        | None => mret (NULL, s)
        | Some k =>
            let retval := strcmp new_string k in
            if decide (retval < 0) then string_add_loop fuel' s new_node new_string (SLeft cur) cur cur
            else if decide (retval > 0) then
              string_add_loop fuel' s new_node new_string (SRight cur) cur cur
            else mret (NULL, s)
        end
      else
        s ← adx_rbtree_link_node s new_node parent p;
        s ← adx_rbtree_insert_color fuel s new_node;
        mret (node, s)
  end.

Definition adx_rbtree_string_add (fuel : nat) (s : rbs) (new_node : Z) : cres (Z * rbs) :=
  n ← rd s new_node;
  k ← str n;
  match k with
  | None => mret (NULL, s)
  | Some k => string_add_loop fuel s new_node k SRoot NULL NULL
  end.

Fixpoint string_find_loop (fuel : nat) (s : rbs) (key : bytes) (p : Z) : cres Z :=
  match fuel with
  | O => NoFuel
  | S fuel =>
      if decide (p = NULL) then mret NULL else
      n ← rd s p;
      k ← str n;
      match k with
      | None => mret NULL
      | Some k =>
          let retval := strcmp key k in
          if decide (retval < 0) then string_find_loop fuel s key (rb_left n)
          else if decide (retval > 0) then string_find_loop fuel s key (rb_right n)
          else mret p
      end
  end.

Definition adx_rbtree_string_find (fuel : nat) (s : rbs) (key : option bytes) : cres Z :=
  match key with
  | None => mret NULL
  | Some key => string_find_loop fuel s key (rb_node s)
  end.

Fixpoint number_add_loop (fuel : nat) (s : rbs) (new_node : Z)
    (p : slot) (parent node : Z) : cres (Z * rbs) :=
  match fuel with
  | O => NoFuel
  | S fuel' =>
      cur ← read_slot s p;
      if decide (cur ≠ NULL) then
        nn ← rd s new_node;
        new_number ← number nn;
        n ← rd s cur;
        k ← number n;
        if decide (new_number < k) then number_add_loop fuel' s new_node (SLeft cur) cur cur
        else if decide (new_number > k) then number_add_loop fuel' s new_node (SRight cur) cur cur
        else mret (NULL, s)
      else
        s ← adx_rbtree_link_node s new_node parent p;
        s ← adx_rbtree_insert_color fuel s new_node;
        mret (node, s)
  end.

Definition adx_rbtree_number_add (fuel : nat) (s : rbs) (new_node : Z) : cres (Z * rbs) :=
  number_add_loop fuel s new_node SRoot NULL NULL.

Fixpoint number_find_loop (fuel : nat) (s : rbs) (key : Z) (p : Z) : cres Z :=
  match fuel with
  | O => NoFuel
  | S fuel =>
      if decide (p = NULL) then mret NULL else
      n ← rd s p;
      k ← number n;
      if decide (key < k) then number_find_loop fuel s key (rb_left n)
      else if decide (key > k) then number_find_loop fuel s key (rb_right n)
      else mret p
  end.

Definition adx_rbtree_number_find (fuel : nat) (s : rbs) (key : Z) : cres Z :=
  number_find_loop fuel s key (rb_node s).

(** The traversal of the print functions (whose output is commented out):
    the nodes in the order they are visited. *)
Fixpoint _adx_rbtree_print (fuel : nat) (s : rbs) (p : Z) : cres (list Z) :=
  match fuel with
  | O => NoFuel
  | S fuel =>
      n ← rd s p;
      l ← (if decide (rb_left n ≠ NULL) then _adx_rbtree_print fuel s (rb_left n) else mret []);
      r ← (if decide (rb_right n ≠ NULL) then _adx_rbtree_print fuel s (rb_right n) else mret []);
      mret (p :: l ++ r)
  end.

Definition adx_rbtree_print (fuel : nat) (s : rbs) : cres (list Z) :=
  if decide (rb_node s = NULL) then mret [] else _adx_rbtree_print fuel s (rb_node s).

End Rb.
