(* ===== verification/AdxRbtreeRep.v ===== *)
(** The memory of a red-black tree and the primitive steps on it.

    [tree] is a tree with the addresses and colours of its nodes; a context
    [list frame] is the path from a subtree to the root.  [at_hole s ctx t]
    says that the memory holds the tree [plug ctx t], seen from the subtree
    [t].  The lemmas give the effect of every primitive of the source
    (colour and parent updates, relinking, rotations) on this view. *)

From Stdlib Require Import ZArith Lia.
From S2P Require Import Prelude AdxRbtree.
Import Rb.

Open Scope Z_scope.

(** ** The word that holds the parent and the colour *)

#[global] Abbreviation black := true (only parsing).
#[global] Abbreviation red := false (only parsing).
Definition word (c : bool) (p : Z) : Z := p + Z.b2z c.
Definition aligned (p : Z) : Prop := exists q, 0 <= q /\ p = 4 * q.

Lemma land_lnot_3 q c : Z.land (4 * q + Z.b2z c) (Z.lnot 3) = 4 * q.
Proof.
  rewrite <- Z.ldiff_land. change 3 with (Z.ones 2). rewrite Z.ldiff_ones_r by lia.
  rewrite Z.shiftr_div_pow2, Z.shiftl_mul_pow2 by lia. change (2 ^ 2) with 4. destruct c; zdiv.
Qed.

Lemma land_3 q c : Z.land (4 * q + Z.b2z c) 3 = Z.b2z c.
Proof.
  change 3 with (Z.ones 2). rewrite Z.land_ones by lia. change (2 ^ 2) with 4. destruct c; zdiv.
Qed.

Lemma land_1 q c : Z.land (4 * q + Z.b2z c) 1 = Z.b2z c.
Proof.
  change 1 with (Z.ones 1) at 1. rewrite Z.land_ones by lia. change (2 ^ 1) with 2.
  destruct c; zdiv.
Qed.

Lemma land_lnot_1 q c : Z.land (4 * q + Z.b2z c) (Z.lnot 1) = 4 * q.
Proof.
  rewrite <- Z.ldiff_land. change 1 with (Z.ones 1) at 1. rewrite Z.ldiff_ones_r by lia.
  rewrite Z.shiftr_div_pow2, Z.shiftl_mul_pow2 by lia. change (2 ^ 1) with 2. destruct c; zdiv.
Qed.

Lemma lor_b q c : Z.lor (4 * q) (Z.b2z c) = 4 * q + Z.b2z c.
Proof.
  assert (Z.land (4 * q) (Z.b2z c) = 0) as Hl.
  { apply Z.bits_inj'. intros n Hn. rewrite Z.land_spec, Z.bits_0.
    destruct (decide (n = 0)) as [->|].
    - replace (4 * q) with (2 * (2 * q)) by lia. by rewrite Z.testbit_even_0.
    - destruct c; simpl; [|by rewrite Z.bits_0, andb_false_r].
      rewrite (Z.bits_above_log2 1 n) by (simpl; lia). apply andb_false_r. }
  rewrite <- Z.lxor_lor by done. by rewrite Z.add_nocarry_lxor.
Qed.

Definition col (z : Z) : bool := bool_decide (z ≠ 0).

Lemma word_parent c p : aligned p -> Z.land (word c p) (Z.lnot 3) = p.
Proof. intros (q & _ & ->). apply land_lnot_3. Qed.
Lemma word_color c p : aligned p -> Z.land (word c p) 1 = Z.b2z c.
Proof. intros (q & _ & ->). apply land_1. Qed.
Lemma word_set_parent c p p' :
  aligned p -> aligned p' -> Z.lor (Z.land (word c p) 3) p' = word c p'.
Proof.
  intros (q & _ & ->) (q' & _ & ->). unfold word. rewrite land_3, Z.lor_comm. apply lor_b.
Qed.
Lemma word_set_color c c' p : aligned p -> Z.lor (Z.land (word c p) (Z.lnot 1)) (Z.b2z c') = word c' p.
Proof. intros (q & _ & ->). unfold word. rewrite land_lnot_1. apply lor_b. Qed.
Lemma word_set_red c p : aligned p -> Z.land (word c p) (Z.lnot 1) = word red p.
Proof. intros (q & _ & ->). unfold word. rewrite land_lnot_1. simpl. lia. Qed.
Lemma word_set_black c p : aligned p -> Z.lor (word c p) 1 = word black p.
Proof.
  intros (q & _ & ->). unfold word. rewrite <- lor_b, <- Z.lor_assoc.
  rewrite <- (lor_b q black). f_equal. by destruct c.
Qed.

Lemma rb_parent_node c p r l k : aligned p -> rb_parent (Node (word c p) r l k) = p.
Proof. apply word_parent. Qed.
Lemma rb_color_node c p r l k : aligned p -> rb_color (Node (word c p) r l k) = Z.b2z c.
Proof. apply word_color. Qed.

(** ** Trees and contexts *)

Inductive tree : Type :=
| E
| T (c : bool) (l : tree) (p : Z) (k : rbkey) (r : tree).

Inductive side := L | R.
Record frame := Fr { f_side : side; f_col : bool; f_addr : Z; f_key : rbkey; f_sib : tree }.

Definition addr (t : tree) : Z := match t with E => NULL | T _ _ p _ _ => p end.
Definition fill (f : frame) (t : tree) : tree :=
  match f_side f with
  | L => T (f_col f) t (f_addr f) (f_key f) (f_sib f)
  | R => T (f_col f) (f_sib f) (f_addr f) (f_key f) t
  end.
Fixpoint plug (ctx : list frame) (t : tree) : tree :=
  match ctx with [] => t | f :: ctx => plug ctx (fill f t) end.

(** The nodes, in order, with their keys. *)
Fixpoint elems (t : tree) : list (Z * rbkey) :=
  match t with E => [] | T _ l p k r => elems l ++ (p, k) :: elems r end.
Fixpoint addrs (t : tree) : list Z :=
  match t with E => [] | T _ l p k r => p :: addrs l ++ addrs r end.
Fixpoint caddrs (ctx : list frame) : list Z :=
  match ctx with [] => [] | f :: ctx => f_addr f :: addrs (f_sib f) ++ caddrs ctx end.
Definition cparent (ctx : list frame) : Z := match ctx with [] => NULL | f :: _ => f_addr f end.

Fixpoint celems (ctx : list frame) (xs : list (Z * rbkey)) : list (Z * rbkey) :=
  match ctx with
  | [] => xs
  | f :: ctx => celems ctx (match f_side f with
                            | L => xs ++ (f_addr f, f_key f) :: elems (f_sib f)
                            | R => elems (f_sib f) ++ (f_addr f, f_key f) :: xs end)
  end.

Lemma elems_plug ctx t : elems (plug ctx t) = celems ctx (elems t).
Proof. revert t. induction ctx as [|[[] c p k s] ctx IH]; intros t; simpl; [done|..]; by rewrite IH. Qed.

Fixpoint tree_at (h : gmap Z rbnode) (parent : Z) (t : tree) : Prop :=
  match t with
  | E => True
  | T c l p k r =>
      h !! p = Some (Node (word c parent) (addr r) (addr l) k) /\
      tree_at h p l /\ tree_at h p r
  end.

Definition fnode (f : frame) (parent a : Z) : rbnode :=
  match f_side f with
  | L => Node (word (f_col f) parent) (addr (f_sib f)) a (f_key f)
  | R => Node (word (f_col f) parent) a (addr (f_sib f)) (f_key f)
  end.

Fixpoint ctx_at (h : gmap Z rbnode) (root : Z) (ctx : list frame) (a : Z) : Prop :=
  match ctx with
  | [] => root = a
  | f :: ctx =>
      h !! f_addr f = Some (fnode f (cparent ctx) a) /\
      tree_at h (f_addr f) (f_sib f) /\ ctx_at h root ctx (f_addr f)
  end.

Definition good_addr (p : Z) : Prop := aligned p /\ p ≠ NULL.

Definition at_hole (s : rbs) (ctx : list frame) (t : tree) : Prop :=
  ctx_at (heap s) (rb_node s) ctx (addr t) /\ tree_at (heap s) (cparent ctx) t /\
  NoDup (caddrs ctx ++ addrs t) /\ Forall good_addr (caddrs ctx ++ addrs t).

Lemma at_hole_fill s f ctx t : at_hole s (f :: ctx) t <-> at_hole s ctx (fill f t).
Proof.
  unfold at_hole. destruct f as [sd c p k sib]. simpl.
  assert (p :: (addrs sib ++ caddrs ctx) ++ addrs t ≡ₚ
          caddrs ctx ++ addrs (fill (Fr sd c p k sib) t)) as Hperm.
  { rewrite <- app_assoc, (Permutation_app_comm (addrs sib)), <- app_assoc.
    unfold fill. destruct sd; simpl; rewrite <- Permutation_middle;
      rewrite ?(Permutation_app_comm (addrs sib)); done. }
  rewrite Hperm. destruct sd; unfold fill; simpl; tauto.
Qed.

(** The whole tree. *)
Definition rep (s : rbs) (t : tree) : Prop := at_hole s [] t.

Lemma at_hole_plug s ctx t : at_hole s ctx t <-> rep s (plug ctx t).
Proof. revert t. induction ctx as [|f ctx IH]; intros t; [done|]. simpl. by rewrite at_hole_fill. Qed.

(** ** Reading and writing nodes *)

Lemma rd_ok s p n : heap s !! p = Some n -> rd s p = Ok n.
Proof. intros H. unfold rd. by rewrite H. Qed.

Lemma upd_ok s p n f :
  heap s !! p = Some n -> upd s p f = Ok (Rbs (<[p := f n]> (heap s)) (rb_node s)).
Proof. intros H. unfold upd. by rewrite (rd_ok s p n). Qed.

Lemma set_parent_ok s p c par par' r l k :
  heap s !! p = Some (Node (word c par) r l k) -> aligned par -> aligned par' ->
  adx_rbtree_set_parent s p par' = Ok (Rbs (<[p := Node (word c par') r l k]> (heap s)) (rb_node s)).
Proof.
  intros H ? ?. unfold adx_rbtree_set_parent. rewrite (upd_ok _ _ _ _ H). unfold set_pc. simpl.
  by rewrite word_set_parent.
Qed.

Lemma tree_at_frame h h' par t :
  (forall x, x ∈ addrs t -> h' !! x = h !! x) -> tree_at h par t -> tree_at h' par t.
Proof.
  revert par. induction t as [|c l IHl p k r IHr]; intros par Hf; simpl in *; [done|].
  intros (H1 & H2 & H3). rewrite Hf by (clear; set_solver). split; [done|].
  split; [apply IHl|apply IHr]; try done; intros x Hx; apply Hf; clear -Hx; set_solver.
Qed.

Lemma ctx_at_frame h h' root ctx a :
  (forall x, x ∈ caddrs ctx -> h' !! x = h !! x) -> ctx_at h root ctx a -> ctx_at h' root ctx a.
Proof.
  revert a. induction ctx as [|f ctx IH]; intros a Hf; simpl in *; [done|].
  intros (H1 & H2 & H3). rewrite Hf by (clear; set_solver). split; [done|].
  split; [eapply tree_at_frame; [|done]|apply IH; [|done]];
    intros x Hx; apply Hf; clear -Hx; set_solver.
Qed.

Lemma addr_null t : Forall good_addr (addrs t) -> addr t = NULL -> t = E.
Proof. destruct t; simpl; [done|]. intros [[_ ?] _]%Forall_cons. done. Qed.

Lemma addr_elem t : t ≠ E -> addr t ∈ addrs t.
Proof. destruct t; simpl; [done|]. intros _. apply list_elem_of_here. Qed.

Lemma aligned_null : aligned NULL.
Proof. exists 0. unfold NULL. lia. Qed.
Lemma good_aligned p : good_addr p -> aligned p.
Proof. by intros []. Qed.
Lemma good_cparent ctx : Forall good_addr (caddrs ctx) -> aligned (cparent ctx).
Proof. destruct ctx; simpl; [intros _; apply aligned_null|]. by intros [[] _]%Forall_cons. Qed.
Create HintDb adx_rb.
#[export] Hint Resolve aligned_null good_aligned good_cparent : adx_rb.

Lemma at_hole_good s ctx t : at_hole s ctx t -> aligned (cparent ctx).
Proof. intros (_ & _ & _ & [? _]%Forall_app). by apply good_cparent. Qed.

Lemma at_hole_node s ctx c l p k r :
  at_hole s ctx (T c l p k r) ->
  heap s !! p = Some (Node (word c (cparent ctx)) (addr r) (addr l) k).
Proof. by intros (_ & (? & _) & _). Qed.

Lemma at_hole_ne s ctx c l p k r : at_hole s ctx (T c l p k r) -> p ≠ NULL.
Proof. intros (_ & _ & _ & [_ [[_ ?] _]%Forall_cons]%Forall_app). done. Qed.

(** Disjointness facts come from the [NoDup] of all the addresses. *)
Ltac nodup_facts :=
  repeat match goal with
  | H : NoDup (_ ++ _) |- _ => apply NoDup_app in H as (? & ? & ?)
  | H : NoDup (_ :: _) |- _ => apply NoDup_cons in H as (? & ?)
  end.
Ltac dj := solve [simpl in *; nodup_facts; set_solver].

(** *** Colours *)

Lemma upd_color s ctx c c' l p k r f :
  at_hole s ctx (T c l p k r) ->
  f (Node (word c (cparent ctx)) (addr r) (addr l) k) =
     Node (word c' (cparent ctx)) (addr r) (addr l) k ->
  exists s', upd s p f = Ok s' /\ at_hole s' ctx (T c' l p k r).
Proof.
  intros Hat Hf. rewrite (upd_ok s p _ f (at_hole_node _ _ _ _ _ _ _ Hat)), Hf.
  eexists; split; [done|]. destruct Hat as (Hc & (Hn & Hl & Hr) & Hnd & Hg). simpl in *.
  split_and!; simpl; try done.
  - eapply ctx_at_frame; [|exact Hc]. intros x Hx. apply lookup_insert_ne. clear -Hnd Hx. dj.
  - split; [apply lookup_insert_eq|]. split; (eapply tree_at_frame; [|eassumption]);
      intros x Hx; apply lookup_insert_ne; clear -Hnd Hx; dj.
Qed.

Lemma set_black_at s ctx c l p k r :
  at_hole s ctx (T c l p k r) ->
  exists s', rb_set_black s p = Ok s' /\ at_hole s' ctx (T black l p k r).
Proof.
  intros Hat. eapply upd_color; [exact Hat|]. unfold set_pc. simpl.
  by rewrite word_set_black by (by eapply at_hole_good).
Qed.

Lemma set_red_at s ctx c l p k r :
  at_hole s ctx (T c l p k r) ->
  exists s', rb_set_red s p = Ok s' /\ at_hole s' ctx (T red l p k r).
Proof.
  intros Hat. eapply upd_color; [exact Hat|]. unfold set_pc. simpl.
  by rewrite word_set_red by (by eapply at_hole_good).
Qed.

Lemma set_color_at s ctx c c' l p k r :
  at_hole s ctx (T c l p k r) ->
  exists s', adx_rbtree_set_color s p (Z.b2z c') = Ok s' /\ at_hole s' ctx (T c' l p k r).
Proof.
  intros Hat. eapply upd_color; [exact Hat|]. unfold set_pc. simpl.
  by rewrite word_set_color by (by eapply at_hole_good).
Qed.

(** *** Parent pointers and child pointers *)

(** [if (child) adx_rbtree_set_parent(child, parent)] *)
Lemma reparent_ok s par par' t :
  tree_at (heap s) par t -> aligned par -> aligned par' -> Forall good_addr (addrs t) ->
  NoDup (addrs t) ->
  exists s', (if decide (addr t ≠ NULL) then adx_rbtree_set_parent s (addr t) par' else mret s)
      = Ok s' /\
    tree_at (heap s') par' t /\ rb_node s' = rb_node s /\
    (forall x, x ∉ addrs t -> heap s' !! x = heap s !! x).
Proof.
  intros Ht Ha Ha' Hg Hnd. destruct t as [|c l p k r].
  { rewrite decide_False by (intros H; by apply H). eexists; split; [done|]. by split_and!. }
  apply Forall_cons in Hg as [[_ Hp] _]. rewrite decide_True by done.
  destruct Ht as (Hn & Hl & Hr). unfold adx_rbtree_set_parent.
  erewrite upd_ok by exact Hn. eexists; split; [done|]. simpl. unfold set_pc; simpl.
  rewrite word_set_parent by done. split; [|split; [done|]].
  - split; [apply lookup_insert_eq|]. split; (eapply tree_at_frame; [|eassumption]);
      intros x Hx; apply lookup_insert_ne; clear -Hnd Hx; dj.
  - intros x Hx. apply lookup_insert_ne. clear -Hx. set_solver.
Qed.

(** Make the context point to [b] instead of [a]; the source tests the left
    child of the parent in one place and the right child in another. *)
Lemma relink_l s ctx a b :
  ctx_at (heap s) (rb_node s) ctx a -> a ≠ NULL -> a ∉ caddrs ctx -> NoDup (caddrs ctx) ->
  Forall good_addr (caddrs ctx) ->
  exists s', (if decide (cparent ctx ≠ NULL) then
                pn ← rd s (cparent ctx);
                if decide (rb_left pn = a) then upd s (cparent ctx) (set_left b)
                else upd s (cparent ctx) (set_right b)
              else mret (set_root b s)) = Ok s' /\
    ctx_at (heap s') (rb_node s') ctx b /\
    (forall x, x ∉ caddrs ctx -> heap s' !! x = heap s !! x).
Proof.
  intros Hc Ha Hna Hnd Hg. destruct ctx as [|[sd c p k sib] ctx]; cbn [cparent f_addr].
  { rewrite decide_False by (intros H; by apply H). eexists; split; [done|]. by split. }
  simpl in *. destruct Hc as (Hp & Hs & Hc). apply Forall_cons in Hg as [[_ Hp0] Hg].
  rewrite decide_True by done. rewrite (rd_ok _ _ _ Hp). cbn [mbind cres_bind].
  assert (forall n, tree_at (<[p := n]> (heap s)) p sib /\
      ctx_at (<[p := n]> (heap s)) (rb_node s) ctx p /\
      (forall x, x ∉ p :: addrs sib ++ caddrs ctx -> <[p := n]> (heap s) !! x = heap s !! x)) as Hfr.
  { intros n. split_and!.
    - eapply tree_at_frame; [|exact Hs]. intros x Hx. apply lookup_insert_ne. clear -Hnd Hx. dj.
    - eapply ctx_at_frame; [|exact Hc]. intros x Hx. apply lookup_insert_ne. clear -Hnd Hx. dj.
    - intros x Hx. apply lookup_insert_ne. clear -Hx. set_solver. }
  destruct sd; simpl.
  - rewrite decide_True by done. erewrite upd_ok by exact Hp. eexists; split; [done|]. simpl.
    split; [split; [apply lookup_insert_eq|split; apply Hfr]|apply Hfr].
  - rewrite decide_False.
    + erewrite upd_ok by exact Hp. eexists; split; [done|]. simpl.
      split; [split; [apply lookup_insert_eq|split; apply Hfr]|apply Hfr].
    + intros <-. destruct sib; [by apply Ha|]. apply Hna. simpl. clear. set_solver.
Qed.

Lemma relink_r s ctx a b :
  ctx_at (heap s) (rb_node s) ctx a -> a ≠ NULL -> a ∉ caddrs ctx -> NoDup (caddrs ctx) ->
  Forall good_addr (caddrs ctx) ->
  exists s', (if decide (cparent ctx ≠ NULL) then
                pn ← rd s (cparent ctx);
                if decide (rb_right pn = a) then upd s (cparent ctx) (set_right b)
                else upd s (cparent ctx) (set_left b)
              else mret (set_root b s)) = Ok s' /\
    ctx_at (heap s') (rb_node s') ctx b /\
    (forall x, x ∉ caddrs ctx -> heap s' !! x = heap s !! x).
Proof.
  intros Hc Ha Hna Hnd Hg. destruct (relink_l s ctx a b Hc Ha Hna Hnd Hg) as (s' & E & H).
  exists s'. split; [|done]. rewrite <- E. case_decide as Hp; [|done].
  destruct ctx as [|[sd c p k sib] ctx]; [done|]. simpl in *. destruct Hc as (Hn & _).
  rewrite (rd_ok _ _ _ Hn). cbn [mbind cres_bind]. destruct sd; simpl.
  - rewrite (decide_True (P := a = a)) by done. rewrite decide_False; [done|].
    intros <-. destruct sib; [by apply Ha|]. apply Hna. simpl. clear. set_solver.
  - rewrite (decide_True (P := a = a)) by done. rewrite decide_False; [done|].
    intros <-. destruct sib; [by apply Ha|]. apply Hna. simpl. clear. set_solver.
Qed.

(** *** Rotations *)

Lemma addr_notin t p : p ∉ addrs t -> p ≠ NULL -> addr t ≠ p.
Proof. intros H Hp E. apply H. rewrite <- E. apply addr_elem. by intros ->. Qed.

Tactic Notation "step_upd" "by" tactic3(t) := erewrite upd_ok by t; cbn [mbind cres_bind heap rb_node set_left set_right set_pc
  rb_parent_color rb_left rb_right rb_key addr].

Ltac frame_tree H := eapply tree_at_frame; [|exact H]; intros ? ?.
Ltac ne_lookup := repeat (rewrite lookup_insert_ne by dj).

Lemma rotate_left_at s ctx c l p k c2 rl q k2 rr :
  at_hole s ctx (T c l p k (T c2 rl q k2 rr)) ->
  exists s', adx_rbtree_rotate_left s p = Ok s' /\
    at_hole s' ctx (T c2 (T c l p k rl) q k2 rr).
Proof.
  intros Hat. pose proof (at_hole_good _ _ _ Hat) as Hpar. pose proof Hat as (Hc & Ht & Hnd & Hg).
  destruct Ht as (Hp & Hl & Hq & Hrl & Hrr). cbn [addr] in Hp, Hc.
  apply Forall_app in Hg as [Hgc Hg]. simpl in Hg. rewrite Forall_cons, Forall_app, Forall_cons, Forall_app in Hg.
  destruct Hg as ([Hgp Hp0] & Hgl & [Hgq Hq0] & Hgrl & Hgrr).
  unfold adx_rbtree_rotate_left. rewrite (rd_ok _ _ _ Hp). cbn [mbind cres_bind rb_right].
  rewrite (rd_ok _ _ _ Hq). cbn [mbind cres_bind rb_left].
  assert (p ≠ q) as Hpq by (clear -Hnd; dj).
  rewrite rb_parent_node by done. step_upd by (exact Hp).
  match goal with |- context [adx_rbtree_set_parent ?s1 (addr rl) p] =>
    destruct (reparent_ok s1 q p rl) as (s2 & E2 & Hrl2 & Hroot2 & Hf2) end;
    [|done|done|done|clear -Hnd; dj|].
  { simpl. frame_tree Hrl. apply lookup_insert_ne. clear -Hnd H. dj. }
  rewrite E2. cbn [mbind cres_bind]. simpl in Hroot2, Hf2.
  assert (Hq2 : heap s2 !! q = Some (Node (word c2 p) (addr rr) (addr rl) k2)).
  { rewrite Hf2 by (clear -Hnd; dj). by rewrite lookup_insert_ne. }
  step_upd by (exact Hq2).
  erewrite set_parent_ok; [|apply lookup_insert_eq|done|done].
  cbn [mbind cres_bind heap rb_node]. rewrite insert_insert_eq.
  match goal with |- context [mret (set_root q ?s4)] =>
    destruct (relink_l s4 ctx p q) as (s5 & E5 & Hc5 & Hf5) end.
  { simpl. rewrite Hroot2. eapply ctx_at_frame; [|exact Hc]. intros x Hx.
    rewrite lookup_insert_ne, Hf2, lookup_insert_ne by (clear -Hnd Hx; dj). done. }
  { done. } { clear -Hnd; dj. } { clear -Hnd; dj. } { done. }
  rewrite E5. cbn [mbind cres_bind]. simpl in Hf5.
  assert (Hp5 : heap s5 !! p = Some (Node (word c (cparent ctx)) (addr rl) (addr l) k)).
  { rewrite Hf5, lookup_insert_ne, Hf2, lookup_insert_eq by (clear -Hnd; dj). done. }
  rewrite (set_parent_ok _ _ _ _ q _ _ _ Hp5) by done.
  eexists; split; [done|].
  assert (Hnd' : NoDup (caddrs ctx ++ q :: p :: (addrs l ++ addrs rl) ++ addrs rr)).
  { eapply NoDup_Permutation_proper; [|exact Hnd]. apply Permutation_app_head. simpl.
    rewrite <- Permutation_middle, Permutation_swap, <- app_assoc. done. }
  split; [|split; [split; [|split; [split; [|split]|]]|split]]; simpl.
  - eapply ctx_at_frame; [|exact Hc5]. intros x Hx. apply lookup_insert_ne. clear -Hnd Hx. dj.
  - rewrite lookup_insert_ne, Hf5, lookup_insert_eq by (clear -Hnd; dj). done.
  - apply lookup_insert_eq.
  - frame_tree Hl. rewrite lookup_insert_ne, Hf5, lookup_insert_ne, Hf2, lookup_insert_ne by (clear -Hnd H; dj). done.
  - frame_tree Hrl2. rewrite lookup_insert_ne, Hf5, lookup_insert_ne by (clear -Hnd H; dj). done.
  - frame_tree Hrr. rewrite lookup_insert_ne, Hf5, lookup_insert_ne, Hf2, lookup_insert_ne by (clear -Hnd H; dj). done.
  - done.
  - rewrite Forall_app, !Forall_cons, !Forall_app. unfold good_addr. naive_solver.
Qed.

(** *** Reflection: the right rotation is the left rotation of the mirror image *)

Definition mnode (n : rbnode) : rbnode :=
  Node (rb_parent_color n) (rb_left n) (rb_right n) (rb_key n).
Definition mstate (s : rbs) : rbs := Rbs (mnode <$> heap s) (rb_node s).
Fixpoint mtree (t : tree) : tree :=
  match t with E => E | T c l p k r => T c (mtree r) p k (mtree l) end.
Definition mframe (f : frame) : frame :=
  Fr (match f_side f with L => R | R => L end) (f_col f) (f_addr f) (f_key f) (mtree (f_sib f)).
Definition mres {A} (r : cres A) (f : A -> A) : cres A :=
  match r with Ok a => Ok (f a) | UB => UB | NoFuel => NoFuel end.

Lemma mnode_inv n : mnode (mnode n) = n.
Proof. by destruct n. Qed.
Lemma mstate_inv s : mstate (mstate s) = s.
Proof.
  destruct s as [h r]. unfold mstate. simpl. f_equal.
  apply map_eq. intros i. rewrite !lookup_fmap. destruct (h !! i); simpl; [|done].
  by rewrite mnode_inv.
Qed.
Lemma mtree_addr t : addr (mtree t) = addr t.
Proof. by destruct t. Qed.
Lemma mtree_inv t : mtree (mtree t) = t.
Proof. induction t as [|c l IHl p k r IHr]; simpl; congruence. Qed.
Lemma mtree_addrs t : addrs (mtree t) ≡ₚ addrs t.
Proof.
  induction t as [|c l IHl p k r IHr]; simpl; [done|].
  by rewrite IHl, IHr, (Permutation_app_comm (addrs l)).
Qed.
Lemma mctx_cparent ctx : cparent (mframe <$> ctx) = cparent ctx.
Proof. by destruct ctx. Qed.
Lemma mctx_caddrs ctx : caddrs (mframe <$> ctx) ≡ₚ caddrs ctx.
Proof. induction ctx as [|f ctx IH]; simpl; [done|]. by rewrite IH, mtree_addrs. Qed.

Lemma mtree_at h par t : tree_at h par t -> tree_at (mnode <$> h) par (mtree t).
Proof.
  revert par. induction t as [|c l IHl p k r IHr]; intros par; simpl; [done|].
  intros (H1 & H2 & H3). rewrite lookup_fmap, H1, !mtree_addr. simpl. auto.
Qed.
Lemma mctx_at h root ctx a : ctx_at h root ctx a -> ctx_at (mnode <$> h) root (mframe <$> ctx) a.
Proof.
  revert a. induction ctx as [|f ctx IH]; intros a; simpl; [done|].
  intros (H1 & H2 & H3). rewrite lookup_fmap, H1, mctx_cparent. simpl.
  split; [|split; [by apply mtree_at|by apply IH]].
  destruct f as [[] c p k sib]; unfold fnode, mnode; simpl; by rewrite mtree_addr.
Qed.
Lemma m_at_hole s ctx t : at_hole s ctx t -> at_hole (mstate s) (mframe <$> ctx) (mtree t).
Proof.
  intros (H1 & H2 & H3 & H4). unfold at_hole. rewrite mtree_addr, mctx_cparent.
  split; [by apply mctx_at|]. split; [by apply mtree_at|].
  by rewrite mctx_caddrs, mtree_addrs.
Qed.

Lemma m_rd s p : rd (mstate s) p = mres (rd s p) mnode.
Proof. unfold rd, mstate. simpl. rewrite lookup_fmap. by destruct (heap s !! p). Qed.
Lemma m_upd s p f g :
  (forall n, g (mnode n) = mnode (f n)) -> upd (mstate s) p g = mres (upd s p f) mstate.
Proof.
  intros Hfg. unfold upd. rewrite m_rd. destruct (rd s p); simpl; [|done..].
  unfold mstate. simpl. by rewrite Hfg, fmap_insert.
Qed.
Lemma m_bind (m1 m2 : cres rbs) k1 k2 :
  m1 = mres m2 mstate -> (forall s, k1 (mstate s) = mres (k2 s) mstate) ->
  m1 ≫= k1 = mres (m2 ≫= k2) mstate.
Proof. intros ->. destruct m2; simpl; auto. Qed.
Lemma m_bind_rd s p k1 k2 :
  (forall n, k1 (mnode n) = mres (k2 n) mstate) ->
  rd (mstate s) p ≫= k1 = mres (rd s p ≫= k2) mstate.
Proof. intros Hk. rewrite m_rd. destruct (rd s p); simpl; auto. Qed.
Lemma m_if P `{!Decision P} (a b c d : cres rbs) :
  a = mres c mstate -> b = mres d mstate ->
  (if decide P then a else b) = mres (if decide P then c else d) mstate.
Proof. by case_decide. Qed.

Lemma rotate_right_mirror s p :
  adx_rbtree_rotate_right (mstate s) p = mres (adx_rbtree_rotate_left s p) mstate.
Proof.
  unfold adx_rbtree_rotate_right, adx_rbtree_rotate_left, adx_rbtree_set_parent.
  apply m_bind_rd. intros nd. apply m_bind_rd. intros rn.
  apply m_bind; [by apply m_upd|]. intros s1.
  apply m_bind; [apply m_if; [by apply m_upd|done]|]. intros s2.
  apply m_bind; [by apply m_upd|]. intros s3.
  apply m_bind; [by apply m_upd|]. intros s4.
  apply m_bind; [|intros s5; by apply m_upd].
  apply m_if; [|done]. apply m_bind_rd. intros pn. apply m_if; by apply m_upd.
Qed.

Lemma mctx_inv (ctx : list frame) : mframe <$> (mframe <$> ctx) = ctx.
Proof.
  induction ctx as [|f ctx IH]; [done|]. rewrite !fmap_cons, IH. f_equal.
  destruct f as [[] c p k sib]; unfold mframe; simpl; by rewrite mtree_inv.
Qed.

Lemma rotate_right_at s ctx c lr q k2 ll p k c2 r :
  at_hole s ctx (T c (T c2 ll q k2 lr) p k r) ->
  exists s', adx_rbtree_rotate_right s p = Ok s' /\
    at_hole s' ctx (T c2 ll q k2 (T c lr p k r)).
Proof.
  intros Hat%m_at_hole. simpl in Hat.
  destruct (rotate_left_at _ _ _ _ _ _ _ _ _ _ _ Hat) as (s' & E & Hat').
  apply m_at_hole in Hat'. rewrite mctx_inv in Hat'. simpl in Hat'. rewrite !mtree_inv in Hat'.
  exists (mstate s'). split; [|done].
  rewrite <- (mstate_inv s) at 1. by rewrite rotate_right_mirror, E.
Qed.

Arguments at_hole_good {s ctx t}.
Arguments at_hole_node {s ctx c l p k r}.
Arguments at_hole_ne {s ctx c l p k r}.
Arguments set_black_at {s ctx c l p k r}.
Arguments set_red_at {s ctx c l p k r}.
Arguments set_color_at {s ctx c} c' {l p k r}.
Arguments rotate_left_at {s ctx c l p k c2 rl q k2 rr}.
Arguments rotate_right_at {s ctx c lr q k2 ll p k c2 r}.
