(* ===== verification/AdxRbtreeInsert.v ===== *)
(** Red-black balance and [adx_rbtree_insert_color].

    [rbt t c n] is the balance invariant: root colour [c], no red node with a
    red child, [n] black nodes on every path.  [ctx_ok ctx n] says that a
    context is balanced around a hole of black height [n].  The rebalancing
    loop of the source is followed case by case on this view. *)

From Stdlib Require Import ZArith Lia.
From S2P Require Import Prelude AdxRbtree AdxRbtreeRep.
Import Rb.

Open Scope Z_scope.

Inductive rbt : tree -> bool -> nat -> Prop :=
| RE : rbt E black 0
| RRed l p k r n : rbt l black n -> rbt r black n -> rbt (T red l p k r) red n
| RBlack l p k r cl cr n : rbt l cl n -> rbt r cr n -> rbt (T black l p k r) black (S n).

Definition balanced (t : tree) : Prop := exists n, rbt t black n.

Fixpoint ctx_ok (ctx : list frame) (n : nat) : Prop :=
  match ctx with
  | [] => True
  | f :: ctx =>
      if f_col f then exists c, rbt (f_sib f) c n /\ ctx_ok ctx (S n)
      else rbt (f_sib f) black n /\ ctx_ok ctx n /\
           match ctx with [] => False | g :: _ => f_col g = black end
  end.

(** A tree whose root must only be blackened. *)
Definition almost (t : tree) : Prop :=
  exists c l p k r n, t = T c l p k r /\ rbt (T black l p k r) black n.

Definition is_red (t : tree) : bool := match t with T false _ _ _ _ => true | _ => false end.

Lemma rbt_not_red t c n : rbt t c n -> is_red t = false -> rbt t black n.
Proof. destruct 1; intros ?; [constructor|done|by econstructor]. Qed.

Lemma rbt_almost t c n : t ≠ E -> rbt t c n -> almost t.
Proof.
  intros Hne H. destruct H; [done| |].
  - exists red, l, p, k, r, (S n). split; [done|]. by econstructor.
  - exists black, l, p, k, r, (S n). split; [done|]. by econstructor.
Qed.

Lemma fill_ne f t : fill f t ≠ E.
Proof. destruct f as [[] c p k sib]; done. Qed.

Lemma plug_almost ctx t c n :
  t ≠ E -> rbt t c n -> ctx_ok ctx n ->
  (c = red -> match ctx with [] => True | f :: _ => f_col f = black end) -> almost (plug ctx t).
Proof.
  revert t c n. induction ctx as [|[sd fc p k sib] ctx IH]; intros t c n Hne Ht Hc Hr; simpl.
  { by eapply rbt_almost. }
  destruct fc; simpl in Hc.
  - destruct Hc as (cs & Hs & Hc). eapply (IH _ black (S n)); [apply fill_ne| |done|done].
    destruct sd; by econstructor.
  - destruct Hc as (Hs & Hc & Hg). assert (c = black) as -> by (destruct c; [done|by specialize (Hr eq_refl)]).
    eapply (IH _ red n); [apply fill_ne| |done|].
    + destruct sd; by constructor.
    + intros _. by destruct ctx.
Qed.

(** Moving the focus. *)
Lemma at_left s ctx c l p k r :
  at_hole s ctx (T c l p k r) <-> at_hole s (Fr L c p k r :: ctx) l.
Proof. by rewrite at_hole_fill. Qed.
Lemma at_right s ctx c l p k r :
  at_hole s ctx (T c l p k r) <-> at_hole s (Fr R c p k l :: ctx) r.
Proof. by rewrite at_hole_fill. Qed.

Lemma down_l s ctx c l p k r :
  at_hole s ctx (T c l p k r) -> at_hole s (Fr L c p k r :: ctx) l.
Proof. apply at_left. Qed.
Lemma down_r s ctx c l p k r :
  at_hole s ctx (T c l p k r) -> at_hole s (Fr R c p k l :: ctx) r.
Proof. apply at_right. Qed.
Lemma up_l s ctx c l p k r :
  at_hole s (Fr L c p k r :: ctx) l -> at_hole s ctx (T c l p k r).
Proof. apply at_left. Qed.
Lemma up_r s ctx c l p k r :
  at_hole s (Fr R c p k l :: ctx) r -> at_hole s ctx (T c l p k r).
Proof. apply at_right. Qed.

Lemma nonnull_red_at s ctx t : at_hole s ctx t -> nonnull_red s (addr t) = Ok (is_red t).
Proof.
  intros Hat. unfold nonnull_red. destruct t as [|c l p k r]; [by rewrite decide_False by (intros H; by apply H)|].
  rewrite decide_True by (by eapply at_hole_ne). cbn [addr].
  rewrite (rd_ok _ _ _ (at_hole_node Hat)). cbn [mbind cres_bind]. unfold rb_is_red.
  rewrite rb_color_node by (by eapply at_hole_good). by destruct c.
Qed.

Lemma null_or_black_at s ctx t : at_hole s ctx t -> null_or_black s (addr t) = Ok (negb (is_red t)).
Proof.
  intros Hat. unfold null_or_black. destruct t as [|c l p k r]; [by rewrite decide_True|].
  rewrite decide_False by (by eapply at_hole_ne). cbn [addr].
  rewrite (rd_ok _ _ _ (at_hole_node Hat)). cbn [mbind cres_bind]. unfold rb_is_black.
  rewrite rb_color_node by (by eapply at_hole_good). by destruct c.
Qed.

Arguments nonnull_red_at {s ctx t}.
Arguments null_or_black_at {s ctx t}.

Lemma at_hole_ne_lr s ctx c l p k r :
  at_hole s ctx (T c l p k r) -> addr l ≠ addr r \/ (l = E /\ r = E).
Proof.
  intros (_ & _ & Hnd & Hg). destruct l as [|cl ll pl kl rl], r as [|cr lr pr kr rr]; [by right|left..].
  - simpl. apply Forall_app in Hg as [_ Hg]. simpl in Hg. rewrite !Forall_cons in Hg.
    destruct Hg as (_ & [_ ?] & _). done.
  - simpl. apply Forall_app in Hg as [_ Hg]. simpl in Hg. rewrite !Forall_cons in Hg.
    destruct Hg as (_ & [_ ?] & _). done.
  - clear Hg. simpl. intros ->. dj.
Qed.

Arguments at_hole_ne_lr {s ctx c l p k r}.

(** [rdat H]: read the node at the root of the subtree [H] focuses on. *)
Ltac rdat H :=
  rewrite (rd_ok _ _ _ (at_hole_node H));
  cbn [mbind cres_bind rb_left rb_right];
  rewrite ?rb_parent_node by (by apply (at_hole_good H)).

(** [run L]: execute the next primitive, whose effect the lemma [L] states. *)
Tactic Notation "run" constr(L) "as" ident(s') ident(H') :=
  let Eq := fresh "Eq" in
  destruct L as (s' & Eq & H'); rewrite Eq; cbn [mbind cres_bind]; clear Eq.

Lemma app_cons_assoc {A} (a b c d : list A) x y :
  a ++ x :: b ++ y :: c ++ d = (a ++ x :: b) ++ y :: c ++ d.
Proof. by rewrite <- app_assoc. Qed.

Definition loop_post (r : cres rbs) (xs : list (Z * rbkey)) : Prop :=
  exists s' t', r = Ok s' /\ rep s' t' /\ elems t' = xs /\ almost t'.

Lemma loop_post_eq r xs ys : loop_post r xs -> xs = ys -> loop_post r ys.
Proof. by intros ? <-. Qed.

Lemma loop_stop fuel s f ctx c l p k r :
  at_hole s (f :: ctx) (T c l p k r) -> f_col f = black -> insert_color_loop (S fuel) s p = Ok s.
Proof.
  intros Hat Hb. cbn [insert_color_loop]. rdat Hat. rewrite at_hole_fill in Hat.
  destruct f as [[] fc pa pk psib]; simpl in Hb; subst fc;
    cbn [cparent f_addr]; pose proof (nonnull_red_at Hat) as E; simpl in E; rewrite E; reflexivity.
Qed.

(** The state after the outer rotation: a black root with red children. *)
Lemma loop_done fuel s ctx a p k b q kq c d rk rr n :
  at_hole s ctx (T black (T red a p k b) q kq (T red c rk rr d)) ->
  rbt a black n -> rbt b black n -> rbt c black n -> rbt d black n -> ctx_ok ctx (S n) ->
  loop_post (insert_color_loop (S fuel) s p) (elems (plug ctx (T black (T red a p k b) q kq (T red c rk rr d)))) /\
  loop_post (insert_color_loop (S fuel) s rk) (elems (plug ctx (T black (T red a p k b) q kq (T red c rk rr d)))).
Proof.
  intros Hat Ha Hb Hcc Hd Hc.
  assert (almost (plug ctx (T black (T red a p k b) q kq (T red c rk rr d)))) as Hal.
  { eapply (plug_almost _ _ black (S n)); [done| |exact Hc|done]. eapply RBlack; by apply RRed. }
  pose proof (proj1 (at_hole_plug _ _ _) Hat) as Hrep.
  split; exists s; eexists; (split; [|split; [exact Hrep|split; [done|exact Hal]]]).
  - apply at_left in Hat. by eapply loop_stop.
  - apply at_right in Hat. by eapply loop_stop.
Qed.

(** The uncle is red: recolour and go on from the grandparent. *)
Lemma recolour_r s ctx cp x pa pk y cg ga gk cu ul ua uk ur :
  at_hole s ctx (T cg (T cp x pa pk y) ga gk (T cu ul ua uk ur)) ->
  exists s1 s2 s3, rb_set_black s ua = Ok s1 /\ rb_set_black s1 pa = Ok s2 /\
    rb_set_red s2 ga = Ok s3 /\
    at_hole s3 ctx (T red (T black x pa pk y) ga gk (T black ul ua uk ur)).
Proof.
  intros Hat. apply at_right in Hat. destruct (set_black_at Hat) as (s1 & E1 & H1).
  apply at_right, at_left in H1. destruct (set_black_at H1) as (s2 & E2 & H2).
  apply at_left in H2. destruct (set_red_at H2) as (s3 & E3 & H3).
  exists s1, s2, s3. split_and!; assumption.
Qed.

Lemma recolour_l s ctx cp x pa pk y cg ga gk cu ul ua uk ur :
  at_hole s ctx (T cg (T cu ul ua uk ur) ga gk (T cp x pa pk y)) ->
  exists s1 s2 s3, rb_set_black s ua = Ok s1 /\ rb_set_black s1 pa = Ok s2 /\
    rb_set_red s2 ga = Ok s3 /\
    at_hole s3 ctx (T red (T black ul ua uk ur) ga gk (T black x pa pk y)).
Proof.
  intros Hat. apply at_left in Hat. destruct (set_black_at Hat) as (s1 & E1 & H1).
  apply at_left, at_right in H1. destruct (set_black_at H1) as (s2 & E2 & H2).
  apply at_right in H2. destruct (set_red_at H2) as (s3 & E3 & H3).
  exists s1, s2, s3. split_and!; assumption.
Qed.

Arguments recolour_r {s ctx cp x pa pk y cg ga gk cu ul ua uk ur}.
Arguments recolour_l {s ctx cp x pa pk y cg ga gk cu ul ua uk ur}.

Ltac balance := first
  [ done
  | eapply RBlack; balance
  | eapply RRed; balance ].
Ltac same_elems := rewrite ?elems_plug; f_equal; simpl; by rewrite <- ?app_assoc; simpl; rewrite <- ?app_assoc.
Ltac ne_sib Hlr := simpl in Hlr; intros ?; destruct Hlr as [|[? ?]]; congruence.
Ltac ok E := rewrite E; cbn [mbind cres_bind].

(** The branch of the loop body for a red uncle. *)
Tactic Notation "red_uncle" constr(recolour) constr(Hu) constr(IH) constr(n) :=
  inversion Hu; subst; cbn [addr];
  let s1 := fresh "s" in let s2 := fresh "s" in let s3 := fresh "s" in
  let E1 := fresh "E" in let E2 := fresh "E" in let E3 := fresh "E" in let H3 := fresh "H" in
  destruct recolour
    as (s1 & s2 & s3 & E1 & E2 & E3 & H3);
  ok E1; ok E2; ok E3;
  eapply loop_post_eq; [eapply (IH _ _ _ _ _ _ (S n) H3)|]; [balance|balance|done|simpl in *; lia|same_elems].

Lemma insert_color_loop_ok fuel s ctx l p k r n :
  at_hole s ctx (T red l p k r) -> rbt l black n -> rbt r black n -> ctx_ok ctx n ->
  (length ctx < fuel)%nat ->
  loop_post (insert_color_loop fuel s p) (celems ctx (elems l ++ (p, k) :: elems r)).
Proof.
  revert s ctx l p k r n. induction fuel as [|fuel IH]; [lia|].
  intros s ctx l p k r n Hat Hl Hr Hc Hf. cbn [insert_color_loop]. rdat Hat.
  destruct ctx as [|[sd fc pa pk psib] ctx].
  { exists s, (T red l p k r). split_and!; [done..|].
    eapply rbt_almost; [done|by constructor]. }
  destruct fc.
  { exists s, (plug (Fr sd black pa pk psib :: ctx) (T red l p k r)).
    split; [|split; [by rewrite <- at_hole_plug|split; [by rewrite elems_plug|]]].
    - rewrite at_hole_fill in Hat. destruct sd; simpl in Hat;
        pose proof (nonnull_red_at Hat) as E; simpl in E |- *; rewrite E; reflexivity.
    - eapply plug_almost; [done|by constructor|exact Hc|done]. }
  destruct ctx as [|[sd2 gc ga gk u] ctx]; [by destruct Hc as (_ & _ & [])|].
  simpl in Hc. destruct Hc as (Hps & Hc & ->). destruct Hc as (cu & Hu & Hc).
  destruct fuel as [|fuel]; [simpl in Hf; lia|].
  rewrite at_hole_fill in Hat. cbn [cparent f_addr].
  assert (nonnull_red s pa = Ok true) as ->.
  { destruct sd; simpl in Hat; pose proof (nonnull_red_at Hat) as E; simpl in E; rewrite E; reflexivity. }
  cbn [mbind cres_bind negb].
  assert (celems (Fr sd red pa pk psib :: Fr sd2 black ga gk u :: ctx) (elems l ++ (p, k) :: elems r)
    = elems (plug ctx (fill (Fr sd2 black ga gk u) (fill (Fr sd red pa pk psib) (T red l p k r)))))
    as ->.
  { rewrite elems_plug. by destruct sd, sd2. }
  destruct sd2, sd; cbn [fill f_side f_col f_addr f_key f_sib] in Hat |- *;
    rdat Hat; pose proof (at_hole_ne_lr Hat) as Hlr; pose proof (at_hole_ne Hat) as Hpa;
    rewrite at_hole_fill in Hat; cbn [fill f_side f_col f_addr f_key f_sib cparent] in Hat |- *;
    rdat Hat; cbn [addr]; pose proof (at_hole_ne_lr Hat) as Hlr2.
  - rewrite decide_True by done. pose proof (proj1 (at_right _ _ _ _ _ _ _) Hat) as HatU.
    rewrite (nonnull_red_at HatU). cbn [mbind cres_bind]. destruct (is_red u) eqn:Eu.
    + destruct u as [|[] ul ua uk ur]; try done. red_uncle (recolour_r Hat) Hu IH n.
    + pose proof (rbt_not_red _ _ _ Hu Eu) as Hu'.
      rewrite decide_False by ne_sib Hlr.
      cbn [mbind cres_bind mret cres_ret].
      apply at_left in Hat. run (set_black_at Hat) as s1 H1. apply at_left in H1.
      run (set_red_at H1) as s2 H2. run (rotate_right_at H2) as s3 H3.
      eapply loop_post_eq; [eapply (loop_done _ _ _ _ _ _ _ _ _ _ _ _ _ n H3); done|same_elems].
  - rewrite decide_True by done. pose proof (proj1 (at_right _ _ _ _ _ _ _) Hat) as HatU.
    rewrite (nonnull_red_at HatU). cbn [mbind cres_bind]. destruct (is_red u) eqn:Eu.
    + destruct u as [|[] ul ua uk ur]; try done. red_uncle (recolour_r Hat) Hu IH n.
    + pose proof (rbt_not_red _ _ _ Hu Eu) as Hu'. rewrite decide_True by done.
      apply at_left in Hat. run (rotate_left_at Hat) as s0 H0. cbn [mbind cres_bind mret cres_ret].
      run (set_black_at H0) as s1 H1. apply at_left in H1.
      run (set_red_at H1) as s2 H2. run (rotate_right_at H2) as s3 H3.
      eapply loop_post_eq; [eapply (loop_done _ _ _ _ _ _ _ _ _ _ _ _ _ n H3); done|same_elems].
  - rewrite decide_False by ne_sib Hlr2. pose proof (proj1 (at_left _ _ _ _ _ _ _) Hat) as HatU.
    rewrite (nonnull_red_at HatU). cbn [mbind cres_bind]. destruct (is_red u) eqn:Eu.
    + destruct u as [|[] ul ua uk ur]; try done. red_uncle (recolour_l Hat) Hu IH n.
    + pose proof (rbt_not_red _ _ _ Hu Eu) as Hu'. rewrite decide_True by done.
      apply at_right in Hat. run (rotate_right_at Hat) as s0 H0. cbn [mbind cres_bind mret cres_ret].
      run (set_black_at H0) as s1 H1. apply at_right in H1.
      run (set_red_at H1) as s2 H2. run (rotate_left_at H2) as s3 H3.
      eapply loop_post_eq; [eapply (loop_done _ _ _ _ _ _ _ _ _ _ _ _ _ n H3); done|same_elems].
  - rewrite decide_False by ne_sib Hlr2. pose proof (proj1 (at_left _ _ _ _ _ _ _) Hat) as HatU.
    rewrite (nonnull_red_at HatU). cbn [mbind cres_bind]. destruct (is_red u) eqn:Eu.
    + destruct u as [|[] ul ua uk ur]; try done. red_uncle (recolour_l Hat) Hu IH n.
    + pose proof (rbt_not_red _ _ _ Hu Eu) as Hu'. rewrite decide_False by ne_sib Hlr.
      cbn [mbind cres_bind mret cres_ret].
      apply at_right in Hat. run (set_black_at Hat) as s1 H1. apply at_right in H1.
      run (set_red_at H1) as s2 H2. run (rotate_left_at H2) as s3 H3.
      eapply loop_post_eq; [eapply (loop_done _ _ _ _ _ _ _ _ _ _ _ _ _ n H3); done|same_elems].
Qed.

Lemma insert_color_ok fuel s ctx l p k r :
  at_hole s ctx (T red l p k r) -> rbt l black 0 -> rbt r black 0 -> ctx_ok ctx 0 ->
  (length ctx < fuel)%nat ->
  exists s' t', adx_rbtree_insert_color fuel s p = Ok s' /\ rep s' t' /\
    elems t' = celems ctx (elems l ++ (p, k) :: elems r) /\ balanced t'.
Proof.
  intros Hat Hl Hr Hc Hf. unfold adx_rbtree_insert_color.
  destruct (insert_color_loop_ok fuel s ctx l p k r 0) as (s1 & t1 & E1 & Hrep & Hel & Hal); [done..|].
  ok E1. destruct Hal as (c & l' & p' & k' & r' & n & -> & Hb). pose proof Hrep as (Hroot & _).
  simpl in Hroot. rewrite Hroot. run (set_black_at Hrep) as s2 H2.
  eexists _, _. split; [done|]. split; [exact H2|]. split; [done|by exists n].
Qed.

(** ** Height *)

Fixpoint height (t : tree) : nat :=
  match t with E => 0 | T _ l _ _ r => S (Nat.max (height l) (height r)) end.
Fixpoint tsize (t : tree) : nat :=
  match t with E => 0 | T _ l _ _ r => S (tsize l + tsize r) end.

Lemma rbt_height t c n :
  rbt t c n -> (height t <= 2 * n + (if c then 0 else 1))%nat /\ (2 ^ n <= S (tsize t))%nat.
Proof.
  induction 1 as [|l p k r n Hl [IHl1 IHl2] Hr [IHr1 IHr2]
                 |l p k r cl cr n Hl [IHl1 IHl2] Hr [IHr1 IHr2]]; simpl in *; [lia|lia|].
  rewrite Nat.add_0_r. destruct cl, cr; lia.
Qed.

Lemma size_elems t : tsize t = length (elems t).
Proof. induction t as [|c l IHl p k r IHr]; simpl; [done|]. rewrite length_app. simpl. lia. Qed.

(** The bound on the length of a descent: [2 * log2 (n + 1)]. *)
Definition depth_bound (n : nat) : nat := 2 * Nat.log2 (S n).

Lemma balanced_height t : balanced t -> (height t <= depth_bound (length (elems t)))%nat.
Proof.
  intros [n [H1 H2]%rbt_height]. rewrite <- size_elems. unfold depth_bound.
  apply Nat.log2_le_mono in H2. rewrite Nat.log2_pow2 in H2 by lia. lia.
Qed.

(** ** The balance around a focus *)

Definition hole_ok (ctx : list frame) (t : tree) : Prop :=
  exists n c, ctx_ok ctx n /\ rbt t c n /\
    (c = red -> match ctx with [] => False | f :: _ => f_col f = black end).

Lemma hole_ok_root t : balanced t -> hole_ok [] t.
Proof. intros [n H]. by exists n, black. Qed.

Lemma hole_ok_left ctx c l p k r : hole_ok ctx (T c l p k r) -> hole_ok (Fr L c p k r :: ctx) l.
Proof.
  intros (n & c' & Hc & Ht & Hr). inversion Ht; subst; simpl.
  - exists n, black. simpl. split_and!; [done|done| |done|done].
    specialize (Hr eq_refl). by destruct ctx.
  - eexists n0, cl. simpl. by split_and!; [exists cr| |].
Qed.

Lemma hole_ok_right ctx c l p k r : hole_ok ctx (T c l p k r) -> hole_ok (Fr R c p k l :: ctx) r.
Proof.
  intros (n & c' & Hc & Ht & Hr). inversion Ht; subst; simpl.
  - exists n, black. simpl. split_and!; [done|done| |done|done].
    specialize (Hr eq_refl). by destruct ctx.
  - eexists n0, cr. simpl. by split_and!; [exists cl| |].
Qed.
