(* ===== verification/AdxRbtreeMap.v ===== *)
(** Ordered red-black trees: the descents of [adx_rbtree_*_add] and
    [adx_rbtree_*_find].

    The class [RbKey] is what the two instantiations of the tree (numbers
    compared with [<], strings compared with [strcmp]) promise: a three-way
    comparison that is a strict total order.  The theorems about the tree are
    proved once against the class. *)

From Stdlib Require Import ZArith Lia Sorted.
From S2P Require Import Prelude AdxRbtree AdxRbtreeRep AdxRbtreeInsert.
Import Rb.

Open Scope Z_scope.

Class RbKey (A : Type) := {
  kinj : A -> rbkey;
  kcmp : A -> A -> Z;
  kcmp_eq a b : kcmp a b = 0 <-> a = b;
  kcmp_antisym a b : kcmp b a = - kcmp a b;
  kcmp_trans a b c : kcmp a b < 0 -> kcmp b c < 0 -> kcmp a c < 0 }.

Definition number_cmp (a b : Z) : Z := if decide (a < b) then -1 else if decide (a > b) then 1 else 0.

#[export] Program Instance number_key : RbKey Z := { kinj := KNum; kcmp := number_cmp }.
Next Obligation. intros a b. unfold number_cmp. repeat case_decide; lia. Qed.
Next Obligation. intros a b. unfold number_cmp. repeat case_decide; lia. Qed.
Next Obligation. intros a b c. unfold number_cmp. repeat case_decide; lia. Qed.

#[export] Program Instance string_key : RbKey bytes :=
  { kinj := fun s => KStr (Some s); kcmp := strcmp }.
Next Obligation. apply strcmp_eq. Qed.
Next Obligation. apply strcmp_antisym. Qed.
Next Obligation. apply strcmp_trans. Qed.

Definition slot_of (ctx : list frame) : slot :=
  match ctx with
  | [] => SRoot
  | f :: _ => match f_side f with L => SLeft (f_addr f) | R => SRight (f_addr f) end
  end.

Lemma read_slot_at s ctx t : at_hole s ctx t -> read_slot s (slot_of ctx) = Ok (addr t).
Proof.
  intros (Hc & _). destruct ctx as [|[[] c p k sib] ctx]; simpl in *; [by rewrite Hc|..];
    destruct Hc as (Hn & _); by rewrite (rd_ok _ _ _ Hn).
Qed.

(** [adx_rbtree_link_node] at the end of a descent. *)
Lemma link_node_at s ctx new n :
  at_hole s ctx E -> heap s !! new = Some n -> good_addr new -> new ∉ caddrs ctx ->
  exists s', adx_rbtree_link_node s new (cparent ctx) (slot_of ctx) = Ok s' /\
    at_hole s' ctx (T red E new (rb_key n) E).
Proof.
  intros (Hc & _ & Hnd & Hg) Hn Hgn Hnew. unfold adx_rbtree_link_node.
  rewrite (upd_ok _ _ _ _ Hn). cbn [mbind cres_bind].
  erewrite upd_ok by apply lookup_insert_eq. cbn [mbind cres_bind heap].
  rewrite insert_insert_eq. erewrite upd_ok by apply lookup_insert_eq. cbn [mbind cres_bind heap].
  rewrite insert_insert_eq. unfold set_left, set_right, set_pc; cbn [rb_parent_color rb_right rb_left rb_key rb_node].
  rewrite app_nil_r in Hnd, Hg. set (n' := Node _ _ _ _). set (h := <[new := n']> (heap s)).
  assert (Hn' : n' = Node (word red (cparent ctx)) NULL NULL (rb_key n)).
  { unfold n', word. f_equal. simpl. lia. }
  assert (Hall : NoDup (caddrs ctx ++ [new]) /\ Forall good_addr (caddrs ctx ++ [new])).
  { split; [|apply Forall_app; split; [done|by apply Forall_singleton]].
    apply NoDup_app. split_and!; [done| |apply NoDup_singleton].
    intros x Hx ->%list_elem_of_singleton. done. }
  destruct ctx as [|[sd c p k sib] ctx].
  - simpl in *. eexists. split; [done|]. split; [done|]. simpl. split; [|done].
    split; [|done]. subst h. by rewrite lookup_insert_eq, Hn'.
  - simpl in Hc, Hnew. destruct Hc as (Hp & Hs & Hc).
    assert (p ≠ new) as Hpn by (clear -Hnew; set_solver).
    assert (h !! p = Some (fnode (Fr sd c p k sib) (cparent ctx) NULL)) as Hhp.
    { subst h. by rewrite lookup_insert_ne. }
    assert (forall n2, ctx_at (<[p := n2]> h) (rb_node s) ctx p /\ tree_at (<[p := n2]> h) p sib
      /\ <[p := n2]> h !! new = Some n') as Hfr.
    { intros n2. subst h. split; [|split].
      - eapply ctx_at_frame; [|exact Hc]. intros x Hx.
        rewrite !lookup_insert_ne by (clear -Hnd Hnew Hx; dj). done.
      - eapply tree_at_frame; [|exact Hs]. intros x Hx.
        rewrite !lookup_insert_ne by (clear -Hnd Hnew Hx; dj). done.
      - by rewrite lookup_insert_ne, lookup_insert_eq. }
    destruct sd; cbn [slot_of f_side f_addr write_slot]; rewrite (upd_ok (Rbs h (rb_node s)) _ _ _ Hhp);
      (eexists; split; [done|]); destruct (Hfr (set_left new (fnode (Fr L c p k sib) (cparent ctx) NULL))) as (F1 & F2 & F3);
      destruct (Hfr (set_right new (fnode (Fr R c p k sib) (cparent ctx) NULL))) as (G1 & G2 & G3);
      (split; [|split; [|exact Hall]]); cbn [heap rb_node tree_at ctx_at f_addr f_sib addr].
    + split; [apply lookup_insert_eq|by split].
    + by rewrite <- Hn', F3.
    + split; [apply lookup_insert_eq|by split].
    + by rewrite <- Hn', G3.
Qed.

(** ** Ordered association lists *)

Section Ordered.
Context {A : Type} `{RbKey A}.

Definition enc (xs : list (Z * A)) : list (Z * rbkey) := map (fun '(p, a) => (p, kinj a)) xs.
Definition klt (x y : Z * A) : Prop := kcmp x.2 y.2 < 0.
Definition below (a : A) (xs : list (Z * A)) : Prop := Forall (fun x => kcmp x.2 a < 0) xs.
Definition above (a : A) (xs : list (Z * A)) : Prop := Forall (fun x => kcmp a x.2 < 0) xs.

(** The memory holds a balanced search tree whose nodes are, in key order, [xs]. *)
Definition ordered (s : rbs) (xs : list (Z * A)) : Prop :=
  exists t, rep s t /\ balanced t /\ elems t = enc xs /\ StronglySorted klt xs.

(** The node with key [a]. *)
Fixpoint lfind (a : A) (xs : list (Z * A)) : Z :=
  match xs with
  | [] => NULL
  | (p, b) :: xs => if decide (kcmp a b = 0) then p else lfind a xs
  end.

(** Insertion at the place the order gives. *)
Fixpoint linsert (p : Z) (a : A) (xs : list (Z * A)) : list (Z * A) :=
  match xs with
  | [] => [(p, a)]
  | (q, b) :: ys => if decide (kcmp a b < 0) then (p, a) :: xs else (q, b) :: linsert p a ys
  end.

Lemma kcmp_refl a : kcmp a a = 0.
Proof. by apply kcmp_eq. Qed.

Lemma lfind_app a xs ys : below a xs -> lfind a (xs ++ ys) = lfind a ys.
Proof.
  induction xs as [|[q b] xs IH]; simpl; [done|]. intros [Hb Hx]%Forall_cons.
  simpl in Hb. rewrite decide_False; [auto|]. rewrite (kcmp_antisym b a). lia.
Qed.

Lemma lfind_above a xs : above a xs -> lfind a xs = NULL.
Proof.
  induction xs as [|[q b] xs IH]; simpl; [done|]. intros [Hb Hx]%Forall_cons. simpl in Hb.
  rewrite decide_False; [auto|lia].
Qed.

Lemma lfind_app_above a xs ys : above a ys -> lfind a (xs ++ ys) = lfind a xs.
Proof.
  intros Ha. induction xs as [|[q b] xs IH]; simpl; [by apply lfind_above|]. by rewrite IH.
Qed.

Lemma above_cons a p b xs : kcmp a b < 0 -> above b xs -> above a ((p, b) :: xs).
Proof.
  intros Hab Hb. constructor; [done|]. eapply Forall_impl; [exact Hb|]. intros [q d] ?. simpl in *.
  by eapply kcmp_trans.
Qed.

Lemma below_snoc a p b xs : kcmp a b > 0 -> below b xs -> below a (xs ++ [(p, b)]).
Proof.
  intros Hab Hb. assert (kcmp b a < 0) by (rewrite (kcmp_antisym a b); lia).
  apply Forall_app. split; [|by apply Forall_singleton].
  eapply Forall_impl; [exact Hb|]. intros [q d] ?. simpl in *. by eapply kcmp_trans.
Qed.

Lemma linsert_app p a xs ys : below a xs -> linsert p a (xs ++ ys) = xs ++ linsert p a ys.
Proof.
  induction xs as [|[q b] xs IH]; simpl; [done|]. intros [Hb Hx]%Forall_cons. simpl in Hb.
  rewrite decide_False; [by rewrite IH|]. rewrite (kcmp_antisym b a). lia.
Qed.

Lemma linsert_above p a xs : above a xs -> linsert p a xs = (p, a) :: xs.
Proof.
  destruct xs as [|[q b] xs]; [done|]. intros [Hb Hx]%Forall_cons. simpl in *.
  by rewrite decide_True.
Qed.

Lemma linsert_sorted p a xs ys :
  StronglySorted klt (xs ++ ys) -> below a xs -> above a ys -> StronglySorted klt (xs ++ (p, a) :: ys).
Proof.
  induction xs as [|x xs IH]; simpl; intros Hs Hb Ha.
  - by constructor.
  - apply StronglySorted_inv in Hs as [Hs Hx]. apply Forall_cons in Hb as [Hxa Hb].
    constructor; [by apply IH|]. apply Forall_app in Hx as [Hx1 Hx2].
    apply Forall_app. split; [done|]. by constructor.
Qed.

Lemma sorted_middle xs p a ys :
  StronglySorted klt (xs ++ (p, a) :: ys) -> below a xs /\ above a ys.
Proof.
  induction xs as [|x xs IH]; simpl; intros [Hs Hx]%StronglySorted_inv.
  - by split; [constructor|].
  - destruct (IH Hs) as [Hb Ha]. split; [|done]. constructor; [|done].
    apply Forall_app in Hx as [_ [Hx _]%Forall_cons]. done.
Qed.

Lemma sorted_app_l xs ys : StronglySorted klt (xs ++ ys) -> StronglySorted klt xs.
Proof.
  induction xs as [|x xs IH]; simpl; intros Hs; [constructor|].
  apply StronglySorted_inv in Hs as [Hs Hx]. apply Forall_app in Hx as [Hx _]. constructor; auto.
Qed.

Lemma enc_app xs ys : enc (xs ++ ys) = enc xs ++ enc ys.
Proof. apply map_app. Qed.

Lemma enc_split xs t1 p k t2 :
  t1 ++ (p, k) :: t2 = enc xs ->
  exists xs1 a xs2, xs = xs1 ++ (p, a) :: xs2 /\ t1 = enc xs1 /\ k = kinj a /\ t2 = enc xs2.
Proof.
  revert xs. induction t1 as [|y t1 IH]; intros [|[q b] xs]; simpl; try done.
  - intros [= -> -> ->]. by exists [], b, xs.
  - intros [= -> Ht]. destruct (IH _ Ht) as (xs1 & a & xs2 & -> & -> & -> & ->).
    by exists ((q, b) :: xs1), a, xs2.
Qed.

(** The outside of a context, as the nodes before and after the hole. *)
Definition ctx_elems (ctx : list frame) (b : list (Z * A)) (c : list (Z * A)) : Prop :=
  forall ys, celems ctx ys = enc b ++ ys ++ enc c.

Lemma ctx_elems_left ctx b c cl p a xr r :
  ctx_elems ctx b c -> elems r = enc xr -> ctx_elems (Fr L cl p (kinj a) r :: ctx) b ((p, a) :: xr ++ c).
Proof. intros Hc Hr ys. simpl. rewrite Hc, Hr. simpl. by rewrite enc_app, <- app_assoc. Qed.

Lemma ctx_elems_right ctx b c cl p a xl l :
  ctx_elems ctx b c -> elems l = enc xl -> ctx_elems (Fr R cl p (kinj a) l :: ctx) (b ++ xl ++ [(p, a)]) c.
Proof. intros Hc Hl ys. simpl. rewrite Hc, Hl, !enc_app, <- !app_assoc. done. Qed.

(** *** The find loop, from its equations *)

Section Find.
Context (s : rbs) (a : A) (loop : nat -> Z -> cres Z)
  (loop_null : forall f, loop (S f) NULL = Ok NULL)
  (loop_step : forall f p n b, p ≠ NULL -> heap s !! p = Some n -> rb_key n = kinj b ->
     loop (S f) p = if decide (kcmp a b < 0) then loop f (rb_left n)
                    else if decide (kcmp a b > 0) then loop f (rb_right n) else Ok p).

Lemma find_loop_ok f par t xs :
  tree_at (heap s) par t -> Forall good_addr (addrs t) -> elems t = enc xs ->
  StronglySorted klt xs -> (height t < f)%nat -> loop f (addr t) = Ok (lfind a xs).
Proof.
  revert f par xs. induction t as [|c l IHl p k r IHr]; intros f par xs Ht Hg Hel Hs Hf;
    (destruct f as [|f]; [lia|]).
  - destruct xs as [|[] xs]; [|done]. by rewrite loop_null.
  - simpl in Hel, Hf, Hg. destruct Ht as (Hn & Hl & Hr).
    apply enc_split in Hel as (xl & b & xr & -> & Hel & -> & Her).
    destruct (sorted_middle _ _ _ _ Hs) as [Hb Ha].
    apply Forall_cons in Hg as [[_ Hp] [Hgl Hgr]%Forall_app].
    cbn [addr]. rewrite (loop_step _ _ _ b Hp Hn) by done. cbn [rb_left rb_right].
    pose proof (sorted_app_l _ _ Hs) as Hsl.
    assert (StronglySorted klt xr) as Hsr.
    { clear -Hs. induction xl as [|x xl IH]; simpl in Hs; apply StronglySorted_inv in Hs as [Hs _]; auto. }
    case_decide as H1; [|case_decide as H2].
    + rewrite (IHl _ p xl), lfind_app_above by (done || lia || by apply above_cons). done.
    + rewrite (IHr _ p xr) by (done || lia). rewrite (cons_middle (p, b)), app_assoc, lfind_app; [done|].
      by apply below_snoc.
    + rewrite lfind_app.
      * simpl. rewrite decide_True by lia. done.
      * assert (a = b) as -> by (apply kcmp_eq; lia). done.
Qed.
End Find.

(** *** The add loop, from its equations *)

Section Add.
Context (s : rbs) (new : Z) (nn : rbnode) (a : A) (Hnew : heap s !! new = Some nn)
  (Hkey : rb_key nn = kinj a) (Hgood : good_addr new)
  (loop : nat -> slot -> Z -> cres (Z * rbs))
  (loop_null : forall f p parent, read_slot s p = Ok NULL ->
     loop (S f) p parent = (s ← adx_rbtree_link_node s new parent p;
                            s ← adx_rbtree_insert_color (S f) s new; mret (parent, s)))
  (loop_step : forall f p parent cur n b, read_slot s p = Ok cur -> cur ≠ NULL ->
     heap s !! cur = Some n -> rb_key n = kinj b ->
     loop (S f) p parent = if decide (kcmp a b < 0) then loop f (SLeft cur) cur
       else if decide (kcmp a b > 0) then loop f (SRight cur) cur else Ok (NULL, s)).

Lemma add_loop_ok f ctx t b xs c :
  at_hole s ctx t -> hole_ok ctx t -> ctx_elems ctx b c -> elems t = enc xs ->
  StronglySorted klt (b ++ xs ++ c) -> below a b -> above a c -> new ∉ caddrs ctx ++ addrs t ->
  (length ctx + 2 * height t < f)%nat ->
  (lfind a xs ≠ NULL /\ loop f (slot_of ctx) (cparent ctx) = Ok (NULL, s)) \/
  (lfind a xs = NULL /\ exists q s', loop f (slot_of ctx) (cparent ctx) = Ok (q, s') /\
     (q = NULL <-> ctx = [] /\ t = E) /\ ordered s' (linsert new a (b ++ xs ++ c))).
Proof.
  revert ctx t b xs c. induction f as [|f IH]; [lia|].
  intros ctx t b xs c Hat Hok Hc Hel Hs Hb Ha Hn Hf.
  pose proof (read_slot_at _ _ _ Hat) as Hrd.
  destruct t as [|ct l p k r].
  - destruct xs as [|[] xs]; [|done]. right. split; [done|]. rewrite (loop_null _ _ _ Hrd).
    destruct (link_node_at s ctx new nn Hat Hnew Hgood) as (s1 & E1 & H1);
      [by rewrite app_nil_r in Hn|].
    rewrite E1. cbn [mbind cres_bind].
    destruct Hok as (n & c' & Hctx & HE & _). inversion HE; subst.
    destruct (insert_color_ok (S f) s1 ctx E new (rb_key nn) E) as (s2 & t2 & E2 & H2 & Hel2 & Hbal);
      [done|constructor|constructor|done|simpl in Hf; lia|].
    rewrite E2. exists (cparent ctx), s2. split; [done|]. split.
    + destruct ctx as [|g ctx]; simpl; [done|]. destruct Hat as (_ & _ & _ & Hg).
      apply Forall_cons in Hg as [[_ Hg] _]. split; [by intros ?|by intros []].
    + exists t2. split_and!; [done|done| |].
      * rewrite Hel2, Hc, Hkey, linsert_app, linsert_above by done. simpl. by rewrite enc_app.
      * rewrite linsert_app, linsert_above by done. by apply linsert_sorted.
  - simpl in Hel. apply enc_split in Hel as (xl & d & xr & -> & Hel & -> & Her).
    pose proof (at_hole_ne Hat) as Hp. cbn [addr] in Hrd.
    rewrite (loop_step _ _ _ _ _ d Hrd Hp (at_hole_node Hat)) by done.
    assert (ctx = [] /\ T ct l p (kinj d) r = E <-> False) as Hne by naive_solver.
    assert (below d (b ++ xl) /\ above d (xr ++ c)) as [Hbd Had].
    { apply sorted_middle with (p := p). by rewrite <- !app_assoc in *. }
    case_decide as H1; [|case_decide as H2].
    + assert (above a ((p, d) :: xr ++ c)) as Hac by (by apply above_cons).
      apply at_left in Hat. apply hole_ok_left in Hok.
      rewrite (lfind_app_above a xl) by (by apply (Forall_app _ _ c), Hac).
      destruct (IH _ l b xl ((p, d) :: xr ++ c) Hat Hok) as [[Hl E]|(Hl & q & s' & E & Hq & Ho)].
      * by apply ctx_elems_left.
      * done.
      * by rewrite <- !app_assoc in Hs.
      * done.
      * done.
      * clear -Hn. set_solver.
      * simpl in *. lia.
      * by left.
      * right. split; [done|]. exists q, s'. split; [exact E|]. split; [naive_solver|].
        by rewrite <- !app_assoc.
    + assert (below a (b ++ xl ++ [(p, d)])) as Hab.
      { rewrite app_assoc. by apply below_snoc. }
      apply at_right in Hat. apply hole_ok_right in Hok.
      assert (lfind a (xl ++ (p, d) :: xr) = lfind a xr) as ->.
      { rewrite (cons_middle (p, d)), app_assoc, lfind_app; [done|]. by apply Forall_app in Hab as []. }
      destruct (IH _ r (b ++ xl ++ [(p, d)]) xr c Hat Hok) as [[Hl E]|(Hl & q & s' & E & Hq & Ho)].
      * by apply ctx_elems_right.
      * done.
      * by rewrite <- !app_assoc in *.
      * done.
      * done.
      * clear -Hn. set_solver.
      * simpl in *. lia.
      * by left.
      * right. split; [done|]. exists q, s'. split; [exact E|]. split; [naive_solver|].
        by rewrite <- !app_assoc in *.
    + left. split; [|done]. assert (a = d) as -> by (apply kcmp_eq; lia).
      rewrite lfind_app by (by apply Forall_app in Hbd as []). simpl. by rewrite kcmp_refl, decide_True.
Qed.
End Add.

End Ordered.

(** ** The four functions *)

Lemma ordered_find_ok {A} `{!RbKey A} s (a : A) xs fuel loop :
  ordered s xs ->
  (forall f, loop (S f) NULL = Ok NULL) ->
  (forall f p n b, p ≠ NULL -> heap s !! p = Some n -> rb_key n = kinj b ->
     loop (S f) p = if decide (kcmp a b < 0) then loop f (rb_left n)
                    else if decide (kcmp a b > 0) then loop f (rb_right n) else Ok p) ->
  (depth_bound (length xs) < fuel)%nat -> loop fuel (rb_node s) = Ok (lfind a xs).
Proof.
  intros (t & Hrep & Hbal & Hel & Hs) H1 H2 Hf. pose proof Hrep as (Hroot & Ht & _ & Hg).
  simpl in Hroot, Hg. rewrite Hroot. eapply find_loop_ok; try done.
  apply balanced_height in Hbal. rewrite Hel in Hbal. unfold enc in Hbal. rewrite length_map in Hbal. lia.
Qed.

Lemma number_find_ok s key xs fuel :
  ordered s xs -> (depth_bound (length xs) < fuel)%nat ->
  adx_rbtree_number_find fuel s key = Ok (lfind (A := Z) key xs).
Proof.
  intros Ho Hf. apply (ordered_find_ok s key xs fuel (fun f => number_find_loop f s key)); try done.
  intros f p n b Hp Hn Hk. simpl. rewrite decide_False by done. rewrite (rd_ok _ _ _ Hn). simpl.
  unfold number. rewrite Hk. simpl. unfold number_cmp. repeat case_decide; try done; lia.
Qed.

Lemma string_find_ok s key xs fuel :
  ordered s xs -> (depth_bound (length xs) < fuel)%nat ->
  adx_rbtree_string_find fuel s (Some key) = Ok (lfind (A := bytes) key xs).
Proof.
  intros Ho Hf. apply (ordered_find_ok s key xs fuel (fun f => string_find_loop f s key)); try done.
  intros f p n b Hp Hn Hk. simpl. rewrite decide_False by done. rewrite (rd_ok _ _ _ Hn). simpl.
  unfold str. rewrite Hk. reflexivity.
Qed.

(** What an insertion promises: a fresh node is refused when its key is
    present and placed by the order otherwise; the value returned is NULL on
    refusal and also for the first node of the tree. *)
Definition add_post {A} `{!RbKey A} (s : rbs) (new : Z) (a : A) (xs : list (Z * A))
    (r : cres (Z * rbs)) : Prop :=
  (lfind a xs ≠ NULL /\ r = Ok (NULL, s)) \/
  (lfind a xs = NULL /\ exists q s', r = Ok (q, s') /\
     (q = NULL <-> xs = []) /\ ordered s' (linsert new a xs)).

Lemma ordered_add_ok {A} `{!RbKey A} s new nn (a : A) xs fuel loop :
  ordered s xs -> heap s !! new = Some nn -> rb_key nn = kinj a -> good_addr new ->
  new ∉ xs.*1 ->
  (forall f p parent, read_slot s p = Ok NULL ->
     loop (S f) p parent = (s ← adx_rbtree_link_node s new parent p;
                            s ← adx_rbtree_insert_color (S f) s new; mret (parent, s))) ->
  (forall f p parent cur n b, read_slot s p = Ok cur -> cur ≠ NULL ->
     heap s !! cur = Some n -> rb_key n = kinj b ->
     loop (S f) p parent = if decide (kcmp a b < 0) then loop f (SLeft cur) cur
       else if decide (kcmp a b > 0) then loop f (SRight cur) cur else Ok (NULL, s)) ->
  (2 * depth_bound (length xs) < fuel)%nat -> add_post s new a xs (loop fuel SRoot NULL).
Proof.
  intros (t & Hrep & Hbal & Hel & Hs) Hn Hk Hg Hfresh H1 H2 Hf. unfold add_post.
  assert (Hh := balanced_height _ Hbal). rewrite Hel in Hh. unfold enc in Hh. rewrite length_map in Hh.
  assert (Haddr : new ∉ addrs t).
  { intros Hin. apply Hfresh.
    assert (forall x, x ∈ addrs t -> x ∈ (elems t).*1) as Hsub.
    { clear. induction t as [|c l IHl p k r IHr]; simpl; [done|]. intros x.
      rewrite fmap_app. simpl. set_solver. }
    apply Hsub in Hin. rewrite Hel in Hin. unfold enc in Hin.
    rewrite <- (list_fmap_compose (fun '(p, b) => (p, kinj b)) fst xs) in Hin.
    erewrite list_fmap_ext; [exact Hin|]. by intros ? [? ?] _. }
  destruct (add_loop_ok s new nn a Hn Hk Hg loop H1 H2 fuel [] t [] xs [])
    as [[? E]|(Hl & q & s' & E & Hq & Ho)].
  - done.
  - by apply hole_ok_root.
  - intros ys. by rewrite app_nil_r.
  - done.
  - by rewrite app_nil_r.
  - constructor.
  - constructor.
  - done.
  - simpl. lia.
  - left. done.
  - right. split; [done|]. exists q, s'. rewrite app_nil_r in Ho. split; [done|]. split; [|done].
    rewrite Hq. split; [intros [_ ->]; by destruct xs as [|[] ?]|].
    intros ->. split; [done|]. destruct t as [|c l p k r]; [done|]. simpl in Hel. by destruct (elems l).
Qed.

Lemma number_add_ok s new nn a xs fuel :
  ordered s xs -> heap s !! new = Some nn -> rb_key nn = KNum a -> good_addr new ->
  new ∉ xs.*1 -> (2 * depth_bound (length xs) < fuel)%nat ->
  add_post s new a xs (adx_rbtree_number_add fuel s new).
Proof.
  intros Ho Hn Hk Hg Hfr Hf. unfold adx_rbtree_number_add.
  apply (ordered_add_ok s new nn a xs fuel (fun f p q => number_add_loop f s new p q q)); try done.
  - intros f p parent Hr. cbn [number_add_loop]. rewrite Hr. cbn [mbind cres_bind].
    by rewrite decide_False by (intros HH; by apply HH).
  - intros f p parent cur n b Hr Hc Hcur Hkb. cbn [number_add_loop]. rewrite Hr. cbn [mbind cres_bind].
    rewrite decide_True by done. rewrite (rd_ok _ _ _ Hn), (rd_ok _ _ _ Hcur). simpl.
    unfold number. rewrite Hk, Hkb. simpl. unfold number_cmp. repeat case_decide; try done; lia.
Qed.

Lemma string_add_ok s new nn a xs fuel :
  ordered s xs -> heap s !! new = Some nn -> rb_key nn = KStr (Some a) -> good_addr new ->
  new ∉ xs.*1 -> (2 * depth_bound (length xs) < fuel)%nat ->
  add_post s new a xs (adx_rbtree_string_add fuel s new).
Proof.
  intros Ho Hn Hk Hg Hfr Hf. unfold adx_rbtree_string_add. rewrite (rd_ok _ _ _ Hn).
  cbn [mbind cres_bind]. unfold str. rewrite Hk. cbn [mbind cres_bind mret cres_ret].
  apply (ordered_add_ok s new nn a xs fuel (fun f p q => string_add_loop f s new a p q q)); try done.
  - intros f p parent Hr. cbn [string_add_loop]. rewrite Hr. cbn [mbind cres_bind].
    by rewrite decide_False by (intros HH; by apply HH).
  - intros f p parent cur n b Hr Hc Hcur Hkb. cbn [string_add_loop]. rewrite Hr. cbn [mbind cres_bind].
    rewrite decide_True by done. rewrite (rd_ok _ _ _ Hcur). simpl.
    unfold str. rewrite Hkb. reflexivity.
Qed.
