(* ===== verification/AdxRbtreeDelete.v ===== *)
(** [adx_rbtree_delete] and [adx_rbtree_delete_color].

    [deficit x n] describes the subtree the rebalancing loop stands at: its
    context expects black height [S n] there.  The loop is followed case by
    case; the two mirror images of the code are two groups of lemmas. *)

From Stdlib Require Import ZArith Lia.
From S2P Require Import Prelude AdxRbtree AdxRbtreeRep AdxRbtreeInsert.
Import Rb.

Open Scope Z_scope.

Lemma plug_balanced ctx t c n :
  rbt t c n -> ctx_ok ctx n -> (c = red -> match ctx with [] => False | f :: _ => f_col f = black end) ->
  balanced (plug ctx t).
Proof.
  revert t c n. induction ctx as [|[sd fc p k sib] ctx IH]; intros t c n Ht Hc Hr; simpl.
  { destruct c; [by exists n|by specialize (Hr eq_refl)]. }
  destruct fc; simpl in Hc.
  - destruct Hc as (cs & Hs & Hc). eapply (IH _ black (S n)); [|done|done].
    destruct sd; by econstructor.
  - destruct Hc as (Hs & Hc & Hg). assert (c = black) as -> by (destruct c; [done|by specialize (Hr eq_refl)]).
    eapply (IH _ red n); [|done|by destruct ctx]. destruct sd; by constructor.
Qed.

Lemma ctx_root_elem h root f ctx a : ctx_at h root (f :: ctx) a -> root ∈ caddrs (f :: ctx).
Proof.
  revert f a. induction ctx as [|g ctx IH]; intros f a (_ & _ & Hc).
  - simpl in *. subst. apply list_elem_of_here.
  - apply IH in Hc. simpl. clear -Hc. set_solver.
Qed.

Lemma hole_not_root s f ctx x : at_hole s (f :: ctx) x -> addr x ≠ rb_node s.
Proof.
  intros (Hc & _ & Hnd & Hg) Heq. apply ctx_root_elem in Hc. rewrite <- Heq in Hc.
  destruct x as [|c l p k r].
  - apply Forall_app in Hg as [Hg _]. rewrite Forall_forall in Hg. by destruct (Hg _ Hc).
  - apply NoDup_app in Hnd as (_ & Hd & _). apply (Hd _ Hc). apply list_elem_of_here.
Qed.

Definition deficit (x : tree) (n : nat) : Prop :=
  rbt x black n \/ exists l p k r, x = T red l p k r /\ rbt (T black l p k r) black (S n).

(** The result of the loop and of the final [rb_set_black]. *)
Definition delete_post (r : cres (Z * rbs)) (xs : list (Z * rbkey)) : Prop :=
  exists s' t', ('(node, s) ← r; if decide (node ≠ NULL) then rb_set_black s node else mret s) = Ok s' /\
    rep s' t' /\ elems t' = xs /\ balanced t'.

Lemma delete_post_eq r xs ys : delete_post r xs -> xs = ys -> delete_post r ys.
Proof. by intros ? <-. Qed.

(** Leaving the loop at the root or at a red node. *)
Lemma delete_exit s ctx x n :
  at_hole s ctx x -> deficit x n -> ctx_ok ctx (S n) -> ctx = [] \/ is_red x = true ->
  delete_post (mret (addr x, s)) (celems ctx (elems x)).
Proof.
  intros Hat Hd Hc Hex. unfold delete_post. cbn [mbind cres_bind mret cres_ret].
  destruct x as [|c l p k r].
  - destruct Hex as [->|?]; [|done]. rewrite decide_False by (intros HH; by apply HH).
    exists s, E. split; [done|]. split; [done|]. split; [done|]. exists 0%nat. constructor.
  - rewrite decide_True by (by eapply at_hole_ne). cbn [addr].
    run (set_black_at Hat) as s' H'. exists s', (plug ctx (T black l p k r)). split; [done|].
    split; [exact (proj1 (at_hole_plug _ _ _) H')|]. split; [by rewrite elems_plug|].
    destruct Hd as [Hd|(l' & p' & k' & r' & [= -> -> -> -> ->] & Hd)].
    + inversion Hd; subst. destruct Hex as [->|?]; [|done]. simpl. eexists. by econstructor.
    + by apply (plug_balanced _ _ black (S n)).
Qed.

(** *** The node on the left of its parent *)

Lemma red_sib_l s ctx x pc p k sc sl sa sk sr :
  at_hole s ctx (T pc x p k (T sc sl sa sk sr)) ->
  exists s1 s2 s3, rb_set_black s sa = Ok s1 /\ rb_set_red s1 p = Ok s2 /\
    adx_rbtree_rotate_left s2 p = Ok s3 /\
    at_hole s3 ctx (T black (T red x p k sl) sa sk sr).
Proof.
  intros Hat%down_r. destruct (set_black_at Hat) as (s1 & E1 & H1%up_r).
  destruct (set_red_at H1) as (s2 & E2 & H2). destruct (rotate_left_at H2) as (s3 & E3 & H3).
  by exists s1, s2, s3.
Qed.

Lemma inner_red_l s ctx x pc p k sc la ll lk lc lr sa sk sr :
  at_hole s ctx (T pc x p k (T sc (T lc ll la lk lr) sa sk sr)) ->
  exists s1 s2 s3, rb_set_black s la = Ok s1 /\ rb_set_red s1 sa = Ok s2 /\
    adx_rbtree_rotate_right s2 sa = Ok s3 /\
    at_hole s3 ctx (T pc x p k (T black ll la lk (T red lr sa sk sr))).
Proof.
  intros Hat%down_r%down_l. destruct (set_black_at Hat) as (s1 & E1 & H1%up_l).
  destruct (set_red_at H1) as (s2 & E2 & H2).
  destruct (rotate_right_at H2) as (s3 & E3 & H3%up_r). by exists s1, s2, s3.
Qed.

Lemma final_l s ctx x pc p k sc sl sa sk rc rl ra rk rr :
  at_hole s ctx (T pc x p k (T sc sl sa sk (T rc rl ra rk rr))) ->
  exists s1 s2 s3 s4, adx_rbtree_set_color s sa (Z.b2z pc) = Ok s1 /\ rb_set_black s1 p = Ok s2 /\
    (on ← rd s2 sa; rb_set_black s2 (rb_right on)) = Ok s3 /\
    adx_rbtree_rotate_left s3 p = Ok s4 /\
    at_hole s4 ctx (T pc (T black x p k sl) sa sk (T black rl ra rk rr)).
Proof.
  intros Hat%down_r. destruct (set_color_at pc Hat) as (s1 & E1 & H1%up_r).
  destruct (set_black_at H1) as (s2 & E2 & H2%down_r). pose proof (at_hole_node H2) as Hn.
  apply down_r in H2. destruct (set_black_at H2) as (s3 & E3 & H3%up_r%up_r).
  destruct (rotate_left_at H3) as (s4 & E4 & H4). exists s1, s2, s3, s4.
  split_and!; try done. rewrite (rd_ok _ _ _ Hn). exact E3.
Qed.

(** *** The node on the right of its parent *)

Lemma red_sib_r s ctx x pc p k sc sl sa sk sr :
  at_hole s ctx (T pc (T sc sl sa sk sr) p k x) ->
  exists s1 s2 s3, rb_set_black s sa = Ok s1 /\ rb_set_red s1 p = Ok s2 /\
    adx_rbtree_rotate_right s2 p = Ok s3 /\
    at_hole s3 ctx (T black sl sa sk (T red sr p k x)).
Proof.
  intros Hat%down_l. destruct (set_black_at Hat) as (s1 & E1 & H1%up_l).
  destruct (set_red_at H1) as (s2 & E2 & H2). destruct (rotate_right_at H2) as (s3 & E3 & H3).
  by exists s1, s2, s3.
Qed.

Lemma inner_red_r s ctx x pc p k sc rc rl ra rk rr sl sa sk :
  at_hole s ctx (T pc (T sc sl sa sk (T rc rl ra rk rr)) p k x) ->
  exists s1 s2 s3, rb_set_black s ra = Ok s1 /\ rb_set_red s1 sa = Ok s2 /\
    adx_rbtree_rotate_left s2 sa = Ok s3 /\
    at_hole s3 ctx (T pc (T black (T red sl sa sk rl) ra rk rr) p k x).
Proof.
  intros Hat%down_l%down_r. destruct (set_black_at Hat) as (s1 & E1 & H1%up_r).
  destruct (set_red_at H1) as (s2 & E2 & H2).
  destruct (rotate_left_at H2) as (s3 & E3 & H3%up_l). by exists s1, s2, s3.
Qed.

Lemma final_r s ctx x pc p k sc sr sa sk lc ll la lk lr :
  at_hole s ctx (T pc (T sc (T lc ll la lk lr) sa sk sr) p k x) ->
  exists s1 s2 s3 s4, adx_rbtree_set_color s sa (Z.b2z pc) = Ok s1 /\ rb_set_black s1 p = Ok s2 /\
    (on ← rd s2 sa; rb_set_black s2 (rb_left on)) = Ok s3 /\
    adx_rbtree_rotate_right s3 p = Ok s4 /\
    at_hole s4 ctx (T pc (T black ll la lk lr) sa sk (T black sr p k x)).
Proof.
  intros Hat%down_l. destruct (set_color_at pc Hat) as (s1 & E1 & H1%up_l).
  destruct (set_black_at H1) as (s2 & E2 & H2%down_l). pose proof (at_hole_node H2) as Hn.
  apply down_l in H2. destruct (set_black_at H2) as (s3 & E3 & H3%up_l%up_l).
  destruct (rotate_right_at H3) as (s4 & E4 & H4). exists s1, s2, s3, s4.
  split_and!; try done. rewrite (rd_ok _ _ _ Hn). exact E3.
Qed.

Arguments red_sib_l {s ctx x pc p k sc sl sa sk sr}.
Arguments red_sib_r {s ctx x pc p k sc sl sa sk sr}.
Arguments inner_red_l {s ctx x pc p k sc la ll lk lc lr sa sk sr}.
Arguments inner_red_r {s ctx x pc p k sc rc rl ra rk rr sl sa sk}.
Arguments final_l {s ctx x pc p k sc sl sa sk rc rl ra rk rr}.
Arguments final_r {s ctx x pc p k sc sr sa sk lc ll la lk lr}.

(** What remains of the loop body once the sibling is black; [rest] stands
    for the recursive call. *)
Definition body_l (rest : rbs -> Z -> Z -> cres (Z * rbs)) (s : rbs) (parent other : Z) : cres (Z * rbs) :=
  on ← rd s other;
  lb ← null_or_black s (rb_left on);
  rb ← (if (lb : bool) then null_or_black s (rb_right on) else mret false);
  if (rb : bool) then
    s ← rb_set_red s other;
    nd ← rd s parent;
    rest s parent (rb_parent nd)
  else
    far ← null_or_black s (rb_right on);
    '(s, other) ←
      (if (far : bool) then
         s ← rb_set_black s (rb_left on);
         s ← rb_set_red s other;
         s ← adx_rbtree_rotate_right s other;
         pn ← rd s parent; mret (s, rb_right pn)
       else mret (s, other));
    pn ← rd s parent;
    s ← adx_rbtree_set_color s other (rb_color pn);
    s ← rb_set_black s parent;
    on ← rd s other;
    s ← rb_set_black s (rb_right on);
    s ← adx_rbtree_rotate_left s parent;
    mret (rb_node s, s).

Lemma is_red_inv t : is_red t = true -> exists l p k r, t = T red l p k r.
Proof. destruct t as [|[] l p k r]; try done. eauto. Qed.

(** The end of the loop: the root is black already. *)
Lemma finish_ok s ctx t xs :
  at_hole s ctx t -> t ≠ E -> balanced (plug ctx t) -> elems (plug ctx t) = xs ->
  delete_post (mret (rb_node s, s)) xs.
Proof.
  intros Hat Hne [n Hb] <-. apply at_hole_plug in Hat. destruct (plug ctx t) as [|c l p k r] eqn:Ep.
  - destruct ctx as [|f ctx] using rev_ind; simpl in Ep; [done|].
    exfalso. clear -Ep. revert t Ep. induction ctx as [|g ctx IH]; intros t; simpl; [apply fill_ne|apply IH].
  - unfold delete_post. pose proof Hat as (Hroot & _). simpl in Hroot. cbn [mbind cres_bind mret cres_ret].
    rewrite Hroot, decide_True by (by eapply at_hole_ne).
    run (set_black_at Hat) as s' H'. eexists _, _. split; [done|]. split; [exact H'|].
    split; [done|]. inversion Hb; subst. eexists. by econstructor.
Qed.

(** The shape the sibling has after the optional inner rotation. *)
Lemma body_l_final s ctx x pc p k sl sa sk rl ra rk rr n xs :
  at_hole s ctx (T pc x p k (T black sl sa sk (T red rl ra rk rr))) ->
  rbt x black n -> (exists c, rbt sl c n) -> rbt rl black n -> rbt rr black n ->
  ctx_ok (Fr L pc p k (T black sl sa sk (T red rl ra rk rr)) :: ctx) (S n) ->
  xs = elems (plug ctx (T pc x p k (T black sl sa sk (T red rl ra rk rr)))) ->
  delete_post
    (pn ← rd s p;
     s ← adx_rbtree_set_color s sa (rb_color pn);
     s ← rb_set_black s p;
     on ← rd s sa;
     s ← rb_set_black s (rb_right on);
     s ← adx_rbtree_rotate_left s p;
     mret (rb_node s, s)) xs.
Proof.
  intros Hat Hx [cl Hl] Hrl Hrr Hc ->. rdat Hat. rewrite rb_color_node by (by eapply at_hole_good).
  destruct (final_l Hat) as (s1 & s2 & s3 & s4 & E1 & E2 & E3 & E4 & H4).
  ok E1. ok E2. rewrite bind_assoc_c, E3. cbn [mbind cres_bind]. ok E4.
  eapply finish_ok; [exact H4|done| |].
  - simpl in Hc. destruct pc.
    + destruct Hc as (cs & _ & Hc). eapply (plug_balanced _ _ black (S (S n))); [|done|done]. balance.
    + destruct Hc as (_ & Hc & Hg). eapply (plug_balanced _ _ red (S n)); [|done|by destruct ctx]. balance.
  - same_elems.
Qed.

(** The test that both children of the sibling are black. *)
Lemma both_black s ctx c l p k r :
  at_hole s ctx (T c l p k r) ->
  (lb ← null_or_black s (addr l); if (lb : bool) then null_or_black s (addr r) else mret false)
    = Ok (negb (is_red l) && negb (is_red r)) /\
  null_or_black s (addr l) = Ok (negb (is_red l)) /\ null_or_black s (addr r) = Ok (negb (is_red r)).
Proof.
  intros Hat. pose proof (down_l _ _ _ _ _ _ _ Hat) as Hl. pose proof (down_r _ _ _ _ _ _ _ Hat) as Hr.
  rewrite (null_or_black_at Hl), (null_or_black_at Hr). cbn [mbind cres_bind].
  by destruct (is_red l).
Qed.

Lemma bind_if_c {A} (m : cres bool) (f : bool -> cres bool) (g : bool -> cres A) b :
  (lb ← m; f lb) = Ok b -> (lb ← m; rb ← f lb; g rb) = g b.
Proof. destruct m; simpl; intros H; [by rewrite H|done|done]. Qed.

Lemma body_l_ok rest s ctx x pc p k sl sa sk sr n :
  at_hole s ctx (T pc x p k (T black sl sa sk sr)) -> rbt x black n ->
  rbt (T black sl sa sk sr) black (S n) -> ctx_ok (Fr L pc p k (T black sl sa sk sr) :: ctx) (S n) ->
  (forall s, at_hole s ctx (T pc x p k (T red sl sa sk sr)) ->
     deficit (T pc x p k (T red sl sa sk sr)) (if pc then S n else n) ->
     ctx_ok ctx (S (if pc then S n else n)) ->
     delete_post (rest s p (cparent ctx)) (celems ctx (elems (T pc x p k (T red sl sa sk sr))))) ->
  delete_post (body_l rest s p sa) (celems ctx (elems (T pc x p k (T red sl sa sk sr)))).
Proof.
  intros Hat Hx Hs Hc Hrest. unfold body_l. pose proof (down_r _ _ _ _ _ _ _ Hat) as HatS. rdat HatS.
  destruct (both_black _ _ _ _ _ _ _ HatS) as (Eb & El & Er).
  rewrite (bind_if_c _ _ _ _ Eb). inversion Hs as [| |? ? ? ? cl cr ? Hsl Hsr]; subst.
  destruct (negb (is_red sl) && negb (is_red sr)) eqn:Ebb.
  - apply andb_true_iff in Ebb as [Hl%negb_true_iff Hr%negb_true_iff].
    pose proof (rbt_not_red _ _ _ Hsl Hl). pose proof (rbt_not_red _ _ _ Hsr Hr).
    run (set_red_at HatS) as s1 H1. apply up_r in H1. rdat H1.
    apply Hrest; [done| |].
    + destruct pc; [left|right]; [balance|]. do 4 eexists; split; [done|balance].
    + simpl in Hc. destruct pc; [by destruct Hc as (? & ? & ?)|by destruct Hc as (? & ? & ?)].
  - rewrite Er. cbn [mbind cres_bind]. destruct (is_red sr) eqn:Hr.
    + apply is_red_inv in Hr as (rl & ra & rk & rr & ->). inversion Hsr; subst. cbn [negb].
      cbn [mbind cres_bind mret cres_ret].
      eapply body_l_final; [exact Hat|done|eauto|done|done|exact Hc|by rewrite elems_plug].
    + rewrite andb_true_r in Ebb. apply negb_false_iff, is_red_inv in Ebb as (ll & la & lk & lr & ->).
      pose proof (rbt_not_red _ _ _ Hsr Hr). inversion Hsl; subst. cbn [negb addr].
      destruct (inner_red_l Hat) as (s1 & s2 & s3 & E1 & E2 & E3 & H3).
      ok E1. ok E2. ok E3. rdat H3. cbn [mret cres_ret addr].
      eapply body_l_final; [exact H3|done|eauto|done|done| |].
      * simpl in Hc |- *. destruct pc; [destruct Hc as (c & _ & Hc); exists black; split; [balance|done]|].
        destruct Hc as (_ & ? & ?). split_and!; [balance|done|done].
      * rewrite elems_plug. f_equal. simpl. by rewrite <- !app_assoc; simpl; rewrite <- ?app_assoc.
Qed.

(** The mirror image. *)
Definition body_r (rest : rbs -> Z -> Z -> cres (Z * rbs)) (s : rbs) (parent other : Z) : cres (Z * rbs) :=
  on ← rd s other;
  lb ← null_or_black s (rb_left on);
  rb ← (if (lb : bool) then null_or_black s (rb_right on) else mret false);
  if (rb : bool) then
    s ← rb_set_red s other;
    nd ← rd s parent;
    rest s parent (rb_parent nd)
  else
    far ← null_or_black s (rb_left on);
    '(s, other) ←
      (if (far : bool) then
         s ← rb_set_black s (rb_right on);
         s ← rb_set_red s other;
         s ← adx_rbtree_rotate_left s other;
         pn ← rd s parent; mret (s, rb_left pn)
       else mret (s, other));
    pn ← rd s parent;
    s ← adx_rbtree_set_color s other (rb_color pn);
    s ← rb_set_black s parent;
    on ← rd s other;
    s ← rb_set_black s (rb_left on);
    s ← adx_rbtree_rotate_right s parent;
    mret (rb_node s, s).

Lemma body_r_final s ctx x pc p k sr sa sk ll la lk lr n xs :
  at_hole s ctx (T pc (T black (T red ll la lk lr) sa sk sr) p k x) ->
  rbt x black n -> (exists c, rbt sr c n) -> rbt ll black n -> rbt lr black n ->
  ctx_ok (Fr R pc p k (T black (T red ll la lk lr) sa sk sr) :: ctx) (S n) ->
  xs = elems (plug ctx (T pc (T black (T red ll la lk lr) sa sk sr) p k x)) ->
  delete_post
    (pn ← rd s p;
     s ← adx_rbtree_set_color s sa (rb_color pn);
     s ← rb_set_black s p;
     on ← rd s sa;
     s ← rb_set_black s (rb_left on);
     s ← adx_rbtree_rotate_right s p;
     mret (rb_node s, s)) xs.
Proof.
  intros Hat Hx [cl Hl] Hrl Hrr Hc ->. rdat Hat. rewrite rb_color_node by (by eapply at_hole_good).
  destruct (final_r Hat) as (s1 & s2 & s3 & s4 & E1 & E2 & E3 & E4 & H4).
  ok E1. ok E2. rewrite bind_assoc_c, E3. cbn [mbind cres_bind]. ok E4.
  eapply finish_ok; [exact H4|done| |].
  - simpl in Hc. destruct pc.
    + destruct Hc as (cs & _ & Hc). eapply (plug_balanced _ _ black (S (S n))); [|done|done]. balance.
    + destruct Hc as (_ & Hc & Hg). eapply (plug_balanced _ _ red (S n)); [|done|by destruct ctx]. balance.
  - same_elems.
Qed.

Lemma body_r_ok rest s ctx x pc p k sl sa sk sr n :
  at_hole s ctx (T pc (T black sl sa sk sr) p k x) -> rbt x black n ->
  rbt (T black sl sa sk sr) black (S n) -> ctx_ok (Fr R pc p k (T black sl sa sk sr) :: ctx) (S n) ->
  (forall s, at_hole s ctx (T pc (T red sl sa sk sr) p k x) ->
     deficit (T pc (T red sl sa sk sr) p k x) (if pc then S n else n) ->
     ctx_ok ctx (S (if pc then S n else n)) ->
     delete_post (rest s p (cparent ctx)) (celems ctx (elems (T pc (T red sl sa sk sr) p k x)))) ->
  delete_post (body_r rest s p sa) (celems ctx (elems (T pc (T red sl sa sk sr) p k x))).
Proof.
  intros Hat Hx Hs Hc Hrest. unfold body_r. pose proof (down_l _ _ _ _ _ _ _ Hat) as HatS. rdat HatS.
  destruct (both_black _ _ _ _ _ _ _ HatS) as (Eb & El & Er).
  rewrite (bind_if_c _ _ _ _ Eb). inversion Hs as [| |? ? ? ? cl cr ? Hsl Hsr]; subst.
  destruct (negb (is_red sl) && negb (is_red sr)) eqn:Ebb.
  - apply andb_true_iff in Ebb as [Hl%negb_true_iff Hr%negb_true_iff].
    pose proof (rbt_not_red _ _ _ Hsl Hl). pose proof (rbt_not_red _ _ _ Hsr Hr).
    run (set_red_at HatS) as s1 H1. apply up_l in H1. rdat H1.
    apply Hrest; [done| |].
    + destruct pc; [left|right]; [balance|]. do 4 eexists; split; [done|balance].
    + simpl in Hc. destruct pc; [by destruct Hc as (? & ? & ?)|by destruct Hc as (? & ? & ?)].
  - rewrite El. cbn [mbind cres_bind]. destruct (is_red sl) eqn:Hl.
    + apply is_red_inv in Hl as (ll & la & lk & lr & ->). inversion Hsl; subst. cbn [negb].
      cbn [mbind cres_bind mret cres_ret].
      eapply body_r_final; [exact Hat|done|eauto|done|done|exact Hc|by rewrite elems_plug].
    + simpl in Ebb. apply negb_false_iff, is_red_inv in Ebb as (rl & ra & rk & rr & ->).
      pose proof (rbt_not_red _ _ _ Hsl Hl). inversion Hsr; subst. cbn [negb addr].
      destruct (inner_red_r Hat) as (s1 & s2 & s3 & E1 & E2 & E3 & H3).
      ok E1. ok E2. ok E3. rdat H3. cbn [mret cres_ret addr].
      eapply body_r_final; [exact H3|done|eauto|done|done| |].
      * simpl in Hc |- *. destruct pc; [destruct Hc as (c & _ & Hc); exists black; split; [balance|done]|].
        destruct Hc as (_ & ? & ?). split_and!; [balance|done|done].
      * rewrite elems_plug. f_equal. simpl. by rewrite <- !app_assoc; simpl; rewrite <- ?app_assoc.
Qed.

(** *** The loop *)

Lemma loop_exit_red fuel s ctx x par n :
  at_hole s ctx x -> is_red x = true -> deficit x n -> ctx_ok ctx (S n) ->
  delete_post (delete_color_loop (S fuel) s (addr x) par) (celems ctx (elems x)).
Proof.
  intros Hat Hx Hd Hc. cbn [delete_color_loop]. rewrite (null_or_black_at Hat), Hx.
  cbn [mbind cres_bind negb andb]. eapply delete_exit; try done. by right.
Qed.

Lemma delete_color_loop_ok fuel s ctx x n :
  at_hole s ctx x -> deficit x n -> ctx_ok ctx (S n) -> (S (length ctx) < fuel)%nat ->
  delete_post (delete_color_loop fuel s (addr x) (cparent ctx)) (celems ctx (elems x)).
Proof.
  revert s ctx x n. induction fuel as [|fuel IH]; [lia|].
  intros s ctx x n Hat Hd Hc Hf. cbn [delete_color_loop].
  rewrite (null_or_black_at Hat). cbn [mbind cres_bind].
  destruct ctx as [|[sd pc p k S0] ctx].
  { rewrite bool_decide_eq_false_2, andb_false_r by (intros Hne; apply Hne; by destruct Hat).
    eapply delete_exit; try done. by left. }
  destruct (is_red x) eqn:Ex.
  { cbn [negb andb]. eapply (delete_exit _ _ _ n); try done. by right. }
  rewrite bool_decide_eq_true_2 by (by eapply hole_not_root). cbn [negb andb].
  assert (Hx : rbt x black n).
  { destruct Hd as [?|(l & q & kq & r & -> & _)]; done. }
  assert (HS : exists cS, rbt S0 cS (S n)).
  { destruct pc; simpl in Hc; [destruct Hc as (c & ? & _); eauto|destruct Hc as (? & _); eauto]. }
  destruct HS as [cS HS]. destruct S0 as [|cS' sl sa sk sr]; [by inversion HS|].
  destruct fuel as [|fuel]; [simpl in Hf; lia|]. cbn [cparent f_addr].
  destruct sd.
  - apply up_l in Hat. rdat Hat. rewrite decide_True by done.
    pose proof (down_r _ _ _ _ _ _ _ Hat) as HatS. cbn [addr]. rdat HatS. unfold rb_is_red.
    rewrite rb_color_node by (by eapply at_hole_good). destruct cS'; simpl Z.b2z.
    + rewrite bool_decide_eq_false_2 by done. cbn [mret cres_ret].
      inversion HS; subst.
      eapply delete_post_eq.
      * refine (body_l_ok (delete_color_loop (S fuel)) s ctx x pc p k sl sa sk sr n Hat Hx HS Hc _).
        intros s1 H1 Hd1 Hc1. eapply (IH s1 ctx (T pc x p k (T red sl sa sk sr))); try done. simpl in Hf; lia.
      * done.
    + rewrite bool_decide_eq_true_2 by done. inversion HS; subst.
      assert (pc = black) as ->. { destruct pc; [done|]. destruct Hc as (HH & _). inversion HH. }
      destruct (red_sib_l Hat) as (s1 & s2 & s3 & E1 & E2 & E3 & H3). ok E1. ok E2. ok E3.
      apply down_l in H3. rdat H3. cbn [mret cres_ret addr].
      match goal with H : rbt sl black (S n) |- _ => rename H into Hsl end.
      destruct sl as [|[] sll sla slk slr]; [by inversion Hsl| |by inversion Hsl]. cbn [addr].
      simpl in Hc. destruct Hc as (_ & _ & Hc).
      assert (Hc' : ctx_ok (Fr L black sa sk sr :: ctx) (S n)) by (by exists black).
      eapply delete_post_eq.
      * refine (body_l_ok (delete_color_loop (S fuel)) s3 _ x red p k sll sla slk slr n H3 Hx Hsl _ _).
        { simpl. by split_and!. }
        intros s4 H4 Hd4 Hc4. exact (loop_exit_red _ _ _ _ _ n H4 eq_refl Hd4 Hc4).
      * simpl. by rewrite <- !app_assoc; simpl; rewrite <- ?app_assoc.
  - apply up_r in Hat. rdat Hat. pose proof (at_hole_ne_lr Hat) as Hlr.
    rewrite decide_False by (destruct Hlr as [?|[??]]; done).
    pose proof (down_l _ _ _ _ _ _ _ Hat) as HatS. cbn [addr]. rdat HatS. unfold rb_is_red.
    rewrite rb_color_node by (by eapply at_hole_good). destruct cS'; simpl Z.b2z.
    + rewrite bool_decide_eq_false_2 by done. cbn [mret cres_ret].
      inversion HS; subst.
      eapply delete_post_eq.
      * refine (body_r_ok (delete_color_loop (S fuel)) s ctx x pc p k sl sa sk sr n Hat Hx HS Hc _).
        intros s1 H1 Hd1 Hc1. eapply (IH s1 ctx (T pc (T red sl sa sk sr) p k x)); try done. simpl in Hf; lia.
      * done.
    + rewrite bool_decide_eq_true_2 by done. inversion HS; subst.
      assert (pc = black) as ->. { destruct pc; [done|]. destruct Hc as (HH & _). inversion HH. }
      destruct (red_sib_r Hat) as (s1 & s2 & s3 & E1 & E2 & E3 & H3). ok E1. ok E2. ok E3.
      apply down_r in H3. rdat H3. cbn [mret cres_ret addr].
      match goal with H : rbt sr black (S n) |- _ => rename H into Hsr end.
      destruct sr as [|[] srl sra srk srr]; [by inversion Hsr| |by inversion Hsr]. cbn [addr].
      simpl in Hc. destruct Hc as (_ & _ & Hc).
      assert (Hc' : ctx_ok (Fr R black sa sk sl :: ctx) (S n)) by (by exists black).
      eapply delete_post_eq.
      * refine (body_r_ok (delete_color_loop (S fuel)) s3 _ x red p k srl sra srk srr n H3 Hx Hsr _ _).
        { simpl. by split_and!. }
        intros s4 H4 Hd4 Hc4. exact (loop_exit_red _ _ _ _ _ n H4 eq_refl Hd4 Hc4).
      * simpl. by rewrite <- !app_assoc; simpl; rewrite <- ?app_assoc.
Qed.

(** ** Taking a node out *)

Lemma at_hole_app s sp ctx t : at_hole s (sp ++ ctx) t <-> at_hole s ctx (plug sp t).
Proof. revert t. induction sp as [|f sp IH]; intros t; simpl; [done|]. by rewrite at_hole_fill. Qed.

Lemma plug_app sp ctx t : plug (sp ++ ctx) t = plug ctx (plug sp t).
Proof. revert t. induction sp as [|f sp IH]; intros t; simpl; auto. Qed.

(** The code that replaces a node by its only child. *)
Lemma splice_at s ctx c l p k r x :
  at_hole s ctx (T c l p k r) -> (l = E /\ x = r) \/ (r = E /\ x = l) ->
  exists s1 s2,
    (if decide (addr x ≠ NULL) then adx_rbtree_set_parent s (addr x) (cparent ctx) else mret s) = Ok s1 /\
    (if decide (cparent ctx ≠ NULL) then
       pn ← rd s1 (cparent ctx);
       if decide (rb_left pn = p) then upd s1 (cparent ctx) (set_left (addr x))
       else upd s1 (cparent ctx) (set_right (addr x))
     else mret (set_root (addr x) s1)) = Ok s2 /\ at_hole s2 ctx x.
Proof.
  intros Hat Hx. pose proof (at_hole_good Hat) as Hpar. pose proof (at_hole_ne Hat) as Hp0.
  destruct Hat as (Hc & (Hp & Hl & Hr) & Hnd & Hg). cbn [addr] in Hc. simpl in Hnd, Hg.
  apply Forall_app in Hg as [Hgc Hg]. rewrite Forall_cons, Forall_app in Hg. destruct Hg as ([Hgp _] & Hgl & Hgr).
  assert (tree_at (heap s) p x /\ Forall good_addr (addrs x) /\ NoDup (caddrs ctx ++ p :: addrs x)) as (Hxt & Hxg & Hxn).
  { destruct Hx as [[-> ->]|[-> ->]]; simpl in Hnd; [done|]. by rewrite app_nil_r in Hnd. }
  destruct (reparent_ok s p (cparent ctx) x) as (s1 & E1 & Ht1 & Hr1 & Hf1); [done|done|done|done| |].
  { clear -Hxn. simpl in *. nodup_facts. done. }
  destruct (relink_l s1 ctx p (addr x)) as (s2 & E2 & Hc2 & Hf2); [| done| | | |].
  { rewrite Hr1. eapply ctx_at_frame; [|exact Hc]. intros y Hy. apply Hf1. clear -Hxn Hy. dj. }
  { clear -Hxn. dj. } { clear -Hxn. nodup_facts. done. } { done. }
  exists s1, s2. split; [done|]. split; [done|]. split; [done|]. split.
  - eapply tree_at_frame; [|exact Ht1]. intros y Hy. apply Hf2. clear -Hxn Hy. dj.
  - split; [|by apply Forall_app]. clear -Hxn.
    apply NoDup_app in Hxn as (H1 & H2 & H3). apply NoDup_cons in H3 as [H3 H4].
    apply NoDup_app. split_and!; [done| |done]. intros y Hy Hy'. apply (H2 y Hy). by apply list_elem_of_further.
Qed.

Lemma deficit_child c l p k r x n :
  rbt (T c l p k r) c n -> (l = E /\ x = r) \/ (r = E /\ x = l) ->
  if c then n = 1%nat /\ deficit x 0 else n = 0%nat /\ x = E.
Proof.
  intros Ht Hx.
  assert (forall x cx, rbt x cx 0 -> deficit x 0) as Hdef.
  { intros y cy Hy. inversion Hy; subst; [left; constructor|right]. do 4 eexists. split; [done|]. by econstructor. }
  inversion Ht as [|? ? ? ? ? Hl Hr|? ? ? ? cl cr m Hl Hr]; subst.
  - destruct Hx as [[-> ->]|[-> ->]].
    + inversion Hl; subst. by inversion Hr.
    + inversion Hr; subst. by inversion Hl.
  - destruct Hx as [[-> ->]|[-> ->]].
    + inversion Hl; subst. eauto.
    + inversion Hr; subst. eauto.
Qed.

Definition del_result (r : cres rbs) (xs : list (Z * rbkey)) : Prop :=
  exists s' t', r = Ok s' /\ rep s' t' /\ elems t' = xs /\ balanced t'.

(** The rebalancing that follows the removal of a node of colour [c]. *)
Lemma rebalance_ok fuel s ctx x (c : bool) n :
  at_hole s ctx x -> ctx_ok ctx n -> (if c then n = 1%nat /\ deficit x 0 else n = 0%nat /\ x = E) ->
  (S (length ctx) < fuel)%nat ->
  del_result (if decide (Z.b2z c = 1) then adx_rbtree_delete_color fuel s (addr x) (cparent ctx) else mret s)
    (celems ctx (elems x)).
Proof.
  intros Hat Hc Hx Hf. destruct c.
  - destruct Hx as [-> Hd]. rewrite decide_True by done. unfold adx_rbtree_delete_color.
    exact (delete_color_loop_ok fuel s ctx x 0 Hat Hd Hc Hf).
  - destruct Hx as [-> ->]. rewrite decide_False by done. exists s, (plug ctx E).
    split; [done|]. split; [exact (proj1 (at_hole_plug _ _ _) Hat)|]. split; [by rewrite elems_plug|].
    apply (plug_balanced _ _ black 0); [constructor|done|done].
Qed.

Lemma delete_unlink_ok fuel s ctx c l p k r x :
  at_hole s ctx (T c l p k r) -> hole_ok ctx (T c l p k r) -> (l = E /\ x = r) \/ (r = E /\ x = l) ->
  (S (length ctx) < fuel)%nat ->
  del_result (delete_unlink fuel s p (addr x)) (celems ctx (elems l ++ elems r)).
Proof.
  intros Hat (n & c' & Hc & Ht & _) Hx Hf. unfold delete_unlink. rdat Hat.
  rewrite rb_color_node by (by eapply at_hole_good).
  destruct (splice_at _ _ _ _ _ _ _ _ Hat Hx) as (s1 & s2 & E1 & E2 & H2).
  ok E1. ok E2. assert (c' = c) as -> by (by inversion Ht).
  replace (elems l ++ elems r) with (elems x).
  - eapply rebalance_ok; [done|exact Hc| |done]. by eapply deficit_child.
  - destruct Hx as [[-> ->]|[-> ->]]; simpl; [done|by rewrite app_nil_r].
Qed.

(** *** The successor of a node with two children *)

Lemma leftmost_ok fuel s ctx r :
  at_hole s ctx r -> r ≠ E -> (height r <= fuel)%nat ->
  exists sp c q k x, r = plug sp (T c E q k x) /\ Forall (fun f => f_side f = L) sp /\
    leftmost_loop fuel s (addr r) = Ok q.
Proof.
  revert s ctx r. induction fuel as [|fuel IH]; intros s ctx r Hat Hne Hf.
  { destruct r; [done|simpl in Hf; lia]. }
  destruct r as [|c l q k x]; [done|]. cbn [leftmost_loop addr]. rdat Hat.
  apply down_l in Hat. destruct l as [|cl ll lq lk lr].
  - rewrite decide_False by (intros HH; by apply HH). exists [], c, q, k, x. by split_and!; [|constructor|].
  - rewrite decide_True by (by eapply at_hole_ne).
    destruct (IH s _ _ Hat) as (sp & c' & q' & k' & x' & E & Hsp & Eq); [done|simpl in *; lia|].
    exists (sp ++ [Fr L c q k x]), c', q', k', x'. split; [|split; [|done]].
    + rewrite plug_app, <- E. done.
    + apply Forall_app. split; [done|by apply Forall_singleton].
Qed.

(** A left spine inside a tree with parent [par]. *)
Definition spar (par : Z) (sp : list frame) : Z := match sp with [] => par | f :: _ => f_addr f end.
Fixpoint spine_at (h : gmap Z rbnode) (par : Z) (sp : list frame) (a : Z) : Prop :=
  match sp with
  | [] => True
  | f :: sp => h !! f_addr f = Some (fnode f (spar par sp) a) /\
               tree_at h (f_addr f) (f_sib f) /\ spine_at h par sp (f_addr f)
  end.

Lemma tree_at_plug h par sp t :
  tree_at h par (plug sp t) <-> spine_at h par sp (addr t) /\ tree_at h (spar par sp) t.
Proof.
  revert t. induction sp as [|f sp IH]; intros t; simpl; [tauto|]. rewrite IH.
  destruct f as [[] c p k sib]; unfold fill, fnode; simpl; tauto.
Qed.

Lemma spine_at_frame h h' par sp a :
  (forall x, x ∈ caddrs sp -> h' !! x = h !! x) -> spine_at h par sp a -> spine_at h' par sp a.
Proof.
  revert a. induction sp as [|f sp IH]; intros a Hf; simpl in *; [done|].
  intros (H1 & H2 & H3). rewrite Hf by (clear; set_solver). split; [done|].
  split; [eapply tree_at_frame; [|done]|apply IH; [|done]];
    intros x Hx; apply Hf; clear -Hx; set_solver.
Qed.

Lemma addrs_fill f t : addrs (fill f t) ≡ₚ f_addr f :: addrs (f_sib f) ++ addrs t.
Proof. destruct f as [[] c p k sib]; simpl; [|done]. by rewrite (Permutation_app_comm (addrs t)). Qed.

Lemma addrs_plug sp t : addrs (plug sp t) ≡ₚ caddrs sp ++ addrs t.
Proof.
  revert t. induction sp as [|f sp IH]; intros t; [done|]. cbn [plug caddrs].
  rewrite IH, addrs_fill, <- Permutation_middle. simpl. apply Permutation_skip.
  rewrite !app_assoc. apply Permutation_app_tail, Permutation_app_comm.
Qed.

Lemma addr_plug_cons f sp t t' : addr (plug (f :: sp) t) = addr (plug (f :: sp) t').
Proof.
  revert f t t'. induction sp as [|g sp IH]; intros f t t'; [by destruct f as [[] ? ? ? ?]|].
  apply (IH g (fill f t) (fill f t')).
Qed.

(** Putting node [q] in the place of [p]: the end of the two-children case. *)
Lemma replace_finish s ctx c l p k q kq r' nq :
  ctx_at (heap s) (rb_node s) ctx q ->
  heap s !! p = Some (Node (word c (cparent ctx)) nq (addr l) k) ->
  tree_at (heap s) p l -> l ≠ E ->
  (exists pc lf, heap s !! q = Some (Node pc (addr r') lf kq)) -> tree_at (heap s) q r' ->
  aligned p -> NoDup (p :: caddrs ctx ++ q :: addrs l ++ addrs r') ->
  Forall good_addr (caddrs ctx ++ q :: addrs l ++ addrs r') ->
  exists s1 s2 s3,
    (on ← rd s p; upd s q (set_pc (rb_parent_color on))) = Ok s1 /\
    rd s1 p = rd s p /\ upd s1 q (set_left (addr l)) = Ok s2 /\
    adx_rbtree_set_parent s2 (addr l) q = Ok s3 /\
    at_hole s3 ctx (T c l q kq r').
Proof.
  intros Hc Hp Hl Hlne (pc & lf & Hq) Hr Hap Hnd Hg. rewrite (rd_ok _ _ _ Hp). cbn [mbind cres_bind].
  assert (p ≠ q) as Hpq by (clear -Hnd; dj).
  pose (s1 := Rbs (<[q := Node (word c (cparent ctx)) (addr r') lf kq]> (heap s)) (rb_node s)).
  pose (s2 := Rbs (<[q := Node (word c (cparent ctx)) (addr r') (addr l) kq]> (heap s)) (rb_node s)).
  apply NoDup_cons in Hnd as [Hpn Hnd].
  assert (Hg' := Hg). apply Forall_app in Hg' as [Hgc Hg']. rewrite Forall_cons, Forall_app in Hg'.
  destruct Hg' as ([Hgq _] & Hgl & Hgr).
  destruct (reparent_ok s2 p q l) as (s3 & E3 & Hl3 & Hr3 & Hf3); [|done|done|done| |].
  { eapply tree_at_frame; [|exact Hl]. intros y Hy. simpl. apply lookup_insert_ne. clear -Hnd Hy. dj. }
  { clear -Hnd. nodup_facts. simpl in *. nodup_facts. done. }
  rewrite decide_True in E3.
  2:{ destruct l; [done|]. by apply Forall_cons in Hgl as [[_ ?] _]. }
  exists s1, s2, s3. split; [exact (upd_ok _ _ _ _ Hq)|].
  split; [unfold rd; simpl; by rewrite lookup_insert_ne, Hp|].
  split.
  { rewrite (upd_ok s1 q (Node (word c (cparent ctx)) (addr r') lf kq)) by apply lookup_insert_eq.
    unfold s1, s2. simpl. rewrite insert_insert_eq. done. }
  split; [exact E3|]. split; [|split; [split; [|split]|split]].
  - rewrite Hr3. eapply ctx_at_frame; [|exact Hc]. intros y Hy. rewrite Hf3 by (clear -Hnd Hy; dj).
    simpl. apply lookup_insert_ne. clear -Hnd Hy. dj.
  - rewrite Hf3 by (clear -Hnd; dj). simpl. by rewrite lookup_insert_eq.
  - done.
  - eapply tree_at_frame; [|exact Hr]. intros y Hy. rewrite Hf3 by (clear -Hnd Hy; dj).
    simpl. apply lookup_insert_ne. clear -Hnd Hy. dj.
  - done.
  - done.
Qed.

(** Detaching the successor from the bottom of the spine. *)
Lemma height_plug sp t : (length sp + height t <= height (plug sp t))%nat.
Proof.
  revert t. induction sp as [|f sp IH]; intros t; simpl; [lia|]. specialize (IH (fill f t)).
  destruct f as [[] ? ? ? ?]; simpl in *; lia.
Qed.

Lemma detach_ok s par f sp cq q kq x :
  tree_at (heap s) par (plug (f :: sp) (T cq E q kq x)) -> f_side f = L ->
  NoDup (addrs (plug (f :: sp) (T cq E q kq x))) ->
  Forall good_addr (addrs (plug (f :: sp) (T cq E q kq x))) ->
  exists s1 s2,
    (if decide (addr x ≠ NULL) then adx_rbtree_set_parent s (addr x) (f_addr f) else mret s) = Ok s1 /\
    upd s1 (f_addr f) (set_left (addr x)) = Ok s2 /\
    tree_at (heap s2) par (plug (f :: sp) x) /\ rb_node s2 = rb_node s /\ heap s2 !! q = heap s !! q /\
    (forall y, y ∉ addrs (plug (f :: sp) (T cq E q kq x)) -> heap s2 !! y = heap s !! y).
Proof.
  intros Ht Hf Hnd Hg. apply tree_at_plug in Ht as [Hsp (Hq & _ & Hx)].
  rewrite addrs_plug in Hnd, Hg.
  assert (Hout : forall y, y ∉ addrs (plug (f :: sp) (T cq E q kq x)) -> y ∉ caddrs (f :: sp) ++ q :: addrs x).
  { intros y Hy. by rewrite addrs_plug in Hy. }
  cbn [addrs app] in Hnd, Hg. apply Forall_app in Hg as [Hgs [[Hgq _] Hgx]%Forall_cons].
  destruct f as [sd c p k sib]. simpl in Hf. subst sd. cbn [spine_at f_addr f_sib caddrs] in *.
  destruct Hsp as (Hp & Hs & Hsp). apply Forall_cons in Hgs as [[Hgp _] Hgs].
  destruct (reparent_ok s q p x) as (s1 & E1 & Ht1 & Hr1 & Hf1); [done|done|done|done| |].
  { clear -Hnd. nodup_facts. done. }
  assert (Hp1 : heap s1 !! p = Some (fnode (Fr L c p k sib) (spar par sp) q)).
  { rewrite Hf1 by (clear -Hnd; dj). done. }
  exists s1. eexists. split; [done|]. split; [exact (upd_ok _ _ _ _ Hp1)|].
  split; [|split; [done|split]].
  - apply tree_at_plug. cbn [spine_at f_addr f_sib heap]. split; [split; [|split]|].
    + by rewrite lookup_insert_eq.
    + eapply tree_at_frame; [|exact Hs]. intros y Hy.
      rewrite lookup_insert_ne, Hf1 by (clear -Hnd Hy; dj). done.
    + eapply spine_at_frame; [|exact Hsp]. intros y Hy.
      rewrite lookup_insert_ne, Hf1 by (clear -Hnd Hy; dj). done.
    + eapply tree_at_frame; [|exact Ht1]. intros y Hy. apply lookup_insert_ne. clear -Hnd Hy. dj.
  - simpl. rewrite lookup_insert_ne, Hf1 by (clear -Hnd; dj). done.
  - intros y Hy%Hout. simpl. rewrite lookup_insert_ne, Hf1 by (clear -Hy; set_solver). done.
Qed.

Lemma ctx_ok_rename sp f g n ctx :
  f_col f = f_col g -> f_sib f = f_sib g -> ctx_ok (sp ++ f :: ctx) n -> ctx_ok (sp ++ g :: ctx) n.
Proof.
  intros Hc Hs. revert n. induction sp as [|h sp IH]; intros n; simpl; [by rewrite Hc, Hs|].
  destruct (f_col h); [intros (c & ? & ?); exists c; auto|].
  intros (? & ? & Hh). split_and!; auto. destruct sp; simpl in *; [by rewrite <- Hc|done].
Qed.

Lemma hole_ok_app sp ctx t : hole_ok ctx (plug sp t) -> hole_ok (sp ++ ctx) t.
Proof.
  revert t. induction sp as [|[[] c p k sib] sp IH]; intros t Hok; simpl in *; [done|..];
    apply IH in Hok; [by eapply hole_ok_left|by eapply hole_ok_right].
Qed.

Lemma elems_spine sp : Forall (fun f => f_side f = L) sp ->
  exists rest, forall t, elems (plug sp t) = elems t ++ rest.
Proof.
  induction sp as [|f sp IH] using rev_ind; intros Hsp.
  - exists []. intros t'. by rewrite app_nil_r.
  - apply Forall_app in Hsp as [Hsp [Hf _]%Forall_cons]. destruct (IH Hsp) as [rest Hr].
    exists (rest ++ (f_addr f, f_key f) :: elems (f_sib f)). intros t'. rewrite plug_app.
    destruct f as [[] c p k sib]; [|done]. unfold fill. simpl. by rewrite Hr, <- app_assoc.
Qed.

(** After the replacement, the rebalancing from the place of the successor. *)
Lemma replace_rebalance fuel s s0 ctx c l p k q kq sp cq x :
  at_hole s0 ctx (T c l p k (plug sp (T cq E q kq x))) ->
  hole_ok ctx (T c l p k (plug sp (T cq E q kq x))) -> Forall (fun f => f_side f = L) sp ->
  at_hole s ctx (T c l q kq (plug sp x)) -> (S (S (length sp + length ctx)) < fuel)%nat ->
  del_result (if decide (Z.b2z cq = 1)
     then adx_rbtree_delete_color fuel s (addr x) (match sp with [] => q | f :: _ => f_addr f end)
     else mret s) (celems ctx (elems l ++ elems (plug sp (T cq E q kq x)))).
Proof.
  intros Hat0 Hok Hsp Hat Hf. apply hole_ok_right in Hok. apply hole_ok_app in Hok.
  destruct Hok as (n & c' & Hc & Ht & _). assert (c' = cq) as -> by (by inversion Ht).
  apply (ctx_ok_rename _ _ (Fr R c q kq l)) in Hc; [|done|done].
  apply down_r in Hat. apply at_hole_app in Hat.
  assert (celems ctx (elems l ++ elems (plug sp (T cq E q kq x)))
     = celems (sp ++ Fr R c q kq l :: ctx) (elems x)) as ->.
  { rewrite <- elems_plug, plug_app. simpl. rewrite (elems_plug ctx). f_equal. unfold fill. simpl.
    destruct (elems_spine sp Hsp) as [rest Hr]. by rewrite !Hr. }
  assert ((match sp with [] => q | f :: _ => f_addr f end) = cparent (sp ++ Fr R c q kq l :: ctx)) as ->.
  { by destruct sp. }
  eapply rebalance_ok; [done|exact Hc| |rewrite length_app; simpl; lia].
  eapply (deficit_child _ E q kq x x); [done|by left].
Qed.

(** The common end of the two ways of taking the successor out. *)
Lemma delete_tail fuel s0 s ctx c l p k q kq sp cq x :
  at_hole s0 ctx (T c l p k (plug sp (T cq E q kq x))) ->
  hole_ok ctx (T c l p k (plug sp (T cq E q kq x))) -> Forall (fun f => f_side f = L) sp -> l ≠ E ->
  ctx_at (heap s) (rb_node s) ctx q ->
  (exists nq, heap s !! p = Some (Node (word c (cparent ctx)) nq (addr l) k)) ->
  tree_at (heap s) p l ->
  (exists pc lf, heap s !! q = Some (Node pc (addr (plug sp x)) lf kq)) -> tree_at (heap s) q (plug sp x) ->
  aligned p -> NoDup (p :: caddrs ctx ++ q :: addrs l ++ addrs (plug sp x)) ->
  Forall good_addr (caddrs ctx ++ q :: addrs l ++ addrs (plug sp x)) ->
  (S (S (length sp + length ctx)) < fuel)%nat ->
  del_result
    (on ← rd s p;
     s ← upd s q (set_pc (rb_parent_color on));
     on ← rd s p;
     s ← upd s q (set_left (rb_left on));
     s ← adx_rbtree_set_parent s (rb_left on) q;
     if decide (Z.b2z cq = 1)
     then adx_rbtree_delete_color fuel s (addr x) (match sp with [] => q | f :: _ => f_addr f end)
     else mret s) (celems ctx (elems l ++ elems (plug sp (T cq E q kq x)))).
Proof.
  intros Hat Hok Hsp Hl Hc [nq Hp] Htl Hq Htr Hap Hnd Hg Hf.
  destruct (replace_finish s ctx c l p k q kq (plug sp x) nq)
    as (s2 & s3 & s4 & E2 & Er & E3 & E4 & H4); [done..|].
  rewrite bind_assoc_c, E2. cbn [mbind cres_bind]. rewrite Er, (rd_ok _ _ _ Hp).
  cbn [mbind cres_bind rb_left]. ok E3. ok E4. by eapply replace_rebalance.
Qed.

Lemma delete_two_ok fuel s ctx c l p k r :
  at_hole s ctx (T c l p k r) -> hole_ok ctx (T c l p k r) -> l ≠ E -> r ≠ E ->
  (S (S (height r + length ctx)) < fuel)%nat ->
  del_result (adx_rbtree_delete fuel s p) (celems ctx (elems l ++ elems r)).
Proof.
  intros Hat Hok Hl Hr Hf. unfold adx_rbtree_delete. rdat Hat.
  pose proof (at_hole_good Hat) as Hpar. pose proof (at_hole_ne Hat) as Hp0.
  pose proof Hat as (Hc & (Hp & Htl & Htr) & Hnd & Hg). cbn [addr] in Hc, Hp. simpl in Hnd, Hg.
  assert (Hg' := Hg). apply Forall_app in Hg' as [Hgc Hg']. rewrite Forall_cons, Forall_app in Hg'.
  destruct Hg' as ([Hgp _] & Hgl & Hgr).
  rewrite (decide_False (P := addr l = NULL)) by (intros HH; by apply Hl, addr_null).
  rewrite (decide_False (P := addr r = NULL)) by (intros HH; by apply Hr, addr_null).
  destruct (leftmost_ok fuel s _ r (down_r _ _ _ _ _ _ _ Hat) Hr) as (sp & cq & q & kq & x & -> & Hsp & ->); [lia|].
  cbn [mbind cres_bind].
  destruct (relink_l s ctx p q) as (s1 & E1 & Hc1 & Hf1);
    [done|done|clear -Hnd; dj|clear -Hnd; by nodup_facts|done|]. ok E1.
  assert (Hperm : addrs (plug sp (T cq E q kq x)) ≡ₚ q :: addrs (plug sp x)).
  { rewrite !addrs_plug. simpl. by rewrite <- Permutation_middle. }
  rewrite Hperm in Hnd, Hg, Hgr.
  pose proof (height_plug sp (T cq E q kq x)) as Hhe.
  assert (Hp1 : heap s1 !! p = heap s !! p) by (apply Hf1; clear -Hnd; dj).
  assert (Hl1 : tree_at (heap s1) p l).
  { eapply tree_at_frame; [|exact Htl]. intros y Hy. apply Hf1. clear -Hnd Hy. dj. }
  assert (Hr1 : tree_at (heap s1) p (plug sp (T cq E q kq x))).
  { eapply tree_at_frame; [|exact Htr]. intros y Hy. apply Hf1. rewrite Hperm in Hy. clear -Hnd Hy. dj. }
  assert (Hnd' : NoDup (p :: caddrs ctx ++ q :: addrs l ++ addrs (plug sp x))).
  { eapply NoDup_Permutation_proper; [|exact Hnd].
    by rewrite <- (Permutation_middle (addrs l)), <- (Permutation_middle (caddrs ctx) _ p). }
  assert (Hg2 : Forall good_addr (caddrs ctx ++ q :: addrs l ++ addrs (plug sp x))).
  { apply Forall_app. apply Forall_cons in Hgr as [? ?]. split; [done|]. constructor; [done|by apply Forall_app]. }
  destruct sp as [|f sp].
  - simpl in Hr1. destruct Hr1 as (Hq & _ & Hx). rewrite (rd_ok _ _ _ Hq). cbn [mbind cres_bind rb_right].
    rewrite rb_parent_node, rb_color_node by done. rewrite decide_True by done.
    cbn [mret cres_ret mbind cres_bind].
    eapply (delete_tail fuel s s1 ctx c l p k q kq [] cq x); try done; [eexists; by rewrite Hp1|eauto|simpl in *; lia].
  - pose proof Hr1 as Hr1'. apply tree_at_plug in Hr1' as [_ (Hq & _ & _)].
    rewrite (rd_ok _ _ _ Hq). cbn [mbind cres_bind rb_right spar].
    assert (good_addr (f_addr f) /\ f_addr f ≠ p /\ f_side f = L) as ([Hgf Hf0] & Hfp & HfL).
    { apply Forall_cons in Hsp as [HfL _]. split; [|split; [|done]].
      - apply Forall_cons in Hgr as [_ Hgr]. rewrite addrs_plug in Hgr. by apply Forall_cons in Hgr as [? _].
      - clear -Hnd. rewrite addrs_plug in Hnd. dj. }
    rewrite rb_parent_node, rb_color_node by done. rewrite decide_False by done.
    destruct (detach_ok s1 p f sp cq q kq x Hr1) as (s2 & s3 & E2 & E3 & Hr3 & Hrt3 & Hq3 & Hf3); [done| | |].
    { rewrite Hperm. clear -Hnd. nodup_facts. by apply NoDup_cons. } { rewrite Hperm. done. }
    ok E2. ok E3.
    assert (Hf3' : forall y, y ∉ q :: addrs (plug (f :: sp) x) -> heap s3 !! y = heap s1 !! y).
    { intros y Hy. apply Hf3. by rewrite Hperm. }
    assert (Hp3 : heap s3 !! p = Some (Node (word c (cparent ctx)) (addr (plug (f :: sp) x)) (addr l) k)).
    { rewrite Hf3', Hp1, Hp by (clear -Hnd; dj). by rewrite (addr_plug_cons f sp _ x). }
    rewrite (rd_ok _ _ _ Hp3). cbn [mbind cres_bind rb_right].
    rewrite Hq in Hq3. rewrite (upd_ok _ _ _ _ Hq3). cbn [mbind cres_bind].
    match goal with |- context [adx_rbtree_set_parent ?s' (addr (plug (f :: sp) x)) q] => set (s4 := s') end.
    destruct (reparent_ok s4 p q (plug (f :: sp) x)) as (s5 & E5 & Hr5 & Hrt5 & Hf5); [| done| | | |].
    { eapply tree_at_frame; [|exact Hr3]. intros y Hy. apply lookup_insert_ne. clear -Hnd Hy. dj. }
    { by apply Forall_cons in Hgr as [[? _] _]. } { by apply Forall_cons in Hgr as [_ ?]. }
    { clear -Hnd. nodup_facts. done. }
    rewrite decide_True in E5.
    2:{ apply Forall_cons in Hgr as [_ Hgr]. intros HH. apply addr_null in HH; [|done]. simpl in HH.
        pose proof (height_plug sp (fill f x)) as Hh. rewrite HH in Hh. clear -Hh.
        destruct f as [[] ? ? ? ?]; simpl in Hh; lia. }
    ok E5. cbn [mret cres_ret mbind cres_bind].
    assert (Hout : forall y, y ∉ q :: addrs (plug (f :: sp) x) -> heap s5 !! y = heap s1 !! y).
    { intros y Hy. rewrite Hf5 by (clear -Hy; set_solver). unfold s4. simpl.
      rewrite lookup_insert_ne by (clear -Hy; set_solver). by apply Hf3'. }
    eapply (delete_tail fuel s s5 ctx c l p k q kq (f :: sp) cq x); try done.
    + rewrite Hrt5. unfold s4. simpl. rewrite Hrt3. eapply ctx_at_frame; [|exact Hc1].
      intros y Hy. apply Hout. clear -Hnd Hy. dj.
    + eexists. rewrite Hout by (clear -Hnd; dj). by rewrite Hp1.
    + eapply tree_at_frame; [|exact Hl1]. intros y Hy. apply Hout. clear -Hnd Hy. dj.
    + do 2 eexists. rewrite Hf5 by (clear -Hnd; dj). unfold s4. simpl. by rewrite lookup_insert_eq.
    + simpl in *. lia.
Qed.
