(* ===== verification/AdxRbtreeSpec.v ===== *)
(** The red-black tree as a finite map: deletion from an ordered tree, and
    the theorems that every sequence of calls behaves as a map from keys to
    nodes. *)

From Stdlib Require Import ZArith Lia Sorted.
From S2P Require Import Prelude AdxRbtree AdxRbtreeRep AdxRbtreeInsert AdxRbtreeMap AdxRbtreeDelete.
Import Rb.

Open Scope Z_scope.

(** ** Finding the place of a node *)

Lemma locate t a p k b :
  elems t = a ++ (p, k) :: b ->
  exists ctx c l r a' b', t = plug ctx (T c l p k r) /\ (forall ys, celems ctx ys = a' ++ ys ++ b') /\
    a = a' ++ elems l /\ b = elems r ++ b'.
Proof.
  revert a b. induction t as [|c l IHl q kq r IHr]; intros a b Hel; simpl in Hel.
  { by destruct a. }
  assert (forall (x y : list (Z * rbkey)) u z v w, x ++ u :: y = z ++ v :: w ->
    (exists m, x = z ++ v :: m /\ w = m ++ u :: y) \/ (x = z /\ u = v /\ y = w) \/
    (exists m, z = x ++ u :: m /\ y = m ++ v :: w)) as Hsplit.
  { clear. intros x y u z v w. revert z. induction x as [|x0 x IH]; intros [|z0 z]; simpl; intros [= -> H].
    - right; left. done.
    - right; right. exists z. by rewrite H.
    - left. exists x. done.
    - destruct (IH z H) as [(m & -> & ->)|[(-> & -> & ->)|(m & -> & ->)]]; eauto 6. }
  destruct (Hsplit _ _ _ _ _ _ Hel) as [(m & Hl & ->)|[(<- & [= -> ->] & <-)|(m & -> & Hr)]].
  - destruct (IHl _ _ Hl) as (ctx & c' & l' & r' & a' & b' & -> & Hc & -> & ->).
    exists (ctx ++ [Fr L c q kq r]), c', l', r', a', (b' ++ (q, kq) :: elems r).
    split; [by rewrite plug_app|]. split; [|split; [done|by rewrite <- app_assoc]].
    intros ys. assert (forall zs, celems (ctx ++ [Fr L c q kq r]) zs = celems ctx zs ++ (q, kq) :: elems r) as ->.
    { clear. induction ctx as [|g ctx IH]; intros zs; simpl; [done|]. by rewrite IH. }
    by rewrite Hc, <- !app_assoc.
  - exists [], c, l, r, [], []. split; [done|]. split; [intros ys; by rewrite app_nil_r|].
    split; [done|by rewrite app_nil_r].
  - destruct (IHr _ _ Hr) as (ctx & c' & l' & r' & a' & b' & -> & Hc & -> & ->).
    exists (ctx ++ [Fr R c q kq l]), c', l', r', (elems l ++ (q, kq) :: a'), b'.
    split; [by rewrite plug_app|]. split; [|split; [by rewrite <- app_assoc|done]].
    intros ys. assert (forall zs, celems (ctx ++ [Fr R c q kq l]) zs = elems l ++ (q, kq) :: celems ctx zs) as ->.
    { clear. induction ctx as [|g ctx IH]; intros zs; simpl; [done|]. by rewrite IH. }
    by rewrite Hc, <- !app_assoc.
Qed.

Lemma hole_ok_plug ctx t : balanced (plug ctx t) -> hole_ok ctx t.
Proof.
  intros Hb%hole_ok_root. rewrite <- (app_nil_r ctx). by apply hole_ok_app.
Qed.

Lemma delete_rep_ok fuel s t a p k b :
  rep s t -> balanced t -> elems t = a ++ (p, k) :: b -> (2 * height t + 2 < fuel)%nat ->
  del_result (adx_rbtree_delete fuel s p) (a ++ b).
Proof.
  intros Hrep Hbal Hel Hf. destruct (locate _ _ _ _ _ Hel) as (ctx & c & l & r & a' & b' & -> & Hc & -> & ->).
  pose proof (proj2 (at_hole_plug _ _ _) Hrep) as Hat. pose proof (hole_ok_plug _ _ Hbal) as Hok.
  pose proof (height_plug ctx (T c l p k r)) as Hh. simpl in Hh.
  replace ((a' ++ elems l) ++ elems r ++ b') with (celems ctx (elems l ++ elems r)).
  2:{ by rewrite Hc, <- !app_assoc. }
  assert (Hnl : forall x, (x = l \/ x = r) -> addr x = NULL -> x = E).
  { intros x Hx. apply addr_null. destruct Hat as (_ & _ & _ & [_ [_ [? ?]%Forall_app]%Forall_cons]%Forall_app).
    by destruct Hx as [->| ->]. }
  destruct (decide (addr l = NULL)) as [El|El]; [|destruct (decide (addr r = NULL)) as [Er|Er]].
  - apply Hnl in El as ->; [|by left]. unfold adx_rbtree_delete. rdat Hat.
    rewrite decide_True by done. eapply delete_unlink_ok; [done|done|by left|lia].
  - apply Hnl in Er as ->; [|by right]. unfold adx_rbtree_delete. rdat Hat.
    rewrite decide_False, decide_True by done. eapply delete_unlink_ok; [done|done|by right|lia].
  - eapply delete_two_ok; try done; [by intros ->|by intros ->|lia].
Qed.

Section Keyed.
Context {A : Type} `{!RbKey A}.

Lemma ordered_delete_ok fuel s (xs ys : list (Z * A)) p a :
  ordered s (xs ++ (p, a) :: ys) -> (2 * depth_bound (length (xs ++ (p, a) :: ys)) + 2 < fuel)%nat ->
  exists s', adx_rbtree_delete fuel s p = Ok s' /\ ordered s' (xs ++ ys).
Proof.
  intros (t & Hrep & Hbal & Hel & Hs) Hf.
  assert (Hh := balanced_height _ Hbal). rewrite Hel in Hh. unfold enc in Hh. rewrite length_map in Hh.
  rewrite enc_app in Hel. simpl in Hel.
  destruct (delete_rep_ok fuel s t _ _ _ _ Hrep Hbal Hel) as (s' & t' & E & Hrep' & Hel' & Hbal'); [lia|].
  exists s'. split; [done|]. exists t'. split_and!; [done|done|by rewrite Hel', enc_app|].
  clear -Hs. induction xs as [|x xs IH]; simpl in *; apply StronglySorted_inv in Hs as [Hs Hx]; [done|].
  constructor; [auto|]. apply Forall_app in Hx as [? [_ ?]%Forall_cons]. by apply Forall_app.
Qed.

(** *** Nodes of an ordered tree *)

Lemma elems_addrs t : (elems t).*1 ≡ₚ addrs t.
Proof.
  induction t as [|c l IHl p k r IHr]; simpl; [done|]. rewrite fmap_app. simpl.
  by rewrite <- Permutation_middle, IHl, IHr.
Qed.

Lemma enc_fst (xs : list (Z * A)) : (enc xs).*1 = xs.*1.
Proof. induction xs as [|[p a] xs IH]; simpl; [done|]. f_equal. exact IH. Qed.

Lemma ordered_nodup s (xs : list (Z * A)) : ordered s xs -> NoDup xs.*1 /\ NULL ∉ xs.*1.
Proof.
  intros (t & (_ & _ & Hnd & Hg) & _ & Hel & _). simpl in Hnd, Hg.
  rewrite <- enc_fst, <- Hel, elems_addrs. split; [done|].
  intros Hin. rewrite Forall_forall in Hg. by destruct (Hg _ Hin).
Qed.

Lemma ordered_key s (xs : list (Z * A)) p a :
  ordered s xs -> (p, a) ∈ xs -> rb_key <$> heap s !! p = Some (kinj a).
Proof.
  intros (t & (_ & Ht & _) & _ & Hel & _) Hin. simpl in Ht.
  assert ((p, kinj a) ∈ elems t) as Hin'.
  { rewrite Hel. apply (list_elem_of_fmap_2 (fun '(p, b) => (p, kinj b)) _ _ Hin). }
  clear Hel Hin. revert Ht Hin'. generalize NULL. induction t as [|c l IHl q k r IHr]; intros par; simpl.
  - intros _ []%elem_of_nil.
  - intros (Hq & Hl & Hr). rewrite elem_of_app, elem_of_cons. intros [H|[[= <- <-]|H]]; eauto.
    by rewrite Hq.
Qed.

Lemma lfind_spec (a : A) xs p :
  StronglySorted klt xs -> NULL ∉ xs.*1 -> p ≠ NULL -> lfind a xs = p <-> (p, a) ∈ xs.
Proof.
  intros Hs Hn Hp. induction xs as [|[q b] xs IH]; simpl.
  { split; [by intros <-|by intros ?%elem_of_nil]. }
  apply StronglySorted_inv in Hs as [Hs Hx]. rewrite elem_of_cons. simpl in Hn.
  rewrite not_elem_of_cons in Hn. destruct Hn as [Hq Hn]. case_decide as Hab.
  - apply kcmp_eq in Hab as ->. split; [intros ->; by left|]. intros [[= ->]|Hin]; [done|].
    rewrite Forall_forall in Hx. specialize (Hx _ Hin). unfold klt in Hx. simpl in Hx.
    rewrite kcmp_refl in Hx. lia.
  - rewrite IH by done. split; [by right|]. intros [[= -> ->]|]; [|done]. by rewrite kcmp_refl in Hab.
Qed.

Lemma lfind_null (a : A) xs :
  NULL ∉ xs.*1 -> lfind a xs = NULL <-> (forall p, (p, a) ∉ xs).
Proof.
  intros Hn. induction xs as [|[q b] xs IH]; simpl.
  { split; [by intros _ p ?%elem_of_nil|done]. }
  simpl in Hn. rewrite not_elem_of_cons in Hn. destruct Hn as [Hq Hn]. case_decide as Hab.
  - apply kcmp_eq in Hab as ->. split; [by intros ->|]. intros Hall. destruct (Hall q). apply list_elem_of_here.
  - rewrite IH by done. split; intros Hall p.
    + rewrite elem_of_cons. intros [[= -> ->]|Hin]; [by rewrite kcmp_refl in Hab|by eapply Hall].
    + intros Hin. apply (Hall p). by apply list_elem_of_further.
Qed.

Lemma linsert_perm p (a : A) xs : linsert p a xs ≡ₚ (p, a) :: xs.
Proof.
  induction xs as [|[q b] xs IH]; simpl; [done|]. case_decide; [done|].
  rewrite IH. apply Permutation_swap.
Qed.
End Keyed.

(** ** Keys of nodes never change *)

Definition same_keys (s s' : rbs) : Prop :=
  forall p, rb_key <$> heap s' !! p = rb_key <$> heap s !! p.

#[export] Instance same_keys_refl : Reflexive same_keys.
Proof. by intros s p. Qed.
#[export] Instance same_keys_trans : Transitive same_keys.
Proof. intros s1 s2 s3 H1 H2 p. by rewrite H2, H1. Qed.

Lemma upd_keys s s' p f :
  upd s p f = Ok s' -> (forall n, rb_key (f n) = rb_key n) -> same_keys s s'.
Proof.
  unfold upd. intros H Hf. inv_ok. simplify_eq. intros q. simpl. unfold rd in H0.
  apply of_opt_ok in H0. destruct (decide (q = p)) as [->|].
  - by rewrite lookup_insert_eq, H0; simpl; rewrite Hf.
  - by rewrite lookup_insert_ne.
Qed.

Lemma set_black_keys s s' p : rb_set_black s p = Ok s' -> same_keys s s'.
Proof. intros H. by eapply upd_keys; [exact H|intros []]. Qed.
Lemma set_red_keys s s' p : rb_set_red s p = Ok s' -> same_keys s s'.
Proof. intros H. by eapply upd_keys; [exact H|intros []]. Qed.
Lemma set_color_keys s s' p c : adx_rbtree_set_color s p c = Ok s' -> same_keys s s'.
Proof. intros H. by eapply upd_keys; [exact H|intros []]. Qed.
Lemma set_parent_keys s s' p q : adx_rbtree_set_parent s p q = Ok s' -> same_keys s s'.
Proof. intros H. by eapply upd_keys; [exact H|intros []]. Qed.
Lemma set_left_keys s s' p v : upd s p (set_left v) = Ok s' -> same_keys s s'.
Proof. intros H. by eapply upd_keys; [exact H|intros []]. Qed.
Lemma set_right_keys s s' p v : upd s p (set_right v) = Ok s' -> same_keys s s'.
Proof. intros H. by eapply upd_keys; [exact H|intros []]. Qed.
Lemma set_pc_keys s s' p v : upd s p (set_pc v) = Ok s' -> same_keys s s'.
Proof. intros H. by eapply upd_keys; [exact H|intros []]. Qed.
Lemma set_root_keys s v : same_keys s (set_root v s).
Proof. by intros p. Qed.

(** [keys]: turn every step of the computation into [same_keys] and chain the
    states backwards. *)
Ltac keys_facts := repeat match goal with
  | H : upd _ _ (set_left _) = Ok _ |- _ => apply set_left_keys in H
  | H : upd _ _ (set_right _) = Ok _ |- _ => apply set_right_keys in H
  | H : upd _ _ (set_pc _) = Ok _ |- _ => apply set_pc_keys in H
  | H : adx_rbtree_set_parent _ _ _ = Ok _ |- _ => apply set_parent_keys in H
  | H : adx_rbtree_set_color _ _ _ = Ok _ |- _ => apply set_color_keys in H
  | H : rb_set_red _ _ = Ok _ |- _ => apply set_red_keys in H
  | H : rb_set_black _ _ = Ok _ |- _ => apply set_black_keys in H
  end.
Ltac keys_chain := repeat match goal with
  | |- same_keys ?s ?s => reflexivity
  | |- same_keys _ (set_root _ ?s) => transitivity s; [|apply set_root_keys]
  | H : same_keys ?s1 ?s2 |- same_keys _ ?s2 => transitivity s1; [clear H|exact H]
  end.
Ltac keys := inv_all; keys_facts; keys_chain.

Lemma rotate_left_keys s s' p : adx_rbtree_rotate_left s p = Ok s' -> same_keys s s'.
Proof. unfold adx_rbtree_rotate_left. intros H. keys. Qed.
Lemma rotate_right_keys s s' p : adx_rbtree_rotate_right s p = Ok s' -> same_keys s s'.
Proof. unfold adx_rbtree_rotate_right. intros H. keys. Qed.

Lemma insert_color_loop_keys fuel s s' p : insert_color_loop fuel s p = Ok s' -> same_keys s s'.
Proof.
  revert s p. induction fuel as [|fuel IH]; intros s p H; simpl in H; [done|].
  inv_all; keys_facts;
    repeat match goal with
    | H : insert_color_loop _ _ _ = Ok _ |- _ => apply IH in H
    | H : adx_rbtree_rotate_left _ _ = Ok _ |- _ => apply rotate_left_keys in H
    | H : adx_rbtree_rotate_right _ _ = Ok _ |- _ => apply rotate_right_keys in H
    end; keys_chain.
Qed.

Lemma delete_color_loop_keys fuel s s' p q par :
  delete_color_loop fuel s p par = Ok (q, s') -> same_keys s s'.
Proof.
  revert s p par. induction fuel as [|fuel IH]; intros s p par H; cbn [delete_color_loop] in H; [done|].
  inv_all; keys_facts;
    repeat match goal with
    | H : delete_color_loop _ _ _ _ = Ok _ |- _ => apply IH in H
    | H : adx_rbtree_rotate_left _ _ = Ok _ |- _ => apply rotate_left_keys in H
    | H : adx_rbtree_rotate_right _ _ = Ok _ |- _ => apply rotate_right_keys in H
    end; keys_chain.
Qed.

Lemma delete_color_keys fuel s s' p par : adx_rbtree_delete_color fuel s p par = Ok s' -> same_keys s s'.
Proof.
  unfold adx_rbtree_delete_color. intros H. inv_all; keys_facts;
    repeat match goal with
    | H : delete_color_loop _ _ _ _ = Ok _ |- _ => apply delete_color_loop_keys in H end; keys_chain.
Qed.

Lemma delete_keys fuel s s' p : adx_rbtree_delete fuel s p = Ok s' -> same_keys s s'.
Proof.
  unfold adx_rbtree_delete, delete_unlink. intros H. inv_all; keys_facts;
    repeat match goal with
    | H : adx_rbtree_delete_color _ _ _ _ = Ok _ |- _ => apply delete_color_keys in H end; keys_chain.
Qed.

Lemma link_node_keys s s' p par sl : adx_rbtree_link_node s p par sl = Ok s' -> same_keys s s'.
Proof. unfold adx_rbtree_link_node, write_slot. intros H. destruct sl; keys. Qed.

Lemma insert_color_keys fuel s s' p : adx_rbtree_insert_color fuel s p = Ok s' -> same_keys s s'.
Proof.
  unfold adx_rbtree_insert_color. intros H. inv_all; keys_facts.
  match goal with H : insert_color_loop _ _ _ = Ok _ |- _ => apply insert_color_loop_keys in H end.
  keys_chain.
Qed.

Ltac add_keys IH :=
  repeat match goal with
  | H : adx_rbtree_link_node _ _ _ _ = Ok _ |- _ => apply link_node_keys in H
  | H : adx_rbtree_insert_color _ _ _ = Ok _ |- _ => apply insert_color_keys in H
  | H : _ = Ok (_, _) |- _ => apply IH in H
  end; keys_chain.

Lemma number_add_loop_keys fuel s s' p sl par nd q :
  number_add_loop fuel s p sl par nd = Ok (q, s') -> same_keys s s'.
Proof.
  revert sl par nd. induction fuel as [|fuel IH]; intros sl par nd H; cbn [number_add_loop] in H; [done|].
  inv_ok. case_decide; inv_ok; [|add_keys IH].
  repeat case_decide; [by eapply IH|by eapply IH|inv_ok; reflexivity].
Qed.

Lemma number_add_keys fuel s s' p q : adx_rbtree_number_add fuel s p = Ok (q, s') -> same_keys s s'.
Proof. apply number_add_loop_keys. Qed.

Lemma string_add_loop_keys fuel s s' p k sl par nd q :
  string_add_loop fuel s p k sl par nd = Ok (q, s') -> same_keys s s'.
Proof.
  revert sl par nd. induction fuel as [|fuel IH]; intros sl par nd H; cbn [string_add_loop] in H; [done|].
  inv_ok. case_decide; inv_ok; [|add_keys IH].
  match type of H with (match ?o with _ => _ end) = _ => destruct o end; [|inv_ok; reflexivity].
  cbn zeta in H. repeat case_decide; [by eapply IH|by eapply IH|inv_ok; reflexivity].
Qed.

Lemma string_add_keys fuel s s' p q : adx_rbtree_string_add fuel s p = Ok (q, s') -> same_keys s s'.
Proof.
  unfold adx_rbtree_string_add. intros H. inv_ok.
  match type of H with (match ?o with _ => _ end) = _ => destruct o end; [|inv_ok; reflexivity].
  by eapply string_add_loop_keys.
Qed.

(** ** The map a tree stands for

    [rb_tree A] is the interface of a tree with keys of type [A]: what the
    clients of the tree rely on, for the two families of functions. *)
Class RbTree (A : Type) `{!RbKey A} := {
  rbt_add : nat -> rbs -> Z -> cres (Z * rbs);
  rbt_find : nat -> rbs -> A -> cres Z;
  rbt_add_ok fuel s new (a : A) xs :
    ordered s xs -> rb_key <$> heap s !! new = Some (kinj a) -> good_addr new -> new ∉ xs.*1 ->
    (2 * depth_bound (length xs) < fuel)%nat -> add_post s new a xs (rbt_add fuel s new);
  rbt_find_ok fuel s (a : A) xs :
    ordered s xs -> (depth_bound (length xs) < fuel)%nat -> rbt_find fuel s a = Ok (lfind a xs);
  rbt_add_keys fuel s s' p q : rbt_add fuel s p = Ok (q, s') -> same_keys s s' }.

#[export] Program Instance number_tree : RbTree Z :=
  { rbt_add := adx_rbtree_number_add; rbt_find := adx_rbtree_number_find }.
Next Obligation.
  intros fuel s new a xs Ho Hk Hg Hn Hf. apply fmap_Some in Hk as (n & Hn1 & Hk). by eapply number_add_ok.
Qed.
Next Obligation. intros. by apply number_find_ok. Qed.
Next Obligation. intros. by eapply number_add_keys. Qed.

#[export] Program Instance string_tree : RbTree bytes :=
  { rbt_add := adx_rbtree_string_add; rbt_find := fun fuel s k => adx_rbtree_string_find fuel s (Some k) }.
Next Obligation.
  intros fuel s new a xs Ho Hk Hg Hn Hf. apply fmap_Some in Hk as (n & Hn1 & Hk). by eapply string_add_ok.
Qed.
Next Obligation. intros. by apply string_find_ok. Qed.
Next Obligation. intros. by eapply string_add_keys. Qed.

Inductive map_op (A : Type) : Type :=
| MAdd (node : Z)
| MFind (key : A)
| MDel (node : Z).
Arguments MAdd {A} node.
Arguments MFind {A} key.
Arguments MDel {A} node.

Section MapSpec.
Context {A : Type} `{Countable A} `{!RbKey A} `{!RbTree A}.

(** One call on the memory.  The value of an insertion is not an
    observation: NULL is returned both on refusal and for a first node. *)
Definition tree_step (fuel : nat) (s : rbs) (op : map_op A) : cres (option Z * rbs) :=
  match op with
  | MAdd p => '(_, s) ← rbt_add fuel s p; mret (None, s)
  | MFind k => p ← rbt_find fuel s k; mret (Some p, s)
  | MDel p => s ← adx_rbtree_delete fuel s p; mret (None, s)
  end.

(** The same call on a map from keys to nodes.  [pool] gives the key of every
    node of the client; [None] is a call outside the contract: linking a node
    that is linked, unlinking one that is not. *)
Definition map_step (pool : gmap Z A) (M : gmap A Z) (op : map_op A) : option (option Z * gmap A Z) :=
  match op with
  | MAdd p => a ← pool !! p;
      if decide (M !! a = Some p) then None
      else Some (None, match M !! a with Some _ => M | None => <[a := p]> M end)
  | MFind k => Some (Some (default NULL (M !! k)), M)
  | MDel p => a ← pool !! p;
      if decide (M !! a = Some p) then Some (None, delete a M) else None
  end.

Fixpoint tree_run (fuel : nat) (s : rbs) (ops : list (map_op A)) : cres (list (option Z) * rbs) :=
  match ops with
  | [] => mret ([], s)
  | op :: ops => '(o, s) ← tree_step fuel s op; '(os, s) ← tree_run fuel s ops; mret (o :: os, s)
  end.
Fixpoint map_run (pool : gmap Z A) (M : gmap A Z) (ops : list (map_op A))
    : option (list (option Z) * gmap A Z) :=
  match ops with
  | [] => Some ([], M)
  | op :: ops => '(o, M) ← map_step pool M op; '(os, M) ← map_run pool M ops; Some (o :: os, M)
  end.

Definition tree_rep (s : rbs) (pool : gmap Z A) (M : gmap A Z) : Prop :=
  (exists xs, ordered s xs /\ forall a p, M !! a = Some p <-> (p, a) ∈ xs) /\
  (forall p a, pool !! p = Some a -> good_addr p /\ rb_key <$> heap s !! p = Some (kinj a)) /\
  (forall a p, M !! a = Some p -> pool !! p = Some a).

Lemma rep_length s (pool : gmap Z A) (M : gmap A Z) xs :
  ordered s xs -> (forall a p, M !! a = Some p <-> (p, a) ∈ xs) ->
  (forall a p, M !! a = Some p -> pool !! p = Some a) -> (length xs <= size pool)%nat.
Proof.
  intros [Hnd _]%ordered_nodup HM Hpool. rewrite <- (length_fmap fst xs).
  rewrite <- size_dom. rewrite <- (size_list_to_set (C := gset Z) xs.*1) by done.
  apply subseteq_size. intros p. rewrite elem_of_list_to_set, elem_of_dom.
  intros ([q a] & -> & Hin)%list_elem_of_fmap. simpl. exists a. by apply Hpool, HM.
Qed.

Lemma tree_step_refines fuel s pool M op o M' :
  tree_rep s pool M -> map_step pool M op = Some (o, M') ->
  (2 * depth_bound (size pool) + 2 < fuel)%nat ->
  exists s', tree_step fuel s op = Ok (o, s') /\ tree_rep s' pool M'.
Proof.
  intros ((xs & Ho & HM) & Hk & Hp) Hop Hf.
  pose proof (rep_length _ _ _ _ Ho HM Hp) as Hlen.
  assert (depth_bound (length xs) <= depth_bound (size pool))%nat as Hdb.
  { unfold depth_bound. pose proof (Nat.log2_le_mono (S (length xs)) (S (size pool))). lia. }
  pose proof (ordered_nodup _ _ Ho) as [Hnd Hnull].
  destruct op as [p|k|p]; simpl in Hop |- *.
  - destruct (pool !! p) as [a|] eqn:Ep; [|done]. simpl in Hop. case_decide as Hlk; simplify_eq.
    destruct (Hk _ _ Ep) as [Hgood Hkey].
    assert (p ∉ xs.*1) as Hfresh.
    { intros ([q b] & -> & Hin)%list_elem_of_fmap. simpl in *. apply HM in Hin as Hb.
      apply Hp in Hb as Hb'. simplify_eq. }
    assert (lfind a xs = NULL <-> M !! a = None) as Hlf.
    { rewrite lfind_null by done. split.
      - intros Hall. destruct (M !! a) as [q|] eqn:E; [|done]. by apply HM, Hall in E.
      - intros Hnone q Hin%HM. congruence. }
    destruct (rbt_add_ok fuel s p a xs Ho Hkey Hgood Hfresh) as [[Hl E]|(Hl & q & s' & E & _ & Ho')]; [lia|..];
      rewrite E; cbn [mbind cres_bind].
    + exists s. split; [done|]. destruct (M !! a) eqn:Ea; [|destruct Hl; by apply Hlf]. by split; [exists xs|].
    + apply Hlf in Hl. rewrite Hl. exists s'. split; [done|].
      apply rbt_add_keys in E. split; [|split].
      * exists (linsert p a xs). split; [done|]. intros b q'. rewrite linsert_perm, elem_of_cons.
        destruct (decide (b = a)) as [->|Hne].
        -- rewrite lookup_insert_eq. split; [intros [= ->]; by left|].
           intros [[= ->]|Hin]; [done|]. apply HM in Hin. congruence.
        -- rewrite lookup_insert_ne by done. rewrite HM. naive_solver.
      * intros q' b Hq'. destruct (Hk _ _ Hq') as [? ?]. split; [done|]. by rewrite E.
      * intros b q' Hb. destruct (decide (b = a)) as [->|Hne].
        -- rewrite lookup_insert_eq in Hb. congruence.
        -- rewrite lookup_insert_ne in Hb by done. auto.
  - simplify_eq. rewrite (rbt_find_ok fuel s k xs) by (done || lia). cbn [mbind cres_bind].
    exists s. split; [|by split; [exists xs|]].
    destruct (M' !! k) as [q|] eqn:Ek; simpl.
    + apply HM in Ek. f_equal. f_equal. f_equal. apply lfind_spec; try done; [by destruct Ho as (? & ? & ? & ? & ?)|].
      intros ->. apply Hnull. apply (list_elem_of_fmap_2 fst _ _ Ek).
    + f_equal. f_equal. f_equal. apply lfind_null; [done|]. intros q Hin%HM. congruence.
  - destruct (pool !! p) as [a|] eqn:Ep; [|done]. simpl in Hop. case_decide as Hlk; simplify_eq.
    apply HM in Hlk as Hin. apply list_elem_of_split in Hin as (ys & zs & ->).
    destruct (ordered_delete_ok fuel s ys zs p a Ho) as (s' & E & Ho'); [lia|].
    rewrite E. exists s'. split; [done|]. apply delete_keys in E. split; [|split].
    + exists (ys ++ zs). split; [done|]. intros b q.
      rewrite fmap_app in Hnd. simpl in Hnd. apply NoDup_app in Hnd as (_ & Hd & [Hz _]%NoDup_cons).
      rewrite lookup_delete_Some, HM, !elem_of_app, elem_of_cons. split.
      * intros [Hne [?|[[= -> ->]|?]]]; auto. done.
      * intros Hin. split; [|tauto]. intros <-.
        assert (M !! a = Some q) as Hq by (apply HM; rewrite elem_of_app, elem_of_cons; tauto).
        assert (q = p) as -> by congruence.
        destruct Hin as [Hin|Hin]; apply (list_elem_of_fmap_2 fst) in Hin; simpl in Hin; [|done].
        apply (Hd p Hin), list_elem_of_here.
    + intros q b Hq. destruct (Hk _ _ Hq) as [? ?]. split; [done|]. by rewrite E.
    + intros b q [_ Hb]%lookup_delete_Some. auto.
Qed.

Lemma tree_run_refines fuel s pool M ops os M' :
  tree_rep s pool M -> map_run pool M ops = Some (os, M') ->
  (2 * depth_bound (size pool) + 2 < fuel)%nat ->
  exists s', tree_run fuel s ops = Ok (os, s') /\ tree_rep s' pool M'.
Proof.
  intros Hr Hrun Hf. revert s M os Hr Hrun. induction ops as [|op ops IH]; intros s M os Hr Hrun; simpl in *.
  - simplify_eq. eauto.
  - destruct (map_step pool M op) as [[o M1]|] eqn:Eo; simplify_eq/=.
    destruct (map_run pool M1 ops) as [[os' M2]|] eqn:Er; simplify_eq/=.
    destruct (tree_step_refines _ _ _ _ _ _ _ Hr Eo Hf) as (s1 & E1 & Hr1). rewrite E1. simpl.
    destruct (IH _ _ _ Hr1 Er) as (s2 & E2 & Hr2). rewrite E2. simpl. eauto.
Qed.
End MapSpec.

(** ** The properties *)

(** C1: the number tree is a finite map.  From any memory that represents a
    map, every sequence of calls of [adx_rbtree_number_add],
    [adx_rbtree_number_find] and [adx_rbtree_delete] that links only free
    nodes and unlinks only linked ones runs to completion on live memory,
    finds what the map holds (NULL for an absent key), refuses a duplicate
    key, and leaves a tree that represents the updated map; a number of loop
    iterations logarithmic in the number of nodes is enough. *)
Theorem adx_rbtree_number_refines_map (fuel : nat) (s : rbs) (pool : gmap Z Z) (M : gmap Z Z)
    (ops : list (map_op Z)) (os : list (option Z)) (M' : gmap Z Z) :
  tree_rep s pool M -> map_run pool M ops = Some (os, M') ->
  (4 * Nat.log2 (S (base.size pool)) + 2 < fuel)%nat ->
  exists s', tree_run (A := Z) fuel s ops = Ok (os, s') /\ tree_rep s' pool M'.
Proof. intros Hr Hrun Hf. eapply tree_run_refines; [done..|]. unfold depth_bound. lia. Qed.

(** C2: the same for the string tree, ordered by [strcmp]. *)
Theorem adx_rbtree_string_refines_map (fuel : nat) (s : rbs) (pool : gmap Z bytes) (M : gmap bytes Z)
    (ops : list (map_op bytes)) (os : list (option Z)) (M' : gmap bytes Z) :
  tree_rep s pool M -> map_run pool M ops = Some (os, M') ->
  (4 * Nat.log2 (S (base.size pool)) + 2 < fuel)%nat ->
  exists s', tree_run (A := bytes) fuel s ops = Ok (os, s') /\ tree_rep s' pool M'.
Proof. intros Hr Hrun Hf. eapply tree_run_refines; [done..|]. unfold depth_bound. lia. Qed.

(** C3: balance.  Whatever calls respect the contract, the memory they leave
    holds a binary search tree, in key order, with a black root, no red node
    with a red child, equally many black nodes on every path, and height at
    most [2 * log2 (n + 1)]. *)
Theorem adx_rbtree_stays_balanced (fuel : nat) (s : rbs) (pool : gmap Z Z) M ops os M' s' :
  tree_rep s pool M -> map_run pool M ops = Some (os, M') ->
  (4 * Nat.log2 (S (base.size pool)) + 2 < fuel)%nat ->
  tree_run (A := Z) fuel s ops = Ok (os, s') ->
  exists t n (xs : list (Z * Z)), rep s' t /\ rbt t black n /\ elems t = enc xs /\ StronglySorted klt xs /\
    (height t <= 2 * Nat.log2 (S (length xs)))%nat.
Proof.
  intros Hr Hrun Hf E.
  destruct (tree_run_refines fuel s pool M ops os M' Hr Hrun) as (s2 & E2 & (xs & Ho & _) & _);
    [unfold depth_bound; lia|]. assert (s2 = s') as -> by congruence.
  destruct Ho as (t & Hrep & Hbal & Hel & Hs). exists t. destruct Hbal as [n Hn]. exists n, xs.
  split_and!; try done. pose proof (balanced_height t (ex_intro _ n Hn)) as Hh.
  rewrite Hel in Hh. unfold enc in Hh. by rewrite length_map in Hh.
Qed.

(** the value of [adx_rbtree_number_add].  Inserting a fresh node
    returns NULL when the key is present (and changes nothing), but also
    when the tree was empty and the node was linked; otherwise it returns the
    node the new one was hung under, never the new node. *)
Theorem adx_rbtree_number_add_result fuel s new nn (a : Z) (xs : list (Z * Z)) :
  ordered s xs -> heap s !! new = Some nn -> rb_key nn = KNum a -> good_addr new ->
  new ∉ xs.*1 -> (4 * Nat.log2 (S (length xs)) < fuel)%nat ->
  exists q s', adx_rbtree_number_add fuel s new = Ok (q, s') /\
    (q = NULL <-> lfind a xs ≠ NULL \/ xs = []) /\
    (lfind a xs ≠ NULL -> s' = s) /\ (lfind a xs = NULL -> ordered s' (linsert new a xs)).
Proof.
  intros Ho Hn Hk Hg Hfr Hf.
  destruct (number_add_ok s new nn a xs fuel Ho Hn Hk Hg Hfr) as [[Hl E]|(Hl & q & s' & E & Hq & Ho')];
    [unfold depth_bound; lia| |].
  - exists NULL, s. split_and!; [done|tauto|done|]. intros Hl'. by rewrite Hl' in Hl.
  - exists q, s'. split_and!; [done| |by rewrite Hl|done]. rewrite Hq, Hl. split; [by right|by intros [|]].
Qed.

(** A client with a few nodes and nothing linked. *)
Definition demo_heap (ks : list (Z * rbkey)) : rbs :=
  Rbs (list_to_map (map (fun '(p, k) => (p, Node 77 78 79 k)) ks)) NULL.

Lemma demo_ordered {A} `{!RbKey A} ks : ordered (demo_heap ks) ([] : list (Z * A)).
Proof.
  exists E. split; [split; [done|split; [done|split; constructor]]|].
  split; [exists 0%nat; constructor|]. split; [done|constructor].
Qed.

Definition demo_pool : gmap Z Z :=
  list_to_map [(4, 50); (8, 20); (12, 70); (16, 60); (20, 65); (24, 10); (28, 50)].
Definition demo_nums : rbs :=
  demo_heap [(4, KNum 50); (8, KNum 20); (12, KNum 70); (16, KNum 60); (20, KNum 65); (24, KNum 10); (28, KNum 50)].
Definition demo_num_ops : list (map_op Z) :=
  [MAdd 4; MAdd 8; MAdd 12; MAdd 16; MAdd 20; MAdd 24; MAdd 28; MFind 65; MFind 50; MDel 4; MFind 50;
   MDel 12; MDel 24; MDel 8; MAdd 28; MFind 50; MFind 70].

Lemma demo_nums_rep : tree_rep demo_nums demo_pool ∅.
Proof.
  split; [|split].
  - exists []. split; [apply demo_ordered|]. intros a p. rewrite lookup_empty.
    split; [done|by intros ?%elem_of_nil].
  - assert (map_Forall (fun p a => (p mod 4 = 0 ∧ 0 < p) ∧
        rb_key <$> heap demo_nums !! p = Some (KNum a)) demo_pool) as HF.
    { unfold demo_pool. repeat (apply map_Forall_insert_2; [by vm_compute|]). apply map_Forall_empty. }
    intros p a Hp. destruct (HF p a Hp) as [[H1 H2] H3]. split; [|done].
    split; [exists (p / 4); zdiv|unfold NULL; lia].
  - intros a p Hl. by rewrite lookup_empty in Hl.
Qed.

Lemma adx_rbtree_number_refines_map_witness : exists M' s',
  tree_run (A := Z) 20 demo_nums demo_num_ops =
    Ok ([None; None; None; None; None; None; None; Some 20; Some 4; None; Some 0; None; None; None;
         None; Some 28; Some 0], s') /\ tree_rep s' demo_pool M'.
Proof.
  eexists. apply (adx_rbtree_number_refines_map 20 demo_nums demo_pool ∅ demo_num_ops).
  - exact demo_nums_rep.
  - vm_compute. reflexivity.
  - apply Nat.ltb_lt. vm_compute. reflexivity.
Defined.

Lemma adx_rbtree_stays_balanced_witness : exists s' t n (xs : list (Z * Z)),
  rep s' t /\ rbt t black n /\ elems t = enc xs /\ StronglySorted klt xs /\
    (height t <= 2 * Nat.log2 (S (length xs)))%nat.
Proof.
  eexists. eapply (adx_rbtree_stays_balanced 20 demo_nums demo_pool ∅ demo_num_ops).
  - exact demo_nums_rep.
  - vm_compute. reflexivity.
  - apply Nat.ltb_lt. vm_compute. reflexivity.
  - vm_compute. reflexivity.
Defined.

Definition demo_spool : gmap Z bytes :=
  list_to_map [(4, B "price"); (8, B "adid"); (12, B "bidid"); (16, B "ad"); (20, B "price")].
Definition demo_strs : rbs :=
  demo_heap [(4, KStr (Some (B "price"))); (8, KStr (Some (B "adid"))); (12, KStr (Some (B "bidid")));
             (16, KStr (Some (B "ad"))); (20, KStr (Some (B "price")))].
Definition demo_str_ops : list (map_op bytes) :=
  [MAdd 4; MAdd 8; MAdd 12; MAdd 16; MAdd 20; MFind (B "ad"); MFind (B "price"); MDel 4;
   MFind (B "price"); MAdd 20; MFind (B "price"); MFind (B "bid")].

Lemma demo_strs_rep : tree_rep demo_strs demo_spool ∅.
Proof.
  split; [|split].
  - exists []. split; [apply demo_ordered|]. intros a p. rewrite lookup_empty.
    split; [done|by intros ?%elem_of_nil].
  - assert (map_Forall (fun p (a : bytes) => (p mod 4 = 0 ∧ 0 < p) ∧
        rb_key <$> heap demo_strs !! p = Some (KStr (Some a))) demo_spool) as HF.
    { unfold demo_spool. repeat (apply map_Forall_insert_2; [by vm_compute|]). apply map_Forall_empty. }
    intros p a Hp. destruct (HF p a Hp) as [[H1 H2] H3]. split; [|done].
    split; [exists (p / 4); zdiv|unfold NULL; lia].
  - intros a p Hl. by rewrite lookup_empty in Hl.
Qed.

Lemma adx_rbtree_string_refines_map_witness : exists M' s',
  tree_run (A := bytes) 20 demo_strs demo_str_ops =
    Ok ([None; None; None; None; None; Some 16; Some 4; None; Some 0; None; Some 20; Some 0], s') /\
  tree_rep s' demo_spool M'.
Proof.
  eexists. apply (adx_rbtree_string_refines_map 20 demo_strs demo_spool ∅ demo_str_ops).
  - exact demo_strs_rep.
  - vm_compute. reflexivity.
  - apply Nat.ltb_lt. vm_compute. reflexivity.
Defined.

Lemma adx_rbtree_number_add_result_witness : exists q s',
  adx_rbtree_number_add 5 demo_nums 4 = Ok (q, s') /\
  (q = NULL <-> lfind 50 ([] : list (Z * Z)) ≠ NULL \/ ([] : list (Z * Z)) = []) /\
  (lfind 50 ([] : list (Z * Z)) ≠ NULL -> s' = demo_nums) /\
  (lfind 50 ([] : list (Z * Z)) = NULL -> ordered s' (linsert 4 50 ([] : list (Z * Z)))).
Proof.
  eapply (adx_rbtree_number_add_result 5 demo_nums 4 (Node 77 78 79 (KNum 50)) 50 []).
  - apply demo_ordered.
  - vm_compute. reflexivity.
  - reflexivity.
  - split; [exists 1; lia|unfold NULL; lia].
  - by intros ?%elem_of_nil.
  - simpl. lia.
Defined.
