(* ===== verification/AdxAlloc.v ===== *)
(** The memory pool: adx_dsp/src/adx_alloc.c.

    A pool is a list head with a byte count; every allocation is one block
    whose header holds the list node.  The nodes live in the memory of
    AdxList.v; freeing a block removes its fields, so that reading a freed
    node is [UB].  [je_malloc] belongs to jemalloc: the address it returns (0
    for failure) is an argument of the operations.  Sizes are [size_t]: the
    sum of the header and the size asked for wraps, and a block granted for a
    wrapped sum does not hold what is written to it. *)

From Stdlib Require Import ZArith Lia.
From S2P Require Import Prelude AdxList.

Open Scope Z_scope.

(** [adx_pool_t]; the head is at the address of the pool itself. *)
Record pool_mem := PoolMem {
  links : lmem;                 (* list nodes: pool heads and block headers *)
  pool_size : gmap Z Z;         (* the [size] of every pool *)
  blocks : gmap Z (Z * bytes)   (* header address: user address, contents *) }.

(** [sizeof(adx_pool_block_t)]: two list pointers and the block pointer. *)
Definition sizeof_block : Z := 24.

(** The block that [je_malloc(sizeof(adx_pool_block_t) + size)] grants holds
    the header and the [size] bytes that [adx_alloc] clears, unless the sum
    has wrapped: then the header or the clearing leaves the block. *)
Definition block_room (size : Z) : cres unit :=
  if decide (sizeof_block + size <= u64 (sizeof_block + size)) then mret () else UB.

(** [je_malloc] at address [p]: the new object has fields of unknown value. *)
Definition je_malloc (l : lmem) (p : Z) (g : Z) : lmem :=
  LMem (<[p := g]> (nx l)) (<[p := g]> (pv l)).
Definition je_free (l : lmem) (p : Z) : cres lmem :=
  _ ← get_next l p; _ ← get_prev l p; mret (LMem (delete p (nx l)) (delete p (pv l))).

Definition adx_pool_create (m : pool_mem) (r g : Z) : cres (Z * pool_mem) :=
  if decide (r = NULL) then mret (NULL, m) else
  l ← adx_list_init (je_malloc (links m) r g) r;
  mret (r, PoolMem l (<[r := 0]> (pool_size m)) (blocks m)).

Definition adx_alloc (m : pool_mem) (pool : Z) (size : Z) (r g : Z) : cres (Z * pool_mem) :=
  if decide (r = NULL) then mret (NULL, m) else
  let block := r + sizeof_block in
  _ ← block_room size;
  sz ← of_opt (pool_size m !! pool);
  l ← adx_list_add (je_malloc (links m) r g) pool r;
  mret (block, PoolMem l (<[pool := u64 (sz + size)]> (pool_size m))
                 (<[r := (block, replicate (Z.to_nat size) 0)]> (blocks m))).

Definition adx_poll_size (m : pool_mem) (pool : Z) : cres Z :=
  if decide (pool = NULL) then mret 0 else of_opt (pool_size m !! pool).

Fixpoint pool_free_loop (fuel : nat) (m : pool_mem) (p head : Z) : cres pool_mem :=
  match fuel with
  | O => NoFuel
  | S fuel =>
      if decide (p = head) then mret m else
      let b := p in
      p ← get_next (links m) p;
      l ← je_free (links m) b;
      pool_free_loop fuel (PoolMem l (pool_size m) (delete b (blocks m))) p head
  end.

Definition adx_pool_free (fuel : nat) (m : pool_mem) (pool : Z) : cres pool_mem :=
  if decide (pool = NULL) then mret m else
  p ← get_next (links m) pool;
  m ← pool_free_loop fuel m p pool;
  l ← je_free (links m) pool;
  mret (PoolMem l (delete pool (pool_size m)) (blocks m)).

(** ** A pool and its blocks *)

(** [pool_rep m pool xs]: [xs] are the blocks of the pool, oldest first, with
    the sizes they were asked for. *)
Definition pool_rep (m : pool_mem) (pool : Z) (xs : list (Z * Z)) : Prop :=
  ring (links m) pool xs.*1 /\
  pool_size m !! pool = Some (u64 (foldr (fun x z => x.2 + z) 0 xs)) /\
  (forall p n, (p, n) ∈ xs -> blocks m !! p = Some (p + sizeof_block, replicate (Z.to_nat n) 0)).

(** The client's allocations: sizes, addresses returned by [je_malloc] (0 for
    a failure) and the garbage found there. *)
Fixpoint alloc_all (m : pool_mem) (pool : Z) (rs : list (Z * Z * Z)) : cres (list Z * pool_mem) :=
  match rs with
  | [] => mret ([], m)
  | (size, r, g) :: rs =>
      '(p, m) ← adx_alloc m pool size r g;
      '(ps, m) ← alloc_all m pool rs;
      mret (p :: ps, m)
  end.

Definition succeeded (rs : list (Z * Z * Z)) : list (Z * Z) :=
  omap (fun '(size, r, _) => if decide (r = NULL) then None else Some (r, size)) rs.

Lemma succeeded_cons size r g rs :
  succeeded ((size, r, g) :: rs) = if decide (r = NULL) then succeeded rs else (r, size) :: succeeded rs.
Proof. unfold succeeded. simpl. by case_decide. Qed.

Lemma succeeded_length rs : (length (succeeded rs) <= length rs)%nat.
Proof.
  induction rs as [|[[size r] g] rs IH]; [done|]. rewrite succeeded_cons. case_decide; simpl; lia.
Qed.

(** A size that leaves room for the header of the block. *)
Definition small_size (size : Z) : Prop := 0 <= size /\ sizeof_block + size < 2 ^ 64.

Lemma small_size_int z : 0 <= z <= 2147483647 -> small_size z /\ u64 z = z.
Proof. intros H. unfold small_size, u64, sizeof_block. rewrite Z.mod_small; lia. Qed.

Lemma block_room_ok size : small_size size -> block_room size = Ok ().
Proof. intros [H1 H2]. unfold block_room, u64, sizeof_block in *. by rewrite Z.mod_small, decide_True by lia. Qed.

Lemma block_room_wraps size :
  0 <= size < 2 ^ 64 -> 2 ^ 64 <= sizeof_block + size -> block_room size = UB.
Proof. intros H1 H2. unfold block_room, u64, sizeof_block in *. rewrite decide_False; [done|]. zdiv. Qed.

(** The requests that [je_malloc] grants are of sizes whose sum with the
    header is a [size_t]. *)
Definition fits (rs : list (Z * Z * Z)) : Prop :=
  Forall (fun '(size, r, _) => 0 <= size /\ (r ≠ NULL -> sizeof_block + size < 2 ^ 64)) rs.

(** Memories that agree outside [xs], where [l] may hold fields. *)
Definition same_outside (xs : list Z) (l l' : lmem) : Prop :=
  forall x, x ∉ xs -> nx l' !! x = nx l !! x /\ pv l' !! x = pv l !! x.

Lemma add_same_outside l head xs node l' :
  ring l head xs -> adx_list_add l head node = Ok l' -> same_outside (node :: head :: xs) l l'.
Proof.
  intros Hr H. unfold adx_list_add, _adx_list_add, set_next, set_prev, get_next, get_prev in H.
  assert (exists q, pv l !! head = Some q /\ q ∈ head :: xs) as (q & Hq & Hin).
  { destruct xs as [|z zs _] using rev_ind.
    - destruct (cyc_first l head [] Hr) as (y & [_ Hp] & ->). exists head. split; [done|]. apply list_elem_of_here.
    - apply (cyc_rotate l head zs z []) in Hr. destruct (cyc_first _ _ _ Hr) as (y & [_ Hp] & ->).
      exists z. split; [done|]. clear. set_solver. }
  rewrite Hq in H. cbn [of_opt mbind cres_bind] in H. inv_all. intros x Hx.
  assert (x ≠ node /\ x ≠ head /\ x ≠ q) as (? & ? & ?) by (clear -Hx Hin; set_solver).
  simpl. by rewrite !lookup_insert_ne.
Qed.

Lemma adx_alloc_ok m pool xs size r g :
  pool_rep m pool xs -> r ≠ NULL -> r ∉ pool :: xs.*1 -> small_size size ->
  exists m', adx_alloc m pool size r g = Ok (r + sizeof_block, m') /\ pool_rep m' pool (xs ++ [(r, size)]) /\
    same_outside (r :: pool :: xs.*1) (links m) (links m') /\
    (forall x, x ≠ pool -> pool_size m' !! x = pool_size m !! x) /\
    (forall x, x ≠ r -> blocks m' !! x = blocks m !! x).
Proof.
  intros (Hring & Hsz & Hbl) Hr0 Hr Hsm. unfold adx_alloc. rewrite decide_False, block_room_ok, ok_bind by done.
  rewrite Hsz. cbn [of_opt mbind cres_bind].
  assert (ring (je_malloc (links m) r g) pool xs.*1) as Hring'.
  { destruct Hring as (Hs & Hnd & Hn). split; [|done]. eapply lseg_frame; [| |exact Hs]; intros p Hp; simpl;
      apply lookup_insert_ne; clear -Hr Hp; set_solver. }
  destruct (adx_list_add_ring (je_malloc (links m) r g) pool xs.*1 r) as (l' & E & Hl'); try done.
  { split; simpl; rewrite lookup_insert_eq; eauto. }
  rewrite E. cbn [mbind cres_bind]. eexists. split; [done|]. split; [split; [|split]|split; [|split]]; simpl.
  - by rewrite fmap_app.
  - rewrite lookup_insert_eq. f_equal. rewrite foldr_app. simpl. unfold u64. rewrite Zplus_mod_idemp_l. f_equal.
    clear. induction xs as [|[p n] xs IH]; simpl; lia.
  - intros p n [Hp|[= -> ->]%list_elem_of_singleton]%elem_of_app.
    + rewrite lookup_insert_ne; [by apply Hbl|]. intros <-. apply Hr. apply list_elem_of_further.
      apply (list_elem_of_fmap_2 fst _ _ Hp).
    + by rewrite lookup_insert_eq.
  - intros x Hx. destruct (add_same_outside _ _ _ _ _ Hring' E x Hx) as [-> ->]. simpl.
    rewrite !lookup_insert_ne by (clear -Hx; set_solver). done.
  - intros x Hx. by rewrite lookup_insert_ne.
  - intros x Hx. by rewrite lookup_insert_ne.
Qed.

Lemma alloc_all_ok m pool xs rs :
  pool_rep m pool xs -> NoDup (pool :: xs.*1 ++ (succeeded rs).*1) -> fits rs ->
  exists m', alloc_all m pool rs =
      Ok (map (fun '(size, r, _) => if decide (r = NULL) then NULL else r + sizeof_block) rs, m') /\
    pool_rep m' pool (xs ++ succeeded rs) /\
    same_outside (pool :: (xs ++ succeeded rs).*1) (links m) (links m') /\
    (forall x, x ≠ pool -> pool_size m' !! x = pool_size m !! x) /\
    (forall x, x ∉ (succeeded rs).*1 -> blocks m' !! x = blocks m !! x).
Proof.
  revert m xs. induction rs as [|[[size r] g] rs IH]; intros m xs Hp Hnd Hfit; simpl in *.
  - exists m. rewrite !app_nil_r. split_and!; try done.
  - apply Forall_cons in Hfit as [[Hs0 Hs1] Hfit]. case_decide as Hr; simpl in *.
    + subst r. destruct (IH m xs Hp Hnd Hfit) as (m' & E & Hp' & H). unfold adx_alloc. rewrite decide_True by done.
      simpl. rewrite E. simpl. eauto.
    + destruct (adx_alloc_ok m pool xs size r g) as (m1 & E1 & Hp1 & Hl1 & Hsz1 & Hb1); [done|done| |by split; auto|].
      { apply NoDup_cons in Hnd as [Hn Hnd]. apply NoDup_app in Hnd as (_ & Hd & _).
        clear -Hn Hd. set_solver. }
      rewrite E1. cbn [mbind cres_bind].
      destruct (IH m1 (xs ++ [(r, size)])) as (m' & E & Hp' & Hl & Hs & Hb); [done| |done|].
      { rewrite fmap_app, <- app_assoc. exact Hnd. }
      rewrite E. cbn [mbind cres_bind]. exists m'. rewrite <- app_assoc in Hp', Hl. simpl in Hp', Hl.
      split_and!; try done.
      * intros x Hx. destruct (Hl x Hx) as [-> ->]. apply Hl1. rewrite fmap_app in Hx. simpl in Hx. clear -Hx. set_solver.
      * intros x Hx. by rewrite Hs, Hsz1.
      * intros x Hx. rewrite Hb, Hb1; [done|clear -Hx; set_solver..].
Qed.

(** The [next] fields along a list, the only ones the release reads. *)
Fixpoint nchain (n : gmap Z Z) (xs : list Z) (head : Z) : Prop :=
  match xs with
  | [] => True
  | x :: xs => n !! x = Some (default head (hd_error xs)) /\ nchain n xs head
  end.

Lemma lseg_nchain m a xs head : lseg m a xs head ->
  nx m !! a = Some (default head (hd_error xs)) /\ nchain (nx m) xs head.
Proof.
  revert a. induction xs as [|x xs IH]; intros a; simpl; [by intros [? _]|].
  intros [[? _] Hs]. split; [done|]. by apply IH.
Qed.

Lemma nchain_delete n x xs head : x ∉ xs -> nchain n xs head -> nchain (delete x n) xs head.
Proof.
  induction xs as [|y xs IH]; simpl; [done|]. rewrite not_elem_of_cons. intros [? ?] [? ?].
  rewrite lookup_delete_ne by done. auto.
Qed.

Lemma pool_free_loop_ok fuel m head xs :
  nchain (nx (links m)) xs head -> head ∉ xs -> NoDup xs ->
  (forall x, x ∈ xs -> is_Some (pv (links m) !! x)) -> (length xs < fuel)%nat ->
  exists m', pool_free_loop fuel m (default head (hd_error xs)) head = Ok m' /\
    same_outside xs (links m) (links m') /\
    (forall x, x ∈ xs -> nx (links m') !! x = None /\ pv (links m') !! x = None) /\
    pool_size m' = pool_size m /\
    (forall x, x ∉ xs -> blocks m' !! x = blocks m !! x) /\ (forall x, x ∈ xs -> blocks m' !! x = None).
Proof.
  revert m xs. induction fuel as [|fuel IH]; [lia|]. intros m xs Hn Hh Hnd Hl Hf.
  destruct xs as [|x xs]; cbn [pool_free_loop hd_error default].
  { rewrite decide_True by done. exists m. split_and!; try done; by intros x ?%elem_of_nil. }
  simpl. rewrite decide_False by (intros ->; apply Hh, list_elem_of_here).
  destruct Hn as [Hx Hn]. unfold get_next at 1. rewrite Hx. cbn [of_opt mbind cres_bind].
  destruct (Hl x) as [v Hv]; [apply list_elem_of_here|].
  unfold je_free, get_next, get_prev. rewrite Hx, Hv. cbn [of_opt mbind cres_bind mret cres_ret].
  apply NoDup_cons in Hnd as [Hxx Hnd]. rewrite not_elem_of_cons in Hh. destruct Hh as [Hhx Hh].
  match goal with |- context [pool_free_loop fuel ?m1' _ _] => set (m1 := m1') end.
  destruct (IH m1 xs) as (m' & E & H1 & H2 & H3 & H4 & H5); [ |done|done| |simpl in Hf; lia|].
  - by apply nchain_delete.
  - intros y Hy. simpl. rewrite lookup_delete_ne by (by intros ->). by apply Hl, list_elem_of_further.
  - exists m'. split; [done|]. split; [|split; [|split; [done|split]]].
    + intros y. rewrite not_elem_of_cons. intros [? ?]. destruct (H1 y) as [-> ->]; [done|].
      simpl. by rewrite !lookup_delete_ne.
    + intros y [->|Hy]%elem_of_cons; [|by apply H2]. destruct (H1 x) as [-> ->]; [done|].
      simpl. by rewrite !lookup_delete_eq.
    + intros y. rewrite not_elem_of_cons. intros [? ?]. rewrite H4 by done. simpl. by rewrite lookup_delete_ne.
    + intros y [->|Hy]%elem_of_cons; [|by apply H5]. rewrite H4 by done. simpl. by rewrite lookup_delete_eq.
Qed.

Lemma adx_pool_free_ok fuel m pool xs :
  pool_rep m pool xs -> (length xs < fuel)%nat ->
  exists m', adx_pool_free fuel m pool = Ok m' /\
    same_outside (pool :: xs.*1) (links m) (links m') /\
    (forall x, x ∈ pool :: xs.*1 -> nx (links m') !! x = None /\ pv (links m') !! x = None) /\
    pool_size m' = delete pool (pool_size m) /\
    (forall x, x ∉ xs.*1 -> blocks m' !! x = blocks m !! x) /\
    (forall x, x ∈ xs.*1 -> blocks m' !! x = None).
Proof.
  intros ((Hs & Hnd & Hnull) & Hsz & Hbl) Hf. unfold adx_pool_free.
  rewrite decide_False by (intros ->; apply Hnull, list_elem_of_here).
  destruct (lseg_nchain _ _ _ _ Hs) as [Hhd Hch]. unfold get_next at 1. rewrite Hhd. cbn [of_opt mbind cres_bind].
  destruct (lseg_live _ _ _ _ Hs) as [_ Hpv]. apply NoDup_cons in Hnd as [Hp Hnd].
  destruct (pool_free_loop_ok fuel m pool xs.*1) as (m1 & E & H1 & H2 & H3 & H4 & H5); try done.
  - intros x Hx. apply Hpv. apply elem_of_app. by left.
  - by rewrite length_fmap.
  - rewrite E. cbn [mbind cres_bind]. destruct (H1 pool Hp) as [Hn1 Hp1].
    destruct (Hpv pool) as [v Hv]; [clear; set_solver|].
    unfold je_free, get_next, get_prev. rewrite Hn1, Hp1, Hhd, Hv. cbn [of_opt mbind cres_bind mret cres_ret].
    eexists. split; [done|]. simpl. split; [|split; [|split; [by rewrite H3|done]]].
    + intros x. rewrite not_elem_of_cons. intros [? ?]. simpl. rewrite !lookup_delete_ne by done. by apply H1.
    + intros x [->|Hx]%elem_of_cons; [by rewrite !lookup_delete_eq|].
      assert (x ≠ pool) by (by intros ->). rewrite !lookup_delete_ne by done. by apply H2.
Qed.

(** C29: the life of a pool.  A pool created at a fresh address, any sequence
    of allocations (some of which [je_malloc] may refuse) and
    [adx_pool_free]: when every size granted leaves room for the header below
    2^64, every successful allocation returns a zeroed block of
    the size asked for, [adx_poll_size] is the sum of the sizes modulo 2^64,
    the release never reads a block it has freed, and it gives back exactly
    the memory the pool had taken.  The bound is the exact one: a size whose
    sum with the header wraps is allocated short, and clearing the block
    writes outside it. *)
Theorem adx_pool_lifecycle fuel m pool g rs :
  pool ≠ NULL -> NoDup (pool :: (succeeded rs).*1) ->
  (forall x, x ∈ pool :: (succeeded rs).*1 ->
     nx (links m) !! x = None /\ pv (links m) !! x = None /\ blocks m !! x = None) ->
  pool_size m !! pool = None -> fits rs -> (length rs < fuel)%nat ->
  exists m1 m2 m3, adx_pool_create m pool g = Ok (pool, m1) /\
    alloc_all m1 pool rs =
      Ok (map (fun '(size, r, _) => if decide (r = NULL) then NULL else r + sizeof_block) rs, m2) /\
    (forall size r g, (size, r, g) ∈ rs -> r ≠ NULL ->
       blocks m2 !! r = Some (r + sizeof_block, replicate (Z.to_nat size) 0)) /\
    adx_poll_size m2 pool = Ok (u64 (foldr (fun x z => x.2 + z) 0 (succeeded rs))) /\
    adx_pool_free fuel m2 pool = Ok m3 /\ m3 = m /\
    (forall size r g, r ≠ NULL -> 2 ^ 64 - sizeof_block <= size < 2 ^ 64 -> adx_alloc m2 pool size r g = UB).
Proof.
  intros Hp Hnd Hfresh Hsz Hfit Hf. unfold adx_pool_create. rewrite decide_False by done.
  destruct (adx_list_init_ring (je_malloc (links m) pool g) pool) as (l & El & Hl); [|done|].
  { split; simpl; rewrite lookup_insert_eq; eauto. }
  rewrite El. cbn [mbind cres_bind].
  set (m1 := PoolMem l (<[pool := 0]> (pool_size m)) (blocks m)).
  assert (Hrep : pool_rep m1 pool []).
  { split; [done|]. split; [simpl; by rewrite lookup_insert_eq|by intros p n ?%elem_of_nil]. }
  assert (Hl1 : same_outside [pool] (links m) l).
  { unfold adx_list_init, set_next, set_prev, get_next, get_prev in El. inv_all.
    intros x Hx. rewrite not_elem_of_cons in Hx. destruct Hx as [Hx _]. simpl. by rewrite !lookup_insert_ne. }
  destruct (alloc_all_ok m1 pool [] rs Hrep Hnd Hfit) as (m2 & E2 & Hrep2 & Hl2 & Hs2 & Hb2).
  simpl in Hrep2, Hl2.
  assert (length (succeeded rs) <= length rs)%nat as Hlen.
  { apply succeeded_length. }
  destruct (adx_pool_free_ok fuel m2 pool (succeeded rs) Hrep2) as (m3 & E3 & H1 & H2 & H3 & H4 & H5); [lia|].
  exists m1, m2, m3. split; [done|]. split; [done|]. split; [|split; [|split; [done|split]]].
  - intros size r g' Hin Hr. destruct Hrep2 as (_ & _ & Hbl). apply Hbl.
    apply list_elem_of_omap. exists (size, r, g'). split; [done|]. by rewrite decide_False.
  - unfold adx_poll_size. rewrite decide_False by done. destruct Hrep2 as (_ & -> & _). done.
  - assert (forall x, nx (links m3) !! x = nx (links m) !! x /\ pv (links m3) !! x = pv (links m) !! x) as Hall.
    { intros x. destruct (decide (x ∈ pool :: (succeeded rs).*1)) as [Hin|Hin].
      - destruct (H2 x Hin) as [-> ->]. by destruct (Hfresh x Hin) as (-> & -> & _).
      - destruct (H1 x Hin) as [-> ->]. destruct (Hl2 x Hin) as [-> ->]. apply Hl1.
        clear -Hin. set_solver. }
    assert (pool_size m3 = pool_size m) as Hsize.
    { rewrite H3. apply map_eq. intros x. destruct (decide (x = pool)) as [->|].
      - by rewrite lookup_delete_eq, Hsz.
      - rewrite lookup_delete_ne, Hs2 by done. simpl. by rewrite lookup_insert_ne. }
    assert (blocks m3 = blocks m) as Hblocks.
    { apply map_eq. intros x. destruct (decide (x ∈ (succeeded rs).*1)) as [Hin|Hin].
      - rewrite H5 by done. destruct (Hfresh x) as (_ & _ & ->); [by apply list_elem_of_further|done].
      - by rewrite H4, Hb2. }
    destruct m as [[mn mp] ms mb], m3 as [[mn3 mp3] ms3 mb3]. simpl in *. subst.
    f_equal. f_equal; apply map_eq; intros x; apply Hall.
  - intros size r g' Hr Hwrap. unfold adx_alloc.
    rewrite decide_False, block_room_wraps by (done || (unfold sizeof_block in *; lia)). done.
Qed.

Lemma adx_pool_lifecycle_witness : exists m1 m2 m3,
  adx_pool_create (PoolMem (LMem ∅ ∅) ∅ ∅) 8 5 = Ok (8, m1) /\
  alloc_all m1 8 [(16, 100, 7); (3, 0, 0); (1024, 200, 9)] = Ok ([124; 0; 224], m2) /\
  (forall size r g, (size, r, g) ∈ [(16, 100, 7); (3, 0, 0); (1024, 200, 9)] -> r ≠ NULL ->
     blocks m2 !! r = Some (r + sizeof_block, replicate (Z.to_nat size) 0)) /\
  adx_poll_size m2 8 = Ok 1040 /\ adx_pool_free 10 m2 8 = Ok m3 /\ m3 = PoolMem (LMem ∅ ∅) ∅ ∅ /\
  (forall size r g, r ≠ NULL -> 2 ^ 64 - sizeof_block <= size < 2 ^ 64 -> adx_alloc m2 8 size r g = UB).
Proof.
  apply (adx_pool_lifecycle 10 (PoolMem (LMem ∅ ∅) ∅ ∅) 8 5 [(16, 100, 7); (3, 0, 0); (1024, 200, 9)]).
  - done.
  - apply (bool_decide_unpack (NoDup [8; 100; 200])). vm_compute. exact I.
  - intros x _. simpl. by rewrite !lookup_empty.
  - reflexivity.
  - repeat constructor; unfold sizeof_block; lia.
  - simpl. lia.
Defined.
