(* ===== verification/AdxString.v ===== *)
(** Strings: adx_dsp/src/adx_string.h and adx_string.c.

    Buffers are arrays of bytes with their size, so that a write or read
    outside them is [UB]; functions that write through a moving [dest]
    pointer into a buffer of the caller return the bytes they write.  The
    pool is seen through its only promise to this file: the n-th call of
    [adx_alloc] returns a zeroed block or NULL. *)

From Stdlib Require Import ZArith Lia.
From S2P Require Import Prelude.

Open Scope Z_scope.

(** ** Small functions *)

(** [ceil((double)x / (double)y)], converted to [int].  The quotient of two
    32-bit integers that is not an integer differs from every integer by
    more than the rounding of a double, so the result is the exact ceiling. *)
Definition adx_except_ceil (x y : Z) : cres Z :=
  if decide (x = 0 ∨ y = 0) then mret 0 else int_ok (- ((- x) / y)).

(** The characters [i], [i - 1], ..., [0] of the binary form, in fours. *)
Fixpoint to_binary_loop (i : nat) (src : Z) (dest : bytes) (size split : Z) : cres (bytes * Z) :=
  match i with
  | O => mret (dest, size)
  | S i =>
      dest ← bset dest size (if Z.testbit src (Z.of_nat i) then 49 else 48);
      let size := size + 1 in
      let split := split + 1 in
      if decide (split >= 4)
      then dest ← bset dest size 32; to_binary_loop i src dest (size + 1) 0
      else to_binary_loop i src dest size split
  end.

Definition adx_string_to_binary (src : Z) (dest : bytes) : cres bytes :=
  '(dest, size) ← to_binary_loop 32 src dest 0 0;
  bset dest size 0.

(** [for (str = buf; *str; str++) *str = f of *str] *)
Fixpoint map_chars (fuel : nat) (f : Z -> Z) (buf : bytes) (str : Z) : cres bytes :=
  match fuel with
  | O => NoFuel
  | S fuel =>
      c ← bget buf str;
      if decide (c = 0) then mret buf
      else buf ← bset buf str (f c); map_chars fuel f buf (str + 1)
  end.

Definition adx_string_to_upper (fuel : nat) (buf : option bytes) : cres (option bytes) :=
  match buf with None => mret None | Some buf => buf ← map_chars fuel toupper buf 0; mret (Some buf) end.
Definition adx_string_to_lower (fuel : nat) (buf : option bytes) : cres (option bytes) :=
  match buf with None => mret None | Some buf => buf ← map_chars fuel tolower buf 0; mret (Some buf) end.

(** ** URL encoding *)

Definition hexchars : bytes := B "0123456789ABCDEF".
Definition hexdigit (v : Z) : Z := nth (Z.to_nat v) hexchars 0.

(** The test of [url_encode] for the bytes that are written as %XX. *)
Definition url_special (c : Z) : bool :=
  bool_decide ((c < 48 ∧ c ≠ 45 ∧ c ≠ 46) ∨ (c < 65 ∧ c > 57) ∨ (c > 90 ∧ c < 97 ∧ c ≠ 95) ∨ c > 122).

Fixpoint url_encode_loop (from : bytes) : bytes :=
  match from with
  | [] => []
  | c :: from =>
      (if decide (c = 32) then [43]
       else if url_special c then [37; hexdigit (Z.shiftr c 4); hexdigit (Z.land c 15)]
       else [c]) ++ url_encode_loop from
  end.

(** [s] has at least [len] bytes; the result is the [malloc]ed block of
    [3 * len + 1] bytes, of which the first [new_length + 1] are written.
    The result of [malloc] is not tested by the source. *)
Definition url_encode (s : bytes) (garbage : bytes) : cres (bytes * Z) :=
  let len := Z.of_nat (length s) in
  let to := url_encode_loop s in
  start ← bwrite (take (Z.to_nat (3 * len + 1)) garbage) 0 (to ++ [0]);
  mret (start, Z.of_nat (length to)).

(** The digit of [url_decode]. *)
Definition hexvalue (c : Z) : Z :=
  let c := if isupper c then tolower c else c in
  if decide (48 <= c <= 57) then c - 48 else c - 97 + 10.

(** One buffer, two indices; [len] is the number of bytes left to read. *)
Fixpoint url_decode_loop (fuel : nat) (str : bytes) (dest data len : Z) : cres (bytes * Z) :=
  match fuel with
  | O => NoFuel
  | S fuel =>
      if decide (len = 0) then mret (str, dest) else
      let len := len - 1 in
      c ← bget str data;
      if decide (c = 43) then
        str ← bset str dest 32;
        url_decode_loop fuel str (dest + 1) (data + 1) len
      else
        hex ← (if decide (c = 37 ∧ len >= 2) then
                 c1 ← bget str (data + 1);
                 if isxdigit c1 then c2 ← bget str (data + 2); mret (isxdigit c2) else mret false
               else mret false);
        if (hex : bool) then
          c1 ← bget str (data + 1);
          c2 ← bget str (data + 2);
          str ← bset str dest (u8 (hexvalue c1 * 16 + hexvalue c2));
          url_decode_loop fuel str (dest + 1) (data + 3) (len - 2)
        else
          str ← bset str dest c;
          url_decode_loop fuel str (dest + 1) (data + 1) len
  end.

Definition url_decode (fuel : nat) (str : bytes) (len : Z) : cres (bytes * Z) :=
  '(str, dest) ← url_decode_loop fuel str 0 0 len;
  str ← bset str dest 0;
  mret (str, dest).

(** ** Base 64 *)

Definition base : bytes := B "ABCDEFGHIJKLMNOPQRSTUVWXYZabcdefghijklmnopqrstuvwxyz0123456789+/=".
Definition base_at (ch : Z) : cres Z := bget (base ++ [0]) ch.

(** The bits of the next group: [prepare], the number of bytes read and the
    rest of the input ([tmp] advanced). *)
Fixpoint take3 (n : nat) (src : bytes) (prepare temp : Z) : Z * Z * bytes :=
  match n with
  | O => (prepare, temp, src)
  | S n => match src with
           | [] => (prepare, temp, [])
           | c :: src => take3 n src (Z.lor (Z.shiftl prepare 8) (Z.land c 255)) (temp + 1)
           end
  end.

(** [changed[i]] and the character written for it. *)
Definition encode_char (prepare temp i : Z) : cres Z :=
  base_at (if decide (temp < i) then 64 else Z.land (Z.shiftr prepare ((3 - i) * 6)) 63).

Fixpoint base64_encode_loop (fuel : nat) (src : bytes) : cres bytes :=
  match fuel with
  | O => NoFuel
  | S fuel =>
      match src with
      | [] => mret []
      | _ =>
          let '(prepare, temp, src) := take3 3 src 0 0 in
          let prepare := Z.shiftl prepare ((3 - temp) * 8) in
          c0 ← encode_char prepare temp 0;
          c1 ← encode_char prepare temp 1;
          c2 ← encode_char prepare temp 2;
          c3 ← encode_char prepare temp 3;
          rest ← base64_encode_loop fuel src;
          mret (c0 :: c1 :: c2 :: c3 :: rest)
      end
  end.

(** The bytes written to [dest], the terminator last. *)
Definition base64_encode (fuel : nat) (src : bytes) : cres bytes :=
  out ← base64_encode_loop fuel src; mret (out ++ [0]).

(** [strrchr(base, ch) - base]: the last position, the terminator included;
    the difference with a NULL pointer has no meaning. *)
Fixpoint strrchr_pos (s : bytes) (ch i : Z) (found : option Z) : option Z :=
  match s with
  | [] => if decide (ch = 0) then Some i else found
  | c :: s => strrchr_pos s ch (i + 1) (if decide (c = ch) then Some i else found)
  end.
Definition base64_find_pos (ch : Z) : cres Z := of_opt (strrchr_pos base ch 0 None).

Fixpoint take4 (n : nat) (src : bytes) (prepare temp : Z) : cres (Z * Z * bytes) :=
  match n with
  | O => mret (prepare, temp, src)
  | S n => match src with
           | [] => mret (prepare, temp, [])
           | c :: src => p ← base64_find_pos c; take4 n src (Z.lor (Z.shiftl prepare 6) p) (temp + 1)
           end
  end.

(** [for (i = 0; i < 3; i++) { if (i == temp) break; *dest++ = ... }] *)
Fixpoint decode_bytes (n : nat) (i prepare temp : Z) : bytes :=
  match n with
  | O => []
  | S n => if decide (i = temp) then []
           else Z.land (Z.shiftr prepare ((2 - i) * 8)) 255 :: decode_bytes n (i + 1) prepare temp
  end.

(** [src] is the part of the input before the counted [=] signs. *)
Fixpoint base64_decode_loop (fuel : nat) (src : bytes) : cres bytes :=
  match fuel with
  | O => NoFuel
  | S fuel =>
      match src with
      | [] => mret []
      | _ =>
          '(prepare, temp, src) ← take4 4 src 0 0;
          let prepare := Z.shiftl prepare ((4 - temp) * 6) in
          rest ← base64_decode_loop fuel src;
          mret (decode_bytes 3 0 prepare temp ++ rest)
      end
  end.

(** [*(src + src_len - k) == '=']: reads before the string when it is short. *)
Definition equal_at (src : bytes) (k : Z) : cres Z :=
  c ← bget src (Z.of_nat (length src) - k);
  mret (if decide (c = 61) then 1 else 0).

Definition base64_decode (fuel : nat) (src : bytes) : cres bytes :=
  e1 ← equal_at src 1;
  e2 ← equal_at src 2;
  e3 ← equal_at src 3;
  let equal_count := e1 + e2 + e3 in
  out ← base64_decode_loop fuel (take (Z.to_nat (Z.of_nat (length src) - equal_count)) src);
  mret (out ++ [0]).

(** ** Search *)

(** [while ( *str ) { if (strncasecmp(...) == 0) return str; ++str; }]: the
    offset of the match. *)
Fixpoint strstr_loop (str needle : bytes) (i : Z) : option Z :=
  match str with
  | [] => None
  | _ :: str' => if strncmp_eq tolower str needle (length needle) then Some i
                 else strstr_loop str' needle (i + 1)
  end.

Definition adx_strstr (str needle : option bytes) : option Z :=
  match str, needle with
  | Some str, Some needle =>
      if decide (length needle = 0%nat) then None else strstr_loop str needle 0
  | _, _ => None
  end.

(** ** The pool and growing buffers *)

Section Pool.
(** [ao n] says whether the n-th call of [adx_alloc] succeeds. *)
Context (ao : nat -> bool).

Definition adx_alloc (n : nat) (size : Z) : option bytes * nat :=
  (if ao n then Some (replicate (Z.to_nat size) 0) else None, S n).

Definition adx_strdup (n : nat) (str : option bytes) (len : Z) : cres (option bytes * nat) :=
  match str with
  | None => mret (None, n)
  | Some str =>
      if decide (len = 0) then mret (None, n) else
      match adx_alloc n (len + 1) with
      | (None, n) => mret (None, n)
      | (Some buf, n) =>
          if decide (Z.of_nat (length str) < len) then UB else
          buf ← bwrite buf 0 (take (Z.to_nat len) str);
          buf ← bset buf len 0;
          mret (Some buf, n)
      end
  end.

Record adx_buffer := Buffer { total : Z; len : Z; str : option bytes }.

(** The [for (;;)] that grows the buffer; [None] when a block is refused. *)
Fixpoint strcat_grow (fuel : nat) (n : nat) (buffer : adx_buffer) (l : Z)
    : cres (bool * adx_buffer * nat) :=
  match fuel with
  | O => NoFuel
  | S fuel =>
      if decide (l + len buffer < total buffer - 1) then mret (true, buffer, n) else
      total ← int_ok (total buffer * 2);
      match adx_alloc n total with
      | (None, n) => mret (false, Buffer total (len buffer) (str buffer), n)
      | (Some p_buffer, n) =>
          old ← of_opt (str buffer);
          if decide (Z.of_nat (length old) < len buffer) then UB else
          p_buffer ← bwrite p_buffer 0 (take (Z.to_nat (len buffer)) old);
          strcat_grow fuel n (Buffer total (len buffer) (Some p_buffer)) l
      end
  end.

(** The boolean is [true] when the function returns the buffer and [false]
    when it returns NULL; [s] is the object the [str] argument points to. *)
Definition adx_strcat (fuel : nat) (n : nat) (buffer : adx_buffer) (s : bytes) (l : Z)
    : cres (bool * adx_buffer * nat) :=
  if decide (l = 0) then mret (false, buffer, n) else
  let '(buffer, n) :=
    match str buffer with
    | None => let '(p, n) := adx_alloc n (total buffer) in (Buffer (total buffer) (len buffer) p, n)
    | Some _ => (buffer, n)
    end in
  match str buffer with
  | None => mret (false, buffer, n)
  | Some _ =>
      '(ok, buffer, n) ← strcat_grow fuel n buffer l;
      if negb ok then mret (false, buffer, n) else
      p ← of_opt (str buffer);
      if decide (Z.of_nat (length s) < l) then UB else
      p ← bwrite p (len buffer) (take (Z.to_nat l) s);
      let len := len buffer + l in
      p ← bset p len 0;
      mret (true, Buffer (total buffer) len (Some p), n)
  end.

(** What [adx_macro_replace] returns: its argument, or the new string (NULL
    when nothing was ever appended). *)
Inductive replaced : Type :=
| Original
| New (p : option bytes).

Fixpoint macro_loop (fuel : nat) (n : nat) (buffer : adx_buffer) (s src dest : bytes)
    : cres (replaced * nat) :=
  match fuel with
  | O => NoFuel
  | S fuel' =>
      match s with
      | [] => mret (New (str buffer), n)
      | _ :: s' =>
          if strncmp_eq id s src (length src) then
            '(ok, buffer, n) ← adx_strcat fuel n buffer dest (Z.of_nat (length dest));
            if (ok : bool) then macro_loop fuel' n buffer (drop (length src) s) src dest
            else mret (Original, n)
          else
            '(ok, buffer, n) ← adx_strcat fuel n buffer s 1;
            if (ok : bool) then macro_loop fuel' n buffer s' src dest
            else mret (Original, n)
      end
  end.

Definition adx_macro_replace (fuel : nat) (n : nat) (pool : bool) (buf src dest : option bytes)
    : cres (replaced * nat) :=
  match pool, buf, src, dest with
  | true, Some buf, Some src, Some dest =>
      if decide (length src = 0%nat) then mret (Original, n)
      else macro_loop fuel n (Buffer 1024 0 None) buf src dest
  | _, _, _, _ => mret (Original, n)
  end.
End Pool.

(** ** The URL codec *)

Definition esc_ok (c : Z) : bool :=
  if decide (c = 32) then true
  else if url_special c
  then let h := hexdigit (Z.shiftr c 4) in let l := hexdigit (Z.land c 15) in
       isxdigit h && isxdigit l && bool_decide (u8 (hexvalue h * 16 + hexvalue l) = c)
  else bool_decide (c ≠ 43 /\ c ≠ 37).

(** A property of bytes checked on every byte. *)
Lemma forall_byte (P : Z -> bool) :
  forallb P (map Z.of_nat (seq 0 256)) = true -> forall c, is_byte c -> P c = true.
Proof.
  intros H c [H1 H2]. rewrite forallb_forall in H. apply H. apply in_map_iff.
  exists (Z.to_nat c). split; [lia|]. apply in_seq. lia.
Qed.

Lemma esc_ok_all c : is_byte c -> esc_ok c = true.
Proof. apply (forall_byte esc_ok). vm_compute. reflexivity. Qed.

(** One step: the bytes [chunk] are read and [v] is written. *)
Lemma step_shape (done gap chunk enc rest : bytes) v :
  chunk ≠ [] -> exists tl, length tl = (length gap + length chunk - 1)%nat /\
    bset (done ++ gap ++ (chunk ++ enc) ++ rest) (Z.of_nat (length done)) v
      = Ok ((done ++ [v]) ++ tl ++ enc ++ rest).
Proof.
  intros Hne. destruct (gap ++ chunk) as [|x tl] eqn:E.
  { apply app_eq_nil in E as [_ ->]. done. }
  exists tl. split.
  - apply (f_equal length) in E. rewrite length_app in E. simpl in E. lia.
  - rewrite <- (app_assoc chunk), (app_assoc gap), E. simpl. rewrite bset_app by done. by rewrite <- app_assoc.
Qed.

Lemma url_decode_loop_ok fuel done gap s rest :
  Forall is_byte s -> (length s < fuel)%nat ->
  exists gap', url_decode_loop fuel (done ++ gap ++ url_encode_loop s ++ rest)
      (Z.of_nat (length done)) (Z.of_nat (length done + length gap)) (Z.of_nat (length (url_encode_loop s)))
    = Ok (done ++ s ++ gap' ++ rest, Z.of_nat (length done + length s)) /\
    (length gap' + length s = length gap + length (url_encode_loop s))%nat.
Proof.
  revert fuel done gap. induction s as [|c s IH]; intros fuel done gap Hb Hf;
    (destruct fuel as [|fuel]; [simpl in Hf; lia|]).
  - exists gap. cbn [url_encode_loop url_decode_loop length]. rewrite decide_True by done. split; [|simpl; lia].
    do 3 f_equal. simpl. lia.
  - apply Forall_cons in Hb as [Hc Hb]. pose proof (esc_ok_all c Hc) as Hesc. unfold esc_ok in Hesc.
    cbn [url_encode_loop]. set (enc := url_encode_loop s) in *.
    set (chunk := if decide (c = 32) then [43] else _).
    assert (chunk ≠ []) as Hne by (subst chunk; destruct (decide (c = 32)), (url_special c); done).
    assert (1 <= length chunk)%nat as Hne1 by (destruct chunk; [done|simpl; lia]).
    destruct (step_shape done gap chunk enc rest c Hne) as (tl & Htl & Hset).
    destruct (IH fuel (done ++ [c]) tl Hb) as (gap' & E & Hlen); [simpl in Hf; lia|].
    exists gap'. rewrite length_app in E. split; [|rewrite length_app; simpl; lia].
    cbn [url_decode_loop]. rewrite decide_False by (rewrite length_app; lia).
    assert (Hfin : Ok ((done ++ [c]) ++ s ++ gap' ++ rest, Z.of_nat (length done + length [c] + length s))
      = Ok (done ++ (c :: s) ++ gap' ++ rest, Z.of_nat (length done + length (c :: s)))).
    { rewrite <- app_assoc. simpl. do 3 f_equal. lia. }
    assert (Hget : forall i x, chunk !! i = Some x ->
       bget (done ++ gap ++ (chunk ++ enc) ++ rest) (Z.of_nat (length done + length gap) + Z.of_nat i) = Ok x).
    { intros i x Hx. unfold bget. rewrite decide_True by lia.
      replace (Z.to_nat _) with (length (done ++ gap) + i)%nat by (rewrite length_app; lia).
      rewrite (app_assoc done), lookup_app_r by lia. replace (_ + i - _)%nat with i by lia.
      rewrite <- app_assoc, lookup_app_l by (by apply lookup_lt_is_Some_1; eauto). by rewrite Hx. }
    subst chunk. destruct (decide (c = 32)) as [->|Hsp]; [|destruct (url_special c) eqn:Espec].
    + pose proof (Hget 0%nat 43 eq_refl) as Hg0. rewrite Z.add_0_r in Hg0. rewrite Hg0. cbn [mbind cres_bind].
      rewrite decide_True by done. rewrite Hset. cbn [mbind cres_bind].
      simpl in E, Htl, Hfin |- *. rewrite <- Hfin, <- E. f_equal; lia.
    + apply andb_true_iff in Hesc as [[Hh Hl]%andb_true_iff Hv%bool_decide_eq_true].
      pose proof (Hget 0%nat 37 eq_refl) as Hg0. rewrite Z.add_0_r in Hg0. rewrite Hg0. cbn [mbind cres_bind].
      rewrite decide_False by done.
      rewrite decide_True by (split; [done|]; rewrite length_app; simpl; lia).
      rewrite (Hget 1%nat _ eq_refl : bget _ (_ + 1) = _). cbn [mbind cres_bind]. rewrite Hh.
      rewrite (Hget 2%nat _ eq_refl : bget _ (_ + 2) = _). cbn [mbind cres_bind mret cres_ret]. rewrite Hl.
      rewrite Hv, Hset. cbn [mbind cres_bind].
      rewrite <- Hfin, <- E. rewrite length_app in *. simpl in *. f_equal; lia.
    + apply bool_decide_eq_true in Hesc as [H1 H2].
      pose proof (Hget 0%nat c eq_refl) as Hg0. rewrite Z.add_0_r in Hg0. rewrite Hg0. cbn [mbind cres_bind].
      rewrite decide_False by done. rewrite decide_False by naive_solver. cbn [mbind cres_bind mret cres_ret].
      rewrite Hset. cbn [mbind cres_bind].
      simpl in E, Htl, Hfin |- *. rewrite <- Hfin, <- E. f_equal; lia.
Qed.

Lemma url_encode_loop_length s : (length s <= length (url_encode_loop s) <= 3 * length s)%nat.
Proof.
  induction s as [|c s IH]; simpl; [lia|]. rewrite length_app. destruct (decide (c = 32)), (url_special c); simpl; lia.
Qed.

(** the URL codec.  For every byte string [s] (NUL bytes included),
    [url_encode] stays inside its block of [3 * len + 1] bytes, and
    [url_decode], working in place on that block, reads and writes only
    inside it and gives [s] back, NUL-terminated, with its length. *)
Theorem url_decode_encode fuel s garbage :
  Forall is_byte s -> (3 * length s + 1 <= length garbage)%nat -> (length s < fuel)%nat ->
  exists blk n rest, url_encode s garbage = Ok (blk, n) /\ length blk = (3 * length s + 1)%nat /\
    (exists blk', url_decode fuel blk n = Ok (blk', Z.of_nat (length s)) /\
       length blk' = length blk /\ blk' = s ++ 0 :: rest).
Proof.
  intros Hb Hg Hf. pose proof (url_encode_loop_length s) as Hlen. unfold url_encode.
  set (enc := url_encode_loop s) in *. set (blk0 := take _ garbage).
  assert (length blk0 = (3 * length s + 1)%nat) as Hblk0 by (subst blk0; rewrite length_take; lia).
  rewrite <- (take_drop (length enc + 1) blk0). set (m := take _ blk0). set (r := drop _ blk0).
  assert (length m = (length enc + 1)%nat) as Hm by (subst m; rewrite length_take; lia).
  pose proof (bwrite_app [] m r 0 (enc ++ [0]) eq_refl) as Hw. simpl in Hw. rewrite Hw by (rewrite length_app; simpl; lia).
  cbn [mbind cres_bind mret cres_ret].
  destruct (url_decode_loop_ok fuel [] [] s (0 :: r) Hb Hf) as (gap & E & Hgl). simpl in E, Hgl. fold enc in E, Hgl.
  change (Z.of_nat 0) with 0 in E.
  assert (exists x tl, gap ++ 0 :: r = x :: tl) as (x & tl & Hx).
  { destruct gap; simpl; eauto. }
  exists ((enc ++ [0]) ++ r), (Z.of_nat (length enc)), tl. split; [done|]. split.
  { rewrite length_app, length_app. simpl. subst r. rewrite length_drop. lia. }
  exists (s ++ 0 :: tl). split; [|split; [|done]].
  - unfold url_decode. rewrite <- app_assoc. simpl. rewrite E. cbn [mbind cres_bind]. rewrite Hx.
    rewrite bset_app by done. done.
  - apply (f_equal length) in Hx. rewrite !length_app in *. simpl in *. subst r. rewrite length_drop in *. lia.
Qed.

Lemma url_decode_encode_witness : exists blk n rest,
  url_encode (B "a b%c+d=~") (replicate 40 170) = Ok (blk, n) /\ length blk = 28%nat /\
  (exists blk', url_decode 20 blk n = Ok (blk', 9) /\ length blk' = length blk /\
     blk' = B "a b%c+d=~" ++ 0 :: rest).
Proof.
  apply (url_decode_encode 20 (B "a b%c+d=~") (replicate 40 170)).
  - apply (bool_decide_unpack _). vm_compute. exact I.
  - apply Nat.leb_le. vm_compute. reflexivity.
  - apply Nat.ltb_lt. vm_compute. reflexivity.
Defined.

(** ** The base 64 codec *)

Definition base_pos_ok (v : Z) : bool :=
  if decide (v < 64) then
    match base_at v with
    | Ok ch => match base64_find_pos ch with Ok w => bool_decide (w = v /\ ch ≠ 61 /\ ch ≠ 0) | _ => false end
    | _ => false
    end
  else true.

Lemma base_pos v : 0 <= v < 64 ->
  exists ch, base_at v = Ok ch /\ base64_find_pos ch = Ok v /\ ch ≠ 61 /\ ch ≠ 0.
Proof.
  intros Hv. assert (base_pos_ok v = true) as H.
  { apply (forall_byte base_pos_ok); [vm_compute; reflexivity|unfold is_byte; lia]. }
  unfold base_pos_ok in H. rewrite decide_True in H by lia. destruct (base_at v) as [ch| |]; [|done..].
  exists ch. destruct (base64_find_pos ch) as [w| |] eqn:E; [|done..].
  apply bool_decide_eq_true in H as (-> & ? & ?). done.
Qed.

(** The four characters of a group, as arithmetic on its 24 bits. *)
Lemma encode_char_ok P temp i : 0 <= P -> i <= temp -> 0 <= i <= 3 ->
  exists ch, encode_char P temp i = Ok ch /\ base64_find_pos ch = Ok (P / 2 ^ ((3 - i) * 6) mod 64) /\
    ch ≠ 61 /\ ch ≠ 0.
Proof.
  intros HP Hi Hi2. unfold encode_char. rewrite decide_False by lia.
  rewrite land_63, Z.shiftr_div_pow2 by lia. apply base_pos. apply Z.mod_pos_bound. lia.
Qed.

Lemma encode_char_pad P temp i : temp < i -> encode_char P temp i = Ok 61.
Proof. intros Hi. unfold encode_char. by rewrite decide_True. Qed.

Lemma take3_ok c1 c2 c3 s :
  is_byte c1 -> is_byte c2 -> is_byte c3 ->
  take3 3 (c1 :: c2 :: c3 :: s) 0 0 = (c1 * 65536 + c2 * 256 + c3, 3, s) /\
  take3 3 [c1; c2] 0 0 = (c1 * 256 + c2, 2, []) /\ take3 3 [c1] 0 0 = (c1, 1, []).
Proof.
  intros H1 H2 H3. unfold is_byte in *. simpl. rewrite !land_255, !Z.mod_small by lia.
  assert (forall x y, 0 <= y < 256 -> Z.lor (Z.shiftl x 8) y = x * 256 + y) as Hs.
  { intros x y Hy. by rewrite lor_shiftl. }
  rewrite !Hs by lia. split_and!; f_equal; f_equal; lia.
Qed.

Lemma lor6 x y : 0 <= y < 64 -> Z.lor (Z.shiftl x 6) y = x * 64 + y.
Proof. intros Hy. by rewrite lor_shiftl. Qed.

Lemma decode_byte P i : Z.land (Z.shiftr P ((2 - i) * 8)) 255 = P / 2 ^ ((2 - i) * 8) mod 256 \/ i > 2.
Proof.
  destruct (decide (i > 2)); [by right|left]. rewrite land_255, Z.shiftr_div_pow2 by lia. done.
Qed.

Lemma decode3 P : 0 <= P ->
  decode_bytes 3 0 P 4 = [P / 65536 mod 256; P / 256 mod 256; P mod 256] /\
  decode_bytes 3 0 P 3 = [P / 65536 mod 256; P / 256 mod 256; P mod 256] /\
  decode_bytes 3 0 P 2 = [P / 65536 mod 256; P / 256 mod 256].
Proof.
  intros HP. simpl. rewrite !land_255, !Z.shiftr_div_pow2 by lia.
  change (2 ^ 16) with 65536. change (2 ^ 8) with 256. change (2 ^ 0) with 1. by rewrite Z.div_1_r.
Qed.

(** The groups of [src]; [pad] is what the last group adds when decoded. *)
Definition pad_of (s : bytes) : bytes := if decide (length s mod 3 = 0)%nat then [] else [0].
Definition eqs_of (s : bytes) : bytes := replicate ((3 - length s mod 3) mod 3) 61.

(** The six-bit digits of a 24-bit group put together again. *)
Lemma regroup P : 0 <= P < 16777216 ->
  P / 262144 mod 64 * 64 + P / 4096 mod 64 = P / 4096 /\
  (P / 262144 mod 64 * 64 + P / 4096 mod 64) * 64 + P / 64 mod 64 = P / 64 /\
  ((P / 262144 mod 64 * 64 + P / 4096 mod 64) * 64 + P / 64 mod 64) * 64 + P mod 64 = P.
Proof. intros H. zdiv. Qed.

Lemma take4_ok n ds vs s acc temp :
  Forall2 (fun d v => base64_find_pos d = Ok v /\ 0 <= v < 64) ds vs -> length ds = n ->
  take4 n (ds ++ s) acc temp = Ok (foldl (fun a v => a * 64 + v) acc vs, temp + Z.of_nat n, s).
Proof.
  intros H. revert n acc temp. induction H as [|d v ds vs [Hd Hv] H IH]; intros n acc temp <-; simpl.
  - f_equal. f_equal. f_equal. lia.
  - rewrite Hd. cbn [mbind cres_bind]. rewrite lor6 by done. rewrite IH by done. f_equal. f_equal. f_equal. lia.
Qed.

Lemma take4_short ds vs acc temp n :
  Forall2 (fun d v => base64_find_pos d = Ok v /\ 0 <= v < 64) ds vs -> (length ds <= n)%nat ->
  take4 n ds acc temp = Ok (foldl (fun a v => a * 64 + v) acc vs, temp + Z.of_nat (length ds), []).
Proof.
  intros H. revert n acc temp. induction H as [|d v ds vs [Hd Hv] H IH]; intros n acc temp Hn; simpl in *.
  - destruct n; simpl; f_equal; f_equal; f_equal; lia.
  - destruct n as [|n]; [lia|]. simpl. rewrite Hd. cbn [mbind cres_bind]. rewrite lor6 by done.
    rewrite IH by lia. f_equal. f_equal. f_equal. lia.
Qed.

Lemma digit_range x : 0 <= x mod 64 < 64.
Proof. apply Z.mod_pos_bound. lia. Qed.

(** One group of one, two or three bytes: its characters, and what decoding
    them gives. *)
Lemma group_ok (P : Z) (k : Z) :
  0 <= P < 16777216 -> 1 <= k <= 3 -> exists e0 e1 e2 e3,
    encode_char P k 0 = Ok e0 /\ encode_char P k 1 = Ok e1 /\
    encode_char P k 2 = Ok (if decide (k < 2) then 61 else e2) /\
    encode_char P k 3 = Ok (if decide (k < 3) then 61 else e3) /\
    Forall (fun c => c ≠ 61 /\ c ≠ 0) [e0; e1; e2; e3] /\
    Forall2 (fun d v => base64_find_pos d = Ok v /\ 0 <= v < 64) [e0; e1; e2; e3]
      [P / 262144 mod 64; P / 4096 mod 64; P / 64 mod 64; P mod 64].
Proof.
  intros HP Hk.
  destruct (encode_char_ok P 3 0) as (e0 & E0 & D0 & N0); [lia..|].
  destruct (encode_char_ok P 3 1) as (e1 & E1 & D1 & N1); [lia..|].
  destruct (encode_char_ok P 3 2) as (e2 & E2 & D2 & N2); [lia..|].
  destruct (encode_char_ok P 3 3) as (e3 & E3 & D3 & N3); [lia..|].
  simpl in D0, D1, D2, D3. rewrite Z.div_1_r in D3.
  assert (forall i e, i <= k -> 0 <= i <= 3 -> encode_char P 3 i = Ok e -> encode_char P k i = Ok e) as Hmono.
  { intros i e Hi Hi3. unfold encode_char. by rewrite !decide_False by lia. }
  exists e0, e1, e2, e3. split_and!; try (by apply Hmono; [lia..|]).
  - case_decide; [by apply encode_char_pad|by apply Hmono; [lia..|]].
  - case_decide; [by apply encode_char_pad|by apply Hmono; [lia..|]].
  - rewrite !Forall_cons, Forall_nil. tauto.
  - repeat constructor; try done; apply digit_range.
Qed.

Lemma base64_loops fuel s :
  Forall is_byte s -> (length s < fuel)%nat ->
  exists body, base64_encode_loop fuel s = Ok (body ++ eqs_of s) /\
    (length (body ++ eqs_of s) = 4 * ((length s + 2) / 3))%nat /\
    Forall (fun c => c ≠ 61 /\ c ≠ 0) body /\
    (forall fuel', (length s < fuel')%nat -> base64_decode_loop fuel' body = Ok (s ++ pad_of s)).
Proof.
  revert s. induction fuel as [|fuel IH]; [lia|]. intros s Hb Hf. destruct s as [|c1 s].
  { exists []. split_and!; [done|done|constructor|]. intros [|f']; [simpl; lia|done]. }
  apply Forall_cons in Hb as [H1 Hb]. pose proof H1 as H1'. unfold is_byte in H1'.
  destruct s as [|c2 s]; [|destruct s as [|c3 s]].
  - destruct fuel as [|fuel]; [simpl in Hf; lia|]. cbn [base64_encode_loop]. rewrite (proj2 (proj2 (take3_ok c1 0 0 [] H1 ltac:(done) ltac:(done)))).
    change (Z.shiftl c1 ((3 - 1) * 8)) with (Z.shiftl c1 16). rewrite Z.shiftl_mul_pow2 by lia.
    destruct (group_ok (c1 * 2 ^ 16) 1) as (e0 & e1 & e2 & e3 & E0 & E1 & E2 & E3 & N & D); [lia..|].
    rewrite E0, E1, E2, E3. cbn [mbind cres_bind mret cres_ret].
    rewrite !Forall_cons in N. exists [e0; e1]. split; [done|]. split; [done|]. split; [repeat constructor; naive_solver|].
    intros [|[|f']] Hf'; [simpl in Hf'; lia..|]. cbn [base64_decode_loop].
    apply (Forall2_take _ _ _ 2) in D. cbn [take] in D.
    rewrite (take4_short _ _ 0 0 4 D) by (simpl; lia). cbn [mbind cres_bind mret cres_ret foldl length].
    destruct (regroup (c1 * 2 ^ 16)) as (R & _); [lia|]. rewrite Z.mul_0_l, Z.add_0_l, R.
    rewrite Z.shiftl_mul_pow2 by lia. change (2 ^ ((4 - (0 + Z.of_nat 2)) * 6)) with 4096.
    change (0 + Z.of_nat 2) with 2. change (2 ^ 16) with 65536.
    replace (c1 * 65536 / 4096 * 4096) with (c1 * 65536) by (clear -H1'; zdiv).
    rewrite (proj2 (proj2 (decode3 (c1 * 65536) ltac:(lia)))).
    replace (pad_of [c1]) with [0] by done. cbn [app]. f_equal. clear -H1'.
    f_equal; [zdiv|]. f_equal. zdiv.
  - apply Forall_cons in Hb as [H2 _]. pose proof H2 as H2'. unfold is_byte in H2'.
    destruct fuel as [|fuel]; [simpl in Hf; lia|].
    cbn [base64_encode_loop]. rewrite (proj1 (proj2 (take3_ok c1 c2 0 [] H1 H2 ltac:(done)))).
    change (Z.shiftl (c1 * 256 + c2) ((3 - 2) * 8)) with (Z.shiftl (c1 * 256 + c2) 8). rewrite Z.shiftl_mul_pow2 by lia.
    destruct (group_ok ((c1 * 256 + c2) * 2 ^ 8) 2) as (e0 & e1 & e2 & e3 & E0 & E1 & E2 & E3 & N & D); [lia..|].
    rewrite E0, E1, E2, E3. cbn [mbind cres_bind mret cres_ret].
    rewrite !Forall_cons in N. exists [e0; e1; e2]. split; [done|]. split; [done|]. split; [repeat constructor; naive_solver|].
    intros [|[|f']] Hf'; [simpl in Hf'; lia..|]. cbn [base64_decode_loop].
    apply (Forall2_take _ _ _ 3) in D. cbn [take] in D.
    rewrite (take4_short _ _ 0 0 4 D) by (simpl; lia). cbn [mbind cres_bind mret cres_ret foldl length].
    destruct (regroup ((c1 * 256 + c2) * 2 ^ 8)) as (_ & R & _); [lia|]. rewrite Z.mul_0_l, Z.add_0_l, R.
    rewrite Z.shiftl_mul_pow2 by lia. change (2 ^ ((4 - (0 + Z.of_nat 3)) * 6)) with 64.
    change (0 + Z.of_nat 3) with 3. change (2 ^ 8) with 256.
    replace ((c1 * 256 + c2) * 256 / 64 * 64) with ((c1 * 256 + c2) * 256) by (clear -H1' H2'; zdiv).
    rewrite (proj1 (proj2 (decode3 ((c1 * 256 + c2) * 256) ltac:(lia)))).
    replace (pad_of [c1; c2]) with [0] by done. cbn [app]. f_equal. clear -H1' H2'. f_equal; [zdiv|]. f_equal; [zdiv|]. f_equal. zdiv.
  - apply Forall_cons in Hb as [H2 Hb]. apply Forall_cons in Hb as [H3 Hb].
    pose proof H2 as H2'. pose proof H3 as H3'. unfold is_byte in H2', H3'.
    cbn [base64_encode_loop]. rewrite (proj1 (take3_ok c1 c2 c3 s H1 H2 H3)).
    change ((3 - 3) * 8) with 0. rewrite Z.shiftl_0_r. set (P := c1 * 65536 + c2 * 256 + c3).
    destruct (group_ok P 3) as (e0 & e1 & e2 & e3 & E0 & E1 & E2 & E3 & N & D); [lia..|].
    rewrite E0, E1, E2, E3. cbn [mbind cres_bind].
    change (if decide (3 < 2) then 61 else e2) with e2. change (if decide (3 < 3) then 61 else e3) with e3.
    destruct (IH s Hb) as (body & E & Hl & Hne & Hd); [simpl in Hf; lia|].
 rewrite E. cbn [mbind cres_bind mret cres_ret].
    exists (e0 :: e1 :: e2 :: e3 :: body).
    assert (eqs_of (c1 :: c2 :: c3 :: s) = eqs_of s /\ pad_of (c1 :: c2 :: c3 :: s) = pad_of s) as [-> ->].
    { unfold eqs_of, pad_of. cbn [length]. replace (S (S (S (length s)))) with (length s + 1 * 3)%nat by lia.
      by rewrite Nat.Div0.mod_add. }
    split; [done|]. split; [|split; [repeat (apply Forall_cons; split); rewrite !Forall_cons in N; naive_solver|]].
    + cbn [app length]. rewrite Hl. replace (S (S (S (length s))) + 2)%nat with ((length s + 2) + 1 * 3)%nat by lia.
      rewrite Nat.div_add by lia. lia.
    + intros [|f'] Hf'; [simpl in Hf'; lia|]. cbn [base64_decode_loop].
      change (e0 :: e1 :: e2 :: e3 :: body) with ([e0; e1; e2; e3] ++ body).
      rewrite (take4_ok 4 _ _ body 0 0 D) by done. cbn [mbind cres_bind foldl].
      destruct (regroup P) as (_ & _ & R); [lia|]. rewrite Z.mul_0_l, Z.add_0_l, R.
      rewrite Hd by (simpl in Hf'; lia). cbn [mbind cres_bind mret cres_ret].
      change ((4 - (0 + Z.of_nat 4)) * 6) with 0. rewrite Z.shiftl_0_r. change (0 + Z.of_nat 4) with 4.
      rewrite (proj1 (decode3 P ltac:(lia))). cbn [app]. unfold P. f_equal. clear -H1' H2' H3'.
      f_equal; [zdiv|]. f_equal; [zdiv|]. f_equal. zdiv.
Qed.

(** the base 64 codec.  For every non-empty C string [s],
    [base64_encode] writes [4 * ceil(n / 3)] characters and a terminator, and
    [base64_decode] applied to them stays inside the encoded string and writes
    [s] and a terminator; when [n] is not a multiple of 3 it first writes one
    more zero byte, so that the end pointer it returns is one past the end of
    the decoded string. *)
Theorem base64_decode_encode fuel s :
  Forall is_char s -> s ≠ [] -> (4 * length s < fuel)%nat ->
  exists e, base64_encode fuel s = Ok (e ++ [0]) /\ length e = (4 * ((length s + 2) / 3))%nat /\
    base64_decode fuel e = Ok (s ++ (if decide (length s mod 3 = 0)%nat then [0] else [0; 0])).
Proof.
  intros Hc Hne Hf.
  destruct (base64_loops fuel s) as (body & E & Hl & Hbody & Hd); [|lia|].
  { eapply Forall_impl; [exact Hc|]. unfold is_char, is_byte. intros. lia. }
  exists (body ++ eqs_of s). unfold base64_encode. rewrite E. split; [done|]. split; [done|].
  assert (length (eqs_of s) <= 2)%nat as Heq.
  { unfold eqs_of. rewrite length_replicate. pose proof (Nat.mod_upper_bound (3 - length s mod 3) 3). lia. }
  assert (4 <= length (body ++ eqs_of s))%nat as H4.
  { rewrite Hl. assert (1 <= (length s + 2) / 3)%nat; [|lia]. apply Nat.div_le_lower_bound; [lia|].
    destruct s; [done|simpl; lia]. }
  assert (Hat : forall k, (1 <= k <= 3)%nat -> exists c, (body ++ eqs_of s) !! (length (body ++ eqs_of s) - k)%nat = Some c /\
     equal_at (body ++ eqs_of s) (Z.of_nat k) = Ok (if decide (k <= length (eqs_of s))%nat then 1 else 0)).
  { intros k Hk. destruct (lookup_lt_is_Some_2 (body ++ eqs_of s) (length (body ++ eqs_of s) - k)) as [c Hc2]; [lia|].
    exists c. split; [done|]. unfold equal_at, bget. rewrite decide_True by lia.
    replace (Z.to_nat _) with (length (body ++ eqs_of s) - k)%nat by lia. rewrite Hc2. cbn [of_opt mbind cres_bind mret cres_ret].
    f_equal. rewrite length_app in Hc2, H4. destruct (decide (k <= length (eqs_of s))%nat) as [Hle|Hgt].
    - rewrite lookup_app_r in Hc2 by lia. unfold eqs_of in Hc2 at 2. apply lookup_replicate in Hc2 as [-> _].
      by rewrite decide_True.
    - rewrite lookup_app_l in Hc2 by lia. apply list_elem_of_lookup_2 in Hc2. rewrite Forall_forall in Hbody.
      apply Hbody in Hc2 as [? _]. by rewrite decide_False. }
  unfold base64_decode.
  destruct (Hat 1%nat ltac:(lia)) as (_ & _ & E1). destruct (Hat 2%nat ltac:(lia)) as (_ & _ & E2).
  destruct (Hat 3%nat ltac:(lia)) as (_ & _ & E3).
  change (Z.of_nat 1) with 1 in E1. change (Z.of_nat 2) with 2 in E2. change (Z.of_nat 3) with 3 in E3.
  rewrite E1, E2, E3. cbn [mbind cres_bind].
  assert (take (Z.to_nat (Z.of_nat (length (body ++ eqs_of s)) -
     ((if decide (1 <= length (eqs_of s))%nat then 1 else 0) + (if decide (2 <= length (eqs_of s))%nat then 1 else 0) +
      (if decide (3 <= length (eqs_of s))%nat then 1 else 0)))) (body ++ eqs_of s) = body) as ->.
  { rewrite length_app, take_app_le; [apply take_ge|]; repeat case_decide; lia. }
  rewrite Hd by lia. cbn [mbind cres_bind mret cres_ret]. unfold pad_of.
  destruct (decide (length s mod 3 = 0)%nat); [by rewrite app_nil_r|by rewrite <- app_assoc].
Qed.

Lemma base64_decode_encode_witness : exists e,
  base64_encode 30 (B "price=1.25") = Ok (e ++ [0]) /\ length e = 16%nat /\
  base64_decode 50 e = Ok (B "price=1.25" ++ [0; 0]).
Proof.
  destruct (base64_decode_encode 50 (B "price=1.25")) as (e & E & H1 & H2).
  - apply (bool_decide_unpack _). vm_compute. exact I.
  - done.
  - apply Nat.ltb_lt. vm_compute. reflexivity.
  - exists e. split; [|done]. rewrite <- E. vm_compute. reflexivity.
Defined.

(** [base64_decode] reads before its argument when the string has fewer
    than three characters: the three tests for [=] do not look at the length. *)
Theorem base64_decode_short fuel src : (length src < 3)%nat -> base64_decode fuel src = UB.
Proof.
  intros Hl. unfold base64_decode.
  assert (forall k, 0 <= Z.of_nat k <= 3 -> (length src < k)%nat -> equal_at src (Z.of_nat k) = UB) as Hub.
  { intros k Hk Hlt. unfold equal_at, bget. by rewrite decide_False by lia. }
  assert (forall k : Z, (exists r, equal_at src k = Ok r) \/ equal_at src k = UB) as Hok.
  { intros k. unfold equal_at, bget. case_decide; [|by right].
    destruct (src !! _); simpl; [left; eauto|by right]. }
  destruct (Hok 1) as [[r1 ->]| ->]; [|done]. cbn [mbind cres_bind].
  destruct (Hok 2) as [[r2 ->]| ->]; [|done]. cbn [mbind cres_bind].
  pose proof (Hub 3%nat) as H3. change (Z.of_nat 3) with 3 in H3. by rewrite H3 by lia.
Qed.

Lemma base64_decode_short_witness : base64_decode 10 (B "YQ") = UB.
Proof. apply base64_decode_short. simpl. lia. Defined.

(** ** Growing buffers *)

(** [buf_rep b out]: the buffer holds the C string [out]; before the first
    append it has no block. *)
Definition buf_rep (b : adx_buffer) (out : bytes) : Prop :=
  len b = Z.of_nat (length out) /\ 2 <= total b <= 1073741824 /\
  match str b with
  | None => out = []
  | Some p => exists rest, p = out ++ 0 :: rest /\ Z.of_nat (length p) = total b /\ len b < total b - 1
  end.

Section Grow.
Context (ao : nat -> bool) (Hao : forall k, ao k = true).

Lemma string_alloc_ok n size : adx_alloc ao n size = (Some (replicate (Z.to_nat size) 0), S n).
Proof. unfold adx_alloc. by rewrite Hao. Qed.

Lemma strcat_grow_ok fuel n b out p l :
  buf_rep b out -> str b = Some p -> 0 < l -> l + len b + 2 <= 536870912 ->
  l + len b + 2 <= total b * 2 ^ Z.of_nat fuel ->
  exists b' n', strcat_grow ao (S fuel) n b l = Ok (true, b', n') /\ buf_rep b' out /\
    is_Some (str b') /\ l + len b' < total b' - 1 /\ len b' = len b.
Proof.
  revert n b p. induction fuel as [|fuel IH]; intros n b p Hrep Hp Hl Hmax Hfuel.
  - cbn [strcat_grow]. rewrite decide_True by (simpl in Hfuel; lia).
    exists b, n. split_and!; [done|done|by rewrite Hp|simpl in Hfuel; lia|done].
  - remember (S fuel) as f eqn:Ef. cbn [strcat_grow]. case_decide as Hfit.
    { exists b, n. split_and!; [done|done|by rewrite Hp|done|done]. }
    destruct Hrep as (Hlen & Ht & Hs).
    rewrite int_ok_in by lia. cbn [mbind cres_bind]. rewrite string_alloc_ok. rewrite Hp in Hs |- *. destruct Hs as (rest & -> & Hpl & Hlt).
    cbn [of_opt mbind cres_bind]. rewrite decide_False by lia.
    assert (take (Z.to_nat (len b)) (out ++ 0 :: rest) = out) as ->.
    { rewrite Hlen, Nat2Z.id. by rewrite take_app_length. }
    assert (exists k, Z.to_nat (total b * 2) = (length out + S k)%nat) as [k Hk].
    { exists (Z.to_nat (total b * 2) - length out - 1)%nat. lia. }
    rewrite Hk, replicate_add. rewrite bwrite_app0 by (by rewrite length_replicate).
    cbn [app mbind cres_bind]. subst f.
    destruct (IH (S n) (Buffer (total b * 2) (len b) (Some (out ++ replicate (S k) 0))) (out ++ replicate (S k) 0))
      as (b' & n' & E & H1 & H2 & H3 & H4).
    + split; [done|]. split; [simpl; lia|]. simpl. exists (replicate k 0). split; [done|].
      rewrite length_app. simpl. rewrite length_replicate. lia.
    + done.
    + done.
    + done.
    + simpl. rewrite Nat2Z.inj_succ, Z.pow_succ_r in Hfuel by lia. lia.
    + exists b', n'. simpl in H4. by split_and!.
Qed.

Lemma adx_strcat_ok n b out s l :
  buf_rep b out -> 0 < l <= Z.of_nat (length s) -> Z.of_nat (length out) + l + 2 <= 536870912 ->
  forall fuel, (30 < fuel)%nat ->
  exists b' n', adx_strcat ao fuel n b s l = Ok (true, b', n') /\ is_Some (str b') /\
    buf_rep b' (out ++ take (Z.to_nat l) s).
Proof.
  intros Hrep Hl Hmax fuel Hfuel. unfold adx_strcat. rewrite decide_False by lia.
  assert (exists b1 n1 p, (match str b with
    | None => let '(p, n) := adx_alloc ao n (total b) in (Buffer (total b) (len b) p, n)
    | Some _ => (b, n) end) = (b1, n1) /\ buf_rep b1 out /\ str b1 = Some p) as (b1 & n1 & p & -> & Hrep1 & Hp).
  { destruct (str b) as [p|] eqn:Es; [by exists b, n, p|]. rewrite string_alloc_ok.
    eexists _, _, _. split; [done|]. split; [|done]. destruct Hrep as (Hlen & Ht & Hs). rewrite Es in Hs. subst out.
    split; [done|]. split; [done|]. simpl. destruct (Z.to_nat (total b)) as [|k] eqn:Ek; [lia|].
    exists (replicate k 0). split; [done|]. simpl in *. rewrite length_replicate. lia. }
  rewrite Hp. pose proof Hrep1 as (Hlen1 & _). destruct fuel as [|fuel]; [lia|].
  destruct (strcat_grow_ok fuel n1 b1 out p l Hrep1 Hp) as (b2 & n2 & E & Hrep2 & [p2 Hp2] & Hfit & Hlen2); [lia|lia| |].
  { destruct Hrep1 as (_ & ? & _). assert (2 ^ 30 <= 2 ^ Z.of_nat fuel) by (apply Z.pow_le_mono_r; lia). lia. }
  rewrite E. cbn [mbind cres_bind negb]. rewrite Hp2. cbn [of_opt mbind cres_bind].
  rewrite decide_False by lia. destruct Hrep2 as (Hl2 & Ht2 & Hs2). rewrite Hp2 in Hs2.
  destruct Hs2 as (rest & -> & Hpl & _). set (t := take (Z.to_nat l) s).
  assert (length t = Z.to_nat l) as Ht by (subst t; rewrite length_take; lia).
  rewrite length_app in Hpl. simpl in Hpl.
  rewrite <- (take_drop (length t) (0 :: rest)). set (r := drop (length t) (0 :: rest)).
  assert (length r = (S (length rest) - length t)%nat) as Hr by (subst r; rewrite length_drop; done).
  rewrite bwrite_app; [|done|rewrite length_take; simpl; lia]. cbn [mbind cres_bind].
  destruct r as [|x r]; [simpl in Hr; lia|]. rewrite (app_assoc out t).
  rewrite bset_app by (rewrite length_app; lia). cbn [mbind cres_bind mret cres_ret].
  eexists _, _. split; [done|]. split; [eauto|]. split; [simpl; rewrite length_app; lia|]. split; [done|].
  simpl. exists r. split; [by rewrite <- app_assoc|]. rewrite !length_app. simpl in *. lia.
Qed.
End Grow.

(** *** Macro replacement *)

(** Left to right, without overlap. *)
Fixpoint replace_all (fuel : nat) (src dest s : bytes) : bytes :=
  match fuel, s with
  | S fuel, c :: s' =>
      if bool_decide (src `prefix_of` s) then dest ++ replace_all fuel src dest (drop (length src) s)
      else c :: replace_all fuel src dest s'
  | _, _ => []
  end.

Lemma strncmp_prefix s src : no_nul src -> strncmp_eq id s src (length src) = bool_decide (src `prefix_of` s).
Proof.
  revert s. induction src as [|c src IH]; intros s Hn; cbn [length strncmp_eq].
  - symmetry. apply bool_decide_eq_true_2. by exists s.
  - apply Forall_cons in Hn as [Hc Hn]. destruct s as [|x s].
    + rewrite bool_decide_eq_false_2; [done|]. by intros [? ?].
    + rewrite IH by done. destruct (decide (x = c)) as [->|Hne].
      * rewrite (bool_decide_eq_true_2 (_ = _)) by done. cbn [andb]. apply bool_decide_ext.
        split; [apply prefix_cons|apply prefix_cons_inv_2].
      * rewrite (bool_decide_eq_false_2 (_ = _)) by done. cbn [andb]. symmetry. apply bool_decide_eq_false_2.
        intros Hp. apply Hne. symmetry. by eapply prefix_cons_inv_1.
Qed.

Section Macro.
Context (ao : nat -> bool) (Hao : forall k, ao k = true).

Lemma replace_all_le fuel src dest s :
  src ≠ [] -> (length (replace_all fuel src dest s) <= length s * (length dest + 1))%nat.
Proof.
  intros Hs. revert s. induction fuel as [|fuel IH]; intros [|c s]; simpl; try lia. case_bool_decide as Hp.
  - rewrite length_app. specialize (IH (drop (length src) (c :: s))). rewrite length_drop in IH.
    destruct src as [|x src]; [done|]. simpl in *. nia.
  - simpl. specialize (IH s). nia.
Qed.

Lemma macro_loop_ok fuel n b out s src dest :
  buf_rep b out -> no_nul src -> src ≠ [] -> dest ≠ [] ->
  Z.of_nat (length out) + Z.of_nat (length s * (length dest + 1)) + 2 <= 536870912 ->
  (length s + 31 < fuel)%nat ->
  exists n' p b', macro_loop ao fuel n b s src dest = Ok (New p, n') /\
    p = str b' /\ buf_rep b' (out ++ replace_all fuel src dest s) /\ (s ≠ [] -> is_Some p).
Proof.
  intros Hrep Hnn Hsrc Hdest. revert fuel n b out s Hrep.
  induction fuel as [|fuel IH]; [lia|]. intros n b out s Hrep Hmax Hf.
  destruct s as [|c s]; cbn [macro_loop replace_all].
  { exists n, (str b), b. by rewrite app_nil_r. }
  rewrite strncmp_prefix by done.
  assert (0 < length dest)%nat as Hd by (destruct dest; simpl; [done|lia]).
  assert (0 < length src)%nat as Hs0 by (destruct src; simpl; [done|lia]).
  case_bool_decide as Hp.
  - destruct (adx_strcat_ok ao Hao n b out dest (Z.of_nat (length dest)) Hrep) with (fuel := S fuel)
      as (b1 & n1 & E1 & [p1 Hp1] & H1); [lia|simpl in Hmax; nia|lia|].
    rewrite E1. cbn [mbind cres_bind]. rewrite Nat2Z.id, firstn_all in H1.
    destruct (IH n1 b1 _ (drop (length src) (c :: s)) H1) as (n2 & p & b2 & E2 & -> & H2 & Hsome).
    + rewrite length_app, length_drop. simpl in *. nia.
    + rewrite length_drop. simpl in *. lia.
    + exists n2, (str b2), b2. rewrite E2. split; [done|]. split; [done|]. rewrite app_assoc. split; [done|].
      intros _. destruct (decide (drop (length src) (c :: s) = [])) as [Hn|]; [|by apply Hsome].
      rewrite Hn in E2. destruct fuel; [simpl in Hf; lia|]. simpl in E2. injection E2 as E2 _. rewrite <- E2. eauto.
  - destruct (adx_strcat_ok ao Hao n b out (c :: s) 1 Hrep) with (fuel := S fuel)
      as (b1 & n1 & E1 & [p1 Hp1] & H1); [simpl; lia|simpl in Hmax; nia|lia|].
    rewrite E1. cbn [mbind cres_bind]. change (take (Z.to_nat 1) (c :: s)) with [c] in H1.
    destruct (IH n1 b1 _ s H1) as (n2 & p & b2 & E2 & -> & H2 & Hsome).
    + rewrite length_app. simpl in *. nia.
    + simpl in *. lia.
    + exists n2, (str b2), b2. rewrite E2. split; [done|]. split; [done|].
      rewrite <- app_assoc in H2. split; [done|].
      intros _. destruct s; [|by apply Hsome]. destruct fuel; [simpl in Hf; lia|]. simpl in E2.
      injection E2 as E2 _. rewrite <- E2. eauto.
Qed.
End Macro.

(** [adx_macro_replace].  When the pool refuses no block, the result for
    a non-empty string is a new NUL-terminated string in which the
    occurrences of [src], taken from left to right without overlap, are
    replaced by [dest], and no write leaves the growing buffer; an empty
    pattern gives the argument back; an empty replacement gives the argument
    back unchanged as soon as the pattern occurs; an empty string gives
    NULL. *)
Theorem adx_macro_replace_spec ao fuel buf src dest :
  (forall k, ao k = true) -> no_nul src ->
  Z.of_nat (length buf * (length dest + 1)) + 2 <= 536870912 -> (length buf + 31 < fuel)%nat ->
  (src = [] -> adx_macro_replace ao fuel 0 true (Some buf) (Some src) (Some dest) = Ok (Original, 0%nat)) /\
  (src ≠ [] -> buf = [] ->
     adx_macro_replace ao fuel 0 true (Some buf) (Some src) (Some dest) = Ok (New None, 0%nat)) /\
  (src ≠ [] -> dest = [] -> src `prefix_of` buf ->
     exists n, adx_macro_replace ao fuel 0 true (Some buf) (Some src) (Some dest) = Ok (Original, n)) /\
  (src ≠ [] -> dest ≠ [] -> buf ≠ [] ->
     exists n p rest, adx_macro_replace ao fuel 0 true (Some buf) (Some src) (Some dest) = Ok (New (Some p), n) /\
       p = replace_all fuel src dest buf ++ 0 :: rest).
Proof.
  intros Hao Hnn Hmax Hf. unfold adx_macro_replace. split_and!.
  - by intros ->.
  - intros Hs ->. rewrite decide_False by (by destruct src). destruct fuel; [lia|]. done.
  - intros Hs -> Hp. rewrite decide_False by (by destruct src). destruct fuel as [|fuel]; [lia|].
    destruct buf as [|c buf]; [by apply prefix_nil_inv in Hp|]. cbn [macro_loop].
    rewrite strncmp_prefix, bool_decide_eq_true_2 by done. unfold adx_strcat. rewrite decide_True by done. simpl. eauto.
  - intros Hs Hd Hb. rewrite decide_False by (by destruct src).
    assert (buf_rep (Buffer 1024 0 None) []) as Hrep by (split; [done|split; [simpl; lia|done]]).
    destruct (macro_loop_ok ao Hao fuel 0 _ [] buf src dest Hrep) as (n & p & b & E & -> & H & Hsome);
      [done..|simpl; lia|lia|].
    destruct Hsome as [q Hq]; [done|]. destruct H as (_ & _ & Hst). rewrite Hq in Hst, E.
    destruct Hst as (rest & -> & _). eexists n, _, rest. split; [exact E|done].
Qed.

Lemma adx_macro_replace_spec_witness : exists n p rest,
  adx_macro_replace (fun _ => true) 80 0 true (Some (B "win?p={P}&q={P}")) (Some (B "{P}")) (Some (B "125"))
    = Ok (New (Some p), n) /\ p = B "win?p=125&q=125" ++ 0 :: rest.
Proof.
  destruct (adx_macro_replace_spec (fun _ => true) 80 (B "win?p={P}&q={P}") (B "{P}") (B "125"))
    as (_ & _ & _ & H).
  - done.
  - apply (bool_decide_unpack _). vm_compute. exact I.
  - apply Z.leb_le. vm_compute. reflexivity.
  - apply Nat.ltb_lt. vm_compute. reflexivity.
  - exact (H ltac:(done) ltac:(done) ltac:(done)).
Defined.
