(* ===== verification/AdxQueue.v ===== *)
(** Queues of strings: adx_dsp/src/adx_queue.h and adx_queue.c.

    A queue is an intrusive list (AdxList.v) whose nodes also hold a string
    with its length.  Addresses come from [je_malloc] or from a pool, which
    are external to the file: the address they return (0 for a refusal) is an
    argument, and so is the success of the allocation of the copy. *)

From Stdlib Require Import ZArith Lia.
From S2P Require Import Prelude AdxList.

Open Scope Z_scope.

(** [adx_str_t]; the string is the array it points to, terminator included. *)
Record adx_str_t := Str { str : option bytes; slen : Z }.

(** List fields of the heads and nodes, and the [str] member of the nodes. *)
Record qmem := QMem { ql : lmem; qstr : gmap Z adx_str_t }.

Definition adx_str_empty (s : adx_str_t) : Z :=
  match str s with None => -1 | Some _ => if decide (slen s = 0) then -1 else 0 end.

(** The block has [len + 1] bytes, an [int].  [memcpy] with a negative length
    (a size near 2^64) or past the source has no meaning; when the block is
    refused [len] stays unset ([garbage]). *)
Definition adx_str_strdup (ok : bool) (garbage : Z) (buf : bytes) (len : Z) : cres adx_str_t :=
  _ ← int_ok (len + 1);
  if negb ok then mret (Str None garbage) else
  if decide (0 <= len <= Z.of_nat (length buf))
  then mret (Str (Some (take (Z.to_nat len) buf ++ [0])) len) else UB.

Definition adx_str_init (ok : bool) (garbage : Z) (buf : bytes) (len : Z) : cres adx_str_t :=
  adx_str_strdup ok garbage buf len.

(** The block that is released, if any. *)
Definition adx_str_free (s : adx_str_t) : option bytes :=
  if decide (adx_str_empty s = 0) then str s else None.

(** A new node has list fields of unknown value. *)
Definition q_malloc (m : qmem) (r g : Z) : qmem :=
  QMem (LMem (<[r := g]> (nx (ql m))) (<[r := g]> (pv (ql m)))) (qstr m).
Definition q_free (m : qmem) (r : Z) : cres qmem :=
  _ ← get_next (ql m) r; _ ← get_prev (ql m) r;
  mret (QMem (LMem (delete r (nx (ql m))) (delete r (pv (ql m)))) (delete r (qstr m))).

Definition adx_queue_push_r (pool : bool) (m : qmem) (queue : Z) (buf : option bytes) (len : Z)
    (r g : Z) (ok : bool) : cres qmem :=
  match buf with
  | None => mret m
  | Some buf =>
      if decide (len = 0) then mret m else
      if decide (r = NULL) then mret m else
      let m := q_malloc m r g in
      s ← adx_str_strdup ok g buf len;
      let m := QMem (ql m) (<[r := s]> (qstr m)) in
      if decide (adx_str_empty s ≠ 0) then
        if pool then mret m else q_free m r
      else
        l ← adx_list_add (ql m) queue r;
        mret (QMem l (qstr m))
  end.

Definition adx_queue_pop_r (m : qmem) (queue : Z) : cres (adx_str_t * qmem) :=
  '(node, l) ← adx_queue (ql m) queue;
  let m := QMem l (qstr m) in
  if decide (node ≠ NULL) then s ← of_opt (qstr m !! node); mret (s, m)
  else mret (Str None 0, m).

Definition adx_queue_push (m : qmem) (queue : Z) (buf : option bytes) (len : Z) (r g : Z) (ok : bool)
    : cres qmem :=
  adx_queue_push_r false m queue buf len r g ok.

Definition adx_queue_pop (m : qmem) (queue : Z) : cres (adx_str_t * qmem) :=
  '(node, l) ← adx_queue (ql m) queue;
  let m := QMem l (qstr m) in
  if decide (node ≠ NULL) then
    s ← of_opt (qstr m !! node);
    m ← q_free m node;
    mret (s, m)
  else mret (Str None 0, m).

(** ** The queue of messages a memory holds *)

Definition msg (s : bytes) : adx_str_t := Str (Some (s ++ [0])) (Z.of_nat (length s)).

(** Nodes in order, with the messages they carry. *)
Definition queue_rep (m : qmem) (queue : Z) (xs : list (Z * bytes)) : Prop :=
  ring (ql m) queue xs.*1 /\
  Forall (fun x => qstr m !! x.1 = Some (msg x.2) /\ x.2 ≠ []) xs.

Lemma ring_fresh l head xs r g :
  ring l head xs -> r ∉ head :: xs -> ring (LMem (<[r := g]> (nx l)) (<[r := g]> (pv l))) head xs.
Proof.
  intros (Hs & Hnd & Hn) Hr. split; [|done].
  eapply lseg_frame; [| |exact Hs]; intros p Hp; simpl; apply lookup_insert_ne; clear -Hr Hp; set_solver.
Qed.

Lemma ring_delete l head xs r :
  ring l head xs -> r ∉ head :: xs -> ring (LMem (delete r (nx l)) (delete r (pv l))) head xs.
Proof.
  intros (Hs & Hnd & Hn) Hr. split; [|done].
  eapply lseg_frame; [| |exact Hs]; intros p Hp; simpl; apply lookup_delete_ne; clear -Hr Hp; set_solver.
Qed.

Lemma strs_insert (m : gmap Z adx_str_t) (xs : list (Z * bytes)) r s :
  r ∉ xs.*1 -> Forall (fun x => m !! x.1 = Some (msg x.2) /\ x.2 ≠ []) xs ->
  Forall (fun x => <[r := s]> m !! x.1 = Some (msg x.2) /\ x.2 ≠ []) xs.
Proof.
  intros Hr Hall. rewrite !Forall_forall in *. intros x Hx. destruct (Hall x Hx) as [H1 H2].
  split; [|done]. rewrite lookup_insert_ne; [done|]. intros ->. apply Hr. by apply list_elem_of_fmap_2.
Qed.

Lemma strs_delete (m : gmap Z adx_str_t) (xs : list (Z * bytes)) r :
  r ∉ xs.*1 -> Forall (fun x => m !! x.1 = Some (msg x.2) /\ x.2 ≠ []) xs ->
  Forall (fun x => delete r m !! x.1 = Some (msg x.2) /\ x.2 ≠ []) xs.
Proof.
  intros Hr Hall. rewrite !Forall_forall in *. intros x Hx. destruct (Hall x Hx) as [H1 H2].
  split; [|done]. rewrite lookup_delete_ne; [done|]. intros ->. apply Hr. by apply list_elem_of_fmap_2.
Qed.

(** A push whose copy is refused, of any length but the one whose successor
    overflows, and one that is refused the node, leave the queue as it was. *)
Lemma push_refused m queue xs buf len r g :
  queue_rep m queue xs -> -2147483648 <= len < 2147483647 -> r ∉ queue :: xs.*1 ->
  exists m', adx_queue_push m queue (Some buf) len r g false = Ok m' /\ queue_rep m' queue xs.
Proof.
  intros [Hring Hall] Hlen Hr. unfold adx_queue_push, adx_queue_push_r.
  case_decide; [by exists m|]. case_decide; [by exists m|].
  unfold adx_str_strdup. rewrite int_ok_in by lia. cbn [negb mbind cres_bind mret cres_ret].
  rewrite decide_True by done. unfold q_free, get_next, get_prev. cbn [ql q_malloc nx pv qstr].
  rewrite !lookup_insert_eq. cbn [of_opt mbind cres_bind mret cres_ret]. eexists. split; [done|].
  assert (r ∉ xs.*1) by (clear -Hr; set_solver).
  split; cbn [ql qstr]; [|by apply strs_delete, strs_insert].
  pose proof (ring_fresh _ _ _ _ g Hring Hr) as Hring1. by apply (ring_delete _ _ _ r) in Hring1.
Qed.

(** A push of [len] bytes at a fresh node, with or without a refused block. *)
Lemma push_ok m queue xs buf len r g ok :
  queue_rep m queue xs -> 0 < len <= Z.of_nat (length buf) -> len < 2147483647 -> r ≠ NULL -> r ∉ queue :: xs.*1 ->
  exists m', adx_queue_push m queue (Some buf) len r g ok = Ok m' /\
    queue_rep m' queue (if ok then xs ++ [(r, take (Z.to_nat len) buf)] else xs).
Proof.
  intros Hq Hlen Hmax Hr0 Hr. destruct ok; [|by apply push_refused; [|lia|]].
  destruct Hq as [Hring Hall]. unfold adx_queue_push, adx_queue_push_r.
  rewrite !decide_False by lia. unfold adx_str_strdup. rewrite int_ok_in, ok_bind by lia.
  assert (r ∉ xs.*1) as Hrx by (clear -Hr; set_solver).
  pose proof (ring_fresh _ _ _ _ g Hring Hr) as Hring1. cbn [negb].
  rewrite decide_True by lia. cbn [mbind cres_bind mret cres_ret]. unfold adx_str_empty. cbn [str slen].
  rewrite decide_False by (rewrite decide_False by lia; lia).
  destruct (adx_list_add_ring _ queue xs.*1 r Hring1) as (l & E & Hl); [|done|done|].
  { split; simpl; rewrite lookup_insert_eq; eauto. }
  unfold q_malloc. cbn [ql qstr]. rewrite E. cbn [mbind cres_bind mret cres_ret]. eexists. split; [done|].
  split; [simpl; by rewrite fmap_app|]. apply Forall_app. split; [by apply strs_insert|].
  apply Forall_singleton. simpl. rewrite lookup_insert_eq. unfold msg. rewrite length_take. split.
  - do 2 f_equal. lia.
  - destruct buf; [simpl in Hlen; lia|]. destruct (Z.to_nat len) eqn:E2; [lia|done].
Qed.

Lemma pop_ok m queue xs :
  queue_rep m queue xs ->
  exists m', adx_queue_pop m queue = Ok (match xs with [] => Str None 0 | (_, s) :: _ => msg s end, m') /\
    queue_rep m' queue (tail xs).
Proof.
  intros [Hring Hall]. unfold adx_queue_pop.
  destruct xs as [|[r s] xs]; simpl in Hring |- *.
  - destruct (adx_queue_ring _ _ _ Hring) as (l & E & Hl). rewrite E. simpl in Hl |- *.
    exists (QMem l (qstr m)). split; [done|]. by split.
  - unfold adx_queue, get_next. destruct (cyc_first _ _ _ Hring) as (y & [Hp _] & ->). simpl in Hp. rewrite Hp.
    cbn [of_opt mbind cres_bind]. pose proof Hring as (_ & Hnd & Hnull). rewrite decide_False.
    2:{ apply NoDup_cons in Hnd as [Hh _]. intros ->. apply Hh, list_elem_of_here. }
    destruct (cyc_delete _ _ _ _ Hring) as (l & E & Hl & [[u Hu] [v Hv]]). rewrite E.
    cbn [mbind cres_bind mret cres_ret ql qstr].
    rewrite decide_True by (intros ->; apply Hnull; clear; set_solver).
    apply Forall_cons in Hall as [[Hs Hne] Hall]. cbn [fst snd] in Hs. rewrite Hs. cbn [of_opt mbind cres_bind].
    unfold q_free, get_next, get_prev. cbn [ql qstr]. rewrite Hu, Hv. cbn [of_opt mbind cres_bind mret cres_ret].
    eexists. split; [done|]. rewrite !NoDup_cons in Hnd. destruct Hnd as (Hh & Hrx & _). split; cbn [ql qstr].
    + apply ring_delete; [exact Hl|]. clear -Hh Hrx. set_solver.
    + by apply strs_delete.
Qed.
