(* ===== verification/AdxLog.v ===== *)
(** The logger: adx_dsp/src/adx_log.h and adx_log.c.

    A log is a level and the text written to its file; a log queue adds the
    queue of AdxQueue.v between the threads that log and the thread that
    writes.  The time of a line is the broken-down local time the source
    reads; [vsnprintf] formats, so what it makes of its arguments, a text or a
    failure, is an argument, and so is every answer of [je_malloc].  Threads
    are modelled by a step relation whose steps are the critical sections of
    the source. *)

From Stdlib Require Import ZArith Lia.
From S2P Require Import Prelude AdxList AdxQueue.

Open Scope Z_scope.

Definition LOGINFO : Z := 1.
Definition LOGWARNING : Z := 2.
Definition LOGERROR : Z := 3.
Definition LOGDEBUG : Z := 4.

(** The [struct tm] fields a line prints. *)
Record tm := Tm { tm_year : Z; tm_mon : Z; tm_mday : Z; tm_hour : Z; tm_min : Z; tm_sec : Z }.

(** [fprintf(fp, "[%04d-%02d-%02d %02d:%02d:%02d]", ...)] *)
Definition stamp (t : tm) : bytes :=
  [91] ++ dec0 4 (tm_year t + 1900) ++ [45] ++ dec0 2 (tm_mon t + 1) ++ [45] ++ dec0 2 (tm_mday t) ++ [32]
  ++ dec0 2 (tm_hour t) ++ [58] ++ dec0 2 (tm_min t) ++ [58] ++ dec0 2 (tm_sec t) ++ [93].

(** [adx_log_t]: whether [fp] is open, the level and the text written. *)
Record adx_log_t := Log { fp : bool; level : Z; text : bytes }.

(** [fopen] succeeds or not, [je_malloc] succeeds or not; a failed
    allocation closes the file again. *)
Definition adx_log_open (opened allocated : bool) (lvl : Z) (existing : bytes) : option adx_log_t :=
  if negb opened then None else if negb allocated then None else Some (Log true lvl existing).

Definition log_append (log : adx_log_t) (s : bytes) : adx_log_t :=
  Log (fp log) (level log) (text log ++ s).

(** [fwrite] writes [len] bytes of the buffer. *)
Definition adx_log_write_buffer (log : adx_log_t) (now : tm) (buffer : bytes) (len : Z) : cres adx_log_t :=
  if decide (0 <= len <= Z.of_nat (length buffer))
  then mret (log_append log (stamp now ++ take (Z.to_nat len) buffer ++ [10])) else UB.

Definition adx_log_write_vlist (log : adx_log_t) (now : tm) (message : bytes) : adx_log_t :=
  log_append log (stamp now ++ message ++ [10]).

(** The test shared by [adx_log_write] and [adx_log_queue_vlist]. *)
Definition level_refused (lvl log_level : Z) : bool :=
  bool_decide (lvl < LOGINFO ∨ lvl > LOGDEBUG ∨ lvl < log_level).

Definition adx_log_write (log : option adx_log_t) (lvl : Z) (now : tm) (message : bytes)
    : option adx_log_t :=
  match log with
  | None => None
  | Some log =>
      if negb (fp log) then Some log
      else if level_refused lvl (level log) then Some log
      else Some (adx_log_write_vlist log now message)
  end.

(** ** The log queue *)

Record adx_log_queue_t := LogQueue { log : option adx_log_t; mem : qmem; queue : Z }.

(** What [vsnprintf] makes of a format and its arguments: a text of at most
    [INT_MAX] characters, or a failure (an encoding error, a longer text) with
    its negative result. *)
Inductive formatted : Type :=
| Formatted (message : bytes)
| Failed (code : Z).

Definition formatted_ok (f : formatted) : Prop :=
  match f with
  | Formatted message => Z.of_nat (length message) <= 2147483647
  | Failed code => -2147483648 <= code < 0
  end.

(** The result, and the bytes of a buffer with room for them; nothing is known
    of the buffer after a failure. *)
Definition vsnprintf_size (f : formatted) : Z :=
  match f with Formatted message => Z.of_nat (length message) | Failed code => code end.
Definition vsnprintf_buf (f : formatted) : bytes :=
  match f with Formatted message => message ++ [0] | Failed _ => [] end.

(** [loop:] of [adx_log_queue_vlist]: the buffer grows until the formatted
    message and its terminator fit; the answer of [je_malloc] to the n-th
    request is [ok n].  The buffer and [size], both [int]s apart from the
    bytes. *)
Fixpoint vlist_format (fuel : nat) (ok : nat -> bool) (n : nat) (len : Z) (f : formatted)
    : cres (option (bytes * Z)) :=
  match fuel with
  | O => NoFuel
  | S fuel =>
      if negb (ok n) then mret None else
      let size := vsnprintf_size f in
      if decide (size >= len) then len ← int_ok (size + 1); vlist_format fuel ok (S n) len f
      else mret (Some (vsnprintf_buf f, size))
  end.

(** [r], [g] and [cok] are the answers of [je_malloc] to [adx_queue_push]. *)
Definition adx_log_queue_vlist (q : option adx_log_queue_t) (lvl : Z) (ok : nat -> bool) (f : formatted)
    (r g : Z) (cok : bool) : cres (option adx_log_queue_t) :=
  match q with
  | None => mret None
  | Some lq =>
      match log lq with
      | None => mret q
      | Some l =>
          if negb (fp l) then mret q
          else if level_refused lvl (level l) then mret q
          else
            buf ← vlist_format 3 ok 0 1024 f;
            match buf with
            | None => mret q
            | Some (buf, size) =>
                m ← adx_queue_push (mem lq) (queue lq) (Some buf) size r g cok;
                mret (Some (LogQueue (log lq) m (queue lq)))
            end
      end
  end.

(** [fopened], [a1], [a2]: the answers of [fopen] and of the two [je_malloc];
    [created]: whether [pthread_create] returned 0; the queue head of a new
    log queue is at [head].  On every failure what was opened is closed. *)
Definition adx_log_queue_create (fopened a1 a2 created : bool) (existing : bytes) (lvl head g : Z)
    : cres (option adx_log_queue_t) :=
  match adx_log_open fopened a1 lvl existing with
  | None => mret None
  | Some l =>
      if negb a2 then mret None else
      q ← adx_list_init (LMem {[head := g]} {[head := g]}) head;
      if negb created then mret None
      else mret (Some (LogQueue (Some l) (QMem q ∅) head))
  end.

(** [fclose] of a file that is not open has no meaning. *)
Definition adx_log_close (log : option adx_log_t) : cres unit :=
  match log with None => mret tt | Some l => if fp l then mret tt else UB end.

(** The memory that is left: the block of the queue, with the head of its list,
    is released; the writer thread is not told, and nodes stay. *)
Definition adx_log_queue_close (q : option adx_log_queue_t) : cres (option qmem) :=
  match q with
  | None => mret None
  | Some lq =>
      _ ← adx_log_close (log lq);
      _ ← get_next (ql (mem lq)) (queue lq);
      mret (Some (QMem (LMem (delete (queue lq) (nx (ql (mem lq)))) (delete (queue lq) (pv (ql (mem lq))))) (qstr (mem lq))))
  end.

(** [log_queue_global]: the result code and the new value of the global. *)
Definition adx_log_init (fopened a1 a2 created : bool) (existing : bytes) (lvl head g : Z)
    : cres (Z * option adx_log_queue_t) :=
  lq ← adx_log_queue_create fopened a1 a2 created existing lvl head g;
  mret (match lq with None => -1 | Some _ => 0 end, lq).

(** [adx_log_queue_write] and [adx_log] pass their arguments on. *)
Definition adx_log_queue_write := adx_log_queue_vlist.
Definition adx_log (global : option adx_log_queue_t) := adx_log_queue_vlist global.

(** One turn of the loop of [adx_log_queue_thread]: pop under the mutex,
    then write and free outside it. *)
Definition thread_pop (lq : adx_log_queue_t) : cres (adx_str_t * adx_log_queue_t) :=
  '(s, m) ← adx_queue_pop (mem lq) (queue lq);
  mret (s, LogQueue (log lq) m (queue lq)).

Definition thread_write (lq : adx_log_queue_t) (now : tm) (buffer : adx_str_t) : cres adx_log_queue_t :=
  if decide (adx_str_empty buffer ≠ 0) then mret lq
  else
    l ← of_opt (log lq);
    s ← of_opt (str buffer);
    l ← adx_log_write_buffer l now s (slen buffer);
    mret (LogQueue (Some l) (mem lq) (queue lq)).

(** The threads: any number of callers of [adx_log_queue_write] and the
    writer thread, which holds what it popped and has not written. *)
Record sys := Sys { lq : adx_log_queue_t; held : option adx_str_t }.

(** A call of [adx_log_queue_write] that returned, with what [vsnprintf] made
    of its arguments and the answers of [je_malloc]: to the requests for the
    buffer, for the node ([r], NULL when refused) and for the copy. *)
Inductive event : Type :=
| Logged (lvl : Z) (f : formatted) (ok : nat -> bool) (r : Z) (cok : bool)
| Popped
| Written (now : tm).

(** A block that is granted is not one of the nodes in use. *)
Definition new_node (m : qmem) (r : Z) : Prop := r ≠ NULL -> nx (ql m) !! r = None /\ pv (ql m) !! r = None.

Inductive step : sys -> event -> sys -> Prop :=
| step_log s lvl f ok r g cok lq' :
    formatted_ok f -> new_node (mem (lq s)) r ->
    adx_log_queue_vlist (Some (lq s)) lvl ok f r g cok = Ok (Some lq') ->
    step s (Logged lvl f ok r cok) (Sys lq' (held s))
| step_pop s buffer lq' :
    held s = None -> thread_pop (lq s) = Ok (buffer, lq') -> step s Popped (Sys lq' (Some buffer))
| step_write s now buffer lq' :
    held s = Some buffer -> thread_write (lq s) now buffer = Ok lq' ->
    step s (Written now) (Sys lq' None).

Inductive steps : sys -> list event -> sys -> Prop :=
| steps_nil s : steps s [] s
| steps_snoc s es s1 e s2 : steps s es s1 -> step s1 e s2 -> steps s (es ++ [e]) s2.

(** ** What the file holds *)

(** The allocations a message needs are granted: the buffer, a second one
    when the first is too small, the node and the copy. *)
Definition granted (message : bytes) (ok : nat -> bool) (r : Z) (cok : bool) : bool :=
  ok 0%nat && (bool_decide (Z.of_nat (length message) < 1024) || ok 1%nat) && bool_decide (r ≠ NULL) && cok.

(** The messages of a history that pass the level filter and were granted
    their blocks, in call order; an empty message is dropped by the queue. *)
Definition accepted (log_level : Z) (es : list event) : list bytes :=
  omap (fun e => match e with
                 | Logged lvl (Formatted message) ok r cok =>
                     if level_refused lvl log_level then None
                     else if granted message ok r cok then match message with [] => None | _ => Some message end
                     else None
                 | _ => None end) es.

(** [written lines ms]: the text is one stamped line per message. *)
Inductive written : bytes -> list bytes -> Prop :=
| written_nil : written [] []
| written_snoc txt ms now m :
    written txt ms -> written (txt ++ stamp now ++ m ++ [10]) (ms ++ [m]).

Definition held_msgs (h : option adx_str_t) : list bytes :=
  match h with
  | Some (Str (Some s) n) => if decide (n = 0) then [] else [take (Z.to_nat n) s]
  | _ => []
  end.

(** The invariant: the history is what was written, then what the writer
    holds, then what is queued. *)
Definition log_inv (log_level : Z) (s : sys) (es : list event) : Prop :=
  exists l xs done, log (lq s) = Some l /\ fp l = true /\ level l = log_level /\
    queue_rep (mem (lq s)) (queue (lq s)) xs /\ written (text l) done /\
    (held s = None \/ held s = Some (Str None 0) \/ exists m, m ≠ [] /\ held s = Some (msg m)) /\
    accepted log_level es = done ++ held_msgs (held s) ++ xs.*2.

Lemma vlist_format_ok message ok : Z.of_nat (length message) < 2147483647 ->
  vlist_format 3 ok 0 1024 (Formatted message) =
    Ok (if ok 0%nat && (bool_decide (Z.of_nat (length message) < 1024) || ok 1%nat)
        then Some (message ++ [0], Z.of_nat (length message)) else None).
Proof.
  intros Hmax. cbn [vlist_format vsnprintf_size vsnprintf_buf]. destruct (ok 0%nat); [cbn [negb andb]|done].
  case_decide as Hlen; [|by rewrite bool_decide_true by lia]. rewrite bool_decide_false, int_ok_in, ok_bind by lia. cbn [orb].
  destruct (ok 1%nat); [cbn [negb]|done]. by rewrite decide_False by lia.
Qed.

Lemma accepted_snoc ll es e : accepted ll (es ++ [e]) = accepted ll es ++ accepted ll [e].
Proof. unfold accepted. by rewrite omap_app. Qed.

Lemma held_msgs_msg m : m ≠ [] -> held_msgs (Some (msg m)) = [m].
Proof.
  intros Hm. unfold held_msgs, msg. rewrite decide_False by (destruct m; [done|simpl; lia]).
  by rewrite Nat2Z.id, take_app_length.
Qed.

Lemma ring_live_elem l head xs p : ring l head xs -> p ∈ head :: xs -> is_Some (nx l !! p).
Proof. intros (Hs & _) Hp. by apply (proj1 (lseg_live _ _ _ _ Hs)). Qed.

(** The log keeps its queue; a call of [adx_log_queue_write] appends its
    message to it when it is accepted, and leaves it as it is otherwise. *)
Lemma vlist_ok s l xs lvl message ok r g cok :
  log (lq s) = Some l -> fp l = true -> queue_rep (mem (lq s)) (queue (lq s)) xs ->
  Z.of_nat (length message) < 2147483647 -> new_node (mem (lq s)) r ->
  exists m', adx_log_queue_vlist (Some (lq s)) lvl ok (Formatted message) r g cok =
      Ok (Some (LogQueue (Some l) m' (queue (lq s)))) /\
    exists ys, queue_rep m' (queue (lq s)) (xs ++ ys) /\ ys.*2 = accepted (level l) [Logged lvl (Formatted message) ok r cok].
Proof.
  intros Hl Hfp Hq Hmax Hnew. unfold adx_log_queue_vlist, accepted, granted. cbn [omap list_omap]. rewrite Hl, Hfp. cbn [negb].
  assert (Hsame : exists ys, queue_rep (mem (lq s)) (queue (lq s)) (xs ++ ys) /\ ys.*2 = @nil bytes)
    by (exists []; by rewrite app_nil_r).
  assert (Hlq : lq s = LogQueue (Some l) (mem (lq s)) (queue (lq s))) by (destruct (lq s); simpl in *; by subst).
  destruct (level_refused lvl (level l)); [exists (mem (lq s)); split; [by rewrite <- Hlq|done]|].
  rewrite vlist_format_ok, ok_bind by done. destruct (ok 0%nat && _); [|exists (mem (lq s)); split; [by rewrite <- Hlq|done]].
  destruct message as [|c message].
  { unfold adx_queue_push, adx_queue_push_r. rewrite decide_True by done. cbn [mbind cres_bind mret cres_ret].
    eexists. split; [done|]. by destruct (_ && _). }
  destruct (decide (r = NULL)) as [->|Hr].
  { unfold adx_queue_push, adx_queue_push_r. rewrite decide_False by (simpl; lia).
    rewrite decide_True by done. cbn [mbind cres_bind mret cres_ret]. eexists. split; [done|]. by rewrite bool_decide_false by naive_solver. }
  rewrite bool_decide_true by done. cbn [andb].
  destruct (push_ok (mem (lq s)) (queue (lq s)) xs ((c :: message) ++ [0]) (Z.of_nat (length (c :: message))) r g cok)
    as (m' & E & Hq'); [done|rewrite length_app; simpl; lia|done|done| |].
  { destruct Hq as [Hring _]. intros Hin. apply (ring_live_elem _ _ _ _ Hring) in Hin as [? Hin].
    destruct (Hnew Hr). congruence. }
  rewrite E, ok_bind. eexists. split; [done|]. rewrite Nat2Z.id, take_app_length in Hq'.
  destruct cok; [by exists [(r, c :: message)]|by exists []; rewrite app_nil_r].
Qed.

(** A failure of [vsnprintf] is passed on as a negative length: nothing is
    queued unless every block is granted, when the copy has no meaning. *)
Lemma vlist_failed s l xs lvl code ok r g cok :
  log (lq s) = Some l -> fp l = true -> queue_rep (mem (lq s)) (queue (lq s)) xs -> -2147483648 <= code < 0 ->
  new_node (mem (lq s)) r ->
  (exists m', adx_log_queue_vlist (Some (lq s)) lvl ok (Failed code) r g cok = Ok (Some (LogQueue (Some l) m' (queue (lq s)))) /\
     queue_rep m' (queue (lq s)) xs) \/
  adx_log_queue_vlist (Some (lq s)) lvl ok (Failed code) r g cok = UB.
Proof.
  intros Hl Hfp Hq Hcode Hnew. unfold adx_log_queue_vlist. rewrite Hl, Hfp. cbn [negb].
  assert (Hlq : lq s = LogQueue (Some l) (mem (lq s)) (queue (lq s))) by (destruct (lq s); simpl in *; by subst).
  destruct (level_refused lvl (level l)); [left; exists (mem (lq s)); split; [by rewrite <- Hlq|done]|].
  cbn [vlist_format vsnprintf_size vsnprintf_buf]. destruct (ok 0%nat); cbn [negb];
    [|left; exists (mem (lq s)); split; [by rewrite <- Hlq|done]].
  rewrite decide_False by lia. cbn [mbind cres_bind mret cres_ret]. destruct (decide (r = NULL)) as [->|Hr].
  { left. unfold adx_queue_push, adx_queue_push_r. rewrite decide_False, decide_True by (done || lia).
    cbn [mbind cres_bind mret cres_ret]. by eexists. }
  destruct cok.
  - right. unfold adx_queue_push, adx_queue_push_r. rewrite !decide_False by (done || lia). unfold adx_str_strdup.
    rewrite int_ok_in, ok_bind by lia. cbn [negb]. by rewrite decide_False by lia.
  - left. destruct (push_refused (mem (lq s)) (queue (lq s)) xs [] code r g) as (m' & -> & Hq'); [done|lia| |by eexists].
    destruct Hq as [Hring _]. intros Hin. apply (ring_live_elem _ _ _ _ Hring) in Hin as [? Hin].
    destruct (Hnew Hr). congruence.
Qed.

(** A length of [INT_MAX] does not get through either. *)
Lemma vlist_int_max s l lvl message ok r g cok :
  log (lq s) = Some l -> fp l = true -> Z.of_nat (length message) = 2147483647 ->
  adx_log_queue_vlist (Some (lq s)) lvl ok (Formatted message) r g cok = Ok (Some (lq s)) \/
  adx_log_queue_vlist (Some (lq s)) lvl ok (Formatted message) r g cok = UB.
Proof.
  intros Hl Hfp Hlen. unfold adx_log_queue_vlist. rewrite Hl, Hfp. cbn [negb].
  destruct (level_refused lvl (level l)); [by left|]. cbn [vlist_format vsnprintf_size]. rewrite Hlen.
  destruct (ok 0%nat); [by right|by left].
Qed.

Lemma step_inv ll s es e s' : log_inv ll s es -> step s e s' -> log_inv ll s' (es ++ [e]).
Proof.
  intros (l & xs & done & Hl & Hfp & Hlev & Hq & Hw & Hh & Hacc) Hstep.
  inversion Hstep as [? lvl f ok r g cok lq' Hf Hnew Hrun|? buffer lq' Hn Hrun|? now buffer lq' Hb Hrun]; subst.
  - destruct f as [message|code]; cbn [formatted_ok] in Hf.
    + destruct (decide (Z.of_nat (length message) = 2147483647)) as [Hmax|Hmax].
      * assert (accepted (level l) [Logged lvl (Formatted message) ok r cok] = [] /\ lq' = lq s) as [Ha ->].
        { destruct (vlist_int_max s l lvl message ok r g cok Hl Hfp Hmax) as [E|E]; [|congruence]. rewrite Hrun in E. injection E as ->.
          split; [|done]. revert Hrun. unfold adx_log_queue_vlist, accepted, granted. rewrite Hl, Hfp. cbn [negb omap list_omap].
          destruct (level_refused lvl (level l)); [done|]. cbn [vlist_format vsnprintf_size]. rewrite Hmax. by destruct (ok 0%nat). }
        exists l, xs, done. split_and!; try done. rewrite accepted_snoc, Hacc, Ha. cbn [held]. by rewrite app_nil_r.
      * destruct (vlist_ok s l xs lvl message ok r g cok Hl Hfp Hq ltac:(lia) Hnew) as (m' & E & ys & Hq' & Hys).
        rewrite Hrun in E. injection E as ->. exists l, (xs ++ ys), done. split_and!; try done.
        rewrite accepted_snoc, Hacc, <- Hys, fmap_app, !app_assoc. done.
    + destruct (vlist_failed s l xs lvl code ok r g cok Hl Hfp Hq Hf Hnew) as [(m' & E & Hq')|E]; [|congruence].
      rewrite Hrun in E. injection E as ->. exists l, xs, done. split_and!; try done.
      rewrite accepted_snoc, Hacc. change (accepted (level l) [Logged lvl (Failed code) ok r cok]) with (@nil bytes).
      cbn [held]. by rewrite app_nil_r.
  - unfold thread_pop in Hrun. destruct (pop_ok _ _ _ Hq) as (m' & E & Hq'). rewrite E in Hrun. injection Hrun as <- <-.
    exists l, (tail xs), done. rewrite accepted_snoc, Hacc, Hn. unfold accepted at 1. cbn [omap list_omap]. rewrite app_nil_r.
    destruct xs as [|[p m] xs].
    + split_and!; try done. right. by left.
    + destruct Hq as [_ [[_ Hne] _]%Forall_cons]. simpl in Hne. cbn [fmap list_fmap tail].
      split_and!; try done; [right; right; eauto|]. cbn [held]. by rewrite held_msgs_msg.
  - unfold thread_write in Hrun. rewrite Hb in Hh, Hacc. destruct Hh as [|[[= ->]|(m & Hm & [= ->])]]; [done|..].
    + unfold adx_str_empty in Hrun. rewrite decide_True in Hrun by done. injection Hrun as <-.
      exists l, xs, done. split_and!; try done; [by left|].
      rewrite accepted_snoc, Hacc. unfold accepted. simpl. by rewrite app_nil_r.
    + assert (adx_str_empty (msg m) = 0) as Hz.
      { unfold adx_str_empty, msg. cbn [str slen]. rewrite decide_False; [done|]. destruct m; [done|simpl; lia]. }
      rewrite Hz, decide_False in Hrun by lia. rewrite Hl in Hrun. cbn [of_opt mbind cres_bind str msg slen] in Hrun.
      unfold adx_log_write_buffer in Hrun. rewrite decide_True in Hrun by (rewrite length_app; lia).
      rewrite Nat2Z.id, take_app_length in Hrun. injection Hrun as <-.
      exists (log_append l (stamp now ++ m ++ [10])), xs, (done ++ [m]). split_and!; try done.
      * by constructor.
      * by left.
      * rewrite accepted_snoc, Hacc, held_msgs_msg by done. change (accepted (level l) [Written now]) with (@nil bytes). rewrite app_nil_r. cbn [held held_msgs app]. by rewrite <- app_assoc.
Qed.

Lemma steps_inv ll s0 es s : log_inv ll s0 [] -> steps s0 es s -> log_inv ll s es.
Proof.
  intros H0. induction 1 as [s|s es s1 e s2 Hs IH Hstep]; [done|]. by eapply step_inv, Hstep; apply IH.
Qed.

(** A freshly opened log with an empty queue. *)
Definition log_init (s : sys) (ll : Z) : Prop :=
  log (lq s) = Some (Log true ll []) /\ held s = None /\ queue_rep (mem (lq s)) (queue (lq s)) [].

Lemma log_init_inv s ll : log_init s ll -> log_inv ll s [].
Proof.
  intros (Hl & Hh & Hq). exists (Log true ll []), [], [].
  split_and!; try done; [constructor|by left|by rewrite Hh].
Qed.

(** What the writer thread holds can be written. *)
Lemma thread_write_ok ll s es buffer now :
  log_inv ll s es -> held s = Some buffer -> exists q, thread_write (lq s) now buffer = Ok q.
Proof.
  intros (l & xs & done & Hl & _ & _ & _ & _ & Hh & _) Hb. rewrite Hb in Hh. unfold thread_write.
  destruct Hh as [|[[= ->]|(m & Hm & [= ->])]]; [done|by eexists|].
  case_decide; [by eexists|]. rewrite Hl. cbn [of_opt mbind cres_bind str msg slen].
  unfold adx_log_write_buffer. rewrite decide_True by (rewrite length_app; lia). by eexists.
Qed.

(** C27: the asynchronous log neither loses, repeats nor reorders what it
    accepts.  After any interleaving of calls of [adx_log_queue_write] by any
    number of threads with the turns of the writer thread, whatever blocks are
    refused and whatever [vsnprintf] answers, the accepted messages (level
    between LOGINFO and LOGDEBUG and not below the level of the log, not empty,
    and every block the call asked for granted: a call that is refused one
    loses its message) are, in the order of the calls: the stamped lines of
    the file, then at most one message held by the writer, then the messages
    in the queue.  Nobody then touches memory that is not live: the writer can
    take its next message when it holds none and write the one it holds, and
    any further call with a message of less than 2^31 - 1 characters returns.
    But a call whose [vsnprintf] fails copies a negative number of bytes. *)
Theorem adx_log_queue_fifo s0 ll es s :
  log_init s0 ll -> steps s0 es s ->
  exists l done xs, log (lq s) = Some l /\ written (text l) done /\ (length (held_msgs (held s)) <= 1)%nat /\
    queue_rep (mem (lq s)) (queue (lq s)) xs /\ accepted ll es = done ++ held_msgs (held s) ++ xs.*2 /\
    (held s = None -> exists r, thread_pop (lq s) = Ok r) /\
    (forall buffer now, held s = Some buffer -> exists q, thread_write (lq s) now buffer = Ok q) /\
    (forall lvl message ok r g cok, Z.of_nat (length message) < 2147483647 -> new_node (mem (lq s)) r ->
       exists q, adx_log_queue_write (Some (lq s)) lvl ok (Formatted message) r g cok = Ok (Some q)) /\
    (forall lvl code ok r g, level_refused lvl ll = false -> code < 0 -> -2147483648 <= code -> ok 0%nat = true -> r ≠ NULL ->
       adx_log_queue_write (Some (lq s)) lvl ok (Failed code) r g true = UB).
Proof.
  intros H0 Hs. pose proof (steps_inv _ _ _ _ (log_init_inv _ _ H0) Hs) as Hinv.
  destruct Hinv as (l & xs & done & H1 & H2 & H3 & H4 & H5 & H6 & H7) eqn:Einv. clear Einv.
  exists l, done, xs. split_and!; try done.
  - unfold held_msgs. destruct (held s) as [[[b|] n]|]; simpl; try lia. case_decide; simpl; lia.
  - intros _. unfold thread_pop. destruct (pop_ok _ _ _ H4) as (m' & -> & _). simpl. eauto.
  - intros buffer now. by eapply thread_write_ok.
  - intros lvl message ok r g cok Hmax Hnew. destruct (vlist_ok s l xs lvl message ok r g cok) as (m' & E & _); try done. by eexists.
  - intros lvl code ok r g Hlev Hc0 Hc Hok Hr. unfold adx_log_queue_write, adx_log_queue_vlist. rewrite H1, H2, H3, Hlev. cbn [negb].
    cbn [vlist_format vsnprintf_size vsnprintf_buf]. rewrite Hok. cbn [negb]. rewrite decide_False by lia. cbn [mbind cres_bind mret cres_ret].
    unfold adx_queue_push, adx_queue_push_r. rewrite !decide_False by (done || lia). unfold adx_str_strdup.
    rewrite int_ok_in, ok_bind by lia. cbn [negb]. by rewrite decide_False by lia.
Qed.

(** Closing the log stops the process sooner or later: whatever is queued, the
    next turn of the writer thread, which never ends, reads the released block. *)
Theorem adx_log_queue_close_under_writer s0 ll es s :
  log_init s0 ll -> steps s0 es s ->
  exists m, adx_log_queue_close (Some (lq s)) = Ok (Some m) /\
    thread_pop (LogQueue (log (lq s)) m (queue (lq s))) = UB.
Proof.
  intros H0 Hs. destruct (steps_inv _ _ _ _ (log_init_inv _ _ H0) Hs) as (l & xs & done & H1 & H2 & _ & [Hr _] & _).
  unfold adx_log_queue_close, adx_log_close. rewrite H1, H2. cbn [mbind cres_bind mret cres_ret].
  destruct (ring_live_elem _ _ _ (queue (lq s)) Hr) as [n Hn]; [apply list_elem_of_here|].
  unfold get_next. rewrite Hn. cbn [of_opt mbind cres_bind mret cres_ret]. eexists. split; [done|].
  unfold thread_pop, adx_queue_pop, adx_queue, get_next. cbn [mem queue ql nx]. by rewrite lookup_delete_eq.
Qed.

Definition demo_sys : sys :=
  Sys (LogQueue (Some (Log true 2 [])) (QMem (LMem {[8 := 8]} {[8 := 8]}) ∅) 8) None.
Definition demo_now : tm := Tm 119 6 4 9 5 30.

Lemma demo_log_init : log_init demo_sys 2.
Proof.
  split; [done|]. split; [done|]. split; [|constructor]. split; [by split|].
  split; [apply NoDup_singleton|]. by intros ?%list_elem_of_singleton.
Qed.

Definition all_granted (n : nat) : bool := true.

Definition demo_history : list event :=
  [Logged 3 (Formatted (B "win")) all_granted 16 true; Logged 1 (Formatted (B "debug")) all_granted 24 true; Popped;
   Logged 2 (Formatted (B "lost")) all_granted 24 false; Logged 2 (Formatted (B "lose")) all_granted 32 true; Written demo_now].

Lemma adx_log_queue_fifo_witness : exists s l done xs, log (lq s) = Some l /\ written (text l) done /\
  [B "win"; B "lose"] = done ++ held_msgs (held s) ++ xs.*2 /\ queue_rep (mem (lq s)) (queue (lq s)) xs /\
  exists r, thread_pop (lq s) = Ok r.
Proof.
  assert (exists s, steps demo_sys demo_history s /\ held s = None) as (s & Hs & Hh).
  { change demo_history with (foldl (fun es e => es ++ [e]) [] demo_history). unfold demo_history. cbn [foldl]. eexists. split.
    - eapply steps_snoc; [eapply steps_snoc; [eapply steps_snoc; [eapply steps_snoc; [eapply steps_snoc; [eapply steps_snoc;
        [apply steps_nil|]|]|]|]|]|].
      + apply (step_log _ 3 (Formatted (B "win")) all_granted 16 5); [vm_compute; congruence|by split|vm_compute; reflexivity].
      + apply (step_log _ 1 (Formatted (B "debug")) all_granted 24 5); [vm_compute; congruence|by split|vm_compute; reflexivity].
      + eapply step_pop; [reflexivity|vm_compute; reflexivity].
      + apply (step_log _ 2 (Formatted (B "lost")) all_granted 24 5); [vm_compute; congruence|by split|vm_compute; reflexivity].
      + apply (step_log _ 2 (Formatted (B "lose")) all_granted 32 5); [vm_compute; congruence|by split|vm_compute; reflexivity].
      + eapply step_write; [reflexivity|vm_compute; reflexivity].
    - reflexivity. }
  destruct (adx_log_queue_fifo demo_sys 2 demo_history s demo_log_init Hs) as (l & done & xs & H1 & H2 & _ & H3 & H4 & H5 & _).
  exists s, l, done, xs. split; [exact H1|]. split; [exact H2|]. split; [exact H4|]. split; [exact H3|exact (H5 Hh)].
Defined.
