(* ===== verification/AdxKv.v ===== *)
(** Key-value lists: adx_dsp/src/adx_kv.h and adx_kv.c.

    A key-value list is an intrusive list (AdxList.v) whose nodes hold two
    copied strings; it is modelled by the entries in list order, which is the
    order [adx_list_for_each] visits them in.  The pool is seen through the
    answers of its allocations, as in AdxString.v. *)

From Stdlib Require Import ZArith Lia.
From S2P Require Import Prelude.

Open Scope Z_scope.

(** [adx_kv_t] *)
Record adx_kv_t := Kv { key : bytes; val : bytes }.

Section Kv.
Context (ao : nat -> bool).

(** The node, then both copies, are allocated; the node is linked only when
    all three succeeded. *)
Definition adx_kv_add (n : nat) (head : list adx_kv_t) (k v : option bytes) : list adx_kv_t * nat :=
  match k, v with
  | Some k, Some v =>
      if negb (ao n) then (head, S n)
      else if ao (S n) && ao (S (S n)) then (head ++ [Kv k v], S (S (S n)))
      else (head, S (S (S n)))
  | _, _ => (head, n)
  end.

Fixpoint adx_kv_find (head : list adx_kv_t) (k : bytes) : option bytes :=
  match head with
  | [] => None
  | node :: rest => if decide (strcmp k (key node) = 0) then Some (val node) else adx_kv_find rest k
  end.

Definition adx_kv_get_string (head : list adx_kv_t) (k : bytes) : option bytes := adx_kv_find head k.

Definition adx_kv_get_number (head : list adx_kv_t) (k : bytes) : Z :=
  match adx_kv_find head k with None => 0 | Some s => atoi s end.

(** The text [adx_kv_display] prints. *)
Fixpoint adx_kv_display (head : list adx_kv_t) : bytes :=
  match head with
  | [] => []
  | node :: rest => B "==>[" ++ key node ++ B "][" ++ val node ++ B "]" ++ [10] ++ adx_kv_display rest
  end.

(** [strchr(str, '=')]: the text before and after the first [=]. *)
Fixpoint split_at (c : Z) (s : bytes) : option (bytes * bytes) :=
  match s with
  | [] => None
  | x :: s => if decide (x = c) then Some ([], s)
              else '(a, b) ← split_at c s; Some (x :: a, b)
  end.

(** The value, and what is left of [str] as a C string once the [=] has been
    overwritten. *)
Definition adx_uri_value_parse (str : bytes) : option bytes * bytes :=
  match split_at 61 str with
  | None => (None, str)
  | Some (k, []) => (None, k)
  | Some (k, v) => (Some v, k)
  end.

Fixpoint kv_from_uri_loop (fuel : nat) (n : nat) (head : list adx_kv_t) (text : bytes)
    : cres (list adx_kv_t * nat) :=
  match fuel with
  | O => NoFuel
  | S fuel =>
      match strtok (is_in [38]) text with
      | None => mret (head, n)
      | Some (str, rest) =>
          let '(v, k) := adx_uri_value_parse str in
          let '(head, n) := adx_kv_add n head (Some k) v in
          kv_from_uri_loop fuel n head rest
      end
  end.

(** The result code is always 0. *)
Definition adx_kv_from_uri (fuel : nat) (n : nat) (buf : bytes) : cres (Z * list adx_kv_t * nat) :=
  '(head, n) ← kv_from_uri_loop fuel n [] buf;
  mret (0, head, n).

(** [adx_kv_from_csv_line] prints the fields of a line three by three (a
    missing field is NULL) and adds nothing to the list. *)
Definition csv_sep : Z -> bool := is_in [44; 13; 10; 9].
Definition strtok_opt (delim : Z -> bool) (s : bytes) : option bytes * bytes :=
  match strtok delim s with None => (None, []) | Some (t, r) => (Some t, r) end.

Fixpoint adx_kv_from_csv_line (fuel : nat) (head : list adx_kv_t) (text : bytes)
    : cres (list adx_kv_t * list (bytes * option bytes * option bytes)) :=
  match fuel with
  | O => NoFuel
  | S fuel =>
      match strtok (is_in [44]) text with
      | None => mret (head, [])
      | Some (v1, text) =>
          let '(v2, text) := strtok_opt csv_sep text in
          let '(v3, text) := strtok_opt csv_sep text in
          '(head, out) ← adx_kv_from_csv_line fuel head text;
          mret (head, (v1, v2, v3) :: out)
      end
  end.

Fixpoint csv_lines (fuel : nat) (head : list adx_kv_t) (file : bytes)
    : cres (list adx_kv_t * list (bytes * option bytes * option bytes)) :=
  match fuel with
  | O => NoFuel
  | S fuel' =>
      match fgets 4096 file with
      | ([], _) => mret (head, [])
      | (c :: l, rest) =>
          '(head, out) ← (if decide (c ≠ 35) then adx_kv_from_csv_line fuel head (c :: l) else mret (head, []));
          '(head, out') ← csv_lines fuel' head rest;
          mret (head, out ++ out')
      end
  end.

(** [file] is [None] when the file cannot be opened. *)
Definition adx_kv_from_csv (fuel : nat) (file : option bytes)
    : cres (Z * list adx_kv_t * list (bytes * option bytes * option bytes)) :=
  match file with
  | None => mret (-1, [], [])
  | Some file => '(head, out) ← csv_lines fuel [] file; mret (0, head, out)
  end.
End Kv.

(** ** Parameters of a request *)

Fixpoint uri_encode (ps : list (bytes * bytes)) : bytes :=
  match ps with
  | [] => []
  | [(k, v)] => k ++ 61 :: v
  | (k, v) :: ps => k ++ 61 :: v ++ 38 :: uri_encode ps
  end.

Definition param_ok (p : bytes * bytes) : Prop :=
  Forall (fun c => c ≠ 61 /\ c ≠ 38) p.1 /\ p.2 ≠ [] /\ Forall (fun c => c ≠ 38) p.2.

Definition first_value (ps : list (bytes * bytes)) (k : bytes) : option bytes :=
  snd <$> head (filter (fun p => p.1 = k) ps).

Lemma split_at_app c a b : Forall (fun x => x ≠ c) a -> split_at c (a ++ c :: b) = Some (a, b).
Proof.
  induction 1 as [|x a Hx Ha IH]; simpl; [by rewrite decide_True|]. by rewrite decide_False, IH.
Qed.

Lemma kv_find_first ps k :
  adx_kv_find (map (fun p => Kv p.1 p.2) ps) k = first_value ps k.
Proof.
  unfold first_value. induction ps as [|[a v] ps IH]; [done|]. rewrite filter_cons. simpl.
  rewrite IH. destruct (decide (strcmp k a = 0)) as [E|E].
  - apply strcmp_eq in E as ->. by rewrite decide_True.
  - rewrite decide_False; [done|]. intros ->. by rewrite strcmp_refl in E.
Qed.

Section Parse.
Context (ao : nat -> bool) (Hao : forall k, ao k = true).

Lemma param_value p : param_ok p -> adx_uri_value_parse (p.1 ++ 61 :: p.2) = (Some p.2, p.1).
Proof.
  destruct p as [k v]. intros (Hk & Hv & _). unfold adx_uri_value_parse. simpl in *. rewrite split_at_app.
  - by destruct v.
  - eapply Forall_impl; [exact Hk|]. by intros x [].
Qed.

Lemma uri_encode_cons p q ps :
  uri_encode (p :: q :: ps) = (p.1 ++ 61 :: p.2) ++ 38 :: uri_encode (q :: ps).
Proof. destruct p as [k v]. cbn [fst snd]. rewrite <- app_assoc. done. Qed.

Lemma param_token p : param_ok p -> p.1 ++ 61 :: p.2 ≠ [] /\
  Forall (fun x => is_in [38] x = false) (p.1 ++ 61 :: p.2).
Proof.
  intros (Hk & _ & Hv). split; [by destruct p.1|]. apply Forall_app. split; [|constructor].
  - eapply Forall_impl; [exact Hk|]. intros x [_ Hx]. apply bool_decide_eq_false. by intros ?%list_elem_of_singleton.
  - done.
  - eapply Forall_impl; [exact Hv|]. intros x Hx. apply bool_decide_eq_false. by intros ?%list_elem_of_singleton.
Qed.

Lemma kv_from_uri_loop_ok fuel n head ps :
  Forall param_ok ps -> (length ps < fuel)%nat ->
  exists n', kv_from_uri_loop ao fuel n head (uri_encode ps) = Ok (head ++ map (fun p => Kv p.1 p.2) ps, n').
Proof.
  intros Hps. revert fuel n head. induction Hps as [|p ps Hp Hps IH]; intros fuel n head Hf;
    (destruct fuel as [|fuel]; [simpl in Hf; lia|]); cbn [kv_from_uri_loop].
  - exists n. simpl. by rewrite app_nil_r.
  - destruct (param_token p Hp) as [Hne Ht].
    assert (exists rest, strtok (is_in [38]) (uri_encode (p :: ps)) = Some (p.1 ++ 61 :: p.2, rest) /\ rest = uri_encode ps)
      as (rest & -> & ->).
    { destruct (strtok_app (is_in [38]) _ 38 (uri_encode ps) Hne Ht eq_refl) as [E1 E2].
      destruct ps as [|q ps].
      - destruct p as [k v]. by exists [].
      - exists (uri_encode (q :: ps)). split; [|done]. by rewrite uri_encode_cons. }
    rewrite (param_value p Hp). unfold adx_kv_add. rewrite !Hao. cbn [negb andb].
    destruct (IH fuel (S (S (S n))) (head ++ [Kv p.1 p.2])) as (n' & E); [simpl in Hf; lia|].
    exists n'. rewrite E. by rewrite <- app_assoc.
Qed.
End Parse.

(** C37: the parameters of a request.  When the pool refuses nothing,
    [adx_kv_from_uri] parses [k1=v1&k2=v2&...] (keys without [=] and [&],
    non-empty values without [&]) into exactly these entries in order;
    [adx_kv_get_string] then gives the first value of a key and NULL for a
    key that does not occur, and [adx_kv_get_number] reads a decimal
    [int] back. *)
Theorem adx_kv_from_uri_roundtrip ao fuel ps :
  (forall k, ao k = true) -> Forall param_ok ps -> (length ps < fuel)%nat ->
  exists head n, adx_kv_from_uri ao fuel 0 (uri_encode ps) = Ok (0, head, n) /\
    head = map (fun p => Kv p.1 p.2) ps /\
    (forall k, adx_kv_get_string head k = first_value ps k) /\
    (forall k z, -2147483648 <= z <= 2147483647 -> first_value ps k = Some (dec z) -> adx_kv_get_number head k = z) /\
    (forall k, first_value ps k = None -> adx_kv_get_number head k = 0).
Proof.
  intros Hao Hps Hf. unfold adx_kv_from_uri.
  destruct (kv_from_uri_loop_ok ao Hao fuel 0 [] ps Hps Hf) as (n & E). rewrite E. simpl.
  eexists _, n. split; [done|]. split; [done|]. split; [intros k; apply kv_find_first|].
  split; intros k; unfold adx_kv_get_number; rewrite kv_find_first.
  - intros z Hz ->. rewrite <- (app_nil_r (dec z)). by apply atoi_dec.
  - by intros ->.
Qed.

Lemma adx_kv_from_uri_roundtrip_witness : exists head n,
  adx_kv_from_uri (fun _ => true) 9 0 (B "ip=10.0.0.1&price=-37&ip=10.0.0.2") = Ok (0, head, n) /\
  adx_kv_get_string head (B "ip") = Some (B "10.0.0.1") /\ adx_kv_get_number head (B "price") = -37 /\
  adx_kv_get_string head (B "os") = None.
Proof.
  destruct (adx_kv_from_uri_roundtrip (fun _ => true) 9
    [(B "ip", B "10.0.0.1"); (B "price", B "-37"); (B "ip", B "10.0.0.2")]) as (head & n & E & _ & H1 & H2 & _).
  - done.
  - unfold param_ok. apply (bool_decide_unpack _). vm_compute. exact I.
  - simpl. lia.
  - exists head, n. rewrite !H1. split; [exact E|]. split; [reflexivity|]. split; [|reflexivity].
    apply (H2 (B "price") (-37)); [lia|reflexivity].
Defined.
