(* ===== verification/AdxConf.v ===== *)
(** Configuration files: adx_dsp/src/adx_conf_file.h and adx_conf_file.c.

    A configuration is an intrusive list of nodes holding three copied
    strings, modelled by the entries in list order.  [fopen] and [je_malloc]
    are external: whether the file opens, and the answers of the allocator,
    are arguments ([ao n] tells whether the n-th request succeeds).
    [isspace] is the one of the C locale, false on bytes above 127. *)

From Stdlib Require Import ZArith Lia.
From S2P Require Import Prelude.

Open Scope Z_scope.

(** [adx_conf_file_node_t] *)
Record adx_conf_file_node_t := Node { section : bytes; key : bytes; value : bytes }.

Definition ASCIILINESZ : Z := 1024.

Section Conf.
Context (ao : nat -> bool).

(** Every failed allocation returns at once; the result code comes first. *)
Definition adx_conf_file_add (n : nat) (cf : list adx_conf_file_node_t) (s k v : bytes)
    : Z * list adx_conf_file_node_t * nat :=
  if negb (ao n) then (-1, cf, S n) else
  if negb (ao (S n)) then (-1, cf, S (S n)) else
  if negb (ao (S (S n))) then (-1, cf, S (S (S n))) else
  if negb (ao (S (S (S n)))) then (-1, cf, S (S (S (S n)))) else
  (0, cf ++ [Node s k v], S (S (S (S n)))).

(** The loop that cuts the white space at the end of a line. *)
Fixpoint trim (line : bytes) : bytes :=
  match line with
  | [] => []
  | c :: line =>
      match trim line with
      | [] => if decide (c = 10) then [] else if isspace c then [] else [c]
      | line => c :: line
      end
  end.

Definition not_in (cs : bytes) (c : Z) : bool := negb (is_in cs c).

(** [sscanf(line, "[%[^]]", section)] *)
Definition scan_section (line : bytes) : option bytes :=
  line ← scan_lit 91 line; '(s, _) ← scan_set (not_in [93]) line; Some s.

(** [sscanf(line, "%[^=] = Q%[^S]", key, value) == 2] for an optional opening
    quote Q and a set S of terminators; what follows the value in the format
    does not change the count. *)
Definition scan_entry (quote : option Z) (stop : bytes) (line : bytes) : option (bytes * bytes) :=
  '(k, line) ← scan_set (not_in [61]) line;
  line ← scan_lit 61 (skip_spaces line);
  let line := skip_spaces line in
  line ← match quote with Some q => scan_lit q line | None => Some line end;
  '(v, _) ← scan_set (not_in stop) line;
  Some (k, v).

Definition scan_key_value (line : bytes) : option (bytes * bytes) :=
  match scan_entry (Some 34) [34] line with
  | Some kv => Some kv
  | None =>
      match scan_entry (Some 39) [39] line with
      | Some kv => Some kv
      | None => scan_entry None [59; 35] line
      end
  end.

(** The bytes of a buffer up to the terminator. *)
Fixpoint c_text (s : bytes) : bytes :=
  match s with [] => [] | c :: s => if decide (c = 0) then [] else c :: c_text s end.

(** The body of the loop on one line; [None] means that the parse stops
    with -1.  [sec] is the [section] buffer, empty at first. *)
Definition conf_line (n : nat) (sec : bytes) (cf : list adx_conf_file_node_t) (line : bytes)
    : option bytes * list adx_conf_file_node_t * nat :=
  let line := c_text line in
  let len := Z.of_nat (length line) - 1 in
  if decide (len = 0 ∨ len >= ASCIILINESZ) then (Some sec, cf, n) else
  if decide (head line = Some 35) then (Some sec, cf, n) else
  let line := trim line in
  let sec :=
    if decide (head line = Some 91 /\ last line = Some 93) then
      match scan_section line with Some s => s | None => sec end
    else sec in
  match sec, scan_key_value line with
  | _ :: _, Some (k, v) =>
      let '(rc, cf, n) := adx_conf_file_add n cf sec k v in
      if decide (rc ≠ 0) then (None, cf, n) else (Some sec, cf, n)
  | _, _ => (Some sec, cf, n)
  end.

(** Each turn reads at least one byte of the file: [fuel] is the number of
    bytes, plus one. *)
Fixpoint conf_lines (fuel : nat) (n : nat) (sec : bytes) (cf : list adx_conf_file_node_t) (file : bytes)
    : cres (Z * list adx_conf_file_node_t) :=
  match fuel with
  | O => NoFuel
  | S fuel =>
      match fgets 1024 file with
      | ([], _) => mret (0, cf)
      | (line, file) =>
          match conf_line n sec cf line with
          | (None, cf, _) => mret (-1, cf)
          | (Some sec, cf, n) => conf_lines fuel n sec cf file
          end
      end
  end.

Definition adx_conf_file_parse (n : nat) (cf : list adx_conf_file_node_t) (file : option bytes)
    : cres (Z * list adx_conf_file_node_t) :=
  match file with
  | None => mret (-1, cf)
  | Some file => conf_lines (S (length file)) n [] cf file
  end.

Definition adx_conf_file_load (file : option bytes) : cres (option (list adx_conf_file_node_t)) :=
  if negb (ao 0) then mret None else
  '(rc, cf) ← adx_conf_file_parse 1 [] file;
  if decide (rc ≠ 0) then mret None else mret (Some cf).
End Conf.

Fixpoint get_adx_conf_file_string (cf : list adx_conf_file_node_t) (s k : bytes) : option bytes :=
  match cf with
  | [] => None
  | node :: cf =>
      if decide (strcmp (section node) s = 0 /\ strcmp (key node) k = 0) then Some (value node)
      else get_adx_conf_file_string cf s k
  end.

Definition get_adx_conf_file_number (cf : list adx_conf_file_node_t) (s k : bytes) : Z :=
  match get_adx_conf_file_string cf s k with Some v => atoi v | None => 0 end.

(** ** Writing a configuration *)

(** How a value is written: between quotes, or bare with what follows it on
    the line. *)
Inductive style : Type := Dquote | Squote | Bare (tail : bytes).

Definition render_entry (e : style * bytes * bytes) : bytes :=
  let '(st, k, v) := e in
  match st with
  | Dquote => k ++ 61 :: 34 :: v ++ [34; 10]
  | Squote => k ++ 61 :: 39 :: v ++ [39; 10]
  | Bare tail => k ++ 61 :: v ++ tail ++ [10]
  end.

Inductive item : Type :=
| Sect (s : bytes)
| Entry (e : style * bytes * bytes)
| Comment (s : bytes).

Definition render_item (i : item) : bytes :=
  match i with
  | Sect s => 91 :: s ++ [93; 10]
  | Entry e => render_entry e
  | Comment s => 35 :: s ++ [10]
  end.

Definition render (its : list item) : bytes := concat (map render_item its).

(** The nodes a file stands for: each entry with the last section
    name; entries before the first section are ignored. *)
Fixpoint nodes (sec : bytes) (its : list item) : list adx_conf_file_node_t :=
  match its with
  | [] => []
  | Sect s :: its => nodes s its
  | Entry (_, k, v) :: its =>
      match sec with [] => nodes sec its | _ => Node sec k v :: nodes sec its end
  | Comment _ :: its => nodes sec its
  end.

(** No byte of [cs], and no byte that ends a line or a string. *)
Definition text_ok (cs s : bytes) : Prop := Forall (fun c => c ∉ 0 :: 10 :: cs) s.

Definition style_ok (st : style) (v : bytes) : Prop :=
  v ≠ [] /\
  match st with
  | Dquote => text_ok [34] v
  | Squote => text_ok [39] v
  | Bare tail => text_ok [59; 35] v /\ text_ok [] tail /\
      (exists c r, v = c :: r /\ isspace c = false /\ c ≠ 34 /\ c ≠ 39) /\
      match tail with
      | [] => exists r c, v = r ++ [c] /\ isspace c = false
      | c :: _ => c = 59 \/ c = 35
      end
  end.

Definition item_ok (i : item) : Prop :=
  (length (render_item i) <= 1023)%nat /\
  match i with
  | Sect s => s ≠ [] /\ text_ok [93; 61] s
  | Entry (st, k, v) => text_ok [61; 35; 91] k /\ k ≠ [] /\ style_ok st v
  | Comment s => text_ok [] s
  end.

Lemma trim_app a c r : isspace c = false -> trim (a ++ c :: r) = a ++ c :: trim r.
Proof.
  intros Hc. assert (c ≠ 10) as H10 by (by intros ->).
  assert (trim (c :: r) = c :: trim r) as E.
  { simpl. destruct (trim r); [|done]. by rewrite decide_False, Hc. }
  induction a as [|x a IH]; [done|]. change (trim ((x :: a) ++ c :: r)) with (trim (x :: (a ++ c :: r))).
  cbn [trim]. rewrite IH. by destruct a.
Qed.

Lemma c_text_id s : Forall (fun c => c ≠ 0) s -> c_text s = s.
Proof. induction 1 as [|c s Hc Hs IH]; simpl; [done|]. by rewrite decide_False, IH. Qed.

Lemma text_ok_in cs s c : text_ok cs s -> c ∈ 0 :: 10 :: cs -> Forall (fun x => x ≠ c) s.
Proof. intros Hs Hc. eapply Forall_impl; [exact Hs|]. simpl. intros x Hx ->. done. Qed.

Lemma text_ok_not_in cs cs' s : text_ok cs s -> cs' ⊆ cs -> Forall (fun c => not_in cs' c = true) s.
Proof.
  intros Hs Hsub. eapply Forall_impl; [exact Hs|]. simpl. intros x Hx. unfold not_in, is_in.
  rewrite bool_decide_eq_false_2; [done|]. intros Hin%Hsub. apply Hx. set_solver.
Qed.

Lemma not_in_false cs c : c ∈ cs -> not_in cs c = false.
Proof. intros H. unfold not_in, is_in. by rewrite bool_decide_eq_true_2. Qed.

Lemma isspace_lit c : c ∈ [61; 34; 39; 91; 93; 59; 35] -> isspace c = false.
Proof. intros H. apply bool_decide_eq_false. rewrite !elem_of_cons in H. set_solver by lia. Qed.

(** The three formats on [key=rest]. *)
Lemma scan_entry_eq q stop k rest :
  text_ok [61; 35; 91] k -> k ≠ [] -> (forall c r, rest = c :: r -> isspace c = false) ->
  scan_entry q stop (k ++ 61 :: rest) =
    (line ← match q with Some q => scan_lit q rest | None => Some rest end;
     '(v, _) ← scan_set (not_in stop) line; Some (k, v)).
Proof.
  intros Hk Hne Hrest. unfold scan_entry. rewrite scan_set_app; [|done|..].
  - cbn [mbind option_bind skip_spaces]. rewrite isspace_lit by set_solver. cbn [scan_lit].
    rewrite decide_True by done. cbn [mbind option_bind].
    assert (skip_spaces rest = rest) as ->; [|done].
    destruct rest as [|c r]; [done|]. simpl. by rewrite (Hrest c r).
  - eapply text_ok_not_in; [exact Hk|]. set_solver.
  - intros c r [= <- _]. apply not_in_false. set_solver.
Qed.

Lemma scan_lit_eq c s : scan_lit c (c :: s) = Some s.
Proof. simpl. by rewrite decide_True. Qed.
Lemma scan_lit_ne c d s : c ≠ d -> scan_lit d (c :: s) = None.
Proof. intros H. simpl. by rewrite decide_False. Qed.

(** What is left of a value once the line is trimmed. *)
Definition rest_of (st : style) (v : bytes) : bytes :=
  match st with
  | Dquote => 34 :: v ++ [34]
  | Squote => 39 :: v ++ [39]
  | Bare tail => v ++ trim (tail ++ [10])
  end.

Lemma trim_render st k v : style_ok st v -> trim (render_entry (st, k, v)) = k ++ 61 :: rest_of st v.
Proof.
  intros [Hne Hst]. destruct st as [| |tail]; cbn [render_entry rest_of].
  - rewrite !app_comm_cons, !app_assoc. rewrite (trim_app _ 34) by done. simpl. by rewrite <- app_assoc.
  - rewrite !app_comm_cons, !app_assoc. rewrite (trim_app _ 39) by done. simpl. by rewrite <- app_assoc.
  - destruct Hst as (_ & _ & _ & Hend). destruct tail as [|c tail].
    + destruct Hend as (r & c & -> & Hc).
      replace (k ++ 61 :: (r ++ [c]) ++ [] ++ [10]) with ((k ++ 61 :: r) ++ c :: [10]) by (by rewrite <- !app_assoc).
      rewrite trim_app by done. change (trim [10]) with (@nil Z). change (trim ([] ++ [10])) with (@nil Z).
      rewrite app_nil_r. by rewrite <- app_assoc.
    + assert (isspace c = false) as Hc by (apply isspace_lit; set_solver).
      replace (k ++ 61 :: v ++ (c :: tail) ++ [10]) with ((k ++ 61 :: v) ++ c :: (tail ++ [10])) by (by rewrite <- !app_assoc).
      rewrite trim_app by done. change ((c :: tail) ++ [10]) with ([] ++ c :: (tail ++ [10])).
      rewrite (trim_app []) by done. by rewrite <- app_assoc.
Qed.

Lemma scan_key_value_entry st k v :
  text_ok [61; 35; 91] k -> k ≠ [] -> style_ok st v -> scan_key_value (k ++ 61 :: rest_of st v) = Some (k, v).
Proof.
  intros Hk Hkne [Hne Hst]. unfold scan_key_value. destruct st as [| |tail]; cbn [rest_of].
  - rewrite scan_entry_eq by (try done; by intros ? ? [= <- _]). rewrite scan_lit_eq. cbn [mbind option_bind].
    rewrite scan_set_app; [done|done| |].
    + eapply text_ok_not_in; [exact Hst|done].
    + intros c r [= <- _]. apply not_in_false. set_solver.
  - rewrite !scan_entry_eq by (try done; by intros ? ? [= <- _]). rewrite scan_lit_ne by done. cbn [mbind option_bind].
    rewrite scan_lit_eq. cbn [mbind option_bind]. rewrite scan_set_app; [done|done| |].
    + eapply text_ok_not_in; [exact Hst|done].
    + intros c r [= <- _]. apply not_in_false. set_solver.
  - destruct Hst as (Hv & Ht & (c & r & -> & Hc & H34 & H39) & Hend).
    rewrite !scan_entry_eq by (try done; by intros ? ? [= <- _]).
    cbn [app]. rewrite !scan_lit_ne by done. cbn [mbind option_bind]. rewrite app_comm_cons, scan_set_app; [done|done| |].
    + eapply text_ok_not_in; [exact Hv|done].
    + intros d r' E. apply not_in_false. destruct tail as [|e tail]; [discriminate E|].
      assert (isspace e = false) as He by (apply isspace_lit; set_solver).
      change ((e :: tail) ++ [10]) with ([] ++ e :: (tail ++ [10])) in E. rewrite trim_app in E by done.
      injection E as -> _. clear -Hend. set_solver.
Qed.

Lemma scan_key_value_none line :
  Forall (fun c => not_in [61] c = true) line -> scan_key_value line = None.
Proof.
  intros Hl. assert (forall q stop, scan_entry q stop line = None) as E.
  { intros q stop. unfold scan_entry. destruct line as [|c line]; [done|].
    rewrite <- (app_nil_r (c :: line)), scan_set_app; [done|done|done|done]. }
  unfold scan_key_value. by rewrite !E.
Qed.

(** Reduces [Forall] on an explicit list to its parts. *)
Ltac forall_split := repeat first [apply Forall_app; split | apply Forall_cons; split | apply Forall_nil_2].

Lemma render_no_nul i : item_ok i -> Forall (fun c => c ≠ 0) (render_item i).
Proof.
  intros [_ Hi]. destruct i as [s|[[st k] v]|s]; simpl in *.
  - destruct Hi as [_ Hs]. repeat constructor; [done|]. apply Forall_app. split; [|by repeat constructor].
    eapply text_ok_in; [exact Hs|set_solver].
  - destruct Hi as (Hk & _ & _ & Hst). assert (Forall (fun c => c ≠ 0) k) as Hk0 by (eapply text_ok_in; [exact Hk|set_solver]).
    destruct st as [| |tail]; forall_split; try done.
    + eapply text_ok_in; [exact Hst|set_solver].
    + eapply text_ok_in; [exact Hst|set_solver].
    + destruct Hst as [Hv _]. eapply text_ok_in; [exact Hv|set_solver].
    + destruct Hst as (_ & Ht & _). eapply text_ok_in; [exact Ht|set_solver].
  - constructor; [done|]. apply Forall_app. split; [|by repeat constructor]. eapply text_ok_in; [exact Hi|set_solver].
Qed.

(** A rendered item is one line. *)
Lemma render_line i : item_ok i -> exists l, render_item i = l ++ [10] /\ Forall (fun c => c ≠ 10) l.
Proof.
  intros [_ Hi]. destruct i as [s|[[st k] v]|s]; simpl in *.
  - destruct Hi as [_ Hs]. exists (91 :: s ++ [93]). split; [by rewrite <- app_comm_cons, <- app_assoc|].
    constructor; [done|]. apply Forall_app. split; [|by repeat constructor]. eapply text_ok_in; [exact Hs|set_solver].
  - destruct Hi as (Hk & _ & _ & Hst). assert (Forall (fun c => c ≠ 10) k) as Hk0 by (eapply text_ok_in; [exact Hk|set_solver]).
    destruct st as [| |tail].
    + exists (k ++ 61 :: 34 :: v ++ [34]). split; [by rewrite <- app_assoc; simpl; rewrite <- app_assoc|].
      forall_split; try done. eapply text_ok_in; [exact Hst|set_solver].
    + exists (k ++ 61 :: 39 :: v ++ [39]). split; [by rewrite <- app_assoc; simpl; rewrite <- app_assoc|].
      forall_split; try done. eapply text_ok_in; [exact Hst|set_solver].
    + exists (k ++ 61 :: v ++ tail). split; [by rewrite <- app_assoc; simpl; rewrite <- app_assoc|].
      destruct Hst as (Hv & Ht & _).
      forall_split; try done; (eapply text_ok_in; [eassumption|set_solver]).
  - exists (35 :: s). split; [done|]. constructor; [done|]. eapply text_ok_in; [exact Hi|set_solver].
Qed.

Definition sec_after (sec : bytes) (i : item) : bytes := match i with Sect s => s | _ => sec end.

Lemma nodes_cons sec i its : nodes sec (i :: its) = nodes sec [i] ++ nodes (sec_after sec i) its.
Proof. destruct i as [s|[[st k] v]|s]; simpl; try done. by destruct sec. Qed.

Lemma head_ne (c : Z) (k rest : bytes) : k ≠ [] -> Forall (fun x => x ≠ c) k -> head (k ++ rest) ≠ Some c.
Proof. destruct k as [|x k]; [done|]. intros _ [Hx _]%Forall_cons. simpl. congruence. Qed.

Section Load.
Context (ao : nat -> bool) (Hao : forall k, ao k = true).

Lemma conf_line_item n sec cf i :
  item_ok i -> exists n', conf_line ao n sec cf (render_item i) = (Some (sec_after sec i), cf ++ nodes sec [i], n').
Proof.
  intros Hi. unfold conf_line. rewrite c_text_id by (by apply render_no_nul).
  destruct Hi as [Hlen Hi]. rewrite decide_False.
  2:{ unfold ASCIILINESZ. destruct i as [s|[[st k] v]|s]; simpl in Hlen |- *.
      - rewrite length_app in *. simpl in *. lia.
      - destruct Hi as (_ & Hk & _). destruct k; [done|]. destruct st; simpl in *; rewrite !length_app in *; simpl in *; lia.
      - rewrite length_app in *. simpl in *. destruct Hi. all: lia. }
  destruct i as [s|[[st k] v]|s].
  - destruct Hi as [Hne Hs]. rewrite decide_False by done. cbn [render_item].
    change (91 :: s ++ [93; 10]) with ((91 :: s) ++ 93 :: [10]). rewrite trim_app by done.
    change (trim [10]) with (@nil Z). rewrite decide_True.
    2:{ split; [done|]. by rewrite last_snoc. }
    unfold scan_section. cbn [app]. rewrite scan_lit_eq. cbn [mbind option_bind].
    rewrite scan_set_app; [|done|eapply text_ok_not_in; [exact Hs|set_solver]|intros c r [= <- _]; apply not_in_false; set_solver].
    cbn [mbind option_bind]. rewrite scan_key_value_none.
    + exists n. rewrite app_nil_r. by destruct s.
    + constructor; [done|]. apply Forall_app. split; [eapply text_ok_not_in; [exact Hs|set_solver]|by constructor].
  - destruct Hi as (Hk & Hkne & Hst). rewrite decide_False.
    2:{ assert (Forall (fun x => x ≠ 35) k) as H35 by (eapply text_ok_in; [exact Hk|set_solver]).
        by destruct st; apply head_ne. }
    cbn [render_item]. rewrite trim_render by done. rewrite decide_False.
    2:{ intros [Hh _]. revert Hh. apply head_ne; [done|]. eapply text_ok_in; [exact Hk|set_solver]. }
    rewrite scan_key_value_entry by done. cbn [sec_after nodes].
    destruct sec as [|c sec]; [exists n; by rewrite app_nil_r|].
    unfold adx_conf_file_add. rewrite !Hao. cbn [negb]. rewrite decide_False by lia. eauto.
  - rewrite decide_True by done. exists n. by rewrite app_nil_r.
Qed.

Lemma fgets_item i rest : item_ok i -> fgets 1024 (render_item i ++ rest) = (render_item i, rest).
Proof.
  intros Hi. destruct (render_line i Hi) as (l & E & Hl). destruct Hi as [Hlen _]. rewrite E in Hlen |- *.
  rewrite <- app_assoc. apply fgets_line; [done|]. rewrite length_app in Hlen. simpl in Hlen. lia.
Qed.

Lemma conf_lines_ok fuel n sec cf its :
  Forall item_ok its -> (length (render its) < fuel)%nat ->
  conf_lines ao fuel n sec cf (render its) = Ok (0, cf ++ nodes sec its).
Proof.
  intros Hits. revert fuel n sec cf. induction Hits as [|i its Hi Hits IH]; intros fuel n sec cf Hf;
    (destruct fuel as [|fuel]; [simpl in Hf; lia|]); cbn [conf_lines].
  - simpl. by rewrite app_nil_r.
  - change (render (i :: its)) with (render_item i ++ render its) in *. rewrite fgets_item by done.
    destruct (conf_line_item n sec cf i Hi) as (n' & E). destruct (render_line i Hi) as (l & El & _).
    destruct (render_item i) as [|c r] eqn:Er; [by destruct l|]. rewrite E. simpl in Hf. rewrite length_app in Hf.
    rewrite IH by lia. by rewrite (nodes_cons sec i its), app_assoc.
Qed.
End Load.

(** The reading loop always ends, whatever the file holds. *)
Lemma fgets_progress n s l rest : fgets n s = (l, rest) -> (length s = length l + length rest)%nat.
Proof.
  revert s l rest. induction n as [|n IH]; intros s l rest; [by intros [= <- <-]|].
  destruct n as [|n]; [by intros [= <- <-]|]. destruct s as [|c s]; [by intros [= <- <-]|].
  change (fgets (S (S n)) (c :: s)) with
    (if decide (c = 10) then ([c], s) else let '(a, r) := fgets (S n) s in (c :: a, r)).
  case_decide; [by intros [= <- <-]|]. destruct (fgets (S n) s) as [a r] eqn:E. intros [= <- <-].
  simpl. by rewrite (IH s a r E).
Qed.

Lemma conf_lines_total ao fuel n sec cf file :
  (length file < fuel)%nat -> exists r, conf_lines ao fuel n sec cf file = Ok r.
Proof.
  revert n sec cf file. induction fuel as [|fuel IH]; intros n sec cf file Hf; [lia|]. cbn [conf_lines].
  destruct (fgets 1024 file) as [l rest] eqn:E. apply fgets_progress in E. destruct l as [|c l]; [eauto|].
  destruct (conf_line ao n sec cf (c :: l)) as [[[sec'|] cf'] n']; [|eauto]. apply IH. simpl in E. lia.
Qed.

(** C36: loading a configuration.  Whatever bytes the file holds, the load
    ends.  A file written as section lines [[name]], comment lines and entries
    [key="value"], [key='value'] or [key=value] with an optional comment after
    a bare value (lines of at most 1023 bytes) is loaded, when no allocation
    is refused, as exactly its entries in order under their sections; a lookup
    gives the first entry of that section and key, and a number written in
    decimal is read back.  A refused head makes the load fail. *)
Theorem adx_conf_file_load_render :
  (forall ao file, exists r, adx_conf_file_load ao file = Ok r) /\
  (forall ao file, ao 0%nat = false -> adx_conf_file_load ao file = Ok None) /\
  (forall ao, adx_conf_file_load ao None = Ok None) /\
  (forall ao its, (forall k, ao k = true) -> Forall item_ok its ->
    adx_conf_file_load ao (Some (render its)) = Ok (Some (nodes [] its))) /\
  (forall cf s k, get_adx_conf_file_string cf s k =
    value <$> head (filter (fun node => section node = s /\ key node = k) cf)) /\
  (forall cf s k z, -2147483648 <= z <= 2147483647 ->
    get_adx_conf_file_string cf s k = Some (dec z) -> get_adx_conf_file_number cf s k = z) /\
  (forall cf s k, get_adx_conf_file_string cf s k = None -> get_adx_conf_file_number cf s k = 0).
Proof.
  split; [|split; [|split; [|split; [|split; [|split]]]]].
  - intros ao file. unfold adx_conf_file_load. destruct (ao 0%nat); simpl; [|eauto].
    destruct file as [file|]; simpl; [|eauto].
    destruct (conf_lines_total ao (S (length file)) 1 [] [] file) as ([rc cf] & E); [lia|].
    change (conf_lines ao (S (length file)) 1 [] [] file) with (adx_conf_file_parse ao 1 [] (Some file)) in E.
    unfold adx_conf_file_parse in E. simpl in E. rewrite E. simpl. case_decide; eauto.
  - intros ao file H. unfold adx_conf_file_load. by rewrite H.
  - intros ao. unfold adx_conf_file_load. by destruct (ao 0%nat).
  - intros ao its Hao Hits. unfold adx_conf_file_load. rewrite Hao. cbn [negb adx_conf_file_parse].
    rewrite conf_lines_ok by (done || lia). done.
  - intros cf s k. induction cf as [|[s' k' v] cf IH]; [done|]. rewrite filter_cons. simpl. rewrite IH.
    destruct (decide (s' = s /\ k' = k)) as [[-> ->]|Hn].
    + by rewrite decide_True by (split; apply strcmp_refl).
    + rewrite decide_False; [done|]. intros [E1 E2]. apply Hn. split; by apply strcmp_eq.
  - intros cf s k z Hz E. unfold get_adx_conf_file_number. rewrite E. rewrite <- (app_nil_r (dec z)). by apply atoi_dec.
  - intros cf s k E. unfold get_adx_conf_file_number. by rewrite E.
Qed.

Definition demo_items : list item :=
  [Sect (B "mysql"); Entry (Dquote, B "host", B "10.0.0.1"); Comment (B "; port");
   Entry (Bare (B "# default"), B "port", B "3306"); Sect (B "redis"); Entry (Squote, B "auth", B "p;w")].

Lemma adx_conf_file_load_render_witness :
  adx_conf_file_load (fun _ => true) (Some (render demo_items)) = Ok (Some (nodes [] demo_items)) /\
  get_adx_conf_file_number (nodes [] demo_items) (B "mysql") (B "port") = 3306.
Proof.
  destruct adx_conf_file_load_render as (_ & _ & _ & H & _ & Hn & _). split.
  - apply H; [done|].
    unfold demo_items. repeat (apply Forall_cons; split); [..|apply Forall_nil_2]; (split; [simpl; lia|]); unfold style_ok, text_ok.
    3: by (apply (bool_decide_unpack _); vm_compute; exact I).
    1, 4: split; [done|]; apply (bool_decide_unpack _); vm_compute; exact I.
    all: split; [apply (bool_decide_unpack _); vm_compute; exact I|]; split; [done|]; split; [done|].
    1, 3: apply (bool_decide_unpack _); vm_compute; exact I.
    split; [apply (bool_decide_unpack _); vm_compute; exact I|].
    split; [apply (bool_decide_unpack _); vm_compute; exact I|].
    split; [by exists 51, (B "306")|by right].
  - apply (Hn _ _ _ 3306); [lia|]. vm_compute. reflexivity.
Defined.
