(* ===== verification/AdxTime.v ===== *)
(** Broken-down time: adx_dsp/src/adx_time.h and adx_time.c.

    [localtime_r] and [mktime] are the ones of the C library for a time zone
    without daylight saving ([off] seconds east of Greenwich, 28800 where the
    program is deployed), on the proleptic Gregorian calendar.  [now] is the
    answer of [time(NULL)]. *)

From Stdlib Require Import ZArith Lia.
From S2P Require Import Prelude.

Open Scope Z_scope.

(** [struct tm]; [tm_mon] from 0, [tm_year] from 1900, [tm_wday] from Sunday. *)
Record tm := Tm { tm_sec : Z; tm_min : Z; tm_hour : Z; tm_mday : Z; tm_mon : Z; tm_year : Z; tm_wday : Z }.

(** ** The C library's calendar *)

(** Day number (from 1970-01-01) of a civil date; the year starts in March. *)
Definition days_from_civil (y m d : Z) : Z :=
  let y := if decide (m <= 2) then y - 1 else y in
  let era := y / 400 in
  let yoe := y mod 400 in
  let doy := (153 * (m + (if decide (m > 2) then -3 else 9)) + 2) / 5 + d - 1 in
  era * 146097 + (yoe * 365 + yoe / 4 - yoe / 100 + doy) - 719468.

(** Year within the 400-year cycle, month and day of the day [doe] of the cycle. *)
Definition civil_of_era (doe : Z) : Z * Z * Z :=
  let yoe := (doe - doe / 1460 + doe / 36524 - doe / 146096) / 365 in
  let doy := doe - (365 * yoe + yoe / 4 - yoe / 100) in
  let mp := (5 * doy + 2) / 153 in
  let d := doy - (153 * mp + 2) / 5 + 1 in
  let m := if decide (mp < 10) then mp + 3 else mp - 9 in
  (yoe + (if decide (m <= 2) then 1 else 0), m, d).

Definition civil_from_days (z : Z) : Z * Z * Z :=
  let z := z + 719468 in
  let '(y, m, d) := civil_of_era (z mod 146097) in
  (y + z / 146097 * 400, m, d).

(** Normal dates only: the source never passes a field out of range. *)
Definition mktime (off : Z) (t : tm) : Z :=
  days_from_civil (tm_year t + 1900) (tm_mon t + 1) (tm_mday t) * 86400
  + tm_hour t * 3600 + tm_min t * 60 + tm_sec t - off.

Definition localtime_r (off t : Z) : tm :=
  let l := t + off in
  let '(y, m, d) := civil_from_days (l / 86400) in
  let s := l mod 86400 in
  Tm (s mod 60) (s / 60 mod 60) (s / 3600) d (m - 1) (y - 1900) ((l / 86400 + 4) mod 7).

Section Time.
Context (off now : Z).

(** The text [time_display] prints. *)
Definition time_display (t : Z) : bytes :=
  let tm := localtime_r off t in
  [91] ++ dec0 4 (tm_year tm + 1900) ++ [45] ++ dec0 2 (tm_mon tm + 1) ++ [45] ++ dec0 2 (tm_mday tm)
  ++ [93; 91] ++ dec0 2 (tm_hour tm) ++ [58] ++ dec0 2 (tm_min tm) ++ [58] ++ dec0 2 (tm_sec tm) ++ [93; 10].

(** [sprintf(&buf[size], ...)], terminator included; the new [size]. *)
Definition put (buf : bytes) (size : Z) (s : bytes) : cres (bytes * Z) :=
  buf ← bwrite buf size (s ++ [0]);
  mret (buf, size + Z.of_nat (length s)).

(** One of the six tests of [get_time_str]; the year has no separator. *)
Definition put_field (bit : Z) (first : bool) (type : Z) (split : option bytes) (w : nat) (v : Z)
    (st : bytes * Z) : cres (bytes * Z) :=
  let '(buf, size) := st in
  if decide (Z.land type bit = 0) then mret (buf, size) else
  '(buf, size) ← (match split with
                  | Some sp => if first || bool_decide (size = 0) then mret (buf, size) else put buf size sp
                  | None => mret (buf, size)
                  end);
  put buf size (dec0 w v).

Definition get_time_str (type : Z) (split : option bytes) (buf : bytes) : cres bytes :=
  let tm := localtime_r off now in
  st ← put_field 1 true type split 4 (tm_year tm + 1900) (buf, 0);
  st ← put_field 2 false type split 2 (tm_mon tm + 1) st;
  st ← put_field 4 false type split 2 (tm_mday tm) st;
  st ← put_field 8 false type split 2 (tm_hour tm) st;
  st ← put_field 16 false type split 2 (tm_min tm) st;
  '(buf, _) ← put_field 32 false type split 2 (tm_sec tm) st;
  mret buf.

(** A pool block is zeroed. *)
Definition get_time_str_r (allocated : bool) (type : Z) (split : option bytes) : cres (option bytes) :=
  if negb allocated then mret None
  else buf ← get_time_str type split (replicate 128 0); mret (Some buf).

Definition get_time_hour : Z := tm_hour (localtime_r off now).

Definition get_time_hour_split (min : Z) : cres Z :=
  if decide (min = 0) then UB else mret (Z.quot (tm_min (localtime_r off now)) min).

Definition get_time_sec_today_end : Z :=
  let tm := localtime_r off now in
  (23 - tm_hour tm) * 3600 + (60 - tm_min tm) * 60.

Definition get_time_sec_hour_end : Z :=
  let tm := localtime_r off now in
  (60 - tm_min tm) * 60 - tm_sec tm.

Definition get_time_sec_30min_end : Z :=
  let tm := localtime_r off now in
  if decide (tm_min tm >= 30) then (60 - tm_min tm) * 60 - tm_sec tm
  else (30 - tm_min tm) * 60 - tm_sec tm.

Definition get_time_sec_10min_end : Z :=
  let tm := localtime_r off now in
  let min := Z.rem (tm_min tm) 10 in
  600 - (min * 60 + tm_sec tm).

Definition TIME_DAY_SEC : Z := 86400.

Definition get_time_month_end : Z :=
  let tm := localtime_r off now in
  if decide (tm_mon tm = 11) then
    mktime off (Tm 59 59 23 31 (tm_mon tm) (tm_year tm) (tm_wday tm))
  else
    mktime off (Tm 59 59 23 1 (tm_mon tm + 1) (tm_year tm) (tm_wday tm)) - TIME_DAY_SEC.

Definition end_of_day (tm : tm) : Z :=
  mktime off (Tm 59 59 23 (tm_mday tm) (tm_mon tm) (tm_year tm) (tm_wday tm)).

Definition get_time_week_end : Z :=
  let tm := localtime_r off now in
  if decide (tm_wday tm = 0) then end_of_day tm
  else
    let t := now + (7 - tm_wday tm) * TIME_DAY_SEC in
    end_of_day (localtime_r off t).

Definition get_time_day_end : Z := end_of_day (localtime_r off now).

Definition get_time_hour_end : Z :=
  let tm := localtime_r off now in
  mktime off (Tm 59 59 (tm_hour tm) (tm_mday tm) (tm_mon tm) (tm_year tm) (tm_wday tm)).
End Time.

(** ** The calendar *)

(** The number of the first day of the month after month [m] of year [y]. *)
Definition next_month (y m : Z) : Z :=
  if decide (m = 12) then days_from_civil (y + 1) 1 1 else days_from_civil y (m + 1) 1.

Fixpoint all_below (p : Z -> bool) (n : nat) (from : Z) : bool :=
  match n with O => true | S n => p from && all_below p n (from + 1) end.

Lemma all_below_spec p n from z : all_below p n from = true -> from <= z < from + Z.of_nat n -> p z = true.
Proof.
  revert from. induction n as [|n IH]; intros from H Hz; [lia|].
  cbn [all_below] in H. apply andb_true_iff in H as [H1 H2].
  destruct (decide (z = from)) as [->|]; [done|]. apply (IH (from + 1)); [done|lia].
Qed.

(** Years of the cycle: the first day of year [k], the end of the year, and
    the formula for the year of a day. *)
Definition year_start (k : Z) : Z := 365 * k + k / 4 - k / 100.
Definition year_stop (k : Z) : Z := if decide (k = 399) then 146097 else year_start (k + 1).
Definition year_of (doe : Z) : Z := (doe - doe / 1460 + doe / 36524 - doe / 146096) / 365.

Definition year_ok (k : Z) : bool :=
  (year_of (year_start k) =? k) && (year_of (year_stop k - 1) =? k) && (year_stop k - year_start k <=? 366).

Lemma years_ok : all_below year_ok 400 0 = true.
Proof. vm_compute. reflexivity. Qed.

Lemma year_of_mono a b : 0 <= a <= b -> b <= 146096 -> year_of a <= year_of b.
Proof. intros Ha Hb. unfold year_of. apply Z.div_le_mono; [lia|]. zdiv. Qed.

Lemma year_start_bound k : 0 <= k <= 399 -> 0 <= year_start k <= 146096.
Proof. intros Hk. unfold year_start. clear -Hk. zdiv. Qed.

Lemma year_find n doe : 0 <= doe < year_start (Z.of_nat n) -> (n < 400)%nat ->
  exists k, 0 <= k < Z.of_nat n /\ year_start k <= doe < year_stop k.
Proof.
  induction n as [|n IH]; intros Hd Hn; [change (year_start (Z.of_nat 0)) with 0 in Hd; lia|].
  destruct (decide (doe < year_start (Z.of_nat n))) as [H|H].
  - destruct IH as (k & Hk & Hd'); [lia|lia|]. exists k. split; [lia|done].
  - exists (Z.of_nat n). split; [lia|]. unfold year_stop. rewrite decide_False by lia.
    replace (Z.of_nat n + 1) with (Z.of_nat (S n)) by lia. lia.
Qed.

Lemma year_of_spec doe : 0 <= doe < 146097 ->
  0 <= year_of doe < 400 /\ year_start (year_of doe) <= doe < year_stop (year_of doe) /\
  doe < year_start (year_of doe) + 366.
Proof.
  intros Hd. assert (exists k, 0 <= k < 400 /\ year_start k <= doe < year_stop k) as (k & Hk & Hs).
  { destruct (decide (doe < year_start 399)) as [H|H].
    - destruct (year_find 399 doe) as (k & Hk & Hs); [change (Z.of_nat 399) with 399; lia|lia|]. exists k. split; [lia|done].
    - exists 399. split; [lia|]. split; [lia|]. unfold year_stop. rewrite decide_True by done. lia. }
  assert (year_ok k = true) as Hok by (eapply all_below_spec; [exact years_ok|lia]).
  unfold year_ok in Hok. rewrite !andb_true_iff, !Z.eqb_eq, Z.leb_le in Hok. destruct Hok as [[H1 H2] H3].
  assert (year_of doe = k) as ->; [|lia].
  pose proof (year_start_bound k).
  pose proof (year_of_mono (year_start k) doe). pose proof (year_of_mono doe (year_stop k - 1)).
  assert (year_stop k <= 146097).
  { unfold year_stop. case_decide; [lia|]. pose proof (year_start_bound (k + 1)). lia. }
  lia.
Qed.

(** Days of a year that starts in March. *)
Definition month_start (m : Z) : Z := (153 * (m + (if decide (m > 2) then -3 else 9)) + 2) / 5.
Definition month_day (doy : Z) : Z * Z :=
  let mp := (5 * doy + 2) / 153 in
  (if decide (mp < 10) then mp + 3 else mp - 9, doy - (153 * mp + 2) / 5 + 1).

Definition doy_ok (doy : Z) : bool :=
  let '(m, d) := month_day doy in
  bool_decide (1 <= m <= 12 /\ 1 <= d <= 31 /\ month_start m + d - 1 = doy /\
    (m = 2 \/ doy < month_start (if decide (m = 12) then 1 else m + 1))).

Lemma doys_ok : all_below doy_ok 366 0 = true.
Proof. vm_compute. reflexivity. Qed.

Definition era_ok (doe : Z) : Prop :=
  let '(y, m, d) := civil_of_era doe in
  1 <= m <= 12 /\ 1 <= d <= 31 /\ days_from_civil y m d = doe - 719468 /\ doe - 719468 < next_month y m.

(** The day number of a date whose March year [k] lies in the first cycle. *)
Lemma days_from_civil_march k m d :
  0 <= k < 400 ->
  days_from_civil (k + (if decide (m <= 2) then 1 else 0)) m d = year_start k + month_start m + d - 1 - 719468.
Proof.
  intros Hk. unfold days_from_civil, year_start, month_start. case_decide; rewrite ?Z.add_simpl_r, ?Z.add_0_r;
    rewrite (Z.div_small k 400), (Z.mod_small k 400) by done; lia.
Qed.

Lemma era_days doe : 0 <= doe < 146097 -> era_ok doe.
Proof.
  intros Hd. destruct (year_of_spec doe Hd) as (Hk & Hs & Hlen). unfold era_ok, civil_of_era.
  fold (year_of doe). fold (year_start (year_of doe)). set (k := year_of doe) in *.
  replace (365 * k + k / 4 - k / 100) with (year_start k) by done.
  set (doy := doe - year_start k).
  assert (doy_ok doy = true) as Hdoy by (eapply all_below_spec; [exact doys_ok|lia]).
  unfold doy_ok, month_day in Hdoy. cbn zeta in Hdoy |- *.
  set (m := if decide ((5 * doy + 2) / 153 < 10) then (5 * doy + 2) / 153 + 3 else (5 * doy + 2) / 153 - 9) in *.
  set (d := doy - (153 * ((5 * doy + 2) / 153) + 2) / 5 + 1) in *. clearbody m d.
  apply bool_decide_eq_true in Hdoy. destruct Hdoy as (Hm & Hd' & Hday & Hnext).
  split; [done|]. split; [done|]. split; [rewrite days_from_civil_march by done; lia|].
  unfold next_month. destruct (decide (m = 12)) as [->|H12].
  - rewrite (decide_False (P := 12 <= 2)) by lia.
    pose proof (days_from_civil_march k 1 1 Hk) as E. rewrite decide_True in E by lia.
    replace (k + 0 + 1) with (k + 1) by lia. rewrite E. lia.
  - destruct (decide (m = 2)) as [->|H2].
    + rewrite (decide_True (P := 2 <= 2)) by lia. change (2 + 1) with 3. unfold year_stop in Hs.
      destruct (decide (k = 399)) as [->|H399]; [change (days_from_civil (399 + 1) 3 1) with (146097 - 719468); lia|].
      pose proof (days_from_civil_march (k + 1) 3 1) as E. rewrite decide_False, Z.add_0_r in E by lia.
      rewrite E by lia. change (month_start 3) with 0. lia.
    + destruct Hnext as [?|Hnext]; [done|].
      pose proof (days_from_civil_march k (m + 1) 1 Hk) as E.
      assert ((if decide (m <= 2) then 1 else 0) = (if decide (m + 1 <= 2) then 1 else 0)) as -> by (repeat case_decide; lia).
      rewrite E. lia.
Qed.

Lemma days_from_civil_era y m d k : days_from_civil (y + k * 400) m d = days_from_civil y m d + k * 146097.
Proof.
  unfold days_from_civil. repeat case_decide; try lia;
    rewrite <- ?(Z.add_sub_swap y 1), ?Z.mod_add, ?Z.div_add by lia; try lia.
  - replace (y + k * 400 - 1) with (y - 1 + k * 400) by lia. rewrite Z.mod_add, Z.div_add by lia. lia.
Qed.

Lemma civil_days z y m d : civil_from_days z = (y, m, d) ->
  1 <= m <= 12 /\ 1 <= d <= 31 /\ days_from_civil y m d = z /\ z < next_month y m.
Proof.
  unfold civil_from_days. set (e := (z + 719468) / 146097). set (doe := (z + 719468) mod 146097).
  assert (z + 719468 = 146097 * e + doe /\ 0 <= doe < 146097) as [Hz Hdoe] by (subst e doe; clear; zdiv).
  pose proof (era_days doe Hdoe) as H. unfold era_ok in H. destruct (civil_of_era doe) as [[y0 m0] d0].
  destruct H as (Hm & Hd & Hday & Hnext). intros [= <- <- <-].
  split; [done|]. split; [done|]. split; [rewrite days_from_civil_era; lia|].
  unfold next_month in *. case_decide.
  - replace (y0 + e * 400 + 1) with (y0 + 1 + e * 400) by lia. rewrite days_from_civil_era. lia.
  - rewrite days_from_civil_era. lia.
Qed.

Lemma december y : days_from_civil y 12 31 + 1 = days_from_civil (y + 1) 1 1.
Proof.
  unfold days_from_civil. rewrite (decide_False (P := 12 <= 2)), (decide_True (P := 12 > 2)),
    (decide_True (P := 1 <= 2)), (decide_False (P := 1 > 2)) by lia.
  rewrite Z.add_simpl_r. change ((153 * (12 + -3) + 2) / 5) with 275. change ((153 * (1 + 9) + 2) / 5) with 306. lia.
Qed.

(** ** What the functions compute *)

Ltac tm_fields := cbn [tm_sec tm_min tm_hour tm_mday tm_mon tm_year tm_wday].

(** The fields of a local time. *)
Lemma localtime_fields off t tm :
  localtime_r off t = tm ->
  0 <= tm_sec tm <= 59 /\ 0 <= tm_min tm <= 59 /\ 0 <= tm_hour tm <= 23 /\ 0 <= tm_mon tm <= 11 /\
  1 <= tm_mday tm <= 31 /\ mktime off tm = t /\
  (t + off) mod 86400 = tm_hour tm * 3600 + tm_min tm * 60 + tm_sec tm /\
  days_from_civil (tm_year tm + 1900) (tm_mon tm + 1) (tm_mday tm) = (t + off) / 86400 /\
  (t + off) / 86400 < next_month (tm_year tm + 1900) (tm_mon tm + 1) /\
  tm_wday tm = ((t + off) / 86400 + 4) mod 7.
Proof.
  unfold localtime_r, mktime. destruct (civil_from_days ((t + off) / 86400)) as [[y m] d] eqn:E.
  intros <-. cbn [tm_sec tm_min tm_hour tm_mday tm_mon tm_year tm_wday].
  apply civil_days in E as (Hm & Hd & Hday & Hnext).
  replace (y - 1900 + 1900) with y by lia. replace (m - 1 + 1) with m by lia. rewrite Hday.
  assert (0 <= (t + off) mod 86400 < 86400 /\ t + off = 86400 * ((t + off) / 86400) + (t + off) mod 86400) as [Hs Ht]
    by (clear; zdiv).
  remember ((t + off) mod 86400) as s. remember ((t + off) / 86400) as D.
  assert (s = s / 3600 * 3600 + s / 60 mod 60 * 60 + s mod 60 /\ 0 <= s mod 60 <= 59 /\
          0 <= s / 60 mod 60 <= 59 /\ 0 <= s / 3600 <= 23) as (H1 & H2 & H3 & H4) by (clear -Hs; zdiv).
  split_and!; try lia.
Qed.

(** A number of whole periods later. *)
Lemma boundary q p x : 0 < p -> x = q * p -> x mod p = 0.
Proof. intros Hp ->. apply Z.mod_mul. lia. Qed.

Section Deadlines.
Context (off now : Z).

(** The day, and the fields of the local time within it. *)
Lemma now_fields : exists D, let tm := localtime_r off now in
  now = D * 86400 + tm_hour tm * 3600 + tm_min tm * 60 + tm_sec tm - off /\
  0 <= tm_sec tm <= 59 /\ 0 <= tm_min tm <= 59 /\ 0 <= tm_hour tm <= 23 /\ 0 <= tm_mon tm <= 11 /\
  days_from_civil (tm_year tm + 1900) (tm_mon tm + 1) (tm_mday tm) = D /\
  D < next_month (tm_year tm + 1900) (tm_mon tm + 1) /\ tm_wday tm = (D + 4) mod 7.
Proof.
  exists ((now + off) / 86400). cbn zeta.
  destruct (localtime_fields off now _ eq_refl) as (Hs & Hm & Hh & Hmon & _ & _ & Hmod & Hday & Hnext & Hw).
  assert (now + off = 86400 * ((now + off) / 86400) + (now + off) mod 86400) as Hnow by (clear; zdiv).
  rewrite Hmod in Hnow. split; [lia|]. repeat (split; [assumption|]). assumption.
Qed.

(** The fields as variables. *)
Ltac fields D :=
  destruct now_fields as (D & Hnow & Hs & Hm & Hh & Hmon & Hday & Hnext & Hw);
  generalize dependent (localtime_r off now); intros tm ? ? ? ? ? ? ? ?.

Lemma hour_end_spec : let e := get_time_hour_end off now in now <= e < now + 3600 /\ (e + 1 + off) mod 3600 = 0.
Proof.
  unfold get_time_hour_end, mktime. fields D. cbn zeta. tm_fields. split; [lia|].
  apply (boundary (D * 24 + tm_hour tm + 1)); lia.
Qed.

Lemma end_of_day_spec : let e := end_of_day off (localtime_r off now) in
  now <= e < now + 86400 /\ (e + 1 + off) mod 86400 = 0 /\
  tm_wday (localtime_r off e) = tm_wday (localtime_r off now).
Proof.
  unfold end_of_day, mktime. fields D. cbn zeta. tm_fields.
  match goal with |- now <= ?x < _ /\ _ => set (e := x) end.
  assert (e = D * 86400 + 86399 - off) as He by (subst e; lia). clearbody e.
  split; [lia|]. split; [apply (boundary (D + 1)); lia|].
  destruct (localtime_fields off e _ eq_refl) as (_ & _ & _ & _ & _ & _ & _ & _ & _ & ->).
  replace ((e + off) / 86400) with D; [done|]. apply Z.div_unique with 86399; lia.
Qed.

Lemma month_end_spec : let e := get_time_month_end off now in
  now <= e /\ e + 1 = next_month (tm_year (localtime_r off now) + 1900) (tm_mon (localtime_r off now) + 1) * 86400 - off.
Proof.
  unfold get_time_month_end, mktime, next_month. fields D. unfold next_month in *. cbn zeta. tm_fields.
  destruct (decide (tm_mon tm = 11)) as [E|E].
  - rewrite E in *. change (11 + 1) with 12 in *. rewrite decide_True in * by done.
    pose proof (december (tm_year tm + 1900)). lia.
  - rewrite decide_False in * by lia. unfold TIME_DAY_SEC. lia.
Qed.

Lemma sec_hour_end_spec : let s := get_time_sec_hour_end off now in 0 < s <= 3600 /\ (now + s + off) mod 3600 = 0.
Proof.
  unfold get_time_sec_hour_end. fields D. cbn zeta. split; [lia|]. apply (boundary (D * 24 + tm_hour tm + 1)); lia.
Qed.

Lemma sec_30min_end_spec : let s := get_time_sec_30min_end off now in 0 < s <= 1800 /\ (now + s + off) mod 1800 = 0.
Proof.
  unfold get_time_sec_30min_end. fields D. cbn zeta. case_decide; (split; [lia|]).
  - apply (boundary (D * 48 + tm_hour tm * 2 + 2)); lia.
  - apply (boundary (D * 48 + tm_hour tm * 2 + 1)); lia.
Qed.

Lemma sec_10min_end_spec : let s := get_time_sec_10min_end off now in 0 < s <= 600 /\ (now + s + off) mod 600 = 0.
Proof.
  unfold get_time_sec_10min_end. fields D. cbn zeta. rewrite Z.rem_mod_nonneg by lia.
  assert (tm_min tm = 10 * (tm_min tm / 10) + tm_min tm mod 10 /\ 0 <= tm_min tm mod 10 <= 9) as [Hq Hr] by (clear; zdiv).
  split; [lia|]. apply (boundary (D * 144 + tm_hour tm * 6 + tm_min tm / 10 + 1)); lia.
Qed.

Lemma sec_today_end_spec : let s := get_time_sec_today_end off now - tm_sec (localtime_r off now) in
  0 < s <= 86400 /\ (now + s + off) mod 86400 = 0.
Proof.
  unfold get_time_sec_today_end. fields D. cbn zeta. split; [lia|]. apply (boundary (D + 1)); lia.
Qed.
End Deadlines.

Lemma week_end_spec off now : let e := get_time_week_end off now in
  now <= e < now + 7 * 86400 /\ (e + 1 + off) mod 86400 = 0 /\ tm_wday (localtime_r off e) = 0.
Proof.
  unfold get_time_week_end. cbn zeta. destruct (now_fields off now) as (D & Hnow & Hs & Hm & Hh & _ & _ & _ & Hw).
  case_decide as E0.
  - destruct (end_of_day_spec off now) as (H1 & H2 & H3). split; [lia|]. split; [exact H2|]. by rewrite H3.
  - set (t := now + (7 - tm_wday (localtime_r off now)) * TIME_DAY_SEC) in *.
    destruct (localtime_fields off t _ eq_refl) as (_ & _ & _ & _ & _ & _ & _ & Hday & _ & Hwt).
    assert ((t + off) / 86400 = D + 7 - tm_wday (localtime_r off now)) as HD.
    { clear Hday Hwt. symmetry. unfold t, TIME_DAY_SEC. clear t. generalize dependent (localtime_r off now). intros tm Hnow Hs Hm Hh Hw E0.
      apply Z.div_unique with (tm_hour tm * 3600 + tm_min tm * 60 + tm_sec tm); lia. }
    destruct (end_of_day_spec off t) as (_ & H2 & H3).
    split; [|split; [exact H2|]].
    + unfold end_of_day, mktime. tm_fields. rewrite Hday, HD. clear t Hday HD Hwt H2 H3. clear -Hw Hnow Hs Hm Hh E0.
      generalize dependent (localtime_r off now). intros tm Hnow Hs Hm Hh Hw E0. zdiv.
    + rewrite H3, Hwt, HD, Hw. clear. zdiv.
Qed.

(** the deadlines of the scheduler.  At every instant the ends of the
    hour, of the day and of the week (Sunday) are the last second of the
    period the instant is in; the end of the month is the second before the
    first midnight of the next month; the seconds left to the end of the hour,
    of the half hour and of the ten minutes lead exactly to the next multiple.
    [get_time_sec_today_end] does not look at the seconds: what it returns is
    the time to midnight plus the seconds of the current minute. *)
Theorem adx_time_deadlines off now :
  let tm := localtime_r off now in
  (let e := get_time_hour_end off now in now <= e < now + 3600 /\ (e + 1 + off) mod 3600 = 0) /\
  (let e := get_time_day_end off now in now <= e < now + 86400 /\ (e + 1 + off) mod 86400 = 0) /\
  (let e := get_time_week_end off now in now <= e < now + 7 * 86400 /\ (e + 1 + off) mod 86400 = 0 /\
     tm_wday (localtime_r off e) = 0) /\
  (let e := get_time_month_end off now in now <= e /\
     e + 1 = next_month (tm_year tm + 1900) (tm_mon tm + 1) * 86400 - off) /\
  (let s := get_time_sec_hour_end off now in 0 < s <= 3600 /\ (now + s + off) mod 3600 = 0) /\
  (let s := get_time_sec_30min_end off now in 0 < s <= 1800 /\ (now + s + off) mod 1800 = 0) /\
  (let s := get_time_sec_10min_end off now in 0 < s <= 600 /\ (now + s + off) mod 600 = 0) /\
  (let s := get_time_sec_today_end off now - tm_sec tm in 0 < s <= 86400 /\ (now + s + off) mod 86400 = 0).
Proof.
  split; [apply hour_end_spec|]. split.
  { destruct (end_of_day_spec off now) as (H1 & H2 & _). by split. }
  split; [apply week_end_spec|]. split; [apply month_end_spec|]. split; [apply sec_hour_end_spec|].
  split; [apply sec_30min_end_spec|]. split; [apply sec_10min_end_spec|]. apply sec_today_end_spec.
Qed.

(** ** The text of a time *)

(** The selected fields, year first. *)
Definition time_fields (type : Z) (tm : tm) : list bytes :=
  omap (fun f : Z * bytes => if decide (Z.land type f.1 = 0) then None else Some f.2)
    [(1, dec0 4 (tm_year tm + 1900)); (2, dec0 2 (tm_mon tm + 1)); (4, dec0 2 (tm_mday tm));
     (8, dec0 2 (tm_hour tm)); (16, dec0 2 (tm_min tm)); (32, dec0 2 (tm_sec tm))].

(** The text written so far, in a buffer of 128 bytes. *)
Definition holds (text : bytes) (st : bytes * Z) : Prop :=
  exists pad, st = (text ++ 0 :: pad, Z.of_nat (length text)) /\ length (text ++ 0 :: pad) = 128%nat.

Lemma put_ok text st s : holds text st -> (length text + length s < 128)%nat ->
  exists st', put st.1 st.2 s = Ok st' /\ holds (text ++ s) st'.
Proof.
  intros (pad & -> & Hlen) Hs. rewrite length_app in Hlen. simpl in Hlen. unfold put. cbn [fst snd].
  assert (0 :: pad = take (length s + 1) (0 :: pad) ++ drop (length s) pad) as E.
  { rewrite <- (take_drop (length s + 1) (0 :: pad)) at 1. f_equal. by replace (length s + 1)%nat with (S (length s)) by lia. }
  rewrite E, (bwrite_app text) by (rewrite ?length_app, ?length_take; simpl; lia).
  eexists. split; [reflexivity|]. exists (drop (length s) pad). split.
  - rewrite <- !app_assoc. rewrite length_app. f_equal. lia.
  - rewrite !length_app. simpl. rewrite length_drop. lia.
Qed.

(** One field, after [l] of at most [n] characters. *)
Lemma put_field_ok bit first type split w v l st n :
  holds (join (default [] split) l) st -> Forall (fun x => x ≠ []) l ->
  (length (join (default [] split) l) <= n)%nat -> (n + length (default [] split) + w < 128)%nat ->
  length (dec0 w v) = w -> (0 < w)%nat -> (first = true -> l = []) ->
  let l' := l ++ (if decide (Z.land type bit = 0) then [] else [dec0 w v]) in
  exists st', put_field bit first type split w v st = Ok st' /\ holds (join (default [] split) l') st' /\
    Forall (fun x => x ≠ []) l' /\ (length (join (default [] split) l') <= n + (if first then 0 else length (default [] split)) + w)%nat.
Proof.
  intros Hst Hl Hn Hlt Hw Hw0 Hfirst l'. unfold put_field. destruct st as [buf size]. subst l'.
  destruct (decide (Z.land type bit = 0)) as [E|E].
  { exists (buf, size). rewrite app_nil_r. split; [done|]. split; [done|]. split; [done|lia]. }
  assert (size = Z.of_nat (length (join (default [] split) l))) as Hsize by (destruct Hst as (pad & [= _ ->] & _); done).
  assert (exists st', (match split with
    | Some sp => if first || bool_decide (size = 0) then mret (buf, size) else put buf size sp
    | None => mret (buf, size) end) = Ok st' /\
    holds (match l with [] => [] | _ => join (default [] split) l ++ default [] split end) st') as ([buf' size'] & E1 & Hst').
  { destruct l as [|x l].
    - exists (buf, size). split; [|done]. destruct split; [|done]. rewrite bool_decide_eq_true_2 by done. by destruct first.
    - destruct split as [sp|]; simpl default in *; [|exists (buf, size); split; [done|]; by rewrite app_nil_r].
      destruct first; [by discriminate Hfirst|]. rewrite bool_decide_eq_false_2.
      + simpl orb. apply (put_ok _ (buf, size)); [done|lia].
      + apply Forall_cons in Hl as [Hx _]. rewrite Hsize. destruct l; destruct x; simpl; try done; lia. }
  rewrite E1. cbn [mbind cres_bind].
  destruct (put_ok _ (buf', size') (dec0 w v) Hst') as (st' & E2 & H2).
  { destruct l; [simpl; lia|]. rewrite length_app, Hw. lia. }
  exists st'. rewrite join_snoc. split; [exact E2|]. split; [by destruct l; rewrite <- ?app_assoc in H2|]. split.
  - apply Forall_app. split; [done|]. apply Forall_singleton. intros Hnil. rewrite Hnil in Hw. simpl in Hw. lia.
  - destruct l; [lia|]. destruct first; [by discriminate Hfirst|]. rewrite !length_app, Hw. lia.
Qed.

(** The next field of [get_time_str]. *)
Ltac put_next :=
  lazymatch goal with
  | H : holds (join _ ?l) ?st, F : Forall _ ?l, L : (length (join _ ?l) <= ?n)%nat
    |- context [put_field ?b false ?t ?s 2 ?v ?st] =>
      let E := fresh "E" in
      destruct (put_field_ok b false t s 2 v l st n H F L) as (? & E & ? & ? & ?);
        [lia|apply dec0_length; [simpl; lia|lia]|lia|done|]; rewrite E; clear H F L E; cbn [mbind cres_bind]
  end.

Lemma time_fields_no_nul type tm :
  0 <= tm_year tm + 1900 <= 9999 -> 0 <= tm_mon tm <= 11 -> 1 <= tm_mday tm <= 31 ->
  0 <= tm_hour tm <= 23 -> 0 <= tm_min tm <= 59 -> 0 <= tm_sec tm <= 59 ->
  Forall no_nul (time_fields type tm).
Proof.
  intros. unfold time_fields. apply Forall_forall. intros x Hx.
  apply list_elem_of_omap in Hx as ([bit y] & Hin & Hy). simpl in Hy. case_decide; simplify_eq.
  rewrite !elem_of_cons in Hin. destruct Hin as [[= -> ->]|[[= -> ->]|[[= -> ->]|[[= -> ->]|[[= -> ->]|[[= -> ->]|Hin]]]]]].
  all: try (apply dec0_no_nul; lia). by apply elem_of_nil in Hin.
Qed.

(** the text of a time.  For every selection of fields (the bits of
    [type]), separator of at most 22 bytes and instant of the years 0 to
    9999, [get_time_str_r] stays inside its block of 128 bytes and returns
    the selected zero-padded fields, separated; without a separator they are
    run together. *)
Theorem get_time_str_r_spec off now type split :
  let tm := localtime_r off now in
  0 <= tm_year tm + 1900 <= 9999 -> (length (default [] split) <= 22)%nat -> no_nul (default [] split) ->
  exists buf, get_time_str_r off now true type split = Ok (Some buf) /\ length buf = 128%nat /\
    cstr buf = Ok (join (default [] split) (time_fields type tm)).
Proof.
  intros tm. pose proof (localtime_fields off now tm eq_refl) as (Hs & Hm & Hh & Hmon & Hd & _).
  unfold get_time_str_r, get_time_str. cbn [negb]. fold tm. clearbody tm. intros Hy Hlen Hnul.
  assert (holds (join (default [] split) []) (replicate 128 0, 0)) as H0 by (by exists (replicate 127 0)).
  edestruct (put_field_ok 1 true type split 4 (tm_year tm + 1900) [] _ 0 H0) as (st1 & -> & H1 & F1 & L1);
    [done|simpl; lia|lia|by apply dec0_length; [simpl; lia|lia]|lia|done|]. cbn [mbind cres_bind].
  do 5 put_next.
  lazymatch goal with H : holds (join _ ?l) ?st |- _ =>
    assert (l = time_fields type tm) as E by
      (unfold time_fields; cbn [omap list_omap fst snd app]; repeat case_decide; reflexivity);
    rewrite E in H; destruct H as (pad & -> & Hpad) end.
  eexists. split; [reflexivity|]. split; [exact Hpad|]. apply cstr_app, join_no_nul; [done|].
  apply time_fields_no_nul; lia.
Qed.

Lemma get_time_str_r_spec_witness :
  exists buf, get_time_str_r 28800 1500000000 true 63 (Some (B ":")) = Ok (Some buf) /\ length buf = 128%nat /\
    cstr buf = Ok (B "2017:07:14:10:40:00").
Proof.
  destruct (get_time_str_r_spec 28800 1500000000 63 (Some (B ":"))) as (buf & H1 & H2 & H3).
  - vm_compute. split; discriminate.
  - simpl. lia.
  - repeat constructor; discriminate.
  - exists buf. split; [exact H1|]. split; [exact H2|]. rewrite H3. vm_compute. reflexivity.
Defined.
