(* ===== verification/AdxJson.v ===== *)
(** JSON documents: adx_dsp/src/adx_json.h and adx_json.c.

    The nodes live in a memory of records indexed by their address; the
    intrusive list of the children of a node (AdxList.v) is modelled by the
    addresses in list order.  The text that is parsed is what is left of it,
    terminator included: to read past the terminator is [UB].  The n-th
    block asked of the pool is refused when [ao n] is false; the address of a
    block is only known to be new, and its size is what was asked for.  The
    lengths of strings are [int]s, as in the code: a distance of pointers is
    truncated to one ([i32]), and [len + 1] may overflow ([int_ok]). *)

From Stdlib Require Import ZArith Lia.
From S2P Require Import Prelude AdxAlloc.

Open Scope Z_scope.

(** [adx_json_type] *)
Definition ADX_JSON_OBJECT : Z := 100.
Definition ADX_JSON_ARRAY : Z := 101.
Definition ADX_JSON_EMPTY : Z := 102.
Definition ADX_JSON_STRING : Z := 103.
Definition ADX_JSON_NUMBER : Z := 104.
Definition ADX_JSON_BOOL : Z := 105.
Definition ADX_JSON_NULL : Z := 106.
Definition ADX_JSON_ERROE : Z := 107.

(** [adx_json_t]; the address 0 is NULL. *)
Record adx_json_t := Json {
  type : Z; key : option bytes; val : option bytes; array_len : Z; parent : Z; child : list Z }.

(** The nodes, and the number of blocks asked of the pool so far. *)
Record jmem := JMem { nodes : gmap Z adx_json_t; nalloc : nat }.

Definition get (m : jmem) (a : Z) : cres adx_json_t := of_opt (nodes m !! a).
Definition put (m : jmem) (a : Z) (node : adx_json_t) : jmem := JMem (<[a := node]> (nodes m)) (nalloc m).

Definition set_type (t : Z) (n : adx_json_t) : adx_json_t := Json t (key n) (val n) (array_len n) (parent n) (child n).
Definition set_val (v : option bytes) (n : adx_json_t) : adx_json_t := Json (type n) (key n) v (array_len n) (parent n) (child n).
Definition add_child (a : Z) (n : adx_json_t) : adx_json_t :=
  Json (type n) (key n) (val n)
    (if decide (type n = ADX_JSON_ARRAY) then array_len n + 1 else array_len n) (parent n) (child n ++ [a]).

Definition update (m : jmem) (a : Z) (f : adx_json_t -> adx_json_t) : cres jmem :=
  n ← get m a; mret (put m a (f n)).

(** Text written with simple quotes for double ones. *)
Definition Q (s : string) : bytes := map (fun c => if decide (c = 39) then 34 else c) (B s).

(** ** Reading the text *)

Definition deref (pos : bytes) : cres Z := of_opt (head pos).
Definition incr (pos : bytes) : cres bytes := match pos with [] => UB | _ :: pos => mret pos end.

(** [char] is signed: the comparison with 32 also skips the bytes above 127. *)
Fixpoint adx_json_skip_space (pos : bytes) : cres bytes :=
  match pos with
  | [] => UB
  | c :: pos' => if decide (c = 0) then mret pos else
                 if decide (schar c > 32) then mret pos else adx_json_skip_space pos'
  end.

Definition unescape (c : Z) : Z :=
  if decide (c = 98) then 8 else if decide (c = 102) then 12 else if decide (c = 114) then 13 else
  if decide (c = 110) then 10 else if decide (c = 116) then 9 else c.

(** The loop of [adx_json_strdup] with [len - i] characters to go. *)
Fixpoint strdup_loop (src : bytes) (len : nat) : cres bytes :=
  match len, src with
  | O, _ => mret []
  | S _, [] => UB
  | S len, c :: src =>
      if decide (c = 92) then
        match src with
        | [] => UB
        | d :: src => rest ← strdup_loop src (len - 1); mret (unescape d :: rest)
        end
      else rest ← strdup_loop src len; mret (c :: rest)
  end.

Section Pool.
Context (ao : nat -> bool).

(** The pool (AdxAlloc.v): the address of a block of [size] bytes, 0 when it
    is refused. *)
Definition adx_alloc (m : jmem) (size : Z) : cres (Z * jmem) :=
  let m' := JMem (nodes m) (S (nalloc m)) in
  if ao (nalloc m) then _ ← block_room size; mret (Z.of_nat (S (nalloc m)), m') else mret (0, m').

(** The block has [len + 1] bytes as a [size_t]; the loop runs while
    [i < len], and its bytes and the terminator are written to the block. *)
Definition adx_json_strdup (m : jmem) (src : bytes) (len : Z) : cres (option bytes * jmem) :=
  size ← int_ok (len + 1);
  '(dest, m) ← adx_alloc m (u64 size);
  if decide (dest = 0) then mret (None, m) else
  str ← strdup_loop src (Z.to_nat len);
  if decide (Z.of_nat (length str) + 1 <= u64 size) then mret (Some str, m) else UB.

(** [sizeof(adx_json_t)] *)
Definition sizeof_json : Z := 72.

Definition adx_json_create (m : jmem) (parent : Z) (key : option bytes) (len : Z) : cres (Z * jmem) :=
  '(json, m) ← adx_alloc m sizeof_json;
  if decide (json = 0) then mret (0, m) else
  '(k, m) ← match key with
            | Some key => adx_json_strdup m key len
            | None => mret (None, m)
            end;
  if decide (is_Some key /\ k = None) then mret (0, m) else
  let m := put m json (Json 0 k None 0 parent []) in
  m ← (if decide (parent = 0) then mret m else update m parent (add_child json));
  mret (json, m).

Definition adx_json_create_key (m : jmem) (parent : Z) (key : bytes) (len : Z) : cres (Z * jmem) :=
  if decide (len = 0) then mret (0, m) else adx_json_create m parent (Some key) len.

(** ** The parser *)

(** The scan of [adx_json_parse_string] for the closing quote: its distance
    and the text after it, or [None] when the text ends first. *)
Fixpoint string_end (pos : bytes) (len : nat) : cres (option (nat * bytes)) :=
  match pos with
  | [] => UB
  | c :: pos =>
      if decide (c = 0) then mret None else
      if decide (c = 92) then
        match pos with
        | [] => UB
        | d :: pos => if decide (d = 0) then mret None else string_end pos (S (S len))
        end
      else if decide (c = 34) then mret (Some (len, pos))
      else string_end pos (S len)
  end.

(** The type, the string as a position and a length, and the new position.
    [str->len] is an [int]. *)
Definition adx_json_parse_string (pos : bytes) : cres (Z * (bytes * Z) * bytes) :=
  c ← deref pos;
  pos ← incr pos;
  if decide (c ≠ 34) then mret (ADX_JSON_ERROE, ([], 0), pos) else
  c ← deref pos;
  if decide (c = 34) then pos ← incr pos; mret (ADX_JSON_EMPTY, ([], 0), pos) else
  e ← string_end pos 0;
  match e with
  | None => mret (ADX_JSON_ERROE, ([], 0), pos)
  | Some (len, pos') => mret (ADX_JSON_STRING, (pos, i32 (Z.of_nat len)), pos')
  end.

Definition adx_json_parse_key (m : jmem) (pos : bytes) (parent : Z) : cres (Z * bytes * jmem) :=
  '(t, (str, len), pos) ← adx_json_parse_string pos;
  if decide (t ≠ ADX_JSON_STRING) then mret (0, pos, m) else
  '(node, m) ← adx_json_create_key m parent str len;
  mret (node, pos, m).

Definition adx_json_parse_value_string (m : jmem) (pos : bytes) (node : Z) : cres (Z * bytes * jmem) :=
  '(t, (str, len), pos) ← adx_json_parse_string pos;
  if decide (t = ADX_JSON_ERROE) then mret (ADX_JSON_ERROE, pos, m) else
  if decide (t ≠ ADX_JSON_EMPTY) then
    '(v, m) ← adx_json_strdup m str len;
    m ← update m node (set_val v);
    mret (if decide (v = None) then ADX_JSON_ERROE else t, pos, m)
  else mret (t, pos, m).

Definition number_char (c : Z) : bool := bool_decide (48 <= c <= 57 ∨ c = 43 ∨ c = 45 ∨ c = 101 ∨ c = 69 ∨ c = 46).

(** The number of characters of the number and the text after it. *)
Fixpoint number_end (pos : bytes) (len : nat) : cres (option (nat * bytes)) :=
  match pos with
  | [] => UB
  | c :: pos' => if decide (c = 0) then mret None else
                 if number_char c then number_end pos' (S len) else mret (Some (len, pos))
  end.

Definition adx_json_parse_value_number (m : jmem) (pos : bytes) (node : Z) : cres (Z * bytes * jmem) :=
  e ← number_end pos 0;
  match e with
  | None => mret (ADX_JSON_ERROE, pos, m)
  | Some (len, pos') =>
      '(v, m) ← adx_json_strdup m pos (i32 (Z.of_nat len));
      m ← update m node (set_val v);
      if decide (v = None) then mret (ADX_JSON_ERROE, pos, m) else mret (ADX_JSON_NUMBER, pos', m)
  end.

(** [str] is a literal of [len] characters. *)
Definition adx_json_parse_other (m : jmem) (pos : bytes) (node : Z) (t : Z) (str : bytes)
    : cres (Z * bytes * jmem) :=
  if decide (length pos < length str)%nat then UB else
  let pos := drop (length str) pos in
  '(v, m) ← adx_json_strdup m str (Z.of_nat (length str));
  m ← update m node (set_val v);
  mret (if decide (v = None) then ADX_JSON_ERROE else t, pos, m).

(** The loops of objects and arrays, over the parser of the values. *)
Section Loops.
Context (parse_value : jmem -> bytes -> Z -> cres (Z * bytes * jmem)).

(** The result tells whether the loop was left normally. *)
Fixpoint object_loop (fuel : nat) (m : jmem) (pos : bytes) (parent : Z) : cres (bool * bytes * jmem) :=
  match fuel with
  | O => NoFuel
  | S fuel =>
      c ← deref pos;
      if decide (c = 0) then mret (true, pos, m) else
      pos ← adx_json_skip_space pos;
      '(node, pos, m) ← adx_json_parse_key m pos parent;
      if decide (node = 0) then mret (false, pos, m) else
      pos ← adx_json_skip_space pos;
      c ← deref pos;
      pos ← incr pos;
      if decide (c ≠ 58) then mret (false, pos, m) else
      '(t, pos, m) ← parse_value m pos node;
      if decide (t = ADX_JSON_ERROE) then mret (false, pos, m) else
      m ← update m node (set_type t);
      pos ← adx_json_skip_space pos;
      c ← deref pos;
      if decide (c ≠ 44) then mret (true, pos, m) else
      pos ← incr pos;
      object_loop fuel m pos parent
  end.

Definition adx_json_parse_object (fuel : nat) (m : jmem) (pos : bytes) (parent : Z) : cres (Z * bytes * jmem) :=
  c ← deref pos;
  pos ← incr pos;
  if decide (c ≠ 123) then mret (ADX_JSON_ERROE, pos, m) else
  pos ← adx_json_skip_space pos;
  c ← deref pos;
  if decide (c = 125) then pos ← incr pos; mret (ADX_JSON_EMPTY, pos, m) else
  '(ok, pos, m) ← object_loop fuel m pos parent;
  if negb ok then mret (ADX_JSON_ERROE, pos, m) else
  c ← deref pos;
  pos ← incr pos;
  if decide (c ≠ 125) then mret (ADX_JSON_ERROE, pos, m) else mret (ADX_JSON_OBJECT, pos, m).

Fixpoint array_loop (fuel : nat) (m : jmem) (pos : bytes) (parent : Z) : cres (bool * bytes * jmem) :=
  match fuel with
  | O => NoFuel
  | S fuel =>
      c ← deref pos;
      if decide (c = 0) then mret (true, pos, m) else
      '(node, m) ← adx_json_create m parent None 0;
      if decide (node = 0) then mret (false, pos, m) else
      '(t, pos, m) ← parse_value m pos node;
      if decide (t = ADX_JSON_ERROE) then mret (false, pos, m) else
      m ← update m node (set_type t);
      pos ← adx_json_skip_space pos;
      c ← deref pos;
      if decide (c ≠ 44) then mret (true, pos, m) else
      pos ← incr pos;
      array_loop fuel m pos parent
  end.

Definition adx_json_parse_array (fuel : nat) (m : jmem) (pos : bytes) (parent : Z) : cres (Z * bytes * jmem) :=
  c ← deref pos;
  pos ← incr pos;
  if decide (c ≠ 91) then mret (ADX_JSON_ERROE, pos, m) else
  pos ← adx_json_skip_space pos;
  c ← deref pos;
  if decide (c = 93) then pos ← incr pos; mret (ADX_JSON_EMPTY, pos, m) else
  m ← update m parent (set_type ADX_JSON_ARRAY);
  '(ok, pos, m) ← array_loop fuel m pos parent;
  if negb ok then mret (ADX_JSON_ERROE, pos, m) else
  c ← deref pos;
  pos ← incr pos;
  if decide (c ≠ 93) then mret (ADX_JSON_ERROE, pos, m) else mret (ADX_JSON_ARRAY, pos, m).
End Loops.

(** [strncmp(pos, lit, strlen(lit)) == 0] *)
Definition looking_at (lit pos : bytes) : bool := bool_decide (take (length lit) pos = lit).

Fixpoint adx_json_parse_value (fuel : nat) (m : jmem) (pos : bytes) (node : Z) : cres (Z * bytes * jmem) :=
  match fuel with
  | O => NoFuel
  | S fuel =>
      pos ← adx_json_skip_space pos;
      c ← deref pos;
      if decide (c = 123) then adx_json_parse_object (adx_json_parse_value fuel) fuel m pos node else
      if decide (c = 91) then adx_json_parse_array (adx_json_parse_value fuel) fuel m pos node else
      if decide (c = 34) then adx_json_parse_value_string m pos node else
      if decide (c = 45 ∨ 48 <= c <= 57) then adx_json_parse_value_number m pos node else
      if looking_at (B "true") pos then adx_json_parse_other m pos node ADX_JSON_BOOL (B "true") else
      if looking_at (B "false") pos then adx_json_parse_other m pos node ADX_JSON_BOOL (B "false") else
      if looking_at (B "null") pos then adx_json_parse_other m pos node ADX_JSON_NULL (B "null") else
      mret (ADX_JSON_ERROE, pos, m)
  end.

(** The address of the root, 0 for NULL.  [str] is the C string; its length
    bounds both the depth and the number of members. *)
Definition adx_json_parse (m : jmem) (str : bytes) : cres (Z * jmem) :=
  '(root, m) ← adx_json_create m 0 None 0;
  if decide (root = 0) then mret (0, m) else
  pos ← adx_json_skip_space (str ++ [0]);
  let fuel := S (S (length str)) in
  '(t, _, m) ← adx_json_parse_object (adx_json_parse_value fuel) fuel m pos root;
  if decide (t ≠ ADX_JSON_OBJECT) then mret (0, m) else mret (root, m).
End Pool.

(** ** The parser stays inside the text *)

(** A C string with its terminator. *)
Inductive text : bytes -> Prop :=
| text_nil : text [0]
| text_cons c pos : c ≠ 0 -> text pos -> text (c :: pos).

Lemma text_app s : no_nul s -> text (s ++ [0]).
Proof. induction 1; simpl; by constructor. Qed.

(** The two cases of a text, with the outcome of [deref] and [incr]. *)
Lemma text_case pos : text pos ->
  (pos = [0]) \/ (exists c p, pos = c :: p /\ c ≠ 0 /\ text p).
Proof. intros [|c p Hc Hp]; [by left|right]. eauto. Qed.

Lemma text_cons_inv c pos : text (c :: pos) -> c ≠ 0 -> text pos.
Proof. inversion 1; subst; done. Qed.

Lemma deref_text pos : text pos -> exists c p, pos = c :: p /\ deref pos = Ok c /\ incr pos = Ok p /\ (c ≠ 0 -> text p).
Proof. intros [|c p Hc Hp]; repeat eexists; done. Qed.

Lemma skip_space_text pos : text pos ->
  exists pos', adx_json_skip_space pos = Ok pos' /\ text pos' /\ (length pos' <= length pos)%nat.
Proof.
  induction 1 as [|c p Hc Hp (pos' & E & Ht & Hl)]; simpl.
  - eexists. split; [done|]. split; [constructor|done].
  - rewrite decide_False by done. case_decide.
    + eexists. split; [done|]. split; [by constructor|done].
    + exists pos'. split; [done|]. split; [done|lia].
Qed.

Lemma string_end_text pos len : text pos ->
  exists r, string_end pos len = Ok r /\
    match r with
    | Some (n, p) => text p /\ (length p < length pos)%nat /\ (length pos = (n - len) + S (length p))%nat /\ (len <= n)%nat
    | None => True
    end.
Proof.
  revert len. induction pos as [pos IH] using (induction_ltof1 _ length). unfold ltof in IH. intros len Ht.
  destruct Ht as [|c p Hc Hp]; simpl.
  - by exists None.
  - rewrite decide_False by done. case_decide.
    + destruct Hp as [|d p Hd Hp]; simpl; [by exists None|]. rewrite decide_False by done.
      destruct (IH p) with (len := S (S len)) as (r & E & Hr); [simpl; lia|done|].
      exists r. split; [done|]. destruct r as [[n' p']|]; [|done]. simpl in *. intuition lia.
    + case_decide.
      * exists (Some (len, p)). simpl. split; [done|]. split; [done|]. lia.
      * destruct (IH p) with (len := S len) as (r & E & Hr); [simpl; lia|done|].
        exists r. split; [done|]. destruct r as [[n' p']|]; [|done]. simpl in *. intuition lia.
Qed.

Lemma strdup_loop_total src len : (len < length src)%nat \/ len = 0%nat ->
  exists s, strdup_loop src len = Ok s /\ (length s <= len)%nat.
Proof.
  revert len. induction src as [src IH] using (induction_ltof1 _ length). unfold ltof in IH. intros len Hlen.
  destruct len as [|len]; [destruct src; by exists []|].
  destruct src as [|c src]; [simpl in Hlen; lia|]. simpl in Hlen |- *. case_decide.
  - destruct src as [|d src]; [simpl in Hlen; lia|].
    destruct (IH src) with (len := (len - 1)%nat) as (s & E & Hs); [simpl; lia|simpl in *; lia|].
    rewrite E. eexists. split; [done|]. simpl. lia.
  - destruct (IH src) with (len := len) as (s & E & Hs); [simpl; lia|simpl in *; lia|].
    rewrite E. eexists. split; [done|]. simpl. lia.
Qed.

Lemma strdup_loop_plain s rest : Forall (fun c => c ≠ 92) s -> strdup_loop (s ++ rest) (length s) = Ok s.
Proof.
  induction 1 as [|c s Hc Hs IH]; simpl; [by destruct rest|]. rewrite decide_False by done. by rewrite IH.
Qed.

Lemma strdup_loop_length src len s : strdup_loop src len = Ok s -> (length s <= len)%nat.
Proof.
  revert len s. induction src as [src IH] using (induction_ltof1 _ length). unfold ltof in IH. intros [|len] s E.
  - destruct src; injection E as <-; done.
  - destruct src as [|c src]; [done|]. cbn [strdup_loop] in E. case_decide.
    + destruct src as [|d src]; [done|]. inv_ok. apply IH in H0; simpl; lia.
    + inv_ok. apply IH in H0; simpl; lia.
Qed.

Lemma number_end_text pos len : text pos ->
  exists r, number_end pos len = Ok r /\
    match r with
    | Some (n, p) => text p /\ (length pos = (n - len) + length p)%nat /\ (len <= n)%nat /\
        (forall c q, pos = c :: q -> number_char c = true -> (len < n)%nat)
    | None => True
    end.
Proof.
  intros Ht. revert len. induction Ht as [|c p Hc Hp IH]; intros len; simpl.
  - by exists None.
  - rewrite decide_False by done. destruct (number_char c) eqn:E.
    + destruct (IH (S len)) as (r & -> & Hr). exists r. split; [done|]. destruct r as [[n q]|]; [|done].
      destruct Hr as (H1 & H2 & H3 & _). split; [done|]. split; [lia|]. split; [lia|]. intros; lia.
    + exists (Some (len, c :: p)). split; [done|]. split; [by constructor|]. split; [simpl; lia|]. split; [lia|].
      intros c' q [= <- _]. congruence.
Qed.

(** Nodes are never released: the addresses in use only grow. *)
Definition mem_le (m m' : jmem) : Prop := forall a, is_Some (nodes m !! a) -> is_Some (nodes m' !! a).

#[export] Instance mem_le_preorder : PreOrder mem_le.
Proof. split; [by intros m a|]. intros m1 m2 m3 H1 H2 a Ha. auto. Qed.

Lemma update_live m a f : is_Some (nodes m !! a) -> exists m', update m a f = Ok m' /\ mem_le m m'.
Proof.
  intros [n Hn]. unfold update, get. rewrite Hn. eexists. split; [done|]. intros b Hb. simpl.
  destruct (decide (a = b)) as [->|Hne]; [rewrite lookup_insert_eq; eauto|by rewrite lookup_insert_ne].
Qed.

Section Safe.
Context (ao : nat -> bool).

Lemma small_size_json : small_size sizeof_json.
Proof. unfold small_size, sizeof_json, sizeof_block. lia. Qed.

Lemma alloc_small m size : small_size size ->
  adx_alloc ao m size = Ok (if ao (nalloc m) then Z.of_nat (S (nalloc m)) else 0, JMem (nodes m) (S (nalloc m))).
Proof. intros ?. unfold adx_alloc. rewrite block_room_ok by done. by destruct (ao (nalloc m)). Qed.

Lemma alloc_le m size : small_size size -> exists a m', adx_alloc ao m size = Ok (a, m') /\ mem_le m m'.
Proof. intros Hs. rewrite alloc_small by done. eexists _, _. split; [done|]. by intros a. Qed.

(** The copy of a text whose length and terminator are in the range of
    [int]: what was read, or [None] when the block is refused. *)
Lemma strdup_small m src len s :
  Z.of_nat len < 2147483647 -> strdup_loop src len = Ok s ->
  adx_json_strdup ao m src (Z.of_nat len) =
    Ok (if ao (nalloc m) then Some s else None, JMem (nodes m) (S (nalloc m))).
Proof.
  intros Hlen E. pose proof (strdup_loop_length _ _ _ E) as Hs. destruct (small_size_int (Z.of_nat len + 1)) as [Hz Hu]; [lia|].
  unfold adx_json_strdup. rewrite int_ok_in, ok_bind, Hu, alloc_small, ok_bind by (done || lia).
  destruct (ao (nalloc m)); [|done]. rewrite decide_False by lia.
  by rewrite Nat2Z.id, E, ok_bind, decide_True by lia.
Qed.

Lemma strdup_safe m src len : (len < length src)%nat -> Z.of_nat len < 2147483647 ->
  exists v m', adx_json_strdup ao m src (Z.of_nat len) = Ok (v, m') /\ mem_le m m'.
Proof.
  intros Hlen Hmax. destruct (strdup_loop_total src len) as (s & E & _); [by left|].
  rewrite (strdup_small m src len s) by done. eexists _, _. split; [done|]. by intros a.
Qed.

Lemma create_safe m parent key len :
  (parent = 0 \/ is_Some (nodes m !! parent)) -> match key with Some k => (len < length k)%nat /\ Z.of_nat len < 2147483647 | None => True end ->
  exists a m', adx_json_create ao m parent key (Z.of_nat len) = Ok (a, m') /\ mem_le m m' /\ (a ≠ 0 -> is_Some (nodes m' !! a)).
Proof.
  intros Hp Hk. unfold adx_json_create. destruct (alloc_le m _ small_size_json) as (a & m1 & -> & Hm1).
  rewrite ok_bind. case_decide as Ha; [by eexists _, _|].
  assert (exists k m2, (match key with Some key => adx_json_strdup ao m1 key (Z.of_nat len) | None => mret (None, m1) end) = Ok (k, m2)
    /\ mem_le m1 m2) as (k & m2 & -> & Hm2).
  { destruct key as [k|]; [by apply strdup_safe; destruct Hk|]. by eexists _, _. }
  cbn [mbind cres_bind]. case_decide; [eexists _, _; split; [done|]; split; [by etransitivity|done]|].
  set (m3 := put m2 a _). assert (mem_le m2 m3) as Hm3.
  { intros b Hb. simpl. destruct (decide (a = b)) as [->|]; [rewrite lookup_insert_eq; eauto|by rewrite lookup_insert_ne]. }
  assert (is_Some (nodes m3 !! a)) as Hlive by (simpl; rewrite lookup_insert_eq; eauto).
  destruct (decide (parent = 0)) as [|Hp0].
  - eexists _, _. split; [done|]. split; [|done]. by etransitivity; [|etransitivity].
  - destruct Hp as [|Hp]; [done|]. destruct (update_live m3 parent (add_child a)) as (m4 & -> & Hm4); [auto|].
    eexists _, _. split; [done|]. split; [|auto]. etransitivity; [exact Hm1|]. etransitivity; [exact Hm2|]. by etransitivity.
Qed.

Lemma parse_string_safe pos : text pos -> Z.of_nat (length pos) <= 2147483647 ->
  exists t str len pos', adx_json_parse_string pos = Ok (t, (str, Z.of_nat len), pos') /\
    (t ≠ ADX_JSON_ERROE -> text pos' /\ (length pos' < length pos)%nat) /\
    (t ≠ ADX_JSON_ERROE -> t ≠ ADX_JSON_EMPTY -> (len < length str)%nat /\ Z.of_nat len < 2147483647).
Proof.
  intros Ht Hmax. unfold adx_json_parse_string. destruct (deref_text pos Ht) as (c & p & -> & -> & -> & Hp).
  cbn [mbind cres_bind]. case_decide as Hc; [by eexists _, _, 0%nat, _|].
  assert (text p) as Htp by (apply Hp; lia). destruct (deref_text p Htp) as (d & q & -> & -> & -> & Hq).
  cbn [mbind cres_bind]. case_decide as Hd.
  - eexists _, _, 0%nat, _. split; [done|]. split; [|done]. intros _. split; [apply Hq; lia|simpl; lia].
  - destruct (string_end_text (d :: q) 0 Htp) as ([[n r]|] & -> & Hr); cbn [mbind cres_bind].
    + destruct Hr as (H1 & H2 & H3 & _). cbn [length] in *. rewrite i32_small by lia.
      eexists _, _, _, _. split; [done|]. split; intros _; [split; [done|lia]|]. intros _. cbn [length]. lia.
    + by eexists _, _, 0%nat, _.
Qed.

(** What every parser promises. *)
Definition good (m : jmem) (pos : bytes) (r : cres (Z * bytes * jmem)) : Prop :=
  exists t pos' m', r = Ok (t, pos', m') /\ mem_le m m' /\
    (t ≠ ADX_JSON_ERROE -> text pos' /\ (length pos' < length pos)%nat).

Definition good_loop (m : jmem) (pos : bytes) (r : cres (bool * bytes * jmem)) : Prop :=
  exists ok pos' m', r = Ok (ok, pos', m') /\ mem_le m m' /\
    (ok = true -> text pos' /\ (length pos' <= length pos)%nat).

Lemma parse_value_string_safe m pos node : text pos -> Z.of_nat (length pos) <= 2147483647 -> is_Some (nodes m !! node) ->
  good m pos (adx_json_parse_value_string ao m pos node).
Proof.
  intros Ht Hmax Hn. unfold adx_json_parse_value_string.
  destruct (parse_string_safe pos Ht Hmax) as (t & str & len & pos' & -> & H1 & H2). cbn [mbind cres_bind].
  case_decide as Herr; [by eexists _, _, _|]. case_decide as Hemp.
  - destruct (H2 Herr Hemp) as [H3 H4]. destruct (strdup_safe m str len H3 H4) as (v & m1 & -> & Hm1). cbn [mbind cres_bind].
    destruct (update_live m1 node (set_val v)) as (m2 & -> & Hm2); [auto|]. cbn [mbind cres_bind].
    eexists _, _, _. split; [done|]. split; [by etransitivity|]. auto.
  - eexists _, _, _. split; [done|]. split; [done|]. auto.
Qed.

Lemma parse_value_number_safe m c p node : text (c :: p) -> Z.of_nat (length (c :: p)) <= 2147483647 ->
  number_char c = true -> is_Some (nodes m !! node) -> good m (c :: p) (adx_json_parse_value_number ao m (c :: p) node).
Proof.
  intros Ht Hmax Hc Hn. unfold adx_json_parse_value_number.
  destruct (number_end_text (c :: p) 0 Ht) as ([[n q]|] & -> & Hr); cbn [mbind cres_bind]; [|by eexists _, _, _].
  destruct Hr as (H1 & H2 & _ & H3). specialize (H3 c p eq_refl Hc).
  assert (0 < length q)%nat by (destruct H1; simpl; lia).
  rewrite i32_small by lia. destruct (strdup_safe m (c :: p) n) as (v & m1 & -> & Hm1); [lia|lia|]. cbn [mbind cres_bind].
  destruct (update_live m1 node (set_val v)) as (m2 & -> & Hm2); [auto|]. cbn [mbind cres_bind].
  case_decide; eexists _, _, _; (split; [done|]; split; [by etransitivity|]); [done|]. intros _. split; [done|lia].
Qed.

Lemma looking_at_drop lit pos : text pos -> no_nul lit -> looking_at lit pos = true ->
  exists q, pos = lit ++ q /\ text q.
Proof.
  intros Ht Hlit Hl%bool_decide_eq_true. revert pos Ht Hl. induction Hlit as [|c lit Hc Hlit IH]; intros pos Ht Hl.
  - by exists pos.
  - destruct Ht as [|d p Hd Hp]; simpl in Hl; [congruence|]. injection Hl as -> Hl.
    destruct (IH p Hp Hl) as (q & -> & Hq). by exists q.
Qed.

Lemma parse_other_safe m pos node t lit : text pos -> no_nul lit -> Forall (fun c => c ≠ 92) lit -> lit ≠ [] ->
  Z.of_nat (length lit) < 2147483647 -> looking_at lit pos = true -> is_Some (nodes m !! node) -> good m pos (adx_json_parse_other ao m pos node t lit).
Proof.
  intros Ht Hlit H92 Hne Hmax Hl Hn. destruct (looking_at_drop lit pos Ht Hlit Hl) as (q & -> & Hq).
  unfold adx_json_parse_other. rewrite decide_False by (rewrite length_app; lia). rewrite drop_app_length.
  assert (exists v m1, adx_json_strdup ao m lit (Z.of_nat (length lit)) = Ok (v, m1) /\ mem_le m m1) as (v & m1 & -> & Hm1).
  { pose proof (strdup_loop_plain lit [] H92) as E. rewrite app_nil_r in E.
    rewrite (strdup_small m lit _ lit) by done. eexists _, _. split; [done|]. by intros a. }
  cbn [mbind cres_bind]. destruct (update_live m1 node (set_val v)) as (m2 & -> & Hm2); [auto|]. cbn [mbind cres_bind].
  eexists _, _, _. split; [done|]. split; [by etransitivity|]. intros _. split; [done|].
  rewrite length_app. destruct lit; [done|simpl; lia].
Qed.

Lemma parse_key_safe m pos parent : text pos -> Z.of_nat (length pos) <= 2147483647 -> is_Some (nodes m !! parent) ->
  exists a pos' m', adx_json_parse_key ao m pos parent = Ok (a, pos', m') /\ mem_le m m' /\
    (a ≠ 0 -> is_Some (nodes m' !! a) /\ text pos' /\ (length pos' < length pos)%nat).
Proof.
  intros Ht Hmax Hp. unfold adx_json_parse_key.
  destruct (parse_string_safe pos Ht Hmax) as (t & str & len & pos' & -> & H1 & H2). cbn [mbind cres_bind].
  case_decide as Hs; [by eexists _, _, _|]. destruct (decide (t = ADX_JSON_STRING)) as [->|]; [|done].
  destruct H1 as [H1 H1']; [done|]. specialize (H2 ltac:(done) ltac:(done)).
  unfold adx_json_create_key. case_decide; [by eexists _, _, _|].
  destruct (create_safe m parent (Some str) len) as (a & m' & -> & Hm & Ha); [by right|done|]. cbn [mbind cres_bind].
  eexists _, _, _. split; [done|]. split; [done|]. intros Hne. auto.
Qed.

Section Loops.
Context (n : nat) (Hmax : Z.of_nat n <= 2147483647) (pv : jmem -> bytes -> Z -> cres (Z * bytes * jmem)).
Context (Hpv : forall m pos node, text pos -> (length pos <= n)%nat -> is_Some (nodes m !! node) -> good m pos (pv m pos node)).

Lemma object_loop_safe fuel m pos parent :
  text pos -> (length pos <= n)%nat -> (length pos <= fuel)%nat -> is_Some (nodes m !! parent) ->
  good_loop m pos (object_loop ao pv fuel m pos parent).
Proof.
  revert m pos. induction fuel as [|fuel IH]; intros m pos Ht Hn Hf Hp; [destruct Ht; simpl in Hf; lia|]. cbn [object_loop].
  destruct (deref_text pos Ht) as (c & p & E & -> & _ & _). cbn [mbind cres_bind].
  case_decide; [by eexists _, _, _|]. clear E c p H.
  destruct (skip_space_text pos Ht) as (p1 & -> & Ht1 & Hl1). cbn [mbind cres_bind].
  destruct (parse_key_safe m p1 parent Ht1 ltac:(lia) Hp) as (a & p2 & m1 & -> & Hm1 & Ha). cbn [mbind cres_bind].
  case_decide as Ha0; [by eexists _, _, _|]. destruct (Ha Ha0) as (Hlive & Ht2 & Hl2).
  destruct (skip_space_text p2 Ht2) as (p3 & -> & Ht3 & Hl3). cbn [mbind cres_bind].
  destruct (deref_text p3 Ht3) as (c & p4 & -> & -> & -> & Ht4). cbn [mbind cres_bind].
  case_decide as Hc; [by eexists _, _, _|]. simpl in Hl3.
  destruct (Hpv m1 p4 a) as (t & p5 & m2 & -> & Hm2 & Hv); [apply Ht4; lia|lia|done|]. cbn [mbind cres_bind].
  case_decide as He; [eexists _, _, _; split; [done|]; split; [by etransitivity|done]|]. destruct (Hv He) as [Ht5 Hl5].
  destruct (update_live m2 a (set_type t)) as (m3 & -> & Hm3); [auto|]. cbn [mbind cres_bind].
  assert (mem_le m m3) as Hm by (etransitivity; [exact Hm1|by etransitivity]).
  destruct (skip_space_text p5 Ht5) as (p6 & -> & Ht6 & Hl6). cbn [mbind cres_bind].
  destruct (deref_text p6 Ht6) as (d & p7 & -> & -> & -> & Ht7). cbn [mbind cres_bind]. simpl in Hl6.
  case_decide as Hd; [eexists _, _, _; split; [done|]; split; [done|]; split; [done|simpl; lia]|].
  destruct (IH m3 p7) as (ok & q & m4 & E & Hm4 & Hq); [apply Ht7; lia|lia|lia|auto|].
  rewrite E. eexists _, _, _. split; [done|]. split; [by etransitivity|]. intros Hok. destruct (Hq Hok). split; [done|lia].
Qed.

Lemma array_loop_safe fuel m pos parent :
  text pos -> (length pos <= n)%nat -> (length pos <= fuel)%nat -> is_Some (nodes m !! parent) ->
  good_loop m pos (array_loop ao pv fuel m pos parent).
Proof.
  revert m pos. induction fuel as [|fuel IH]; intros m pos Ht Hn Hf Hp; [destruct Ht; simpl in Hf; lia|]. cbn [array_loop].
  destruct (deref_text pos Ht) as (c & p & E & -> & _ & _). cbn [mbind cres_bind].
  case_decide; [by eexists _, _, _|]. clear E c p H.
  destruct (create_safe m parent None 0%nat) as (a & m1 & E & Hm1 & Ha); [by right|done|].
  change (Z.of_nat 0) with 0 in E. rewrite E. clear E. cbn [mbind cres_bind].
  case_decide as Ha0; [by eexists _, _, _|].
  destruct (Hpv m1 pos a) as (t & p5 & m2 & -> & Hm2 & Hv); [done|lia|auto|]. cbn [mbind cres_bind].
  case_decide as He; [eexists _, _, _; split; [done|]; split; [by etransitivity|done]|]. destruct (Hv He) as [Ht5 Hl5].
  destruct (update_live m2 a (set_type t)) as (m3 & -> & Hm3); [auto|]. cbn [mbind cres_bind].
  assert (mem_le m m3) as Hm by (etransitivity; [exact Hm1|by etransitivity]).
  destruct (skip_space_text p5 Ht5) as (p6 & -> & Ht6 & Hl6). cbn [mbind cres_bind].
  destruct (deref_text p6 Ht6) as (d & p7 & -> & -> & -> & Ht7). cbn [mbind cres_bind]. simpl in Hl6.
  case_decide as Hd; [eexists _, _, _; split; [done|]; split; [done|]; split; [done|simpl; lia]|].
  destruct (IH m3 p7) as (ok & q & m4 & E & Hm4 & Hq); [apply Ht7; lia|lia|lia|auto|].
  rewrite E. eexists _, _, _. split; [done|]. split; [by etransitivity|]. intros Hok. destruct (Hq Hok). split; [done|lia].
Qed.

(** What follows the two loops: the closing character. *)
Lemma close_safe m pos t0 close r :
  close ≠ 0 -> good_loop m pos r ->
  good m pos ('(ok, pos, m) ← r;
    if negb ok then mret (ADX_JSON_ERROE, pos, m) else
    c ← deref pos;
    pos ← incr pos;
    if decide (c ≠ close) then mret (ADX_JSON_ERROE, pos, m) else mret (t0, pos, m)).
Proof.
  intros Hc (ok & q & m1 & -> & Hm1 & Hq). cbn [mbind cres_bind]. destruct ok; simpl; [|by eexists _, _, _].
  destruct Hq as [Htq Hlq]; [done|]. destruct (deref_text q Htq) as (c & p & -> & -> & -> & Htp). cbn [mbind cres_bind].
  case_decide as Hne; eexists _, _, _; (split; [done|]; split; [done|]); [done|].
  intros _. split; [apply Htp; lia|simpl in *; lia].
Qed.

Lemma parse_object_safe fuel m c p parent : c ≠ 0 ->
  text (c :: p) -> (length p <= n)%nat -> (length p <= fuel)%nat -> is_Some (nodes m !! parent) ->
  good m (c :: p) (adx_json_parse_object ao pv fuel m (c :: p) parent).
Proof.
  intros Hc0 Ht Hn Hf Hp. unfold adx_json_parse_object. apply text_cons_inv in Ht as Htp; [|done].
  cbn [deref head of_opt incr mbind cres_bind mret cres_ret]. case_decide; [by eexists _, _, _|].
  destruct (skip_space_text p Htp) as (p1 & -> & Ht1 & Hl1). cbn [mbind cres_bind].
  destruct (deref_text p1 Ht1) as (d & p2 & -> & Ed & Ei & Ht2). rewrite Ed. cbn [mbind cres_bind].
  case_decide as Hd.
  - rewrite Ei. cbn [mbind cres_bind]. eexists _, _, _. split; [done|]. split; [done|]. intros _.
    split; [apply Ht2; lia|simpl in *; lia].
  - destruct (close_safe m (d :: p2) ADX_JSON_OBJECT 125 (object_loop ao pv fuel m (d :: p2) parent)) as (t & q & m' & E & Hm & Hq);
      [done|apply object_loop_safe; [done|simpl in *; lia|simpl in *; lia|done]|].
    exists t, q, m'. split; [exact E|]. split; [done|]. intros He. destruct (Hq He). split; [done|simpl in *; lia].
Qed.

Lemma parse_array_safe fuel m c p parent : c ≠ 0 ->
  text (c :: p) -> (length p <= n)%nat -> (length p <= fuel)%nat -> is_Some (nodes m !! parent) ->
  good m (c :: p) (adx_json_parse_array ao pv fuel m (c :: p) parent).
Proof.
  intros Hc0 Ht Hn Hf Hp. unfold adx_json_parse_array. apply text_cons_inv in Ht as Htp; [|done].
  cbn [deref head of_opt incr mbind cres_bind mret cres_ret]. case_decide; [by eexists _, _, _|].
  destruct (skip_space_text p Htp) as (p1 & -> & Ht1 & Hl1). cbn [mbind cres_bind].
  destruct (deref_text p1 Ht1) as (d & p2 & -> & Ed & Ei & Ht2). rewrite Ed. cbn [mbind cres_bind].
  case_decide as Hd.
  - rewrite Ei. cbn [mbind cres_bind]. eexists _, _, _. split; [done|]. split; [done|]. intros _.
    split; [apply Ht2; lia|simpl in *; lia].
  - destruct (update_live m parent (set_type ADX_JSON_ARRAY)) as (m1 & -> & Hm1); [done|]. cbn [mbind cres_bind].
    destruct (close_safe m1 (d :: p2) ADX_JSON_ARRAY 93 (array_loop ao pv fuel m1 (d :: p2) parent)) as (t & q & m' & E & Hm & Hq);
      [done|apply array_loop_safe; [done|simpl in *; lia|simpl in *; lia|auto]|].
    exists t, q, m'. split; [exact E|]. split; [by etransitivity|]. intros He. destruct (Hq He). split; [done|simpl in *; lia].
Qed.
End Loops.

Lemma parse_value_safe fuel m pos node :
  text pos -> (length pos <= fuel)%nat -> Z.of_nat (length pos) <= 2147483647 -> is_Some (nodes m !! node) ->
  good m pos (adx_json_parse_value ao fuel m pos node).
Proof.
  revert m pos node. induction fuel as [|fuel IH]; intros m pos node Ht Hf Hmax Hn; [destruct Ht; simpl in Hf; lia|].
  cbn [adx_json_parse_value]. destruct (skip_space_text pos Ht) as (p1 & -> & Ht1 & Hl1). cbn [mbind cres_bind].
  assert (good m p1 (c ← deref p1;
    if decide (c = 123) then adx_json_parse_object ao (adx_json_parse_value ao fuel) fuel m p1 node else
    if decide (c = 91) then adx_json_parse_array ao (adx_json_parse_value ao fuel) fuel m p1 node else
    if decide (c = 34) then adx_json_parse_value_string ao m p1 node else
    if decide (c = 45 ∨ 48 <= c <= 57) then adx_json_parse_value_number ao m p1 node else
    if looking_at (B "true") p1 then adx_json_parse_other ao m p1 node ADX_JSON_BOOL (B "true") else
    if looking_at (B "false") p1 then adx_json_parse_other ao m p1 node ADX_JSON_BOOL (B "false") else
    if looking_at (B "null") p1 then adx_json_parse_other ao m p1 node ADX_JSON_NULL (B "null") else
    mret (ADX_JSON_ERROE, p1, m))) as (t & q & m' & E & Hm & Hq).
  2:{ exists t, q, m'. split; [exact E|]. split; [done|]. intros He. destruct (Hq He). split; [done|lia]. }
  destruct (deref_text p1 Ht1) as (c & p2 & -> & -> & _ & Ht2). cbn [mbind cres_bind]. simpl in Hl1.
  cbn [length] in Hl1. assert (Z.of_nat (length p2) <= 2147483647) as Hmax2 by lia.
  assert (forall m pos node, text pos -> (length pos <= length p2)%nat -> is_Some (nodes m !! node) ->
    good m pos (adx_json_parse_value ao fuel m pos node)) as Hpv by (intros; apply IH; done || lia).
  case_decide; [apply (parse_object_safe (length p2) Hmax2 _ Hpv); [lia|done|lia|lia|done]|].
  case_decide; [apply (parse_array_safe (length p2) _ Hpv); [lia|done|lia|lia|done]|].
  case_decide; [apply parse_value_string_safe; [done|simpl; lia|done]|].
  case_decide; [apply parse_value_number_safe; [done|simpl; lia|apply bool_decide_eq_true; lia|done]|].
  assert (forall s : string, bool_decide (Forall (fun c => c ≠ 0 /\ c ≠ 92) (B s)) = true -> no_nul (B s) /\ Forall (fun c => c ≠ 92) (B s)) as Hlit.
  { intros s Hs%bool_decide_eq_true. split; eapply Forall_impl; [exact Hs| |exact Hs|]; by intros x []. }
  destruct (looking_at (B "true") (c :: p2)) eqn:E1.
  { destruct (Hlit "true") as [? ?]; [by vm_compute|]. by apply parse_other_safe. }
  destruct (looking_at (B "false") (c :: p2)) eqn:E2.
  { destruct (Hlit "false") as [? ?]; [by vm_compute|]. by apply parse_other_safe. }
  destruct (looking_at (B "null") (c :: p2)) eqn:E3.
  { destruct (Hlit "null") as [? ?]; [by vm_compute|]. by apply parse_other_safe. }
  by eexists _, _, _.
Qed.
End Safe.

Lemma parse_safe ao m str :
  no_nul str -> Z.of_nat (length str) < 2147483647 ->
  exists root m', adx_json_parse ao m str = Ok (root, m') /\ (root = 0 \/ is_Some (nodes m' !! root)).
Proof.
  intros Hs Hmax. unfold adx_json_parse.
  destruct (create_safe ao m 0 None 0%nat) as (root & m1 & E & _ & Hlive); [by left|done|].
  change (Z.of_nat 0) with 0 in E. rewrite E, ok_bind. clear E.
  case_decide as Hr; [eexists _, _; split; [done|by left]|].
  destruct (skip_space_text (str ++ [0]) (text_app str Hs)) as (pos & -> & Ht & Hl). cbn [mbind cres_bind].
  rewrite length_app in Hl. simpl in Hl.
  assert (exists t p m2, adx_json_parse_object ao (adx_json_parse_value ao (S (S (length str)))) (S (S (length str))) m1 pos root
    = Ok (t, p, m2) /\ mem_le m1 m2) as (t & p & m2 & -> & Hm2).
  { destruct (text_case pos Ht) as [->|(c & p & -> & Hc & Htp)].
    - by eexists _, _, _.
    - cbn [length] in Hl. destruct (parse_object_safe ao (length p) ltac:(lia) (adx_json_parse_value ao (S (S (length str)))))
        with (fuel := S (S (length str))) (m := m1) (c := c) (p := p) (parent := root) as (t & q & m2 & E & Hm & _);
        [intros; apply parse_value_safe; done || lia|done|done|lia|lia|auto|].
      eexists _, _, _. by split. }
  cbn [mbind cres_bind]. case_decide; eexists _, _; (split; [done|]); [by left|right; auto].
Qed.

(** C5: the parser is safe on any input whose length is below [INT_MAX].
    Whatever C string of less than 2^31 - 1 characters it is given and
    whatever allocations fail, [adx_json_parse] terminates, never reads past
    the terminator of the string, never writes outside a block it asked for,
    never uses a node that was not created, and returns NULL or the address of
    a live node.  The bound is that of the lengths the parser keeps as [int]s:
    the copy of a text of [INT_MAX] characters adds 1 to its length, which
    overflows, whatever the text. *)
Theorem adx_json_parse_safe ao m str :
  no_nul str -> Z.of_nat (length str) < 2147483647 ->
  (exists root m', adx_json_parse ao m str = Ok (root, m') /\ (root = 0 \/ is_Some (nodes m' !! root))) /\
  (forall src, adx_json_strdup ao m src 2147483647 = UB).
Proof. intros Hs Hmax. split; [by apply parse_safe|]. intros src. reflexivity. Qed.

Lemma adx_json_parse_safe_witness :
  (exists root m', adx_json_parse (fun n => Nat.ltb n 5) (JMem ∅ 0) (Q "{'a':[1,2.5e3,true,") = Ok (root, m') /\
    (root = 0 \/ is_Some (nodes m' !! root))) /\
  (forall src, adx_json_strdup (fun n => Nat.ltb n 5) (JMem ∅ 0) src 2147483647 = UB).
Proof.
  apply (adx_json_parse_safe (fun n => Nat.ltb n 5) (JMem ∅ 0)).
  - apply (bool_decide_unpack _). vm_compute. exact I.
  - vm_compute. reflexivity.
Defined.
