(* ===== verification/AdxJsonDoc.v ===== *)
(** JSON documents, continued: building, looking up and printing
    (adx_dsp/src/adx_json.c).

    The growing output buffer is an array of bytes: a write outside it is
    [UB].  Every pool block comes zeroed (AdxAlloc.v). *)

From Stdlib Require Import ZArith Lia.
From S2P Require Import Prelude AdxJson.

Open Scope Z_scope.

(** ** Lookup *)

Fixpoint find_child (m : jmem) (cs : list Z) (k : bytes) : cres Z :=
  match cs with
  | [] => mret 0
  | c :: cs =>
      node ← get m c;
      match key node with
      | Some k' => if decide (strcmp k' k = 0) then mret c else find_child m cs k
      | None => find_child m cs k
      end
  end.

Definition adx_json_find (m : jmem) (root : Z) (k : option bytes) : cres Z :=
  match k with
  | None => mret 0
  | Some k => if decide (root = 0) then mret 0 else node ← get m root; find_child m (child node) k
  end.

Definition adx_json_array_check (m : jmem) (json : Z) : cres Z :=
  if decide (json = 0) then mret (-1) else
  node ← get m json;
  mret (if decide (type node = ADX_JSON_ARRAY /\ array_len node > 0) then 0 else -1).

Fixpoint find_index (cs : list Z) (i index : Z) : Z :=
  match cs with [] => 0 | c :: cs => if decide (i = index) then c else find_index cs (i + 1) index end.

Definition adx_json_find_array (m : jmem) (json index : Z) : cres Z :=
  ok ← adx_json_array_check m json;
  if decide (ok ≠ 0) then mret 0 else node ← get m json; mret (find_index (child node) 0 index).

Definition adx_json_find_value_string (m : jmem) (root : Z) (k : option bytes) : cres (option bytes) :=
  json ← adx_json_find m root k;
  if decide (json = 0) then mret None else
  node ← get m json;
  if decide (type node ≠ ADX_JSON_STRING) then mret None else mret (val node).

(** [atol] and [atof] on the text of a number; [atof] is a parameter. *)
Definition find_number {A} (zero : A) (convert : bytes -> A) (m : jmem) (root : Z) (k : option bytes) : cres A :=
  json ← adx_json_find m root k;
  if decide (json = 0) then mret zero else
  node ← get m json;
  if decide (type node ≠ ADX_JSON_NUMBER) then mret zero else
  match val node with None => mret zero | Some v => mret (convert v) end.

Definition atol (s : bytes) : Z := Z.max (-9223372036854775808) (Z.min 9223372036854775807 (strtol s)).
Definition adx_json_find_value_number := find_number 0 atol.
Definition adx_json_find_value_double {A} (zero : A) (atof : bytes -> A) := find_number zero atof.

(** The output buffer, and the state of the printer. *)
Record adx_json_buffer := Buf { buf : bytes; total : Z; len : Z }.
#[global] Abbreviation pstate := (adx_json_buffer * jmem)%type (only parsing).

Section Pool.
Context (ao : nat -> bool).

(** ** Building *)

Definition adx_json_add (pool : bool) (m : jmem) (root json_type : Z) (k v : option bytes) : cres (Z * jmem) :=
  if decide (root = 0) then mret (0, m) else
  if negb pool then mret (0, m) else
  let len := match k with Some k => i32 (Z.of_nat (length k)) | None => 0 end in
  '(node, m) ← adx_json_create ao m root ((fun k => k ++ [0]) <$> k) len;
  if decide (node = 0) then mret (0, m) else
  m ← update m node (set_type json_type);
  if decide (json_type = ADX_JSON_OBJECT ∨ json_type = ADX_JSON_ARRAY ∨ json_type = ADX_JSON_EMPTY)
  then mret (node, m) else
  if decide (json_type = ADX_JSON_STRING ∨ json_type = ADX_JSON_NUMBER ∨ json_type = ADX_JSON_BOOL ∨ json_type = ADX_JSON_NULL)
  then
    v ← of_opt v;
    '(d, m) ← adx_json_strdup ao m (v ++ [0]) (i32 (Z.of_nat (length v)));
    m ← update m node (set_val d);
    mret (if decide (d = None) then 0 else node, m)
  else mret (0, m).

Definition adx_json_add_object pool m root k := adx_json_add pool m root ADX_JSON_OBJECT k None.
Definition adx_json_add_array pool m root k := adx_json_add pool m root ADX_JSON_ARRAY k None.
Definition adx_json_add_string pool m root k v := adx_json_add pool m root ADX_JSON_STRING k v.
(** [snprintf(number, 64, "%ld", val)] always fits. *)
Definition adx_json_add_number pool m root k (v : Z) := adx_json_add pool m root ADX_JSON_NUMBER k (Some (dec v)).
(** [formatted] is what [%f] gives; 64 bytes hold 63 characters of it. *)
Definition adx_json_add_double pool m root k (formatted : bytes) :=
  adx_json_add pool m root ADX_JSON_NUMBER k (Some (take 63 formatted)).
Definition adx_json_add_true pool m root k := adx_json_add pool m root ADX_JSON_BOOL k (Some (B "true")).
Definition adx_json_add_false pool m root k := adx_json_add pool m root ADX_JSON_BOOL k (Some (B "false")).
Definition adx_json_add_null pool m root k := adx_json_add pool m root ADX_JSON_NULL k (Some (B "null")).

(** ** Printing *)

Definition adx_json_buffer_realloc (st : pstate) : cres (option pstate) :=
  let '(b, m) := st in
  total ← int_ok (total b * 2);
  '(a, m) ← adx_alloc ao m (u64 total);
  if decide (a = 0) then mret None else
  new ← bwrite (replicate (Z.to_nat total) 0) 0 (take (Z.to_nat (len b)) (buf b));
  mret (Some (Buf new total (len b), m)).

(** [int len = strlen(str)]; a negative one is a huge size for [memcpy]. *)
Definition adx_json_buffer_strcat (st : pstate) (s : bytes) : cres (option pstate) :=
  let l := i32 (Z.of_nat (length s)) in
  reached ← int_ok (len st.1 + l);
  st ⇐ (if decide (reached >= total st.1 - 1) then adx_json_buffer_realloc st else mret (Some st));
  let '(b, m) := st in
  if decide (l < 0) then UB else
  mem ← bwrite (buf b) (len b) (take (Z.to_nat l) s);
  mret (Some (Buf mem (total b) (len b + l), m)).

Definition esc_char (c : Z) : bytes :=
  if decide (c = 8) then [92; 98] else if decide (c = 12) then [92; 102] else
  if decide (c = 13) then [92; 114] else if decide (c = 10) then [92; 110] else
  if decide (c = 9) then [92; 116] else if decide (c = 92) then [92; 92] else
  if decide (c = 34) then [92; 34] else if decide (c = 47) then [92; 47] else [c].

(** The loop of [adx_json_buffer_strcat_escapes]: the memory, the position
    [buffer->len + len] reached, and whether the buffer has to grow. *)
Fixpoint esc_loop (mem : bytes) (pos total : Z) (s : bytes) : cres (bytes * Z * bool) :=
  match s with
  | [] => mret (mem, pos, false)
  | c :: s =>
      mem ← bwrite mem pos (esc_char c);
      let pos := pos + Z.of_nat (length (esc_char c)) in
      if decide (pos >= total - 1) then mret (mem, pos, true) else esc_loop mem pos total s
  end.

Fixpoint adx_json_buffer_strcat_escapes (fuel : nat) (st : pstate) (s : bytes) : cres (option pstate) :=
  match fuel with
  | O => NoFuel
  | S fuel =>
      let '(b, m) := st in
      '(mem, pos, grow) ← esc_loop (buf b) (len b) (total b) s;
      if (grow : bool) then
        st ⇐ adx_json_buffer_realloc (Buf mem (total b) (len b), m);
        adx_json_buffer_strcat_escapes fuel st s
      else mret (Some (Buf mem (total b) pos, m))
  end.

(** The buffer at most doubles until its size no longer fits an [int]. *)
Definition escapes := adx_json_buffer_strcat_escapes 32.

(** The beginning of every printed node: its key, if any, then [with_key] or
    [without_key]. *)
Definition print_key (st : pstate) (node : adx_json_t) (with_key without_key : bytes) : cres (option pstate) :=
  match key node with
  | Some k =>
      st ⇐ adx_json_buffer_strcat st [34];
      st ⇐ escapes st k;
      adx_json_buffer_strcat st with_key
  | None => adx_json_buffer_strcat st without_key
  end.

Definition adx_json_buffer_from_string (st : pstate) (node : adx_json_t) : cres (option pstate) :=
  st ⇐ print_key st node [34; 58; 34] [34];
  v ← of_opt (val node);
  st ⇐ escapes st v;
  adx_json_buffer_strcat st [34].

Definition adx_json_buffer_from_other (st : pstate) (node : adx_json_t) : cres (option pstate) :=
  st ⇐ (match key node with Some _ => print_key st node [34; 58] [] | None => mret (Some st) end);
  v ← of_opt (val node);
  adx_json_buffer_strcat st v.

(** The loop over the children, given the printers of objects and arrays. *)
Section Children.
Context (from_object from_array : pstate -> Z -> cres (option pstate)).

Definition print_child (st : pstate) (c : Z) (comma : bool) : cres (option (pstate * bool)) :=
  node ← get st.2 c;
  st ⇐ (if comma then adx_json_buffer_strcat st [44] else mret (Some st));
  if decide (type node = ADX_JSON_OBJECT) then st ⇐ from_object st c; mret (Some (st, true)) else
  if decide (type node = ADX_JSON_ARRAY) then st ⇐ from_array st c; mret (Some (st, true)) else
  if decide (type node = ADX_JSON_STRING) then st ⇐ adx_json_buffer_from_string st node; mret (Some (st, true)) else
  if decide (type node = ADX_JSON_NUMBER ∨ type node = ADX_JSON_BOOL ∨ type node = ADX_JSON_NULL)
  then st ⇐ adx_json_buffer_from_other st node; mret (Some (st, true)) else
  if decide (type node = ADX_JSON_EMPTY) then mret (Some (st, false)) else mret None.

Fixpoint print_children (st : pstate) (cs : list Z) (comma : bool) : cres (option pstate) :=
  match cs with
  | [] => mret (Some st)
  | c :: cs => r ⇐ print_child st c comma; print_children r.1 cs r.2
  end.
End Children.

(** [fuel]: the depth of the document. *)
Fixpoint adx_json_buffer_from_object (fuel : nat) (st : pstate) (root : Z) : cres (option pstate) :=
  match fuel with
  | O => NoFuel
  | S fuel =>
      node ← get st.2 root;
      st ⇐ print_key st node [34; 58; 123] [123];
      st ⇐ print_children (adx_json_buffer_from_object fuel) (adx_json_buffer_from_array fuel) st (child node) false;
      adx_json_buffer_strcat st [125]
  end
with adx_json_buffer_from_array (fuel : nat) (st : pstate) (root : Z) : cres (option pstate) :=
  match fuel with
  | O => NoFuel
  | S fuel =>
      node ← get st.2 root;
      st ⇐ print_key st node [34; 58; 91] [91];
      st ⇐ print_children (adx_json_buffer_from_object fuel) (adx_json_buffer_from_array fuel) st (child node) false;
      adx_json_buffer_strcat st [93]
  end.

Definition ADX_JSON_BUFF_SIZE : Z := 2048.

Definition adx_json_to_buffer (fuel : nat) (m : jmem) (node : Z) : cres (option bytes * jmem) :=
  '(a, m) ← adx_alloc ao m ADX_JSON_BUFF_SIZE;
  if decide (a = 0) then mret (None, m) else
  r ← adx_json_buffer_from_object fuel (Buf (replicate (Z.to_nat ADX_JSON_BUFF_SIZE) 0) ADX_JSON_BUFF_SIZE 0, m) node;
  match r with
  | None => mret (None, m)
  | Some (b, m) =>
      if decide (len b <= 0) then mret (None, m) else
      mem ← bset (buf b) (len b) 0;
      mret (Some mem, m)
  end.
End Pool.

(** ** Display *)

Definition adx_json_status (status : Z) : bytes :=
  if decide (status = ADX_JSON_OBJECT) then B "ADX_JSON_OBJECT" else
  if decide (status = ADX_JSON_ARRAY) then B "ADX_JSON_ARRAY" else
  if decide (status = ADX_JSON_STRING) then B "ADX_JSON_STRING" else
  if decide (status = ADX_JSON_NUMBER) then B "ADX_JSON_NUMBER" else
  if decide (status = ADX_JSON_EMPTY) then B "ADX_JSON_EMPTY" else
  if decide (status = ADX_JSON_BOOL) then B "ADX_JSON_BOOL" else
  if decide (status = ADX_JSON_NULL) then B "ADX_JSON_NULL" else [].

(** [%s] of NULL prints [(null)]. *)
Definition percent_s (s : option bytes) : bytes := default (B "(null)") s.

Definition display_node (node : adx_json_t) : bytes :=
  let st := [91] ++ adx_json_status (type node) ++ [93] in
  if decide (type node = ADX_JSON_ARRAY) then
    st ++ B "[len=" ++ dec (array_len node) ++ B "][" ++ percent_s (key node) ++ [93; 10]
  else match key node, val node with
       | Some k, Some v => st ++ [91] ++ k ++ [93; 91] ++ v ++ [93; 10]
       | Some k, None => st ++ [91] ++ k ++ [93; 10]
       | None, Some v => st ++ [91] ++ v ++ [93; 10]
       | None, None => st ++ [10]
       end.

(** One bar per ancestor below the root. *)
Fixpoint display_bars (fuel : nat) (m : jmem) (p : Z) : cres bytes :=
  match fuel with
  | O => NoFuel
  | S fuel =>
      if decide (p = 0) then mret [] else
      node ← get m p;
      if decide (parent node = 0) then mret [] else
      rest ← display_bars fuel m (parent node);
      mret (B "│    " ++ rest)
  end.

(** The text printed; [fuel] bounds the depth. *)
Fixpoint adx_json_display (fuel : nat) (m : jmem) (root : Z) : cres bytes :=
  match fuel with
  | O => NoFuel
  | S fuel' =>
      if decide (root = 0) then mret [] else
      r ← get m root;
      (fix children (cs : list Z) : cres bytes :=
         match cs with
         | [] => mret []
         | c :: cs =>
             node ← get m c;
             bars ← display_bars (S (S (nalloc m))) m (parent node);
             sub ← adx_json_display fuel' m c;
             rest ← children cs;
             mret (bars ++ B "├──" ++ display_node node ++ sub ++ rest)
         end) (child r)
  end.
