(* ===== verification/AdxJsonRound.v ===== *)
(** JSON documents: values, their text, and the round trip of the printer and
    the parser of adx_dsp/src/adx_json.c. *)

From Stdlib Require Import ZArith Lia.
From S2P Require Import Prelude AdxAlloc AdxJson AdxJsonDoc.

Open Scope Z_scope.
Set Warnings "-register-all".

(** ** Values

    A collection (array or object) of members with or without a key, or a
    scalar of a given type with its text. *)
Inductive jv : Type :=
| Coll (arr : bool) (l : list (option bytes * jv))
| Leaf (t : Z) (s : bytes).

Definition JObj (l : list (bytes * jv)) : jv := Coll false (map (fun p => (Some p.1, p.2)) l).
Definition JArr (l : list jv) : jv := Coll true (map (fun v => (None, v)) l).
Definition JStr (s : bytes) : jv := Leaf ADX_JSON_STRING s.
Definition JNum (s : bytes) : jv := Leaf ADX_JSON_NUMBER s.

Definition jtype (v : jv) : Z :=
  match v with Coll arr _ => if arr then ADX_JSON_ARRAY else ADX_JSON_OBJECT | Leaf t _ => t end.

Section JvInd.
Context (P : jv -> Prop).
Context (Pcoll : forall arr l, Forall (fun kv => P kv.2) l -> P (Coll arr l)) (Pleaf : forall t s, P (Leaf t s)).
Fixpoint jv_ind' (v : jv) : P v :=
  match v with
  | Coll arr l => Pcoll arr l ((fix go (l : list (option bytes * jv)) : Forall (fun kv => P kv.2) l :=
      match l with [] => Forall_nil_2 _ | kv :: l => Forall_cons_2 _ _ _ (jv_ind' kv.2) (go l) end) l)
  | Leaf t s => Pleaf t s
  end.
End JvInd.

(** ** Their text *)

Definition escape (s : bytes) : bytes := concat (map esc_char s).
Definition key_text (k : option bytes) : bytes :=
  match k with Some k => 34 :: escape k ++ [34; 58] | None => [] end.

Fixpoint body (v : jv) : bytes :=
  match v with
  | Coll arr l =>
      (if arr then 91 else 123) :: join [44] (map (fun kv => key_text kv.1 ++ body kv.2) l)
      ++ [if arr then 93 else 125]
  | Leaf t s => if decide (t = ADX_JSON_STRING) then 34 :: escape s ++ [34] else s
  end.

Definition member_text (kv : option bytes * jv) : bytes := key_text kv.1 ++ body kv.2.

Definition members_text (l : list (option bytes * jv)) : bytes := join [44] (map member_text l).

Fixpoint depth (v : jv) : nat :=
  match v with Coll _ l => S (list_max (map (fun kv => depth kv.2) l)) | Leaf _ _ => 1%nat end.

(** The values a document represents faithfully: no empty string or
    collection (the parser gives those the type EMPTY, which loses them),
    numbers made of the characters of numbers. *)
Definition number_ok (s : bytes) : Prop :=
  Forall (fun c => number_char c = true) s /\
  match s with c :: _ => c = 45 \/ 48 <= c <= 57 | [] => False end.

Definition key_ok (arr : bool) (k : option bytes) : Prop :=
  match k with Some k => arr = false /\ k ≠ [] /\ no_nul k | None => arr = true end.

Fixpoint jv_ok (v : jv) : Prop :=
  match v with
  | Coll arr l => l ≠ [] /\ (fix go (l : list (option bytes * jv)) : Prop :=
      match l with [] => True | kv :: l => key_ok arr kv.1 /\ jv_ok kv.2 /\ go l end) l
  | Leaf t s =>
      (t = ADX_JSON_STRING /\ s ≠ [] /\ no_nul s) \/
      (t = ADX_JSON_NUMBER /\ number_ok s) \/
      (t = ADX_JSON_BOOL /\ (s = B "true" \/ s = B "false")) \/
      (t = ADX_JSON_NULL /\ s = B "null")
  end.

Lemma jv_ok_coll arr l : jv_ok (Coll arr l) <-> l ≠ [] /\ Forall (fun kv => key_ok arr kv.1 /\ jv_ok kv.2) l.
Proof.
  simpl. split; intros [Hne H]; (split; [done|]); clear Hne.
  - induction l as [|kv l IH]; [constructor|]. destruct H as (H1 & H2 & H3). constructor; [by split|auto].
  - induction H as [|kv l [H1 H2] Hl IH]; [done|]. by split_and!.
Qed.

(** ** Their representation in memory *)

(** The address of the next block. *)
Definition fresh (m : jmem) : Z := Z.of_nat (S (nalloc m)).

(** Every node is at the address of a block already handed out. *)
Definition wf (m : jmem) : Prop := forall a n, nodes m !! a = Some n -> 0 < a < fresh m.

(** [holds lo hi m a k v]: the node at [a] has key [k] and represents [v], and
    the whole subtree lies at addresses from [lo] to below [hi]. *)
Inductive holds (lo hi : Z) (m : jmem) : Z -> option bytes -> jv -> Prop :=
| holds_coll a n arr l :
    lo <= a < hi -> nodes m !! a = Some n -> type n = jtype (Coll arr l) ->
    (arr = true -> array_len n = Z.of_nat (length l)) ->
    Forall2 (fun c kv => holds lo hi m c kv.1 kv.2) (child n) l -> holds lo hi m a (key n) (Coll arr l)
| holds_leaf a n t s :
    lo <= a < hi -> nodes m !! a = Some n -> type n = t -> val n = Some s -> child n = [] -> holds lo hi m a (key n) (Leaf t s).

(** The root of a document: no key, members that hold, and not below itself. *)
Definition holds_doc (m : jmem) (a : Z) (l : list (option bytes * jv)) : Prop :=
  exists n lo hi, nodes m !! a = Some n /\ key n = None /\ a < lo /\ hi <= fresh m /\
    Forall2 (fun c kv => holds lo hi m c kv.1 kv.2) (child n) l.

Lemma holds_frame lo hi m lo' hi' m' a k v :
  holds lo hi m a k v -> lo' <= lo -> hi <= hi' ->
  (forall p, lo <= p < hi -> nodes m' !! p = nodes m !! p) -> holds lo' hi' m' a k v.
Proof.
  intros H Hlo Hhi Hm. revert a k H. induction v as [arr l IH|t s] using jv_ind'; intros a k H.
  - inversion H as [? n ? ? Ha Hn Ht Hlen Hc|]; subst. constructor; [lia|by rewrite Hm|done|done|].
    clear -Hc IH. induction Hc as [|c kv cs l Hc Hcs IHc]; [constructor|].
    apply Forall_cons in IH as [IH1 IH2]. constructor; auto.
  - inversion H as [|? n ? ? Ha Hn Ht Hs]; subst. constructor; [lia|by rewrite Hm|done|done|done].
Qed.

Lemma holds_list_frame lo hi m lo' hi' m' cs l :
  Forall2 (fun c kv => holds lo hi m c kv.1 kv.2) cs l -> lo' <= lo -> hi <= hi' ->
  (forall p, lo <= p < hi -> nodes m' !! p = nodes m !! p) ->
  Forall2 (fun c (kv : option bytes * jv) => holds lo' hi' m' c kv.1 kv.2) cs l.
Proof. intros H ? ? ?. eapply Forall2_impl; [exact H|]. simpl. intros c kv Hc. by eapply holds_frame. Qed.

(** ** Escaping *)

Lemma esc_char_cases c :
  (esc_char c = [c] /\ c ≠ 92 /\ c ≠ 34) \/ (exists d, esc_char c = [92; d] /\ unescape d = c /\ d ≠ 0).
Proof.
  unfold esc_char, unescape. repeat case_decide; subst;
    try (left; by split_and!); right; eexists; (split; [reflexivity|]); split; try done.
Qed.

Lemma escape_cons c s : escape (c :: s) = esc_char c ++ escape s.
Proof. done. Qed.

Lemma string_end_escape s rest len : no_nul s ->
  string_end (escape s ++ 34 :: rest) len = Ok (Some ((len + length (escape s))%nat, rest)).
Proof.
  intros Hs. revert len. induction Hs as [|c s Hc Hs IH]; intros len.
  - simpl. do 3 f_equal. lia.
  - rewrite escape_cons, <- app_assoc, length_app.
    destruct (esc_char_cases c) as [(-> & H1 & H2)|(d & -> & _ & Hd)]; cbn [app string_end length].
    + rewrite !decide_False by done. rewrite IH. do 3 f_equal. lia.
    + rewrite (decide_False (P := 92 = 0)), (decide_True (P := 92 = 92)), decide_False by done. rewrite IH. do 3 f_equal. lia.
Qed.

Lemma strdup_escape s rest : no_nul s -> strdup_loop (escape s ++ 34 :: rest) (length (escape s)) = Ok s.
Proof.
  induction 1 as [|c s Hc Hs IH]; [done|]. rewrite escape_cons, <- app_assoc, length_app.
  destruct (esc_char_cases c) as [(-> & H1 & H2)|(d & -> & Hu & Hd)]; cbn [app strdup_loop length plus].
  - rewrite decide_False by done. by rewrite IH.
  - rewrite decide_True by done. replace (S (length (escape s)) - 1)%nat with (length (escape s)) by lia. rewrite IH. cbn. by rewrite Hu.
Qed.

Lemma escape_nonempty s : s ≠ [] -> exists c r, escape s = c :: r /\ c ≠ 34.
Proof.
  destruct s as [|c s]; [done|]. intros _. rewrite escape_cons.
  destruct (esc_char_cases c) as [(-> & H1 & H2)|(d & -> & _)]; cbn [app]; eexists _, _; split; try done.
Qed.

Lemma parse_string_escape s rest : s ≠ [] -> no_nul s -> Z.of_nat (length (escape s)) <= 2147483647 ->
  adx_json_parse_string (34 :: escape s ++ 34 :: rest) =
    Ok (ADX_JSON_STRING, (escape s ++ 34 :: rest, Z.of_nat (length (escape s))), rest).
Proof.
  intros Hne Hs Hmax. unfold adx_json_parse_string. cbn [deref head of_opt incr mbind cres_bind mret cres_ret].
  rewrite decide_False by (intros H; by apply H). destruct (escape_nonempty s Hne) as (c & r & E & Hc).
  pose proof (string_end_escape s rest 0 Hs) as Hend. rewrite E in Hend |- *.
  cbn [app deref head of_opt mbind cres_bind]. rewrite decide_False by done. cbn [app] in Hend. rewrite Hend, ok_bind, <- E, i32_small by (simpl; lia). done.
Qed.

(** ** Parsing the text of a value *)

(** Memory [m'] extends [m], only the node at [a] may have changed. *)
Definition ext (a : Z) (m m' : jmem) : Prop :=
  fresh m <= fresh m' /\ wf m' /\ forall p, p < fresh m -> p ≠ a -> nodes m' !! p = nodes m !! p.

Lemma wf_put m a n : wf m -> 0 < a < fresh m -> wf (put m a n).
Proof.
  intros Hm Ha b n' H. change (fresh (put m a n)) with (fresh m). simpl in H.
  destruct (decide (a = b)) as [->|Hne]; [done|]. rewrite lookup_insert_ne in H by done. by eapply Hm.
Qed.

Lemma update_ok m a n f : nodes m !! a = Some n -> update m a f = Ok (put m a (f n)).
Proof. intros H. unfold update, get. by rewrite H. Qed.

Lemma put_eq m a n : nodes (put m a n) !! a = Some n.
Proof. apply lookup_insert_eq. Qed.
Lemma put_ne m a b n : a ≠ b -> nodes (put m a n) !! b = nodes m !! b.
Proof. apply lookup_insert_ne. Qed.

Section Pool.
Context (ao : nat -> bool) (Hao : forall k, ao k = true).

Lemma alloc_ok m size : small_size size -> adx_alloc ao m size = Ok (fresh m, JMem (nodes m) (S (nalloc m))).
Proof. intros Hs. rewrite alloc_small by done. by rewrite Hao. Qed.

Lemma strdup_ok m src len s : strdup_loop src len = Ok s -> Z.of_nat len < 2147483647 ->
  adx_json_strdup ao m src (Z.of_nat len) = Ok (Some s, JMem (nodes m) (S (nalloc m))).
Proof. intros E Hlen. rewrite (strdup_small ao m src len s) by done. by rewrite Hao. Qed.

Lemma create_ok m p pn src len k :
  wf m -> nodes m !! p = Some pn ->
  match src with Some src => Z.of_nat len < 2147483647 /\ exists s, strdup_loop src len = Ok s /\ k = Some s | None => k = None end ->
  exists m', adx_json_create ao m p src (Z.of_nat len) = Ok (fresh m, m') /\ ext p m m' /\ fresh m < fresh m' /\
    nodes m' !! fresh m = Some (Json 0 k None 0 p []) /\ nodes m' !! p = Some (add_child (fresh m) pn).
Proof.
  intros Hm Hp Hk. pose proof (Hm _ _ Hp) as Hpf. unfold adx_json_create.
  rewrite alloc_ok, ok_bind by apply small_size_json. rewrite decide_False by (unfold fresh; lia).
  set (m1 := JMem (nodes m) (S (nalloc m))).
  assert (exists m2, (match src with Some key => adx_json_strdup ao m1 key (Z.of_nat len) | None => mret (None, m1) end) = Ok (k, m2)
    /\ nodes m2 = nodes m /\ (S (nalloc m) <= nalloc m2)%nat /\ (is_Some src -> is_Some k)) as (m2 & -> & Hn2 & Hf2 & Hsome).
  { destruct src as [src|].
    - destruct Hk as (Hmax & s & E & ->). rewrite (strdup_ok m1 src len s E Hmax). eexists. split_and!; [done|done|simpl; lia|eauto].
    - subst k. exists m1. split_and!; [done|done|simpl; lia|]. by intros []. }
  cbn [mbind cres_bind]. rewrite decide_False by (intros [H1 H2]; apply Hsome in H1 as [? H1]; congruence).
  rewrite (decide_False (P := p = 0)) by lia.
  assert (fresh m ≠ p) by lia.
  rewrite (update_ok _ p pn) by (by rewrite put_ne, Hn2). cbn [mbind cres_bind mret cres_ret].
  set (c := Json 0 k None 0 p []). eexists. split; [done|]. split_and!.
  - split_and!; [unfold fresh; simpl; lia| |].
    + assert (wf (put m2 (fresh m) c)).
      { intros b n Hb. destruct (decide (fresh m = b)) as [<-|Hne]; [unfold fresh in *; simpl; lia|].
        rewrite put_ne, Hn2 in Hb by done. apply Hm in Hb. unfold fresh in *. simpl. lia. }
      apply wf_put; [done|]. unfold fresh in *. simpl. lia.
    + intros q Hq Hne. rewrite !put_ne by lia. by rewrite Hn2.
  - unfold fresh. simpl. lia.
  - by rewrite put_ne, put_eq by done.
  - by rewrite put_eq.
Qed.

(** What the parser of a value leaves in its node, the type apart. *)
Definition content (lo hi : Z) (m : jmem) (n : adx_json_t) (v : jv) : Prop :=
  match v with
  | Coll arr l => (arr = true -> array_len n = Z.of_nat (length l)) /\
      Forall2 (fun c kv => holds lo hi m c kv.1 kv.2) (child n) l
  | Leaf t s => val n = Some s /\ child n = []
  end.

Lemma content_holds m a n v :
  wf m -> nodes m !! a = Some n -> forall lo, a < lo -> content lo (fresh m) m n v ->
  holds a (fresh m) (put m a (set_type (jtype v) n)) a (key n) v.
Proof.
  intros Hm Ha lo Hlo Hc. pose proof (Hm _ _ Ha) as Hr. set (n' := set_type (jtype v) n). change (key n) with (key n').
  destruct v as [arr l|t s]; simpl in Hc.
  - destruct Hc as [Hlen Hl]. apply holds_coll; [lia|apply put_eq|done|done|].
    eapply holds_list_frame; [exact Hl|lia|done|]. intros p Hp. apply put_ne. lia.
  - destruct Hc. apply holds_leaf; [lia|apply put_eq|done..].
Qed.

(** What follows a value inside a collection. *)
Definition sep (rest : bytes) : Prop := exists c r, rest = c :: r /\ (c = 44 \/ c = 125 \/ c = 93).

Definition fresh_node (k : option bytes) (p : Z) : adx_json_t := Json 0 k None 0 p [].

Definition parses (v : jv) : Prop := forall fuel m node k p rest,
  wf m -> nodes m !! node = Some (fresh_node k p) -> sep rest -> (length (body v ++ rest) <= fuel)%nat ->
  Z.of_nat (length (body v ++ rest)) <= 2147483647 ->
  exists m' n, adx_json_parse_value ao fuel m (body v ++ rest) node = Ok (jtype v, rest, m') /\
    ext node m m' /\ nodes m' !! node = Some n /\ key n = k /\ content (fresh m) (fresh m') m' n v.

(** The state of a collection at [p] while its members are parsed; [m0] is
    the memory the loop started from. *)
Definition loop_inv (m0 : jmem) (p : Z) (k : option bytes) (t : Z) (m : jmem) (l : list (option bytes * jv)) : Prop :=
  ext p m0 m /\ 0 < p < fresh m0 /\
  exists n, nodes m !! p = Some n /\ key n = k /\ type n = t /\
    (t = ADX_JSON_ARRAY -> array_len n = Z.of_nat (length l)) /\
    Forall2 (fun c kv => holds (fresh m0) (fresh m) m c kv.1 kv.2) (child n) l.

Lemma member_step m0 p k0 t0 m l m1 m2 n k v :
  loop_inv m0 p k0 t0 m l -> ext p m m1 -> fresh m < fresh m1 ->
  (forall pn, nodes m !! p = Some pn -> nodes m1 !! p = Some (add_child (fresh m) pn)) ->
  ext (fresh m) m1 m2 -> nodes m2 !! fresh m = Some n -> key n = k -> content (fresh m1) (fresh m2) m2 n v ->
  loop_inv m0 p k0 t0 (put m2 (fresh m) (set_type (jtype v) n)) (l ++ [(k, v)]).
Proof.
  intros (Hext & Hp & pn & Hpn & Hk & Ht & Hlen & Hl) E1 Hf1 Hadd E2 Hn Hkn Hc.
  destruct Hext as (Hf & Hwf & Hfr). destruct E1 as (_ & Hwf1 & Hfr1). destruct E2 as (Hf2 & Hwf2 & Hfr2).
  set (m3 := put m2 (fresh m) (set_type (jtype v) n)). change (fresh m3) with (fresh m2) in *.
  assert (fresh m2 = fresh m3) as Hf3 by done.
  assert (nodes m3 !! p = Some (add_child (fresh m) pn)) as Hp3.
  { subst m3. rewrite put_ne, Hfr2 by lia. by apply Hadd. }
  assert (forall q, q < fresh m -> q ≠ p -> nodes m3 !! q = nodes m !! q) as Hold.
  { intros q Hq Hne. subst m3. rewrite put_ne, Hfr2, Hfr1 by lia. done. }
  split; [split_and!|split; [done|]].
  - lia.
  - apply wf_put; [done|lia].
  - intros q Hq Hne. rewrite Hold by lia. by apply Hfr.
  - exists (add_child (fresh m) pn). split; [done|]. split; [done|]. split; [done|]. split.
    + intros E. rewrite length_app. simpl. rewrite Ht, decide_True by done. rewrite Hlen by done. lia.
    + simpl. apply Forall2_app.
      * eapply holds_list_frame; [exact Hl|lia|lia|]. intros q Hq. apply Hold; lia.
      * constructor; [|constructor]. simpl. rewrite <- Hkn.
        eapply holds_frame; [exact (content_holds m2 (fresh m) n v Hwf2 Hn (fresh m1) Hf1 Hc)|lia|lia|done].
Qed.

(** Characters the parser does not skip. *)
Lemma skip_none c rest : 32 < c < 128 -> adx_json_skip_space (c :: rest) = Ok (c :: rest).
Proof.
  intros Hc. simpl. rewrite decide_False by lia.
  assert (schar c = c) as -> by (unfold schar; by rewrite decide_True by lia). by rewrite decide_True by lia.
Qed.

Lemma skip_sep rest : sep rest -> adx_json_skip_space rest = Ok rest.
Proof. intros (c & r & -> & Hc). apply skip_none. lia. Qed.

Lemma parse_key_ok m k rest p pn : wf m -> nodes m !! p = Some pn -> k ≠ [] -> no_nul k ->
  Z.of_nat (length (escape k)) < 2147483647 ->
  exists m', adx_json_parse_key ao m (34 :: escape k ++ 34 :: rest) p = Ok (fresh m, rest, m') /\ ext p m m' /\
    fresh m < fresh m' /\ nodes m' !! fresh m = Some (fresh_node (Some k) p) /\
    nodes m' !! p = Some (add_child (fresh m) pn).
Proof.
  intros Hm Hp Hne Hk Hmax. unfold adx_json_parse_key. rewrite parse_string_escape by (done || lia). cbn [mbind cres_bind].
  rewrite decide_False by (intros H; by apply H). unfold adx_json_create_key. rewrite decide_False.
  2:{ destruct (escape_nonempty k Hne) as (c & r & -> & _). done. }
  destruct (create_ok m p pn (Some (escape k ++ 34 :: rest)) (length (escape k)) (Some k)) as (m' & -> & H);
    [done|done|split; [done|]; eexists; split; [by apply strdup_escape|done]|].
  cbn [mbind cres_bind]. exists m'. split; [done|exact H].
Qed.

(** Type of a value: never the error. *)
Lemma jtype_ok v : jv_ok v -> jtype v ≠ ADX_JSON_ERROE.
Proof. destruct v as [[] l|t s]; [done|done|]. simpl. by intros [[-> _]|[[-> _]|[[-> _]|[-> _]]]]. Qed.

(** The first character of a value. *)
Lemma body_head v : jv_ok v -> exists c r, body v = c :: r /\ 32 < c < 125 /\ c ≠ 93.
Proof.
  destruct v as [[] l|t s]; [eexists _, _; split; [reflexivity|lia]..|]. simpl.
  intros [(-> & _)|[(-> & _ & Hs)|[(-> & [->| ->])|(-> & ->)]]].
  - rewrite decide_True by done. eexists _, _. split; [reflexivity|lia].
  - rewrite decide_False by done. destruct s as [|c s]; [done|]. exists c, s. split; [done|]. lia.
  - rewrite decide_False by done. eexists _, _. split; [reflexivity|]. split; [split|]; by vm_compute.
  - rewrite decide_False by done. eexists _, _. split; [reflexivity|]. split; [split|]; by vm_compute.
  - rewrite decide_False by done. eexists _, _. split; [reflexivity|]. split; [split|]; by vm_compute.
Qed.

Section Members.
Context (fuel0 : nat).

(** The members of a non-empty collection, up to its closing character. *)
Lemma object_members l fuel m0 p k0 t0 m l0 rest :
  l ≠ [] -> Forall (fun kv => key_ok false kv.1 /\ jv_ok kv.2 /\ parses kv.2) l ->
  (length (members_text l ++ 125%Z :: rest) <= fuel)%nat ->
  (length (members_text l ++ 125%Z :: rest) <= fuel0)%nat ->
  Z.of_nat (length (members_text l ++ 125%Z :: rest)) <= 2147483647 ->
  loop_inv m0 p k0 t0 m l0 ->
  exists m', object_loop ao (adx_json_parse_value ao fuel0) fuel m (members_text l ++ 125 :: rest) p
    = Ok (true, 125 :: rest, m') /\ loop_inv m0 p k0 t0 m' (l0 ++ l).
Proof.
  intros Hne Hl. revert fuel m l0. induction Hl as [|kv l (Hk & Hv & HP) Hl IH]; [done|]. clear Hne. intros fuel m l0 Hf Hf0 Hmax Hinv.
  destruct kv as [[k|] v]; [|done]. destruct Hk as (_ & Hkne & Hk). cbn [fst snd] in *.
  set (tail := match l with [] => 125 :: rest | _ => 44 :: members_text l ++ 125 :: rest end).
  assert (members_text ((Some k, v) :: l) ++ 125 :: rest = 34 :: escape k ++ 34 :: 58 :: body v ++ tail) as E.
  { subst tail. destruct l as [|kv l]; unfold members_text; cbn [map join member_text key_text fst snd app];
      rewrite <- ?app_comm_cons, <- ?app_assoc; cbn [app]; rewrite <- ?app_assoc; done. }
  rewrite E in Hf, Hf0, Hmax |- *. destruct fuel as [|fuel]; [simpl in Hf; lia|]. cbn [object_loop deref head of_opt mbind cres_bind].
  rewrite decide_False by done. rewrite skip_none by lia. cbn [mbind cres_bind].
  pose proof Hinv as ((Hfr & Hwf & _) & Hpr & pn & Hpn & _).
  clear E. cbn [length] in Hf, Hf0, Hmax. rewrite !length_app in Hf, Hf0, Hmax. cbn [length] in Hf, Hf0, Hmax.
  rewrite !length_app in Hf, Hf0, Hmax.
  destruct (parse_key_ok m k (58 :: body v ++ tail) p pn) as (m1 & -> & E1 & Hf1 & Hc1 & Hp1); [done..|lia|].
  cbn [mbind cres_bind]. rewrite decide_False by (unfold fresh; lia). rewrite skip_none by lia.
  cbn [deref head of_opt incr mbind cres_bind mret cres_ret]. rewrite (decide_False (P := 58 ≠ 58)) by (intros H; by apply H).
  assert (sep tail) as Hsep by (subst tail; destruct l; eexists _, _; eauto).
  destruct E1 as (Hle & Hwf1 & Hfr1).
  destruct (HP fuel0 m1 (fresh m) (Some k) p tail) as (m2 & n & -> & E2 & Hn & Hkn & Hcont);
    [done|done|done|rewrite length_app; lia|rewrite length_app; lia|].
  cbn [mbind cres_bind]. rewrite decide_False by (by apply jtype_ok). rewrite (update_ok _ _ n) by done.
  cbn [mbind cres_bind]. rewrite skip_sep by done. cbn [mbind cres_bind].
  assert (loop_inv m0 p k0 t0 (put m2 (fresh m) (set_type (jtype v) n)) (l0 ++ [(Some k, v)])) as Hinv'.
  { eapply (member_step m0 p k0 t0 m l0 m1 m2 n (Some k) v); try done. intros pn' Hpn'. congruence. }
  subst tail. destruct l as [|kv l]; cbn [deref head of_opt incr mbind cres_bind mret cres_ret].
  - rewrite decide_True by done. eauto.
  - rewrite decide_False by (intros H; by apply H).
    destruct (IH ltac:(done) fuel _ _ ltac:(simpl in *; lia) ltac:(simpl in *; lia) ltac:(simpl in *; lia) Hinv') as (m' & -> & H').
    exists m'. split; [done|]. by rewrite <- app_assoc in H'.
Qed.

Lemma array_members l fuel m0 p k0 t0 m l0 rest :
  l ≠ [] -> Forall (fun kv => key_ok true kv.1 /\ jv_ok kv.2 /\ parses kv.2) l ->
  (length (members_text l ++ 93%Z :: rest) <= fuel)%nat ->
  (length (members_text l ++ 93%Z :: rest) <= fuel0)%nat ->
  Z.of_nat (length (members_text l ++ 93%Z :: rest)) <= 2147483647 ->
  loop_inv m0 p k0 t0 m l0 ->
  exists m', array_loop ao (adx_json_parse_value ao fuel0) fuel m (members_text l ++ 93 :: rest) p
    = Ok (true, 93 :: rest, m') /\ loop_inv m0 p k0 t0 m' (l0 ++ l).
Proof.
  intros Hne Hl. revert fuel m l0. induction Hl as [|kv l (Hk & Hv & HP) Hl IH]; [done|]. clear Hne. intros fuel m l0 Hf Hf0 Hmax Hinv.
  destruct kv as [[k|] v]; [by destruct Hk|]. cbn [fst snd] in *.
  set (tail := match l with [] => 93 :: rest | _ => 44 :: members_text l ++ 93 :: rest end).
  assert (members_text ((None, v) :: l) ++ 93 :: rest = body v ++ tail) as E.
  { subst tail. destruct l as [|kv l]; unfold members_text; cbn [map join member_text key_text fst snd app];
      rewrite <- ?app_assoc; done. }
  rewrite E in Hf, Hf0, Hmax |- *. assert (sep tail) as Hsep by (subst tail; destruct l; eexists _, _; eauto).
  destruct fuel as [|fuel]; [rewrite length_app in Hf; destruct Hsep as (? & ? & -> & _); simpl in Hf; lia|].
  cbn [array_loop]. destruct (body_head v Hv) as (c & r & Eb & Hc).
  assert (deref (body v ++ tail) = Ok c) as -> by (by rewrite Eb). cbn [mbind cres_bind]. rewrite decide_False by lia.
  pose proof Hinv as ((Hfr & Hwf & _) & Hpr & pn & Hpn & _).
  destruct (create_ok m p pn None 0%nat None) as (m1 & Ec & (Hle & Hwf1 & Hfr1) & Hf1 & Hc1 & Hp1); [done..|].
  change (Z.of_nat 0) with 0 in Ec. rewrite Ec. clear Ec.
  cbn [mbind cres_bind]. rewrite decide_False by (unfold fresh; lia).
  destruct (HP fuel0 m1 (fresh m) None p tail) as (m2 & n & -> & E2 & Hn & Hkn & Hcont); [done..|].
  cbn [mbind cres_bind]. rewrite decide_False by (by apply jtype_ok). rewrite (update_ok _ _ n) by done.
  cbn [mbind cres_bind]. rewrite skip_sep by done. cbn [mbind cres_bind].
  assert (loop_inv m0 p k0 t0 (put m2 (fresh m) (set_type (jtype v) n)) (l0 ++ [(None, v)])) as Hinv'.
  { eapply (member_step m0 p k0 t0 m l0 m1 m2 n None v); try done. intros pn' Hpn'. congruence. }
  rewrite length_app in Hf, Hf0, Hmax. assert (0 < length (body v))%nat by (rewrite Eb; simpl; lia).
  subst tail. destruct l as [|kv l]; cbn [deref head of_opt incr mbind cres_bind mret cres_ret].
  - rewrite decide_True by done. eauto.
  - rewrite decide_False by (intros Hx; by apply Hx).
    destruct (IH ltac:(done) fuel _ _ ltac:(simpl in *; lia) ltac:(simpl in *; lia) ltac:(simpl in *; lia) Hinv') as (m' & -> & H').
    exists m'. split; [done|]. by rewrite <- app_assoc in H'.
Qed.
End Members.

Lemma loop_inv_start m p n : wf m -> nodes m !! p = Some n -> child n = [] -> array_len n = 0 ->
  loop_inv m p (key n) (type n) m [].
Proof.
  intros Hm Hp Hc Hl. split; [|split; [by eapply Hm|]].
  - split; [lia|]. split; [done|]. done.
  - exists n. rewrite Hc. split_and!; try done.
Qed.

(** The members are not empty and start with a character that is kept. *)
Lemma members_head arr l : l ≠ [] -> Forall (fun kv => key_ok arr kv.1 /\ jv_ok kv.2) l ->
  exists c r, members_text l = c :: r /\ 32 < c < 125 /\ c ≠ 93.
Proof.
  destruct l as [|[[k|] v] l]; [done| |]; intros _ [[Hk Hv] _]%Forall_cons; cbn [fst snd] in *.
  - unfold members_text. destruct l; eexists _, _; (split; [reflexivity|lia]).
  - destruct (body_head v Hv) as (c & r & E & Hc). unfold members_text, member_text.
    destruct l; cbn [map join fst snd key_text app]; rewrite E; cbn [app]; eauto.
Qed.

Lemma parse_object_ok l fuel m node n rest :
  l ≠ [] -> Forall (fun kv => key_ok false kv.1 /\ jv_ok kv.2 /\ parses kv.2) l -> wf m ->
  nodes m !! node = Some n -> child n = [] -> array_len n = 0 -> type n = 0 ->
  (length (members_text l ++ 125%Z :: rest) <= fuel)%nat ->
  Z.of_nat (length (members_text l ++ 125%Z :: rest)) <= 2147483647 ->
  exists m' n', adx_json_parse_object ao (adx_json_parse_value ao fuel) fuel m (123 :: members_text l ++ 125 :: rest) node
    = Ok (ADX_JSON_OBJECT, rest, m') /\ ext node m m' /\ nodes m' !! node = Some n' /\ key n' = key n /\
    Forall2 (fun c kv => holds (fresh m) (fresh m') m' c kv.1 kv.2) (child n') l.
Proof.
  intros Hne Hl Hm Hn Hc Ha Ht Hf Hmax. unfold adx_json_parse_object. cbn [deref head of_opt incr mbind cres_bind mret cres_ret].
  rewrite decide_False by (intros H; by apply H).
  destruct (members_head false l) as (c & r & E & Hcr & _); [done|eapply Forall_impl; [exact Hl|]; naive_solver|].
  assert (adx_json_skip_space (members_text l ++ 125 :: rest) = Ok (members_text l ++ 125 :: rest)) as ->
    by (rewrite E; apply skip_none; lia). cbn [mbind cres_bind].
  assert (deref (members_text l ++ 125 :: rest) = Ok c) as -> by (by rewrite E). cbn [mbind cres_bind].
  rewrite decide_False by lia.
  destruct (object_members fuel l fuel m node (key n) (type n) m [] rest) as (m' & -> & Hext & _ & n' & Hn' & Hk' & _ & _ & Hh);
    [done|done|done|done|done|by apply loop_inv_start|].
  cbn [mbind cres_bind negb deref head of_opt incr mret cres_ret]. rewrite decide_False by (intros H; by apply H).
  exists m', n'. split_and!; try done; by destruct Hext.
Qed.

Lemma parse_array_ok l fuel m node n rest :
  l ≠ [] -> Forall (fun kv => key_ok true kv.1 /\ jv_ok kv.2 /\ parses kv.2) l -> wf m ->
  nodes m !! node = Some n -> child n = [] -> array_len n = 0 ->
  (length (members_text l ++ 93%Z :: rest) <= fuel)%nat ->
  Z.of_nat (length (members_text l ++ 93%Z :: rest)) <= 2147483647 ->
  exists m' n', adx_json_parse_array ao (adx_json_parse_value ao fuel) fuel m (91 :: members_text l ++ 93 :: rest) node
    = Ok (ADX_JSON_ARRAY, rest, m') /\ ext node m m' /\ nodes m' !! node = Some n' /\ key n' = key n /\
    array_len n' = Z.of_nat (length l) /\ Forall2 (fun c kv => holds (fresh m) (fresh m') m' c kv.1 kv.2) (child n') l.
Proof.
  intros Hne Hl Hm Hn Hc Ha Hf Hmax. unfold adx_json_parse_array. cbn [deref head of_opt incr mbind cres_bind mret cres_ret].
  rewrite decide_False by (intros H; by apply H).
  destruct (members_head true l) as (c & r & E & Hcr & H93); [done|eapply Forall_impl; [exact Hl|]; naive_solver|].
  assert (adx_json_skip_space (members_text l ++ 93 :: rest) = Ok (members_text l ++ 93 :: rest)) as ->
    by (rewrite E; apply skip_none; lia). cbn [mbind cres_bind].
  assert (deref (members_text l ++ 93 :: rest) = Ok c) as -> by (by rewrite E). cbn [mbind cres_bind].
  rewrite decide_False by lia. rewrite (update_ok _ _ n) by done. cbn [mbind cres_bind].
  set (m1 := put m node (set_type ADX_JSON_ARRAY n)). pose proof (Hm _ _ Hn) as Hr.
  assert (wf m1) as Hm1 by (by apply wf_put).
  destruct (array_members fuel l fuel m1 node (key n) ADX_JSON_ARRAY m1 [] rest)
    as (m' & -> & (Hf' & Hwf' & Hfr') & _ & n' & Hn' & Hk' & _ & Hlen & Hh);
    [done|done|done|done|done|apply (loop_inv_start m1 node (set_type ADX_JSON_ARRAY n)); [done|apply put_eq|done|done]|].
  cbn [mbind cres_bind negb deref head of_opt incr mret cres_ret]. rewrite decide_False by (intros H; by apply H).
  exists m', n'. split; [done|]. split; [|split_and!; [done|done|by apply Hlen|exact Hh]].
  split; [exact Hf'|]. split; [done|]. intros q Hq Hqn. rewrite Hfr' by done. by apply put_ne.
Qed.

Lemma number_end_ok s rest len : Forall (fun c => number_char c = true) s -> sep rest ->
  number_end (s ++ rest) len = Ok (Some ((len + length s)%nat, rest)).
Proof.
  intros Hs (c & r & -> & Hc). revert len. induction Hs as [|d s Hd Hs IH]; intros len; cbn [app number_end length].
  - rewrite decide_False by lia. replace (number_char c) with false; [do 3 f_equal; lia|].
    symmetry. apply bool_decide_eq_false. lia.
  - rewrite decide_False by (apply bool_decide_eq_true in Hd; lia). rewrite Hd, IH. do 3 f_equal. lia.
Qed.

Lemma looking_at_ok lit rest : looking_at lit (lit ++ rest) = true.
Proof. apply bool_decide_eq_true. by rewrite take_app_length. Qed.

(** A scalar ends with its text copied into [val]. *)
Lemma set_val_done m node k p s :
  wf m -> nodes m !! node = Some (fresh_node k p) ->
  let m' := JMem (nodes m) (S (nalloc m)) in
  update m' node (set_val (Some s)) = Ok (put m' node (set_val (Some s) (fresh_node k p))) /\
  ext node m (put m' node (set_val (Some s) (fresh_node k p))).
Proof.
  intros Hm Hn m'. split; [by apply update_ok|]. pose proof (Hm _ _ Hn). split; [unfold fresh; simpl; lia|]. split.
  - apply wf_put; [|unfold fresh in *; simpl; lia]. intros a n' Ha%Hm. unfold fresh in *. simpl. lia.
  - intros q Hq Hne. etransitivity; [by apply put_ne|done].
Qed.

Lemma parses_other lit t v' : Forall (fun c => c ≠ 92) lit -> v' = Leaf t lit -> t ≠ ADX_JSON_STRING ->
  Z.of_nat (length lit) < 2147483647 -> forall m node k p rest, wf m -> nodes m !! node = Some (fresh_node k p) ->
  exists m' n, adx_json_parse_other ao m (lit ++ rest) node t lit = Ok (t, rest, m') /\
    ext node m m' /\ nodes m' !! node = Some n /\ key n = k /\ content (fresh m) (fresh m') m' n v'.
Proof.
  intros H92 -> Ht Hmax m node k p rest Hm Hn. unfold adx_json_parse_other.
  rewrite decide_False by (rewrite length_app; lia). rewrite drop_app_length.
  pose proof (strdup_loop_plain lit [] H92) as E. rewrite app_nil_r in E. rewrite (strdup_ok m lit _ lit) by done.
  cbn [mbind cres_bind]. destruct (set_val_done m node k p lit Hm Hn) as [Eu Hext]. rewrite Eu. cbn [mbind cres_bind].
  eexists _, _. split; [done|]. split; [exact Hext|]. split; [apply put_eq|]. done.
Qed.

Lemma leaf_parses t s : jv_ok (Leaf t s) -> parses (Leaf t s).
Proof.
  intros Hv fuel m node k p rest Hm Hn Hsep Hf Hmax. simpl in Hv. cbn [body] in Hmax.
  destruct (body_head (Leaf t s) Hv) as (c0 & r0 & E0 & Hc0 & _).
  destruct fuel as [|fuel]; [rewrite E0 in Hf; simpl in Hf; lia|]. cbn [adx_json_parse_value].
  assert (adx_json_skip_space (body (Leaf t s) ++ rest) = Ok (body (Leaf t s) ++ rest)) as ->
    by (rewrite E0; apply skip_none; lia). clear E0 Hc0 Hf. cbn [mbind cres_bind body jtype].
  destruct Hv as [(-> & Hne & Hs)|[(-> & Hs & Hh)|[(-> & [->| ->])|(-> & ->)]]].
  - rewrite decide_True by done. rewrite <- app_comm_cons, <- app_assoc. cbn [app deref head of_opt mbind cres_bind].
    rewrite !(decide_False (P := 34 = _)), (decide_True (P := 34 = 34)) by done. unfold adx_json_parse_value_string.
    rewrite decide_True in Hmax by done. cbn [app length] in Hmax. rewrite !length_app in Hmax. cbn [length] in Hmax.
    rewrite parse_string_escape by (done || lia). cbn [mbind cres_bind]. rewrite decide_False by done.
    rewrite decide_True by done. rewrite (strdup_ok m _ _ s) by (lia || by apply strdup_escape). cbn [mbind cres_bind].
    destruct (set_val_done m node k p s Hm Hn) as [Eu Hext]. rewrite Eu. cbn [mbind cres_bind].
    eexists _, _. split; [done|]. split; [exact Hext|]. split; [apply put_eq|]. done.
  - rewrite decide_False by done. destruct s as [|c s]; [done|]. cbn [app deref head of_opt mbind cres_bind].
    rewrite !(decide_False (P := c = _)) by lia. rewrite decide_True by lia. unfold adx_json_parse_value_number.
    change (c :: s ++ rest) with ((c :: s) ++ rest). rewrite number_end_ok by done. cbn [mbind cres_bind plus].
    rewrite decide_False in Hmax by done. rewrite length_app in Hmax.
    assert (0 < length rest)%nat by (destruct Hsep as (? & ? & -> & _); simpl; lia). rewrite i32_small by lia.
    rewrite (strdup_ok m _ _ (c :: s)).
    3:{ lia. }
    2:{ apply strdup_loop_plain. eapply Forall_impl; [exact Hs|]. intros x Hx ->. done. }
    cbn [mbind cres_bind]. destruct (set_val_done m node k p (c :: s) Hm Hn) as [Eu Hext]. rewrite Eu. cbn [mbind cres_bind].
    rewrite decide_False by done.
    eexists _, _. split; [done|]. split; [exact Hext|]. split; [apply put_eq|]. done.
  - rewrite decide_False by done. change (deref (B "true" ++ rest)) with (Ok 116 : cres Z). cbn [mbind cres_bind].
    rewrite !decide_False by lia. rewrite looking_at_ok. apply parses_other with (p := p); [|done..].
    apply (bool_decide_unpack _). by vm_compute.
  - rewrite decide_False by done. change (deref (B "false" ++ rest)) with (Ok 102 : cres Z). cbn [mbind cres_bind].
    rewrite !decide_False by lia. change (looking_at (B "true") (B "false" ++ rest)) with false. cbn match.
    rewrite looking_at_ok. apply parses_other with (p := p); [|done..]. apply (bool_decide_unpack _). by vm_compute.
  - rewrite decide_False by done. change (deref (B "null" ++ rest)) with (Ok 110 : cres Z). cbn [mbind cres_bind].
    rewrite !decide_False by lia. change (looking_at (B "true") (B "null" ++ rest)) with false.
    change (looking_at (B "false") (B "null" ++ rest)) with false. cbn match.
    rewrite looking_at_ok. apply parses_other with (p := p); [|done..]. apply (bool_decide_unpack _). by vm_compute.
Qed.

Lemma body_coll arr l : body (Coll arr l) = (if arr then 91 else 123) :: members_text l ++ [if arr then 93 else 125].
Proof. done. Qed.

Lemma value_parses v : jv_ok v -> parses v.
Proof.
  induction v as [arr l IH|t s] using jv_ind'; [|apply leaf_parses].
  intros [Hne Hl]%jv_ok_coll fuel m node k p rest Hm Hn Hsep Hf Hmax.
  assert (Forall (fun kv => key_ok arr kv.1 /\ jv_ok kv.2 /\ parses kv.2) l) as Hall.
  { clear -IH Hl. induction Hl as [|kv l [H1 H2] Hl IHl]; [constructor|]. apply Forall_cons in IH as [IH1 IH2].
    constructor; [split; [done|split; [done|auto]]|auto]. }
  rewrite body_coll in Hf, Hmax |- *. rewrite <- app_comm_cons, <- app_assoc in Hf, Hmax |- *. cbn [app] in Hf, Hmax |- *.
  destruct fuel as [|fuel]; [simpl in Hf; lia|]. cbn [adx_json_parse_value].
  rewrite skip_none by (destruct arr; lia). cbn [mbind cres_bind deref head of_opt jtype]. destruct arr.
  - rewrite (decide_False (P := 91 = 123)), (decide_True (P := 91 = 91)) by done.
    destruct (parse_array_ok l fuel m node (fresh_node k p) rest) as (m' & n' & -> & H1 & H2 & H3 & H4 & H5);
      [done|done|done|done|done|done|simpl in Hf; lia|simpl in Hmax; lia|].
    eexists _, _. split; [done|]. split; [done|]. split; [done|]. split; [done|]. by split.
  - rewrite (decide_True (P := 123 = 123)) by done.
    destruct (parse_object_ok l fuel m node (fresh_node k p) rest) as (m' & n' & -> & H1 & H2 & H3 & H4);
      [done|done|done|done|done|done|done|simpl in Hf; lia|simpl in Hmax; lia|].
    eexists _, _. split; [done|]. split; [done|]. split; [done|]. split; [done|]. by split.
Qed.

(** A whole document. *)
Lemma parse_doc_ok m l : wf m -> l ≠ [] -> jv_ok (Coll false l) ->
  Z.of_nat (length (body (Coll false l))) < 2147483647 ->
  exists root m', adx_json_parse ao m (body (Coll false l)) = Ok (root, m') /\ root ≠ 0 /\ holds_doc m' root l /\
    wf m' /\ (forall a, a < fresh m -> nodes m' !! a = nodes m !! a).
Proof.
  intros Hm Hne Hok Hmax. unfold adx_json_parse, adx_json_create.
  rewrite alloc_ok, ok_bind by apply small_size_json. rewrite decide_False by (unfold fresh; lia).
  cbn [mbind cres_bind mret cres_ret]. rewrite decide_False by (intros [H _]; by destruct H).
  rewrite decide_True by done. cbn [mbind cres_bind mret cres_ret]. rewrite decide_False by (unfold fresh; lia).
  set (m1 := put _ _ _). assert (wf m1) as Hm1.
  { intros a n Ha. destruct (decide (fresh m = a)) as [<-|Hna]; [unfold fresh; simpl; lia|].
    subst m1. rewrite put_ne in Ha by done. apply Hm in Ha. unfold fresh in *. simpl. lia. }
  rewrite body_coll in Hmax |- *. rewrite <- app_comm_cons, <- app_assoc. rewrite skip_none by lia. cbn [mbind cres_bind app].
  apply jv_ok_coll in Hok as [_ Hl].
  destruct (parse_object_ok l (S (S (length (123 :: members_text l ++ [125])))) m1 (fresh m) (Json 0 None None 0 0 []) [0])
    as (m2 & n & -> & (Hf & Hwf & Hfr) & Hn & Hk & Hh); [done| |done|by apply put_eq|done|done|done| | |].
  - eapply Forall_impl; [exact Hl|]. intros kv [H1 H2]. split; [done|]. split; [done|]. by apply value_parses.
  - simpl. rewrite !length_app. simpl. lia.
  - simpl in Hmax. rewrite !length_app in Hmax |- *. simpl in Hmax |- *. lia.
  - cbn [mbind cres_bind]. rewrite decide_False by (intros H; by apply H). eexists _, _. split; [done|].
    split; [unfold fresh; lia|]. split; [exists n, (fresh m1), (fresh m2); split_and!; try done; unfold fresh; simpl; lia|].
    split; [done|]. intros a Ha. rewrite Hfr; [subst m1; rewrite put_ne by lia; done|unfold fresh in *; simpl; lia|lia].
Qed.
End Pool.

(** Decides [jv_ok] and [small] on a concrete document. *)
Ltac json_ok :=
  repeat match goal with
  | |- _ /\ _ => split
  | |- number_ok _ => split; [|vm_compute; first [left; reflexivity | right; split; discriminate]]
  | |- _ ≠ _ => discriminate
  | |- True => exact I
  | |- no_nul _ => apply (bool_decide_unpack _); vm_compute; exact I
  | |- Forall _ _ => apply (bool_decide_unpack _); vm_compute; exact I
  | |- _ = _ => vm_compute; reflexivity
  | |- _ \/ _ => first [left; solve [json_ok] | right; solve [json_ok]]
  | |- _ => simpl; lia
  end.
