(* ===== verification/AdxJsonPrint.v ===== *)
(** JSON documents: the printer of adx_dsp/src/adx_json.c in its growing
    buffer, and the properties of building, looking up, printing and parsing
    back. *)

From Stdlib Require Import ZArith Lia.
From S2P Require Import Prelude AdxAlloc AdxJson AdxJsonDoc AdxJsonRound.

Open Scope Z_scope.

(** The buffer holds the text [out] and always has room for two more bytes. *)
Definition brep (b : adx_json_buffer) (out : bytes) : Prop :=
  len b = Z.of_nat (length out) /\ 2048 <= total b <= 1073741824 /\ len b <= total b - 2 /\
  exists pad, buf b = out ++ pad /\ Z.of_nat (length (buf b)) = total b.

(** Printing only asks for blocks: the nodes stay. *)
Definition same_nodes (m m' : jmem) : Prop := nodes m' = nodes m /\ (nalloc m <= nalloc m')%nat.

Lemma same_nodes_trans m1 m2 m3 : same_nodes m1 m2 -> same_nodes m2 m3 -> same_nodes m1 m3.
Proof. intros [H1 H2] [H3 H4]. split; [congruence|lia]. Qed.

(** [prints r out m]: the computation succeeds with text [out]. *)
Definition prints_to (r : cres (option pstate)) (out : bytes) (m : jmem) : Prop :=
  exists b m', r = Ok (Some (b, m')) /\ brep b out /\ same_nodes m m'.

Lemma obind_prints r f out out' m :
  prints_to r out m ->
  (forall b m1, brep b out -> same_nodes m m1 -> prints_to (f (b, m1)) out' m1) ->
  prints_to (obind r f) out' m.
Proof.
  intros (b & m1 & -> & Hb & Hm) Hf. destruct (Hf b m1 Hb Hm) as (b' & m2 & E & Hb' & Hm').
  exists b', m2. split; [exact E|]. split; [done|]. by eapply same_nodes_trans.
Qed.

Lemma prints_ret b m out : brep b out -> prints_to (mret (Some (b, m))) out m.
Proof. intros Hb. exists b, m. by split_and!. Qed.

Section Pool.
Context (ao : nat -> bool) (Hao : forall k, ao k = true).

Lemma realloc_ok b m out : brep b out -> total b <= 536870912 ->
  exists b' m', adx_json_buffer_realloc ao (b, m) = Ok (Some (b', m')) /\ brep b' out /\ total b' = total b * 2 /\ same_nodes m m'.
Proof.
  intros (Hl & Ht & Hfit & pad & Hb & Hlen) Hmax. unfold adx_json_buffer_realloc. rewrite int_ok_in by lia.
  destruct (small_size_int (total b * 2)) as [Hz Hu]; [lia|]. rewrite ok_bind, Hu, alloc_small, ok_bind, Hao by done.
  rewrite decide_False by lia. rewrite Hb, Hl, Nat2Z.id, take_app_length.
  assert (replicate (Z.to_nat (total b * 2)) 0 = replicate (length out) 0 ++ replicate (Z.to_nat (total b * 2) - length out) 0) as ->.
  { rewrite <- replicate_add. f_equal. lia. }
  rewrite bwrite_app0 by (by rewrite length_replicate). cbn [mbind cres_bind].
  eexists _, _. split; [done|]. split; [|split; [done|split; [done|simpl; lia]]].
  split; [done|]. split; [simpl; lia|]. split; [simpl; lia|]. eexists. split; [done|].
  simpl. rewrite length_app, length_replicate. lia.
Qed.

Lemma strcat_ok b m out s : brep b out -> (length s <= 2048)%nat ->
  Z.of_nat (length out) + Z.of_nat (length s) + 2 <= 536870912 ->
  prints_to (adx_json_buffer_strcat ao (b, m) s) (out ++ s) m.
Proof.
  intros Hb Hs Hmax. unfold adx_json_buffer_strcat. cbn [fst snd].
  rewrite i32_small by lia. rewrite int_ok_in, ok_bind by (destruct Hb as (-> & _); lia).
  assert (exists b1 m1, (if decide (len b + Z.of_nat (length s) >= total b - 1) then adx_json_buffer_realloc ao (b, m)
    else mret (Some (b, m))) = Ok (Some (b1, m1)) /\ brep b1 out /\ same_nodes m m1 /\
    Z.of_nat (length out) + Z.of_nat (length s) <= total b1 - 2) as (b1 & m1 & -> & Hb1 & Hm1 & Hroom).
  { pose proof Hb as (Hl & Ht & Hfit & _). case_decide.
    - destruct (realloc_ok b m out Hb) as (b1 & m1 & E & Hb1 & Ht1 & Hm1); [lia|].
      exists b1, m1. split; [done|]. split; [done|]. split; [done|]. lia.
    - exists b, m. split; [done|]. split; [done|]. split; [by split|lia]. }
  unfold obind. cbn [mbind cres_bind]. rewrite decide_False by lia. rewrite Nat2Z.id, take_ge by done.
  destruct Hb1 as (Hl & Ht & Hfit & pad & Eb & Hlen).
  rewrite Eb, length_app in Hlen. rewrite Eb. rewrite <- (take_drop (length s) pad).
  rewrite bwrite_app; [|done|rewrite length_take; lia]. cbn [mbind cres_bind mret cres_ret].
  eexists _, _. split; [done|]. split; [|done]. split; [simpl; rewrite length_app; lia|]. split; [done|].
  split; [simpl; lia|]. exists (drop (length s) pad). split; [simpl; by rewrite <- app_assoc|].
  simpl. rewrite !length_app, length_drop. lia.
Qed.

Lemma esc_char_length c : (1 <= length (esc_char c) <= 2)%nat.
Proof. unfold esc_char. repeat case_decide; simpl; lia. Qed.

Lemma esc_loop_ok s : forall (mem out : bytes) (total : Z) pad,
  mem = out ++ pad -> Z.of_nat (length mem) = total -> Z.of_nat (length out) <= total - 2 ->
  exists mem' pos grow, esc_loop mem (Z.of_nat (length out)) total s = Ok (mem', pos, grow) /\
    Z.of_nat (length mem') = total /\ (exists pad', mem' = out ++ pad') /\
    (grow = true -> Z.of_nat (length out) + Z.of_nat (length (escape s)) >= total - 1) /\
    (grow = false -> pos = Z.of_nat (length (out ++ escape s)) /\ pos <= total - 2 /\
       exists pad', mem' = (out ++ escape s) ++ pad').
Proof.
  induction s as [|c s IH]; intros mem out total pad Hmem Hlen Hfit; cbn [esc_loop].
  - eexists _, _, _. split; [done|]. split; [done|]. split; [eauto|]. split; [done|]. intros _.
    change (escape []) with (@nil Z). rewrite !app_nil_r. split; [done|]. split; [done|eauto].
  - pose proof (esc_char_length c) as Hc. subst mem. rewrite length_app in Hlen.
    rewrite <- (take_drop (length (esc_char c)) pad). rewrite bwrite_app; [|done|rewrite length_take; lia].
    cbn [mbind cres_bind]. set (pad1 := drop (length (esc_char c)) pad).
    assert (Z.of_nat (length (out ++ esc_char c ++ pad1)) = total) as Hlen1.
    { subst pad1. rewrite !length_app, length_drop. lia. }
    rewrite escape_cons. case_decide as Hgrow.
    + eexists _, _, _. split; [done|]. split; [done|]. split; [eauto|]. split; [|done].
      intros _. rewrite length_app. lia.
    + destruct (IH (out ++ esc_char c ++ pad1) (out ++ esc_char c) total pad1) as (mem' & pos & grow & E & H1 & [pad' H2] & H3 & H4);
        [by rewrite <- app_assoc|done|rewrite length_app; lia|].
      rewrite length_app, Nat2Z.inj_add in E, H3. rewrite E. eexists _, _, _. split; [done|]. split; [done|].
      split; [exists (esc_char c ++ pad'); by rewrite H2, <- app_assoc|]. rewrite (length_app (esc_char c)). split; [intros Hg%H3; lia|].
      intros Hg. destruct (H4 Hg) as (Hp1 & Hp2 & [pad2 Hp3]). rewrite <- !app_assoc in *. rewrite !app_assoc in *. eauto.
Qed.

Lemma escapes_fuel_ok fuel b m out s : brep b out ->
  Z.of_nat (length out) + Z.of_nat (length (escape s)) + 2 <= 536870912 ->
  1073741824 < 2 ^ Z.of_nat fuel * total b ->
  prints_to (adx_json_buffer_strcat_escapes ao fuel (b, m) s) (out ++ escape s) m.
Proof.
  revert b m. induction fuel as [|fuel IH]; intros b m Hb Hmax Hfuel; [destruct Hb as (_ & ? & _); simpl in Hfuel; lia|].
  cbn [adx_json_buffer_strcat_escapes]. pose proof Hb as (Hl & Ht & Hfit & pad & Eb & Hlen).
  destruct (esc_loop_ok s (buf b) out (total b) pad Eb Hlen) as (mem & pos & grow & E & H1 & [pad' H2] & H3 & H4); [lia|].
  rewrite Hl, E. cbn [mbind cres_bind]. destruct grow.
  - specialize (H3 eq_refl).
    assert (brep (Buf mem (total b) (len b)) out) as Hb' by (split; [done|]; split; [done|]; split; [done|]; by exists pad').
    rewrite Hl in Hb'. destruct (realloc_ok _ m out Hb') as (b1 & m1 & E1 & Hb1 & Ht1 & Hm1); [simpl; lia|].
    unfold obind. rewrite E1. cbn [mbind cres_bind]. simpl in Ht1.
    destruct (IH b1 m1 Hb1 Hmax) as (b2 & m2 & E2 & Hb2 & Hm2).
    { rewrite Ht1. rewrite Nat2Z.inj_succ, Z.pow_succ_r in Hfuel by lia. lia. }
    exists b2, m2. split; [done|]. split; [done|]. by eapply same_nodes_trans.
  - destruct (H4 eq_refl) as (Hp1 & Hp2 & [pad2 Hp3]). exists (Buf mem (total b) pos), m. split; [done|]. split; [|by split].
    split; [done|]. split; [done|]. split; [done|]. by exists pad2.
Qed.

Lemma escapes_ok b m out s : brep b out ->
  Z.of_nat (length out) + Z.of_nat (length (escape s)) + 2 <= 536870912 ->
  prints_to (escapes ao (b, m) s) (out ++ escape s) m.
Proof. intros Hb Hmax. apply escapes_fuel_ok; [done|done|]. destruct Hb as (_ & ? & _). change (2 ^ Z.of_nat 32) with 4294967296. lia. Qed.

(** The texts of numbers fit one doubling of the buffer. *)
Fixpoint small (v : jv) : Prop :=
  match v with
  | Coll _ l => (fix go (l : list (option bytes * jv)) : Prop :=
      match l with [] => True | kv :: l => small kv.2 /\ go l end) l
  | Leaf t s => t = ADX_JSON_STRING \/ (length s <= 2048)%nat
  end.

Lemma small_coll arr l : small (Coll arr l) <-> Forall (fun kv => small kv.2) l.
Proof.
  simpl. induction l as [|kv l IH]; [split; [constructor|done]|]. rewrite IH, Forall_cons. done.
Qed.

Definition room (out : bytes) (more : bytes) : Prop :=
  Z.of_nat (length out) + Z.of_nat (length more) + 2 <= 536870912.

Lemma room_app out s1 s2 : room out (s1 ++ s2) -> room out s1 /\ room (out ++ s1) s2.
Proof. unfold room. rewrite !length_app. lia. Qed.

Lemma room_nil out : room out [] -> Z.of_nat (length out) + 2 <= 536870912.
Proof. unfold room. simpl. lia. Qed.

Lemma print_key_ok b m out node with_key without_key :
  brep b out -> (length with_key <= 3)%nat -> (length without_key <= 1)%nat ->
  let txt := match key node with Some k => 34 :: escape k ++ with_key | None => without_key end in
  room out txt -> prints_to (print_key ao (b, m) node with_key without_key) (out ++ txt) m.
Proof.
  intros Hb H1 H2. unfold print_key, room. destruct (key node) as [k|]; cbn zeta; intros Hroom.
  - simpl in Hroom. rewrite length_app in Hroom.
    eapply obind_prints; [apply strcat_ok; [done|simpl; lia|simpl; lia]|]. intros b1 m1 Hb1 _.
    eapply obind_prints; [apply escapes_ok; [done|rewrite length_app; simpl; lia]|]. intros b2 m2 Hb2 _.
    replace (out ++ 34 :: escape k ++ with_key) with (((out ++ [34]) ++ escape k) ++ with_key) by (by rewrite <- !app_assoc).
    apply strcat_ok; [done|lia|rewrite !length_app; simpl; lia].
  - apply strcat_ok; [done|lia|done].
Qed.

Section Node.
Context (po pa : pstate -> Z -> cres (option pstate)).

(** What printing a child must do, for the objects and arrays below it. *)
Definition prints (a : Z) (k : option bytes) (v : jv) (m0 : jmem) : Prop := forall b m out comma,
  nodes m = nodes m0 -> brep b out ->
  room out ((if comma : bool then [44] else []) ++ member_text (k, v)) ->
  exists b' m', print_child ao po pa (b, m) a comma = Ok (Some ((b', m'), true)) /\
    brep b' (out ++ (if comma then [44] else []) ++ member_text (k, v)) /\ same_nodes m m'.

(** The separator and the child, when the printer of the child is right. *)
Lemma print_child_ok a n k v m0 :
  nodes m0 !! a = Some n -> jtype v = type n ->
  (forall b m out, nodes m = nodes m0 -> brep b out -> room out (member_text (k, v)) ->
     prints_to (if decide (type n = ADX_JSON_OBJECT) then po (b, m) a else
                if decide (type n = ADX_JSON_ARRAY) then pa (b, m) a else
                if decide (type n = ADX_JSON_STRING) then adx_json_buffer_from_string ao (b, m) n else
                adx_json_buffer_from_other ao (b, m) n) (out ++ member_text (k, v)) m) ->
  (type n = ADX_JSON_OBJECT \/ type n = ADX_JSON_ARRAY \/ type n = ADX_JSON_STRING \/
   type n = ADX_JSON_NUMBER \/ type n = ADX_JSON_BOOL \/ type n = ADX_JSON_NULL) ->
  prints a k v m0.
Proof.
  intros Hn Ht Hbody Htype b m out comma Hm Hb Hroom. unfold print_child. cbn [snd].
  unfold get. rewrite Hm, Hn. cbn [of_opt mbind cres_bind].
  apply room_app in Hroom as [Hr1 Hr2].
  assert (prints_to (if comma then adx_json_buffer_strcat ao (b, m) [44] else mret (Some (b, m)))
    (out ++ (if comma then [44] else [])) m) as (b1 & m1 & -> & Hb1 & Hm1).
  { destruct comma; [apply strcat_ok; [done|simpl; lia|exact Hr1]|]. rewrite app_nil_r. by apply prints_ret. }
  unfold obind at 1. cbn [mbind cres_bind].
  destruct (Hbody b1 m1 (out ++ (if comma then [44] else []))) as (b2 & m2 & E & Hb2 & Hm2); [destruct Hm1; congruence|done|done|].
  exists b2, m2. split; [|split; [by rewrite app_assoc|by eapply same_nodes_trans]].
  repeat case_decide; try (rewrite E; done); exfalso; tauto.
Qed.

Lemma leaf_prints lo hi m0 a k t s : jv_ok (Leaf t s) -> small (Leaf t s) -> holds lo hi m0 a k (Leaf t s) ->
  prints a k (Leaf t s) m0.
Proof.
  intros Hok Hsm H. inversion H as [|? n ? ? Ha Hn Ht Hs]; subst. apply (print_child_ok a n (key n) (Leaf (type n) s) m0 Hn eq_refl).
  - intros b m out Hm Hb Hroom. unfold member_text in *. cbn [fst snd body] in *.
    assert (type n ≠ ADX_JSON_OBJECT /\ type n ≠ ADX_JSON_ARRAY) as [Hno Hna]
      by (simpl in Hok; destruct Hok as [[-> _]|[[-> _]|[[-> _]|[-> _]]]]; done).
    rewrite (decide_False (P := type n = ADX_JSON_OBJECT)), (decide_False (P := type n = ADX_JSON_ARRAY)) by done. destruct (decide (type n = ADX_JSON_STRING)) as [Es|Es].
    + unfold adx_json_buffer_from_string. rewrite Hs. cbn [of_opt].
      set (pre := match key n with Some k => 34 :: escape k ++ [34; 58; 34] | None => [34] end).
      replace (key_text (key n) ++ 34 :: escape s ++ [34]) with (pre ++ escape s ++ [34]) in *
        by (subst pre; destruct (key n); simpl; by rewrite <- ?app_assoc).
      apply room_app in Hroom as [Hr1 Hr2]. apply room_app in Hr2 as [Hr2 Hr3].
      eapply obind_prints; [apply print_key_ok; [done|simpl; lia|simpl; lia|done]|]. intros b1 m1 Hb1 _.
      cbn [mbind cres_bind]. eapply obind_prints; [apply escapes_ok; [exact Hb1|exact Hr2]|]. intros b2 m2 Hb2 _.
      rewrite !app_assoc. apply strcat_ok; [exact Hb2|simpl; lia|exact Hr3].
    + unfold adx_json_buffer_from_other. rewrite Hs. cbn [of_opt]. destruct Hsm as [?|Hsm]; [done|].
      apply room_app in Hroom as [Hr1 Hr2].
      assert (prints_to (match key n with Some _ => print_key ao (b, m) n [34; 58] [] | None => mret (Some (b, m)) end)
        (out ++ key_text (key n)) m) as H1.
      { pose proof (print_key_ok b m out n [34; 58] [] Hb) as Hp. cbn zeta in Hp.
        destruct (key n) eqn:Ek; [apply Hp; [simpl; lia|simpl; lia|exact Hr1]|]. simpl. rewrite app_nil_r. by apply prints_ret. }
      eapply obind_prints; [exact H1|]. intros b1 m1 Hb1 _. cbn [mbind cres_bind]. rewrite app_assoc.
      apply strcat_ok; [done|done|exact Hr2].
  - simpl in Hok. destruct Hok as [[-> _]|[[-> _]|[[-> _]|[-> _]]]]; auto 10.
Qed.

Lemma children_print m0 l cs : Forall2 (fun c (kv : option bytes * jv) => prints c kv.1 kv.2 m0) cs l ->
  forall b m out comma, nodes m = nodes m0 -> brep b out ->
  let txt := match l with [] => [] | _ => (if comma : bool then [44] else []) ++ members_text l end in
  room out txt -> prints_to (print_children ao po pa (b, m) cs comma) (out ++ txt) m.
Proof.
  induction 1 as [|c [k v] cs l Hc Hcs IH]; intros b m out comma Hm Hb txt Hroom.
  - simpl. rewrite app_nil_r. by apply prints_ret.
  - set (tl := match l with [] => [] | _ => [44] ++ members_text l end).
    assert (txt = ((if comma then [44] else []) ++ member_text (k, v)) ++ tl) as E.
    { subst txt tl. unfold members_text. destruct l; cbn [map join]; by rewrite <- ?app_assoc, ?app_nil_r. }
    rewrite E in Hroom |- *. apply room_app in Hroom as [Hr1 Hr2]. cbn [print_children].
    destruct (Hc b m out comma Hm Hb Hr1) as (b1 & m1 & E1 & Hb1 & Hm1). cbn [fst snd] in E1. rewrite E1. unfold obind. cbn [mbind cres_bind fst snd].
    destruct (IH b1 m1 _ true ltac:(destruct Hm1; congruence) Hb1 Hr2) as (b2 & m2 & E2 & Hb2 & Hm2).
    exists b2, m2. split; [exact E2|]. split; [|by eapply same_nodes_trans]. subst tl. by rewrite <- !app_assoc in *.
Qed.
End Node.

(** A collection: its opening, its members and its closing character. *)
Lemma coll_print fuel (arr : bool) b m out a n l m0 :
  nodes m = nodes m0 -> nodes m0 !! a = Some n -> brep b out ->
  Forall2 (fun c (kv : option bytes * jv) =>
    prints (adx_json_buffer_from_object ao fuel) (adx_json_buffer_from_array ao fuel) c kv.1 kv.2 m0) (child n) l ->
  l ≠ [] -> room out (member_text (key n, Coll arr l)) ->
  prints_to ((if arr then adx_json_buffer_from_array else adx_json_buffer_from_object) ao (S fuel) (b, m) a)
    (out ++ member_text (key n, Coll arr l)) m.
Proof.
  intros Hm Hn Hb Hl Hne Hroom.
  set (o := if arr then 91 else 123) in *. set (c := if arr then 93 else 125) in *.
  set (pre := match key n with Some k => 34 :: escape k ++ [34; 58; o] | None => [o] end).
  assert (member_text (key n, Coll arr l) = pre ++ members_text l ++ [c]) as E.
  { unfold member_text. cbn [fst snd]. rewrite body_coll. fold o c. subst pre. destruct (key n); simpl; by rewrite <- ?app_assoc. }
  rewrite E in Hroom |- *. apply room_app in Hroom as [Hr1 Hr2]. apply room_app in Hr2 as [Hr2 Hr3].
  assert (prints_to (n ← get m a;
      st ⇐ print_key ao (b, m) n [34; 58; o] [o];
      st ⇐ print_children ao (adx_json_buffer_from_object ao fuel) (adx_json_buffer_from_array ao fuel) st (child n) false;
      adx_json_buffer_strcat ao st [c]) (out ++ pre ++ members_text l ++ [c]) m) as H.
  { unfold get. rewrite Hm, Hn. cbn [of_opt mbind cres_bind].
    eapply obind_prints; [apply print_key_ok; [done|simpl; lia|simpl; lia|done]|]. intros b1 m1 Hb1 Hm1.
    eapply obind_prints.
    - eapply (children_print _ _ m0 l _ Hl b1 m1 (out ++ pre) false); [destruct Hm1; congruence|done|]. by destruct l.
    - intros b2 m2 Hb2 _. rewrite !app_assoc. apply strcat_ok; [|simpl; lia|exact Hr3]. by destruct l. }
  subst o c. destruct arr; exact H.
Qed.

Lemma depth_members (l : list (option bytes * jv)) n :
  (list_max (map (fun kv => depth kv.2) l) <= n)%nat -> Forall (fun kv => (depth kv.2 <= n)%nat) l.
Proof. intros H. apply list_max_le in H. apply List.Forall_map in H. exact H. Qed.

Lemma holds_same lo hi m m' cs l : nodes m' = nodes m ->
  Forall2 (fun c kv => holds lo hi m c kv.1 kv.2) cs l -> Forall2 (fun c (kv : option bytes * jv) => holds lo hi m' c kv.1 kv.2) cs l.
Proof. intros E H. eapply holds_list_frame; [exact H|lia|lia|]. intros p _. by rewrite E. Qed.

Lemma value_prints v : jv_ok v -> small v -> forall fuel lo hi m0 a k, (depth v <= fuel)%nat -> holds lo hi m0 a k v ->
  prints (adx_json_buffer_from_object ao fuel) (adx_json_buffer_from_array ao fuel) a k v m0.
Proof.
  induction v as [arr l IH|t s] using jv_ind'; [|intros; by eapply leaf_prints].
  intros [Hne Hok]%jv_ok_coll Hsm%small_coll fuel lo hi m0 a k Hd H.
  inversion H as [? n ? ? Ha Hn Ht Hlen Hc|]; subst. destruct fuel as [|fuel]; [simpl in Hd; lia|].
  simpl in Hd. apply le_S_n, depth_members in Hd.
  apply (print_child_ok _ _ a n (key n) (Coll arr l) m0 Hn (eq_sym Ht)).
  - intros b m out Hm Hb Hroom. rewrite Ht. simpl jtype.
    assert (Forall2 (fun c (kv : option bytes * jv) =>
      prints (adx_json_buffer_from_object ao fuel) (adx_json_buffer_from_array ao fuel) c kv.1 kv.2 m0) (child n) l) as Hp.
    { clear -IH Hok Hsm Hd Hc. induction Hc as [|c kv cs l Hc Hcs IHc]; [constructor|].
      apply Forall_cons in IH as [IH1 IH2], Hok as [[_ Hok1] Hok2], Hsm as [Hsm1 Hsm2], Hd as [Hd1 Hd2].
      constructor; [by eapply IH1|auto]. }
    pose proof (coll_print fuel arr b m out a n l m0 Hm Hn Hb Hp Hne Hroom) as E.
    destruct arr; exact E.
  - rewrite Ht. destruct arr; auto.
Qed.

Lemma to_buffer_ok fuel m root l :
  holds_doc m root l -> jv_ok (Coll false l) -> small (Coll false l) -> (depth (Coll false l) <= fuel)%nat ->
  room [] (body (Coll false l)) ->
  exists mem m', adx_json_to_buffer ao fuel m root = Ok (Some mem, m') /\ same_nodes m m' /\
    exists rest, mem = body (Coll false l) ++ 0 :: rest.
Proof.
  intros (n & lo & hi & Hn & Hk & _ & _ & Hl) Hok Hsm Hd Hroom. apply jv_ok_coll in Hok as [Hne Hok]. apply small_coll in Hsm.
  destruct fuel as [|fuel]; [simpl in Hd; lia|]. simpl in Hd. apply le_S_n, depth_members in Hd.
  unfold adx_json_to_buffer. rewrite alloc_small, ok_bind, Hao by (apply small_size_int; unfold ADX_JSON_BUFF_SIZE; lia).
  rewrite decide_False by lia.
  set (m1 := JMem (nodes m) (S (nalloc m))).
  assert (brep (Buf (replicate (Z.to_nat ADX_JSON_BUFF_SIZE) 0) ADX_JSON_BUFF_SIZE 0) []) as Hb.
  { split; [done|]. split; [simpl; unfold ADX_JSON_BUFF_SIZE; lia|]. split; [simpl; unfold ADX_JSON_BUFF_SIZE; lia|].
    eexists. split; [reflexivity|]. cbn [buf total]. rewrite length_replicate. done. }
  assert (Forall2 (fun c (kv : option bytes * jv) =>
    prints (adx_json_buffer_from_object ao fuel) (adx_json_buffer_from_array ao fuel) c kv.1 kv.2 m1) (child n) l) as Hp.
  { apply (holds_same lo hi m m1) in Hl; [|done]. clear -Hao Hok Hsm Hd Hl. induction Hl as [|c kv cs l Hc Hcs IHc]; [constructor|].
    apply Forall_cons in Hok as [[_ Hok1] Hok2], Hsm as [Hsm1 Hsm2], Hd as [Hd1 Hd2].
    constructor; [by eapply value_prints|auto]. }
  destruct (coll_print fuel false _ m1 [] root n l m1 eq_refl Hn Hb Hp Hne) as (b & m2 & E & Hb2 & Hm2).
  { rewrite Hk. exact Hroom. }
  rewrite Hk in Hb2. unfold member_text in Hb2. cbn [fst snd key_text app] in Hb2. cbn match in E. rewrite E.
  cbn [mbind cres_bind]. destruct Hb2 as (Hlen & Ht & Hfit & pad & Hbuf & Hl2). rewrite Hbuf, length_app in Hl2.
  rewrite decide_False by (rewrite Hlen, body_coll; simpl; lia).
  destruct pad as [|x pad]; [cbn [length] in Hl2; lia|]. rewrite Hbuf, bset_app by done. cbn [mbind cres_bind mret cres_ret].
  eexists _, _. split; [done|]. split; [|eauto]. destruct Hm2 as [H1 H2]. split; [exact H1|simpl in H2; lia].
Qed.
End Pool.

(** Text without a terminator inside. *)
Lemma escape_no_nul s : no_nul s -> no_nul (escape s).
Proof.
  induction 1 as [|c s Hc Hs IH]; [constructor|]. rewrite escape_cons. apply Forall_app. split; [|done].
  destruct (esc_char_cases c) as [(-> & _)|(d & -> & _ & Hd)]; repeat constructor; done.
Qed.

Lemma body_no_nul v : jv_ok v -> no_nul (body v).
Proof.
  induction v as [arr l IH|t s] using jv_ind'.
  - intros [_ Hok]%jv_ok_coll. rewrite body_coll. apply Forall_cons. split; [by destruct arr|]. apply Forall_app. split; [|by destruct arr; repeat constructor].
    apply join_no_nul; [by repeat constructor|]. apply List.Forall_map. clear -IH Hok.
    induction Hok as [|[k v] l [Hk Hv] Hok IHl]; [constructor|]. apply Forall_cons in IH as [IH1 IH2]. constructor; [|auto].
    apply Forall_app. split; [|by apply IH1]. destruct k as [k|]; [|constructor]. destruct Hk as (_ & _ & Hk).
    constructor; [done|]. apply Forall_app. split; [by apply escape_no_nul|by repeat constructor].
  - simpl. intros [(-> & _ & Hs)|[(-> & Hs & _)|[(-> & [->| ->])|(-> & ->)]]].
    + rewrite decide_True by done. constructor; [done|]. apply Forall_app. split; [by apply escape_no_nul|by repeat constructor].
    + rewrite decide_False by done. eapply Forall_impl; [exact Hs|]. simpl. intros c Hc%bool_decide_eq_true. lia.
    + rewrite decide_False by done. apply (bool_decide_unpack _). by vm_compute.
    + rewrite decide_False by done. apply (bool_decide_unpack _). by vm_compute.
    + rewrite decide_False by done. apply (bool_decide_unpack _). by vm_compute.
Qed.

(** C4: printing and parsing back.  A document in memory (any nesting of
    non-empty objects and arrays, non-empty strings of any bytes, numbers,
    booleans and null; at most 512 MB of text, numbers of at most 2048
    characters) is printed by [adx_json_to_buffer], when the pool refuses
    nothing, as its text, inside the growing buffer; [adx_json_parse] reads
    that text back into a document with the same contents, at new addresses,
    and leaves the first one as it was. *)
Theorem adx_json_roundtrip ao fuel m root l :
  (forall k, ao k = true) -> wf m -> holds_doc m root l ->
  jv_ok (Coll false l) -> small (Coll false l) -> (depth (Coll false l) <= fuel)%nat -> room [] (body (Coll false l)) ->
  exists mem m1 txt, adx_json_to_buffer ao fuel m root = Ok (Some mem, m1) /\
    cstr mem = Ok txt /\ txt = body (Coll false l) /\
    exists root' m2, adx_json_parse ao m1 txt = Ok (root', m2) /\ root' ≠ 0 /\ holds_doc m2 root' l /\
      (forall a, a < fresh m -> nodes m2 !! a = nodes m !! a).
Proof.
  intros Hao Hm Hdoc Hok Hsm Hd Hroom.
  destruct (to_buffer_ok ao Hao fuel m root l) as (mem & m1 & E & [Hn1 Ha1] & rest & ->); [done..|].
  exists (body (Coll false l) ++ 0 :: rest), m1, (body (Coll false l)). split; [exact E|].
  split; [by apply cstr_app, body_no_nul|]. split; [done|].
  destruct (parse_doc_ok ao Hao m1 l) as (root' & m2 & E2 & H1 & H2 & _ & H3).
  - intros a n Ha. rewrite Hn1 in Ha. apply Hm in Ha. unfold fresh in *. lia.
  - by apply jv_ok_coll in Hok as [? _].
  - done.
  - unfold room in Hroom. simpl length in Hroom at 1. lia.
  - exists root', m2. split; [exact E2|]. split; [done|]. split; [done|]. intros a Ha. rewrite H3, Hn1 by (unfold fresh in *; lia). done.
Qed.

Definition demo_doc : list (option bytes * jv) :=
  [(Some (B "id"), JStr (B "a/b" ++ [10; 34; 92])); (Some (B "n"), JArr [JNum (B "1"); JNum (B "-2.5e3")]);
   (Some (B "o"), JObj [(B "t", Leaf ADX_JSON_BOOL (B "true")); (B "z", Leaf ADX_JSON_NULL (B "null"))])].

Lemma demo_doc_ok : jv_ok (Coll false demo_doc).
Proof. cbn -[B]. json_ok. Qed.

Lemma adx_json_roundtrip_witness : exists m root mem m1 txt,
  adx_json_to_buffer (fun _ => true) 3 m root = Ok (Some mem, m1) /\ cstr mem = Ok txt /\
  txt = Q "{'id':'a\/b\n\'\\','n':[1,-2.5e3],'o':{'t':true,'z':null}}" /\
  exists root' m2, adx_json_parse (fun _ => true) m1 txt = Ok (root', m2) /\ root' ≠ 0 /\ holds_doc m2 root' demo_doc /\
    (forall a, a < fresh m -> nodes m2 !! a = nodes m !! a).
Proof.
  destruct (parse_doc_ok (fun _ => true) (fun _ => eq_refl) (JMem ∅ 0) demo_doc) as (root & m & _ & _ & Hdoc & Hwf & _);
    [intros a n Ha; simpl in Ha; by rewrite lookup_empty in Ha|done|exact demo_doc_ok|vm_compute; reflexivity|].
  destruct (adx_json_roundtrip (fun _ => true) 3 m root demo_doc) as (mem & m1 & txt & H1 & H2 & H3 & H4).
  - done.
  - exact Hwf.
  - exact Hdoc.
  - exact demo_doc_ok.
  - cbn -[B]. json_ok.
  - vm_compute. lia.
  - vm_compute. discriminate.
  - exists m, root, mem, m1, txt. split; [exact H1|]. split; [exact H2|]. split; [rewrite H3; vm_compute; reflexivity|exact H4].
Defined.
