(* ===== verification/AdxJsonApi.v ===== *)
(** JSON documents: building and lookup, and what the printer and the parser
    of adx_dsp/src/adx_json.c do outside the contract of the round trip. *)

From Stdlib Require Import ZArith Lia.
From S2P Require Import Prelude AdxJson AdxJsonDoc AdxJsonRound.

Open Scope Z_scope.

(** ** Lookup *)

(** The first member with a given key. *)
Definition first_member (l : list (option bytes * jv)) (k : bytes) : option jv :=
  snd <$> head (filter (fun kv => kv.1 = Some k) l).

Definition members (v : jv) : list (option bytes * jv) := match v with Coll _ l => l | Leaf _ _ => [] end.

(** The text of a string member and the value of a number. *)
Definition text_of (l : list (option bytes * jv)) (k : bytes) : option bytes :=
  match first_member l k with Some (Leaf t s) => if decide (t = ADX_JSON_STRING) then Some s else None | _ => None end.
Definition number_of (l : list (option bytes * jv)) (k : bytes) : Z :=
  match first_member l k with Some (Leaf t s) => if decide (t = ADX_JSON_NUMBER) then atol s else 0 | _ => 0 end.
Definition members_of (l : list (option bytes * jv)) (k : bytes) : list (option bytes * jv) :=
  match first_member l k with Some v => members v | None => [] end.

Lemma holds_inv lo hi m a k v : holds lo hi m a k v ->
  lo <= a < hi /\ exists n, nodes m !! a = Some n /\ key n = k /\ type n = jtype v /\
    Forall2 (fun c kv => holds lo hi m c kv.1 kv.2) (child n) (members v) /\
    match v with Leaf _ s => val n = Some s | Coll arr l => arr = true -> array_len n = Z.of_nat (length l) end.
Proof. intros H. inversion H; subst; (split; [done|]); eexists; split_and!; eauto. simpl. by replace (child n) with (@nil Z). Qed.

Lemma find_child_ok lo hi m cs l k :
  Forall2 (fun c (kv : option bytes * jv) => holds lo hi m c kv.1 kv.2) cs l ->
  exists c, find_child m cs k = Ok c /\
    match first_member l k with
    | Some v => holds lo hi m c (Some k) v
    | None => c = 0
    end.
Proof.
  unfold first_member. induction 1 as [|c [k' v] cs l Hc Hcs (a & Ha & IH)]; [by exists 0|]. cbn [fst snd] in *.
  destruct (holds_inv _ _ _ _ _ _ Hc) as (_ & n & Hn & Hk & _). cbn [find_child]. unfold get. rewrite Hn.
  cbn [of_opt mbind cres_bind]. rewrite Hk, filter_cons. cbn [fst].
  destruct k' as [k'|].
  - destruct (decide (strcmp k' k = 0)) as [E|E].
    + apply strcmp_eq in E as ->. rewrite decide_True by done. exists c. split; [done|]. exact Hc.
    + rewrite decide_False by (intros [= ->]; by rewrite strcmp_refl in E). exists a. by split.
  - rewrite decide_False by done. exists a. by split.
Qed.

(** A node with given members, or NULL when there are none to look for. *)
Definition lists (m : jmem) (a : Z) (l : list (option bytes * jv)) : Prop :=
  (a = 0 /\ l = []) \/
  (a ≠ 0 /\ exists n lo hi, nodes m !! a = Some n /\ 0 < lo /\ Forall2 (fun c kv => holds lo hi m c kv.1 kv.2) (child n) l).

(** A node with a given value, or NULL. *)
Definition rep (m : jmem) (c : Z) (k : option bytes) (v : option jv) : Prop :=
  match v with Some v => exists lo hi, 0 < lo /\ holds lo hi m c k v | None => c = 0 end.

Lemma rep_lists m c k v : rep m c k v -> lists m c (match v with Some v => members v | None => [] end).
Proof.
  destruct v as [v|]; [|by left]. intros (lo & hi & Hlo & (Hr & n & Hn & _ & _ & Hc & _)%holds_inv).
  right. split; [lia|]. by exists n, lo, hi.
Qed.

Lemma doc_lists m root l : wf m -> holds_doc m root l -> lists m root l.
Proof.
  intros Hm (n & lo & hi & Hn & Hk & Hlo & Hhi & Hl). pose proof (Hm _ _ Hn). right. split; [lia|]. exists n, lo, hi.
  split_and!; [done|lia|done].
Qed.

Lemma json_find_ok m a l k : lists m a l ->
  exists c, adx_json_find m a (Some k) = Ok c /\ rep m c (Some k) (first_member l k).
Proof.
  unfold adx_json_find. intros [[-> ->]|(Ha & n & lo & hi & Hn & Hlo & Hl)]; [by exists 0|]. rewrite decide_False by done.
  unfold get. rewrite Hn. cbn [of_opt mbind cres_bind]. destruct (find_child_ok lo hi m (child n) l k Hl) as (c & E & Hc).
  exists c. split; [done|]. destruct (first_member l k) as [v|]; [|done]. by exists lo, hi.
Qed.

Lemma find_members m a l k : lists m a l -> exists c, adx_json_find m a (Some k) = Ok c /\ lists m c (members_of l k).
Proof. intros (c & E & Hc)%(json_find_ok _ _ _ k). exists c. split; [done|]. by apply rep_lists in Hc. Qed.

Lemma rep_node m c k v : rep m c k (Some v) -> c ≠ 0 /\ exists n, get m c = Ok n /\ type n = jtype v /\
  match v with Leaf _ s => val n = Some s | Coll arr l => arr = true -> array_len n = Z.of_nat (length l) end.
Proof.
  intros (lo & hi & Hlo & (Hr & n & Hn & _ & Ht & _ & Hv)%holds_inv). split; [lia|]. exists n. unfold get. by rewrite Hn.
Qed.

Lemma find_text m a l k : lists m a l -> adx_json_find_value_string m a (Some k) = Ok (text_of l k).
Proof.
  intros (c & E & Hc)%(json_find_ok _ _ _ k). unfold adx_json_find_value_string, text_of. rewrite E. cbn [mbind cres_bind].
  destruct (first_member l k) as [v|]; [|by rewrite decide_True].
  destruct (rep_node _ _ _ _ Hc) as (Hc0 & n & -> & Ht & Hv). rewrite decide_False by done. cbn [mbind cres_bind]. rewrite Ht.
  destruct v as [[] xs|t s]; [done|done|]. simpl jtype. destruct (decide (t = ADX_JSON_STRING)) as [E1|E1].
  - rewrite decide_False by (intros H; by apply H). by rewrite Hv.
  - by rewrite decide_True.
Qed.

Lemma find_number_ok m a l k : lists m a l -> adx_json_find_value_number m a (Some k) = Ok (number_of l k).
Proof.
  intros (c & E & Hc)%(json_find_ok _ _ _ k). unfold adx_json_find_value_number, find_number, number_of. rewrite E. cbn [mbind cres_bind].
  destruct (first_member l k) as [v|]; [|by rewrite decide_True].
  destruct (rep_node _ _ _ _ Hc) as (Hc0 & n & -> & Ht & Hv). rewrite decide_False by done. cbn [mbind cres_bind]. rewrite Ht.
  destruct v as [[] xs|t s]; [done|done|]. simpl jtype. destruct (decide (t = ADX_JSON_NUMBER)) as [E1|E1].
  - rewrite decide_False by (intros H; by apply H). by rewrite Hv.
  - by rewrite decide_True.
Qed.

Lemma array_check_ok m c k v : rep m c k v -> match v with Some v => jv_ok v | None => True end ->
  adx_json_array_check m c = Ok (match v with Some (Coll true (_ :: _)) => 0 | _ => -1 end).
Proof.
  unfold adx_json_array_check. destruct v as [v|]; [|intros ->; by rewrite decide_True].
  intros (Hc0 & n & -> & Ht & Hv)%rep_node Hok. rewrite decide_False by done. cbn [mbind cres_bind]. rewrite Ht.
  destruct v as [[] [|x xs]|t s]; cbn [jtype].
  - rewrite Hv by done. by rewrite decide_False by (intros [_ H]; simpl in H; lia).
  - rewrite Hv by done. by rewrite decide_True by (split; [done|simpl; lia]).
  - by rewrite decide_False by (intros [H _]; done).
  - by rewrite decide_False by (intros [H _]; done).
  - rewrite decide_False; [done|]. intros [-> H]. simpl in Hok. naive_solver.
Qed.

Lemma first_member_ok (P : jv -> Prop) l k : Forall (fun kv => P kv.2) l -> match first_member l k with Some v => P v | None => True end.
Proof.
  unfold first_member. intros H. induction H as [|[k' v] l Hv Hl IH]; [done|]. rewrite filter_cons. by case_decide.
Qed.

Lemma find_index_ok cs i index : i <= index ->
  find_index cs i index = match cs !! Z.to_nat (index - i) with Some c => c | None => 0 end.
Proof.
  revert i. induction cs as [|c cs IH]; intros i Hi; [by rewrite lookup_nil|]. cbn [find_index]. case_decide as E.
  - subst. by rewrite Z.sub_diag.
  - rewrite IH by lia. replace (Z.to_nat (index - i)) with (S (Z.to_nat (index - (i + 1)))) by lia. done.
Qed.

(** looking a document up.  [adx_json_find] gives the node of the first
    member with that key, or NULL; the typed lookups give the text of a
    string and the value of a number, and NULL or 0 for a member of another
    type or none; a number printed in decimal is read back.
    [adx_json_find_array] gives the elements of an array by position and NULL
    outside it. *)
Theorem adx_json_lookup m root l :
  wf m -> holds_doc m root l ->
  (forall k, exists c, adx_json_find m root (Some k) = Ok c /\ rep m c (Some k) (first_member l k)) /\
  (forall k, adx_json_find_value_string m root (Some k) = Ok (text_of l k)) /\
  (forall k, adx_json_find_value_number m root (Some k) = Ok (number_of l k)) /\
  (forall k z, -9223372036854775808 <= z <= 9223372036854775807 -> first_member l k = Some (JNum (dec z)) ->
     adx_json_find_value_number m root (Some k) = Ok z) /\
  (forall lo hi a k xs i, holds lo hi m a k (Coll true xs) -> 0 <= i ->
     exists c, adx_json_find_array m a i = Ok c /\
       match xs !! Z.to_nat i with Some kv => holds lo hi m c kv.1 kv.2 | None => c = 0 end).
Proof.
  intros Hm Hdoc. pose proof (doc_lists m root l Hm Hdoc) as Hl. split_and!.
  - intros k. by apply json_find_ok.
  - intros k. by apply find_text.
  - intros k. by apply find_number_ok.
  - intros k z Hz E. rewrite (find_number_ok m root l) by done. unfold number_of. rewrite E. simpl. f_equal. unfold atol.
    rewrite <- (app_nil_r (dec z)), strtol_dec by (done || lia). lia.
  - intros lo' hi' a k xs i Ha Hi. inversion Ha as [? na ? ? Hr Hna Ht Hlen Hc|]; subst.
    unfold adx_json_find_array, adx_json_array_check. pose proof (Hm _ _ Hna). rewrite decide_False by lia.
    unfold get. rewrite Hna. cbn [of_opt mbind cres_bind]. rewrite Ht, Hlen by done. destruct xs as [|x xs].
    + rewrite lookup_nil. exists 0. rewrite (decide_False (P := _ /\ _)) by (simpl; lia). cbn [mbind cres_bind mret cres_ret].
      by rewrite decide_True.
    + rewrite (decide_True (P := _ /\ _)) by (split; [done|simpl; lia]). cbn [mbind cres_bind mret cres_ret].
      rewrite decide_False by (intros H1; by apply H1). rewrite find_index_ok by done. rewrite Z.sub_0_r.
      eexists. split; [done|]. clear -Hc. revert Hc. generalize (x :: xs), (child na), (Z.to_nat i). clear.
      intros xs cs j Hc. destruct (xs !! j) as [kv|] eqn:E.
      * destruct (Forall2_lookup_r _ _ _ _ _ Hc E) as (c & -> & H). exact H.
      * apply lookup_ge_None in E. apply Forall2_length in Hc. by rewrite lookup_ge_None_2 by lia.
Qed.

Lemma adx_json_lookup_witness : exists m root,
  adx_json_find_value_string m root (Some (B "id")) = Ok (Some (B "x")) /\
  adx_json_find_value_number m root (Some (B "w")) = Ok (-640) /\
  adx_json_find_value_number m root (Some (B "id")) = Ok 0.
Proof.
  destruct (parse_doc_ok (fun _ => true) (fun _ => eq_refl) (JMem ∅ 0)
    [(Some (B "id"), JStr (B "x")); (Some (B "w"), JNum (dec (-640)))]) as (root & m & _ & _ & Hdoc & Hwf & _).
  - intros a n Ha. simpl in Ha. by rewrite lookup_empty in Ha.
  - done.
  - cbn -[B dec]. json_ok.
  - vm_compute. reflexivity.
  - destruct (adx_json_lookup m root _ Hwf Hdoc) as (_ & H2 & H3 & H4 & _).
    exists m, root. rewrite H2, !H3. split; [done|]. split; [|done].
    rewrite <- H3. apply (H4 _ (-640)); [lia|]. vm_compute. reflexivity.
Defined.

(** ** Building *)

(** A text the copy of [adx_json_strdup] does not change: no backslash, and a
    length whose successor is an [int]. *)
Definition plain (s : bytes) : Prop := Forall (fun c => c ≠ 92) s /\ Z.of_nat (length s) < 2147483647.

Section Build.
Context (ao : nat -> bool) (Hao : forall k, ao k = true).

Lemma root_ok m : wf m -> exists root m', adx_json_create ao m 0 None 0 = Ok (root, m') /\ wf m' /\ holds_doc m' root [].
Proof.
  intros Hm. unfold adx_json_create.
  rewrite alloc_ok, ok_bind by (done || apply small_size_json). rewrite decide_False by (unfold fresh; lia).
  cbn [mbind cres_bind mret cres_ret]. rewrite decide_False by (intros [H _]; by destruct H).
  rewrite decide_True by done. cbn [mbind cres_bind mret cres_ret]. eexists _, _. split; [done|]. split.
  - intros a n Ha. destruct (decide (fresh m = a)) as [<-|Hna]; [unfold fresh; simpl; lia|].
    rewrite put_ne in Ha by done. apply Hm in Ha. unfold fresh in *. simpl. lia.
  - eexists _, (fresh m + 1), (fresh m + 1). split; [apply put_eq|]. split; [done|].
    split; [lia|]. split; [unfold fresh; simpl; lia|constructor].
Qed.

(** A node added below [root]. *)
Lemma add_ok m root n t k v :
  wf m -> nodes m !! root = Some n ->
  match k with Some k => plain k | None => True end -> plain v ->
  (t = ADX_JSON_OBJECT \/ t = ADX_JSON_ARRAY \/ t = ADX_JSON_STRING \/ t = ADX_JSON_NUMBER \/ t = ADX_JSON_BOOL \/ t = ADX_JSON_NULL) ->
  exists m', adx_json_add ao true m root t k (Some v) = Ok (fresh m, m') /\ ext root m m' /\ fresh m < fresh m' /\
    nodes m' !! root = Some (add_child (fresh m) n) /\
    nodes m' !! fresh m = Some (Json t k (if decide (t = ADX_JSON_OBJECT ∨ t = ADX_JSON_ARRAY) then None else Some v) 0 root []).
Proof.
  intros Hm Hn Hk Hv Ht. pose proof (Hm _ _ Hn) as Hr. unfold adx_json_add. rewrite decide_False by lia. cbn [negb].
  assert (match k with Some k => i32 (Z.of_nat (length k)) | None => 0 end =
    Z.of_nat (match k with Some k => length k | None => 0%nat end)) as ->.
  { destruct k as [k|]; [|done]. destruct Hk. by rewrite i32_small by lia. }
  destruct (create_ok ao Hao m root n ((fun k => k ++ [0]) <$> k) (match k with Some k => length k | None => 0%nat end) k)
    as (m1 & Ec & (Hf1 & Hwf1 & Hfr1) & Hlt & Hc1 & Hp1); [done|done| |].
  { destruct k as [k|]; [|done]. destruct Hk as [Hk Hkl]. split; [done|]. exists k. split; [by apply strdup_loop_plain|done]. }
  rewrite Ec, ok_bind, decide_False by (unfold fresh; lia). rewrite (update_ok _ _ _ _ Hc1). cbn [mbind cres_bind].
  set (m2 := put m1 (fresh m) _). assert (wf m2) as Hwf2 by (apply wf_put; [done|unfold fresh in *; lia]).
  destruct (decide (t = ADX_JSON_OBJECT ∨ t = ADX_JSON_ARRAY)) as [Hcoll|Hcoll].
  - rewrite decide_True by tauto. exists m2. split; [done|]. split; [|split; [done|split]].
    + split; [done|]. split; [done|]. intros q Hq Hqn. subst m2. rewrite put_ne by lia. by apply Hfr1.
    + subst m2. by rewrite put_ne by lia.
    + subst m2. by rewrite put_eq.
  - rewrite decide_False by (intros [?|[?|?]]; subst; naive_solver). rewrite decide_True by tauto.
    cbn [of_opt mbind cres_bind]. destruct Hv as [Hv Hvl]. rewrite i32_small by lia.
    rewrite (strdup_ok ao Hao m2 _ _ v) by (done || by apply strdup_loop_plain). cbn [mbind cres_bind].
    rewrite (update_ok _ _ (set_type t (Json 0 k None 0 root []))) by apply put_eq. cbn [mbind cres_bind].
    rewrite decide_False by done. eexists. split; [done|]. split; [|split; [|split]].
    + split; [unfold fresh in *; simpl in *; lia|]. split.
      * apply wf_put; [|unfold fresh in *; simpl; lia]. intros a n' Ha. apply Hwf2 in Ha. unfold fresh in *. simpl in *. lia.
      * intros q Hq Hqn. rewrite put_ne by lia. subst m2. etransitivity; [apply put_ne; lia|]. by apply Hfr1.
    + unfold fresh in *. simpl in *. lia.
    + rewrite put_ne by lia. subst m2. etransitivity; [apply put_ne; lia|done].
    + by rewrite put_eq.
Qed.

(** A scalar added to a document. *)
Lemma add_doc_ok m root l t k v :
  wf m -> holds_doc m root l -> match k with Some k => plain k | None => True end -> plain v ->
  (t = ADX_JSON_STRING \/ t = ADX_JSON_NUMBER \/ t = ADX_JSON_BOOL \/ t = ADX_JSON_NULL) ->
  exists a m', adx_json_add ao true m root t k (Some v) = Ok (a, m') /\ a ≠ 0 /\ wf m' /\
    holds_doc m' root (l ++ [(k, Leaf t v)]).
Proof.
  intros Hm (n & lo & hi & Hn & Hkn & Hlo & Hhi & Hl) Hk Hv Ht.
  destruct (add_ok m root n t k v Hm Hn Hk Hv) as (m' & E & (Hf & Hwf & Hfr) & Hlt & Hroot & Hnew); [tauto|].
  exists (fresh m), m'. split; [done|]. split; [unfold fresh; lia|]. split; [done|].
  pose proof (Hm _ _ Hn) as Hrange.
  exists (add_child (fresh m) n), (Z.min lo (fresh m)), (fresh m'). split; [done|]. split; [done|].
  split; [lia|]. split; [lia|]. simpl. apply Forall2_app.
  - eapply holds_list_frame; [exact Hl|lia|lia|]. intros p Hp. apply Hfr; lia.
  - constructor; [|constructor]. simpl. change k with (key (Json t k (if decide (t = ADX_JSON_OBJECT ∨ t = ADX_JSON_ARRAY) then None else Some v) 0 root [])).
    apply holds_leaf; [lia|done|done| |done]. simpl. rewrite decide_False; [done|]. by destruct Ht as [->|[->|[->| ->]]]; intros [?|?].
Qed.
End Build.

(** building a document.  [ADX_JSON_ROOT] makes an empty document; when
    the pool refuses nothing, every [adx_json_add_*] call on a document
    appends one member with that key and value (keys and strings without
    backslash, which the copy would take for an escape, and shorter than
    2^31 - 1), and on any node it
    appends a fresh child to the list, counts it if the node is an array and
    changes nothing else; without a root, a pool or a first block the calls
    return NULL. *)
Theorem adx_json_build ao m :
  (forall k, ao k = true) -> wf m ->
  (exists root m', adx_json_create ao m 0 None 0 = Ok (root, m') /\ wf m' /\ holds_doc m' root []) /\
  (forall root l k s z, holds_doc m root l -> plain k -> plain s ->
     (exists a m', adx_json_add_string ao true m root (Some k) (Some s) = Ok (a, m') /\ wf m' /\
        holds_doc m' root (l ++ [(Some k, JStr s)])) /\
     (-9223372036854775808 <= z <= 9223372036854775807 ->
      exists a m', adx_json_add_number ao true m root (Some k) z = Ok (a, m') /\ wf m' /\
        holds_doc m' root (l ++ [(Some k, JNum (dec z))])) /\
     (exists a m', adx_json_add_true ao true m root (Some k) = Ok (a, m') /\ wf m' /\
        holds_doc m' root (l ++ [(Some k, Leaf ADX_JSON_BOOL (B "true"))])) /\
     (exists a m', adx_json_add_null ao true m root (Some k) = Ok (a, m') /\ wf m' /\
        holds_doc m' root (l ++ [(Some k, Leaf ADX_JSON_NULL (B "null"))]))) /\
  (forall node n t k v, nodes m !! node = Some n -> match k with Some k => plain k | None => True end -> plain v ->
     (t = ADX_JSON_OBJECT \/ t = ADX_JSON_ARRAY \/ t = ADX_JSON_STRING \/ t = ADX_JSON_NUMBER) ->
     exists m', adx_json_add ao true m node t k (Some v) = Ok (fresh m, m') /\ ext node m m' /\
       nodes m' !! node = Some (add_child (fresh m) n)) /\
  (forall refuse pool root t k v, root = 0 \/ pool = false \/ refuse (nalloc m) = false ->
     exists m', adx_json_add refuse pool m root t k v = Ok (0, m') /\ nodes m' = nodes m).
Proof.
  intros Hao Hm. split; [by apply root_ok|]. split; [|split].
  - intros root l k s z Hdoc Hk Hs.
    assert (forall t v, plain v -> (t = ADX_JSON_STRING \/ t = ADX_JSON_NUMBER \/ t = ADX_JSON_BOOL \/ t = ADX_JSON_NULL) ->
      exists a m', adx_json_add ao true m root t (Some k) (Some v) = Ok (a, m') /\ wf m' /\ holds_doc m' root (l ++ [(Some k, Leaf t v)])) as H.
    { intros t v Hv Ht. destruct (add_doc_ok ao Hao m root l t (Some k) v Hm Hdoc Hk Hv Ht) as (a & m' & ? & _ & ? & ?). eauto. }
    split; [|split; [|split]].
    + apply (H ADX_JSON_STRING); auto.
    + intros Hz. apply (H ADX_JSON_NUMBER); [|auto]. split; [|pose proof (dec_le z); lia].
      assert (forall d, Forall (fun d => isdigit d = true) d -> Forall (fun c => c ≠ 92) d) as Hd.
      { intros d Hd. eapply Forall_impl; [exact Hd|]. simpl. intros c Hc%bool_decide_eq_true. lia. }
      unfold dec. case_decide; [constructor; [done|]|]; apply Hd.
      * destruct (digits_spec 20 (- z) []) as (j & Hj & _); [lia|constructor|done].
      * destruct (digits_spec 20 z []) as (j & Hj & _); [lia|constructor|done].
    + apply (H ADX_JSON_BOOL); [|auto]. split; [apply (bool_decide_unpack _)|]; by vm_compute.
    + apply (H ADX_JSON_NULL); [|auto]. split; [apply (bool_decide_unpack _)|]; by vm_compute.
  - intros node n t k v Hn Hk Hv Ht.
    destruct (add_ok ao Hao m node n t k v Hm Hn Hk Hv) as (m' & H1 & H2 & _ & H3 & _); [tauto|]. eauto.
  - intros refuse pool root t k v H. unfold adx_json_add. case_decide as H0; [eauto|].
    destruct pool; cbn [negb]; [|eauto]. destruct H as [?|[?|H]]; [done|done|].
    unfold adx_json_create, adx_alloc. rewrite H. cbn [mbind cres_bind mret cres_ret]. rewrite !decide_True by done. eauto.
Qed.

Lemma adx_json_build_witness : exists root m1 a m2,
  adx_json_create (fun _ => true) (JMem ∅ 0) 0 None 0 = Ok (root, m1) /\
  adx_json_add_number (fun _ => true) true m1 root (Some (B "price")) 350 = Ok (a, m2) /\
  holds_doc m2 root [(Some (B "price"), JNum (B "350"))].
Proof.
  assert (wf (JMem ∅ 0)) as H0 by (intros a n Ha; simpl in Ha; by rewrite lookup_empty in Ha).
  destruct (adx_json_build (fun _ => true) (JMem ∅ 0) (fun _ => eq_refl) H0) as ((root & m1 & E1 & Hwf & Hdoc) & _).
  destruct (adx_json_build (fun _ => true) m1 (fun _ => eq_refl) Hwf) as (_ & H & _).
  destruct (H root [] (B "price") [] 350 Hdoc) as (_ & (a & m2 & E2 & _ & Hdoc2) & _).
  - split; [apply (bool_decide_unpack _)|]; by vm_compute.
  - by split.
  - lia.
  - exists root, m1, a, m2. split; [exact E1|]. split; [exact E2|]. exact Hdoc2.
Defined.

(** ** Outside the contract *)

(** The text printed for a text parsed, with a pool that refuses nothing. *)
Definition reprint (txt : bytes) : cres (option bytes) :=
  '(root, m) ← adx_json_parse (fun _ => true) (JMem ∅ 0) txt;
  if decide (root = 0) then mret None else
  '(mem, _) ← adx_json_to_buffer (fun _ => true) 10 m root;
  match mem with None => mret None | Some mem => s ← cstr mem; mret (Some s) end.

(** what the printer loses.  A last member whose value is empty is
    printed as nothing after its comma, and the result is refused by the
    parser itself; an empty string or object elsewhere disappears; a number
    of more digits than twice the buffer is copied past the end of it.  The
    parser skips bytes above 127 between tokens and does not look at what
    follows the document. *)
Theorem adx_json_print_limits :
  reprint (Q "{'a':1,'b':{}}") = Ok (Some (Q "{'a':1,}")) /\
  reprint (Q "{'a':1,}") = Ok None /\
  reprint (Q "{'a':'','b':2}") = Ok (Some (Q "{'b':2}")) /\
  reprint (Q "{'a':" ++ replicate 2000 49 ++ Q "}") = Ok (Some (Q "{'a':" ++ replicate 2000 49 ++ Q "}")) /\
  reprint (Q "{'a':" ++ replicate 5000 49 ++ Q "}") = UB /\
  reprint (200 :: Q "{'a':" ++ [233] ++ Q "1} trailing") = Ok (Some (Q "{'a':1}")).
Proof. split_and!; vm_compute; reflexivity. Qed.
