(* ===== verification/AdxJsonHeap.v ===== *)
(** The heap of JSON nodes after any parse (adx_dsp/src/adx_json.c): whatever
    the text was, every child of a node is a node, so that the lookups never
    follow a dangling pointer. *)

From Stdlib Require Import ZArith Lia.
From S2P Require Import Prelude AdxJson AdxJsonDoc.

Open Scope Z_scope.

Definition closed (m : jmem) : Prop :=
  forall a n, nodes m !! a = Some n -> Forall (fun c => is_Some (nodes m !! c)) (child n).

(** A computation that leaves a closed heap closed, when it succeeds. *)
Definition keeps {A} (m : jmem) (r : cres (A * jmem)) : Prop :=
  forall a m', r = Ok (a, m') -> closed m -> closed m'.

Lemma keeps_ret {A} m (a : A) : keeps m (mret (a, m)).
Proof. by intros ? ? [= _ <-]. Qed.

Lemma keeps_bind {A B} m (r : cres (A * jmem)) (f : A * jmem -> cres (B * jmem)) :
  keeps m r -> (forall a m', keeps m' (f (a, m'))) -> keeps m (r ≫= f).
Proof. intros Hr Hf b m' ([a m1] & E & Ef)%cres_bind_ok Hm. eapply Hf; [exact Ef|]. by eapply Hr. Qed.

(** A step that does not touch the heap. *)
Lemma keeps_pure {A B} m (r : cres A) (f : A -> cres (B * jmem)) : (forall a, keeps m (f a)) -> keeps m (r ≫= f).
Proof. intros Hf b m' (a & _ & Ef)%cres_bind_ok. by eapply Hf. Qed.

Lemma closed_put m a n : closed m -> Forall (fun c => is_Some (nodes (put m a n) !! c)) (child n) -> closed (put m a n).
Proof.
  intros Hm Hn b nb. destruct (decide (a = b)) as [<-|Hne]; cbn [put nodes] in *.
  - rewrite lookup_insert_eq. by intros [= <-].
  - rewrite lookup_insert_ne by done. intros Hb. eapply Forall_impl; [by eapply Hm|]. intros c Hc. cbv beta in *.
    destruct (decide (a = c)) as [<-|]; [rewrite lookup_insert_eq; eauto|by rewrite lookup_insert_ne].
Qed.

Lemma live_put m a n c : is_Some (nodes m !! c) -> is_Some (nodes (put m a n) !! c).
Proof.
  intros Hc. cbn. destruct (decide (a = c)) as [<-|]; [rewrite lookup_insert_eq; eauto|by rewrite lookup_insert_ne].
Qed.

(** An update of anything but the children. *)
Lemma keeps_update {B} m a f (g : jmem -> cres (B * jmem)) :
  (forall n, child (f n) = child n) -> (forall m', keeps m' (g m')) -> keeps m (update m a f ≫= g).
Proof.
  intros Hf Hg b m' (m1 & E & Eg)%cres_bind_ok Hm. eapply Hg; [exact Eg|]. unfold update, get in E.
  destruct (nodes m !! a) as [n|] eqn:En; [|done]. injection E as <-. apply closed_put; [done|]. rewrite Hf.
  eapply Forall_impl; [by eapply Hm|]. intros c Hc. by apply live_put.
Qed.

Lemma keeps_nodes {A} m m1 (r : cres (A * jmem)) : nodes m1 = nodes m -> keeps m1 r -> keeps m r.
Proof. intros E H a m' Er Hm. eapply H; [exact Er|]. intros b n. rewrite E. by apply Hm. Qed.

Create HintDb heap.
#[export] Hint Resolve keeps_ret : heap.

(** Goes through a computation step by step. *)
Ltac keeps :=
  cbv beta iota zeta;
  lazymatch goal with
  | |- keeps _ (if decide ?P then _ else _) => destruct (decide P); keeps
  | |- keeps _ (if negb ?b then _ else _) => destruct b; cbn [negb]; keeps
  | |- keeps _ (if ?b then _ else _) => destruct b eqn:?; keeps
  | |- keeps _ (match ?x with pair _ _ => _ end) => destruct x; keeps
  | |- keeps _ (match ?x with Some _ => _ | None => _ end) => destruct x; keeps
  | |- keeps _ (mret _) => apply keeps_ret
  | |- keeps _ UB => done
  | |- keeps _ NoFuel => done
  | |- keeps _ (update _ _ _ ≫= _) => apply keeps_update; [done|intros ?; keeps]
  | |- keeps _ (_ ≫= _) => first
      [ apply keeps_bind; [solve [keeps]|intros [? ?] ?; keeps]
      | apply keeps_bind; [solve [keeps]|intros ? ?; keeps]
      | apply keeps_pure; intros ?; keeps ]
  | |- _ => eauto with heap
  end.

Section Pool.
Context (ao : nat -> bool).

Lemma alloc_keeps m size : keeps m (adx_alloc ao m size).
Proof.
  unfold adx_alloc. destruct (ao (nalloc m)); [apply keeps_pure; intros ?|]; (eapply keeps_nodes; [|apply keeps_ret]; done).
Qed.
Hint Resolve alloc_keeps : heap.

Lemma strdup_keeps m src len : keeps m (adx_json_strdup ao m src len).
Proof. unfold adx_json_strdup. keeps. Qed.
Hint Resolve strdup_keeps : heap.

Lemma create_keeps m parent key len : keeps m (adx_json_create ao m parent key len).
Proof.
  unfold adx_json_create. apply keeps_bind; [apply alloc_keeps|]. intros a m0. case_decide; [apply keeps_ret|].
  apply keeps_bind; [keeps|]. intros k m1. case_decide; [apply keeps_ret|].
  cbv zeta. intros b m' (m2 & E & [= <- <-])%cres_bind_ok Hm.
  assert (closed (put m1 a (Json 0 k None 0 parent []))) as Hc by (apply closed_put; [done|constructor]).
  case_decide; [by injection E as <-|]. unfold update, get in E.
  destruct (nodes _ !! parent) as [n|] eqn:En; [|done]. injection E as <-. apply closed_put; [done|]. cbn [add_child child].
  apply Forall_app. split.
  - eapply Forall_impl; [by eapply Hc|]. intros c Hl. by apply live_put.
  - constructor; [|done]. apply live_put. cbn. rewrite lookup_insert_eq. eauto.
Qed.
Hint Resolve create_keeps : heap.

Lemma parse_key_keeps m pos parent : keeps m (adx_json_parse_key ao m pos parent).
Proof. unfold adx_json_parse_key, adx_json_create_key. keeps. Qed.
Hint Resolve parse_key_keeps : heap.

Lemma value_string_keeps m pos node : keeps m (adx_json_parse_value_string ao m pos node).
Proof. unfold adx_json_parse_value_string. keeps. Qed.
Lemma value_number_keeps m pos node : keeps m (adx_json_parse_value_number ao m pos node).
Proof. unfold adx_json_parse_value_number. keeps. Qed.
Lemma other_keeps m pos node t str : keeps m (adx_json_parse_other ao m pos node t str).
Proof. unfold adx_json_parse_other. keeps. Qed.
Hint Resolve value_string_keeps value_number_keeps other_keeps : heap.

Section Loops.
Context (pv : jmem -> bytes -> Z -> cres (Z * bytes * jmem)) (Hpv : forall m pos node, keeps m (pv m pos node)).
Hint Resolve Hpv : heap.

Lemma object_loop_keeps fuel : forall m pos parent, keeps m (object_loop ao pv fuel m pos parent).
Proof. induction fuel as [|fuel IH]; intros m pos parent; [done|]. cbn [object_loop]. keeps. Qed.
Lemma array_loop_keeps fuel : forall m pos parent, keeps m (array_loop ao pv fuel m pos parent).
Proof. induction fuel as [|fuel IH]; intros m pos parent; [done|]. cbn [array_loop]. keeps. Qed.
Hint Resolve object_loop_keeps array_loop_keeps : heap.

Lemma parse_object_keeps fuel m pos parent : keeps m (adx_json_parse_object ao pv fuel m pos parent).
Proof. unfold adx_json_parse_object. keeps. Qed.
Lemma parse_array_keeps fuel m pos parent : keeps m (adx_json_parse_array ao pv fuel m pos parent).
Proof. unfold adx_json_parse_array. keeps. Qed.
End Loops.
Hint Resolve parse_object_keeps parse_array_keeps : heap.

Lemma parse_value_keeps fuel : forall m pos node, keeps m (adx_json_parse_value ao fuel m pos node).
Proof. induction fuel as [|fuel IH]; intros m pos node; [done|]. cbn [adx_json_parse_value]. keeps. Qed.
Hint Resolve parse_value_keeps : heap.

Lemma parse_keeps m str : keeps m (adx_json_parse ao m str).
Proof. unfold adx_json_parse. keeps. Qed.
End Pool.
#[export] Hint Resolve strdup_keeps create_keeps parse_keeps : heap.

(** ** Lookups in a closed heap *)

(** NULL or a node. *)
Definition pointer (m : jmem) (a : Z) : Prop := a = 0 \/ is_Some (nodes m !! a).

Lemma find_child_safe m cs k : Forall (fun c => is_Some (nodes m !! c)) cs ->
  exists c, find_child m cs k = Ok c /\ pointer m c.
Proof.
  induction 1 as [|c cs Hc Hcs IH]; [exists 0; by split; [|left]|]. cbn [find_child]. unfold get.
  destruct Hc as [n Hn]. rewrite Hn. cbn [of_opt]. rewrite ok_bind. destruct (key n); [|done]. case_decide; [|done].
  exists c. split; [done|right; eauto].
Qed.

Section Closed.
Context (m : jmem) (Hm : closed m).

Lemma find_safe a k : pointer m a -> exists c, adx_json_find m a k = Ok c /\ pointer m c.
Proof.
  unfold adx_json_find. destruct k as [k|]; [|exists 0; by split; [|left]]. case_decide; [exists 0; by split; [|left]|].
  intros [|[n Hn]]; [done|]. unfold get. rewrite Hn. cbn [of_opt]. rewrite ok_bind. apply find_child_safe. by eapply Hm.
Qed.

Lemma find_string_safe a k : pointer m a -> exists v, adx_json_find_value_string m a k = Ok v.
Proof.
  intros Ha. unfold adx_json_find_value_string. destruct (find_safe a k Ha) as (c & -> & Hc). rewrite ok_bind.
  case_decide; [by exists None|]. destruct Hc as [|[n Hn]]; [done|]. unfold get. rewrite Hn. cbn [of_opt]. rewrite ok_bind.
  case_decide; eauto.
Qed.

Lemma find_number_safe a k : pointer m a -> exists v, adx_json_find_value_number m a k = Ok v.
Proof.
  intros Ha. unfold adx_json_find_value_number, find_number. destruct (find_safe a k Ha) as (c & -> & Hc). rewrite ok_bind.
  case_decide; [by exists 0|]. destruct Hc as [|[n Hn]]; [done|]. unfold get. rewrite Hn. cbn [of_opt]. rewrite ok_bind.
  case_decide; [by exists 0|]. destruct (val n); eauto.
Qed.

(** A checked array is a node, with children that are nodes. *)
Lemma array_check_safe a : pointer m a -> exists r, adx_json_array_check m a = Ok r /\
  (r = 0 -> exists n, get m a = Ok n /\ Forall (fun c => is_Some (nodes m !! c)) (child n)).
Proof.
  unfold adx_json_array_check. case_decide; [by exists (-1)|]. intros [|[n Hn]]; [done|]. unfold get. rewrite Hn. cbn [of_opt].
  rewrite ok_bind. eexists. split; [done|]. intros _. exists n. split; [done|]. by eapply Hm.
Qed.
End Closed.
