(* ===== verification/AdxIndex.v ===== *)
(** Indexes: what adx_dsp/src/adx_cache.c asks of the trees of
    adx_dsp/src/adx_rbtree.c.

    A client links nodes under keys and looks keys up.  [Index] states what
    it may rely on; the instances discharge it with the red-black trees, each
    in its own memory of nodes, with a fuel logarithmic in their number. *)

From Stdlib Require Import ZArith Lia.
From S2P Require Import Prelude AdxRbtree AdxRbtreeRep AdxRbtreeInsert AdxRbtreeMap AdxRbtreeDelete AdxRbtreeSpec.
Import Rb.

Open Scope Z_scope.

(** [idx_rep t M]: the index holds the map [M] from keys to nodes.  A key that
    is present keeps its node. *)
Class Index (A : Type) `{Countable A} := {
  idx : Type;
  idx_empty : idx;
  idx_add : idx -> Z -> A -> cres idx;
  idx_find : idx -> A -> cres Z;
  idx_rep : idx -> gmap A Z -> Prop;
  idx_empty_ok : idx_rep idx_empty ∅;
  idx_find_ok t M a : idx_rep t M -> idx_find t a = Ok (default 0 (M !! a));
  idx_add_ok t M p a : idx_rep t M -> good_addr p -> (forall b, M !! b ≠ Some p) ->
    exists t', idx_add t p a = Ok t' /\ idx_rep t' (match M !! a with Some _ => M | None => <[a := p]> M end) }.

Section Tree.
Context {A : Type} `{Countable A} `{!RbKey A} `{!RbTree A}.

Definition tree_fuel (s : rbs) : nat := (4 * Nat.log2 (S (base.size (heap s))) + 4)%nat.

(** The node's key is stored in its union, then the node is added. *)
Definition tree_add (s : rbs) (p : Z) (a : A) : cres rbs :=
  let s := Rbs (<[p := Node 0 0 0 (kinj a)]> (heap s)) (rb_node s) in
  '(_, s) ← rbt_add (tree_fuel s) s p;
  mret s.

Definition tree_find (s : rbs) (a : A) : cres Z := rbt_find (tree_fuel s) s a.

Definition tree_idx_rep (s : rbs) (M : gmap A Z) : Prop :=
  exists xs, ordered s xs /\ forall a p, M !! a = Some p <-> (p, a) ∈ xs.

Lemma ordered_fresh s (xs : list (Z * A)) p n :
  ordered s xs -> p ∉ xs.*1 -> ordered (Rbs (<[p := n]> (heap s)) (rb_node s)) xs.
Proof.
  intros (t & (Hroot & Ht & Hnd & Hg) & Hb & Hel & Hs) Hp. exists t. split; [|done].
  split; [exact Hroot|]. split; [|done]. simpl. eapply tree_at_frame; [|exact Ht].
  intros x Hx. apply lookup_insert_ne. intros <-. apply Hp.
  rewrite <- (enc_fst xs), <- Hel. by rewrite elems_addrs.
Qed.

Lemma ordered_size s (xs : list (Z * A)) : ordered s xs -> (length xs <= base.size (heap s))%nat.
Proof.
  intros Ho. destruct (ordered_nodup s xs Ho) as [Hnd _]. rewrite <- (length_fmap fst xs).
  rewrite <- size_dom. rewrite <- (size_list_to_set (C := gset Z) xs.*1) by done.
  apply subseteq_size. intros p. rewrite elem_of_list_to_set, elem_of_dom.
  intros ([q a] & -> & Hin)%list_elem_of_fmap. simpl.
  pose proof (ordered_key s xs q a Ho Hin) as Hk. destruct (heap s !! q); [eauto|done].
Qed.

Lemma tree_fuel_ok s (xs : list (Z * A)) : ordered s xs -> (2 * depth_bound (length xs) < tree_fuel s)%nat.
Proof.
  intros Ho. apply ordered_size in Ho. unfold depth_bound, tree_fuel.
  pose proof (Nat.log2_le_mono (S (length xs)) (S (base.size (heap s)))). lia.
Qed.

Lemma lfind_rep s (xs : list (Z * A)) (M : gmap A Z) a :
  ordered s xs -> (forall a p, M !! a = Some p <-> (p, a) ∈ xs) -> lfind a xs = default 0 (M !! a).
Proof.
  intros Ho HM. pose proof (ordered_nodup _ _ Ho) as [_ Hnull]. destruct (M !! a) as [q|] eqn:E; simpl.
  - apply HM in E. apply lfind_spec; try done; [by destruct Ho as (? & ? & ? & ? & ?)|].
    intros ->. apply Hnull. apply (list_elem_of_fmap_2 fst _ _ E).
  - apply lfind_null; [done|]. intros q Hin%HM. congruence.
Qed.

Lemma tree_find_ok s (M : gmap A Z) a : tree_idx_rep s M -> tree_find s a = Ok (default 0 (M !! a)).
Proof.
  intros (xs & Ho & HM). pose proof (tree_fuel_ok s xs Ho). unfold tree_find.
  rewrite (rbt_find_ok _ s a xs) by (done || lia). f_equal. by eapply lfind_rep.
Qed.

Lemma tree_add_ok s (M : gmap A Z) p a :
  tree_idx_rep s M -> good_addr p -> (forall b, M !! b ≠ Some p) ->
  exists s', tree_add s p a = Ok s' /\ tree_idx_rep s' (match M !! a with Some _ => M | None => <[a := p]> M end).
Proof.
  intros (xs & Ho & HM) Hp Hfr. unfold tree_add. set (s1 := Rbs _ _).
  assert (p ∉ xs.*1) as Hnin.
  { intros ([q b] & -> & Hin)%list_elem_of_fmap. apply HM in Hin. by eapply Hfr. }
  assert (ordered s1 xs) as Ho1 by (by apply ordered_fresh).
  assert (rb_key <$> heap s1 !! p = Some (kinj a)) as Hk by (simpl; by rewrite lookup_insert_eq).
  pose proof (ordered_nodup _ _ Ho) as [_ Hnull]. pose proof (lfind_rep s xs M a Ho HM) as Hl.
  destruct (rbt_add_ok (tree_fuel s1) s1 p a xs Ho1 Hk Hp Hnin (tree_fuel_ok s1 xs Ho1)) as [[Hf E]|(Hf & q & s' & E & _ & Ho')];
    rewrite E; cbn [mbind cres_bind].
  - exists s1. split; [done|]. destruct (M !! a) eqn:Ea; [by exists xs|]. by rewrite Hl in Hf.
  - exists s'. split; [done|]. destruct (M !! a) as [r|] eqn:Ea.
    { exfalso. rewrite Hf in Hl. simpl in Hl. subst r. apply HM in Ea. apply Hnull. apply (list_elem_of_fmap_2 fst _ _ Ea). }
    exists (linsert p a xs). split; [done|]. intros b q'. rewrite linsert_perm, elem_of_cons.
    destruct (decide (b = a)) as [->|Hne].
    + rewrite lookup_insert_eq. split; [intros [= ->]; by left|].
      intros [[= ->]|Hin]; [done|]. apply HM in Hin. congruence.
    + rewrite lookup_insert_ne by done. rewrite HM. naive_solver.
Qed.

Lemma tree_empty_ok : tree_idx_rep (Rbs ∅ NULL) ∅.
Proof.
  exists []. split; [apply (demo_ordered [])|]. intros a p. rewrite lookup_empty. split; [done|by intros ?%elem_of_nil].
Qed.
End Tree.

#[export] Instance number_index : Index Z :=
  {| idx := rbs; idx_empty := Rbs ∅ NULL; idx_add := tree_add; idx_find := tree_find; idx_rep := tree_idx_rep;
     idx_empty_ok := tree_empty_ok; idx_find_ok := tree_find_ok; idx_add_ok := tree_add_ok |}.

#[export] Instance string_index : Index bytes :=
  {| idx := rbs; idx_empty := Rbs ∅ NULL; idx_add := tree_add; idx_find := tree_find; idx_rep := tree_idx_rep;
     idx_empty_ok := tree_empty_ok; idx_find_ok := tree_find_ok; idx_add_ok := tree_add_ok |}.
