(* ===== verification/AdxCache.v ===== *)
(** The object cache: adx_dsp/src/adx_cache.h and adx_cache.c.

    Nodes live in a memory by address; the list of the children of a node
    (AdxList.v) is modelled by the addresses in list order, and its three
    trees by any index that satisfies the interface of AdxIndex.v.  Blocks of
    the pool are zeroed and aligned, of the size that was asked for; the n-th
    one is refused when [ao n] is false.  The length of a string that is copied
    is an [int]. *)

From Stdlib Require Import ZArith Lia.
From S2P Require Import Prelude AdxAlloc AdxRbtreeRep AdxIndex AdxJson AdxJsonDoc AdxJsonRound.

Open Scope Z_scope.

(** [adx_cache_value_t]; [VUnset] is the zeroed value of a node that has not
    been filled. *)
Inductive adx_cache_value_t : Type :=
| VString (s : bytes)
| VNumber (n : Z)
| VArray (i : Z)
| VNull
| VError
| VUnset.

#[export] Instance value_eq_dec : EqDecision adx_cache_value_t.
Proof. solve_decision. Defined.

Definition adx_cache_value_string (key : option bytes) : adx_cache_value_t :=
  match key with Some s => VString s | None => VError end.
Definition adx_cache_value_number (key : Z) : adx_cache_value_t := VNumber key.
Definition adx_cache_value_array (key : Z) : adx_cache_value_t := VArray key.
Definition adx_cache_value_null : adx_cache_value_t := VNull.
Definition adx_cache_value_error : adx_cache_value_t := VError.

Definition adx_cache_value_type (v : adx_cache_value_t) : bytes :=
  match v with
  | VString _ => B "ADX_CACHE_VALUE_STRING" | VNumber _ => B "ADX_CACHE_VALUE_NUMBER"
  | VArray _ => B "ADX_CACHE_VALUE_ARRAY" | VNull => B "ADX_CACHE_VALUE_NULL"
  | _ => B "ADX_CACHE_VALUE_ERROR"
  end.

Section Cache.
Context `{IS : !Index bytes} `{IN : !Index Z}.
Context (ao : nat -> bool).

(** [adx_cache_t], without the links that belong to the list and the trees
    of the parent. *)
Record adx_cache_t := Cache {
  ckey : adx_cache_value_t;
  cval : adx_cache_value_t;
  cparent : Z;
  child_total : Z;
  child_list : list Z;
  tree_string : idx (A := bytes);
  tree_number : idx (A := Z);
  tree_array : idx (A := Z) }.

Record cmem := CMem { caches : gmap Z adx_cache_t; calloc : nat }.

Definition cget (m : cmem) (a : Z) : cres adx_cache_t := of_opt (caches m !! a).
Definition cput (m : cmem) (a : Z) (c : adx_cache_t) : cmem := CMem (<[a := c]> (caches m)) (calloc m).

(** The pool (AdxAlloc.v): the address of a block of [size] bytes, 0 when it
    is refused. *)
Definition adx_alloc (m : cmem) (size : Z) : cres (Z * cmem) :=
  let m' := CMem (caches m) (S (calloc m)) in
  if ao (calloc m) then _ ← block_room size; mret (8 * (Z.of_nat (calloc m) + 1), m') else mret (0, m').

(** [int len = strlen(src.string)]; [memcpy] takes a negative one for a size
    near 2^64, which no string and no block has. *)
Definition adx_cache_value_copy (m : cmem) (src : adx_cache_value_t) : cres (adx_cache_value_t * cmem) :=
  match src with
  | VString s =>
      let len := i32 (Z.of_nat (length s)) in
      size ← int_ok (len + 1);
      '(buf, m) ← adx_alloc m (u64 size);
      if decide (buf = 0) then mret (adx_cache_value_error, m) else
      if decide (len < 0) then UB else
      mret (adx_cache_value_string (Some (take (Z.to_nat len) s)), m)
  | _ => mret (src, m)
  end.

(** [sizeof(adx_cache_t)] *)
Definition sizeof_cache : Z := 208.

Definition adx_cache_create (m : cmem) : cres (Z * cmem) :=
  '(cache, m) ← adx_alloc m sizeof_cache;
  if decide (cache = 0) then mret (0, m)
  else mret (cache, cput m cache (Cache VUnset VUnset 0 0 [] idx_empty idx_empty idx_empty)).

Definition adx_cache_find (m : cmem) (cache : Z) (key : adx_cache_value_t) : cres Z :=
  if decide (cache = 0) then mret 0 else
  c ← cget m cache;
  match key with
  | VString s => idx_find (tree_string c) s
  | VNumber n => idx_find (tree_number c) n
  | VArray i => idx_find (tree_array c) i
  | _ => mret 0
  end.

(** The node is linked under its parent: the list, the index by position and
    the index of its key. *)
Definition link_child (m : cmem) (cache node : Z) (key val : adx_cache_value_t) : cres cmem :=
  n ← cget m node;
  let m := cput m node (Cache key val cache (child_total n) (child_list n) (tree_string n) (tree_number n) (tree_array n)) in
  c ← cget m cache;
  total ← int_ok (child_total c + 1);
  ta ← idx_add (tree_array c) node (child_total c);
  ts ← (match key with VString s => idx_add (tree_string c) node s | _ => mret (tree_string c) end);
  tn ← (match key with VNumber k => idx_add (tree_number c) node k | _ => mret (tree_number c) end);
  mret (cput m cache (Cache (ckey c) (cval c) (cparent c) total (child_list c ++ [node]) ts tn ta)).

(** The tests of the [switch] statements on the types. *)
Definition is_error (v : adx_cache_value_t) : bool := match v with VError => true | _ => false end.
Definition is_map_key (v : adx_cache_value_t) : bool := match v with VString _ | VNumber _ => true | _ => false end.
Definition is_key (v : adx_cache_value_t) : bool := match v with VString _ | VNumber _ | VArray _ => true | _ => false end.
Definition is_val (v : adx_cache_value_t) : bool := match v with VString _ | VNumber _ | VNull => true | _ => false end.

Definition adx_cache_add (m : cmem) (cache : Z) (key val : adx_cache_value_t) : cres (Z * cmem) :=
  if decide (cache = 0) then mret (0, m) else
  if is_error key || is_error val then mret (0, m) else
  found ← (if is_map_key key then adx_cache_find m cache key else mret 0);
  if decide (found ≠ 0) then mret (found, m) else
  '(node, m) ← adx_cache_create m;
  if decide (node = 0) then mret (0, m) else
  if negb (is_key key) then mret (0, m) else
  '(key, m) ← adx_cache_value_copy m key;
  if negb (is_val val) then mret (0, m) else
  '(val, m) ← adx_cache_value_copy m val;
  if is_error key || is_error val then mret (0, m) else
  m ← link_child m cache node key val;
  mret (node, m).

Definition adx_cache_array_add (m : cmem) (cache : Z) (val : adx_cache_value_t) : cres (Z * cmem) :=
  adx_cache_add m cache (adx_cache_value_array 0) val.

Definition adx_cache_child_check (m : cmem) (cache : Z) : cres Z :=
  if decide (cache = 0) then mret (-1) else
  c ← cget m cache;
  mret (match child_list c with [] => -1 | _ => 0 end).

(** The arguments after the first; the list must end with NULL. *)
Fixpoint adx_cache_find_args (m : cmem) (cache : Z) (args : list adx_cache_value_t) : cres Z :=
  match args with
  | [] => UB
  | VNull :: _ => mret cache
  | (VString _ | VNumber _ | VArray _) as key :: args =>
      cache ← adx_cache_find m cache key;
      if decide (cache = 0) then mret 0 else adx_cache_find_args m cache args
  | _ :: _ => mret 0
  end.

Definition adx_cache_find_array (m : cmem) (cache index : Z) : cres Z :=
  if decide (cache = 0) then mret 0 else
  c ← cget m cache;
  if decide (child_total c <= 0) then mret 0 else adx_cache_find m cache (adx_cache_value_array index).

Definition adx_cache_find_array_loop (m : cmem) (cache index : Z) : cres Z :=
  if decide (cache = 0) then mret 0 else
  c ← cget m cache;
  if decide (child_total c <= 0) then mret 0 else
  let index := if decide (index > child_total c) then Z.rem index (child_total c) else index in
  adx_cache_find m cache (adx_cache_value_array index).

Definition adx_cache_find_array_lenght (m : cmem) (cache : Z) : cres Z :=
  ok ← adx_cache_child_check m cache;
  if decide (ok ≠ 0) then mret 0 else c ← cget m cache; mret (child_total c).

(** [r] is the answer of [rand()]. *)
Definition adx_cache_rand (m : cmem) (cache r : Z) : cres Z :=
  if decide (cache = 0) then mret 0 else
  c ← cget m cache;
  if decide (child_total c <= 0) then mret 0 else
  adx_cache_find m cache (adx_cache_value_array (Z.rem r (child_total c))).

(** The loop reads the list as it is at each turn: [i] is the position of
    the iterator, and nodes appended to the list meanwhile are visited too. *)
Fixpoint adx_cache_splice_r (fuel : nat) (m : cmem) (root dest src : Z) : cres (Z * cmem) :=
  match fuel with
  | O => NoFuel
  | S fuel =>
      if decide (dest = 0 ∨ src = 0) then mret (-1, m) else
      ok ← adx_cache_child_check m src;
      if decide (ok ≠ 0) then mret (0, m) else
      if decide (root = src) then mret (0, m) else
      (fix loop (turns : nat) (i : nat) (m : cmem) : cres (Z * cmem) :=
         match turns with
         | O => NoFuel
         | S turns =>
             s ← cget m src;
             match child_list s !! i with
             | None => mret (0, m)
             | Some node =>
                 n ← cget m node;
                 '(new, m) ← adx_cache_add m dest (ckey n) (cval n);
                 if decide (new = 0) then mret (-1, m) else
                 '(_, m) ← adx_cache_splice_r fuel m root new node;
                 loop turns (S i) m
             end
         end) fuel 0%nat m
  end.

Definition adx_cache_splice (fuel : nat) (m : cmem) (dest src : Z) : cres (Z * cmem) :=
  adx_cache_splice_r fuel m dest dest src.

(** ** Values out *)

Definition adx_cache_to_string (m : cmem) (cache : Z) : cres (option bytes) :=
  if decide (cache = 0) then mret None else
  c ← cget m cache; mret (match cval c with VString s => Some s | _ => None end).
Definition adx_cache_to_number (m : cmem) (cache : Z) : cres Z :=
  if decide (cache = 0) then mret 0 else
  c ← cget m cache; mret (match cval c with VNumber n => n | _ => 0 end).
Definition adx_cache_value_to_string (v : adx_cache_value_t) : option bytes :=
  match v with VString s => Some s | _ => None end.
Definition adx_cache_value_to_number (v : adx_cache_value_t) : Z :=
  match v with VNumber n => n | _ => 0 end.
Definition adx_cache_to_key (m : cmem) (cache : Z) : cres adx_cache_value_t :=
  if decide (cache = 0) then mret (adx_cache_value_string None) else c ← cget m cache; mret (ckey c).
Definition adx_cache_to_val (m : cmem) (cache : Z) : cres adx_cache_value_t :=
  if decide (cache = 0) then mret (adx_cache_value_string None) else c ← cget m cache; mret (cval c).

(** The text [adx_cache_value_display] prints. *)
Definition adx_cache_value_display (v : adx_cache_value_t) : bytes :=
  match v with
  | VString s => [91] ++ s ++ [93]
  | VNumber n => [91] ++ dec n ++ [93]
  | _ => []
  end.

(** ** From JSON *)

Definition adx_cache_from_json_value (j : jmem) (m : cmem) (cache json : Z) : cres (Z * cmem) :=
  n ← get j json;
  if decide (type n = ADX_JSON_OBJECT ∨ type n = ADX_JSON_ARRAY ∨ type n = ADX_JSON_EMPTY ∨ type n = ADX_JSON_ERROE)
  then mret (-1, m) else
  let value := match val n with
               | None => adx_cache_value_null
               | Some v => if decide (type n = ADX_JSON_NUMBER) then adx_cache_value_number (atoi v)
                           else adx_cache_value_string (Some v)
               end in
  match key n, val n with
  | Some k, _ => '(_, m) ← adx_cache_add m cache (adx_cache_value_string (Some k)) value; mret (0, m)
  | None, Some _ => '(_, m) ← adx_cache_array_add m cache value; mret (0, m)
  | None, None => mret (0, m)
  end.

(** [if (json->key) cache = adx_cache_add(cache, ADX_CACHE_STR(json->key), ADX_CACHE_NULL());] *)
Definition enter (m : cmem) (cache : Z) (n : adx_json_t) : cres (Z * cmem) :=
  match key n with
  | Some k => adx_cache_add m cache (adx_cache_value_string (Some k)) adx_cache_value_null
  | None => mret (cache, m)
  end.

Definition is_scalar (t : Z) : Prop :=
  t = ADX_JSON_STRING ∨ t = ADX_JSON_NUMBER ∨ t = ADX_JSON_BOOL ∨ t = ADX_JSON_NULL.

#[global] Instance is_scalar_dec t : Decision (is_scalar t).
Proof. unfold is_scalar. apply _. Defined.

(** The loops over the children; [from_json] and [from_array] are the
    functions called below. *)
Section Loops.
Context (j : jmem) (from_json from_array : cmem -> Z -> Z -> cres (Z * cmem)).

Fixpoint json_value_array_loop (cs : list Z) (m : cmem) (cache : Z) : cres (Z * cmem) :=
  match cs with
  | [] => mret (0, m)
  | c :: cs =>
      n ← get j c;
      if decide (type n = ADX_JSON_OBJECT ∨ type n = ADX_JSON_ARRAY) then
        '(child, m) ← adx_cache_array_add m cache adx_cache_value_null;
        '(ret, m) ← from_json m child c;
        if decide (ret ≠ 0) then mret (ret, m) else json_value_array_loop cs m cache
      else if decide (is_scalar (type n)) then
        '(ret, m) ← adx_cache_from_json_value j m cache c;
        if decide (ret ≠ 0) then mret (ret, m) else json_value_array_loop cs m cache
      else json_value_array_loop cs m cache
  end.

Fixpoint json_loop (cs : list Z) (m : cmem) (cache : Z) : cres (Z * cmem) :=
  match cs with
  | [] => mret (0, m)
  | c :: cs =>
      n ← get j c;
      '(_, m) ← (if decide (type n = ADX_JSON_OBJECT) then from_json m cache c
                 else if decide (type n = ADX_JSON_ARRAY) then from_array m cache c
                 else if decide (is_scalar (type n)) then adx_cache_from_json_value j m cache c
                 else mret (0, m));
      json_loop cs m cache
  end.
End Loops.

(** [fuel]: the depth of the document.  [adx_cache_from_json_value_array]
    enters the elements of an array with [adx_cache_from_json]. *)
Fixpoint adx_cache_from_json (fuel : nat) (j : jmem) (m : cmem) (cache json : Z) : cres (Z * cmem) :=
  match fuel with
  | O => NoFuel
  | S fuel =>
      if decide (json = 0) then mret (-1, m) else
      n ← get j json;
      '(cache, m) ← enter m cache n;
      json_loop j (adx_cache_from_json fuel j) (adx_cache_from_json_value_array fuel j) (child n) m cache
  end
with adx_cache_from_json_value_array (fuel : nat) (j : jmem) (m : cmem) (cache json : Z) : cres (Z * cmem) :=
  match fuel with
  | O => NoFuel
  | S fuel =>
      n ← get j json;
      '(cache, m) ← enter m cache n;
      json_value_array_loop j (adx_cache_from_json fuel j) (child n) m cache
  end.

Definition adx_cache_from_json_string (j : jmem) (m : cmem) (cache json : Z) : cres (Z * cmem) :=
  if decide (json = 0) then mret (-1, m) else
  n ← get j json;
  if decide (type n ≠ ADX_JSON_STRING) then mret (-1, m) else
  '(_, m) ← adx_cache_add m cache (adx_cache_value_string (key n)) (adx_cache_value_string (val n));
  mret (0, m).

Definition adx_cache_from_json_number (j : jmem) (m : cmem) (cache json : Z) : cres (Z * cmem) :=
  if decide (json = 0) then mret (-1, m) else
  n ← get j json;
  if decide (type n ≠ ADX_JSON_NUMBER) then mret (-1, m) else
  v ← of_opt (val n);
  '(_, m) ← adx_cache_add m cache (adx_cache_value_string (key n)) (adx_cache_value_number (atoi v));
  mret (0, m).

Definition adx_cache_from_json_array (j : jmem) (m : cmem) (cache json : Z) : cres (Z * cmem) :=
  ok ← adx_json_array_check j json;
  if decide (ok ≠ 0) then mret (-1, m) else
  n ← get j json;
  '(cache, m) ← adx_cache_add m cache (adx_cache_value_string (key n)) adx_cache_value_null;
  (fix loop (cs : list Z) (m : cmem) : cres (Z * cmem) :=
     match cs with
     | [] => mret (0, m)
     | c :: cs => '(_, m) ← adx_cache_from_json_value j m cache c; loop cs m
     end) (child n) m.
End Cache.
