(* ===== verification/AdxCacheSpec.v ===== *)
(** The object cache as a store of trees: the invariant of
    adx_dsp/src/adx_cache.c, what each operation does to it, and lookup by
    key, by position and by path. *)

From Stdlib Require Import ZArith Lia.
From S2P Require Import Prelude AdxAlloc AdxRbtreeRep AdxIndex AdxJson AdxJsonDoc AdxJsonRound AdxJsonPrint AdxJsonApi AdxCache.

Open Scope Z_scope.

Section Cache.
Context `{IS : !Index bytes} `{IN : !Index Z}.

Definition key_of (m : cmem) (b : Z) : option adx_cache_value_t := ckey <$> caches m !! b.

(** The children of a node: counted, distinct, with the node as parent, and
    indexed by their position and by their key. *)
Record node_ok (m : cmem) (a : Z) (c : adx_cache_t) : Prop := {
  ok_total : child_total c = Z.of_nat (length (child_list c));
  ok_nodup : NoDup (child_list c);
  ok_parent : Forall (fun b => exists n, caches m !! b = Some n /\ cparent n = a) (child_list c);
  ok_string : exists M, idx_rep (tree_string c) M /\
    forall s b, M !! s = Some b <-> b ∈ child_list c /\ key_of m b = Some (VString s);
  ok_number : exists M, idx_rep (tree_number c) M /\
    forall k b, M !! k = Some b <-> b ∈ child_list c /\ key_of m b = Some (VNumber k);
  ok_array : exists M, idx_rep (tree_array c) M /\
    forall i b, M !! i = Some b <-> 0 <= i /\ child_list c !! Z.to_nat i = Some b }.

(** Live nodes are at the addresses of blocks handed out. *)
Definition cache_inv (m : cmem) : Prop := forall a c, caches m !! a = Some c ->
  (0 < a <= 8 * Z.of_nat (calloc m) /\ exists q, a = 8 * q) /\
  (length (child_list c) <= calloc m)%nat /\ node_ok m a c.

Lemma inv_addr m a c : cache_inv m -> caches m !! a = Some c -> 0 < a <= 8 * Z.of_nat (calloc m) /\ good_addr a.
Proof.
  intros Hm Ha. destruct (Hm a c Ha) as ((H & q & ->) & _). split; [done|]. split; [|unfold AdxRbtree.Rb.NULL; lia].
  exists (2 * q). lia.
Qed.

(** Children are live nodes. *)
Lemma child_live m a c b : cache_inv m -> caches m !! a = Some c -> b ∈ child_list c ->
  0 < b /\ exists n, caches m !! b = Some n /\ cparent n = a.
Proof.
  intros Hm Ha Hb. destruct (Hm a c Ha) as (_ & _ & Hok). pose proof (ok_parent _ _ _ Hok) as Hp.
  rewrite Forall_forall in Hp. destruct (Hp b Hb) as (n & Hn & Hpn). split; [|eauto].
  pose proof (inv_addr _ _ _ Hm Hn). lia.
Qed.

(** A node keeps its children when they keep their key and parent. *)
Lemma node_ok_frame m m' a c :
  (forall b, b ∈ child_list c -> key_of m' b = key_of m b /\ cparent <$> caches m' !! b = cparent <$> caches m !! b) ->
  node_ok m a c -> node_ok m' a c.
Proof.
  intros Hf [H1 H2 H3 (MS & HS1 & HS2) (MN & HN1 & HN2) H6]. constructor; try done.
  - rewrite Forall_forall in *. intros b Hb. destruct (H3 b Hb) as (n & Hn & Hp).
    destruct (Hf b Hb) as [_ E]. rewrite Hn in E. simpl in E. apply fmap_Some in E as (n' & Hn' & E). exists n'. split; [done|]. congruence.
  - exists MS. split; [done|]. intros s b. rewrite HS2. split; intros [Hb E]; (split; [done|]); destruct (Hf b Hb); congruence.
  - exists MN. split; [done|]. intros s b. rewrite HN2. split; intros [Hb E]; (split; [done|]); destruct (Hf b Hb); congruence.
Qed.

(** ** Lookup *)

(** The child an access denotes, 0 for none. *)
Definition child_at (m : cmem) (c : adx_cache_t) (key : adx_cache_value_t) : Z :=
  match key with
  | VString _ | VNumber _ => default 0 (head (filter (fun b => key_of m b = Some key) (child_list c)))
  | VArray i => if decide (0 <= i) then default 0 (child_list c !! Z.to_nat i) else 0
  | _ => 0
  end.

Lemma map_child (m : cmem) (c : adx_cache_t) (key : adx_cache_value_t) (o : option Z) :
  (forall b, o = Some b <-> b ∈ child_list c /\ key_of m b = Some key) ->
  o = head (filter (fun b => key_of m b = Some key) (child_list c)).
Proof.
  intros H. destruct (head (filter (fun b => key_of m b = Some key) (child_list c))) as [b|] eqn:E.
  - apply H. apply head_Some_elem_of, list_elem_of_filter in E as [E1 E2]. done.
  - destruct o as [b|]; [|done]. destruct (proj1 (H b) eq_refl) as [Hb Hk].
    apply head_None in E. assert (b ∈ filter (fun b => key_of m b = Some key) (child_list c)) as Hin
      by (by apply list_elem_of_filter). rewrite E in Hin. by apply elem_of_nil in Hin.
Qed.

Lemma find_ok m a c key : caches m !! a = Some c -> 0 < a -> node_ok m a c ->
  adx_cache_find m a key = Ok (child_at m c key).
Proof.
  intros Ha H0 Hok. unfold adx_cache_find. rewrite decide_False by lia. unfold cget. rewrite Ha. cbn [of_opt mbind cres_bind].
  destruct key as [s|k|i| | |]; try done; cbn [child_at].
  - destruct (ok_string _ _ _ Hok) as (M & HM & E). rewrite (idx_find_ok _ M) by done.
    do 2 f_equal. apply map_child. intros b. apply E.
  - destruct (ok_number _ _ _ Hok) as (M & HM & E). rewrite (idx_find_ok _ M) by done.
    do 2 f_equal. apply map_child. intros b. apply E.
  - destruct (ok_array _ _ _ Hok) as (M & HM & E). rewrite (idx_find_ok _ M) by done. f_equal.
    case_decide as Hi.
    + f_equal. destruct (child_list c !! Z.to_nat i) as [b|] eqn:Eb; [by apply E|].
      destruct (M !! i) as [b|] eqn:Em; [|done]. apply E in Em as [_ Em]. congruence.
    + destruct (M !! i) as [b|] eqn:Em; [|done]. apply E in Em as [Em _]. lia.
Qed.

Lemma child_at_live m a c key : cache_inv m -> caches m !! a = Some c -> child_at m c key ≠ 0 ->
  child_at m c key ∈ child_list c.
Proof.
  intros Hm Ha. destruct key as [s|k|i| | |]; cbn [child_at]; try done.
  - destruct (head _) as [b|] eqn:E; [|done]. intros _. simpl. apply head_Some_elem_of, list_elem_of_filter in E as [_ E]. done.
  - destruct (head _) as [b|] eqn:E; [|done]. intros _. simpl. apply head_Some_elem_of, list_elem_of_filter in E as [_ E]. done.
  - case_decide; [|done]. destruct (child_list c !! Z.to_nat i) as [b|] eqn:E; [|done]. intros _. simpl.
    by apply list_elem_of_lookup_2 in E.
Qed.

Lemma children_frame (m m' : cmem) key (l : list Z) : (forall b, b ∈ l -> key_of m' b = key_of m b) ->
  filter (fun b => key_of m' b = Some key) l = filter (fun b => key_of m b = Some key) l.
Proof.
  induction l as [|b l IH]; intros H; [done|]. rewrite !filter_cons, IH by (intros x Hx; apply H; by right).
  rewrite (H b) by left. done.
Qed.

Lemma child_at_frame (m m' : cmem) (c : adx_cache_t) key : (forall b, b ∈ child_list c -> key_of m' b = key_of m b) ->
  child_at m' c key = child_at m c key.
Proof. intros H. unfold child_at. by rewrite (children_frame m m') by done. Qed.

(** ** Building *)

(** Memory [m'] has the nodes of [m], and maybe others that hang nowhere. *)
Definition grown (m m' : cmem) : Prop :=
  (calloc m <= calloc m')%nat /\ forall a c, caches m !! a = Some c -> caches m' !! a = Some c.

Lemma grown_refl m : grown m m.
Proof. by split. Qed.
Lemma grown_trans m1 m2 m3 : grown m1 m2 -> grown m2 m3 -> grown m1 m3.
Proof. intros [H1 H2] [H3 H4]. split; [lia|auto]. Qed.

Section Build.
Context (ao : nat -> bool).

Definition blank : adx_cache_t := Cache VUnset VUnset 0 0 [] idx_empty idx_empty idx_empty.

Lemma blank_ok m a : node_ok m a blank.
Proof.
  constructor; try done; [constructor|..]; exists ∅; (split; [apply idx_empty_ok|]).
  - intros s b. rewrite lookup_empty, elem_of_nil. naive_solver.
  - intros s b. rewrite lookup_empty, elem_of_nil. naive_solver.
  - intros s b. rewrite lookup_empty. simpl. rewrite lookup_nil. naive_solver.
Qed.

Lemma alloc_inv m : cache_inv m -> cache_inv (CMem (caches m) (S (calloc m))).
Proof.
  intros Hm a c Ha. destruct (Hm a c Ha) as ((H1 & H2) & H3 & H4). simpl.
  split; [split; [lia|done]|]. split; [lia|]. eapply node_ok_frame; [|exact H4]. done.
Qed.

Lemma cache_alloc_ok m size : small_size size -> adx_alloc ao m size =
  Ok (if ao (calloc m) then 8 * (Z.of_nat (calloc m) + 1) else 0, CMem (caches m) (S (calloc m))).
Proof. intros Hs. unfold adx_alloc. rewrite block_room_ok by done. by destruct (ao (calloc m)). Qed.

(** A new node: refused, or blank at an address not in use. *)
Lemma cache_create_ok m : cache_inv m -> exists a m', adx_cache_create ao m = Ok (a, m') /\ cache_inv m' /\ grown m m' /\
  calloc m' = S (calloc m) /\ (a = 0 -> ao (calloc m) = false) /\
  (a ≠ 0 -> caches m !! a = None /\ caches m' !! a = Some blank) /\
  (forall d, d ≠ a -> caches m' !! d = caches m !! d).
Proof.
  intros Hm. unfold adx_cache_create.
  rewrite cache_alloc_ok, ok_bind by (unfold small_size, sizeof_cache, sizeof_block; lia). set (m1 := CMem (caches m) (S (calloc m))).
  assert (cache_inv m1) as Hm1 by (by apply alloc_inv). destruct (ao (calloc m)) eqn:E.
  - rewrite decide_False by lia. set (a := 8 * (Z.of_nat (calloc m) + 1)).
    assert (caches m !! a = None) as Hfresh.
    { destruct (caches m !! a) as [c|] eqn:Ea; [|done]. apply (inv_addr _ _ _ Hm) in Ea as [? _]. lia. }
    eexists _, _. split; [reflexivity|]. split; [|split; [|split; [done|split; [lia|split]]]].
    + intros b c Hb. simpl in Hb. destruct (decide (a = b)) as [<-|Hne].
      * rewrite lookup_insert_eq in Hb. injection Hb as <-. split; [split; [simpl; lia|by eexists]|].
        split; [simpl; lia|apply blank_ok].
      * rewrite lookup_insert_ne in Hb by done. destruct (Hm1 b c Hb) as (H1 & H2 & H3). split; [exact H1|]. split; [exact H2|].
        eapply node_ok_frame; [|exact H3]. intros d Hd. destruct (child_live m1 b c d Hm1 Hb Hd) as (_ & n & Hn & _).
        unfold key_of. simpl. rewrite lookup_insert_ne; [done|]. intros <-. simpl in Hn. congruence.
    + split; [simpl; lia|]. intros b c Hb. simpl. rewrite lookup_insert_ne; [done|]. intros <-. congruence.
    + intros _. split; [done|]. simpl. by rewrite lookup_insert_eq.
    + intros d Hd. simpl. by rewrite lookup_insert_ne by done.
  - rewrite decide_True by done. eexists _, _. split; [reflexivity|]. split; [done|]. split; [split; [simpl; lia|done]|].
    split_and!; done.
Qed.

(** A value whose string, if it is one, has a length whose successor is an
    [int]. *)
Definition copyable (v : adx_cache_value_t) : Prop :=
  match v with VString s => Z.of_nat (length s) < 2147483647 | _ => True end.

(** Copies keep the nodes; a copy is the value or the error value. *)
Lemma copy_ok m v : cache_inv m -> copyable v ->
  exists v' m', adx_cache_value_copy ao m v = Ok (v', m') /\ caches m' = caches m /\
  (calloc m <= calloc m' <= S (calloc m))%nat /\ cache_inv m' /\ (v' = v \/ v' = VError) /\
  ((forall k, ao k = true) -> v' = v).
Proof.
  intros Hm Hv. destruct v as [s|k|i| | |]; cbn [adx_cache_value_copy]; [|by eexists _, _; split_and!; eauto..].
  cbn [copyable] in Hv. rewrite i32_small, int_ok_in, ok_bind by lia.
  destruct (small_size_int (Z.of_nat (length s) + 1)) as [Hz ->]; [lia|]. rewrite cache_alloc_ok, ok_bind by done.
  rewrite (decide_False (P := Z.of_nat _ < 0)), Nat2Z.id, take_ge by lia.
  case_decide as Hd; eexists _, _; (split; [reflexivity|]); split_and!; try done; simpl; try lia;
    try (by apply alloc_inv); try (by left); try (by right).
  intros H. rewrite H in Hd. lia.
Qed.

(** Longer strings: the length whose successor overflows, and those whose
    conversion to [int] is the length of a prefix, which is what is stored. *)
Lemma adx_cache_value_copy_long m s :
  (Z.of_nat (length s) = 2147483647 -> adx_cache_value_copy ao m (VString s) = UB) /\
  (forall k, Z.of_nat (length s) = 4294967296 + Z.of_nat k -> Z.of_nat k < 2147483647 -> ao (calloc m) = true ->
     exists m', adx_cache_value_copy ao m (VString s) = Ok (VString (take k s), m')).
Proof.
  split; cbn [adx_cache_value_copy]; [by intros ->|]. intros k Hs Hk Ha.
  assert (i32 (Z.of_nat (length s)) = Z.of_nat k) as -> by (rewrite Hs; unfold i32; zdiv).
  rewrite int_ok_in, ok_bind by lia. destruct (small_size_int (Z.of_nat k + 1)) as [Hz ->]; [lia|].
  rewrite cache_alloc_ok, ok_bind, Ha by done. rewrite !decide_False by lia. rewrite Nat2Z.id. by eexists.
Qed.

Definition linked (n : adx_cache_t) (key val : adx_cache_value_t) (parent : Z) : adx_cache_t :=
  Cache key val parent (child_total n) (child_list n) (tree_string n) (tree_number n) (tree_array n).

Lemma link_ok m a c b key val :
  cache_inv m -> caches m !! a = Some c -> caches m !! b = Some blank -> a ≠ b ->
  (S (length (child_list c)) <= calloc m)%nat -> Z.of_nat (calloc m) <= 2147483647 ->
  (is_map_key key = true -> child_at m c key = 0) ->
  exists m' c', link_child m a b key val = Ok m' /\ cache_inv m' /\ calloc m' = calloc m /\
    caches m' !! b = Some (linked blank key val a) /\
    caches m' !! a = Some c' /\ ckey c' = ckey c /\ cval c' = cval c /\ cparent c' = cparent c /\
    child_list c' = child_list c ++ [b] /\
    (forall d, d ≠ a -> d ≠ b -> caches m' !! d = caches m !! d).
Proof.
  intros Hm Ha Hb Hab Hlen Hmax Hkey. unfold link_child, cget. rewrite Hb. cbn [of_opt mbind cres_bind].
  simpl caches. rewrite lookup_insert_ne, Ha by done. cbn [of_opt mbind cres_bind].
  destruct (Hm a c Ha) as ((Har & Haq) & Hal & Hok). destruct (inv_addr m b blank Hm Hb) as [Hbr Hbg].
  rewrite (ok_total _ _ _ Hok), int_ok_in by lia. cbn [mbind cres_bind].
  assert (b ∉ child_list c) as Hbn.
  { intros Hin. destruct (child_live m a c b Hm Ha Hin) as (_ & n & Hn & Hp). rewrite Hb in Hn. injection Hn as <-. simpl in Hp. lia. }
  destruct (ok_array _ _ _ Hok) as (MA & HA1 & HA2). destruct (ok_string _ _ _ Hok) as (MS & HS1 & HS2).
  destruct (ok_number _ _ _ Hok) as (MN & HN1 & HN2).
  destruct (idx_add_ok (tree_array c) MA b (Z.of_nat (length (child_list c))) HA1 Hbg) as (ta & -> & HA1').
  { intros i Hi. apply HA2 in Hi as [_ Hi]. apply list_elem_of_lookup_2 in Hi. done. }
  assert (MA !! Z.of_nat (length (child_list c)) = None) as HAn.
  { destruct (MA !! _) as [d|] eqn:E; [|done]. apply HA2 in E as [_ E]. rewrite Nat2Z.id in E.
    apply lookup_lt_Some in E. lia. }
  rewrite HAn in HA1'. cbn [mbind cres_bind].
  assert (forall b', (b' ∈ child_list c /\ key_of m b' = Some key) -> is_map_key key = true -> False) as Hnokey.
  { intros b' [Hb' Hk'] Hmk. specialize (Hkey Hmk).
    assert (forall k, child_at m c key = default 0 (head (filter (fun b => key_of m b = Some key) (child_list c))) -> k = key -> False) as Hc.
    { intros k E _. rewrite Hkey in E. destruct (head (filter _ _)) as [d|] eqn:Ed.
      - simpl in E. subst d. apply head_Some_elem_of, list_elem_of_filter in Ed as [_ Ed].
        destruct (child_live m a c 0 Hm Ha Ed) as [? _]. lia.
      - apply head_None in Ed. assert (b' ∈ filter (fun b => key_of m b = Some key) (child_list c)) as Hin
          by (by apply list_elem_of_filter). rewrite Ed in Hin. by apply elem_of_nil in Hin. }
    destruct key; try done; by eapply Hc. }
  assert (exists ts MS', (match key with VString s => idx_add (tree_string c) b s | _ => mret (tree_string c) end) = Ok ts /\
    idx_rep ts MS' /\ forall s d, MS' !! s = Some d <-> (d = b /\ key = VString s) \/ MS !! s = Some d) as (ts & MS' & -> & HT & HTs).
  { destruct key as [s|k|i| | |]; [|by exists (tree_string c), MS; split; [done|split; [done|naive_solver]]..].
    destruct (idx_add_ok (tree_string c) MS b s HS1 Hbg) as (ts & E & HT).
    { intros s' Hs'. by apply HS2 in Hs' as [? _]. }
    destruct (MS !! s) as [d|] eqn:Es.
    { exfalso. eapply Hnokey; [|done]. by apply HS2. }
    exists ts, (<[s := b]> MS). split; [done|]. split; [done|]. intros s' d. rewrite lookup_insert_Some. split.
    - intros [[<- <-]|[? ?]]; auto.
    - intros [[-> [= ->]]|H]; [auto|]. right. split; [congruence|done]. }
  cbn [mbind cres_bind].
  assert (exists tn MN', (match key with VNumber k => idx_add (tree_number c) b k | _ => mret (tree_number c) end) = Ok tn /\
    idx_rep tn MN' /\ forall s d, MN' !! s = Some d <-> (d = b /\ key = VNumber s) \/ MN !! s = Some d) as (tn & MN' & -> & HT' & HTn).
  { destruct key as [s|k|i| | |]; try (by exists (tree_number c), MN; split; [done|split; [done|naive_solver]]).
    destruct (idx_add_ok (tree_number c) MN b k HN1 Hbg) as (tn & E & HT').
    { intros s' Hs'. by apply HN2 in Hs' as [? _]. }
    destruct (MN !! k) as [d|] eqn:Es.
    { exfalso. eapply Hnokey; [|done]. by apply HN2. }
    exists tn, (<[k := b]> MN). split; [done|]. split; [done|]. intros s' d. rewrite lookup_insert_Some. split.
    - intros [[<- <-]|[? ?]]; auto.
    - intros [[-> [= ->]]|H]; [auto|]. right. split; [congruence|done]. }
  cbn [mbind cres_bind mret cres_ret]. set (c' := Cache (ckey c) _ _ _ _ _ _ _).
  eexists _, c'. split; [reflexivity|].
  set (m' := cput _ a c').
  assert (caches m' !! a = Some c') as Ea by apply lookup_insert_eq.
  assert (caches m' !! b = Some (linked blank key val a)) as Eb.
  { simpl. rewrite lookup_insert_ne by done. by rewrite lookup_insert_eq. }
  assert (forall d, d ≠ a -> d ≠ b -> caches m' !! d = caches m !! d) as Ed.
  { intros d H1 H2. simpl. by rewrite !lookup_insert_ne by done. }
  assert (forall d, d ≠ b -> key_of m' d = key_of m d /\ cparent <$> caches m' !! d = cparent <$> caches m !! d) as Hkeep.
  { intros d Hd. unfold key_of. destruct (decide (d = a)) as [->|Hda]; [by rewrite Ea, Ha|]. by rewrite Ed. }
  split; [|split_and!; done].
  intros d e He. destruct (decide (d = a)) as [->|Hda].
  - rewrite Ea in He. injection He as <-. split; [done|]. subst c'; cbn [child_list].
    split; [rewrite length_app; simpl; lia|]. constructor; cbn [child_list child_total tree_string tree_number tree_array].
    + rewrite length_app. simpl. lia.
    + apply NoDup_app. split; [exact (ok_nodup _ _ _ Hok)|]. split; [|apply NoDup_singleton].
      intros x Hx ->%list_elem_of_singleton. done.
    + apply Forall_app. split; [|apply Forall_singleton; eexists; by split].
      pose proof (ok_parent _ _ _ Hok) as Hp. rewrite Forall_forall in *. intros x Hx.
      destruct (Hp x Hx) as (n & Hn & Hpn). destruct (Hkeep x) as [_ E]; [by intros ->|]. rewrite Hn in E. simpl in E.
      apply fmap_Some in E as (n' & Hn' & E). exists n'. split; [done|]. congruence.
    + exists MS'. split; [done|]. intros s x. rewrite HTs, HS2, elem_of_app, list_elem_of_singleton.
      destruct (decide (x = b)) as [->|Hx].
      * unfold key_of. rewrite Eb. simpl. split; [intros [[_ ->]|[? _]]; [auto|done]|intros [_ [= ->]]; auto].
      * destruct (Hkeep x Hx) as [-> _]. split; [intros [[? _]|[? ?]]; [done|auto]|intros [[?|?] ?]; [auto|done]].
    + exists MN'. split; [done|]. intros s x. rewrite HTn, HN2, elem_of_app, list_elem_of_singleton.
      destruct (decide (x = b)) as [->|Hx].
      * unfold key_of. rewrite Eb. simpl. split; [intros [[_ ->]|[? _]]; [auto|done]|intros [_ [= ->]]; auto].
      * destruct (Hkeep x Hx) as [-> _]. split; [intros [[? _]|[? ?]]; [done|auto]|intros [[?|?] ?]; [auto|done]].
    + exists (<[Z.of_nat (length (child_list c)) := b]> MA). split; [done|]. intros i x. rewrite lookup_insert_Some, HA2.
      rewrite lookup_snoc_Some. split.
      * intros [[<- <-]|[? [? ?]]]; [split; [lia|right; split; [by rewrite Nat2Z.id|done]]|].
        split; [done|]. left. split; [by eapply lookup_lt_Some|done].
      * intros [Hi [[Hlt E]|[E ->]]]; [right; split; [lia|done]|left; split; [lia|done]].
  - destruct (decide (d = b)) as [->|Hdb].
    + rewrite Eb in He. injection He as <-. split; [by destruct (Hm b blank Hb)|]. split; [simpl; lia|].
      destruct (blank_ok m' b). by constructor.
    + rewrite Ed in He by done. destruct (Hm d e He) as (H1 & H2 & H3). split; [done|]. split; [done|].
      eapply node_ok_frame; [|exact H3]. intros x Hx. apply Hkeep. intros ->.
      destruct (child_live m d e b Hm He Hx) as (_ & n & Hn & Hp). rewrite Hb in Hn. injection Hn as <-. simpl in Hp.
      destruct (inv_addr m d e Hm He). lia.
Qed.

(** [r] is a new last child of [a], with the key and value given. *)
Definition added (m m' : cmem) (a : Z) (c : adx_cache_t) (r : Z) (key val : adx_cache_value_t) : Prop :=
  caches m !! r = None /\ caches m' !! r = Some (linked blank key val a) /\
  (exists c', caches m' !! a = Some c' /\ ckey c' = ckey c /\ cval c' = cval c /\ cparent c' = cparent c /\
    child_list c' = child_list c ++ [r]) /\
  (forall d, d ≠ a -> d ≠ r -> caches m' !! d = caches m !! d).

Definition fits (key val : adx_cache_value_t) : bool := is_key key && is_val val.
Definition present (m : cmem) (c : adx_cache_t) (key : adx_cache_value_t) : Prop :=
  is_map_key key = true /\ child_at m c key ≠ 0.

#[global] Instance present_dec m c key : Decision (present m c key).
Proof. unfold present. apply _. Defined.

Lemma grown_eq m m1 m' : grown m m1 -> caches m' = caches m1 -> (calloc m1 <= calloc m')%nat -> grown m m'.
Proof. intros [H1 H2] E H3. split; [lia|]. rewrite E. done. Qed.

Lemma cache_add_ok m a c key val :
  cache_inv m -> caches m !! a = Some c -> Z.of_nat (calloc m) + 3 <= 2147483647 -> copyable key -> copyable val ->
  exists r m', adx_cache_add ao m a key val = Ok (r, m') /\ cache_inv m' /\
    (calloc m <= calloc m' <= calloc m + 3)%nat /\
    if decide (present m c key /\ is_error val = false) then r = child_at m c key /\ m' = m
    else (r = 0 -> grown m m') /\ (r ≠ 0 -> fits key val = true /\ added m m' a c r key val) /\
        ((forall k, ao k = true) -> fits key val = true -> r ≠ 0).
Proof.
  intros Hm Ha Hmax Hck Hcv. destruct (inv_addr m a c Hm Ha) as [Har _]. destruct (Hm a c Ha) as (_ & Hlen & Hok).
  unfold adx_cache_add. rewrite (decide_False (P := a = 0)) by lia.
  destruct (is_error key || is_error val) eqn:Herr.
  { exists 0, m. split; [done|]. split; [done|]. split; [lia|]. rewrite decide_False.
    - split; [intros _; apply grown_refl|]. split; [done|]. intros _ Hf. exfalso. unfold fits in Hf.
      destruct key, val; done.
    - intros [[Hk _] Hv]. rewrite Hv in Herr. destruct key; done. }
  apply orb_false_iff in Herr as [Hek Hev].
  assert ((if is_map_key key then adx_cache_find m a key else mret 0) =
    Ok (if is_map_key key then child_at m c key else 0)) as ->.
  { destruct (is_map_key key); [|done]. by apply find_ok; [|lia|]. }
  cbn [mbind cres_bind].
  destruct (decide ((if is_map_key key then child_at m c key else 0) ≠ 0)) as [Hp|Hp].
  { destruct (is_map_key key) eqn:Emk; [|done]. eexists _, m. split; [done|]. split; [done|]. split; [lia|].
    rewrite (decide_True (P := present m c key /\ is_error val = false)); [done|]. by repeat split. }
  destruct (decide (present m c key /\ is_error val = false)) as [[[Hk Hc] _]|_]; [rewrite Hk in Hp; done|].
  assert (is_map_key key = true -> child_at m c key = 0) as Hkey.
  { intros Hk. rewrite Hk in Hp. destruct (decide (child_at m c key = 0)); [done|]. by destruct Hp. }
  destruct (cache_create_ok m Hm) as (b & m1 & -> & Hm1 & Hg1 & Hc1 & Hb0 & Hbn & Hfr).
  rewrite ok_bind. case_decide as Hb.
  { exists 0, m1. split; [done|]. split; [done|]. split; [lia|]. split; [done|]. split; [done|].
    intros Hao. specialize (Hb0 Hb). rewrite Hao in Hb0. done. }
  destruct (Hbn Hb) as [Hbf Hbb]. assert (a ≠ b) as Hab by (intros ->; congruence).
  destruct (is_key key) eqn:Eik; [|exists 0, m1; split; [done|]; split; [done|]; split; [lia|]; split; [done|];
    split; [done|]; intros _; unfold fits; by rewrite Eik]. cbn [negb].
  destruct (copy_ok m1 key Hm1 Hck) as (key' & m2 & -> & E2 & Hc2 & Hm2 & Hk2 & Hk2'). rewrite ok_bind.
  destruct (is_val val) eqn:Eiv; [|exists 0, m2; split; [done|]; split; [done|]; split; [lia|]; split; [intros _; by eapply grown_eq; [exact Hg1|done|lia]|];
    split; [done|]; intros _; unfold fits; by rewrite Eik, Eiv]. cbn [negb].
  destruct (copy_ok m2 val Hm2 Hcv) as (val' & m3 & -> & E3 & Hc3 & Hm3 & Hv3 & Hv3'). rewrite ok_bind.
  assert (grown m m3) as Hg3 by (eapply grown_eq; [exact Hg1|congruence|lia]).
  destruct (is_error key' || is_error val') eqn:Herr'.
  { exists 0, m3. split; [done|]. split; [done|]. split; [lia|]. split; [done|]. split; [done|].
    intros Hao _. rewrite (Hk2' Hao), (Hv3' Hao), Hek, Hev in Herr'. done. }
  apply orb_false_iff in Herr' as [Hek' Hev'].
  assert (key' = key) as -> by (destruct Hk2 as [->| ->]; done).
  assert (val' = val) as -> by (destruct Hv3 as [->| ->]; done).
  assert (caches m3 = caches m1) as E31 by congruence.
  destruct (link_ok m3 a c b key val) as (m' & c' & -> & Hm' & Hc' & Hb' & Ha' & H1 & H2 & H3 & H4 & H5); try done; try lia.
  - apply Hg3. done.
  - by rewrite E31.
  - intros Hmk. rewrite <- (Hkey Hmk). apply child_at_frame. intros d Hd.
    destruct (child_live m a c d Hm Ha Hd) as (_ & n & Hn & _).
    unfold key_of. destruct Hg3 as [_ Hg3]. by rewrite Hn, (Hg3 _ _ Hn).
  - cbn [mbind cres_bind mret cres_ret]. exists b, m'. split; [done|]. split; [done|]. split; [lia|]. split; [done|].
    split; [|done]. intros _. split; [unfold fits; by rewrite Eik, Eiv|]. split; [done|]. split; [done|]. split; [by exists c'|].
    intros d Hda Hdb. rewrite H5 by done. rewrite E31. by apply Hfr.
Qed.

(** ** What an operation leaves of the nodes it found *)

(** Every node keeps its key, value and parent, and its children come first. *)
Definition extends (m m' : cmem) : Prop :=
  (calloc m <= calloc m')%nat /\ forall d n, caches m !! d = Some n -> exists n', caches m' !! d = Some n' /\
    ckey n' = ckey n /\ cval n' = cval n /\ cparent n' = cparent n /\ child_list n `prefix_of` child_list n'.

#[global] Instance extends_preorder : PreOrder extends.
Proof.
  split.
  - intros m. split; [done|]. intros d n Hn. exists n. by split_and!.
  - intros m1 m2 m3 [H1 H2] [H3 H4]. split; [lia|]. intros d n Hn. destruct (H2 d n Hn) as (n' & Hn' & ? & ? & ? & ?).
    destruct (H4 d n' Hn') as (n'' & ? & ? & ? & ? & ?). exists n''. split_and!; try congruence. by etrans.
Qed.

Lemma grown_extends m m' : grown m m' -> extends m m'.
Proof. intros [H1 H2]. split; [done|]. intros d n Hn. exists n. split_and!; auto. Qed.

Definition live (m : cmem) (a : Z) : Prop := is_Some (caches m !! a).

Lemma live_extends m m' a : extends m m' -> live m a -> live m' a.
Proof. intros [_ H] [n Hn]. destruct (H a n Hn) as (n' & Hn' & _). by exists n'. Qed.

(** One more or fewer allocation within [k]. *)
Definition within (m m' : cmem) (k : nat) : Prop :=
  cache_inv m' /\ extends m m' /\ (calloc m' <= calloc m + k)%nat.

Lemma within_refl m k : cache_inv m -> within m m k.
Proof. intros H. split; [done|]. split; [reflexivity|lia]. Qed.
Lemma within_trans m1 m2 m3 k1 k2 k : within m1 m2 k1 -> within m2 m3 k2 -> (k1 + k2 <= k)%nat -> within m1 m3 k.
Proof. intros (_ & H1 & H2) (H3 & H4 & H5) Hk. split; [done|]. split; [by etrans|lia]. Qed.

Lemma within_mono m m' k k' : within m m' k -> (k <= k')%nat -> within m m' k'.
Proof. intros (H1 & H2 & H3) Hk. split; [done|]. split; [done|lia]. Qed.

Definition node_or_null (m : cmem) (a : Z) : Prop := a = 0 \/ live m a.

Lemma null_extends m m' a : extends m m' -> node_or_null m a -> node_or_null m' a.
Proof. intros He [->|H]; [by left|right]. by eapply live_extends. Qed.

Lemma add_within m a key val :
  cache_inv m -> node_or_null m a -> Z.of_nat (calloc m) + 3 <= 2147483647 -> copyable key -> copyable val ->
  exists r m', adx_cache_add ao m a key val = Ok (r, m') /\ within m m' 3 /\ node_or_null m' r.
Proof.
  intros Hm [->|[c Ha]] Hmax Hck Hcv.
  { exists 0, m. split; [done|]. split; [by apply within_refl|by left]. }
  destruct (cache_add_ok m a c key val Hm Ha Hmax Hck Hcv) as (r & m' & E & Hm' & Hc & H). exists r, m'. split; [done|].
  case_decide as Hp.
  - destruct H as [-> ->]. split; [by apply within_refl|]. right. destruct Hp as [[_ Hp] _].
    destruct (child_live m a c _ Hm Ha (child_at_live m a c key Hm Ha Hp)) as (_ & n & Hn & _). by exists n.
  - destruct H as (H0 & H1 & _). destruct (decide (r = 0)) as [->|Hr].
    + split; [|by left]. split; [done|]. split; [by apply grown_extends, H0|lia].
    + destruct (H1 Hr) as (_ & Hnew & Hr' & (c' & Hc' & Hk & Hv & Hpa & Hl) & Hfr). split; [|right; by eexists].
      split; [done|]. split; [|lia]. split; [lia|]. intros d n Hn. destruct (decide (d = a)) as [->|Hda].
      * exists c'. rewrite Ha in Hn. injection Hn as <-. split_and!; try done. rewrite Hl. by apply prefix_app_r.
      * exists n. rewrite Hfr by (done || (intros ->; congruence)). by split_and!.
Qed.

(** ** Importing a document *)

Section Import.
Context (lo hi : Z) (j : jmem) (Hj : wf j).

Fixpoint jsize (v : jv) : nat :=
  match v with Coll _ l => S (sum_list (map (fun kv => jsize kv.2) l)) | Leaf _ _ => 1%nat end.

Definition room_for (m : cmem) (k : nat) : Prop := Z.of_nat (calloc m) + Z.of_nat k <= 2147483647.

Lemma room_within m m' k n n' : within m m' k -> room_for m n -> (k + n' <= n)%nat -> room_for m' n'.
Proof. intros (_ & _ & H). unfold room_for. lia. Qed.

(** The text of a member is at least as long as its key and its value. *)
Lemma escape_le s : (length s <= length (escape s))%nat.
Proof.
  induction s as [|c s IH]; [done|]. rewrite escape_cons, length_app. pose proof (esc_char_length c). simpl. lia.
Qed.

Definition short (kv : option bytes * jv) : Prop := Z.of_nat (length (member_text kv)) < 2147483647.

Lemma short_key kk v : short (Some kk, v) -> copyable (VString kk).
Proof.
  unfold short, member_text, key_text. cbn [fst snd copyable length]. rewrite !length_app. cbn [length].
  rewrite length_app. pose proof (escape_le kk). lia.
Qed.

Lemma short_leaf k t s : short (k, Leaf t s) -> copyable (VString s).
Proof.
  unfold short, member_text. cbn [fst snd body copyable]. rewrite length_app. pose proof (escape_le s).
  case_decide; [cbn [length]; rewrite length_app|]; lia.
Qed.

Lemma join_le (sep x : bytes) l : x ∈ l -> (length x <= length (join sep l))%nat.
Proof.
  induction l as [|y l IH]; [by intros ?%elem_of_nil|]. intros [->|Hx]%elem_of_cons.
  - destruct l; cbn [join]; rewrite ?length_app; lia.
  - specialize (IH Hx). destruct l as [|z l]; [by apply elem_of_nil in Hx|]. change (join sep (y :: z :: l)) with (y ++ sep ++ join sep (z :: l)).
    rewrite !length_app. lia.
Qed.

Lemma short_members k arr l : short (k, Coll arr l) -> Forall short l.
Proof.
  unfold short, member_text at 1. cbn [fst snd]. rewrite length_app, body_coll. cbn [length]. rewrite length_app.
  intros H. rewrite Forall_forall. intros kv Hkv. unfold members_text in H.
  pose proof (join_le [44] (member_text kv) (map member_text l) (list_elem_of_fmap_2 member_text _ _ Hkv)). lia.
Qed.

(** What entering a node does: the import of a value returns 0, and whatever
    was allocated or refused the store keeps its invariant and its nodes. *)
Definition imports (f : cmem -> Z -> Z -> cres (Z * cmem)) (c : Z) (v : jv) : Prop := forall m a,
  cache_inv m -> node_or_null m a -> room_for m (6 * jsize v - 3) ->
  exists m', f m a c = Ok (0, m') /\ within m m' (6 * jsize v - 3).

Lemma json_value_within c k v : holds lo hi j c k v -> is_scalar (jtype v) -> jv_ok v -> short (k, v) ->
  imports (adx_cache_from_json_value ao j) c v.
Proof.
  intros Hc Hs Hok Hsh m a Hm Ha Hroom. destruct (holds_inv _ _ _ _ _ _ Hc) as (_ & n & Hn & Hk & Ht & _ & Hv).
  destruct v as [arr l|t s]; [unfold is_scalar in Hs; destruct arr; simpl in Hs; naive_solver|]. simpl in Ht, Hs.
  unfold adx_cache_from_json_value, get. rewrite Hn. cbn [of_opt mbind cres_bind].
  unfold room_for in Hroom. cbn [jsize] in Hroom. rewrite decide_False.
  2:{ rewrite Ht. destruct Hs as [->|[->|[->| ->]]]; intros [?|[?|[?|?]]]; done. }
  apply short_leaf in Hsh as Hcs. rewrite Hv. destruct (AdxJson.key n) as [kk|].
  - destruct (add_within m a (adx_cache_value_string (Some kk)) (if decide (type n = ADX_JSON_NUMBER) then adx_cache_value_number (atoi s)
        else adx_cache_value_string (Some s)) Hm Ha) as (r & m' & -> & H & _); [lia|subst k; by eapply short_key|by case_decide|]. cbn [mbind cres_bind]. by exists m'.
  - destruct (add_within m a (adx_cache_value_array 0) (if decide (type n = ADX_JSON_NUMBER) then adx_cache_value_number (atoi s)
        else adx_cache_value_string (Some s)) Hm Ha) as (r & m' & E & H & _); [lia|done|by case_decide|].
    unfold adx_cache_array_add. rewrite E. cbn [mbind cres_bind]. by exists m'.
Qed.

Lemma enter_within m a n : cache_inv m -> node_or_null m a -> Z.of_nat (calloc m) + 3 <= 2147483647 ->
  match AdxJson.key n with Some kk => copyable (VString kk) | None => True end ->
  exists r m', enter ao m a n = Ok (r, m') /\ within m m' 3 /\ node_or_null m' r.
Proof.
  intros Hm Ha Hroom Hck. unfold enter. destruct (AdxJson.key n); [by apply add_within|].
  exists a, m. split; [done|]. split; [by apply within_refl|done].
Qed.

Section Elements.
Context (fj fa : cmem -> Z -> Z -> cres (Z * cmem)).

(** The members of a collection, imported in order by the functions given. *)
Definition elements (cs : list Z) (l : list (option bytes * jv)) : Prop :=
  Forall2 (fun c kv => holds lo hi j c kv.1 kv.2 /\ (jv_ok kv.2 /\ short kv) /\
    forall arr, type <$> nodes j !! c = Some (jtype (Coll arr [])) -> imports fj c kv.2 /\ (arr = true -> imports fa c kv.2)) cs l.

Lemma json_loop_within cs l : elements cs l -> forall m a,
  cache_inv m -> node_or_null m a -> room_for m (6 * sum_list (map (fun kv => jsize kv.2) l)) ->
  exists m', json_loop ao j fj fa cs m a = Ok (0, m') /\ within m m' (6 * sum_list (map (fun kv => jsize kv.2) l)).
Proof.
  induction 1 as [|c kv cs l (Hc & [Hok Hsh] & Hrec) _ IH]; intros m a Hm Ha Hroom.
  { exists m. split; [done|]. by apply within_refl. }
  destruct (holds_inv _ _ _ _ _ _ Hc) as (_ & n & Hn & Hk & Ht & _).
  cbn [json_loop map sum_list_with id] in *. unfold get at 1. rewrite Hn. cbn [of_opt mbind cres_bind].
  assert (1 <= jsize kv.2)%nat as Hj1 by (destruct kv.2; simpl; lia).
  assert (room_for m (6 * jsize kv.2)) as Hroom1 by (unfold room_for in *; lia).
  assert (room_for m (6 * jsize kv.2 - 3)) as Hroom0 by (unfold room_for in *; lia).
  assert (exists r m1, (if decide (type n = ADX_JSON_OBJECT) then fj m a c
                 else if decide (type n = ADX_JSON_ARRAY) then fa m a c
                 else if decide (is_scalar (type n)) then adx_cache_from_json_value ao j m a c
                 else mret (0, m)) = Ok (r, m1) /\ within m m1 (6 * jsize kv.2)) as (r & m1 & E & H1).
  { repeat case_decide.
    - destruct (Hrec false) as [Hf _]; [by rewrite Hn; simpl; f_equal|]. destruct (Hf m a Hm Ha Hroom0) as (m1 & E & Hw).
      exists 0, m1. split; [done|]. eapply within_mono; [exact Hw|lia].
    - destruct (Hrec true) as [_ Hf]; [by rewrite Hn; simpl; f_equal|]. destruct (Hf eq_refl m a Hm Ha Hroom0) as (m1 & E & Hw).
      exists 0, m1. split; [done|]. eapply within_mono; [exact Hw|lia].
    - rewrite Ht in *. destruct (json_value_within c kv.1 kv.2 Hc) with (m := m) (a := a) as (m1 & E & Hw); try done.
      exists 0, m1. split; [done|]. eapply within_mono; [exact Hw|lia].
    - exists 0, m. split; [done|]. by apply within_refl. }
  rewrite E. cbn [mbind cres_bind]. destruct (IH m1 a) as (m2 & E2 & H2).
  - apply H1.
  - eapply null_extends; [apply H1|done].
  - eapply room_within; [exact H1|exact Hroom|]. lia.
  - exists m2. split; [done|]. eapply within_trans; [exact H1|exact H2|lia].
Qed.

Lemma json_value_array_within cs l : elements cs l -> forall m a,
  cache_inv m -> node_or_null m a -> room_for m (6 * sum_list (map (fun kv => jsize kv.2) l)) ->
  exists m', json_value_array_loop ao j fj cs m a = Ok (0, m') /\ within m m' (6 * sum_list (map (fun kv => jsize kv.2) l)).
Proof.
  induction 1 as [|c kv cs l (Hc & [Hok Hsh] & Hrec) _ IH]; intros m a Hm Ha Hroom.
  { exists m. split; [done|]. by apply within_refl. }
  destruct (holds_inv _ _ _ _ _ _ Hc) as (Hcr & n & Hn & Hk & Ht & _).
  cbn [json_value_array_loop map sum_list_with id] in *. unfold get at 1. rewrite Hn. cbn [of_opt mbind cres_bind].
  assert (1 <= jsize kv.2)%nat as Hj1 by (destruct kv.2; simpl; lia).
  assert (room_for m (6 * jsize kv.2)) as Hroom1 by (unfold room_for in *; lia).
  assert (room_for m (6 * jsize kv.2 - 3)) as Hroom0 by (unfold room_for in *; lia).
  assert (forall m1, within m m1 (6 * jsize kv.2) -> exists m', json_value_array_loop ao j fj cs m1 a = Ok (0, m') /\
    within m m' (6 * (jsize kv.2 + sum_list (map (fun kv => jsize kv.2) l)))) as Hrest.
  { intros m1 H1. destruct (IH m1 a) as (m2 & E2 & H2); [apply H1|eapply null_extends; [apply H1|done]| |].
    - eapply room_within; [exact H1|exact Hroom|]. lia.
    - exists m2. split; [done|]. eapply within_trans; [exact H1|exact H2|lia]. }
  repeat case_decide.
  - unfold adx_cache_array_add. unfold room_for in *.
    destruct (add_within m a (adx_cache_value_array 0) adx_cache_value_null Hm Ha) as (b & m1 & -> & H1 & Hb); [lia|done|done|].
    cbn [mbind cres_bind]. assert (imports fj c kv.2) as Hf.
    { destruct H as [H|H]; [apply (Hrec false)|apply (Hrec true)]; rewrite Hn; simpl; by f_equal. }
    destruct kv.2 as [arr l'|t s] eqn:Ev; cycle 1.
    { exfalso. simpl in Ht. rewrite Ht in H. simpl in Hok. destruct H as [-> | ->]; naive_solver. }
    destruct H1 as (Hm1 & He1 & Hc1).
    destruct (Hf m1 b Hm1 Hb) as (m2 & -> & Hm2 & He2 & Hc2).
    { unfold room_for in *. lia. }
    cbn [mbind cres_bind]. rewrite decide_False by (intros HH; by apply HH). apply Hrest. split; [done|]. split; [by etrans|]. lia.
  - rewrite Ht in *. destruct (json_value_within c kv.1 kv.2 Hc) with (m := m) (a := a) as (m1 & -> & Hw); try done.
    cbn [mbind cres_bind]. rewrite decide_False by (intros HH; by apply HH). apply Hrest.
    eapply within_mono; [exact Hw|lia].
  - apply Hrest. by apply within_refl.
Qed.
End Elements.
End Import.
End Build.
End Cache.
