(* ===== verification/AdxCacheStore.v ===== *)
(** The contract of the object cache (adx_dsp/src/adx_cache.c): storing,
    finding, walking paths, and importing JSON documents. *)

From Stdlib Require Import ZArith Lia.
From S2P Require Import Prelude AdxRbtreeRep AdxIndex AdxJson AdxJsonDoc AdxJsonRound AdxJsonPrint AdxJsonApi AdxCache AdxCacheSpec.

Open Scope Z_scope.

Section Store.
Context `{IS : !Index bytes} `{IN : !Index Z} (ao : nat -> bool).

(** ** Lookup after an addition *)

Lemma child_at_snoc (m m' : cmem) (a : Z) (c c' : adx_cache_t) r key val :
  cache_inv m -> caches m !! a = Some c -> added m m' a c r key val -> caches m' !! a = Some c' ->
  ~ present m c key -> r ≠ 0 ->
  (is_map_key key = true -> child_at m' c' key = r) /\
  (forall k, is_map_key k = true -> k ≠ key -> child_at m' c' k = child_at m c k) /\
  (forall i, child_at m' c' (VArray i) = if decide (i = Z.of_nat (length (child_list c))) then r else child_at m c (VArray i)).
Proof.
  intros Hm Ha (Hf & Hr & (c1 & Hc1 & Hk1 & _ & _ & Hl) & Hfr) Ha' Hp Hr0. rewrite Ha' in Hc1. injection Hc1 as <-.
  assert (Hkeep : forall b, b ∈ child_list c -> key_of m' b = key_of m b).
  { intros b Hb. destruct (child_live m a c b Hm Ha Hb) as (_ & n & Hn & _). unfold key_of.
    assert (b ≠ r) as Hbr by (intros ->; congruence). destruct (decide (b = a)) as [->|Hba].
    - rewrite Ha', Ha. simpl. by rewrite Hk1.
    - by rewrite Hfr. }
  assert (Hmap : forall k, filter (fun b => key_of m' b = Some k) (child_list c') =
    filter (fun b => key_of m b = Some k) (child_list c) ++ (if decide (key = k) then [r] else [])).
  { intros k. rewrite Hl, filter_app, (children_frame m m') by done. f_equal. rewrite filter_cons.
    rewrite filter_nil. assert (key_of m' r = Some key) as E by (unfold key_of; by rewrite Hr).
    destruct (decide (key_of m' r = Some k)), (decide (key = k)); congruence. }
  split_and!.
  - intros Hmk. assert (child_at m c key = 0) as H0.
    { destruct (decide (child_at m c key = 0)); [done|]. by destruct Hp. }
    assert (filter (fun b => key_of m b = Some key) (child_list c) = []) as Hnil.
    { destruct (filter _ _) as [|d l] eqn:Ef; [done|]. exfalso.
      assert (d ∈ child_list c) as Hd by (apply (list_elem_of_filter (fun b => key_of m b = Some key)); rewrite Ef; by left).
      assert (child_at m c key = d) as E by (destruct key; try done; cbn [child_at]; by rewrite Ef).
      destruct (child_live m a c d Hm Ha Hd). lia. }
    destruct key; try done; cbn [child_at]; rewrite Hmap, Hnil, decide_True by done; done.
  - intros k Hk Hne. destruct k; try done; cbn [child_at]; rewrite Hmap, decide_False by congruence; by rewrite app_nil_r.
  - intros i. cbn [child_at]. rewrite Hl. destruct (decide (0 <= i)) as [Hi|Hi].
    + case_decide as E.
      * subst i. by rewrite Nat2Z.id, lookup_app_r, Nat.sub_diag by lia.
      * destruct (decide (Z.to_nat i < length (child_list c))%nat) as [Hlt|Hge]; [by rewrite lookup_app_l|].
        rewrite lookup_app_r by lia. rewrite (lookup_ge_None_2 (child_list c)) by lia.
        rewrite lookup_ge_None_2; [done|simpl; lia].
    + rewrite decide_False by lia. done.
Qed.

(** C6: storing in the cache.  In a store that satisfies its invariant,
    adding under a node a key and a value, whose strings are shorter than
    2^31 - 1 as the copies keep their lengths in [int]s, terminates whatever allocations are refused and keeps
    the invariant.  An existing string or number key gives the existing child
    and changes nothing, whatever the value; otherwise either nothing is
    linked (NULL), or the new node is the last child, found under its key and
    under its position, and every other key, position and node is as before;
    with memory available and a key and a value of a proper type it is never
    NULL. *)
Theorem adx_cache_store (m : cmem) a c key val :
  cache_inv m -> caches m !! a = Some c -> Z.of_nat (calloc m) + 3 <= 2147483647 -> copyable key -> copyable val ->
  (forall k, adx_cache_find m a k = Ok (child_at m c k)) /\
  exists r m', adx_cache_add ao m a key val = Ok (r, m') /\ cache_inv m' /\
    (present m c key -> is_error val = false -> r = child_at m c key /\ m' = m) /\
    (r = 0 -> grown m m') /\
    ((forall k, ao k = true) -> fits key val = true -> r ≠ 0) /\
    (r ≠ 0 -> ~ present m c key -> fits key val = true /\ added m m' a c r key val /\
      adx_cache_to_key m' r = Ok key /\ adx_cache_to_val m' r = Ok val /\
      (is_map_key key = true -> adx_cache_find m' a key = Ok r) /\
      adx_cache_find m' a (VArray (Z.of_nat (length (child_list c)))) = Ok r /\
      (forall k, is_map_key k = true -> k ≠ key -> adx_cache_find m' a k = adx_cache_find m a k) /\
      (forall i, i ≠ Z.of_nat (length (child_list c)) -> adx_cache_find m' a (VArray i) = adx_cache_find m a (VArray i))).
Proof.
  intros Hm Ha Hmax Hck Hcv. destruct (inv_addr m a c Hm Ha) as [Har _].
  assert (forall k, adx_cache_find m a k = Ok (child_at m c k)) as Hfind.
  { intros k. destruct (Hm a c Ha) as (_ & _ & Hok). by apply find_ok; [|lia|]. }
  split; [done|]. destruct (cache_add_ok ao m a c key val Hm Ha Hmax Hck Hcv) as (r & m' & E & Hm' & _ & H).
  exists r, m'. split; [done|]. split; [done|]. case_decide as Hp.
  { destruct H as [-> ->]. destruct Hp as [[Hp1 Hp2] Hp3]. split; [done|]. split; [done|]. split; [done|].
    intros _ Hn. destruct Hn. by split. }
  destruct H as (H1 & H2 & H3). split; [intros; by destruct Hp|]. split; [done|]. split; [done|]. intros Hr Hnp.
  destruct (H2 Hr) as [Hfit Hadd]. split; [done|]. split; [done|].
  pose proof Hadd as (_ & Hr' & (c' & Ha' & _) & _).
  destruct (child_at_snoc m m' a c c' r key val Hm Ha Hadd Ha' Hnp Hr) as (G1 & G2 & G3).
  destruct (Hm' a c' Ha') as (_ & _ & Hok').
  assert (forall k, adx_cache_find m' a k = Ok (child_at m' c' k)) as Hfind' by (intros k; by apply find_ok; [|lia|]).
  unfold adx_cache_to_key, adx_cache_to_val, cget. rewrite !decide_False, Hr' by done. cbn [of_opt mbind cres_bind].
  split; [done|]. split; [done|]. split; [intros Hk; by rewrite Hfind', G1|].
  split; [by rewrite Hfind', G3, decide_True|]. split.
  - intros k Hk Hne. by rewrite Hfind', Hfind, G2.
  - intros i Hi. by rewrite Hfind', Hfind, G3, decide_False.
Qed.

(** ** Paths *)

(** The node at the end of a path of keys, 0 when there is none. *)
Fixpoint path_at (m : cmem) (a : Z) (ks : list adx_cache_value_t) : Z :=
  match ks with
  | [] => a
  | k :: ks => match caches m !! a with Some c => path_at m (child_at m c k) ks | None => 0 end
  end.

Lemma path_null (m : cmem) ks : cache_inv m -> path_at m 0 ks = 0.
Proof.
  intros Hm. destruct ks as [|k ks]; [done|]. simpl. destruct (caches m !! 0) as [c|] eqn:E; [|done].
  apply (inv_addr m _ _ Hm) in E. lia.
Qed.

Lemma child_null_or_live (m : cmem) a c k : cache_inv m -> caches m !! a = Some c -> node_or_null m (child_at m c k).
Proof.
  intros Hm Ha. destruct (decide (child_at m c k = 0)) as [E|E]; [by left|right].
  destruct (child_live m a c _ Hm Ha (child_at_live m a c k Hm Ha E)) as (_ & n & Hn & _). by exists n.
Qed.

Lemma find_args_ok (m : cmem) ks rest : cache_inv m -> Forall (fun k => is_key k = true) ks -> forall a,
  node_or_null m a -> adx_cache_find_args m a (ks ++ VNull :: rest) = Ok (path_at m a ks).
Proof.
  intros Hm. induction 1 as [|k ks Hk _ IH]; intros a Ha; [done|].
  assert (adx_cache_find_args m a ((k :: ks) ++ VNull :: rest) =
    (cache ← adx_cache_find m a k; if decide (cache = 0) then mret 0 else adx_cache_find_args m cache (ks ++ VNull :: rest))) as ->
    by (destruct k; done).
  destruct Ha as [->|[c Ha]].
  - unfold adx_cache_find. rewrite decide_True by done. cbn [mbind cres_bind mret cres_ret]. rewrite decide_True by done.
    by rewrite path_null.
  - destruct (inv_addr m a c Hm Ha) as [Har _]. destruct (Hm a c Ha) as (_ & _ & Hok).
    rewrite (find_ok m a c) by (done || lia). cbn [mbind cres_bind path_at]. rewrite Ha. case_decide as E.
    + by rewrite E, path_null.
    + apply IH. by eapply child_null_or_live.
Qed.

Lemma position_live (m : cmem) a c i : cache_inv m -> caches m !! a = Some c -> 0 <= i < child_total c ->
  exists b, child_list c !! Z.to_nat i = Some b /\ child_at m c (VArray i) = b /\ b ≠ 0.
Proof.
  intros Hm Ha Hi. destruct (Hm a c Ha) as (_ & _ & Hok). rewrite (ok_total _ _ _ Hok) in Hi.
  destruct (lookup_lt_is_Some_2 (child_list c) (Z.to_nat i)) as [b Hb]; [lia|]. exists b. split; [done|].
  cbn [child_at]. rewrite decide_True, Hb by lia. split; [done|]. apply list_elem_of_lookup_2 in Hb.
  destruct (child_live m a c b Hm Ha Hb). simpl. lia.
Qed.

(** positions and paths.  A path of keys ended by NULL leads to the node
    the keys denote one after the other, and to NULL from the first one that
    is missing; a position gives a child exactly when it is below the number
    of children; [adx_cache_rand] gives a child whenever there is one.
    [adx_cache_find_array_loop] wraps only the positions above the number of
    children, so the position equal to it, which should wrap to the first
    child, and every negative one give NULL. *)
Theorem adx_cache_paths (m : cmem) a c :
  cache_inv m -> caches m !! a = Some c ->
  (forall ks rest, Forall (fun k => is_key k = true) ks ->
     adx_cache_find_args m a (ks ++ VNull :: rest) = Ok (path_at m a ks)) /\
  adx_cache_find_array_lenght m a = Ok (Z.of_nat (length (child_list c))) /\
  (forall i, adx_cache_find_array m a i =
     Ok (if decide (0 <= i) then default 0 (child_list c !! Z.to_nat i) else 0)) /\
  (forall r, 0 <= r -> child_list c ≠ [] -> exists b, b ∈ child_list c /\ b ≠ 0 /\ adx_cache_rand m a r = Ok b) /\
  (forall i, 0 <= i -> i ≠ child_total c -> child_list c ≠ [] ->
     exists b, b ≠ 0 /\ child_list c !! Z.to_nat (i mod child_total c) = Some b /\ adx_cache_find_array_loop m a i = Ok b) /\
  adx_cache_find_array_loop m a (child_total c) = Ok 0.
Proof.
  intros Hm Ha. destruct (inv_addr m a c Hm Ha) as [Har _]. destruct (Hm a c Ha) as (_ & _ & Hok).
  pose proof (ok_total _ _ _ Hok) as Ht.
  assert (Hnil : child_list c ≠ [] -> 0 < child_total c) by (rewrite Ht; destruct (child_list c); [done|simpl; lia]).
  unfold adx_cache_find_array_lenght, adx_cache_child_check, adx_cache_find_array, adx_cache_rand, adx_cache_find_array_loop, cget.
  assert (Hfind : forall k, adx_cache_find m a k = Ok (child_at m c k)) by (intros k; by apply find_ok; [|lia|]).
  rewrite !(decide_False (P := a = 0)), Ha by lia. cbn [of_opt mbind cres_bind mret cres_ret]. split_and!.
  - intros ks rest Hks. apply find_args_ok; [done|done|]. right. by exists c.
  - destruct (child_list c) eqn:E; [done|]. rewrite decide_False by (intros H; by apply H). by rewrite Ht.
  - intros i. rewrite (decide_False (P := a = 0)), Hfind by lia. destruct (decide (child_total c <= 0)) as [H|H]; [|done]. rewrite Ht in H.
    destruct (child_list c) as [|? ?] eqn:E; [|simpl in H; lia]. by case_decide.
  - intros r Hr Hne. apply Hnil in Hne. rewrite !decide_False, Hfind by lia.
    pose proof (Z.rem_bound_pos r (child_total c) Hr Hne) as Hb.
    destruct (position_live m a c _ Hm Ha Hb) as (b & H1 & H2 & H3). exists b. split; [by eapply list_elem_of_lookup_2|]. split; [done|].
    unfold adx_cache_value_array. by rewrite H2.
  - intros i Hi Hne Hl. apply Hnil in Hl. rewrite (decide_False (P := a = 0)), (decide_False (P := child_total c <= 0)), Hfind by lia.
    assert ((if decide (i > child_total c) then Z.rem i (child_total c) else i) = i mod child_total c) as ->.
    { case_decide; [apply Z.rem_mod_nonneg; lia|]. rewrite Z.mod_small; lia. }
    destruct (position_live m a c (i mod child_total c) Hm Ha) as (b & H1 & H2 & H3); [apply Z.mod_pos_bound; lia|].
    exists b. split; [done|]. split; [done|]. unfold adx_cache_value_array. by rewrite H2.
  - case_decide as H; [done|]. rewrite decide_False, Hfind by lia. unfold adx_cache_value_array. cbn [child_at].
    rewrite decide_True by lia. rewrite lookup_ge_None_2 by lia. done.
Qed.

(** ** Importing a document *)

Lemma from_json_S fuel (j : jmem) m a c : adx_cache_from_json ao (S fuel) j m a c =
  if decide (c = 0) then mret (-1, m) else
  n ← get j c; '(a, m) ← enter ao m a n;
  json_loop ao j (adx_cache_from_json ao fuel j) (adx_cache_from_json_value_array ao fuel j) (child n) m a.
Proof. done. Qed.

Lemma from_json_value_array_S fuel (j : jmem) m a c : adx_cache_from_json_value_array ao (S fuel) j m a c =
  n ← get j c; '(a, m) ← enter ao m a n; json_value_array_loop ao j (adx_cache_from_json ao fuel j) (child n) m a.
Proof. done. Qed.

(** The collection at a node is imported by both functions. *)
Definition importable lo hi (j : jmem) (v : jv) : Prop := forall c k fuel, jv_ok v -> short (k, v) -> holds lo hi j c k v -> (depth v <= fuel)%nat ->
  forall arr l, v = Coll arr l ->
  imports (adx_cache_from_json ao fuel j) c v /\ (arr = true -> imports (adx_cache_from_json_value_array ao fuel j) c v).

Lemma members_elements lo hi (j : jmem) fuel arr cs l :
  Forall2 (fun c (kv : option bytes * jv) => holds lo hi j c kv.1 kv.2) cs l ->
  Forall (fun kv => key_ok arr kv.1 /\ jv_ok kv.2) l -> Forall short l -> Forall (fun kv => (depth kv.2 <= fuel)%nat) l ->
  Forall (fun kv => importable lo hi j kv.2) l ->
  elements lo hi j (adx_cache_from_json ao fuel j) (adx_cache_from_json_value_array ao fuel j) cs l.
Proof.
  intros Hcs Hok Hs Hd IH. induction Hcs as [|d [kk v] cs l H Hcs IHl]; [constructor|]. inversion Hok as [|? ? [_ Hv] Hok']; subst.
  inversion Hs as [|? ? Hsv Hs']; subst.
  inversion Hd as [|? ? Hdv Hd']; subst. inversion IH as [|? ? IHv IH']; subst. constructor; [|by apply IHl].
  split; [exact H|]. split; [by split|]. intros arr' Hty. destruct (holds_inv _ _ _ _ _ _ H) as (_ & nd & Hnd & _ & Htd & _).
  rewrite Hnd in Hty. simpl in Hty. injection Hty as Hty. rewrite Htd in Hty. destruct v as [arr1 l'|t s]; simpl in *.
  - assert (arr1 = arr') as -> by (destruct arr1, arr'; done). by apply (IHv d kk fuel Hv Hsv H Hdv arr' l').
  - exfalso. destruct Hv as [[-> _]|[[-> _]|[[-> _]|[-> _]]]]; destruct arr'; done.
Qed.

Lemma json_import lo hi (j : jmem) : wf j -> forall v, importable lo hi j v.
Proof.
  intros Hj v. unfold importable. induction v as [arr0 l0 IH|] using jv_ind'; [|done]. intros c k fuel Hok Hsh Hc Hd arr l [= <- <-].
  pose proof (short_members _ _ _ Hsh) as Hsl.
  apply jv_ok_coll in Hok as [_ Hok]. inversion Hc as [a n arr l Hr Hn Ht Hlen Hcs E1 E2 E3|]; subst.
  destruct fuel as [|fuel]; [simpl in Hd; lia|].
  simpl in Hd. apply le_S_n, depth_members in Hd. pose proof (Hj _ _ Hn) as Hcr.
  assert (elements lo hi j (adx_cache_from_json ao fuel j) (adx_cache_from_json_value_array ao fuel j) (child n) l0) as Hel
    by (eapply members_elements; [exact Hcs|exact Hok|exact Hsl|exact Hd|exact IH]).
  assert (match AdxJson.key n with Some kk => copyable (VString kk) | None => True end) as Hck
    by (destruct (AdxJson.key n); [by eapply short_key|done]).
  split.
  - intros m a Hm Ha Hroom. rewrite from_json_S. cbn [jsize] in Hroom |- *. rewrite decide_False by lia. unfold get. rewrite Hn. cbn [of_opt mbind cres_bind].
    destruct (enter_within ao m a n Hm Ha) as (r & m1 & -> & H1 & Hr1); [unfold room_for in Hroom; lia|exact Hck|]. cbn [mbind cres_bind].
    destruct (json_loop_within ao lo hi j _ _ _ _ Hel m1 r) as (m2 & -> & H2);
      [apply H1|done|eapply room_within; [exact H1|exact Hroom|lia]|].
    exists m2. split; [done|]. eapply within_trans; [exact H1|exact H2|lia].
  - intros -> m a Hm Ha Hroom. rewrite from_json_value_array_S. cbn [jsize] in Hroom |- *. unfold get. rewrite Hn. cbn [of_opt mbind cres_bind].
    destruct (enter_within ao m a n Hm Ha) as (r & m1 & -> & H1 & Hr1); [unfold room_for in Hroom; lia|exact Hck|]. cbn [mbind cres_bind].
    destruct (json_value_array_within ao lo hi j _ _ _ _ Hel m1 r) as (m2 & -> & H2);
      [apply H1|done|eapply room_within; [exact H1|exact Hroom|lia]|].
    exists m2. split; [done|]. eapply within_trans; [exact H1|exact H2|lia].
Qed.

Lemma document_elements lo hi (j : jmem) cs l fuel : wf j ->
  Forall2 (fun c (kv : option bytes * jv) => holds lo hi j c kv.1 kv.2) cs l ->
  Forall (fun kv => key_ok false kv.1 /\ jv_ok kv.2) l -> Forall short l -> Forall (fun kv => (depth kv.2 <= fuel)%nat) l ->
  elements lo hi j (adx_cache_from_json ao fuel j) (adx_cache_from_json_value_array ao fuel j) cs l.
Proof.
  intros Hj Hcs Hok Hs Hd. eapply members_elements; try done. rewrite Forall_forall. intros kv _. by apply json_import.
Qed.

(** C28: importing a JSON document terminates.  The document printed from any
    well-formed contents, in less than 2^31 - 1 characters so that every
    length is an [int], is parsed, and its tree entered into the cache: for
    any allocations refused on the side of the cache the import returns 0
    within a fuel that is the depth of the document, keeps the invariant of
    the store and every node that was there, and appends at most 6 blocks per
    member. *)
Theorem adx_cache_import_terminates (m : cmem) (j : jmem) a l fuel :
  wf j -> jv_ok (Coll false l) -> Z.of_nat (length (body (Coll false l))) < 2147483647 -> cache_inv m -> live m a ->
  Z.of_nat (calloc m) + 6 * Z.of_nat (jsize (Coll false l)) <= 2147483647 -> (depth (Coll false l) <= fuel)%nat ->
  exists root j' m', adx_json_parse (fun _ => true) j (body (Coll false l)) = Ok (root, j') /\
    adx_cache_from_json ao fuel j' m a root = Ok (0, m') /\
    cache_inv m' /\ extends m m' /\ live m' a /\ (calloc m' <= calloc m + 6 * jsize (Coll false l))%nat.
Proof.
  intros Hj Hok Hmax Hm Ha Hroom Hd. pose proof Hok as [Hne Hl]%jv_ok_coll.
  destruct (parse_doc_ok (fun _ => true) (fun _ => eq_refl) j l Hj Hne Hok Hmax) as (root & j' & E & Hr & (n & lo & hi & Hn & Hk & Hlo & Hhi & Hcs) & Hj' & _).
  destruct fuel as [|fuel]; [simpl in Hd; lia|]. simpl in Hd. apply le_S_n, depth_members in Hd.
  pose proof (short_members None false l Hmax) as Hsl.
  pose proof (document_elements lo hi j' (child n) l fuel Hj' Hcs Hl Hsl Hd) as Hel.
  destruct (json_loop_within ao lo hi j' _ _ _ _ Hel m a) as (m' & E' & H1 & H2 & H3);
    [done|by right|unfold room_for; cbn [jsize] in Hroom; lia|].
  exists root, j', m'. split; [done|]. rewrite from_json_S, decide_False by done. unfold get. rewrite Hn. cbn [of_opt mbind cres_bind].
  unfold enter. rewrite Hk. cbn [mbind cres_bind mret cres_ret]. rewrite E'.
  split; [done|]. split; [done|]. split; [done|]. split; [by eapply live_extends|]. cbn [jsize]. lia.
Qed.
End Store.

(** ** Witnesses: a store with one node, on the red-black trees. *)

Definition demo_cache : cmem :=
  match adx_cache_create (fun _ => true) (CMem ∅ 0) with Ok (_, m) => m | _ => CMem ∅ 0 end.

Lemma demo_cache_ok : cache_inv demo_cache /\ caches demo_cache !! 8 = Some blank.
Proof.
  assert (cache_inv (CMem ∅ 0)) as H0 by (intros a c; simpl; by rewrite lookup_empty).
  destruct (cache_create_ok (fun _ => true) (CMem ∅ 0) H0) as (a & m' & E & H & _).
  split; [|by apply lookup_insert_eq]. unfold demo_cache. rewrite E. exact H.
Qed.

Lemma adx_cache_store_witness :
  exists r m', adx_cache_add (fun _ => true) demo_cache 8 (VString (B "id")) (VNumber 7) = Ok (r, m') /\ r ≠ 0 /\
    adx_cache_find m' 8 (VString (B "id")) = Ok r /\ adx_cache_to_val m' r = Ok (VNumber 7).
Proof.
  destruct demo_cache_ok as [Hm Ha].
  destruct (adx_cache_store (fun _ => true) demo_cache 8 blank (VString (B "id")) (VNumber 7) Hm Ha)
    as (_ & r & m' & E & _ & _ & _ & Hr & H); [simpl; lia|vm_compute; reflexivity|done|].
  specialize (Hr (fun _ => eq_refl) eq_refl). exists r, m'. split; [exact E|]. split; [exact Hr|].
  destruct (H Hr) as (_ & _ & _ & Hv & Hf & _); [intros [_ Hp]; by apply Hp|]. split; [by apply Hf|exact Hv].
Defined.

Lemma adx_cache_paths_witness :
  adx_cache_find_array_lenght demo_cache 8 = Ok 0 /\ adx_cache_find_array demo_cache 8 0 = Ok 0 /\
  adx_cache_find_args demo_cache 8 [VString (B "a"); VNull] = Ok 0.
Proof.
  destruct demo_cache_ok as [Hm Ha].
  destruct (adx_cache_paths demo_cache 8 blank Hm Ha) as (H1 & H2 & H3 & _). split; [exact H2|]. split; [apply (H3 0)|].
  pose proof (H1 [VString (B "a")] [] ltac:(by repeat constructor)) as Hp. cbn [path_at] in Hp. rewrite Ha in Hp. exact Hp.
Defined.

Lemma adx_cache_import_terminates_witness :
  exists root j' m', adx_json_parse (fun _ => true) (JMem ∅ 0) (Q "{'a':1,'b':[true]}") = Ok (root, j') /\
    adx_cache_from_json (fun _ => true) 3 j' demo_cache 8 root = Ok (0, m') /\ cache_inv m' /\ live m' 8.
Proof.
  destruct demo_cache_ok as [Hm Ha].
  destruct (adx_cache_import_terminates (fun _ => true) demo_cache (JMem ∅ 0) 8
    [(Some (B "a"), JNum (B "1")); (Some (B "b"), JArr [Leaf ADX_JSON_BOOL (B "true")])] 3)
    as (root & j' & m' & H1 & H2 & H3 & _ & H5 & _).
  - intros a n. simpl. by rewrite lookup_empty.
  - cbn -[B]. json_ok.
  - vm_compute. reflexivity.
  - exact Hm.
  - by exists blank.
  - simpl. lia.
  - simpl. lia.
  - exists root, j', m'. split; [exact H1|]. by split.
Defined.
