(* ===== verification/ZplaySha1.v ===== *)
(** SHA-1 as BidCore/common/adx_decode/zplay/hmac_sha1.c computes it, and its
    equivalence with the hash function of FIPS 180.

    [unsigned long int] has 64 bits.  Two expressions rely on the wrapping of
    a signed overflow, [(0x0001 << 31) - 1] in [rotl(1, ..)] and
    [(256*256*256) * message[i]] for bytes above 127; they are given their
    two's-complement value. *)

From Stdlib Require Import ZArith Lia.
From S2P Require Import Prelude.

Open Scope Z_scope.

(** ** The code *)

(** [~x] on [unsigned long]. *)
Definition notl (x : Z) : Z := 18446744073709551615 - x.

Definition ft (t x y z : Z) : cres Z :=
  if decide (t < 20) then
    let a := Z.land x y in
    let b := Z.land (notl x) z in
    mret (Z.lxor a b)
  else if decide (t < 40) then mret (Z.lxor (Z.lxor x y) z)
  else if decide (t < 60) then
    let a := Z.land x y in
    let b := Z.lxor a (Z.land x z) in
    mret (Z.lxor b (Z.land y z))
  else if decide (t < 80) then mret (Z.lxor (Z.lxor x y) z)
  else UB.

Definition k (t : Z) : cres Z :=
  if decide (t < 20) then mret 0x5a827999
  else if decide (t < 40) then mret 0x6ed9eba1
  else if decide (t < 60) then mret 0x8f1bbcdc
  else if decide (t < 80) then mret 0xca62c1d6
  else UB.

(** [(0x0001 << n) - 1] as an [int], converted to [unsigned long]. *)
Definition low_mask (n : Z) : Z := u64 (i32 (i32 (Z.shiftl 1 n) - 1)).

Definition rotr (bits a : Z) : Z :=
  let c := low_mask bits in
  let d := notl c in
  let e := Z.shiftr (Z.land a d) bits in
  let f := u64 (Z.shiftl (Z.land a c) (32 - bits)) in
  Z.land (Z.lor e f) 0xffffffff.

Definition rotl (bits a : Z) : Z :=
  let c := low_mask (32 - bits) in
  let d := notl c in
  let e := u64 (Z.shiftl (Z.land a c) bits) in
  let f := Z.shiftr (Z.land a d) (32 - bits) in
  Z.land (Z.lor e f) 0xffffffff.

(** [for (i = message_length; i < num_blocks*64; i++) message[i] = 0x00;] *)
Fixpoint clear_loop (n : nat) (message : bytes) (i : Z) : cres bytes :=
  match n with
  | O => mret message
  | S n => message ← bset message i 0; clear_loop n message (i + 1)
  end.

(** The schedule; the elements of [w] written so far. *)
Fixpoint schedule_loop (n : nat) (message : bytes) (i : Z) (w : list Z) : cres (list Z) :=
  match n with
  | O => mret w
  | S n =>
      let t := Z.of_nat (length w) in
      x ← (if decide (t < 16) then
             b0 ← bget message (i * 64 + t * 4);
             b1 ← bget message (i * 64 + t * 4 + 1);
             b2 ← bget message (i * 64 + t * 4 + 2);
             b3 ← bget message (i * 64 + t * 4 + 3);
             mret (u32 (u32 (u32 (u32 (i32 (16777216 * b0)) + 65536 * b1) + 256 * b2) + b3))
           else
             w3 ← bget w (t - 3); w8 ← bget w (t - 8); w14 ← bget w (t - 14); w16 ← bget w (t - 16);
             mret (u32 (rotl 1 (Z.lxor (Z.lxor (Z.lxor w3 w8) w14) w16))));
      schedule_loop n message i (w ++ [x])
  end.

Record hash := Hash { ha : Z; hb : Z; hc : Z; hd : Z; he : Z }.

Definition round (w : list Z) (t : Z) (s : hash) : cres hash :=
  f ← ft t (hb s) (hc s) (hd s);
  kt ← k t;
  wt ← bget w t;
  let temp := Z.land (u64 (rotl 5 (ha s) + f)) 0xffffffff in
  let temp := Z.land (u64 (temp + he s)) 0xffffffff in
  let temp := Z.land (u64 (temp + kt)) 0xffffffff in
  let temp := Z.land (u64 (temp + wt)) 0xffffffff in
  mret (Hash temp (ha s) (rotl 30 (hb s)) (hc s) (hd s)).

Fixpoint round_loop (n : nat) (w : list Z) (t : Z) (s : hash) : cres hash :=
  match n with
  | O => mret s
  | S n => s ← round w t s; round_loop n w (t + 1) s
  end.

Definition add_words (x y : Z) : Z := Z.land (u64 (x + y)) 0xffffffff.

Fixpoint block_loop (n : nat) (message : bytes) (i : Z) (h : hash) : cres hash :=
  match n with
  | O => mret h
  | S n =>
      w ← schedule_loop 80 message i [];
      s ← round_loop 80 w 0 h;
      block_loop n message (i + 1)
        (Hash (add_words (ha s) (ha h)) (add_words (hb s) (hb h)) (add_words (hc s) (hc h))
              (add_words (hd s) (hd h)) (add_words (he s) (he h)))
  end.

(** [digest[o+3] = h & 0xff; ... digest[o] = (h >> 24) & 0xff;] *)
Definition put_word (digest : bytes) (o h : Z) : cres bytes :=
  digest ← bset digest (o + 3) (Z.land h 255);
  digest ← bset digest (o + 2) (Z.land (Z.shiftr h 8) 255);
  digest ← bset digest (o + 1) (Z.land (Z.shiftr h 16) 255);
  bset digest o (Z.land (Z.shiftr h 24) 255).

Definition initial : hash := Hash 0x67452301 0xefcdab89 0x98badcfe 0x10325476 0xc3d2e1f0.

(** [message] is the caller's buffer: it is padded in place. *)
Definition sha1 (message : bytes) (message_length : Z) (digest : bytes) : cres (bytes * bytes) :=
  padded_length ← int_ok (message_length + 8);
  padded_length ← int_ok (padded_length + 1);
  l ← int_ok (message_length * 8);
  let l := u64 l in
  let num_blocks := Z.quot padded_length 64 in
  let block_remainder := Z.rem padded_length 64 in
  let num_blocks := if decide (block_remainder > 0) then num_blocks + 1 else num_blocks in
  _ ← int_ok (padded_length + (64 - block_remainder));
  message ← clear_loop (Z.to_nat (num_blocks * 64 - message_length)) message message_length;
  message ← bset message message_length 0x80;
  message ← bset message (num_blocks * 64 - 1) (Z.land l 255);
  message ← bset message (num_blocks * 64 - 2) (Z.land (Z.shiftr l 8) 255);
  message ← bset message (num_blocks * 64 - 3) (Z.land (Z.shiftr l 16) 255);
  message ← bset message (num_blocks * 64 - 4) (Z.land (Z.shiftr l 24) 255);
  h ← block_loop (Z.to_nat num_blocks) message 0 initial;
  digest ← put_word digest 0 (ha h);
  digest ← put_word digest 4 (hb h);
  digest ← put_word digest 8 (hc h);
  digest ← put_word digest 12 (hd h);
  digest ← put_word digest 16 (he h);
  mret (message, digest).

(** ** The standard *)

Module Fips.
Definition w32 (x : Z) : Z := x mod 4294967296.
Definition ROTL (n x : Z) : Z := Z.lor (w32 (Z.shiftl x n)) (Z.shiftr x (32 - n)).
Definition Ch (x y z : Z) : Z := Z.lxor (Z.land x y) (Z.land (4294967295 - x) z).
Definition Parity (x y z : Z) : Z := Z.lxor (Z.lxor x y) z.
Definition Maj (x y z : Z) : Z := Z.lxor (Z.lxor (Z.land x y) (Z.land x z)) (Z.land y z).

Definition F (t : nat) : Z -> Z -> Z -> Z :=
  if decide (t < 20)%nat then Ch else if decide (t < 40)%nat then Parity else if decide (t < 60)%nat then Maj else Parity.
Definition K (t : nat) : Z :=
  if decide (t < 20)%nat then 0x5a827999 else if decide (t < 40)%nat then 0x6ed9eba1
  else if decide (t < 60)%nat then 0x8f1bbcdc else 0xca62c1d6.

(** Big-endian words. *)
Fixpoint be_bytes (n : nat) (x : Z) : bytes :=
  match n with O => [] | S n => be_bytes n (x / 256) ++ [x mod 256] end.
Definition be_value (bs : bytes) : Z := foldl (fun acc b => acc * 256 + b) 0 bs.

(** The padded message: a one bit, zeros, and the length in 64 bits. *)
Definition pad (M : bytes) : bytes :=
  M ++ [128] ++ replicate (Z.to_nat ((55 - Z.of_nat (length M)) mod 64)) 0 ++ be_bytes 8 (8 * Z.of_nat (length M)).

Definition nth_word (M : bytes) (t : nat) : Z := be_value (take 4 (drop (4 * t) M)).

(** The schedule of a block, extended [n] times. *)
Fixpoint W (n : nat) (block : bytes) : list Z :=
  match n with
  | O => map (nth_word block) (seq 0 16)
  | S n =>
      let w := W n block in
      let t := (16 + n)%nat in
      w ++ [ROTL 1 (Z.lxor (Z.lxor (Z.lxor (nth (t - 3) w 0) (nth (t - 8) w 0)) (nth (t - 14) w 0)) (nth (t - 16) w 0))]
  end.

Definition step (w : list Z) (s : hash) (t : nat) : hash :=
  Hash (w32 (ROTL 5 (ha s) + F t (hb s) (hc s) (hd s) + he s + K t + nth t w 0)) (ha s) (ROTL 30 (hb s)) (hc s) (hd s).

Definition compress (h : hash) (block : bytes) : hash :=
  let s := foldl (step (W 64 block)) h (seq 0 80) in
  Hash (w32 (ha s + ha h)) (w32 (hb s + hb h)) (w32 (hc s + hc h)) (w32 (hd s + hd h)) (w32 (he s + he h)).

Definition block (P : bytes) (i : nat) : bytes := take 64 (drop (64 * i) P).

Definition out (h : hash) : bytes :=
  be_bytes 4 (ha h) ++ be_bytes 4 (hb h) ++ be_bytes 4 (hc h) ++ be_bytes 4 (hd h) ++ be_bytes 4 (he h).

Definition SHA1 (M : bytes) : bytes :=
  let P := pad M in out (foldl compress initial (map (block P) (seq 0 (length P / 64)))).
End Fips.

Example sha1_abc :
  Fips.SHA1 (B "abc") = [169; 153; 62; 54; 71; 6; 129; 106; 186; 62; 37; 113; 120; 80; 194; 108; 156; 208; 216; 157].
Proof. vm_compute. reflexivity. Qed.

(** ** Words *)

Definition word (x : Z) : Prop := 0 <= x < 4294967296.

Lemma word_bits x : word x <-> 0 <= x /\ forall n, 32 <= n -> Z.testbit x n = false.
Proof.
  split.
  - intros [H0 H]. split; [done|]. intros n Hn. destruct (decide (x = 0)) as [->|]; [apply Z.bits_0|].
    apply Z.bits_above_log2; [done|]. apply Z.log2_lt_pow2; [lia|]. eapply Z.lt_le_trans; [exact H|].
    change 4294967296 with (2 ^ 32). apply Z.pow_le_mono_r; lia.
  - intros [H0 H]. assert (x = x mod 2 ^ 32) as ->; [|apply Z.mod_pos_bound; lia].
    apply Z.bits_inj'. intros n Hn. destruct (decide (n < 32)); [by rewrite Z.mod_pow2_bits_low by lia|].
    rewrite Z.mod_pow2_bits_high by lia. apply H. lia.
Qed.

Lemma word_op (f : Z -> Z -> Z) (g : bool -> bool -> bool) x y :
  g false false = false -> (forall n, Z.testbit (f x y) n = g (Z.testbit x n) (Z.testbit y n)) -> 0 <= f x y ->
  word x -> word y -> word (f x y).
Proof.
  intros Hg Hf H0 [_ Hx]%word_bits [_ Hy]%word_bits. apply word_bits. split; [done|]. intros n Hn.
  by rewrite Hf, Hx, Hy by done.
Qed.

Lemma word_lor x y : word x -> word y -> word (Z.lor x y).
Proof. intros Hx Hy. eapply (word_op Z.lor orb); try done; [intros; apply Z.lor_spec|]. apply Z.lor_nonneg. split; [apply Hx|apply Hy]. Qed.
Lemma word_lxor x y : word x -> word y -> word (Z.lxor x y).
Proof. intros Hx Hy. eapply (word_op Z.lxor xorb); try done; [intros; apply Z.lxor_spec|]. apply Z.lxor_nonneg. destruct Hx, Hy. lia. Qed.
Lemma word_land x y : word x -> word y -> word (Z.land x y).
Proof. intros Hx Hy. eapply (word_op Z.land andb); try done; [intros; apply Z.land_spec|]. apply Z.land_nonneg. left. apply Hx. Qed.

Lemma w32_word x : word (Fips.w32 x).
Proof. apply Z.mod_pos_bound. lia. Qed.
Lemma w32_id x : word x -> Fips.w32 x = x.
Proof. intros H. by apply Z.mod_small. Qed.
Lemma land_w32 x : Z.land x 0xffffffff = Fips.w32 x.
Proof. apply (Z.land_ones x 32). lia. Qed.
Lemma u32_w32 x : u32 x = Fips.w32 x.
Proof. done. Qed.

(** Additions modulo 2^64, then masked. *)
Lemma w32_u64 x : Fips.w32 (u64 x) = Fips.w32 x.
Proof. unfold Fips.w32, u64. zdiv. Qed.
Lemma w32_add x y : Fips.w32 (Fips.w32 x + y) = Fips.w32 (x + y).
Proof. unfold Fips.w32. by rewrite Z.add_mod_idemp_l. Qed.

Lemma w32_add3 x y z : Fips.w32 (Fips.w32 x + y + z) = Fips.w32 (x + y + z).
Proof. by rewrite <- Z.add_assoc, w32_add, Z.add_assoc. Qed.

Lemma word_not x : word x -> word (4294967295 - x).
Proof. unfold word. lia. Qed.

(** [all - x], with [all] a run of ones, complements the bits. *)
Lemma not_bits x n i : 0 <= n -> 0 <= x < 2 ^ n -> 0 <= i < n -> Z.testbit (Z.ones n - x) i = negb (Z.testbit x i).
Proof.
  intros Hn Hx Hi. rewrite Z.sub_nocarry_ldiff.
  - rewrite Z.ldiff_spec, Z.ones_spec_low by lia. done.
  - rewrite Z.ldiff_ones_r by lia. rewrite Z.shiftr_div_pow2, Z.div_small by lia. apply Z.shiftl_0_l.
Qed.

Lemma land_notl x z : word x -> word z -> Z.land (notl x) z = Z.land (4294967295 - x) z.
Proof.
  intros Hx Hz. unfold notl. change 18446744073709551615 with (Z.ones 64). change 4294967295 with (Z.ones 32).
  apply Z.bits_inj'. intros n Hn. rewrite !Z.land_spec. destruct (decide (n < 32)).
  - rewrite !not_bits by (unfold word in *; lia). done.
  - apply word_bits in Hz as [_ Hz]. rewrite Hz by lia. by rewrite !andb_false_r.
Qed.

Lemma ft_ok (t : nat) x y z : (t < 80)%nat -> word x -> word y -> word z -> ft (Z.of_nat t) x y z = Ok (Fips.F t x y z).
Proof.
  intros Ht Hx Hy Hz. unfold ft, Fips.F.
  destruct (decide (t < 20)%nat), (decide (t < 40)%nat), (decide (t < 60)%nat); repeat case_decide; try lia; try done.
  unfold Fips.Ch. by rewrite land_notl.
Qed.

Lemma k_ok (t : nat) : (t < 80)%nat -> k (Z.of_nat t) = Ok (Fips.K t).
Proof.
  intros Ht. unfold k, Fips.K.
  destruct (decide (t < 20)%nat), (decide (t < 40)%nat), (decide (t < 60)%nat); repeat case_decide; try lia; done.
Qed.

Lemma F_word t x y z : word x -> word y -> word z -> word (Fips.F t x y z).
Proof.
  intros Hx Hy Hz. unfold Fips.F, Fips.Ch, Fips.Parity, Fips.Maj.
  repeat case_decide; auto using word_lxor, word_land, word_not.
Qed.

Lemma ROTL_word n x : 0 <= n <= 32 -> word x -> word (Fips.ROTL n x).
Proof.
  intros Hn Hx. apply word_lor; [apply w32_word|]. rewrite Z.shiftr_div_pow2 by lia. destruct Hx as [H0 H].
  split; [apply Z.div_pos; lia|]. eapply Z.le_lt_trans; [|exact H]. apply Z.div_le_upper_bound; [lia|]. nia.
Qed.

Lemma rotl_ok n x : 0 < n < 32 -> low_mask (32 - n) = Z.ones (32 - n) -> word x -> rotl n x = Fips.ROTL n x.
Proof.
  intros Hn Hm Hx. unfold rotl. rewrite Hm, land_w32. cbv zeta.
  assert (u64 (Z.shiftl (Z.land x (Z.ones (32 - n))) n) = Fips.w32 (Z.shiftl x n)) as ->.
  { rewrite Z.land_ones, !Z.shiftl_mul_pow2 by lia. unfold Fips.w32. change 4294967296 with (2 ^ 32).
    replace (2 ^ 32) with (2 ^ (32 - n) * 2 ^ n) by (rewrite <- Z.pow_add_r by lia; f_equal; lia).
    rewrite Z.mul_mod_distr_r by lia. apply Z.mod_small.
    pose proof (Z.mod_pos_bound x (2 ^ (32 - n)) ltac:(lia)) as Hb.
    assert (2 ^ (32 - n) * 2 ^ n = 2 ^ 32) by (rewrite <- Z.pow_add_r by lia; f_equal; lia). nia. }
  assert (Z.shiftr (Z.land x (notl (Z.ones (32 - n)))) (32 - n) = Z.shiftr x (32 - n)) as ->.
  { apply Z.bits_inj'. intros i Hi. rewrite !Z.shiftr_spec, Z.land_spec by lia. unfold notl.
    change 18446744073709551615 with (Z.ones 64). pose proof Hx as [_ Hb]%word_bits.
    destruct (decide (i + (32 - n) < 32)).
    - rewrite not_bits; [|lia| |lia]. 
      + rewrite Z.ones_spec_high by lia. by rewrite andb_true_r.
      + rewrite Z.ones_equiv. pose proof (Z.pow_pos_nonneg 2 (32 - n)). 
        assert (2 ^ (32 - n) <= 2 ^ 64) by (apply Z.pow_le_mono_r; lia). lia.
    - rewrite Hb by lia. done. }
  apply w32_id. apply (ROTL_word n x); [lia|done].
Qed.

Lemma rotl1 x : word x -> rotl 1 x = Fips.ROTL 1 x.
Proof. by apply rotl_ok. Qed.
Lemma rotl5 x : word x -> rotl 5 x = Fips.ROTL 5 x.
Proof. by apply rotl_ok. Qed.
Lemma rotl30 x : word x -> rotl 30 x = Fips.ROTL 30 x.
Proof. by apply rotl_ok. Qed.

(** ** Rounds *)

Definition words (s : hash) : Prop := word (ha s) /\ word (hb s) /\ word (hc s) /\ word (hd s) /\ word (he s).

Lemma bget_nth (l : list Z) (i : nat) : (i < length l)%nat -> bget l (Z.of_nat i) = Ok (nth i l 0).
Proof.
  intros Hi. unfold bget. rewrite decide_True, Nat2Z.id by lia. destruct (lookup_lt_is_Some_2 l i Hi) as [x Hx].
  rewrite Hx. cbn [of_opt]. by rewrite (nth_lookup_Some _ _ _ _ Hx).
Qed.

Lemma nth_Forall (P : Z -> Prop) l (i : nat) : Forall P l -> (i < length l)%nat -> P (nth i l 0).
Proof.
  intros Hl Hi. destruct (lookup_lt_is_Some_2 l i Hi) as [x Hx]. rewrite (nth_lookup_Some _ _ _ _ Hx).
  eapply Forall_lookup_1; [exact Hl|exact Hx].
Qed.

Lemma round_ok w (t : nat) s : words s -> length w = 80%nat -> (t < 80)%nat ->
  round w (Z.of_nat t) s = Ok (Fips.step w s t) /\ words (Fips.step w s t).
Proof.
  intros (Ha & Hb & Hc & Hd & He) Hlen Ht. unfold round. rewrite ft_ok, k_ok by done. cbn [mbind cres_bind].
  rewrite bget_nth by lia. cbn [mbind cres_bind mret cres_ret]. cbv zeta.
  rewrite !land_w32, rotl5, rotl30 by done. split.
  - do 2 f_equal. unfold Fips.step. repeat (rewrite ?w32_u64, ?w32_add, ?w32_add3). done.
  - split_and!; try done; [apply w32_word|]. simpl. apply ROTL_word; [lia|done].
Qed.

Lemma round_loop_ok w n : length w = 80%nat -> forall (t : nat) s, words s -> (t + n <= 80)%nat ->
  round_loop n w (Z.of_nat t) s = Ok (foldl (Fips.step w) s (seq t n)) /\ words (foldl (Fips.step w) s (seq t n)).
Proof.
  intros Hlen. induction n as [|n IH]; intros t s Hs Ht; [done|]. cbn [round_loop seq foldl].
  destruct (round_ok w t s) as [-> Hs']; [done|done|lia|]. cbn [mbind cres_bind].
  replace (Z.of_nat t + 1) with (Z.of_nat (S t)) by lia. apply IH; [done|lia].
Qed.

(** ** The schedule *)

Lemma take4_nth (l : list Z) (i : nat) : (i + 4 <= length l)%nat ->
  take 4 (drop i l) = [nth i l 0; nth (i + 1) l 0; nth (i + 2) l 0; nth (i + 3) l 0].
Proof.
  revert i. induction l as [|a l IH]; intros i Hi; [simpl in Hi; lia|]. destruct i as [|i].
  - destruct l as [|b [|c [|d l]]]; simpl in Hi; try lia. done.
  - simpl in Hi. cbn [drop]. rewrite (IH i) by lia. done.
Qed.

Lemma W_S n b : Fips.W (S n) b = Fips.W n b ++
  [Fips.ROTL 1 (Z.lxor (Z.lxor (Z.lxor (nth (16 + n - 3) (Fips.W n b) 0) (nth (16 + n - 8) (Fips.W n b) 0))
    (nth (16 + n - 14) (Fips.W n b) 0)) (nth (16 + n - 16) (Fips.W n b) 0))].
Proof. done. Qed.

Lemma W_length n b : length (Fips.W n b) = (16 + n)%nat.
Proof. induction n as [|n IH]; [done|]. cbn [Fips.W]. cbv zeta. rewrite length_app, IH. simpl. lia. Qed.

Lemma W_prefix b m n : (m <= n)%nat -> exists tl, Fips.W n b = Fips.W m b ++ tl.
Proof.
  induction 1 as [|n _ [tl IH]]; [exists []; by rewrite app_nil_r|]. cbn [Fips.W]. cbv zeta.
  rewrite IH. rewrite <- app_assoc. by eexists.
Qed.

Lemma W_nth b m (j : nat) : (m <= 64)%nat -> (j < 16 + m)%nat -> nth j (Fips.W m b) 0 = nth j (Fips.W 64 b) 0.
Proof.
  intros Hm Hj. destruct (W_prefix b m 64 Hm) as [tl ->]. rewrite app_nth1; [done|]. by rewrite W_length.
Qed.

Lemma W_first b (t : nat) : (t < 16)%nat -> nth t (Fips.W 64 b) 0 = Fips.nth_word b t.
Proof.
  intros Ht. rewrite <- (W_nth b 0) by lia. change (Fips.W 0 b) with (map (Fips.nth_word b) (seq 0 16)).
  assert (seq 0 16 !! t = Some t) as Hs by (apply lookup_seq; lia).
  rewrite (nth_lookup_Some _ _ _ (Fips.nth_word b t)); [done|].
  change (map (Fips.nth_word b) (seq 0 16)) with (Fips.nth_word b <$> seq 0 16). by rewrite list_lookup_fmap, Hs.
Qed.

Lemma W_next b (t : nat) : (16 <= t < 80)%nat -> let w := Fips.W 64 b in
  nth t w 0 = Fips.ROTL 1 (Z.lxor (Z.lxor (Z.lxor (nth (t - 3) w 0) (nth (t - 8) w 0)) (nth (t - 14) w 0)) (nth (t - 16) w 0)).
Proof.
  intros Ht w. subst w. rewrite <- (W_nth b (S (t - 16))), W_S by lia.
  rewrite app_nth2 by (rewrite W_length; lia). rewrite W_length. replace (t - (16 + (t - 16)))%nat with 0%nat by lia.
  cbn [nth]. replace (16 + (t - 16))%nat with t by lia.
  by rewrite !(W_nth b (t - 16)) by lia.
Qed.

Lemma be_value4 a b c d : is_byte a -> is_byte b -> is_byte c -> is_byte d ->
  u32 (u32 (u32 (u32 (i32 (16777216 * a)) + 65536 * b) + 256 * c) + d) = Fips.be_value [a; b; c; d] /\ word (Fips.be_value [a; b; c; d]).
Proof.
  unfold is_byte. intros Ha Hb Hc Hd. unfold Fips.be_value, word. cbn [foldl].
  assert (u32 (i32 (16777216 * a)) = 16777216 * a) as ->.
  { unfold u32, i32. zdiv. }
  unfold u32. rewrite (Z.mod_small (16777216 * a + 65536 * b)) by lia.
  rewrite (Z.mod_small (16777216 * a + 65536 * b + 256 * c)), Z.mod_small by lia. lia.
Qed.

Section Block.
Context (message blk : bytes) (i : Z).
Context (Hblk : length blk = 64%nat) (Hbyte : Forall is_byte blk).
Context (Hget : forall j : nat, (j < 64)%nat -> bget message (i * 64 + Z.of_nat j) = Ok (nth j blk 0)).

Lemma nth_word_bytes (t : nat) : (t < 16)%nat -> Fips.nth_word blk t =
  Fips.be_value [nth (4 * t) blk 0; nth (4 * t + 1) blk 0; nth (4 * t + 2) blk 0; nth (4 * t + 3) blk 0].
Proof. intros Ht. unfold Fips.nth_word. by rewrite take4_nth by lia. Qed.

Lemma W_words : Forall word (Fips.W 64 blk).
Proof.
  enough (H : forall n, (n <= 64)%nat -> Forall word (Fips.W n blk)) by (apply H; lia).
  induction n as [|n IH]; intros Hn.
  - cbn [Fips.W]. apply Forall_map. apply Forall_seq. intros t Ht. simpl. rewrite nth_word_bytes by lia.
    apply be_value4; apply (nth_Forall is_byte); try done; lia.
  - cbn [Fips.W]. cbv zeta. specialize (IH ltac:(lia)). apply Forall_app. split; [done|]. apply Forall_singleton.
    apply ROTL_word; [lia|]. repeat apply word_lxor; apply nth_Forall; try done; rewrite W_length; lia.
Qed.

Lemma get_byte (t : nat) o : (t < 16)%nat -> 0 <= o < 4 ->
  bget message (i * 64 + Z.of_nat t * 4 + o) = Ok (nth (4 * t + Z.to_nat o) blk 0).
Proof. intros Ht Ho. rewrite <- Hget by lia. f_equal. lia. Qed.

Lemma schedule_ok n (t : nat) : (t + n = 80)%nat ->
  schedule_loop n message i (take t (Fips.W 64 blk)) = Ok (Fips.W 64 blk).
Proof.
  revert t. induction n as [|n IH]; intros t Ht.
  { cbn [schedule_loop]. rewrite take_ge by (rewrite W_length; lia). done. }
  cbn [schedule_loop]. set (w := Fips.W 64 blk). assert (length w = 80%nat) as Hw by apply W_length.
  assert (length (take t w) = t) as Hl by (rewrite length_take; lia). rewrite Hl. cbv zeta.
  assert (Hprev : forall j, (j < t)%nat -> bget (take t w) (Z.of_nat j) = Ok (nth j w 0)).
  { intros j Hj. rewrite bget_nth by lia. f_equal. by rewrite !nth_lookup, lookup_take_lt. }
  assert (take t w ++ [nth t w 0] = take (S t) w) as Hsnoc.
  { symmetry. apply take_S_r. destruct (lookup_lt_is_Some_2 w t) as [x Hx]; [lia|]. by rewrite (nth_lookup_Some _ _ _ _ Hx). }
  case_decide as Hlt.
  - replace (i * 64 + Z.of_nat t * 4) with (i * 64 + Z.of_nat t * 4 + 0) at 1 by lia.
    rewrite !get_byte by lia. cbn [mbind cres_bind mret cres_ret].
    assert (word (nth t w 0)) by (apply nth_Forall; [apply W_words|lia]).
    subst w. rewrite W_first, nth_word_bytes in * by lia. change (4 * t + Z.to_nat 0)%nat with (4 * t + 0)%nat.
    rewrite Nat.add_0_r. change (Z.to_nat 1) with 1%nat. change (Z.to_nat 2) with 2%nat. change (Z.to_nat 3) with 3%nat.
    destruct (be_value4 (nth (4 * t) blk 0) (nth (4 * t + 1) blk 0) (nth (4 * t + 2) blk 0) (nth (4 * t + 3) blk 0)) as [-> _];
      try (apply (nth_Forall is_byte); [done|lia]).
    rewrite Hsnoc. apply IH. lia.
  - replace (Z.of_nat t - 3) with (Z.of_nat (t - 3)) by lia. replace (Z.of_nat t - 8) with (Z.of_nat (t - 8)) by lia.
    replace (Z.of_nat t - 14) with (Z.of_nat (t - 14)) by lia. replace (Z.of_nat t - 16) with (Z.of_nat (t - 16)) by lia.
    rewrite !Hprev by lia. cbn [mbind cres_bind mret cres_ret].
    assert (forall j, (j < 80)%nat -> word (nth j w 0)) as Hwd by (intros j Hj; apply nth_Forall; [apply W_words|lia]).
    rewrite rotl1 by (repeat apply word_lxor; apply Hwd; lia). 
    pose proof (W_next blk t ltac:(lia)) as Hn. cbv zeta in Hn. fold w in Hn. rewrite <- Hn.
    rewrite u32_w32, w32_id by (apply Hwd; lia). rewrite Hsnoc. apply IH. lia.
Qed.
End Block.

(** ** Padding and blocks *)

Lemma clear_loop_ok l mid tl :
  clear_loop (length mid) (l ++ mid ++ tl) (Z.of_nat (length l)) = Ok (l ++ replicate (length mid) 0 ++ tl).
Proof.
  revert l. induction mid as [|x mid IH]; intros l; [done|]. cbn [length clear_loop app replicate].
  rewrite bset_app by done. cbn [mbind cres_bind].
  replace (Z.of_nat (length l) + 1) with (Z.of_nat (length (l ++ [0]))) by (rewrite length_app; simpl; lia).
  change (l ++ 0 :: mid ++ tl) with (l ++ [0] ++ mid ++ tl). rewrite app_assoc, IH, <- app_assoc. done.
Qed.

Lemma clear_loop_ub n l mid : (length mid < n)%nat -> clear_loop n (l ++ mid) (Z.of_nat (length l)) = UB.
Proof.
  revert n l. induction mid as [|x mid IH]; intros n l Hn; (destruct n as [|n]; [simpl in Hn; lia|]); cbn [clear_loop].
  - unfold bset. rewrite app_nil_r, decide_False by lia. done.
  - rewrite bset_app by done. cbn [mbind cres_bind].
    replace (Z.of_nat (length l) + 1) with (Z.of_nat (length (l ++ [0]))) by (rewrite length_app; simpl; lia).
    change (l ++ 0 :: mid) with (l ++ [0] ++ mid). rewrite app_assoc. apply IH. simpl in Hn. lia.
Qed.

Lemma be_bytes_length n x : length (Fips.be_bytes n x) = n.
Proof. revert x. induction n as [|n IH]; intros x; [done|]. simpl. rewrite length_app, IH. simpl. lia. Qed.

Definition zeros_of (n : nat) : nat := Z.to_nat ((55 - Z.of_nat n) mod 64).

Lemma pad_length M : length (Fips.pad M) = (length M + (9 + zeros_of (length M)))%nat.
Proof. unfold Fips.pad. rewrite !length_app, length_replicate, be_bytes_length. simpl. unfold zeros_of. lia. Qed.

Definition blocks_of (n : nat) : nat := ((n + 9 + zeros_of n) / 64)%nat.

Lemma blocks_64 n : (n + (9 + zeros_of n) = 64 * blocks_of n)%nat.
Proof.
  unfold blocks_of, zeros_of. rewrite (Nat.add_assoc n 9).
  assert (exists q, (n + 9 + Z.to_nat ((55 - Z.of_nat n) mod 64) = q * 64)%nat) as [q ->].
  { exists (Z.to_nat ((Z.of_nat n + 9 + (55 - Z.of_nat n) mod 64) / 64)). zdiv. }
  rewrite Nat.div_mul by lia. lia.
Qed.

(** The number of blocks the code computes. *)
Lemma blocks_code (n : nat) :
  let p := Z.of_nat n + 9 in
  (if decide (Z.rem p 64 > 0) then Z.quot p 64 + 1 else Z.quot p 64) = Z.of_nat (blocks_of n).
Proof.
  pose proof (blocks_64 n) as H. unfold zeros_of in H. cbv zeta.
  rewrite Z.quot_div_nonneg, Z.rem_mod_nonneg by lia. case_decide; zdiv.
Qed.

Lemma length_bytes (l : Z) : 0 <= l < 2147483648 ->
  Fips.be_bytes 8 l = [0; 0; 0; 0; Z.land (Z.shiftr l 24) 255; Z.land (Z.shiftr l 16) 255; Z.land (Z.shiftr l 8) 255; Z.land l 255].
Proof.
  intros Hl. rewrite !land_255, !Z.shiftr_div_pow2 by lia. change (2 ^ 24) with (256 * 256 * 256).
  change (2 ^ 16) with (256 * 256). change (2 ^ 8) with 256. cbn [Fips.be_bytes app].
  rewrite !Z.div_div by lia. cbn [Z.mul Pos.mul].
  repeat (apply f_equal2; [first [done | apply Z.mod_small; zdiv | zdiv]|]). done.
Qed.

Lemma pad_code {A} M tl (z : nat) l (f : bytes -> cres A) : z = zeros_of (length M) -> l = 8 * Z.of_nat (length M) -> l <= 2147483647 ->
  (buf ← bset (M ++ replicate (9 + z) 0 ++ tl) (Z.of_nat (length M)) 0x80;
   buf ← bset buf (Z.of_nat (length M + (9 + z)) - 1) (Z.land l 255);
   buf ← bset buf (Z.of_nat (length M + (9 + z)) - 2) (Z.land (Z.shiftr l 8) 255);
   buf ← bset buf (Z.of_nat (length M + (9 + z)) - 3) (Z.land (Z.shiftr l 16) 255);
   buf ← bset buf (Z.of_nat (length M + (9 + z)) - 4) (Z.land (Z.shiftr l 24) 255); f buf) = f (Fips.pad M ++ tl).
Proof.
  intros Hz Hl Hmax. replace (9 + z)%nat with (1 + (z + (4 + 4)))%nat by lia.
  rewrite !replicate_add. cbn [replicate app].
  rewrite bset_app by done. rewrite ok_bind.
  set (p := M ++ 128 :: replicate z 0 ++ [0; 0; 0; 0]).
  assert (length p = length M + (1 + (z + 4)))%nat as Hp by (subst p; rewrite !length_app; simpl; rewrite length_app, length_replicate; simpl; lia).
  assert (forall a b c d, M ++ 128 :: (replicate z 0 ++ [0; 0; 0; 0; a; b; c; d]) ++ tl = p ++ a :: b :: c :: d :: tl) as E.
  { intros. subst p. rewrite <- !app_assoc. cbn [app]. by rewrite <- !app_assoc. }
  rewrite E.
  assert (forall a b c d, p ++ a :: b :: c :: d :: tl = (p ++ [a]) ++ b :: c :: d :: tl) as E1 by (intros; by rewrite <- app_assoc).
  assert (forall a b c d, p ++ a :: b :: c :: d :: tl = (p ++ [a; b]) ++ c :: d :: tl) as E2 by (intros; by rewrite <- app_assoc).
  assert (forall a b c d, p ++ a :: b :: c :: d :: tl = (p ++ [a; b; c]) ++ d :: tl) as E3 by (intros; by rewrite <- app_assoc).
  rewrite E3, bset_app, <- E3 by (rewrite length_app; simpl; lia). rewrite ok_bind.
  rewrite E2, bset_app, <- E2 by (rewrite length_app; simpl; lia). rewrite ok_bind.
  rewrite E1, bset_app, <- E1 by (rewrite length_app; simpl; lia). rewrite ok_bind.
  rewrite bset_app, ok_bind by lia. f_equal. unfold Fips.pad. rewrite <- Hl, length_bytes by lia. unfold zeros_of in Hz. rewrite <- Hz.
  subst p. rewrite <- !app_assoc. cbn [app]. by rewrite <- !app_assoc.
Qed.

Lemma initial_words : words initial.
Proof. unfold words, word, initial. simpl. lia. Qed.

#[local] Opaque Fips.W schedule_loop round_loop.

Lemma compress_eq h b s : s = foldl (Fips.step (Fips.W 64 b)) h (seq 0 80) ->
  Fips.compress h b = Hash (add_words (ha s) (ha h)) (add_words (hb s) (hb h)) (add_words (hc s) (hc h))
    (add_words (hd s) (hd h)) (add_words (he s) (he h)).
Proof. intros ->. unfold Fips.compress, add_words. by rewrite !land_w32, !w32_u64. Qed.

Lemma compress_words h b : words (Fips.compress h b).
Proof. unfold Fips.compress. cbv zeta. split_and!; apply w32_word. Qed.

Lemma pad_bytes M : Forall is_byte M -> Forall is_byte (Fips.pad M).
Proof.
  intros HM. assert (forall n x, Forall is_byte (Fips.be_bytes n x)) as Hb.
  { induction n as [|n IH]; intros x; [constructor|]. cbn [Fips.be_bytes]. apply Forall_app. split; [done|].
    apply Forall_singleton. apply Z.mod_pos_bound. lia. }
  unfold Fips.pad. rewrite !Forall_app. split_and!; try done; [by apply Forall_singleton|by apply Forall_replicate].
Qed.

Lemma block_nth P i j : (j < 64)%nat -> nth j (Fips.block P i) 0 = nth (64 * i + j) P 0.
Proof. intros Hj. unfold Fips.block. by rewrite !nth_lookup, lookup_take_lt, lookup_drop. Qed.

Lemma block_loop_S n message i h : block_loop (S n) message i h =
  (w ← schedule_loop 80 message i [];
   s ← round_loop 80 w 0 h;
   block_loop n message (i + 1)
     (Hash (add_words (ha s) (ha h)) (add_words (hb s) (hb h)) (add_words (hc s) (hc h))
           (add_words (hd s) (hd h)) (add_words (he s) (he h)))).
Proof. done. Qed.

Lemma schedule_block P tl (i : nat) : Forall is_byte P -> (64 * S i <= length P)%nat ->
  schedule_loop 80 (P ++ tl) (Z.of_nat i) [] = Ok (Fips.W 64 (Fips.block P i)).
Proof.
  intros HP Hn. apply (schedule_ok (P ++ tl) (Fips.block P i) (Z.of_nat i)) with (t := 0%nat).
  - unfold Fips.block. rewrite length_take, length_drop. lia.
  - by apply Forall_take, Forall_drop.
  - intros j Hj. replace (Z.of_nat i * 64 + Z.of_nat j) with (Z.of_nat (64 * i + j)) by lia.
    rewrite bget_nth by (rewrite length_app; lia). rewrite block_nth by done. rewrite app_nth1 by lia. done.
  - done.
Qed.

Lemma rounds_block b h : words h -> round_loop 80 (Fips.W 64 b) 0 h = Ok (foldl (Fips.step (Fips.W 64 b)) h (seq 0 80)).
Proof. intros Hh. apply (round_loop_ok (Fips.W 64 b) 80) with (t := 0%nat); [apply W_length|done|lia]. Qed.

Lemma foldl_seq {A C} (f : A -> C -> A) (g : nat -> C) i n a :
  foldl f a (map g (seq i (S n))) = foldl f (f a (g i)) (map g (seq (S i) n)).
Proof. done. Qed.

Lemma block_loop_ok P tl n : Forall is_byte P -> forall (i : nat) h, words h -> (64 * (i + n) <= length P)%nat ->
  block_loop n (P ++ tl) (Z.of_nat i) h = Ok (foldl Fips.compress h (map (Fips.block P) (seq i n))).
Proof.
  intros HP. induction n as [|n IH]; intros i h Hh Hn; [done|].
  rewrite block_loop_S, schedule_block, ok_bind by (done || lia).
  rewrite rounds_block, ok_bind, <- (compress_eq h _ _ eq_refl) by done.
  replace (Z.of_nat i + 1) with (Z.of_nat (S i)) by lia. rewrite foldl_seq. apply IH; [apply compress_words|lia].
Qed.

(** ** The digest *)

Lemma put_word_ok l m r h : length m = 4%nat ->
  put_word (l ++ m ++ r) (Z.of_nat (length l)) h = Ok (l ++ Fips.be_bytes 4 h ++ r).
Proof.
  destruct m as [|x0 [|x1 [|x2 [|x3 [|? ?]]]]]; try done. intros _. unfold put_word. cbn [app].
  assert (forall a b c d, l ++ a :: b :: c :: d :: r = (l ++ [a]) ++ b :: c :: d :: r) as E1 by (intros; by rewrite <- app_assoc).
  assert (forall a b c d, l ++ a :: b :: c :: d :: r = (l ++ [a; b]) ++ c :: d :: r) as E2 by (intros; by rewrite <- app_assoc).
  assert (forall a b c d, l ++ a :: b :: c :: d :: r = (l ++ [a; b; c]) ++ d :: r) as E3 by (intros; by rewrite <- app_assoc).
  rewrite E3, bset_app, <- E3 by (rewrite length_app; simpl; lia). cbn [mbind cres_bind].
  rewrite E2, bset_app, <- E2 by (rewrite length_app; simpl; lia). cbn [mbind cres_bind].
  rewrite E1, bset_app, <- E1 by (rewrite length_app; simpl; lia). cbn [mbind cres_bind].
  rewrite bset_app by done. cbn [Fips.be_bytes app]. rewrite !land_255, !Z.shiftr_div_pow2 by lia.
  rewrite !Z.div_div by lia. done.
Qed.

Lemma out_length h : length (Fips.out h) = 20%nat.
Proof. unfold Fips.out. by rewrite !length_app, !be_bytes_length. Qed.

(** Writes the next word, at offset [o]. *)
Ltac next_word o L :=
  match goal with |- context [put_word (?l ++ ?a :: ?b :: ?c :: ?d :: ?r) o] =>
    change (l ++ a :: b :: c :: d :: r) with (l ++ [a; b; c; d] ++ r);
    replace o with (Z.of_nat (length l)) at 1 by (by rewrite ?length_app, !L)
  end;
  rewrite put_word_ok, ok_bind by done.

Lemma put_digest_ok {A} h digest (f : bytes -> cres A) : (20 <= length digest)%nat ->
  (digest ← put_word digest 0 (ha h); digest ← put_word digest 4 (hb h); digest ← put_word digest 8 (hc h);
   digest ← put_word digest 12 (hd h); digest ← put_word digest 16 (he h); f digest) = f (Fips.out h ++ drop 20 digest).
Proof.
  intros Hl. do 20 (destruct digest as [|? digest]; [simpl in Hl; lia|]). clear Hl. cbn [drop].
  pose proof (fun x => be_bytes_length 4 x) as L.
  match goal with |- context [put_word (?a :: ?b :: ?c :: ?d :: ?r) 0] =>
    change (a :: b :: c :: d :: r) with ([] ++ [a; b; c; d] ++ r) end.
  rewrite (put_word_ok []), ok_bind by done. cbn [app].
  next_word 4 L. rewrite app_assoc. next_word 8 L. rewrite app_assoc. next_word 12 L. rewrite app_assoc.
  next_word 16 L. unfold Fips.out. by rewrite <- !app_assoc.
Qed.

(** C30: SHA-1.  For every message of bytes shorter than 2^28 bytes, in a
    buffer [M ++ rest] and with room for the digest, the function computes the
    hash FIPS 180 defines, writing the padding after the message and nothing
    beyond it; in a buffer that has no room for the padding it writes outside
    it. *)
Theorem sha1_is_fips (M rest digest : bytes) :
  Forall is_byte M -> 8 * Z.of_nat (length M) <= 2147483647 -> (20 <= length digest)%nat ->
  sha1 (M ++ rest) (Z.of_nat (length M)) digest =
    if decide (length (Fips.pad M) <= length (M ++ rest))%nat
    then Ok (Fips.pad M ++ drop (length (Fips.pad M) - length M) rest, Fips.SHA1 M ++ drop 20 digest)
    else UB.
Proof.
  intros HM Hmax Hd. unfold sha1. rewrite (int_ok_in (_ + 8)), ok_bind by lia.
  rewrite (int_ok_in (_ + 1)), ok_bind by lia. rewrite (int_ok_in (_ * 8)), ok_bind by lia.
  replace (Z.of_nat (length M) + 8 + 1) with (Z.of_nat (length M) + 9) by lia. cbv zeta.
  rewrite blocks_code, int_ok_in, ok_bind by (pose proof (Z.rem_bound_pos (Z.of_nat (length M) + 9) 64); lia).
  pose proof (blocks_64 (length M)) as Hb. pose proof (pad_length M) as Hpl. rewrite Hpl, length_app.
  replace (Z.to_nat (Z.of_nat (blocks_of (length M)) * 64 - Z.of_nat (length M))) with (9 + zeros_of (length M))%nat by lia.
  set (z := zeros_of (length M)) in *. case_decide as Hroom; cycle 1.
  { rewrite clear_loop_ub by lia. done. }
  replace (length M + (9 + z) - length M)%nat with (9 + z)%nat by lia.
  rewrite <- (take_drop (9 + z) rest) at 1. set (tl := drop (9 + z) rest).
  assert (length (take (9 + z) rest) = (9 + z)%nat) as Hmid by (rewrite length_take; lia).
  rewrite <- Hmid at 1. rewrite clear_loop_ok, Hmid, ok_bind.
  assert (u64 (Z.of_nat (length M) * 8) = 8 * Z.of_nat (length M)) as -> by (unfold u64; rewrite Z.mod_small; lia).
  replace (Z.of_nat (blocks_of (length M)) * 64) with (Z.of_nat (length M + (9 + z))) by lia.
  rewrite pad_code by done.
  pose proof (block_loop_ok (Fips.pad M) tl (blocks_of (length M)) (pad_bytes M HM) 0 initial initial_words ltac:(lia)) as Hbl.
  change (Z.of_nat 0) with 0 in Hbl. rewrite Nat2Z.id, Hbl, ok_bind, put_digest_ok by done.
  unfold Fips.SHA1. cbv zeta. rewrite Hpl, Hb, (Nat.mul_comm 64), Nat.div_mul by lia. done.
Qed.

Lemma sha1_is_fips_witness :
  sha1 (B "abc" ++ replicate 61 7) 3 (replicate 20 0) =
    Ok (Fips.pad (B "abc"), [169; 153; 62; 54; 71; 6; 129; 106; 186; 62; 37; 113; 120; 80; 194; 108; 156; 208; 216; 157]) /\
  sha1 (B "abc" ++ replicate 60 7) 3 (replicate 20 0) = UB.
Proof.
  assert (Forall is_byte (B "abc")) as Hb by (repeat constructor; vm_compute; done).
  split.
  - etransitivity; [apply (sha1_is_fips (B "abc") (replicate 61 7) (replicate 20 0) Hb); simpl; lia|].
    rewrite decide_True by (simpl; lia). rewrite sha1_abc. reflexivity.
  - etransitivity; [apply (sha1_is_fips (B "abc") (replicate 60 7) (replicate 20 0) Hb); simpl; lia|].
    rewrite decide_False by (simpl; lia). reflexivity.
Defined.
