(* ===== verification/ZplayHmac.v ===== *)
(** HMAC-SHA-1 as BidCore/common/adx_decode/zplay/hmac_sha1.c computes it.

    [sha1] pads its message in place, so every array it is given needs room
    for the padding.  The array of step 8 is declared with the 84 bytes of its
    contents; [hmac_sha1] takes the number of writable bytes there as its
    first argument, 84 in the source. *)

From Stdlib Require Import ZArith Lia.
From S2P Require Import Prelude ZplaySha1.

Open Scope Z_scope.

Definition MAX_MESSAGE_LENGTH : nat := 4096.

(** [for (i = ..; n times; i++) dst[i + off] = g(i);] *)
Fixpoint fill (n : nat) (i off : Z) (g : Z -> cres Z) (dst : bytes) : cres bytes :=
  match n with
  | O => mret dst
  | S n => v ← g i; dst ← bset dst (i + off) v; fill n (i + 1) off g dst
  end.

(** Steps 1 to 3: the key, padded or hashed, in [k0]. *)
Definition block_key (key : bytes) (key_length : Z) (digest k0 : bytes) : cres (bytes * bytes * bytes) :=
  if decide (key_length ≠ 64) then
    if decide (key_length > 64) then
      '(key, digest) ← sha1 key key_length digest;
      k0 ← fill 20 0 0 (bget digest) k0;
      mret (key, digest, k0)
    else if decide (key_length < 64) then
      k0 ← fill (Z.to_nat key_length) 0 0 (bget key) k0;
      mret (key, digest, k0)
    else mret (key, digest, k0)
  else
    k0 ← fill 64 0 0 (bget key) k0;
    mret (key, digest, k0).

Definition xor_with (pad : Z) (k0 : bytes) (i : Z) : cres Z := v ← bget k0 i; mret (u8 (Z.lxor v pad)).

(** The local arrays are written before they are read; their first contents
    are immaterial. *)
Definition array (n : nat) : bytes := replicate n 0.

Definition hmac_sha1 (room8 : nat) (key : bytes) (key_length : Z) (data : bytes) (data_length : Z) (digest : bytes)
    : cres (bytes * bytes) :=
  k0 ← fill 64 0 0 (fun _ => mret 0) (array 64);
  '(key, digest, k0) ← block_key key key_length digest k0;
  k0xorIpad ← fill 64 0 0 (xor_with 0x36 k0) (array 64);
  step5data ← fill 64 0 0 (bget k0xorIpad) (array (MAX_MESSAGE_LENGTH + 128));
  step5data ← fill (Z.to_nat data_length) 0 64 (bget data) step5data;
  len ← int_ok (data_length + 64);
  '(_, digest) ← sha1 step5data len digest;
  step7data ← fill 64 0 0 (xor_with 0x5c k0) (array 64);
  step8data ← fill 64 0 0 (bget step7data) (array room8);
  step8data ← fill 20 0 64 (bget digest) step8data;
  '(_, digest) ← sha1 step8data (64 + 20) digest;
  mret (key, digest).

(** ** The standard (RFC 2104) *)

Definition key_block (K : bytes) : bytes :=
  let K := if decide (length K <= 64)%nat then K else Fips.SHA1 K in K ++ replicate (64 - length K) 0.
Definition HMAC (K M : bytes) : bytes :=
  Fips.SHA1 (map (Z.lxor 0x5c) (key_block K) ++ Fips.SHA1 (map (Z.lxor 0x36) (key_block K) ++ M)).

(** RFC 2202, test case 2. *)
Example hmac_jefe : HMAC (B "Jefe") (B "what do ya want for nothing?") =
  [239; 252; 223; 106; 229; 235; 47; 162; 210; 116; 22; 213; 241; 132; 223; 156; 37; 154; 124; 121].
Proof. vm_compute. reflexivity. Qed.

(** ** Lemmas *)

Lemma fill_ok (g : Z -> cres Z) off tl vs : forall i l mid,
  Z.of_nat (length l) = i + off -> length mid = length vs ->
  (forall j v, vs !! j = Some v -> g (i + Z.of_nat j) = Ok v) ->
  fill (length vs) i off g (l ++ mid ++ tl) = Ok (l ++ vs ++ tl).
Proof.
  induction vs as [|v vs IH]; intros i l mid Hl Hmid Hg; [by destruct mid|].
  destruct mid as [|x mid]; [done|]. cbn [length fill app].
  pose proof (Hg 0%nat v eq_refl) as H0. rewrite Z.add_0_r in H0. rewrite H0, ok_bind, bset_app, ok_bind by lia.
  change (l ++ v :: mid ++ tl) with (l ++ [v] ++ mid ++ tl). rewrite app_assoc.
  rewrite (IH (i + 1)); [by rewrite <- app_assoc|rewrite length_app; simpl; lia|simpl in Hmid; lia|].
  intros j w Hj. rewrite <- (Hg (S j) w Hj). f_equal. lia.
Qed.

(** A whole array, or a prefix of it. *)
Lemma fill0_ok (g : Z -> cres Z) dst vs n : n = length vs ->
  (n <= length dst)%nat -> (forall j v, vs !! j = Some v -> g (Z.of_nat j) = Ok v) ->
  fill n 0 0 g dst = Ok (vs ++ drop n dst).
Proof.
  intros -> Hl Hg. rewrite <- (take_drop (length vs) dst) at 1.
  apply (fill_ok g 0 (drop (length vs) dst) vs 0 []); [done|rewrite length_take; lia|exact Hg].
Qed.

Lemma bget_lookup l (j : nat) v : l !! j = Some v -> bget l (Z.of_nat j) = Ok v.
Proof. intros H. unfold bget. by rewrite decide_True, Nat2Z.id, H by lia. Qed.

Lemma bget_prefix l r (j : nat) v : l !! j = Some v -> bget (l ++ r) (Z.of_nat j) = Ok v.
Proof. intros H. apply bget_lookup. by apply lookup_app_l_Some. Qed.

Lemma xor_byte x p : is_byte x -> is_byte p -> is_byte (Z.lxor p x) /\ u8 (Z.lxor x p) = Z.lxor p x.
Proof.
  intros Hx Hp. assert (is_byte (Z.lxor p x)) as H; [|split; [done|unfold u8; rewrite Z.lxor_comm; apply Z.mod_small, H]].
  unfold is_byte in *. split; [apply Z.lxor_nonneg; lia|].
  destruct (decide (Z.lxor p x = 0)) as [->|]; [lia|]. assert (0 <= Z.lxor p x) by (apply Z.lxor_nonneg; lia).
  apply (Z.log2_lt_pow2 _ 8); [lia|]. eapply Z.le_lt_trans; [apply Z.log2_lxor; lia|].
  assert (forall y, 0 <= y < 256 -> Z.log2 y < 8) as Hlog; [|apply Z.max_lub_lt; by apply Hlog].
  intros y Hy. destruct (decide (y = 0)) as [->|]; [done|]. apply Z.log2_lt_pow2; lia.
Qed.

Lemma xor_with_ok p l (j : nat) v : is_byte p -> Forall is_byte l -> map (Z.lxor p) l !! j = Some v -> xor_with p l (Z.of_nat j) = Ok v.
Proof.
  intros Hp Hl Hv. change (map (Z.lxor p) l) with (Z.lxor p <$> l) in Hv. apply list_lookup_fmap_Some in Hv as (x & -> & Hx).
  unfold xor_with. rewrite (bget_lookup _ _ _ Hx), ok_bind.
  destruct (xor_byte x p) as [_ ->]; [by eapply Forall_lookup_1|done|done].
Qed.

Lemma xor_bytes_ok p l : is_byte p -> Forall is_byte l -> Forall is_byte (map (Z.lxor p) l).
Proof.
  intros Hp Hl. apply Forall_map. eapply Forall_impl; [exact Hl|]. intros x Hx. simpl. by apply xor_byte.
Qed.

Lemma be_bytes_byte n x : Forall is_byte (Fips.be_bytes n x).
Proof.
  revert x. induction n as [|n IH]; intros x; [constructor|]. cbn [Fips.be_bytes]. apply Forall_app. split; [done|].
  apply Forall_singleton. apply Z.mod_pos_bound. lia.
Qed.

Lemma SHA1_length M : length (Fips.SHA1 M) = 20%nat.
Proof. apply out_length. Qed.
Lemma SHA1_bytes M : Forall is_byte (Fips.SHA1 M).
Proof. unfold Fips.SHA1, Fips.out. cbv zeta. rewrite !Forall_app. split_and!; apply be_bytes_byte. Qed.

#[local] Opaque Fips.SHA1 fill sha1 Fips.pad.

Lemma key_block_length K : length (key_block K) = 64%nat.
Proof.
  unfold key_block. cbv zeta. rewrite length_app, length_replicate. case_decide; [lia|rewrite SHA1_length; lia].
Qed.
Lemma key_block_bytes K : Forall is_byte K -> Forall is_byte (key_block K).
Proof.
  intros HK. unfold key_block. cbv zeta. apply Forall_app. split; [case_decide; [done|apply SHA1_bytes]|].
  by apply Forall_replicate.
Qed.

Definition in_room (K rest : bytes) : Prop := (length K <= 64 \/ length (Fips.pad K) <= length (K ++ rest))%nat.

(** The key as step 3 leaves it; a long one has been padded in place. *)
Lemma block_key_ok K rest digest : Forall is_byte K -> 8 * Z.of_nat (length K) <= 2147483647 -> (20 <= length digest)%nat ->
  in_room K rest ->
  exists key' digest', block_key (K ++ rest) (Z.of_nat (length K)) digest (array 64) = Ok (key', digest', key_block K) /\
    length digest' = length digest /\ drop 20 digest' = drop 20 digest /\ ((length K <= 64)%nat -> key' = K ++ rest /\ digest' = digest).
Proof.
  intros HK Hmax Hd Hroom. unfold block_key, key_block. cbv zeta.
  assert (length (array 64) = 64%nat) as Ha by done.
  assert (forall n : nat, (n <= 64)%nat -> drop n (array 64) = replicate (64 - n) 0) as Hdr
    by (intros n Hn; unfold array; by rewrite drop_replicate).
  destruct (decide (length K <= 64)%nat) as [Hle|Hgt].
  - exists (K ++ rest), digest. split; [|by split_and!].
    assert (fill (length K) 0 0 (bget (K ++ rest)) (array 64) = Ok (K ++ replicate (64 - length K) 0)) as E.
    { rewrite (fill0_ok _ _ K), Hdr by (done || lia || (intros j v Hj; by apply bget_prefix)). done. }
    case_decide as H1.
    + rewrite decide_False, decide_True, Nat2Z.id, E by lia. done.
    + replace 64%nat with (length K) at 1 by lia. by rewrite E.
  - rewrite decide_True, decide_True by lia. rewrite sha1_is_fips by done.
    rewrite decide_True by (destruct Hroom; [lia|done]). rewrite ok_bind.
    pose proof (SHA1_length K) as HL.
    rewrite (fill0_ok _ _ (Fips.SHA1 K)), ok_bind, Hdr by (done || lia || (intros j v Hj; by apply bget_prefix)).
    rewrite HL. eexists _, _. split; [done|]. split; [rewrite length_app, SHA1_length, length_drop; lia|]. split; [|lia].
    by rewrite <- HL, drop_app_length.
Qed.

Lemma drop_array n m : (n <= m)%nat -> drop n (array m) = array (m - n).
Proof. intros H. unfold array. by rewrite drop_replicate. Qed.

Lemma pad_room n : (n <= 4096)%nat -> (64 + n + (9 + zeros_of (64 + n)) <= 4224)%nat.
Proof. intros Hn. pose proof (blocks_64 (64 + n)) as H. assert (zeros_of (64 + n) < 64)%nat by (unfold zeros_of; zdiv). lia. Qed.

Lemma fill64_ok (g : Z -> cres Z) vs room : length vs = 64%nat -> (64 <= room)%nat ->
  (forall j v, vs !! j = Some v -> g (Z.of_nat j) = Ok v) -> fill 64 0 0 g (array room) = Ok (vs ++ array (room - 64)).
Proof.
  intros Hl Hr Hg. rewrite (fill0_ok _ _ vs), drop_array by (done || (unfold array; rewrite length_replicate; lia)). done.
Qed.

Lemma fill_after (g : Z -> cres Z) l room vs n : length l = 64%nat -> n = length vs -> (64 + n <= room)%nat ->
  (forall j v, vs !! j = Some v -> g (Z.of_nat j) = Ok v) ->
  fill n 0 64 g (l ++ array (room - 64)) = Ok ((l ++ vs) ++ array (room - 64 - n)).
Proof.
  intros Hl -> Hr Hg. rewrite <- (take_drop (length vs) (array (room - 64))), drop_array, <- app_assoc by lia.
  apply fill_ok; [lia|unfold array; rewrite length_take, length_replicate; lia|exact Hg].
Qed.

(** C31: HMAC-SHA-1.  For every key and every message of at most 4096 bytes
    the function computes the keyed hash of RFC 2104 if the array of step 8
    has room for the padding [sha1] writes, 128 bytes; with the 84 bytes the
    source gives it, every call writes outside the array. *)
Theorem hmac_sha1_is_rfc2104 (K krest M drest digest : bytes) (room8 : nat) :
  Forall is_byte K -> Forall is_byte M -> 8 * Z.of_nat (length K) <= 2147483647 -> in_room K krest ->
  (length M <= MAX_MESSAGE_LENGTH)%nat -> (20 <= length digest)%nat -> (84 <= room8)%nat ->
  exists key', ((length K <= 64)%nat -> key' = K ++ krest) /\
    hmac_sha1 room8 (K ++ krest) (Z.of_nat (length K)) (M ++ drest) (Z.of_nat (length M)) digest =
      if decide (128 <= room8)%nat then Ok (key', HMAC K M ++ drop 20 digest) else UB.
Proof.
  intros HK HM Hkmax Hroom Hlen Hd H8. unfold MAX_MESSAGE_LENGTH in Hlen. unfold hmac_sha1.
  rewrite (fill64_ok _ (replicate 64 0)), ok_bind by (done || (intros j v [-> _]%lookup_replicate; done)).
  change (replicate 64 0 ++ array (64 - 64)) with (array 64).
  destruct (block_key_ok K krest digest HK Hkmax Hd Hroom) as (key' & digest' & -> & Hd' & Hdrop & Hshort).
  rewrite ok_bind. set (k0 := key_block K).
  assert (length k0 = 64%nat) as Hk0 by apply key_block_length.
  assert (Forall is_byte k0) as Hb0 by (by apply key_block_bytes).
  assert (is_byte 0x36 /\ is_byte 0x5c) as [H36 H5c] by (unfold is_byte; lia).
  set (ik := map (Z.lxor 0x36) k0). set (ok := map (Z.lxor 0x5c) k0).
  assert (length ik = 64%nat /\ length ok = 64%nat) as [Hik Hok] by (unfold ik, ok; by rewrite !length_map).
  rewrite (fill64_ok (xor_with 0x36 k0) ik), ok_bind by (done || (intros j v; by apply xor_with_ok)).
  change (array (64 - 64)) with (@nil Z). rewrite app_nil_r.
  rewrite (fill64_ok (bget ik) ik), ok_bind by (done || (unfold MAX_MESSAGE_LENGTH; lia) || (intros j v; apply bget_lookup)).
  rewrite Nat2Z.id.
  rewrite (fill_after _ _ _ M), ok_bind by (done || (unfold MAX_MESSAGE_LENGTH; lia) || (intros j v; apply bget_prefix)).
  rewrite int_ok_in, ok_bind by lia.
  assert (length (ik ++ M) = 64 + length M)%nat as HL by (rewrite length_app; lia).
  replace (Z.of_nat (length M) + 64) with (Z.of_nat (length (ik ++ M))) by lia.
  rewrite sha1_is_fips; [|apply Forall_app; split; [by apply xor_bytes_ok|done]|lia|lia].
  rewrite decide_True.
  2:{ rewrite pad_length, HL, length_app, HL. unfold array, MAX_MESSAGE_LENGTH. rewrite length_replicate.
      pose proof (pad_room (length M) Hlen). lia. }
  rewrite ok_bind. set (inner := Fips.SHA1 (ik ++ M)).
  assert (length inner = 20%nat) as Hin by apply SHA1_length.
  rewrite (fill64_ok (xor_with 0x5c k0) ok), ok_bind by (done || (intros j v; by apply xor_with_ok)).
  change (array (64 - 64)) with (@nil Z). rewrite app_nil_r.
  rewrite (fill64_ok (bget ok) ok), ok_bind by (done || lia || (intros j v; apply bget_lookup)).
  rewrite (fill_after _ _ _ inner), ok_bind by (done || lia || (intros j v; apply bget_prefix)).
  assert (length (ok ++ inner) = 84%nat) as HL2 by (rewrite length_app; lia).
  replace (64 + 20) with (Z.of_nat (length (ok ++ inner))) by lia.
  exists key'. split; [intros Hs; by apply Hshort|].
  rewrite sha1_is_fips; [|apply Forall_app; split; [by apply xor_bytes_ok|apply SHA1_bytes]|lia|].
  2:{ rewrite length_app, length_drop. lia. }
  assert (length (Fips.pad (ok ++ inner)) = 128%nat) as HP by (rewrite pad_length, HL2; done).
  assert (length (array (room8 - 64 - 20)) = (room8 - 84)%nat) as HA by (unfold array; rewrite length_replicate; lia).
  rewrite HP, length_app, HL2, HA. destruct (decide (128 <= room8)%nat) as [Hr|Hr].
  - rewrite decide_True by lia. rewrite ok_bind. do 2 f_equal. unfold HMAC. fold k0 ik ok inner. f_equal.
    by rewrite <- Hin, drop_app_length, Hin, Hdrop.
  - rewrite decide_False by lia. done.
Qed.

Lemma hmac_sha1_is_rfc2104_witness : exists key',
  hmac_sha1 128 (B "Jefe") 4 (B "what do ya want for nothing?") 28 (replicate 20 0) =
    Ok (key', [239; 252; 223; 106; 229; 235; 47; 162; 210; 116; 22; 213; 241; 132; 223; 156; 37; 154; 124; 121]) /\
  hmac_sha1 84 (B "Jefe") 4 (B "what do ya want for nothing?") 28 (replicate 20 0) = UB.
Proof.
  assert (Forall is_byte (B "Jefe") /\ Forall is_byte (B "what do ya want for nothing?")) as [HK HM]
    by (split; apply (bool_decide_unpack _); vm_compute; exact I).
  assert (in_room (B "Jefe") []) as Hr by (left; vm_compute; lia).
  destruct (hmac_sha1_is_rfc2104 (B "Jefe") [] (B "what do ya want for nothing?") [] (replicate 20 0) 128 HK HM) as (key' & _ & E);
    [vm_compute; congruence|exact Hr|vm_compute; lia|simpl; lia|lia|].
  destruct (hmac_sha1_is_rfc2104 (B "Jefe") [] (B "what do ya want for nothing?") [] (replicate 20 0) 84 HK HM) as (key'' & _ & E');
    [vm_compute; congruence|exact Hr|vm_compute; lia|simpl; lia|lia|].
  rewrite !app_nil_r in E, E'. exists key'. rewrite decide_True in E by lia. rewrite decide_False in E' by lia.
  rewrite hmac_jefe in E. split; [exact E|exact E'].
Defined.
