(* ===== verification/ZplayPrice.v ===== *)
(** Decoding of the Zplay winning price:
    BidCore/common/adx_decode/zplay/base64.c, hex.c and decode.c.

    [malloc] is refused for the n-th call when [ao n] is false; the calls of a
    function are numbered from the [n] it is given.  A source string is the
    array of its bytes, terminator included. *)

From Stdlib Require Import ZArith Lia.
From S2P Require Import Prelude ZplaySha1 ZplayHmac.

Open Scope Z_scope.

(** ** base64.c *)

Definition BLOCK_BYTE : Z := 3.
Definition BLOCK_CHAR : Z := 4.
Definition BASE64_LINE_LEN : Z := 76.
Definition NEWLINE_LEN : Z := 2.
Definition digits64 : bytes := B "ABCDEFGHIJKLMNOPQRSTUVWXYZabcdefghijklmnopqrstuvwxyz0123456789+/".
Definition newline : bytes := [13; 10].
Definition padding : Z := 61.

(** [strchr] finds the terminator too. *)
Fixpoint strchr (s : bytes) (ch i : Z) : option Z :=
  match s with
  | [] => if decide (ch = 0) then Some i else None
  | c :: s => if decide (c = ch) then Some i else strchr s ch (i + 1)
  end.

(** [None] is [(size_t)-1]. *)
Definition digit_value (ch : Z) : option Z :=
  if decide (ch = padding) then Some 0 else strchr digits64 ch 0.

Definition check_append_newline (dst : bytes) (e : Z) : cres (bytes * Z) :=
  if decide ((e + 1) mod BASE64_LINE_LEN = 0) then
    dst ← bwrite dst e newline;
    mret (dst, e + NEWLINE_LEN)
  else mret (dst, e).

Definition put (dst : bytes) (e : Z) (c : cres Z) : cres (bytes * Z) :=
  c ← c; dst ← bset dst e c; mret (dst, e + 1).

Definition digit (i : Z) : cres Z := bget (digits64 ++ [0]) i.

Definition convert_block (dst : bytes) (e : Z) (src : bytes) (n : Z) : cres (bytes * Z) :=
  if decide (n = 3) then
    s0 ← bget src 0; s1 ← bget src 1; s2 ← bget src 2;
    '(dst, e) ← put dst e (digit (Z.shiftr s0 2));
    '(dst, e) ← put dst e (digit (Z.lor (Z.shiftl (Z.land s0 3) 4) (Z.shiftr s1 4)));
    '(dst, e) ← put dst e (digit (Z.lor (Z.shiftl (Z.land s1 15) 2) (Z.shiftr s2 6)));
    put dst e (digit (Z.land s2 63))
  else if decide (n = 2) then
    s0 ← bget src 0; s1 ← bget src 1;
    '(dst, e) ← put dst e (digit (Z.shiftr s0 2));
    '(dst, e) ← put dst e (digit (Z.lor (Z.shiftl (Z.land s0 3) 4) (Z.shiftr s1 4)));
    '(dst, e) ← put dst e (digit (Z.shiftl (Z.land s1 15) 2));
    put dst e (mret padding)
  else if decide (n = 1) then
    s0 ← bget src 0;
    '(dst, e) ← put dst e (digit (Z.shiftr s0 2));
    '(dst, e) ← put dst e (digit (Z.shiftl (Z.land s0 3) 4));
    '(dst, e) ← put dst e (mret padding);
    put dst e (mret padding)
  else mret (dst, e).

Fixpoint encode_loop (full_blocks : nat) (dst : bytes) (e : Z) (src : bytes) : cres (bytes * Z * bytes) :=
  match full_blocks with
  | O => mret (dst, e, src)
  | S n =>
      '(dst, e) ← check_append_newline dst e;
      '(dst, e) ← convert_block dst e src BLOCK_BYTE;
      encode_loop n dst e (drop 3 src)
  end.

Section Malloc.
Context (ao : nat -> bool).

(** The block, zeroed here: every byte read has been written before. *)
Definition malloc (n : nat) (size : Z) : option bytes * nat :=
  (if ao n then Some (replicate (Z.to_nat size) 0) else None, S n).

Definition encode_base64 (n : nat) (src : bytes) (len : Z) : cres (option bytes * nat) :=
  let partial_block_bytes := len mod BLOCK_BYTE in
  let full_blocks := len / BLOCK_BYTE in
  let '(dst, n) := malloc n ((full_blocks + 1) * BLOCK_CHAR + 1) in
  match dst with
  | None => mret (None, n)
  | Some dst =>
      '(dst, e, rest) ← encode_loop (Z.to_nat full_blocks) dst 0 src;
      '(dst, e) ← check_append_newline dst e;
      '(dst, e) ← convert_block dst e rest partial_block_bytes;
      dst ← bset dst e 0;
      mret (Some dst, n)
  end.

(** One turn decodes four characters; [src] is what remains of the array. *)
Fixpoint decode_loop (fuel : nat) (src dst : bytes) (n : Z) : cres (option (bytes * Z)) :=
  match fuel with
  | O => NoFuel
  | S fuel =>
      c ← of_opt (head src);
      if decide (c = 0) then mret (Some (dst, n)) else
      (if decide (c = 13) then
         c ← of_opt (head (tail src));
         if decide (c ≠ 10) then mret None else mret (Some (drop 2 src))
       else mret (Some src)) ≫= fun o =>
      match o with
      | None => mret None
      | Some src =>
          c0 ← bget src 0; c1 ← bget src 1; c2 ← bget src 2; c3 ← bget src 3;
          match digit_value c0, digit_value c1, digit_value c2, digit_value c3 with
          | Some e0, Some e1, Some e2, Some e3 =>
              let b0 := u8 (Z.shiftl e0 2 + Z.shiftr (Z.land e1 48) 4) in
              let b1 := u8 (Z.shiftl (Z.land e1 15) 4 + Z.shiftr (Z.land e2 60) 2) in
              let b2 := u8 (Z.shiftl (Z.land e2 3) 6 + e3) in
              dst ← bset dst n b0; dst ← bset dst (n + 1) b1; dst ← bset dst (n + 2) b2;
              decode_loop fuel (drop 4 src) dst (n + 3)
          | _, _, _, _ => mret None
          end
      end
  end.

Definition decode_base64 (fuel n : nat) (src : bytes) : cres (option (bytes * Z) * nat) :=
  s ← cstr src;
  let len := Z.of_nat (length s) in
  if decide (len mod BLOCK_CHAR ≠ 0) then mret (None, n) else
  let '(dst, n) := malloc n (len + 1) in
  match dst with
  | None => mret (None, n)
  | Some dst => r ← decode_loop fuel src dst 0; mret (r, n)
  end.

(** The characters of the URL alphabet, and [=] after the end. *)
Definition url_char (s : bytes) (i : nat) : Z :=
  match s !! i with
  | Some c => if decide (c = 45) then 43 else if decide (c = 95) then 47 else c
  | None => 61
  end.

Definition base64url_decode (fuel n : nat) (src : bytes) : cres (option bytes * nat) :=
  s ← cstr src;
  let l := Z.of_nat (length s) in
  let len := (l + 4 - l mod 4) + 1 in
  let '(base64Str, n) := malloc n len in
  match base64Str with
  | None => mret (None, n)
  | Some base64Str =>
      _ ← int_ok (len - 1);
      base64Str ← fill (Z.to_nat (len - 1)) 0 0 (fun i => mret (url_char s (Z.to_nat i))) base64Str;
      base64Str ← bset base64Str (len - 1) 0;
      '(enc, n) ← decode_base64 fuel n base64Str;
      match enc with
      | None => mret (None, n)
      | Some (enc, k) =>
          let '(ret, n) := malloc n (k + 1) in
          match ret with
          | None => mret (None, n)
          | Some ret =>
              ret ← fill (Z.to_nat k) 0 0 (bget enc) ret;
              ret ← bset ret k 0;
              mret (Some ret, n)
          end
      end
  end.

(** ** hex.c *)

Definition hex2num (c : Z) : Z :=
  if decide (48 <= c <= 57) then c - 48
  else if decide (97 <= c <= 122) then c - 97 + 10
  else if decide (65 <= c <= 90) then c - 65 + 10
  else 48.

Definition hex_byte (s : bytes) (i : Z) : cres Z :=
  x ← bget s (i * 2); y ← bget s (i * 2 + 1);
  mret (u8 (Z.lor (Z.shiftl (u8 (hex2num x)) 4) (u8 (hex2num y)))).

Definition hex (n : nat) (str : option bytes) : cres (option (bytes * Z) * nat) :=
  match str with
  | None => mret (None, n)
  | Some str =>
      s ← cstr str;
      let strSize := Z.of_nat (length s) in
      if decide (strSize mod 2 = 1 ∨ strSize = 0) then mret (None, n) else
      let '(result, n) := malloc n (strSize / 2 + 1) in
      match result with
      | None => mret (None, n)
      | Some result =>
          result ← fill (Z.to_nat (strSize / 2)) 0 0 (hex_byte s) result;
          result ← bset result (strSize / 2) 0;
          mret (Some (result, strSize / 2), n)
      end
  end.

(** ** decode.c *)

Definition TIME_STAMP_LEN : nat := 4.
Definition ENC_PRICE_LEN : nat := 8.
Definition SIG_LEN : nat := 4.

Definition xor_bytes (n : nat) (b1 b2 : bytes) (len : nat) : cres (option bytes * nat) :=
  let '(ret, n) := malloc n (Z.of_nat len) in
  match ret with
  | None => mret (None, n)
  | Some ret =>
      ret ← fill len 0 0 (fun i => x ← bget b1 i; y ← bget b2 i; mret (u8 (Z.lxor x y))) ret;
      mret (Some ret, n)
  end.

(** The eight bytes of a [double]. *)
Definition zero_price : bytes := replicate 8 0.

(** [room8]: see [hmac_sha1].  The cleanup at [exit] frees what was allocated. *)
Definition price_decode (room8 fuel n : nat) (dec_key sign_key src : bytes) : cres (bytes * nat) :=
  '(q, n) ← base64url_decode fuel n src;
  match q with
  | None => mret (zero_price, n)
  | Some q =>
      let '(time_ms_stamp_bytes, n) := malloc n (Z.of_nat TIME_STAMP_LEN) in
      match time_ms_stamp_bytes with None => mret (zero_price, n) | Some time_ms_stamp_bytes =>
      let '(enc_price, n) := malloc n (Z.of_nat ENC_PRICE_LEN) in
      match enc_price with None => mret (zero_price, n) | Some enc_price =>
      let '(sig, n) := malloc n (Z.of_nat SIG_LEN) in
      match sig with None => mret (zero_price, n) | Some sig =>
      time_ms_stamp_bytes ← fill TIME_STAMP_LEN 0 0 (bget q) time_ms_stamp_bytes;
      enc_price ← fill ENC_PRICE_LEN 0 0 (fun i => bget q (i + 4)) enc_price;
      sig ← fill SIG_LEN 0 0 (fun i => bget q (i + 12)) sig;
      '(dec_key_bytes, n) ← hex n (Some dec_key);
      match dec_key_bytes with None => mret (zero_price, n) | Some (dec_key_bytes, dec_key_len) =>
      '(_, pad) ← hmac_sha1 room8 dec_key_bytes dec_key_len time_ms_stamp_bytes (Z.of_nat TIME_STAMP_LEN) (array 20);
      '(dec_price, n) ← xor_bytes n pad enc_price 8;
      mret (default zero_price dec_price, n)
      end end end end
  end.

(** [*price == 0]: both zeros of the format. *)
Definition is_zero (price : bytes) : bool :=
  bool_decide (price = zero_price) || bool_decide (price = replicate 7 0 ++ [128]).

Definition dec_key_text : bytes := B "3895185f372f4bba9a594fd65e5205f2" ++ [0].
Definition sign_key_text : bytes := B "da2d9026aa90400cbc9c4db053e65b82" ++ [0].

Definition DecodeWinningPrice (room8 fuel n : nat) (source : bytes) : cres (Z * bytes * nat) :=
  '(price, n) ← price_decode room8 fuel n dec_key_text sign_key_text source;
  mret (if is_zero price then 1 else 0, price, n).
End Malloc.

(** ** The text of an encoding *)

Definition d64 (i : Z) : Z := nth (Z.to_nat i) digits64 0.

Fixpoint enc64 (s : bytes) : bytes :=
  match s with
  | a :: b :: c :: s =>
      d64 (a / 4) :: d64 (a mod 4 * 16 + b / 16) :: d64 (b mod 16 * 4 + c / 64) :: d64 (c mod 64) :: enc64 s
  | [a; b] => [d64 (a / 4); d64 (a mod 4 * 16 + b / 16); d64 (b mod 16 * 4); padding]
  | [a] => [d64 (a / 4); d64 (a mod 4 * 16); padding; padding]
  | [] => []
  end.

(** Induction by groups of three. *)
Lemma groups_ind (P : bytes -> Prop) :
  P [] -> (forall a, P [a]) -> (forall a b, P [a; b]) -> (forall a b c s, P s -> P (a :: b :: c :: s)) -> forall s, P s.
Proof.
  intros H0 H1 H2 H3 s. enough (P s /\ forall a, P (a :: s) /\ forall b, P (a :: b :: s)) as [? _] by done.
  induction s as [|c s (IH & IH')]; [naive_solver|]. split; [apply IH'|]. intros a. split; [apply IH'|]. auto.
Qed.

#[global] Instance cres_eq_dec {A} `{EqDecision A} : EqDecision (cres A).
Proof. solve_decision. Defined.

Definition d64_ok (i : Z) : bool :=
  bool_decide (digit i = Ok (d64 i)) && bool_decide (digit_value (d64 i) = Some i) && bool_decide (d64 i ≠ 0 /\ d64 i ≠ 13).

Lemma d64_spec i : 0 <= i < 64 -> digit i = Ok (d64 i) /\ digit_value (d64 i) = Some i /\ d64 i ≠ 0 /\ d64 i ≠ 13.
Proof.
  intros Hi. assert (Forall (fun i => d64_ok i = true) (map Z.of_nat (seq 0 64))) as H
    by (apply (bool_decide_unpack _); vm_compute; exact I).
  rewrite Forall_forall in H. specialize (H i). unfold d64_ok in H.
  rewrite !andb_true_iff, !bool_decide_eq_true in H. destruct H as [[? ?] [? ?]]; [|done].
  apply list_elem_of_fmap. exists (Z.to_nat i). split; [lia|]. apply elem_of_seq. lia.
Qed.

Lemma digit_ok i : 0 <= i < 64 -> digit i = Ok (d64 i).
Proof. intros Hi. by apply d64_spec. Qed.

(** ** Encoding *)

Lemma put_char_ok l x r e v : e = Z.of_nat (length l) -> put (l ++ x :: r) e (Ok v) = Ok (l ++ [v] ++ r, e + 1).
Proof. intros ->. unfold put. rewrite ok_bind, bset_app by done. done. Qed.

Lemma put4_ok l r e v0 v1 v2 v3 m : e = Z.of_nat (length l) -> (4 <= m)%nat ->
  ('(dst, e) ← put (l ++ replicate m 0 ++ r) e (Ok v0); '(dst, e) ← put dst e (Ok v1); '(dst, e) ← put dst e (Ok v2);
   put dst e (Ok v3)) = Ok ((l ++ [v0; v1; v2; v3]) ++ replicate (m - 4) 0 ++ r, e + 4).
Proof.
  intros He Hm. do 4 (destruct m as [|m]; [lia|]). replace (S (S (S (S m))) - 4)%nat with m by lia. cbn [replicate app].
  rewrite put_char_ok, ok_bind by done.
  rewrite (app_assoc l [v0]), put_char_ok, ok_bind by (rewrite length_app; simpl; lia).
  rewrite (app_assoc (l ++ [v0])), put_char_ok, ok_bind by (rewrite !length_app; simpl; lia).
  rewrite (app_assoc ((l ++ [v0]) ++ [v1])), put_char_ok by (rewrite !length_app; simpl; lia).
  do 2 f_equal; [|lia]. by rewrite <- !app_assoc.
Qed.

Lemma no_newline dst e : e mod 4 = 0 -> check_append_newline dst e = Ok (dst, e).
Proof. intros He. unfold check_append_newline, BASE64_LINE_LEN. rewrite decide_False; [done|]. zdiv. Qed.

Lemma six s0 s1 m k : is_byte s1 -> 0 <= m -> 0 <= k <= 8 ->
  Z.lor (Z.shiftl (Z.land s0 (Z.ones m)) k) (Z.shiftr s1 (8 - k)) = s0 mod 2 ^ m * 2 ^ k + s1 / 2 ^ (8 - k).
Proof.
  intros H1 Hm Hk. rewrite Z.land_ones, (Z.shiftr_div_pow2 s1) by lia. rewrite lor_shiftl; [done|lia|].
  unfold is_byte in *. split; [apply Z.div_pos; lia|]. apply Z.div_lt_upper_bound; [lia|].
  rewrite <- Z.pow_add_r by lia. replace (8 - k + k) with 8 by lia. lia.
Qed.

Lemma lor_2_4 s0 s1 : is_byte s1 -> Z.lor (Z.shiftl (Z.land s0 3) 4) (Z.shiftr s1 4) = s0 mod 4 * 16 + s1 / 16.
Proof. intros H. by apply (six s0 s1 2 4). Qed.
Lemma lor_4_2 s0 s1 : is_byte s1 -> Z.lor (Z.shiftl (Z.land s0 15) 2) (Z.shiftr s1 6) = s0 mod 16 * 4 + s1 / 64.
Proof. intros H. by apply (six s0 s1 4 2). Qed.
Lemma shift_2_4 s0 : Z.shiftl (Z.land s0 3) 4 = s0 mod 4 * 16.
Proof. change 3 with (Z.ones 2). rewrite Z.land_ones, Z.shiftl_mul_pow2 by lia. done. Qed.
Lemma shift_4_2 s0 : Z.shiftl (Z.land s0 15) 2 = s0 mod 16 * 4.
Proof. change 15 with (Z.ones 4). rewrite Z.land_ones, Z.shiftl_mul_pow2 by lia. done. Qed.

(** One block, of one to three bytes. *)
Lemma convert_block_ok l r e m s rest n :
  Forall is_byte s -> n = Z.of_nat (length s) -> (length s <= 3)%nat -> e = Z.of_nat (length l) -> (4 <= m)%nat ->
  convert_block (l ++ replicate m 0 ++ r) e (s ++ rest) n =
  Ok ((l ++ enc64 s) ++ replicate (m - length (enc64 s)) 0 ++ r, e + Z.of_nat (length (enc64 s))).
Proof.
  intros Hs -> Hn He Hm. destruct s as [|a [|b [|c [|? ?]]]]; try (simpl in Hn; lia); unfold convert_block;
    rewrite ?Forall_cons in Hs; cbn [length enc64].
  - repeat (rewrite decide_False by (simpl; lia)). cbn [app]. rewrite Nat.sub_0_r, app_nil_r, Z.add_0_r. done.
  - destruct Hs as [Ha _]. unfold is_byte in Ha.
    rewrite (decide_False (P := Z.of_nat 1 = 3)), (decide_False (P := Z.of_nat 1 = 2)), decide_True by lia.
    change (bget ([a] ++ rest) 0) with (Ok a). rewrite ok_bind.
    rewrite shift_2_4, Z.shiftr_div_pow2, !digit_ok by zdiv. by apply put4_ok.
  - destruct Hs as (Ha & Hb & _). rewrite (decide_False (P := Z.of_nat 2 = 3)), decide_True by lia.
    change (bget ([a; b] ++ rest) 0) with (Ok a). change (bget ([a; b] ++ rest) 1) with (Ok b). rewrite !ok_bind.
    rewrite lor_2_4, shift_4_2, Z.shiftr_div_pow2 by (done || lia). unfold is_byte in *.
    rewrite !digit_ok by zdiv. by apply put4_ok.
  - destruct Hs as (Ha & Hb & Hc & _). rewrite decide_True by lia.
    change (bget ([a; b; c] ++ rest) 0) with (Ok a). change (bget ([a; b; c] ++ rest) 1) with (Ok b).
    change (bget ([a; b; c] ++ rest) 2) with (Ok c). rewrite !ok_bind.
    rewrite lor_2_4, lor_4_2, land_63, Z.shiftr_div_pow2 by (done || lia). unfold is_byte in *.
    rewrite !digit_ok by zdiv. by apply put4_ok.
Qed.

Lemma enc64_length s : (length (enc64 s) = 4 * ((length s + 2) / 3))%nat.
Proof.
  induction s as [| | |a b c s IH] using groups_ind; [done..|]. cbn [enc64 length]. rewrite IH.
  replace (S (S (S (length s))) + 2)%nat with (1 * 3 + (length s + 2))%nat by lia. rewrite Nat.div_add_l by lia. lia.
Qed.

Lemma encode_loop_ok n rest r : forall p l m, Forall is_byte p -> length p = (3 * n)%nat -> (4 * n <= m)%nat ->
  Z.of_nat (length l) mod 4 = 0 ->
  encode_loop n (l ++ replicate m 0 ++ r) (Z.of_nat (length l)) (p ++ rest) =
    Ok ((l ++ enc64 p) ++ replicate (m - 4 * n) 0 ++ r, Z.of_nat (length (l ++ enc64 p)), rest).
Proof.
  induction n as [|n IH]; intros p l m Hs Hl Hm He.
  { destruct p; [|simpl in Hl; lia]. cbn [encode_loop Nat.mul enc64]. by rewrite app_nil_r, Nat.sub_0_r. }
  destruct p as [|a [|b [|c p]]]; try (simpl in Hl; lia). cbn [encode_loop]. rewrite no_newline, ok_bind by done.
  change ((a :: b :: c :: p) ++ rest) with ([a; b; c] ++ p ++ rest).
  change (a :: b :: c :: p) with ([a; b; c] ++ p) in *. apply Forall_app in Hs as [H3 Hs].
  rewrite convert_block_ok, ok_bind by (done || lia).
  assert (length (enc64 [a; b; c]) = 4%nat) as L4 by done. rewrite L4.
  change (drop 3 ([a; b; c] ++ p ++ rest)) with (p ++ rest).
  replace (Z.of_nat (length l) + Z.of_nat 4) with (Z.of_nat (length (l ++ enc64 [a; b; c]))) by (rewrite length_app, L4; lia).
  rewrite IH; [|done|simpl in Hl; lia|lia|rewrite length_app, L4; zdiv].
  change (enc64 ([a; b; c] ++ p)) with (enc64 [a; b; c] ++ enc64 p). rewrite <- !app_assoc.
  by replace (m - 4 * S n)%nat with (m - 4 - 4 * n)%nat by lia.
Qed.

Lemma enc64_app n : forall p t, length p = (3 * n)%nat -> enc64 (p ++ t) = enc64 p ++ enc64 t.
Proof.
  induction n as [|n IH]; intros p t Hp; [by destruct p|].
  destruct p as [|a [|b [|c p]]]; try (simpl in Hp; lia). cbn [app enc64]. rewrite (IH p t); [done|simpl in Hp; lia].
Qed.

Lemma split_blocks (s : bytes) : exists p t, s = p ++ t /\ exists q, length p = (3 * q)%nat /\ (length t < 3)%nat.
Proof.
  exists (take (3 * (length s / 3)) s), (drop (3 * (length s / 3)) s). split; [by rewrite take_drop|].
  exists (length s / 3)%nat. pose proof (Nat.div_mod (length s) 3 ltac:(lia)).
  pose proof (Nat.mod_upper_bound (length s) 3 ltac:(lia)). rewrite length_take, length_drop. lia.
Qed.

Lemma encode_base64_ok ao n s rest : Forall is_byte s ->
  exists r, encode_base64 ao n (s ++ rest) (Z.of_nat (length s)) = Ok (r, S n) /\
    if ao n then exists tail, r = Some (enc64 s ++ 0 :: tail) else r = None.
Proof.
  intros Hs. unfold encode_base64, malloc, BLOCK_BYTE, BLOCK_CHAR. cbv zeta. destruct (ao n); [|by eexists].
  destruct (split_blocks s) as (p & t & -> & q & Lp & Ltt). apply Forall_app in Hs as [Hp Ht].
  assert (Z.of_nat (length (p ++ t)) / 3 = Z.of_nat q) as -> by (rewrite length_app; zdiv).
  replace (Z.to_nat ((Z.of_nat q + 1) * 4 + 1)) with ((4 * q + 4) + 1)%nat by lia. rewrite Nat2Z.id, replicate_add.
  rewrite <- app_assoc. rewrite length_app in *.
  pose proof (encode_loop_ok q (t ++ rest) (replicate 1 0) p [] (4 * q + 4) Hp Lp) as He. cbn [app length] in He.
  change (Z.of_nat 0) with 0 in He.
  rewrite He, ok_bind by (done || lia). pose proof (enc64_length p) as Le.
  assert (length (enc64 p) = 4 * q)%nat as Lq.
  { rewrite Le, Lp. replace (3 * q + 2)%nat with (q * 3 + 2)%nat by lia. rewrite Nat.div_add_l by lia. simpl. lia. }
  rewrite no_newline, ok_bind by (rewrite Lq; zdiv). replace (4 * q + 4 - 4 * q)%nat with 4%nat by lia.
  rewrite convert_block_ok; [|done|zdiv|lia|done|lia].
  rewrite ok_bind, <- (enc64_app q) by done.
  assert (length (enc64 (p ++ t)) = 4 * q + length (enc64 t))%nat as L by (rewrite (enc64_app q), length_app by done; lia).
  assert (length (enc64 t) <= 4)%nat by (rewrite enc64_length; assert ((length t + 2) / 3 < 2)%nat by (apply Nat.Div0.div_lt_upper_bound; lia); lia).
  replace (Z.of_nat (length (enc64 p)) + Z.of_nat (length (enc64 t))) with (Z.of_nat (length (enc64 (p ++ t)))) by lia.
  destruct (4 - length (enc64 t))%nat as [|k] eqn:Ek; cbn [replicate app]; rewrite bset_app, ok_bind by done; eexists; (split; [done|]); by eexists.
Qed.

(** ** Decoding *)

Definition group (e0 e1 e2 e3 : Z) : bytes :=
  [u8 (e0 * 4 + e1 / 16 mod 4); u8 (e1 mod 16 * 16 + e2 / 4 mod 16); u8 (e2 mod 4 * 64 + e3)].

Lemma mask_shift x k m : 0 <= k -> 0 <= m -> Z.shiftr (Z.land x (Z.shiftl (Z.ones m) k)) k = x / 2 ^ k mod 2 ^ m.
Proof.
  intros Hk Hm. rewrite Z.shiftr_land, Z.shiftr_shiftl_l, Z.sub_diag, Z.shiftl_0_r by lia.
  by rewrite Z.land_ones, Z.shiftr_div_pow2 by lia.
Qed.

Lemma decode_turn fuel c0 c1 c2 c3 src l x y z r e0 e1 e2 e3 :
  c0 ≠ 0 -> c0 ≠ 13 -> digit_value c0 = Some e0 -> digit_value c1 = Some e1 -> digit_value c2 = Some e2 -> digit_value c3 = Some e3 ->
  decode_loop (S fuel) (c0 :: c1 :: c2 :: c3 :: src) (l ++ x :: y :: z :: r) (Z.of_nat (length l)) =
  decode_loop fuel src ((l ++ group e0 e1 e2 e3) ++ r) (Z.of_nat (length l) + 3).
Proof.
  intros H0 H13 E0 E1 E2 E3. cbn [decode_loop head of_opt]. rewrite ok_bind, decide_False, decide_False by done.
  change (mret (Some (c0 :: c1 :: c2 :: c3 :: src)) : cres (option bytes)) with (Ok (Some (c0 :: c1 :: c2 :: c3 :: src))).
  rewrite ok_bind. change (bget (c0 :: c1 :: c2 :: c3 :: src) 0) with (Ok c0).
  change (bget (c0 :: c1 :: c2 :: c3 :: src) 1) with (Ok c1). change (bget (c0 :: c1 :: c2 :: c3 :: src) 2) with (Ok c2).
  change (bget (c0 :: c1 :: c2 :: c3 :: src) 3) with (Ok c3). rewrite !ok_bind, E0, E1, E2, E3. cbv zeta.
  assert (Z.shiftr (Z.land e1 48) 4 = e1 / 16 mod 4) as -> by exact (mask_shift e1 4 2 ltac:(lia) ltac:(lia)).
  assert (Z.shiftr (Z.land e2 60) 2 = e2 / 4 mod 16) as -> by exact (mask_shift e2 2 4 ltac:(lia) ltac:(lia)).
  assert (Z.land e2 3 = e2 mod 4) as -> by exact (Z.land_ones e2 2 ltac:(lia)).
  rewrite land_15, !Z.shiftl_mul_pow2 by lia.
  rewrite bset_app, ok_bind by done.
  match goal with |- context [bset (l ++ ?v :: y :: z :: r)] =>
    change (l ++ v :: y :: z :: r) with (l ++ [v] ++ y :: z :: r) end.
  rewrite app_assoc, bset_app, ok_bind by (rewrite length_app; simpl; lia).
  match goal with |- context [bset ((l ++ ?u) ++ ?v :: z :: r)] =>
    change ((l ++ u) ++ v :: z :: r) with ((l ++ u) ++ [v] ++ z :: r) end.
  rewrite app_assoc, bset_app, ok_bind by (rewrite !length_app; simpl; lia).
  cbn [drop]. f_equal. unfold group. by rewrite <- !app_assoc.
Qed.

Definition pad3 (s : bytes) : bytes := s ++ replicate ((3 - length s mod 3) mod 3) 0.

Lemma pad3_cons a b c s : pad3 (a :: b :: c :: s) = a :: b :: c :: pad3 s.
Proof.
  unfold pad3. cbn [app length]. replace (S (S (S (length s)))) with (length s + 1 * 3)%nat by lia. by rewrite Nat.Div0.mod_add.
Qed.

Lemma padding_value : digit_value padding = Some 0.
Proof. done. Qed.

(** The groups of an encoding, decoded from the start of the source. *)
Lemma decode_enc s rest : Forall is_byte s -> exists g, (g <= length (enc64 s))%nat /\
  forall fuel l m r, (length (pad3 s) <= m)%nat ->
  decode_loop (g + fuel) (enc64 s ++ rest) (l ++ replicate m 0 ++ r) (Z.of_nat (length l)) =
  decode_loop fuel rest ((l ++ pad3 s) ++ replicate (m - length (pad3 s)) 0 ++ r) (Z.of_nat (length (l ++ pad3 s))).
Proof.
  assert (forall a b, is_byte a -> is_byte b -> 0 <= a / 4 < 64 /\ 0 <= a mod 4 * 16 + b / 16 < 64 /\
    0 <= a mod 4 * 16 < 64 /\ 0 <= a mod 16 * 4 < 64 /\ 0 <= a mod 16 * 4 + b / 64 < 64 /\ 0 <= a mod 64 < 64) as Hr
    by (unfold is_byte; intros; zdiv).
  assert (forall a b c, is_byte a -> is_byte b -> is_byte c ->
    group (a / 4) (a mod 4 * 16 + b / 16) (b mod 16 * 4 + c / 64) (c mod 64) = [a; b; c]) as Hg.
  { unfold is_byte, group, u8. intros. repeat f_equal; zdiv. }
  assert (is_byte 0) as Hz by (unfold is_byte; lia).
  induction s as [|a|a b|a b c s IH] using groups_ind; intros Hs; rewrite ?Forall_cons in Hs.
  - exists 0%nat. split; [simpl; lia|]. intros fuel l m r _. cbn [enc64 app]. unfold pad3.
    change (length (([] : bytes) ++ replicate ((3 - length [] mod 3) mod 3) 0)) with 0%nat.
    change (([] : bytes) ++ replicate ((3 - length [] mod 3) mod 3) 0) with (@nil Z). by rewrite app_nil_r, Nat.sub_0_r.
  - exists 1%nat. split; [simpl; lia|]. destruct Hs as [Ha _]. intros fuel l m r Hm. change (pad3 [a]) with [a; 0; 0] in *.
    cbn [length] in Hm. do 3 (destruct m as [|m]; [lia|]). cbn [enc64 app replicate plus].
    destruct (Hr a 0 Ha Hz) as (H1 & _ & H2 & _). destruct (d64_spec _ H1) as (_ & D1 & N1 & N2). destruct (d64_spec _ H2) as (_ & D2 & _).
    erewrite decode_turn by (exact D1 || exact D2 || exact padding_value || done).
    pose proof (Hg a 0 0 Ha Hz Hz) as E. replace (a mod 4 * 16 + 0 / 16) with (a mod 4 * 16) in E by (rewrite Z.add_0_r; done).
    change (0 mod 16 * 4 + 0 / 64) with 0 in E. change (0 mod 64) with 0 in E. rewrite E.
    rewrite length_app. cbn [length]. replace (S (S (S m)) - 3)%nat with m by lia. f_equal. lia.
  - exists 1%nat. split; [simpl; lia|]. destruct Hs as (Ha & Hb & _). intros fuel l m r Hm. change (pad3 [a; b]) with [a; b; 0] in *.
    cbn [length] in Hm. do 3 (destruct m as [|m]; [lia|]). cbn [enc64 app replicate plus].
    destruct (Hr a b Ha Hb) as (H1 & H2 & _). destruct (Hr b 0 Hb Hz) as (_ & _ & _ & H3 & _).
    destruct (d64_spec _ H1) as (_ & D1 & N1 & N2). destruct (d64_spec _ H2) as (_ & D2 & _). destruct (d64_spec _ H3) as (_ & D3 & _).
    erewrite decode_turn by (exact D1 || exact D2 || exact D3 || exact padding_value || done).
    pose proof (Hg a b 0 Ha Hb Hz) as E. replace (b mod 16 * 4 + 0 / 64) with (b mod 16 * 4) in E by (rewrite Z.add_0_r; done).
    change (0 mod 64) with 0 in E. rewrite E. rewrite length_app. cbn [length]. replace (S (S (S m)) - 3)%nat with m by lia. f_equal. lia.
  - destruct Hs as (Ha & Hb & Hc & Hs). destruct (IH Hs) as (g & Hgl & Hd). exists (S g). split; [simpl; lia|].
    intros fuel l m r Hm. rewrite pad3_cons in *. cbn [length] in Hm. do 3 (destruct m as [|m]; [lia|]). cbn [enc64 app replicate plus].
    destruct (Hr a b Ha Hb) as (H1 & H2 & _). destruct (Hr b c Hb Hc) as (_ & _ & _ & _ & H3 & _). destruct (Hr c 0 Hc Hz) as (_ & _ & _ & _ & _ & H4).
    destruct (d64_spec _ H1) as (_ & D1 & N1 & N2). destruct (d64_spec _ H2) as (_ & D2 & _). destruct (d64_spec _ H3) as (_ & D3 & _).
    destruct (d64_spec _ H4) as (_ & D4 & _).
    erewrite decode_turn by (exact D1 || exact D2 || exact D3 || exact D4 || done). rewrite Hg by done.
    replace (Z.of_nat (length l) + 3) with (Z.of_nat (length (l ++ [a; b; c]))) by (rewrite length_app; simpl; lia).
    rewrite Hd by lia. rewrite <- !app_assoc. cbn [app length]. done.
Qed.

Lemma d64_plain i : 0 <= i < 64 -> d64 i ≠ 0 /\ d64 i ≠ 45 /\ d64 i ≠ 95 /\ d64 i ≠ 61.
Proof.
  intros Hi. assert (Forall (fun i => d64 i ≠ 0 /\ d64 i ≠ 45 /\ d64 i ≠ 95 /\ d64 i ≠ 61) (map Z.of_nat (seq 0 64))) as H
    by (apply (bool_decide_unpack _); vm_compute; exact I).
  rewrite Forall_forall in H. apply H. apply list_elem_of_fmap. exists (Z.to_nat i). split; [lia|]. apply elem_of_seq. lia.
Qed.

(** The text without its padding. *)
Definition body64 (s : bytes) : bytes := filter (fun c => c ≠ 61) (enc64 s).

Lemma body64_spec s : Forall is_byte s ->
  Forall (fun c => c ≠ 0 /\ c ≠ 45 /\ c ≠ 95) (body64 s) /\
  enc64 s = body64 s ++ replicate ((3 - length s mod 3) mod 3) 61.
Proof.
  assert (forall a b, is_byte a -> is_byte b -> 0 <= a / 4 < 64 /\ 0 <= a mod 4 * 16 + b / 16 < 64 /\
    0 <= a mod 4 * 16 < 64 /\ 0 <= a mod 16 * 4 < 64 /\ 0 <= a mod 16 * 4 + b / 64 < 64 /\ 0 <= a mod 64 < 64) as Hr
    by (unfold is_byte; intros; zdiv).
  assert (is_byte 0) as Hz by (unfold is_byte; lia). unfold body64.
  induction s as [|a|a b|a b c s IH] using groups_ind; intros Hs; rewrite ?Forall_cons in Hs; cbn [enc64].
  - split; [constructor|done].
  - destruct Hs as [Ha _]. destruct (Hr a 0 Ha Hz) as (H1 & _ & H2 & _).
    pose proof (d64_plain _ H1) as (? & ? & ? & ?). pose proof (d64_plain _ H2) as (? & ? & ? & ?).
    rewrite !filter_cons, filter_nil. rewrite !(decide_True (P := d64 _ ≠ 61)), !decide_False by (done || (intros H'; by apply H')).
    split; [by repeat constructor|done].
  - destruct Hs as (Ha & Hb & _). destruct (Hr a b Ha Hb) as (H1 & H2 & _). destruct (Hr b 0 Hb Hz) as (_ & _ & _ & H3 & _).
    pose proof (d64_plain _ H1) as (? & ? & ? & ?). pose proof (d64_plain _ H2) as (? & ? & ? & ?). pose proof (d64_plain _ H3) as (? & ? & ? & ?).
    rewrite !filter_cons, filter_nil. rewrite !(decide_True (P := d64 _ ≠ 61)), !decide_False by (done || (intros H'; by apply H')).
    split; [by repeat constructor|done].
  - destruct Hs as (Ha & Hb & Hc & Hs). destruct (IH Hs) as [IH1 IH2].
    destruct (Hr a b Ha Hb) as (H1 & H2 & _). destruct (Hr b c Hb Hc) as (_ & _ & _ & _ & H3 & _). destruct (Hr c 0 Hc Hz) as (_ & _ & _ & _ & _ & H4).
    pose proof (d64_plain _ H1) as (? & ? & ? & ?). pose proof (d64_plain _ H2) as (? & ? & ? & ?).
    pose proof (d64_plain _ H3) as (? & ? & ? & ?). pose proof (d64_plain _ H4) as (? & ? & ? & ?).
    rewrite !filter_cons. rewrite !(decide_True (P := d64 _ ≠ 61)) by done. split; [by repeat constructor|].
    cbn [length]. replace (S (S (S (length s)))) with (length s + 1 * 3)%nat by lia. rewrite Nat.Div0.mod_add.
    cbn [app]. by rewrite <- IH2.
Qed.

Lemma pad3_length s : (length (pad3 s) = 3 * ((length s + 2) / 3))%nat.
Proof.
  induction s as [| | |a b c s IH] using groups_ind; [done..|]. rewrite pad3_cons. cbn [length]. rewrite IH.
  replace (S (S (S (length s))) + 2)%nat with (1 * 3 + (length s + 2))%nat by lia. rewrite Nat.div_add_l by lia. lia.
Qed.

Lemma enc64_no_nul s : Forall is_byte s -> no_nul (enc64 s).
Proof.
  intros Hs. destruct (body64_spec s Hs) as [H ->]. apply Forall_app. split; [eapply Forall_impl; [exact H|]; naive_solver|].
  by apply Forall_replicate.
Qed.

Lemma body64_length s : Forall is_byte s -> (length (body64 s) = length s + (length s + 2) / 3)%nat.
Proof.
  intros Hs. pose proof (enc64_length s) as H. destruct (body64_spec s Hs) as [_ E]. rewrite E, length_app, length_replicate in H.
  clear E. apply (f_equal Z.of_nat) in H. rewrite Nat2Z.inj_add, Nat2Z.inj_mul, Nat2Z.inj_div, Nat2Z.inj_mod, Nat2Z.inj_add in H.
  rewrite Nat2Z.inj_sub in H by (pose proof (Nat.mod_upper_bound (length s) 3); lia). rewrite Nat2Z.inj_mod in H.
  apply Nat2Z.inj. rewrite Nat2Z.inj_add, Nat2Z.inj_div, Nat2Z.inj_add. zdiv.
Qed.

(** An encoding, followed by groups of nothing but padding. *)
Lemma decode_base64_ok ao fuel n s k rest : Forall is_byte s -> (k <= 1)%nat -> (length (enc64 s) + 2 <= fuel)%nat ->
  exists r, decode_base64 ao fuel n (enc64 s ++ replicate (4 * k) 61 ++ 0 :: rest) = Ok (r, S n) /\
    if ao n then exists tail, r = Some (pad3 s ++ replicate (3 * k) 0 ++ tail, Z.of_nat (length (pad3 s) + 3 * k)) else r = None.
Proof.
  intros Hs Hk Hf. unfold decode_base64. rewrite app_assoc, cstr_app.
  2:{ apply Forall_app. split; [by apply enc64_no_nul|by apply Forall_replicate]. }
  rewrite ok_bind. cbv zeta. unfold BLOCK_CHAR. pose proof (enc64_length s) as He. pose proof (pad3_length s) as Hp.
  set (q := ((length s + 2) / 3)%nat) in *. rewrite length_app, length_replicate.
  rewrite decide_False.
  2:{ intros H. apply H. rewrite He. replace (Z.of_nat (4 * q + 4 * k)) with (Z.of_nat (q + k) * 4) by lia. apply Z.mod_mul. lia. }
  unfold malloc. destruct (ao n); [|by eexists]. rewrite <- app_assoc.
  destruct (decode_enc s (replicate (4 * k) 61 ++ 0 :: rest) Hs) as (g & Hg & Hd).
  set (M := Z.to_nat (Z.of_nat (length (enc64 s) + 4 * k) + 1)).
  assert (3 * q + 3 * k <= M)%nat as HM by lia. clearbody q M.
  replace fuel with (g + (fuel - g))%nat by lia.
  pose proof (Hd (fuel - g)%nat [] M []) as E. cbn [app length] in E. change (Z.of_nat 0) with 0 in E.
  rewrite app_nil_r in E. rewrite E by lia. clear E Hd.
  destruct (fuel - g)%nat as [|[|f]] eqn:Ef; [lia|lia|]. rewrite app_nil_r.
  assert (forall f dst e, decode_loop (S f) (0 :: rest) dst e = Ok (Some (dst, e))) as Hend by done.
  destruct k as [|[|k]]; [| |lia].
  - cbn [replicate Nat.mul app]. rewrite Hend, ok_bind. eexists. split; [done|]. exists (replicate (M - length (pad3 s)) 0). do 2 f_equal. lia.

  - replace (M - length (pad3 s))%nat with (S (S (S (M - length (pad3 s) - 3)))) by lia.
    change (replicate (4 * 1) 61 ++ 0 :: rest) with (padding :: padding :: padding :: padding :: 0 :: rest). cbn [replicate].
    erewrite decode_turn by (exact padding_value || done). rewrite Hend, ok_bind. eexists. split; [done|].
    eexists. rewrite <- app_assoc. change (group 0 0 0 0) with [0; 0; 0]. do 2 f_equal. lia.
Qed.

(** ** The URL alphabet *)

Definition to_url (c : Z) : Z := if decide (c = 43) then 45 else if decide (c = 47) then 95 else c.
Definition url64 (s : bytes) : bytes := map to_url (body64 s).

(** Text whose length is a multiple of 4 gets four characters of padding. *)
Definition extra (s : bytes) : nat := if decide (length s mod 3 = 0)%nat then 1%nat else 0%nat.
Definition decoded (s : bytes) : bytes := pad3 s ++ replicate (3 * extra s) 0.

Lemma url_padding s : Forall is_byte s ->
  (4 - Z.of_nat (length (url64 s)) mod 4 = Z.of_nat ((3 - length s mod 3) mod 3 + 4 * extra s)).
Proof.
  intros Hs. unfold url64. rewrite length_map, body64_length by done. unfold extra. rewrite Nat2Z.inj_add, Nat2Z.inj_div, Nat2Z.inj_add.
  rewrite Nat2Z.inj_add, Nat2Z.inj_mod, Nat2Z.inj_sub, Nat2Z.inj_mod by (pose proof (Nat.mod_upper_bound (length s) 3); lia).
  case_decide as E; apply (f_equal Z.of_nat) in E || (assert (Z.of_nat (length s mod 3) ≠ 0) as E' by lia); rewrite Nat2Z.inj_mod in *; zdiv.
Qed.

Lemma url_char_ok s (i : nat) c : Forall is_byte s -> body64 s !! i = Some c -> url_char (url64 s) i = c.
Proof.
  intros Hs Hi. destruct (body64_spec s Hs) as [H _]. rewrite Forall_lookup in H. destruct (H i c Hi) as (H1 & H2 & H3).
  unfold url_char, url64. change (map to_url (body64 s)) with (to_url <$> body64 s). rewrite list_lookup_fmap, Hi. simpl.
  unfold to_url. repeat case_decide; congruence.
Qed.

Lemma url_fill s dst : Forall is_byte s ->
  let n := (length (url64 s) + ((3 - length s mod 3) mod 3 + 4 * extra s))%nat in
  (n <= length dst)%nat ->
  fill n 0 0 (fun i => mret (url_char (url64 s) (Z.to_nat i))) dst = Ok ((enc64 s ++ replicate (4 * extra s) 61) ++ drop n dst).
Proof.
  intros Hs n Hn. destruct (body64_spec s Hs) as [_ E]. rewrite E, <- (app_assoc (body64 s)), <- replicate_add.
  apply fill0_ok; [|done|].
  - subst n. unfold url64. by rewrite length_app, length_map, length_replicate.
  - intros j v [Hv|[Hj Hv]]%lookup_app_Some; rewrite Nat2Z.id.
    + by rewrite (url_char_ok s j v).
    + apply lookup_replicate in Hv as [-> _]. unfold url_char. rewrite lookup_ge_None_2; [done|]. unfold url64. by rewrite length_map.
Qed.

Lemma url64_no_nul s : Forall is_byte s -> no_nul (url64 s).
Proof.
  intros Hs. destruct (body64_spec s Hs) as [H _]. unfold url64, no_nul. apply Forall_map. eapply Forall_impl; [exact H|].
  intros c (H1 & _). simpl. unfold to_url. repeat case_decide; lia.
Qed.

(** With any allocation refused the answer is NULL. *)
Lemma base64url_ok ao fuel n s rest : Forall is_byte s -> Z.of_nat (length s) <= 1000000 -> (2 * length s + 6 <= fuel)%nat ->
  exists r n', base64url_decode ao fuel n (url64 s ++ 0 :: rest) = Ok (r, n') /\
    (r = None \/ r = Some (decoded s ++ [0])) /\ ((forall k, ao k = true) -> r = Some (decoded s ++ [0])).
Proof.
  intros Hs Hlen Hf. unfold base64url_decode. rewrite cstr_app, ok_bind by (by apply url64_no_nul). cbv zeta.
  pose proof (url_padding s Hs) as Hpad. set (p := ((3 - length s mod 3) mod 3 + 4 * extra s)%nat) in *.
  assert (length (url64 s) = length s + (length s + 2) / 3)%nat as Hl by (unfold url64; by rewrite length_map, body64_length).
  assert ((length s + 2) / 3 <= length s)%nat as Hd.
  { destruct (length s) as [|m] eqn:E; [done|]. apply Nat.Div0.div_le_upper_bound. lia. }
  assert (length (enc64 s) <= length s + (length s + 2) / 3 + 2)%nat as Hle.
  { rewrite <- body64_length by done. destruct (body64_spec s Hs) as [_ E]. rewrite E, length_app, length_replicate.
    pose proof (Nat.mod_upper_bound (3 - length s mod 3) 3). lia. }
  assert (p <= 6)%nat as Hp6.
  { unfold p, extra. pose proof (Nat.mod_upper_bound (3 - length s mod 3) 3). case_decide; lia. }
  replace (Z.of_nat (length (url64 s)) + 4 - Z.of_nat (length (url64 s)) mod 4 + 1) with (Z.of_nat (length (url64 s) + p + 1)) by lia.
  replace (Z.of_nat (length (url64 s) + p + 1) - 1) with (Z.of_nat (length (url64 s) + p)) by lia.
  unfold malloc at 1. destruct (ao n) eqn:En; [|eexists _, _; split; [done|]; split; [by left|intros H; congruence]].
  rewrite int_ok_in, ok_bind, !Nat2Z.id by lia.
  pose proof (url_fill s (replicate (length (url64 s) + p + 1) 0) Hs) as Hfill. cbv zeta in Hfill. fold p in Hfill.
  rewrite Hfill, ok_bind by (rewrite length_replicate; lia). clear Hfill.
  rewrite drop_replicate. replace (length (url64 s) + p + 1 - (length (url64 s) + p))%nat with 1%nat by lia. cbn [replicate].
  rewrite bset_app, ok_bind.
  2:{ rewrite length_app, length_replicate. destruct (body64_spec s Hs) as [_ ->]. rewrite length_app, length_replicate.
      unfold url64. rewrite length_map. unfold p. lia. }
  rewrite <- app_assoc. destruct (decode_base64_ok ao fuel (S n) s (extra s) [] Hs) as (r & -> & Hr);
    [unfold extra; case_decide; lia|lia|]. rewrite ok_bind.
  destruct (ao (S n)) eqn:En1; [|subst r; eexists _, _; split; [done|]; split; [by left|intros H; congruence]].
  destruct Hr as [tail ->]. unfold malloc. destruct (ao (S (S n))) eqn:En2; [|eexists _, _; split; [done|]; split; [by left|intros H; congruence]].
  assert (length (decoded s) = length (pad3 s) + 3 * extra s)%nat as Hdl by (unfold decoded; by rewrite length_app, length_replicate).
  rewrite app_assoc, Nat2Z.id. fold (decoded s).
  rewrite (fill0_ok _ _ (decoded s)); [|lia|rewrite length_replicate; lia|intros j v; apply bget_prefix].
  rewrite ok_bind, drop_replicate. replace (Z.to_nat (Z.of_nat (length (pad3 s) + 3 * extra s) + 1) - (length (pad3 s) + 3 * extra s))%nat with 1%nat by lia.
  cbn [replicate]. rewrite bset_app, ok_bind by lia. eexists _, _. split; [done|]. split; [by right|done].
Qed.

(** Base64.  Encoding any bytes gives their standard text in one line,
    with padding: no newline is ever inserted, since the position is always a
    multiple of four.  Decoding that text gives the bytes back, followed by a
    zero for every padding character, and decoding the unpadded URL form gives
    the same (and three more zeros when the length is a multiple of three).
    An allocation refused gives NULL. *)
Theorem zplay_base64_roundtrip (ao : nat -> bool) (fuel n : nat) (s rest : bytes) :
  Forall is_byte s -> Z.of_nat (length s) <= 1000000 -> (4 * length s + 16 <= fuel)%nat ->
  (exists r, encode_base64 ao n (s ++ rest) (Z.of_nat (length s)) = Ok (r, S n) /\
     if ao n then exists tail, r = Some (enc64 s ++ 0 :: tail) else r = None) /\
  (exists r, decode_base64 ao fuel n (enc64 s ++ 0 :: rest) = Ok (r, S n) /\
     if ao n then exists tail, r = Some (pad3 s ++ tail, Z.of_nat (length (pad3 s))) else r = None) /\
  (exists r n', base64url_decode ao fuel n (url64 s ++ 0 :: rest) = Ok (r, n') /\
     (r = None \/ r = Some (decoded s ++ [0])) /\ ((forall k, ao k = true) -> r = Some (decoded s ++ [0]))).
Proof.
  intros Hs Hlen Hf. split; [by apply encode_base64_ok|]. split.
  - destruct (decode_base64_ok ao fuel n s 0 rest Hs) as (r & E & Hr); [lia| |].
    { rewrite enc64_length. assert ((length s + 2) / 3 <= length s + 1)%nat by (apply Nat.Div0.div_le_upper_bound; lia). lia. }
    exists r. split; [exact E|]. destruct (ao n); [|done]. destruct Hr as [tail ->]. exists tail. by rewrite Nat.add_0_r.
  - apply base64url_ok; [done|done|lia].
Qed.

(** ** Hexadecimal *)

Definition hexd (d : Z) : Z := if decide (d < 10) then 48 + d else 87 + d.
Definition hex_text (bs : bytes) : bytes := concat (map (fun b => [hexd (b / 16); hexd (b mod 16)]) bs).

Lemma hex2num_hexd d : 0 <= d < 16 -> hex2num (hexd d) = d.
Proof. intros Hd. unfold hex2num, hexd. repeat case_decide; lia. Qed.

Lemma hex_text_lookup bs (j : nat) b : bs !! j = Some b ->
  hex_text bs !! (2 * j)%nat = Some (hexd (b / 16)) /\ hex_text bs !! (2 * j + 1)%nat = Some (hexd (b mod 16)).
Proof.
  revert j. induction bs as [|x bs IH]; intros j Hj; [done|]. destruct j as [|j].
  - injection Hj as ->. done.
  - cbn [hex_text map concat app]. replace (2 * S j)%nat with (S (S (2 * j))) by lia.
    replace (S (S (2 * j)) + 1)%nat with (S (S (2 * j + 1))) by lia. cbn [app lookup list_lookup]. by apply IH.
Qed.

Lemma hex_text_length bs : length (hex_text bs) = (2 * length bs)%nat.
Proof. induction bs as [|x bs IH]; [done|]. change (hex_text (x :: bs)) with ([hexd (x / 16); hexd (x mod 16)] ++ hex_text bs). rewrite length_app, IH. simpl. lia. Qed.

Lemma hex_byte_ok bs (j : nat) b : is_byte b -> bs !! j = Some b -> hex_byte (hex_text bs) (Z.of_nat j) = Ok b.
Proof.
  intros Hb Hj. destruct (hex_text_lookup bs j b Hj) as [H1 H2]. unfold hex_byte, is_byte in *.
  replace (Z.of_nat j * 2 + 1) with (Z.of_nat (2 * j + 1)) by lia. replace (Z.of_nat j * 2) with (Z.of_nat (2 * j)) by lia.
  rewrite (bget_lookup _ _ _ H1), (bget_lookup _ _ _ H2), !ok_bind. rewrite !hex2num_hexd by zdiv.
  unfold u8. rewrite (Z.mod_small (b / 16)), (Z.mod_small (b mod 16)), lor_shiftl by zdiv. f_equal. zdiv.
Qed.

Lemma hex_text_no_nul bs : Forall is_byte bs -> no_nul (hex_text bs).
Proof.
  induction 1 as [|b bs Hb _ IH]; [constructor|]. change (hex_text (b :: bs)) with (hexd (b / 16) :: hexd (b mod 16) :: hex_text bs).
  unfold is_byte in Hb. assert (forall d, 0 <= d -> hexd d ≠ 0) as H by (intros d Hd; unfold hexd; case_decide; lia).
  constructor; [apply H; zdiv|]. constructor; [apply H; zdiv|done].
Qed.

Lemma hex_ok ao n bs rest : Forall is_byte bs -> bs ≠ [] ->
  hex ao n (Some (hex_text bs ++ 0 :: rest)) = Ok (if ao n then Some (bs ++ [0], Z.of_nat (length bs)) else None, S n).
Proof.
  intros Hb Hne. unfold hex. rewrite cstr_app, ok_bind by (by apply hex_text_no_nul). cbv zeta. rewrite hex_text_length.
  assert (0 < length bs)%nat by (destruct bs; [done|simpl; lia]).
  replace (Z.of_nat (2 * length bs)) with (Z.of_nat (length bs) * 2) by lia. rewrite Z.mod_mul, Z.div_mul by lia.
  rewrite decide_False by lia. unfold malloc. destruct (ao n); [|done].
  replace (Z.to_nat (Z.of_nat (length bs) + 1)) with (length bs + 1)%nat by lia. rewrite Nat2Z.id.
  rewrite (fill0_ok _ _ bs), ok_bind; [|done|rewrite length_replicate; lia|].
  2:{ intros j v Hj. apply hex_byte_ok; [|done]. by eapply Forall_lookup_1. }
  rewrite drop_replicate. replace (length bs + 1 - length bs)%nat with 1%nat by lia. cbn [replicate].
  by rewrite bset_app, ok_bind by done.
Qed.

(** ** The price *)

Definition dec_key : bytes := [0x38; 0x95; 0x18; 0x5f; 0x37; 0x2f; 0x4b; 0xba; 0x9a; 0x59; 0x4f; 0xd6; 0x5e; 0x52; 0x05; 0xf2].

Lemma dec_key_hex : dec_key_text = hex_text dec_key ++ 0 :: [].
Proof. vm_compute. reflexivity. Qed.

Definition xors (a b : bytes) : bytes := zip_with Z.lxor a b.

(** What an exchange that knows the key sends: the time stamp, the price under
    the keyed hash of the time stamp, four bytes of signature. *)
Definition zplay_message (ts price sig : bytes) : bytes :=
  ts ++ xors price (take 8 (HMAC dec_key ts)) ++ sig.

Lemma HMAC_length K M : length (HMAC K M) = 20%nat.
Proof. apply SHA1_length. Qed.
Lemma HMAC_bytes K M : Forall is_byte (HMAC K M).
Proof. apply SHA1_bytes. Qed.

Lemma xors_lookup a b (j : nat) x : length a = length b -> a !! j = Some x -> exists y, b !! j = Some y /\ xors a b !! j = Some (Z.lxor x y).
Proof.
  intros Hl Hx. destruct (lookup_lt_is_Some_2 b j) as [y Hy]; [rewrite <- Hl; by eapply lookup_lt_Some|]. exists y.
  split; [done|]. unfold xors. by rewrite lookup_zip_with, Hx, Hy.
Qed.

Lemma xors_bytes a b : Forall is_byte a -> Forall is_byte b -> Forall is_byte (xors a b).
Proof.
  intros Ha. revert b. induction Ha as [|x a Hx _ IH]; intros [|y b] Hb; try constructor; apply Forall_cons in Hb as [Hy Hb].
  - rewrite Z.lxor_comm. by apply xor_byte.
  - by apply IH.
Qed.

Lemma bget_mid a b c (j : nat) v n : n = Z.of_nat (length a) -> b !! j = Some v -> bget (a ++ b ++ c) (Z.of_nat j + n) = Ok v.
Proof.
  intros -> Hj. rewrite <- Nat2Z.inj_add. apply bget_lookup. rewrite lookup_app_r by lia.
  replace (j + length a - length a)%nat with j by lia. by apply lookup_app_l_Some.
Qed.

Lemma fill_whole (g : Z -> cres Z) n vs : length vs = n ->
  (forall j v, vs !! j = Some v -> g (Z.of_nat j) = Ok v) -> fill n 0 0 g (replicate (Z.to_nat (Z.of_nat n)) 0) = Ok vs.
Proof.
  intros Hl Hg. rewrite Nat2Z.id. rewrite (fill0_ok g _ vs) by (done || (rewrite length_replicate; lia)).
  rewrite drop_replicate, Nat.sub_diag. by rewrite app_nil_r.
Qed.

Lemma xor_price_ok ao n pad price rest : length price = 8%nat -> Forall is_byte price -> Forall is_byte pad -> (8 <= length pad)%nat ->
  xor_bytes ao n (pad ++ rest) (xors price (take 8 pad)) 8 = Ok (if ao n then Some price else None, S n).
Proof.
  intros Hl Hb Hp H8. unfold xor_bytes, malloc. destruct (ao n); [|done]. rewrite (fill_whole _ _ price); [done|done|].
  intros j v Hj. assert (length price = length (take 8 pad)) as Hlt by (rewrite length_take; lia).
  destruct (xors_lookup price (take 8 pad) j v Hlt Hj) as (y & Hy & Hx).
  rewrite (bget_lookup _ _ _ Hx). apply lookup_take_Some in Hy as [Hy _].
  rewrite (bget_prefix _ _ _ _ Hy), !ok_bind. assert (is_byte v /\ is_byte y) as [Hv Hyb]
    by (split; eapply Forall_lookup_1; [exact Hb|exact Hj|exact Hp|exact Hy]).
  rewrite (Z.lxor_comm v y), <- Z.lxor_assoc, Z.lxor_nilpotent, Z.lxor_0_l. unfold u8. by rewrite Z.mod_small by apply Hv.
Qed.

Section Message.
Context (ts price sig : bytes).
Context (Hts : length ts = 4%nat) (Hprice : length price = 8%nat) (Hsig : length sig = 4%nat).
Context (Hbts : Forall is_byte ts) (Hbp : Forall is_byte price) (Hbs : Forall is_byte sig).

Lemma message_bytes : Forall is_byte (zplay_message ts price sig).
Proof.
  unfold zplay_message. rewrite !Forall_app. split_and!; try done. apply xors_bytes; [done|]. apply Forall_take, HMAC_bytes.
Qed.

Lemma enc_length : length (xors price (take 8 (HMAC dec_key ts))) = 8%nat.
Proof. unfold xors. rewrite length_zip_with, length_take, HMAC_length, Hprice. done. Qed.

Lemma message_length : length (zplay_message ts price sig) = 16%nat.
Proof. unfold zplay_message. rewrite !length_app, enc_length. lia. Qed.

Lemma message_decoded : decoded (zplay_message ts price sig) ++ [0] =
  ts ++ xors price (take 8 (HMAC dec_key ts)) ++ sig ++ [0; 0; 0].
Proof.
  unfold decoded, pad3, extra. rewrite message_length. change (replicate ((3 - 16 mod 3) mod 3) 0) with [0; 0].
  change (replicate (3 * (if decide (16 mod 3 = 0)%nat then 1 else 0)) 0) with (@nil Z). unfold zplay_message. by rewrite <- !app_assoc.
Qed.

(** The hash of the time stamp, in the room the array of step 8 has. *)
Lemma price_hmac room8 : (84 <= room8)%nat -> exists key',
  hmac_sha1 room8 (dec_key ++ [0]) 16 ts (Z.of_nat TIME_STAMP_LEN) (array 20) =
    if decide (128 <= room8)%nat then Ok (key', HMAC dec_key ts) else UB.
Proof.
  intros Hr. destruct (hmac_sha1_is_rfc2104 dec_key [0] ts [] (array 20) room8) as (key' & _ & E).
  - apply (bool_decide_unpack _); vm_compute; exact I.
  - done.
  - vm_compute. congruence.
  - left. vm_compute. lia.
  - unfold MAX_MESSAGE_LENGTH. lia.
  - done.
  - done.
  - rewrite app_nil_r, Hts in E. exists key'. change (drop 20 (array 20)) with (@nil Z) in E. rewrite app_nil_r in E. exact E.
Qed.

(** What follows the hash, for every pattern of refused allocations. *)
Lemma price_decode_ok ao room8 fuel n sign_key rest : (40 <= fuel)%nat -> (84 <= room8)%nat ->
  exists n', let r := price_decode ao room8 fuel n dec_key_text sign_key (url64 (zplay_message ts price sig) ++ 0 :: rest) in
    (r = Ok (zero_price, n') /\ ~ (forall k, ao k = true)) \/ r = if decide (128 <= room8)%nat then Ok (price, n') else UB.
Proof.
  intros Hf Hr. cbv zeta. unfold price_decode.
  destruct (base64url_ok ao fuel n (zplay_message ts price sig) rest message_bytes) as (q & n1 & -> & Hq & Hqt);
    [rewrite message_length; lia|rewrite message_length; lia|]. rewrite ok_bind.
  destruct Hq as [->| ->]; [exists n1; left; split; [done|intros H; specialize (Hqt H); done]|].
  rewrite message_decoded. unfold malloc.
  destruct (ao n1) eqn:E1; [|eexists; left; split; [done|intros H; congruence]].
  destruct (ao (S n1)) eqn:E2; [|eexists; left; split; [done|intros H; congruence]].
  destruct (ao (S (S n1))) eqn:E3; [|eexists; left; split; [done|intros H; congruence]].
  set (enc := xors price (take 8 (HMAC dec_key ts))).
  pose (qb := ts ++ enc ++ sig ++ [0; 0; 0]). fold qb.
  rewrite (fill_whole (bget qb) TIME_STAMP_LEN ts), ok_bind by (done || (intros j v; apply bget_prefix)).
  rewrite (fill_whole (fun i => bget qb (i + 4)) ENC_PRICE_LEN enc), ok_bind by (apply enc_length || (intros j v Hj; by apply bget_mid; [rewrite Hts|])).
  rewrite (fill_whole (fun i => bget qb (i + 12)) SIG_LEN sig), ok_bind.
  2:{ done. }
  2:{ intros j v Hj. unfold qb. rewrite app_assoc. apply bget_mid; [rewrite length_app, Hts; unfold enc; by rewrite enc_length|done]. }
  rewrite dec_key_hex, hex_ok, ok_bind; [|apply (bool_decide_unpack _); vm_compute; exact I|done].
  destruct (ao (S (S (S n1)))) eqn:E4; [|eexists; left; split; [done|intros H; congruence]].
  change (Z.of_nat (length dec_key)) with 16. destruct (price_hmac room8 Hr) as (key' & ->).
  case_decide as Hroom; [|exists 0%nat; right; done]. rewrite ok_bind.
  unfold enc. pose proof (fun n => xor_price_ok ao n (HMAC dec_key ts) price []) as Hx. setoid_rewrite app_nil_r in Hx.
  rewrite Hx, ok_bind by (done || apply HMAC_bytes || (rewrite HMAC_length; lia)).
  destruct (ao (S (S (S (S n1))))) eqn:E5; eexists; [by right|left; split; [done|intros H; congruence]].
Qed.
End Message.

(** C35: the Zplay price, by the room [room8] of the array that the keyed hash
    pads in place.  The source has 84 bytes: then decoding a message made with
    the shared key writes outside the array, and nothing is decoded.  With 128
    bytes the message is decoded to its eight bytes of price, for every
    signature, the status telling whether it is the number zero.  The third
    outcome, the price 0.0 and the status 1, is possible only when an
    allocation is refused. *)
Theorem zplay_price_roundtrip (ts price sig rest : bytes) (ao : nat -> bool) (room8 fuel n : nat) :
  length ts = 4%nat -> length price = 8%nat -> length sig = 4%nat ->
  Forall is_byte ts -> Forall is_byte price -> Forall is_byte sig -> (40 <= fuel)%nat -> (84 <= room8)%nat ->
  exists n', let r := DecodeWinningPrice ao room8 fuel n (url64 (zplay_message ts price sig) ++ 0 :: rest) in
    (r = Ok (1, zero_price, n') /\ ~ (forall k, ao k = true)) \/
    r = if decide (128 <= room8)%nat then Ok (if is_zero price then 1 else 0, price, n') else UB.
Proof.
  intros H1 H2 H3 H4 H5 H6 Hf Hr. unfold DecodeWinningPrice.
  destruct (price_decode_ok ts price sig H1 H2 H3 H4 H5 H6 ao room8 fuel n sign_key_text rest Hf Hr) as (n' & [[-> Hn]| ->]); exists n'.
  - left. by split.
  - right. by case_decide.
Qed.

Lemma zplay_base64_roundtrip_witness : exists r n',
  base64url_decode (fun _ => true) 100 0 (B "YWR4" ++ [0]) = Ok (r, n') /\ r = Some (B "adx" ++ [0; 0; 0; 0]).
Proof.
  destruct (zplay_base64_roundtrip (fun _ => true) 100 0 (B "adx") []) as (_ & _ & r & n' & E & _ & Hr).
  - apply (bool_decide_unpack _); vm_compute; exact I.
  - vm_compute. congruence.
  - vm_compute. lia.
  - exists r, n'. split; [exact E|]. apply Hr. reflexivity.
Defined.

(** The price 1.5 as a double. *)
Lemma zplay_price_roundtrip_witness : exists n',
  DecodeWinningPrice (fun _ => true) 128 40 0 (url64 (zplay_message (B "time") [0; 0; 0; 0; 0; 0; 248; 63] (B "sign")) ++ [0]) =
    Ok (0, [0; 0; 0; 0; 0; 0; 248; 63], n').
Proof.
  destruct (zplay_price_roundtrip (B "time") [0; 0; 0; 0; 0; 0; 248; 63] (B "sign") [] (fun _ => true) 128 40 0)
    as (n' & [[_ Hn]|E]); try reflexivity; try lia; try (apply (bool_decide_unpack _); vm_compute; exact I).
  - exfalso. apply Hn. reflexivity.
  - exists n'. exact E.
Defined.

(** ** Outside the arrays *)

Lemma bget_fuel b i : bget b i ≠ NoFuel.
Proof. unfold bget. case_decide; [destruct (b !! Z.to_nat i)|]; done. Qed.

Lemma fill_cases n g : (forall i, g i ≠ NoFuel) -> forall i off dst,
  (exists r, fill n i off g dst = Ok r) \/ fill n i off g dst = UB.
Proof.
  intros Hg. induction n as [|n IH]; intros i off dst; [left; by eexists|]. cbn [fill].
  destruct (g i) as [v| |] eqn:E; [|by right|by apply Hg in E]. rewrite ok_bind. unfold bset. case_decide; [|by right].
  rewrite ok_bind. apply IH.
Qed.

Lemma fill_ub n g (j : nat) : (forall i, g i ≠ NoFuel) -> (j < n)%nat -> forall i off dst, g (i + Z.of_nat j) = UB ->
  fill n i off g dst = UB.
Proof.
  intros Hg. revert j. induction n as [|n IH]; intros j Hj i off dst Hu; [lia|]. cbn [fill].
  destruct (g i) as [v| |] eqn:E; [|done|by apply Hg in E]. rewrite ok_bind. unfold bset. case_decide; [|done]. rewrite ok_bind.
  destruct j as [|j]; [rewrite Z.add_0_r in Hu; congruence|]. apply (IH j); [lia|]. rewrite <- Hu. f_equal. lia.
Qed.

Lemma decoded_length s : length (decoded s) = (3 * ((length s + 2) / 3) + 3 * extra s)%nat.
Proof. unfold decoded. by rewrite length_app, pad3_length, length_replicate. Qed.

Lemma short_decoded s : (length s <= 11)%nat -> (length (decoded s) <= 12)%nat.
Proof.
  rewrite decoded_length. unfold extra. intros H.
  do 12 (destruct s as [|? s]; [vm_compute; lia|]). simpl in H. lia.
Qed.

(** what the Zplay decoder reads outside its arrays, and takes for
    digits.  A message of fewer than twelve bytes is read past the end of the
    decoded block: nothing checks its length.  A line break before fewer than
    four characters makes the decoder take the terminator of the string for
    a digit of value 64 and read past it.  Every letter is taken for a
    hexadecimal digit and every other character for the number 48. *)
Theorem zplay_reads_outside (ao : nat -> bool) (room8 fuel n : nat) (sign_key s rest : bytes) :
  (forall k, ao k = true) -> Forall is_byte s -> (length s <= 11)%nat -> (30 <= fuel)%nat ->
  price_decode ao room8 fuel n dec_key_text sign_key (url64 s ++ 0 :: rest) = UB /\
  decode_base64 ao fuel n [13; 10; 65; 65; 0] = UB /\
  digit_value 0 = Some 64 /\
  (forall c, 97 <= c <= 122 -> hex2num c = c - 87) /\ (forall c, 0 <= c < 48 -> hex2num c = 48).
Proof.
  intros Hao Hs Hl Hf. split; [|split; [|split; [done|split]]].
  - unfold price_decode. destruct (base64url_ok ao fuel n s rest Hs) as (q & n1 & -> & _ & Hq); [lia|lia|]. rewrite ok_bind, (Hq Hao).
    unfold malloc. rewrite !Hao. pose proof (short_decoded s Hl) as Hd. set (qb := decoded s ++ [0]).
    assert (bget qb (0 + Z.of_nat 3 + 12) = UB) as Hu.
    { unfold bget. rewrite decide_True by lia. rewrite lookup_ge_None_2; [done|]. subst qb. rewrite length_app. simpl. lia. }
    match goal with |- context [fill TIME_STAMP_LEN 0 0 ?g ?d] => destruct (fill_cases TIME_STAMP_LEN g (bget_fuel qb) 0 0 d) as [[r1 E]|E] end;
      rewrite E; [rewrite ok_bind|done].
    match goal with |- context [fill ENC_PRICE_LEN 0 0 ?g ?d] =>
      destruct (fill_cases ENC_PRICE_LEN g (fun i => bget_fuel qb (i + 4)) 0 0 d) as [[r2 E2]|E2] end; rewrite E2; [rewrite ok_bind|done].
    match goal with |- context [fill SIG_LEN 0 0 ?g ?d] =>
      rewrite (fill_ub SIG_LEN g 3 (fun i => bget_fuel qb (i + 12))) by (unfold SIG_LEN; lia || exact Hu) end. done.
  - destruct fuel as [|fuel]; [lia|]. unfold decode_base64, malloc. rewrite Hao. vm_compute. reflexivity.
  - intros c Hc. unfold hex2num. rewrite decide_False, decide_True by lia. lia.
  - intros c Hc. unfold hex2num. repeat case_decide; lia.
Qed.

Lemma zplay_reads_outside_witness :
  price_decode (fun _ => true) 128 40 0 dec_key_text sign_key_text (B "YWR4" ++ [0]) = UB /\
  decode_base64 (fun _ => true) 40 0 [13; 10; 65; 65; 0] = UB.
Proof.
  destruct (zplay_reads_outside (fun _ => true) 128 40 0 sign_key_text (B "adx") []) as (H1 & H2 & _);
    [reflexivity|apply (bool_decide_unpack _); vm_compute; exact I|vm_compute; lia|lia|].
  split; [exact H1|exact H2].
Defined.
