(* ===== verification/AutohomePrice.v ===== *)
(** The Autohome winning price:
    BidCore/common/adx_decode/autohome/adx_encrypt.c.

    The keyed hash is OpenSSL's: a parameter [HMAC_sha1] of the model, of
    which the program uses that it gives twenty bytes.  An [adx_str_t] is the
    list of its bytes; the object it points to appears as an array where the
    code writes to it.  A refused block is an empty array: the code does not
    test for it.  The host is little-endian.  [decrypt_price] compares the
    signature in the decoded message after it has released it: what the
    released block reads as is the parameter [freed], [None] where the read is
    undefined, as the language has it.  What the receiver accepts is stated for
    every such [freed]; that the bytes it compares are those of the message
    holds only where the released block still reads as before. *)

From Stdlib Require Import ZArith Lia.
From S2P Require Import Prelude AdxString ZplaySha1 ZplayHmac ZplayPrice.

Open Scope Z_scope.

(** The text of [url_decode] of adx_dsp/src/adx_string.c. *)
Definition urldecode : nat -> bytes -> Z -> cres (bytes * Z) := url_decode.

Definition ENCRYPT_PRICE_LENGTH : Z := 20 + 8.
Definition base64_decoded_length (len : Z) : Z := (len + 3) / 4 * 3.

(** ** Base64 *)

Definition basis_encode : bytes := digits64 ++ [0].

Definition basis64 : bytes :=
  replicate 43 77 ++ [62; 77; 77; 77; 63] ++
  [52; 53; 54; 55; 56; 57; 58; 59; 60; 61; 77; 77; 77; 77; 77; 77] ++
  [77; 0; 1; 2; 3; 4; 5; 6; 7; 8; 9; 10; 11; 12; 13; 14] ++
  [15; 16; 17; 18; 19; 20; 21; 22; 23; 24; 25; 77; 77; 77; 77; 77] ++
  [77; 26; 27; 28; 29; 30; 31; 32; 33; 34; 35; 36; 37; 38; 39; 40] ++
  [41; 42; 43; 44; 45; 46; 47; 48; 49; 50; 51; 77; 77; 77; 77; 77] ++ replicate 128 77.

Fixpoint encode_base64_internal (basis : bytes) (with_padding : bool) (dst : bytes) (d : Z) (src : bytes) : cres (bytes * Z) :=
  match src with
  | s0 :: s1 :: s2 :: src =>
      '(dst, d) ← put dst d (bget basis (Z.land (Z.shiftr s0 2) 0x3f));
      '(dst, d) ← put dst d (bget basis (Z.lor (Z.shiftl (Z.land s0 3) 4) (Z.shiftr s1 4)));
      '(dst, d) ← put dst d (bget basis (Z.lor (Z.shiftl (Z.land s1 0x0f) 2) (Z.shiftr s2 6)));
      '(dst, d) ← put dst d (bget basis (Z.land s2 0x3f));
      encode_base64_internal basis with_padding dst d src
  | [s0; s1] =>
      '(dst, d) ← put dst d (bget basis (Z.land (Z.shiftr s0 2) 0x3f));
      '(dst, d) ← put dst d (bget basis (Z.lor (Z.shiftl (Z.land s0 3) 4) (Z.shiftr s1 4)));
      '(dst, d) ← put dst d (bget basis (Z.shiftl (Z.land s1 0x0f) 2));
      if with_padding then put dst d (mret 61) else mret (dst, d)
  | [s0] =>
      '(dst, d) ← put dst d (bget basis (Z.land (Z.shiftr s0 2) 0x3f));
      '(dst, d) ← put dst d (bget basis (Z.shiftl (Z.land s0 3) 4));
      if with_padding then
        '(dst, d) ← put dst d (mret 61);
        put dst d (mret 61)
      else mret (dst, d)
  | [] => mret (dst, d)
  end.

Definition encode_base64 (dst src : bytes) : cres (bytes * Z) := encode_base64_internal basis_encode true dst 0 src.

(** The first loop of [decode_base64_internal]: the characters up to [=]. *)
Fixpoint decodable (basis src : bytes) : cres (option bytes) :=
  match src with
  | [] => mret (Some [])
  | c :: src =>
      if decide (c = 61) then mret (Some []) else
      v ← bget basis c;
      if decide (v = 77) then mret None else
      r ← decodable basis src;
      mret (match r with Some s => Some (c :: s) | None => None end)
  end.

Fixpoint decode_groups (basis : bytes) (dst : bytes) (d : Z) (s : bytes) : cres (bytes * Z) :=
  match s with
  | c0 :: c1 :: c2 :: c3 :: s =>
      v0 ← bget basis c0; v1 ← bget basis c1; v2 ← bget basis c2; v3 ← bget basis c3;
      '(dst, d) ← put dst d (mret (u8 (Z.lor (Z.shiftl v0 2) (Z.shiftr v1 4))));
      '(dst, d) ← put dst d (mret (u8 (Z.lor (Z.shiftl v1 4) (Z.shiftr v2 2))));
      '(dst, d) ← put dst d (mret (u8 (Z.lor (Z.shiftl v2 6) v3)));
      decode_groups basis dst d s
  | c0 :: c1 :: s =>
      v0 ← bget basis c0; v1 ← bget basis c1;
      '(dst, d) ← put dst d (mret (u8 (Z.lor (Z.shiftl v0 2) (Z.shiftr v1 4))));
      match s with
      | [] => mret (dst, d)
      | c2 :: _ => v2 ← bget basis c2; put dst d (mret (u8 (Z.lor (Z.shiftl v1 4) (Z.shiftr v2 2))))
      end
  | _ => mret (dst, d)
  end.

(** [None] is the result -1. *)
Definition decode_base64_internal (basis dst src : bytes) : cres (option (bytes * Z)) :=
  r ← decodable basis src;
  match r with
  | None => mret None
  | Some s =>
      if decide (Z.of_nat (length s) mod 4 = 1) then mret None else
      r ← decode_groups basis dst 0 s;
      mret (Some r)
  end.

Definition decode_base64 (dst src : bytes) : cres (option (bytes * Z)) := decode_base64_internal basis64 dst src.

(** ** The byte order of the price *)

(** [htonl] and [ntohl] on a little-endian host. *)
Definition bswap32 (x : Z) : Z :=
  x mod 256 * 16777216 + x / 256 mod 256 * 65536 + x / 65536 mod 256 * 256 + x / 16777216.

(** [int32_t low = htonl(low)], and the same for [high]: [high] is extended
    with its sign before the disjunction.  The shift of a negative [low] has
    its two's-complement value. *)
Definition hl64ton (host : Z) : Z :=
  let low := i32 (Z.land host 0xFFFFFFFF) in
  let high := i32 (Z.land (Z.shiftr host 32) 0xFFFFFFFF) in
  let low := i32 (bswap32 (u32 low)) in
  let high := i32 (bswap32 (u32 high)) in
  let ret := low in
  let ret := i64 (Z.shiftl ret 32) in
  Z.lor ret high.

Definition ntohl64 (host : Z) : Z :=
  let low := i32 (Z.land host 0xFFFFFFFF) in
  let high := i32 (Z.land (Z.shiftr host 32) 0xFFFFFFFF) in
  let low := i32 (bswap32 (u32 low)) in
  let high := i32 (bswap32 (u32 high)) in
  let ret := low in
  let ret := i64 (Z.shiftl ret 32) in
  Z.lor ret high.

(** The bytes of an [int64_t] in memory. *)
Fixpoint le_bytes (n : nat) (x : Z) : bytes :=
  match n with O => [] | S n => x mod 256 :: le_bytes n (x / 256) end.
Fixpoint le_value (bs : bytes) : Z :=
  match bs with [] => 0 | b :: bs => b + 256 * le_value bs end.
Definition int64_bytes (x : Z) : bytes := le_bytes 8 (u64 x).
Definition bytes_int64 (bs : bytes) : Z := i64 (le_value bs).

(** ** Encryption and decryption *)

Section Hash.
Context (HMAC_sha1 : bytes -> bytes -> bytes) (freed : bytes -> option bytes).

Definition hmac_sha1_n (ekey data : bytes) (n : nat) : bytes := take n (HMAC_sha1 ekey data).

(** [result] is left as it is when the length is not the one expected. *)
Definition encrypt_price (iv ekey ikey : bytes) (win_cpm_price : Z) (result : bytes * Z) : cres (bytes * Z) :=
  iv ← cstr iv; ekey ← cstr ekey; ikey ← cstr ikey;
  let pad := hmac_sha1_n ekey iv 8 in
  let price := int64_bytes (hl64ton win_cpm_price) in
  let c_enc_price := xors pad price in
  let c_price_iv := price ++ iv in
  let signature := hmac_sha1_n ikey c_price_iv 4 in
  let c_msg := iv ++ c_enc_price ++ signature in
  if decide (Z.of_nat (length c_msg) = ENCRYPT_PRICE_LENGTH) then encode_base64 result.1 c_msg else mret result.

Definition split_encrypt (encrypt_price : bytes) : option (bytes * bytes * bytes) :=
  if decide (length encrypt_price ≠ 28%nat) then None
  else Some (take 16 encrypt_price, take 8 (drop 16 encrypt_price), take 4 (drop 24 encrypt_price)).

(** The result and the price stored when it is 0. *)
Definition decrypt_price (ao : nat -> bool) (bytes_encrypt_price ekey ikey : bytes) (price : Z) : cres (Z * Z) :=
  s ← cstr bytes_encrypt_price; ekey ← cstr ekey; ikey ← cstr ikey;
  if negb (ao 0%nat) then UB else
  let e_price := if ao 1%nat then replicate (Z.to_nat (base64_decoded_length (Z.of_nat (length s)))) 0 else [] in
  res ← decode_base64 e_price s;
  match res with
  | None => mret (-1, price)
  | Some (block, len) =>
      match split_encrypt (take (Z.to_nat len) block) with
      | None => mret (-2, price)
      | Some (iv, enc_price, _) =>
          let pad := hmac_sha1_n ekey iv 8 in
          let c_denc_price := xors enc_price pad in
          let c_signature := hmac_sha1_n ikey (c_denc_price ++ iv) 4 in
          match freed block with
          | None => UB
          | Some block =>
              if decide (c_signature = take 4 (drop 24 block)) then mret (0, ntohl64 (bytes_int64 c_denc_price)) else mret (-3, price)
          end
      end
  end.

(** [for (i = 0; i < decode_len; ++i) if (msg[i] == ' ') msg[i] = '+';] *)
Fixpoint spaces_loop (n : nat) (msg : bytes) (i : Z) : cres bytes :=
  match n with
  | O => mret msg
  | S n => c ← bget msg i; msg ← (if decide (c = 32) then bset msg i 43 else mret msg); spaces_loop n msg (i + 1)
  end.

Definition ekey_text : bytes := B "LDddztxx0MWPzQOW" ++ [0].
Definition ikey_text : bytes := B "Q7SHR27zfD6UAZLy" ++ [0].

(** The result, and the number whose conversion to [double] is stored in
    [*value]. *)
Definition DecodeWinningPrice (ao : nat -> bool) (fuel : nat) (encodedprice : bytes) : cres (Z * Z) :=
  s ← cstr encodedprice;
  '(msg, decode_len) ← urldecode fuel encodedprice (Z.of_nat (length s));
  msg ← spaces_loop (Z.to_nat decode_len) msg 0;
  '(res, price) ← decrypt_price ao msg ekey_text ikey_text 0;
  if decide (res ≠ 0) then mret (1, 0) else mret (0, price).
End Hash.

(** ** The codec *)

Fixpoint sextets (s : bytes) : list Z :=
  match s with
  | a :: b :: c :: s => a / 4 :: a mod 4 * 16 + b / 16 :: b mod 16 * 4 + c / 64 :: c mod 64 :: sextets s
  | [a; b] => [a / 4; a mod 4 * 16 + b / 16; b mod 16 * 4]
  | [a] => [a / 4; a mod 4 * 16]
  | [] => []
  end.

Lemma enc64_sextets s : enc64 s = map d64 (sextets s) ++ replicate ((3 - length s mod 3) mod 3) 61.
Proof.
  induction s as [| | |a b c s IH] using groups_ind; [done..|]. cbn [enc64 sextets map app length].
  replace (S (S (S (length s)))) with (length s + 1 * 3)%nat by lia. rewrite Nat.Div0.mod_add. by rewrite <- IH.
Qed.

Definition sextet (v : Z) : Prop := 0 <= v < 64.

Lemma sextets_ok s : Forall is_byte s -> Forall sextet (sextets s) /\ (length (sextets s) mod 4 ≠ 1)%nat.
Proof.
  unfold is_byte, sextet. induction s as [|a|a b|a b c s IH] using groups_ind; intros Hs; rewrite ?Forall_cons in Hs; cbn [sextets].
  - split; [constructor|done].
  - split; [repeat constructor; zdiv|done].
  - split; [repeat constructor; zdiv|done].
  - destruct Hs as (Ha & Hb & Hc & Hs). destruct (IH Hs) as [H1 H2]. split; [repeat (constructor; [zdiv|]); done|].
    cbn [length]. replace (S (S (S (S (length (sextets s)))))) with (length (sextets s) + 1 * 4)%nat by lia.
    by rewrite Nat.Div0.mod_add.
Qed.

Definition basis_ok (v : Z) : bool :=
  bool_decide (bget basis_encode v = Ok (d64 v)) && bool_decide (bget basis64 (d64 v) = Ok v) && bool_decide (d64 v ≠ 61).

Lemma basis_spec v : sextet v -> bget basis_encode v = Ok (d64 v) /\ bget basis64 (d64 v) = Ok v /\ d64 v ≠ 61.
Proof.
  intros Hv. assert (Forall (fun v => basis_ok v = true) (map Z.of_nat (seq 0 64))) as H
    by (apply (bool_decide_unpack _); vm_compute; exact I).
  rewrite Forall_forall in H. specialize (H v). unfold basis_ok in H. rewrite !andb_true_iff, !bool_decide_eq_true in H.
  destruct H as [[? ?] ?]; [|done]. apply list_elem_of_fmap. exists (Z.to_nat v). unfold sextet in Hv. split; [lia|]. apply elem_of_seq. lia.
Qed.

Lemma put_next l x r e v : e = Z.of_nat (length l) -> put (l ++ x :: r) e (Ok v) = Ok ((l ++ [v]) ++ r, Z.of_nat (length (l ++ [v]))).
Proof. intros ->. rewrite put_char_ok by done. rewrite app_assoc. do 2 f_equal. rewrite length_app. simpl. lia. Qed.

(** Masks and shifts of bytes and sextets. *)
Lemma byte_sextets s0 s1 : is_byte s0 -> is_byte s1 ->
  Z.land (Z.shiftr s0 2) 0x3f = s0 / 4 /\ Z.land s0 0x3f = s0 mod 64 /\
  Z.lor (Z.shiftl (Z.land s0 3) 4) (Z.shiftr s1 4) = s0 mod 4 * 16 + s1 / 16 /\
  Z.lor (Z.shiftl (Z.land s0 0x0f) 2) (Z.shiftr s1 6) = s0 mod 16 * 4 + s1 / 64.
Proof.
  intros H0 H1. unfold is_byte in *. rewrite (land_63 s0), (land_63 (Z.shiftr s0 2)), Z.shiftr_div_pow2 by lia.
  split; [zdiv|]. split; [done|]. split; [by apply lor_2_4|by apply lor_4_2].
Qed.

Lemma sextet_bytes v0 v1 : 0 <= v0 < 64 -> 0 <= v1 < 64 ->
  Z.lor (Z.shiftl v0 2) (Z.shiftr v1 4) = v0 * 4 + v1 / 16 /\ Z.lor (Z.shiftl v0 4) (Z.shiftr v1 2) = v0 * 16 + v1 / 4 /\
  Z.lor (Z.shiftl v0 6) v1 = v0 * 64 + v1.
Proof. intros H0 H1. rewrite !Z.shiftr_div_pow2 by lia. rewrite !lor_shiftl by zdiv. done. Qed.

(** Appends the next character or byte. *)
Ltac next_byte := rewrite put_next, ok_bind by (done || (rewrite ?length_app; simpl; lia)).

Lemma encode_internal_ok s : Forall is_byte s -> forall l m r, length m = length (enc64 s) ->
  encode_base64_internal basis_encode true (l ++ m ++ r) (Z.of_nat (length l)) s = Ok ((l ++ enc64 s) ++ r, Z.of_nat (length (l ++ enc64 s))).
Proof.
  assert (is_byte 0) as Hz by (unfold is_byte; lia).
  assert (forall v, 0 <= v < 64 -> bget basis_encode v = Ok (d64 v)) as Hg by (intros v Hv; by apply basis_spec).
  induction s as [|a|a b|a b c s IH] using groups_ind; intros Hs l m r Hm; rewrite ?Forall_cons in Hs; cbn [enc64 length] in Hm.
  - destruct m; [|done]. cbn [encode_base64_internal enc64]. by rewrite app_nil_r.
  - destruct Hs as [Ha _]. destruct m as [|x0 [|x1 [|x2 [|x3 [|? ?]]]]]; try done. cbn [encode_base64_internal enc64 app].
    destruct (byte_sextets a 0 Ha Hz) as (-> & _ & _ & _). rewrite shift_2_4. unfold is_byte in Ha. rewrite !Hg by zdiv.
    next_byte. next_byte. change (mret 61 : cres Z) with (Ok 61). next_byte.
    rewrite put_next by done. unfold padding. by rewrite <- !app_assoc.
  - destruct Hs as (Ha & Hb & _). destruct m as [|x0 [|x1 [|x2 [|x3 [|? ?]]]]]; try done. cbn [encode_base64_internal enc64 app].
    destruct (byte_sextets a b Ha Hb) as (-> & _ & -> & _). rewrite shift_4_2. unfold is_byte in Ha, Hb. rewrite !Hg by zdiv.
    next_byte. next_byte. next_byte. change (mret 61 : cres Z) with (Ok 61). rewrite put_next by done. unfold padding. by rewrite <- !app_assoc.
  - destruct Hs as (Ha & Hb & Hc & Hs). do 4 (destruct m as [|? m]; [simpl in Hm; lia|]). cbn [encode_base64_internal enc64 app].
    destruct (byte_sextets a b Ha Hb) as (-> & _ & -> & _). destruct (byte_sextets b c Hb Hc) as (_ & _ & _ & ->).
    destruct (byte_sextets c 0 Hc Hz) as (_ & -> & _). unfold is_byte in Ha, Hb, Hc. rewrite !Hg by zdiv.
    next_byte. next_byte. next_byte. next_byte. rewrite IH by (done || (simpl in Hm; lia)). by rewrite <- !app_assoc.
Qed.

Lemma decodable_ok vs k : Forall sextet vs -> decodable basis64 (map d64 vs ++ replicate k 61) = Ok (Some (map d64 vs)).
Proof.
  induction 1 as [|v vs Hv _ IH]; [destruct k; done|]. cbn [map app decodable].
  destruct (basis_spec v Hv) as (_ & Hb & Hn). rewrite decide_False, Hb, ok_bind by done. unfold sextet in Hv.
  rewrite decide_False, IH, ok_bind by lia. done.
Qed.

Lemma decode_groups_ok s : Forall is_byte s -> forall l m r, length m = length s ->
  decode_groups basis64 (l ++ m ++ r) (Z.of_nat (length l)) (map d64 (sextets s)) = Ok ((l ++ s) ++ r, Z.of_nat (length (l ++ s))).
Proof.
  assert (is_byte 0) as Hz by (unfold is_byte; lia).
  assert (forall v, 0 <= v < 64 -> bget basis64 (d64 v) = Ok v) as Hg by (intros v Hv; by apply basis_spec).
  assert (forall a b, is_byte a -> is_byte b -> 0 <= a / 4 < 64 /\ 0 <= a mod 4 * 16 + b / 16 < 64 /\ 0 <= a mod 4 * 16 < 64 /\
    0 <= a mod 16 * 4 < 64 /\ 0 <= a mod 16 * 4 + b / 64 < 64 /\ 0 <= a mod 64 < 64) as Hr by (unfold is_byte; intros; zdiv).
  induction s as [|a|a b|a b c s IH] using groups_ind; intros Hs l m r Hm; rewrite ?Forall_cons in Hs; cbn [length] in Hm.
  - destruct m; [|done]. by rewrite app_nil_r.
  - destruct Hs as [Ha _]. destruct m as [|x0 [|? ?]]; try done. cbn [decode_groups sextets map app].
    destruct (Hr a 0 Ha Hz) as (H1 & _ & H2 & _). rewrite !Hg, !ok_bind by done. destruct (sextet_bytes _ _ H1 H2) as (-> & _ & _).
    replace (u8 (a / 4 * 4 + a mod 4 * 16 / 16)) with a by (unfold is_byte, u8 in *; zdiv). cbn [mret cres_ret]. next_byte. done.
  - destruct Hs as (Ha & Hb & _). destruct m as [|x0 [|x1 [|? ?]]]; try done. cbn [decode_groups sextets map app].
    destruct (Hr a b Ha Hb) as (H1 & H2 & _). destruct (Hr b 0 Hb Hz) as (_ & _ & _ & H3 & _). rewrite !Hg, !ok_bind by done.
    destruct (sextet_bytes _ _ H1 H2) as (-> & _ & _). cbn [mret cres_ret].
    replace (u8 (a / 4 * 4 + (a mod 4 * 16 + b / 16) / 16)) with a by (unfold is_byte, u8 in *; zdiv).
    next_byte. rewrite ok_bind. destruct (sextet_bytes _ _ H2 H3) as (_ & -> & _). cbn [mret cres_ret].
    replace (u8 ((a mod 4 * 16 + b / 16) * 16 + b mod 16 * 4 / 4)) with b by (unfold is_byte, u8 in *; zdiv).
    rewrite put_next by done. by rewrite <- !app_assoc.
  - destruct Hs as (Ha & Hb & Hc & Hs). do 3 (destruct m as [|? m]; [simpl in Hm; lia|]). cbn [decode_groups sextets map app].
    destruct (Hr a b Ha Hb) as (H1 & H2 & _). destruct (Hr b c Hb Hc) as (_ & _ & _ & _ & H3 & _). destruct (Hr c 0 Hc Hz) as (_ & _ & _ & _ & _ & H4).
    rewrite !Hg, !ok_bind by done. destruct (sextet_bytes _ _ H1 H2) as (-> & _ & _).
    destruct (sextet_bytes _ _ H2 H3) as (_ & -> & _). destruct (sextet_bytes _ _ H3 H4) as (_ & _ & ->). cbn [mret cres_ret].
    replace (u8 (a / 4 * 4 + (a mod 4 * 16 + b / 16) / 16)) with a by (unfold is_byte, u8 in *; zdiv).
    replace (u8 ((a mod 4 * 16 + b / 16) * 16 + (b mod 16 * 4 + c / 64) / 4)) with b by (unfold is_byte, u8 in *; zdiv).
    replace (u8 ((b mod 16 * 4 + c / 64) * 64 + c mod 64)) with c by (unfold is_byte, u8 in *; zdiv).
    next_byte. next_byte. next_byte. rewrite IH by (done || (simpl in Hm; lia)). by rewrite <- !app_assoc.
Qed.

(** ** The byte order *)

Lemma le_value_bytes n x : 0 <= x < 256 ^ Z.of_nat n -> le_value (le_bytes n x) = x.
Proof.
  revert x. induction n as [|n IH]; intros x Hx; [simpl in *; lia|]. cbn [le_bytes le_value]. rewrite IH.
  - pose proof (Z.div_mod x 256). lia.
  - rewrite Nat2Z.inj_succ, Z.pow_succ_r in Hx by lia. split; [apply Z.div_pos; lia|]. apply Z.div_lt_upper_bound; lia.
Qed.

Lemma int64_roundtrip x : bytes_int64 (int64_bytes x) = i64 x.
Proof.
  unfold bytes_int64, int64_bytes. rewrite le_value_bytes by (unfold u64; apply Z.mod_pos_bound; lia).
  unfold i64, u64. f_equal. by rewrite Z.add_mod_idemp_l.
Qed.

Lemma le_bytes_length n x : length (le_bytes n x) = n.
Proof. revert x. induction n as [|n IH]; intros x; [done|]. cbn [le_bytes length]. by rewrite IH. Qed.
Lemma le_bytes_byte n x : Forall is_byte (le_bytes n x).
Proof. revert x. induction n as [|n IH]; intros x; [constructor|]. constructor; [apply Z.mod_pos_bound; lia|apply IH]. Qed.

Lemma bswap_range x : 0 <= x < 4294967296 -> 0 <= bswap32 x < 4294967296.
Proof. unfold bswap32. intros Hx. zdiv. Qed.

Lemma bswap_bytes b0 b1 b2 b3 : is_byte b0 -> is_byte b1 -> is_byte b2 -> is_byte b3 ->
  bswap32 (b0 + 256 * b1 + 65536 * b2 + 16777216 * b3) = b3 + 256 * b2 + 65536 * b1 + 16777216 * b0.
Proof. unfold is_byte, bswap32. intros. zdiv. Qed.

Lemma bswap_involutive x : 0 <= x < 4294967296 -> bswap32 (bswap32 x) = x.
Proof.
  intros Hx. assert (exists b0 b1 b2 b3, is_byte b0 /\ is_byte b1 /\ is_byte b2 /\ is_byte b3 /\
    x = b0 + 256 * b1 + 65536 * b2 + 16777216 * b3) as (b0 & b1 & b2 & b3 & H0 & H1 & H2 & H3 & ->).
  { exists (x mod 256), (x / 256 mod 256), (x / 65536 mod 256), (x / 16777216). unfold is_byte. zdiv. }
  by rewrite !bswap_bytes.
Qed.

Lemma u32_i32 x : u32 (i32 x) = x mod 4294967296.
Proof. unfold u32, i32. zdiv. Qed.

(** Both conversions, on the two halves of the host's representation. *)
Lemma hl64ton_halves host :
  let lo := bswap32 (host mod 4294967296) in
  let hi := bswap32 (host / 4294967296 mod 4294967296) in
  hl64ton host = Z.lor (i64 (Z.shiftl (i32 lo) 32)) (i32 hi) /\ ntohl64 host = hl64ton host.
Proof.
  cbv zeta. split; [|done]. unfold hl64ton. cbv zeta. rewrite !land_w32. unfold Fips.w32. rewrite !u32_i32, Z.shiftr_div_pow2 by lia.
  rewrite !Z.mod_mod by lia. done.
Qed.

(** Prices of 32 bits come back with their last bit as a sign. *)
Lemma price_order p : 0 <= p < 4294967296 -> ntohl64 (bytes_int64 (int64_bytes (hl64ton p))) = i32 p.
Proof.
  intros Hp. destruct (hl64ton_halves p) as [-> _]. cbv zeta. rewrite Z.div_small, !Z.mod_small by lia.
  change (i32 (bswap32 0)) with 0. rewrite Z.lor_0_r. pose proof (bswap_range p Hp) as Hb. set (b := bswap32 p) in *.
  assert (i64 (Z.shiftl (i32 b) 32) = i32 b * 4294967296) as ->.
  { rewrite Z.shiftl_mul_pow2 by lia. unfold i64, i32. change (2 ^ 32) with 4294967296. rewrite Z.mod_small; [lia|].
    pose proof (Z.mod_pos_bound (b + 2147483648) 4294967296). lia. }
  rewrite int64_roundtrip.
  assert (i64 (i32 b * 4294967296) = i32 b * 4294967296) as ->.
  { unfold i64, i32. rewrite Z.mod_small; [lia|]. pose proof (Z.mod_pos_bound (b + 2147483648) 4294967296). lia. }
  destruct (hl64ton_halves (i32 b * 4294967296)) as [E ->]. rewrite E. cbv zeta. rewrite Z.mod_mul, Z.div_mul by lia.
  change (i32 (bswap32 0)) with 0. change (i64 (Z.shiftl 0 32)) with 0. rewrite Z.lor_0_l.
  pose proof (u32_i32 b) as Hu. unfold u32 in Hu. rewrite Hu, Z.mod_small by lia. unfold b. by rewrite bswap_involutive.
Qed.

(** ** Decryption *)

Section Keys.
Context (H : bytes -> bytes -> bytes) (Hlen : forall k m, length (H k m) = 20%nat).
Context (Hbytes : forall k m, Forall is_byte (H k m)).
Context (freed : bytes -> option bytes).

Definition ekey : bytes := B "LDddztxx0MWPzQOW".
Definition ikey : bytes := B "Q7SHR27zfD6UAZLy".

(** What the receiver makes of a decoded message. *)
Definition iv_of (m : bytes) : bytes := take 16 m.
Definition price_of (m : bytes) : bytes := xors (take 8 (drop 16 m)) (take 8 (H ekey (iv_of m))).
Definition signature_of (m : bytes) : bytes := take 4 (H ikey (price_of m ++ iv_of m)).

(** The message a text stands for, with what follows it in its block: the text
    with its escapes undone and blanks put back to [+], taken for Base64. *)
Definition received (ao1 : bool) (fuel : nat) (encodedprice : bytes) : cres (option (bytes * bytes)) :=
  s ← cstr encodedprice;
  '(msg, len) ← urldecode fuel encodedprice (Z.of_nat (length s));
  msg ← spaces_loop (Z.to_nat len) msg 0;
  t ← cstr msg;
  r ← decode_base64 (if ao1 then replicate (Z.to_nat (base64_decoded_length (Z.of_nat (length t)))) 0 else []) t;
  mret (match r with Some (block, n) => Some (take (Z.to_nat n) block, drop (Z.to_nat n) block) | None => None end).

(** The receiver's answer: it looks for the signature in the block it has
    released. *)
Definition verdict (m block : bytes) (failed : Z * Z) : cres (Z * Z) :=
  match freed block with
  | None => UB
  | Some b => mret (if decide (signature_of m = take 4 (drop 24 b)) then (0, ntohl64 (bytes_int64 (price_of m))) else failed)
  end.

Lemma decode_base64_message m dst : Forall is_byte m -> (length m <= length dst)%nat ->
  decode_base64 dst (enc64 m) = Ok (Some (m ++ drop (length m) dst, Z.of_nat (length m))).
Proof.
  intros Hm Hd. unfold decode_base64, decode_base64_internal. destruct (sextets_ok m Hm) as [H1 H2].
  rewrite enc64_sextets, decodable_ok, ok_bind by done. rewrite length_map.
  rewrite decide_False by (intros E; apply H2; apply Nat2Z.inj; by rewrite Nat2Z.inj_mod).
  rewrite <- (take_drop (length m) dst) at 1.
  pose proof (decode_groups_ok m Hm [] (take (length m) dst) (drop (length m) dst)) as E. cbn [app length] in E.
  change (Z.of_nat 0) with 0 in E. rewrite E by (rewrite length_take; lia). done.
Qed.

Lemma spaces_loop_ok s rest : Forall (fun c => c ≠ 32) s -> forall l,
  spaces_loop (length s) (l ++ s ++ rest) (Z.of_nat (length l)) = Ok (l ++ s ++ rest).
Proof.
  induction 1 as [|c s Hc _ IH]; intros l; [done|]. cbn [length spaces_loop app].
  rewrite bget_app, ok_bind, decide_False by done. cbn [mret cres_ret]. rewrite ok_bind.
  replace (Z.of_nat (length l) + 1) with (Z.of_nat (length (l ++ [c]))) by (rewrite length_app; simpl; lia).
  change (l ++ c :: s ++ rest) with (l ++ [c] ++ s ++ rest). rewrite app_assoc. apply IH.
Qed.

Lemma enc64_chars s : Forall is_byte s -> Forall (fun c => is_byte c /\ c ≠ 32) (enc64 s).
Proof.
  intros Hs. rewrite enc64_sextets. apply Forall_app. split; [|by apply Forall_replicate].
  apply Forall_map. destruct (sextets_ok s Hs) as [H1 _]. eapply Forall_impl; [exact H1|]. intros v Hv. simpl.
  assert (Forall (fun v => is_byte (d64 v) /\ d64 v ≠ 32) (map Z.of_nat (seq 0 64))) as Hall
    by (apply (bool_decide_unpack _); vm_compute; exact I).
  rewrite Forall_forall in Hall. apply Hall. unfold sextet in Hv. apply list_elem_of_fmap. exists (Z.to_nat v). split; [lia|]. apply elem_of_seq. lia.
Qed.

Lemma url_text_no_nul s : Forall is_byte s -> no_nul s -> no_nul (url_encode_loop s).
Proof.
  intros Hb Hn. induction Hn as [|c s Hc _ IH]; [constructor|]. apply Forall_cons in Hb as [Hcb Hb]. cbn [url_encode_loop].
  apply Forall_app. split; [|by apply IH]. destruct (decide (c = 32)); [by repeat constructor|].
  destruct (url_special c); [|by repeat constructor].
  assert (forall v, 0 <= v < 16 -> hexdigit v ≠ 0) as Hh.
  { intros v Hv. assert (Forall (fun v => hexdigit v ≠ 0) (map Z.of_nat (seq 0 16))) as Hall
      by (apply (bool_decide_unpack _); vm_compute; exact I).
    rewrite Forall_forall in Hall. apply Hall. apply list_elem_of_fmap. exists (Z.to_nat v). split; [lia|]. apply elem_of_seq. lia. }
  unfold is_byte in Hcb. constructor; [done|]. constructor; [apply Hh; rewrite Z.shiftr_div_pow2 by lia; zdiv|].
  constructor; [apply Hh; rewrite land_15; zdiv|constructor].
Qed.

(** A message, in the form it travels in the URL. *)
Definition url_message (m : bytes) : bytes := url_encode_loop (enc64 m).

(** The receiver's answer to every text. *)
Lemma winning_price_spec ao fuel text : ao 0%nat = true ->
  DecodeWinningPrice H freed ao fuel text =
    (r ← received (ao 1%nat) fuel text;
     match r with
     | Some (m, tail) => if decide (length m = 28%nat) then verdict m (m ++ tail) (1, 0) else Ok (1, 0)
     | None => Ok (1, 0)
     end).
Proof.
  intros H0. unfold DecodeWinningPrice, received, decrypt_price. rewrite H0. cbn [negb].
  change (cstr ekey_text) with (Ok ekey). change (cstr ikey_text) with (Ok ikey).
  destruct (cstr text) as [s| |]; [rewrite !ok_bind|done..].
  destruct (urldecode fuel text (Z.of_nat (length s))) as [[msg len]| |]; [rewrite !ok_bind|done..].
  destruct (spaces_loop (Z.to_nat len) msg 0) as [msg'| |]; [rewrite !ok_bind|done..].
  destruct (cstr msg') as [t| |]; [rewrite !ok_bind|done..].
  match goal with |- context [decode_base64 ?d t] => destruct (decode_base64 d t) as [[[block n]|]| |] end; [|done..].
  rewrite !ok_bind. cbn [mret cres_ret]. unfold split_encrypt, verdict. rewrite take_drop.
  destruct (decide (length (take (Z.to_nat n) block) = 28%nat)) as [Hl|Hl]; [rewrite decide_False by tauto|by rewrite decide_True].
  unfold hmac_sha1_n, signature_of, price_of, iv_of. destruct (freed block) as [b|]; [|done]. by case_decide.
Qed.

(** Every message can be sent. *)
Lemma received_message fuel m rest : Forall is_byte m -> (length (enc64 m) < fuel)%nat ->
  received true fuel (url_message m ++ 0 :: rest) =
    Ok (Some (m, replicate (Z.to_nat (base64_decoded_length (Z.of_nat (length (enc64 m)))) - length m) 0)).
Proof.
  intros Hm Hf. pose proof (enc64_chars m Hm) as Hc.
  assert (Forall is_byte (enc64 m)) as Hb by (eapply Forall_impl; [exact Hc|]; naive_solver).
  unfold received, urldecode, url_message.
  rewrite cstr_app, ok_bind by (apply url_text_no_nul; [done|by apply enc64_no_nul]).
  destruct (url_decode_loop_ok fuel [] [] (enc64 m) (0 :: rest) Hb Hf) as (gap & E & _). cbn [app length] in E.
  change (Z.of_nat (0 + 0)) with 0 in E. change (Z.of_nat 0) with 0 in E. unfold url_decode. rewrite E, ok_bind.
  assert (exists x tl, gap ++ 0 :: rest = x :: tl) as (x & tl & Hx) by (destruct gap; simpl; eauto).
  rewrite Hx, bset_app, ok_bind by done. cbn [mret cres_ret]. rewrite ok_bind. change (0 + length (enc64 m))%nat with (length (enc64 m)).
  rewrite Nat2Z.id. pose proof (spaces_loop_ok (enc64 m) (0 :: tl)) as Hs. specialize (Hs ltac:(eapply Forall_impl; [exact Hc|]; naive_solver) []).
  cbn [app length] in Hs. change (Z.of_nat 0) with 0 in Hs. rewrite Hs, ok_bind.
  rewrite cstr_app, ok_bind by (by apply enc64_no_nul).
  assert (length m <= Z.to_nat (base64_decoded_length (Z.of_nat (length (enc64 m)))))%nat as Hroom.
  { unfold base64_decoded_length. rewrite enc64_length, Nat2Z.inj_mul, Nat2Z.inj_div, Nat2Z.inj_add. zdiv. }
  rewrite decode_base64_message, ok_bind by (done || by rewrite length_replicate).
  by rewrite Nat2Z.id, take_app_length, drop_app_length, drop_replicate.
Qed.

Lemma winning_price_ok ao fuel m rest : Forall is_byte m -> ao 0%nat = true -> ao 1%nat = true -> (length (enc64 m) < fuel)%nat ->
  DecodeWinningPrice H freed ao fuel (url_message m ++ 0 :: rest) =
    if decide (length m = 28%nat) then verdict m (m ++ [0; 0]) (1, 0) else mret (1, 0).
Proof.
  intros Hm H0 H1 Hf. rewrite winning_price_spec, H1, received_message, ok_bind by done.
  destruct (decide (length m = 28%nat)) as [Hl|]; [|done]. by rewrite enc64_length, Hl.
Qed.


(** The message the owner of both keys writes for a vector and the eight bytes
    of a price. *)
Definition signed_message (iv p : bytes) : bytes :=
  iv ++ xors (take 8 (H ekey iv)) p ++ take 4 (H ikey (p ++ iv)).
Definition genuine_message (iv : bytes) (price : Z) : bytes := signed_message iv (int64_bytes (hl64ton price)).

Lemma xors_cancel a b : length a = length b -> xors (xors a b) a = b.
Proof.
  revert b. induction a as [|x a IH]; intros [|y b] Hl; try done. unfold xors in *. cbn [zip_with]. f_equal.
  - by rewrite (Z.lxor_comm x y), Z.lxor_assoc, Z.lxor_nilpotent, Z.lxor_0_r.
  - apply IH. simpl in Hl. lia.
Qed.

Lemma signed_parts iv p : length iv = 16%nat -> length p = 8%nat ->
  let m := signed_message iv p in
  length m = 28%nat /\ iv_of m = iv /\ price_of m = p /\ signature_of m = take 4 (drop 24 m).
Proof.
  intros Hl Hp. cbv zeta. unfold signed_message.
  assert (length (take 8 (H ekey iv)) = 8%nat) as H8 by (rewrite length_take, Hlen; done).
  assert (length (xors (take 8 (H ekey iv)) p) = 8%nat) as Hx by (unfold xors; rewrite length_zip_with; lia).
  set (x := xors (take 8 (H ekey iv)) p) in *. set (sg := take 4 (H ikey (p ++ iv))).
  assert (length sg = 4%nat) as Hsg by (unfold sg; rewrite length_take, Hlen; done).
  assert (iv_of (iv ++ x ++ sg) = iv) as Eiv by (unfold iv_of; rewrite <- Hl; by rewrite take_app_length).
  assert (price_of (iv ++ x ++ sg) = p) as Ep.
  { unfold price_of. rewrite Eiv, <- Hl, drop_app_length, <- Hx, take_app_length, Hx. unfold x. apply xors_cancel. lia. }
  assert (length (iv ++ x ++ sg) = 28%nat) as HL by (rewrite !length_app; lia).
  split_and!; try done.
  unfold signature_of. rewrite Ep, Eiv. fold sg. rewrite app_assoc. replace 24%nat with (length (iv ++ x)) by (rewrite length_app; lia).
  rewrite drop_app_length, <- Hsg. by rewrite firstn_all.
Qed.

Lemma genuine_ok iv price : Forall is_byte iv -> length iv = 16%nat ->
  let m := genuine_message iv price in
  Forall is_byte m /\ length m = 28%nat /\ signature_of m = take 4 (drop 24 m) /\ price_of m = int64_bytes (hl64ton price).
Proof.
  intros Hiv Hl. cbv zeta. unfold genuine_message. set (p := int64_bytes (hl64ton price)).
  assert (length p = 8%nat) as Hp by apply le_bytes_length. assert (Forall is_byte p) as Hpb by apply le_bytes_byte.
  destruct (signed_parts iv p Hl Hp) as (HL & _ & Hpr & Hs). split; [|done].
  unfold signed_message. rewrite !Forall_app. split_and!; [done| |by apply Forall_take]. apply xors_bytes; [by apply Forall_take|done].
Qed.


Lemma encrypt_price_ok iv price result : no_nul iv -> Forall is_byte iv -> length iv = 16%nat -> (40 <= length result)%nat ->
  encrypt_price H (iv ++ [0]) ekey_text ikey_text price (result, 0) = Ok (enc64 (genuine_message iv price) ++ drop 40 result, 40).
Proof.
  intros Hn Hb Hl Hr. unfold encrypt_price. rewrite cstr_app, ok_bind by done.
  change (cstr ekey_text) with (Ok ekey). change (cstr ikey_text) with (Ok ikey). rewrite !ok_bind. cbv zeta.
  destruct (genuine_ok iv price Hb Hl) as (Hm & HL & _). unfold hmac_sha1_n.
  change (iv ++ xors (take 8 (H ekey iv)) (int64_bytes (hl64ton price)) ++ take 4 (H ikey (int64_bytes (hl64ton price) ++ iv)))
    with (genuine_message iv price).
  rewrite HL. rewrite decide_True by done. unfold encode_base64. cbn [fst].
  assert (length (enc64 (genuine_message iv price)) = 40%nat) as HE by (rewrite enc64_length, HL; done).
  rewrite <- (take_drop 40 result) at 1.
  pose proof (encode_internal_ok (genuine_message iv price) Hm [] (take 40 result) (drop 40 result)) as E. cbn [app length] in E.
  change (Z.of_nat 0) with 0 in E. rewrite E by (rewrite length_take; lia). by rewrite HE.
Qed.
End Keys.

(** ** The price of a winning bid *)

(** C33: the Autohome price makes the round trip.  Whatever the keyed hash
    is, if it gives twenty bytes, [encrypt_price] writes the Base64 text of
    the message of a sixteen-character vector and a price; the receiver of
    this text, escaped for a URL, computes the signature that was sent, and
    answers with the price taken as a signed number of 32 bits: prices below
    2^31 come back unchanged, the others come back less by 2^32, because the
    conversion of the byte order extends the sign of the lower half.  The
    answer depends on what the released block reads as. *)
Theorem autohome_price_roundtrip (H : bytes -> bytes -> bytes) (freed : bytes -> option bytes) (ao : nat -> bool) (fuel : nat)
  (iv result rest : bytes) (price : Z) :
  (forall k m, length (H k m) = 20%nat) -> (forall k m, Forall is_byte (H k m)) ->
  no_nul iv -> Forall is_byte iv -> length iv = 16%nat -> (40 <= length result)%nat -> 0 <= price < 4294967296 ->
  ao 0%nat = true -> ao 1%nat = true -> (40 < fuel)%nat ->
  exists m, length m = 28%nat /\
    encrypt_price H (iv ++ [0]) ekey_text ikey_text price (result, 0) = Ok (enc64 m ++ drop 40 result, 40) /\
    DecodeWinningPrice H freed ao fuel (url_message m ++ 0 :: rest) =
      match freed (m ++ [0; 0]) with
      | None => UB
      | Some b => Ok (if decide (take 4 (drop 24 m) = take 4 (drop 24 b)) then (0, i32 price) else (1, 0))
      end /\
    (price < 2147483648 -> i32 price = price) /\ (2147483648 <= price -> i32 price = price - 4294967296).
Proof.
  intros Hlen Hbytes Hn Hb Hl Hr Hp H0 H1 Hf. exists (genuine_message H iv price).
  destruct (genuine_ok H Hlen Hbytes iv price Hb Hl) as (Hm & HL & Hs & Hpr).
  split; [done|]. split; [by apply encrypt_price_ok|]. split.
  - rewrite winning_price_ok by (done || (rewrite enc64_length, HL; done)). rewrite decide_True by done.
    unfold verdict. destruct (freed _); [|done]. rewrite Hs, Hpr, price_order by done. done.
  - unfold i32. split; intros Hc; zdiv.
Qed.

Lemma autohome_price_roundtrip_witness : exists m, length m = 28%nat /\
  DecodeWinningPrice HMAC Some (fun _ => true) 64 (url_message m ++ [0]) = Ok (0, 1500).
Proof.
  destruct (autohome_price_roundtrip HMAC Some (fun _ => true) 64 (B "aaaaaaabbbbbbbcc") (replicate 48 0) [] 1500 HMAC_length HMAC_bytes)
    as (m & Hl & _ & Hd & _ & _);
    [apply (bool_decide_unpack _); vm_compute; exact I|apply (bool_decide_unpack _); vm_compute; exact I|reflexivity
    |vm_compute; lia|lia|reflexivity|reflexivity|lia|].
  exists m. split; [exact Hl|]. rewrite Hd. rewrite decide_True; [reflexivity|].
  rewrite drop_app_le, take_app_le; [reflexivity| |]; rewrite ?length_drop, Hl; apply Nat.leb_le; reflexivity.
Defined.



