(* ===== verification/GdtBase64.v ===== *)
(** Base64 for Gdt: BidCore/common/adx_decode/gdt/base64.c; the copies of
    momo, iflytek and baselib differ in two characters of the alphabet or in
    taking the length as an argument.

    [char] is signed: a byte above 127 used as an index or compared is
    negative.  [ok] is the answer of [malloc]. *)

From Stdlib Require Import ZArith Lia.
From S2P Require Import Prelude ZplaySha1 ZplayHmac ZplayPrice AutohomePrice.

Open Scope Z_scope.

Definition BASE64_PAD64 : Z := 61.
Definition base64_alphabet : bytes := B "ABCDEFGHIJKLMNOPQRSTUVWXYZabcdefghijklmnopqrstuvwxyz0123456789-_".

Definition base64_suffix_map : bytes :=
  replicate 43 255 ++ [62; 255; 255; 255; 63; 52; 53; 54; 55; 56; 57; 58; 59; 60; 61] ++ replicate 7 255 ++
  map Z.of_nat (seq 0 26) ++ replicate 6 255 ++ map Z.of_nat (seq 26 26) ++ replicate 133 255.

(** The result as a byte. *)
Definition cmove_bits (src lnum rnum : Z) : Z :=
  let src := u8 (Z.shiftl src lnum) in
  Z.shiftr src rnum.

Definition letter (v : Z) : cres Z := bget base64_alphabet v.

(** The [n] groups that are left; the last one is the one with [padnum]. *)
Fixpoint encode_loop (n : nat) (data ret : bytes) (retpos padnum : Z) : cres bytes :=
  match n with
  | O => mret ret
  | S n =>
      d0 ← bget data 0;
      '(ret, p) ← put ret retpos (letter (cmove_bits d0 0 2));
      '(ret, p) ←
        (if decide (n = 0%nat /\ padnum ≠ 0) then
           if decide (padnum = 1) then
             d1 ← bget data 1;
             '(ret, p) ← put ret p (letter (cmove_bits d0 6 2 + cmove_bits d1 0 4));
             '(ret, p) ← put ret p (letter (cmove_bits d1 4 2));
             put ret p (mret BASE64_PAD64)
           else if decide (padnum = 2) then
             '(ret, p) ← put ret p (letter (cmove_bits d0 6 2));
             '(ret, p) ← put ret p (mret BASE64_PAD64);
             put ret p (mret BASE64_PAD64)
           else mret (ret, p)
         else
           d1 ← bget data 1; d2 ← bget data 2;
           '(ret, p) ← put ret p (letter (cmove_bits d0 6 2 + cmove_bits d1 0 4));
           '(ret, p) ← put ret p (letter (cmove_bits d1 4 2 + cmove_bits d2 0 6));
           put ret p (letter (Z.land d2 0x3f)));
      encode_loop n (drop 3 data) ret (retpos + 4) padnum
  end.

Definition base64_encode (ok : bool) (data : bytes) : cres (option bytes) :=
  s ← cstr data;
  dlen ← int_ok (Z.of_nat (length s));
  if decide (dlen = 0) then mret None else
  let padnum := if decide (Z.rem dlen 3 ≠ 0) then 3 - Z.rem dlen 3 else 0 in
  total ← int_ok (dlen + padnum);
  retsize ← int_ok (total + Z.quot (total * 1) 3 + 1);
  if negb ok then mret None else
  ret ← encode_loop (Z.to_nat (total / 3)) data (replicate (Z.to_nat retsize) 0) 0 padnum;
  ret ← bset ret (retsize - 1) 0;
  mret (Some ret).

(** Whether every character is accepted: [base64_suffix_map[bdata[m]] == 255]
    compares a [char]. *)
Fixpoint all_valid (s : bytes) : cres bool :=
  match s with
  | [] => mret true
  | c :: s =>
      if decide (c = BASE64_PAD64) then all_valid s else
      v ← bget base64_suffix_map (schar c);
      if decide (schar v = 255) then mret false else all_valid s
  end.

Definition suffix (data : bytes) (i : Z) : cres Z := c ← bget data i; bget base64_suffix_map (schar c).

Fixpoint decode_loop (n : nat) (bdata ret : bytes) (retpos padnum : Z) : cres bytes :=
  match n with
  | O => mret ret
  | S n =>
      v0 ← suffix bdata 0; v1 ← suffix bdata 1;
      '(ret, p) ← put ret retpos (mret (u8 (cmove_bits v0 2 0 + cmove_bits v1 0 4)));
      '(ret, p) ←
        (if decide (n = 0%nat /\ padnum ≠ 0) then
           if decide (padnum = 1) then
             v2 ← suffix bdata 2;
             put ret p (mret (u8 (cmove_bits v1 4 0 + cmove_bits v2 0 2)))
           else mret (ret, p)
         else
           v2 ← suffix bdata 2; v3 ← suffix bdata 3;
           '(ret, p) ← put ret p (mret (u8 (cmove_bits v1 4 0 + cmove_bits v2 0 2)));
           put ret p (mret (u8 (cmove_bits v2 6 0 + v3))));
      decode_loop n (drop 4 bdata) ret p padnum
  end.

Definition base64_decode (ok : bool) (bdata : bytes) : cres (option bytes) :=
  s ← cstr bdata;
  bdlen ← int_ok (Z.of_nat (length s));
  if decide (bdlen = 0) then mret None else
  if decide (Z.rem bdlen 4 ≠ 0) then mret None else
  valid ← all_valid s;
  if negb valid then mret None else
  c1 ← bget bdata (bdlen - 1);
  c2 ← bget bdata (bdlen - 2);
  let padnum := if decide (c1 = 61 /\ c2 = 61) then 2 else if decide (c1 = 61) then 1 else 0 in
  let retsize := (bdlen - 4) - Z.quot (bdlen - 4) 4 + (3 - padnum) + 1 in
  if negb ok then mret None else
  ret ← decode_loop (Z.to_nat (bdlen / 4)) bdata (replicate (Z.to_nat retsize) 0) 0 padnum;
  ret ← bset ret (retsize - 1) 0;
  mret (Some ret).

(** ** The codec *)

Lemma cmove_eq src l r : 0 <= l -> 0 <= r -> cmove_bits src l r = (src * 2 ^ l) mod 256 / 2 ^ r.
Proof. intros Hl Hr. unfold cmove_bits, u8. by rewrite Z.shiftr_div_pow2, Z.shiftl_mul_pow2. Qed.

(** The parts of a byte and of a sextet. *)
Lemma cmove_byte d : is_byte d -> cmove_bits d 0 2 = d / 4 /\ cmove_bits d 6 2 = d mod 4 * 16 /\ cmove_bits d 0 4 = d / 16 /\
  cmove_bits d 4 2 = d mod 16 * 4 /\ cmove_bits d 0 6 = d / 64.
Proof.
  unfold is_byte. intros Hd. rewrite !cmove_eq by lia. change (2 ^ 0) with 1. change (2 ^ 2) with 4. change (2 ^ 4) with 16. change (2 ^ 6) with 64.
  zdiv.
Qed.

Lemma cmove_sextet v : sextet v -> cmove_bits v 2 0 = v * 4 /\ cmove_bits v 0 4 = v / 16 /\ cmove_bits v 4 0 = v * 16 mod 256 /\
  cmove_bits v 0 2 = v / 4 /\ cmove_bits v 6 0 = v * 64 mod 256.
Proof.
  unfold sextet. intros Hv. rewrite !cmove_eq by lia. change (2 ^ 0) with 1. change (2 ^ 2) with 4. change (2 ^ 4) with 16. change (2 ^ 6) with 64.
  rewrite !Z.div_1_r, !Z.mul_1_r, (Z.mod_small v), (Z.mod_small (v * 4)) by lia. done.
Qed.

Definition gdt_ok (v : Z) : bool :=
  bool_decide (letter v = Ok (to_url (d64 v))) && bool_decide (bget base64_suffix_map (schar (d64 v)) = Ok v) && bool_decide (0 < d64 v < 128 /\ d64 v ≠ 61).

Lemma gdt_spec v : sextet v -> letter v = Ok (to_url (d64 v)) /\ bget base64_suffix_map (schar (d64 v)) = Ok v /\ 0 < d64 v < 128 /\ d64 v ≠ 61.
Proof.
  intros Hv. assert (Forall (fun v => gdt_ok v = true) (map Z.of_nat (seq 0 64))) as H
    by (apply (bool_decide_unpack _); vm_compute; exact I).
  rewrite Forall_forall in H. specialize (H v). unfold gdt_ok in H. rewrite !andb_true_iff, !bool_decide_eq_true in H.
  destruct H as [[? ?] ?]; [|done]. apply list_elem_of_fmap. exists (Z.to_nat v). unfold sextet in Hv. split; [lia|]. apply elem_of_seq. lia.
Qed.

Definition pad_count (s : bytes) : Z := Z.of_nat ((3 - length s mod 3) mod 3).

Lemma pad_count_cons a b c s : pad_count (a :: b :: c :: s) = pad_count s.
Proof.
  unfold pad_count. cbn [length]. replace (S (S (S (length s)))) with (length s + 1 * 3)%nat by lia. by rewrite Nat.Div0.mod_add.
Qed.

Lemma groups_count a b c (s : bytes) : ((length (a :: b :: c :: s) + 2) / 3 = S ((length s + 2) / 3))%nat.
Proof. cbn [length]. replace (S (S (S (length s))) + 2)%nat with (length s + 2 + 1 * 3)%nat by lia. rewrite Nat.div_add by lia. lia. Qed.

Lemma gdt_encode_loop_ok rest s : Forall is_byte s -> forall l m r, length m = length (enc64 s) ->
  encode_loop ((length s + 2) / 3) (s ++ 0 :: rest) (l ++ m ++ r) (Z.of_nat (length l)) (pad_count s) = Ok ((l ++ map to_url (enc64 s)) ++ r).
Proof.
  assert (forall v, 0 <= v < 64 -> letter v = Ok (to_url (d64 v))) as Hg by (intros v Hv; by apply gdt_spec).
  induction s as [|a|a b|a b c s IH] using groups_ind; intros Hs l m r Hm; rewrite ?Forall_cons in Hs; cbn [enc64 length] in Hm.
  - destruct m; [|done]. cbn [enc64 map]. by rewrite app_nil_r.
  - destruct Hs as [Ha _]. destruct m as [|x0 [|x1 [|x2 [|x3 [|? ?]]]]]; try done.
    change (pad_count [a]) with 2. change ((length [a] + 2) / 3)%nat with 1%nat. cbn [encode_loop app enc64 map].
    change (bget (a :: 0 :: rest) 0) with (Ok a). rewrite ok_bind. destruct (cmove_byte a Ha) as (-> & -> & _). unfold is_byte in Ha. rewrite !Hg by zdiv.
    next_byte. rewrite decide_True, decide_False, decide_True by (done || lia). next_byte. change (mret BASE64_PAD64 : cres Z) with (Ok 61). next_byte.
    rewrite put_next, ok_bind by done. cbn [mret cres_ret]. change (to_url padding) with 61. by rewrite <- !app_assoc.
  - destruct Hs as (Ha & Hb & _). destruct m as [|x0 [|x1 [|x2 [|x3 [|? ?]]]]]; try done.
    change (pad_count [a; b]) with 1. change ((length [a; b] + 2) / 3)%nat with 1%nat. cbn [encode_loop app enc64 map].
    change (bget (a :: b :: 0 :: rest) 0) with (Ok a). change (bget (a :: b :: 0 :: rest) 1) with (Ok b). rewrite ok_bind.
    destruct (cmove_byte a Ha) as (-> & Ea & _). destruct (cmove_byte b Hb) as (_ & _ & Eb & Eb' & _). unfold is_byte in Ha, Hb. rewrite (Hg (a / 4)) by zdiv.
    next_byte. rewrite decide_True, decide_True, ok_bind, Ea, Eb, Eb', !Hg by (done || zdiv). next_byte. next_byte. change (mret BASE64_PAD64 : cres Z) with (Ok 61).
    rewrite put_next, ok_bind by done. cbn [mret cres_ret]. change (to_url padding) with 61. by rewrite <- !app_assoc.
  - destruct Hs as (Ha & Hb & Hc & Hs). do 4 (destruct m as [|? m]; [simpl in Hm; lia|]). rewrite pad_count_cons, groups_count.
    cbn [encode_loop app enc64 map]. change (drop 3 (a :: b :: c :: s ++ 0 :: rest)) with (s ++ 0 :: rest).
    change (bget (a :: b :: c :: s ++ 0 :: rest) 0) with (Ok a). change (bget (a :: b :: c :: s ++ 0 :: rest) 1) with (Ok b).
    change (bget (a :: b :: c :: s ++ 0 :: rest) 2) with (Ok c). rewrite ok_bind.
    destruct (cmove_byte a Ha) as (-> & Ea & _). destruct (cmove_byte b Hb) as (_ & _ & Eb & Eb' & _). destruct (cmove_byte c Hc) as (_ & _ & _ & _ & Ec).
    unfold is_byte in Ha, Hb, Hc. rewrite (Hg (a / 4)) by zdiv. next_byte. rewrite decide_False.
    2: { intros [Hn Hp]. destruct s; [done|]. cbn [length] in Hn. assert (S (length s) + 2 < 3)%nat by (apply Nat.div_small_iff; lia). lia. }
    rewrite !ok_bind, land_63, Ea, Eb, Eb', Ec, !Hg by zdiv. next_byte. next_byte. rewrite put_next, ok_bind by done.
    replace (Z.of_nat (length l) + 4) with (Z.of_nat (length ((((l ++ [to_url (d64 (a / 4))]) ++ [to_url (d64 (a mod 4 * 16 + b / 16))]) ++
      [to_url (d64 (b mod 16 * 4 + c / 64))]) ++ [to_url (d64 (c mod 64))]))) by (rewrite !length_app; simpl; lia).
    rewrite IH by (done || (simpl in Hm; lia)). by rewrite <- !app_assoc.
Qed.

Lemma bget_at data z x : 0 <= z -> data !! Z.to_nat z = Some x -> bget data z = Ok x.
Proof. intros Hz Hl. unfold bget. by rewrite decide_True, Hl. Qed.

Lemma suffix_ok data z v : 0 <= z -> data !! Z.to_nat z = Some (d64 v) -> sextet v -> suffix data z = Ok v.
Proof. intros Hz Hl Hv. unfold suffix. rewrite (bget_at data z _ Hz Hl), ok_bind. by apply gdt_spec. Qed.

(** Reads the sextet [v] at [z]. *)
Ltac read z v := rewrite (suffix_ok _ z v) by (lia || reflexivity || (unfold sextet; zdiv)).

Lemma gdt_decode_loop_ok rest s : Forall is_byte s -> forall l m r, length m = length s ->
  decode_loop ((length s + 2) / 3) (enc64 s ++ 0 :: rest) (l ++ m ++ r) (Z.of_nat (length l)) (pad_count s) = Ok ((l ++ s) ++ r).
Proof.
  assert (forall v w, 0 <= v < 64 -> 0 <= w < 64 ->
    u8 (cmove_bits v 2 0 + cmove_bits w 0 4) = v * 4 + w / 16 /\ u8 (cmove_bits v 4 0 + cmove_bits w 0 2) = v mod 16 * 16 + w / 4 /\
    u8 (cmove_bits v 6 0 + w) = v mod 4 * 64 + w) as Hsx.
  { intros v w Hv Hw. destruct (cmove_sextet v Hv) as (-> & _ & -> & _ & ->). destruct (cmove_sextet w Hw) as (_ & -> & _ & -> & _). unfold u8. zdiv. }
  induction s as [|a|a b|a b c s IH] using groups_ind; intros Hs l m r Hm; rewrite ?Forall_cons in Hs; unfold is_byte in Hs; cbn [length] in Hm.
  - destruct m; [|done]. by rewrite app_nil_r.
  - destruct Hs as [Ha _]. destruct m as [|x0 [|? ?]]; try done.
    change (pad_count [a]) with 2. change ((length [a] + 2) / 3)%nat with 1%nat. cbn [decode_loop app enc64].
    read 0 (a / 4). read 1 (a mod 4 * 16). rewrite !ok_bind.
    destruct (Hsx (a / 4) (a mod 4 * 16)) as (-> & _ & _); [zdiv..|].
    replace (a / 4 * 4 + a mod 4 * 16 / 16) with a by zdiv. cbn [mret cres_ret]. next_byte.
    rewrite decide_True, decide_False by (done || lia). rewrite ok_bind. by rewrite <- app_assoc.
  - destruct Hs as (Ha & Hb & _). destruct m as [|x0 [|x1 [|? ?]]]; try done.
    change (pad_count [a; b]) with 1. change ((length [a; b] + 2) / 3)%nat with 1%nat. cbn [decode_loop app enc64].
    read 0 (a / 4). read 1 (a mod 4 * 16 + b / 16). rewrite !ok_bind.
    destruct (Hsx (a / 4) (a mod 4 * 16 + b / 16)) as (-> & _ & _); [zdiv..|].
    replace (a / 4 * 4 + (a mod 4 * 16 + b / 16) / 16) with a by zdiv. cbn [mret cres_ret]. next_byte.
    rewrite decide_True, decide_True by (done || lia). read 2 (b mod 16 * 4). rewrite ok_bind.
    destruct (Hsx (a mod 4 * 16 + b / 16) (b mod 16 * 4)) as (_ & -> & _); [zdiv..|].
    replace ((a mod 4 * 16 + b / 16) mod 16 * 16 + b mod 16 * 4 / 4) with b by zdiv. rewrite put_next, ok_bind by done. by rewrite <- !app_assoc.
  - destruct Hs as (Ha & Hb & Hc & Hs). do 3 (destruct m as [|? m]; [simpl in Hm; lia|]). rewrite pad_count_cons, groups_count.
    cbn [decode_loop app enc64].
    change (drop 4 (?x :: ?y :: ?z :: ?w :: ?t)) with t.
    read 0 (a / 4). read 1 (a mod 4 * 16 + b / 16). rewrite !ok_bind.
    destruct (Hsx (a / 4) (a mod 4 * 16 + b / 16)) as (-> & _ & _); [zdiv..|].
    replace (a / 4 * 4 + (a mod 4 * 16 + b / 16) / 16) with a by zdiv. cbn [mret cres_ret]. next_byte.
    rewrite decide_False.
    2: { intros [Hn Hp]. destruct s; [done|]. cbn [length] in Hn. assert (S (length s) + 2 < 3)%nat by (apply Nat.div_small_iff; lia). lia. }
    read 2 (b mod 16 * 4 + c / 64). read 3 (c mod 64). rewrite !ok_bind.
    destruct (Hsx (a mod 4 * 16 + b / 16) (b mod 16 * 4 + c / 64)) as (_ & -> & _); [zdiv..|].
    destruct (Hsx (b mod 16 * 4 + c / 64) (c mod 64)) as (_ & _ & ->); [zdiv..|].
    replace ((a mod 4 * 16 + b / 16) mod 16 * 16 + (b mod 16 * 4 + c / 64) / 4) with b by zdiv.
    replace ((b mod 16 * 4 + c / 64) mod 4 * 64 + c mod 64) with c by zdiv.
    next_byte. rewrite put_next, ok_bind by done. rewrite IH by (done || (simpl in Hm; lia)). by rewrite <- !app_assoc.
Qed.

(** ** Which texts are decoded *)

Definition plain (c : Z) : Prop := 0 < c < 128.

Definition plain_ok (c : Z) : bool := match bget base64_suffix_map (schar c) with Ok v => bool_decide (schar v ≠ 255) | _ => false end.

Lemma plain_suffix c : plain c -> exists v, bget base64_suffix_map (schar c) = Ok v /\ schar v ≠ 255.
Proof.
  intros Hc. assert (Forall (fun c => plain_ok c = true) (map Z.of_nat (seq 0 128))) as H
    by (apply (bool_decide_unpack _); vm_compute; exact I).
  rewrite Forall_forall in H. specialize (H c). unfold plain_ok in H. destruct (bget base64_suffix_map (schar c)) as [v| |].
  - exists v. split; [done|]. apply (bool_decide_eq_true (schar v ≠ 255)). apply H. apply list_elem_of_fmap. exists (Z.to_nat c).
    unfold plain in Hc. split; [lia|]. apply elem_of_seq. lia.
  - discriminate H. apply list_elem_of_fmap. exists (Z.to_nat c). unfold plain in Hc. split; [lia|]. apply elem_of_seq. lia.
  - discriminate H. apply list_elem_of_fmap. exists (Z.to_nat c). unfold plain in Hc. split; [lia|]. apply elem_of_seq. lia.
Qed.

Lemma all_valid_plain s : Forall plain s -> all_valid s = Ok true.
Proof.
  induction 1 as [|c s Hc _ IH]; [done|]. cbn [all_valid]. case_decide; [done|]. destruct (plain_suffix c Hc) as (v & -> & Hv).
  by rewrite ok_bind, decide_False.
Qed.

Lemma all_valid_high s c t : Forall plain s -> 128 <= c < 256 -> all_valid (s ++ c :: t) = UB.
Proof.
  intros Hs Hc. induction Hs as [|d s Hd _ IH].
  - cbn [app all_valid]. rewrite decide_False by (unfold BASE64_PAD64; lia). assert (schar c = c - 256) as -> by (unfold schar; by rewrite decide_False by lia).
    unfold bget. by rewrite decide_False by lia.
  - cbn [app all_valid]. case_decide; [done|]. destruct (plain_suffix d Hd) as (v & -> & Hv). by rewrite ok_bind, decide_False.
Qed.

Lemma put_total dst e v : 0 <= e < Z.of_nat (length dst) -> exists dst', put dst e (mret v) = Ok (dst', e + 1) /\ length dst' = length dst.
Proof.
  intros He. change (mret v : cres Z) with (Ok v). unfold put, bset. rewrite ok_bind, decide_True by done. rewrite ok_bind. eexists. split; [done|]. apply length_insert.
Qed.

Lemma suffix_total data z c : 0 <= z -> data !! Z.to_nat z = Some c -> plain c -> exists v, suffix data z = Ok v.
Proof.
  intros Hz Hl Hc. unfold suffix. rewrite (bget_at data z _ Hz Hl), ok_bind.
  destruct (plain_suffix c Hc) as (v & -> & _). by exists v.
Qed.

Lemma decode_loop_total n : forall bdata ret retpos padnum, (4 * n <= length bdata)%nat -> Forall plain (take (4 * n) bdata) ->
  0 <= padnum <= 2 -> 0 <= retpos -> retpos + 3 * Z.of_nat n - padnum <= Z.of_nat (length ret) ->
  exists ret', decode_loop n bdata ret retpos padnum = Ok ret' /\ length ret' = length ret.
Proof.
  induction n as [|n IH]; intros bdata ret retpos padnum Hl Hp Hpad Hr Hroom; [by exists ret|].
  destruct bdata as [|c0 [|c1 [|c2 [|c3 bdata]]]]; try (simpl in Hl; lia).
  replace (4 * S n)%nat with (S (S (S (S (4 * n))))) in Hp by lia. cbn [take] in Hp. rewrite !Forall_cons in Hp. destruct Hp as (H0 & H1 & H2 & H3 & Hp).
  cbn [decode_loop]. set (data := c0 :: c1 :: c2 :: c3 :: bdata).
  destruct (suffix_total data 0 c0) as [v0 ->]; [lia|done|done|]. destruct (suffix_total data 1 c1) as [v1 ->]; [lia|done|done|]. rewrite !ok_bind.
  destruct (put_total ret retpos (u8 (cmove_bits v0 2 0 + cmove_bits v1 0 4))) as (ret1 & -> & L1); [lia|]. rewrite ok_bind.
  destruct (suffix_total data 2 c2) as [v2 ->]; [lia|done|done|]. destruct (suffix_total data 3 c3) as [v3 ->]; [lia|done|done|].
  assert (forall ret2 p2, length ret2 = length ret -> 0 <= p2 -> (n = 0%nat \/ p2 = retpos + 3) ->
    exists ret', decode_loop n (drop 4 data) ret2 p2 padnum = Ok ret' /\ length ret' = length ret) as Hnext.
  { intros ret2 p2 L2 Hp2 Hn. change (drop 4 data) with bdata. destruct n as [|n]; [by exists ret2|]. destruct Hn as [Hn|Hn]; [done|]. subst p2.
    rewrite <- L2. apply IH; [simpl in Hl; lia|done|done|lia|]. rewrite L2. lia. }
  case_decide as Hlast.
  - case_decide.
    + rewrite ok_bind. destruct (put_total ret1 (retpos + 1) (u8 (cmove_bits v1 4 0 + cmove_bits v2 0 2))) as (ret2 & -> & L2); [lia|]. rewrite ok_bind.
      apply Hnext; [lia|lia|tauto].
    + rewrite ok_bind. apply Hnext; [lia|lia|tauto].
  - rewrite !ok_bind. destruct (put_total ret1 (retpos + 1) (u8 (cmove_bits v1 4 0 + cmove_bits v2 0 2))) as (ret2 & -> & L2); [lia|]. rewrite ok_bind.
    destruct (put_total ret2 (retpos + 1 + 1) (u8 (cmove_bits v2 6 0 + v3))) as (ret3 & -> & L3); [lia|]. rewrite ok_bind. apply Hnext; [lia|lia|right; lia].
Qed.

(** ** Sizes *)

Lemma pad_count_eq s : pad_count s = (if decide (Z.rem (Z.of_nat (length s)) 3 ≠ 0) then 3 - Z.rem (Z.of_nat (length s)) 3 else 0).
Proof.
  unfold pad_count. rewrite Nat2Z.inj_mod, Nat2Z.inj_sub, Nat2Z.inj_mod by (pose proof (Nat.mod_upper_bound (length s) 3); lia).
  change (Z.of_nat 3) with 3. case_decide; zdiv.
Qed.

Lemma groups_total s : Z.of_nat (length s) + pad_count s = 3 * Z.of_nat ((length s + 2) / 3).
Proof. rewrite pad_count_eq, Nat2Z.inj_div, Nat2Z.inj_add. change (Z.of_nat 3) with 3. change (Z.of_nat 2) with 2. case_decide; zdiv. Qed.

Lemma enc64_total s : Z.of_nat (length (enc64 s)) = 4 * Z.of_nat ((length s + 2) / 3).
Proof. rewrite enc64_length. lia. Qed.

Lemma bget_skip4 a b c d t i j : 0 <= i -> j = i + 4 -> bget (a :: b :: c :: d :: t) j = bget t i.
Proof.
  intros Hi ->. unfold bget. rewrite !decide_True by lia. replace (Z.to_nat (i + 4)) with (S (S (S (S (Z.to_nat i))))) by lia. done.
Qed.

(** The padding the decoder sees at the end of the standard text. *)
Lemma pad_seen rest s : s ≠ [] -> Forall is_byte s -> exists c1 c2,
  bget (enc64 s ++ 0 :: rest) (Z.of_nat (length (enc64 s)) - 1) = Ok c1 /\ bget (enc64 s ++ 0 :: rest) (Z.of_nat (length (enc64 s)) - 2) = Ok c2 /\
  (if decide (c1 = 61 /\ c2 = 61) then 2 else if decide (c1 = 61) then 1 else 0) = pad_count s.
Proof.
  assert (forall v, 0 <= v < 64 -> d64 v ≠ 61) as Hd by (intros v Hv; by apply gdt_spec).
  induction s as [|a|a b|a b c s IH] using groups_ind; intros Hne Hs; rewrite ?Forall_cons in Hs; unfold is_byte in Hs; [done| | |].
  - exists 61, 61. done.
  - exists 61, (d64 (b mod 16 * 4)). split; [done|]. split; [done|]. rewrite decide_False; [done|]. intros [_ H]. revert H. apply Hd. zdiv.
  - destruct Hs as (_ & _ & Hc & Hs). rewrite pad_count_cons. cbn [enc64 app length]. destruct s as [|x s].
    + exists (d64 (c mod 64)), (d64 (b mod 16 * 4 + c / 64)). split; [done|]. split; [done|].
      assert (d64 (c mod 64) ≠ 61) by (apply Hd; zdiv). rewrite !decide_False by tauto. done.
    + destruct (IH ltac:(done) Hs) as (c1 & c2 & H1 & H2 & H3). exists c1, c2.
      assert (4 <= Z.of_nat (length (enc64 (x :: s)))) by (rewrite enc64_total; cbn [length]; pose proof (Nat.div_str_pos (S (length s) + 2) 3); lia).
      set (L := Z.of_nat (length (enc64 (x :: s)))) in *.
      rewrite (bget_skip4 _ _ _ _ _ (L - 1)), (bget_skip4 _ _ _ _ _ (L - 2)) by lia. done.
Qed.

Lemma enc64_plain s : Forall is_byte s -> Forall plain (enc64 s).
Proof.
  intros Hs. rewrite enc64_sextets. apply Forall_app. split; [|by apply Forall_replicate].
  apply Forall_map. destruct (sextets_ok s Hs) as [H _]. eapply Forall_impl; [exact H|]. intros v Hv. by apply gdt_spec.
Qed.

Lemma plain_no_nul s : Forall plain s -> no_nul s.
Proof. intros H. eapply Forall_impl; [exact H|]. unfold plain. simpl. lia. Qed.

(** C40: Base64 as Gdt's file has it.  [base64_encode] writes the standard
    text with [-] and [_] for [+] and [/]; [base64_decode] undoes the
    standard text, so it undoes [base64_encode] when neither of the two
    occurs, and gives other bytes when one does. *)
Theorem gdt_base64_roundtrip (s rest : bytes) :
  s ≠ [] -> Forall is_byte s -> no_nul s -> Z.of_nat (length s) <= 1000000000 ->
  base64_encode true (s ++ 0 :: rest) = Ok (Some (map to_url (enc64 s) ++ [0])) /\
  base64_decode true (enc64 s ++ 0 :: rest) = Ok (Some (s ++ [0])) /\
  (Forall (fun c => c ≠ 43 /\ c ≠ 47) (enc64 s) -> base64_decode true (map to_url (enc64 s) ++ [0]) = Ok (Some (s ++ [0]))) /\
  base64_encode true (B ">>>" ++ [0]) = Ok (Some (B "Pj4-" ++ [0])) /\
  base64_decode true (B "Pj4-" ++ [0]) = Ok (Some ([62; 62; 63 + 192] ++ [0])).
Proof.
  intros Hne Hs Hn Hl. set (g := ((length s + 2) / 3)%nat).
  pose proof (groups_total s) as Hg. fold g in Hg. pose proof (enc64_total s) as Hg4. fold g in Hg4.
  assert (0 <= pad_count s <= 2) as Hpad by (unfold pad_count; pose proof (Nat.mod_upper_bound (3 - length s mod 3) 3); lia).
  assert (0 < Z.of_nat (length s)) as Hpos by (destruct s; [done|simpl; lia]).
  assert (forall r, base64_decode true (enc64 s ++ 0 :: r) = Ok (Some (s ++ [0]))) as Hdec.
  { intros r. unfold base64_decode. rewrite cstr_app, ok_bind, int_ok_in, ok_bind by (lia || by apply enc64_no_nul).
    rewrite decide_False, decide_False by (rewrite ?Hg4; zdiv). rewrite all_valid_plain, ok_bind by (by apply enc64_plain). cbn [negb].
    destruct (pad_seen r s Hne Hs) as (c1 & c2 & -> & -> & Hseen). rewrite !ok_bind, Hseen. cbv zeta.
    rewrite Hg4. replace (Z.quot (4 * Z.of_nat g - 4) 4) with (Z.of_nat g - 1) by zdiv.
    replace (Z.to_nat (4 * Z.of_nat g / 4)) with g by zdiv.
    replace (4 * Z.of_nat g - 4 - (Z.of_nat g - 1) + (3 - pad_count s) + 1) with (Z.of_nat (length s) + 1) by lia.
    replace (Z.to_nat (Z.of_nat (length s) + 1)) with (length s + 1)%nat by lia. rewrite replicate_add.
    pose proof (gdt_decode_loop_ok r s Hs [] (replicate (length s) 0) (replicate 1 0)) as D. cbn [app length] in D. fold g in D. change (Z.of_nat 0) with 0 in D.
    rewrite D by apply length_replicate. rewrite ok_bind. change (replicate 1 0) with [0]. by rewrite bset_app by lia. }
  split; [|split; [apply Hdec|split; [|split; vm_compute; reflexivity]]].
  - unfold base64_encode. rewrite cstr_app, ok_bind, int_ok_in, ok_bind, decide_False by (done || lia). rewrite <- pad_count_eq. cbv zeta.
    rewrite int_ok_in, ok_bind, Hg by lia. replace (Z.quot (3 * Z.of_nat g * 1) 3) with (Z.of_nat g) by zdiv. rewrite int_ok_in, ok_bind by lia. cbn [negb].
    replace (Z.to_nat (3 * Z.of_nat g / 3)) with g by zdiv.
    replace (Z.to_nat (3 * Z.of_nat g + Z.of_nat g + 1)) with (length (enc64 s) + 1)%nat by lia. rewrite replicate_add.
    pose proof (gdt_encode_loop_ok rest s Hs [] (replicate (length (enc64 s)) 0) (replicate 1 0)) as E. cbn [app length] in E. fold g in E. change (Z.of_nat 0) with 0 in E.
    rewrite E by apply length_replicate. rewrite ok_bind. change (replicate 1 0) with [0].
    rewrite bset_app by (rewrite length_map; lia). done.
  - intros Hc. replace (map to_url (enc64 s)) with (enc64 s); [apply Hdec|]. clear -Hc. induction Hc as [|c l [H1 H2] _ IH]; [done|].
    cbn [map]. unfold to_url at 1. rewrite !decide_False by done. by f_equal.
Qed.

Lemma gdt_base64_roundtrip_witness : base64_decode true (map to_url (enc64 (B "price=12")) ++ [0]) = Ok (Some (B "price=12" ++ [0])).
Proof.
  destruct (gdt_base64_roundtrip (B "price=12") []) as (_ & _ & H & _);
    [discriminate|apply (bool_decide_unpack _); vm_compute; exact I|apply (bool_decide_unpack _); vm_compute; exact I|vm_compute; discriminate|].
  apply H. apply (bool_decide_unpack _). vm_compute. exact I.
Defined.

(** the test for invalid characters refuses nothing.  The table marks
    them by 255, which as a [char] is -1 and never equals 255: every text
    whose length is a positive multiple of four is decoded if its characters
    are below 128, and a character above 127 is looked up before the table. *)
Theorem gdt_base64_accepts (s rest t : bytes) (c : Z) : s ≠ [] -> Forall plain s -> Z.of_nat (length s) <= 1000000000 ->
  (Z.of_nat (length s) mod 4 = 0 -> exists ret, base64_decode true (s ++ 0 :: rest) = Ok (Some ret)) /\
  (128 <= c < 256 -> no_nul t -> Z.of_nat (length (s ++ c :: t)) mod 4 = 0 -> Z.of_nat (length t) <= 1000000000 ->
   base64_decode true ((s ++ c :: t) ++ 0 :: rest) = UB).
Proof.
  intros Hne Hp Hl. split.
  - intros H4. unfold base64_decode. rewrite cstr_app, ok_bind, int_ok_in, ok_bind by (lia || by apply plain_no_nul).
    assert (4 <= Z.of_nat (length s)) as Hge by (destruct s; [done|cbn [length] in *; zdiv]).
    rewrite decide_False, decide_False by zdiv. rewrite all_valid_plain, ok_bind by done. cbn [negb].
    assert (forall z, 0 <= z < Z.of_nat (length s) -> exists x, bget (s ++ 0 :: rest) z = Ok x) as Hget.
    { intros z Hz. destruct (lookup_lt_is_Some_2 (s ++ 0 :: rest) (Z.to_nat z)) as [x Hx]; [rewrite length_app; lia|]. exists x. apply bget_at; [lia|done]. }
    destruct (Hget (Z.of_nat (length s) - 1)) as [c1 ->]; [lia|]. destruct (Hget (Z.of_nat (length s) - 2)) as [c2 ->]; [lia|]. rewrite !ok_bind. cbv zeta.
    match goal with |- context [3 - ?p] => assert (0 <= p <= 2) as Hpad by (repeat case_decide; lia); revert Hpad; generalize p; intros padnum Hpad end.
    set (size := Z.of_nat (length s) - 4 - Z.quot (Z.of_nat (length s) - 4) 4 + (3 - padnum) + 1).
    assert (exists g, length s = (4 * g)%nat /\ (0 < g)%nat) as (g & Hg & Hg0) by (exists (length s / 4)%nat; pose proof (Nat2Z.inj_div (length s) 4); change (Z.of_nat 4) with 4 in *; zdiv).
    assert (size = 3 * Z.of_nat g - padnum + 1) as Hsize by (unfold size; rewrite Hg; zdiv).
    replace (Z.to_nat (Z.of_nat (length s) / 4)) with g by (rewrite Hg; zdiv).
    destruct (decode_loop_total g (s ++ 0 :: rest) (replicate (Z.to_nat size) 0) 0 padnum) as (ret & -> & HL);
      [rewrite length_app; lia|rewrite <- Hg, take_app_length; done|done|lia|rewrite length_replicate; lia|].
    rewrite ok_bind. unfold bset. rewrite decide_True by (rewrite HL, length_replicate; lia). by eexists.
  - intros Hc Hn H4 Hlt. rewrite length_app in H4. cbn [length] in H4. unfold base64_decode.
    rewrite cstr_app, ok_bind by (apply Forall_app; split; [by apply plain_no_nul|constructor; [lia|done]]).
    rewrite int_ok_in, ok_bind by (rewrite length_app; cbn [length]; lia). rewrite length_app. cbn [length].
    rewrite decide_False, decide_False by zdiv. by rewrite all_valid_high.
Qed.

Lemma gdt_base64_accepts_witness : (exists ret, base64_decode true (B "a!b?" ++ [0]) = Ok (Some ret)) /\ base64_decode true (B "abc" ++ [200; 0]) = UB.
Proof.
  split.
  - apply (gdt_base64_accepts (B "a!b?") [] [] 200); [discriminate|apply (bool_decide_unpack _); vm_compute; exact I|vm_compute; discriminate|reflexivity].
  - apply (gdt_base64_accepts (B "abc") [] [] 200); [discriminate|apply (bool_decide_unpack _); vm_compute; exact I|vm_compute; discriminate|lia|constructor|reflexivity|vm_compute; discriminate].
Defined.
