(* ===== verification/AdxChain.v ===== *)
(** Buffer chains, tokens and licence keys: the functions of
    adx_module/adx_com_libs/adx_string.c that adx_dsp/src/adx_string.c
    (AdxString.v) does not have.

    nginx's pool is external to the file: [ao] says for each call in turn
    whether [ngx_pcalloc] gives a block, which is fresh and full of zeros.
    Chain links and buffers live in a store, because the code changes them
    through pointers. *)

From Stdlib Require Import ZArith Lia.
From S2P Require Import Prelude.

Open Scope Z_scope.

(** ** The store *)

(** [pos] and [last] are positions in the block they point into. *)
Record ngx_buf_t := Buf { block : bytes; pos : Z; last : Z; memory : Z; last_buf : Z }.
Record ngx_chain_t := Chain { buf : Z; next : Z }.
(** [ngx_str_t]; [data] is the block, [None] for NULL. *)
Record ngx_str_t := NStr { len : Z; data : option bytes }.
Definition ngx_null_string : ngx_str_t := NStr 0 None.

Record mem := Mem { chains : gmap Z ngx_chain_t; bufs : gmap Z ngx_buf_t; calls : nat; top : Z }.
Definition set_chain (m : mem) (p : Z) (c : ngx_chain_t) : mem := Mem (<[p := c]> (chains m)) (bufs m) (calls m) (top m).
Definition set_buf (m : mem) (p : Z) (b : ngx_buf_t) : mem := Mem (chains m) (<[p := b]> (bufs m)) (calls m) (top m).
Definition get_chain (m : mem) (p : Z) : cres ngx_chain_t := of_opt (chains m !! p).
Definition get_buf (m : mem) (p : Z) : cres ngx_buf_t := of_opt (bufs m !! p).

(** [ngx_int_t] arithmetic. *)
Definition long_ok (z : Z) : cres Z := if decide (-9223372036854775808 <= z <= 9223372036854775807) then mret z else UB.

(** The bytes between [pos] and [last]. *)
Definition contents (b : ngx_buf_t) : cres bytes :=
  if decide (0 <= pos b <= last b /\ last b <= Z.of_nat (length (block b)))
  then mret (take (Z.to_nat (last b - pos b)) (drop (Z.to_nat (pos b)) (block b))) else UB.

(** ** Chains *)

(** [for (p = chain; p; p = p->next) len += buf->last - buf->pos;] *)
Fixpoint chain_len_loop (fuel : nat) (m : mem) (p len : Z) : cres Z :=
  if decide (p = 0) then mret len else
  match fuel with
  | O => NoFuel
  | S fuel =>
      c ← get_chain m p;
      b ← get_buf m (buf c);
      len ← long_ok (len + (last b - pos b));
      chain_len_loop fuel m (next c) len
  end.

Definition adx_chain_len (fuel : nat) (m : mem) (chain : Z) : cres Z := chain_len_loop fuel m chain 0.

(** [memcpy(&s[pos], ...); pos += buf->last - buf->pos] with [int pos]. *)
Fixpoint chain_copy_loop (fuel : nat) (m : mem) (p : Z) (s : bytes) (pos : Z) : cres bytes :=
  if decide (p = 0) then mret s else
  match fuel with
  | O => NoFuel
  | S fuel =>
      c ← get_chain m p;
      b ← get_buf m (buf c);
      t ← contents b;
      s ← bwrite s pos t;
      chain_copy_loop fuel m (next c) s (i32 (pos + (last b - AdxChain.pos b)))
  end.

Section Pool.
Context (ao : nat -> bool).

(** The address of a block, or 0. *)
Definition ngx_pcalloc (m : mem) : Z * mem :=
  (if ao (calls m) then top m else 0, Mem (chains m) (bufs m) (S (calls m)) (top m + 1)).

Definition adx_chain_alloc (pool : bool) (m : mem) (buffer : option bytes) (size : Z) : cres (Z * mem) :=
  match buffer with
  | None => mret (0, m)
  | Some buffer =>
      if negb pool || bool_decide (size = 0) then mret (0, m) else
      let '(chain, m) := ngx_pcalloc m in
      if decide (chain = 0) then mret (0, m) else
      let '(b, m) := ngx_pcalloc m in
      let m := set_chain m chain (Chain b 0) in
      if decide (b = 0) then mret (0, m) else
      let m := set_buf m b (Buf [] 0 0 0 0) in
      let '(p, m) := ngx_pcalloc m in
      if decide (p = 0) then mret (0, m) else
      if decide (0 <= size <= Z.of_nat (length buffer)) then
        mret (chain, set_buf m b (Buf (take (Z.to_nat size) buffer) 0 size 1 1))
      else UB
  end.

Definition adx_chain_alloc_r (pool : bool) (m : mem) (buffer : option bytes) : cres (Z * mem) :=
  match buffer with
  | None => mret (0, m)
  | Some b =>
      s ← cstr b;
      let len := i32 (Z.of_nat (length s)) in
      if decide (len = 0) then mret (0, m) else adx_chain_alloc pool m buffer (u64 len)
  end.

Definition adx_chain_to_str (fuel : nat) (m : mem) (src : Z) : cres (ngx_str_t * mem) :=
  len ← adx_chain_len fuel m src;
  if decide (len <= 0) then mret (ngx_null_string, m) else
  let '(s, m) := ngx_pcalloc m in
  if decide (s = 0) then mret (ngx_null_string, m) else
  s ← chain_copy_loop fuel m src (replicate (Z.to_nat (len + 1)) 0) 0;
  s ← bset s len 0;
  mret (NStr len (Some s), m).

(** ** Strings *)

(** [sprintf(s, "%zd", number)] into 64 bytes. *)
Definition adx_number_to_str (m : mem) (number : Z) : cres (ngx_str_t * mem) :=
  let '(s, m) := ngx_pcalloc m in
  if decide (s = 0) then UB else
  s ← bwrite (replicate 64 0) 0 (dec number ++ [0]);
  mret (NStr (Z.of_nat (length (dec number))) (Some s), m).

(** The block made, or [None]. *)
Definition adx_str_to_pointer (m : mem) (s : ngx_str_t) : cres (option bytes * mem) :=
  let '(dest, m) := ngx_pcalloc m in
  if decide (dest = 0) then mret (None, m) else
  src ← of_opt (data s);
  if decide (0 <= len s <= Z.of_nat (length src)) then
    dest ← bwrite (replicate (Z.to_nat (len s + 1)) 0) 0 (take (Z.to_nat (len s)) src);
    dest ← bset dest (len s) 0;
    mret (Some dest, m)
  else UB.

Definition adx_str_from_pointer (m : mem) (str : option bytes) : cres (option ngx_str_t * mem) :=
  match str with
  | None => mret (None, m)
  | Some b =>
      let '(s, m) := ngx_pcalloc m in
      if decide (s = 0) then mret (None, m) else
      t ← cstr b;
      mret (Some (NStr (Z.of_nat (length t)) (Some b)), m)
  end.
End Pool.

(** ** Tokens *)

(** The loop of [adx_strtok] over the characters [s] at position [i] of the
    text: the array, the position of the terminator, and the position after
    the separator if it found one. *)
Fixpoint strtok_loop (s : bytes) (dest : bytes) (p i : Z) (ch : Z) : cres (bytes * Z * option Z) :=
  match s with
  | [] => mret (dest, p, None)
  | c :: s =>
      if decide (schar c = ch) then
        dest ← bset dest p 0;
        mret (dest, p, Some (i + 1))
      else
        dest ← bset dest p c;
        strtok_loop s dest (p + 1) (i + 1) ch
  end.

(** [src] and [*save_ptr] are positions in [text]; [save_ptr] is [None] for
    NULL.  The result says whether [dest] is returned. *)
Definition adx_strtok (text : bytes) (src : option Z) (dest : bytes) (save_ptr : option (option Z)) (ch : Z)
  : cres (bool * bytes * option (option Z)) :=
  dest ← bset dest 0 0;
  let src := match save_ptr with Some (Some p) => Some p | _ => src end in
  s ← match src with
      | Some p => if decide (0 <= p <= Z.of_nat (length text)) then cstr (drop (Z.to_nat p) text) else UB
      | None => mret []
      end;
  '(dest, p, found) ← strtok_loop s dest 0 (default 0 src) ch;
  match found with
  | Some n => match save_ptr with None => UB | Some _ => mret (true, dest, Some (Some n)) end
  | None =>
      match save_ptr with
      | None => UB
      | Some save =>
          if decide (src ≠ None \/ save ≠ None) then
            dest ← bset dest p 0;
            mret (true, dest, Some None)
          else mret (false, dest, save_ptr)
      end
  end.

(** [inet_pton] is external: [is_addr].  The result is a position. *)
Fixpoint domain_loop (s : bytes) (p : Z) : option Z :=
  match s with
  | [] => None
  | c :: s => if decide (c = 46) then Some (p + 1) else domain_loop s (p + 1)
  end.

Definition adx_string_domain_parse (is_addr : bytes -> bool) (url : option bytes) : cres (option Z) :=
  match url with
  | None => mret None
  | Some b => s ← cstr b; if is_addr s then mret (Some 0) else mret (domain_loop s 0)
  end.

(** ** Licence keys *)

Definition license_step (i : Z) : cres Z :=
  if decide (Z.rem i 3 = 0) then int_ok ((i + 1) * 5)
  else if decide (Z.rem i 4 = 0) then mret (Z.quot (i + 2) 3)
  else if decide (Z.rem i 5 ≠ 0) then int_ok ((i + 3) * 4)
  else mret (Z.quot (i + 4) 2).

Fixpoint coding_loop (n : nat) (buffer : bytes) (i : Z) : cres bytes :=
  match n with
  | O => mret buffer
  | S n =>
      buffer ← (if decide (Z.rem i 2 ≠ 0) then c ← bget buffer i; bset buffer i (u8 (Z.lnot c)) else mret buffer);
      key ← license_step i;
      c ← bget buffer i;
      buffer ← bset buffer i (u8 (if decide (Z.rem key 2 ≠ 0) then c + key else c - key));
      coding_loop n buffer (i + 1)
  end.

Definition license_key_coding (buffer : bytes) (size : Z) : cres bytes := coding_loop (Z.to_nat size) buffer 0.

Fixpoint decoding_loop (n : nat) (buffer : bytes) (i : Z) : cres bytes :=
  match n with
  | O => mret buffer
  | S n =>
      key ← license_step i;
      c ← bget buffer i;
      buffer ← bset buffer i (u8 (if decide (Z.rem key 2 ≠ 0) then c - key else c + key));
      buffer ← (if decide (Z.rem i 2 ≠ 0) then c ← bget buffer i; bset buffer i (u8 (Z.lnot c)) else mret buffer);
      decoding_loop n buffer (i + 1)
  end.

Definition license_key_decoding (buffer : bytes) (size : Z) : cres bytes := decoding_loop (Z.to_nat size) buffer 0.

(** [file] is the contents of the file, [None] when it cannot be opened. *)
Definition license_file (file : option bytes) (key : bytes) : cres bytes :=
  key ← bwrite key 0 (replicate 128 0);
  match file with
  | None => mret key
  | Some f =>
      let t := take 128 f in
      key ← bwrite key 0 t;
      let size := Z.of_nat (length t) in
      if decide (size <= 0) then mret key else bset key (size - 1) 0
  end.

(** ** Chains as sequences of buffers *)

(** The links from [p] to [q], each with its address, its buffer's address
    and its buffer. *)
Fixpoint seg (m : mem) (p : Z) (xs : list (Z * Z * ngx_buf_t)) (q : Z) : Prop :=
  match xs with
  | [] => p = q
  | (c, b, bf) :: xs =>
      p = c /\ c ≠ 0 /\ bufs m !! b = Some bf /\ exists n, chains m !! c = Some (Chain b n) /\ seg m n xs q
  end.

Definition holds (xs : list (Z * Z * ngx_buf_t)) (ts : list bytes) : Prop := Forall2 (fun x t => contents x.2 = Ok t) xs ts.

Definition total (ts : list bytes) : Z := Z.of_nat (length (concat ts)).

Lemma contents_length b t : contents b = Ok t -> last b - pos b = Z.of_nat (length t).
Proof.
  unfold contents. case_decide as H; [|done]. intros [= <-]. rewrite length_take, length_drop. lia.
Qed.

Lemma total_cons t ts : total (t :: ts) = Z.of_nat (length t) + total ts.
Proof. unfold total. cbn [concat]. rewrite length_app. lia. Qed.
Lemma total_nonneg ts : 0 <= total ts.
Proof. unfold total. lia. Qed.

Lemma chain_len_loop_ok m xs ts : holds xs ts -> forall fuel p len, seg m p xs 0 -> 0 <= len ->
  len + total ts <= 9223372036854775807 -> (length xs <= fuel)%nat -> chain_len_loop fuel m p len = Ok (len + total ts).
Proof.
  induction 1 as [|[[c b] bf] t xs ts Ht _ IH]; intros fuel p len Hs Hl Ht' Hf.
  - simpl in Hs. subst p. unfold total. simpl. rewrite Z.add_0_r. by destruct fuel.
  - destruct Hs as (-> & Hc & Hb & n & Hch & Hs). destruct fuel as [|fuel]; [simpl in Hf; lia|]. cbn [chain_len_loop].
    rewrite decide_False by done. unfold get_chain, get_buf. rewrite Hch. cbn [of_opt]. rewrite ok_bind. cbn [buf next].
    simpl in Ht. rewrite Hb. cbn [of_opt]. rewrite ok_bind, (contents_length _ _ Ht).
    rewrite total_cons in Ht' |- *. pose proof (total_nonneg ts). unfold long_ok. rewrite decide_True by lia. cbn [mret cres_ret]. rewrite ok_bind.
    rewrite IH by (done || (simpl in Hf; lia)). f_equal. lia.
Qed.

Lemma chain_copy_loop_ok m xs ts : holds xs ts -> forall fuel p l mid tl, seg m p xs 0 ->
  Z.of_nat (length l) + total ts <= 2147483647 -> length mid = length (concat ts) -> (length xs <= fuel)%nat ->
  chain_copy_loop fuel m p (l ++ mid ++ tl) (Z.of_nat (length l)) = Ok (l ++ concat ts ++ tl).
Proof.
  induction 1 as [|[[c b] bf] t xs ts Ht _ IH]; intros fuel p l mid tl Hs Hl Hm Hf.
  - simpl in Hs. subst p. destruct mid; [|done]. by destruct fuel.
  - destruct Hs as (-> & Hc & Hb & n & Hch & Hs). destruct fuel as [|fuel]; [simpl in Hf; lia|]. cbn [chain_copy_loop].
    rewrite decide_False by done. unfold get_chain, get_buf. rewrite Hch. cbn [of_opt]. rewrite ok_bind. cbn [buf next].
    simpl in Ht. rewrite Hb. cbn [of_opt]. rewrite ok_bind, Ht, ok_bind, (contents_length _ _ Ht).
    rewrite total_cons in Hl. pose proof (total_nonneg ts). cbn [concat] in Hm |- *. rewrite length_app in Hm.
    rewrite <- (take_drop (length t) mid), <- (app_assoc (take _ mid)).
    rewrite bwrite_app, ok_bind by (done || (rewrite length_take; lia)).
    replace (i32 (Z.of_nat (length l) + Z.of_nat (length t))) with (Z.of_nat (length (l ++ t)))
      by (rewrite length_app; unfold i32; zdiv).
    rewrite app_assoc, IH by (done || (rewrite ?length_app, ?length_drop; simpl in Hf; lia)). by rewrite <- !app_assoc.
Qed.

(** The text of a chain.  [adx_chain_to_str] gives the buffers of the chain
    one after the other, with a terminator; an empty chain and a refused block
    give the null string.  The chain itself is unchanged. *)
Lemma chain_to_str_ok (ao : nat -> bool) (fuel : nat) (m : mem) (src : Z) (xs : list (Z * Z * ngx_buf_t)) (ts : list bytes) :
  seg m src xs 0 -> holds xs ts -> total ts <= 2147483646 -> 0 < top m -> (length xs <= fuel)%nat ->
  adx_chain_len fuel m src = Ok (total ts) /\
  exists m', seg m' src xs 0 /\ 0 < top m' /\
    adx_chain_to_str ao fuel m src =
      Ok (if decide (0 < total ts) then
            if ao (calls m) then NStr (total ts) (Some (concat ts ++ [0])) else ngx_null_string
          else ngx_null_string, m').
Proof.
  intros Hs Hh Ht Htop Hf. unfold adx_chain_to_str, adx_chain_len. pose proof (total_nonneg ts).
  pose proof (chain_len_loop_ok m xs ts Hh fuel src 0 Hs) as E. rewrite Z.add_0_l in E.
  rewrite E by (done || lia). split; [done|]. rewrite ok_bind.
  destruct (decide (0 < total ts)) as [Hp|Hp]; [|rewrite decide_True by lia; by exists m].
  rewrite decide_False by lia. unfold ngx_pcalloc. cbv beta iota zeta.
  assert (seg (Mem (chains m) (bufs m) (S (calls m)) (top m + 1)) src xs 0) as Hs' by (clear -Hs; revert src Hs; induction xs as [|[[c b] bf] xs IH]; intros src Hs;
    [done|destruct Hs as (? & ? & ? & n & ? & ?); split_and!; [done..|]; exists n; split; [done|by apply IH]]).
  exists (Mem (chains m) (bufs m) (S (calls m)) (top m + 1)). split; [done|]. split; [cbn [top]; lia|].
  destruct (ao (calls m)); [|done]. rewrite decide_False by lia.
  pose proof (chain_copy_loop_ok _ xs ts Hh fuel src [] (replicate (length (concat ts)) 0) [0] Hs') as C.
  cbn [app length] in C. change (Z.of_nat 0) with 0 in C.
  replace (replicate (Z.to_nat (total ts + 1)) 0) with (replicate (length (concat ts)) 0 ++ [0])
    by (change [0] with (replicate 1 0); rewrite <- replicate_add; f_equal; unfold total; lia).
  rewrite C; [|lia|apply length_replicate|done]. rewrite ok_bind. rewrite bset_app; [done|]. done.
Qed.

(** Two buffers, at different places of their blocks. *)
Definition two_buffers : mem :=
  Mem {[1 := Chain 3 2; 2 := Chain 4 0]} {[3 := Buf (B "xad") 1 3 1 0; 4 := Buf (B "x!") 0 1 1 1]} 0 5.

Lemma two_buffers_text : exists m', adx_chain_to_str (fun _ => true) 2 two_buffers 1 = Ok (NStr 3 (Some (B "adx" ++ [0])), m').
Proof.
  destruct (chain_to_str_ok (fun _ => true) 2 two_buffers 1
    [(1, 3, Buf (B "xad") 1 3 1 0); (2, 4, Buf (B "x!") 0 1 1 1)] [B "ad"; B "x"]) as (_ & m' & _ & _ & E);
    [|repeat constructor|vm_compute; discriminate|reflexivity|reflexivity|exists m'; exact E].
  simpl. split_and!; [reflexivity|lia|reflexivity|]. exists 2. split_and!; [reflexivity|reflexivity|lia|reflexivity|].
  exists 0. split; reflexivity.
Defined.

(** ** Tokens *)

(** The fields of a text between separators. *)
Fixpoint fields (ch : Z) (s : bytes) : list bytes :=
  match s with
  | [] => [[]]
  | c :: s => if decide (schar c = ch) then [] :: fields ch s
              else match fields ch s with f :: fs => (c :: f) :: fs | [] => [[c]] end
  end.

(** A caller that asks for tokens until [*save_ptr] is NULL. *)
Fixpoint all_tokens (n : nat) (text dest : bytes) (save : option Z) (ch : Z) : cres (list bytes) :=
  match n with
  | O => NoFuel
  | S n =>
      '(_, dest, save) ← adx_strtok text (Some 0) dest (Some save) ch;
      t ← cstr dest;
      match save with
      | Some (Some p) => ts ← all_tokens n text dest (Some p) ch; mret (t :: ts)
      | _ => mret [t]
      end
  end.

Lemma fields_inv ch s : exists f fs, fields ch s = f :: fs /\
  ((fs = [] /\ s = f) \/ exists c s', s = f ++ c :: s' /\ schar c = ch /\ fs = fields ch s') /\ Forall (fun c => schar c ≠ ch) f.
Proof.
  induction s as [|c s (f & fs & E & IH & Hf)]; cbn [fields]; [by exists [], []; split_and!; [|left|]|].
  case_decide as Hc.
  - exists [], (fields ch s). split_and!; [done| |constructor]. right. by exists c, s.
  - rewrite E. exists (c :: f), fs. split_and!; [done| |by constructor].
    destruct IH as [[-> ->]|(d & s' & -> & Hd & ->)]; [by left|]. right. by exists d, s'.
Qed.

Lemma fields_app ch f c s : Forall (fun c => schar c ≠ ch) f -> schar c = ch -> fields ch (f ++ c :: s) = f :: fields ch s.
Proof.
  intros Hf Hc. induction Hf as [|d f Hd _ IH]; cbn [app fields]; [by rewrite decide_True|]. by rewrite decide_False, IH.
Qed.

Lemma strtok_loop_ok ch f s : Forall (fun c => schar c ≠ ch) f -> forall l mid tl p i, length mid = length f -> p = Z.of_nat (length l) ->
  strtok_loop (f ++ s) (l ++ mid ++ tl) p i ch = strtok_loop s ((l ++ f) ++ tl) (Z.of_nat (length (l ++ f))) (i + Z.of_nat (length f)) ch.
Proof.
  induction 1 as [|c f Hc _ IH]; intros l mid tl p i Hm ->; destruct mid as [|x mid]; try done.
  - cbn [app length]. by rewrite app_nil_r, Z.add_0_r.
  - cbn [app strtok_loop]. rewrite decide_False, bset_app, ok_bind by done.
    change (l ++ c :: mid ++ tl) with (l ++ [c] ++ mid ++ tl). rewrite app_assoc, (IH (l ++ [c]) mid tl).
    + rewrite <- !app_assoc. cbn [app length]. f_equal. lia.
    + simpl in Hm. lia.
    + rewrite length_app. simpl. lia.
Qed.

Lemma split_room (dest : bytes) n : (n < length dest)%nat -> exists mid x tl, dest = mid ++ x :: tl /\ length mid = n.
Proof.
  intros H. destruct (drop n dest) as [|x tl] eqn:E.
  - apply (f_equal length) in E. rewrite length_drop in E. simpl in E. lia.
  - exists (take n dest), x, tl. rewrite <- E, take_drop, length_take. split; [done|lia].
Qed.

(** One call, from any position in the text. *)
Lemma adx_strtok_ok ch pre s rest dest save : no_nul s -> (length s < length dest)%nat ->
  (save = Some (Z.of_nat (length pre)) \/ save = None /\ pre = []) ->
  exists f fs dest', fields ch s = f :: fs /\ length dest' = length dest /\ no_nul f /\ cstr dest' = Ok f /\
    adx_strtok (pre ++ s ++ 0 :: rest) (Some 0) dest (Some save) ch =
      Ok (true, dest', Some (match fs with [] => None | _ => Some (Z.of_nat (length pre) + Z.of_nat (length f) + 1) end)).
Proof.
  intros Hn Hd Hs. destruct (fields_inv ch s) as (f & fs & E & Hf & Hch). exists f, fs.
  assert (length f <= length s)%nat as Hfl by (destruct Hf as [[_ ->]|(c & s' & -> & _)]; rewrite ?length_app; lia).
  destruct (split_room dest (length f)) as (mid & x & tl & -> & Hm); [lia|].
  assert (exists mid' x', length mid' = length f /\ bset (mid ++ x :: tl) 0 0 = Ok (mid' ++ x' :: tl)) as (mid' & x' & Hm' & Hb).
  { destruct mid as [|y mid]; [exists [], 0|exists (0 :: mid), x]; (split; [done|by apply (bset_app [])]). }
  unfold adx_strtok. rewrite Hb, ok_bind.
  assert (match save with Some p => Some p | None => Some 0 end = Some (Z.of_nat (length pre))) as Hsave by (destruct Hs as [->|[-> ->]]; done).
  assert (no_nul f) as Hnf by (destruct Hf as [[_ ->]|(c & s' & -> & _)]; [done|by apply Forall_app in Hn as [? _]]).
  replace (match save with Some p => Some p | None => Some 0 end) with (Some (Z.of_nat (length pre))) by done. cbn [default].
  rewrite decide_True by (rewrite length_app; lia). rewrite Nat2Z.id, drop_app_length, cstr_app, ok_bind by done.
  assert (forall y, length (f ++ y :: tl) = length (mid ++ x :: tl)) as HL by (intros y; rewrite !length_app; simpl; lia).
  destruct Hf as [[-> ->]|(c & s' & -> & Hc & ->)].
  - exists (f ++ 0 :: tl). split_and!; [done|apply HL|done|by apply cstr_app|].
    pose proof (strtok_loop_ok ch f [] Hch [] mid' (x' :: tl) 0 (Z.of_nat (length pre)) Hm' eq_refl) as L. rewrite app_nil_r in L.
    cbn [app] in L. cbn [id]. rewrite L. cbn [strtok_loop mret cres_ret]. rewrite ok_bind.
    rewrite decide_True by (by left). rewrite bset_app by done. done.
  - destruct (fields_inv ch s') as (f' & fs' & Ef & _). exists (f ++ 0 :: tl). split_and!; [done|apply HL|done|by apply cstr_app|].
    pose proof (strtok_loop_ok ch f (c :: s') Hch [] mid' (x' :: tl) 0 (Z.of_nat (length pre)) Hm' eq_refl) as L.
    cbn [app] in L. cbn [id]. rewrite L. cbn [strtok_loop]. rewrite decide_True, bset_app, ok_bind by done. cbn [mret cres_ret].
    rewrite ok_bind, Ef. done.
Qed.

(** [adx_strtok] splits a text at a separator.  A caller that starts
    with [*save_ptr] NULL and asks until it is NULL again gets the fields of
    the text in order, the empty ones included; no call fails or writes
    outside an array that can hold the text. *)
Theorem adx_strtok_splits (ch : Z) (s rest dest : bytes) (n : nat) :
  no_nul s -> (length s < length dest)%nat -> (length s < n)%nat ->
  all_tokens n (s ++ 0 :: rest) dest None ch = Ok (fields ch s).
Proof.
  intros Hn Hd Hlen. assert (forall n pre s dest save, no_nul s -> (length s < length dest)%nat -> (length s < n)%nat ->
    (save = Some (Z.of_nat (length pre)) \/ save = None /\ pre = []) ->
    all_tokens n (pre ++ s ++ 0 :: rest) dest save ch = Ok (fields ch s)) as G; [|by apply (G n [] s); [..|right]].
  clear. induction n as [|n IH]; intros pre s dest save Hn Hd Hlen Hs; [lia|]. cbn [all_tokens].
  destruct (adx_strtok_ok ch pre s rest dest save Hn Hd Hs) as (f & fs & dest' & Ef & HL & Hnf & Hc & ->). rewrite ok_bind, Hc, ok_bind, Ef.
  destruct (fields_inv ch s) as (f' & fs' & Ef' & Hsp & _). rewrite Ef in Ef'. injection Ef' as <- <-.
  destruct Hsp as [[-> ->]|(c & s' & -> & Hch & ->)]; [done|].
  destruct (fields_inv ch s') as (f2 & fs2 & E2 & _). rewrite E2.
  apply Forall_app in Hn as [_ [_ Hn']%Forall_cons]. rewrite length_app in Hd, Hlen. simpl in Hd, Hlen.
  replace (pre ++ (f ++ c :: s') ++ 0 :: rest) with ((pre ++ f ++ [c]) ++ s' ++ 0 :: rest) by (by rewrite <- !app_assoc).
  rewrite (IH (pre ++ f ++ [c]) s' dest'), E2 by (done || lia || (left; f_equal; rewrite !length_app; simpl; lia)). done.
Qed.

Lemma adx_strtok_splits_witness : all_tokens 8 (B "a,,b" ++ [0]) (replicate 8 7) None 44 = Ok [B "a"; []; B "b"].
Proof. apply (adx_strtok_splits 44 (B "a,,b") [] (replicate 8 7) 8); [apply (bool_decide_unpack _); vm_compute; exact I|vm_compute; lia|vm_compute; lia]. Defined.

(** ** Licence keys *)

Lemma license_step_ok i : 0 <= i <= 400000000 -> exists key, license_step i = Ok key.
Proof. intros H. unfold license_step, int_ok. repeat case_decide; eauto; lia. Qed.

Lemma u8_lnot c : is_byte c -> u8 (Z.lnot (u8 (Z.lnot c))) = c.
Proof. unfold is_byte, u8, Z.lnot. intros H. zdiv. Qed.

Lemma u8_byte z : is_byte (u8 z).
Proof. unfold is_byte, u8. zdiv. Qed.

Lemma u8_sub_add c k : is_byte c -> u8 (u8 (c + k) - k) = c /\ u8 (u8 (c - k) + k) = c.
Proof. unfold is_byte, u8. intros H. split; zdiv. Qed.

Lemma license_loops n : forall l m r i, length m = n -> i = Z.of_nat (length l) -> i + Z.of_nat n <= 400000000 -> Forall is_byte m ->
  exists m', length m' = n /\ Forall is_byte m' /\ coding_loop n (l ++ m ++ r) i = Ok (l ++ m' ++ r) /\
    forall l2, length l2 = length l -> decoding_loop n (l2 ++ m' ++ r) i = Ok (l2 ++ m ++ r).
Proof.
  induction n as [|n IH]; intros l m r i Hm Hi Hn Hb; destruct m as [|c m]; try done; [exists []; by split_and!|].
  apply Forall_cons in Hb as [Hc Hb]. destruct (license_step_ok i) as [key Hk]; [lia|].
  assert (exists c1 c2, is_byte c2 /\
    (if decide (Z.rem i 2 ≠ 0) then c1 = u8 (Z.lnot c) /\ u8 (Z.lnot c1) = c else c1 = c) /\
    u8 (if decide (Z.rem key 2 ≠ 0) then c1 + key else c1 - key) = c2 /\
    u8 (if decide (Z.rem key 2 ≠ 0) then c2 - key else c2 + key) = c1) as (c1 & c2 & Hc2 & H1 & H2 & H3).
  { pose proof (u8_byte (Z.lnot c)) as Hn1. pose proof (u8_lnot c Hc) as Hn2. pose proof (u8_sub_add c key Hc) as [P1 P2].
    pose proof (u8_sub_add _ key Hn1) as [Q1 Q2].
    exists (if decide (Z.rem i 2 ≠ 0) then u8 (Z.lnot c) else c). eexists. split; [|split; [|split; [reflexivity|]]].
    - apply u8_byte.
    - by case_decide.
    - repeat case_decide; done. }
  destruct (IH (l ++ [c2]) m r (i + 1)) as (m' & Hm' & Hb' & Hcode & Hdec);
    [simpl in Hm; lia|rewrite length_app; simpl; lia|lia|done|].
  exists (c2 :: m'). split; [simpl; lia|]. split; [by constructor|]. rewrite <- !app_assoc in Hcode. cbn [app] in Hcode. split.
  - cbn [coding_loop app]. destruct (decide (Z.rem i 2 ≠ 0)) as [Hp|Hp].
    + destruct H1 as [H1 _]. rewrite bget_app, ok_bind, bset_app, ok_bind by done. rewrite <- H1, Hk, ok_bind, bget_app, ok_bind by done.
      rewrite bset_app, ok_bind, H2 by done. exact Hcode.
    + subst c1. cbn [mret cres_ret]. rewrite ok_bind, Hk, ok_bind, bget_app, ok_bind by done.
      rewrite bset_app, ok_bind, H2 by done. exact Hcode.
  - intros l2 Hl2. assert (i = Z.of_nat (length l2)) as Hi2 by lia. specialize (Hdec (l2 ++ [c])).
    rewrite !length_app, <- !app_assoc in Hdec. specialize (Hdec ltac:(simpl; lia)). cbn [app] in Hdec.
    cbn [decoding_loop app]. rewrite Hk, ok_bind, bget_app, ok_bind, bset_app, ok_bind, H3 by done.
    destruct (decide (Z.rem i 2 ≠ 0)) as [Hp|Hp].
    + destruct H1 as [_ H1]. rewrite bget_app, ok_bind, bset_app, ok_bind, H1 by done. exact Hdec.
    + subst c1. cbn [mret cres_ret]. rewrite ok_bind. exact Hdec.
Qed.

(** Decoding a licence key undoes its coding, for every buffer and every
    size that [int] arithmetic can index; both stay inside the buffer. *)
Theorem license_key_roundtrip (key rest : bytes) : Forall is_byte key -> Z.of_nat (length key) <= 400000000 ->
  exists coded, length coded = length key /\
    license_key_coding (key ++ rest) (Z.of_nat (length key)) = Ok (coded ++ rest) /\
    license_key_decoding (coded ++ rest) (Z.of_nat (length key)) = Ok (key ++ rest).
Proof.
  intros Hb Hl. unfold license_key_coding, license_key_decoding. rewrite Nat2Z.id.
  destruct (license_loops (length key) [] key rest 0) as (m' & H1 & _ & H2 & H3); [done..|].
  exists m'. split; [done|]. split; [exact H2|]. by apply (H3 []).
Qed.

Lemma license_key_roundtrip_witness : exists coded, length coded = 4%nat /\
  license_key_coding (B "mac0") 4 = Ok coded /\ license_key_decoding coded 4 = Ok (B "mac0").
Proof.
  destruct (license_key_roundtrip (B "mac0") []) as (coded & H1 & H2 & H3); [apply (bool_decide_unpack _); vm_compute; exact I|vm_compute; discriminate|].
  exists (coded ++ []). split; [rewrite app_nil_r; exact H1|]. split; [exact H2|exact H3].
Defined.
