(* ===== verification/AdxNetwork.v ===== *)
(** HTTP responses and posted data: adx_module/adx_com_libs/adx_network.c.

    A response is a chain of buffers (AdxChain.v) that grows at its end; the
    network structure keeps its first and its last link.  nginx's functions
    are external: [ao] decides the allocations, [send_header], [output_filter]
    and [finalize_request] are functions of the request. *)

From Stdlib Require Import ZArith Lia.
From S2P Require Import Prelude AdxChain.

Open Scope Z_scope.

Definition NGX_OK : Z := 0.
Definition NGX_ERROR : Z := -1.
Definition NGX_HTTP_OK : Z := 200.
Definition NGX_HTTP_NOT_FOUND : Z := 404.

(** [net_next] is the member [next]. *)
Record adx_network_t := Net { status : Z; content_length : Z; content_type : ngx_str_t; head : Z; net_next : Z }.

(** What the file reads and writes of an [ngx_http_request_t]. *)
Record request := Req { out_status : Z; out_content_type : ngx_str_t; out_content_length_n : Z; header_only : bool }.

Definition empty_network : adx_network_t := Net 0 0 ngx_null_string 0 0.

Section Network.
Context (ao : nat -> bool).
Context (send_header : request -> Z * request) (output_filter : request -> mem -> Z -> Z * request).
Context (finalize_request : request -> Z -> request).

Definition adx_network_init (m : mem) : option adx_network_t * mem :=
  let '(p, m) := ngx_pcalloc ao m in (if decide (p = 0) then None else Some empty_network, m).

(** [p->next = n] and [p->buf->last_buf = 0]. *)
Definition set_next (m : mem) (p n : Z) : cres mem := c ← get_chain m p; mret (set_chain m p (Chain (buf c) n)).
Definition not_last (m : mem) (p : Z) : cres mem :=
  c ← get_chain m p;
  b ← get_buf m (buf c);
  mret (set_buf m (buf c) (Buf (block b) (pos b) (last b) (memory b) 0)).

Definition adx_network_add_buffer (m : mem) (network : adx_network_t) (p_buffer : option bytes) (size : Z)
  : cres (Z * adx_network_t * mem) :=
  if bool_decide (p_buffer = None) || bool_decide (size = 0) then mret (-1, network, m) else
  '(buffer, m) ← adx_chain_alloc ao true m p_buffer size;
  if decide (buffer = 0) then mret (-1, network, m) else
  '(head', next', m) ←
    (if decide (head network = 0) then
       m ← set_next m buffer 0;
       mret (buffer, net_next network, m)
     else if decide (net_next network = 0) then
       m ← not_last m (head network);
       m ← set_next m (head network) buffer;
       mret (head network, buffer, m)
     else
       m ← not_last m (net_next network);
       m ← set_next m (net_next network) buffer;
       mret (head network, buffer, m));
  mret (0, Net (status network) (u64 (content_length network + size)) (content_type network) head' next', m).

Definition adx_network_add_str (m : mem) (network : adx_network_t) (str : option bytes) : cres (Z * adx_network_t * mem) :=
  match str with
  | None => mret (-1, network, m)
  | Some b =>
      s ← cstr b;
      let len := i32 (Z.of_nat (length s)) in
      if decide (len = 0) then mret (-1, network, m) else adx_network_add_buffer m network str (u64 len)
  end.

(** ** Sending *)

Definition header_failed (rc : Z) (r : request) : bool := bool_decide (rc = NGX_ERROR \/ rc > NGX_OK) || header_only r.

Definition adx_network_send (m : mem) (r : request) (p : adx_network_t) : Z * request :=
  let r := Req (status p) (content_type p) (i64 (content_length p)) (header_only r) in
  let '(rc, r) := send_header r in
  if header_failed rc r then (rc, r) else output_filter r m (head p).

Definition adx_network_send_buffer (m : mem) (r : request) (network : option adx_network_t) (p_buffer : option bytes) (size : Z)
  : cres (Z * request * mem) :=
  '(p, m) ← match network with
            | Some p => mret (p, m)
            | None =>
                let '(p, m) := ngx_pcalloc ao m in
                if decide (p = 0) then UB else mret (Net NGX_HTTP_OK 0 ngx_null_string 0 0, m)
            end;
  '(res, p, m) ← adx_network_add_buffer m p p_buffer size;
  if decide (res ≠ 0) then mret (-1, r, m) else
  let '(rc, r) := adx_network_send m r p in mret (rc, r, m).

Definition adx_network_send_str (m : mem) (r : request) (network : option adx_network_t) (str : option bytes)
  : cres (Z * request * mem) :=
  match str with
  | None => mret (-1, r, m)
  | Some b =>
      s ← cstr b;
      let len := i32 (Z.of_nat (length s)) in
      if decide (len = 0) then mret (-1, r, m) else adx_network_send_buffer m r network str (u64 len)
  end.

Definition not_found_text : bytes := B "404 Not Found" ++ [13; 10; 0].

Definition adx_network_send_not_found (m : mem) (r : request) : cres (Z * request * mem) :=
  let r := Req NGX_HTTP_NOT_FOUND (out_content_type r) 15 (header_only r) in
  let '(rc, r) := send_header r in
  if header_failed rc r then mret (rc, r, m) else
  '(buffer, m) ← adx_chain_alloc ao true m (Some not_found_text) 15;
  if decide (buffer = 0) then mret (NGX_ERROR, r, m) else
  let '(rc, r) := output_filter r m buffer in mret (rc, r, m).

Definition adx_network_post_send (m : mem) (r : request) (p : adx_network_t) : request :=
  let '(rc, r) := adx_network_send m r p in finalize_request r rc.

Definition adx_network_post_send_buffer (m : mem) (r : request) (network : option adx_network_t) (p_buffer : option bytes) (size : Z)
  : cres (request * mem) :=
  '(rc, r, m) ← adx_network_send_buffer m r network p_buffer size;
  mret (finalize_request r rc, m).

Definition adx_network_post_send_str (m : mem) (r : request) (network : option adx_network_t) (str : option bytes)
  : cres (request * mem) :=
  b ← of_opt str;
  s ← cstr b;
  adx_network_post_send_buffer m r network str (Z.of_nat (length s)).

Definition adx_network_post_send_not_found (m : mem) (r : request) : cres (request * mem) :=
  '(rc, r, m) ← adx_network_send_not_found m r;
  mret (finalize_request r rc, m).

(** ** Posted data *)

(** The loop over the buffers: [None] is the early return. *)
Fixpoint post_loop (fuel : nat) (m : mem) (p : Z) (buffer : bytes) (size content_length : Z) : cres (option (bytes * Z)) :=
  if decide (p = 0) then mret (Some (buffer, size)) else
  match fuel with
  | O => NoFuel
  | S fuel =>
      c ← get_chain m p;
      b ← get_buf m (buf c);
      t ← contents b;
      buffer ← bwrite buffer size t;
      let size := u64 (size + (last b - pos b)) in
      if decide (size > content_length) then mret None else post_loop fuel m (next c) buffer size content_length
  end.

(** [header] is [r->headers_in.content_length], [body] is [r->request_body];
    [ngx_palloc] leaves the block as it is, here full of zeros. *)
Definition adx_network_get_post_buffer (fuel : nat) (m : mem) (header : option ngx_str_t) (body : option Z) : cres (ngx_str_t * mem) :=
  match header with
  | None => mret (ngx_null_string, m)
  | Some h =>
      match data h with
      | None => mret (ngx_null_string, m)
      | Some text =>
          if decide (len h <= 0) then mret (ngx_null_string, m) else
          s ← cstr text;
          let content_length := u64 (atoi s) in
          if decide (content_length <= 0) then mret (ngx_null_string, m) else
          let '(p, m) := ngx_pcalloc ao m in
          if decide (p = 0) then mret (ngx_null_string, m) else
          let buffer := replicate (Z.to_nat (u64 (content_length + 1))) 0 in
          bufs ← of_opt body;
          r ← post_loop fuel m bufs buffer 0 content_length;
          match r with
          | None => mret (ngx_null_string, m)
          | Some (buffer, size) =>
              if decide (content_length ≠ size) then mret (ngx_null_string, m) else
              buffer ← bset buffer size 0;
              mret (NStr size (Some buffer), m)
          end
      end
  end.

(** [pushed] says whether [ngx_list_push] gave a node; the node holds copies
    without terminators and its hash. *)
Definition adx_network_add_headers (pushed : bool) (m : mem) (key value : option bytes) : cres (Z * option (bytes * bytes * Z) * mem) :=
  match key, value with
  | Some key, Some value =>
      if negb pushed then mret (-1, None, m) else
      k ← cstr key;
      v ← cstr value;
      let '(kp, m) := ngx_pcalloc ao m in
      let '(vp, m) := ngx_pcalloc ao m in
      if decide (kp = 0 \/ vp = 0) then mret (-1, None, m) else mret (0, Some (k, v, 1), m)
  | _, _ => mret (-1, None, m)
  end.
End Network.

(** ** Uploaded files *)

(** [strncmp(&s[i], key, length key) == 0] for a key without a zero byte, on
    the rest [s] of an array. *)
Fixpoint starts_with (s key : bytes) : cres bool :=
  match key with
  | [] => mret true
  | k :: key => match s with
                | [] => UB
                | c :: s => if decide (c = k) then starts_with s key else mret false
                end
  end.

(** [strstr]: the position of the needle in a string without a zero byte. *)
Fixpoint strstr (s needle : bytes) (i : Z) : option Z :=
  if decide (take (length needle) s = needle) then Some i else
  match s with [] => None | _ :: s => strstr s needle (i + 1) end.

Definition strstr_from (buffer needle : bytes) (p : Z) : cres (option Z) :=
  if decide (0 <= p <= Z.of_nat (length buffer)) then s ← cstr (drop (Z.to_nat p) buffer); mret (strstr s needle p) else UB.

(** The [n] turns of the loop over [data]: the first position of the key, or 0. *)
Fixpoint key_loop (n : nat) (s key : bytes) (i : Z) : cres Z :=
  match n with
  | O => mret 0
  | S n => b ← starts_with s key; if (b : bool) then mret i else key_loop n (tail s) key (i + 1)
  end.

Definition CRLF : bytes := [13; 10].

(** The result is a position in [buffer] and a length; [None] is the null
    string.  [buffer] is the block [src.data] points to. *)
Definition adx_network_upload_file (buffer : bytes) (src_len : Z) : cres (option (Z * Z) * bytes) :=
  buffer ← bset buffer (src_len - 1) 0;
  p ← strstr_from buffer CRLF 0;
  match p with
  | None => mret (None, buffer)
  | Some p =>
      buffer ← bset buffer p 0;
      let Content_Disposition := p + 2 in
      p ← strstr_from buffer CRLF Content_Disposition;
      match p with
      | None => mret (None, buffer)
      | Some p =>
          buffer ← bset buffer p 0;
          let Content_Type := p + 2 in
          p ← strstr_from buffer (CRLF ++ CRLF) Content_Type;
          match p with
          | None => mret (None, buffer)
          | Some p =>
              buffer ← bset buffer p 0;
              let data := p + 4 in
              k ← cstr buffer;
              key ← bwrite (replicate 128 0) 0 (CRLF ++ k ++ [0]);
              let key_size := 2 + Z.of_nat (length k) in
              if decide (key_size < 32 \/ key_size > 120) then mret (None, buffer) else
              if decide (src_len < data) then UB else
              size ← key_loop (Z.to_nat (src_len - data)) (drop (Z.to_nat data) buffer) (take (Z.to_nat key_size) key) 0;
              if decide (size = 0) then mret (None, buffer) else mret (Some (data, size), buffer)
          end
      end
  end.

(** ** The network as a sequence of texts *)

(** Every address in use is below the next one. *)
Definition wf (m : mem) : Prop :=
  0 < top m /\ (forall p, is_Some (chains m !! p) -> 0 < p < top m) /\ (forall p, is_Some (bufs m !! p) -> 0 < p < top m).

Lemma seg_ext m m' xs : (forall c, c ∈ xs.*1.*1 -> chains m' !! c = chains m !! c) -> (forall b, b ∈ xs.*1.*2 -> bufs m' !! b = bufs m !! b) ->
  forall p q, seg m p xs q -> seg m' p xs q.
Proof.
  induction xs as [|[[c b] bf] xs IH]; intros Hc Hb p q; [done|]. intros (-> & H0 & Hbf & n & Hch & Hs). cbn [fmap list_fmap fst snd] in Hc, Hb.
  split_and!; [done|done|rewrite Hb by left; done|]. exists n. split; [rewrite Hc by left; done|].
  apply IH; [intros; apply Hc; by right|intros; apply Hb; by right|done].
Qed.

Lemma seg_app m xs ys : forall p q, seg m p (xs ++ ys) q <-> exists r, seg m p xs r /\ seg m r ys q.
Proof.
  induction xs as [|[[c b] bf] xs IH]; intros p q; [split; [by exists p|intros (r & -> & Hr); exact Hr]|].
  cbn [app seg]. split.
  - intros (-> & H0 & Hb & n & Hc & Hs). apply IH in Hs as (r & Hs & Hr). exists r. split; [|done]. split_and!; [done..|]. by exists n.
  - intros (r & (-> & H0 & Hb & n & Hc & Hs) & Hr). split_and!; [done..|]. exists n. split; [done|]. apply IH. by exists r.
Qed.

Lemma seg_used m xs : forall p q, seg m p xs q -> Forall (fun x => is_Some (chains m !! x.1.1) /\ is_Some (bufs m !! x.1.2)) xs.
Proof.
  induction xs as [|[[c b] bf] xs IH]; intros p q; [by constructor|]. intros (-> & _ & Hb & n & Hc & Hs).
  constructor; [simpl; rewrite Hb, Hc; eauto|eauto].
Qed.

(** What [adx_chain_alloc] does: it refuses, or gives one link. *)
Lemma adx_chain_alloc_ok ao m buffer size : wf m -> 0 < size <= Z.of_nat (length buffer) ->
  exists r m', adx_chain_alloc ao true m (Some buffer) size = Ok (r, m') /\ wf m' /\
    (forall p, p < top m -> chains m' !! p = chains m !! p /\ bufs m' !! p = bufs m !! p) /\
    (r = 0 \/ r = top m /\ chains m' !! r = Some (Chain (top m + 1) 0) /\
      bufs m' !! (top m + 1) = Some (Buf (take (Z.to_nat size) buffer) 0 size 1 1) /\ top m + 1 < top m').
Proof.
  intros (Ht & Hc & Hb) Hs. unfold adx_chain_alloc, ngx_pcalloc. cbn [negb orb]. rewrite bool_decide_false by lia. cbn [calls chains bufs top].
  destruct (ao (calls m)); [rewrite decide_False by lia|].
  2: { rewrite decide_True by done. eexists _, _. split; [done|]. cbn [chains bufs top]. split; [|split; [done|by left]].
       split_and!; cbn [chains bufs top]; [lia|intros p Hp; specialize (Hc p Hp); lia|intros p Hp; specialize (Hb p Hp); lia]. }
  assert (forall b0 : Z, wf (set_chain (Mem (chains m) (bufs m) (S (S (calls m))) (top m + 1 + 1)) (top m) (Chain b0 0))) as Hwf1.
  { intros b0. split_and!; cbn [set_chain chains bufs top]; [lia| |intros p Hp; specialize (Hb p Hp); lia].
    intros p Hp. destruct (decide (p = top m)) as [->|Hne]; [lia|]. rewrite lookup_insert_ne in Hp by done. specialize (Hc p Hp). lia. }
  destruct (ao (S (calls m))); [rewrite (decide_False (P := top m + 1 = 0)) by lia|].
  2: { rewrite decide_True by done. eexists _, _. split; [done|]. split; [apply Hwf1|]. split; [|by left].
       intros p Hp. cbn [set_chain chains bufs]. by rewrite lookup_insert_ne by lia. }
  cbn [set_chain set_buf calls chains bufs top].
  assert (forall bf, wf (Mem (<[top m:=Chain (top m + 1) 0]> (chains m)) (<[top m + 1 := bf]> (bufs m)) (S (S (S (calls m)))) (top m + 1 + 1 + 1))) as Hwf2.
  { intros bf. split_and!; cbn [chains bufs top]; [lia| |].
    - intros p Hp. destruct (decide (p = top m)) as [->|Hne]; [lia|]. rewrite lookup_insert_ne in Hp by done. specialize (Hc p Hp). lia.
    - intros p Hp. destruct (decide (p = top m + 1)) as [->|Hne]; [lia|]. rewrite lookup_insert_ne in Hp by done. specialize (Hb p Hp). lia. }
  destruct (ao (S (S (calls m)))); [rewrite (decide_False (P := top m + 1 + 1 = 0)) by lia|].
  2: { rewrite decide_True by done. eexists _, _. split; [done|]. split; [apply Hwf2|]. split; [|by left].
       intros p Hp. cbn [chains bufs]. by rewrite !lookup_insert_ne by lia. }
  rewrite decide_True by lia. eexists _, _. split; [done|]. unfold set_buf. cbn [chains bufs calls top]. rewrite insert_insert_eq. split; [apply Hwf2|]. cbn [chains bufs top]. split.
  - intros p Hp. by rewrite !lookup_insert_ne by lia.
  - right. rewrite !lookup_insert_eq. split_and!; [done..|lia].
Qed.

(** A buffer that holds [t], with its mark. *)
Definition link (t : bytes) (mark : Z) : ngx_buf_t := Buf t 0 (Z.of_nat (length t)) 1 mark.

Lemma link_contents t mark : contents (link t mark) = Ok t.
Proof. unfold contents, link. cbn [pos last block]. rewrite decide_True by lia. rewrite Z.sub_0_r, Nat2Z.id. change (Z.to_nat 0) with 0%nat. by rewrite drop_0, firstn_all. Qed.

(** The response holds the texts [ts], in order: its chain ends at NULL, only
    the last buffer is marked as the last, [next] is the last link unless
    there is only one, and the length is the sum of the lengths. *)
Inductive net_rep (m : mem) (net : adx_network_t) : list bytes -> Prop :=
| rep_empty : head net = 0 -> net_next net = 0 -> content_length net = 0 -> net_rep m net []
| rep_snoc ts t ys c b :
    seg m (head net) (ys ++ [(c, b, link t 1)]) 0 -> NoDup (c :: ys.*1.*1) -> NoDup (b :: ys.*1.*2) ->
    ys.*2 = (fun t => link t 0) <$> ts -> net_next net = match ts with [] => 0 | _ => c end ->
    content_length net = u64 (total (ts ++ [t])) -> net_rep m net (ts ++ [t]).

Lemma holds_links (ys : list (Z * Z * ngx_buf_t)) ts mark : ys.*2 = (fun t => link t mark) <$> ts -> holds ys ts.
Proof.
  revert ts. induction ys as [|[[c b] bf] ys IH]; intros [|t ts] H; try done; [constructor|]. injection H as -> H.
  constructor; [apply link_contents|by apply IH].
Qed.

(** Links and texts of a response. *)
Lemma net_rep_seg m net ts : net_rep m net ts -> exists xs, seg m (head net) xs 0 /\ holds xs ts.
Proof.
  intros [Hh _ _|ts' t ys c b Hs _ _ Hl _ _]; [by exists []; split; [|constructor]|].
  exists (ys ++ [(c, b, link t 1)]). split; [done|]. apply Forall2_app; [by eapply holds_links|].
  constructor; [apply link_contents|constructor].
Qed.

(** Old links are not touched by what happens at new addresses. *)
Lemma seg_below m m' xs p q : wf m -> (forall p, p < top m -> chains m' !! p = chains m !! p /\ bufs m' !! p = bufs m !! p) ->
  seg m p xs q -> seg m' p xs q.
Proof.
  intros (_ & Hwc & Hwb) Hext Hs. pose proof (seg_used _ _ _ _ Hs) as Hu. rewrite Forall_forall in Hu.
  eapply seg_ext; [| |exact Hs]; intros x Hx; rewrite <- list_fmap_compose in Hx; apply list_elem_of_fmap in Hx as (y & -> & Hy); apply Hu in Hy as [Hy1 Hy2];
    apply Hext; [by apply Hwc|by apply Hwb].
Qed.

Lemma net_rep_ext m m' net ts : wf m -> (forall p, p < top m -> chains m' !! p = chains m !! p /\ bufs m' !! p = bufs m !! p) ->
  net_rep m net ts -> net_rep m' net ts.
Proof.
  intros Hwf Hext [Hh Hn Hc|ts' t ys c b Hs Hd1 Hd2 Hl Hn Hc]; [by constructor|]. econstructor; try done. by eapply seg_below.
Qed.

Lemma not_last_ok m c b n t mark : chains m !! c = Some (Chain b n) -> bufs m !! b = Some (link t mark) ->
  not_last m c = Ok (set_buf m b (link t 0)).
Proof. intros Hc Hb. unfold not_last, get_chain, get_buf. rewrite Hc. cbn [of_opt]. rewrite ok_bind. cbn [buf]. by rewrite Hb. Qed.

Lemma link_next_ok m c b n q : chains m !! c = Some (Chain b n) -> set_next m c q = Ok (set_chain m c (Chain b q)).
Proof. intros Hc. unfold set_next, get_chain. by rewrite Hc. Qed.

(** The new link goes behind the last one. *)
Lemma append_ok m h ys c b t r b' t' : seg m h (ys ++ [(c, b, link t 1)]) 0 -> NoDup (c :: ys.*1.*1) -> NoDup (b :: ys.*1.*2) ->
  r ≠ 0 -> r ∉ c :: ys.*1.*1 -> b' ∉ b :: ys.*1.*2 -> chains m !! r = Some (Chain b' 0) -> bufs m !! b' = Some (link t' 1) ->
  exists m1 m2, not_last m c = Ok m1 /\ set_next m1 c r = Ok m2 /\ top m2 = top m /\
    (wf m -> wf m2) /\ seg m2 h ((ys ++ [(c, b, link t 0)]) ++ [(r, b', link t' 1)]) 0.
Proof.
  intros Hs Hd1 Hd2 Hr0 Hr Hb' Hcr Hbr. apply seg_app in Hs as (p & Hs & -> & Hc0 & Hb & n & Hch & Hn). simpl in Hn. subst n.
  apply NoDup_cons in Hd1 as [Hcn Hd1]. apply NoDup_cons in Hd2 as [Hbn Hd2].
  exists (set_buf m b (link t 0)), (set_chain (set_buf m b (link t 0)) c (Chain b r)). split; [by eapply not_last_ok|].
  split; [by apply (link_next_ok _ c b 0)|]. split; [done|]. split.
  - intros (Ht & Hwc & Hwb). split_and!; cbn [set_chain set_buf chains bufs top]; [done| |].
    + intros x Hx. destruct (decide (x = c)) as [->|Hne]; [apply Hwc; eauto|]. rewrite lookup_insert_ne in Hx by done. eauto.
    + intros x Hx. destruct (decide (x = b)) as [->|Hne]; [apply Hwb; eauto|]. rewrite lookup_insert_ne in Hx by done. eauto.
  - assert (c ≠ r) by (intros ->; apply Hr; left). assert (b ≠ b') by (intros ->; apply Hb'; left).
    rewrite <- app_assoc. apply seg_app. exists c. split.
    + eapply seg_ext; [| |exact Hs]; intros x Hx; cbn [set_chain set_buf chains bufs]; apply lookup_insert_ne; [intros ->; by apply Hcn|intros ->; by apply Hbn].
    + cbn [app seg set_chain set_buf chains bufs]. split_and!; [done|done|by rewrite lookup_insert_eq|]. exists r.
      split; [by rewrite lookup_insert_eq|]. split_and!; [done|done|by rewrite lookup_insert_ne|].
      exists 0. by rewrite lookup_insert_ne.
Qed.

Lemma total_single t : total [t] = Z.of_nat (length t).
Proof. unfold total. cbn [concat]. by rewrite app_nil_r. Qed.

Lemma total_app ts us : total (ts ++ us) = total ts + total us.
Proof. unfold total. rewrite concat_app, length_app. lia. Qed.

Lemma fresh_ne m h xs q x : wf m -> seg m h xs q -> top m <= x -> x ∉ xs.*1.*1 /\ x ∉ xs.*1.*2.
Proof.
  intros (_ & Hwc & Hwb) Hs Hx. pose proof (seg_used _ _ _ _ Hs) as Hu. rewrite Forall_forall in Hu.
  split; rewrite <- list_fmap_compose; intros Hin; apply list_elem_of_fmap in Hin as (y & -> & Hy); apply Hu in Hy as [H1 H2];
    [apply Hwc in H1|apply Hwb in H2]; simpl in *; lia.
Qed.

Lemma set_chain_same m p c : chains m !! p = Some c -> set_chain m p c = m.
Proof. intros H. unfold set_chain. rewrite insert_id by done. by destruct m. Qed.

Lemma add_buffer_ok ao m net ts buffer size : wf m -> net_rep m net ts -> 0 < size <= Z.of_nat (length buffer) ->
  exists r net' m', adx_network_add_buffer ao m net (Some buffer) size = Ok (r, net', m') /\ wf m' /\ status net' = status net /\ content_type net' = content_type net /\
    (r = -1 /\ net' = net /\ net_rep m' net ts \/ r = 0 /\ net_rep m' net' (ts ++ [take (Z.to_nat size) buffer])).
Proof.
  intros Hwf Hrep Hs. unfold adx_network_add_buffer. rewrite !bool_decide_false by (done || lia). cbn [orb].
  destruct (adx_chain_alloc_ok ao m buffer size Hwf Hs) as (r & m1 & -> & Hwf1 & Hext & Hr). rewrite ok_bind.
  pose proof (net_rep_ext m m1 net ts Hwf Hext Hrep) as Hrep1. assert (0 < top m) as Htop by (destruct Hwf; done).
  destruct Hr as [->|(-> & Hc1 & Hb1 & Ht1)].
  { rewrite decide_True by done. exists (-1), net, m1. split_and!; try done. by left. }
  rewrite decide_False by lia. assert (Z.of_nat (length (take (Z.to_nat size) buffer)) = size) as Ht' by (rewrite length_take; lia).
  revert Hb1 Ht'. generalize (take (Z.to_nat size) buffer) as t'. intros t' Hb1 Ht'.
  assert (bufs m1 !! (top m + 1) = Some (link t' 1)) as Hb1' by (unfold link; by rewrite Ht').
  assert (u64 (content_length net + size) = u64 (total (ts ++ [t']))) as Hlen.
  { assert (content_length net = u64 (total ts)) as -> by (destruct Hrep; [done|done]). unfold u64.
    rewrite Z.add_mod_idemp_l, total_app by lia. f_equal. unfold total. simpl. rewrite app_nil_r. lia. }
  inversion Hrep as [Hh Hn Hcl Hts|ts0 t ys c b Hseg Hd1 Hd2 Hl Hn Hcl Hts]; subst ts.
  - rewrite (decide_True (P := head net = 0)), (link_next_ok _ _ _ _ _ Hc1), !ok_bind by done.
    rewrite set_chain_same by done. cbn [mret cres_ret]. eexists 0, _, m1. split; [done|]. split_and!; try done. right. split; [done|].
    apply (rep_snoc m1 _ [] t' [] (top m) (top m + 1)); [|apply NoDup_singleton|apply NoDup_singleton|done|done|exact Hlen].
    cbn [app seg AdxNetwork.head]. split_and!; [done|lia|done|]. by exists 0.
  - pose proof (seg_below _ _ _ _ _ Hwf Hext Hseg) as Hseg1.
    destruct (fresh_ne m _ _ _ (top m) Hwf Hseg) as [Hf1 _]; [lia|]. destruct (fresh_ne m _ _ _ (top m + 1) Hwf Hseg) as [_ Hf2]; [lia|].
    rewrite !fmap_app, elem_of_app in Hf1, Hf2. cbn [fmap list_fmap fst snd] in Hf1, Hf2.
    assert (top m ∉ c :: ys.*1.*1 /\ top m + 1 ∉ b :: ys.*1.*2) as [Hf1' Hf2'] by (clear -Hf1 Hf2; set_solver).
    destruct (append_ok m1 (AdxNetwork.head net) ys c b t (top m) (top m + 1) t' Hseg1 Hd1 Hd2) as (m2 & m3 & E1 & E2 & Ht3 & Hwf3 & Hs3); try done; [lia|].
    assert (AdxNetwork.head net ≠ 0 /\ c ≠ 0 /\ (ts0 = [] -> AdxNetwork.head net = c)) as (Hh & Hc0 & Hhc).
    { apply seg_app in Hseg as (p & Hy & -> & Hc0 & _).
      destruct ys as [|[[cy by'] bfy] ys]; simpl in Hy; [by subst|]. destruct Hy as (-> & ? & _). split_and!; [done..|]. by intros ->. }
    rewrite (decide_False (P := AdxNetwork.head net = 0)) by done.
    exists 0, (Net (status net) (u64 (content_length net + size)) (content_type net) (AdxNetwork.head net) (top m)), m3. split; [|split; [by apply Hwf3|split; [|split; [|right; split; [done|]]]]].
    + destruct ts0 as [|t0 ts0].
      * rewrite decide_True, Hhc by done. rewrite E1, ok_bind, E2, ok_bind. cbn [mret cres_ret]. rewrite ok_bind. reflexivity.
      * rewrite decide_False by (by rewrite Hn). rewrite Hn, E1, ok_bind, E2, ok_bind. cbn [mret cres_ret]. rewrite ok_bind. reflexivity.
    + done.
    + done.
    + apply (rep_snoc m3 _ (ts0 ++ [t]) t' (ys ++ [(c, b, link t 0)]) (top m) (top m + 1)).
      * exact Hs3.
      * rewrite !fmap_app. cbn [fmap list_fmap fst]. apply NoDup_cons. split; [clear -Hf1'; set_solver|]. by rewrite Permutation_app_comm.
      * rewrite !fmap_app. cbn [fmap list_fmap fst snd]. apply NoDup_cons. split; [clear -Hf2'; set_solver|]. by rewrite Permutation_app_comm.
      * by rewrite !fmap_app, Hl.
      * destruct ts0; done.
      * exact Hlen.
Qed.

(** C34: a response is the sequence of the texts added to it.
    [adx_network_add_buffer] either refuses and changes nothing of the
    response, or appends one text; the announced length is then the sum of
    the lengths, the chain spells the texts one after the other, and
    [adx_network_send_buffer] announces this length and gives this chain to
    the output filter. *)
Theorem adx_network_add_buffer_appends (ao : nat -> bool) (send_header : request -> Z * request)
  (output_filter : request -> mem -> Z -> Z * request) (r : request) (m : mem) (net : adx_network_t) (ts : list bytes) (buffer : bytes) (size : Z) :
  wf m -> net_rep m net ts -> 0 < size <= Z.of_nat (length buffer) -> total ts + size <= 2147483646 ->
  exists m' net', wf m' /\
    (adx_network_add_buffer ao m net (Some buffer) size = Ok (-1, net, m') /\ net_rep m' net ts /\
     adx_network_send_buffer ao send_header output_filter m r (Some net) (Some buffer) size = Ok (-1, r, m') \/
     let us := ts ++ [take (Z.to_nat size) buffer] in
     adx_network_add_buffer ao m net (Some buffer) size = Ok (0, net', m') /\ net_rep m' net' us /\ content_length net' = total us /\
     (exists fuel m2, adx_chain_to_str (fun _ => true) fuel m' (head net') = Ok (NStr (total us) (Some (concat us ++ [0])), m2)) /\
     let '(rc, r1) := send_header (Req (status net) (content_type net) (total us) (header_only r)) in
     adx_network_send_buffer ao send_header output_filter m r (Some net) (Some buffer) size =
       Ok (if header_failed rc r1 then (rc, r1) else output_filter r1 m' (head net'), m')).
Proof.
  intros Hwf Hrep Hs Ht. destruct (add_buffer_ok ao m net ts buffer size Hwf Hrep Hs) as (res & net' & m' & E & Hwf' & Hst & Hct & Hr).
  exists m', net'. split; [done|]. unfold adx_network_send_buffer. cbn [mret cres_ret]. rewrite ok_bind, E, ok_bind.
  destruct Hr as [(-> & -> & Hrep')|(-> & Hrep')]; [left; by rewrite decide_True|right].
  rewrite decide_False by tauto. set (us := ts ++ [take (Z.to_nat size) buffer]) in *. cbv zeta. pose proof (total_nonneg ts).
  assert (total us = total ts + size) as Hus by (unfold us; rewrite total_app, total_single, length_take; lia).
  assert (content_length net' = total us) as Hcl.
  { destruct Hrep'; [destruct ts; done|]. unfold u64 in *. rewrite Z.mod_small in * by lia. done. }
  destruct (net_rep_seg _ _ _ Hrep') as (xs & Hseg & Hh).
  assert (0 < top m') as Htop by (destruct Hwf'; done).
  destruct (chain_to_str_ok (fun _ => true) (length xs) m' (head net') xs us Hseg Hh ltac:(lia) Htop ltac:(done)) as (_ & m2 & _ & _ & E2).
  rewrite decide_True in E2 by lia. split; [done|]. split; [done|]. split; [done|]. split; [by exists (length xs), m2|].
  unfold adx_network_send. rewrite Hst, Hct, Hcl.
  assert (i64 (total us) = total us) as -> by (unfold i64; rewrite Z.mod_small by lia; lia).
  destruct (send_header _) as [rc r1]. destruct (header_failed rc r1); [done|]. by destruct (output_filter _ _ _).
Qed.

Lemma adx_network_add_buffer_appends_witness : exists m' net',
  adx_network_add_buffer (fun _ => true) (Mem ∅ ∅ 0 1) empty_network (Some (B "adx")) 3 = Ok (0, net', m') /\ net_rep m' net' [B "adx"].
Proof.
  destruct (adx_network_add_buffer_appends (fun _ => true) (fun r => (0, r)) (fun r _ _ => (0, r)) (Req 0 ngx_null_string 0 false)
    (Mem ∅ ∅ 0 1) empty_network [] (B "adx") 3) as (m' & net' & _ & [(E & _)|(E & H & _)]).
  - split_and!; [reflexivity| |]; intros p [x Hx]; discriminate.
  - by constructor.
  - vm_compute. split; [reflexivity|discriminate].
  - vm_compute. discriminate.
  - vm_compute in E. discriminate.
  - exists m', net'. split; [exact E|exact H].
Defined.

(** ** Posted data *)

(** The size reached by the first buffer that takes it over [n]. *)
Fixpoint overrun (n size : Z) (ts : list bytes) : option Z :=
  match ts with
  | [] => None
  | t :: ts => let size := size + Z.of_nat (length t) in if decide (size > n) then Some size else overrun n size ts
  end.

Lemma bwrite_room (l mid t : bytes) i : i = Z.of_nat (length l) ->
  bwrite (l ++ mid) i t = if decide (length t <= length mid)%nat then Ok ((l ++ t) ++ drop (length t) mid) else UB.
Proof.
  intros ->. case_decide as H.
  - rewrite <- (take_drop (length t) mid) at 1. rewrite bwrite_app by (done || (rewrite length_take; lia)). by rewrite <- app_assoc.
  - unfold bwrite. rewrite decide_False; [done|]. rewrite length_app. lia.
Qed.

Lemma post_loop_ok m n xs ts : holds xs ts -> n < 4294967296 -> forall fuel p l mid, seg m p xs 0 ->
  Z.of_nat (length l) <= n -> Z.of_nat (length l + length mid) = n + 1 -> (length xs <= fuel)%nat ->
  post_loop fuel m p (l ++ mid) (Z.of_nat (length l)) n =
    match overrun n (Z.of_nat (length l)) ts with
    | None => Ok (Some ((l ++ concat ts) ++ drop (length (concat ts)) mid, Z.of_nat (length l) + total ts))
    | Some k => if decide (k = n + 1) then Ok None else UB
    end.
Proof.
  intros Hh Hn. induction Hh as [|[[c b] bf] t xs ts Ht _ IH]; intros fuel p l mid Hs Hl Hm Hf.
  - simpl in Hs. subst p. cbn [overrun concat]. rewrite app_nil_r, drop_0. unfold total. simpl. rewrite Z.add_0_r. by destruct fuel.
  - destruct Hs as (-> & Hc & Hb & q & Hch & Hs). destruct fuel as [|fuel]; [simpl in Hf; lia|]. cbn [post_loop overrun concat].
    rewrite decide_False by done. unfold get_chain, get_buf. rewrite Hch. cbn [of_opt]. rewrite ok_bind. cbn [buf next].
    simpl in Ht. rewrite Hb. cbn [of_opt]. rewrite ok_bind, Ht, ok_bind, (contents_length _ _ Ht), bwrite_room by done.
    destruct (decide (length t <= length mid)%nat) as [Hr|Hr]; [|rewrite decide_True by lia; by rewrite decide_False by lia].
    rewrite ok_bind. assert (u64 (Z.of_nat (length l) + Z.of_nat (length t)) = Z.of_nat (length (l ++ t))) as ->
      by (rewrite length_app; unfold u64; rewrite Z.mod_small; lia).
    rewrite length_app, Nat2Z.inj_add. destruct (decide (_ > n)) as [Hg|Hg]; [by rewrite decide_True by lia|].
    rewrite <- Nat2Z.inj_add, <- length_app, IH by (done || (rewrite ?length_app, ?length_drop; simpl in Hf; lia)).
    destruct (overrun _ _ ts); [done|]. rewrite drop_drop, !length_app, total_cons, <- !app_assoc. do 3 f_equal. lia.
Qed.

(** the body of a request.  With a Content-Length [n] the body is
    returned if its buffers have [n] bytes together, with a terminator, and
    the null string if they have fewer.  The test for a longer body comes
    after the copy: a body that reaches [n + 1] bytes is refused, but a body
    that passes this size within one buffer is written past the block. *)
Theorem adx_network_post_body (ao : nat -> bool) (fuel : nat) (m : mem) (text s : bytes) (hlen bufs n : Z)
  (xs : list (Z * Z * ngx_buf_t)) (ts : list bytes) :
  0 < hlen -> cstr text = Ok s -> atoi s = n -> 0 < n <= 2147483647 -> ao (calls m) = true -> 0 < top m ->
  seg m bufs xs 0 -> holds xs ts -> (length xs <= fuel)%nat ->
  exists m', adx_network_get_post_buffer ao fuel m (Some (NStr hlen (Some text))) (Some bufs) =
    match overrun n 0 ts with
    | None => Ok (if decide (total ts = n) then NStr n (Some (concat ts ++ [0])) else ngx_null_string, m')
    | Some k => if decide (k = n + 1) then Ok (ngx_null_string, m') else UB
    end.
Proof.
  intros Hhl Htx Hat Hn Hao Htop Hs Hh Hf. unfold adx_network_get_post_buffer. cbn [data len]. rewrite decide_False by lia.
  rewrite Htx, ok_bind, Hat. assert (u64 n = n) as -> by (unfold u64; rewrite Z.mod_small; lia). rewrite decide_False by lia.
  unfold ngx_pcalloc. rewrite Hao, decide_False by lia. cbn [of_opt]. rewrite ok_bind.
  assert (u64 (n + 1) = n + 1) as -> by (unfold u64; rewrite Z.mod_small; lia).
  set (m' := Mem (chains m) (AdxChain.bufs m) (S (calls m)) (top m + 1)). exists m'.
  assert (seg m' bufs xs 0) as Hs' by (eapply seg_ext; [| |exact Hs]; done).
  pose proof (post_loop_ok m' n xs ts Hh ltac:(lia) fuel bufs [] (replicate (Z.to_nat (n + 1)) 0) Hs') as L. cbn [app length] in L.
  change (Z.of_nat 0) with 0 in L. rewrite L by (rewrite ?length_replicate; lia).
  destruct (overrun n 0 ts) as [k|] eqn:Eo; [case_decide; done|]. rewrite ok_bind, Z.add_0_l.
  destruct (decide (total ts = n)) as [E|E]; [|by rewrite decide_True].
  rewrite decide_False by (intros Hx; by apply Hx). rewrite E. replace (drop (length (concat ts)) (replicate (Z.to_nat (n + 1)) 0)) with [0].
  - rewrite bset_app by (unfold total in E; lia). done.
  - rewrite drop_replicate. unfold total in E. by replace (Z.to_nat (n + 1) - length (concat ts))%nat with 1%nat by lia.
Qed.

(** Three bytes in two buffers: as announced, and with 1 announced instead. *)
Lemma adx_network_post_body_witness :
  (exists m', adx_network_get_post_buffer (fun _ => true) 2 two_buffers (Some (NStr 1 (Some (B "3" ++ [0])))) (Some 1) =
    Ok (NStr 3 (Some (B "adx" ++ [0])), m')) /\
  adx_network_get_post_buffer (fun _ => true) 2 (Mem (chains two_buffers) (<[3 := Buf (B "adx") 0 3 1 0]> (bufs two_buffers)) 0 5)
    (Some (NStr 1 (Some (B "1" ++ [0])))) (Some 1) = UB.
Proof.
  assert (forall m b1, bufs m !! 3 = Some b1 -> bufs m !! 4 = Some (Buf (B "x!") 0 1 1 1) -> chains m = chains two_buffers ->
    seg m 1 [(1, 3, b1); (2, 4, Buf (B "x!") 0 1 1 1)] 0) as Hseg.
  { intros m b1 H1 H2 H3. simpl. rewrite H3. split_and!; [reflexivity|lia|exact H1|]. exists 2. split_and!; [reflexivity|reflexivity|lia|exact H2|].
    exists 0. split; reflexivity. }
  split.
  - destruct (adx_network_post_body (fun _ => true) 2 two_buffers (B "3" ++ [0]) (B "3") 1 1 3
      [(1, 3, Buf (B "xad") 1 3 1 0); (2, 4, Buf (B "x!") 0 1 1 1)] [B "ad"; B "x"]) as (m' & E);
      [lia|reflexivity|reflexivity|lia|reflexivity|reflexivity|by apply Hseg|repeat constructor|simpl; lia|exists m'; exact E].
  - destruct (adx_network_post_body (fun _ => true) 2 (Mem (chains two_buffers) (<[3 := Buf (B "adx") 0 3 1 0]> (bufs two_buffers)) 0 5)
      (B "1" ++ [0]) (B "1") 1 1 1 [(1, 3, Buf (B "adx") 0 3 1 0); (2, 4, Buf (B "x!") 0 1 1 1)] [B "adx"; B "x"]) as (m' & E);
      [lia|reflexivity|reflexivity|lia|reflexivity|reflexivity|by apply Hseg|repeat constructor|simpl; lia|exact E].
Defined.

(** ** Uploaded files *)

(** The text of a line: neither its end nor a zero byte. *)
Definition line (s : bytes) : Prop := Forall (fun c => c ≠ 13 /\ c ≠ 0) s.

Lemma line_no_nul s : line s -> no_nul s.
Proof. intros H. eapply Forall_impl; [exact H|]. by intros ? []. Qed.

Lemma cstr_ends a b : exists u, cstr (a ++ 0 :: b) = Ok u.
Proof.
  induction a as [|c a [u IH]]; [by exists []|]. cbn [app cstr]. case_decide; [by eexists|]. rewrite IH, ok_bind. by eexists.
Qed.

Lemma cstr_prefix h r u : no_nul h -> cstr r = Ok u -> cstr (h ++ r) = Ok (h ++ u).
Proof.
  intros Hn Hu. induction Hn as [|c h Hc _ IH]; [done|]. cbn [app cstr]. by rewrite decide_False, IH.
Qed.

Lemma strstr_line h needle r i : line h -> strstr (h ++ (13 :: needle) ++ r) (13 :: needle) i = Some (i + Z.of_nat (length h)).
Proof.
  intros Hl. revert i. induction Hl as [|c h [Hc _] _ IH]; intros i.
  - cbn [app strstr length take]. rewrite take_app_length, decide_True by done. f_equal. lia.
  - cbn [app strstr length take]. rewrite decide_False by congruence. rewrite IH. f_equal. lia.
Qed.

(** The end of a line that starts behind [pre], and its mark. *)
Lemma find_line pre h needle r z i j : line h -> no_nul needle -> i = Z.of_nat (length pre) -> j = i + Z.of_nat (length h) ->
  let buffer := pre ++ h ++ 13 :: needle ++ r ++ 0 :: z in
  strstr_from buffer (13 :: needle) i = Ok (Some j) /\ bset buffer j 0 = Ok (pre ++ h ++ 0 :: needle ++ r ++ 0 :: z).
Proof.
  intros Hl Hn -> ->. cbv zeta. split.
  - unfold strstr_from. rewrite decide_True by (rewrite length_app; lia). rewrite Nat2Z.id, drop_app_length.
    destruct (cstr_ends r z) as [u Hu].
    rewrite (cstr_prefix h _ ((13 :: needle) ++ u));
      [|by apply line_no_nul|change (13 :: needle ++ r ++ 0 :: z) with ((13 :: needle) ++ r ++ 0 :: z); apply cstr_prefix; [by constructor|done]].
    rewrite ok_bind, strstr_line; done.
  - rewrite (app_assoc pre), (app_assoc pre h (0 :: _)). apply bset_app. rewrite length_app. lia.
Qed.

Lemma starts_with_ok key s : (length key <= length s)%nat -> starts_with s key = Ok (bool_decide (take (length key) s = key)).
Proof.
  revert s. induction key as [|k key IH]; intros [|c s] Hl; try done; [simpl in Hl; lia|]. cbn [starts_with length take].
  case_decide as Hk; [|rewrite bool_decide_false; [done|congruence]]. subst. rewrite IH by (simpl in Hl; lia). f_equal.
  apply bool_decide_ext. split; [congruence|by intros [= ?]].
Qed.

Lemma key_loop_ok key data r : (forall j, (j < length data)%nat -> take (length key) (drop j (data ++ key)) ≠ key) -> forall n i,
  (length data < n)%nat -> key_loop n (data ++ key ++ r) key i = Ok (i + Z.of_nat (length data)).
Proof.
  induction data as [|c data IH]; intros Hj n i Hn; (destruct n as [|n]; [simpl in Hn; lia|]); cbn [key_loop];
    rewrite starts_with_ok, ok_bind by (rewrite !length_app; lia).
  - cbn [app]. rewrite take_app_length, bool_decide_true by done. simpl. by rewrite Z.add_0_r.
  - rewrite bool_decide_false.
    + cbn [app tail]. rewrite IH; [f_equal; simpl; lia| |simpl in Hn; lia]. intros j Hj'. apply (Hj (S j)). simpl. lia.
    + specialize (Hj 0%nat). rewrite drop_0 in Hj. rewrite app_assoc, take_app_le by (rewrite !length_app; lia). apply Hj. simpl. lia.
Qed.

(** Texts as one sequence of lines. *)
Ltac flatten_in H := repeat (rewrite <- app_assoc in H; cbn [app] in H).
Ltac flatten := repeat (rewrite <- app_assoc; cbn [app]).

(** The three searches of [adx_network_upload_file], before the key is made. *)
Lemma upload_header bnd disp ctype file z rest d n : line bnd -> line disp -> line ctype ->
  d = Z.of_nat (length bnd + length disp + length ctype) + 8 -> n = d + Z.of_nat (length file) + 1 ->
  let b := bnd ++ 0 :: 10 :: disp ++ 0 :: 10 :: ctype ++ 0 :: 10 :: 13 :: 10 :: file ++ 0 :: rest in
  adx_network_upload_file (bnd ++ 13 :: 10 :: disp ++ 13 :: 10 :: ctype ++ 13 :: 10 :: 13 :: 10 :: file ++ z :: rest) n =
    (key ← bwrite (replicate 128 0) 0 (CRLF ++ bnd ++ [0]);
     let key_size := 2 + Z.of_nat (length bnd) in
     if decide (key_size < 32 \/ key_size > 120) then mret (None, b) else
     size ← key_loop (length file + 1) (file ++ 0 :: rest) (take (Z.to_nat key_size) key) 0;
     if decide (size = 0) then mret (None, b) else mret (Some (d, size), b)).
Proof.
  intros Hb Hd Hc -> ->. cbv zeta. unfold adx_network_upload_file, CRLF. cbn [app].
  assert (forall x, bnd ++ 13 :: 10 :: disp ++ 13 :: 10 :: ctype ++ 13 :: 10 :: 13 :: 10 :: file ++ x :: rest =
    (bnd ++ 13 :: 10 :: disp ++ 13 :: 10 :: ctype ++ 13 :: 10 :: 13 :: 10 :: file) ++ x :: rest) as E0
    by (intros x; rewrite <- !app_assoc; cbn [app]; rewrite <- !app_assoc; cbn [app]; by rewrite <- !app_assoc).
  rewrite E0, bset_app, ok_bind by (repeat (rewrite length_app; cbn [length]); lia). rewrite <- E0.
  destruct (find_line [] bnd [10] (disp ++ 13 :: 10 :: ctype ++ 13 :: 10 :: 13 :: 10 :: file) rest 0 (0 + Z.of_nat (length bnd)) Hb) as [S1 W1]; [by repeat constructor|done|reflexivity|].
  cbn [app] in S1, W1. flatten_in S1. flatten_in W1. rewrite S1, ok_bind, W1, ok_bind.
  destruct (find_line (bnd ++ [0; 10]) disp [10] (ctype ++ 13 :: 10 :: 13 :: 10 :: file) rest (0 + Z.of_nat (length bnd) + 2) (0 + Z.of_nat (length bnd) + 2 + Z.of_nat (length disp)) Hd) as [S2 W2];
    [by repeat constructor|rewrite length_app; simpl; lia|reflexivity|].
  flatten_in S2. flatten_in W2. rewrite S2, ok_bind, W2, ok_bind.
  destruct (find_line (bnd ++ 0 :: 10 :: disp ++ [0; 10]) ctype [10; 13; 10] file rest (0 + Z.of_nat (length bnd) + 2 + Z.of_nat (length disp) + 2) (0 + Z.of_nat (length bnd) + 2 + Z.of_nat (length disp) + 2 + Z.of_nat (length ctype)) Hc) as [S3 W3];
    [by repeat constructor|repeat (rewrite length_app; cbn [length]); lia|reflexivity|].
  flatten_in S3. flatten_in W3. rewrite S3, ok_bind, W3, ok_bind.
  rewrite cstr_app, ok_bind by (by apply line_no_nul).
  assert (drop (Z.to_nat (0 + Z.of_nat (length bnd) + 2 + Z.of_nat (length disp) + 2 + Z.of_nat (length ctype) + 4))
    (bnd ++ 0 :: 10 :: disp ++ 0 :: 10 :: ctype ++ 0 :: 10 :: 13 :: 10 :: file ++ 0 :: rest) = file ++ 0 :: rest) as ->.
  { replace (bnd ++ 0 :: 10 :: disp ++ 0 :: 10 :: ctype ++ 0 :: 10 :: 13 :: 10 :: file ++ 0 :: rest)
      with ((bnd ++ 0 :: 10 :: disp ++ 0 :: 10 :: ctype ++ [0; 10; 13; 10]) ++ file ++ 0 :: rest)
      by (flatten; done).
    replace (Z.to_nat _) with (length (bnd ++ 0 :: 10 :: disp ++ 0 :: 10 :: ctype ++ [0; 10; 13; 10]))
      by (repeat (rewrite length_app; cbn [length]); lia).
    apply drop_app_length. }
  destruct (bwrite (replicate 128 0) 0 _) as [key| |]; [|done..]. rewrite !ok_bind. cbv zeta. case_decide; [done|].
  rewrite decide_False by lia.
  replace (Z.to_nat (_ - _)) with (length file + 1)%nat by lia. destruct (key_loop _ _ _ _) as [size| |]; [|done..]. rewrite !ok_bind.
  case_decide; [done|]. do 4 f_equal. lia.
Qed.

(** the file of a form.  From the text of a form with a boundary line,
    two header lines, an empty line and the file up to the boundary,
    [adx_network_upload_file] gives the position and the length of the file,
    which may hold zero bytes, if it is not empty and the boundary has 30 to
    118 characters; the bytes of the file are still in place.  The length of
    the boundary is tested after it was printed into 128 bytes: a boundary
    of more than 125 characters is written past them. *)
Theorem adx_network_upload_extracts (bnd disp ctype data tl rest : bytes) (z : Z) :
  let text := bnd ++ CRLF ++ disp ++ CRLF ++ ctype ++ (CRLF ++ CRLF) ++ data ++ CRLF ++ bnd ++ tl ++ [z] in
  line bnd -> line disp -> line ctype -> data ≠ [] ->
  (forall j, (j < length data)%nat -> take (length (CRLF ++ bnd)) (drop j (data ++ CRLF ++ bnd)) ≠ CRLF ++ bnd) ->
  ((30 <= length bnd <= 118)%nat -> exists p buffer,
    adx_network_upload_file (text ++ rest) (Z.of_nat (length text)) = Ok (Some (p, Z.of_nat (length data)), buffer) /\
    take (length data) (drop (Z.to_nat p) buffer) = data) /\
  ((126 <= length bnd)%nat -> adx_network_upload_file (text ++ rest) (Z.of_nat (length text)) = UB).
Proof.
  intros text Hb Hd Hc Hne Hj. set (d := Z.of_nat (length bnd + length disp + length ctype) + 8). set (file := data ++ CRLF ++ bnd ++ tl).
  assert (text ++ rest = bnd ++ 13 :: 10 :: disp ++ 13 :: 10 :: ctype ++ 13 :: 10 :: 13 :: 10 :: file ++ z :: rest) as E0
    by (unfold text, file, CRLF; flatten; done).
  assert (Z.of_nat (length text) = d + Z.of_nat (length file) + 1) as El
    by (unfold text, file, d, CRLF; repeat (rewrite length_app; cbn [length]); lia).
  pose proof (upload_header bnd disp ctype file z rest d _ Hb Hd Hc eq_refl El) as E. rewrite <- E0 in E. cbv zeta in E. rewrite E. clear E E0 El.
  split; intros Hl.
  - assert (bwrite (replicate 128 0) 0 (CRLF ++ bnd ++ [0]) = Ok ((CRLF ++ bnd) ++ [0] ++ replicate (125 - length bnd) 0)) as ->.
    { replace 128%nat with (length (CRLF ++ bnd ++ [0%Z]) + (125 - length bnd))%nat by (rewrite !length_app; simpl; lia).
      rewrite replicate_add, bwrite_app0 by (by rewrite length_replicate). by rewrite <- !app_assoc. }
    rewrite ok_bind. cbv zeta. rewrite decide_False by lia.
    replace (Z.to_nat (2 + Z.of_nat (length bnd))) with (length (CRLF ++ bnd)) by (rewrite length_app; simpl; lia). rewrite take_app_length.
    pose proof (key_loop_ok (CRLF ++ bnd) data (tl ++ 0 :: rest) Hj (length file + 1) 0) as K.
    unfold file in K |- *. rewrite <- !app_assoc in K. rewrite <- !app_assoc. rewrite K by (rewrite !length_app; lia). rewrite ok_bind.
    rewrite decide_False by (destruct data; [done|simpl; lia]). eexists _, _. split; [rewrite Z.add_0_l; reflexivity|].
    replace (bnd ++ 0 :: 10 :: disp ++ 0 :: 10 :: ctype ++ 0 :: 10 :: 13 :: 10 :: data ++ CRLF ++ bnd ++ tl ++ 0 :: rest)
      with ((bnd ++ 0 :: 10 :: disp ++ 0 :: 10 :: ctype ++ [0; 10; 13; 10]) ++ data ++ CRLF ++ bnd ++ tl ++ 0 :: rest)
      by (flatten; done).
    replace (Z.to_nat d) with (length (bnd ++ 0 :: 10 :: disp ++ 0 :: 10 :: ctype ++ [0; 10; 13; 10]))
      by (unfold d; repeat (rewrite length_app; cbn [length]); lia).
    by rewrite drop_app_length, take_app_length.
  - unfold bwrite. rewrite decide_False; [done|]. rewrite length_replicate, !length_app. simpl. lia.
Qed.

(** A boundary of 30 characters. *)
Definition sample_bnd : bytes := replicate 30 45.

Lemma adx_network_upload_extracts_witness : exists p buffer,
  adx_network_upload_file (sample_bnd ++ CRLF ++ B "a" ++ CRLF ++ B "b" ++ (CRLF ++ CRLF) ++ [7; 0; 13; 9] ++ CRLF ++ sample_bnd ++ [45; 45] ++ [10])
    79 = Ok (Some (p, 4), buffer) /\ take 4 (drop (Z.to_nat p) buffer) = [7; 0; 13; 9].
Proof.
  destruct (adx_network_upload_extracts sample_bnd (B "a") (B "b") [7; 0; 13; 9] [45; 45] [] 10) as [(p & buffer & E & H) _].
  - apply (bool_decide_unpack _). vm_compute. exact I.
  - apply (bool_decide_unpack _). vm_compute. exact I.
  - apply (bool_decide_unpack _). vm_compute. exact I.
  - discriminate.
  - intros j Hj. simpl in Hj. do 4 (destruct j as [|j]; [vm_compute; discriminate|]). lia.
  - vm_compute. lia.
  - exists p, buffer. rewrite app_nil_r in E. split; [exact E|exact H].
Defined.
