(* ===== verification/TrackerFlume.v ===== *)
(** Messages to a Flume server: tracker/src/adx_flume.c, with the queue of
    tracker/src/adx_queue.c and the strings of tracker/src/adx_string.c it
    uses.

    The operating system is external: it answers the n-th system call
    through the parameters [wr] (write), [sk] (socket), [cn] (connect) and
    [so] (setsockopt); the trace records what reached a socket and which
    sockets were closed.  The file is compiled without __NET_NOBLOCK__. *)

From Stdlib Require Import ZArith Lia.
From S2P Require Import Prelude AdxList AdxQueue.

Open Scope Z_scope.

(** ** Connections *)

Record adx_flume_conn_t := Conn { host : bytes; port : Z; sockfd : Z }.

Inductive call : Type :=
| Wrote (fd : Z) (data : bytes)
| Closed (fd : Z).

Record world := World { count : nat; trace : list call }.
Definition next_call (w : world) : world := World (S (count w)) (trace w).
Definition close (w : world) (fd : Z) : world := World (count w) (trace w ++ [Closed fd]).

Definition SEND_TIMEOUT : Z := 5000.
Definition KERNEL_SNDBUF : Z := 1024 * 1024 * 100.

Section Calls.
Context (wr : nat -> Z -> Z) (sk : nat -> Z) (cn so : nat -> bool).

(** [int size = write(fd, buf, len)]. *)
Definition write (w : world) (fd : Z) (buf : bytes) (len : Z) : cres (Z * world) :=
  if decide (0 <= len <= Z.of_nat (length buf)) then
    let size := i32 (wr (count w) len) in
    mret (size, World (S (count w)) (trace w ++ (if decide (size > 0) then [Wrote fd (take (Z.to_nat size) buf)] else [])))
  else UB.

(** 0 or -1. *)
Definition setsockopt (w : world) : Z * world := (if so (count w) then 0 else -1, next_call w).

Definition adx_network_send_timeout (w : world) (fd t : Z) : Z * world := setsockopt w.

Definition adx_network_set_kernel_buffer (w : world) (fd send_size recv_size : Z) : Z * world :=
  let '(r, w) := if decide (send_size ≠ 0) then setsockopt w else (0, w) in
  if decide (r = -1) then (-1, w) else
  let '(r, w) := if decide (recv_size ≠ 0) then setsockopt w else (0, w) in
  if decide (r = -1) then (-1, w) else (0, w).

Definition adx_network_connect (w : world) (host : bytes) (port : Z) : Z * world :=
  let sockfd := sk (count w) in
  let w := next_call w in
  if decide (sockfd = -1) then (-1, close w sockfd) else
  let ok := cn (count w) in
  let w := next_call w in
  if (ok : bool) then (sockfd, w) else (-1, close w sockfd).

(** [mok]: the answer of [je_malloc].  The test after it is of [ret]. *)
Definition connadx_flume_conn (mok : bool) (w : world) (host : bytes) (port : Z) : cres (option adx_flume_conn_t * world) :=
  let '(sockfd, w) := adx_network_connect w host port in
  if decide (sockfd = 0) then mret (None, w) else
  let '(ret, w) := adx_network_send_timeout w sockfd SEND_TIMEOUT in
  if decide (ret ≠ 0) then mret (None, close w sockfd) else
  let '(ret, w) := adx_network_set_kernel_buffer w sockfd KERNEL_SNDBUF 0 in
  if decide (ret ≠ 0) then mret (None, close w sockfd) else
  if negb mok then UB else mret (Some (Conn host port sockfd), w).

(** ** Sending *)

(** The loop of [adx_flume_send] over the rest of the buffer: [None] when all
    was sent, else the last answer. *)
Fixpoint send_loop (fuel : nat) (w : world) (fd : Z) (buf : bytes) (len send_size : Z) : cres (option Z * world) :=
  match fuel with
  | O => NoFuel
  | S fuel =>
      if decide (send_size < 0) then UB else
      '(size, w) ← write w fd (drop (Z.to_nat send_size) buf) (len - send_size);
      if decide (send_size <= 0) then mret (Some size, w) else
      send_size ← int_ok (send_size + size);
      if decide (send_size >= len) then mret (None, w) else send_loop fuel w fd buf len send_size
  end.

Definition give_up_conn (w : world) (conn : adx_flume_conn_t) : Z * adx_flume_conn_t * world :=
  (-1, Conn (host conn) (port conn) (-1), close w (sockfd conn)).

Fixpoint adx_flume_send (fuel : nat) (w : world) (conn : adx_flume_conn_t) (buf : bytes) (len : Z) : cres (Z * adx_flume_conn_t * world) :=
  match fuel with
  | O => NoFuel
  | S fuel =>
      '(size, w) ← write w (sockfd conn) buf len;
      if decide (size = len) then mret (0, conn, w) else
      '(rest, w) ← (if decide (size > 0) then send_loop fuel w (sockfd conn) buf len size else mret (Some size, w));
      match rest with
      | None => mret (0, conn, w)
      | Some size =>
          if decide (size = 0) then mret (give_up_conn w conn) else
          let '(fd, w) := adx_network_connect w (host conn) (port conn) in
          if decide (fd <= 0) then mret (give_up_conn w conn) else
          let '(ret, w) := adx_network_set_kernel_buffer w fd KERNEL_SNDBUF 0 in
          if decide (ret ≠ 0) then mret (give_up_conn (close w fd) conn) else
          let '(ret, w) := adx_network_send_timeout w fd SEND_TIMEOUT in
          if decide (ret ≠ 0) then mret (give_up_conn (close w fd) conn) else
          let w := close w (sockfd conn) in
          adx_flume_send fuel w (Conn (host conn) (port conn) fd) buf len
      end
  end.

(** ** The queue *)

Definition adx_empty (s : adx_str_t) : bool :=
  match str s with None => true | Some _ => bool_decide (slen s = 0) end.

(** [ok]: the answer of [je_malloc]. *)
Definition adx_strdup (ok : bool) (s : adx_str_t) : cres adx_str_t :=
  if adx_empty s then mret (Str None 0) else
  if negb ok then mret (Str None 0) else
  src ← of_opt (str s);
  if decide (0 <= slen s <= Z.of_nat (length src))
  then mret (Str (Some (take (Z.to_nat (slen s)) src ++ [0])) (slen s)) else UB.

(** [r] is the address of the new node, 0 for a refusal; [g] its old contents. *)
Definition adx_queue_push (m : qmem) (queue : Z) (s : adx_str_t) (r g : Z) : cres qmem :=
  if adx_empty s then mret m else
  if decide (r = NULL) then mret m else
  let m := q_malloc m r g in
  let m := QMem (ql m) (<[r := s]> (qstr m)) in
  l ← adx_list_add (ql m) queue r;
  mret (QMem l (qstr m)).

Definition adx_queue_push_dup (m : qmem) (queue : Z) (s : adx_str_t) (ok : bool) (r g : Z) : cres qmem :=
  d ← adx_strdup ok s;
  adx_queue_push m queue d r g.

(** The same text as in adx_dsp/src/adx_queue.c. *)
Definition adx_queue_pop : qmem -> Z -> cres (adx_str_t * qmem) := AdxQueue.adx_queue_pop.

(** ** The threads *)

(** The globals, the connection of the sending thread, and the string it has
    popped and not yet sent. *)
Record sys := Sys { mem : qmem; adx_flume_queue : Z; adx_flume_init_code : Z; conn : adx_flume_conn_t; held : option adx_str_t; net : world }.

(** [created]: the answer of [pthread_create]. *)
Definition adx_flume_init (mok : bool) (created : Z) (w : world) (host : bytes) (port : Z) : cres (Z * option adx_flume_conn_t * world) :=
  '(conn, w) ← connadx_flume_conn mok w host port;
  match conn with
  | None => mret (-1, None, w)
  | Some conn => mret (created, Some conn, w)
  end.

Definition adx_flume_queue_send (s : sys) (buf : option bytes) (len : Z) (ok : bool) (r g : Z) : cres sys :=
  if decide (adx_flume_init_code s ≠ 0) then mret s else
  d ← adx_strdup ok (Str buf len);
  m ← adx_queue_push (mem s) (adx_flume_queue s) d r g;
  mret (Sys m (adx_flume_queue s) (adx_flume_init_code s) (conn s) (held s) (net s)).

(** [start:] of [adx_flume_queue_send_vlist]: the n-th block is [block n],
    [None] for a refusal; a message that does not fit is formatted again. *)
Fixpoint format_loop (fuel : nat) (block : nat -> Z -> option bytes) (n : nat) (len : Z) (message : bytes) : cres (option bytes) :=
  match fuel with
  | O => NoFuel
  | S fuel =>
      match block n len with
      | None => mret None
      | Some buf =>
          let size := Z.of_nat (length message) in
          fit ← int_ok (size + 1);
          if decide (fit >= len) then l ← int_ok (size + 2); format_loop fuel block (S n) l message
          else buf ← bwrite buf 0 (message ++ [0]); mret (Some buf)
      end
  end.

(** [message] is what the format gives.  The line is printed as a string
    after the newline has replaced its terminator. *)
Definition adx_flume_queue_send_vlist (s : sys) (block : nat -> Z -> option bytes) (message : bytes) (ok : bool) (r g : Z) : cres sys :=
  buf ← format_loop 3 block 0 1024 message;
  match buf with
  | None => mret s
  | Some buf =>
      let size := Z.of_nat (length message) in
      if decide (size > 0) then
        buf ← bset buf size 10;
        _ ← cstr buf;
        adx_flume_queue_send s (Some buf) (size + 1) ok r g
      else mret s
  end.

Definition adx_flume_queue_send_format := adx_flume_queue_send_vlist.

(** One turn of [adx_flume_send_thread]: pop under the mutex, then send and
    release outside it.  The line it prints for an empty string shows a NULL
    pointer, which the C library prints as a word. *)
Definition thread_pop (s : sys) : cres sys :=
  '(v, m) ← adx_queue_pop (mem s) (adx_flume_queue s);
  mret (Sys m (adx_flume_queue s) (adx_flume_init_code s) (conn s) (Some v) (net s)).

Definition thread_send (fuel : nat) (s : sys) (v : adx_str_t) : cres sys :=
  if adx_empty v then mret (Sys (mem s) (adx_flume_queue s) (adx_flume_init_code s) (conn s) None (net s))
  else
    buf ← of_opt (str v);
    '(_, c, w) ← adx_flume_send fuel (net s) (conn s) buf (slen v);
    mret (Sys (mem s) (adx_flume_queue s) (adx_flume_init_code s) c None w).
End Calls.

(** ** Sending on a socket that accepts data *)

Section Healthy.
Context (wr : nat -> Z -> Z) (sk : nat -> Z) (cn so : nat -> bool).
Context (Hwr : forall n l, 0 < l -> 1 <= wr n l <= l).

Lemma write_ok w fd buf len : 0 < len <= Z.of_nat (length buf) -> len <= 2147483647 ->
  exists k, 1 <= k <= len /\ write wr w fd buf len = Ok (k, World (S (count w)) (trace w ++ [Wrote fd (take (Z.to_nat k) buf)])).
Proof.
  intros Hl Hm. pose proof (Hwr (count w) len ltac:(lia)) as Hk. exists (wr (count w) len). split; [done|].
  unfold write. rewrite decide_True by lia. replace (i32 (wr (count w) len)) with (wr (count w) len) by (unfold i32; rewrite Z.mod_small; lia).
  by rewrite decide_True by lia.
Qed.

Lemma take_nonempty (n : nat) (b : bytes) : (0 < n)%nat -> (0 < length b)%nat -> take n b ≠ [].
Proof. destruct n, b; simpl; done || lia. Qed.

Lemma nonempty_chunks (cs : list bytes) : Forall (fun c => c ≠ []) cs -> (length cs <= length (concat cs))%nat.
Proof. induction 1 as [|c cs Hc _ IH]; [done|]. cbn [concat length]. rewrite length_app. destruct c; [done|simpl; lia]. Qed.

Lemma send_loop_ok fd buf len : len <= 2147483647 -> len <= Z.of_nat (length buf) -> forall fuel w size,
  0 < size < len -> (Z.to_nat (len - size) <= fuel)%nat ->
  exists chunks, send_loop wr fuel w fd buf len size =
      Ok (None, World (count w + length chunks) (trace w ++ map (Wrote fd) chunks)) /\
    concat chunks = take (Z.to_nat (len - size)) (drop (Z.to_nat size) buf) /\ Forall (fun c => c ≠ []) chunks.
Proof.
  intros Hm Hl. induction fuel as [|fuel IH]; intros w size Hs Hf; [lia|]. cbn [send_loop].
  rewrite (decide_False (P := size < 0)) by lia.
  destruct (write_ok w fd (drop (Z.to_nat size) buf) (len - size)) as (k & Hk & ->); [rewrite length_drop; lia|lia|].
  rewrite ok_bind, (decide_False (P := size <= 0)), int_ok_in, ok_bind by lia. set (w1 := World _ _). set (t := take (Z.to_nat k) (drop (Z.to_nat size) buf)).
  assert (t ≠ []) as Ht by (apply take_nonempty; [lia|rewrite length_drop; lia]).
  case_decide as Hg.
  - assert (k = len - size) as -> by lia. exists [t]. split; [unfold w1; cbn [length]; by rewrite Nat.add_1_r|]. cbn [concat].
    rewrite app_nil_r. split; [done|by repeat constructor].
  - destruct (IH w1 (size + k)) as (chunks & -> & Hc & Hn); [lia|lia|]. exists (t :: chunks). split; [|split; [|by constructor]].
    + unfold w1. cbn [count trace map length]. rewrite <- app_assoc, Nat.add_succ_r. reflexivity.
    + cbn [concat]. rewrite Hc. unfold t. replace (Z.to_nat (size + k)) with (Z.to_nat size + Z.to_nat k)%nat by lia.
      rewrite <- drop_drop. replace (Z.to_nat (len - size)) with (Z.to_nat k + Z.to_nat (len - (size + k)))%nat by lia.
      by rewrite <- take_take_drop.
Qed.

Lemma flume_send_ok fuel w conn buf len : 0 < len <= 2147483647 -> len <= Z.of_nat (length buf) -> (Z.to_nat len < fuel)%nat ->
  exists chunks, adx_flume_send wr sk cn so fuel w conn buf len =
      Ok (0, conn, World (count w + length chunks) (trace w ++ map (Wrote (sockfd conn)) chunks)) /\
    concat chunks = take (Z.to_nat len) buf /\ Forall (fun c => c ≠ []) chunks.
Proof.
  intros Hl Hb Hf. destruct fuel as [|fuel]; [lia|]. cbn [adx_flume_send].
  destruct (write_ok w (sockfd conn) buf len) as (k & Hk & ->); [lia|lia|]. rewrite ok_bind. set (w1 := World _ _).
  assert (take (Z.to_nat k) buf ≠ []) as Ht by (apply take_nonempty; lia). case_decide as He.
  - subst k. exists [take (Z.to_nat len) buf]. split; [unfold w1; cbn [length]; by rewrite Nat.add_1_r|]. cbn [concat].
    rewrite app_nil_r. split; [done|by repeat constructor].
  - rewrite decide_True by lia. destruct (send_loop_ok (sockfd conn) buf len ltac:(lia) Hb fuel w1 k) as (chunks & -> & Hc & Hn); [lia|lia|].
    rewrite ok_bind. exists (take (Z.to_nat k) buf :: chunks). split; [|split; [|by constructor]].
    + unfold w1. cbn [count trace map length]. by rewrite <- app_assoc, Nat.add_succ_r.
    + cbn [concat]. rewrite Hc. replace (Z.to_nat len) with (Z.to_nat k + Z.to_nat (len - k))%nat by lia. by rewrite <- take_take_drop.
Qed.
End Healthy.

(** C38: a message is delivered.  If every write to the socket accepts at
    least one byte, [adx_flume_send] returns 0, on the connection it was given
    and after at most [len] system calls, all of them writes of at least one
    byte, and the bytes that reached the socket are the message, in order and
    once. *)
Theorem adx_flume_send_delivers (wr : nat -> Z -> Z) (sk : nat -> Z) (cn so : nat -> bool) (fuel : nat) (w : world)
  (conn : adx_flume_conn_t) (buf : bytes) (len : Z) :
  (forall n l, 0 < l -> 1 <= wr n l <= l) -> 0 < len <= 2147483647 -> len <= Z.of_nat (length buf) -> (Z.to_nat len < fuel)%nat ->
  exists chunks, adx_flume_send wr sk cn so fuel w conn buf len =
      Ok (0, conn, World (count w + length chunks) (trace w ++ map (Wrote (sockfd conn)) chunks)) /\
    concat chunks = take (Z.to_nat len) buf /\ Forall (fun c => c ≠ []) chunks /\ Z.of_nat (length chunks) <= len.
Proof.
  intros Hwr Hl Hb Hf. destruct (flume_send_ok wr sk cn so Hwr fuel w conn buf len Hl Hb Hf) as (chunks & E & Hc & Hn).
  exists chunks. split; [done|]. split; [done|]. split; [done|]. apply nonempty_chunks in Hn. rewrite Hc, length_take in Hn. lia.
Qed.

(** Two bytes at a time. *)
Definition slow (n : nat) (l : Z) : Z := Z.min l 2.
Definition demo_conn : adx_flume_conn_t := Conn (B "10.0.0.1") 9093 7.

Lemma adx_flume_send_delivers_witness : exists chunks,
  adx_flume_send slow (fun _ => -1) (fun _ => false) (fun _ => false) 6 (World 0 []) demo_conn (B "flume") 5 =
    Ok (0, demo_conn, World (length chunks) (map (Wrote 7) chunks)) /\ concat chunks = B "flume" /\
  Forall (fun c => c ≠ []) chunks /\ Z.of_nat (length chunks) <= 5.
Proof.
  destruct (adx_flume_send_delivers slow (fun _ => -1) (fun _ => false) (fun _ => false) 6 (World 0 []) demo_conn (B "flume") 5)
    as (chunks & E & H); [unfold slow; lia|lia|vm_compute; discriminate|vm_compute; lia|].
  exists chunks. split; [exact E|exact H].
Defined.

(** ** Sending on a socket that fails *)

Lemma write_answer wr w fd buf len r : wr (count w) len = r -> -1 <= r <= len -> 0 <= len <= Z.of_nat (length buf) -> len <= 2147483647 ->
  write wr w fd buf len = Ok (r, World (S (count w)) (trace w ++ (if decide (r > 0) then [Wrote fd (take (Z.to_nat r) buf)] else []))).
Proof.
  intros Hr Hb Hl Hm. unfold write. rewrite decide_True, Hr by lia. by replace (i32 r) with r by (unfold i32; rewrite Z.mod_small; lia).
Qed.

(** what [adx_flume_send] does when the socket fails.  (1) The loop that
    sends the rest tests the bytes sent so far, not the answer of write: after
    a failed write it goes back by one byte, sends the byte before again, and
    returns 0.  (2) If write answers 0 from then on, it never returns.  (3)
    If the first write fails and the server cannot be reached again, the
    socket is closed and marked, and the result is -1.  (4) If it can, the
    whole message goes to the new socket. *)
Theorem adx_flume_send_faults (wr : nat -> Z -> Z) (sk : nat -> Z) (cn so : nat -> bool) (fuel : nat) (w : world)
  (conn : adx_flume_conn_t) (buf : bytes) (len k : Z) :
  let n := count w in
  let fd := sockfd conn in
  2 <= k < len -> len <= 2147483647 -> len <= Z.of_nat (length buf) -> (3 <= fuel)%nat ->
  (wr n len = k -> wr (S n) (len - k) = -1 -> wr (S (S n)) (len - (k - 1)) = len - (k - 1) ->
   adx_flume_send wr sk cn so fuel w conn buf len = Ok (0, conn, World (S (S (S n)))
     (trace w ++ [Wrote fd (take (Z.to_nat k) buf); Wrote fd (take (Z.to_nat (len - (k - 1))) (drop (Z.to_nat (k - 1)) buf))]))) /\
  (wr n len = k -> (forall i l, (n < i)%nat -> wr i l = 0) -> forall more, adx_flume_send wr sk cn so more w conn buf len = NoFuel) /\
  (wr n len = -1 -> sk (S n) > 0 -> cn (S (S n)) = false ->
   adx_flume_send wr sk cn so fuel w conn buf len =
     Ok (-1, Conn (host conn) (port conn) (-1), World (S (S (S n))) (trace w ++ [Closed (sk (S n)); Closed fd]))) /\
  (wr n len = -1 -> sk (S n) > 0 -> cn (S (S n)) = true -> so (S (S (S n))) = true -> so (S (S (S (S n)))) = true ->
   wr (S (S (S (S (S n))))) len = len ->
   adx_flume_send wr sk cn so fuel w conn buf len =
     Ok (0, Conn (host conn) (port conn) (sk (S n)), World (S (S (S (S (S (S n))))))
       (trace w ++ [Closed fd; Wrote (sk (S n)) (take (Z.to_nat len) buf)]))).
Proof.
  cbv zeta. intros Hk Hm Hl Hf. do 3 (destruct fuel as [|fuel]; [lia|]). split; [|split; [|split]].
  - intros H1 H2 H3. cbn [adx_flume_send]. rewrite (write_answer _ _ _ _ _ k H1), ok_bind by lia.
    rewrite !decide_False, !decide_True by lia. cbn [send_loop].
    rewrite (decide_False (P := k < 0)) by lia. rewrite write_answer with (r := -1) by (exact H2 || (rewrite ?length_drop; lia)). rewrite ok_bind.
    rewrite (decide_False (P := k <= 0)), int_ok_in, ok_bind, (decide_False (P := k + -1 >= len)), (decide_False (P := k + -1 < 0)) by lia.
    replace (k + -1) with (k - 1) by lia. rewrite write_answer with (r := len - (k - 1)) by (exact H3 || (rewrite ?length_drop; lia)). rewrite ok_bind.
    rewrite (decide_False (P := k - 1 <= 0)), int_ok_in, ok_bind, (decide_True (P := k - 1 + _ >= len)) by lia.
    cbn [mret cres_ret]. rewrite ok_bind. rewrite (decide_True (P := len - (k - 1) > 0)) by lia. cbn [count trace].
    rewrite (decide_False (P := -1 > 0)) by lia. by rewrite app_nil_r, <- app_assoc.
  - intros H1 H2 more. destruct more as [|more]; [done|]. cbn [adx_flume_send]. rewrite (write_answer _ _ _ _ _ k H1), ok_bind by lia.
    rewrite !decide_False, !decide_True by lia. set (w1 := World _ _).
    assert (forall f w', (count w < count w')%nat -> send_loop wr f w' (sockfd conn) buf len k = NoFuel) as ->; [|done|unfold w1; simpl; lia].
    induction f as [|f IHf]; intros w' Hw'; [done|]. cbn [send_loop].
    rewrite (decide_False (P := k < 0)) by lia. rewrite write_answer with (r := 0) by (apply H2, Hw' || (rewrite ?length_drop; lia)). rewrite ok_bind.
    rewrite (decide_False (P := k <= 0)), int_ok_in, ok_bind by lia. rewrite Z.add_0_r, (decide_False (P := k >= len)) by lia.
    apply IHf. simpl. lia.
  - intros H1 H2 H3. cbn [adx_flume_send]. rewrite (write_answer _ _ _ _ _ (-1) H1), ok_bind by lia.
    rewrite (decide_False (P := -1 = len)), (decide_False (P := -1 > 0)) by lia. cbn [mret cres_ret]. rewrite ok_bind.
    rewrite (decide_False (P := -1 = 0)) by lia. unfold adx_network_connect, next_call. cbn [count trace].
    rewrite (decide_False (P := sk (S (count w)) = -1)), H3 by lia. unfold close, give_up_conn. cbn [count trace]. rewrite decide_True by lia.
    unfold close. cbn [count trace]. by rewrite app_nil_r, <- app_assoc.
  - intros H1 H2 H3 H4 H5 H6. cbn [adx_flume_send]. rewrite (write_answer _ _ _ _ _ (-1) H1), ok_bind by lia.
    rewrite (decide_False (P := -1 = len)), (decide_False (P := -1 > 0)) by lia. cbn [mret cres_ret]. rewrite ok_bind.
    rewrite (decide_False (P := -1 = 0)) by lia. unfold adx_network_connect, next_call. cbn [count trace].
    rewrite (decide_False (P := sk (S (count w)) = -1)), H3, (decide_False (P := sk (S (count w)) <= 0)) by lia.
    unfold adx_network_set_kernel_buffer, adx_network_send_timeout, setsockopt, next_call. cbn [count trace].
    rewrite (decide_True (P := KERNEL_SNDBUF ≠ 0)), H4 by done. rewrite (decide_False (P := 0 = -1)), (decide_False (P := 0 ≠ 0)) by lia.
    rewrite (decide_False (P := 0 = -1)), (decide_False (P := 0 ≠ 0)) by lia. cbn [count trace]. rewrite H5. rewrite (decide_False (P := 0 ≠ 0)) by lia.
    unfold close. cbn [count trace sockfd]. rewrite write_answer with (r := len) by (done || lia). rewrite ok_bind, decide_True by done.
    cbn [count trace]. rewrite (decide_True (P := len > 0)) by lia. by rewrite app_nil_r, <- app_assoc.
Qed.

(** The fourth of six bytes is sent twice. *)
Definition flaky (n : nat) (l : Z) : Z := match n with O => 4 | 1%nat => -1 | _ => l end.

Lemma adx_flume_send_faults_witness :
  adx_flume_send flaky (fun _ => -1) (fun _ => false) (fun _ => false) 3 (World 0 []) demo_conn (B "flumes") 6 =
    Ok (0, demo_conn, World 3 [Wrote 7 (B "flum"); Wrote 7 (B "mes")]).
Proof.
  destruct (adx_flume_send_faults flaky (fun _ => -1) (fun _ => false) (fun _ => false) 3 (World 0 []) demo_conn (B "flumes") 6 4)
    as (H & _); [lia|lia|vm_compute; discriminate|lia|]. apply H; reflexivity.
Defined.

(** ** The queue and its sender *)

(** A line: the formatted message with a newline, if the block was long
    enough to hold a zero byte behind it. *)
Lemma format_loop_ok block message : (forall n l b, block n l = Some b -> Z.of_nat (length b) = l) -> (forall n l, is_Some (block n l)) ->
  Z.of_nat (length message) <= 2147483645 ->
  exists tl, format_loop 3 block 0 1024 message = Ok (Some (message ++ 0 :: tl)).
Proof.
  intros Hlen Hs Hm.
  assert (forall f n l, (0 < f)%nat -> Z.of_nat (length message) + 1 < l -> exists tl, format_loop f block n l message = Ok (Some (message ++ 0 :: tl))) as Hfit.
  { intros [|f] n l Hf Hl; [lia|]. cbn [format_loop]. destruct (Hs n l) as [b Hb].
    rewrite Hb, (int_ok_in (Z.of_nat (length message) + 1)), ok_bind, decide_False by lia.
    apply Hlen in Hb. exists (drop (S (length message)) b). rewrite <- (take_drop (S (length message)) b) at 1.
    rewrite bwrite_app0, ok_bind by (rewrite length_app, length_take; cbn [length]; lia). by rewrite <- app_assoc. }
  destruct (decide (Z.of_nat (length message) + 1 < 1024)) as [H|H]; [apply Hfit; [lia|done]|].
  assert (forall f, (0 < f)%nat -> exists tl, format_loop (S f) block 0 1024 message = Ok (Some (message ++ 0 :: tl))) as G; [|apply G; lia].
  intros f Hf. cbn [format_loop]. destruct (Hs 0%nat 1024) as [b ->].
  rewrite (int_ok_in (Z.of_nat (length message) + 1)), ok_bind, decide_True by lia. rewrite int_ok_in, ok_bind by lia. apply Hfit; lia.
Qed.

Lemma flume_line s block message ok r g tl u : format_loop 3 block 0 1024 message = Ok (Some (message ++ 0 :: tl)) -> message ≠ [] ->
  no_nul message -> cstr tl = u ->
  adx_flume_queue_send_vlist s block message ok r g =
    match u with
    | Ok _ => adx_flume_queue_send s (Some (message ++ 10 :: tl)) (Z.of_nat (length message) + 1) ok r g
    | _ => u ≫= fun _ => UB
    end.
Proof.
  intros E Hne Hn <-. unfold adx_flume_queue_send_vlist. rewrite E, ok_bind, decide_True by (destruct message; [done|simpl; lia]).
  rewrite bset_app, ok_bind by done. assert (cstr (message ++ 10 :: tl) = (t ← cstr tl; mret (message ++ 10 :: t))) as ->.
  { clear E Hne. induction Hn as [|c message Hc _ IH]; [done|]. cbn [app cstr]. rewrite decide_False, IH by done. by destruct (cstr tl). }
  by destruct (cstr tl).
Qed.

(** A short message in a block without another zero byte: the line is printed
    past the block. *)
Example flume_line_unterminated : adx_flume_queue_send_vlist (Sys (QMem (LMem {[8 := 8]} {[8 := 8]}) ∅) 8 0 demo_conn None (World 0 []))
  (fun _ n => Some (replicate (Z.to_nat n) 255)) (B "win") true 16 0 = UB.
Proof. vm_compute. reflexivity. Qed.

Lemma adx_empty_msg t : t ≠ [] -> adx_empty (msg t) = false.
Proof. intros Ht. unfold adx_empty, msg. cbn [str slen]. apply bool_decide_false. destruct t; [done|simpl; lia]. Qed.

Lemma flume_push_ok m queue xs t r g : queue_rep m queue xs -> t ≠ [] -> r ≠ NULL -> r ∉ queue :: xs.*1 ->
  exists m', adx_queue_push m queue (msg t) r g = Ok m' /\ queue_rep m' queue (xs ++ [(r, t)]).
Proof.
  intros [Hring Hall] Ht Hr0 Hr. unfold adx_queue_push. rewrite adx_empty_msg, decide_False by done.
  assert (r ∉ xs.*1) as Hrx by (clear -Hr; set_solver).
  destruct (adx_list_add_ring _ queue xs.*1 r (ring_fresh _ _ _ _ g Hring Hr)) as (l & E & Hl); [|done|done|].
  { split; simpl; rewrite lookup_insert_eq; eauto. }
  unfold q_malloc. cbn [ql qstr]. rewrite E, ok_bind. eexists. split; [done|].
  split; [simpl; by rewrite fmap_app|]. cbn [qstr]. rewrite insert_insert_eq || idtac. apply Forall_app. split; [by apply strs_insert|].
  apply Forall_singleton. simpl. by rewrite lookup_insert_eq.
Qed.

(** What reached the socket [fd]. *)
Definition wire (fd : Z) (tr : list call) : bytes :=
  concat (omap (fun c => match c with Wrote f d => if decide (f = fd) then Some d else None | Closed _ => None end) tr).

Lemma wire_chunks fd tr chunks : wire fd (tr ++ map (Wrote fd) chunks) = wire fd tr ++ concat chunks.
Proof.
  unfold wire. rewrite omap_app, concat_app. f_equal. induction chunks as [|c chunks IH]; [done|].
  cbn [map omap list_omap concat]. rewrite decide_True by done. cbn [concat]. by rewrite <- IH.
Qed.

Section Threads.
Context (wr : nat -> Z -> Z) (sk : nat -> Z) (cn so : nat -> bool).

(** A call of [adx_flume_queue_send] for a message that was kept or dropped
    for lack of memory; the two halves of a turn of the sending thread. *)
Inductive event : Type :=
| Queued (message : bytes) (kept : bool)
| Popped
| Sent.

Inductive step : sys -> event -> sys -> Prop :=
| step_queue s message rest ok r g s' :
    Z.of_nat (length message) <= 2147483647 -> (r ≠ NULL -> nx (ql (mem s)) !! r = None) ->
    adx_flume_queue_send s (Some (message ++ rest)) (Z.of_nat (length message)) ok r g = Ok s' ->
    step s (Queued message (ok && bool_decide (r ≠ NULL))) s'
| step_pop s s' : held s = None -> thread_pop s = Ok s' -> step s Popped s'
| step_send s v fuel s' : held s = Some v -> thread_send wr sk cn so fuel s v = Ok s' -> step s Sent s'.

Inductive steps : sys -> list event -> sys -> Prop :=
| steps_nil s : steps s [] s
| steps_snoc s es s1 e s2 : steps s es s1 -> step s1 e s2 -> steps s (es ++ [e]) s2.

(** The messages that went into the queue. *)
Definition accepted (es : list event) : list bytes :=
  omap (fun e => match e with Queued m true => match m with [] => None | _ => Some m end | _ => None end) es.

Lemma flume_accepted_snoc es e : accepted (es ++ [e]) = accepted es ++ accepted [e].
Proof. unfold accepted. by rewrite omap_app. Qed.

Definition held_rep (h : option adx_str_t) (hs : list bytes) : Prop :=
  (h = None \/ h = Some (Str None 0)) /\ hs = [] \/ exists m, m ≠ [] /\ h = Some (msg m) /\ hs = [m].

Definition small (m : bytes) : Prop := Z.of_nat (length m) <= 2147483647.

Definition flume_inv (c : adx_flume_conn_t) (w0 : bytes) (s : sys) (es : list event) : Prop :=
  exists xs hs done, adx_flume_init_code s = 0 /\ conn s = c /\ queue_rep (mem s) (adx_flume_queue s) xs /\ held_rep (held s) hs /\
    Forall small (hs ++ xs.*2) /\ wire (sockfd c) (trace (net s)) = w0 ++ concat done /\ accepted es = done ++ hs ++ xs.*2.

Lemma queue_step c w0 s es message rest ok r g s' : flume_inv c w0 s es ->
  Z.of_nat (length message) <= 2147483647 -> (r ≠ NULL -> nx (ql (mem s)) !! r = None) ->
  adx_flume_queue_send s (Some (message ++ rest)) (Z.of_nat (length message)) ok r g = Ok s' ->
  flume_inv c w0 s' (es ++ [Queued message (ok && bool_decide (r ≠ NULL))]).
Proof.
  intros (xs & hs & done & H0 & Hc & Hq & Hh & Hsm & Hw & Hacc) Hm Hr Hrun. unfold flume_inv. rewrite flume_accepted_snoc, Hacc. clear Hacc.
  unfold adx_flume_queue_send in Hrun. rewrite decide_False in Hrun by lia. unfold adx_strdup, adx_empty in Hrun. cbn [str slen] in Hrun.
  assert (forall s'', mem s'' = mem s -> adx_flume_queue s'' = adx_flume_queue s -> adx_flume_init_code s'' = 0 -> conn s'' = c -> held s'' = held s -> net s'' = net s ->
    exists xs0 hs0 done0, adx_flume_init_code s'' = 0 /\ conn s'' = c /\ queue_rep (mem s'') (adx_flume_queue s'') xs0 /\ held_rep (held s'') hs0 /\
    Forall small (hs0 ++ xs0.*2) /\ wire (sockfd c) (trace (net s'')) = w0 ++ concat done0 /\ (done ++ hs ++ xs.*2) ++ [] = done0 ++ hs0 ++ xs0.*2) as Hsame.
  { intros s'' -> -> -> -> -> ->. exists xs, hs, done. rewrite app_nil_r. done. }
  destruct message as [|a message].
  { rewrite bool_decide_true in Hrun by done. injection Hrun as <-.
    destruct (ok && bool_decide (r ≠ NULL)); change (accepted _) with (@nil bytes); by apply Hsame. }
  rewrite bool_decide_false in Hrun by (simpl; lia). destruct ok; cbn [negb] in Hrun.
  2: { injection Hrun as <-. change (accepted _) with (@nil bytes). by apply Hsame. }
  cbn [of_opt] in Hrun. rewrite ok_bind, decide_True in Hrun by (rewrite length_app; lia).
  rewrite Nat2Z.id, take_app_length in Hrun. change (Str (Some ((a :: message) ++ [0])) (Z.of_nat (length (a :: message)))) with (msg (a :: message)) in Hrun.
  cbn [mret cres_ret] in Hrun. rewrite ok_bind in Hrun. destruct (decide (r = NULL)) as [->|Hr0].
  - unfold adx_queue_push in Hrun. rewrite adx_empty_msg, decide_True, ok_bind in Hrun by done. injection Hrun as <-.
    change (accepted _) with (@nil bytes). by apply Hsame.
  - destruct (flume_push_ok (mem s) (adx_flume_queue s) xs (a :: message) r g Hq) as (m' & E & Hq'); [done|done| |].
    { destruct Hq as [Hring _]. intros Hin. destruct Hring as (Hs & _). destruct (proj1 (lseg_live _ _ _ _ Hs) r Hin) as [? Hx]. rewrite Hr in Hx; done. }
    rewrite E, ok_bind in Hrun. injection Hrun as <-. rewrite bool_decide_true by done. cbn [andb].
    exists (xs ++ [(r, a :: message)]), hs, done. split_and!; try done.
    + rewrite fmap_app, app_assoc. apply Forall_app. split; [done|]. by apply Forall_singleton.
    + change (accepted _) with [a :: message]. by rewrite fmap_app, !app_assoc.
Qed.

Context (Hwr : forall n l, 0 < l -> 1 <= wr n l <= l).

Lemma thread_send_ok s t fuel : t ≠ [] -> small t -> (length t < fuel)%nat ->
  exists w, thread_send wr sk cn so fuel s (msg t) = Ok (Sys (mem s) (adx_flume_queue s) (adx_flume_init_code s) (conn s) None w) /\
    wire (sockfd (conn s)) (trace w) = wire (sockfd (conn s)) (trace (net s)) ++ t.
Proof.
  intros Ht Hm Hf. unfold thread_send. rewrite adx_empty_msg by done. unfold msg. cbn [str slen of_opt]. rewrite ok_bind.
  unfold small in Hm. assert (0 < length t)%nat by (destruct t; [done|simpl; lia]).
  destruct (flume_send_ok wr sk cn so Hwr fuel (net s) (conn s) (t ++ [0]) (Z.of_nat (length t))) as (chunks & -> & Hc & _);
    [lia|rewrite length_app; lia|lia|]. rewrite ok_bind. eexists. split; [done|]. cbn [trace]. rewrite wire_chunks, Hc.
  by rewrite Nat2Z.id, take_app_length.
Qed.

(** More turns do not change an answer. *)
Lemma send_loop_more fuel w fd buf len size r : send_loop wr fuel w fd buf len size = Ok r -> forall more, (fuel <= more)%nat ->
  send_loop wr more w fd buf len size = Ok r.
Proof.
  revert w size. induction fuel as [|fuel IH]; intros w size E more Hle; [done|]. destruct more as [|more]; [lia|]. cbn [send_loop] in E |- *.
  case_decide; [done|]. destruct (write wr w fd _ _) as [[k w1]| |]; [|done..]. rewrite ok_bind in E |- *. case_decide; [done|].
  destruct (int_ok _) as [z| |]; [|done..]. rewrite ok_bind in E |- *. case_decide; [done|]. apply IH; [done|lia].
Qed.

Lemma send_more fuel w c buf len r : adx_flume_send wr sk cn so fuel w c buf len = Ok r -> forall more, (fuel <= more)%nat ->
  adx_flume_send wr sk cn so more w c buf len = Ok r.
Proof.
  revert w c. induction fuel as [|fuel IH]; intros w c E more Hle; [done|]. destruct more as [|more]; [lia|]. cbn [adx_flume_send] in E |- *.
  destruct (write wr w _ _ _) as [[k w1]| |]; [|done..]. rewrite ok_bind in E |- *. case_decide; [done|].
  assert (forall x, (if decide (k > 0) then send_loop wr fuel w1 (sockfd c) buf len k else mret (Some k, w1)) = Ok x ->
    (if decide (k > 0) then send_loop wr more w1 (sockfd c) buf len k else mret (Some k, w1)) = Ok x) as Hloop.
  { intros x. case_decide; [|done]. intros Hx. eapply send_loop_more; [exact Hx|lia]. }
  destruct (if decide (k > 0) then send_loop wr fuel w1 (sockfd c) buf len k else mret (Some k, w1)) as [[rest w2]| |] eqn:E1; [|done..].
  rewrite (Hloop _ eq_refl), ok_bind. rewrite ok_bind in E. clear Hloop E1. destruct rest as [z|]; [|done]. case_decide; [done|].
  destruct (adx_network_connect _ _ _ _ _) as [fd w3]. case_decide; [done|]. destruct (adx_network_set_kernel_buffer _ _ _ _ _) as [ret w4].
  case_decide; [done|]. destruct (adx_network_send_timeout _ _ _ _) as [ret' w5]. case_decide; [done|]. apply IH; [done|lia].
Qed.

Lemma flume_step_inv c w0 s es e s' : flume_inv c w0 s es -> step s e s' -> flume_inv c w0 s' (es ++ [e]).
Proof.
  intros Hinv Hstep. inversion Hstep as [? message rest ok r g ? Hm Hr Hrun|? ? Hn Hrun|? v fuel ? Hv Hrun]; subst; [by eapply queue_step| |];
    destruct Hinv as (xs & hs & done & H0 & Hc & Hq & Hh & Hsm & Hw & Hacc); unfold flume_inv; rewrite flume_accepted_snoc, Hacc;
    change (accepted [_]) with (@nil bytes); rewrite app_nil_r.
  - unfold thread_pop, adx_queue_pop in Hrun. destruct (pop_ok _ _ _ Hq) as (m' & E & Hq'). rewrite E in Hrun. injection Hrun as <-.
    destruct Hh as [[_ ->]|(m & _ & Hm & _)]; [|congruence]. destruct xs as [|[p m] xs].
    + exists [], [], done. split_and!; try done. left. by split; [right|].
    + destruct Hq as [_ [[_ Hne] _]%Forall_cons]. exists xs, [m], done. split_and!; try done. right. by exists m.
  - destruct Hh as [[[?| ?] ->]|(m & Hne & Hm & ->)]; [congruence| |].
    + assert (v = Str None 0) as -> by congruence. unfold thread_send, adx_empty in Hrun. cbn [str] in Hrun. injection Hrun as <-.
      exists xs, [], done. split_and!; try done. left. by split; [left|].
    + assert (v = msg m) as -> by congruence. apply Forall_app in Hsm as [[Hs1 _]%Forall_cons Hs2].
      destruct (thread_send_ok s m (S (length m + fuel)) Hne Hs1) as (w & E & Hwire); [lia|].
      assert (thread_send wr sk cn so (S (length m + fuel)) s (msg m) = Ok s') as E'.
      { unfold thread_send in Hrun |- *. rewrite adx_empty_msg in Hrun |- * by done. cbn [msg str slen of_opt] in Hrun |- *. rewrite ok_bind in Hrun |- *.
        destruct (adx_flume_send wr sk cn so fuel (net s) (conn s) _ _) as [x| |] eqn:Es; [|done..].
        by rewrite (send_more _ _ _ _ _ _ Es) by lia. }
      rewrite E in E'. injection E' as <-. exists xs, [], (done ++ [m]). split_and!; try done.
      * left. by split; [left|].
      * cbn [net]. rewrite Hc in Hwire. rewrite Hwire, Hw, concat_app. simpl. by rewrite app_nil_r, <- app_assoc.
      * by rewrite <- !app_assoc.
Qed.
End Threads.

Lemma flume_steps_inv wr sk cn so c w0 s0 es s : (forall n l, 0 < l -> 1 <= wr n l <= l) -> flume_inv c w0 s0 [] -> steps wr sk cn so s0 es s -> flume_inv c w0 s es.
Proof. intros Hwr H0. induction 1 as [s|s es s1 e s2 Hs IH Hstep]; [done|]. eapply flume_step_inv; eauto. Qed.

(** C26: the Flume queue neither loses, repeats nor reorders.  While every
    write accepts at least one byte, after any interleaving of calls of
    [adx_flume_queue_send] by any number of threads with the turns of the
    sending thread, the messages that were kept are, in the order of the
    calls: those whose bytes reached the socket, one after the other, then at
    most one message held by the sender, then those in the queue.  The
    sending thread can always take its next turn, and keeps its connection. *)
Theorem adx_flume_fifo (wr : nat -> Z -> Z) (sk : nat -> Z) (cn so : nat -> bool) (s0 s : sys) (es : list event) :
  (forall n l, 0 < l -> 1 <= wr n l <= l) ->
  adx_flume_init_code s0 = 0 -> held s0 = None -> queue_rep (mem s0) (adx_flume_queue s0) [] ->
  steps wr sk cn so s0 es s ->
  exists sent hs xs, accepted es = sent ++ hs ++ xs.*2 /\ (length hs <= 1)%nat /\ queue_rep (mem s) (adx_flume_queue s) xs /\ conn s = conn s0 /\
    wire (sockfd (conn s)) (trace (net s)) = wire (sockfd (conn s)) (trace (net s0)) ++ concat sent /\
    (held s = None -> exists s', thread_pop s = Ok s') /\
    (forall v, held s = Some v -> exists fuel s', thread_send wr sk cn so fuel s v = Ok s' /\ held s' = None).
Proof.
  intros Hwr H0 Hh Hq Hsteps.
  destruct (flume_steps_inv wr sk cn so (conn s0) (wire (sockfd (conn s0)) (trace (net s0))) s0 es s Hwr) as (xs & hs & sent & Hc0 & Hc & Hq' & Hh' & Hsm & Hw & Hacc); [|done|].
  { exists [], [], []. split_and!; try done; [left; by split; [left|]|by rewrite app_nil_r]. }
  exists sent, hs, xs. rewrite Hc. split_and!; try done.
  - destruct Hh' as [[_ ->]|(m & _ & _ & ->)]; simpl; lia.
  - intros _. unfold thread_pop, adx_queue_pop. destruct (pop_ok _ _ _ Hq') as (m' & -> & _). rewrite ok_bind. by eexists.
  - intros v Hv. destruct Hh' as [[[?| ?] ->]|(m & Hne & Hm & ->)]; [congruence| |].
    + assert (v = Str None 0) as -> by congruence. exists 0%nat. by eexists.
    + assert (v = msg m) as -> by congruence. apply Forall_app in Hsm as [[Hs1 _]%Forall_cons _].
      destruct (thread_send_ok wr sk cn so Hwr s m (S (length m)) Hne Hs1) as (w & E & _); [lia|]. eexists _, _. by split.
Qed.

Definition demo_flume : sys := Sys (QMem (LMem {[8 := 8]} {[8 := 8]}) ∅) 8 0 demo_conn None (World 0 []).

Lemma demo_flume_queue : queue_rep (mem demo_flume) 8 [].
Proof.
  split; [|constructor]. split; [by split|]. split; [apply NoDup_singleton|]. by intros ?%list_elem_of_singleton.
Qed.

Lemma adx_flume_fifo_witness : exists s (sent hs : list bytes) (xs : list (Z * bytes)), [B "win"; B "lose"] = sent ++ hs ++ xs.*2 /\ (length hs <= 1)%nat /\
  conn s = demo_conn /\ wire 7 (trace (net s)) = concat sent.
Proof.
  assert (exists s, steps slow (fun _ => -1) (fun _ => false) (fun _ => false) demo_flume
    [Queued (B "win") true; Popped; Queued (B "lose") true; Sent] s) as [s Hs].
  { eexists. change [Queued (B "win") true; Popped; Queued (B "lose") true; Sent]
      with (((([] ++ [Queued (B "win") true]) ++ [Popped]) ++ [Queued (B "lose") true]) ++ [Sent]).
    eapply steps_snoc; [eapply steps_snoc; [eapply steps_snoc; [eapply steps_snoc; [apply steps_nil|]|]|]|].
    + apply (step_queue _ _ _ _ demo_flume (B "win") [] true 16 5); [vm_compute; discriminate|reflexivity|vm_compute; reflexivity].
    + apply step_pop; [reflexivity|vm_compute; reflexivity].
    + apply (step_queue _ _ _ _ _ (B "lose") [] true 24 5); [vm_compute; discriminate|reflexivity|vm_compute; reflexivity].
    + apply (step_send _ _ _ _ _ (msg (B "win")) 5); [reflexivity|vm_compute; reflexivity]. }
  destruct (adx_flume_fifo slow (fun _ => -1) (fun _ => false) (fun _ => false) demo_flume s _ ltac:(unfold slow; lia)
    eq_refl eq_refl demo_flume_queue Hs) as (sent & hs & xs & H1 & H2 & _ & H3 & H4 & _).
  exists s, sent, hs, xs. split; [exact H1|]. split; [exact H2|]. split; [exact H3|]. rewrite H3 in H4. exact H4.
Defined.
