(* ===== verification/NgxProtobuf.v ===== *)
(** Protocol buffers, the runtime of adx_module/adx_com_libs/ngx_protobuf.h and
    the first part of ngx_protobuf.c: sizes, reading and writing of values and
    of fields, strings, skipping.

    The cursor [*buf] of the reading functions is the member [pos] of the
    context's buffer, as in every call of the code; the writing functions,
    which return the advanced cursor, change the context the same way.
    Positions are relative to the start of the buffer's block: the block lies
    at the address [base], pointers are compared as 64-bit addresses and a sum
    wraps around as the deployed compiler's does.  A [float] and a [double] are
    their bit patterns; the machine is little-endian. *)

From Stdlib Require Import ZArith Lia.
From S2P Require Import Prelude.

Open Scope Z_scope.

(** ** Constants *)

(** [ngx_int_t] results. *)
Inductive ngx_rc := NGX_OK | NGX_ERROR | NGX_DECLINED | NGX_ABORT.
#[export] Instance ngx_rc_eq_dec : EqDecision ngx_rc.
Proof. solve_decision. Defined.

Definition NGX_PROTOBUF_WIRETYPE_VARINT : Z := 0.
Definition NGX_PROTOBUF_WIRETYPE_FIXED64 : Z := 1.
Definition NGX_PROTOBUF_WIRETYPE_LENGTH_DELIMITED : Z := 2.
Definition NGX_PROTOBUF_WIRETYPE_START_GROUP : Z := 3.
Definition NGX_PROTOBUF_WIRETYPE_END_GROUP : Z := 4.
Definition NGX_PROTOBUF_WIRETYPE_FIXED32 : Z := 5.

(** ** Data *)

(** A pointer to characters: NULL, a block of its own, a position of the buffer
    the message was read from, or an array of a function that has returned. *)
Inductive u_char_ptr := PNull | PBlock (b : bytes) | PInput (off : Z) | PFrame (k : nat).
Record ngx_str_t := Str { len : Z; data : u_char_ptr }.
Definition ngx_str_null : ngx_str_t := Str 0 PNull.

(** [ngx_protobuf_context_t]: the block of the buffer, [pos] and [last], the
    flag, whether [pool] is set, and the number of allocations made so far. *)
Record ngx_protobuf_context_t :=
  Ctx { mem : bytes; pos : Z; last : Z; reuse_strings : bool; pool : bool; calls : nat }.

Definition set_pos (c : ngx_protobuf_context_t) (p : Z) :=
  Ctx (mem c) p (last c) (reuse_strings c) (pool c) (calls c).
Definition set_last (c : ngx_protobuf_context_t) (l : Z) :=
  Ctx (mem c) (pos c) l (reuse_strings c) (pool c) (calls c).
Definition set_mem (c : ngx_protobuf_context_t) (m : bytes) :=
  Ctx m (pos c) (last c) (reuse_strings c) (pool c) (calls c).

(** What surrounds the code: the address of the buffer, which allocations the
    pool grants (the number of the call, the size), what the uninitialised
    variables of 32 and 64 bits hold, the buffer that strings refer to when
    they are written, and what the arrays of functions that have returned read
    as then. *)
Class NgxEnv := {
  base : Z;
  ao : nat -> Z -> bool;
  junk32 : Z;
  junk64 : Z;
  input : bytes;
  frame : nat -> bytes
}.

(** ** Zigzag

    The left shift of a negative number, which the language leaves undefined,
    has the value the deployed compiler gives it, that of the shifted word. *)

Definition NGX_PROTOBUF_Z32_ENCODE (val : Z) : Z := Z.lxor (i32 (Z.shiftl val 1)) (Z.shiftr val 31).
Definition NGX_PROTOBUF_Z32_DECODE (val : Z) : Z :=
  i32 (Z.lxor (Z.shiftr val 1) (u32 (- Z.land val 1))).
Definition NGX_PROTOBUF_Z64_ENCODE (val : Z) : Z := Z.lxor (i64 (Z.shiftl val 1)) (Z.shiftr val 63).
Definition NGX_PROTOBUF_Z64_DECODE (val : Z) : Z :=
  i64 (Z.lxor (Z.shiftr val 1) (u64 (- Z.land val 1))).

(** [(field << 3) | wire], a [uint32_t]. *)
Definition NGX_PROTOBUF_HEADER (field wire : Z) : Z := Z.lor (u32 (Z.shiftl field 3)) wire.

(** ** Sizes *)

(** [do { ++s; } while ((val >>= 7));] *)
Fixpoint size_uint_loop (fuel : nat) (val s : Z) : Z :=
  match fuel with
  | O => s
  | S fuel =>
      let s := s + 1 in
      let val := Z.shiftr val 7 in
      if decide (val = 0) then s else size_uint_loop fuel val s
  end.

Definition ngx_protobuf_size_uint32 (val : Z) : Z := size_uint_loop 5 (u32 val) 0.
Definition ngx_protobuf_size_uint64 (val : Z) : Z := size_uint_loop 10 (u64 val) 0.
Definition ngx_protobuf_size_int32 (val : Z) : Z := if decide (val < 0) then 10 else ngx_protobuf_size_uint32 val.
Definition ngx_protobuf_size_int64 (val : Z) : Z := if decide (val < 0) then 10 else ngx_protobuf_size_uint64 val.
Definition ngx_protobuf_size_sint32 (val : Z) : Z := ngx_protobuf_size_uint32 (NGX_PROTOBUF_Z32_ENCODE val).
Definition ngx_protobuf_size_sint64 (val : Z) : Z := ngx_protobuf_size_uint64 (NGX_PROTOBUF_Z64_ENCODE val).
(** [size_t] additions. *)
Definition ngx_protobuf_size_binary (val : Z) : Z := u64 (ngx_protobuf_size_uint32 val + val).
Definition ngx_protobuf_size_string (val : ngx_str_t) : Z := ngx_protobuf_size_binary (len val).

Definition ngx_protobuf_size_uint32_field (val field : Z) : Z :=
  ngx_protobuf_size_uint32 (NGX_PROTOBUF_HEADER field NGX_PROTOBUF_WIRETYPE_VARINT) + ngx_protobuf_size_uint32 val.
Definition ngx_protobuf_size_uint64_field (val field : Z) : Z :=
  ngx_protobuf_size_uint32 (NGX_PROTOBUF_HEADER field NGX_PROTOBUF_WIRETYPE_VARINT) + ngx_protobuf_size_uint64 val.
Definition ngx_protobuf_size_fixed32_field (field : Z) : Z :=
  ngx_protobuf_size_uint32 (NGX_PROTOBUF_HEADER field NGX_PROTOBUF_WIRETYPE_FIXED32) + 4.
Definition ngx_protobuf_size_fixed64_field (field : Z) : Z :=
  ngx_protobuf_size_uint32 (NGX_PROTOBUF_HEADER field NGX_PROTOBUF_WIRETYPE_FIXED64) + 8.
Definition ngx_protobuf_size_sint32_field (val field : Z) : Z :=
  ngx_protobuf_size_uint32 (NGX_PROTOBUF_HEADER field NGX_PROTOBUF_WIRETYPE_VARINT) +
  ngx_protobuf_size_uint32 (NGX_PROTOBUF_Z32_ENCODE val).
Definition ngx_protobuf_size_sint64_field (val field : Z) : Z :=
  ngx_protobuf_size_uint32 (NGX_PROTOBUF_HEADER field NGX_PROTOBUF_WIRETYPE_VARINT) +
  ngx_protobuf_size_uint64 (NGX_PROTOBUF_Z64_ENCODE val).
Definition ngx_protobuf_size_string_field (val : ngx_str_t) (field : Z) : Z :=
  u64 (ngx_protobuf_size_uint32 (NGX_PROTOBUF_HEADER field NGX_PROTOBUF_WIRETYPE_LENGTH_DELIMITED) +
       ngx_protobuf_size_string val).
Definition ngx_protobuf_size_message_field (len field : Z) : Z :=
  u64 (ngx_protobuf_size_uint32 (NGX_PROTOBUF_HEADER field NGX_PROTOBUF_WIRETYPE_LENGTH_DELIMITED) +
       ngx_protobuf_size_binary len).

(** ** Reading *)

(** The bytes of an integer in memory, least significant first. *)
Fixpoint le_bytes (n : nat) (z : Z) : bytes :=
  match n with O => [] | S n => u8 z :: le_bytes n (Z.shiftr z 8) end.

Section Env.
Context `{NgxEnv}.

(** The position of the address [*buf + n]. *)
Definition ptr_add (p n : Z) : Z := u64 (base + p + n) - base.

(** Seven bits at a time while the top bit of the byte is set, [p <= end] (of
    the advanced [p]) and [s < 64]. *)
Fixpoint read_uint64_loop (fuel : nat) (m : bytes) (p end_ s v : Z) : cres (Z * Z) :=
  match fuel with
  | O => NoFuel
  | S fuel =>
      b ← bget m p;
      let v := Z.lor v (u64 (Z.shiftl (Z.land b 127) s)) in
      let s := s + 7 in
      let p := p + 1 in
      if decide (Z.land b 128 ≠ 0 /\ p <= end_ /\ s < 64) then read_uint64_loop fuel m p end_ s v
      else mret (p, v)
  end.

(** The reading functions give the result, the context, and the variable
    [*val] points to. *)
Definition ngx_protobuf_read_uint64 (c : ngx_protobuf_context_t) (end_ val : Z)
  : cres (ngx_rc * ngx_protobuf_context_t * Z) :=
  if decide (end_ <= pos c) then mret (NGX_ABORT, c, val) else
  '(p, v) ← read_uint64_loop 10 (mem c) (pos c) end_ 0 0;
  let c := set_pos c p in
  b ← bget (mem c) (p - 1);
  if decide (Z.land b 128 ≠ 0) then mret (NGX_ABORT, c, val) else mret (NGX_OK, c, v).

Definition ngx_protobuf_read_uint32 (c : ngx_protobuf_context_t) (end_ val : Z) :=
  '(rc, c, v64) ← ngx_protobuf_read_uint64 c end_ junk64;
  if decide (rc ≠ NGX_OK) then mret (NGX_ABORT, c, val) else mret (NGX_OK, c, u32 v64).

Definition ngx_protobuf_read_bool (c : ngx_protobuf_context_t) (end_ val : Z) :=
  '(rc, c, uval) ← ngx_protobuf_read_uint32 c end_ junk32;
  if decide (rc = NGX_OK) then mret (rc, c, Z.b2z (bool_decide (uval ≠ 0))) else mret (rc, c, val).

(** The macro [NGX_PROTOBUF_READ_COPY]: the call [ngx_protobuf_copy_endian4( *buf, dst)]
    copies the variable to the buffer. *)
Definition NGX_PROTOBUF_READ_COPY (c : ngx_protobuf_context_t) (end_ val : Z) (size : nat)
  : cres (ngx_rc * ngx_protobuf_context_t) :=
  if decide (end_ < ptr_add (pos c) (Z.of_nat size)) then mret (NGX_ABORT, c) else
  m ← bwrite (mem c) (pos c) (le_bytes size val);
  mret (NGX_OK, set_pos (set_mem c m) (pos c + Z.of_nat size)).

Definition ngx_protobuf_read_fixed32 (c : ngx_protobuf_context_t) (end_ val : Z) :=
  '(rc, c) ← NGX_PROTOBUF_READ_COPY c end_ val 4; mret (rc, c, val).
Definition ngx_protobuf_read_sfixed32 (c : ngx_protobuf_context_t) (end_ val : Z) :=
  '(rc, c) ← NGX_PROTOBUF_READ_COPY c end_ junk32 4;
  if decide (rc = NGX_OK) then mret (rc, c, NGX_PROTOBUF_Z32_DECODE junk32) else mret (rc, c, val).
Definition ngx_protobuf_read_fixed64 (c : ngx_protobuf_context_t) (end_ val : Z) :=
  '(rc, c) ← NGX_PROTOBUF_READ_COPY c end_ val 8; mret (rc, c, val).
Definition ngx_protobuf_read_sfixed64 (c : ngx_protobuf_context_t) (end_ val : Z) :=
  '(rc, c) ← NGX_PROTOBUF_READ_COPY c end_ junk64 8;
  if decide (rc = NGX_OK) then mret (rc, c, NGX_PROTOBUF_Z64_DECODE junk64) else mret (rc, c, val).

Definition ngx_protobuf_read_sint32 (c : ngx_protobuf_context_t) (end_ val : Z) :=
  '(rc, c, uval) ← ngx_protobuf_read_uint32 c end_ junk32;
  if decide (rc = NGX_OK) then mret (rc, c, NGX_PROTOBUF_Z32_DECODE uval) else mret (rc, c, val).
Definition ngx_protobuf_read_sint64 (c : ngx_protobuf_context_t) (end_ val : Z) :=
  '(rc, c, uval) ← ngx_protobuf_read_uint64 c end_ junk64;
  if decide (rc = NGX_OK) then mret (rc, c, NGX_PROTOBUF_Z64_DECODE uval) else mret (rc, c, val).

Definition ngx_protobuf_read_float (c : ngx_protobuf_context_t) (end_ val : Z) :=
  '(rc, c) ← NGX_PROTOBUF_READ_COPY c end_ val 4; mret (rc, c, val).
Definition ngx_protobuf_read_double (c : ngx_protobuf_context_t) (end_ val : Z) :=
  '(rc, c) ← NGX_PROTOBUF_READ_COPY c end_ val 8; mret (rc, c, val).

(** [ngx_palloc] and its kind: whether the block is granted. *)
Definition ngx_palloc (c : ngx_protobuf_context_t) (size : Z) : bool * ngx_protobuf_context_t :=
  (ao (calls c) size, Ctx (mem c) (pos c) (last c) (reuse_strings c) (pool c) (S (calls c))).

(** [n] bytes of [m] from position [p]. *)
Definition slice (m : bytes) (p n : Z) : cres bytes :=
  if decide (0 <= p /\ 0 <= n /\ p + n <= Z.of_nat (length m))
  then mret (take (Z.to_nat n) (drop (Z.to_nat p) m)) else UB.

(** [pl] is whether the argument [pool] is set. *)
Definition ngx_protobuf_read_string (c : ngx_protobuf_context_t) (end_ : Z) (val : ngx_str_t) (pl : bool)
  : cres (ngx_rc * ngx_protobuf_context_t * ngx_str_t) :=
  if decide (end_ <= pos c) then mret (NGX_ABORT, c, val) else
  '(rc, c, v) ← ngx_protobuf_read_uint64 c end_ 0;
  if decide (rc ≠ NGX_OK) then mret (NGX_ABORT, set_pos c end_, val) else
  if decide (end_ < ptr_add (pos c) v) then mret (NGX_ABORT, set_pos c end_, val) else
  if pl then
    let '(ok, c) := ngx_palloc c v in
    if negb ok then mret (NGX_ERROR, set_pos c end_, Str (len val) PNull) else
    s ← slice (mem c) (pos c) v;
    mret (NGX_OK, set_pos c (ptr_add (pos c) v), Str v (PBlock s))
  else mret (NGX_OK, set_pos c (ptr_add (pos c) v), Str v (PInput (pos c))).

Definition ngx_protobuf_skip (c : ngx_protobuf_context_t) (end_ wire : Z) : cres (ngx_rc * ngx_protobuf_context_t) :=
  if decide (wire = NGX_PROTOBUF_WIRETYPE_VARINT) then
    '(rc, c, _) ← ngx_protobuf_read_uint64 c end_ junk64; mret (rc, c)
  else if decide (wire = NGX_PROTOBUF_WIRETYPE_FIXED64) then
    '(rc, c, _) ← ngx_protobuf_read_fixed64 c end_ junk64; mret (rc, c)
  else if decide (wire = NGX_PROTOBUF_WIRETYPE_LENGTH_DELIMITED) then
    '(rc, c, _) ← ngx_protobuf_read_string c end_ ngx_str_null false; mret (rc, c)
  else if decide (wire = NGX_PROTOBUF_WIRETYPE_FIXED32) then
    '(rc, c, _) ← ngx_protobuf_read_fixed32 c end_ junk32; mret (rc, c)
  else mret (NGX_ABORT, c).

(** ** Writing *)

Definition write_byte (c : ngx_protobuf_context_t) (b : Z) : cres ngx_protobuf_context_t :=
  m ← bset (mem c) (pos c) b; mret (set_pos (set_mem c m) (pos c + 1)).

(** [do { *buf++ = (uint8_t)(val | 0x80); } while ((val >>= 7));], then the top
    bit of the last byte is cleared. *)
Fixpoint write_uint_loop (fuel : nat) (c : ngx_protobuf_context_t) (val : Z) : cres ngx_protobuf_context_t :=
  match fuel with
  | O => NoFuel
  | S fuel =>
      c ← write_byte c (u8 (Z.lor val 128));
      let val := Z.shiftr val 7 in
      if decide (val = 0) then mret c else write_uint_loop fuel c val
  end.
Definition NGX_PROTOBUF_WRITE_UINT (c : ngx_protobuf_context_t) (val : Z) : cres ngx_protobuf_context_t :=
  c ← write_uint_loop 10 c val;
  b ← bget (mem c) (pos c - 1);
  m ← bset (mem c) (pos c - 1) (Z.land b 127);
  mret (set_mem c m).

Definition ngx_protobuf_write_uint32 c (val : Z) := NGX_PROTOBUF_WRITE_UINT c (u32 val).
Definition ngx_protobuf_write_uint64 c (val : Z) := NGX_PROTOBUF_WRITE_UINT c (u64 val).

Definition ngx_cpymem (c : ngx_protobuf_context_t) (src : bytes) : cres ngx_protobuf_context_t :=
  m ← bwrite (mem c) (pos c) src;
  mret (set_pos (set_mem c m) (pos c + Z.of_nat (length src))).

(** The bytes a string refers to; no byte is read of an empty one. *)
Definition str_bytes (s : ngx_str_t) : cres bytes :=
  if decide (len s = 0) then mret [] else
  match data s with
  | PNull => UB
  | PBlock b => slice b 0 (len s)
  | PInput off => slice input off (len s)
  | PFrame k => slice (frame k) 0 (len s)
  end.

Definition ngx_protobuf_write_string c (val : ngx_str_t) :=
  c ← ngx_protobuf_write_uint32 c (len val);
  s ← str_bytes val;
  ngx_cpymem c s.

Definition ngx_protobuf_write_fixed32 c (val : Z) := ngx_cpymem c (le_bytes 4 val).
Definition ngx_protobuf_write_fixed64 c (val : Z) := ngx_cpymem c (le_bytes 8 val).
Definition ngx_protobuf_write_sfixed32 c (val : Z) := ngx_protobuf_write_fixed32 c (NGX_PROTOBUF_Z32_ENCODE val).
Definition ngx_protobuf_write_sfixed64 c (val : Z) := ngx_protobuf_write_fixed64 c (NGX_PROTOBUF_Z64_ENCODE val).
Definition ngx_protobuf_write_sint32 c (val : Z) := ngx_protobuf_write_uint32 c (NGX_PROTOBUF_Z32_ENCODE val).
Definition ngx_protobuf_write_sint64 c (val : Z) := ngx_protobuf_write_uint64 c (NGX_PROTOBUF_Z64_ENCODE val).
Definition ngx_protobuf_write_float c (val : Z) := ngx_cpymem c (le_bytes 4 val).
Definition ngx_protobuf_write_double c (val : Z) := ngx_cpymem c (le_bytes 8 val).

Definition ngx_protobuf_write_uint32_field c (val field : Z) :=
  c ← ngx_protobuf_write_uint32 c (NGX_PROTOBUF_HEADER field NGX_PROTOBUF_WIRETYPE_VARINT);
  ngx_protobuf_write_uint32 c val.
Definition ngx_protobuf_write_uint64_field c (val field : Z) :=
  c ← ngx_protobuf_write_uint32 c (NGX_PROTOBUF_HEADER field NGX_PROTOBUF_WIRETYPE_VARINT);
  ngx_protobuf_write_uint64 c val.
Definition ngx_protobuf_write_string_field c (val : ngx_str_t) (field : Z) :=
  c ← ngx_protobuf_write_uint32 c (NGX_PROTOBUF_HEADER field NGX_PROTOBUF_WIRETYPE_LENGTH_DELIMITED);
  ngx_protobuf_write_string c val.
Definition ngx_protobuf_write_fixed32_field c (val field : Z) :=
  c ← ngx_protobuf_write_uint32 c (NGX_PROTOBUF_HEADER field NGX_PROTOBUF_WIRETYPE_FIXED32);
  ngx_protobuf_write_fixed32 c val.
Definition ngx_protobuf_write_fixed64_field c (val field : Z) :=
  c ← ngx_protobuf_write_uint32 c (NGX_PROTOBUF_HEADER field NGX_PROTOBUF_WIRETYPE_FIXED64);
  ngx_protobuf_write_fixed64 c val.
Definition ngx_protobuf_write_sfixed32_field c (val field : Z) :=
  ngx_protobuf_write_fixed32_field c (NGX_PROTOBUF_Z32_ENCODE val) field.
Definition ngx_protobuf_write_sfixed64_field c (val field : Z) :=
  ngx_protobuf_write_fixed64_field c (NGX_PROTOBUF_Z64_ENCODE val) field.
Definition ngx_protobuf_write_sint32_field c (val field : Z) :=
  ngx_protobuf_write_uint32_field c (NGX_PROTOBUF_Z32_ENCODE val) field.
Definition ngx_protobuf_write_sint64_field c (val field : Z) :=
  ngx_protobuf_write_uint64_field c (NGX_PROTOBUF_Z64_ENCODE val) field.
Definition ngx_protobuf_write_float_field c (val field : Z) :=
  c ← ngx_protobuf_write_uint32 c (NGX_PROTOBUF_HEADER field NGX_PROTOBUF_WIRETYPE_FIXED32);
  ngx_protobuf_write_float c val.
Definition ngx_protobuf_write_message_header c (len field : Z) :=
  c ← ngx_protobuf_write_uint32 c (NGX_PROTOBUF_HEADER field NGX_PROTOBUF_WIRETYPE_LENGTH_DELIMITED);
  ngx_protobuf_write_uint32 c len.
End Env.
