(* ===== verification/NgxProtobufWire.v ===== *)
(** The wire format of protocol buffers, and the runtime of NgxProtobuf.v
    against it: integers in base 128, zigzag, what the writing functions put
    into the buffer and what the reading functions find there. *)

From Stdlib Require Import ZArith Lia.
From S2P Require Import Prelude NgxProtobuf.

Open Scope Z_scope.

(** ** Base-128 integers *)

Fixpoint varint_loop (fuel : nat) (v : Z) : bytes :=
  match fuel with
  | O => []
  | S fuel => if decide (v < 128) then [v] else (v mod 128 + 128) :: varint_loop fuel (v / 128)
  end.
Definition varint (v : Z) : bytes := varint_loop 10 v.
#[global] Arguments varint : simpl never.

Lemma pow128_S fuel : 128 ^ Z.of_nat (S fuel) = 128 * 128 ^ Z.of_nat fuel.
Proof. rewrite Nat2Z.inj_succ, Z.pow_succ_r by lia. lia. Qed.

Lemma div128_bound fuel v : 0 <= v < 128 ^ Z.of_nat (S fuel) -> 0 <= v / 128 < 128 ^ Z.of_nat fuel.
Proof.
  rewrite pow128_S. intros H. split; [apply Z.div_pos; lia|apply Z.div_lt_upper_bound; lia].
Qed.

Lemma varint_loop_fuel fuel k v :
  0 <= v < 128 ^ Z.of_nat fuel -> varint_loop (fuel + k) v = varint_loop fuel v \/ fuel = O.
Proof.
  revert v. induction fuel as [|fuel IH]; intros v Hv; [by right|left].
  cbn [varint_loop Nat.add]. case_decide as Hlt; [done|]. f_equal.
  pose proof (div128_bound _ _ Hv) as Hd. destruct (IH _ Hd) as [-> | ->]; [done|].
  simpl in Hv. lia.
Qed.

Lemma varint_loop_pos fuel v : (0 < fuel)%nat -> (0 < length (varint_loop fuel v) <= fuel)%nat.
Proof.
  revert v. induction fuel as [|fuel IH]; intros v Hf; [lia|]. cbn [varint_loop].
  case_decide; simpl; [lia|]. destruct fuel as [|fuel]; [simpl; lia|].
  pose proof (IH (v / 128) ltac:(lia)). lia.
Qed.

Lemma varint_length v : (1 <= length (varint v) <= 10)%nat.
Proof. unfold varint. pose proof (varint_loop_pos 10 v ltac:(lia)). lia. Qed.

Lemma shiftr7 v : Z.shiftr v 7 = v / 128.
Proof. by rewrite Z.shiftr_div_pow2. Qed.

Lemma div128_zero v : 0 <= v -> v / 128 = 0 <-> v < 128.
Proof. intros Hv. split; intros H; zdiv. Qed.

Lemma size_uint_loop_spec fuel v s :
  (0 < fuel)%nat -> 0 <= v < 128 ^ Z.of_nat fuel ->
  size_uint_loop fuel v s = s + Z.of_nat (length (varint_loop fuel v)).
Proof.
  revert v s. induction fuel as [|fuel IH]; intros v s Hf Hv; [lia|].
  cbn [size_uint_loop varint_loop]. rewrite shiftr7.
  destruct (decide (v < 128)) as [Hlt|Hlt].
  - rewrite decide_True by (apply div128_zero; lia). done.
  - rewrite decide_False by (rewrite div128_zero; lia).
    pose proof (div128_bound _ _ Hv). destruct fuel as [|fuel]; [simpl in *; lia|].
    rewrite IH by lia. cbn [length]. lia.
Qed.

Lemma u32_bound v : 0 <= u32 v < 4294967296.
Proof. apply Z.mod_pos_bound. lia. Qed.
Lemma u64_bound v : 0 <= u64 v < 18446744073709551616.
Proof. apply Z.mod_pos_bound. lia. Qed.
Lemma u32_id v : 0 <= v < 4294967296 -> u32 v = v.
Proof. apply Z.mod_small. Qed.
Lemma u64_id v : 0 <= v < 18446744073709551616 -> u64 v = v.
Proof. apply Z.mod_small. Qed.

Lemma size_uint32_spec v : ngx_protobuf_size_uint32 v = Z.of_nat (length (varint (u32 v))).
Proof.
  pose proof (u32_bound v). unfold ngx_protobuf_size_uint32, varint.
  assert (u32 v < 128 ^ Z.of_nat 5) by (simpl Z.of_nat; lia).
  rewrite size_uint_loop_spec by lia.
  destruct (varint_loop_fuel 5 5 (u32 v)) as [E|E]; [lia| |done].
  change (5 + 5)%nat with 10%nat in E. by rewrite E.
Qed.

Lemma size_uint64_spec v : ngx_protobuf_size_uint64 v = Z.of_nat (length (varint (u64 v))).
Proof.
  pose proof (u64_bound v). unfold ngx_protobuf_size_uint64, varint.
  assert (u64 v < 128 ^ Z.of_nat 10) by (simpl Z.of_nat; lia).
  by rewrite size_uint_loop_spec by lia.
Qed.

(** ** Zigzag *)

Lemma lxor_m1 x : Z.lxor x (-1) = - x - 1.
Proof. rewrite Z.lxor_m1_r. unfold Z.lnot. lia. Qed.

Lemma shiftr_sign v k : 0 < k -> - 2 ^ k <= v < 2 ^ k -> Z.shiftr v k = if decide (v < 0) then -1 else 0.
Proof.
  intros Hk Hv. rewrite Z.shiftr_div_pow2 by lia. case_decide.
  - symmetry. apply (Z.div_unique _ _ (-1) (v + 2 ^ k)); lia.
  - apply Z.div_small. lia.
Qed.

Lemma land_1_mod v : Z.land v 1 = v mod 2.
Proof. apply (Z.land_ones v 1). lia. Qed.

Lemma shiftl_1 v : Z.shiftl v 1 = 2 * v.
Proof. rewrite Z.shiftl_mul_pow2 by lia. lia. Qed.
Lemma shiftr_1 v : Z.shiftr v 1 = v / 2.
Proof. by rewrite Z.shiftr_div_pow2. Qed.

(** The non-negative numbers encode the integers 0, -1, 1, -2, ... *)
Definition zigzag (v : Z) : Z := if decide (v < 0) then -2 * v - 1 else 2 * v.

Lemma Z32_encode_zigzag v :
  -2147483648 <= v <= 2147483647 -> u32 (NGX_PROTOBUF_Z32_ENCODE v) = zigzag v.
Proof.
  intros Hv. unfold NGX_PROTOBUF_Z32_ENCODE, zigzag. rewrite shiftr_sign, shiftl_1 by (simpl; lia).
  case_decide; [rewrite lxor_m1|rewrite Z.lxor_0_r]; unfold u32, i32; zdiv.
Qed.

Lemma Z64_encode_zigzag v :
  -9223372036854775808 <= v <= 9223372036854775807 -> u64 (NGX_PROTOBUF_Z64_ENCODE v) = zigzag v.
Proof.
  intros Hv. unfold NGX_PROTOBUF_Z64_ENCODE, zigzag. rewrite shiftr_sign, shiftl_1 by (simpl; lia).
  case_decide; [rewrite lxor_m1|rewrite Z.lxor_0_r]; unfold u64, i64; zdiv.
Qed.

(** The bits of [x] inverted in a word of [k] bits. *)
Lemma lxor_ones x k : 0 <= k -> 0 <= x < 2 ^ k -> Z.lxor x (Z.ones k) = 2 ^ k - 1 - x.
Proof.
  intros Hk Hx.
  assert (Z.land (Z.lxor x (Z.ones k)) x = 0) as Hl.
  { apply Z.bits_inj'. intros n Hn. rewrite Z.land_spec, Z.lxor_spec, Z.bits_0.
    destruct (decide (n < k)) as [Hlt|].
    - rewrite Z.ones_spec_low by lia. by destruct (Z.testbit x n).
    - replace (Z.testbit x n) with false; [by rewrite andb_false_r|]. symmetry.
      destruct (decide (x = 0)) as [->|]; [apply Z.bits_0|]. apply Z.bits_above_log2; [lia|].
      apply Z.log2_lt_pow2; [lia|]. eapply Z.lt_le_trans; [apply Hx|]. apply Z.pow_le_mono_r; lia. }
  assert (Z.lxor x (Z.ones k) + x = Z.ones k) as E.
  { rewrite Z.add_nocarry_lxor by done.
    by rewrite Z.lxor_assoc, (Z.lxor_comm _ x), <- Z.lxor_assoc, Z.lxor_nilpotent, Z.lxor_0_l. }
  pose proof (Z.ones_equiv k). lia.
Qed.

Lemma Z32_decode_zigzag v :
  -2147483648 <= v <= 2147483647 -> NGX_PROTOBUF_Z32_DECODE (zigzag v) = v.
Proof.
  intros Hv. unfold NGX_PROTOBUF_Z32_DECODE. rewrite land_1_mod, shiftr_1. unfold zigzag. case_decide.
  - replace ((-2 * v - 1) mod 2) with 1 by zdiv. replace ((-2 * v - 1) / 2) with (- v - 1) by zdiv.
    change (u32 (- (1))) with (Z.ones 32). rewrite lxor_ones by (simpl; lia). unfold i32. simpl. zdiv.
  - replace ((2 * v) mod 2) with 0 by zdiv. replace (2 * v / 2) with v by zdiv.
    change (u32 (- 0)) with 0. rewrite Z.lxor_0_r. unfold i32. zdiv.
Qed.

Lemma Z64_decode_zigzag v :
  -9223372036854775808 <= v <= 9223372036854775807 -> NGX_PROTOBUF_Z64_DECODE (zigzag v) = v.
Proof.
  intros Hv. unfold NGX_PROTOBUF_Z64_DECODE. rewrite land_1_mod, shiftr_1. unfold zigzag. case_decide.
  - replace ((-2 * v - 1) mod 2) with 1 by zdiv. replace ((-2 * v - 1) / 2) with (- v - 1) by zdiv.
    change (u64 (- (1))) with (Z.ones 64). rewrite lxor_ones by (simpl; lia). unfold i64. simpl. zdiv.
  - replace ((2 * v) mod 2) with 0 by zdiv. replace (2 * v / 2) with v by zdiv.
    change (u64 (- 0)) with 0. rewrite Z.lxor_0_r. unfold i64. zdiv.
Qed.

(** ** Writing *)

(** The context after the bytes [bs] have been written at its position. *)
Definition put (c : ngx_protobuf_context_t) (bs : bytes) : ngx_protobuf_context_t :=
  set_pos (set_mem c (take (Z.to_nat (pos c)) (mem c) ++ bs ++ drop (Z.to_nat (pos c) + length bs) (mem c)))
    (pos c + Z.of_nat (length bs)).

(** There are [n] bytes left in the block. *)
Definition room (c : ngx_protobuf_context_t) (n : Z) : Prop :=
  0 <= pos c /\ 0 <= n /\ pos c + n <= Z.of_nat (length (mem c)).

Lemma put_last c bs : last (put c bs) = last c.
Proof. done. Qed.
Lemma put_pos c bs : pos (put c bs) = pos c + Z.of_nat (length bs).
Proof. done. Qed.

Lemma room_le c n m : room c n -> 0 <= m <= n -> room c m.
Proof. intros (? & ? & ?) ?. split_and!; lia. Qed.

Lemma put_mem_length c bs : room c (Z.of_nat (length bs)) -> length (mem (put c bs)) = length (mem c).
Proof.
  intros (H1 & H2 & H3). unfold put. cbn [mem set_pos set_mem].
  rewrite !length_app, length_take, length_drop. lia.
Qed.

Lemma put_room c bs n :
  room c (Z.of_nat (length bs) + n) -> 0 <= n -> room (put c bs) n.
Proof.
  intros Hr Hn. pose proof Hr as (H1 & H2 & H3).
  assert (length (mem (put c bs)) = length (mem c)) as El.
  { apply put_mem_length. eapply room_le; [exact Hr|lia]. }
  unfold room. rewrite put_pos, El. lia.
Qed.

Lemma put_nil c : 0 <= pos c -> put c [] = c.
Proof.
  intros Hp. destruct c as [m p l r o k]. unfold put. cbn [pos mem set_pos set_mem length app] in *.
  rewrite Nat.add_0_r, take_drop, Z.add_0_r. done.
Qed.

Lemma put_app c a b :
  room c (Z.of_nat (length (a ++ b))) -> put (put c a) b = put c (a ++ b).
Proof.
  rewrite length_app. intros (H1 & H2 & H3). destruct c as [m p l r o k].
  unfold put, set_pos, set_mem. cbn [pos mem last reuse_strings pool calls] in *.
  assert (length (take (Z.to_nat p) m) = Z.to_nat p) as El by (rewrite length_take; lia).
  f_equal; [|rewrite length_app; lia].
  replace (Z.to_nat (p + Z.of_nat (length a))) with (length (take (Z.to_nat p) m ++ a)) by (rewrite length_app, El; lia).
  rewrite (app_assoc _ a), take_app_length, <- !app_assoc. do 3 f_equal.
  rewrite app_assoc, drop_app_add, drop_drop, length_app. f_equal. lia.
Qed.

Lemma bwrite_put c bs : room c (Z.of_nat (length bs)) ->
  bwrite (mem c) (pos c) bs = Ok (mem (put c bs)).
Proof. intros (H1 & H2 & H3). unfold bwrite. by rewrite decide_True by lia. Qed.

Lemma cpymem_put c bs : room c (Z.of_nat (length bs)) -> ngx_cpymem c bs = Ok (put c bs).
Proof. intros Hr. unfold ngx_cpymem. by rewrite bwrite_put. Qed.

Lemma write_byte_put c b : room c 1 -> write_byte c b = Ok (put c [b]).
Proof.
  intros (H1 & H2 & H3). unfold write_byte, bset. rewrite decide_True by lia.
  unfold put. cbn [length]. rewrite insert_take_drop by lia.
  replace (Z.to_nat (pos c) + 1)%nat with (S (Z.to_nat (pos c))) by lia. done.
Qed.

Lemma bget_put_last c bs x : room c (Z.of_nat (length bs) + 1) ->
  bget (mem (put c (bs ++ [x]))) (pos (put c (bs ++ [x])) - 1) = Ok x.
Proof.
  intros (H1 & H2 & H3). unfold put. cbn [pos mem set_pos set_mem].
  rewrite <- (app_assoc bs [x]), (app_assoc _ bs). cbn [app]. apply bget_app.
  rewrite !length_app, length_take. cbn [length]. lia.
Qed.

Lemma bset_put_last c bs x y : room c (Z.of_nat (length bs) + 1) ->
  bset (mem (put c (bs ++ [x]))) (pos (put c (bs ++ [x])) - 1) y = Ok (mem (put c (bs ++ [y]))).
Proof.
  intros (H1 & H2 & H3). unfold put. cbn [pos mem set_pos set_mem].
  rewrite <- !(app_assoc bs), !(app_assoc _ bs). cbn [app]. rewrite (bset_app _ x).
  - f_equal. rewrite !length_app. done.
  - rewrite !length_app, length_take. cbn [length]. lia.
Qed.

Lemma lor_128 v : 0 <= v -> u8 (Z.lor v 128) = v mod 128 + 128.
Proof.
  intros Hv. replace (Z.lor v 128) with (Z.lor (v / 128) 1 * 128 + v mod 128).
  - assert (Z.lor (v / 128) 1 mod 2 = 1) as E.
    { rewrite <- land_1_mod, Z.land_lor_distr_l. change (Z.land 1 1) with 1. rewrite land_1_mod.
      destruct (Z.mod_pos_bound (v / 128) 2) as [? ?]; [lia|].
      assert ((v / 128) mod 2 = 0 \/ (v / 128) mod 2 = 1) as [-> | ->] by lia; done. }
    unfold u8. zdiv.
  - pose proof (Z.mod_pos_bound v 128 ltac:(lia)) as Hm.
    pose proof (lor_shiftl (Z.lor (v / 128) 1) (v mod 128) 7 ltac:(lia) Hm) as E1.
    pose proof (lor_shiftl (v / 128) (v mod 128) 7 ltac:(lia) Hm) as E2.
    change (2 ^ 7) with 128 in E1, E2. rewrite <- E1, Z.shiftl_lor.
    change (Z.shiftl 1 7) with 128. rewrite <- Z.lor_assoc, (Z.lor_comm 128), Z.lor_assoc, E2.
    f_equal. pose proof (Z.div_mod v 128). lia.
Qed.

(** The bytes written before the last one loses its top bit. *)
Lemma write_uint_loop_spec fuel c v :
  (0 < fuel)%nat -> 0 <= v < 128 ^ Z.of_nat fuel -> room c (Z.of_nat (length (varint_loop fuel v))) ->
  exists bs x, varint_loop fuel v = bs ++ [x] /\ 0 <= x < 128 /\
    write_uint_loop fuel c v = Ok (put c (bs ++ [x + 128])).
Proof.
  revert c v. induction fuel as [|fuel IH]; intros c v Hf Hv Hr; [lia|].
  cbn [write_uint_loop varint_loop] in *. rewrite lor_128, shiftr7 by lia.
  assert (room c 1) as Hr1.
  { eapply room_le; [exact Hr|]. pose proof (varint_loop_pos (S fuel) v ltac:(lia)). cbn [varint_loop] in *. lia. }
  rewrite write_byte_put, ok_bind by done.
  destruct (decide (v < 128)) as [Hlt|Hlt].
  - rewrite decide_True by (apply div128_zero; lia).
    exists [], v. rewrite Z.mod_small by lia. split_and!; [done|lia|lia|done].
  - rewrite decide_False by (rewrite div128_zero; lia).
    pose proof (div128_bound _ _ Hv). destruct fuel as [|fuel]; [simpl in *; lia|].
    cbn [length] in Hr. destruct (IH (put c [v mod 128 + 128]) (v / 128)) as (bs & x & E & Hx & W); [lia|done| |].
    { apply put_room; [|lia]. cbn [length]. eapply room_le; [exact Hr|]. lia. }
    exists (v mod 128 + 128 :: bs), x. rewrite E. split_and!; [done|lia|lia|].
    rewrite W, put_app; [done|]. cbn [length app]. rewrite length_app. rewrite E, length_app in Hr.
    eapply room_le; [exact Hr|]. cbn [length]. lia.
Qed.

Lemma write_uint_put c v :
  0 <= v < 18446744073709551616 -> room c (Z.of_nat (length (varint v))) ->
  NGX_PROTOBUF_WRITE_UINT c v = Ok (put c (varint v)).
Proof.
  intros Hv Hr. unfold NGX_PROTOBUF_WRITE_UINT.
  destruct (write_uint_loop_spec 10 c v) as (bs & x & E & Hx & W); [lia|simpl Z.of_nat; lia|done|].
  fold (varint v) in E. rewrite E in Hr |- *. rewrite length_app in Hr. cbn [length] in Hr.
  rewrite W, ok_bind, bget_put_last, ok_bind by (eapply room_le; [exact Hr|lia]).
  rewrite (Z.land_ones _ 7) by lia. change (2 ^ 7) with 128.
  replace ((x + 128) mod 128) with x by zdiv.
  rewrite bset_put_last by (eapply room_le; [exact Hr|lia]). rewrite ok_bind. cbn [mret cres_ret].
  f_equal. unfold put, set_pos, set_mem. cbn [mem pos last reuse_strings pool calls]. by rewrite !length_app.
Qed.

Lemma write_uint32_put c v :
  room c (Z.of_nat (length (varint (u32 v)))) -> ngx_protobuf_write_uint32 c v = Ok (put c (varint (u32 v))).
Proof. intros Hr. apply write_uint_put; [|done]. pose proof (u32_bound v). lia. Qed.

Lemma write_uint64_put c v :
  room c (Z.of_nat (length (varint (u64 v)))) -> ngx_protobuf_write_uint64 c v = Ok (put c (varint (u64 v))).
Proof. intros Hr. apply write_uint_put; [|done]. apply u64_bound. Qed.

(** ** Reading *)

(** The bytes of the block from position [p] start with [bs]. *)
Definition found (m : bytes) (p : Z) (bs : bytes) : Prop :=
  0 <= p /\ exists post, drop (Z.to_nat p) m = bs ++ post.

(** The same at the position of the context. *)
Definition ahead (c : ngx_protobuf_context_t) (bs : bytes) : Prop := found (mem c) (pos c) bs.

(** The context [n] bytes further, after [k] allocations in all. *)
Definition adv (c : ngx_protobuf_context_t) (n : nat) (k : nat) : ngx_protobuf_context_t :=
  Ctx (mem c) (pos c + Z.of_nat n) (last c) (reuse_strings c) (pool c) k.

Lemma found_app m p a b : found m p (a ++ b) -> found m p a /\ found m (p + Z.of_nat (length a)) b.
Proof.
  intros [Hp [post E]]. split; split; [done| |lia|].
  - exists (b ++ post). by rewrite app_assoc.
  - exists post. replace (Z.to_nat (p + Z.of_nat (length a))) with (Z.to_nat p + length a)%nat by lia.
    by rewrite <- drop_drop, E, <- app_assoc, drop_app_length.
Qed.

Lemma found_length m p bs : found m p bs -> p + Z.of_nat (length bs) <= Z.of_nat (length m) \/ bs = [].
Proof.
  intros [Hp [post E]]. apply (f_equal length) in E. rewrite length_drop, length_app in E.
  destruct bs; [by right|left]. cbn [length] in *. lia.
Qed.

Lemma found_get m p bs i x : found m p bs -> bs !! i = Some x -> bget m (p + Z.of_nat i) = Ok x.
Proof.
  intros [Hp [post E]] Hi. unfold bget. rewrite decide_True by lia.
  replace (Z.to_nat (p + Z.of_nat i)) with (Z.to_nat p + i)%nat by lia.
  rewrite <- lookup_drop, E, lookup_app_l; [by rewrite Hi|]. by eapply lookup_lt_Some.
Qed.

Lemma found_head m p x bs : found m p (x :: bs) -> bget m p = Ok x.
Proof. intros Hf. rewrite <- (Z.add_0_r p). by apply (found_get m p (x :: bs) 0). Qed.

Lemma found_slice m p bs : found m p bs -> bs ≠ [] -> slice m p (Z.of_nat (length bs)) = Ok bs.
Proof.
  intros Hf Hne. destruct (found_length _ _ _ Hf) as [Hl|]; [|done]. destruct Hf as [Hp [post E]].
  unfold slice. rewrite decide_True by lia. by rewrite E, Nat2Z.id, take_app_length.
Qed.

(** What [put] wrote is ahead of where it started. *)
Lemma put_ahead c bs : room c (Z.of_nat (length bs)) -> ahead (set_pos (put c bs) (pos c)) bs.
Proof.
  intros (H1 & H2 & H3). split; [done|]. exists (drop (Z.to_nat (pos c) + length bs) (mem c)).
  cbn [set_pos put set_mem mem pos]. rewrite drop_app_length'; [done|]. rewrite length_take. lia.
Qed.

Lemma land_128 b : 0 <= b < 256 -> Z.land b 128 ≠ 0 <-> 128 <= b.
Proof.
  intros Hb. assert (Z.land b 128 = if decide (128 <= b) then 128 else 0) as ->.
  { change 128 with (Z.shiftl 1 7) at 1. apply Z.bits_inj'. intros n Hn.
    rewrite Z.land_spec, Z.shiftl_spec by lia.
    assert (b = Z.lor (Z.shiftl (b / 128) 7) (b mod 128)) as E.
    { rewrite lor_shiftl by (try apply Z.mod_pos_bound; lia). change (2 ^ 7) with 128. pose proof (Z.div_mod b 128). lia. }
    destruct (decide (n = 7)) as [->|Hn7].
    - change (Z.testbit 1 (7 - 7)) with true. rewrite andb_true_r, Z.testbit_eqb by lia.
      change (2 ^ 7) with 128. case_decide; apply Z.eqb_eq || apply Z.eqb_neq; zdiv.
    - replace (Z.testbit 1 (n - 7)) with false.
      + rewrite andb_false_r. case_decide; [|by rewrite Z.bits_0].
        change 128 with (2 ^ 7). by rewrite Z.pow2_bits_false by lia.
      + destruct (decide (n < 7)); [by rewrite Z.testbit_neg_r by lia|].
        change 1 with (2 ^ 0). by rewrite Z.pow2_bits_false by lia. }
  case_decide; lia.
Qed.

Lemma land_127 b : Z.land b 127 = b mod 128.
Proof. apply (Z.land_ones b 7). lia. Qed.

Lemma u64_shiftl x s : 0 <= s -> 0 <= x * 2 ^ s < 18446744073709551616 -> u64 (Z.shiftl x s) = x * 2 ^ s.
Proof. intros Hs Hx. rewrite Z.shiftl_mul_pow2 by done. by apply u64_id. Qed.

Lemma lor_acc v x s : 0 <= s -> 0 <= v < 2 ^ s -> Z.lor v (x * 2 ^ s) = v + x * 2 ^ s.
Proof.
  intros Hs Hv. rewrite Z.lor_comm, <- Z.shiftl_mul_pow2 by done. rewrite lor_shiftl by done.
  rewrite Z.shiftl_mul_pow2 by done. lia.
Qed.

Lemma varint_loop_last fuel v :
  (0 < fuel)%nat -> 0 <= v < 128 ^ Z.of_nat fuel -> exists bs x, varint_loop fuel v = bs ++ [x] /\ 0 <= x < 128.
Proof.
  revert v. induction fuel as [|fuel IH]; intros v Hf Hv; [lia|]. cbn [varint_loop].
  case_decide as Hlt; [exists [], v; split; [done|lia]|].
  pose proof (div128_bound _ _ Hv). destruct fuel as [|fuel]; [simpl in *; lia|].
  destruct (IH (v / 128)) as (bs & x & -> & Hx); [lia|done|]. by exists (v mod 128 + 128 :: bs), x.
Qed.

Lemma read_uint64_loop_varint fuel fuel' m p end_ s acc v :
  found m p (varint_loop fuel v) -> (0 < fuel <= fuel')%nat ->
  0 <= v < 128 ^ Z.of_nat fuel -> 0 <= s -> 0 <= acc < 2 ^ s -> v * 2 ^ s < 18446744073709551616 ->
  p + Z.of_nat (length (varint_loop fuel v)) <= end_ ->
  read_uint64_loop fuel' m p end_ s acc = Ok (p + Z.of_nat (length (varint_loop fuel v)), acc + v * 2 ^ s).
Proof.
  revert fuel' p s acc v. induction fuel as [|fuel IH]; intros fuel' p s acc v Ha Hf Hv Hs Hacc Hlim Hend; [lia|].
  destruct fuel' as [|fuel']; [lia|]. cbn [read_uint64_loop varint_loop] in *.
  assert (0 < 2 ^ s) as Hps by (apply Z.pow_pos_nonneg; lia).
  destruct (decide (v < 128)) as [Hlt|Hlt]; rewrite (found_head _ _ _ _ Ha), ok_bind, land_127.
  - rewrite decide_False by (rewrite land_128 by lia; lia).
    rewrite (Z.mod_small v 128), u64_shiftl, lor_acc by nia. done.
  - cbn [length] in *. pose proof (Z.mod_pos_bound v 128 ltac:(lia)) as Hm.
    assert (2 ^ (s + 7) = 128 * 2 ^ s) as E7 by (rewrite Z.pow_add_r by lia; lia).
    assert (v * 2 ^ s = v mod 128 * 2 ^ s + v / 128 * 2 ^ (s + 7)) as Es.
    { rewrite E7. pose proof (Z.div_mod v 128). nia. }
    assert (1 <= v / 128) as Hd by zdiv.
    assert (s + 7 < 64) as H64 by (apply (Z.pow_lt_mono_r_iff 2); [lia|lia|nia]).
    rewrite decide_True by (rewrite land_128 by lia; lia).
    replace ((v mod 128 + 128) mod 128) with (v mod 128) by zdiv. rewrite u64_shiftl, lor_acc by nia.
    pose proof (div128_bound _ _ Hv). destruct fuel as [|fuel]; [simpl in *; lia|].
    destruct (found_app m p [v mod 128 + 128] _ Ha) as [_ Ha'].
    rewrite (IH fuel' (p + 1) (s + 7) _ (v / 128)) by first [done|lia|nia].
    do 2 f_equal; lia.
Qed.

Section Env.
Context `{NgxEnv}.

(** A terminated integer within [end] is read back. *)
Lemma read_uint64_varint c end_ v old :
  0 <= v < 18446744073709551616 -> ahead c (varint v) -> pos c + Z.of_nat (length (varint v)) <= end_ ->
  ngx_protobuf_read_uint64 c end_ old = Ok (NGX_OK, adv c (length (varint v)) (calls c), v).
Proof.
  intros Hv Ha Hend. unfold ngx_protobuf_read_uint64. pose proof (varint_length v).
  rewrite decide_False by lia. assert (v < 128 ^ Z.of_nat 10) by (simpl Z.of_nat; lia).
  rewrite (read_uint64_loop_varint 10 10 _ _ _ _ _ v) by first [exact Ha|exact Hend|simpl; lia]. fold (varint v).
  rewrite ok_bind. cbn [set_pos mem].
  destruct (varint_loop_last 10 v) as (bs & x & E & Hx); [lia|lia|]. fold (varint v) in E.
  replace (pos c + Z.of_nat (length (varint v)) - 1) with (pos c + Z.of_nat (length bs))
    by (rewrite E, length_app; cbn [length]; lia).
  rewrite (found_get _ _ (varint v) _ x) by (done || by rewrite E, list_lookup_middle).
  rewrite ok_bind, decide_False by (rewrite land_128 by lia; lia). cbn [mret cres_ret]. do 3 f_equal. lia.
Qed.
End Env.
