(* ===== verification/NgxProtobufMsg.v ===== *)
(** Protocol buffers, the messages: arrays and unknown fields of
    ngx_protobuf.c, and the code the generator protobuf-nginx writes for every
    field of a message, as functions of the field.  NgxComProto.v instantiates
    them for each message of ngx_adx_com_proto.c; the interface between a
    message and the messages it contains is the class [Message]. *)

From Stdlib Require Import ZArith Lia.
From S2P Require Import Prelude NgxProtobuf NgxProtobufWire.

Open Scope Z_scope.

(** ** Data *)

(** The union of [ngx_protobuf_value_t], as its first eight bytes and the
    pointer in the next eight: [v_uint64] is [word], [v_uint32] the lower half
    of it, [v_bytes] has [word] as its length and [ptr] as its data. *)
Record ngx_protobuf_value_t := Value { word : Z; ptr : u_char_ptr }.
Definition v_bytes (u : ngx_protobuf_value_t) : ngx_str_t := Str (word u) (ptr u).

Record ngx_protobuf_unknown_field_t := Unknown { number : Z; wire_type : Z; value : ngx_protobuf_value_t }.
Definition unknown_zero : ngx_protobuf_unknown_field_t := Unknown 0 0 (Value 0 PNull).

(** A member of a message with its flag [__has_...]. *)
Record fld (V : Type) := Fld { has : bool; val : V }.
Arguments Fld {V} has val.
Arguments has {V} f.
Arguments val {V} f.

(** [ngx_array_t *]: NULL or the elements. *)
Abbreviation array A := (option (list A)) (only parsing).

Definition elts {A} (a : array A) : list A := default [] a.

(** The macros [NGX_PROTOBUF_SET_NUMBER] and [SET_STRING], [SET_MEMBER],
    [CLEAR_...]. *)
Definition NGX_PROTOBUF_SET_NUMBER {V} (v : V) : fld V := Fld true v.
Definition NGX_PROTOBUF_SET_MEMBER {V} (old : fld (option V)) (v : option V) : fld (option V) :=
  Fld (match v with Some _ => true | None => has old end) v.
Definition NGX_PROTOBUF_SET_ARRAY {V} (old : fld (array V)) (v : array V) : fld (array V) :=
  Fld (match v with Some (_ :: _) => true | _ => has old end) v.
Definition NGX_PROTOBUF_CLEAR_NUMBER : fld Z := Fld false 0.
Definition NGX_PROTOBUF_CLEAR_STRING : fld ngx_str_t := Fld false ngx_str_null.
Definition NGX_PROTOBUF_CLEAR_MEMBER {V} : fld (option V) := Fld false None.

Section Env.
Context `{NgxEnv}.

(** ** Arrays and unknown fields *)

(** The elements of an array cost an allocation when it is created and when it
    grows: nginx's arrays are external to the file, and so is their size. *)
Definition ngx_protobuf_push_array {A} (zero : A) (a : array A) (c : ngx_protobuf_context_t) (pl : bool)
  : bool * array A * ngx_protobuf_context_t :=
  let '(a, c) := match a with
                 | Some _ => (a, c)
                 | None => if pl then let '(ok, c) := ngx_palloc c 1 in (if ok then Some [] else None, c)
                           else (None, c)
                 end in
  match a with
  | None => (false, None, c)
  | Some l => let '(ok, c) := ngx_palloc c 1 in
              if ok then (true, Some (l ++ [zero]), c) else (false, Some l, c)
  end.

Definition set_last_value {A} (l : list A) (x : A) : list A := take (length l - 1) l ++ [x].

(** Neither [number] nor [wire_type] of the new element is set. *)
Definition ngx_protobuf_unpack_unknown_field (field wire : Z) (c : ngx_protobuf_context_t)
    (unknown : array ngx_protobuf_unknown_field_t)
  : cres (ngx_rc * array ngx_protobuf_unknown_field_t * ngx_protobuf_context_t) :=
  let end_ := last c in
  let '(ok, unknown, c) := ngx_protobuf_push_array unknown_zero unknown c (pool c) in
  if negb ok then mret (NGX_ERROR, unknown, c) else
  let store v := Some (set_last_value (elts unknown) (Unknown 0 0 v)) in
  if decide (wire = NGX_PROTOBUF_WIRETYPE_VARINT) then
    '(rc, c, v) ← ngx_protobuf_read_uint64 c end_ 0; mret (rc, store (Value v PNull), c)
  else if decide (wire = NGX_PROTOBUF_WIRETYPE_FIXED64) then
    '(rc, c, v) ← ngx_protobuf_read_fixed64 c end_ 0; mret (rc, store (Value v PNull), c)
  else if decide (wire = NGX_PROTOBUF_WIRETYPE_LENGTH_DELIMITED) then
    '(rc, c, s) ← ngx_protobuf_read_string c end_ ngx_str_null (negb (reuse_strings c) && pool c);
    mret (rc, store (Value (len s) (data s)), c)
  else if decide (wire = NGX_PROTOBUF_WIRETYPE_FIXED32) then
    '(rc, c, v) ← ngx_protobuf_read_fixed32 c end_ 0; mret (rc, store (Value v PNull), c)
  else mret (NGX_ABORT, unknown, c).

Definition ngx_protobuf_size_unknown_field (field : ngx_protobuf_unknown_field_t) : Z :=
  let u := value field in
  if decide (wire_type field = NGX_PROTOBUF_WIRETYPE_VARINT) then ngx_protobuf_size_uint64_field (word u) (number field)
  else if decide (wire_type field = NGX_PROTOBUF_WIRETYPE_FIXED64) then ngx_protobuf_size_fixed64_field (number field)
  else if decide (wire_type field = NGX_PROTOBUF_WIRETYPE_LENGTH_DELIMITED) then
    ngx_protobuf_size_string_field (v_bytes u) (number field)
  else if decide (wire_type field = NGX_PROTOBUF_WIRETYPE_FIXED32) then ngx_protobuf_size_fixed32_field (number field)
  else 0.

Definition ngx_protobuf_pack_unknown_field (field : ngx_protobuf_unknown_field_t) (c : ngx_protobuf_context_t)
  : cres (ngx_rc * ngx_protobuf_context_t) :=
  let u := value field in
  c ← (if decide (wire_type field = NGX_PROTOBUF_WIRETYPE_VARINT) then
         ngx_protobuf_write_uint64_field c (word u) (number field)
       else if decide (wire_type field = NGX_PROTOBUF_WIRETYPE_FIXED64) then
         ngx_protobuf_write_fixed64_field c (word u) (number field)
       else if decide (wire_type field = NGX_PROTOBUF_WIRETYPE_LENGTH_DELIMITED) then
         ngx_protobuf_write_string_field c (v_bytes u) (number field)
       else if decide (wire_type field = NGX_PROTOBUF_WIRETYPE_FIXED32) then
         ngx_protobuf_write_fixed32_field c (u32 (word u)) (number field)
       else mret c);
  mret (NGX_OK, c).

(** ** What the generator writes: sizes *)

Definition size_u32 (f : fld Z) (n : Z) : Z := if has f then ngx_protobuf_size_uint32_field (val f) n else 0.
Definition size_str (f : fld ngx_str_t) (n : Z) : Z := if has f then ngx_protobuf_size_string_field (val f) n else 0.
Definition size_member {A} (size : A -> Z) (f : fld (option A)) (n : Z) : Z :=
  if has f then match val f with Some m => ngx_protobuf_size_message_field (size m) n | None => 0 end else 0.
(** The loop adds to [size] itself; additions are those of [size_t]. *)
Definition size_elements {A} (size : A -> Z) (f : fld (array A)) (n s : Z) : Z :=
  if has f then foldl (fun s m => u64 (s + ngx_protobuf_size_message_field (size m) n)) s (elts (val f)) else s.
Definition size_unknowns (unknown : array ngx_protobuf_unknown_field_t) (s : Z) : Z :=
  foldl (fun s u => u64 (s + ngx_protobuf_size_unknown_field u)) s (elts unknown).

(** ** What the generator writes: packing *)

Definition pack_u32 (f : fld Z) (n : Z) (c : ngx_protobuf_context_t) :=
  if has f then ngx_protobuf_write_uint32_field c (val f) n else mret c.
Definition pack_str (f : fld ngx_str_t) (n : Z) (c : ngx_protobuf_context_t) :=
  if has f then ngx_protobuf_write_string_field c (val f) n else mret c.
(** The result of packing a message inside a message is dropped. *)
Definition pack_one {A} (size : A -> Z) (pack : A -> ngx_protobuf_context_t -> cres (ngx_rc * ngx_protobuf_context_t))
    (m : A) (n : Z) (c : ngx_protobuf_context_t) : cres ngx_protobuf_context_t :=
  c ← ngx_protobuf_write_message_header c (size m) n;
  '(_, c) ← pack m c;
  mret c.
Definition pack_member {A} (size : A -> Z) (pack : A -> ngx_protobuf_context_t -> cres (ngx_rc * ngx_protobuf_context_t))
    (f : fld (option A)) (n : Z) (c : ngx_protobuf_context_t) : cres ngx_protobuf_context_t :=
  if has f then match val f with Some m => pack_one size pack m n c | None => mret c end else mret c.
Fixpoint pack_list {A} (w : A -> ngx_protobuf_context_t -> cres ngx_protobuf_context_t) (l : list A)
    (c : ngx_protobuf_context_t) : cres ngx_protobuf_context_t :=
  match l with [] => mret c | m :: l => c ← w m c; pack_list w l c end.
Definition pack_elements {A} (size : A -> Z) (pack : A -> ngx_protobuf_context_t -> cres (ngx_rc * ngx_protobuf_context_t))
    (f : fld (array A)) (n : Z) (c : ngx_protobuf_context_t) : cres ngx_protobuf_context_t :=
  if has f then pack_list (fun m => pack_one size pack m n) (elts (val f)) c else mret c.
Fixpoint pack_unknowns (l : list ngx_protobuf_unknown_field_t) (c : ngx_protobuf_context_t)
  : cres (ngx_rc * ngx_protobuf_context_t) :=
  match l with
  | [] => mret (NGX_OK, c)
  | u :: l => '(rc, c) ← ngx_protobuf_pack_unknown_field u c;
              if decide (rc ≠ NGX_OK) then mret (rc, c) else pack_unknowns l c
  end.

(** The tests that open the packing function of a message. *)
Definition pack_guard (size : Z) (c : ngx_protobuf_context_t)
    (body : ngx_protobuf_context_t -> cres (ngx_rc * ngx_protobuf_context_t)) : cres (ngx_rc * ngx_protobuf_context_t) :=
  if decide (size = 0) then mret (NGX_OK, c)
  else if decide (last c < ptr_add (pos c) size) then mret (NGX_ABORT, c)
  else body c.

(** ** What the generator writes: unpacking

    Every case of the [switch] gives the result, the object and the context;
    [get] and [upd] are the field of the object. *)
Definition result A : Type := cres (ngx_rc * A * ngx_protobuf_context_t).

Definition skip_case {A} (wire : Z) (obj : A) (c : ngx_protobuf_context_t) : result A :=
  '(rc, c) ← ngx_protobuf_skip c (last c) wire;
  mret (if decide (rc ≠ NGX_OK) then NGX_ABORT else NGX_OK, obj, c).

(** [conv] is the conversion of the [uint32_t] to the member's type. *)
Definition unpack_u32 {A} (conv : Z -> Z) (upd : A -> fld Z -> A) (wire : Z) (obj : A)
    (c : ngx_protobuf_context_t) : result A :=
  if decide (wire = NGX_PROTOBUF_WIRETYPE_VARINT) then
    '(rc, c, v) ← ngx_protobuf_read_uint32 c (last c) 0;
    if decide (rc ≠ NGX_OK) then mret (NGX_ABORT, obj, c)
    else mret (NGX_OK, upd obj (Fld true (conv v)), c)
  else skip_case wire obj c.

Definition unpack_str {A} (get : A -> fld ngx_str_t) (upd : A -> fld ngx_str_t -> A) (wire : Z) (obj : A)
    (c : ngx_protobuf_context_t) : result A :=
  if decide (wire = NGX_PROTOBUF_WIRETYPE_LENGTH_DELIMITED) then
    '(rc, c, s) ← ngx_protobuf_read_string c (last c) (val (get obj)) (negb (reuse_strings c) && pool c);
    if decide (rc ≠ NGX_OK) then mret (NGX_ABORT, upd obj (Fld (has (get obj)) s), c)
    else mret (NGX_OK, upd obj (Fld true s), c)
  else skip_case wire obj c.

(** The [switch] case of a message: its length, then [unpack_...(obj, ctx, mlen)]. *)
Definition unpack_msg {A} (unpack : Z -> A -> ngx_protobuf_context_t -> result A) (wire : Z) (obj : A)
    (c : ngx_protobuf_context_t) : result A :=
  if decide (wire = NGX_PROTOBUF_WIRETYPE_LENGTH_DELIMITED) then
    '(rc, c, mlen) ← ngx_protobuf_read_uint32 c (last c) junk32;
    if decide (rc ≠ NGX_OK) then mret (NGX_ABORT, obj, c) else unpack mlen obj c
  else skip_case wire obj c.

(** The functions [..._unpack_<member>] for an optional message: [zero] is the
    object [ngx_pcalloc] and [ngx_memzero] give, whatever its size. *)
Definition unpack_member {A M} (zero : M) (unpack : M -> ngx_protobuf_context_t -> result M)
    (get : A -> fld (option M)) (upd : A -> fld (option M) -> A) (len : Z) (obj : A) (c : ngx_protobuf_context_t)
  : result A :=
  if decide (len = 0) then mret (NGX_OK, obj, c) else
  let end_ := ptr_add (pos c) len in
  if decide (last c < end_) then mret (NGX_ABORT, obj, c) else
  let '(ok, c) := match val (get obj) with
                  | Some _ => (true, c)
                  | None => if pool c then ngx_palloc c 1 else (false, c)
                  end in
  if negb ok then mret (NGX_ERROR, obj, c) else
  let end0 := last c in
  '(rc, m, c) ← unpack zero (set_last c end_);
  let c := set_last c end0 in
  mret (rc, upd obj (Fld (if decide (rc = NGX_OK) then true else has (get obj)) (Some m)), c).

(** The same for an element of an array; [..._add_<member>] pushes it. *)
Definition add_element {A M} (zero : M) (get : A -> fld (array M)) (upd : A -> fld (array M) -> A)
    (obj : A) (pl : bool) (c : ngx_protobuf_context_t) : bool * A * ngx_protobuf_context_t :=
  let '(ok, a, c) := ngx_protobuf_push_array zero (val (get obj)) c pl in
  (ok, upd obj (Fld (if ok then true else has (get obj)) a), c).

Definition unpack_element {A M} (zero : M) (unpack : M -> ngx_protobuf_context_t -> result M)
    (get : A -> fld (array M)) (upd : A -> fld (array M) -> A) (len : Z) (obj : A) (c : ngx_protobuf_context_t)
  : result A :=
  if decide (len = 0) then mret (NGX_OK, obj, c) else
  let end_ := ptr_add (pos c) len in
  if decide (last c < end_) then mret (NGX_ABORT, obj, c) else
  let '(ok, obj, c) := add_element zero get upd obj (pool c) c in
  if negb ok then mret (NGX_ERROR, obj, c) else
  let end0 := last c in
  '(rc, m, c) ← unpack zero (set_last c end_);
  let c := set_last c end0 in
  mret (rc, upd obj (Fld true (Some (set_last_value (elts (val (get obj))) m))), c).

Definition unpack_unknown {A} (get : A -> array ngx_protobuf_unknown_field_t)
    (upd : A -> array ngx_protobuf_unknown_field_t -> A) (field wire : Z) (obj : A) (c : ngx_protobuf_context_t)
  : result A :=
  '(rc, u, c) ← ngx_protobuf_unpack_unknown_field field wire c (get obj);
  mret (rc, upd obj u, c).

(** The loop of the unpacking functions; [step field wire] is the [switch].
    [end] is [ctx->buffer.last], which the cases restore. *)
Fixpoint unpack_loop {A} (step : Z -> Z -> A -> ngx_protobuf_context_t -> result A) (fuel : nat) (obj : A)
    (c : ngx_protobuf_context_t) : result A :=
  if decide (last c <= pos c) then mret (NGX_OK, obj, c) else
  match fuel with
  | O => NoFuel
  | S fuel =>
      '(rc, c, header) ← ngx_protobuf_read_uint32 c (last c) junk32;
      if decide (rc ≠ NGX_OK) then mret (NGX_ABORT, obj, c) else
      if decide (last c <= pos c) then mret (NGX_ABORT, obj, c) else
      '(rc, obj, c) ← step (Z.shiftr header 3) (Z.land header 7) obj c;
      if decide (rc ≠ NGX_OK) then mret (rc, obj, c) else unpack_loop step fuel obj c
  end.
End Env.
