(* ===== verification/NgxProtobufCodec.v ===== *)
(** Protocol buffers, the contract of a message: the bytes of each field, that
    the generated code of NgxProtobufMsg.v computes their number and writes
    them, and that it reads them back.  A message promises this to the messages
    that contain it through the class [MessageLaws]. *)

From Stdlib Require Import ZArith Lia.
From S2P Require Import Prelude NgxProtobuf NgxProtobufWire NgxProtobufMsg.

Open Scope Z_scope.

Create HintDb writes.

(** The number of bytes, as an integer. *)
Abbreviation lenz l := (Z.of_nat (length l)) (only parsing).

Ltac wires := unfold NGX_PROTOBUF_WIRETYPE_VARINT, NGX_PROTOBUF_WIRETYPE_FIXED64,
  NGX_PROTOBUF_WIRETYPE_LENGTH_DELIMITED, NGX_PROTOBUF_WIRETYPE_FIXED32 in *.

Section Env.
Context `{NgxEnv}.

(** ** The bytes of a field *)

Definition enc_key (n w : Z) : bytes := varint (n * 8 + w).
Definition enc_bytes (n : Z) (bs : bytes) : bytes := enc_key n 2 ++ varint (lenz bs) ++ bs.

(** The bytes of a string whose pointer is good for its length. *)
Definition sbytes (s : ngx_str_t) : bytes := match str_bytes s with Ok b => b | _ => [] end.
Definition str_good (s : ngx_str_t) : Prop := str_bytes s = Ok (sbytes s).

Definition enc_u32 (f : fld Z) (n : Z) : bytes := if has f then enc_key n 0 ++ varint (u32 (val f)) else [].
Definition enc_str (f : fld ngx_str_t) (n : Z) : bytes := if has f then enc_bytes n (sbytes (val f)) else [].
Definition enc_member {A} (enc : A -> bytes) (f : fld (option A)) (n : Z) : bytes :=
  if has f then match val f with Some m => enc_bytes n (enc m) | None => [] end else [].
Definition enc_elements {A} (enc : A -> bytes) (f : fld (array A)) (n : Z) : bytes :=
  if has f then concat (map (fun m => enc_bytes n (enc m)) (elts (val f))) else [].
Definition enc_unknown (u : ngx_protobuf_unknown_field_t) : bytes :=
  if decide (wire_type u = 0) then enc_key (number u) 0 ++ varint (u64 (word (value u)))
  else if decide (wire_type u = 1) then enc_key (number u) 1 ++ le_bytes 8 (word (value u))
  else if decide (wire_type u = 2) then enc_bytes (number u) (sbytes (v_bytes (value u)))
  else if decide (wire_type u = 5) then enc_key (number u) 5 ++ le_bytes 4 (u32 (word (value u)))
  else [].
Definition enc_unknowns (a : array ngx_protobuf_unknown_field_t) : bytes := concat (map enc_unknown (elts a)).

Definition fld_good {A} (P : A -> Prop) (f : fld A) : Prop := has f = true -> P (val f).
Definition unknown_good (u : ngx_protobuf_unknown_field_t) : Prop :=
  0 <= number u < 536870912 /\ (wire_type u = 2 -> str_good (v_bytes (value u))).
Definition unknowns_good (a : array ngx_protobuf_unknown_field_t) : Prop := Forall unknown_good (elts a).
Definition member_good {A} (P : A -> Prop) (f : fld (option A)) : Prop := fld_good (fun o => forall m, o = Some m -> P m) f.
Definition elements_good {A} (P : A -> Prop) (f : fld (array A)) : Prop := fld_good (fun a => Forall P (elts a)) f.

Lemma slice_length m p n b : slice m p n = Ok b -> lenz b = n.
Proof.
  unfold slice. case_decide as Hd; [|done]. intros [= <-]. rewrite length_take, length_drop. lia.
Qed.

Lemma str_good_len s : str_good s -> lenz (sbytes s) = len s.
Proof.
  unfold str_good. intros Hs. unfold str_bytes in Hs at 1. case_decide as Hl.
  - injection Hs as Hs. rewrite <- Hs, Hl. done.
  - destruct (data s); [done|..]; by apply slice_length in Hs.
Qed.

Lemma header_key n w : 0 <= n < 536870912 -> 0 <= w < 8 -> NGX_PROTOBUF_HEADER n w = n * 8 + w.
Proof.
  intros Hn Hw. unfold NGX_PROTOBUF_HEADER. rewrite u32_id by (rewrite Z.shiftl_mul_pow2; lia).
  rewrite lor_shiftl by (simpl; lia). done.
Qed.

Lemma le_bytes_size n z : length (le_bytes n z) = n.
Proof. revert z. induction n as [|n IH]; intros z; simpl; [done|]. by rewrite IH. Qed.

(** ** Sizes *)

Lemma size_key n w : 0 <= n < 536870912 -> 0 <= w < 8 ->
  ngx_protobuf_size_uint32 (NGX_PROTOBUF_HEADER n w) = lenz (enc_key n w).
Proof. intros Hn Hw. rewrite size_uint32_spec, header_key, u32_id by lia. done. Qed.

Lemma size_message_field_enc n bs : 0 <= n < 536870912 -> lenz bs < 4294967296 ->
  ngx_protobuf_size_message_field (lenz bs) n = lenz (enc_bytes n bs).
Proof.
  intros Hn Hl. unfold ngx_protobuf_size_message_field, ngx_protobuf_size_binary, enc_bytes.
  wires. rewrite size_key, size_uint32_spec, (u32_id (lenz bs)), !length_app by (done || lia).
  pose proof (varint_length (lenz bs)). unfold enc_key. pose proof (varint_length (n * 8 + 2)).
  rewrite (u64_id (_ + lenz bs)) by lia. rewrite u64_id by lia. lia.
Qed.

Lemma size_string_field_enc n s : 0 <= n < 536870912 -> str_good s -> lenz (enc_bytes n (sbytes s)) < 4294967296 ->
  ngx_protobuf_size_string_field s n = lenz (enc_bytes n (sbytes s)).
Proof.
  intros Hn Hs Hl. rewrite <- size_message_field_enc by (unfold enc_bytes in *; rewrite ?length_app in *; lia).
  by rewrite (str_good_len s Hs).
Qed.

Lemma size_u32_enc f n : 0 <= n < 536870912 -> size_u32 f n = lenz (enc_u32 f n).
Proof.
  intros Hn. unfold size_u32, enc_u32. destruct (has f); [|done]. unfold ngx_protobuf_size_uint32_field.
  wires. rewrite size_key, size_uint32_spec, length_app by lia. lia.
Qed.

Lemma size_str_enc f n : 0 <= n < 536870912 -> fld_good str_good f -> lenz (enc_str f n) < 4294967296 ->
  size_str f n = lenz (enc_str f n).
Proof.
  intros Hn Hf. unfold size_str, enc_str, fld_good in *. destruct (has f); [|done]. intros Hl.
  by apply size_string_field_enc; [|apply Hf|].
Qed.

Lemma size_unknown_enc u : unknown_good u -> lenz (enc_unknown u) < 4294967296 ->
  ngx_protobuf_size_unknown_field u = lenz (enc_unknown u).
Proof.
  intros [Hn Hs]. unfold ngx_protobuf_size_unknown_field, enc_unknown,
    ngx_protobuf_size_uint64_field, ngx_protobuf_size_fixed64_field, ngx_protobuf_size_fixed32_field.
  wires. repeat case_decide; rewrite ?size_key, ?size_uint64_spec, ?length_app, ?le_bytes_size by lia; try lia.
  - intros Hl. by apply size_string_field_enc; [|apply Hs|].
  - done.
Qed.

(** The loops of the sizes: the [size_t] sum of the parts. *)
Lemma foldl_size {A} (sz : A -> Z) (enc : A -> bytes) l s :
  0 <= s -> (forall x, x ∈ l -> lenz (enc x) < 4294967296 -> sz x = lenz (enc x)) ->
  s + lenz (concat (map enc l)) < 4294967296 ->
  foldl (fun s x => u64 (s + sz x)) s l = s + lenz (concat (map enc l)).
Proof.
  revert s. induction l as [|x l IH]; intros s Hs0 Hs Hl; simpl in *; [lia|].
  rewrite length_app in *. rewrite Hs by (apply list_elem_of_here || lia).
  rewrite u64_id by lia. rewrite IH; [lia|lia| |lia]. intros y Hy. apply Hs. by apply list_elem_of_further.
Qed.

Lemma size_unknowns_enc a s : 0 <= s -> unknowns_good a -> s + lenz (enc_unknowns a) < 4294967296 ->
  size_unknowns a s = s + lenz (enc_unknowns a).
Proof.
  intros Hs Hg Hl. apply foldl_size; [done| |done]. intros u Hu Hle. apply size_unknown_enc; [|done].
  by eapply Forall_forall in Hg.
Qed.

(** ** Writing *)

(** The buffer takes [n] more bytes, and no pointer into it wraps around. *)
Definition fits (c : ngx_protobuf_context_t) (n : Z) : Prop :=
  room c n /\ pos c + n <= last c /\ 0 <= base /\ base + last c < 18446744073709551616.

Lemma fits_le c n m : fits c n -> 0 <= m <= n -> fits c m.
Proof. intros (Hr & ? & ? & ?) ?. split_and!; [by eapply room_le|lia|lia|lia]. Qed.

Lemma fits_put c bs n : fits c (lenz bs + n) -> 0 <= n -> fits (put c bs) n.
Proof.
  intros (Hr & Hl & ? & ?) ?. split_and!; [by apply put_room| |done|by rewrite put_last].
  rewrite put_last, put_pos. lia.
Qed.

(** [w] writes the bytes [bs] wherever they fit. *)
Definition Writes (w : ngx_protobuf_context_t -> cres ngx_protobuf_context_t) (bs : bytes) : Prop :=
  forall c, fits c (lenz bs) -> w c = Ok (put c bs).
Definition Packs (p : ngx_protobuf_context_t -> cres (ngx_rc * ngx_protobuf_context_t)) (bs : bytes) : Prop :=
  forall c, fits c (lenz bs) -> p c = Ok (NGX_OK, put c bs).

Lemma writes_nil : Writes (fun c => mret c) [].
Proof. intros c ((? & ? & ?) & ?). by rewrite put_nil. Qed.

Lemma writes_put w bs : (forall c, room c (lenz bs) -> w c = Ok (put c bs)) -> Writes w bs.
Proof. intros Hw c (Hr & _). by apply Hw. Qed.

Lemma writes_bind w1 w2 b1 b2 :
  Writes w1 b1 -> Writes w2 b2 -> Writes (fun c => c ← w1 c; w2 c) (b1 ++ b2).
Proof.
  intros H1 H2 c Hf. assert (Hf' := Hf). rewrite length_app, Nat2Z.inj_add in Hf.
  rewrite H1, ok_bind, H2 by first [apply fits_put; [exact Hf|lia]|eapply fits_le; [exact Hf|lia]].
  f_equal. apply put_app, Hf'.
Qed.

Lemma packs_bind w p b1 b2 :
  Writes w b1 -> Packs p b2 -> Packs (fun c => c ← w c; p c) (b1 ++ b2).
Proof.
  intros H1 H2 c Hf. assert (Hf' := Hf). rewrite length_app, Nat2Z.inj_add in Hf.
  rewrite H1, ok_bind, H2 by first [apply fits_put; [exact Hf|lia]|eapply fits_le; [exact Hf|lia]].
  do 2 f_equal. apply put_app, Hf'.
Qed.

Lemma writes_key n w : 0 <= n < 536870912 -> 0 <= w < 8 ->
  Writes (fun c => ngx_protobuf_write_uint32 c (NGX_PROTOBUF_HEADER n w)) (enc_key n w).
Proof.
  intros Hn Hw. apply writes_put. intros c Hr. unfold enc_key in *.
  rewrite header_key, write_uint32_put, u32_id by (rewrite ?u32_id; done || lia). done.
Qed.

Lemma writes_varint v : 0 <= v < 4294967296 -> Writes (fun c => ngx_protobuf_write_uint32 c v) (varint v).
Proof.
  intros Hv. apply writes_put. intros c Hr. by rewrite write_uint32_put, u32_id by (rewrite ?u32_id; done || lia).
Qed.
Lemma writes_u32 v : Writes (fun c => ngx_protobuf_write_uint32 c v) (varint (u32 v)).
Proof. apply writes_put. intros c Hr. by apply write_uint32_put. Qed.
Lemma writes_u64 v : Writes (fun c => ngx_protobuf_write_uint64 c v) (varint (u64 v)).
Proof. apply writes_put. intros c Hr. by apply write_uint64_put. Qed.
Lemma writes_cpymem bs : Writes (fun c => ngx_cpymem c bs) bs.
Proof. apply writes_put. intros c Hr. by apply cpymem_put. Qed.

Lemma writes_string s : str_good s -> lenz (sbytes s) < 4294967296 ->
  Writes (fun c => ngx_protobuf_write_string c s) (varint (lenz (sbytes s)) ++ sbytes s).
Proof.
  intros Hs Hl. unfold ngx_protobuf_write_string. rewrite <- (str_good_len s Hs).
  apply writes_bind; [apply writes_varint; lia|]. rewrite Hs. apply writes_cpymem.
Qed.

#[local] Hint Resolve writes_nil writes_bind packs_bind writes_key writes_varint writes_u32 writes_u64
  writes_cpymem writes_string : writes.
#[local] Hint Extern 1 (_ <= _ < _) => (unfold NGX_PROTOBUF_WIRETYPE_VARINT, NGX_PROTOBUF_WIRETYPE_FIXED64,
  NGX_PROTOBUF_WIRETYPE_LENGTH_DELIMITED, NGX_PROTOBUF_WIRETYPE_FIXED32; lia) : writes.

Lemma writes_pack_u32 f n : 0 <= n < 536870912 -> Writes (pack_u32 f n) (enc_u32 f n).
Proof. intros Hn. unfold pack_u32, enc_u32. destruct (has f); [apply writes_bind|]; eauto with writes. Qed.

Lemma writes_string_field s n : 0 <= n < 536870912 -> str_good s -> lenz (sbytes s) < 4294967296 ->
  Writes (fun c => ngx_protobuf_write_string_field c s n) (enc_bytes n (sbytes s)).
Proof. intros Hn Hs Hl. apply writes_bind; eauto with writes. Qed.

Lemma enc_bytes_lt n bs : lenz bs < lenz (enc_bytes n bs).
Proof. unfold enc_bytes, enc_key. rewrite !length_app. pose proof (varint_length (n * 8 + 2)). lia. Qed.

Lemma writes_pack_str f n : 0 <= n < 536870912 -> fld_good str_good f -> lenz (enc_str f n) < 4294967296 ->
  Writes (pack_str f n) (enc_str f n).
Proof.
  intros Hn Hf. unfold pack_str, enc_str, fld_good in *. destruct (has f); [|eauto with writes].
  intros Hl. pose proof (enc_bytes_lt n (sbytes (val f))). apply writes_string_field; [done|by apply Hf|lia].
Qed.

Lemma packs_unknown u : unknown_good u -> lenz (enc_unknown u) < 4294967296 ->
  Packs (ngx_protobuf_pack_unknown_field u) (enc_unknown u).
Proof.
  intros [Hn Hs] Hl. unfold ngx_protobuf_pack_unknown_field, Packs. intros c.
  assert (Writes (fun c => if decide (wire_type u = NGX_PROTOBUF_WIRETYPE_VARINT) then
         ngx_protobuf_write_uint64_field c (word (value u)) (number u)
       else if decide (wire_type u = NGX_PROTOBUF_WIRETYPE_FIXED64) then
         ngx_protobuf_write_fixed64_field c (word (value u)) (number u)
       else if decide (wire_type u = NGX_PROTOBUF_WIRETYPE_LENGTH_DELIMITED) then
         ngx_protobuf_write_string_field c (v_bytes (value u)) (number u)
       else if decide (wire_type u = NGX_PROTOBUF_WIRETYPE_FIXED32) then
         ngx_protobuf_write_fixed32_field c (u32 (word (value u))) (number u)
       else mret c) (enc_unknown u)) as Hw; [|intros Hf; by rewrite Hw, ok_bind].
  unfold enc_unknown in *. wires. repeat case_decide; [apply writes_bind; eauto with writes..| |apply writes_bind|];
    eauto with writes.
  pose proof (enc_bytes_lt (number u) (sbytes (v_bytes (value u)))). apply writes_string_field; auto; lia.
Qed.

Lemma packs_unknowns a : unknowns_good a -> lenz (enc_unknowns a) < 4294967296 ->
  Packs (pack_unknowns (elts a)) (enc_unknowns a).
Proof.
  unfold unknowns_good, enc_unknowns. induction 1 as [|u l Hu Hl IH]; intros Hlen c Hf; simpl in *.
  - destruct Hf as ((? & ?) & _). by rewrite put_nil.
  - rewrite length_app in Hlen. assert (Hf' := Hf). rewrite length_app, Nat2Z.inj_add in Hf.
    rewrite packs_unknown by first [done|lia|eapply fits_le; [exact Hf|lia]]. rewrite ok_bind.
    rewrite decide_False by (intros ?; congruence). rewrite IH by first [lia|apply fits_put; [exact Hf|lia]].
    do 2 f_equal. apply put_app, Hf'.
Qed.

Lemma writes_pack_list {A} (w : A -> ngx_protobuf_context_t -> cres ngx_protobuf_context_t) (e : A -> bytes) l :
  Forall (fun m => Writes (w m) (e m)) l -> Writes (pack_list w l) (concat (map e l)).
Proof.
  induction 1 as [|m l Hm Hl IH]; [apply writes_nil|]. cbn [pack_list map concat]. by apply writes_bind.
Qed.

Lemma concat_map_lt {A} (e : A -> bytes) l m : m ∈ l -> lenz (e m) <= lenz (concat (map e l)).
Proof.
  induction 1 as [|m l x Hm IH]; cbn [map concat]; rewrite length_app; lia.
Qed.

Lemma packs_guard size body bs :
  size = lenz bs -> Packs body bs -> Packs (fun c => pack_guard size c body) bs.
Proof.
  intros -> Hb c Hf. unfold pack_guard. case_decide as Hz.
  - destruct bs; [|done]. destruct Hf as ((? & ?) & _). by rewrite put_nil.
  - assert (Hf' := Hf). destruct Hf' as ((? & ? & ?) & ? & ? & ?). unfold ptr_add.
    rewrite u64_id, decide_False by lia. by apply Hb.
Qed.

(** Too little room: nothing is written. *)
Lemma pack_guard_abort size body c n :
  size = n -> 0 < n < 4294967296 -> 0 <= base -> 0 <= pos c -> base + pos c + 4294967296 < 18446744073709551616 ->
  last c < pos c + n -> pack_guard size c body = Ok (NGX_ABORT, c).
Proof.
  intros -> Hn Hb Hp Hw Hl. unfold pack_guard, ptr_add. rewrite decide_False by lia.
  by rewrite u64_id, decide_True by lia.
Qed.
End Env.

#[export] Hint Resolve writes_nil writes_bind packs_bind writes_pack_u32 writes_pack_str packs_unknowns : writes.
