(* ===== verification/NgxProtobufRead.v ===== *)
(** Protocol buffers, reading back: the loop of the generated unpacking
    functions run on the bytes of a sequence of fields, and the interface
    [Message] between a message and the messages that contain it. *)

From Stdlib Require Import ZArith Lia.
From S2P Require Import Prelude NgxProtobuf NgxProtobufWire NgxProtobufMsg NgxProtobufCodec.

Open Scope Z_scope.

(** ** What a message offers and promises *)

(** The functions of a message; its bytes; the objects that are measured and
    packed as these bytes, and those whose bytes are read back, without unknown
    fields; the object read back: a copy of the fields that are present; and
    the object with each of its strings replaced. *)
Class Message {E : NgxEnv} (M : Type) := {
  zero : M;
  msize : M -> Z;
  mpack : M -> ngx_protobuf_context_t -> cres (ngx_rc * ngx_protobuf_context_t);
  munpack : nat -> M -> ngx_protobuf_context_t -> result M;
  enc : M -> bytes;
  good : M -> Prop;
  known : M -> Prop;
  norm : M -> M;
  vmap : (ngx_str_t -> ngx_str_t) -> M -> M
}.

Section Env.
Context `{NgxEnv}.

(** No allocation is refused, and no pointer into the input wraps around. *)
Definition reading (c : ngx_protobuf_context_t) : Prop :=
  pool c = true /\ (forall k n, 0 <= n < 4294967296 -> ao k n = true) /\
  0 <= base /\ base + last c + 4294967296 < 18446744073709551616.

Lemma reading_adv c n k : reading c -> reading (adv c n k).
Proof. done. Qed.

Lemma reading_set_last c l : reading c -> l <= last c -> reading (set_last c l).
Proof. intros (? & ? & ? & ?) ?. split_and!; try done. cbn [set_last last]. lia. Qed.

(** What a string stands for: with [reuse_strings] the strings of an object
    refer to the message itself. *)
Definition deref (m : bytes) (s : ngx_str_t) : ngx_str_t :=
  match data s with
  | PInput off => match slice m off (len s) with Ok b => Str (len s) (PBlock b) | _ => s end
  | _ => s
  end.
Definition view (c : ngx_protobuf_context_t) (s : ngx_str_t) : ngx_str_t :=
  if reuse_strings c then deref (mem c) s else s.

(** The bytes of a string do not depend on where they lie. *)
Definition same_bytes (g : ngx_str_t -> ngx_str_t) : Prop := forall s, str_bytes (g s) = str_bytes s.

Lemma deref_same : same_bytes (deref input).
Proof.
  intros s. unfold deref. destruct (data s) as [|b|off|k] eqn:Ed; try done.
  destruct (slice input off (len s)) as [b| |] eqn:Es; [|done..]. unfold str_bytes. cbn [len data]. rewrite Ed.
  case_decide; [done|]. rewrite Es. apply slice_length in Es. unfold slice.
  rewrite decide_True by lia. by rewrite drop_0, take_ge by lia.
Qed.

Lemma view_copying c s : reuse_strings c = false -> view c s = s.
Proof. unfold view. by intros ->. Qed.

(** The fields of an object under [vmap]. *)
Definition vstr (g : ngx_str_t -> ngx_str_t) (f : fld ngx_str_t) : fld ngx_str_t := Fld (has f) (g (val f)).
Definition vmember `{!Message M} g (f : fld (option M)) : fld (option M) := Fld (has f) (vmap g <$> val f).
Definition velements `{!Message M} g (f : fld (array M)) : fld (array M) := Fld (has f) (map (vmap g) <$> val f).

Lemma adv_adv c a b k k' : adv (adv c a k) b k' = adv c (a + b) k'.
Proof. unfold adv. cbn. f_equal. lia. Qed.

Lemma adv_0 c : adv c 0 (calls c) = c.
Proof. destruct c. unfold adv. cbn. f_equal. lia. Qed.

Lemma ahead_app c a b k : ahead c (a ++ b) -> ahead c a /\ ahead (adv c (length a) k) b.
Proof. apply found_app. Qed.

(** [m] ends and its outcome satisfies [Q]. *)
Definition runs {A} (m : cres A) (Q : A -> Prop) : Prop := exists r, m = Ok r /\ Q r.

Lemma unpack_loop_fuel {A} step (obj : A) c fuel fuel' r :
  unpack_loop step fuel obj c = Ok r -> (fuel <= fuel')%nat -> unpack_loop step fuel' obj c = Ok r.
Proof.
  revert obj c fuel'. induction fuel as [|fuel IH]; intros obj c [|fuel'] Hr Hle; cbn [unpack_loop] in *;
    try (case_decide; [done|]); try done; try lia.
  apply cres_bind_ok in Hr as ([[rc c1] hd] & E1 & Hr). rewrite E1, ok_bind.
  case_decide; [done|]. case_decide; [done|].
  apply cres_bind_ok in Hr as ([[rc' o1] c2] & E2 & Hr). rewrite E2, ok_bind.
  case_decide; [done|]. apply IH; [done|lia].
Qed.

(** On the bytes [e] the loop has the effect [f] on what the object stands for,
    with as much fuel as bytes. *)
Definition Decodes {A} (vm : (ngx_str_t -> ngx_str_t) -> A -> A)
    (step : Z -> Z -> A -> ngx_protobuf_context_t -> result A) (e : bytes) (f : A -> A) : Prop :=
  forall fuel obj c Q, ahead c e -> pos c + lenz e <= last c -> reading c ->
  (forall o k, vm (view c) o = f (vm (view c) obj) -> runs (unpack_loop step fuel o (adv c (length e) k)) Q) ->
  runs (unpack_loop step (length e + fuel) obj c) Q.

(** One member of an object changed by [h]. *)
Definition over {A V} (get : A -> V) (upd : A -> V -> A) (h : V -> V) (o : A) : A := upd o (h (get o)).

Section Decodes.
Context {A : Type} (vm : (ngx_str_t -> ngx_str_t) -> A -> A).
Context (step : Z -> Z -> A -> ngx_protobuf_context_t -> result A).

Lemma decodes_nil : Decodes vm step [] id.
Proof. intros fuel obj c Q _ _ _ Hk. specialize (Hk obj (calls c) eq_refl). by rewrite adv_0 in Hk. Qed.

Lemma decodes_app e1 e2 f1 f2 :
  Decodes vm step e1 f1 -> Decodes vm step e2 f2 -> Decodes vm step (e1 ++ e2) (fun o => f2 (f1 o)).
Proof.
  intros H1 H2 fuel obj c Q Ha Hl Hc Hk. rewrite length_app, Nat2Z.inj_add in Hl.
  rewrite length_app, <- Nat.add_assoc. apply H1; [by destruct (ahead_app _ _ _ (calls c) Ha)|lia|done|].
  intros o k Ho. apply H2; [by destruct (ahead_app _ _ _ k Ha)|cbn [adv pos last]; lia|done|].
  intros o' k' Ho'. rewrite adv_adv, <- length_app. apply Hk.
  change (view (adv c (length e1) k)) with (view c) in Ho'. by rewrite Ho', Ho.
Qed.

Lemma decodes_ext e f g : Decodes vm step e f -> (forall o, f o = g o) -> Decodes vm step e g.
Proof. intros Hf Hfg fuel obj c Q Ha Hl Hc Hk. apply Hf; try done. intros o k Ho. apply Hk. by rewrite <- Hfg. Qed.

(** An absent field. *)
Lemma decodes_none f : (forall o, f o = o) -> Decodes vm step [] f.
Proof. intros Hf. eapply decodes_ext; [apply decodes_nil|done]. Qed.

(** One field after another, each added to the same member. *)
Lemma decodes_folds {V X} (get : A -> X) (upd : A -> X -> A) (push : X -> V -> X) (e : V -> bytes) l :
  (forall o, upd o (get o) = o) -> (forall o x, get (upd o x) = x) -> (forall o x y, upd (upd o x) y = upd o y) ->
  (forall v, v ∈ l -> Decodes vm step (e v) (fun o => upd o (push (get o) v))) ->
  Decodes vm step (concat (map e l)) (fun o => upd o (foldl push (get o) l)).
Proof.
  intros Hupd Hgu Huu. induction l as [|v l IH]; intros Hl; cbn [map concat foldl].
  - by apply decodes_none.
  - eapply decodes_ext.
    + apply (decodes_app _ _ (fun o => upd o (push (get o) v)) (fun o => upd o (foldl push (get o) l))).
      * apply Hl, list_elem_of_here.
      * apply IH. intros w Hw. by apply Hl, list_elem_of_further.
    + intros o. cbn beta. by rewrite Hgu, Huu.
Qed.
End Decodes.

Lemma read_uint32_varint c end_ v old :
  0 <= v < 4294967296 -> ahead c (varint v) -> pos c + lenz (varint v) <= end_ ->
  ngx_protobuf_read_uint32 c end_ old = Ok (NGX_OK, adv c (length (varint v)) (calls c), v).
Proof.
  intros Hv Ha Hl. unfold ngx_protobuf_read_uint32. rewrite (read_uint64_varint c end_ v) by (done || lia).
  rewrite ok_bind, decide_False by (intros ?; congruence). by rewrite u32_id.
Qed.

Lemma key_split n w : 0 <= w < 8 -> Z.shiftr (n * 8 + w) 3 = n /\ Z.land (n * 8 + w) 7 = w.
Proof.
  intros Hw. rewrite Z.shiftr_div_pow2 by lia. change 7 with (Z.ones 3). rewrite Z.land_ones by lia.
  change (2 ^ 3) with 8. split; zdiv.
Qed.

(** A key and its payload take one turn of the loop. *)
Lemma loop_turn {A} (step : Z -> Z -> A -> ngx_protobuf_context_t -> result A) n w payload fuel obj o c k Q :
  0 <= n < 536870912 -> 0 <= w < 8 -> payload ≠ [] ->
  ahead c (enc_key n w ++ payload) -> pos c + lenz (enc_key n w ++ payload) <= last c ->
  step n w obj (adv c (length (enc_key n w)) (calls c)) = Ok (NGX_OK, o, adv c (length (enc_key n w ++ payload)) k) ->
  runs (unpack_loop step fuel o (adv c (length (enc_key n w ++ payload)) k)) Q ->
  runs (unpack_loop step (length (enc_key n w ++ payload) + fuel) obj c) Q.
Proof.
  intros Hn Hw Hne Ha Hl Ek (r & Er & HQ). exists r. split; [|done].
  pose proof (varint_length (n * 8 + w)) as Hkl. fold (enc_key n w) in Hkl.
  destruct (ahead_app _ _ _ (calls c) Ha) as [Ha1 _]. assert (Hl' := Hl). rewrite length_app, Nat2Z.inj_add in Hl'.
  assert (0 < lenz payload) by (destruct payload; [done|cbn [length]; lia]).
  assert (exists fl, (length (enc_key n w ++ payload) + fuel = S fl)%nat /\ (fuel <= fl)%nat) as (fl & -> & Hfl).
  { rewrite length_app. exists (length (enc_key n w) - 1 + length payload + fuel)%nat. lia. }
  cbn [unpack_loop]. rewrite decide_False by lia.
  rewrite (read_uint32_varint c (last c) (n * 8 + w)) by first [lia|exact Ha1|unfold enc_key in *; lia]. rewrite ok_bind.
  rewrite decide_False by (intros ?; congruence). fold (enc_key n w).
  rewrite decide_False by (cbn [adv last pos]; lia).
  destruct (key_split n w Hw) as [-> ->]. rewrite Ek, ok_bind, decide_False by (intros ?; congruence).
  by eapply unpack_loop_fuel.
Qed.

Lemma decodes_field {A} vm (step : Z -> Z -> A -> ngx_protobuf_context_t -> result A) n w payload f :
  0 <= n < 536870912 -> 0 <= w < 8 -> payload ≠ [] ->
  (forall obj c, ahead c payload -> pos c + lenz payload <= last c -> reading c ->
    exists o k, step n w obj c = Ok (NGX_OK, o, adv c (length payload) k) /\ vm (view c) o = f (vm (view c) obj)) ->
  Decodes vm step (enc_key n w ++ payload) f.
Proof.
  intros Hn Hw Hne Hstep fuel obj c Q Ha Hl Hc Hk. destruct (ahead_app _ _ _ (calls c) Ha) as [_ Ha2].
  destruct (Hstep obj (adv c (length (enc_key n w)) (calls c))) as (o & k & Ek & Ho); [done| |done|].
  { rewrite length_app, Nat2Z.inj_add in Hl. cbn [adv pos last]. lia. }
  rewrite adv_adv, <- length_app in Ek. eapply loop_turn; [done..|by apply Hk].
Qed.

Lemma varint_nonempty v : varint v ≠ [].
Proof. intros E. pose proof (varint_length v) as Hl. rewrite E in Hl. simpl in Hl. lia. Qed.

Lemma set_last_value_snoc {T} (l : list T) x y : set_last_value (l ++ [x]) y = l ++ [y].
Proof. unfold set_last_value. rewrite length_app. cbn [length]. by rewrite Nat.add_sub, take_app_length. Qed.

(** ** The fields of an object after its bytes have been read *)

Definition pick_u32 (conv : Z -> Z) (f old : fld Z) : fld Z := if has f then Fld true (conv (u32 (val f))) else old.
Definition copy_str (s : ngx_str_t) : ngx_str_t := Str (len s) (PBlock (sbytes s)).
Definition pick_str (f old : fld ngx_str_t) : fld ngx_str_t := if has f then Fld true (copy_str (val f)) else old.
(** A message without bytes is not made again. *)
Definition pick_member `{!Message M} (f old : fld (option M)) : fld (option M) :=
  if has f then match val f with
                | Some m => if decide (enc m = []) then old else Fld true (Some (norm m))
                | None => old end
  else old.
Definition push_element `{!Message M} (old : fld (array M)) (m : M) : fld (array M) :=
  if decide (enc m = []) then old else Fld true (Some (elts (val old) ++ [norm m])).
Definition pick_elements `{!Message M} (f old : fld (array M)) : fld (array M) :=
  if has f then foldl push_element old (elts (val f)) else old.

Definition member_known `{!Message M} (f : fld (option M)) : Prop := member_good known f.
Definition elements_known `{!Message M} (f : fld (array M)) : Prop := elements_good known f.

Section Cases.
Context {A : Type} (vm : (ngx_str_t -> ngx_str_t) -> A -> A).
Context (step : Z -> Z -> A -> ngx_protobuf_context_t -> result A) (n : Z).
Hypothesis Hn : 0 <= n < 536870912.

Lemma decodes_u32 conv get upd f :
  step n 0 = unpack_u32 conv upd 0 -> (forall o : A, upd o (get o) = o) ->
  (forall g o x, vm g (upd o x) = upd (vm g o) x) ->
  Decodes vm step (enc_u32 f n) (over get upd (pick_u32 conv f)).
Proof.
  intros Hstep Hupd Hvm. unfold over, enc_u32, pick_u32. destruct (has f); [|by apply decodes_none].
  apply decodes_field; [done|lia|apply varint_nonempty|].
  intros obj c Ha Hl Hc. rewrite Hstep. unfold unpack_u32. rewrite decide_True by done.
  rewrite (read_uint32_varint c (last c) (u32 (val f))) by (done || apply u32_bound). rewrite ok_bind.
  rewrite decide_False by (intros ?; congruence). eexists _, _. split; [done|]. apply Hvm.
Qed.

(** A string is copied, or refers to its bytes. *)
Lemma read_string_at c bs old pl :
  lenz bs < 4294967296 -> ahead c (varint (lenz bs) ++ bs) -> pos c + lenz (varint (lenz bs) ++ bs) <= last c ->
  reading c ->
  slice (mem c) (pos c + lenz (varint (lenz bs))) (lenz bs) = Ok bs /\
  ngx_protobuf_read_string c (last c) old pl =
    Ok (NGX_OK, adv c (length (varint (lenz bs) ++ bs)) (if pl then S (calls c) else calls c),
        Str (lenz bs) (if pl then PBlock bs else PInput (pos c + lenz (varint (lenz bs))))).
Proof.
  intros Hb Ha Hl (Hp & Hao & Hb0 & Hb1). unfold ngx_protobuf_read_string.
  pose proof (varint_length (lenz bs)) as Hv.
  assert (Hl' := Hl). rewrite length_app, Nat2Z.inj_add in Hl'.
  destruct (ahead_app _ _ _ (calls c) Ha) as [Ha1 Ha2]. destruct Ha as [Hpos _].
  assert (slice (mem c) (pos c + Z.of_nat (length (varint (lenz bs)))) (lenz bs) = Ok bs) as Es.
  { destruct (decide (bs = [])) as [->|Hne]; [|by apply (found_slice _ _ bs)].
    unfold slice. destruct (found_length _ _ _ Ha1) as [Hm|Hm]; [|rewrite Hm in Hv; simpl in Hv; lia].
    by rewrite decide_True by (cbn [length] in *; lia). }
  split; [done|].
  rewrite decide_False by lia. rewrite (read_uint64_varint c (last c) (lenz bs)) by (done || lia).
  rewrite ok_bind, decide_False by (intros ?; congruence). cbn [adv pos].
  unfold ptr_add. rewrite u64_id, decide_False by lia. destruct pl.
  - unfold ngx_palloc. rewrite Hao by lia. cbn [negb adv mem pos last reuse_strings pool calls].
    rewrite Es, ok_bind. cbn [mret cres_ret]. unfold set_pos, adv. cbn [mem pos last reuse_strings pool calls].
    rewrite length_app, u64_id by lia. do 4 f_equal. lia.
  - unfold set_pos, adv. cbn [mem pos last reuse_strings pool calls]. rewrite length_app. do 4 f_equal. lia.
Qed.

Lemma read_string_bytes c bs old :
  lenz bs < 4294967296 -> ahead c (varint (lenz bs) ++ bs) -> pos c + lenz (varint (lenz bs) ++ bs) <= last c ->
  reading c ->
  exists s k, ngx_protobuf_read_string c (last c) old (negb (reuse_strings c) && pool c) =
    Ok (NGX_OK, adv c (length (varint (lenz bs) ++ bs)) k, s) /\ view c s = Str (lenz bs) (PBlock bs).
Proof.
  intros Hb Ha Hl Hc. destruct (read_string_at c bs old (negb (reuse_strings c) && pool c) Hb Ha Hl Hc) as [Es ->].
  eexists _, _. split; [done|]. unfold view. destruct Hc as [-> _]. destruct (reuse_strings c); cbn [negb andb]; [|done].
  unfold deref. cbn [data len]. by rewrite Es.
Qed.

Lemma decodes_str get upd f :
  step n 2 = unpack_str get upd 2 -> (forall o : A, upd o (get o) = o) ->
  (forall g o x, vm g (upd o x) = upd (vm g o) (vstr g x)) -> fld_good str_good f ->
  lenz (enc_str f n) < 4294967296 ->
  Decodes vm step (enc_str f n) (over get upd (pick_str f)).
Proof.
  intros Hstep Hupd Hvm Hf Hlen. unfold over, enc_str, pick_str, fld_good in *.
  destruct (has f); [|by apply decodes_none].
  assert (lenz (sbytes (val f)) < 4294967296) as Hb by (pose proof (enc_bytes_lt n (sbytes (val f))); lia).
  apply decodes_field; [done|lia| |].
  { intros [E _]%app_eq_nil. by apply varint_nonempty in E. }
  intros obj c Ha Hl Hc. rewrite Hstep. unfold unpack_str. rewrite decide_True by done.
  destruct (read_string_bytes c (sbytes (val f)) (val (get obj))) as (s & k & -> & Hs); try done.
  rewrite ok_bind, decide_False by (intros ?; congruence). eexists _, k. split; [done|].
  rewrite Hvm. unfold vstr, copy_str. cbn [has val]. by rewrite Hs, (str_good_len (val f)) by auto.
Qed.
End Cases.
End Env.
