(* ===== verification/NgxProtobufMember.v ===== *)
(** Protocol buffers, messages inside messages: the laws of the interface
    [Message], and the optional and repeated members of a message whose type
    obeys them. *)

From Stdlib Require Import ZArith Lia.
From S2P Require Import Prelude NgxProtobuf NgxProtobufWire NgxProtobufMsg NgxProtobufCodec NgxProtobufRead.

Open Scope Z_scope.

Class MessageLaws {E : NgxEnv} (M : Type) `{!Message M} := {
  size_enc (m : M) : good m -> lenz (enc m) < 4294967296 -> msize m = lenz (enc m);
  pack_enc (m : M) : good m -> lenz (enc m) < 4294967296 -> Packs (mpack m) (enc m);
  unpack_enc (m : M) fuel c :
    known m -> lenz (enc m) < 4294967296 -> ahead c (enc m) -> last c = pos c + lenz (enc m) ->
    reading c -> (length (enc m) <= fuel)%nat ->
    exists o k, munpack fuel zero c = Ok (NGX_OK, o, adv c (length (enc m)) k) /\ vmap (view c) o = norm m;
  vmap_id (g : ngx_str_t -> ngx_str_t) (m : M) : (forall s, g s = s) -> vmap g m = m;
  vmap_enc (g : ngx_str_t -> ngx_str_t) (m : M) : same_bytes g -> enc (vmap g m) = enc m;
  vmap_good (g : ngx_str_t -> ngx_str_t) (m : M) : same_bytes g -> good (vmap g m) -> good m
}.

Section Member.
Context `{E : NgxEnv} {M : Type} `{!Message M, !MessageLaws M}.

(** ** Sizes *)

Lemma size_member_enc f n :
  0 <= n < 536870912 -> member_good good f -> lenz (enc_member enc f n) < 4294967296 ->
  size_member msize f n = lenz (enc_member enc f n).
Proof.
  intros Hn Hf. unfold size_member, enc_member, member_good, fld_good in *. destruct (has f); [|done].
  destruct (val f) as [m|]; [|done]. intros Hl. pose proof (enc_bytes_lt n (enc m)).
  rewrite size_enc by (auto || lia). apply size_message_field_enc; lia.
Qed.

Lemma size_elements_enc f n s :
  0 <= n < 536870912 -> elements_good good f -> 0 <= s -> s + lenz (enc_elements enc f n) < 4294967296 ->
  size_elements msize f n s = s + lenz (enc_elements enc f n).
Proof.
  intros Hn Hf Hs. unfold size_elements, enc_elements, elements_good, fld_good in *. destruct (has f); [|simpl; lia].
  specialize (Hf eq_refl). intros Hl. apply foldl_size; [done| |done].
  intros m Hm Hlm. pose proof (enc_bytes_lt n (enc m)).
  rewrite size_enc; [|by eapply Forall_forall in Hf|lia]. apply size_message_field_enc; lia.
Qed.

(** ** Writing *)

Lemma writes_pack_one m n :
  0 <= n < 536870912 -> good m -> lenz (enc m) < 4294967296 -> Writes (pack_one msize mpack m n) (enc_bytes n (enc m)).
Proof.
  intros Hn Hg Hl. unfold pack_one, ngx_protobuf_write_message_header, enc_bytes. rewrite size_enc by done.
  rewrite app_assoc. apply writes_bind.
  - apply writes_bind; [apply writes_key; [done|unfold NGX_PROTOBUF_WIRETYPE_LENGTH_DELIMITED; lia]|apply writes_varint; lia].
  - intros c Hf. by rewrite pack_enc.
Qed.

Lemma writes_pack_member f n :
  0 <= n < 536870912 -> member_good good f -> lenz (enc_member enc f n) < 4294967296 ->
  Writes (pack_member msize mpack f n) (enc_member enc f n).
Proof.
  intros Hn Hf. unfold pack_member, enc_member, member_good, fld_good in *. destruct (has f); [|intros; apply writes_nil].
  destruct (val f) as [m|]; [|intros; apply writes_nil]. intros Hl. pose proof (enc_bytes_lt n (enc m)).
  apply writes_pack_one; [done|by apply Hf|lia].
Qed.

Lemma writes_pack_elements f n :
  0 <= n < 536870912 -> elements_good good f -> lenz (enc_elements enc f n) < 4294967296 ->
  Writes (pack_elements msize mpack f n) (enc_elements enc f n).
Proof.
  intros Hn Hf. unfold pack_elements, enc_elements, elements_good, fld_good in *.
  destruct (has f); [|intros; apply writes_nil]. specialize (Hf eq_refl). intros Hl.
  apply (writes_pack_list _ (fun m => enc_bytes n (enc m))). apply Forall_forall. intros m Hm. eapply Forall_forall in Hf; [|done].
  pose proof (enc_bytes_lt n (enc m)). pose proof (concat_map_lt (fun m => enc_bytes n (enc m)) _ _ Hm).
  apply writes_pack_one; [done|done|simpl in *; lia].
Qed.

(** ** Reading *)

Section Cases.
Context {A : Type} (vm : (ngx_str_t -> ngx_str_t) -> A -> A).
Context (step : Z -> Z -> A -> ngx_protobuf_context_t -> result A) (n : Z) (nfuel : nat).
Hypothesis Hn : 0 <= n < 536870912.

(** The bytes of one message inside another, up to the call of its unpacking
    function with [last] at its end. *)
Lemma unpack_msg_bytes (unpack : Z -> A -> ngx_protobuf_context_t -> result A) m obj c :
  lenz (enc m) < 4294967296 -> ahead c (varint (lenz (enc m)) ++ enc m) ->
  pos c + lenz (varint (lenz (enc m)) ++ enc m) <= last c ->
  unpack_msg unpack 2 obj c = unpack (lenz (enc m)) obj (adv c (length (varint (lenz (enc m)))) (calls c)).
Proof.
  intros Hl Ha Hlast. unfold unpack_msg. rewrite decide_True by done. rewrite length_app, Nat2Z.inj_add in Hlast.
  destruct (ahead_app _ _ _ (calls c) Ha) as [Ha1 _].
  rewrite (read_uint32_varint c (last c) (lenz (enc m))) by (done || lia).
  by rewrite ok_bind, decide_False by (intros ?; congruence).
Qed.

(** The nested call on exactly the bytes of [m]. *)
Lemma munpack_nested m c l k0 :
  known m -> lenz (enc m) < 4294967296 -> (length (enc m) <= nfuel)%nat -> l = pos c + lenz (enc m) ->
  ahead c (enc m) -> l <= last c -> reading c ->
  exists o k, munpack nfuel zero (set_last (Ctx (mem c) (pos c) (last c) (reuse_strings c) (pool c) k0) l) =
    Ok (NGX_OK, o, set_last (adv c (length (enc m)) k) l) /\ vmap (view c) o = norm m.
Proof.
  intros Hk Hl Hf -> Ha Hle Hc.
  destruct (unpack_enc m nfuel (set_last (Ctx (mem c) (pos c) (last c) (reuse_strings c) (pool c) k0) (pos c + lenz (enc m))))
    as (o & k & Ek & Ho); try done. { by apply (reading_set_last c). }
  exists o, k. by rewrite Ek.
Qed.

(** [R o] is what the object stands for. *)
Lemma decodes_one (unpack : Z -> A -> ngx_protobuf_context_t -> result A) (f : A -> A) m :
  step n 2 = unpack_msg unpack 2 -> lenz (enc_bytes n (enc m)) < 4294967296 ->
  (enc m = [] -> forall o c, unpack 0 o c = Ok (NGX_OK, o, c) /\ vm (view c) o = f (vm (view c) o)) ->
  (forall o c, enc m ≠ [] -> ahead c (enc m) -> pos c + lenz (enc m) <= last c -> reading c ->
    exists o' k, unpack (lenz (enc m)) o c = Ok (NGX_OK, o', adv c (length (enc m)) k) /\
      vm (view c) o' = f (vm (view c) o)) ->
  Decodes vm step (enc_bytes n (enc m)) f.
Proof.
  intros Hstep Hl He Hne. pose proof (enc_bytes_lt n (enc m)) as Hlt.
  apply decodes_field; [done|lia| |].
  { intros [Ev _]%app_eq_nil. by apply varint_nonempty in Ev. }
  intros obj c Ha Hlast Hc. rewrite Hstep, (unpack_msg_bytes unpack m) by (done || lia).
  rewrite length_app, Nat2Z.inj_add in Hlast.
  destruct (decide (enc m = [])) as [Em|Em].
  - destruct (He Em obj (adv c (length (varint (lenz (enc m)))) (calls c))) as [Eu Ef].
    rewrite Em in *. cbn [length] in *. change (Z.of_nat 0) with 0 in *. rewrite Eu.
    exists obj, (calls c). by rewrite app_nil_r.
  - destruct (ahead_app _ _ _ (calls c) Ha) as [_ Ha2].
    destruct (Hne obj _ Em Ha2) as (o' & k & -> & Ho); [cbn [adv pos last]; lia|done|].
    exists o', k. by rewrite adv_adv, length_app.
Qed.

Lemma decodes_member get upd f :
  step n 2 = unpack_msg (unpack_member zero (munpack nfuel) get upd) 2 -> (forall o : A, upd o (get o) = o) ->
  (forall g o x, vm g (upd o x) = upd (vm g o) (vmember g x)) ->
  member_known f -> lenz (enc_member enc f n) < 4294967296 -> (length (enc_member enc f n) <= nfuel)%nat ->
  Decodes vm step (enc_member enc f n) (over get upd (pick_member f)).
Proof.
  intros Hstep Hupd Hvm Hk Hl Hf. unfold over, enc_member, pick_member, member_known, member_good, fld_good in *.
  destruct (has f); [|by apply decodes_none]. destruct (val f) as [m|]; [|by apply decodes_none].
  pose proof (enc_bytes_lt n (enc m)) as Hlt.
  apply (decodes_one (unpack_member zero (munpack nfuel) get upd)); auto.
  - intros Em o c. rewrite decide_True by done. by rewrite Hupd.
  - intros o c Em Ha Hlast Hc. assert (Hc' := Hc). destruct Hc' as (Hp & Hao & Hb0 & Hb1).
    rewrite decide_False by done. unfold unpack_member.
    rewrite decide_False by (destruct (enc m); [done|cbn [length]; lia]).
    assert (0 <= pos c) by apply Ha. unfold ptr_add. rewrite u64_id, decide_False by lia.
    rewrite Hp. unfold ngx_palloc. rewrite Hao by lia.
    destruct (munpack_nested m c (base + pos c + lenz (enc m) - base)
      (match val (get o) with Some _ => calls c | None => S (calls c) end)) as (om & k & Ek & Ho); auto; try lia.
    exists (upd o (Fld true (Some om))), k. rewrite Hvm. unfold vmember. cbn [has val fmap option_fmap option_map].
    rewrite Ho. split; [|done].
    destruct (val (get o)); cbn [negb]; [destruct c as [cm cp cl cr co ck]|]; unfold set_last in *;
      cbn [mem pos last reuse_strings pool calls] in *; rewrite Ek, ok_bind; done.
Qed.

Lemma decodes_push get upd m :
  step n 2 = unpack_msg (unpack_element zero (munpack nfuel) get upd) 2 -> (forall o : A, upd o (get o) = o) ->
  (forall (o : A) x, get (upd o x) = x) -> (forall (o : A) x y, upd (upd o x) y = upd o y) ->
  (forall g o x, vm g (upd o x) = upd (vm g o) (velements g x)) -> (forall g o, get (vm g o) = velements g (get o)) ->
  known m -> lenz (enc_bytes n (enc m)) < 4294967296 -> (length (enc_bytes n (enc m)) <= nfuel)%nat ->
  Decodes vm step (enc_bytes n (enc m)) (fun o => upd o (push_element (get o) m)).
Proof.
  intros Hstep Hupd Hgu Huu Hvm Hgv Hk Hl Hf. pose proof (enc_bytes_lt n (enc m)) as Hlt. unfold push_element.
  apply (decodes_one (unpack_element zero (munpack nfuel) get upd)); auto.
  - intros Em o c. rewrite decide_True by done. by rewrite Hupd.
  - intros o c Em Ha Hlast Hc. assert (Hc' := Hc). destruct Hc' as (Hp & Hao & Hb0 & Hb1).
    rewrite decide_False by done. unfold unpack_element.
    rewrite decide_False by (destruct (enc m); [done|cbn [length]; lia]).
    assert (0 <= pos c) by apply Ha. unfold ptr_add. rewrite u64_id, decide_False by lia.
    unfold add_element, ngx_protobuf_push_array, ngx_palloc. rewrite !Hp.
    destruct (munpack_nested m c (base + pos c + lenz (enc m) - base)
      (match val (get o) with Some _ => S (calls c) | None => S (S (calls c)) end)) as (om & k & Ek & Ho); auto; try lia.
    exists (upd o (Fld true (Some (elts (val (get o)) ++ [om])))), k. split.
    + destruct (val (get o)) as [l|]; cbn [calls mem pos last reuse_strings pool]; rewrite !Hao by lia;
        unfold set_last in *; cbn [negb mem pos last reuse_strings pool calls] in *; rewrite ?Hp in Ek; rewrite ?Hp; rewrite Ek, ok_bind;
        cbn [mret cres_ret]; rewrite Hgu, Huu; cbn [val]; [|done].
      change (elts (Some ?a)) with a. by rewrite set_last_value_snoc.
    + rewrite Hvm, Hgv. unfold velements. cbn [has val fmap option_fmap option_map]. rewrite map_app. cbn [map].
      rewrite Ho. by destruct (val (get o)).
Qed.

Lemma decodes_elements get upd f :
  step n 2 = unpack_msg (unpack_element zero (munpack nfuel) get upd) 2 -> (forall o : A, upd o (get o) = o) ->
  (forall (o : A) x, get (upd o x) = x) -> (forall (o : A) x y, upd (upd o x) y = upd o y) ->
  (forall g o x, vm g (upd o x) = upd (vm g o) (velements g x)) -> (forall g o, get (vm g o) = velements g (get o)) ->
  elements_known f -> lenz (enc_elements enc f n) < 4294967296 -> (length (enc_elements enc f n) <= nfuel)%nat ->
  Decodes vm step (enc_elements enc f n) (over get upd (pick_elements f)).
Proof.
  intros Hstep Hupd Hgu Huu Hvm Hgv Hk Hl Hf.
  unfold over, enc_elements, pick_elements, elements_known, elements_good, fld_good in *.
  destruct (has f); [|by apply decodes_none]. specialize (Hk eq_refl).
  apply (decodes_folds vm step get upd push_element (fun m => enc_bytes n (enc m))); auto.
  intros m Hm. pose proof (concat_map_lt (fun m => enc_bytes n (enc m)) _ _ Hm).
  eapply Forall_forall in Hk; [|done]. apply decodes_push; auto; cbn beta in *; lia.
Qed.
End Cases.
End Member.
