(* ===== verification/NgxProtobufScalar.v ===== *)
(** Protocol buffers, the code the generator protobuf-nginx writes for the
    other types of a field: 64-bit integers, truth values, floating-point
    numbers, and repeated values, packed or not; with their laws.  The fields of
    NgxProtobufMsg.v suffice for the common protocol, Baidu's messages
    (NgxBaiduProto.v) use these as well. *)

From Stdlib Require Import ZArith Lia.
From S2P Require Import Prelude NgxProtobuf NgxProtobufWire NgxProtobufMsg NgxProtobufCodec NgxProtobufRead.

Open Scope Z_scope.

(** [(flag != 0)] *)
Definition c_bool (flag : Z) : Z := Z.b2z (bool_decide (flag ≠ 0)).

Section Env.
Context `{NgxEnv}.

(** ** Sizes *)

Definition size_u64 (f : fld Z) (n : Z) : Z := if has f then ngx_protobuf_size_uint64_field (val f) n else 0.
Definition size_bool (f : fld Z) (n : Z) : Z := if has f then ngx_protobuf_size_uint32_field (c_bool (val f)) n else 0.
Definition size_float (f : fld Z) (n : Z) : Z := if has f then ngx_protobuf_size_fixed32_field n else 0.

(** The loop over the values of a repeated field. *)
Definition size_each {V} (size : V -> Z) (f : fld (array V)) (s : Z) : Z :=
  if has f then foldl (fun s v => u64 (s + size v)) s (elts (val f)) else s.
Definition size_u32s (f : fld (array Z)) (n : Z) := size_each (fun v => ngx_protobuf_size_uint32_field v n) f.
Definition size_u64s (f : fld (array Z)) (n : Z) := size_each (fun v => ngx_protobuf_size_uint64_field v n) f.
Definition size_strs (f : fld (array ngx_str_t)) (n : Z) := size_each (fun v => ngx_protobuf_size_string_field v n) f.
Definition size_fixed64s (f : fld (array Z)) (n s : Z) : Z :=
  if has f then match elts (val f) with
                | [] => s
                | l => u64 (s + u64 (Z.of_nat (length l) * ngx_protobuf_size_fixed64_field n)) end
  else s.

(** The function [..__packed_size] of a packed field. *)
Definition packed_size (l : list Z) : Z := foldl (fun s v => u64 (s + ngx_protobuf_size_uint32 v)) 0 l.
Definition size_packed (f : fld (array Z)) (n s : Z) : Z :=
  if has f then match elts (val f) with
                | [] => s
                | l => u64 (s + ngx_protobuf_size_message_field (packed_size l) n) end
  else s.

(** ** Packing *)

Definition pack_u64 (f : fld Z) (n : Z) (c : ngx_protobuf_context_t) :=
  if has f then ngx_protobuf_write_uint64_field c (val f) n else mret c.
Definition pack_bool (f : fld Z) (n : Z) (c : ngx_protobuf_context_t) :=
  if has f then ngx_protobuf_write_uint32_field c (c_bool (val f)) n else mret c.
Definition pack_float (f : fld Z) (n : Z) (c : ngx_protobuf_context_t) :=
  if has f then ngx_protobuf_write_float_field c (val f) n else mret c.

Definition pack_each {V} (write : V -> ngx_protobuf_context_t -> cres ngx_protobuf_context_t) (f : fld (array V))
    (c : ngx_protobuf_context_t) : cres ngx_protobuf_context_t :=
  if has f then pack_list write (elts (val f)) c else mret c.
Definition pack_u32s (f : fld (array Z)) (n : Z) := pack_each (fun v c => ngx_protobuf_write_uint32_field c v n) f.
Definition pack_u64s (f : fld (array Z)) (n : Z) := pack_each (fun v c => ngx_protobuf_write_uint64_field c v n) f.
Definition pack_strs (f : fld (array ngx_str_t)) (n : Z) := pack_each (fun v c => ngx_protobuf_write_string_field c v n) f.
Definition pack_fixed64s (f : fld (array Z)) (n : Z) := pack_each (fun v c => ngx_protobuf_write_fixed64_field c v n) f.

(** The header of one message of the packed size, then every value with a key
    of its own. *)
Definition pack_packed (f : fld (array Z)) (n : Z) (c : ngx_protobuf_context_t) : cres ngx_protobuf_context_t :=
  if has f then match elts (val f) with
                | [] => mret c
                | l => c ← ngx_protobuf_write_message_header c (packed_size l) n;
                       pack_list (fun v c => ngx_protobuf_write_uint32_field c v n) l c end
  else mret c.

(** ** Unpacking *)

Definition unpack_u64 {A} (conv : Z -> Z) (upd : A -> fld Z -> A) (wire : Z) (obj : A)
    (c : ngx_protobuf_context_t) : result A :=
  if decide (wire = NGX_PROTOBUF_WIRETYPE_VARINT) then
    '(rc, c, v) ← ngx_protobuf_read_uint64 c (last c) 0;
    if decide (rc ≠ NGX_OK) then mret (NGX_ABORT, obj, c)
    else mret (NGX_OK, upd obj (Fld true (conv v)), c)
  else skip_case wire obj c.

(** The number is read into a variable of the function. *)
Definition unpack_bool {A} (upd : A -> fld Z -> A) := unpack_u32 c_bool upd.

Definition unpack_float {A} (get : A -> fld Z) (upd : A -> fld Z -> A) (wire : Z) (obj : A)
    (c : ngx_protobuf_context_t) : result A :=
  if decide (wire = NGX_PROTOBUF_WIRETYPE_FIXED32) then
    '(rc, c, v) ← ngx_protobuf_read_float c (last c) (val (get obj));
    if decide (rc ≠ NGX_OK) then mret (NGX_ABORT, obj, c) else mret (NGX_OK, upd obj (Fld true v), c)
  else skip_case wire obj c.

(** The value of a repeated field: pushed as zero bytes, then read in place. *)
Definition push_value {A V} (zero : V) (read : ngx_protobuf_context_t -> cres (ngx_rc * ngx_protobuf_context_t * V))
    (get : A -> fld (array V)) (upd : A -> fld (array V) -> A) (obj : A) (c : ngx_protobuf_context_t) : result A :=
  let '(ok, obj, c) := add_element zero get upd obj (pool c) c in
  if negb ok then mret (NGX_ERROR, obj, c) else
  '(rc, c, v) ← read c;
  let obj := upd obj (Fld true (Some (set_last_value (elts (val (get obj))) v))) in
  mret (if decide (rc ≠ NGX_OK) then NGX_ABORT else NGX_OK, obj, c).

(** [*val] keeps its zero when the number cannot be read. *)
Definition read_into (conv : Z -> Z) (r : cres (ngx_rc * ngx_protobuf_context_t * Z)) :=
  '(rc, c, v) ← r; mret (rc, c, conv v).

Definition push_u32 {A} (conv : Z -> Z) (get : A -> fld (array Z)) upd :=
  push_value 0 (fun c => read_into conv (ngx_protobuf_read_uint32 c (last c) 0)) get upd.
Definition unpack_u32s {A} (conv : Z -> Z) (get : A -> fld (array Z)) upd (wire : Z) (obj : A) c : result A :=
  if decide (wire = NGX_PROTOBUF_WIRETYPE_VARINT) then push_u32 conv get upd obj c else skip_case wire obj c.

Definition unpack_u64s {A} (conv : Z -> Z) (get : A -> fld (array Z)) upd (wire : Z) (obj : A) c : result A :=
  if decide (wire = NGX_PROTOBUF_WIRETYPE_VARINT) then
    push_value 0 (fun c => read_into conv (ngx_protobuf_read_uint64 c (last c) 0)) get upd obj c
  else skip_case wire obj c.

Definition unpack_strs {A} (get : A -> fld (array ngx_str_t)) upd (wire : Z) (obj : A) c : result A :=
  if decide (wire = NGX_PROTOBUF_WIRETYPE_LENGTH_DELIMITED) then
    push_value ngx_str_null
      (fun c => ngx_protobuf_read_string c (last c) ngx_str_null (negb (reuse_strings c) && pool c)) get upd obj c
  else skip_case wire obj c.

Definition unpack_fixed64s {A} (get : A -> fld (array Z)) upd (wire : Z) (obj : A) c : result A :=
  if decide (wire = NGX_PROTOBUF_WIRETYPE_FIXED64) then
    push_value 0 (fun c => ngx_protobuf_read_fixed64 c (last c) 0) get upd obj c
  else skip_case wire obj c.

(** [while ( *pos < mend)]: each number may run up to the end of the message,
    not of the field. *)
Fixpoint packed_loop {A} (push : A -> ngx_protobuf_context_t -> result A) (fuel : nat) (mend : Z) (obj : A)
    (c : ngx_protobuf_context_t) : result A :=
  if decide (mend <= pos c) then mret (NGX_OK, obj, c) else
  match fuel with
  | O => NoFuel
  | S fuel =>
      '(rc, obj, c) ← push obj c;
      if decide (rc ≠ NGX_OK) then mret (rc, obj, c) else packed_loop push fuel mend obj c
  end.

Definition unpack_packed {A} (fuel : nat) (conv : Z -> Z) (get : A -> fld (array Z)) upd (wire : Z) (obj : A) c : result A :=
  if decide (wire = NGX_PROTOBUF_WIRETYPE_VARINT) then push_u32 conv get upd obj c
  else if decide (wire = NGX_PROTOBUF_WIRETYPE_LENGTH_DELIMITED) then
    '(rc, c, mlen) ← ngx_protobuf_read_uint32 c (last c) junk32;
    if decide (rc ≠ NGX_OK) then mret (NGX_ABORT, obj, c) else
    let mend := ptr_add (pos c) mlen in
    if decide (last c < mend) then mret (NGX_ABORT, obj, c) else
    packed_loop (push_u32 conv get upd) fuel mend obj c
  else skip_case wire obj c.
End Env.
