(* ===== verification/NgxProtobufScalarLaws.v ===== *)
(** Protocol buffers, the laws of the fields of NgxProtobufScalar.v: their
    sizes, the bytes they are packed to, and reading them back.  A packed field
    is read back from the bytes of the protocol, [enc_packed], but it is not
    written as them (see [writes_pack_packed]); values of fixed width are not
    read at all. *)

From Stdlib Require Import ZArith Lia.
From S2P Require Import Prelude NgxProtobuf NgxProtobufWire NgxProtobufMsg NgxProtobufCodec NgxProtobufRead.
From S2P Require Import NgxProtobufScalar.

Open Scope Z_scope.

Section Env.
Context `{NgxEnv}.

(** ** The bytes of a field *)

Definition enc_u64 (f : fld Z) (n : Z) : bytes := if has f then enc_key n 0 ++ varint (u64 (val f)) else [].
Definition enc_bool (f : fld Z) (n : Z) : bytes := if has f then enc_key n 0 ++ varint (c_bool (val f)) else [].
Definition enc_float (f : fld Z) (n : Z) : bytes := if has f then enc_key n 5 ++ le_bytes 4 (val f) else [].
Definition enc_each {V} (e : V -> bytes) (f : fld (array V)) : bytes :=
  if has f then concat (map e (elts (val f))) else [].
Definition enc_u32s (f : fld (array Z)) (n : Z) := enc_each (fun v => enc_key n 0 ++ varint (u32 v)) f.
Definition enc_u64s (f : fld (array Z)) (n : Z) := enc_each (fun v => enc_key n 0 ++ varint (u64 v)) f.
Definition enc_strs (f : fld (array ngx_str_t)) (n : Z) := enc_each (fun v => enc_bytes n (sbytes v)) f.
Definition enc_fixed64s (f : fld (array Z)) (n : Z) := enc_each (fun v => enc_key n 1 ++ le_bytes 8 v) f.

(** A packed field: its values one after another in one string. *)
Definition packed_bytes (l : list Z) : bytes := concat (map (fun v => varint (u32 v)) l).
Definition enc_packed (f : fld (array Z)) (n : Z) : bytes :=
  if has f then match elts (val f) with [] => [] | l => enc_bytes n (packed_bytes l) end else [].
(** What the code writes for it. *)
Definition enc_packed_written (f : fld (array Z)) (n : Z) : bytes :=
  if has f then match elts (val f) with
                | [] => []
                | l => enc_key n 2 ++ varint (lenz (packed_bytes l)) ++ concat (map (fun v => enc_key n 0 ++ varint (u32 v)) l)
                end
  else [].

Definition strs_good (f : fld (array ngx_str_t)) : Prop := fld_good (fun a => Forall str_good (elts a)) f.
(** No value is present. *)
Definition no_values {V} (f : fld (array V)) : Prop := fld_good (fun a => elts a = []) f.

Lemma enc_each_none {V} (e : V -> bytes) f : no_values f -> enc_each e f = [].
Proof. unfold no_values, fld_good, enc_each. destruct (has f); [|done]. intros Hf. by rewrite Hf. Qed.

Lemma enc_packed_none f n : no_values f -> enc_packed f n = [].
Proof. unfold no_values, fld_good, enc_packed. destruct (has f); [|done]. intros Hf. by rewrite Hf. Qed.

(** ** Sizes *)

Lemma size_u64_enc f n : 0 <= n < 536870912 -> size_u64 f n = lenz (enc_u64 f n).
Proof.
  intros Hn. unfold size_u64, enc_u64. destruct (has f); [|done]. unfold ngx_protobuf_size_uint64_field.
  wires. rewrite size_key, size_uint64_spec, length_app by lia. lia.
Qed.

Lemma c_bool_bound v : 0 <= c_bool v < 2.
Proof. unfold c_bool. case_bool_decide; simpl; lia. Qed.

Lemma size_bool_enc f n : 0 <= n < 536870912 -> size_bool f n = lenz (enc_bool f n).
Proof.
  intros Hn. pose proof (c_bool_bound (val f)). unfold size_bool, enc_bool. destruct (has f); [|done].
  unfold ngx_protobuf_size_uint32_field. wires. rewrite size_key, size_uint32_spec, length_app, u32_id by lia. lia.
Qed.

Lemma size_float_enc f n : 0 <= n < 536870912 -> size_float f n = lenz (enc_float f n).
Proof.
  intros Hn. unfold size_float, enc_float. destruct (has f); [|done]. unfold ngx_protobuf_size_fixed32_field.
  wires. rewrite size_key, length_app, le_bytes_size by lia. lia.
Qed.

Lemma size_each_enc {V} (sz : V -> Z) (e : V -> bytes) f s :
  0 <= s -> fld_good (fun a => forall v, v ∈ elts a -> lenz (e v) < 4294967296 -> sz v = lenz (e v)) f ->
  s + lenz (enc_each e f) < 4294967296 -> size_each sz f s = s + lenz (enc_each e f).
Proof.
  intros Hs Hf. unfold size_each, enc_each, fld_good in *. destruct (has f); [|simpl; lia].
  apply foldl_size; auto.
Qed.

Lemma size_u32s_enc f n s : 0 <= n < 536870912 -> 0 <= s -> s + lenz (enc_u32s f n) < 4294967296 ->
  size_u32s f n s = s + lenz (enc_u32s f n).
Proof.
  intros Hn Hs. apply size_each_enc; [done|]. intros _ v _ _. unfold ngx_protobuf_size_uint32_field.
  wires. rewrite size_key, size_uint32_spec, length_app by lia. lia.
Qed.

Lemma size_u64s_enc f n s : 0 <= n < 536870912 -> 0 <= s -> s + lenz (enc_u64s f n) < 4294967296 ->
  size_u64s f n s = s + lenz (enc_u64s f n).
Proof.
  intros Hn Hs. apply size_each_enc; [done|]. intros _ v _ _. unfold ngx_protobuf_size_uint64_field.
  wires. rewrite size_key, size_uint64_spec, length_app by lia. lia.
Qed.

Lemma size_strs_enc f n s : 0 <= n < 536870912 -> strs_good f -> 0 <= s -> s + lenz (enc_strs f n) < 4294967296 ->
  size_strs f n s = s + lenz (enc_strs f n).
Proof.
  intros Hn Hf Hs. apply size_each_enc; [done|]. intros Hh v Hv Hl. specialize (Hf Hh).
  eapply Forall_forall in Hf; [|done]. by apply size_string_field_enc.
Qed.

Lemma concat_const {V} (e : V -> bytes) (k : Z) l : (forall v, lenz (e v) = k) ->
  lenz (concat (map e l)) = Z.of_nat (length l) * k.
Proof. intros He. induction l as [|v l IH]; cbn [map concat length]; [lia|]. rewrite length_app, Nat2Z.inj_add, He, IH. lia. Qed.

Lemma size_fixed64s_enc f n s : 0 <= n < 536870912 -> 0 <= s -> s + lenz (enc_fixed64s f n) < 4294967296 ->
  size_fixed64s f n s = s + lenz (enc_fixed64s f n).
Proof.
  intros Hn Hs. unfold size_fixed64s, enc_fixed64s, enc_each. destruct (has f); [|simpl; lia].
  unfold ngx_protobuf_size_fixed64_field. wires. rewrite size_key by lia.
  assert (forall l, lenz (concat (map (fun v => enc_key n 1 ++ le_bytes 8 v) l)) = Z.of_nat (length l) * (lenz (enc_key n 1) + 8)) as E.
  { intros l. apply concat_const. intros v. rewrite length_app, le_bytes_size. lia. }
  destruct (elts (val f)) as [|v l]; [simpl; lia|]. specialize (E (v :: l)). intros Hl. rewrite E in *.
  rewrite (u64_id (Z.of_nat (length (v :: l)) * _)) by nia. rewrite u64_id by nia. done.
Qed.

(** A packed field is measured as the protocol has it. *)
Lemma packed_size_bytes l : lenz (packed_bytes l) < 4294967296 -> packed_size l = lenz (packed_bytes l).
Proof.
  intros Hl. unfold packed_size, packed_bytes in *. rewrite (foldl_size _ (fun v => varint (u32 v))); try lia.
  intros v _ _. apply size_uint32_spec.
Qed.

Lemma size_packed_enc f n s : 0 <= n < 536870912 -> 0 <= s -> s + lenz (enc_packed f n) < 4294967296 ->
  size_packed f n s = s + lenz (enc_packed f n).
Proof.
  intros Hn Hs. unfold size_packed, enc_packed. destruct (has f); [|simpl; lia].
  destruct (elts (val f)) as [|v l]; [simpl; lia|]. intros Hl. pose proof (enc_bytes_lt n (packed_bytes (v :: l))).
  rewrite packed_size_bytes, size_message_field_enc by lia. apply u64_id. lia.
Qed.

(** ** Writing *)

Lemma writes_pack_u64 f n : 0 <= n < 536870912 -> Writes (pack_u64 f n) (enc_u64 f n).
Proof.
  intros Hn. unfold pack_u64, enc_u64. destruct (has f); [|apply writes_nil].
  apply writes_bind; [apply writes_key; [done|wires; lia]|apply writes_u64].
Qed.

Lemma writes_uint32_field v n : 0 <= n < 536870912 ->
  Writes (fun c => ngx_protobuf_write_uint32_field c v n) (enc_key n 0 ++ varint (u32 v)).
Proof. intros Hn. apply writes_bind; [apply writes_key; [done|wires; lia]|apply writes_u32]. Qed.

Lemma writes_pack_bool f n : 0 <= n < 536870912 -> Writes (pack_bool f n) (enc_bool f n).
Proof.
  intros Hn. unfold pack_bool, enc_bool. destruct (has f); [|apply writes_nil].
  pose proof (c_bool_bound (val f)). pose proof (writes_uint32_field (c_bool (val f)) n Hn) as Hw.
  by rewrite u32_id in Hw by lia.
Qed.

Lemma writes_pack_float f n : 0 <= n < 536870912 -> Writes (pack_float f n) (enc_float f n).
Proof.
  intros Hn. unfold pack_float, enc_float. destruct (has f); [|apply writes_nil].
  apply writes_bind; [apply writes_key; [done|wires; lia]|apply writes_cpymem].
Qed.

Lemma writes_pack_each {V} (w : V -> ngx_protobuf_context_t -> cres ngx_protobuf_context_t) (e : V -> bytes) f :
  fld_good (fun a => forall v, v ∈ elts a -> Writes (w v) (e v)) f -> Writes (pack_each w f) (enc_each e f).
Proof.
  intros Hf. unfold pack_each, enc_each, fld_good in *. destruct (has f); [|apply writes_nil].
  apply writes_pack_list. apply Forall_forall. auto.
Qed.

Lemma writes_pack_u32s f n : 0 <= n < 536870912 -> Writes (pack_u32s f n) (enc_u32s f n).
Proof. intros Hn. apply writes_pack_each. intros _ v _. by apply writes_uint32_field. Qed.

Lemma writes_pack_u64s f n : 0 <= n < 536870912 -> Writes (pack_u64s f n) (enc_u64s f n).
Proof.
  intros Hn. apply writes_pack_each. intros _ v _.
  apply writes_bind; [apply writes_key; [done|wires; lia]|apply writes_u64].
Qed.

Lemma writes_pack_strs f n : 0 <= n < 536870912 -> strs_good f -> lenz (enc_strs f n) < 4294967296 ->
  Writes (pack_strs f n) (enc_strs f n).
Proof.
  intros Hn Hf Hl. apply writes_pack_each. intros Hh v Hv. specialize (Hf Hh). eapply Forall_forall in Hf; [|done].
  unfold enc_strs, enc_each in Hl. rewrite Hh in Hl.
  pose proof (concat_map_lt (fun v => enc_bytes n (sbytes v)) _ _ Hv). pose proof (enc_bytes_lt n (sbytes v)).
  apply writes_string_field; [done|done|cbn beta in *; lia].
Qed.

Lemma writes_pack_fixed64s f n : 0 <= n < 536870912 -> Writes (pack_fixed64s f n) (enc_fixed64s f n).
Proof.
  intros Hn. apply writes_pack_each. intros _ v _.
  apply writes_bind; [apply writes_key; [done|wires; lia]|apply writes_cpymem].
Qed.

(** What the code writes for a packed field: the header of the packed values,
    and then the values as those of a field that is not packed. *)
Lemma writes_pack_packed f n : 0 <= n < 536870912 -> lenz (enc_packed f n) < 4294967296 ->
  Writes (pack_packed f n) (enc_packed_written f n).
Proof.
  intros Hn Hl. unfold pack_packed, enc_packed_written, enc_packed in *. destruct (has f); [|apply writes_nil].
  destruct (elts (val f)) as [|v l]; [apply writes_nil|]. pose proof (enc_bytes_lt n (packed_bytes (v :: l))).
  rewrite packed_size_bytes by lia. unfold ngx_protobuf_write_message_header. rewrite app_assoc. apply writes_bind.
  - apply writes_bind; [apply writes_key; [done|wires; lia]|apply writes_varint; lia].
  - apply (writes_pack_list _ (fun v => enc_key n 0 ++ varint (u32 v))). apply Forall_forall. intros x _. by apply writes_uint32_field.
Qed.

Lemma writes_pack_packed_none f n : no_values f -> Writes (pack_packed f n) (enc_packed f n).
Proof.
  intros Hf. rewrite enc_packed_none by done. unfold pack_packed, no_values, fld_good in *.
  destruct (has f); [|apply writes_nil]. rewrite Hf by done. apply writes_nil.
Qed.

(** The values are written with keys that the size does not count. *)
Lemma packed_overrun f n : 0 <= n < 536870912 -> has f = true -> elts (val f) ≠ [] ->
  lenz (enc_packed_written f n) = lenz (enc_packed f n) + Z.of_nat (length (elts (val f))) * lenz (enc_key n 0).
Proof.
  intros Hn Hh Hne. unfold enc_packed_written, enc_packed, enc_bytes, packed_bytes. rewrite Hh.
  destruct (elts (val f)) as [|v l]; [done|]. rewrite !length_app, !Nat2Z.inj_add. generalize (v :: l). intros l'.
  induction l' as [|x l' IH]; cbn [map concat length]; [lia|]. rewrite !length_app, !Nat2Z.inj_add in *. lia.
Qed.

(** ** Reading back *)

Definition pick_u64 (conv : Z -> Z) (f old : fld Z) : fld Z := if has f then Fld true (conv (u64 (val f))) else old.
Definition pick_bool (f old : fld Z) : fld Z := if has f then Fld true (c_bool (val f)) else old.
Definition push_elt {V} (conv : V -> V) (old : fld (array V)) (v : V) : fld (array V) :=
  Fld true (Some (elts (val old) ++ [conv v])).
Definition pick_each {V} (conv : V -> V) (f old : fld (array V)) : fld (array V) :=
  if has f then foldl (push_elt conv) old (elts (val f)) else old.
Definition vstrs (g : ngx_str_t -> ngx_str_t) (f : fld (array ngx_str_t)) : fld (array ngx_str_t) :=
  Fld (has f) (map g <$> val f).

Section Cases.
Context {A : Type} (vm : (ngx_str_t -> ngx_str_t) -> A -> A).
Context (step : Z -> Z -> A -> ngx_protobuf_context_t -> result A) (n : Z).
Hypothesis Hn : 0 <= n < 536870912.

Lemma decodes_u64 conv get upd f :
  step n 0 = unpack_u64 conv upd 0 -> (forall o : A, upd o (get o) = o) ->
  (forall g o x, vm g (upd o x) = upd (vm g o) x) ->
  Decodes vm step (enc_u64 f n) (over get upd (pick_u64 conv f)).
Proof.
  intros Hstep Hupd Hvm. unfold over, enc_u64, pick_u64. destruct (has f); [|by apply decodes_none].
  apply decodes_field; [done|lia|apply varint_nonempty|].
  intros obj c Ha Hl Hc. rewrite Hstep. unfold unpack_u64. rewrite decide_True by done.
  rewrite (read_uint64_varint c (last c) (u64 (val f))) by (done || apply u64_bound). rewrite ok_bind.
  rewrite decide_False by (intros ?; congruence). eexists _, _. split; [done|]. apply Hvm.
Qed.

Lemma decodes_bool get upd f :
  step n 0 = unpack_bool upd 0 -> (forall o : A, upd o (get o) = o) ->
  (forall g o x, vm g (upd o x) = upd (vm g o) x) ->
  Decodes vm step (enc_bool f n) (over get upd (pick_bool f)).
Proof.
  intros Hstep Hupd Hvm. pose proof (c_bool_bound (val f)) as Hb.
  assert (c_bool (u32 (c_bool (val f))) = c_bool (val f)) as Ec.
  { rewrite u32_id by lia. unfold c_bool. by destruct (bool_decide (val f ≠ 0)). }
  eapply decodes_ext.
  - assert (enc_bool f n = enc_u32 (Fld (has f) (c_bool (val f))) n) as ->.
    { unfold enc_bool, enc_u32. cbn [has val]. by rewrite u32_id by lia. }
    by apply decodes_u32.
  - intros o. unfold over, pick_u32, pick_bool. cbn [has val]. by rewrite Ec.
Qed.

(** Fields that are not read back. *)
Lemma decodes_float f : has f = false -> Decodes vm step (enc_float f n) id.
Proof. intros Hf. unfold enc_float. rewrite Hf. apply decodes_nil. Qed.
Lemma decodes_fixed64s f : no_values f -> Decodes vm step (enc_fixed64s f n) id.
Proof. intros Hf. unfold enc_fixed64s. rewrite enc_each_none by done. apply decodes_nil. Qed.

(** [c] after [k] allocations. *)
Definition with_calls (c : ngx_protobuf_context_t) (k : nat) : ngx_protobuf_context_t :=
  Ctx (mem c) (pos c) (last c) (reuse_strings c) (pool c) k.

Section Each.
Context {V : Type} (zero : V) (read : ngx_protobuf_context_t -> cres (ngx_rc * ngx_protobuf_context_t * V)).
Context (get : A -> fld (array V)) (upd : A -> fld (array V) -> A) (w : (ngx_str_t -> ngx_str_t) -> V -> V).
Hypothesis Hupd : forall o : A, upd o (get o) = o.
Hypothesis Hgu : forall (o : A) x, get (upd o x) = x.
Hypothesis Huu : forall (o : A) x y, upd (upd o x) y = upd o y.
Hypothesis Hvm : forall g o x, vm g (upd o x) = upd (vm g o) (Fld (has x) (map (w g) <$> val x)).
Hypothesis Hgv : forall g o, get (vm g o) = Fld (has (get o)) (map (w g) <$> val (get o)).

Lemma push_value_ok (conv : V -> V) v obj c len :
  reading c ->
  (forall k, exists x k', read (with_calls c k) = Ok (NGX_OK, adv c len k', x) /\ w (view c) x = conv v) ->
  exists o k, push_value zero read get upd obj c = Ok (NGX_OK, o, adv c len k) /\
    vm (view c) o = upd (vm (view c) obj) (push_elt conv (get (vm (view c) obj)) v).
Proof.
  intros (Hp & Hao & _) Hread. unfold push_value, add_element, ngx_protobuf_push_array, ngx_palloc. rewrite !Hp.
  destruct (Hread (match val (get obj) with Some _ => S (calls c) | None => S (S (calls c)) end)) as (x & k & Er & Ex).
  exists (upd obj (Fld true (Some (elts (val (get obj)) ++ [x])))), k. split.
  - unfold with_calls in Er. destruct (val (get obj)) as [l|]; cbn [calls mem pos last reuse_strings pool] in *;
      rewrite !Hao by lia; cbn [negb calls mem pos last reuse_strings pool] in *; rewrite ?Hp; rewrite ?Hp in Er; rewrite Er, ok_bind;
      rewrite decide_False by (intros ?; congruence); rewrite Hgu, Huu; cbn [val]; [|done].
    change (elts (Some ?a)) with a. by rewrite set_last_value_snoc.
  - rewrite Hvm, Hgv. cbn [has val fmap option_fmap option_map]. rewrite map_app. cbn [map]. rewrite Ex.
    unfold push_elt. by destruct (val (get obj)).
Qed.

Lemma decodes_each wire (payload : V -> bytes) (conv : V -> V) f :
  0 <= wire < 8 -> (forall obj c, step n wire obj c = push_value zero read get upd obj c) ->
  fld_good (fun a => forall v, v ∈ elts a -> payload v ≠ [] /\ forall c k,
    ahead c (payload v) -> pos c + lenz (payload v) <= last c -> reading c -> exists x k',
      read (with_calls c k) = Ok (NGX_OK, adv c (length (payload v)) k', x) /\ w (view c) x = conv v) f ->
  Decodes vm step (enc_each (fun v => enc_key n wire ++ payload v) f) (over get upd (pick_each conv f)).
Proof.
  intros Hw Hstep Hf. unfold over, enc_each, pick_each, fld_good in *. destruct (has f); [|by apply decodes_none].
  specialize (Hf eq_refl). apply (decodes_folds vm step get upd (push_elt conv) (fun v => enc_key n wire ++ payload v)); auto.
  intros v Hv. destruct (Hf v Hv) as [Hne Hread]. apply decodes_field; [done|done|done|].
  intros obj c Ha Hl Hc. rewrite Hstep. apply push_value_ok; auto.
Qed.
End Each.

Section Numbers.
Context (get : A -> fld (array Z)) (upd : A -> fld (array Z) -> A).
Hypothesis Hupd : forall o : A, upd o (get o) = o.
Hypothesis Hgu : forall (o : A) x, get (upd o x) = x.
Hypothesis Huu : forall (o : A) x y, upd (upd o x) y = upd o y.
Hypothesis Hvm : forall g o x, vm g (upd o x) = upd (vm g o) x.
Hypothesis Hgv : forall g o, get (vm g o) = get o.

Lemma fld_id (x : fld (array Z)) : Fld (has x) (map (fun v => v) <$> val x) = x.
Proof. destruct x as [h [l|]]; cbn; [|done]. by rewrite map_id. Qed.

Lemma numbers_vm (g : ngx_str_t -> ngx_str_t) o x : vm g (upd o x) = upd (vm g o) (Fld (has x) (map (fun v => v) <$> val x)).
Proof. by rewrite fld_id. Qed.
Lemma numbers_get (g : ngx_str_t -> ngx_str_t) o : get (vm g o) = Fld (has (get o)) (map (fun v => v) <$> val (get o)).
Proof. by rewrite fld_id. Qed.

(** Reading a number in place. *)
Lemma read_into_u32 conv c k v :
  ahead c (varint (u32 v)) -> pos c + lenz (varint (u32 v)) <= last c ->
  exists x k', read_into conv (ngx_protobuf_read_uint32 (with_calls c k) (last (with_calls c k)) 0) =
    Ok (NGX_OK, adv c (length (varint (u32 v))) k', x) /\ x = conv (u32 v).
Proof.
  intros Ha Hl. rewrite (read_uint32_varint (with_calls c k) _ (u32 v)) by (done || apply u32_bound).
  by eexists _, k.
Qed.
Lemma read_into_u64 conv c k v :
  ahead c (varint (u64 v)) -> pos c + lenz (varint (u64 v)) <= last c ->
  exists x k', read_into conv (ngx_protobuf_read_uint64 (with_calls c k) (last (with_calls c k)) 0) =
    Ok (NGX_OK, adv c (length (varint (u64 v))) k', x) /\ x = conv (u64 v).
Proof.
  intros Ha Hl. rewrite (read_uint64_varint (with_calls c k) _ (u64 v)) by (done || apply u64_bound).
  by eexists _, k.
Qed.

Lemma decodes_u32s conv f :
  step n 0 = unpack_u32s conv get upd 0 ->
  Decodes vm step (enc_u32s f n) (over get upd (pick_each (fun v => conv (u32 v)) f)).
Proof.
  intros Hstep. eapply (decodes_each 0 _ get upd (fun _ v => v) Hupd Hgu Huu numbers_vm numbers_get); [lia| |].
  - intros obj c. rewrite Hstep. unfold unpack_u32s, push_u32. by rewrite decide_True by done.
  - intros _ v _. split; [apply varint_nonempty|]. intros c k Ha Hl _. by apply read_into_u32.
Qed.

Lemma decodes_u64s conv f :
  step n 0 = unpack_u64s conv get upd 0 ->
  Decodes vm step (enc_u64s f n) (over get upd (pick_each (fun v => conv (u64 v)) f)).
Proof.
  intros Hstep. eapply (decodes_each 0 _ get upd (fun _ v => v) Hupd Hgu Huu numbers_vm numbers_get); [lia| |].
  - intros obj c. rewrite Hstep. unfold unpack_u64s. by rewrite decide_True by done.
  - intros _ v _. split; [apply varint_nonempty|]. intros c k Ha Hl _. by apply read_into_u64.
Qed.

(** The loop over packed values. *)
Lemma packed_loop_values conv l : forall fuel obj c,
  ahead c (packed_bytes l) -> pos c + lenz (packed_bytes l) <= last c -> reading c -> (length l <= fuel)%nat ->
  exists o k, packed_loop (push_u32 conv get upd) fuel (pos c + lenz (packed_bytes l)) obj c =
    Ok (NGX_OK, o, adv c (length (packed_bytes l)) k) /\
    vm (view c) o = upd (vm (view c) obj) (foldl (push_elt (fun v => conv (u32 v))) (get (vm (view c) obj)) l).
Proof.
  induction l as [|v l IH]; intros fuel obj c Ha Hl Hc Hf; cbn [packed_bytes map concat length foldl] in *.
  - exists obj, (calls c). destruct fuel; cbn [packed_loop]; rewrite decide_True by lia; rewrite Hupd, adv_0; done.
  - destruct fuel as [|fuel]; [lia|]. change (concat (map (fun v => varint (u32 v)) l)) with (packed_bytes l) in *.
    destruct (ahead_app _ _ _ (calls c) Ha) as [Ha1 _]. rewrite !length_app, Nat2Z.inj_add in *.
    pose proof (varint_length (u32 v)) as Hv. cbn [packed_loop]. rewrite decide_False by lia.
    destruct (push_value_ok 0 (fun c => read_into conv (ngx_protobuf_read_uint32 c (last c) 0)) get upd (fun _ v => v)
      Hgu Huu numbers_vm numbers_get (fun v => conv (u32 v)) v obj c (length (varint (u32 v)))) as (o & k & Eo & Ho); [done| |].
    { intros k. apply read_into_u32; [done|lia]. }
    change (push_u32 conv get upd obj c = Ok (NGX_OK, o, adv c (length (varint (u32 v))) k)) in Eo.
    rewrite Eo, ok_bind, decide_False by (intros ?; congruence).
    destruct (IH fuel o (adv c (length (varint (u32 v))) k)) as (o' & k' & Eo' & Ho').
    + apply (ahead_app c (varint (u32 v))); exact Ha.
    + cbn [adv pos last]. lia.
    + exact Hc.
    + lia.
    + exists o', k'. rewrite adv_adv in Eo'. cbn [adv pos] in Eo'. rewrite Z.add_assoc. split; [exact Eo'|].
      change (view (adv c ?a ?b)) with (view c) in Ho'. by rewrite Ho', Ho, Hgu, Huu.
Qed.

Lemma packed_bytes_length l : (length l <= length (packed_bytes l))%nat.
Proof.
  induction l as [|v l IH]; cbn [packed_bytes map concat length]; [lia|]. rewrite length_app.
  change (concat (map (fun v => varint (u32 v)) l)) with (packed_bytes l). pose proof (varint_length (u32 v)). lia.
Qed.

Lemma decodes_packed conv nfuel f :
  step n 2 = unpack_packed nfuel conv get upd 2 -> lenz (enc_packed f n) < 4294967296 ->
  (length (enc_packed f n) <= nfuel)%nat ->
  Decodes vm step (enc_packed f n) (over get upd (pick_each (fun v => conv (u32 v)) f)).
Proof.
  intros Hstep Hlen Hf. unfold over, enc_packed, pick_each in *. destruct (has f); [|by apply decodes_none].
  destruct (elts (val f)) as [|v l]; [by apply decodes_none|]. set (vs := v :: l) in *.
  pose proof (enc_bytes_lt n (packed_bytes vs)) as Hlt. pose proof (packed_bytes_length vs) as Hpl.
  apply decodes_field; [done|lia| |].
  { intros [E _]%app_eq_nil. by apply varint_nonempty in E. }
  intros obj c Ha Hl Hc. destruct (ahead_app _ _ _ (calls c) Ha) as [Ha1 Ha2]. rewrite length_app, Nat2Z.inj_add in Hl.
  assert (Hc' := Hc). destruct Hc' as (_ & _ & Hb0 & Hb1). assert (0 <= pos c) by apply Ha.
  rewrite Hstep. unfold unpack_packed. rewrite decide_False, decide_True by done.
  rewrite (read_uint32_varint c (last c) (lenz (packed_bytes vs))) by (done || lia).
  rewrite ok_bind, decide_False by (intros ?; congruence). cbn zeta. unfold ptr_add.
  set (c1 := adv c _ _) in *. assert (pos c1 = pos c + lenz (varint (lenz (packed_bytes vs)))) as Ep by done.
  change (last c1) with (last c). rewrite u64_id, decide_False by lia.
  destruct (packed_loop_values conv vs nfuel obj c1) as (o & k & Eo & Ho);
    [exact Ha2|change (last c1) with (last c); lia|done|lia|].
  exists o, k. split; [|exact Ho].
  replace (base + pos c1 + lenz (packed_bytes vs) - base) with (pos c1 + lenz (packed_bytes vs)) by lia.
  rewrite Eo. subst c1. by rewrite adv_adv, length_app.
Qed.
End Numbers.

Lemma decodes_strs get upd f :
  step n 2 = unpack_strs get upd 2 -> (forall o : A, upd o (get o) = o) ->
  (forall (o : A) x, get (upd o x) = x) -> (forall (o : A) x y, upd (upd o x) y = upd o y) ->
  (forall g o x, vm g (upd o x) = upd (vm g o) (vstrs g x)) -> (forall g o, get (vm g o) = vstrs g (get o)) ->
  strs_good f -> lenz (enc_strs f n) < 4294967296 ->
  Decodes vm step (enc_strs f n) (over get upd (pick_each copy_str f)).
Proof.
  intros Hstep Hupd Hgu Huu Hvm Hgv Hf Hl.
  eapply (decodes_each ngx_str_null _ get upd (fun g => g) Hupd Hgu Huu Hvm Hgv); [lia| |].
  - intros obj c. rewrite Hstep. unfold unpack_strs. by rewrite decide_True by done.
  - intros Hh v Hv. specialize (Hf Hh). eapply Forall_forall in Hf; [|done].
    unfold enc_strs, enc_each in Hl. rewrite Hh in Hl.
    pose proof (concat_map_lt (fun v => enc_bytes n (sbytes v)) _ _ Hv). pose proof (enc_bytes_lt n (sbytes v)).
    split.
    + intros [E _]%app_eq_nil. by apply varint_nonempty in E.
    + intros c k Ha Hlast Hc.
      destruct (read_string_bytes (with_calls c k) (sbytes v) ngx_str_null) as (s & k' & Es & Hs);
        [cbn beta in *; lia|exact Ha|exact Hlast|exact Hc|].
      exists s, k'. split; [exact Es|]. unfold copy_str. rewrite <- (str_good_len v) by done. exact Hs.
Qed.
End Cases.
End Env.
