(* ===== verification/NgxProtobufLaws.v ===== *)
(** Protocol buffers, the proofs that the messages of a generated file obey the
    laws of NgxProtobufMember.v: each computes its size, packs to its bytes and
    unpacks them.  A message is proved field by field, in the order in which
    its function treats them. *)

From Stdlib Require Import ZArith Lia.
From S2P Require Import Prelude NgxProtobuf NgxProtobufWire NgxProtobufMsg NgxProtobufCodec NgxProtobufRead.
From S2P Require Import NgxProtobufMember NgxProtobufScalar NgxProtobufScalarLaws.

Open Scope Z_scope.

Section Env.
Context `{NgxEnv} {A : Type} (vm : (ngx_str_t -> ngx_str_t) -> A -> A).
Context (step : Z -> Z -> A -> ngx_protobuf_context_t -> result A).

Lemma decodes_unknowns a : elts a = [] -> Decodes vm step (enc_unknowns a) id.
Proof. intros Ha. unfold enc_unknowns. rewrite Ha. apply decodes_nil. Qed.

(** The whole loop on exactly the bytes of a message: first those of [e], with
    what follows them still to be read. *)
Lemma decodes_run_then e e' f obj r fuel c :
  Decodes vm step e f -> ahead c (e ++ e') -> last c = pos c + lenz (e ++ e') -> reading c ->
  (length (e ++ e') <= fuel)%nat ->
  (forall o k, vm (view c) o = f (vm (view c) obj) -> exists o' k',
     unpack_loop step (length e') o (adv c (length e) k) = Ok (NGX_OK, o', adv c (length (e ++ e')) k') /\ vm (view c) o' = r) ->
  exists o k, unpack_loop step fuel obj c = Ok (NGX_OK, o, adv c (length (e ++ e')) k) /\ vm (view c) o = r.
Proof.
  intros Hd Ha Hl Hc Hf Hrest. assert (Hl' := Hl). rewrite length_app, Nat2Z.inj_add in Hl'.
  destruct (Hd (length e') obj c (fun x => exists o k, x = (NGX_OK, o, adv c (length (e ++ e')) k) /\ vm (view c) o = r))
    as (x & Ex & o & k & -> & Ho); [by destruct (ahead_app _ _ _ (calls c) Ha)|lia|done| |].
  - intros o k Ho. destruct (Hrest o k Ho) as (o' & k' & Er & Hr). exists (NGX_OK, o', adv c (length (e ++ e')) k'). eauto.
  - exists o, k. split; [|done]. eapply unpack_loop_fuel; [exact Ex|]. by rewrite <- length_app.
Qed.

Lemma decodes_run e f obj obj0 r fuel c :
  Decodes vm step e f -> vm (view c) obj = obj0 -> f obj0 = r -> ahead c e -> last c = pos c + lenz e -> reading c ->
  (length e <= fuel)%nat ->
  exists o k, unpack_loop step fuel obj c = Ok (NGX_OK, o, adv c (length e) k) /\ vm (view c) o = r.
Proof.
  intros Hd <- Hr Ha Hl Hc Hf. rewrite <- (app_nil_r e) in Ha, Hl, Hf |- *.
  apply (decodes_run_then e [] f); try done. intros o k Ho. exists o, k. rewrite app_nil_r, Ho in *. split; [|done].
  cbn [length unpack_loop]. by rewrite decide_True by (cbn [adv last pos]; lia).
Qed.
End Env.

Section Same.
Context `{E : NgxEnv} (g : ngx_str_t -> ngx_str_t) (Hg : forall s, g s = s).

Lemma vstr_same f : vstr g f = f.
Proof. destruct f as [h s]. unfold vstr. cbn [has val]. by rewrite Hg. Qed.

Lemma map_same {V} (h : V -> V) l : (forall v, h v = v) -> map h l = l.
Proof. intros Hh. induction l as [|v l IH]; cbn [map]; [done|]. by rewrite Hh, IH. Qed.

Lemma vstrs_same f : vstrs g f = f.
Proof. destruct f as [h [l|]]; unfold vstrs; cbn; [|done]. by rewrite map_same. Qed.

Lemma vmember_same `{!Message M, !MessageLaws M} (f : fld (option M)) : vmember g f = f.
Proof. destruct f as [h [m|]]; unfold vmember; cbn; [|done]. by rewrite vmap_id. Qed.

Lemma velements_same `{!Message M, !MessageLaws M} (f : fld (array M)) : velements g f = f.
Proof. destruct f as [h [l|]]; unfold velements; cbn; [|done]. rewrite map_same; [done|]. intros m. by apply vmap_id. Qed.
End Same.

(** Strings with the same bytes are written alike. *)
Section Bytes.
Context `{E : NgxEnv} (g : ngx_str_t -> ngx_str_t) (Hg : same_bytes g).

Lemma sbytes_same s : sbytes (g s) = sbytes s.
Proof. unfold sbytes. by rewrite Hg. Qed.
Lemma str_good_same s : str_good (g s) -> str_good s.
Proof. unfold str_good. by rewrite Hg, sbytes_same. Qed.

Lemma enc_str_same f n : enc_str (vstr g f) n = enc_str f n.
Proof. unfold enc_str, vstr. cbn [has val]. by rewrite sbytes_same. Qed.
Lemma fld_str_same f : fld_good str_good (vstr g f) -> fld_good str_good f.
Proof. intros Hf Hh. by apply str_good_same, Hf. Qed.

Lemma elts_fmap {V W} (h : V -> W) (a : array V) : elts (map h <$> a) = map h (elts a).
Proof. by destruct a. Qed.

Lemma enc_strs_same f n : enc_strs (vstrs g f) n = enc_strs f n.
Proof.
  unfold enc_strs, enc_each, vstrs. cbn [has val]. destruct (has f); [|done]. rewrite elts_fmap, map_map. f_equal.
  apply map_ext. intros s. by rewrite sbytes_same.
Qed.
Lemma strs_good_same f : strs_good (vstrs g f) -> strs_good f.
Proof.
  intros Hf Hh. specialize (Hf Hh). unfold vstrs in Hf. cbn [has val] in Hf. rewrite elts_fmap in Hf.
  apply (proj1 (List.Forall_map _ _ _)) in Hf. eapply Forall_impl; [exact Hf|]. intros s. apply str_good_same.
Qed.

Context {M : Type} `{!Message M, !MessageLaws M}.

Lemma enc_member_same f n : enc_member enc (vmember g f) n = enc_member enc f n.
Proof.
  unfold enc_member, vmember. cbn [has val]. destruct (has f); [|done]. destruct (val f) as [m|]; [|done].
  cbn. by rewrite vmap_enc.
Qed.
Lemma member_good_same f : member_good good (vmember g f) -> member_good good f.
Proof.
  intros Hf Hh m Hm. specialize (Hf Hh (vmap g m)). unfold vmember in Hf. cbn [has val] in Hf.
  rewrite Hm in Hf. eapply vmap_good, Hf; done.
Qed.

Lemma enc_elements_same f n : enc_elements enc (velements g f) n = enc_elements enc f n.
Proof.
  unfold enc_elements, velements. cbn [has val]. destruct (has f); [|done]. rewrite elts_fmap, map_map. f_equal.
  apply map_ext. intros m. by rewrite vmap_enc.
Qed.
Lemma elements_good_same f : elements_good good (velements g f) -> elements_good good f.
Proof.
  intros Hf Hh. specialize (Hf Hh). unfold velements in Hf. cbn [has val] in Hf. rewrite elts_fmap in Hf.
  apply (proj1 (List.Forall_map _ _ _)) in Hf. eapply Forall_impl; [exact Hf|]. intros m. by apply vmap_good.
Qed.
End Bytes.

(** ** Tactics *)

Ltac law_hyps :=
  repeat match goal with H : _ /\ _ |- _ => destruct H end; rewrite ?length_app, ?Nat2Z.inj_add in *.

(** One member of the size at a time, those added first before the others. *)
Ltac settled s :=
  lazymatch s with
  | context [u64 _] => fail
  | context [size_elements] => fail | context [size_strs] => fail | context [size_u32s] => fail
  | context [size_u64s] => fail | context [size_fixed64s] => fail | context [size_packed] => fail
  | _ => idtac
  end.
Ltac size_step :=
  match goal with
  | |- context [u64 ?x] => settled x;
      lazymatch x with
      | _ + size_u32 ?f ?n => rewrite (size_u32_enc f n) by lia
      | _ + size_u64 ?f ?n => rewrite (size_u64_enc f n) by lia
      | _ + size_bool ?f ?n => rewrite (size_bool_enc f n) by lia
      | _ + size_float ?f ?n => rewrite (size_float_enc f n) by lia
      | _ + size_str ?f ?n => rewrite (size_str_enc f n) by (assumption || lia)
      | _ + size_member _ ?f ?n => rewrite (size_member_enc f n) by (assumption || lia)
      end;
      match goal with |- context [u64 ?y] => settled y; rewrite (u64_id y) by lia end
  | |- context [size_elements _ _ _ ?s] => settled s; rewrite (size_elements_enc _ _ s) by (assumption || lia)
  | |- context [size_strs _ _ ?s] => settled s; rewrite (size_strs_enc _ _ s) by (assumption || lia)
  | |- context [size_u32s _ _ ?s] => settled s; rewrite (size_u32s_enc _ _ s) by lia
  | |- context [size_u64s _ _ ?s] => settled s; rewrite (size_u64s_enc _ _ s) by lia
  | |- context [size_fixed64s _ _ ?s] => settled s; rewrite (size_fixed64s_enc _ _ s) by lia
  | |- context [size_packed _ _ ?s] => settled s; rewrite (size_packed_enc _ _ s) by lia
  end.
Tactic Notation "size_law" reference(inst) reference(size) tactic(fold_members) :=
  cbn [msize enc good inst]; intros Hgood Hlen; unfold size; fold_members; cbn zeta; law_hyps;
  repeat size_step; rewrite size_unknowns_enc by (assumption || lia); lia.

(** The fields are packed in the order of the bytes. *)
Ltac pack_field :=
  lazymatch goal with
  | |- Writes _ (enc_u32 _ _) => apply writes_pack_u32; lia
  | |- Writes _ (enc_str _ _) => apply writes_pack_str; [lia|assumption|lia]
  | |- Writes _ (enc_member _ _ _) => apply writes_pack_member; [lia|assumption|lia]
  | |- Writes _ (enc_elements _ _ _) => apply writes_pack_elements; [lia|assumption|lia]
  | |- Writes _ (enc_u64 _ _) => apply writes_pack_u64; lia
  | |- Writes _ (enc_bool _ _) => apply writes_pack_bool; lia
  | |- Writes _ (enc_float _ _) => apply writes_pack_float; lia
  | |- Writes _ (enc_strs _ _) => apply writes_pack_strs; [lia|assumption|lia]
  | |- Writes _ (enc_u32s _ _) => apply writes_pack_u32s; lia
  | |- Writes _ (enc_u64s _ _) => apply writes_pack_u64s; lia
  | |- Writes _ (enc_fixed64s _ _) => apply writes_pack_fixed64s; lia
  | |- Writes _ (enc_packed _ _) => apply writes_pack_packed_none; assumption
  end.
Tactic Notation "pack_law" reference(inst) reference(pack) constr(size) tactic(fold_members) :=
  intros Hgood Hlen; pose proof (size _ Hgood Hlen) as Hsize; cbn [msize mpack enc good inst] in *; unfold pack; fold_members;
  apply packs_guard; [exact Hsize|]; clear Hsize; law_hyps;
  repeat (apply packs_bind; [pack_field|]); apply packs_unknowns; [assumption|lia].

(** The fields are unpacked in the order of the bytes. *)
Ltac unpack_field field update :=
  eapply decodes_app;
  [ lazymatch goal with
    | |- Decodes _ _ (enc_u32 _ _) _ =>
        eapply decodes_u32 with (get := field) (upd := update); [lia|done|by intros []|by intros ? [] ?]
    | |- Decodes _ _ (enc_str _ _) _ =>
        eapply decodes_str with (get := field) (upd := update); [lia|done|by intros []|by intros ? [] ?|assumption|lia]
    | |- Decodes _ _ (enc_member _ _ _) _ =>
        eapply decodes_member with (get := field) (upd := update);
        [lia|done|by intros []|by intros ? [] ?|assumption|lia|lia]
    | |- Decodes _ _ (enc_elements _ _ _) _ =>
        eapply decodes_elements with (get := field) (upd := update);
        [lia|done|by intros []|by intros []|by intros []|by intros ? [] ?|by intros ? []|assumption|lia|lia]
    | |- Decodes _ _ (enc_u64 _ _) _ =>
        eapply decodes_u64 with (get := field) (upd := update); [lia|done|by intros []|by intros ? [] ?]
    | |- Decodes _ _ (enc_bool _ _) _ =>
        eapply decodes_bool with (get := field) (upd := update); [lia|done|by intros []|by intros ? [] ?]
    | |- Decodes _ _ (enc_float _ _) _ => apply decodes_float; assumption
    | |- Decodes _ _ (enc_fixed64s _ _) _ => apply decodes_fixed64s; assumption
    | |- Decodes _ _ (enc_strs _ _) _ =>
        eapply decodes_strs with (get := field) (upd := update);
        [lia|done|by intros []|by intros []|by intros []|by intros ? [] ?|by intros ? []|assumption|lia]
    | |- Decodes _ _ (enc_u32s _ _) _ =>
        eapply decodes_u32s with (get := field) (upd := update);
        [lia|by intros []|by intros []|by intros []|by intros ? [] ?|by intros ? []|done]
    | |- Decodes _ _ (enc_u64s _ _) _ =>
        eapply decodes_u64s with (get := field) (upd := update);
        [lia|by intros []|by intros []|by intros []|by intros ? [] ?|by intros ? []|done]
    | |- Decodes _ _ (enc_packed _ _) _ =>
        eapply decodes_packed with (get := field) (upd := update);
        [lia|by intros []|by intros []|by intros []|by intros ? [] ?|by intros ? []|done|lia|lia]
    end
  | ].
(** The object after all its fields: only the updates are computed. *)
Ltac picked :=
  repeat match goal with
  | |- context [@pick_member ?e ?t ?i] => generalize (@pick_member e t i); intros ?
  | |- context [@pick_elements ?e ?t ?i] => generalize (@pick_elements e t i); intros ?
  end;
  cbv -[pick_u32 pick_u64 pick_bool pick_str pick_each i32 i64 u32 u64 copy_str ngx_str_null];
  reflexivity.
Tactic Notation "unpack_law" reference(inst) reference(unpack) tactic(members) :=
  intros Hknown Hlen Ha Hlast Hc Hf; cbn [munpack zero enc norm known inst] in *; unfold unpack;
  eapply decodes_run;
  [clear Ha Hlast Hc; law_hyps; members; apply decodes_unknowns; assumption
  |cbn [vmap inst]; unfold vstr, view;
   match goal with |- context [reuse_strings ?x] => destruct (reuse_strings x) | _ => idtac end; reflexivity
  |picked|exact Ha|exact Hlast|exact Hc|exact Hf].

(** Nothing happens to an object whose strings are replaced by themselves. *)
Ltac vmap_field :=
  match goal with Hg : forall s, ?g s = s |- _ =>
    first [ reflexivity | exact (vstr_same g Hg _) | exact (vstrs_same g Hg _)
          | exact (vmember_same g Hg _) | exact (velements_same g Hg _) ]
  end.
Tactic Notation "vmap_law" reference(inst) :=
  intros Hg; match goal with |- vmap _ ?o = _ => destruct o end; cbn [vmap inst]; f_equal; vmap_field.

Ltac vmap_enc_field Hg :=
  lazymatch goal with
  | |- enc_str _ _ = _ => exact (enc_str_same _ Hg _ _)
  | |- enc_strs _ _ = _ => exact (enc_strs_same _ Hg _ _)
  | |- enc_member _ _ _ = _ => exact (enc_member_same _ Hg _ _)
  | |- enc_elements _ _ _ = _ => exact (enc_elements_same _ Hg _ _)
  | |- _ => reflexivity
  end.
Tactic Notation "vmap_enc_law" reference(inst) :=
  intros Hg; cbn [enc vmap inst]; repeat apply (f_equal2 (@app Z)); vmap_enc_field Hg.
Ltac vmap_good_field Hg :=
  lazymatch goal with
  | |- fld_good str_good _ => eapply (fld_str_same _ Hg); eassumption
  | |- strs_good _ => eapply (strs_good_same _ Hg); eassumption
  | |- member_good _ _ => eapply (member_good_same _ Hg); eassumption
  | |- elements_good _ _ => eapply (elements_good_same _ Hg); eassumption
  | |- _ => assumption
  end.
Tactic Notation "vmap_good_law" reference(inst) :=
  intros Hg; cbn [good vmap inst]; intros Hgood; law_hyps; split_and?; vmap_good_field Hg.
