(* ===== verification/NgxRbtree.v ===== *)
(** Red-black trees as nginx balances them: the trees by position, the
    insertion as a function on them, and the class [NgxRbtree] that states what
    the extensions of a message rely on (NgxProtobufExt.v).  The code of
    nginx-1.12.2/src/core/ngx_rbtree.c is in NgxRbtreeHeap.v, where it is shown
    to compute this function. *)

From Stdlib Require Import ZArith Lia Sorted.
From S2P Require Import Prelude.

Open Scope Z_scope.

(** ** Trees *)

(** The sentinel is [Nil]. *)
Inductive rbtree (V : Type) : Type :=
| Nil
| Node (red : bool) (l : rbtree V) (key : Z) (value : V) (r : rbtree V).
Arguments Nil {V}.
Arguments Node {V} red l key value r.

Fixpoint inorder {V} (t : rbtree V) : list (Z * V) :=
  match t with Nil => [] | Node _ l k v r => inorder l ++ (k, v) :: inorder r end.

(** Keys grow from left to right. *)
Definition bst {V} (t : rbtree V) : Prop := StronglySorted Z.lt (map fst (inorder t)).

(** What a client knows of [ngx_rbtree_insert] with [ngx_rbtree_insert_value],
    for a key that is not there: wherever the node comes to lie in the tree,
    the others keep their order. *)
Class NgxRbtree := {
  rbtree_insert {V : Type} (t : rbtree V) (key : Z) (value : V) : rbtree V;
  insert_inorder {V : Type} (t : rbtree V) (key : Z) (value : V) :
    bst t -> key ∉ map fst (inorder t) ->
    bst (rbtree_insert t key value) /\
    exists l1 l2, inorder t = l1 ++ l2 /\ inorder (rbtree_insert t key value) = l1 ++ (key, value) :: l2
}.

(** ** Insertion *)

Section Insert.
Context {V : Type}.
Implicit Types t l r : rbtree V.

Definition is_red t : bool := match t with Node c _ _ _ _ => c | Nil => false end.
Definition set_red (c : bool) t : rbtree V := match t with Node _ l k v r => Node c l k v r | Nil => Nil end.
Definition rotate_left t : rbtree V :=
  match t with Node c a k v (Node d b k' v' e) => Node d (Node c a k v b) k' v' e | _ => t end.
Definition rotate_right t : rbtree V :=
  match t with Node c (Node d a k' v' b) k v e => Node d a k' v' (Node c b k v e) | _ => t end.

(** The way from a subtree to the root: each node above, whether the way left
    it to the left, and its other subtree. *)
Record frame := Frame { f_left : bool; f_red : bool; f_key : Z; f_value : V; f_sib : rbtree V }.
Definition fill (f : frame) t : rbtree V :=
  if f_left f then Node (f_red f) t (f_key f) (f_value f) (f_sib f) else Node (f_red f) (f_sib f) (f_key f) (f_value f) t.
Fixpoint plug (ctx : list frame) t : rbtree V := match ctx with [] => t | f :: ctx => plug ctx (fill f t) end.

(** The way a new key goes down. *)
Fixpoint descend t (k : Z) (ctx : list frame) : list frame :=
  match t with
  | Nil => ctx
  | Node c l k' v r =>
      if decide (k < k') then descend l k (Frame true c k' v r :: ctx) else descend r k (Frame false c k' v l :: ctx)
  end.

(** A red node [t] below a red one, [f], and its black parent [g] with a black
    subtree on the other side. *)
Definition rotations (f g : frame) t : rbtree V :=
  let p := fill f t in
  let p := if Bool.eqb (f_left f) (f_left g) then p else if f_left f then rotate_right p else rotate_left p in
  let r := set_red true (fill g (set_red false p)) in
  if f_left g then rotate_right r else rotate_left r.

(** The loop that balances the tree, from the red node [t] upwards. *)
Fixpoint fixup (ctx : list frame) t : rbtree V :=
  match ctx with
  | f :: (g :: ctx') as ctx0 =>
      if f_red f then
        if is_red (f_sib g) then
          fixup ctx' (set_red true (fill (Frame (f_left g) (f_red g) (f_key g) (f_value g) (set_red false (f_sib g)))
                                         (set_red false (fill f t))))
        else set_red false (plug ctx' (rotations f g t))
      else set_red false (plug ctx t)
  | _ => set_red false (plug ctx t)
  end.

Definition rb_insert t (k : Z) (v : V) : rbtree V := fixup (descend t k []) (Node true Nil k v Nil).
End Insert.
Arguments frame : clear implicits.
Arguments Frame {V}.

(** ** What insertion keeps *)

(** *** The order of the nodes *)

Lemma sorted_app (l1 l2 : list Z) : StronglySorted Z.lt (l1 ++ l2) <->
  StronglySorted Z.lt l1 /\ StronglySorted Z.lt l2 /\ forall x y, x ∈ l1 -> y ∈ l2 -> x < y.
Proof.
  induction l1 as [|a l1 IH]; cbn [app].
  - split; [intros H; split_and!; [constructor|done|by intros x y ?%not_elem_of_nil]|by intros (_ & ? & _)].
  - split.
    + intros H. inversion H as [|? ? Hs Ha]; subst. apply IH in Hs as (H1 & H2 & H12). rewrite List.Forall_app in Ha.
      destruct Ha as [Ha1 Ha2]. split_and!; [by constructor|done|]. intros x y [->|Hx]%elem_of_cons Hy; [|by apply H12].
      rewrite List.Forall_forall in Ha2. apply Ha2. by apply list_elem_of_In.
    + intros (H1 & H2 & H12). inversion H1 as [|? ? Hs Ha]; subst. constructor.
      * apply IH. split_and!; [done|done|]. intros x y Hx Hy. apply H12; [by apply list_elem_of_further|done].
      * apply List.Forall_app. split; [done|]. apply List.Forall_forall. intros y Hy%list_elem_of_In.
        apply H12; [by apply list_elem_of_here|done].
Qed.

Section Tree.
Context {V : Type}.
Implicit Types t l r : rbtree V.

Abbreviation keys t := (map fst (inorder t)).

Lemma bst_node c l k v r : bst (Node c l k v r) <->
  bst l /\ bst r /\ (forall x, x ∈ keys l -> x < k) /\ (forall x, x ∈ keys r -> k < x).
Proof.
  unfold bst. cbn [inorder]. rewrite map_app, sorted_app. cbn [map fst]. split.
  - intros (Hl & Hr & Hlr). inversion Hr as [|? ? Hs Hk]; subst. rewrite List.Forall_forall in Hk.
    split_and!; [done|done| |].
    + intros x Hx. apply Hlr; [done|by apply list_elem_of_here].
    + intros x Hx. apply Hk. by apply list_elem_of_In.
  - intros (Hl & Hr & Hlk & Hrk). split_and!; [done| |].
    + constructor; [done|]. apply List.Forall_forall. intros x Hx%list_elem_of_In. by apply Hrk.
    + intros x y Hx [->|Hy]%elem_of_cons; [by apply Hlk|]. apply Hlk in Hx. apply Hrk in Hy. lia.
Qed.


Implicit Types ctx : list (frame V).

Fixpoint before ctx : list (Z * V) :=
  match ctx with [] => [] | f :: ctx => before ctx ++ if f_left f then [] else inorder (f_sib f) ++ [(f_key f, f_value f)] end.
Fixpoint after ctx : list (Z * V) :=
  match ctx with [] => [] | f :: ctx => (if f_left f then (f_key f, f_value f) :: inorder (f_sib f) else []) ++ after ctx end.

Lemma inorder_plug ctx t : inorder (plug ctx t) = before ctx ++ inorder t ++ after ctx.
Proof.
  revert t. induction ctx as [|[[] c k v s] ctx IH]; intros t; cbn [plug before after fill f_left f_key f_value f_sib].
  - cbn [app]. by rewrite app_nil_r.
  - rewrite IH. cbn [fill inorder f_left f_key f_value f_sib app]. by rewrite !app_nil_r, <- app_assoc.
  - rewrite IH. cbn [fill inorder f_left f_key f_value f_sib app]. by rewrite <- !app_assoc.
Qed.

Lemma inorder_set_red c t : inorder (set_red c t) = inorder t.
Proof. by destruct t. Qed.
Lemma inorder_rotate_left t : inorder (rotate_left t) = inorder t.
Proof. destruct t as [|c a k v [|d b k' v' e]]; try done. cbn. by rewrite <- app_assoc. Qed.
Lemma inorder_rotate_right t : inorder (rotate_right t) = inorder t.
Proof. destruct t as [|c [|d a k' v' b] k v e]; try done. cbn. by rewrite <- app_assoc. Qed.

Lemma inorder_fill f t t' : inorder t = inorder t' -> inorder (fill f t) = inorder (fill f t').
Proof. intros E. destruct f as [[] c k v s]; cbn; by rewrite E. Qed.

Lemma inorder_rotations f g t : inorder (rotations f g t) = inorder (fill g (fill f t)).
Proof.
  unfold rotations. assert (forall x, inorder x = inorder (fill f t) ->
    inorder (if f_left g then rotate_right (set_red true (fill g (set_red false x))) else rotate_left (set_red true (fill g (set_red false x)))) =
    inorder (fill g (fill f t))) as Hg.
  { intros x Hx. destruct (f_left g); rewrite ?inorder_rotate_left, ?inorder_rotate_right, inorder_set_red;
      apply inorder_fill; by rewrite inorder_set_red. }
  apply Hg. destruct (Bool.eqb _ _); [done|]. destruct (f_left f); [apply inorder_rotate_right|apply inorder_rotate_left].
Qed.

Lemma inorder_fixup ctx t : inorder (fixup ctx t) = before ctx ++ inorder t ++ after ctx.
Proof.
  rewrite <- inorder_plug. remember (length ctx) as n eqn:En. revert ctx t En.
  induction (lt_wf n) as [n _ IH]. intros [|f [|g ctx]] t ->; cbn [fixup]; [apply inorder_set_red..|].
  cbn [length] in IH. destruct (f_red f); [|apply inorder_set_red]. destruct (is_red (f_sib g)).
  - rewrite (IH (length ctx)) by (done || lia). cbn [plug]. rewrite !inorder_plug, inorder_set_red. do 2 f_equal.
    destruct g as [[] cg kg vg s]; cbn [fill inorder f_left f_key f_value f_sib]; by rewrite !inorder_set_red.
  - rewrite inorder_set_red. cbn [plug]. by rewrite !inorder_plug, inorder_rotations.
Qed.

(** Going down does not change the tree. *)
Lemma plug_descend t k ctx : plug (descend t k ctx) Nil = plug ctx t.
Proof.
  revert ctx. induction t as [|c l IHl k' v r IHr]; intros ctx; cbn [descend]; [done|].
  case_decide; [by rewrite IHl|by rewrite IHr].
Qed.

Lemma descend_around t k ctx : bst t -> k ∉ keys t ->
  (forall x, x ∈ map fst (before ctx) -> x < k) -> (forall x, x ∈ map fst (after ctx) -> k < x) ->
  (forall x, x ∈ map fst (before (descend t k ctx)) -> x < k) /\ (forall x, x ∈ map fst (after (descend t k ctx)) -> k < x).
Proof.
  revert ctx. induction t as [|c l IHl k' v r IHr]; intros ctx; cbn [descend]; [done|].
  intros (Hl & Hr & Hlk & Hrk)%bst_node Hk Hb Ha. cbn [inorder] in Hk. rewrite map_app, elem_of_app in Hk. cbn [map fst] in Hk.
  rewrite elem_of_cons in Hk. case_decide as Hlt.
  - apply IHl; [done|tauto|intros x; cbn [before f_left]; rewrite app_nil_r; apply Hb|].
    intros x. cbn [after f_left f_key f_value f_sib]. rewrite map_app, elem_of_app. cbn [map fst]. rewrite elem_of_cons.
    intros [[->|Hx%Hrk]|Hx]; [done|lia|by apply Ha].
  - assert (k ≠ k') by tauto. apply IHr; [done|tauto| |intros x; cbn [after f_left app]; apply Ha].
    intros x. cbn [before f_left f_key f_value f_sib]. rewrite !map_app, !elem_of_app. cbn [map fst]. rewrite list_elem_of_singleton.
    intros [Hx|[Hx%Hlk| ->]]; [by apply Hb|lia|lia].
Qed.

(** The new node is added to the others, in some place. *)
Lemma rb_insert_around t k v :
  inorder t = before (descend t k []) ++ after (descend t k []) /\
  inorder (rb_insert t k v) = before (descend t k []) ++ (k, v) :: after (descend t k []).
Proof.
  pose proof (inorder_plug (descend t k []) Nil) as Ht. rewrite plug_descend in Ht. split; [exact Ht|].
  apply (inorder_fixup (descend t k []) (Node true Nil k v Nil)).
Qed.

Lemma rb_insert_inorder t k v : bst t -> k ∉ keys t ->
  bst (rb_insert t k v) /\ exists xs ys, inorder t = xs ++ ys /\ inorder (rb_insert t k v) = xs ++ (k, v) :: ys.
Proof.
  intros Ht Hk. destruct (rb_insert_around t k v) as [Ht' Hi]. split; [|eauto].
  destruct (descend_around t k []) as [Hb Ha]; [done|done|by intros x ?%not_elem_of_nil..|].
  unfold bst in *. rewrite Hi, Ht', map_app, sorted_app in *. cbn [map fst]. destruct Ht as (H1 & H2 & H12).
  split_and!; [done| |].
  - constructor; [done|]. apply List.Forall_forall. intros x Hx%list_elem_of_In. by apply Ha.
  - intros x y Hx [->|Hy]%elem_of_cons; [by apply Hb|by apply H12].
Qed.

Lemma rb_insert_length t k v : length (inorder (rb_insert t k v)) = S (length (inorder t)).
Proof. destruct (rb_insert_around t k v) as [-> ->]. rewrite !length_app. cbn [length]. lia. Qed.

(** *** The balance *)

(** [rbt t c n]: the root is red when [c] is true, no red node has a red child,
    and every way down meets [n] black nodes. *)
Inductive rbt : rbtree V -> bool -> nat -> Prop :=
| rbt_nil : rbt Nil false 0
| rbt_red l k v r n : rbt l false n -> rbt r false n -> rbt (Node true l k v r) true n
| rbt_black l k v r cl cr n : rbt l cl n -> rbt r cr n -> rbt (Node false l k v r) false (S n).
Definition balanced t : Prop := exists n, rbt t false n.

(** The same around a subtree with [n] black nodes on its ways. *)
Fixpoint ctx_ok ctx (n : nat) : Prop :=
  match ctx with
  | [] => True
  | f :: ctx =>
      if f_red f then rbt (f_sib f) false n /\ ctx_ok ctx n /\ match ctx with [] => False | g :: _ => f_red g = false end
      else exists c, rbt (f_sib f) c n /\ ctx_ok ctx (S n)
  end.

Lemma ngx_rbt_not_red t c n : rbt t c n -> is_red t = false -> rbt t false n.
Proof. destruct 1; intros ?; [constructor|done|by econstructor]. Qed.
Lemma rbt_is_red t c n : rbt t c n -> is_red t = c.
Proof. by destruct 1. Qed.

Lemma balanced_plug ctx t c n : rbt t c n -> ctx_ok ctx n ->
  (c = true -> match ctx with [] => True | f :: _ => f_red f = false end) -> balanced (set_red false (plug ctx t)).
Proof.
  revert t c n. induction ctx as [|[b cf k v s] ctx IH]; intros t c n Ht Hc Hr; cbn [plug ctx_ok f_red f_sib] in *.
  - inversion Ht; subst; cbn [set_red]; eexists; econstructor; eassumption.
  - destruct cf.
    + destruct Hc as (Hs & Hc & Hg). destruct c; [by specialize (Hr eq_refl)|].
      apply (IH _ true n); [destruct b; by constructor|done|]. by destruct ctx.
    + destruct Hc as (cs & Hs & Hc). apply (IH _ false (S n)); [destruct b; by econstructor|done|done].
Qed.

Lemma rbt_rotations f g l k v r n : f_red f = true -> f_red g = false -> rbt l false n -> rbt r false n ->
  rbt (f_sib f) false n -> rbt (f_sib g) false n -> rbt (rotations f g (Node true l k v r)) false (S n).
Proof.
  destruct f as [[] cf kf vf sf], g as [[] cg kg vg sg]; cbn; intros -> -> Hl Hr Hf Hg;
    (eapply rbt_black; constructor; assumption).
Qed.

Lemma balanced_fixup ctx l k v r n : rbt l false n -> rbt r false n -> ctx_ok ctx n -> balanced (fixup ctx (Node true l k v r)).
Proof.
  remember (length ctx) as m eqn:Em. revert ctx l k v r n Em. induction (lt_wf m) as [m _ IH].
  intros [|f [|g ctx]] l k v r n -> Hl Hr Hc; cbn [fixup].
  - apply (balanced_plug [] _ true n); [by constructor|done|done].
  - cbn [ctx_ok] in Hc. destruct (f_red f) eqn:Ef; [by destruct Hc as (_ & _ & [])|].
    apply (balanced_plug [f] _ true n); [by constructor|cbn [ctx_ok]; by rewrite Ef|done].
  - cbn [ctx_ok] in Hc. destruct (f_red f) eqn:Ef.
    + destruct Hc as (Hf & Hc & Eg). rewrite Eg in Hc. destruct Hc as (cs & Hs & Hc). destruct (is_red (f_sib g)) eqn:Es.
      * assert (exists a kk vv b, rbt a false (S n) /\ rbt b false (S n) /\
          set_red true (fill (Frame (f_left g) (f_red g) (f_key g) (f_value g) (set_red false (f_sib g)))
            (set_red false (fill f (Node true l k v r)))) = Node true a kk vv b) as (a & kk & vv & b & Ha & Hb & ->).
        { destruct f as [bf cf kf vf sf], g as [bg cg kg vg sg]. cbn in *. destruct Hs as [| |]; try done.
          destruct bf, bg; cbn; do 4 eexists; refine (conj _ (conj _ eq_refl));
            (eapply rbt_black; first [eassumption|by apply rbt_red]). }
        eapply (IH (length ctx)); [cbn [length]; lia|done|done..].
      * apply (balanced_plug ctx _ false (S n)); [apply rbt_rotations; try done; by eapply ngx_rbt_not_red|done|done].
    + apply (balanced_plug (f :: g :: ctx) _ true n); [by constructor|cbn [ctx_ok]; by rewrite Ef|done].
Qed.

Lemma ctx_ok_descend t k ctx c n : rbt t c n -> ctx_ok ctx n ->
  (c = true -> match ctx with [] => False | f :: _ => f_red f = false end) -> ctx_ok (descend t k ctx) 0.
Proof.
  intros Ht. revert ctx. induction Ht as [|l kk v r n Hl IHl Hr IHr|l kk v r cl cr n Hl IHl Hr IHr]; intros ctx Hc Hr0; cbn [descend];
    [done| |]; case_decide.
  - apply IHl; [|done]. cbn [ctx_ok f_red f_sib]. specialize (Hr0 eq_refl). by destruct ctx.
  - apply IHr; [|done]. cbn [ctx_ok f_red f_sib]. specialize (Hr0 eq_refl). by destruct ctx.
  - apply IHl; [|done]. cbn [ctx_ok f_red f_sib]. eauto.
  - apply IHr; [|done]. cbn [ctx_ok f_red f_sib]. eauto.
Qed.

Lemma rb_insert_balanced t k v : balanced t -> balanced (rb_insert t k v).
Proof.
  intros [n Ht]. apply (balanced_fixup _ _ _ _ _ 0); [constructor..|]. by eapply ctx_ok_descend.
Qed.

(** The bound on the length of a way down: [2 * log2 (n + 1)]. *)
Fixpoint height t : nat := match t with Nil => 0 | Node _ l _ _ r => S (Nat.max (height l) (height r)) end.
Definition depth_bound (n : nat) : nat := 2 * Nat.log2 (S n).

Lemma ngx_rbt_height t c n : rbt t c n -> (height t <= 2 * n + Nat.b2n c)%nat /\ (2 ^ n <= S (length (inorder t)))%nat.
Proof.
  induction 1 as [|l k v r n Hl [IHl1 IHl2] Hr [IHr1 IHr2]|l k v r cl cr n Hl [IHl1 IHl2] Hr [IHr1 IHr2]];
    cbn [height inorder length Nat.b2n] in *; rewrite ?length_app; cbn [length]; [simpl; lia|lia|].
  rewrite Nat.pow_succ_r'. destruct cl, cr; cbn [Nat.b2n] in *; lia.
Qed.

Lemma ngx_balanced_height t : balanced t -> (height t <= depth_bound (length (inorder t)))%nat.
Proof.
  intros [n [H1 H2]%ngx_rbt_height]. cbn [Nat.b2n] in H1. unfold depth_bound. apply Nat.log2_le_mono in H2. rewrite Nat.log2_pow2 in H2 by lia. lia.
Qed.

Lemma descend_length t k ctx : (length (descend t k ctx) <= length ctx + height t)%nat.
Proof.
  revert ctx. induction t as [|c l IHl k' v r IHr]; intros ctx; cbn [descend height]; [lia|].
  case_decide; [specialize (IHl (Frame true c k' v r :: ctx))|specialize (IHr (Frame false c k' v l :: ctx))]; cbn [length] in *; lia.
Qed.
End Tree.

(** *** Values play no part *)

Fixpoint map_tree {V W} (g : V -> W) (t : rbtree V) : rbtree W :=
  match t with Nil => Nil | Node c l k v r => Node c (map_tree g l) k (g v) (map_tree g r) end.

Section Map.
Context {V W : Type} (g : V -> W).
Definition map_frame (f : frame V) : frame W := Frame (f_left f) (f_red f) (f_key f) (g (f_value f)) (map_tree g (f_sib f)).

Lemma map_set_red c t : map_tree g (set_red c t) = set_red c (map_tree g t).
Proof. by destruct t. Qed.
Lemma map_is_red t : is_red (map_tree g t) = is_red t.
Proof. by destruct t. Qed.
Lemma map_fill f t : map_tree g (fill f t) = fill (map_frame f) (map_tree g t).
Proof. by destruct f as [[] c k v s]. Qed.
Lemma map_plug ctx t : map_tree g (plug ctx t) = plug (map map_frame ctx) (map_tree g t).
Proof. revert t. induction ctx as [|f ctx IH]; intros t; cbn [plug map]; [done|]. by rewrite IH, map_fill. Qed.
Lemma map_rotate_left t : map_tree g (rotate_left t) = rotate_left (map_tree g t).
Proof. by destruct t as [|c a k v [|d b k' v' e]]. Qed.
Lemma map_rotate_right t : map_tree g (rotate_right t) = rotate_right (map_tree g t).
Proof. by destruct t as [|c [|d a k' v' b] k v e]. Qed.

Lemma map_rotations f f' t : map_tree g (rotations f f' t) = rotations (map_frame f) (map_frame f') (map_tree g t).
Proof.
  unfold rotations. cbn [map_frame f_left]. rewrite <- map_fill.
  destruct (Bool.eqb _ _), (f_left f), (f_left f');
    by rewrite ?map_rotate_left, ?map_rotate_right, ?map_set_red, ?map_fill, ?map_set_red, ?map_rotate_left, ?map_rotate_right, ?map_fill.
Qed.

Lemma map_fixup ctx t : map_tree g (fixup ctx t) = fixup (map map_frame ctx) (map_tree g t).
Proof.
  remember (length ctx) as n eqn:En. revert ctx t En. induction (lt_wf n) as [n _ IH].
  intros [|f [|f' ctx]] t ->; cbn [fixup map]; [by rewrite map_set_red, ?map_plug..|].
  cbn [map_frame f_red f_sib]. rewrite map_is_red. destruct (f_red f); [destruct (is_red (f_sib f'))|].
  - rewrite (IH (length ctx)) by (cbn [length]; lia || done). f_equal.
    rewrite map_set_red, map_fill, map_set_red, map_fill. unfold map_frame at 1. cbn [f_left f_red f_key f_value f_sib].
    by rewrite map_set_red.
  - by rewrite map_set_red, map_plug, map_rotations.
  - by rewrite map_set_red, map_plug.
Qed.

Lemma map_descend t k ctx : map map_frame (descend t k ctx) = descend (map_tree g t) k (map map_frame ctx).
Proof. revert ctx. induction t as [|c l IHl k' v r IHr]; intros ctx; cbn [descend map_tree]; [done|]. case_decide; [apply IHl|apply IHr]. Qed.

Lemma map_insert t k v : map_tree g (rb_insert t k v) = rb_insert (map_tree g t) k (g v).
Proof. unfold rb_insert. by rewrite map_fixup, map_descend. Qed.
End Map.

(** nginx's insertion. *)
Definition ngx_rbtree_insertion : NgxRbtree := Build_NgxRbtree (@rb_insert) (@rb_insert_inorder).
