(* ===== verification/NgxRbtreeHeap.v ===== *)
(** Red-black trees of nginx-1.12.2/src/core/ngx_rbtree.c and ngx_rbtree.h in
    memory: [ngx_rbtree_insert] with [ngx_rbtree_insert_value], and that they
    compute the insertion of NgxRbtree.v.

    The memory maps the address of a node to its fields; the member [data] and
    what a program keeps after the node are not touched.  The fuel bounds
    the turns of a loop. *)

From Stdlib Require Import ZArith Lia.
From S2P Require Import Prelude NgxRbtree.

Open Scope Z_scope.

(** ** The code *)

Record ngx_rbtree_node_t := RbNode { rb_key : Z; rb_left : Z; rb_right : Z; rb_parent : Z; rb_color : Z }.
(** [ngx_rbtree_t], with the nodes that can be reached. *)
Record ngx_rbtree_t := Rbtree { rb_nodes : gmap Z ngx_rbtree_node_t; rb_root : Z; rb_sentinel : Z }.

Definition rd (tree : ngx_rbtree_t) (p : Z) : cres ngx_rbtree_node_t := of_opt (rb_nodes tree !! p).
Definition upd (tree : ngx_rbtree_t) (p : Z) (f : ngx_rbtree_node_t -> ngx_rbtree_node_t) : cres ngx_rbtree_t :=
  n ← rd tree p; mret (Rbtree (<[p := f n]> (rb_nodes tree)) (rb_root tree) (rb_sentinel tree)).
Definition set_root (v : Z) (tree : ngx_rbtree_t) : ngx_rbtree_t := Rbtree (rb_nodes tree) v (rb_sentinel tree).

Definition set_left (v : Z) (n : ngx_rbtree_node_t) := RbNode (rb_key n) v (rb_right n) (rb_parent n) (rb_color n).
Definition set_right (v : Z) (n : ngx_rbtree_node_t) := RbNode (rb_key n) (rb_left n) v (rb_parent n) (rb_color n).
Definition set_parent (v : Z) (n : ngx_rbtree_node_t) := RbNode (rb_key n) (rb_left n) (rb_right n) v (rb_color n).
Definition set_color (v : Z) (n : ngx_rbtree_node_t) := RbNode (rb_key n) (rb_left n) (rb_right n) (rb_parent n) v.

Definition left (tree : ngx_rbtree_t) (p : Z) : cres Z := n ← rd tree p; mret (rb_left n).
Definition right (tree : ngx_rbtree_t) (p : Z) : cres Z := n ← rd tree p; mret (rb_right n).
Definition parent (tree : ngx_rbtree_t) (p : Z) : cres Z := n ← rd tree p; mret (rb_parent n).

Definition ngx_rbt_red (tree : ngx_rbtree_t) (node : Z) : cres ngx_rbtree_t := upd tree node (set_color 1).
Definition ngx_rbt_black (tree : ngx_rbtree_t) (node : Z) : cres ngx_rbtree_t := upd tree node (set_color 0).
Definition ngx_rbt_is_red (tree : ngx_rbtree_t) (node : Z) : cres bool := n ← rd tree node; mret (bool_decide (rb_color n ≠ 0)).

Definition ngx_rbtree_left_rotate (tree : ngx_rbtree_t) (node : Z) : cres ngx_rbtree_t :=
  temp ← right tree node;
  tl ← left tree temp;
  tree ← upd tree node (set_right tl);
  tl ← left tree temp;
  tree ← (if decide (tl ≠ rb_sentinel tree) then upd tree tl (set_parent node) else mret tree);
  par ← parent tree node;
  tree ← upd tree temp (set_parent par);
  tree ← (if decide (node = rb_root tree) then mret (set_root temp tree) else
          par ← parent tree node;
          pl ← left tree par;
          if decide (node = pl) then upd tree par (set_left temp) else upd tree par (set_right temp));
  tree ← upd tree temp (set_left node);
  upd tree node (set_parent temp).

Definition ngx_rbtree_right_rotate (tree : ngx_rbtree_t) (node : Z) : cres ngx_rbtree_t :=
  temp ← left tree node;
  tr ← right tree temp;
  tree ← upd tree node (set_left tr);
  tr ← right tree temp;
  tree ← (if decide (tr ≠ rb_sentinel tree) then upd tree tr (set_parent node) else mret tree);
  par ← parent tree node;
  tree ← upd tree temp (set_parent par);
  tree ← (if decide (node = rb_root tree) then mret (set_root temp tree) else
          par ← parent tree node;
          pr ← right tree par;
          if decide (node = pr) then upd tree par (set_right temp) else upd tree par (set_left temp));
  tree ← upd tree temp (set_right node);
  upd tree node (set_parent temp).

(** The [for ( ;; )] of [ngx_rbtree_insert_value]: the node whose child is the
    sentinel, and whether it is the left one. *)
Fixpoint insert_value_loop (fuel : nat) (tree : ngx_rbtree_t) (node temp : Z) : cres (bool * Z) :=
  match fuel with
  | O => NoFuel
  | S fuel =>
      nd ← rd tree node;
      tn ← rd tree temp;
      let to_left := bool_decide (rb_key nd < rb_key tn) in
      let p := if to_left then rb_left tn else rb_right tn in
      if decide (p = rb_sentinel tree) then mret (to_left, temp) else insert_value_loop fuel tree node p
  end.

Definition ngx_rbtree_insert_value (fuel : nat) (tree : ngx_rbtree_t) (temp node : Z) : cres ngx_rbtree_t :=
  '(to_left, temp) ← insert_value_loop fuel tree node temp;
  tree ← upd tree temp (if (to_left : bool) then set_left node else set_right node);
  tree ← upd tree node (set_parent temp);
  tree ← upd tree node (set_left (rb_sentinel tree));
  tree ← upd tree node (set_right (rb_sentinel tree));
  ngx_rbt_red tree node.

(** [while (node != *root && ngx_rbt_is_red(node->parent))] *)
Fixpoint insert_loop (fuel : nat) (tree : ngx_rbtree_t) (node : Z) : cres ngx_rbtree_t :=
  match fuel with
  | O => NoFuel
  | S fuel =>
      if decide (node = rb_root tree) then mret tree else
      par ← parent tree node;
      red ← ngx_rbt_is_red tree par;
      if negb red then mret tree else
      gp ← parent tree par;
      gl ← left tree gp;
      if decide (par = gl) then
        temp ← right tree gp;
        red ← ngx_rbt_is_red tree temp;
        if (red : bool) then
          tree ← ngx_rbt_black tree par;
          tree ← ngx_rbt_black tree temp;
          tree ← ngx_rbt_red tree gp;
          insert_loop fuel tree gp
        else
          pr ← right tree par;
          '(tree, node) ← (if decide (node = pr) then tree ← ngx_rbtree_left_rotate tree par; mret (tree, par)
                           else mret (tree, node));
          par ← parent tree node;
          tree ← ngx_rbt_black tree par;
          gp ← parent tree par;
          tree ← ngx_rbt_red tree gp;
          tree ← ngx_rbtree_right_rotate tree gp;
          insert_loop fuel tree node
      else
        temp ← left tree gp;
        red ← ngx_rbt_is_red tree temp;
        if (red : bool) then
          tree ← ngx_rbt_black tree par;
          tree ← ngx_rbt_black tree temp;
          tree ← ngx_rbt_red tree gp;
          insert_loop fuel tree gp
        else
          pl ← left tree par;
          '(tree, node) ← (if decide (node = pl) then tree ← ngx_rbtree_right_rotate tree par; mret (tree, par)
                           else mret (tree, node));
          par ← parent tree node;
          tree ← ngx_rbt_black tree par;
          gp ← parent tree par;
          tree ← ngx_rbt_red tree gp;
          tree ← ngx_rbtree_left_rotate tree gp;
          insert_loop fuel tree node
  end.

(** [insert] is the function [tree->insert] points to. *)
Definition ngx_rbtree_insert (fuel : nat) (insert : ngx_rbtree_t -> Z -> Z -> cres ngx_rbtree_t) (tree : ngx_rbtree_t) (node : Z)
  : cres ngx_rbtree_t :=
  if decide (rb_root tree = rb_sentinel tree) then
    tree ← upd tree node (set_parent 0);
    tree ← upd tree node (set_left (rb_sentinel tree));
    tree ← upd tree node (set_right (rb_sentinel tree));
    tree ← ngx_rbt_black tree node;
    mret (set_root node tree)
  else
    tree ← insert tree (rb_root tree) node;
    tree ← insert_loop fuel tree node;
    ngx_rbt_black tree (rb_root tree).

(** [ngx_rbtree_init(tree, s, i)] *)
Definition ngx_rbtree_init (tree : ngx_rbtree_t) (s : Z) : cres ngx_rbtree_t :=
  tree ← ngx_rbt_black tree s;
  mret (Rbtree (rb_nodes tree) s s).

(** ** Trees in memory

    A tree with the address of each node as its value; [s] is the sentinel. *)

Section Rep.
Context (s : Z).
Abbreviation tree := (rbtree Z).
Abbreviation ctx := (list (frame Z)).
Abbreviation heap := (gmap Z ngx_rbtree_node_t).

Definition addr (t : tree) : Z := match t with Nil => s | Node _ _ _ p _ => p end.
Definition rnode (c : bool) (l : Z) (k : Z) (r par : Z) : ngx_rbtree_node_t := RbNode k l r par (Z.b2z c).
Fixpoint addrs (t : tree) : list Z := match t with Nil => [] | Node _ l _ p r => p :: addrs l ++ addrs r end.
Fixpoint caddrs (C : ctx) : list Z := match C with [] => [] | f :: C => f_value f :: addrs (f_sib f) ++ caddrs C end.
(** The parent of a subtree; that of the root is NULL. *)
Definition cparent (C : ctx) : Z := match C with [] => 0 | f :: _ => f_value f end.

Fixpoint tree_at (h : heap) (par : Z) (t : tree) : Prop :=
  match t with
  | Nil => True
  | Node c l k p r => h !! p = Some (rnode c (addr l) k (addr r) par) /\ tree_at h p l /\ tree_at h p r
  end.
Definition fnode (f : frame Z) (par a : Z) : ngx_rbtree_node_t :=
  if f_left f then rnode (f_red f) a (f_key f) (addr (f_sib f)) par else rnode (f_red f) (addr (f_sib f)) (f_key f) a par.
Fixpoint ctx_at (h : heap) (root : Z) (C : ctx) (a : Z) : Prop :=
  match C with
  | [] => root = a
  | f :: C => h !! f_value f = Some (fnode f (cparent C) a) /\ tree_at h (f_value f) (f_sib f) /\ ctx_at h root C (f_value f)
  end.

(** The sentinel is black, and no node. *)
Definition at_hole (st : ngx_rbtree_t) (C : ctx) (t : tree) : Prop :=
  (rb_sentinel st = s /\ exists n, rb_nodes st !! s = Some n /\ rb_color n = 0) /\
  ctx_at (rb_nodes st) (rb_root st) C (addr t) /\ tree_at (rb_nodes st) (cparent C) t /\ NoDup (s :: caddrs C ++ addrs t).
Definition holds (st : ngx_rbtree_t) (t : tree) : Prop := at_hole st [] t.

Lemma ngx_at_hole_fill st f C t : at_hole st (f :: C) t <-> at_hole st C (fill f t).
Proof.
  unfold at_hole. destruct f as [b c k p sib]. cbn [caddrs f_value f_sib cparent ctx_at].
  assert (s :: (p :: addrs sib ++ caddrs C) ++ addrs t ≡ₚ s :: caddrs C ++ addrs (fill (Frame b c k p sib) t)) as ->.
  { cbn [app]. rewrite <- app_assoc, (Permutation_app_comm (addrs sib)), <- app_assoc.
    unfold fill. destruct b; cbn [f_left f_red f_key f_value f_sib addrs]; rewrite <- Permutation_middle;
      rewrite ?(Permutation_app_comm (addrs sib)); done. }
  destruct b; cbn [fill f_left f_red f_key f_value f_sib fnode tree_at addr]; tauto.
Qed.

Lemma ngx_at_hole_plug st C t : at_hole st C t <-> holds st (plug C t).
Proof. revert t. induction C as [|f C IH]; intros t; [done|]. cbn [plug]. by rewrite ngx_at_hole_fill. Qed.

Lemma ngx_at_left st C c l k p r : at_hole st C (Node c l k p r) <-> at_hole st (Frame true c k p r :: C) l.
Proof. by rewrite ngx_at_hole_fill. Qed.
Lemma ngx_at_right st C c l k p r : at_hole st C (Node c l k p r) <-> at_hole st (Frame false c k p l :: C) r.
Proof. by rewrite ngx_at_hole_fill. Qed.

(** *** Reading and writing *)

Lemma ngx_rd_ok st p n : rb_nodes st !! p = Some n -> rd st p = Ok n.
Proof. intros H. unfold rd. by rewrite H. Qed.
Lemma ngx_upd_ok st p n f : rb_nodes st !! p = Some n ->
  upd st p f = Ok (Rbtree (<[p := f n]> (rb_nodes st)) (rb_root st) (rb_sentinel st)).
Proof. intros H. unfold upd. by rewrite (ngx_rd_ok st p n). Qed.

Lemma ngx_tree_at_frame h h' par t : (forall x, x ∈ addrs t -> h' !! x = h !! x) -> tree_at h par t -> tree_at h' par t.
Proof.
  revert par. induction t as [|c l IHl k p r IHr]; intros par Hf; cbn [tree_at addrs] in *; [done|].
  intros (H1 & H2 & H3). rewrite Hf by (clear; set_solver). split; [done|].
  split; [apply IHl|apply IHr]; try done; intros x Hx; apply Hf; clear -Hx; set_solver.
Qed.
Lemma ngx_ctx_at_frame h h' root C a : (forall x, x ∈ caddrs C -> h' !! x = h !! x) -> ctx_at h root C a -> ctx_at h' root C a.
Proof.
  revert a. induction C as [|f C IH]; intros a Hf; cbn [ctx_at caddrs] in *; [done|].
  intros (H1 & H2 & H3). rewrite Hf by (clear; set_solver). split; [done|].
  split; [eapply ngx_tree_at_frame; [|done]|apply IH; [|done]]; intros x Hx; apply Hf; clear -Hx; set_solver.
Qed.

Lemma addr_in t : t ≠ Nil -> addr t ∈ addrs t.
Proof. destruct t; cbn [addr addrs]; [done|]. intros _. apply list_elem_of_here. Qed.

Ltac nodup_facts :=
  repeat match goal with
  | H : NoDup (_ ++ _) |- _ => apply NoDup_app in H as (? & ? & ?)
  | H : NoDup (_ :: _) |- _ => apply NoDup_cons in H as (? & ?)
  end.
Ltac dj := solve [cbn [addrs caddrs f_value f_sib app] in *; nodup_facts; set_solver].

Lemma ngx_at_hole_node st C c l k p r : at_hole st C (Node c l k p r) ->
  rb_nodes st !! p = Some (rnode c (addr l) k (addr r) (cparent C)).
Proof. by intros (_ & _ & (? & _) & _). Qed.

(** The colour of a subtree, the sentinel's included. *)
Lemma is_red_at st C t : at_hole st C t -> ngx_rbt_is_red st (addr t) = Ok (is_red t).
Proof.
  intros ((_ & n & Hn & Hc) & _ & Ht & _). unfold ngx_rbt_is_red. destruct t as [|c l k p r]; cbn [addr is_red].
  - rewrite (ngx_rd_ok _ _ _ Hn), ok_bind, Hc. done.
  - destruct Ht as (Hp & _). rewrite (ngx_rd_ok _ _ _ Hp), ok_bind. by destruct c.
Qed.

(** Changing the colour of a node. *)
Lemma upd_at st C c c' l k p r f : at_hole st C (Node c l k p r) ->
  f (rnode c (addr l) k (addr r) (cparent C)) = rnode c' (addr l) k (addr r) (cparent C) ->
  exists st', upd st p f = Ok st' /\ at_hole st' C (Node c' l k p r).
Proof.
  intros Hat Hf. rewrite (ngx_upd_ok st p _ f (ngx_at_hole_node _ _ _ _ _ _ _ Hat)), Hf. eexists; split; [done|].
  destruct Hat as ((Hs & n & Hn & Hc0) & Hc & (Hp & Hl & Hr) & Hnd).
  split; [split; [done|exists n; split; [|done]]|split; [|split; [split; [|split]|done]]]; cbn [rb_nodes rb_root rb_sentinel].
  - rewrite lookup_insert_ne; [done|]. clear -Hnd. dj.
  - eapply ngx_ctx_at_frame; [|exact Hc]. intros x Hx. apply lookup_insert_ne. clear -Hnd Hx. dj.
  - apply lookup_insert_eq.
  - eapply ngx_tree_at_frame; [|exact Hl]. intros x Hx; apply lookup_insert_ne; clear -Hnd Hx; dj.
  - eapply ngx_tree_at_frame; [|exact Hr]. intros x Hx; apply lookup_insert_ne; clear -Hnd Hx; dj.
Qed.
Lemma red_at st C c l k p r : at_hole st C (Node c l k p r) ->
  exists st', ngx_rbt_red st p = Ok st' /\ at_hole st' C (Node true l k p r).
Proof. intros Hat. by eapply upd_at. Qed.
Lemma black_at st C c l k p r : at_hole st C (Node c l k p r) ->
  exists st', ngx_rbt_black st p = Ok st' /\ at_hole st' C (Node false l k p r).
Proof. intros Hat. by eapply upd_at. Qed.

(** *** The left rotation *)

(** The child's new parent, unless it is the sentinel. *)
Lemma ngx_reparent_ok st par par' t : rb_sentinel st = s -> tree_at (rb_nodes st) par t -> NoDup (addrs t) -> s ∉ addrs t ->
  exists h, (if decide (addr t ≠ rb_sentinel st) then upd st (addr t) (set_parent par') else mret st) = Ok (Rbtree h (rb_root st) s) /\
    tree_at h par' t /\ forall x, x ∉ addrs t -> h !! x = rb_nodes st !! x.
Proof.
  intros Hs Ht Hnd Hst. destruct t as [|c l k p r].
  { cbn [addr]. rewrite decide_False by (rewrite Hs; intros H; by apply H). exists (rb_nodes st). rewrite <- Hs. by destruct st. }
  destruct Ht as (Hp & Hl & Hr). cbn [addr]. rewrite decide_True by (rewrite Hs; intros ->; apply Hst; clear; set_solver).
  erewrite ngx_upd_ok by exact Hp. rewrite Hs. eexists; split; [done|]. split.
  - split; [apply lookup_insert_eq|]. split; (eapply ngx_tree_at_frame; [|eassumption]); intros x Hx; apply lookup_insert_ne; clear -Hnd Hx; dj.
  - intros x Hx. apply lookup_insert_ne. clear -Hx. set_solver.
Qed.

(** The context points to [b] instead of [a]. *)
Lemma relink_ok st C a b : ctx_at (rb_nodes st) (rb_root st) C a -> (exists n, rb_nodes st !! a = Some n /\ rb_parent n = cparent C) ->
  a ∉ caddrs C -> NoDup (caddrs C) -> a ≠ s ->
  exists h root, (if decide (a = rb_root st) then mret (set_root b st) else
                par ← parent st a;
                pl ← left st par;
                if decide (a = pl) then upd st par (set_left b) else upd st par (set_right b)) = Ok (Rbtree h root (rb_sentinel st)) /\
    ctx_at h root C b /\ forall x, x ∉ caddrs C -> h !! x = rb_nodes st !! x.
Proof.
  intros Hc (n & Hn & Hpar) Hna Hnd Has. destruct C as [|[bf c k p sib] C]; cbn [cparent f_value] in *.
  { cbn [ctx_at] in Hc. rewrite decide_True by done. eexists _, _; split; [done|]. by split. }
  cbn [ctx_at f_value f_sib caddrs] in *. destruct Hc as (Hp & Hs & Hc).
  rewrite decide_False.
  2:{ intros ->. clear -Hc Hna. enough (forall C a, ctx_at (rb_nodes st) (rb_root st) C a -> rb_root st ∈ a :: caddrs C) as H.
      { apply H in Hc. apply Hna. clear -Hc. set_solver. }
      induction C0 as [|f C0 IH]; intros a Ha; cbn [ctx_at caddrs] in *; [rewrite Ha; apply list_elem_of_here|].
      destruct Ha as (_ & _ & Ha). apply IH in Ha. clear -Ha. set_solver. }
  unfold parent, left. rewrite (ngx_rd_ok _ _ _ Hn), ok_bind, Hpar. cbn [mret cres_ret]. rewrite !ok_bind, (ngx_rd_ok _ _ _ Hp), !ok_bind.
  assert (forall m, tree_at (<[p := m]> (rb_nodes st)) p sib /\ ctx_at (<[p := m]> (rb_nodes st)) (rb_root st) C p /\
      (forall x, x ∉ p :: addrs sib ++ caddrs C -> <[p := m]> (rb_nodes st) !! x = rb_nodes st !! x)) as Hfr.
  { intros m. split_and!.
    - eapply ngx_tree_at_frame; [|exact Hs]. intros x Hx. apply lookup_insert_ne. clear -Hnd Hx. dj.
    - eapply ngx_ctx_at_frame; [|exact Hc]. intros x Hx. apply lookup_insert_ne. clear -Hnd Hx. dj.
    - intros x Hx. apply lookup_insert_ne. clear -Hx. set_solver. }
  destruct bf; cbn [fnode f_left f_red f_key f_sib f_value rnode rb_left] in *.
  - rewrite decide_True by done. erewrite ngx_upd_ok by exact Hp. eexists _, _; split; [done|].
    split; [split; [apply lookup_insert_eq|split; apply Hfr]|apply Hfr].
  - rewrite decide_False.
    + erewrite ngx_upd_ok by exact Hp. eexists _, _; split; [done|]. split; [split; [apply lookup_insert_eq|split; apply Hfr]|apply Hfr].
    + intros ->. assert (sib ≠ Nil) as Hne by (by intros ->). apply Hna. pose proof (addr_in sib Hne). clear -H. set_solver.
Qed.

Tactic Notation "step_upd" "by" tactic3(t) := erewrite ngx_upd_ok by t; rewrite ok_bind; cbn [rb_nodes rb_root rb_sentinel].
Ltac frame_tree H := eapply ngx_tree_at_frame; [|exact H]; intros ? ?.

Lemma left_rotate_at st C c l k p d a k2 q b : at_hole st C (Node c l k p (Node d a k2 q b)) ->
  exists st', ngx_rbtree_left_rotate st p = Ok st' /\ at_hole st' C (Node d (Node c l k p a) k2 q b).
Proof.
  intros ((Hs & ns & Hns & Hcs) & Hc & Ht & Hnd). destruct Ht as (Hp & Hl & Hq & Ha & Hb). cbn [addr] in Hp, Hc.
  unfold ngx_rbtree_left_rotate, right, left, parent. rewrite (ngx_rd_ok _ _ _ Hp), ok_bind. cbn [rnode rb_right mret cres_ret].
  rewrite ok_bind, (ngx_rd_ok _ _ _ Hq), ok_bind. cbn [rnode rb_left mret cres_ret]. rewrite ok_bind.
  assert (p ≠ q) as Hpq by (clear -Hnd; dj). step_upd by (exact Hp).
  erewrite (ngx_rd_ok _ q); [|cbn [rb_nodes]; rewrite lookup_insert_ne by done; exact Hq]. rewrite ok_bind. cbn [rnode rb_left mret cres_ret]. rewrite ok_bind.
  match goal with |- context [upd ?s1 (addr a) (set_parent p)] =>
    destruct (ngx_reparent_ok s1 q p a) as (h2 & E2 & Ha2 & Hf2) end; [done| |clear -Hnd; dj|clear -Hnd; dj|].
  { cbn [rb_nodes]. frame_tree Ha. apply lookup_insert_ne. clear -Hnd H. dj. }
  cbn [rb_nodes rb_root rb_sentinel] in *. rewrite E2, ok_bind. cbn [rb_nodes rb_root rb_sentinel].
  assert (Hp2 : h2 !! p = Some (rnode c (addr l) k (addr a) (cparent C))).
  { rewrite Hf2 by (clear -Hnd; dj). by rewrite lookup_insert_eq. }
  assert (Hq2 : h2 !! q = Some (rnode d (addr a) k2 (addr b) p)).
  { rewrite Hf2 by (clear -Hnd; dj). by rewrite lookup_insert_ne. }
  erewrite (ngx_rd_ok _ p); [|exact Hp2]. rewrite ok_bind. cbn [rnode rb_parent mret cres_ret]. rewrite ok_bind.
  step_upd by (exact Hq2).
  match goal with |- context [mret (set_root q ?s3)] => destruct (relink_ok s3 C p q) as (h4 & root4 & E4 & Hc4 & Hf4) end.
  { cbn [rb_nodes rb_root]. eapply ngx_ctx_at_frame; [|exact Hc]. intros x Hx.
    rewrite lookup_insert_ne, Hf2, lookup_insert_ne by (clear -Hnd Hx; dj). done. }
  { cbn [rb_nodes]. eexists. rewrite lookup_insert_ne by done. split; [exact Hp2|done]. }
  { clear -Hnd; dj. } { clear -Hnd; dj. } { clear -Hnd; dj. }
  unfold parent, left in E4. cbn [rb_nodes rb_root rb_sentinel] in E4. cbn [rb_root]. rewrite E4, ok_bind. cbn [rb_nodes] in Hf4.
  assert (Hq4 : h4 !! q = Some (rnode d (addr a) k2 (addr b) (cparent C))).
  { rewrite Hf4 by (clear -Hnd; dj). by rewrite lookup_insert_eq. }
  step_upd by (exact Hq4).
  assert (Hp5 : <[q := set_left p (rnode d (addr a) k2 (addr b) (cparent C))]> h4 !! p = Some (rnode c (addr l) k (addr a) (cparent C))).
  { rewrite lookup_insert_ne by done. rewrite Hf4 by (clear -Hnd; dj). by rewrite lookup_insert_ne. }
  erewrite ngx_upd_ok by exact Hp5. eexists; split; [done|]. cbn [rb_nodes rb_root rb_sentinel].
  assert (Hnd' : NoDup (s :: caddrs C ++ q :: (p :: addrs l ++ addrs a) ++ addrs b)).
  { eapply NoDup_Permutation_proper; [|exact Hnd]. constructor. apply Permutation_app_head. cbn [addrs app].
    rewrite <- Permutation_middle, Permutation_swap, <- app_assoc. done. }
  assert (forall x, x ≠ p -> x ≠ q -> x ∉ caddrs C -> x ∉ addrs a ->
    <[p := set_parent q (rnode c (addr l) k (addr a) (cparent C))]>
      (<[q := set_left p (rnode d (addr a) k2 (addr b) (cparent C))]> h4) !! x = rb_nodes st !! x) as Hfr.
  { intros x Hxp Hxq HxC Hxa. rewrite !lookup_insert_ne by done. rewrite Hf4 by done. rewrite lookup_insert_ne by done.
    rewrite Hf2 by done. by rewrite lookup_insert_ne. }
  split; [split; [done|exists ns; split; [|done]]|split; [|split; [split; [|split; [split; [|split]|]]|exact Hnd']]]; cbn [addr rb_nodes rb_root].
  - rewrite Hfr; [done|clear -Hnd; dj..].
  - eapply ngx_ctx_at_frame; [|exact Hc4]. intros x Hx. rewrite !lookup_insert_ne by (clear -Hnd Hx; dj). done.
  - rewrite lookup_insert_ne, lookup_insert_eq by done. done.
  - rewrite lookup_insert_eq. done.
  - frame_tree Hl. apply Hfr; clear -Hnd H; dj.
  - frame_tree Ha2. rewrite !lookup_insert_ne by (clear -Hnd H; dj). rewrite Hf4 by (clear -Hnd H; dj).
    by rewrite lookup_insert_ne by (clear -Hnd H; dj).
  - frame_tree Hb. apply Hfr; clear -Hnd H; dj.
Qed.

(** *** The right rotation is the left one of the mirror image *)

Definition mnode (n : ngx_rbtree_node_t) := RbNode (rb_key n) (rb_right n) (rb_left n) (rb_parent n) (rb_color n).
Definition mstate (st : ngx_rbtree_t) : ngx_rbtree_t := Rbtree (mnode <$> rb_nodes st) (rb_root st) (rb_sentinel st).
Fixpoint mtree (t : tree) : tree := match t with Nil => Nil | Node c l k p r => Node c (mtree r) k p (mtree l) end.
Definition mframe (f : frame Z) : frame Z := Frame (negb (f_left f)) (f_red f) (f_key f) (f_value f) (mtree (f_sib f)).
Definition mres {A} (r : cres A) (f : A -> A) : cres A := match r with Ok a => Ok (f a) | UB => UB | NoFuel => NoFuel end.

Lemma ngx_mstate_inv st : mstate (mstate st) = st.
Proof.
  destruct st as [h r s']. unfold mstate. cbn. f_equal. apply map_eq. intros i. rewrite !lookup_fmap.
  destruct (h !! i) as [[]|]; done.
Qed.
Lemma ngx_mtree_addr t : addr (mtree t) = addr t.
Proof. by destruct t. Qed.
Lemma ngx_mtree_inv t : mtree (mtree t) = t.
Proof. induction t as [|c l IHl k p r IHr]; cbn [mtree]; congruence. Qed.
Lemma mframe_inv (C : ctx) : map mframe (map mframe C) = C.
Proof.
  induction C as [|[b c k p sib] C IH]; cbn [map]; [done|]. rewrite IH. f_equal. unfold mframe. cbn. by rewrite ngx_mtree_inv, negb_involutive.
Qed.
Lemma ngx_mtree_addrs t : addrs (mtree t) ≡ₚ addrs t.
Proof. induction t as [|c l IHl k p r IHr]; cbn [mtree addrs]; [done|]. by rewrite IHl, IHr, (Permutation_app_comm (addrs l)). Qed.
Lemma ngx_mctx_cparent (C : ctx) : cparent (map mframe C) = cparent C.
Proof. by destruct C. Qed.
Lemma ngx_mctx_caddrs (C : ctx) : caddrs (map mframe C) ≡ₚ caddrs C.
Proof. induction C as [|f C IH]; cbn [map caddrs mframe f_value f_sib]; [done|]. by rewrite IH, ngx_mtree_addrs. Qed.

Lemma ngx_mtree_at h par t : tree_at h par t -> tree_at (mnode <$> h) par (mtree t).
Proof.
  revert par. induction t as [|c l IHl k p r IHr]; intros par; cbn [mtree tree_at]; [done|].
  intros (H1 & H2 & H3). rewrite lookup_fmap, H1, !ngx_mtree_addr. cbn. auto.
Qed.
Lemma ngx_mctx_at h root (C : ctx) a : ctx_at h root C a -> ctx_at (mnode <$> h) root (map mframe C) a.
Proof.
  revert a. induction C as [|f C IH]; intros a; cbn [map ctx_at mframe f_value f_sib]; [done|].
  intros (H1 & H2 & H3). rewrite lookup_fmap, H1, ngx_mctx_cparent. split; [|split; [by apply ngx_mtree_at|by apply IH]].
  destruct f as [[] c k p sib]; cbn; by rewrite ngx_mtree_addr.
Qed.
Lemma ngx_m_at_hole st C t : at_hole st C t -> at_hole (mstate st) (map mframe C) (mtree t).
Proof.
  intros ((Hs & n & Hn & Hcol) & H1 & H2 & H3). unfold at_hole. rewrite ngx_mtree_addr, ngx_mctx_cparent. split; [|split; [by apply ngx_mctx_at|split; [by apply ngx_mtree_at|]]].
  - split; [done|]. exists (mnode n). cbn [mstate rb_nodes]. by rewrite lookup_fmap, Hn.
  - by rewrite ngx_mctx_caddrs, ngx_mtree_addrs.
Qed.

Lemma ngx_m_rd st p : rd (mstate st) p = mres (rd st p) mnode.
Proof. unfold rd, mstate. cbn [rb_nodes]. rewrite lookup_fmap. by destruct (rb_nodes st !! p). Qed.
Lemma m_left st p : left (mstate st) p = right st p.
Proof. unfold left, right. rewrite ngx_m_rd. by destruct (rd st p). Qed.
Lemma m_right st p : right (mstate st) p = left st p.
Proof. unfold left, right. rewrite ngx_m_rd. by destruct (rd st p). Qed.
Lemma m_parent st p : parent (mstate st) p = parent st p.
Proof. unfold parent. rewrite ngx_m_rd. by destruct (rd st p). Qed.
Lemma ngx_m_upd st p f g : (forall n, g (mnode n) = mnode (f n)) -> upd (mstate st) p g = mres (upd st p f) mstate.
Proof.
  intros Hfg. unfold upd. rewrite ngx_m_rd. destruct (rd st p); cbn; [|done..]. unfold mstate. cbn. by rewrite Hfg, fmap_insert.
Qed.
Lemma ngx_m_bind (m1 m2 : cres ngx_rbtree_t) k1 k2 : m1 = mres m2 mstate -> (forall st, k1 (mstate st) = mres (k2 st) mstate) ->
  m1 ≫= k1 = mres (m2 ≫= k2) mstate.
Proof. intros ->. destruct m2; cbn; auto. Qed.
Lemma m_read (m1 m2 : cres Z) k1 k2 : m1 = m2 -> (forall z, k1 z = mres (k2 z) mstate) -> m1 ≫= k1 = mres (m2 ≫= k2) mstate.
Proof. intros ->. destruct m2; cbn; auto. Qed.
Lemma ngx_m_if P `{!Decision P} (a b c d : cres ngx_rbtree_t) : a = mres c mstate -> b = mres d mstate ->
  (if decide P then a else b) = mres (if decide P then c else d) mstate.
Proof. by case_decide. Qed.

Lemma right_rotate_mirror st p : ngx_rbtree_right_rotate (mstate st) p = mres (ngx_rbtree_left_rotate st p) mstate.
Proof.
  unfold ngx_rbtree_right_rotate, ngx_rbtree_left_rotate.
  apply m_read; [apply m_left|]. intros temp. apply m_read; [apply m_right|]. intros tl.
  apply ngx_m_bind; [by apply ngx_m_upd|]. intros st1. apply m_read; [apply m_right|]. intros tl'.
  apply ngx_m_bind; [apply ngx_m_if; [by apply ngx_m_upd|done]|]. intros st2. apply m_read; [apply m_parent|]. intros par.
  apply ngx_m_bind; [by apply ngx_m_upd|]. intros st3.
  apply ngx_m_bind; [|intros st4; apply ngx_m_bind; [by apply ngx_m_upd|]; intros st5; by apply ngx_m_upd].
  apply ngx_m_if; [done|]. apply m_read; [apply m_parent|]. intros par'. apply m_read; [apply m_right|]. intros pl. apply ngx_m_if; by apply ngx_m_upd.
Qed.

Lemma right_rotate_at st C d a k2 q b c k p r : at_hole st C (Node c (Node d a k2 q b) k p r) ->
  exists st', ngx_rbtree_right_rotate st p = Ok st' /\ at_hole st' C (Node d a k2 q (Node c b k p r)).
Proof.
  intros Hat%ngx_m_at_hole. cbn [mtree] in Hat. destruct (left_rotate_at _ _ _ _ _ _ _ _ _ _ _ Hat) as (st' & E & Hat').
  apply ngx_m_at_hole in Hat'. rewrite mframe_inv in Hat'. cbn [mtree] in Hat'. rewrite !ngx_mtree_inv in Hat'.
  exists (mstate st'). split; [|done]. rewrite <- (ngx_mstate_inv st) at 1. by rewrite right_rotate_mirror, E.
Qed.

(** ** Reading around a subtree *)

Lemma parent_at st C c l k p r : at_hole st C (Node c l k p r) -> parent st p = Ok (cparent C).
Proof. intros Hat. unfold parent. by rewrite (ngx_rd_ok _ _ _ (ngx_at_hole_node _ _ _ _ _ _ _ Hat)). Qed.
Lemma left_at st C c l k p r : at_hole st C (Node c l k p r) -> left st p = Ok (addr l).
Proof. intros Hat. unfold left. by rewrite (ngx_rd_ok _ _ _ (ngx_at_hole_node _ _ _ _ _ _ _ Hat)). Qed.
Lemma right_at st C c l k p r : at_hole st C (Node c l k p r) -> right st p = Ok (addr r).
Proof. intros Hat. unfold right. by rewrite (ngx_rd_ok _ _ _ (ngx_at_hole_node _ _ _ _ _ _ _ Hat)). Qed.

Lemma fill_node (f : frame Z) t : fill f t =
  Node (f_red f) (if f_left f then t else f_sib f) (f_key f) (f_value f) (if f_left f then f_sib f else t).
Proof. by destruct f as [[] c k p sib]. Qed.

Lemma frame_at st f C t : at_hole st (f :: C) t ->
  parent st (f_value f) = Ok (cparent C) /\ ngx_rbt_is_red st (f_value f) = Ok (f_red f) /\
  left st (f_value f) = Ok (if f_left f then addr t else addr (f_sib f)) /\
  right st (f_value f) = Ok (if f_left f then addr (f_sib f) else addr t).
Proof.
  intros Hat%ngx_at_hole_fill. pose proof (is_red_at _ _ _ Hat) as Hred. rewrite fill_node in Hat, Hred.
  split_and!; [by eapply parent_at|exact Hred|rewrite (left_at _ _ _ _ _ _ _ Hat)|rewrite (right_at _ _ _ _ _ _ _ Hat)];
    by destruct (f_left f).
Qed.

(** From a subtree to the one beside it. *)
Definition other (f : frame Z) t : frame Z := Frame (negb (f_left f)) (f_red f) (f_key f) (f_value f) t.
Lemma beside st f C t : at_hole st (f :: C) t <-> at_hole st (other f t :: C) (f_sib f).
Proof. rewrite !ngx_at_hole_fill. by destruct f as [[] c k p sib]. Qed.

Lemma beside_ne st f C t : at_hole st (f :: C) t -> t ≠ Nil -> addr t ≠ addr (f_sib f).
Proof.
  intros (_ & _ & _ & Hnd) Ht E. pose proof (addr_in t Ht) as Hin. destruct f as [b c k p sib]. cbn [caddrs f_value f_sib] in *.
  destruct sib as [|c' l' k' p' r']; cbn [addr] in E; rewrite E in Hin; clear -Hnd Hin; dj.
Qed.

Lemma root_here st t : at_hole st [] t -> rb_root st = addr t.
Proof. by intros (_ & ? & _). Qed.
Lemma root_above st f C t : at_hole st (f :: C) t -> t ≠ Nil -> addr t ≠ rb_root st.
Proof.
  intros (_ & Hc & _ & Hnd) Ht E. pose proof (addr_in t Ht) as Hin. rewrite E in Hin.
  assert (forall D a, ctx_at (rb_nodes st) (rb_root st) D a -> D ≠ [] -> rb_root st ∈ caddrs D) as Hr.
  { clear. induction D as [|f D IH]; intros a Ha Hd; [done|]. cbn [ctx_at caddrs] in *. destruct Ha as (_ & _ & Ha).
    destruct D as [|f' D]; [cbn [ctx_at] in Ha; rewrite Ha; apply list_elem_of_here|].
    specialize (IH _ Ha ltac:(done)). clear -IH. set_solver. }
  specialize (Hr _ _ Hc ltac:(done)). clear -Hnd Hin Hr. nodup_facts. set_solver.
Qed.

(** ** The loop *)

Ltac run L st H := let E := fresh "E" in destruct L as (st & E & H); rewrite E, ?ok_bind; clear E.

(** Both subtrees black, the node above red. *)
Lemma recolour st f g C t : at_hole st (f :: g :: C) t -> is_red (f_sib g) = true ->
  exists st1 st2 st3, ngx_rbt_black st (f_value f) = Ok st1 /\ ngx_rbt_black st1 (addr (f_sib g)) = Ok st2 /\
    ngx_rbt_red st2 (f_value g) = Ok st3 /\
    at_hole st3 C (set_red true (fill (Frame (f_left g) (f_red g) (f_key g) (f_value g) (set_red false (f_sib g)))
                                     (set_red false (fill f t)))).
Proof.
  intros Hat%ngx_at_hole_fill Hu. rewrite (fill_node f) in Hat |- *. destruct (black_at _ _ _ _ _ _ _ Hat) as (st1 & E1 & H1).
  apply beside in H1. destruct (f_sib g) as [|cu lu ku pu ru] eqn:Eu; [done|]. cbn [addr].
  destruct (black_at _ _ _ _ _ _ _ H1) as (st2 & E2 & H2). apply ngx_at_hole_fill in H2. rewrite fill_node in H2.
  destruct (red_at _ _ _ _ _ _ _ H2) as (st3 & E3 & H3). exists st1, st2, st3. split_and!; [done|done|exact E3|].
  destruct g as [[] cg kg vg sg]; exact H3.
Qed.

Lemma ngx_loop_stop fuel st f C c l k p r : at_hole st (f :: C) (Node c l k p r) -> f_red f = false -> insert_loop (S fuel) st p = Ok st.
Proof.
  intros Hat Hf. cbn [insert_loop]. rewrite decide_False by (eapply (root_above _ _ _ _ Hat); done).
  rewrite (parent_at _ _ _ _ _ _ _ Hat), ok_bind. cbn [cparent]. destruct (frame_at _ _ _ _ Hat) as (_ & Hred & _).
  by rewrite Hred, ok_bind, Hf.
Qed.

(** The node [x] is red with a red child, [p], on its outer side. *)
Lemma finish_left fuel st g C l k p r kx x b : at_hole st (g :: C) (Node true (Node true l k p r) kx x b) -> f_left g = true ->
  exists st', (par ← parent st p; st ← ngx_rbt_black st par; gp ← parent st par; st ← ngx_rbt_red st gp;
               st ← ngx_rbtree_right_rotate st gp; insert_loop (S fuel) st p) = Ok st' /\
    holds st' (plug C (rotate_right (set_red true (fill g (Node false (Node true l k p r) kx x b))))).
Proof.
  intros Hat Hg. rewrite (parent_at _ _ _ _ _ _ _ (proj1 (ngx_at_left _ _ _ _ _ _ _) Hat)), ok_bind. cbn [cparent f_value].
  run (black_at _ _ _ _ _ _ _ Hat) st1 H1. rewrite (parent_at _ _ _ _ _ _ _ H1), ok_bind. cbn [cparent].
  apply ngx_at_hole_fill in H1. rewrite fill_node, Hg in *. run (red_at _ _ _ _ _ _ _ H1) st2 H2.
  run (right_rotate_at _ _ _ _ _ _ _ _ _ _ _ H2) st3 H3. exists st3. split.
  - eapply ngx_loop_stop; [exact (proj1 (ngx_at_left _ _ _ _ _ _ _) H3)|done].
  - apply (proj1 (ngx_at_hole_plug _ _ _)). exact H3.
Qed.
Lemma finish_right fuel st g C l k p r kx x b : at_hole st (g :: C) (Node true b kx x (Node true l k p r)) -> f_left g = false ->
  exists st', (par ← parent st p; st ← ngx_rbt_black st par; gp ← parent st par; st ← ngx_rbt_red st gp;
               st ← ngx_rbtree_left_rotate st gp; insert_loop (S fuel) st p) = Ok st' /\
    holds st' (plug C (rotate_left (set_red true (fill g (Node false b kx x (Node true l k p r)))))).
Proof.
  intros Hat Hg. rewrite (parent_at _ _ _ _ _ _ _ (proj1 (ngx_at_right _ _ _ _ _ _ _) Hat)), ok_bind. cbn [cparent f_value].
  run (black_at _ _ _ _ _ _ _ Hat) st1 H1. rewrite (parent_at _ _ _ _ _ _ _ H1), ok_bind. cbn [cparent].
  apply ngx_at_hole_fill in H1. rewrite fill_node, Hg in *. run (red_at _ _ _ _ _ _ _ H1) st2 H2.
  run (left_rotate_at _ _ _ _ _ _ _ _ _ _ _ H2) st3 H3. exists st3. split.
  - eapply ngx_loop_stop; [exact (proj1 (ngx_at_right _ _ _ _ _ _ _) H3)|done].
  - apply (proj1 (ngx_at_hole_plug _ _ _)). exact H3.
Qed.

Lemma insert_loop_ok fuel st C l k p r n : at_hole st C (Node true l k p r) -> ctx_ok C n -> (length C < fuel)%nat ->
  exists st' t', insert_loop fuel st p = Ok st' /\ holds st' t' /\ set_red false t' = fixup C (Node true l k p r).
Proof.
  revert st C l k p r n. induction fuel as [|fuel IH]; [lia|]. intros st C l k p r n Hat Hc Hf.
  destruct C as [|f C].
  { cbn [insert_loop]. rewrite decide_True by (by rewrite (root_here _ _ Hat)). by exists st, (Node true l k p r). }
  destruct (f_red f) eqn:Ef.
  2:{ exists st, (plug (f :: C) (Node true l k p r)). split; [by eapply ngx_loop_stop|]. split; [by apply (proj1 (ngx_at_hole_plug _ (f :: C) _))|].
      cbn [fixup]. rewrite Ef. by destruct C. }
  cbn [ctx_ok] in Hc. rewrite Ef in Hc. destruct Hc as (Hfs & Hc & Hg). destruct C as [|g C]; [done|].
  cbn [ctx_ok] in Hc. rewrite Hg in Hc. destruct Hc as (cs & Hgs & Hc).
  cbn [insert_loop fixup]. rewrite Ef. rewrite decide_False by (eapply (root_above _ _ _ _ Hat); done).
  rewrite (parent_at _ _ _ _ _ _ _ Hat), ok_bind. cbn [cparent].
  destruct (frame_at _ _ _ _ Hat) as (Hpar & Hred & Hpl & Hpr). rewrite Hred, ok_bind, Ef. cbn [negb].
  rewrite Hpar, ok_bind. cbn [cparent]. pose proof (proj1 (ngx_at_hole_fill _ _ _ _) Hat) as Hat1.
  destruct (frame_at _ _ _ _ Hat1) as (_ & _ & Hgl & Hgr). rewrite Hgl, ok_bind.
  assert (addr (fill f (Node true l k p r)) = f_value f) as Ea by (by rewrite fill_node). rewrite Ea in *.
  pose proof (beside_ne _ _ _ _ Hat1 ltac:(by rewrite fill_node)) as Hne. rewrite Ea in Hne.
  pose proof (beside_ne _ _ _ _ Hat ltac:(done)) as Hnep. cbn [addr] in Hnep.
  pose proof (is_red_at _ _ _ (proj1 (beside _ _ _ _) Hat1)) as Hun.
  destruct fuel as [|fuel]; [cbn [length] in Hf; lia|].
  assert (is_red (f_sib g) = true -> exists st' t',
    (st ← ngx_rbt_black st (f_value f); st ← ngx_rbt_black st (addr (f_sib g)); st ← ngx_rbt_red st (f_value g);
     insert_loop (S fuel) st (f_value g)) = Ok st' /\ holds st' t' /\
    set_red false t' = fixup C (set_red true (fill (Frame (f_left g) (f_red g) (f_key g) (f_value g) (set_red false (f_sib g)))
      (set_red false (fill f (Node true l k p r)))))) as Hrec.
  { intros Eu. destruct (recolour _ _ _ _ _ Hat Eu) as (st1 & st2 & st3 & E1 & E2 & E3 & H3).
    rewrite E1, ok_bind, E2, ok_bind, E3, ok_bind. rewrite (fill_node (Frame _ _ _ _ _)) in H3 |- *. cbn [set_red f_value] in *.
    eapply IH; [exact H3|exact Hc|cbn [length] in Hf; lia]. }
  destruct (f_left g) eqn:Eg.
  - rewrite decide_True by done. rewrite Hgr, ok_bind, Hun, ok_bind.
    destruct (is_red (f_sib g)) eqn:Eu; [by apply Hrec|]. rewrite Hpr, ok_bind. unfold rotations. rewrite Eg.
    rewrite (fill_node f), Ef in Hat1 |- *. destruct (f_left f) eqn:El; cbn [Bool.eqb addr] in *.
    + rewrite decide_False by done. cbn [mret cres_ret]. rewrite ?ok_bind.
      destruct (finish_left fuel _ _ _ _ _ _ _ _ _ _ Hat1 Eg) as (st' & E & H). rewrite E. eexists _, _; split; [done|]. by split.
    + rewrite decide_True by done. run (left_rotate_at _ _ _ _ _ _ _ _ _ _ _ Hat1) st1 H1. cbn [mret cres_ret]. rewrite ?ok_bind.
      destruct (finish_left fuel _ _ _ _ _ _ _ _ _ _ H1 Eg) as (st' & E & H). rewrite E. eexists _, _; split; [done|]. by split.
  - rewrite decide_False by done. rewrite ?Hgl, ?ok_bind, Hun, ok_bind.
    destruct (is_red (f_sib g)) eqn:Eu; [by apply Hrec|]. rewrite Hpl, ok_bind. unfold rotations. rewrite Eg.
    rewrite (fill_node f), Ef in Hat1 |- *. destruct (f_left f) eqn:El; cbn [Bool.eqb addr] in *.
    + rewrite decide_True by done. run (right_rotate_at _ _ _ _ _ _ _ _ _ _ _ Hat1) st1 H1. cbn [mret cres_ret]. rewrite ?ok_bind.
      destruct (finish_right fuel _ _ _ _ _ _ _ _ _ _ H1 Eg) as (st' & E & H). rewrite E. eexists _, _; split; [done|]. by split.
    + rewrite decide_False by done. cbn [mret cres_ret]. rewrite ?ok_bind.
      destruct (finish_right fuel _ _ _ _ _ _ _ _ _ _ Hat1 Eg) as (st' & E & H). rewrite E. eexists _, _; split; [done|]. by split.
Qed.

(** ** Insertion *)

Lemma addr_not_sentinel st C t : at_hole st C t -> t ≠ Nil -> addr t ≠ s.
Proof. intros (_ & _ & _ & Hnd) Ht E. pose proof (addr_in t Ht) as Hin. rewrite E in Hin. clear -Hnd Hin. dj. Qed.

Lemma insert_value_loop_ok fuel st C t p n : at_hole st C t -> t ≠ Nil -> rb_nodes st !! p = Some n -> (height t <= fuel)%nat ->
  exists f D, descend t (rb_key n) C = f :: D /\ insert_value_loop fuel st p (addr t) = Ok (f_left f, f_value f) /\ at_hole st (f :: D) Nil.
Proof.
  intros Hat Ht Hp. revert fuel C Hat. induction t as [|c l IHl k a r IHr]; [done|]. intros [|fuel] C Hat Hf; cbn [height] in Hf; [lia|].
  cbn [insert_value_loop addr descend]. rewrite (ngx_rd_ok _ _ _ Hp), ok_bind, (ngx_rd_ok _ _ _ (ngx_at_hole_node _ _ _ _ _ _ _ Hat)), ok_bind.
  cbn [rnode rb_key rb_left rb_right]. assert (rb_sentinel st = s) as -> by apply Hat. destruct (decide (rb_key n < k)) as [Hlt|Hlt].
  - rewrite bool_decide_eq_true_2 by done. apply ngx_at_left in Hat. destruct (decide (addr l = s)) as [E|E].
    + destruct l as [|cl ll kl pl rl]; [|by eapply addr_not_sentinel in E].
      cbn [descend]. eexists _, _. split; [done|]. by split.
    + apply IHl; [intros ->; by apply E|done|lia].
  - rewrite bool_decide_eq_false_2 by done. apply ngx_at_right in Hat. destruct (decide (addr r = s)) as [E|E].
    + destruct r as [|cr lr kr pr rr]; [|by eapply addr_not_sentinel in E].
      cbn [descend]. eexists _, _. split; [done|]. by split.
    + apply IHr; [intros ->; by apply E|done|lia].
Qed.

(** The new node in the place of the sentinel. *)
Lemma ngx_link_ok st f D p n : at_hole st (f :: D) Nil -> rb_nodes st !! p = Some n -> p ∉ s :: caddrs (f :: D) ->
  exists st', (st ← upd st (f_value f) (if f_left f then set_left p else set_right p); st ← upd st p (set_parent (f_value f));
               st ← upd st p (set_left (rb_sentinel st)); st ← upd st p (set_right (rb_sentinel st)); ngx_rbt_red st p) = Ok st' /\
    at_hole st' (f :: D) (Node true Nil (rb_key n) p Nil).
Proof.
  intros ((Hs & ns & Hns & Hcs) & Hc & _ & Hnd) Hp Hnp. destruct Hc as (Hf & Hsib & Hc). rewrite app_nil_r in Hnd.
  assert (f_value f ≠ p) as Hfp by (clear -Hnp; set_solver).
  erewrite ngx_upd_ok by exact Hf. rewrite ok_bind. erewrite ngx_upd_ok by (cbn [rb_nodes]; rewrite lookup_insert_ne by done; exact Hp).
  rewrite ok_bind. cbn [rb_nodes rb_root rb_sentinel]. erewrite ngx_upd_ok by apply lookup_insert_eq. rewrite ok_bind.
  cbn [rb_nodes rb_root rb_sentinel]. erewrite ngx_upd_ok by apply lookup_insert_eq. rewrite ok_bind. cbn [rb_nodes rb_root rb_sentinel].
  unfold ngx_rbt_red. erewrite ngx_upd_ok by apply lookup_insert_eq. cbn [rb_nodes rb_root rb_sentinel]. rewrite !insert_insert_eq.
  eexists. split; [done|]. rewrite Hs. cbn [set_parent set_left set_right set_color rb_key rb_left rb_right rb_parent rb_color].
  split; [split; [done|exists ns; split; [|done]]|split; [split; [|split]|split; [split; [|done]|]]]; cbn [rb_nodes rb_root addr cparent].
  - rewrite !lookup_insert_ne; [done|clear -Hnd; dj|clear -Hnp; set_solver].
  - rewrite lookup_insert_ne, lookup_insert_eq by done. f_equal. by destruct f as [[] c k x sib].
  - eapply ngx_tree_at_frame; [|exact Hsib]. intros x Hx. cbn [caddrs] in *.
    rewrite !lookup_insert_ne; [done|clear -Hnd Hx; dj|clear -Hnp Hx; set_solver].
  - eapply ngx_ctx_at_frame; [|exact Hc]. intros x Hx. cbn [caddrs] in *.
    rewrite !lookup_insert_ne; [done|clear -Hnd Hx; dj|clear -Hnp Hx; set_solver].
  - by rewrite lookup_insert_eq.
  - cbn [addrs app]. clear -Hnd Hnp. rewrite app_comm_cons. apply NoDup_app. split; [done|]. split; [|apply NoDup_singleton].
    intros x Hx ->%list_elem_of_singleton. done.
Qed.

Lemma perm_plug C t : caddrs C ++ addrs t ≡ₚ addrs (plug C t).
Proof.
  revert t. induction C as [|f C IH]; intros t; cbn [plug]; [done|]. rewrite <- IH. destruct f as [b c k p sib].
  cbn [caddrs f_value f_sib app]. rewrite <- app_assoc, (Permutation_app_comm (addrs sib)), <- app_assoc.
  unfold fill. destruct b; cbn [f_left f_red f_key f_value f_sib addrs]; rewrite <- Permutation_middle;
    rewrite ?(Permutation_app_comm (addrs sib)); done.
Qed.

Lemma insert_ok fuel st t p n : holds st t -> balanced t -> rb_nodes st !! p = Some n -> p ∉ s :: addrs t -> (height t < fuel)%nat ->
  exists st', ngx_rbtree_insert fuel (ngx_rbtree_insert_value fuel) st p = Ok st' /\ holds st' (rb_insert t (rb_key n) p).
Proof.
  intros Hat Hbal Hp Hnp Hf. unfold ngx_rbtree_insert. pose proof (root_here _ _ Hat) as Hroot.
  assert (rb_sentinel st = s) as Hs by apply Hat. destruct t as [|c l k a r].
  - rewrite decide_True by by rewrite Hroot. erewrite ngx_upd_ok by exact Hp. rewrite ok_bind.
    erewrite ngx_upd_ok by apply lookup_insert_eq. rewrite ok_bind. cbn [rb_nodes rb_root rb_sentinel].
    erewrite ngx_upd_ok by apply lookup_insert_eq. rewrite ok_bind. cbn [rb_nodes rb_root rb_sentinel].
    unfold ngx_rbt_black. erewrite ngx_upd_ok by apply lookup_insert_eq. rewrite ok_bind. cbn [rb_nodes rb_root rb_sentinel].
    rewrite !insert_insert_eq. eexists. split; [done|]. destruct Hat as ((_ & ns & Hns & Hcs) & _).
    split; [split; [done|exists ns; split; [|done]]|split; [done|split; [split; [|done]|]]]; cbn [rb_nodes set_root].
    + rewrite lookup_insert_ne; [done|]. clear -Hnp. set_solver.
    + rewrite lookup_insert_eq. cbn [set_parent set_left set_right set_color rb_key rb_left rb_right rb_parent rb_color]. by rewrite Hs.
    + cbn [caddrs app addrs]. clear -Hnp. apply NoDup_cons. split; [|apply NoDup_singleton]. set_solver.
  - rewrite decide_False by (rewrite Hroot, Hs; by eapply addr_not_sentinel). rewrite Hroot. unfold ngx_rbtree_insert_value.
    destruct (insert_value_loop_ok fuel st [] (Node c l k a r) p n Hat) as (f & D & Ed & -> & H1); [done|done|lia|]. rewrite ok_bind.
    destruct (ngx_link_ok st f D p n H1 Hp) as (st2 & E2 & H2).
    { intros Hin. apply Hnp. pose proof (perm_plug (f :: D) Nil) as Hperm. rewrite <- Ed, plug_descend, Ed in Hperm. cbn [plug] in Hperm.
      rewrite <- Hperm, app_nil_r. done. }
    rewrite E2, ok_bind. destruct Hbal as [m Hm]. pose proof (descend_length (Node c l k a r) (rb_key n) []) as Hlen.
    destruct (insert_loop_ok fuel st2 (f :: D) Nil (rb_key n) p Nil 0 H2) as (st3 & t3 & E3 & H3 & Efix).
    { rewrite <- Ed. by eapply ctx_ok_descend. } { rewrite <- Ed. cbn [length] in *. lia. }
    rewrite E3, ok_bind. pose proof (inorder_fixup (f :: D) (Node true Nil (rb_key n) p Nil)) as Hi.
    rewrite <- Efix, inorder_set_red in Hi. destruct t3 as [|c3 l3 k3 p3 r3].
    { by apply (f_equal length) in Hi; rewrite !length_app in Hi; cbn [inorder length app] in Hi; lia. }
    rewrite (root_here _ _ H3). destruct (black_at _ _ _ _ _ _ _ H3) as (st4 & E4 & H4). exists st4. split; [exact E4|].
    unfold rb_insert. rewrite Ed, <- Efix. exact H4.
Qed.

Lemma init_ok st n : rb_nodes st !! s = Some n -> exists st', ngx_rbtree_init st s = Ok st' /\ holds st' Nil.
Proof.
  intros Hn. unfold ngx_rbtree_init, ngx_rbt_black. erewrite ngx_upd_ok by exact Hn. rewrite ok_bind. eexists. split; [done|].
  split; [split; [done|exists (set_color 0 n); split; [apply lookup_insert_eq|done]]|]. split; [done|]. split; [done|]. apply NoDup_singleton.
Qed.
End Rep.

(** C14: [ngx_rbtree_insert] with [ngx_rbtree_insert_value] computes the
    insertion that the rest of the development uses.  [ngx_rbtree_init] makes
    an empty tree of a sentinel.  Of a balanced tree in memory and a node
    outside it, the call ends, with fuel for a way down and up of the tree, and
    the memory then holds the tree [rb_insert] gives, whatever the nodes carry:
    the node hangs where its key belongs, the tree is balanced again, and no
    way down is longer than twice the logarithm of the number of its nodes. *)
Theorem ngx_rbtree_insert_refines {V : Type} (s : Z) (vals : Z -> V) (tree : ngx_rbtree_t) (t : rbtree Z) (node : Z)
    (n : ngx_rbtree_node_t) (fuel : nat) :
  (forall m, rb_nodes tree !! s = Some m -> exists tree', ngx_rbtree_init tree s = Ok tree' /\ holds s tree' Nil) /\
  (holds s tree t -> balanced t -> rb_nodes tree !! node = Some n -> node ∉ s :: addrs t ->
   (depth_bound (length (inorder t)) < fuel)%nat ->
   exists tree' t', ngx_rbtree_insert fuel (ngx_rbtree_insert_value fuel) tree node = Ok tree' /\ holds s tree' t' /\
     map_tree vals t' = @rbtree_insert ngx_rbtree_insertion V (map_tree vals t) (rb_key n) (vals node) /\
     balanced t' /\ (height t' <= depth_bound (S (length (inorder t))))%nat).
Proof.
  split; [intros m; apply init_ok|]. intros Hat Hbal Hn Hnot Hf. pose proof (ngx_balanced_height t Hbal).
  destruct (insert_ok s fuel tree t node n) as (tree' & E & H'); [done..|lia|].
  exists tree', (rb_insert t (rb_key n) node). split; [exact E|]. split; [exact H'|]. split; [apply map_insert|].
  pose proof (rb_insert_balanced t (rb_key n) node Hbal) as Hb. split; [exact Hb|].
  rewrite <- (rb_insert_length t (rb_key n) node). by apply ngx_balanced_height.
Qed.

Lemma ngx_rbtree_insert_refines_witness :
  let nodes := <[1 := RbNode 0 0 0 0 0]> (<[10 := RbNode 50 1 1 0 0]> (<[20 := RbNode 30 7 7 7 1]> ∅)) in
  exists tree' t', ngx_rbtree_insert 3 (ngx_rbtree_insert_value 3) (Rbtree nodes 10 1) 20 = Ok tree' /\ holds 1 tree' t' /\
    map_tree Z.opp t' = Node false (Node true Nil 30 (-20) Nil) 50 (-10) Nil.
Proof.
  intros nodes.
  refine (match proj2 (ngx_rbtree_insert_refines 1 Z.opp (Rbtree nodes 10 1) (Node false Nil 50 10 Nil) 20 (RbNode 30 7 7 7 1) 3) _ _ _ _ _ with
    ex_intro _ tree' (ex_intro _ t' (conj E (conj H (conj Ht _)))) => ex_intro _ tree' (ex_intro _ t' (conj E (conj H Ht))) end).
  - split; [split; [done|eexists; split; [reflexivity|done]]|]. split; [done|]. split; [done|].
    apply (bool_decide_unpack _). vm_compute. done.
  - exists 1%nat. repeat econstructor.
  - reflexivity.
  - apply (bool_decide_unpack _). vm_compute. done.
  - vm_compute. lia.
Defined.
