(* ===== verification/NgxProtobufExt.v ===== *)
(** Protocol buffers, the extensions of a message: the functions of
    adx_module/adx_com_libs/ngx_protobuf.c around the registry of a message and
    the extension fields of an object, both red-black trees of nginx.

    A tree is its nodes by position (NgxRbtree.v); a node is changed in place,
    and a new one inserted as the class [NgxRbtree] promises.  [M] are the messages that extensions may hold, whose
    functions a descriptor points to.  The context [c] carries the pool, whose
    calls are counted. *)

From Stdlib Require Import ZArith Lia.
From S2P Require Import Prelude NgxRbtree NgxProtobuf NgxProtobufWire NgxProtobufMsg NgxProtobufScalar.

Open Scope Z_scope.
Set Warnings "-register-all".

(** ** Trees *)

(** The node with a key, or [None] for NULL. *)
Fixpoint ngx_protobuf_find_node {V} (tree : rbtree V) (field : Z) : option V :=
  match tree with
  | Nil => None
  | Node c l key value r =>
      if decide (field < key) then ngx_protobuf_find_node l field
      else if decide (key < field) then ngx_protobuf_find_node r field
      else Some value
  end.

(** Writing through the pointer [ngx_protobuf_find_node] gives. *)
Fixpoint set_node {V} (tree : rbtree V) (field : Z) (v : V) : rbtree V :=
  match tree with
  | Nil => Nil
  | Node c l key value r =>
      if decide (field < key) then Node c (set_node l field v) key value r
      else if decide (key < field) then Node c l key value (set_node r field v)
      else Node c l key v r
  end.

(** ** Data *)

Inductive ngx_protobuf_label_e :=
| NGX_PROTOBUF_LABEL_OPTIONAL | NGX_PROTOBUF_LABEL_REQUIRED | NGX_PROTOBUF_LABEL_REPEATED.
Inductive ngx_protobuf_type_e :=
| NGX_PROTOBUF_TYPE_DOUBLE | NGX_PROTOBUF_TYPE_FLOAT | NGX_PROTOBUF_TYPE_INT64 | NGX_PROTOBUF_TYPE_UINT64
| NGX_PROTOBUF_TYPE_INT32 | NGX_PROTOBUF_TYPE_FIXED64 | NGX_PROTOBUF_TYPE_FIXED32 | NGX_PROTOBUF_TYPE_BOOL
| NGX_PROTOBUF_TYPE_STRING | NGX_PROTOBUF_TYPE_GROUP | NGX_PROTOBUF_TYPE_MESSAGE | NGX_PROTOBUF_TYPE_BYTES
| NGX_PROTOBUF_TYPE_UINT32 | NGX_PROTOBUF_TYPE_ENUM | NGX_PROTOBUF_TYPE_SFIXED32 | NGX_PROTOBUF_TYPE_SFIXED64
| NGX_PROTOBUF_TYPE_SINT32 | NGX_PROTOBUF_TYPE_SINT64.
#[export] Instance ngx_protobuf_label_eq_dec : EqDecision ngx_protobuf_label_e.
Proof. solve_decision. Defined.
#[export] Instance ngx_protobuf_type_eq_dec : EqDecision ngx_protobuf_type_e.
Proof. solve_decision. Defined.

Section Data.
Context {M : Type}.

(** The union of a value by the member it was written through: zero bytes, a
    number in its first eight bytes, [v_bytes], [v_message], [v_repeated].  An
    element of an array is held the same way.  Through another member it would
    read as garbage. *)
Inductive ngx_protobuf_union_t :=
| UZero
| UWord (w : Z)
| UBytes (s : ngx_str_t)
| UMessage (m : M)
| URepeated (l : list ngx_protobuf_union_t).

(** [v_type] is [None] and the union [UZero] when the value is cleared. *)
Record ngx_protobuf_value := PValue { v_type : option ngx_protobuf_type_e; v_exists : bool; v_u : ngx_protobuf_union_t }.
Definition value_zero : ngx_protobuf_value := PValue None false UZero.

(** The functions are NULL in the descriptor of a field that is no message. *)
Record ngx_protobuf_field_descriptor_t := Desc {
  d_number : Z;
  d_wire_type : Z;
  d_label : ngx_protobuf_label_e;
  d_type : ngx_protobuf_type_e;
  d_width : Z;
  d_packed : bool;
  d_pack : option (M -> ngx_protobuf_context_t -> cres (ngx_rc * ngx_protobuf_context_t));
  d_unpack : option (M -> ngx_protobuf_context_t -> result M);
  d_size : option (M -> Z)
}.

(** What a node holds besides its key; [f_descriptor] may still be NULL. *)
Record ngx_protobuf_extension_field_t := Field {
  f_descriptor : option ngx_protobuf_field_descriptor_t;
  f_value : ngx_protobuf_value
}.
Definition field_zero : ngx_protobuf_extension_field_t := Field None value_zero.
Definition with_u (n : ngx_protobuf_extension_field_t) (x : ngx_protobuf_union_t) : ngx_protobuf_extension_field_t :=
  Field (f_descriptor n) (PValue (v_type (f_value n)) (v_exists (f_value n)) x).
Definition with_exists (n : ngx_protobuf_extension_field_t) : ngx_protobuf_extension_field_t :=
  Field (f_descriptor n) (PValue (v_type (f_value n)) true (v_u (f_value n))).

(** ** The members of the union *)

Definition v_uint64 (x : ngx_protobuf_union_t) : cres Z :=
  match x with UZero => mret 0 | UWord w => mret (u64 w) | _ => UB end.
Definition v_uint32 (x : ngx_protobuf_union_t) : cres Z := w ← v_uint64 x; mret (u32 w).
Definition v_bytes (x : ngx_protobuf_union_t) : cres ngx_str_t :=
  match x with UZero => mret ngx_str_null | UBytes s => mret s | _ => UB end.
Definition v_message (x : ngx_protobuf_union_t) : cres (option M) :=
  match x with UZero => mret None | UMessage m => mret (Some m) | _ => UB end.
Definition v_repeated (x : ngx_protobuf_union_t) : cres (array ngx_protobuf_union_t) :=
  match x with UZero => mret None | URepeated l => mret (Some l) | _ => UB end.

(** Storing 32 bits leaves the other half. *)
Definition put_uint32 (x : ngx_protobuf_union_t) (v : Z) : cres ngx_protobuf_union_t :=
  w ← v_uint64 x; mret (UWord (Z.shiftl (Z.shiftr w 32) 32 + u32 v)).

(** ** Elements of arrays

    An array of elements of [width] bytes is read as one of elements of [n]
    bytes: the element at [i] there. *)

(** The element that starts at that byte. *)
Definition element_at (n width : Z) (l : list ngx_protobuf_union_t) (i : nat) : cres ngx_protobuf_union_t :=
  if decide (0 < width /\ Z.rem (n * Z.of_nat i) width = 0)
  then of_opt (l !! Z.to_nat (Z.quot (n * Z.of_nat i) width)) else UB.

(** An integer of [n] bytes, which may be a part of an element. *)
Definition uint_at (n width : Z) (l : list ngx_protobuf_union_t) (i : nat) : cres Z :=
  let o := n * Z.of_nat i in
  if decide (0 < width /\ Z.rem o width + n <= Z.min width 8) then
    x ← of_opt (l !! Z.to_nat (Z.quot o width));
    w ← v_uint64 x;
    mret (Z.shiftr w (8 * Z.rem o width) mod 2 ^ (8 * n))
  else UB.
Definition uint32_at (d : ngx_protobuf_field_descriptor_t) := uint_at 4 (d_width d).
Definition uint64_at (d : ngx_protobuf_field_descriptor_t) := uint_at 8 (d_width d).
End Data.
Arguments ngx_protobuf_union_t M : clear implicits.
Arguments ngx_protobuf_value M : clear implicits.
Arguments ngx_protobuf_field_descriptor_t M : clear implicits.
Arguments ngx_protobuf_extension_field_t M : clear implicits.

(** ** The registry and the nodes *)

Section Env.
Context `{E : NgxEnv, R : NgxRbtree} {M : Type} (message_zero : M).
Abbreviation descriptor := (ngx_protobuf_field_descriptor_t M).
Abbreviation extension_field := (ngx_protobuf_extension_field_t M).
(** A node of the registry is its [descriptor], which may still be NULL. *)
Abbreviation registry := (option (rbtree (option descriptor))).
Abbreviation extensions := (option (rbtree extension_field)).

(** The tree and its sentinel; the sizes are those of nginx's structures. *)
Definition ngx_protobuf_init_rbtree {V} (tree : option (rbtree V)) (c : ngx_protobuf_context_t)
  : ngx_rc * option (rbtree V) * ngx_protobuf_context_t :=
  match tree with
  | Some _ => (NGX_OK, tree, c)
  | None =>
      let '(ok, c) := ngx_palloc c 40 in
      if negb ok then (NGX_ERROR, None, c) else
      let '(ok, c) := ngx_palloc c 24 in
      if negb ok then (NGX_ERROR, None, c) else (NGX_OK, Some Nil, c)
  end.

(** The node of a key, made of zero bytes if there is none. *)
Definition ngx_protobuf_rbtree_node {V} (zero : V) (tree : rbtree V) (key : Z) (size : Z) (c : ngx_protobuf_context_t)
  : option V * rbtree V * ngx_protobuf_context_t :=
  match ngx_protobuf_find_node tree key with
  | Some v => (Some v, tree, c)
  | None =>
      let '(ok, c) := ngx_palloc c size in
      if ok then (Some zero, rbtree_insert tree key zero, c) else (None, tree, c)
  end.

Definition ngx_protobuf_import_extension (reg : registry) (desc : descriptor) (c : ngx_protobuf_context_t)
  : ngx_rc * registry * ngx_protobuf_context_t :=
  let '(rc, reg, c) := ngx_protobuf_init_rbtree reg c in
  match reg with
  | Some tree =>
      if decide (rc ≠ NGX_OK) then (NGX_ERROR, reg, c) else
      let '(node, tree, c) := ngx_protobuf_rbtree_node None tree (d_number desc) 48 c in
      match node with
      | None => (NGX_ERROR, Some tree, c)
      | Some _ => (NGX_OK, Some (set_node tree (d_number desc) (Some desc)), c)
      end
  | None => (NGX_ERROR, None, c)
  end.

Definition ngx_protobuf_get_extension (ext : extensions) (field : Z) : option (ngx_protobuf_value M) :=
  match ext with
  | None => None
  | Some tree => f_value <$> ngx_protobuf_find_node tree field
  end.

(** The descriptor is set when the node has none. *)
Definition set_descriptor (n : extension_field) (desc : option descriptor) : extension_field :=
  match f_descriptor n with None => Field desc (f_value n) | Some _ => n end.

(** The node is the one with the key [field] of the tree of the result.  The
    registry is followed without a test. *)
Definition ngx_protobuf_get_extension_node (ext : extensions) (reg : registry) (field : Z) (c : ngx_protobuf_context_t)
  : cres (ngx_rc * extensions * option extension_field * ngx_protobuf_context_t) :=
  reg ← of_opt reg;
  match ngx_protobuf_find_node reg field with
  | None => mret (NGX_ABORT, ext, None, c)
  | Some desc =>
      let '(rc, ext, c) := ngx_protobuf_init_rbtree ext c in
      if decide (rc ≠ NGX_OK) then mret (NGX_ERROR, ext, None, c) else
      tree ← of_opt ext;
      let '(node, tree, c) := ngx_protobuf_rbtree_node field_zero tree field 80 c in
      match node with
      | None => mret (NGX_ERROR, Some tree, None, c)
      | Some n =>
          let n := set_descriptor n desc in
          mret (NGX_OK, Some (set_node tree field n), Some n, c)
      end
  end.

(** Where the next value goes: a new element, the message, made if there is
    none, or the union itself.  The result says whether there is such a place. *)
Definition ngx_protobuf_extension_field (n : extension_field) (c : ngx_protobuf_context_t)
  : cres (bool * extension_field * ngx_protobuf_context_t) :=
  desc ← of_opt (f_descriptor n);
  if decide (d_label desc = NGX_PROTOBUF_LABEL_REPEATED) then
    l ← v_repeated (v_u (f_value n));
    let '(ok, l, c) := ngx_protobuf_push_array UZero l c (pool c) in
    mret (ok, match l with Some l => with_u n (URepeated l) | None => n end, c)
  else if decide (d_type desc = NGX_PROTOBUF_TYPE_MESSAGE) then
    m ← v_message (v_u (f_value n));
    match m with
    | Some _ => mret (true, n, c)
    | None => let '(ok, c) := ngx_palloc c (d_width desc) in
              mret (ok, if ok then with_u n (UMessage message_zero) else n, c)
    end
  else mret (true, n, c).

(** Reading and writing that place. *)
Definition obj_get (n : extension_field) : cres (ngx_protobuf_union_t M) :=
  desc ← of_opt (f_descriptor n);
  if decide (d_label desc = NGX_PROTOBUF_LABEL_REPEATED) then
    l ← v_repeated (v_u (f_value n)); of_opt (List.last (map Some (elts l)) None)
  else mret (v_u (f_value n)).
Definition obj_set (n : extension_field) (x : ngx_protobuf_union_t M) : cres extension_field :=
  desc ← of_opt (f_descriptor n);
  if decide (d_label desc = NGX_PROTOBUF_LABEL_REPEATED) then
    l ← v_repeated (v_u (f_value n)); mret (with_u n (URepeated (set_last_value (elts l) x)))
  else mret (with_u n x).

(** [value] is NULL or a value. *)
Definition ngx_protobuf_set_extension (ext : extensions) (reg : registry) (field : Z)
    (value : option (ngx_protobuf_value M)) (c : ngx_protobuf_context_t)
  : cres (ngx_rc * extensions * ngx_protobuf_context_t) :=
  '(rc, ext, node, c) ← ngx_protobuf_get_extension_node ext reg field c;
  if decide (rc ≠ NGX_OK) then mret (rc, ext, c) else
  n ← of_opt node;
  tree ← of_opt ext;
  match value with
  | Some v =>
      if v_exists v then
        desc ← of_opt (f_descriptor n);
        if decide (v_type v ≠ Some (d_type desc)) then mret (NGX_ABORT, ext, c)
        else mret (NGX_OK, Some (set_node tree field (Field (f_descriptor n) v)), c)
      else mret (NGX_OK, Some (set_node tree field (Field (f_descriptor n) value_zero)), c)
  | None => mret (NGX_OK, Some (set_node tree field (Field (f_descriptor n) value_zero)), c)
  end.

(** The place made is the one [obj_set] writes. *)
Definition ngx_protobuf_add_extension (ext : extensions) (reg : registry) (field : Z) (c : ngx_protobuf_context_t)
  : cres (ngx_rc * extensions * ngx_protobuf_context_t) :=
  '(rc, ext, node, c) ← ngx_protobuf_get_extension_node ext reg field c;
  if decide (rc ≠ NGX_OK) then mret (rc, ext, c) else
  n ← of_opt node;
  tree ← of_opt ext;
  '(ok, n, c) ← ngx_protobuf_extension_field n c;
  mret (if negb ok then NGX_ERROR else NGX_OK, Some (set_node tree field n), c).

Definition ngx_protobuf_clear_extension (ext : extensions) (field : Z) : extensions :=
  match ext with
  | None => None
  | Some tree =>
      match ngx_protobuf_find_node tree field with
      | None => ext
      | Some n => Some (set_node tree field (Field (f_descriptor n) value_zero))
      end
  end.

(** ** Unpacking *)

(** Reading a number into the place: [old] and [store] are the member of the
    union that the pointer is taken for. *)
Definition read_member (old : ngx_protobuf_union_t M -> cres Z) (store : ngx_protobuf_union_t M -> Z -> cres (ngx_protobuf_union_t M))
    (read : ngx_protobuf_context_t -> Z -> Z -> cres (ngx_rc * ngx_protobuf_context_t * Z))
    (obj : ngx_protobuf_union_t M) (c : ngx_protobuf_context_t)
  : cres (ngx_rc * ngx_protobuf_union_t M * ngx_protobuf_context_t) :=
  o ← old obj;
  '(rc, c, v) ← read c (last c) o;
  obj ← store obj v;
  mret (rc, obj, c).
Definition read_word32 := read_member v_uint32 put_uint32.
Definition read_word64 := read_member v_uint64 (fun _ v => mret (UWord (u64 v))).

Definition ngx_protobuf_unpack_extension_value (field : descriptor) (obj : ngx_protobuf_union_t M) (c : ngx_protobuf_context_t)
  : cres (ngx_rc * ngx_protobuf_union_t M * ngx_protobuf_context_t) :=
  let end_ := last c in
  match d_type field with
  | NGX_PROTOBUF_TYPE_MESSAGE =>
      '(rc, c, mlen) ← ngx_protobuf_read_uint32 c end_ junk32;
      if decide (rc ≠ NGX_OK) then mret (rc, obj, c) else
      unpack ← of_opt (d_unpack field);
      m ← v_message obj;
      '(rc, m, c) ← unpack (default message_zero m) (set_last c (ptr_add (pos c) mlen));
      mret (rc, UMessage m, set_last c end_)
  | NGX_PROTOBUF_TYPE_BYTES | NGX_PROTOBUF_TYPE_STRING =>
      old ← v_bytes obj;
      '(rc, c, s) ← ngx_protobuf_read_string c end_ old (pool c);
      mret (rc, UBytes s, c)
  | NGX_PROTOBUF_TYPE_BOOL => read_word32 ngx_protobuf_read_bool obj c
  | NGX_PROTOBUF_TYPE_ENUM | NGX_PROTOBUF_TYPE_UINT32 | NGX_PROTOBUF_TYPE_INT32 => read_word32 ngx_protobuf_read_uint32 obj c
  | NGX_PROTOBUF_TYPE_SINT32 => read_word32 ngx_protobuf_read_sint32 obj c
  | NGX_PROTOBUF_TYPE_UINT64 | NGX_PROTOBUF_TYPE_INT64 => read_word64 ngx_protobuf_read_uint64 obj c
  | NGX_PROTOBUF_TYPE_SINT64 => read_word64 ngx_protobuf_read_sint64 obj c
  | NGX_PROTOBUF_TYPE_FIXED32 => read_word32 ngx_protobuf_read_fixed32 obj c
  | NGX_PROTOBUF_TYPE_SFIXED32 => read_word32 ngx_protobuf_read_sfixed32 obj c
  | NGX_PROTOBUF_TYPE_FLOAT => read_word32 ngx_protobuf_read_float obj c
  | NGX_PROTOBUF_TYPE_FIXED64 => read_word64 ngx_protobuf_read_fixed64 obj c
  | NGX_PROTOBUF_TYPE_SFIXED64 => read_word64 ngx_protobuf_read_sfixed64 obj c
  | NGX_PROTOBUF_TYPE_DOUBLE => read_word64 ngx_protobuf_read_double obj c
  | NGX_PROTOBUF_TYPE_GROUP => mret (NGX_OK, obj, c)
  end.

(** One value into the next place of a node. *)
Definition unpack_value (desc : descriptor) (n : extension_field) (c : ngx_protobuf_context_t)
  : cres (ngx_rc * extension_field * ngx_protobuf_context_t) :=
  '(ok, n, c) ← ngx_protobuf_extension_field n c;
  if negb ok then mret (NGX_ERROR, n, c) else
  obj ← obj_get n;
  '(rc, obj, c) ← ngx_protobuf_unpack_extension_value desc obj c;
  n ← obj_set n obj;
  mret (rc, n, c).

(** [while ( *pos < mend)], with [ctx->buffer.last] at [mend]. *)
Fixpoint unpack_packed_loop (fuel : nat) (desc : descriptor) (mend : Z) (n : extension_field) (c : ngx_protobuf_context_t)
  : cres (ngx_rc * extension_field * ngx_protobuf_context_t) :=
  if decide (mend <= pos c) then mret (NGX_OK, n, c) else
  match fuel with
  | O => NoFuel
  | S fuel =>
      '(rc, n, c) ← unpack_value desc n c;
      if decide (rc ≠ NGX_OK) then mret (rc, n, c) else unpack_packed_loop fuel desc mend (with_exists n) c
  end.

(** The node is set in the tree before and after. *)
Definition ngx_protobuf_unpack_extension (fuel : nat) (field wire : Z) (c : ngx_protobuf_context_t) (reg : registry)
    (ext : extensions) : cres (ngx_rc * extensions * ngx_protobuf_context_t) :=
  let end_ := last c in
  match reg with
  | None => '(rc, c) ← ngx_protobuf_skip c end_ wire; mret (rc, ext, c)
  | Some reg =>
      match ngx_protobuf_find_node reg field with
      | None => mret (NGX_DECLINED, ext, c)
      | Some desc =>
          desc ← of_opt desc;
          let packed := bool_decide (d_wire_type desc ≠ wire) in
          if decide (d_wire_type desc ≠ wire /\ ¬ (wire = NGX_PROTOBUF_WIRETYPE_LENGTH_DELIMITED /\ d_packed desc = true))
          then mret (NGX_ABORT, ext, c) else
          if negb (pool c) then mret (NGX_ERROR, ext, c) else
          let '(rc, ext, c) := ngx_protobuf_init_rbtree ext c in
          if decide (rc ≠ NGX_OK) then mret (NGX_ERROR, ext, c) else
          tree ← of_opt ext;
          let '(onode, tree, c) := ngx_protobuf_rbtree_node field_zero tree field 80 c in
          match onode with
          | None => mret (NGX_ERROR, Some tree, c)
          | Some n =>
              let n := set_descriptor n (Some desc) in
              '(rc, n, c) ←
                (if packed then
                   '(rc, c, mlen) ← ngx_protobuf_read_uint32 c end_ junk32;
                   if decide (rc ≠ NGX_OK) then mret (NGX_ABORT, n, c) else
                   let mend := ptr_add (pos c) mlen in
                   if decide (end_ < mend) then mret (NGX_ABORT, n, c) else
                   '(rc, n, c) ← unpack_packed_loop fuel desc mend n (set_last c mend);
                   mret (rc, n, set_last c end_)
                 else unpack_value desc n c);
              let n := if decide (rc = NGX_OK)
                       then Field (f_descriptor n) (PValue (Some (d_type desc)) true (v_u (f_value n))) else n in
              mret (rc, Some (set_node tree field n), c)
          end
      end
  end.

(** ** The nodes of a tree in a range of keys *)

Section Iterate.
Context {V S : Type} (lower upper : Z) (fptr : V -> S -> cres (ngx_rc * S)).

Definition root_from (t : rbtree V) : bool := match t with Nil => false | Node _ _ k _ _ => bool_decide (lower <= k) end.
Definition root_upto (t : rbtree V) : bool := match t with Nil => false | Node _ _ k _ _ => bool_decide (k <= upper) end.

(** A subtree is left out by the key of its root. *)
Fixpoint ngx_protobuf_rbtree_node_iterate (t : rbtree V) (s : S) : cres (ngx_rc * S) :=
  match t with
  | Nil => mret (NGX_OK, s)
  | Node c l key value r =>
      '(rc, s) ← (if root_from l then ngx_protobuf_rbtree_node_iterate l s else mret (NGX_OK, s));
      if decide (rc ≠ NGX_OK) then mret (rc, s) else
      '(rc, s) ← (if decide (lower <= key <= upper) then fptr value s else mret (NGX_OK, s));
      if decide (rc ≠ NGX_OK) then mret (rc, s) else
      if root_upto r then ngx_protobuf_rbtree_node_iterate r s else mret (NGX_OK, s)
  end.
Definition ngx_protobuf_rbtree_iterate (tree : rbtree V) (s : S) : cres (ngx_rc * S) :=
  match tree with Nil => mret (NGX_OK, s) | Node _ _ _ _ _ => ngx_protobuf_rbtree_node_iterate tree s end.
End Iterate.

(** ** Sizes *)

(** [for (i = 0; i < nelts; ++i) p += size(i);] *)
Fixpoint size_loop (size : nat -> cres Z) (i nelts : nat) (p : Z) : cres Z :=
  match nelts with
  | O => mret p
  | S nelts => n ← size i; size_loop size (S i) nelts (u64 (p + n))
  end.
Definition size_with (get : nat -> cres Z) (size : Z -> Z) (i : nat) : cres Z := v ← get i; mret (size v).

Definition ngx_protobuf_packed_field_size (field : descriptor) (data : array (ngx_protobuf_union_t M)) : cres Z :=
  match elts data with
  | [] => mret 0
  | l =>
      let nelts := length l in
      let loop get size := size_loop (size_with get size) 0 nelts 0 in
      match d_type field with
      | NGX_PROTOBUF_TYPE_BOOL => loop (uint32_at field l) (fun v => ngx_protobuf_size_uint32 (c_bool v))
      | NGX_PROTOBUF_TYPE_ENUM | NGX_PROTOBUF_TYPE_UINT32 | NGX_PROTOBUF_TYPE_INT32 =>
          loop (uint32_at field l) ngx_protobuf_size_uint32
      | NGX_PROTOBUF_TYPE_SINT32 => loop (uint32_at field l) (fun v => ngx_protobuf_size_sint32 (i32 v))
      | NGX_PROTOBUF_TYPE_UINT64 | NGX_PROTOBUF_TYPE_INT64 => loop (uint64_at field l) ngx_protobuf_size_uint64
      | NGX_PROTOBUF_TYPE_SINT64 => loop (uint64_at field l) (fun v => ngx_protobuf_size_sint64 (i64 v))
      | NGX_PROTOBUF_TYPE_FIXED32 | NGX_PROTOBUF_TYPE_SFIXED32 | NGX_PROTOBUF_TYPE_FLOAT => mret (u64 (4 * Z.of_nat nelts))
      | NGX_PROTOBUF_TYPE_FIXED64 | NGX_PROTOBUF_TYPE_SFIXED64 | NGX_PROTOBUF_TYPE_DOUBLE => mret (u64 (8 * Z.of_nat nelts))
      | _ => mret 0
      end
  end.

(** Messages are taken eight bytes apart, strings sixteen. *)
Definition message_at (d : descriptor) (l : list (ngx_protobuf_union_t M)) (i : nat) : cres M :=
  x ← element_at 8 (d_width d) l i; m ← v_message x; mret (default message_zero m).
Definition string_at (d : descriptor) (l : list (ngx_protobuf_union_t M)) (i : nat) : cres ngx_str_t :=
  x ← element_at 16 (d_width d) l i; v_bytes x.

Definition ngx_protobuf_repeated_field_size (field : descriptor) (data : array (ngx_protobuf_union_t M)) : cres Z :=
  let fnum := d_number field in
  match elts data with
  | [] => mret 0
  | l =>
      let nelts := length l in
      let loop get size := size_loop (size_with get size) 0 nelts 0 in
      match d_type field with
      | NGX_PROTOBUF_TYPE_MESSAGE =>
          size_loop (fun i => m ← message_at field l i; size ← of_opt (d_size field);
                              mret (ngx_protobuf_size_message_field (size m) fnum)) 0 nelts 0
      | NGX_PROTOBUF_TYPE_BYTES | NGX_PROTOBUF_TYPE_STRING =>
          size_loop (fun i => s ← string_at field l i; mret (ngx_protobuf_size_string_field s fnum)) 0 nelts 0
      | NGX_PROTOBUF_TYPE_BOOL => loop (uint32_at field l) (fun v => ngx_protobuf_size_uint32_field (c_bool v) fnum)
      | NGX_PROTOBUF_TYPE_ENUM | NGX_PROTOBUF_TYPE_UINT32 | NGX_PROTOBUF_TYPE_INT32 =>
          loop (uint32_at field l) (fun v => ngx_protobuf_size_uint32_field v fnum)
      | NGX_PROTOBUF_TYPE_SINT32 => loop (uint32_at field l) (fun v => ngx_protobuf_size_sint32_field (i32 v) fnum)
      | NGX_PROTOBUF_TYPE_UINT64 | NGX_PROTOBUF_TYPE_INT64 =>
          loop (uint64_at field l) (fun v => ngx_protobuf_size_uint64_field v fnum)
      | NGX_PROTOBUF_TYPE_SINT64 => loop (uint64_at field l) (fun v => ngx_protobuf_size_sint64_field (i64 v) fnum)
      | NGX_PROTOBUF_TYPE_FIXED32 | NGX_PROTOBUF_TYPE_SFIXED32 | NGX_PROTOBUF_TYPE_FLOAT =>
          mret (u64 (Z.of_nat nelts * ngx_protobuf_size_fixed32_field fnum))
      | NGX_PROTOBUF_TYPE_FIXED64 | NGX_PROTOBUF_TYPE_SFIXED64 | NGX_PROTOBUF_TYPE_DOUBLE =>
          mret (u64 (Z.of_nat nelts * ngx_protobuf_size_fixed64_field fnum))
      | NGX_PROTOBUF_TYPE_GROUP => mret 0
      end
  end.

Definition ngx_protobuf_single_field_size (field : descriptor) (value : ngx_protobuf_value M) : cres Z :=
  let fnum := d_number field in
  match d_type field with
  | NGX_PROTOBUF_TYPE_MESSAGE =>
      m ← v_message (v_u value); m ← of_opt m; size ← of_opt (d_size field);
      mret (ngx_protobuf_size_message_field (size m) fnum)
  | NGX_PROTOBUF_TYPE_BYTES | NGX_PROTOBUF_TYPE_STRING =>
      s ← v_bytes (v_u value); mret (ngx_protobuf_size_string_field s fnum)
  | NGX_PROTOBUF_TYPE_BOOL => v ← v_uint32 (v_u value); mret (ngx_protobuf_size_uint32_field (c_bool v) fnum)
  | NGX_PROTOBUF_TYPE_ENUM | NGX_PROTOBUF_TYPE_UINT32 | NGX_PROTOBUF_TYPE_INT32 =>
      v ← v_uint32 (v_u value); mret (ngx_protobuf_size_uint32_field v fnum)
  | NGX_PROTOBUF_TYPE_SINT32 => v ← v_uint32 (v_u value); mret (ngx_protobuf_size_sint32_field (i32 v) fnum)
  | NGX_PROTOBUF_TYPE_UINT64 | NGX_PROTOBUF_TYPE_INT64 =>
      v ← v_uint64 (v_u value); mret (ngx_protobuf_size_uint64_field v fnum)
  | NGX_PROTOBUF_TYPE_SINT64 => v ← v_uint64 (v_u value); mret (ngx_protobuf_size_sint64_field (i64 v) fnum)
  | NGX_PROTOBUF_TYPE_FIXED32 | NGX_PROTOBUF_TYPE_SFIXED32 | NGX_PROTOBUF_TYPE_FLOAT =>
      mret (ngx_protobuf_size_fixed32_field fnum)
  | NGX_PROTOBUF_TYPE_FIXED64 | NGX_PROTOBUF_TYPE_SFIXED64 | NGX_PROTOBUF_TYPE_DOUBLE =>
      mret (ngx_protobuf_size_fixed64_field fnum)
  | NGX_PROTOBUF_TYPE_GROUP => mret 0
  end.

(** [data] is the [size_t] added to. *)
Definition ngx_protobuf_size_extension (field : extension_field) (size : Z) : cres (ngx_rc * Z) :=
  desc ← of_opt (f_descriptor field);
  let fnum := d_number desc in
  let fval := f_value field in
  if negb (v_exists fval) then mret (NGX_OK, size) else
  if decide (d_label desc = NGX_PROTOBUF_LABEL_REPEATED) then
    data ← v_repeated (v_u fval);
    if d_packed desc then
      n ← ngx_protobuf_packed_field_size desc data;
      mret (NGX_OK, u64 (size + ngx_protobuf_size_message_field n fnum))
    else n ← ngx_protobuf_repeated_field_size desc data; mret (NGX_OK, u64 (size + n))
  else n ← ngx_protobuf_single_field_size desc fval; mret (NGX_OK, u64 (size + n)).

(** [-1] is the greatest key. *)
Definition ngx_protobuf_size_extensions (ext : rbtree extension_field) : cres Z :=
  '(_, size) ← ngx_protobuf_rbtree_iterate 0 18446744073709551615 ngx_protobuf_size_extension ext 0;
  mret size.

(** ** Packing *)

(** What a [double] is after its way through a [float]: the parameter of
    [ngx_protobuf_write_double_field], whose key announces four bytes. *)
Context (narrow : Z -> Z).
Definition ngx_protobuf_write_double_field (c : ngx_protobuf_context_t) (val field : Z) : cres ngx_protobuf_context_t :=
  c ← ngx_protobuf_write_uint32 c (NGX_PROTOBUF_HEADER field NGX_PROTOBUF_WIRETYPE_FIXED32);
  ngx_protobuf_write_double c (narrow val).

Fixpoint write_loop (write : nat -> ngx_protobuf_context_t -> cres ngx_protobuf_context_t) (i nelts : nat)
    (c : ngx_protobuf_context_t) : cres ngx_protobuf_context_t :=
  match nelts with
  | O => mret c
  | S nelts => c ← write i c; write_loop write (S i) nelts c
  end.
Definition write_with {V} (get : nat -> cres V) (write : ngx_protobuf_context_t -> V -> cres ngx_protobuf_context_t)
    (i : nat) (c : ngx_protobuf_context_t) : cres ngx_protobuf_context_t := v ← get i; write c v.

Definition ngx_protobuf_pack_packed_field (field : descriptor) (c : ngx_protobuf_context_t)
    (data : array (ngx_protobuf_union_t M)) : cres (ngx_rc * ngx_protobuf_context_t) :=
  match elts data with
  | [] => mret (NGX_OK, c)
  | l =>
      n ← ngx_protobuf_packed_field_size field data;
      c ← ngx_protobuf_write_message_header c n (d_number field);
      let loop get write := write_loop (write_with get write) 0 (length l) c in
      c ← match d_type field with
          | NGX_PROTOBUF_TYPE_BOOL => loop (uint32_at field l) (fun c v => ngx_protobuf_write_uint32 c (c_bool v))
          | NGX_PROTOBUF_TYPE_ENUM | NGX_PROTOBUF_TYPE_UINT32 | NGX_PROTOBUF_TYPE_INT32 =>
              loop (uint32_at field l) ngx_protobuf_write_uint32
          | NGX_PROTOBUF_TYPE_SINT32 => loop (uint32_at field l) (fun c v => ngx_protobuf_write_sint32 c (i32 v))
          | NGX_PROTOBUF_TYPE_UINT64 | NGX_PROTOBUF_TYPE_INT64 => loop (uint64_at field l) ngx_protobuf_write_uint64
          | NGX_PROTOBUF_TYPE_SINT64 => loop (uint64_at field l) (fun c v => ngx_protobuf_write_sint64 c (i64 v))
          | NGX_PROTOBUF_TYPE_FIXED32 => loop (uint32_at field l) ngx_protobuf_write_fixed32
          | NGX_PROTOBUF_TYPE_SFIXED32 => loop (uint32_at field l) (fun c v => ngx_protobuf_write_sfixed32 c (i32 v))
          | NGX_PROTOBUF_TYPE_FLOAT => loop (uint32_at field l) ngx_protobuf_write_float
          | NGX_PROTOBUF_TYPE_FIXED64 => loop (uint64_at field l) ngx_protobuf_write_fixed64
          | NGX_PROTOBUF_TYPE_SFIXED64 => loop (uint64_at field l) (fun c v => ngx_protobuf_write_sfixed64 c (i64 v))
          | NGX_PROTOBUF_TYPE_DOUBLE => loop (uint64_at field l) ngx_protobuf_write_double
          | _ => mret c
          end;
      mret (NGX_OK, c)
  end.

(** The result of packing the message is dropped. *)
Definition write_message (field : descriptor) (c : ngx_protobuf_context_t) (m : M) : cres ngx_protobuf_context_t :=
  size ← of_opt (d_size field);
  pack ← of_opt (d_pack field);
  c ← ngx_protobuf_write_message_header c (size m) (d_number field);
  '(_, c) ← pack m c;
  mret c.

Definition ngx_protobuf_pack_repeated_field (field : descriptor) (c : ngx_protobuf_context_t)
    (data : array (ngx_protobuf_union_t M)) : cres (ngx_rc * ngx_protobuf_context_t) :=
  let fnum := d_number field in
  match elts data with
  | [] => mret (NGX_OK, c)
  | l =>
      let loop get write := write_loop (write_with get write) 0 (length l) c in
      c ← match d_type field with
          | NGX_PROTOBUF_TYPE_MESSAGE => write_loop (write_with (message_at field l) (write_message field)) 0 (length l) c
          | NGX_PROTOBUF_TYPE_BYTES | NGX_PROTOBUF_TYPE_STRING =>
              write_loop (write_with (string_at field l) (fun c s => ngx_protobuf_write_string_field c s fnum)) 0 (length l) c
          | NGX_PROTOBUF_TYPE_BOOL => loop (uint32_at field l) (fun c v => ngx_protobuf_write_uint32_field c (c_bool v) fnum)
          | NGX_PROTOBUF_TYPE_ENUM | NGX_PROTOBUF_TYPE_UINT32 | NGX_PROTOBUF_TYPE_INT32 =>
              loop (uint32_at field l) (fun c v => ngx_protobuf_write_uint32_field c v fnum)
          | NGX_PROTOBUF_TYPE_SINT32 => loop (uint32_at field l) (fun c v => ngx_protobuf_write_sint32_field c (i32 v) fnum)
          | NGX_PROTOBUF_TYPE_UINT64 | NGX_PROTOBUF_TYPE_INT64 =>
              loop (uint64_at field l) (fun c v => ngx_protobuf_write_uint64_field c v fnum)
          | NGX_PROTOBUF_TYPE_SINT64 => loop (uint64_at field l) (fun c v => ngx_protobuf_write_sint64_field c (i64 v) fnum)
          | NGX_PROTOBUF_TYPE_FIXED32 => loop (uint32_at field l) (fun c v => ngx_protobuf_write_fixed32_field c v fnum)
          | NGX_PROTOBUF_TYPE_SFIXED32 =>
              loop (uint32_at field l) (fun c v => ngx_protobuf_write_sfixed32_field c (i32 v) fnum)
          | NGX_PROTOBUF_TYPE_FLOAT => loop (uint32_at field l) (fun c v => ngx_protobuf_write_float_field c v fnum)
          | NGX_PROTOBUF_TYPE_FIXED64 => loop (uint64_at field l) (fun c v => ngx_protobuf_write_fixed64_field c v fnum)
          | NGX_PROTOBUF_TYPE_SFIXED64 =>
              loop (uint64_at field l) (fun c v => ngx_protobuf_write_sfixed64_field c (i64 v) fnum)
          | NGX_PROTOBUF_TYPE_DOUBLE => loop (uint64_at field l) (fun c v => ngx_protobuf_write_double_field c v fnum)
          | NGX_PROTOBUF_TYPE_GROUP => mret c
          end;
      mret (NGX_OK, c)
  end.

Definition ngx_protobuf_pack_single_field (field : descriptor) (c : ngx_protobuf_context_t) (value : ngx_protobuf_value M)
  : cres (ngx_rc * ngx_protobuf_context_t) :=
  let fnum := d_number field in
  let w32 write := (v ← v_uint32 (v_u value); write v) : cres ngx_protobuf_context_t in
  let w64 write := (v ← v_uint64 (v_u value); write v) : cres ngx_protobuf_context_t in
  c ← match d_type field with
      | NGX_PROTOBUF_TYPE_MESSAGE => m ← v_message (v_u value); m ← of_opt m; write_message field c m
      | NGX_PROTOBUF_TYPE_BYTES | NGX_PROTOBUF_TYPE_STRING =>
          s ← v_bytes (v_u value); ngx_protobuf_write_string_field c s fnum
      | NGX_PROTOBUF_TYPE_BOOL => w32 (fun v => ngx_protobuf_write_uint32_field c (c_bool v) fnum)
      | NGX_PROTOBUF_TYPE_ENUM | NGX_PROTOBUF_TYPE_UINT32 | NGX_PROTOBUF_TYPE_INT32 =>
          w32 (fun v => ngx_protobuf_write_uint32_field c v fnum)
      | NGX_PROTOBUF_TYPE_SINT32 => w32 (fun v => ngx_protobuf_write_sint32_field c (i32 v) fnum)
      | NGX_PROTOBUF_TYPE_UINT64 | NGX_PROTOBUF_TYPE_INT64 => w64 (fun v => ngx_protobuf_write_uint64_field c v fnum)
      | NGX_PROTOBUF_TYPE_SINT64 => w64 (fun v => ngx_protobuf_write_sint64_field c (i64 v) fnum)
      | NGX_PROTOBUF_TYPE_FIXED32 => w32 (fun v => ngx_protobuf_write_fixed32_field c v fnum)
      | NGX_PROTOBUF_TYPE_SFIXED32 => w32 (fun v => ngx_protobuf_write_sfixed32_field c (i32 v) fnum)
      | NGX_PROTOBUF_TYPE_FLOAT => w32 (fun v => ngx_protobuf_write_float_field c v fnum)
      | NGX_PROTOBUF_TYPE_FIXED64 => w64 (fun v => ngx_protobuf_write_fixed64_field c v fnum)
      | NGX_PROTOBUF_TYPE_SFIXED64 => w64 (fun v => ngx_protobuf_write_sfixed64_field c (i64 v) fnum)
      | NGX_PROTOBUF_TYPE_DOUBLE => w64 (fun v => ngx_protobuf_write_double_field c v fnum)
      | NGX_PROTOBUF_TYPE_GROUP => mret c
      end;
  mret (NGX_OK, c).

Definition ngx_protobuf_pack_extension (field : extension_field) (c : ngx_protobuf_context_t)
  : cres (ngx_rc * ngx_protobuf_context_t) :=
  let fval := f_value field in
  if negb (v_exists fval) then mret (NGX_OK, c) else
  '(_, size) ← ngx_protobuf_size_extension field 0;
  if decide (last c < ptr_add (pos c) size) then mret (NGX_ABORT, c) else
  desc ← of_opt (f_descriptor field);
  if decide (d_label desc = NGX_PROTOBUF_LABEL_REPEATED) then
    data ← v_repeated (v_u fval);
    if d_packed desc then ngx_protobuf_pack_packed_field desc c data else ngx_protobuf_pack_repeated_field desc c data
  else ngx_protobuf_pack_single_field desc c fval.

Definition ngx_protobuf_pack_extensions (ext : rbtree extension_field) (lower upper : Z) (c : ngx_protobuf_context_t)
  : cres (ngx_rc * ngx_protobuf_context_t) :=
  ngx_protobuf_rbtree_iterate lower upper ngx_protobuf_pack_extension ext c.
End Env.
