(* ===== verification/NgxProtobufExtTree.v ===== *)
(** Protocol buffers, the trees of extensions: nginx's red-black trees as finite
    maps, the registry and the extension fields as what they hold by number,
    and the iteration over a range of keys. *)

From Stdlib Require Import ZArith Lia Sorted.
From S2P Require Import Prelude NgxRbtree NgxProtobuf NgxProtobufWire NgxProtobufMsg NgxProtobufExt.

Open Scope Z_scope.

Section Tree.
Context {V : Type}.
Implicit Types t l r : rbtree V.

Abbreviation keys t := (map fst (inorder t)).

Lemma elem_of_keys t k : k ∈ keys t <-> exists v, (k, v) ∈ inorder t.
Proof.
  rewrite list_elem_of_In, in_map_iff. split.
  - intros ([k' v] & <- & Hi). exists v. by apply list_elem_of_In.
  - intros (v & Hv). exists (k, v). split; [done|]. by apply list_elem_of_In.
Qed.

(** Looking a key up. *)
Lemma find_inorder t k v : bst t -> ngx_protobuf_find_node t k = Some v <-> (k, v) ∈ inorder t.
Proof.
  induction t as [|c l IHl k' v' r IHr]; cbn [ngx_protobuf_find_node inorder].
  - split; [done|]. by intros ?%not_elem_of_nil.
  - intros (Hl & Hr & Hlk & Hrk)%bst_node. rewrite elem_of_app, elem_of_cons.
    assert (forall x w, (x, w) ∈ inorder l -> x < k') as Hlk'.
    { intros x w Hx. apply Hlk, elem_of_keys. eauto. }
    assert (forall x w, (x, w) ∈ inorder r -> k' < x) as Hrk'.
    { intros x w Hx. apply Hrk, elem_of_keys. eauto. }
    repeat case_decide.
    + rewrite IHl by done. split; [tauto|]. intros [?|[[= -> ->]|?%Hrk']]; [done|lia|lia].
    + rewrite IHr by done. split; [tauto|]. intros [?%Hlk'|[[= -> ->]|?]]; [lia|lia|done].
    + assert (k = k') as -> by lia. split; [intros [= ->]; tauto|].
      intros [?%Hlk'|[[= ->]|?%Hrk']]; [lia|done|lia].
Qed.

Lemma find_none t k : bst t -> ngx_protobuf_find_node t k = None -> k ∉ keys t.
Proof. intros Ht Hf (v & Hv)%elem_of_keys. apply find_inorder in Hv; [|done]. congruence. Qed.

(** Changing a node in place. *)
Lemma set_node_keys t k v : keys (set_node t k v) = keys t.
Proof.
  induction t as [|c l IHl k' v' r IHr]; cbn [set_node]; [done|]. repeat case_decide; cbn [inorder];
    rewrite !map_app; cbn [map fst]; congruence.
Qed.

Lemma set_node_bst t k v : bst t -> bst (set_node t k v).
Proof. unfold bst. by rewrite set_node_keys. Qed.

Lemma find_set_node t k v k' : ngx_protobuf_find_node (set_node t k v) k' =
  if decide (k' = k) then (fun _ => v) <$> ngx_protobuf_find_node t k else ngx_protobuf_find_node t k'.
Proof.
  induction t as [|c l IHl k0 v0 r IHr]; cbn [set_node ngx_protobuf_find_node]; [by case_decide|].
  destruct (decide (k < k0)); [|destruct (decide (k0 < k))]; cbn [ngx_protobuf_find_node]; rewrite ?IHl, ?IHr;
    repeat case_decide; try done; lia.
Qed.

(** ** Iterating *)

(** The nodes in order, up to the first failure. *)
Fixpoint visit {S} (fptr : V -> S -> cres (ngx_rc * S)) (vs : list V) (s : S) : cres (ngx_rc * S) :=
  match vs with
  | [] => mret (NGX_OK, s)
  | v :: vs => '(rc, s) ← fptr v s; if decide (rc ≠ NGX_OK) then mret (rc, s) else visit fptr vs s
  end.

Lemma visit_app {S} (fptr : V -> S -> cres (ngx_rc * S)) vs ws s :
  visit fptr (vs ++ ws) s = '(rc, s) ← visit fptr vs s; if decide (rc ≠ NGX_OK) then mret (rc, s) else visit fptr ws s.
Proof.
  revert s. induction vs as [|v vs IH]; intros s; cbn [app visit]; [done|].
  destruct (fptr v s) as [[rc s']| |]; [|done..]. rewrite !ok_bind. case_decide; [|apply IH].
  cbn [mret cres_ret]. by rewrite ok_bind, decide_True.
Qed.

(** A tree whose keys all lie in the range is visited from left to right. *)
Lemma iterate_all {S} lower upper (fptr : V -> S -> cres (ngx_rc * S)) t s :
  Forall (fun k => lower <= k <= upper) (keys t) ->
  ngx_protobuf_rbtree_iterate lower upper fptr t s = visit fptr (map snd (inorder t)) s.
Proof.
  intros Ht. unfold ngx_protobuf_rbtree_iterate.
  assert (ngx_protobuf_rbtree_node_iterate lower upper fptr t s = visit fptr (map snd (inorder t)) s) as E; [|by destruct t].
  revert s. induction t as [|c l IHl k v r IHr]; intros s; [done|]. cbn [ngx_protobuf_rbtree_node_iterate inorder] in *.
  rewrite map_app, List.Forall_app in Ht. destruct Ht as [Hl Hkr]. cbn [map fst] in Hkr. inversion Hkr as [|? ? Hk Hr]; subst.
  rewrite map_app, visit_app. cbn [map snd visit].
  assert ((if root_from lower l then ngx_protobuf_rbtree_node_iterate lower upper fptr l s else mret (NGX_OK, s)) =
    visit fptr (map snd (inorder l)) s) as ->.
  { rewrite <- IHl by done. destruct l as [|c1 l1 k1 v1 r1]; [done|]. cbn [root_from]. rewrite bool_decide_eq_true_2; [done|].
    cbn [inorder] in Hl. rewrite map_app, List.Forall_app in Hl. destruct Hl as [_ Hl]. inversion Hl; subst; simpl in *; lia. }
  destruct (visit fptr (map snd (inorder l)) s) as [[rc s1]| |]; [|done..]. rewrite !ok_bind. case_decide; [done|].
  rewrite decide_True by done. destruct (fptr v s1) as [[rc2 s2]| |]; [|done..]. rewrite !ok_bind. case_decide; [done|].
  rewrite <- IHr by done. destruct r as [|c1 l1 k1 v1 r1]; [done|]. cbn [root_upto]. rewrite bool_decide_eq_true_2; [done|].
  cbn [inorder] in Hr. rewrite map_app, List.Forall_app in Hr. destruct Hr as [_ Hr]. inversion Hr; subst; simpl in *; lia.
Qed.
End Tree.

(** A node whose subtree reaches into the range is left out when its own key is
    below it: of the nodes of this tree, which nginx's insertion gives, those
    with the keys 120, 150 and 180 lie in the range from 100 to 200, and 120 is
    not visited. *)
Example iterate_prunes :
  let insert t k := rb_insert t k k in
  let t := foldl insert Nil [150; 50; 180; 120] in
  bst t /\ map snd (inorder t) = [50; 120; 150; 180] /\
  ngx_protobuf_rbtree_iterate 100 200 (fun v s => mret (NGX_OK, s ++ [v])) t [] = Ok (NGX_OK, [150; 180]).
Proof. split; [|done]. repeat constructor. Qed.

(** ** The registry and the extensions as finite maps *)

Section Map.
Context `{E : NgxEnv, R : NgxRbtree}.

(** The pool refuses nothing. *)
Definition pool_grants : Prop := forall k n, 0 <= n < 4294967296 -> ao k n = true.
Context (Hao : pool_grants).

Lemma find_insert {V} (t : rbtree V) k v k' : bst t -> ngx_protobuf_find_node t k = None ->
  bst (rbtree_insert t k v) /\
  ngx_protobuf_find_node (rbtree_insert t k v) k' = if decide (k' = k) then Some v else ngx_protobuf_find_node t k'.
Proof.
  intros Ht Hk. destruct (insert_inorder t k v Ht (find_none t k Ht Hk)) as (Hb & l1 & l2 & E1 & E2). split; [done|].
  assert (forall w, (k', w) ∈ inorder (rbtree_insert t k v) <-> (k', w) = (k, v) \/ (k', w) ∈ inorder t) as Hin.
  { intros w. rewrite E1, E2, !elem_of_app, elem_of_cons. tauto. }
  case_decide as Ek.
  - subst. apply find_inorder; [done|]. apply Hin. by left.
  - destruct (ngx_protobuf_find_node t k') as [w|] eqn:Ef.
    + apply find_inorder; [done|]. apply Hin. right. by apply find_inorder.
    + destruct (ngx_protobuf_find_node (rbtree_insert t k v) k') as [w|] eqn:Ei; [|done].
      apply find_inorder in Ei; [|done]. apply Hin in Ei as [[= -> ->]|Ei]; [done|]. apply find_inorder in Ei; [congruence|done].
Qed.

Lemma init_rbtree_ok {V} (t : option (rbtree V)) c : exists k,
  ngx_protobuf_init_rbtree t c = (NGX_OK, Some (default Nil t), Ctx (mem c) (pos c) (last c) (reuse_strings c) (pool c) k).
Proof.
  unfold ngx_protobuf_init_rbtree. destruct t as [t|]; [exists (calls c); by destruct c|].
  unfold ngx_palloc. rewrite !Hao by lia. cbn [negb calls]. by eexists.
Qed.

(** The node of a key, and the tree in which it is. *)
Lemma rbtree_node_ok {V} (zero : V) t key size c : bst t -> 0 <= size < 4294967296 -> exists t' k,
  ngx_protobuf_rbtree_node zero t key size c =
    (Some (default zero (ngx_protobuf_find_node t key)), t', Ctx (mem c) (pos c) (last c) (reuse_strings c) (pool c) k) /\
  bst t' /\ forall k', ngx_protobuf_find_node t' k' =
    if decide (k' = key) then Some (default zero (ngx_protobuf_find_node t key)) else ngx_protobuf_find_node t k'.
Proof.
  intros Ht Hs. unfold ngx_protobuf_rbtree_node. destruct (ngx_protobuf_find_node t key) as [v|] eqn:Ef.
  - exists t, (calls c). split; [by destruct c|]. split; [done|]. intros k'. case_decide; [by subst|done].
  - unfold ngx_palloc. rewrite Hao by lia. eexists _, _. split; [done|]. split; [by apply (find_insert t key zero key)|].
    intros k'. by apply find_insert.
Qed.

Section Ext.
Context {M : Type}.
Abbreviation descriptor := (ngx_protobuf_field_descriptor_t M).

(** Every node of the extensions has the descriptor of its number. *)
Definition ext_ok (reg : rbtree (option descriptor)) (ext : option (rbtree (ngx_protobuf_extension_field_t M))) : Prop :=
  bst (default Nil ext) /\ forall k n, ngx_protobuf_find_node (default Nil ext) k = Some n ->
    exists d, ngx_protobuf_find_node reg k = Some (Some d) /\ f_descriptor n = Some d.

Lemma get_extension_eq ext k :
  ngx_protobuf_get_extension ext k = f_value <$> ngx_protobuf_find_node (default Nil ext : rbtree (ngx_protobuf_extension_field_t M)) k.
Proof. by destruct ext. Qed.

(** The tree after a node has been written, with the descriptor of its number. *)
Lemma ext_ok_write reg ext t f n d : ext_ok reg ext -> ngx_protobuf_find_node reg f = Some (Some d) -> f_descriptor n = Some d ->
  bst t -> (forall k, k ≠ f -> ngx_protobuf_find_node t k = ngx_protobuf_find_node (default Nil ext) k) ->
  is_Some (ngx_protobuf_find_node t f) ->
  ext_ok reg (Some (set_node t f n)) /\
  forall k, ngx_protobuf_get_extension (Some (set_node t f n)) k =
    if decide (k = f) then Some (f_value n) else ngx_protobuf_get_extension ext k.
Proof.
  intros [Hb Hd] Hr Hn Ht Hk [n0 Hf].
  assert (forall k, ngx_protobuf_find_node (set_node t f n) k =
    if decide (k = f) then Some n else ngx_protobuf_find_node (default Nil ext) k) as Hfind.
  { intros k. rewrite find_set_node. case_decide; [by rewrite Hf|by apply Hk]. }
  split.
  - split; [by apply set_node_bst|]. intros k m. cbn [default]. rewrite Hfind. case_decide; [|apply Hd].
    intros [= <-]. subst. by exists d.
  - intros k. rewrite !get_extension_eq. cbn [default]. rewrite Hfind. by case_decide.
Qed.

Lemma get_extension_node_ok reg ext f d c : ext_ok reg ext -> ngx_protobuf_find_node reg f = Some (Some d) ->
  exists t k, let n := Field (Some d) (default value_zero (ngx_protobuf_get_extension ext f)) in
    ngx_protobuf_get_extension_node ext (Some reg) f c =
      Ok (NGX_OK, Some (set_node t f n), Some n, Ctx (mem c) (pos c) (last c) (reuse_strings c) (pool c) k) /\
    bst t /\ is_Some (ngx_protobuf_find_node t f) /\
    (forall k, k ≠ f -> ngx_protobuf_find_node t k = ngx_protobuf_find_node (default Nil ext) k).
Proof.
  intros [Hb Hd] Hr. unfold ngx_protobuf_get_extension_node. cbn [of_opt]. rewrite ok_bind, Hr.
  destruct (init_rbtree_ok ext c) as (k1 & ->). rewrite decide_False by (intros H; by apply H). cbn [of_opt]. rewrite ok_bind.
  destruct (rbtree_node_ok field_zero (default Nil ext) f 80 (Ctx (mem c) (pos c) (last c) (reuse_strings c) (pool c) k1) Hb)
    as (t & k2 & -> & Ht & Hfind); [lia|].
  exists t, k2. rewrite get_extension_eq.
  assert (set_descriptor (default field_zero (ngx_protobuf_find_node (default Nil ext) f)) (Some d) =
    Field (Some d) (default value_zero (f_value <$> ngx_protobuf_find_node (default Nil ext) f))) as ->.
  { destruct (ngx_protobuf_find_node (default Nil ext) f) as [n|] eqn:En; [|done]. destruct (Hd f n En) as (d' & Hd' & Hn).
    rewrite Hr in Hd'. injection Hd' as <-. destruct n as [dn vn]. cbn in Hn. by subst. }
  split; [done|]. split; [done|]. split; [rewrite Hfind, decide_True by done; eauto|]. intros k Hk. by rewrite Hfind, decide_False.
Qed.

(** Setting a registered number, by what the value is. *)
Lemma set_extension_ok reg ext f d o c : ext_ok reg ext -> ngx_protobuf_find_node reg f = Some (Some d) ->
  exists rc v ext' c', ngx_protobuf_set_extension ext (Some reg) f o c = Ok (rc, ext', c') /\ ext_ok reg ext' /\
    (forall k, ngx_protobuf_get_extension ext' k = if decide (k = f) then Some v else ngx_protobuf_get_extension ext k) /\
    match o with
    | Some w => if v_exists w then
                  if decide (v_type w = Some (d_type d)) then rc = NGX_OK /\ v = w
                  else rc = NGX_ABORT /\ v = default value_zero (ngx_protobuf_get_extension ext f)
                else rc = NGX_OK /\ v = value_zero
    | None => rc = NGX_OK /\ v = value_zero
    end.
Proof.
  intros Hext Hr. destruct (get_extension_node_ok reg ext f d c Hext Hr) as (t & k & En & Ht & Hs & Hk).
  unfold ngx_protobuf_set_extension. rewrite En, ok_bind, decide_False by (intros H; by apply H). cbn [of_opt f_descriptor]. rewrite !ok_bind.
  set (v0 := default value_zero (ngx_protobuf_get_extension ext f)) in *.
  assert (forall v, ext_ok reg (Some (set_node (set_node t f (Field (Some d) v0)) f (Field (Some d) v))) /\
    forall k, ngx_protobuf_get_extension (Some (set_node (set_node t f (Field (Some d) v0)) f (Field (Some d) v))) k =
      if decide (k = f) then Some v else ngx_protobuf_get_extension ext k) as Hset.
  { intros v. apply (ext_ok_write reg ext _ f (Field (Some d) v) d); try done.
    - by apply set_node_bst.
    - intros k' Hk'. rewrite find_set_node, decide_False by done. by apply Hk.
    - rewrite find_set_node, decide_True by done. destruct Hs as [n ->]. by eexists. }
  destruct o as [w|]; [destruct (v_exists w)|].
  - cbn [f_descriptor of_opt]. rewrite ok_bind. destruct (decide (v_type w = Some (d_type d))) as [Ew|Ew].
    + rewrite decide_False by (intros H; by apply H). exists NGX_OK, w. eexists _, _. split; [done|]. by destruct (Hset w).
    + rewrite decide_True by done. exists NGX_ABORT, v0. eexists _, _. split; [done|].
      by destruct (ext_ok_write reg ext t f (Field (Some d) v0) d).
  - exists NGX_OK, value_zero. eexists _, _. split; [done|]. by destruct (Hset value_zero).
  - exists NGX_OK, value_zero. eexists _, _. split; [done|]. by destruct (Hset value_zero).
Qed.
(** A descriptor takes its place in the registry. *)
Lemma import_extension_ok reg (desc : descriptor) c : bst (default Nil reg) ->
  exists reg' c', ngx_protobuf_import_extension reg desc c = (NGX_OK, Some reg', c') /\ bst reg' /\
    forall k, ngx_protobuf_find_node reg' k =
      if decide (k = d_number desc) then Some (Some desc) else ngx_protobuf_find_node (default Nil reg) k.
Proof.
  intros Hreg. unfold ngx_protobuf_import_extension. destruct (init_rbtree_ok reg c) as (k1 & ->).
  rewrite decide_False by (intros H; by apply H).
  destruct (rbtree_node_ok None (default Nil reg) (d_number desc) 48 (Ctx (mem c) (pos c) (last c) (reuse_strings c) (pool c) k1) Hreg)
    as (t & k2 & -> & Ht & Hfind); [lia|].
  eexists _, _. split; [done|]. split; [by apply set_node_bst|]. intros k. rewrite find_set_node, !Hfind.
  rewrite (decide_True (P := d_number desc = d_number desc)) by done. by case_decide.
Qed.

Lemma clear_extension_ok reg ext f : ext_ok reg ext -> ext_ok reg (ngx_protobuf_clear_extension ext f) /\
  forall k, ngx_protobuf_get_extension (ngx_protobuf_clear_extension ext f) k =
    if decide (k = f) then (fun _ => value_zero) <$> ngx_protobuf_get_extension ext f else ngx_protobuf_get_extension ext k.
Proof.
  intros Hext. unfold ngx_protobuf_clear_extension. destruct ext as [t|]; [|split; [done|]; intros k; by case_decide].
  destruct (ngx_protobuf_find_node t f) as [n|] eqn:En.
  - destruct Hext as [Hb Hd]. destruct (Hd f n En) as (d' & Hd' & Hn). cbn [default] in *.
    destruct (ext_ok_write reg (Some t) t f (Field (f_descriptor n) value_zero) d') as [H1 H2]; try done.
    split; [done|]. intros k. rewrite H2. cbn [ngx_protobuf_get_extension]. by rewrite En.
  - split; [done|]. intros k. case_decide; [|done]. subst. cbn [ngx_protobuf_get_extension]. by rewrite En.
Qed.
End Ext.
End Map.

(** C15: The extensions of an object are a finite map.  When the pool refuses
    nothing, [import_extension] adds a descriptor to the registry under its
    number, in place of an older one.  Of extensions whose nodes agree with the
    registry, [set_extension] with a value of the type of its descriptor
    changes the value of its number and no other, and they agree again; so it
    clears the value when it gets none, and so does [clear_extension]; with a
    value of another type it gives [NGX_ABORT] and a number that had no value
    gets a cleared one; a number that is not registered gives [NGX_ABORT] and
    changes nothing.  Without a registry the worker stops. *)
Theorem ngx_protobuf_extensions_refine_map `{E : NgxEnv, R : NgxRbtree} {M : Type}
    (reg : rbtree (option (ngx_protobuf_field_descriptor_t M))) ext field d c :
  pool_grants -> bst reg ->
  (forall desc, exists reg' c', ngx_protobuf_import_extension (Some reg) desc c = (NGX_OK, Some reg', c') /\ bst reg' /\
     forall k, ngx_protobuf_find_node reg' k = if decide (k = d_number desc) then Some (Some desc) else ngx_protobuf_find_node reg k) /\
  (ext_ok reg ext -> ngx_protobuf_find_node reg field = Some (Some d) ->
   (forall v, v_exists v = true -> v_type v = Some (d_type d) -> exists ext' c',
      ngx_protobuf_set_extension ext (Some reg) field (Some v) c = Ok (NGX_OK, ext', c') /\ ext_ok reg ext' /\
      forall k, ngx_protobuf_get_extension ext' k = if decide (k = field) then Some v else ngx_protobuf_get_extension ext k) /\
   (forall o, match o with Some v => v_exists v = false | None => True end -> exists ext' c',
      ngx_protobuf_set_extension ext (Some reg) field o c = Ok (NGX_OK, ext', c') /\ ext_ok reg ext' /\
      forall k, ngx_protobuf_get_extension ext' k = if decide (k = field) then Some value_zero else ngx_protobuf_get_extension ext k) /\
   (forall v, v_exists v = true -> v_type v ≠ Some (d_type d) -> exists ext' c',
      ngx_protobuf_set_extension ext (Some reg) field (Some v) c = Ok (NGX_ABORT, ext', c') /\ ext_ok reg ext' /\
      forall k, ngx_protobuf_get_extension ext' k =
        if decide (k = field) then Some (default value_zero (ngx_protobuf_get_extension ext field)) else ngx_protobuf_get_extension ext k)) /\
  (ext_ok reg ext -> ext_ok reg (ngx_protobuf_clear_extension ext field) /\
     forall k, ngx_protobuf_get_extension (ngx_protobuf_clear_extension ext field) k =
       if decide (k = field) then (fun _ => value_zero) <$> ngx_protobuf_get_extension ext field else ngx_protobuf_get_extension ext k) /\
  (ngx_protobuf_find_node reg field = None ->
     forall o, ngx_protobuf_set_extension ext (Some reg) field o c = Ok (NGX_ABORT, ext, c)) /\
  (forall o, ngx_protobuf_set_extension ext None field o c = UB).
Proof.
  intros Hao Hreg. split; [|split; [|split; [|split]]].
  - intros desc. by apply import_extension_ok.
  - intros Hext Hf. split_and!.
    + intros v Hv Hty. destruct (set_extension_ok Hao reg ext field d (Some v) c Hext Hf) as (rc & v' & ext' & c' & -> & ? & ? & Hrc).
      rewrite Hv, decide_True in Hrc by done. destruct Hrc as [-> ->]. by exists ext', c'.
    + intros o Ho. destruct (set_extension_ok Hao reg ext field d o c Hext Hf) as (rc & v' & ext' & c' & -> & ? & ? & Hrc).
      destruct o as [v|]; [rewrite Ho in Hrc|]; destruct Hrc as [-> ->]; by exists ext', c'.
    + intros v Hv Hty. destruct (set_extension_ok Hao reg ext field d (Some v) c Hext Hf) as (rc & v' & ext' & c' & -> & ? & ? & Hrc).
      rewrite Hv, decide_False in Hrc by done. destruct Hrc as [-> ->]. by exists ext', c'.
  - intros Hext. by apply clear_extension_ok.
  - intros Hf o. unfold ngx_protobuf_set_extension, ngx_protobuf_get_extension_node. cbn [of_opt]. by rewrite ok_bind, Hf.
  - done.
Qed.

(** A pool that refuses nothing, and an empty context. *)
Definition env_granted : NgxEnv := {| base := 0; ao := fun _ _ => true; junk32 := 0; junk64 := 0; input := []; frame := fun _ => [] |}.
Definition ctx_empty : ngx_protobuf_context_t := Ctx [] 0 0 false true 0.

Lemma ngx_protobuf_extensions_refine_map_witness :
  let desc := Desc 100 0 NGX_PROTOBUF_LABEL_OPTIONAL NGX_PROTOBUF_TYPE_UINT32 4 false None None None : ngx_protobuf_field_descriptor_t unit in
  let reg := Node false Nil 100 (Some desc) Nil in
  let v := PValue (Some NGX_PROTOBUF_TYPE_UINT32) true (UWord 7) in
  exists ext' c', @ngx_protobuf_set_extension env_granted ngx_rbtree_insertion unit None (Some reg) 100 (Some v) ctx_empty = Ok (NGX_OK, ext', c') /\
    ext_ok reg ext' /\
    forall k, ngx_protobuf_get_extension ext' k = if decide (k = 100) then Some v else ngx_protobuf_get_extension None k.
Proof.
  intros desc reg v.
  assert (@pool_grants env_granted) as Hao by (intros k n _; reflexivity).
  assert (bst reg) as Hreg by (repeat constructor).
  assert (@ext_ok unit reg None) as Hext by (split; [repeat constructor|discriminate]).
  exact (proj1 (proj1 (proj2 (@ngx_protobuf_extensions_refine_map env_granted ngx_rbtree_insertion unit reg None 100 desc ctx_empty Hao Hreg))
    Hext eq_refl) v eq_refl eq_refl).
Defined.
