(* ===== verification/NgxProtobufExtLaws.v ===== *)
(** Protocol buffers, the bytes of extension fields: that the sizes of
    ngx_protobuf.c are the numbers of bytes which its packing functions write,
    field by field and over the tree of an object. *)

From Stdlib Require Import ZArith Lia.
From S2P Require Import Prelude NgxRbtree NgxProtobuf NgxProtobufWire NgxProtobufMsg NgxProtobufCodec NgxProtobufRead.
From S2P Require Import NgxProtobufScalar NgxProtobufScalarLaws NgxProtobufExt NgxProtobufExtTree.

Open Scope Z_scope.

(** ** Loops over the elements of an array *)

Section Loops.
Context `{E : NgxEnv} {A : Type} (e : A -> bytes).

Lemma size_loop_all size vs i p :
  (forall j v, vs !! j = Some v -> size (i + j)%nat = Ok (lenz (e v))) -> 0 <= p ->
  p + lenz (concat (map e vs)) < 18446744073709551616 ->
  size_loop size i (length vs) p = Ok (p + lenz (concat (map e vs))).
Proof.
  revert i p. induction vs as [|v vs IH]; intros i p Hs Hp Hl; cbn [size_loop length map concat] in *; [do 2 f_equal; lia|].
  rewrite length_app in *. rewrite <- (Nat.add_0_r i), (Hs 0%nat v), ok_bind, u64_id by (done || lia). rewrite Nat.add_0_r.
  rewrite IH; [f_equal; lia| |lia|lia]. intros j w Hj. replace (S i + j)%nat with (i + S j)%nat by lia. by apply Hs.
Qed.

Lemma write_loop_all write vs i :
  (forall j v, vs !! j = Some v -> Writes (write (i + j)%nat) (e v)) ->
  Writes (write_loop write i (length vs)) (concat (map e vs)).
Proof.
  revert i. induction vs as [|v vs IH]; intros i Hw; cbn [write_loop length map concat]; [apply writes_nil|].
  apply writes_bind; [rewrite <- (Nat.add_0_r i); by apply (Hw 0%nat)|]. apply IH.
  intros j w Hj. replace (S i + j)%nat with (i + S j)%nat by lia. by apply Hw.
Qed.

(** The elements are read first. *)
Lemma size_with_ok {V} (get : nat -> cres V) (f : V -> Z) i v : get i = Ok v -> (v ← get i; mret (f v)) = Ok (f v).
Proof. by intros ->. Qed.
Lemma write_with_ok {V} (get : nat -> cres V) write i v bs :
  get i = Ok v -> Writes (fun c => write c v) bs -> Writes (write_with get write i) bs.
Proof. intros Hg Hw c Hf. unfold write_with. by rewrite Hg, ok_bind, Hw. Qed.
End Loops.

(** ** The bytes of a field *)

Section Bytes.
Context `{E : NgxEnv} {M : Type} (message_zero : M) (narrow : Z -> Z).
Abbreviation descriptor := (ngx_protobuf_field_descriptor_t M).
Abbreviation extension_field := (ngx_protobuf_extension_field_t M).
Implicit Types (t : ngx_protobuf_type_e) (d : descriptor) (n : extension_field).

(** How many bytes of the union a number takes. *)
Definition number_width t : option Z :=
  match t with
  | NGX_PROTOBUF_TYPE_BOOL | NGX_PROTOBUF_TYPE_ENUM | NGX_PROTOBUF_TYPE_UINT32 | NGX_PROTOBUF_TYPE_INT32
  | NGX_PROTOBUF_TYPE_SINT32 | NGX_PROTOBUF_TYPE_FIXED32 | NGX_PROTOBUF_TYPE_SFIXED32 | NGX_PROTOBUF_TYPE_FLOAT => Some 4
  | NGX_PROTOBUF_TYPE_UINT64 | NGX_PROTOBUF_TYPE_INT64 | NGX_PROTOBUF_TYPE_SINT64 | NGX_PROTOBUF_TYPE_FIXED64
  | NGX_PROTOBUF_TYPE_SFIXED64 | NGX_PROTOBUF_TYPE_DOUBLE => Some 8
  | _ => None
  end.
Definition is_string t : Prop := t = NGX_PROTOBUF_TYPE_STRING \/ t = NGX_PROTOBUF_TYPE_BYTES.
Definition number_value t (x : ngx_protobuf_union_t M) : cres Z :=
  match number_width t with Some 4 => v_uint32 x | Some _ => v_uint64 x | None => UB end.
Definition number_at d (l : list (ngx_protobuf_union_t M)) (i : nat) : cres Z :=
  match number_width (d_type d) with Some 4 => uint32_at d l i | Some _ => uint64_at d l i | None => UB end.

(** A number without its key, and with it: the key of a [double] is that of
    four bytes, and its value has been a [float]. *)
Definition enc_number t (v : Z) : bytes :=
  match t with
  | NGX_PROTOBUF_TYPE_BOOL => varint (u32 (c_bool v))
  | NGX_PROTOBUF_TYPE_ENUM | NGX_PROTOBUF_TYPE_UINT32 | NGX_PROTOBUF_TYPE_INT32 => varint (u32 v)
  | NGX_PROTOBUF_TYPE_SINT32 => varint (u32 (NGX_PROTOBUF_Z32_ENCODE (i32 v)))
  | NGX_PROTOBUF_TYPE_UINT64 | NGX_PROTOBUF_TYPE_INT64 => varint (u64 v)
  | NGX_PROTOBUF_TYPE_SINT64 => varint (u64 (NGX_PROTOBUF_Z64_ENCODE (i64 v)))
  | NGX_PROTOBUF_TYPE_FIXED32 | NGX_PROTOBUF_TYPE_FLOAT => le_bytes 4 v
  | NGX_PROTOBUF_TYPE_SFIXED32 => le_bytes 4 (NGX_PROTOBUF_Z32_ENCODE (i32 v))
  | NGX_PROTOBUF_TYPE_FIXED64 | NGX_PROTOBUF_TYPE_DOUBLE => le_bytes 8 v
  | NGX_PROTOBUF_TYPE_SFIXED64 => le_bytes 8 (NGX_PROTOBUF_Z64_ENCODE (i64 v))
  | _ => []
  end.
Definition enc_number_field t (num v : Z) : bytes :=
  match t with
  | NGX_PROTOBUF_TYPE_DOUBLE => enc_key num 5 ++ le_bytes 8 (narrow v)
  | NGX_PROTOBUF_TYPE_FIXED32 | NGX_PROTOBUF_TYPE_SFIXED32 | NGX_PROTOBUF_TYPE_FLOAT => enc_key num 5 ++ enc_number t v
  | NGX_PROTOBUF_TYPE_FIXED64 | NGX_PROTOBUF_TYPE_SFIXED64 => enc_key num 1 ++ enc_number t v
  | _ => enc_key num 0 ++ enc_number t v
  end.

(** The bytes of a value, and of a node. *)
Inductive value_bytes d (x : ngx_protobuf_union_t M) : bytes -> Prop :=
| bytes_number v : d_label d ≠ NGX_PROTOBUF_LABEL_REPEATED -> number_value (d_type d) x = Ok v ->
    value_bytes d x (enc_number_field (d_type d) (d_number d) v)
| bytes_string s : d_label d ≠ NGX_PROTOBUF_LABEL_REPEATED -> is_string (d_type d) -> v_bytes x = Ok s -> str_good s ->
    value_bytes d x (enc_bytes (d_number d) (sbytes s))
| bytes_message m size pack e : d_label d ≠ NGX_PROTOBUF_LABEL_REPEATED -> d_type d = NGX_PROTOBUF_TYPE_MESSAGE ->
    x = UMessage m -> d_size d = Some size -> d_pack d = Some pack -> size m = lenz e -> Packs (pack m) e ->
    value_bytes d x (enc_bytes (d_number d) e)
| bytes_numbers l vs : d_label d = NGX_PROTOBUF_LABEL_REPEATED -> d_packed d = false -> is_Some (number_width (d_type d)) ->
    x = URepeated l -> length vs = length l -> (forall i v, vs !! i = Some v -> number_at d l i = Ok v) ->
    value_bytes d x (concat (map (enc_number_field (d_type d) (d_number d)) vs))
| bytes_strings l ss : d_label d = NGX_PROTOBUF_LABEL_REPEATED -> d_packed d = false -> is_string (d_type d) ->
    x = URepeated l -> length ss = length l -> (forall i s, ss !! i = Some s -> string_at d l i = Ok s /\ str_good s) ->
    value_bytes d x (concat (map (fun s => enc_bytes (d_number d) (sbytes s)) ss))
| bytes_packed l vs : d_label d = NGX_PROTOBUF_LABEL_REPEATED -> d_packed d = true -> is_Some (number_width (d_type d)) ->
    x = URepeated l -> l ≠ [] -> length vs = length l -> (forall i v, vs !! i = Some v -> number_at d l i = Ok v) ->
    value_bytes d x (enc_bytes (d_number d) (concat (map (enc_number (d_type d)) vs))).
Inductive ext_bytes n : bytes -> Prop :=
| bytes_absent d : f_descriptor n = Some d -> v_exists (f_value n) = false -> ext_bytes n []
| bytes_present d bs : f_descriptor n = Some d -> v_exists (f_value n) = true -> 0 <= d_number d < 536870912 ->
    value_bytes d (v_u (f_value n)) bs -> ext_bytes n bs.

(** ** Numbers *)

Context (num : Z) (Hnum : 0 <= num < 536870912).

Lemma size_u32_field v : ngx_protobuf_size_uint32_field v num = lenz (enc_key num 0 ++ varint (u32 v)).
Proof. unfold ngx_protobuf_size_uint32_field. wires. rewrite size_key, size_uint32_spec, length_app by lia. lia. Qed.
Lemma size_u64_field v : ngx_protobuf_size_uint64_field v num = lenz (enc_key num 0 ++ varint (u64 v)).
Proof. unfold ngx_protobuf_size_uint64_field. wires. rewrite size_key, size_uint64_spec, length_app by lia. lia. Qed.
(** The wire type does not change the length of a key. *)
Lemma key_length w w' : 0 <= w < 8 -> 0 <= w' < 8 -> length (enc_key num w) = length (enc_key num w').
Proof.
  intros Hw Hw'. unfold enc_key, varint. cbn [varint_loop].
  replace ((num * 8 + w') / 128) with ((num * 8 + w) / 128) by zdiv.
  destruct (decide (num * 8 + w < 128)), (decide (num * 8 + w' < 128)); cbn [length]; try done; zdiv.
Qed.

Lemma size_fixed32_field bs w : length bs = 4%nat -> 0 <= w < 8 ->
  ngx_protobuf_size_fixed32_field num = lenz (enc_key num w ++ bs).
Proof.
  intros Hb Hw. unfold ngx_protobuf_size_fixed32_field. wires. rewrite size_key, length_app, Hb, (key_length 5 w) by lia. lia.
Qed.
Lemma size_fixed64_field bs w : length bs = 8%nat -> 0 <= w < 8 ->
  ngx_protobuf_size_fixed64_field num = lenz (enc_key num w ++ bs).
Proof.
  intros Hb Hw. unfold ngx_protobuf_size_fixed64_field. wires. rewrite size_key, length_app, Hb, (key_length 1 w) by lia. lia.
Qed.

Lemma writes_key_then w (write : ngx_protobuf_context_t -> cres ngx_protobuf_context_t) bs : 0 <= w < 8 -> Writes write bs ->
  Writes (fun c => c ← ngx_protobuf_write_uint32 c (NGX_PROTOBUF_HEADER num w); write c) (enc_key num w ++ bs).
Proof. intros Hw Hb. apply writes_bind; [by apply writes_key|done]. Qed.
Lemma writes_header len : 0 <= len < 4294967296 ->
  Writes (fun c => ngx_protobuf_write_message_header c len num) (enc_key num 2 ++ varint len).
Proof. intros Hl. apply writes_key_then; [lia|by apply writes_varint]. Qed.

(** ** One value *)

Ltac by_writes :=
  unfold ngx_protobuf_write_sint32_field, ngx_protobuf_write_sint64_field, ngx_protobuf_write_sfixed32_field,
    ngx_protobuf_write_sfixed64_field, ngx_protobuf_write_uint32_field, ngx_protobuf_write_uint64_field,
    ngx_protobuf_write_fixed32_field, ngx_protobuf_write_fixed64_field, ngx_protobuf_write_float_field,
    ngx_protobuf_write_double_field, ngx_protobuf_write_sint32, ngx_protobuf_write_sint64, ngx_protobuf_write_sfixed32,
    ngx_protobuf_write_sfixed64, ngx_protobuf_write_fixed32, ngx_protobuf_write_fixed64, ngx_protobuf_write_float,
    ngx_protobuf_write_double; wires;
  lazymatch goal with
  | |- Writes _ (enc_key _ _ ++ _) => apply writes_key_then; [lia|]
  | _ => idtac
  end;
  lazymatch goal with
  | |- Writes _ (varint (u32 _)) => apply writes_u32
  | |- Writes _ (varint (u64 _)) => apply writes_u64
  | _ => apply writes_cpymem
  end.
Ltac by_size :=
  first [ exact (size_u32_field _) | exact (size_u64_field _)
        | apply size_fixed32_field; [done|lia] | apply size_fixed64_field; [done|lia]
        | apply size_uint32_spec | apply size_uint64_spec | reflexivity ].

Lemma single_number_size d value v : d_number d = num -> number_value (d_type d) (v_u value) = Ok v ->
  ngx_protobuf_single_field_size d value = Ok (lenz (enc_number_field (d_type d) num v)).
Proof.
  intros Hd. unfold number_value, ngx_protobuf_single_field_size, enc_number_field. rewrite Hd.
  destruct (d_type d); cbn [number_width enc_number]; try done; intros Hv; rewrite ?Hv, ?ok_bind; f_equal; by_size.
Qed.

Lemma single_number_pack d c value v : d_number d = num -> number_value (d_type d) (v_u value) = Ok v ->
  fits c (lenz (enc_number_field (d_type d) num v)) ->
  ngx_protobuf_pack_single_field narrow d c value = Ok (NGX_OK, put c (enc_number_field (d_type d) num v)).
Proof.
  intros Hd Hv. unfold ngx_protobuf_pack_single_field. rewrite Hd. unfold number_value, enc_number_field in *.
  destruct (d_type d); cbn [number_width enc_number] in *; try done; rewrite Hv, ok_bind;
    match goal with |- fits _ (lenz ?bs) -> (c ← ?w c ?x ?n; _) = _ =>
      let H := fresh in assert (Writes (fun c => w c x n) bs) as H by by_writes; intros Hf; by rewrite (H _ Hf), ok_bind end.
Qed.

(** ** Many numbers *)

(** The elements as one list again after the test that there are some. *)
Tactic Notation "some_elements" ident(l) :=
  let x := fresh in let l' := fresh in let l0 := fresh in
  destruct l as [|x l']; [done|]; cbn [elts default id]; set (l0 := x :: l') in *; clearbody l0; rename l0 into l.
Ltac each_element Hv :=
  let j := fresh in let v := fresh in let Hj := fresh in
  intros j v Hj; cbn [Nat.add]; unfold size_with; rewrite (Hv _ _ Hj), ok_bind; cbn [mret cres_ret]; f_equal; by_size.
Tactic Notation "loop_over" constr(Hv) := match goal with |- _ = Ok (Z.of_nat (length (concat (map ?e _)))) =>
  rewrite (size_loop_all e); [reflexivity|each_element Hv|lia|lia] end.

Lemma packed_size_ok d l vs : l ≠ [] -> is_Some (number_width (d_type d)) -> length vs = length l ->
  (forall i v, vs !! i = Some v -> number_at d l i = Ok v) ->
  lenz (concat (map (enc_number (d_type d)) vs)) < 4294967296 ->
  ngx_protobuf_packed_field_size d (Some l) = Ok (lenz (concat (map (enc_number (d_type d)) vs))).
Proof.
  intros Hl Ht Hn Hv Hb. unfold ngx_protobuf_packed_field_size. some_elements l. rewrite <- Hn. unfold number_at in Hv.
  destruct (d_type d); cbn [number_width] in *; try (by destruct Ht);
    first [ loop_over Hv
          | rewrite (concat_const _ 4) in * by (intros v; reflexivity); rewrite u64_id by lia; cbn [mret cres_ret]; f_equal; lia
          | rewrite (concat_const _ 8) in * by (intros v; reflexivity); rewrite u64_id by lia; cbn [mret cres_ret]; f_equal; lia ].
Qed.

Lemma repeated_numbers_size d l vs : d_number d = num -> is_Some (number_width (d_type d)) -> length vs = length l ->
  (forall i v, vs !! i = Some v -> number_at d l i = Ok v) ->
  lenz (concat (map (enc_number_field (d_type d) num) vs)) < 4294967296 ->
  ngx_protobuf_repeated_field_size message_zero d (Some l) = Ok (lenz (concat (map (enc_number_field (d_type d) num) vs))).
Proof.
  intros Hd Ht Hn Hv Hb. unfold ngx_protobuf_repeated_field_size. rewrite Hd.
  destruct (decide (l = [])) as [->|Hl]; [by destruct vs|]. some_elements l. rewrite <- Hn. unfold number_at in Hv.
  destruct (d_type d); cbn [number_width] in *; try (by destruct Ht); try (loop_over Hv).
  all: match goal with |- mret (u64 (_ * ?k)) = Ok (Z.of_nat (length (concat (map ?e _)))) =>
         assert (lenz (concat (map e vs)) = Z.of_nat (length vs) * k) as Ec
           by (apply concat_const; intros v; symmetry; cbn [enc_number_field]; by_size);
         rewrite Ec in *; rewrite u64_id by lia; done end.
Qed.

Lemma strings_size d l ss : d_number d = num -> is_string (d_type d) -> length ss = length l ->
  (forall i s, ss !! i = Some s -> string_at d l i = Ok s /\ str_good s) ->
  lenz (concat (map (fun s => enc_bytes num (sbytes s)) ss)) < 4294967296 ->
  ngx_protobuf_repeated_field_size message_zero d (Some l) = Ok (lenz (concat (map (fun s => enc_bytes num (sbytes s)) ss))).
Proof.
  intros Hd Ht Hn Hv Hb. unfold ngx_protobuf_repeated_field_size. rewrite Hd.
  destruct (decide (l = [])) as [->|Hl]; [by destruct ss|]. some_elements l. rewrite <- Hn.
  assert (size_loop (fun i => s ← string_at d l i; mret (ngx_protobuf_size_string_field s num)) 0 (length ss) 0 =
    Ok (lenz (concat (map (fun s => enc_bytes num (sbytes s)) ss)))) as Hloop; [|by destruct Ht as [->| ->]].
  rewrite (size_loop_all (fun s => enc_bytes num (sbytes s))); [done| |lia|lia].
  intros j s Hj. cbn [Nat.add]. destruct (Hv j s Hj) as [-> Hs]. rewrite ok_bind. cbn [mret cres_ret]. f_equal.
  apply size_string_field_enc; [done|done|]. pose proof (concat_map_lt (fun s => enc_bytes num (sbytes s)) ss s (list_elem_of_lookup_2 _ _ _ Hj)).
  cbn beta in *. lia.
Qed.


(** ** Packing *)

Lemma writes_ok (w : ngx_protobuf_context_t -> cres ngx_protobuf_context_t) bs c : Writes w bs -> fits c (lenz bs) ->
  (c ← w c; mret (NGX_OK, c)) = Ok (NGX_OK, put c bs).
Proof. intros Hw Hf. by rewrite Hw, ok_bind. Qed.

Ltac each_written Hv :=
  let j := fresh in let v := fresh in let Hj := fresh in
  apply write_loop_all; intros j v Hj; cbn [Nat.add]; eapply write_with_ok; [by apply Hv|cbn [enc_number_field enc_number]; cbn beta; by_writes].

Lemma repeated_numbers_pack d c l vs : d_number d = num -> is_Some (number_width (d_type d)) -> length vs = length l ->
  (forall i v, vs !! i = Some v -> number_at d l i = Ok v) ->
  let bs := concat (map (enc_number_field (d_type d) num) vs) in
  fits c (lenz bs) -> ngx_protobuf_pack_repeated_field message_zero narrow d c (Some l) = Ok (NGX_OK, put c bs).
Proof.
  intros Hd Ht Hn Hv bs. subst bs. unfold ngx_protobuf_pack_repeated_field. rewrite Hd.
  destruct (decide (l = [])) as [->|Hl]; [destruct vs; [|done]; intros ((? & ?) & _); by rewrite put_nil|].
  some_elements l. rewrite <- Hn. unfold number_at in Hv.
  destruct (d_type d); cbn [number_width] in *; try (by destruct Ht); apply (writes_ok (write_loop _ _ _)); each_written Hv.
Qed.

Lemma strings_pack d c l ss : d_number d = num -> is_string (d_type d) -> length ss = length l ->
  (forall i s, ss !! i = Some s -> string_at d l i = Ok s /\ str_good s) ->
  let bs := concat (map (fun s => enc_bytes num (sbytes s)) ss) in
  lenz bs < 4294967296 -> fits c (lenz bs) ->
  ngx_protobuf_pack_repeated_field message_zero narrow d c (Some l) = Ok (NGX_OK, put c bs).
Proof.
  intros Hd Ht Hn Hv bs Hb. unfold ngx_protobuf_pack_repeated_field. rewrite Hd.
  destruct (decide (l = [])) as [->|Hl]; [subst bs; destruct ss; [|done]; intros ((? & ?) & _); by rewrite put_nil|].
  some_elements l. rewrite <- Hn.
  assert (Writes (write_loop (write_with (string_at d l) (fun c s => ngx_protobuf_write_string_field c s num)) 0 (length ss)) bs) as Hw.
  { apply write_loop_all. intros j s Hj. cbn [Nat.add]. destruct (Hv j s Hj) as [Hg Hs]. eapply write_with_ok; [exact Hg|].
    pose proof (concat_map_lt (fun s => enc_bytes num (sbytes s)) ss s (list_elem_of_lookup_2 _ _ _ Hj)).
    pose proof (enc_bytes_lt num (sbytes s)). apply writes_string_field; [done|done|]. cbn beta in *. subst bs. lia. }
  intros Hf. destruct Ht as [->| ->]; by apply (writes_ok (write_loop _ _ _)).
Qed.

Lemma packed_pack d l vs : d_number d = num -> l ≠ [] -> is_Some (number_width (d_type d)) -> length vs = length l ->
  (forall i v, vs !! i = Some v -> number_at d l i = Ok v) ->
  let bs := enc_bytes num (concat (map (enc_number (d_type d)) vs)) in
  lenz bs < 4294967296 -> Packs (fun c => ngx_protobuf_pack_packed_field d c (Some l)) bs.
Proof.
  intros Hd Hl Ht Hn Hv bs Hb. subst bs. unfold ngx_protobuf_pack_packed_field. rewrite Hd.
  pose proof (enc_bytes_lt num (concat (map (enc_number (d_type d)) vs))) as Hlt.
  rewrite (packed_size_ok d l vs) by (done || lia). some_elements l. unfold enc_bytes in *. rewrite app_assoc.
  apply packs_bind; [apply writes_header; lia|]. clear Hb Hlt. rewrite <- Hn. unfold number_at in Hv.
  destruct (d_type d); cbn [number_width] in *; try (by destruct Ht); intros c; apply (writes_ok (write_loop _ _ _)); each_written Hv.
Qed.
End Bytes.

(** ** A node *)

Section Node.
Context `{E : NgxEnv} {M : Type} (message_zero : M) (narrow : Z -> Z).
Implicit Types (d : ngx_protobuf_field_descriptor_t M) (n : ngx_protobuf_extension_field_t M).

Lemma u64_sum s k : 0 <= s -> 0 <= k -> s + k < 18446744073709551616 -> u64 (s + k) = s + k.
Proof. intros ???. apply u64_id. lia. Qed.

Lemma value_size d v bs s : 0 <= d_number d < 536870912 -> value_bytes narrow d (v_u v) bs -> lenz bs < 4294967296 ->
  0 <= s -> s + lenz bs < 18446744073709551616 -> v_exists v = true ->
  ngx_protobuf_size_extension message_zero (Field (Some d) v) s = Ok (NGX_OK, s + lenz bs).
Proof.
  intros Hnum Hv Hb Hs Hl He. unfold ngx_protobuf_size_extension. cbn [f_descriptor f_value of_opt]. rewrite ok_bind, He. cbn [negb].
  destruct Hv as [w Hr Hw|w Hr Ht Hw Hg|m size pack e Hr Ht Hm Hsz Hpk He1 He2|l vs Hr Hp Ht Hu Hn Hw|l ss Hr Hp Ht Hu Hn Hw
    |l vs Hr Hp Ht Hu Hne Hn Hw]; rewrite ?(decide_False (P := d_label d = _)), ?(decide_True (P := d_label d = _)) by done.
  - rewrite (single_number_size narrow (d_number d)) with (v := w), ok_bind, u64_sum by (done || lia). done.
  - assert (ngx_protobuf_single_field_size d v = Ok (ngx_protobuf_size_string_field w (d_number d))) as ->.
    { unfold ngx_protobuf_single_field_size. destruct Ht as [->| ->]; by rewrite Hw, ok_bind. }
    rewrite ok_bind, size_string_field_enc, u64_sum by (done || lia). done.
  - unfold ngx_protobuf_single_field_size. pose proof (enc_bytes_lt (d_number d) e).
    rewrite Ht, Hm, Hsz. cbn [v_message of_opt mret cres_ret]. repeat (rewrite ok_bind; cbn [of_opt]). rewrite He1, size_message_field_enc, u64_sum by (done || lia). done.
  - rewrite Hu. cbn [v_repeated mret cres_ret]. rewrite ok_bind, Hp.
    rewrite (repeated_numbers_size message_zero narrow (d_number d)) with (vs := vs), ok_bind, u64_sum by (done || lia). done.
  - rewrite Hu. cbn [v_repeated mret cres_ret]. rewrite ok_bind, Hp.
    rewrite (strings_size message_zero (d_number d)) with (ss := ss), ok_bind, u64_sum by (done || lia). done.
  - rewrite Hu. cbn [v_repeated mret cres_ret]. rewrite ok_bind, Hp. pose proof (enc_bytes_lt (d_number d) (concat (map (enc_number (d_type d)) vs))).
    rewrite packed_size_ok with (vs := vs), ok_bind, size_message_field_enc, u64_sum by (done || lia). done.
Qed.

Lemma value_pack d v bs : 0 <= d_number d < 536870912 -> value_bytes narrow d (v_u v) bs -> lenz bs < 4294967296 ->
  v_exists v = true -> Packs (ngx_protobuf_pack_extension message_zero narrow (Field (Some d) v)) bs.
Proof.
  intros Hnum Hv Hb He c Hf. unfold ngx_protobuf_pack_extension. cbn [f_descriptor f_value of_opt]. rewrite He. cbn [negb].
  rewrite (value_size d v bs 0) by (done || lia). rewrite !ok_bind.
  rewrite decide_False by (destruct Hf as ((? & ? & ?) & ? & ? & ?); unfold ptr_add; rewrite u64_id by lia; lia).
  destruct Hv as [w Hr Hw|w Hr Ht Hw Hg|m size pack e Hr Ht Hm Hsz Hpk He1 He2|l vs Hr Hp Ht Hu Hn Hw|l ss Hr Hp Ht Hu Hn Hw
    |l vs Hr Hp Ht Hu Hne Hn Hw]; rewrite ?(decide_False (P := d_label d = _)), ?(decide_True (P := d_label d = _)) by done.
  - by apply single_number_pack.
  - unfold ngx_protobuf_pack_single_field. assert (Writes (fun c => ngx_protobuf_write_string_field c w (d_number d))
      (enc_bytes (d_number d) (sbytes w))) as Hs.
    { apply writes_string_field; [done|done|]. pose proof (enc_bytes_lt (d_number d) (sbytes w)). lia. }
    destruct Ht as [->| ->]; rewrite Hw, ok_bind; by apply (writes_ok (fun c => ngx_protobuf_write_string_field c w (d_number d))).
  - unfold ngx_protobuf_pack_single_field, write_message. rewrite Ht, Hm, Hsz, Hpk. cbn [v_message of_opt mret cres_ret]. repeat (rewrite ok_bind; cbn [of_opt]).
    pose proof (enc_bytes_lt (d_number d) e). rewrite He1.
    apply (writes_ok (fun c => c ← ngx_protobuf_write_message_header c (lenz e) (d_number d); '(_, c) ← pack m c; mret c)); [|done].
    unfold enc_bytes. rewrite app_assoc. apply writes_bind; [apply writes_header; lia|]. intros c' Hf'. by rewrite He2, ok_bind.
  - rewrite Hu. cbn [v_repeated mret cres_ret]. rewrite ok_bind, Hp. by apply repeated_numbers_pack.
  - rewrite Hu. cbn [v_repeated mret cres_ret]. rewrite ok_bind, Hp. by apply strings_pack.
  - rewrite Hu. cbn [v_repeated mret cres_ret]. rewrite ok_bind, Hp. by apply packed_pack.
Qed.

Lemma ext_size n bs s : ext_bytes narrow n bs -> lenz bs < 4294967296 -> 0 <= s -> s + lenz bs < 18446744073709551616 ->
  ngx_protobuf_size_extension message_zero n s = Ok (NGX_OK, s + lenz bs).
Proof.
  intros [d Hd He|d bs' Hd He Hn Hv] Hb Hs Hl; destruct n as [d' v]; cbn [f_descriptor f_value] in *; subst d'.
  - unfold ngx_protobuf_size_extension. cbn [f_descriptor f_value of_opt]. rewrite ok_bind, He. cbn. by rewrite Z.add_0_r.
  - by apply value_size.
Qed.
Lemma ext_pack n bs : ext_bytes narrow n bs -> lenz bs < 4294967296 -> Packs (ngx_protobuf_pack_extension message_zero narrow n) bs.
Proof.
  intros [d Hd He|d bs' Hd He Hn Hv] Hb; destruct n as [d' v]; cbn [f_descriptor f_value] in *; subst d'.
  - intros c ((? & ?) & _). unfold ngx_protobuf_pack_extension. cbn [f_value]. rewrite He. cbn [negb]. by rewrite put_nil.
  - by apply value_pack.
Qed.

Lemma visit_sizes ns bss s : Forall2 (ext_bytes narrow) ns bss -> lenz (concat bss) < 4294967296 -> 0 <= s ->
  s + lenz (concat bss) < 18446744073709551616 ->
  visit (ngx_protobuf_size_extension message_zero) ns s = Ok (NGX_OK, s + lenz (concat bss)).
Proof.
  intros Hn. revert s. induction Hn as [|n bs ns bss Hn Hns IH]; intros s Hb Hs Hl; cbn [visit concat] in *.
  - do 2 f_equal. cbn [length]. lia.
  - rewrite length_app in *. rewrite (ext_size n bs), ok_bind, decide_False by first [done|lia|intros H; by apply H].
    rewrite IH by lia. do 2 f_equal. lia.
Qed.

Lemma visit_packs ns bss : Forall2 (ext_bytes narrow) ns bss -> lenz (concat bss) < 4294967296 ->
  Packs (visit (ngx_protobuf_pack_extension message_zero narrow) ns) (concat bss).
Proof.
  induction 1 as [|n bs ns bss Hn Hns IH]; intros Hb c Hf; cbn [visit concat] in *.
  - destruct Hf as ((? & ?) & _). by rewrite put_nil.
  - rewrite length_app in Hb. assert (Hf' := Hf). rewrite length_app, Nat2Z.inj_add in Hf.
    rewrite (ext_pack n bs) by first [done|lia|eapply fits_le; [exact Hf|lia]]. rewrite ok_bind.
    rewrite decide_False by (intros H; by apply H). rewrite IH by first [lia|apply fits_put; [exact Hf|lia]].
    do 2 f_equal. apply put_app, Hf'.
Qed.

(** The nodes of a tree whose keys lie in a range, measured and packed. *)
Lemma extensions_size ext bss : Forall2 (ext_bytes narrow) (map snd (inorder ext)) bss -> lenz (concat bss) < 4294967296 ->
  Forall (fun k => 0 <= k < 4294967296) (map fst (inorder ext)) ->
  ngx_protobuf_size_extensions message_zero ext = Ok (lenz (concat bss)).
Proof.
  intros Hn Hb Hk. unfold ngx_protobuf_size_extensions. rewrite iterate_all.
  - by rewrite visit_sizes with (bss := bss) by (done || lia).
  - eapply Forall_impl; [exact Hk|]. intros k. cbn beta. lia.
Qed.
Lemma extensions_pack ext bss lower upper : Forall2 (ext_bytes narrow) (map snd (inorder ext)) bss ->
  lenz (concat bss) < 4294967296 -> Forall (fun k => lower <= k <= upper) (map fst (inorder ext)) ->
  Packs (ngx_protobuf_pack_extensions message_zero narrow ext lower upper) (concat bss).
Proof.
  intros Hn Hb Hk c Hf. unfold ngx_protobuf_pack_extensions. rewrite iterate_all by done. by apply visit_packs.
Qed.

(** A buffer that ends [k] bytes further. *)
Definition ends (c : ngx_protobuf_context_t) (k : Z) : Prop :=
  room c k /\ last c = pos c + k /\ 0 <= base /\ base + last c + 4294967296 < 18446744073709551616.

Lemma ext_pack_abort n bs c k : ext_bytes narrow n bs -> lenz bs < 4294967296 -> ends c k -> k < lenz bs ->
  ngx_protobuf_pack_extension message_zero narrow n c = Ok (NGX_ABORT, c).
Proof.
  intros Hn Hb ((? & ? & ?) & Hl & ? & ?) Hk. unfold ngx_protobuf_pack_extension. rewrite (ext_size n bs) by (done || lia).
  destruct Hn as [d Hd He|d bs' Hd He Hn Hv]; [cbn [length] in Hk; lia|]. rewrite He. cbn [negb]. rewrite ok_bind.
  unfold ptr_add. by rewrite decide_True by (rewrite u64_id by lia; lia).
Qed.

Lemma visit_packs_short ns bss c k : Forall2 (ext_bytes narrow) ns bss -> lenz (concat bss) < 4294967296 ->
  ends c k -> k < lenz (concat bss) ->
  exists j, lenz (concat (take j bss)) <= k /\
    visit (ngx_protobuf_pack_extension message_zero narrow) ns c = Ok (NGX_ABORT, put c (concat (take j bss))).
Proof.
  intros Hn. revert c k. induction Hn as [|n bs ns bss Hn Hns IH]; intros c k Hb Hc Hk; cbn [visit concat] in *;
    assert (Hc' := Hc); destruct Hc' as (Hr & Hl & Hb0 & Hb1); [destruct Hr as (? & ? & ?); cbn [length] in Hk; lia|].
  rewrite length_app in *. destruct (decide (k < lenz bs)) as [Hlt|Hge].
  - exists 0%nat. rewrite (ext_pack_abort n bs c k) by (done || lia). rewrite ok_bind, decide_True by done.
    destruct Hr as (? & ? & ?). by rewrite put_nil.
  - rewrite (ext_pack n bs) by first [done|lia|split_and!; [eapply room_le; [exact Hr|lia]|lia|done|lia]].
    rewrite ok_bind, decide_False by (intros H; by apply H).
    destruct (IH (put c bs) (k - lenz bs)) as (j & Hj & ->); [lia| |lia|].
    + split_and!; [apply put_room; [eapply room_le; [exact Hr|]|]; lia|rewrite put_last, put_pos; lia|done|by rewrite put_last].
    + exists (S j). cbn [take concat]. rewrite length_app. split; [lia|]. do 2 f_equal. apply put_app.
      eapply room_le; [exact Hr|]. rewrite length_app. lia.
Qed.
End Node.

(** C22: Extension fields are packed as they are measured.  When every node of
    the tree is a cleared value, or a number of any type, a string or a
    message that is packed as it is measured, or an array of numbers or
    strings, or a packed array with at least one number, whose elements can be
    read where the code looks for them, [size_extensions] gives the number of
    all their bytes.  When every number lies in the range of [pack_extensions],
    that writes exactly these bytes in the order of the numbers if they fit;
    if the buffer ends before, it gives [NGX_ABORT] and has written whole
    fields only, and none past the end. *)
Theorem ngx_protobuf_extensions_packed_as_measured `{E : NgxEnv} {M : Type} (message_zero : M) (narrow : Z -> Z)
    (ext : rbtree (ngx_protobuf_extension_field_t M)) bss lower upper c :
  Forall2 (ext_bytes narrow) (map snd (inorder ext)) bss -> lenz (concat bss) < 4294967296 ->
  Forall (fun k => 0 <= k < 4294967296) (map fst (inorder ext)) ->
  exists size, ngx_protobuf_size_extensions message_zero ext = Ok size /\ size = lenz (concat bss) /\
    (Forall (fun k => lower <= k <= upper) (map fst (inorder ext)) ->
     (fits c size -> ngx_protobuf_pack_extensions message_zero narrow ext lower upper c = Ok (NGX_OK, put c (concat bss))) /\
     (forall k, ends c k -> k < size -> exists j, lenz (concat (take j bss)) <= k /\
        ngx_protobuf_pack_extensions message_zero narrow ext lower upper c = Ok (NGX_ABORT, put c (concat (take j bss))))).
Proof.
  intros Hn Hb Hk. exists (lenz (concat bss)). split; [by eapply extensions_size|]. split; [done|]. intros Hr. split.
  - by apply extensions_pack.
  - intros k Hc Hlt. unfold ngx_protobuf_pack_extensions. rewrite iterate_all by done. by apply visit_packs_short.
Qed.

(** A number and packed numbers, packed into nine bytes. *)
Lemma ngx_protobuf_extensions_packed_as_measured_witness :
  let one := Desc 101 0 NGX_PROTOBUF_LABEL_OPTIONAL NGX_PROTOBUF_TYPE_INT32 4 false None None None : ngx_protobuf_field_descriptor_t unit in
  let many := Desc 150 0 NGX_PROTOBUF_LABEL_REPEATED NGX_PROTOBUF_TYPE_UINT32 4 true None None None : ngx_protobuf_field_descriptor_t unit in
  let ext := Node false (Node false Nil 101 (Field (Some one) (PValue (Some NGX_PROTOBUF_TYPE_INT32) true (UWord 5))) Nil)
    150 (Field (Some many) (PValue (Some NGX_PROTOBUF_TYPE_UINT32) true (URepeated [UWord 7; UWord 300]))) Nil in
  let bss := [[168; 6; 5]; [178; 9; 3; 7; 172; 2]] in
  let c := Ctx (replicate 9 0) 0 9 false true 0 in
  let E := {| base := 4096; ao := fun _ _ => true; junk32 := 7; junk64 := 7; input := []; frame := fun _ => [] |} in
  ngx_protobuf_size_extensions tt ext = Ok 9 /\
  @ngx_protobuf_pack_extensions E unit tt id ext 100 200 c = Ok (NGX_OK, put c (concat bss)).
Proof.
  intros one many ext bss c E.
  destruct (@ngx_protobuf_extensions_packed_as_measured E unit tt id ext bss 100 200 c) as (size & Hs & Hb & Hp).
  - constructor; [|constructor; [|constructor]].
    + eapply bytes_present with (d := one); [reflexivity|reflexivity|cbn; lia|].
      exact (bytes_number id one (UWord 5) 5 ltac:(discriminate) eq_refl).
    + eapply bytes_present with (d := many); [reflexivity|reflexivity|cbn; lia|].
      refine (bytes_packed id many (URepeated [UWord 7; UWord 300]) _ [7; 300] eq_refl eq_refl _ eq_refl _ eq_refl _);
        [by eexists|discriminate|]. intros [|[|i]] v Hi; [injection Hi as <-; reflexivity..|discriminate].
  - reflexivity.
  - cbn. constructor; [lia|]. constructor; [lia|constructor].
  - rewrite Hb in *. split; [exact Hs|]. apply Hp; [cbn; constructor; [lia|]; constructor; [lia|constructor]|].
    vm_compute. repeat split; discriminate.
Defined.

(** An empty packed field is counted with its key and its length, and neither
    is written. *)
Example packed_empty_counted :
  let many := Desc 150 0 NGX_PROTOBUF_LABEL_REPEATED NGX_PROTOBUF_TYPE_UINT32 4 true None None None : ngx_protobuf_field_descriptor_t unit in
  let ext := Node false Nil 150 (Field (Some many) (PValue (Some NGX_PROTOBUF_TYPE_UINT32) true UZero)) Nil in
  let c := Ctx (replicate 9 0) 0 9 false true 0 in
  let E := {| base := 4096; ao := fun _ _ => true; junk32 := 7; junk64 := 7; input := []; frame := fun _ => [] |} in
  ngx_protobuf_size_extensions tt ext = Ok 3 /\ @ngx_protobuf_pack_extensions E unit tt id ext 100 200 c = Ok (NGX_OK, c).
Proof. done. Qed.
