(* ===== verification/NgxProtobufExtRead.v ===== *)
(** Protocol buffers, extension fields read back: single numbers that are
    varints and strings, from their bytes into the tree of an object. *)

From Stdlib Require Import ZArith Lia Sorted.
From S2P Require Import Prelude NgxRbtree NgxProtobuf NgxProtobufWire NgxProtobufMsg NgxProtobufCodec NgxProtobufRead.
From S2P Require Import NgxProtobufScalar NgxProtobufScalarLaws NgxProtobufExt NgxProtobufExtTree NgxProtobufExtLaws.

Open Scope Z_scope.

(** The two readings of a word. *)
Lemma i32_word v : 0 <= v < 4294967296 -> -2147483648 <= i32 v <= 2147483647 /\ u32 (i32 v) = v.
Proof. intros Hv. unfold i32, u32. split; zdiv. Qed.
Lemma i64_word v : 0 <= v < 18446744073709551616 ->
  -9223372036854775808 <= i64 v <= 9223372036854775807 /\ u64 (i64 v) = v.
Proof. intros Hv. unfold i64, u64. split; zdiv. Qed.

Section Read.
Context `{E : NgxEnv} {M : Type} (message_zero : M) (narrow : Z -> Z).
Abbreviation descriptor := (ngx_protobuf_field_descriptor_t M).
Abbreviation extension_field := (ngx_protobuf_extension_field_t M).
Implicit Types (d : descriptor) (x : ngx_protobuf_union_t M).

(** ** Values that are read back *)

(** A string that is good, or a number in the representation that has no fixed
    width; [wire] is its wire type. *)
Definition value_readable d x : Prop :=
  d_label d ≠ NGX_PROTOBUF_LABEL_REPEATED /\
  match d_type d with
  | NGX_PROTOBUF_TYPE_STRING | NGX_PROTOBUF_TYPE_BYTES =>
      d_wire_type d = NGX_PROTOBUF_WIRETYPE_LENGTH_DELIMITED /\ exists s, v_bytes x = Ok s /\ str_good s
  | NGX_PROTOBUF_TYPE_BOOL | NGX_PROTOBUF_TYPE_ENUM | NGX_PROTOBUF_TYPE_UINT32 | NGX_PROTOBUF_TYPE_INT32
  | NGX_PROTOBUF_TYPE_SINT32 | NGX_PROTOBUF_TYPE_UINT64 | NGX_PROTOBUF_TYPE_INT64 | NGX_PROTOBUF_TYPE_SINT64 =>
      d_wire_type d = NGX_PROTOBUF_WIRETYPE_VARINT /\ exists v, number_value (d_type d) x = Ok v
  | _ => False
  end.

(** Its bytes after the key, and what they are read as. *)
Definition value_payload d x : bytes :=
  match d_type d with
  | NGX_PROTOBUF_TYPE_STRING | NGX_PROTOBUF_TYPE_BYTES =>
      match v_bytes x with Ok s => varint (lenz (sbytes s)) ++ sbytes s | _ => [] end
  | t => match number_value t x with Ok v => enc_number t v | _ => [] end
  end.
Definition value_read d x : ngx_protobuf_union_t M :=
  match d_type d with
  | NGX_PROTOBUF_TYPE_STRING | NGX_PROTOBUF_TYPE_BYTES => match v_bytes x with Ok s => UBytes (copy_str s) | _ => x end
  | NGX_PROTOBUF_TYPE_BOOL => match v_uint32 x with Ok v => UWord (c_bool v) | _ => x end
  | t => match number_value t x with Ok v => UWord v | _ => x end
  end.
Definition enc_value d x : bytes := enc_key (d_number d) (d_wire_type d) ++ value_payload d x.

Lemma v_uint32_range x v : v_uint32 x = Ok v -> 0 <= v < 4294967296.
Proof.
  unfold v_uint32. intros (w & _ & Hv)%cres_bind_ok. cbn [mret cres_ret] in Hv. injection Hv as <-. apply u32_bound.
Qed.
Lemma v_uint64_range x v : v_uint64 x = Ok v -> 0 <= v < 18446744073709551616.
Proof. unfold v_uint64. destruct x; cbn [mret cres_ret]; try done; intros [= <-]; [lia|apply u64_bound]. Qed.

Lemma readable_bytes d x : value_readable d x -> value_bytes narrow d x (enc_value d x).
Proof.
  intros [Hr Ht]. unfold enc_value, value_payload.
  pose proof (fun v => bytes_number narrow d x v Hr) as Hnum. pose proof (fun s Hs => bytes_string narrow d x s Hr Hs) as Hstr.
  destruct (d_type d) eqn:Et; try done; destruct Ht as [-> Ht].
  all: try (destruct Ht as [v Hv]; rewrite Hv; exact (Hnum v Hv)).
  all: destruct Ht as (s & Hs & Hg); rewrite Hs; apply (Hstr s); [by (left + right)|done|done].
Qed.

Lemma payload_nonempty d x : value_readable d x -> value_payload d x ≠ [].
Proof.
  intros [_ Ht]. unfold value_payload. destruct (d_type d) eqn:Et; try done; destruct Ht as [_ Ht].
  all: try (destruct Ht as [v ->]; apply varint_nonempty).
  all: destruct Ht as (s & -> & _); intros [Ev _]%app_eq_nil; by apply varint_nonempty in Ev.
Qed.

(** Reading a number into a union of zero bytes. *)
Section Number.
Context (c : ngx_protobuf_context_t) (bs : bytes) (Ha : ahead c bs) (Hl : pos c + lenz bs <= last c).
Abbreviation zero := (@UZero M).
Abbreviation read_to r v := (exists k, r = Ok (NGX_OK, UWord v, adv c (length bs) k)).

Lemma read_uint64_ext v : 0 <= v < 18446744073709551616 -> bs = varint v -> read_to (read_word64 ngx_protobuf_read_uint64 zero c) v.
Proof using Ha Hl.
  intros Hv Hbs. exists (calls c). unfold read_word64, read_member. cbn. rewrite Hbs in *.
  rewrite (read_uint64_varint c (last c) v) by done. cbn. by rewrite u64_id.
Qed.
Lemma read_uint32_ext v : 0 <= v < 4294967296 -> bs = varint v -> read_to (read_word32 ngx_protobuf_read_uint32 zero c) v.
Proof using Ha Hl.
  intros Hv Hbs. exists (calls c). unfold read_word32, read_member. cbn. rewrite Hbs in *.
  rewrite (read_uint32_varint c (last c) v) by done. cbn. by rewrite u32_id.
Qed.
Lemma read_bool_ext v : bs = varint (u32 (c_bool v)) -> read_to (read_word32 ngx_protobuf_read_bool zero c) (c_bool v).
Proof using Ha Hl.
  intros Hbs. exists (calls c). unfold read_word32, read_member, ngx_protobuf_read_bool. cbn. rewrite Hbs in *.
  rewrite (read_uint32_varint c (last c) (u32 (c_bool v))) by (done || apply u32_bound). cbn. unfold c_bool.
  by case_bool_decide.
Qed.
Lemma read_sint32_ext v : 0 <= v < 4294967296 -> bs = varint (u32 (NGX_PROTOBUF_Z32_ENCODE (i32 v))) ->
  read_to (read_word32 ngx_protobuf_read_sint32 zero c) v.
Proof using Ha Hl.
  intros Hv Hbs. exists (calls c). unfold read_word32, read_member, ngx_protobuf_read_sint32. cbn. rewrite Hbs in *.
  destruct (i32_word v Hv) as [Hi Hu].
  rewrite (read_uint32_varint c (last c) (u32 (NGX_PROTOBUF_Z32_ENCODE (i32 v)))) by (done || apply u32_bound). cbn.
  rewrite Z32_encode_zigzag, Z32_decode_zigzag, decide_True by done. cbn. by rewrite Hu.
Qed.
Lemma read_sint64_ext v : 0 <= v < 18446744073709551616 -> bs = varint (u64 (NGX_PROTOBUF_Z64_ENCODE (i64 v))) ->
  read_to (read_word64 ngx_protobuf_read_sint64 zero c) v.
Proof using Ha Hl.
  intros Hv Hbs. exists (calls c). unfold read_word64, read_member, ngx_protobuf_read_sint64. cbn. rewrite Hbs in *.
  destruct (i64_word v Hv) as [Hi Hu].
  rewrite (read_uint64_varint c (last c) (u64 (NGX_PROTOBUF_Z64_ENCODE (i64 v)))) by (done || apply u64_bound). cbn.
  rewrite Z64_encode_zigzag, Z64_decode_zigzag, decide_True by done. cbn. by rewrite Hu.
Qed.
End Number.

Lemma unpack_value_readable d x c : value_readable d x -> lenz (value_payload d x) < 4294967296 -> ahead c (value_payload d x) ->
  pos c + lenz (value_payload d x) <= last c -> reading c ->
  exists k, ngx_protobuf_unpack_extension_value message_zero d UZero c =
    Ok (NGX_OK, value_read d x, adv c (length (value_payload d x)) k).
Proof.
  intros [_ Ht] Hb Ha Hl Hc. unfold ngx_protobuf_unpack_extension_value, value_payload, value_read in *.
  destruct (d_type d) eqn:Et; try done; destruct Ht as [_ Ht]; cbn [number_value number_width enc_number] in *.
  all: first
    [ destruct Ht as (s & Hs & Hg); rewrite Hs in *; cbn; rewrite length_app, Nat2Z.inj_add in Hb; pose proof (str_good_len s Hg) as Hlen;
      destruct (read_string_at c (sbytes s) ngx_str_null (pool c)) as [_ ->]; [lia|done|done|done|];
      destruct Hc as [-> _]; eexists; unfold copy_str; by rewrite <- Hlen
    | destruct Ht as [v Hv]; rewrite Hv in *;
      first [ pose proof (v_uint32_range _ _ Hv) as Hr | pose proof (v_uint64_range _ _ Hv) as Hr ];
      rewrite ?(u32_id v), ?(u64_id v) in * by lia;
      first [ by apply read_uint64_ext | by apply read_uint32_ext | by apply read_bool_ext
            | by apply read_sint32_ext | by apply read_sint64_ext ] ].
Qed.
End Read.

(** ** Into the tree *)

Section Store.
Context `{E : NgxEnv, R : NgxRbtree} {M : Type} (message_zero : M) (narrow : Z -> Z).
Abbreviation descriptor := (ngx_protobuf_field_descriptor_t M).
Abbreviation extension_field := (ngx_protobuf_extension_field_t M).
Abbreviation extensions := (option (rbtree extension_field)).
Implicit Types (d : descriptor) (n : extension_field) (e : extensions) (l : list (Z * extension_field)).

(** The tree with a new node. *)
Definition ext_store e (k : Z) n : extensions := Some (set_node (rbtree_insert (default Nil e) k field_zero) k n).

Lemma ext_store_ok e k n : bst (default Nil e) -> ngx_protobuf_find_node (default Nil e) k = None ->
  bst (default Nil (ext_store e k n)) /\
  forall k', ngx_protobuf_find_node (default Nil (ext_store e k n)) k' =
    if decide (k' = k) then Some n else ngx_protobuf_find_node (default Nil e) k'.
Proof.
  intros Hb Hk. unfold ext_store. cbn [default id]. split; [apply set_node_bst; by apply (find_insert _ k field_zero k)|].
  intros k'. rewrite find_set_node. rewrite !(fun k' => proj2 (find_insert (default Nil e) k field_zero k' Hb Hk)).
  case_decide; [by rewrite decide_True|done].
Qed.

(** The node of a value that has been read. *)
Definition node_read d x : extension_field := Field (Some d) (PValue (Some (d_type d)) true (value_read d x)).

Lemma set_exists d x : Field (Some d) (PValue (Some (d_type d)) true (value_read d x)) = node_read d x.
Proof. done. Qed.

Lemma unpack_extension_readable fuel reg e k d x c : reading c -> bst (default Nil e) ->
  ngx_protobuf_find_node (default Nil e) k = None -> ngx_protobuf_find_node reg k = Some (Some d) -> value_readable d x ->
  lenz (value_payload d x) < 4294967296 -> ahead c (value_payload d x) -> pos c + lenz (value_payload d x) <= last c ->
  exists k', ngx_protobuf_unpack_extension message_zero fuel k (d_wire_type d) c (Some reg) e =
    Ok (NGX_OK, ext_store e k (node_read d x), adv c (length (value_payload d x)) k').
Proof.
  intros Hc Hb Hk Hr Hx Hl Ha Hend. assert (Hc' := Hc). destruct Hc' as (Hp & Hao & _).
  unfold ngx_protobuf_unpack_extension. rewrite Hr. cbn [of_opt]. rewrite ok_bind.
  rewrite decide_False by (intros [H _]; by apply H). rewrite Hp. cbn [negb].
  destruct (init_rbtree_ok Hao e c) as (k1 & ->). rewrite decide_False by (intros H; by apply H). cbn [of_opt]. rewrite ok_bind.
  unfold ngx_protobuf_rbtree_node, ngx_palloc. rewrite Hk, Hao by lia. cbn [calls mem pos last reuse_strings pool].
  rewrite bool_decide_eq_false_2 by (intros H; by apply H).
  unfold unpack_value, ngx_protobuf_extension_field, set_descriptor. cbn [field_zero f_descriptor f_value of_opt].
  rewrite !ok_bind. destruct (Hx) as [Hlab Ht].
  rewrite decide_False by done. rewrite decide_False by (intros H; by rewrite H in Ht).
  cbn [mret cres_ret]. rewrite !ok_bind. cbn [negb]. unfold obj_get, obj_set. cbn [f_descriptor f_value of_opt v_u value_zero].
  rewrite ok_bind, decide_False by done. cbn [mret cres_ret]. rewrite ok_bind.
  destruct (unpack_value_readable message_zero d x (Ctx (mem c) (pos c) (last c) (reuse_strings c) (pool c) (S k1)))
    as (k' & Ek); [done|done|done|done|done|]. rewrite Ek, !ok_bind. rewrite decide_False by done.
  cbn [mret cres_ret]. rewrite !ok_bind. exists k'. rewrite decide_True by done. done.
Qed.

(** ** All nodes of a tree *)

Definition node_enc n : bytes :=
  match f_descriptor n with Some d => if v_exists (f_value n) then enc_value d (v_u (f_value n)) else [] | None => [] end.
Definition node_norm n : extension_field := match f_descriptor n with Some d => node_read d (v_u (f_value n)) | None => n end.

(** The node with a key is cleared, or of a value that is read back with the
    registry [reg]. *)
Definition node_readable (reg : rbtree (option descriptor)) '(k, n) : Prop :=
  exists d, f_descriptor n = Some d /\ d_number d = k /\ 0 <= k < 536870912 /\ 0 <= d_wire_type d < 8 /\
    ngx_protobuf_find_node reg k = Some (Some d) /\ (v_exists (f_value n) = true -> value_readable d (v_u (f_value n))).

Lemma node_readable_bytes reg k n : node_readable reg (k, n) -> ext_bytes narrow n (node_enc n).
Proof.
  intros (d & Hd & Hk & Hn & _ & _ & Hv). unfold node_enc. rewrite Hd. destruct (v_exists (f_value n)) eqn:He.
  - eapply bytes_present; [done|done|by subst|]. by apply readable_bytes, Hv.
  - by eapply bytes_absent.
Qed.

(** One node after the other. *)
Definition read_back (e : extensions) l : extensions :=
  foldl (fun e kn => if v_exists (f_value (snd kn)) then ext_store e (fst kn) (node_norm (snd kn)) else e) e l.

Lemma read_back_find l e : bst (default Nil e) -> NoDup (map fst l) ->
  (forall k, k ∈ map fst l -> ngx_protobuf_find_node (default Nil e) k = None) ->
  bst (default Nil (read_back e l)) /\
  forall k n, ngx_protobuf_find_node (default Nil (read_back e l)) k = Some n <->
    ngx_protobuf_find_node (default Nil e) k = Some n \/
    exists n0, (k, n0) ∈ l /\ v_exists (f_value n0) = true /\ n = node_norm n0.
Proof.
  revert e. induction l as [|[k0 n0] l IH]; intros e Hb Hd Hk; cbn [read_back foldl map fst snd] in *.
  - split; [done|]. intros k n. split; [auto|]. intros [?|(n0 & H & _)]; [done|]. by apply not_elem_of_nil in H.
  - apply NoDup_cons in Hd as [Hk0 Hd]. destruct (v_exists (f_value n0)) eqn:He.
    + destruct (ext_store_ok e k0 (node_norm n0) Hb) as [Hb' Hf']; [apply Hk, list_elem_of_here|].
      destruct (IH (ext_store e k0 (node_norm n0))) as [Hb2 Hf2]; [done|done| |].
      { intros k Hin. rewrite Hf', decide_False by (intros ->; done). by apply Hk, list_elem_of_further. }
      split; [done|]. intros k n. fold (read_back (ext_store e k0 (node_norm n0)) l). rewrite Hf2, Hf'. split.
      * intros [H|(n1 & Hin & He1 & ->)]; [|right; exists n1; split; [by apply list_elem_of_further|done]].
        case_decide as Hkk; [|by left]. injection H as <-. subst. right. exists n0. split; [apply list_elem_of_here|done].
      * intros [H|(n1 & Hin & He1 & ->)].
        -- left. rewrite decide_False; [done|]. intros ->. rewrite Hk in H by apply list_elem_of_here. done.
        -- apply elem_of_cons in Hin as [[= -> ->]|Hin]; [left; by rewrite decide_True|right; eauto].
    + destruct (IH e) as [Hb2 Hf2]; [done|done|intros k Hin; by apply Hk, list_elem_of_further|].
      split; [done|]. intros k n. rewrite Hf2. split; (intros [H|(n1 & Hin & He1 & ->)]; [by left|right]).
      * exists n1. split; [by apply list_elem_of_further|done].
      * apply elem_of_cons in Hin as [[= -> ->]|Hin]; [congruence|eauto].
Qed.

Lemma bst_keys (t : rbtree extension_field) : bst t -> NoDup (map fst (inorder t)).
Proof.
  unfold bst. generalize (map fst (inorder t)). intros l. induction 1 as [|k l Hl IH Hk]; constructor; [|done].
  intros Hin. eapply Forall_forall in Hk; [|done]. cbn beta in Hk. lia.
Qed.

(** What the tree that has been read gives. *)
Lemma read_back_get (t : rbtree extension_field) k : bst t ->
  ngx_protobuf_get_extension (read_back None (inorder t)) k =
    match ngx_protobuf_find_node t k with
    | Some n => if v_exists (f_value n) then Some (f_value (node_norm n)) else None
    | None => None
    end.
Proof.
  intros Ht. rewrite get_extension_eq. destruct (read_back_find (inorder t) None) as [_ Hf]; [constructor|by apply bst_keys|done|].
  specialize (Hf k). cbn [default ngx_protobuf_find_node] in Hf.
  destruct (ngx_protobuf_find_node (default Nil (read_back None (inorder t))) k) as [n|] eqn:En.
  - destruct (proj1 (Hf n) eq_refl) as [?|(n0 & Hin & He & ->)]; [done|]. apply find_inorder in Hin; [|done].
    by rewrite Hin, He.
  - destruct (ngx_protobuf_find_node t k) as [n|] eqn:Et; [|done]. destruct (v_exists (f_value n)) eqn:He; [|done].
    apply find_inorder in Et; [|done]. enough (None = Some (node_norm n)) by done. apply Hf. right. eauto.
Qed.
End Store.
