(* ===== verification/NgxProtobufSpec.v ===== *)
(** Protocol buffers, the contract of the runtime: integers written and read
    back, and the inputs on which the reading functions leave their buffer,
    change it, forget what they read or never end. *)

From Stdlib Require Import ZArith Lia.
From S2P Require Import Prelude NgxProtobuf NgxProtobufWire NgxProtobufMsg NgxProtobufCodec NgxProtobufRead.

Open Scope Z_scope.

(** ** Integers *)

(** What a writing function leaves can be read from where it started. *)
Lemma read_written c v old :
  0 <= v < 18446744073709551616 -> room c (lenz (varint v)) ->
  ngx_protobuf_read_uint64 (set_pos (put c (varint v)) (pos c)) (pos (put c (varint v))) old = Ok (NGX_OK, put c (varint v), v).
Proof.
  intros Hv Hr. rewrite (read_uint64_varint _ _ v); [done|done|by apply put_ahead|done].
Qed.

Lemma read32_written `{NgxEnv} c v old :
  0 <= v < 4294967296 -> room c (lenz (varint v)) ->
  ngx_protobuf_read_uint32 (set_pos (put c (varint v)) (pos c)) (pos (put c (varint v))) old = Ok (NGX_OK, put c (varint v), v).
Proof.
  intros Hv Hr. unfold ngx_protobuf_read_uint32. rewrite read_written by (done || lia).
  rewrite ok_bind, decide_False by (intros ?; congruence). by rewrite u32_id.
Qed.

(** C39: An integer written with [ngx_protobuf_write_uint32], [_uint64],
    [_sint32] or [_sint64] takes as many bytes as the size function says, stays
    within the buffer, and is read back unchanged: base 128 and zigzag are
    inverse on the whole range of each type. *)
Theorem ngx_protobuf_integers_roundtrip `{NgxEnv} (c : ngx_protobuf_context_t) (old : Z) :
  room c 10 ->
  (forall v, 0 <= v < 4294967296 -> exists c1 c0,
    ngx_protobuf_write_uint32 c v = Ok c1 /\ pos c1 = pos c + ngx_protobuf_size_uint32 v /\
    c0 = set_pos c1 (pos c) /\ ngx_protobuf_read_uint32 c0 (pos c1) old = Ok (NGX_OK, c1, v)) /\
  (forall v, 0 <= v < 18446744073709551616 -> exists c1 c0,
    ngx_protobuf_write_uint64 c v = Ok c1 /\ pos c1 = pos c + ngx_protobuf_size_uint64 v /\
    c0 = set_pos c1 (pos c) /\ ngx_protobuf_read_uint64 c0 (pos c1) old = Ok (NGX_OK, c1, v)) /\
  (forall v, -2147483648 <= v <= 2147483647 -> exists c1 c0,
    ngx_protobuf_write_sint32 c v = Ok c1 /\ pos c1 = pos c + ngx_protobuf_size_sint32 v /\
    c0 = set_pos c1 (pos c) /\ ngx_protobuf_read_sint32 c0 (pos c1) old = Ok (NGX_OK, c1, v)) /\
  (forall v, -9223372036854775808 <= v <= 9223372036854775807 -> exists c1 c0,
    ngx_protobuf_write_sint64 c v = Ok c1 /\ pos c1 = pos c + ngx_protobuf_size_sint64 v /\
    c0 = set_pos c1 (pos c) /\ ngx_protobuf_read_sint64 c0 (pos c1) old = Ok (NGX_OK, c1, v)).
Proof.
  intros Hr. assert (forall v, room c (lenz (varint v))) as Hv.
  { intros v. pose proof (varint_length v). eapply room_le; [exact Hr|lia]. }
  split_and!; intros v Hrange; eexists _, _.
  - split_and!; [by apply write_uint32_put|by rewrite size_uint32_spec|done|]. rewrite u32_id by done. by apply read32_written.
  - split_and!; [by apply write_uint64_put|by rewrite size_uint64_spec|done|]. rewrite u64_id by done. by apply read_written.
  - split_and!; [by apply write_uint32_put|by unfold ngx_protobuf_size_sint32; rewrite size_uint32_spec|done|].
    rewrite Z32_encode_zigzag by lia. unfold ngx_protobuf_read_sint32.
    assert (0 <= zigzag v < 4294967296) by (unfold zigzag; case_decide; lia).
    rewrite read32_written, ok_bind, decide_True by done. by rewrite Z32_decode_zigzag by lia.
  - split_and!; [by apply write_uint64_put|by unfold ngx_protobuf_size_sint64; rewrite size_uint64_spec|done|].
    rewrite Z64_encode_zigzag by lia. unfold ngx_protobuf_read_sint64.
    assert (0 <= zigzag v < 18446744073709551616) by (unfold zigzag; case_decide; lia).
    rewrite read_written, ok_bind, decide_True by done. by rewrite Z64_decode_zigzag by lia.
Qed.

(** An environment for the examples. *)
Definition env0 : NgxEnv := {| base := 4096; ao := fun _ _ => true; junk32 := 7; junk64 := 7; input := []; frame := fun _ => [] |}.
Definition ctx0 (m : bytes) : ngx_protobuf_context_t := Ctx m 0 (lenz m) false true 0.

Lemma ngx_protobuf_integers_roundtrip_witness :
  exists c1 c0, ngx_protobuf_write_sint32 (ctx0 (replicate 10 0)) (-3) = Ok c1 /\
    pos c1 = 0 + ngx_protobuf_size_sint32 (-3) /\ c0 = set_pos c1 0 /\
    @ngx_protobuf_read_sint32 env0 c0 (pos c1) 0 = Ok (NGX_OK, c1, -3).
Proof.
  refine (proj1 (proj2 (proj2 (@ngx_protobuf_integers_roundtrip env0 (ctx0 (replicate 10 0)) 0 _))) (-3) _).
  - vm_compute. repeat split; discriminate.
  - lia.
Defined.

(** ** Reading past the end *)

Lemma read_loop_continue fuel m end_ bs : Forall (fun b => 128 <= b < 256) bs -> forall p s acc,
  found m p bs -> p + lenz bs <= end_ -> s + 7 * lenz bs < 64 ->
  exists acc', read_uint64_loop (length bs + fuel) m p end_ s acc =
    read_uint64_loop fuel m (p + lenz bs) end_ (s + 7 * lenz bs) acc'.
Proof.
  induction 1 as [|b bs Hb Hbs IH]; intros p s acc Hf Hl Hs; cbn [length] in *.
  - exists acc. do 2 f_equal; lia.
  - cbn [Nat.add read_uint64_loop]. rewrite (found_head _ _ _ _ Hf), ok_bind.
    rewrite decide_True by (rewrite land_128 by lia; lia).
    destruct (found_app m p [b] bs Hf) as [_ Hf']. cbn [length] in Hf'.
    destruct (IH (p + 1) (s + 7) (Z.lor acc (u64 (Z.shiftl (Z.land b 127) s)))) as (acc' & ->); [done|lia|lia|].
    exists acc'. f_equal; lia.
Qed.

(** The loop of [ngx_protobuf_read_uint64] compares the advanced pointer with
    [p <= end], so a number whose bytes up to [end] all announce another byte is
    continued with the byte at [end]: it is read outside the block when the
    message fills its block, and otherwise the call succeeds one byte past the
    end of the message. *)
Theorem ngx_protobuf_read_uint64_past_end (c : ngx_protobuf_context_t) (bs : bytes) (old : Z) :
  bs ≠ [] -> (length bs <= 9)%nat -> Forall (fun b => 128 <= b < 256) bs -> ahead c bs ->
  (Z.of_nat (length (mem c)) = pos c + lenz bs -> ngx_protobuf_read_uint64 c (pos c + lenz bs) old = UB) /\
  (forall b, 0 <= b < 128 -> bget (mem c) (pos c + lenz bs) = Ok b ->
    exists v, ngx_protobuf_read_uint64 c (pos c + lenz bs) old = Ok (NGX_OK, set_pos c (pos c + lenz bs + 1), v)).
Proof.
  intros Hne Hlen Hbs Ha. assert (0 < lenz bs) by (destruct bs; [done|cbn [length]; lia]).
  destruct (read_loop_continue (10 - length bs) (mem c) (pos c + lenz bs) bs Hbs (pos c) 0 0 Ha) as (acc & Hloop); [lia|lia|].
  replace (length bs + (10 - length bs))%nat with 10%nat in Hloop by lia.
  destruct (10 - length bs)%nat as [|fuel] eqn:E; [lia|].
  unfold ngx_protobuf_read_uint64. rewrite decide_False, Hloop by lia. cbn [read_uint64_loop]. split.
  - intros Hm. unfold bget. rewrite decide_True by (destruct Ha; lia).
    rewrite lookup_ge_None_2 by lia. done.
  - intros b Hb Hg. rewrite Hg, ok_bind, decide_False by (rewrite land_128 by lia; lia).
    rewrite ok_bind. cbn [set_pos mem]. replace (pos c + lenz bs + 1 - 1) with (pos c + lenz bs) by lia.
    rewrite Hg, ok_bind, decide_False by (rewrite land_128 by lia; lia). by eexists.
Qed.

Lemma ngx_protobuf_read_uint64_past_end_witness :
  ngx_protobuf_read_uint64 (ctx0 [200; 200]) 2 0 = UB /\
  exists v, ngx_protobuf_read_uint64 (ctx0 [200; 200; 1]) 2 0 = Ok (NGX_OK, set_pos (ctx0 [200; 200; 1]) 3, v).
Proof.
  assert (Forall (fun b => 128 <= b < 256) [200; 200]) as Hb by (repeat constructor; lia).
  split.
  - refine (proj1 (ngx_protobuf_read_uint64_past_end (ctx0 [200; 200]) [200; 200] 0 _ _ Hb _) eq_refl);
      [discriminate|simpl; lia|split; [done|by exists []]].
  - refine (proj2 (ngx_protobuf_read_uint64_past_end (ctx0 [200; 200; 1]) [200; 200] 0 _ _ Hb _) 1 _ eq_refl);
      [discriminate|simpl; lia|split; [done|by exists [1]]|lia].
Defined.

(** ** Fixed-width values *)

Section Env.
Context `{NgxEnv}.

Lemma read_copy_put c end_ val n :
  room c (Z.of_nat n) -> pos c + Z.of_nat n <= end_ -> 0 <= base -> base + end_ < 18446744073709551616 ->
  NGX_PROTOBUF_READ_COPY c end_ val n = Ok (NGX_OK, put c (le_bytes n val)).
Proof.
  intros Hr Hl Hb0 Hb1. unfold NGX_PROTOBUF_READ_COPY, ptr_add. assert (Hr' := Hr). destruct Hr' as (? & ? & ?).
  rewrite u64_id, decide_False by lia. rewrite bwrite_put by (by rewrite le_bytes_size).
  rewrite ok_bind. cbn [mret cres_ret]. unfold put. by rewrite le_bytes_size.
Qed.

(** The macro that reads fixed-width values copies in the wrong direction:
    [ngx_protobuf_read_fixed32] does what [ngx_protobuf_write_fixed32] does
    with the variable it should set (and so [_fixed64], [_float], [_double]).
    The call succeeds, the variable keeps its old value and the message loses
    its bytes; the zigzag variants decode an uninitialised variable. *)
Theorem ngx_protobuf_fixed_reads_write (c : ngx_protobuf_context_t) (end_ old : Z) :
  room c 8 -> pos c + 8 <= end_ -> 0 <= base -> base + end_ < 18446744073709551616 ->
  (exists c', ngx_protobuf_write_fixed32 c old = Ok c' /\
    ngx_protobuf_read_fixed32 c end_ old = Ok (NGX_OK, c', old) /\ ngx_protobuf_read_float c end_ old = Ok (NGX_OK, c', old)) /\
  (exists c', ngx_protobuf_write_fixed64 c old = Ok c' /\
    ngx_protobuf_read_fixed64 c end_ old = Ok (NGX_OK, c', old) /\ ngx_protobuf_read_double c end_ old = Ok (NGX_OK, c', old)) /\
  (exists c', ngx_protobuf_write_fixed32 c junk32 = Ok c' /\
    ngx_protobuf_read_sfixed32 c end_ old = Ok (NGX_OK, c', NGX_PROTOBUF_Z32_DECODE junk32)) /\
  (exists c', ngx_protobuf_write_fixed64 c junk64 = Ok c' /\
    ngx_protobuf_read_sfixed64 c end_ old = Ok (NGX_OK, c', NGX_PROTOBUF_Z64_DECODE junk64)).
Proof.
  intros Hr Hl Hb0 Hb1. assert (room c 4) by (eapply room_le; [exact Hr|lia]).
  unfold ngx_protobuf_write_fixed32, ngx_protobuf_write_fixed64, ngx_protobuf_read_fixed32, ngx_protobuf_read_float,
    ngx_protobuf_read_fixed64, ngx_protobuf_read_double, ngx_protobuf_read_sfixed32, ngx_protobuf_read_sfixed64.
  rewrite !cpymem_put by (by rewrite le_bytes_size). rewrite !read_copy_put by (done || lia).
  split_and!; eexists; split_and!; try done; by rewrite ok_bind, decide_True.
Qed.

Lemma fixed_read_example :
  @ngx_protobuf_read_fixed32 env0 (ctx0 [1; 2; 3; 4; 5; 6; 7; 8]) 8 0 =
  Ok (NGX_OK, set_pos (ctx0 [0; 0; 0; 0; 5; 6; 7; 8]) 4, 0).
Proof. done. Qed.

(** ** Unknown fields *)

(** An unknown field is kept without its number and its wire type: what
    [ngx_protobuf_unpack_unknown_field] stores for an integer [v] of field
    [field], or for a string [bs], is packed again as the integer [v], or the
    length of [bs], of field 0; the text is not written at all. *)
Theorem ngx_protobuf_unknown_fields_lost (c d : ngx_protobuf_context_t) (field v : Z) (bs : bytes) :
  reading c -> reuse_strings c = false -> lenz bs < 4294967296 -> 0 <= v < 18446744073709551616 -> room d 11 ->
  (ahead c (varint v) -> pos c + lenz (varint v) <= last c ->
   exists u c', ngx_protobuf_unpack_unknown_field field 0 c None = Ok (NGX_OK, Some [u], c') /\
     ngx_protobuf_pack_unknown_field u d = Ok (NGX_OK, put d (0 :: varint v))) /\
  (ahead c (varint (lenz bs) ++ bs) -> pos c + lenz (varint (lenz bs) ++ bs) <= last c ->
   exists u c', ngx_protobuf_unpack_unknown_field field 2 c None = Ok (NGX_OK, Some [u], c') /\
     v_bytes (value u) = Str (lenz bs) (PBlock bs) /\
     ngx_protobuf_pack_unknown_field u d = Ok (NGX_OK, put d (0 :: varint (lenz bs)))).
Proof.
  intros Hc Hre Hbs Hv Hd. assert (Hc' := Hc). destruct Hc' as (Hp & Hao & Hb).
  assert (forall w p, 0 <= w < 18446744073709551616 ->
    ngx_protobuf_pack_unknown_field (Unknown 0 0 (Value w p)) d = Ok (NGX_OK, put d (0 :: varint w))) as Hpack.
  { intros w p Hw. unfold ngx_protobuf_pack_unknown_field. cbn [wire_type value word number]. rewrite decide_True by done.
    unfold ngx_protobuf_write_uint64_field. change (NGX_PROTOBUF_HEADER 0 NGX_PROTOBUF_WIRETYPE_VARINT) with 0.
    pose proof (varint_length w). rewrite write_uint32_put, ok_bind by (eapply room_le; [exact Hd|simpl; lia]).
    change (varint (u32 0)) with [0].
    rewrite write_uint64_put by (apply put_room; rewrite ?u64_id by done; [eapply room_le; [exact Hd|simpl; lia]|lia]).
    rewrite u64_id by done. rewrite put_app; [done|]. eapply room_le; [exact Hd|]. rewrite length_app. simpl. lia. }
  unfold ngx_protobuf_unpack_unknown_field, ngx_protobuf_push_array, ngx_palloc. rewrite Hp.
  cbn [calls NgxProtobuf.mem pos last reuse_strings pool]. rewrite !Hao by lia. cbn [calls mem pos last reuse_strings pool negb].
  split; intros Ha Hl.
  - rewrite decide_True by done. rewrite (read_uint64_varint _ _ v) by done. rewrite ok_bind. cbn [mret cres_ret].
    eexists _, _. split; [done|]. by apply Hpack.
  - rewrite decide_False, decide_False, decide_True by done. rewrite Hre. cbn [negb andb].
    set (c1 := Ctx _ _ _ _ _ _).
    destruct (read_string_bytes c1 bs ngx_str_null) as (s & k & E & Es); [done..|].
    rewrite view_copying in Es by done. rewrite Es in E.
    assert (negb (reuse_strings c1) && pool c1 = true) as Er.
    { subst c1. cbn [reuse_strings pool]. by rewrite ?Hre, ?Hp. }
    rewrite Er in E. change (last c1) with (last c) in E. rewrite E, ok_bind. cbn [mret cres_ret]. eexists _, _. split; [done|]. split; [done|]. apply Hpack. lia.
Qed.

(** ** Lengths near [2 ^ 64] *)

(** A skipped string whose length wraps the pointer around moves it back. *)
Lemma skip_back c end_ v :
  ahead c (varint v) -> pos c + lenz (varint v) <= end_ -> 0 <= v < 18446744073709551616 ->
  0 <= base -> base + pos c + lenz (varint v) + v < 36893488147419103232 ->
  18446744073709551616 <= base + pos c + lenz (varint v) + v ->
  ngx_protobuf_skip c end_ 2 = Ok (NGX_OK, set_pos c (pos c + lenz (varint v) + v - 18446744073709551616)).
Proof.
  intros Ha Hl Hv Hb0 Hb1 Hw. unfold ngx_protobuf_skip. rewrite decide_False, decide_False, decide_True by done.
  unfold ngx_protobuf_read_string. pose proof (varint_length v). rewrite decide_False by lia.
  rewrite (read_uint64_varint _ _ v) by done. rewrite ok_bind, decide_False by (intros ?; congruence).
  assert (ptr_add (pos (adv c (length (varint v)) (calls c))) v = pos c + lenz (varint v) + v - 18446744073709551616) as E.
  { unfold ptr_add. cbn [adv pos]. unfold u64.
    rewrite <- (Z.mod_add _ (-1)) by lia. rewrite Z.mod_small by lia. lia. }
  rewrite E, decide_False by lia. rewrite ok_bind. cbn [mret cres_ret]. do 3 f_equal.
Qed.
End Env.

Lemma ngx_protobuf_fixed_reads_write_witness :
  exists c', ngx_protobuf_write_fixed32 (ctx0 [1; 2; 3; 4; 5; 6; 7; 8]) 0 = Ok c' /\
    @ngx_protobuf_read_fixed32 env0 (ctx0 [1; 2; 3; 4; 5; 6; 7; 8]) 8 0 = Ok (NGX_OK, c', 0) /\
    @ngx_protobuf_read_float env0 (ctx0 [1; 2; 3; 4; 5; 6; 7; 8]) 8 0 = Ok (NGX_OK, c', 0).
Proof.
  refine (proj1 (@ngx_protobuf_fixed_reads_write env0 (ctx0 [1; 2; 3; 4; 5; 6; 7; 8]) 8 0 _ _ _ _));
    [vm_compute; repeat split; discriminate|simpl; lia|simpl; lia|simpl; lia].
Defined.

Lemma ngx_protobuf_unknown_fields_lost_witness :
  exists u c', @ngx_protobuf_unpack_unknown_field env0 9 2 (ctx0 [2; 104; 105]) None = Ok (NGX_OK, Some [u], c') /\
    v_bytes (value u) = Str 2 (PBlock [104; 105]) /\
    @ngx_protobuf_pack_unknown_field env0 u (ctx0 (replicate 11 0)) = Ok (NGX_OK, put (ctx0 (replicate 11 0)) [0; 2]).
Proof.
  refine (proj2 (@ngx_protobuf_unknown_fields_lost env0 (ctx0 [2; 104; 105]) (ctx0 (replicate 11 0)) 9 0 [104; 105] _ _ _ _ _) _ _).
  - split_and!; simpl; try done; lia.
  - done.
  - simpl; lia.
  - lia.
  - vm_compute. repeat split; discriminate.
  - split; [done|by exists []].
  - vm_compute. discriminate.
Defined.
