(* ===== verification/NgxComProto.v ===== *)
(** The messages of adx_com.proto as adx_module/adx_com_libs/
    ngx_adx_com_proto.h and ngx_adx_com_proto.c hold, unpack, measure and pack
    them.  Every definition is the C function of its name; the code of a field
    is the function of NgxProtobufMsg.v for its type ([size_u32], [pack_u32],
    [unpack_u32], ...), in the order of the source.  The fuel bounds the turns
    of each loop over the fields of a message. *)

From Stdlib Require Import ZArith.
From S2P Require Import Prelude NgxProtobuf NgxProtobufMsg.

Open Scope Z_scope.

(** ** ComRequest.AdxSlot.Banner *)

Record ngx_com_request_adx_slot_banner_t := mk_banner { banner_width : fld Z; banner_height : fld Z;
    banner_unknown : array ngx_protobuf_unknown_field_t }.

(** What [ngx_com_request_adx_slot_banner__alloc] and [__clear] give. *)
Definition banner_zero : ngx_com_request_adx_slot_banner_t := mk_banner (Fld false 0) (Fld false 0) None.

Definition with_banner_width '(mk_banner _ a2 a3) x :=
  mk_banner x a2 a3.
Definition with_banner_height '(mk_banner a1 _ a3) x :=
  mk_banner a1 x a3.
Definition with_banner_unknown '(mk_banner a1 a2 _) x :=
  mk_banner a1 a2 x.

Section Env.
Context `{NgxEnv}.

Definition banner_switch (field wire : Z) (obj : ngx_com_request_adx_slot_banner_t) (c : ngx_protobuf_context_t)
  : result ngx_com_request_adx_slot_banner_t :=
  match field with
  | 1 => unpack_u32 i32 with_banner_width wire obj c
  | 2 => unpack_u32 i32 with_banner_height wire obj c
  | _ => unpack_unknown banner_unknown with_banner_unknown field wire obj c
  end.

Definition ngx_com_request_adx_slot_banner__unpack (fuel : nat) := unpack_loop banner_switch fuel.

Definition ngx_com_request_adx_slot_banner__size (obj : ngx_com_request_adx_slot_banner_t) : Z :=
  let size := 0 in
  let size := u64 (size + size_u32 (banner_width obj) 1) in
  let size := u64 (size + size_u32 (banner_height obj) 2) in
  size_unknowns (banner_unknown obj) size.

Definition ngx_com_request_adx_slot_banner__pack (obj : ngx_com_request_adx_slot_banner_t) (c : ngx_protobuf_context_t)
  : cres (ngx_rc * ngx_protobuf_context_t) :=
  pack_guard (ngx_com_request_adx_slot_banner__size obj) c (fun c =>
    c ← pack_u32 (banner_width obj) 1 c;
    c ← pack_u32 (banner_height obj) 2 c;
    pack_unknowns (elts (banner_unknown obj)) c).
End Env.

(** ** ComRequest.AdxSlot.Native *)

Record ngx_com_request_adx_slot_native_t := mk_native { native_icon_width : fld Z; native_icon_height : fld Z;
    native_width : fld Z; native_height : fld Z; native_unknown : array ngx_protobuf_unknown_field_t }.

(** What [ngx_com_request_adx_slot_native__alloc] and [__clear] give. *)
Definition native_zero : ngx_com_request_adx_slot_native_t := mk_native (Fld false 0) (Fld false 0) (Fld false 0)
    (Fld false 0) None.

Definition with_native_icon_width '(mk_native _ a2 a3 a4 a5) x :=
  mk_native x a2 a3 a4 a5.
Definition with_native_icon_height '(mk_native a1 _ a3 a4 a5) x :=
  mk_native a1 x a3 a4 a5.
Definition with_native_width '(mk_native a1 a2 _ a4 a5) x :=
  mk_native a1 a2 x a4 a5.
Definition with_native_height '(mk_native a1 a2 a3 _ a5) x :=
  mk_native a1 a2 a3 x a5.
Definition with_native_unknown '(mk_native a1 a2 a3 a4 _) x :=
  mk_native a1 a2 a3 a4 x.

Section Env.
Context `{NgxEnv}.

Definition native_switch (field wire : Z) (obj : ngx_com_request_adx_slot_native_t) (c : ngx_protobuf_context_t)
  : result ngx_com_request_adx_slot_native_t :=
  match field with
  | 1 => unpack_u32 i32 with_native_icon_width wire obj c
  | 2 => unpack_u32 i32 with_native_icon_height wire obj c
  | 3 => unpack_u32 i32 with_native_width wire obj c
  | 4 => unpack_u32 i32 with_native_height wire obj c
  | _ => unpack_unknown native_unknown with_native_unknown field wire obj c
  end.

Definition ngx_com_request_adx_slot_native__unpack (fuel : nat) := unpack_loop native_switch fuel.

Definition ngx_com_request_adx_slot_native__size (obj : ngx_com_request_adx_slot_native_t) : Z :=
  let size := 0 in
  let size := u64 (size + size_u32 (native_icon_width obj) 1) in
  let size := u64 (size + size_u32 (native_icon_height obj) 2) in
  let size := u64 (size + size_u32 (native_width obj) 3) in
  let size := u64 (size + size_u32 (native_height obj) 4) in
  size_unknowns (native_unknown obj) size.

Definition ngx_com_request_adx_slot_native__pack (obj : ngx_com_request_adx_slot_native_t) (c : ngx_protobuf_context_t)
  : cres (ngx_rc * ngx_protobuf_context_t) :=
  pack_guard (ngx_com_request_adx_slot_native__size obj) c (fun c =>
    c ← pack_u32 (native_icon_width obj) 1 c;
    c ← pack_u32 (native_icon_height obj) 2 c;
    c ← pack_u32 (native_width obj) 3 c;
    c ← pack_u32 (native_height obj) 4 c;
    pack_unknowns (elts (native_unknown obj)) c).
End Env.

(** ** ComRequest.AdxSlot.Video *)

Record ngx_com_request_adx_slot_video_t := mk_video { video_width : fld Z; video_height : fld Z;
    video_min_duration : fld Z; video_max_duration : fld Z; video_unknown : array ngx_protobuf_unknown_field_t }.

(** What [ngx_com_request_adx_slot_video__alloc] and [__clear] give. *)
Definition video_zero : ngx_com_request_adx_slot_video_t := mk_video (Fld false 0) (Fld false 0) (Fld false 0)
    (Fld false 0) None.

Definition with_video_width '(mk_video _ a2 a3 a4 a5) x :=
  mk_video x a2 a3 a4 a5.
Definition with_video_height '(mk_video a1 _ a3 a4 a5) x :=
  mk_video a1 x a3 a4 a5.
Definition with_video_min_duration '(mk_video a1 a2 _ a4 a5) x :=
  mk_video a1 a2 x a4 a5.
Definition with_video_max_duration '(mk_video a1 a2 a3 _ a5) x :=
  mk_video a1 a2 a3 x a5.
Definition with_video_unknown '(mk_video a1 a2 a3 a4 _) x :=
  mk_video a1 a2 a3 a4 x.

Section Env.
Context `{NgxEnv}.

Definition video_switch (field wire : Z) (obj : ngx_com_request_adx_slot_video_t) (c : ngx_protobuf_context_t)
  : result ngx_com_request_adx_slot_video_t :=
  match field with
  | 1 => unpack_u32 i32 with_video_width wire obj c
  | 2 => unpack_u32 i32 with_video_height wire obj c
  | 3 => unpack_u32 i32 with_video_min_duration wire obj c
  | 4 => unpack_u32 i32 with_video_max_duration wire obj c
  | _ => unpack_unknown video_unknown with_video_unknown field wire obj c
  end.

Definition ngx_com_request_adx_slot_video__unpack (fuel : nat) := unpack_loop video_switch fuel.

Definition ngx_com_request_adx_slot_video__size (obj : ngx_com_request_adx_slot_video_t) : Z :=
  let size := 0 in
  let size := u64 (size + size_u32 (video_width obj) 1) in
  let size := u64 (size + size_u32 (video_height obj) 2) in
  let size := u64 (size + size_u32 (video_min_duration obj) 3) in
  let size := u64 (size + size_u32 (video_max_duration obj) 4) in
  size_unknowns (video_unknown obj) size.

Definition ngx_com_request_adx_slot_video__pack (obj : ngx_com_request_adx_slot_video_t) (c : ngx_protobuf_context_t)
  : cres (ngx_rc * ngx_protobuf_context_t) :=
  pack_guard (ngx_com_request_adx_slot_video__size obj) c (fun c =>
    c ← pack_u32 (video_width obj) 1 c;
    c ← pack_u32 (video_height obj) 2 c;
    c ← pack_u32 (video_min_duration obj) 3 c;
    c ← pack_u32 (video_max_duration obj) 4 c;
    pack_unknowns (elts (video_unknown obj)) c).
End Env.

(** ** ComRequest.AdxSlot *)

Record ngx_com_request_adx_slot_t := mk_slot { slot_adx_slot_id : fld ngx_str_t; slot_adx_slot_sequence_id : fld Z;
    slot_adx_slot_type : fld Z; slot_banner : fld (option ngx_com_request_adx_slot_banner_t);
    slot_native : fld (option ngx_com_request_adx_slot_native_t);
    slot_video : fld (option ngx_com_request_adx_slot_video_t); slot_price_floor : fld Z;
    slot_unknown : array ngx_protobuf_unknown_field_t }.

(** What [ngx_com_request_adx_slot__alloc] and [__clear] give. *)
Definition slot_zero : ngx_com_request_adx_slot_t := mk_slot (Fld false ngx_str_null) (Fld false 0) (Fld false 0)
    (Fld false None) (Fld false None) (Fld false None) (Fld false 0) None.

Definition with_slot_adx_slot_id '(mk_slot _ a2 a3 a4 a5 a6 a7 a8) x :=
  mk_slot x a2 a3 a4 a5 a6 a7 a8.
Definition with_slot_adx_slot_sequence_id '(mk_slot a1 _ a3 a4 a5 a6 a7 a8) x :=
  mk_slot a1 x a3 a4 a5 a6 a7 a8.
Definition with_slot_adx_slot_type '(mk_slot a1 a2 _ a4 a5 a6 a7 a8) x :=
  mk_slot a1 a2 x a4 a5 a6 a7 a8.
Definition with_slot_banner '(mk_slot a1 a2 a3 _ a5 a6 a7 a8) x :=
  mk_slot a1 a2 a3 x a5 a6 a7 a8.
Definition with_slot_native '(mk_slot a1 a2 a3 a4 _ a6 a7 a8) x :=
  mk_slot a1 a2 a3 a4 x a6 a7 a8.
Definition with_slot_video '(mk_slot a1 a2 a3 a4 a5 _ a7 a8) x :=
  mk_slot a1 a2 a3 a4 a5 x a7 a8.
Definition with_slot_price_floor '(mk_slot a1 a2 a3 a4 a5 a6 _ a8) x :=
  mk_slot a1 a2 a3 a4 a5 a6 x a8.
Definition with_slot_unknown '(mk_slot a1 a2 a3 a4 a5 a6 a7 _) x :=
  mk_slot a1 a2 a3 a4 a5 a6 a7 x.

Section Env.
Context `{NgxEnv}.

Definition ngx_com_request_adx_slot__unpack_banner (fuel : nat) :=
  unpack_member banner_zero (ngx_com_request_adx_slot_banner__unpack fuel) slot_banner with_slot_banner.
Definition ngx_com_request_adx_slot__unpack_native (fuel : nat) :=
  unpack_member native_zero (ngx_com_request_adx_slot_native__unpack fuel) slot_native with_slot_native.
Definition ngx_com_request_adx_slot__unpack_video (fuel : nat) :=
  unpack_member video_zero (ngx_com_request_adx_slot_video__unpack fuel) slot_video with_slot_video.

Definition slot_switch (fuel : nat) (field wire : Z) (obj : ngx_com_request_adx_slot_t) (c : ngx_protobuf_context_t)
  : result ngx_com_request_adx_slot_t :=
  match field with
  | 1 => unpack_str slot_adx_slot_id with_slot_adx_slot_id wire obj c
  | 2 => unpack_u32 i32 with_slot_adx_slot_sequence_id wire obj c
  | 3 => unpack_u32 id with_slot_adx_slot_type wire obj c
  | 4 => unpack_msg (ngx_com_request_adx_slot__unpack_banner fuel) wire obj c
  | 5 => unpack_msg (ngx_com_request_adx_slot__unpack_native fuel) wire obj c
  | 6 => unpack_msg (ngx_com_request_adx_slot__unpack_video fuel) wire obj c
  | 7 => unpack_u32 i32 with_slot_price_floor wire obj c
  | _ => unpack_unknown slot_unknown with_slot_unknown field wire obj c
  end.

Definition ngx_com_request_adx_slot__unpack (fuel : nat) := unpack_loop (slot_switch fuel) fuel.

Definition ngx_com_request_adx_slot__size (obj : ngx_com_request_adx_slot_t) : Z :=
  let size := 0 in
  let size := u64 (size + size_str (slot_adx_slot_id obj) 1) in
  let size := u64 (size + size_u32 (slot_adx_slot_sequence_id obj) 2) in
  let size := u64 (size + size_u32 (slot_adx_slot_type obj) 3) in
  let size := u64 (size + size_member ngx_com_request_adx_slot_banner__size (slot_banner obj) 4) in
  let size := u64 (size + size_member ngx_com_request_adx_slot_native__size (slot_native obj) 5) in
  let size := u64 (size + size_member ngx_com_request_adx_slot_video__size (slot_video obj) 6) in
  let size := u64 (size + size_u32 (slot_price_floor obj) 7) in
  size_unknowns (slot_unknown obj) size.

Definition ngx_com_request_adx_slot__pack (obj : ngx_com_request_adx_slot_t) (c : ngx_protobuf_context_t)
  : cres (ngx_rc * ngx_protobuf_context_t) :=
  pack_guard (ngx_com_request_adx_slot__size obj) c (fun c =>
    c ← pack_str (slot_adx_slot_id obj) 1 c;
    c ← pack_u32 (slot_adx_slot_sequence_id obj) 2 c;
    c ← pack_u32 (slot_adx_slot_type obj) 3 c;
    c ← pack_member ngx_com_request_adx_slot_banner__size ngx_com_request_adx_slot_banner__pack
           (slot_banner obj) 4 c;
    c ← pack_member ngx_com_request_adx_slot_native__size ngx_com_request_adx_slot_native__pack
           (slot_native obj) 5 c;
    c ← pack_member ngx_com_request_adx_slot_video__size ngx_com_request_adx_slot_video__pack (slot_video obj) 6 c;
    c ← pack_u32 (slot_price_floor obj) 7 c;
    pack_unknowns (elts (slot_unknown obj)) c).
End Env.

(** ** ComRequest.Device.DeviceID *)

Record ngx_com_request_device_device_id_t := mk_did { did_id : fld ngx_str_t; did_type : fld Z;
    did_unknown : array ngx_protobuf_unknown_field_t }.

(** What [ngx_com_request_device_device_id__alloc] and [__clear] give. *)
Definition did_zero : ngx_com_request_device_device_id_t := mk_did (Fld false ngx_str_null) (Fld false 0) None.

Definition with_did_id '(mk_did _ a2 a3) x :=
  mk_did x a2 a3.
Definition with_did_type '(mk_did a1 _ a3) x :=
  mk_did a1 x a3.
Definition with_did_unknown '(mk_did a1 a2 _) x :=
  mk_did a1 a2 x.

Section Env.
Context `{NgxEnv}.

Definition did_switch (field wire : Z) (obj : ngx_com_request_device_device_id_t) (c : ngx_protobuf_context_t)
  : result ngx_com_request_device_device_id_t :=
  match field with
  | 1 => unpack_str did_id with_did_id wire obj c
  | 2 => unpack_u32 id with_did_type wire obj c
  | _ => unpack_unknown did_unknown with_did_unknown field wire obj c
  end.

Definition ngx_com_request_device_device_id__unpack (fuel : nat) := unpack_loop did_switch fuel.

Definition ngx_com_request_device_device_id__size (obj : ngx_com_request_device_device_id_t) : Z :=
  let size := 0 in
  let size := u64 (size + size_str (did_id obj) 1) in
  let size := u64 (size + size_u32 (did_type obj) 2) in
  size_unknowns (did_unknown obj) size.

Definition ngx_com_request_device_device_id__pack (obj : ngx_com_request_device_device_id_t) (c : ngx_protobuf_context_t)
  : cres (ngx_rc * ngx_protobuf_context_t) :=
  pack_guard (ngx_com_request_device_device_id__size obj) c (fun c =>
    c ← pack_str (did_id obj) 1 c;
    c ← pack_u32 (did_type obj) 2 c;
    pack_unknowns (elts (did_unknown obj)) c).
End Env.

(** ** ComRequest.Device *)

Record ngx_com_request_device_t := mk_device { device_device_id : fld (array ngx_com_request_device_device_id_t);
    device_device_type : fld Z; device_os : fld Z; device_os_version : fld ngx_str_t; device_carrier : fld Z;
    device_connection : fld Z; device_brand : fld ngx_str_t; device_model : fld ngx_str_t;
    device_user_agent : fld ngx_str_t; device_ip : fld ngx_str_t;
    device_unknown : array ngx_protobuf_unknown_field_t }.

(** What [ngx_com_request_device__alloc] and [__clear] give. *)
Definition device_zero : ngx_com_request_device_t := mk_device (Fld false None) (Fld false 0) (Fld false 0)
    (Fld false ngx_str_null) (Fld false 0) (Fld false 0) (Fld false ngx_str_null) (Fld false ngx_str_null)
    (Fld false ngx_str_null) (Fld false ngx_str_null) None.

Definition with_device_device_id '(mk_device _ a2 a3 a4 a5 a6 a7 a8 a9 a10 a11) x :=
  mk_device x a2 a3 a4 a5 a6 a7 a8 a9 a10 a11.
Definition with_device_device_type '(mk_device a1 _ a3 a4 a5 a6 a7 a8 a9 a10 a11) x :=
  mk_device a1 x a3 a4 a5 a6 a7 a8 a9 a10 a11.
Definition with_device_os '(mk_device a1 a2 _ a4 a5 a6 a7 a8 a9 a10 a11) x :=
  mk_device a1 a2 x a4 a5 a6 a7 a8 a9 a10 a11.
Definition with_device_os_version '(mk_device a1 a2 a3 _ a5 a6 a7 a8 a9 a10 a11) x :=
  mk_device a1 a2 a3 x a5 a6 a7 a8 a9 a10 a11.
Definition with_device_carrier '(mk_device a1 a2 a3 a4 _ a6 a7 a8 a9 a10 a11) x :=
  mk_device a1 a2 a3 a4 x a6 a7 a8 a9 a10 a11.
Definition with_device_connection '(mk_device a1 a2 a3 a4 a5 _ a7 a8 a9 a10 a11) x :=
  mk_device a1 a2 a3 a4 a5 x a7 a8 a9 a10 a11.
Definition with_device_brand '(mk_device a1 a2 a3 a4 a5 a6 _ a8 a9 a10 a11) x :=
  mk_device a1 a2 a3 a4 a5 a6 x a8 a9 a10 a11.
Definition with_device_model '(mk_device a1 a2 a3 a4 a5 a6 a7 _ a9 a10 a11) x :=
  mk_device a1 a2 a3 a4 a5 a6 a7 x a9 a10 a11.
Definition with_device_user_agent '(mk_device a1 a2 a3 a4 a5 a6 a7 a8 _ a10 a11) x :=
  mk_device a1 a2 a3 a4 a5 a6 a7 a8 x a10 a11.
Definition with_device_ip '(mk_device a1 a2 a3 a4 a5 a6 a7 a8 a9 _ a11) x :=
  mk_device a1 a2 a3 a4 a5 a6 a7 a8 a9 x a11.
Definition with_device_unknown '(mk_device a1 a2 a3 a4 a5 a6 a7 a8 a9 a10 _) x :=
  mk_device a1 a2 a3 a4 a5 a6 a7 a8 a9 a10 x.

Section Env.
Context `{NgxEnv}.

Definition ngx_com_request_device__add__device_id (obj : ngx_com_request_device_t) (pl : bool) (c : ngx_protobuf_context_t) :=
  add_element did_zero device_device_id with_device_device_id obj pl c.

Definition ngx_com_request_device__unpack_device_id (fuel : nat) :=
  unpack_element did_zero (ngx_com_request_device_device_id__unpack fuel) device_device_id with_device_device_id.

Definition device_switch (fuel : nat) (field wire : Z) (obj : ngx_com_request_device_t) (c : ngx_protobuf_context_t)
  : result ngx_com_request_device_t :=
  match field with
  | 1 => unpack_msg (ngx_com_request_device__unpack_device_id fuel) wire obj c
  | 2 => unpack_u32 id with_device_device_type wire obj c
  | 3 => unpack_u32 id with_device_os wire obj c
  | 4 => unpack_str device_os_version with_device_os_version wire obj c
  | 5 => unpack_u32 id with_device_carrier wire obj c
  | 6 => unpack_u32 id with_device_connection wire obj c
  | 7 => unpack_str device_brand with_device_brand wire obj c
  | 8 => unpack_str device_model with_device_model wire obj c
  | 9 => unpack_str device_user_agent with_device_user_agent wire obj c
  | 10 => unpack_str device_ip with_device_ip wire obj c
  | _ => unpack_unknown device_unknown with_device_unknown field wire obj c
  end.

Definition ngx_com_request_device__unpack (fuel : nat) := unpack_loop (device_switch fuel) fuel.

Definition ngx_com_request_device__size (obj : ngx_com_request_device_t) : Z :=
  let size := 0 in
  let size := size_elements ngx_com_request_device_device_id__size (device_device_id obj) 1 size in
  let size := u64 (size + size_u32 (device_device_type obj) 2) in
  let size := u64 (size + size_u32 (device_os obj) 3) in
  let size := u64 (size + size_str (device_os_version obj) 4) in
  let size := u64 (size + size_u32 (device_carrier obj) 5) in
  let size := u64 (size + size_u32 (device_connection obj) 6) in
  let size := u64 (size + size_str (device_brand obj) 7) in
  let size := u64 (size + size_str (device_model obj) 8) in
  let size := u64 (size + size_str (device_user_agent obj) 9) in
  let size := u64 (size + size_str (device_ip obj) 10) in
  size_unknowns (device_unknown obj) size.

Definition ngx_com_request_device__pack (obj : ngx_com_request_device_t) (c : ngx_protobuf_context_t)
  : cres (ngx_rc * ngx_protobuf_context_t) :=
  pack_guard (ngx_com_request_device__size obj) c (fun c =>
    c ← pack_elements ngx_com_request_device_device_id__size ngx_com_request_device_device_id__pack
           (device_device_id obj) 1 c;
    c ← pack_u32 (device_device_type obj) 2 c;
    c ← pack_u32 (device_os obj) 3 c;
    c ← pack_str (device_os_version obj) 4 c;
    c ← pack_u32 (device_carrier obj) 5 c;
    c ← pack_u32 (device_connection obj) 6 c;
    c ← pack_str (device_brand obj) 7 c;
    c ← pack_str (device_model obj) 8 c;
    c ← pack_str (device_user_agent obj) 9 c;
    c ← pack_str (device_ip obj) 10 c;
    pack_unknowns (elts (device_unknown obj)) c).
End Env.

(** ** ComRequest.App *)

Record ngx_com_request_app_t := mk_app { app_app_id : fld ngx_str_t; app_app_category : fld Z;
    app_unknown : array ngx_protobuf_unknown_field_t }.

(** What [ngx_com_request_app__alloc] and [__clear] give. *)
Definition app_zero : ngx_com_request_app_t := mk_app (Fld false ngx_str_null) (Fld false 0) None.

Definition with_app_app_id '(mk_app _ a2 a3) x :=
  mk_app x a2 a3.
Definition with_app_app_category '(mk_app a1 _ a3) x :=
  mk_app a1 x a3.
Definition with_app_unknown '(mk_app a1 a2 _) x :=
  mk_app a1 a2 x.

Section Env.
Context `{NgxEnv}.

Definition app_switch (field wire : Z) (obj : ngx_com_request_app_t) (c : ngx_protobuf_context_t)
  : result ngx_com_request_app_t :=
  match field with
  | 1 => unpack_str app_app_id with_app_app_id wire obj c
  | 2 => unpack_u32 i32 with_app_app_category wire obj c
  | _ => unpack_unknown app_unknown with_app_unknown field wire obj c
  end.

Definition ngx_com_request_app__unpack (fuel : nat) := unpack_loop app_switch fuel.

Definition ngx_com_request_app__size (obj : ngx_com_request_app_t) : Z :=
  let size := 0 in
  let size := u64 (size + size_str (app_app_id obj) 1) in
  let size := u64 (size + size_u32 (app_app_category obj) 2) in
  size_unknowns (app_unknown obj) size.

Definition ngx_com_request_app__pack (obj : ngx_com_request_app_t) (c : ngx_protobuf_context_t)
  : cres (ngx_rc * ngx_protobuf_context_t) :=
  pack_guard (ngx_com_request_app__size obj) c (fun c =>
    c ← pack_str (app_app_id obj) 1 c;
    c ← pack_u32 (app_app_category obj) 2 c;
    pack_unknowns (elts (app_unknown obj)) c).
End Env.

(** ** ComRequest *)

Record ngx_com_request_t := mk_request { request_adx : fld Z; request_bid : fld ngx_str_t;
    request_adx_slot : fld (array ngx_com_request_adx_slot_t);
    request_device : fld (option ngx_com_request_device_t); request_app : fld (option ngx_com_request_app_t);
    request_unknown : array ngx_protobuf_unknown_field_t }.

(** What [ngx_com_request__alloc] and [__clear] give. *)
Definition request_zero : ngx_com_request_t := mk_request (Fld false 0) (Fld false ngx_str_null) (Fld false None)
    (Fld false None) (Fld false None) None.

Definition with_request_adx '(mk_request _ a2 a3 a4 a5 a6) x :=
  mk_request x a2 a3 a4 a5 a6.
Definition with_request_bid '(mk_request a1 _ a3 a4 a5 a6) x :=
  mk_request a1 x a3 a4 a5 a6.
Definition with_request_adx_slot '(mk_request a1 a2 _ a4 a5 a6) x :=
  mk_request a1 a2 x a4 a5 a6.
Definition with_request_device '(mk_request a1 a2 a3 _ a5 a6) x :=
  mk_request a1 a2 a3 x a5 a6.
Definition with_request_app '(mk_request a1 a2 a3 a4 _ a6) x :=
  mk_request a1 a2 a3 a4 x a6.
Definition with_request_unknown '(mk_request a1 a2 a3 a4 a5 _) x :=
  mk_request a1 a2 a3 a4 a5 x.

Section Env.
Context `{NgxEnv}.

Definition ngx_com_request__add__adx_slot (obj : ngx_com_request_t) (pl : bool) (c : ngx_protobuf_context_t) :=
  add_element slot_zero request_adx_slot with_request_adx_slot obj pl c.

Definition ngx_com_request__unpack_adx_slot (fuel : nat) :=
  unpack_element slot_zero (ngx_com_request_adx_slot__unpack fuel) request_adx_slot with_request_adx_slot.
Definition ngx_com_request__unpack_device (fuel : nat) :=
  unpack_member device_zero (ngx_com_request_device__unpack fuel) request_device with_request_device.
Definition ngx_com_request__unpack_app (fuel : nat) :=
  unpack_member app_zero (ngx_com_request_app__unpack fuel) request_app with_request_app.

Definition request_switch (fuel : nat) (field wire : Z) (obj : ngx_com_request_t) (c : ngx_protobuf_context_t)
  : result ngx_com_request_t :=
  match field with
  | 1 => unpack_u32 i32 with_request_adx wire obj c
  | 2 => unpack_str request_bid with_request_bid wire obj c
  | 3 => unpack_msg (ngx_com_request__unpack_adx_slot fuel) wire obj c
  | 4 => unpack_msg (ngx_com_request__unpack_device fuel) wire obj c
  | 5 => unpack_msg (ngx_com_request__unpack_app fuel) wire obj c
  | _ => unpack_unknown request_unknown with_request_unknown field wire obj c
  end.

Definition ngx_com_request__unpack (fuel : nat) := unpack_loop (request_switch fuel) fuel.

Definition ngx_com_request__size (obj : ngx_com_request_t) : Z :=
  let size := 0 in
  let size := u64 (size + size_u32 (request_adx obj) 1) in
  let size := u64 (size + size_str (request_bid obj) 2) in
  let size := size_elements ngx_com_request_adx_slot__size (request_adx_slot obj) 3 size in
  let size := u64 (size + size_member ngx_com_request_device__size (request_device obj) 4) in
  let size := u64 (size + size_member ngx_com_request_app__size (request_app obj) 5) in
  size_unknowns (request_unknown obj) size.

Definition ngx_com_request__pack (obj : ngx_com_request_t) (c : ngx_protobuf_context_t)
  : cres (ngx_rc * ngx_protobuf_context_t) :=
  pack_guard (ngx_com_request__size obj) c (fun c =>
    c ← pack_u32 (request_adx obj) 1 c;
    c ← pack_str (request_bid obj) 2 c;
    c ← pack_elements ngx_com_request_adx_slot__size ngx_com_request_adx_slot__pack (request_adx_slot obj) 3 c;
    c ← pack_member ngx_com_request_device__size ngx_com_request_device__pack (request_device obj) 4 c;
    c ← pack_member ngx_com_request_app__size ngx_com_request_app__pack (request_app obj) 5 c;
    pack_unknowns (elts (request_unknown obj)) c).
End Env.

(** ** ComResponse.AdxSlot *)

Record ngx_com_response_adx_slot_t := mk_rslot { rslot_adx_slot_id : fld ngx_str_t;
    rslot_adx_slot_sequence_id : fld Z; rslot_adx_slot_type : fld Z; rslot_price : fld Z;
    rslot_template : fld ngx_str_t; rslot_ext : fld ngx_str_t; rslot_unknown : array ngx_protobuf_unknown_field_t }.

(** What [ngx_com_response_adx_slot__alloc] and [__clear] give. *)
Definition rslot_zero : ngx_com_response_adx_slot_t := mk_rslot (Fld false ngx_str_null) (Fld false 0) (Fld false 0)
    (Fld false 0) (Fld false ngx_str_null) (Fld false ngx_str_null) None.

Definition with_rslot_adx_slot_id '(mk_rslot _ a2 a3 a4 a5 a6 a7) x :=
  mk_rslot x a2 a3 a4 a5 a6 a7.
Definition with_rslot_adx_slot_sequence_id '(mk_rslot a1 _ a3 a4 a5 a6 a7) x :=
  mk_rslot a1 x a3 a4 a5 a6 a7.
Definition with_rslot_adx_slot_type '(mk_rslot a1 a2 _ a4 a5 a6 a7) x :=
  mk_rslot a1 a2 x a4 a5 a6 a7.
Definition with_rslot_price '(mk_rslot a1 a2 a3 _ a5 a6 a7) x :=
  mk_rslot a1 a2 a3 x a5 a6 a7.
Definition with_rslot_template '(mk_rslot a1 a2 a3 a4 _ a6 a7) x :=
  mk_rslot a1 a2 a3 a4 x a6 a7.
Definition with_rslot_ext '(mk_rslot a1 a2 a3 a4 a5 _ a7) x :=
  mk_rslot a1 a2 a3 a4 a5 x a7.
Definition with_rslot_unknown '(mk_rslot a1 a2 a3 a4 a5 a6 _) x :=
  mk_rslot a1 a2 a3 a4 a5 a6 x.

Section Env.
Context `{NgxEnv}.

Definition rslot_switch (field wire : Z) (obj : ngx_com_response_adx_slot_t) (c : ngx_protobuf_context_t)
  : result ngx_com_response_adx_slot_t :=
  match field with
  | 1 => unpack_str rslot_adx_slot_id with_rslot_adx_slot_id wire obj c
  | 2 => unpack_u32 i32 with_rslot_adx_slot_sequence_id wire obj c
  | 3 => unpack_u32 id with_rslot_adx_slot_type wire obj c
  | 4 => unpack_u32 i32 with_rslot_price wire obj c
  | 5 => unpack_str rslot_template with_rslot_template wire obj c
  | 6 => unpack_str rslot_ext with_rslot_ext wire obj c
  | _ => unpack_unknown rslot_unknown with_rslot_unknown field wire obj c
  end.

Definition ngx_com_response_adx_slot__unpack (fuel : nat) := unpack_loop rslot_switch fuel.

Definition ngx_com_response_adx_slot__size (obj : ngx_com_response_adx_slot_t) : Z :=
  let size := 0 in
  let size := u64 (size + size_str (rslot_adx_slot_id obj) 1) in
  let size := u64 (size + size_u32 (rslot_adx_slot_sequence_id obj) 2) in
  let size := u64 (size + size_u32 (rslot_adx_slot_type obj) 3) in
  let size := u64 (size + size_u32 (rslot_price obj) 4) in
  let size := u64 (size + size_str (rslot_template obj) 5) in
  let size := u64 (size + size_str (rslot_ext obj) 6) in
  size_unknowns (rslot_unknown obj) size.

Definition ngx_com_response_adx_slot__pack (obj : ngx_com_response_adx_slot_t) (c : ngx_protobuf_context_t)
  : cres (ngx_rc * ngx_protobuf_context_t) :=
  pack_guard (ngx_com_response_adx_slot__size obj) c (fun c =>
    c ← pack_str (rslot_adx_slot_id obj) 1 c;
    c ← pack_u32 (rslot_adx_slot_sequence_id obj) 2 c;
    c ← pack_u32 (rslot_adx_slot_type obj) 3 c;
    c ← pack_u32 (rslot_price obj) 4 c;
    c ← pack_str (rslot_template obj) 5 c;
    c ← pack_str (rslot_ext obj) 6 c;
    pack_unknowns (elts (rslot_unknown obj)) c).
End Env.

(** ** ComResponse *)

Record ngx_com_response_t := mk_response { response_bid : fld ngx_str_t;
    response_adx_slot : fld (array ngx_com_response_adx_slot_t);
    response_unknown : array ngx_protobuf_unknown_field_t }.

(** What [ngx_com_response__alloc] and [__clear] give. *)
Definition response_zero : ngx_com_response_t := mk_response (Fld false ngx_str_null) (Fld false None) None.

Definition with_response_bid '(mk_response _ a2 a3) x :=
  mk_response x a2 a3.
Definition with_response_adx_slot '(mk_response a1 _ a3) x :=
  mk_response a1 x a3.
Definition with_response_unknown '(mk_response a1 a2 _) x :=
  mk_response a1 a2 x.

Section Env.
Context `{NgxEnv}.

Definition ngx_com_response__add__adx_slot (obj : ngx_com_response_t) (pl : bool) (c : ngx_protobuf_context_t) :=
  add_element rslot_zero response_adx_slot with_response_adx_slot obj pl c.

Definition ngx_com_response__unpack_adx_slot (fuel : nat) :=
  unpack_element rslot_zero (ngx_com_response_adx_slot__unpack fuel) response_adx_slot with_response_adx_slot.

Definition response_switch (fuel : nat) (field wire : Z) (obj : ngx_com_response_t) (c : ngx_protobuf_context_t)
  : result ngx_com_response_t :=
  match field with
  | 1 => unpack_str response_bid with_response_bid wire obj c
  | 2 => unpack_msg (ngx_com_response__unpack_adx_slot fuel) wire obj c
  | _ => unpack_unknown response_unknown with_response_unknown field wire obj c
  end.

Definition ngx_com_response__unpack (fuel : nat) := unpack_loop (response_switch fuel) fuel.

Definition ngx_com_response__size (obj : ngx_com_response_t) : Z :=
  let size := 0 in
  let size := u64 (size + size_str (response_bid obj) 1) in
  let size := size_elements ngx_com_response_adx_slot__size (response_adx_slot obj) 2 size in
  size_unknowns (response_unknown obj) size.

Definition ngx_com_response__pack (obj : ngx_com_response_t) (c : ngx_protobuf_context_t)
  : cres (ngx_rc * ngx_protobuf_context_t) :=
  pack_guard (ngx_com_response__size obj) c (fun c =>
    c ← pack_str (response_bid obj) 1 c;
    c ← pack_elements ngx_com_response_adx_slot__size ngx_com_response_adx_slot__pack (response_adx_slot obj) 2 c;
    pack_unknowns (elts (response_unknown obj)) c).
End Env.
