(* ===== verification/NgxComProtoLaws.v ===== *)
(** The messages of NgxComProto.v obey the laws of NgxProtobufMember.v: each
    computes its size, packs to its bytes and unpacks them. *)

From Stdlib Require Import ZArith Lia.
From S2P Require Import Prelude NgxProtobuf NgxProtobufWire NgxProtobufMsg NgxProtobufCodec NgxProtobufRead.
From S2P Require Import NgxProtobufMember NgxProtobufLaws NgxComProto.

Open Scope Z_scope.

(** ** ComRequest.AdxSlot.Banner *)

#[export] Instance banner_message `{NgxEnv} : Message ngx_com_request_adx_slot_banner_t := {
  zero := banner_zero;
  msize := ngx_com_request_adx_slot_banner__size;
  mpack := ngx_com_request_adx_slot_banner__pack;
  munpack := ngx_com_request_adx_slot_banner__unpack;
  enc o := enc_u32 (banner_width o) 1 ++ enc_u32 (banner_height o) 2 ++ enc_unknowns (banner_unknown o);
  good o := unknowns_good (banner_unknown o);
  known o := elts (banner_unknown o) = [];
  norm o := mk_banner (pick_u32 i32 (banner_width o) (Fld false 0)) (pick_u32 i32 (banner_height o) (Fld false 0))
    None;
  vmap g o := mk_banner (banner_width o) (banner_height o) (banner_unknown o) }.

Lemma banner_size `{NgxEnv} (o : ngx_com_request_adx_slot_banner_t) :
  good o -> lenz (enc o) < 4294967296 -> msize o = lenz (enc o).
Proof. size_law banner_message ngx_com_request_adx_slot_banner__size (idtac). Qed.

Lemma banner_pack `{NgxEnv} (o : ngx_com_request_adx_slot_banner_t) :
  good o -> lenz (enc o) < 4294967296 -> Packs (mpack o) (enc o).
Proof. pack_law banner_message ngx_com_request_adx_slot_banner__pack banner_size (idtac). Qed.

Lemma banner_unpack `{NgxEnv} (m : ngx_com_request_adx_slot_banner_t) fuel c :
  known m -> lenz (enc m) < 4294967296 -> ahead c (enc m) -> last c = pos c + lenz (enc m) ->
  reading c -> (length (enc m) <= fuel)%nat ->
  exists o k, munpack fuel zero c = Ok (NGX_OK, o, adv c (length (enc m)) k) /\ vmap (view c) o = norm m.
Proof.
  unpack_law banner_message ngx_com_request_adx_slot_banner__unpack
    (unpack_field banner_width with_banner_width;
    unpack_field banner_height with_banner_height).
Qed.

Lemma banner_vmap `{NgxEnv} g (m : ngx_com_request_adx_slot_banner_t) : (forall s, g s = s) -> vmap g m = m.
Proof. vmap_law banner_message. Qed.

Lemma banner_vmap_enc `{NgxEnv} g (m : ngx_com_request_adx_slot_banner_t) : same_bytes g -> enc (vmap g m) = enc m.
Proof. vmap_enc_law banner_message. Qed.

Lemma banner_vmap_good `{NgxEnv} g (m : ngx_com_request_adx_slot_banner_t) : same_bytes g -> good (vmap g m) -> good m.
Proof. vmap_good_law banner_message. Qed.

#[export] Instance banner_laws `{NgxEnv} : MessageLaws ngx_com_request_adx_slot_banner_t :=
  {| size_enc := banner_size; pack_enc := banner_pack; unpack_enc := banner_unpack;
     vmap_id := banner_vmap; vmap_enc := banner_vmap_enc; vmap_good := banner_vmap_good |}.

(** ** ComRequest.AdxSlot.Native *)

#[export] Instance native_message `{NgxEnv} : Message ngx_com_request_adx_slot_native_t := {
  zero := native_zero;
  msize := ngx_com_request_adx_slot_native__size;
  mpack := ngx_com_request_adx_slot_native__pack;
  munpack := ngx_com_request_adx_slot_native__unpack;
  enc o := enc_u32 (native_icon_width o) 1 ++ enc_u32 (native_icon_height o) 2 ++ enc_u32 (native_width o) 3 ++
    enc_u32 (native_height o) 4 ++ enc_unknowns (native_unknown o);
  good o := unknowns_good (native_unknown o);
  known o := elts (native_unknown o) = [];
  norm o := mk_native (pick_u32 i32 (native_icon_width o) (Fld false 0))
    (pick_u32 i32 (native_icon_height o) (Fld false 0)) (pick_u32 i32 (native_width o) (Fld false 0))
    (pick_u32 i32 (native_height o) (Fld false 0)) None;
  vmap g o := mk_native (native_icon_width o) (native_icon_height o) (native_width o) (native_height o)
    (native_unknown o) }.

Lemma native_size `{NgxEnv} (o : ngx_com_request_adx_slot_native_t) :
  good o -> lenz (enc o) < 4294967296 -> msize o = lenz (enc o).
Proof. size_law native_message ngx_com_request_adx_slot_native__size (idtac). Qed.

Lemma native_pack `{NgxEnv} (o : ngx_com_request_adx_slot_native_t) :
  good o -> lenz (enc o) < 4294967296 -> Packs (mpack o) (enc o).
Proof. pack_law native_message ngx_com_request_adx_slot_native__pack native_size (idtac). Qed.

Lemma native_unpack `{NgxEnv} (m : ngx_com_request_adx_slot_native_t) fuel c :
  known m -> lenz (enc m) < 4294967296 -> ahead c (enc m) -> last c = pos c + lenz (enc m) ->
  reading c -> (length (enc m) <= fuel)%nat ->
  exists o k, munpack fuel zero c = Ok (NGX_OK, o, adv c (length (enc m)) k) /\ vmap (view c) o = norm m.
Proof.
  unpack_law native_message ngx_com_request_adx_slot_native__unpack
    (unpack_field native_icon_width with_native_icon_width;
    unpack_field native_icon_height with_native_icon_height;
    unpack_field native_width with_native_width;
    unpack_field native_height with_native_height).
Qed.

Lemma native_vmap `{NgxEnv} g (m : ngx_com_request_adx_slot_native_t) : (forall s, g s = s) -> vmap g m = m.
Proof. vmap_law native_message. Qed.

Lemma native_vmap_enc `{NgxEnv} g (m : ngx_com_request_adx_slot_native_t) : same_bytes g -> enc (vmap g m) = enc m.
Proof. vmap_enc_law native_message. Qed.

Lemma native_vmap_good `{NgxEnv} g (m : ngx_com_request_adx_slot_native_t) : same_bytes g -> good (vmap g m) -> good m.
Proof. vmap_good_law native_message. Qed.

#[export] Instance native_laws `{NgxEnv} : MessageLaws ngx_com_request_adx_slot_native_t :=
  {| size_enc := native_size; pack_enc := native_pack; unpack_enc := native_unpack;
     vmap_id := native_vmap; vmap_enc := native_vmap_enc; vmap_good := native_vmap_good |}.

(** ** ComRequest.AdxSlot.Video *)

#[export] Instance video_message `{NgxEnv} : Message ngx_com_request_adx_slot_video_t := {
  zero := video_zero;
  msize := ngx_com_request_adx_slot_video__size;
  mpack := ngx_com_request_adx_slot_video__pack;
  munpack := ngx_com_request_adx_slot_video__unpack;
  enc o := enc_u32 (video_width o) 1 ++ enc_u32 (video_height o) 2 ++ enc_u32 (video_min_duration o) 3 ++
    enc_u32 (video_max_duration o) 4 ++ enc_unknowns (video_unknown o);
  good o := unknowns_good (video_unknown o);
  known o := elts (video_unknown o) = [];
  norm o := mk_video (pick_u32 i32 (video_width o) (Fld false 0)) (pick_u32 i32 (video_height o) (Fld false 0))
    (pick_u32 i32 (video_min_duration o) (Fld false 0)) (pick_u32 i32 (video_max_duration o) (Fld false 0)) None;
  vmap g o := mk_video (video_width o) (video_height o) (video_min_duration o) (video_max_duration o)
    (video_unknown o) }.

Lemma video_size `{NgxEnv} (o : ngx_com_request_adx_slot_video_t) :
  good o -> lenz (enc o) < 4294967296 -> msize o = lenz (enc o).
Proof. size_law video_message ngx_com_request_adx_slot_video__size (idtac). Qed.

Lemma video_pack `{NgxEnv} (o : ngx_com_request_adx_slot_video_t) :
  good o -> lenz (enc o) < 4294967296 -> Packs (mpack o) (enc o).
Proof. pack_law video_message ngx_com_request_adx_slot_video__pack video_size (idtac). Qed.

Lemma video_unpack `{NgxEnv} (m : ngx_com_request_adx_slot_video_t) fuel c :
  known m -> lenz (enc m) < 4294967296 -> ahead c (enc m) -> last c = pos c + lenz (enc m) ->
  reading c -> (length (enc m) <= fuel)%nat ->
  exists o k, munpack fuel zero c = Ok (NGX_OK, o, adv c (length (enc m)) k) /\ vmap (view c) o = norm m.
Proof.
  unpack_law video_message ngx_com_request_adx_slot_video__unpack
    (unpack_field video_width with_video_width;
    unpack_field video_height with_video_height;
    unpack_field video_min_duration with_video_min_duration;
    unpack_field video_max_duration with_video_max_duration).
Qed.

Lemma video_vmap `{NgxEnv} g (m : ngx_com_request_adx_slot_video_t) : (forall s, g s = s) -> vmap g m = m.
Proof. vmap_law video_message. Qed.

Lemma video_vmap_enc `{NgxEnv} g (m : ngx_com_request_adx_slot_video_t) : same_bytes g -> enc (vmap g m) = enc m.
Proof. vmap_enc_law video_message. Qed.

Lemma video_vmap_good `{NgxEnv} g (m : ngx_com_request_adx_slot_video_t) : same_bytes g -> good (vmap g m) -> good m.
Proof. vmap_good_law video_message. Qed.

#[export] Instance video_laws `{NgxEnv} : MessageLaws ngx_com_request_adx_slot_video_t :=
  {| size_enc := video_size; pack_enc := video_pack; unpack_enc := video_unpack;
     vmap_id := video_vmap; vmap_enc := video_vmap_enc; vmap_good := video_vmap_good |}.

(** ** ComRequest.AdxSlot *)

#[export] Instance slot_message `{NgxEnv} : Message ngx_com_request_adx_slot_t := {
  zero := slot_zero;
  msize := ngx_com_request_adx_slot__size;
  mpack := ngx_com_request_adx_slot__pack;
  munpack := ngx_com_request_adx_slot__unpack;
  enc o := enc_str (slot_adx_slot_id o) 1 ++ enc_u32 (slot_adx_slot_sequence_id o) 2 ++
    enc_u32 (slot_adx_slot_type o) 3 ++ enc_member enc (slot_banner o) 4 ++ enc_member enc (slot_native o) 5 ++
    enc_member enc (slot_video o) 6 ++ enc_u32 (slot_price_floor o) 7 ++ enc_unknowns (slot_unknown o);
  good o := fld_good str_good (slot_adx_slot_id o) /\ member_good good (slot_banner o) /\
    member_good good (slot_native o) /\ member_good good (slot_video o) /\ unknowns_good (slot_unknown o);
  known o := fld_good str_good (slot_adx_slot_id o) /\ member_known (slot_banner o) /\
    member_known (slot_native o) /\ member_known (slot_video o) /\ elts (slot_unknown o) = [];
  norm o := mk_slot (pick_str (slot_adx_slot_id o) (Fld false ngx_str_null))
    (pick_u32 i32 (slot_adx_slot_sequence_id o) (Fld false 0)) (pick_u32 id (slot_adx_slot_type o) (Fld false 0))
    (pick_member (slot_banner o) (Fld false None)) (pick_member (slot_native o) (Fld false None))
    (pick_member (slot_video o) (Fld false None)) (pick_u32 i32 (slot_price_floor o) (Fld false 0)) None;
  vmap g o := mk_slot (vstr g (slot_adx_slot_id o)) (slot_adx_slot_sequence_id o) (slot_adx_slot_type o)
    (vmember g (slot_banner o)) (vmember g (slot_native o)) (vmember g (slot_video o)) (slot_price_floor o)
    (slot_unknown o) }.

Lemma slot_size `{NgxEnv} (o : ngx_com_request_adx_slot_t) :
  good o -> lenz (enc o) < 4294967296 -> msize o = lenz (enc o).
Proof. size_law slot_message ngx_com_request_adx_slot__size
  (change ngx_com_request_adx_slot_banner__size with (msize (M := ngx_com_request_adx_slot_banner_t));
  change ngx_com_request_adx_slot_native__size with (msize (M := ngx_com_request_adx_slot_native_t));
  change ngx_com_request_adx_slot_video__size with (msize (M := ngx_com_request_adx_slot_video_t))). Qed.

Lemma slot_pack `{NgxEnv} (o : ngx_com_request_adx_slot_t) :
  good o -> lenz (enc o) < 4294967296 -> Packs (mpack o) (enc o).
Proof. pack_law slot_message ngx_com_request_adx_slot__pack slot_size
  (change ngx_com_request_adx_slot_banner__size with (msize (M := ngx_com_request_adx_slot_banner_t));
  change ngx_com_request_adx_slot_banner__pack with (mpack (M := ngx_com_request_adx_slot_banner_t));
  change ngx_com_request_adx_slot_native__size with (msize (M := ngx_com_request_adx_slot_native_t));
  change ngx_com_request_adx_slot_native__pack with (mpack (M := ngx_com_request_adx_slot_native_t));
  change ngx_com_request_adx_slot_video__size with (msize (M := ngx_com_request_adx_slot_video_t));
  change ngx_com_request_adx_slot_video__pack with (mpack (M := ngx_com_request_adx_slot_video_t))). Qed.

Lemma slot_unpack `{NgxEnv} (m : ngx_com_request_adx_slot_t) fuel c :
  known m -> lenz (enc m) < 4294967296 -> ahead c (enc m) -> last c = pos c + lenz (enc m) ->
  reading c -> (length (enc m) <= fuel)%nat ->
  exists o k, munpack fuel zero c = Ok (NGX_OK, o, adv c (length (enc m)) k) /\ vmap (view c) o = norm m.
Proof.
  unpack_law slot_message ngx_com_request_adx_slot__unpack
    (unpack_field slot_adx_slot_id with_slot_adx_slot_id;
    unpack_field slot_adx_slot_sequence_id with_slot_adx_slot_sequence_id;
    unpack_field slot_adx_slot_type with_slot_adx_slot_type;
    unpack_field slot_banner with_slot_banner;
    unpack_field slot_native with_slot_native;
    unpack_field slot_video with_slot_video;
    unpack_field slot_price_floor with_slot_price_floor).
Qed.

Lemma slot_vmap `{NgxEnv} g (m : ngx_com_request_adx_slot_t) : (forall s, g s = s) -> vmap g m = m.
Proof. vmap_law slot_message. Qed.

Lemma slot_vmap_enc `{NgxEnv} g (m : ngx_com_request_adx_slot_t) : same_bytes g -> enc (vmap g m) = enc m.
Proof. vmap_enc_law slot_message. Qed.

Lemma slot_vmap_good `{NgxEnv} g (m : ngx_com_request_adx_slot_t) : same_bytes g -> good (vmap g m) -> good m.
Proof. vmap_good_law slot_message. Qed.

#[export] Instance slot_laws `{NgxEnv} : MessageLaws ngx_com_request_adx_slot_t :=
  {| size_enc := slot_size; pack_enc := slot_pack; unpack_enc := slot_unpack;
     vmap_id := slot_vmap; vmap_enc := slot_vmap_enc; vmap_good := slot_vmap_good |}.

(** ** ComRequest.Device.DeviceID *)

#[export] Instance did_message `{NgxEnv} : Message ngx_com_request_device_device_id_t := {
  zero := did_zero;
  msize := ngx_com_request_device_device_id__size;
  mpack := ngx_com_request_device_device_id__pack;
  munpack := ngx_com_request_device_device_id__unpack;
  enc o := enc_str (did_id o) 1 ++ enc_u32 (did_type o) 2 ++ enc_unknowns (did_unknown o);
  good o := fld_good str_good (did_id o) /\ unknowns_good (did_unknown o);
  known o := fld_good str_good (did_id o) /\ elts (did_unknown o) = [];
  norm o := mk_did (pick_str (did_id o) (Fld false ngx_str_null)) (pick_u32 id (did_type o) (Fld false 0)) None;
  vmap g o := mk_did (vstr g (did_id o)) (did_type o) (did_unknown o) }.

Lemma did_size `{NgxEnv} (o : ngx_com_request_device_device_id_t) :
  good o -> lenz (enc o) < 4294967296 -> msize o = lenz (enc o).
Proof. size_law did_message ngx_com_request_device_device_id__size (idtac). Qed.

Lemma did_pack `{NgxEnv} (o : ngx_com_request_device_device_id_t) :
  good o -> lenz (enc o) < 4294967296 -> Packs (mpack o) (enc o).
Proof. pack_law did_message ngx_com_request_device_device_id__pack did_size (idtac). Qed.

Lemma did_unpack `{NgxEnv} (m : ngx_com_request_device_device_id_t) fuel c :
  known m -> lenz (enc m) < 4294967296 -> ahead c (enc m) -> last c = pos c + lenz (enc m) ->
  reading c -> (length (enc m) <= fuel)%nat ->
  exists o k, munpack fuel zero c = Ok (NGX_OK, o, adv c (length (enc m)) k) /\ vmap (view c) o = norm m.
Proof.
  unpack_law did_message ngx_com_request_device_device_id__unpack
    (unpack_field did_id with_did_id;
    unpack_field did_type with_did_type).
Qed.

Lemma did_vmap `{NgxEnv} g (m : ngx_com_request_device_device_id_t) : (forall s, g s = s) -> vmap g m = m.
Proof. vmap_law did_message. Qed.

Lemma did_vmap_enc `{NgxEnv} g (m : ngx_com_request_device_device_id_t) : same_bytes g -> enc (vmap g m) = enc m.
Proof. vmap_enc_law did_message. Qed.

Lemma did_vmap_good `{NgxEnv} g (m : ngx_com_request_device_device_id_t) : same_bytes g -> good (vmap g m) -> good m.
Proof. vmap_good_law did_message. Qed.

#[export] Instance did_laws `{NgxEnv} : MessageLaws ngx_com_request_device_device_id_t :=
  {| size_enc := did_size; pack_enc := did_pack; unpack_enc := did_unpack;
     vmap_id := did_vmap; vmap_enc := did_vmap_enc; vmap_good := did_vmap_good |}.

(** ** ComRequest.Device *)

#[export] Instance device_message `{NgxEnv} : Message ngx_com_request_device_t := {
  zero := device_zero;
  msize := ngx_com_request_device__size;
  mpack := ngx_com_request_device__pack;
  munpack := ngx_com_request_device__unpack;
  enc o := enc_elements enc (device_device_id o) 1 ++ enc_u32 (device_device_type o) 2 ++ enc_u32 (device_os o) 3 ++
    enc_str (device_os_version o) 4 ++ enc_u32 (device_carrier o) 5 ++ enc_u32 (device_connection o) 6 ++
    enc_str (device_brand o) 7 ++ enc_str (device_model o) 8 ++ enc_str (device_user_agent o) 9 ++
    enc_str (device_ip o) 10 ++ enc_unknowns (device_unknown o);
  good o := elements_good good (device_device_id o) /\ fld_good str_good (device_os_version o) /\
    fld_good str_good (device_brand o) /\ fld_good str_good (device_model o) /\
    fld_good str_good (device_user_agent o) /\ fld_good str_good (device_ip o) /\ unknowns_good (device_unknown o);
  known o := elements_known (device_device_id o) /\ fld_good str_good (device_os_version o) /\
    fld_good str_good (device_brand o) /\ fld_good str_good (device_model o) /\
    fld_good str_good (device_user_agent o) /\ fld_good str_good (device_ip o) /\ elts (device_unknown o) = [];
  norm o := mk_device (pick_elements (device_device_id o) (Fld false None))
    (pick_u32 id (device_device_type o) (Fld false 0)) (pick_u32 id (device_os o) (Fld false 0))
    (pick_str (device_os_version o) (Fld false ngx_str_null)) (pick_u32 id (device_carrier o) (Fld false 0))
    (pick_u32 id (device_connection o) (Fld false 0)) (pick_str (device_brand o) (Fld false ngx_str_null))
    (pick_str (device_model o) (Fld false ngx_str_null)) (pick_str (device_user_agent o) (Fld false ngx_str_null))
    (pick_str (device_ip o) (Fld false ngx_str_null)) None;
  vmap g o := mk_device (velements g (device_device_id o)) (device_device_type o) (device_os o)
    (vstr g (device_os_version o)) (device_carrier o) (device_connection o) (vstr g (device_brand o))
    (vstr g (device_model o)) (vstr g (device_user_agent o)) (vstr g (device_ip o)) (device_unknown o) }.

Lemma device_size `{NgxEnv} (o : ngx_com_request_device_t) :
  good o -> lenz (enc o) < 4294967296 -> msize o = lenz (enc o).
Proof. size_law device_message ngx_com_request_device__size
  (change ngx_com_request_device_device_id__size with (msize (M := ngx_com_request_device_device_id_t))). Qed.

Lemma device_pack `{NgxEnv} (o : ngx_com_request_device_t) :
  good o -> lenz (enc o) < 4294967296 -> Packs (mpack o) (enc o).
Proof. pack_law device_message ngx_com_request_device__pack device_size
  (change ngx_com_request_device_device_id__size with (msize (M := ngx_com_request_device_device_id_t));
  change ngx_com_request_device_device_id__pack with (mpack (M := ngx_com_request_device_device_id_t))). Qed.

Lemma device_unpack `{NgxEnv} (m : ngx_com_request_device_t) fuel c :
  known m -> lenz (enc m) < 4294967296 -> ahead c (enc m) -> last c = pos c + lenz (enc m) ->
  reading c -> (length (enc m) <= fuel)%nat ->
  exists o k, munpack fuel zero c = Ok (NGX_OK, o, adv c (length (enc m)) k) /\ vmap (view c) o = norm m.
Proof.
  unpack_law device_message ngx_com_request_device__unpack
    (unpack_field device_device_id with_device_device_id;
    unpack_field device_device_type with_device_device_type;
    unpack_field device_os with_device_os;
    unpack_field device_os_version with_device_os_version;
    unpack_field device_carrier with_device_carrier;
    unpack_field device_connection with_device_connection;
    unpack_field device_brand with_device_brand;
    unpack_field device_model with_device_model;
    unpack_field device_user_agent with_device_user_agent;
    unpack_field device_ip with_device_ip).
Qed.

Lemma device_vmap `{NgxEnv} g (m : ngx_com_request_device_t) : (forall s, g s = s) -> vmap g m = m.
Proof. vmap_law device_message. Qed.

Lemma device_vmap_enc `{NgxEnv} g (m : ngx_com_request_device_t) : same_bytes g -> enc (vmap g m) = enc m.
Proof. vmap_enc_law device_message. Qed.

Lemma device_vmap_good `{NgxEnv} g (m : ngx_com_request_device_t) : same_bytes g -> good (vmap g m) -> good m.
Proof. vmap_good_law device_message. Qed.

#[export] Instance device_laws `{NgxEnv} : MessageLaws ngx_com_request_device_t :=
  {| size_enc := device_size; pack_enc := device_pack; unpack_enc := device_unpack;
     vmap_id := device_vmap; vmap_enc := device_vmap_enc; vmap_good := device_vmap_good |}.

(** ** ComRequest.App *)

#[export] Instance app_message `{NgxEnv} : Message ngx_com_request_app_t := {
  zero := app_zero;
  msize := ngx_com_request_app__size;
  mpack := ngx_com_request_app__pack;
  munpack := ngx_com_request_app__unpack;
  enc o := enc_str (app_app_id o) 1 ++ enc_u32 (app_app_category o) 2 ++ enc_unknowns (app_unknown o);
  good o := fld_good str_good (app_app_id o) /\ unknowns_good (app_unknown o);
  known o := fld_good str_good (app_app_id o) /\ elts (app_unknown o) = [];
  norm o := mk_app (pick_str (app_app_id o) (Fld false ngx_str_null))
    (pick_u32 i32 (app_app_category o) (Fld false 0)) None;
  vmap g o := mk_app (vstr g (app_app_id o)) (app_app_category o) (app_unknown o) }.

Lemma app_size `{NgxEnv} (o : ngx_com_request_app_t) :
  good o -> lenz (enc o) < 4294967296 -> msize o = lenz (enc o).
Proof. size_law app_message ngx_com_request_app__size (idtac). Qed.

Lemma app_pack `{NgxEnv} (o : ngx_com_request_app_t) :
  good o -> lenz (enc o) < 4294967296 -> Packs (mpack o) (enc o).
Proof. pack_law app_message ngx_com_request_app__pack app_size (idtac). Qed.

Lemma app_unpack `{NgxEnv} (m : ngx_com_request_app_t) fuel c :
  known m -> lenz (enc m) < 4294967296 -> ahead c (enc m) -> last c = pos c + lenz (enc m) ->
  reading c -> (length (enc m) <= fuel)%nat ->
  exists o k, munpack fuel zero c = Ok (NGX_OK, o, adv c (length (enc m)) k) /\ vmap (view c) o = norm m.
Proof.
  unpack_law app_message ngx_com_request_app__unpack
    (unpack_field app_app_id with_app_app_id;
    unpack_field app_app_category with_app_app_category).
Qed.

Lemma app_vmap `{NgxEnv} g (m : ngx_com_request_app_t) : (forall s, g s = s) -> vmap g m = m.
Proof. vmap_law app_message. Qed.

Lemma app_vmap_enc `{NgxEnv} g (m : ngx_com_request_app_t) : same_bytes g -> enc (vmap g m) = enc m.
Proof. vmap_enc_law app_message. Qed.

Lemma app_vmap_good `{NgxEnv} g (m : ngx_com_request_app_t) : same_bytes g -> good (vmap g m) -> good m.
Proof. vmap_good_law app_message. Qed.

#[export] Instance app_laws `{NgxEnv} : MessageLaws ngx_com_request_app_t :=
  {| size_enc := app_size; pack_enc := app_pack; unpack_enc := app_unpack;
     vmap_id := app_vmap; vmap_enc := app_vmap_enc; vmap_good := app_vmap_good |}.

(** ** ComRequest *)

#[export] Instance request_message `{NgxEnv} : Message ngx_com_request_t := {
  zero := request_zero;
  msize := ngx_com_request__size;
  mpack := ngx_com_request__pack;
  munpack := ngx_com_request__unpack;
  enc o := enc_u32 (request_adx o) 1 ++ enc_str (request_bid o) 2 ++ enc_elements enc (request_adx_slot o) 3 ++
    enc_member enc (request_device o) 4 ++ enc_member enc (request_app o) 5 ++ enc_unknowns (request_unknown o);
  good o := fld_good str_good (request_bid o) /\ elements_good good (request_adx_slot o) /\
    member_good good (request_device o) /\ member_good good (request_app o) /\ unknowns_good (request_unknown o);
  known o := fld_good str_good (request_bid o) /\ elements_known (request_adx_slot o) /\
    member_known (request_device o) /\ member_known (request_app o) /\ elts (request_unknown o) = [];
  norm o := mk_request (pick_u32 i32 (request_adx o) (Fld false 0))
    (pick_str (request_bid o) (Fld false ngx_str_null)) (pick_elements (request_adx_slot o) (Fld false None))
    (pick_member (request_device o) (Fld false None)) (pick_member (request_app o) (Fld false None)) None;
  vmap g o := mk_request (request_adx o) (vstr g (request_bid o)) (velements g (request_adx_slot o))
    (vmember g (request_device o)) (vmember g (request_app o)) (request_unknown o) }.

Lemma request_size `{NgxEnv} (o : ngx_com_request_t) :
  good o -> lenz (enc o) < 4294967296 -> msize o = lenz (enc o).
Proof. size_law request_message ngx_com_request__size
  (change ngx_com_request_adx_slot__size with (msize (M := ngx_com_request_adx_slot_t));
  change ngx_com_request_device__size with (msize (M := ngx_com_request_device_t));
  change ngx_com_request_app__size with (msize (M := ngx_com_request_app_t))). Qed.

Lemma request_pack `{NgxEnv} (o : ngx_com_request_t) :
  good o -> lenz (enc o) < 4294967296 -> Packs (mpack o) (enc o).
Proof. pack_law request_message ngx_com_request__pack request_size
  (change ngx_com_request_adx_slot__size with (msize (M := ngx_com_request_adx_slot_t));
  change ngx_com_request_adx_slot__pack with (mpack (M := ngx_com_request_adx_slot_t));
  change ngx_com_request_device__size with (msize (M := ngx_com_request_device_t));
  change ngx_com_request_device__pack with (mpack (M := ngx_com_request_device_t));
  change ngx_com_request_app__size with (msize (M := ngx_com_request_app_t));
  change ngx_com_request_app__pack with (mpack (M := ngx_com_request_app_t))). Qed.

Lemma request_unpack `{NgxEnv} (m : ngx_com_request_t) fuel c :
  known m -> lenz (enc m) < 4294967296 -> ahead c (enc m) -> last c = pos c + lenz (enc m) ->
  reading c -> (length (enc m) <= fuel)%nat ->
  exists o k, munpack fuel zero c = Ok (NGX_OK, o, adv c (length (enc m)) k) /\ vmap (view c) o = norm m.
Proof.
  unpack_law request_message ngx_com_request__unpack
    (unpack_field request_adx with_request_adx;
    unpack_field request_bid with_request_bid;
    unpack_field request_adx_slot with_request_adx_slot;
    unpack_field request_device with_request_device;
    unpack_field request_app with_request_app).
Qed.

Lemma request_vmap `{NgxEnv} g (m : ngx_com_request_t) : (forall s, g s = s) -> vmap g m = m.
Proof. vmap_law request_message. Qed.

Lemma request_vmap_enc `{NgxEnv} g (m : ngx_com_request_t) : same_bytes g -> enc (vmap g m) = enc m.
Proof. vmap_enc_law request_message. Qed.

Lemma request_vmap_good `{NgxEnv} g (m : ngx_com_request_t) : same_bytes g -> good (vmap g m) -> good m.
Proof. vmap_good_law request_message. Qed.

#[export] Instance request_laws `{NgxEnv} : MessageLaws ngx_com_request_t :=
  {| size_enc := request_size; pack_enc := request_pack; unpack_enc := request_unpack;
     vmap_id := request_vmap; vmap_enc := request_vmap_enc; vmap_good := request_vmap_good |}.

(** ** ComResponse.AdxSlot *)

#[export] Instance rslot_message `{NgxEnv} : Message ngx_com_response_adx_slot_t := {
  zero := rslot_zero;
  msize := ngx_com_response_adx_slot__size;
  mpack := ngx_com_response_adx_slot__pack;
  munpack := ngx_com_response_adx_slot__unpack;
  enc o := enc_str (rslot_adx_slot_id o) 1 ++ enc_u32 (rslot_adx_slot_sequence_id o) 2 ++
    enc_u32 (rslot_adx_slot_type o) 3 ++ enc_u32 (rslot_price o) 4 ++ enc_str (rslot_template o) 5 ++
    enc_str (rslot_ext o) 6 ++ enc_unknowns (rslot_unknown o);
  good o := fld_good str_good (rslot_adx_slot_id o) /\ fld_good str_good (rslot_template o) /\
    fld_good str_good (rslot_ext o) /\ unknowns_good (rslot_unknown o);
  known o := fld_good str_good (rslot_adx_slot_id o) /\ fld_good str_good (rslot_template o) /\
    fld_good str_good (rslot_ext o) /\ elts (rslot_unknown o) = [];
  norm o := mk_rslot (pick_str (rslot_adx_slot_id o) (Fld false ngx_str_null))
    (pick_u32 i32 (rslot_adx_slot_sequence_id o) (Fld false 0)) (pick_u32 id (rslot_adx_slot_type o) (Fld false 0))
    (pick_u32 i32 (rslot_price o) (Fld false 0)) (pick_str (rslot_template o) (Fld false ngx_str_null))
    (pick_str (rslot_ext o) (Fld false ngx_str_null)) None;
  vmap g o := mk_rslot (vstr g (rslot_adx_slot_id o)) (rslot_adx_slot_sequence_id o) (rslot_adx_slot_type o)
    (rslot_price o) (vstr g (rslot_template o)) (vstr g (rslot_ext o)) (rslot_unknown o) }.

Lemma rslot_size `{NgxEnv} (o : ngx_com_response_adx_slot_t) :
  good o -> lenz (enc o) < 4294967296 -> msize o = lenz (enc o).
Proof. size_law rslot_message ngx_com_response_adx_slot__size (idtac). Qed.

Lemma rslot_pack `{NgxEnv} (o : ngx_com_response_adx_slot_t) :
  good o -> lenz (enc o) < 4294967296 -> Packs (mpack o) (enc o).
Proof. pack_law rslot_message ngx_com_response_adx_slot__pack rslot_size (idtac). Qed.

Lemma rslot_unpack `{NgxEnv} (m : ngx_com_response_adx_slot_t) fuel c :
  known m -> lenz (enc m) < 4294967296 -> ahead c (enc m) -> last c = pos c + lenz (enc m) ->
  reading c -> (length (enc m) <= fuel)%nat ->
  exists o k, munpack fuel zero c = Ok (NGX_OK, o, adv c (length (enc m)) k) /\ vmap (view c) o = norm m.
Proof.
  unpack_law rslot_message ngx_com_response_adx_slot__unpack
    (unpack_field rslot_adx_slot_id with_rslot_adx_slot_id;
    unpack_field rslot_adx_slot_sequence_id with_rslot_adx_slot_sequence_id;
    unpack_field rslot_adx_slot_type with_rslot_adx_slot_type;
    unpack_field rslot_price with_rslot_price;
    unpack_field rslot_template with_rslot_template;
    unpack_field rslot_ext with_rslot_ext).
Qed.

Lemma rslot_vmap `{NgxEnv} g (m : ngx_com_response_adx_slot_t) : (forall s, g s = s) -> vmap g m = m.
Proof. vmap_law rslot_message. Qed.

Lemma rslot_vmap_enc `{NgxEnv} g (m : ngx_com_response_adx_slot_t) : same_bytes g -> enc (vmap g m) = enc m.
Proof. vmap_enc_law rslot_message. Qed.

Lemma rslot_vmap_good `{NgxEnv} g (m : ngx_com_response_adx_slot_t) : same_bytes g -> good (vmap g m) -> good m.
Proof. vmap_good_law rslot_message. Qed.

#[export] Instance rslot_laws `{NgxEnv} : MessageLaws ngx_com_response_adx_slot_t :=
  {| size_enc := rslot_size; pack_enc := rslot_pack; unpack_enc := rslot_unpack;
     vmap_id := rslot_vmap; vmap_enc := rslot_vmap_enc; vmap_good := rslot_vmap_good |}.

(** ** ComResponse *)

#[export] Instance response_message `{NgxEnv} : Message ngx_com_response_t := {
  zero := response_zero;
  msize := ngx_com_response__size;
  mpack := ngx_com_response__pack;
  munpack := ngx_com_response__unpack;
  enc o := enc_str (response_bid o) 1 ++ enc_elements enc (response_adx_slot o) 2 ++
    enc_unknowns (response_unknown o);
  good o := fld_good str_good (response_bid o) /\ elements_good good (response_adx_slot o) /\
    unknowns_good (response_unknown o);
  known o := fld_good str_good (response_bid o) /\ elements_known (response_adx_slot o) /\
    elts (response_unknown o) = [];
  norm o := mk_response (pick_str (response_bid o) (Fld false ngx_str_null))
    (pick_elements (response_adx_slot o) (Fld false None)) None;
  vmap g o := mk_response (vstr g (response_bid o)) (velements g (response_adx_slot o)) (response_unknown o) }.

Lemma response_size `{NgxEnv} (o : ngx_com_response_t) :
  good o -> lenz (enc o) < 4294967296 -> msize o = lenz (enc o).
Proof. size_law response_message ngx_com_response__size
  (change ngx_com_response_adx_slot__size with (msize (M := ngx_com_response_adx_slot_t))). Qed.

Lemma response_pack `{NgxEnv} (o : ngx_com_response_t) :
  good o -> lenz (enc o) < 4294967296 -> Packs (mpack o) (enc o).
Proof. pack_law response_message ngx_com_response__pack response_size
  (change ngx_com_response_adx_slot__size with (msize (M := ngx_com_response_adx_slot_t));
  change ngx_com_response_adx_slot__pack with (mpack (M := ngx_com_response_adx_slot_t))). Qed.

Lemma response_unpack `{NgxEnv} (m : ngx_com_response_t) fuel c :
  known m -> lenz (enc m) < 4294967296 -> ahead c (enc m) -> last c = pos c + lenz (enc m) ->
  reading c -> (length (enc m) <= fuel)%nat ->
  exists o k, munpack fuel zero c = Ok (NGX_OK, o, adv c (length (enc m)) k) /\ vmap (view c) o = norm m.
Proof.
  unpack_law response_message ngx_com_response__unpack
    (unpack_field response_bid with_response_bid;
    unpack_field response_adx_slot with_response_adx_slot).
Qed.

Lemma response_vmap `{NgxEnv} g (m : ngx_com_response_t) : (forall s, g s = s) -> vmap g m = m.
Proof. vmap_law response_message. Qed.

Lemma response_vmap_enc `{NgxEnv} g (m : ngx_com_response_t) : same_bytes g -> enc (vmap g m) = enc m.
Proof. vmap_enc_law response_message. Qed.

Lemma response_vmap_good `{NgxEnv} g (m : ngx_com_response_t) : same_bytes g -> good (vmap g m) -> good m.
Proof. vmap_good_law response_message. Qed.

#[export] Instance response_laws `{NgxEnv} : MessageLaws ngx_com_response_t :=
  {| size_enc := response_size; pack_enc := response_pack; unpack_enc := response_unpack;
     vmap_id := response_vmap; vmap_enc := response_vmap_enc; vmap_good := response_vmap_good |}.
