(* ===== verification/AdxCom.v ===== *)
(** The request to the bidding server: adx_com.c of adx_module/adx_com_libs,
    over the messages of NgxComProto.v and the chains of AdxChain.v, and the
    properties of whole messages. *)

From Stdlib Require Import ZArith Lia.
From S2P Require Import Prelude AdxChain NgxProtobuf NgxProtobufWire NgxProtobufMsg NgxProtobufCodec.
From S2P Require Import NgxProtobufRead NgxProtobufMember NgxProtobufSpec NgxComProto NgxComProtoLaws.

Open Scope Z_scope.

(** The accessor macros of ngx_adx_com_proto.h that adx_com.c uses. *)
Definition ngx_com_request__set_device (obj : ngx_com_request_t) (v : option ngx_com_request_device_t) :=
  with_request_device obj (NGX_PROTOBUF_SET_MEMBER (request_device obj) v).
Definition ngx_com_request__set_app (obj : ngx_com_request_t) (v : option ngx_com_request_app_t) :=
  with_request_app obj (NGX_PROTOBUF_SET_MEMBER (request_app obj) v).

Section Pool.
Context (alloc : nat -> bool).

(** The three allocations in turn; [k] calls were made before. *)
Definition adx_com_init (k : nat) : cres ngx_com_request_t :=
  let com_request := if alloc k then Some request_zero else None in
  let com_device := if alloc (S k) then Some device_zero else None in
  let com_app := if alloc (S (S k)) then Some app_zero else None in
  r ← of_opt com_request;
  let r := ngx_com_request__set_device r com_device in
  let r := ngx_com_request__set_app r com_app in
  mret r.

(** [fresh n] is what a new block of [n] bytes reads as; [flag] is the member
    [reuse_strings], which is not set. *)
Context (fresh : Z -> bytes) (flag : bool).

Definition adx_com_to_chain `{NgxEnv} (m : AdxChain.mem) (com_request : ngx_com_request_t) : cres (Z * AdxChain.mem) :=
  let len := i32 (ngx_com_request__size com_request) in
  let '(buffer, m) := AdxChain.ngx_pcalloc alloc m in
  if decide (buffer = 0) then mret (0, m) else
  let ctx := Ctx (fresh (u64 len)) 0 len flag true 0 in
  '(ret, ctx) ← ngx_com_request__pack com_request ctx;
  if decide (ret ≠ NGX_OK) then mret (0, m) else
  AdxChain.adx_chain_alloc alloc true m (Some (NgxProtobuf.mem ctx)) (u64 len).
End Pool.

(** ** A packed message read back *)

Section Messages.
Context `{E : NgxEnv} {M : Type} `{!Message M, !MessageLaws M}.

(** The context that reads what was written from [p] on. *)
Definition reader (c : ngx_protobuf_context_t) (p : Z) : ngx_protobuf_context_t :=
  Ctx (NgxProtobuf.mem c) p (NgxProtobuf.pos c) false true (NgxProtobuf.calls c).

(** Reading with copies of the strings gives the object itself. *)
Lemma munpack_copying (o : M) fuel c :
  known o -> lenz (enc o) < 4294967296 -> ahead c (enc o) -> NgxProtobuf.last c = NgxProtobuf.pos c + lenz (enc o) ->
  reading c -> reuse_strings c = false -> (length (enc o) <= fuel)%nat ->
  exists k, munpack fuel zero c = Ok (NGX_OK, norm o, adv c (length (enc o)) k).
Proof.
  intros Hk Hl Ha Hlast Hc Hr Hf. destruct (unpack_enc o fuel c) as (o' & k & Ek & Ho); try done.
  exists k. rewrite <- Ho, vmap_id; [done|]. intros s. by apply view_copying.
Qed.

Lemma message_roundtrip (o : M) c fuel :
  good o -> known o -> lenz (enc o) < 4294967296 -> (forall k n, 0 <= n < 4294967296 -> ao k n = true) ->
  fits c (lenz (enc o)) -> base + NgxProtobuf.last c + 4294967296 < 18446744073709551616 ->
  (length (enc o) <= fuel)%nat ->
  exists c1 c2, mpack o c = Ok (NGX_OK, c1) /\ NgxProtobuf.pos c1 = NgxProtobuf.pos c + msize o /\
    munpack fuel zero (reader c1 (NgxProtobuf.pos c)) = Ok (NGX_OK, norm o, c2).
Proof.
  intros Hg Hk Hl Hao Hfit Hb Hf. exists (put c (enc o)). rewrite size_enc by done.
  destruct (munpack_copying o fuel (reader (put c (enc o)) (NgxProtobuf.pos c))) as (k & Ek); try done.
  - destruct Hfit as (Hr & _). pose proof (put_ahead c (enc o) Hr) as Ha. exact Ha.
  - split_and!; try done; [apply Hfit|]. cbn [reader NgxProtobuf.last]. rewrite put_pos.
    destruct Hfit as (_ & ? & _). lia.
  - eexists. split_and!; [by apply pack_enc|done|exact Ek].
Qed.
End Messages.

(** ** Requests *)

(** What is read back of a string: the same bytes, in a block of the pool. *)
Lemma copied_bytes `{E : NgxEnv} s : str_good s -> sbytes (copy_str s) = sbytes s.
Proof.
  intros Hs. pose proof (str_good_len s Hs) as Hl. unfold copy_str. unfold sbytes at 1. unfold str_bytes. cbn [len data].
  case_decide as Hz.
  - destruct (sbytes s); [done|]. cbn [length] in Hl. lia.
  - unfold slice. rewrite decide_True by lia. by rewrite drop_0, take_ge by lia.
Qed.

(** What is read back of a member and of an array: those without bytes are
    not made again. *)
Lemma member_read `{E : NgxEnv} `{!Message M} (f : fld (option M)) d :
  pick_member f (Fld false None) = Fld true (Some d) <->
  has f = true /\ exists d0, val f = Some d0 /\ enc d0 ≠ [] /\ d = norm d0.
Proof.
  unfold pick_member. split.
  - destruct (has f); [|done]. destruct (val f) as [d0|]; [|done]. case_decide; [done|]. intros [= <-]. eauto.
  - intros (-> & d0 & -> & H & ->). by rewrite decide_False.
Qed.

Lemma elements_read `{E : NgxEnv} `{!Message M} (f : fld (array M)) : has f = true ->
  elts (val (pick_elements f (Fld false None))) = map norm (filter (fun m => enc m ≠ []) (elts (val f))) /\
  has (pick_elements f (Fld false None)) = bool_decide (filter (fun m => enc m ≠ []) (elts (val f)) ≠ []).
Proof.
  intros Hf. unfold pick_elements. rewrite Hf.
  assert (forall l (z : fld (array M)), elts (val (foldl push_element z l)) = elts (val z) ++ map norm (filter (fun m => enc m ≠ []) l) /\
    has (foldl push_element z l) = has z || bool_decide (filter (fun m => enc m ≠ []) l ≠ [])) as H; [|by apply (H _ (Fld false None))].
  induction l as [|m l IH]; intros z; cbn [foldl].
  - rewrite filter_nil, app_nil_r, bool_decide_false, orb_false_r by (intros H; by apply H). done.
  - destruct (IH (push_element z m)) as [-> ->]. rewrite filter_cons. unfold push_element. case_decide as He.
    + by rewrite decide_False by (intros H; by apply H).
    + rewrite decide_True by done. cbn [val has elts default from_option map orb id]. rewrite <- app_assoc.
      split; [done|]. by rewrite bool_decide_true, orb_true_r by done.
Qed.

(** C9: Messages survive the wire, but for empty ones inside them.  A request
    without unknown fields, packed into a buffer with room for it, takes as
    many bytes as [ngx_com_request__size] says, and unpacking those bytes
    ends, with no more turns of a loop than there are bytes, in [norm r]: the
    number and the bid, where they are present, with the value of an [int] and
    the same bytes; the slots in order, the device and the application, each
    [norm]alised in the same way, of those that take a byte.  A present slot,
    device or application none of whose fields is present takes none, and is
    absent after reading. *)
Theorem ngx_com_request_roundtrip `{NgxEnv} (r : ngx_com_request_t) (c : ngx_protobuf_context_t) (fuel : nat) :
  good r -> known r -> lenz (enc r) < 4294967296 -> (forall k n, 0 <= n < 4294967296 -> ao k n = true) ->
  fits c (lenz (enc r)) -> base + NgxProtobuf.last c + 4294967296 < 18446744073709551616 ->
  (length (enc r) <= fuel)%nat ->
  (exists c1 c2, ngx_com_request__pack r c = Ok (NGX_OK, c1) /\
    NgxProtobuf.pos c1 = NgxProtobuf.pos c + ngx_com_request__size r /\
    ngx_com_request__unpack fuel request_zero (reader c1 (NgxProtobuf.pos c)) = Ok (NGX_OK, norm r, c2)) /\
  request_adx (norm r) = (if has (request_adx r) then Fld true (i32 (u32 (val (request_adx r)))) else Fld false 0) /\
  has (request_bid (norm r)) = has (request_bid r) /\
  (has (request_bid r) = true -> sbytes (val (request_bid (norm r))) = sbytes (val (request_bid r))) /\
  (has (request_adx_slot r) = true ->
     elts (val (request_adx_slot (norm r))) = map norm (filter (fun s => enc s ≠ []) (elts (val (request_adx_slot r)))) /\
     has (request_adx_slot (norm r)) = bool_decide (filter (fun s => enc s ≠ []) (elts (val (request_adx_slot r))) ≠ [])) /\
  (forall d, request_device (norm r) = Fld true (Some d) <->
     has (request_device r) = true /\ exists d0, val (request_device r) = Some d0 /\ enc d0 ≠ [] /\ d = norm d0) /\
  (forall a, request_app (norm r) = Fld true (Some a) <->
     has (request_app r) = true /\ exists a0, val (request_app r) = Some a0 /\ enc a0 ≠ [] /\ a = norm a0).
Proof.
  intros Hg Hk Hl Hao Hfit Hb Hf. split; [exact (message_roundtrip r c fuel Hg Hk Hl Hao Hfit Hb Hf)|].
  destruct Hg as [Hbid _]. split; [done|]. split; [|split; [|split; [|split]]].
  - cbn [norm request_message request_bid]. unfold pick_str. by destruct (has (request_bid r)).
  - intros Hh. cbn [norm request_message request_bid]. unfold pick_str. rewrite Hh. cbn [val].
    apply copied_bytes. by apply Hbid.
  - intros Hs. by apply elements_read.
  - intros d. apply member_read.
  - intros a. apply member_read.
Qed.

(** The same for the answers of the bidding server. *)
Theorem ngx_com_response_roundtrip `{NgxEnv} (r : ngx_com_response_t) (c : ngx_protobuf_context_t) (fuel : nat) :
  good r -> known r -> lenz (enc r) < 4294967296 -> (forall k n, 0 <= n < 4294967296 -> ao k n = true) ->
  fits c (lenz (enc r)) -> base + NgxProtobuf.last c + 4294967296 < 18446744073709551616 ->
  (length (enc r) <= fuel)%nat ->
  exists c1 c2, ngx_com_response__pack r c = Ok (NGX_OK, c1) /\
    NgxProtobuf.pos c1 = NgxProtobuf.pos c + ngx_com_response__size r /\
    ngx_com_response__unpack fuel response_zero (reader c1 (NgxProtobuf.pos c)) = Ok (NGX_OK, norm r, c2).
Proof. exact (message_roundtrip r c fuel). Qed.

(** C10: [ngx_com_request__pack] never writes outside its buffer: for any request
    whose strings are good, unknown fields included, it either writes exactly
    the bytes of the request, as many as [ngx_com_request__size] says, and
    changes no other byte of the block, or finds the buffer too small, changes
    nothing and gives [NGX_ABORT]. *)
Theorem ngx_com_request_pack_within `{NgxEnv} (r : ngx_com_request_t) (c : ngx_protobuf_context_t) :
  good r -> lenz (enc r) < 4294967296 ->
  0 <= base -> 0 <= NgxProtobuf.pos c -> NgxProtobuf.last c <= lenz (NgxProtobuf.mem c) ->
  base + NgxProtobuf.last c + 4294967296 < 18446744073709551616 -> NgxProtobuf.pos c <= NgxProtobuf.last c ->
  ngx_com_request__size r = lenz (enc r) /\
  (NgxProtobuf.pos c + lenz (enc r) <= NgxProtobuf.last c ->
   ngx_com_request__pack r c = Ok (NGX_OK, put c (enc r))) /\
  (NgxProtobuf.last c < NgxProtobuf.pos c + lenz (enc r) -> ngx_com_request__pack r c = Ok (NGX_ABORT, c)).
Proof.
  intros Hg Hl Hb0 Hp Hm Hb1 Hpl. pose proof (request_size r Hg Hl) as Hs.
  split_and!; [exact Hs| |].
  - intros Hfit. apply (request_pack r Hg Hl). split_and!; try lia. unfold room. lia.
  - intros Hsmall. change (ngx_com_request__size r = lenz (enc r)) in Hs. unfold ngx_com_request__pack.
    apply (pack_guard_abort _ _ _ (lenz (enc r))); [done|lia|lia|lia|lia|lia].
Qed.

(** ** The request as a chain *)

Lemma chain_alloc_buffer (alloc : nat -> bool) (b : bytes) m :
  (forall k, alloc k = true) -> b ≠ [] -> 0 < AdxChain.top m ->
  exists p q m', AdxChain.adx_chain_alloc alloc true m (Some b) (lenz b) = Ok (p, m') /\
    AdxChain.get_chain m' p = Ok (Chain q 0) /\ AdxChain.get_buf m' q = Ok (Buf b 0 (lenz b) 1 1) /\
    0 < AdxChain.top m' /\ p ≠ 0.
Proof.
  intros Ha Hb Ht. assert (0 < lenz b) by (destruct b; [done|cbn [length]; lia]).
  unfold AdxChain.adx_chain_alloc. rewrite bool_decide_eq_false_2 by lia. cbn [negb orb].
  unfold AdxChain.ngx_pcalloc, AdxChain.set_chain, AdxChain.set_buf. rewrite !Ha.
  cbn [chains bufs AdxChain.calls AdxChain.top]. rewrite !(decide_False (P := _ = 0)), decide_True by lia.
  rewrite Nat2Z.id, take_ge by lia. eexists _, _, _. split; [done|].
  unfold AdxChain.get_chain, AdxChain.get_buf. cbn [chains bufs AdxChain.top]. rewrite !lookup_insert_eq.
  split_and!; [done|done|lia|lia].
Qed.

Lemma to_chain_ok `{NgxEnv} (alloc : nat -> bool) (fresh : Z -> bytes) (flag : bool)
    (m : AdxChain.mem) (r : ngx_com_request_t) :
  good r -> lenz (enc r) < 2147483648 -> (forall k, alloc k = true) -> (forall n, 0 <= n -> lenz (fresh n) = n) ->
  0 <= base -> base + 6442450944 < 18446744073709551616 -> 0 < AdxChain.top m ->
  (enc r = [] -> exists m', adx_com_to_chain alloc fresh flag m r = Ok (0, m')) /\
  (enc r ≠ [] -> exists p q m', adx_com_to_chain alloc fresh flag m r = Ok (p, m') /\ 0 < AdxChain.top m' /\ p ≠ 0 /\
     AdxChain.get_chain m' p = Ok (Chain q 0) /\ AdxChain.get_buf m' q = Ok (Buf (enc r) 0 (lenz (enc r)) 1 1) /\
     (known r -> (forall k n, 0 <= n < 4294967296 -> ao k n = true) -> exists c2,
        ngx_com_request__unpack (length (enc r)) request_zero (Ctx (enc r) 0 (lenz (enc r)) false true 0) =
        Ok (NGX_OK, norm r, c2))).
Proof.
  intros Hg Hl Ha Hfresh Hb0 Hb1 Ht.
  assert (ngx_com_request__size r = lenz (enc r)) as Hs by (apply request_size; [done|lia]).
  assert (i32 (ngx_com_request__size r) = lenz (enc r)) as Hi by (rewrite Hs; unfold i32; zdiv).
  unfold adx_com_to_chain, AdxChain.ngx_pcalloc. rewrite Hi, Ha, decide_False by lia.
  rewrite u64_id by lia. set (c := Ctx _ _ _ _ _ _). set (m1 := Mem _ _ _ _).
  assert (fits c (lenz (enc r))) as Hfit.
  { unfold fits, room. subst c. cbn [NgxProtobuf.pos NgxProtobuf.mem NgxProtobuf.last]. rewrite Hfresh by lia. lia. }
  assert (ngx_com_request__pack r c = Ok (NGX_OK, put c (enc r))) as Hpk by (apply (request_pack r Hg); [lia|done]).
  assert (NgxProtobuf.mem (put c (enc r)) = enc r) as Hm.
  { subst c. unfold put. cbn [NgxProtobuf.pos NgxProtobuf.mem set_pos set_mem]. pose proof (Hfresh (lenz (enc r)) ltac:(lia)).
    change (Z.to_nat 0) with 0%nat. rewrite drop_ge by lia. by rewrite app_nil_r. }
  rewrite Hpk, ok_bind, decide_False, Hm by (intros ?; congruence). split.
  - intros ->. by eexists.
  - intros Hne. destruct (chain_alloc_buffer alloc (enc r) m1 Ha Hne) as (p & q & m' & Ec & Hc & Hq & Ht' & Hp); [subst m1; cbn; lia|].
    exists p, q, m'. split_and!; try done. intros Hk Hao.
    destruct (munpack_copying r (length (enc r)) (Ctx (enc r) 0 (lenz (enc r)) false true 0)) as (k & Ek);
      [done|lia|split; [done|exists []; by rewrite app_nil_r]|done| |done|done|by eexists].
    split_and!; try done. cbn [NgxProtobuf.last]. lia.
Qed.

(** [adx_com_to_chain] hands on the whole request: when the pool grants its
    blocks the result is a chain of one buffer that holds the bytes of the
    request and nothing else, whatever the new block read as before; unpacking
    that buffer gives the copy of the request.  A request without any bytes
    gives NULL, as a failure does. *)
Theorem adx_com_to_chain_holds `{NgxEnv} (alloc : nat -> bool) (fresh : Z -> bytes) (flag : bool)
    (m : AdxChain.mem) (r : ngx_com_request_t) :
  good r -> lenz (enc r) < 2147483648 -> (forall k, alloc k = true) -> (forall n, 0 <= n -> lenz (fresh n) = n) ->
  0 <= base -> base + 6442450944 < 18446744073709551616 -> 0 < AdxChain.top m ->
  (enc r = [] -> exists m', adx_com_to_chain alloc fresh flag m r = Ok (0, m')) /\
  (enc r ≠ [] -> exists p q m', adx_com_to_chain alloc fresh flag m r = Ok (p, m') /\
     AdxChain.get_chain m' p = Ok (Chain q 0) /\ AdxChain.get_buf m' q = Ok (Buf (enc r) 0 (lenz (enc r)) 1 1) /\
     (known r -> (forall k n, 0 <= n < 4294967296 -> ao k n = true) -> exists c2,
        ngx_com_request__unpack (length (enc r)) request_zero (Ctx (enc r) 0 (lenz (enc r)) false true 0) =
        Ok (NGX_OK, norm r, c2))).
Proof.
  intros. destruct (to_chain_ok alloc fresh flag m r) as [Hnone Hsome]; try done. split; [exact Hnone|].
  intros Hne. destruct (Hsome Hne) as (p & q & m' & ? & _ & _ & ?). by exists p, q, m'.
Qed.

(** The request that [adx_com_init] gives. *)
Definition init_request : ngx_com_request_t :=
  mk_request (Fld false 0) (Fld false ngx_str_null) (Fld false None) (Fld true (Some device_zero)) (Fld true (Some app_zero)) None.

(** [adx_com_init] gives a request with a device and an application, and
    needs the block of the request itself: it dereferences NULL when the pool
    refuses it.  As long as the two are empty the wire does not keep them: the
    request is packed to four bytes and read back without device and
    application, whatever the space after it. *)
Theorem adx_com_init_spec `{NgxEnv} (alloc : nat -> bool) (k fuel : nat) (tl : bytes) :
  (alloc k = false -> adx_com_init alloc k = UB) /\
  (alloc k = true -> alloc (S k) = true -> alloc (S (S k)) = true -> adx_com_init alloc k = Ok init_request) /\
  (0 <= base -> base + 4294967300 < 18446744073709551616 -> (4 <= fuel)%nat ->
   (forall k n, 0 <= n < 4294967296 -> ao k n = true) ->
   exists c1 c2, ngx_com_request__pack init_request (Ctx ([0; 0; 0; 0] ++ tl) 0 4 false true 0) = Ok (NGX_OK, c1) /\
     NgxProtobuf.mem c1 = [34; 0; 42; 0] ++ tl /\
     ngx_com_request__unpack fuel request_zero (reader c1 0) = Ok (NGX_OK, request_zero, c2)).
Proof.
  split_and!.
  - intros Hk. unfold adx_com_init. by rewrite Hk.
  - intros Hk Hd Hap. unfold adx_com_init. by rewrite Hk, Hd, Hap.
  - intros Hb0 Hb1 Hf Hao. set (c := Ctx _ _ _ _ _ _).
    assert (good init_request) as Hg.
    { cbn. split_and!; try done; try (intros _ m [= <-]; split_and!); first [done|constructor]. }
    assert (known init_request) as Hk by (cbn; split_and!; try done; intros _ m [= <-]; done).
    assert (fits c 4) as Hfit by (unfold fits, room; subst c; cbn [NgxProtobuf.pos NgxProtobuf.mem NgxProtobuf.last];
      rewrite length_app; cbn [length]; lia).
    destruct (message_roundtrip init_request c fuel Hg Hk) as (c1 & c2 & Hp & _ & Hu); [done|done|exact Hfit| |done|].
    { subst c. cbn [NgxProtobuf.last]. lia. }
    exists c1, c2. split_and!; [exact Hp| |exact Hu].
    assert (Ok (NGX_OK, c1) = Ok (NGX_OK, put c [34; 0; 42; 0])) as [= ->].
    { rewrite <- Hp. by apply (request_pack init_request Hg). }
    done.
Qed.

(** ** Lengths that never end *)

(** Field 1 of a request with the wire type of a string and the length
    [2 ^ 64 - 11]. *)
Definition endless : bytes := varint 10 ++ varint 18446744073709551605.

(** One turn of the loop comes back to where it was. *)
Lemma endless_turn `{NgxEnv} n fuel (obj : ngx_com_request_t) reuse pl k :
  0 < base < 18446744073709551605 ->
  unpack_loop (request_switch n) (S fuel) obj (Ctx endless 0 11 reuse pl k) =
  unpack_loop (request_switch n) fuel obj (Ctx endless 0 11 reuse pl k).
Proof.
  intros Hb. set (c := Ctx _ _ _ _ _ _).
  assert (ahead c endless) as Ha by (split; [done|by exists []]).
  destruct (ahead_app c (varint 10) _ (NgxProtobuf.calls c) Ha) as [Ha1 Ha2].
  cbn [unpack_loop]. rewrite decide_False by (subst c; cbn; lia).
  rewrite (read_uint32_varint c (NgxProtobuf.last c) 10) by (done || lia).
  rewrite ok_bind, decide_False by (intros ?; congruence). change (length (varint 10)) with 1%nat in *.
  rewrite decide_False by (subst c; cbn; lia).
  change (Z.shiftr 10 3) with 1. change (Z.land 10 7) with 2. cbn [request_switch]. unfold unpack_u32, skip_case.
  rewrite decide_False by done.
  assert (lenz (varint 18446744073709551605) = 10) as E10 by done.
  rewrite (skip_back _ _ 18446744073709551605); rewrite ?E10;
    [|exact Ha2|done|lia|lia|subst c; cbn [adv NgxProtobuf.pos]; lia..].
  by rewrite ok_bind.
Qed.

(** C11: Eleven bytes keep [ngx_com_request__unpack] busy for ever: the number of
    field 1 sent as a string of length [2 ^ 64 - 11] is skipped, the sum
    [*buf + v] wraps around past the test against [end], and the position moves
    back to the start of the field.  No amount of fuel is enough, with or
    without a pool, and nothing is allocated on the way. *)
Theorem ngx_com_request_unpack_endless `{NgxEnv} (fuel : nat) (obj : ngx_com_request_t) (reuse pl : bool) (k : nat) :
  0 < base < 18446744073709551605 ->
  endless = [10; 245; 255; 255; 255; 255; 255; 255; 255; 255; 1] /\
  ngx_com_request__unpack fuel obj (Ctx endless 0 11 reuse pl k) = NoFuel.
Proof.
  intros Hb. split; [done|]. unfold ngx_com_request__unpack. generalize (request_switch fuel) (endless_turn fuel).
  intros step Hturn. induction fuel as [|fuel IH]; [done|]. rewrite Hturn by done. exact IH.
Qed.

(** ** Examples *)

Definition lit (s : string) : ngx_str_t := Str (Z.of_nat (String.length s)) (PBlock (B s)).

Definition slot1 : ngx_com_request_adx_slot_t :=
  mk_slot (Fld true (lit "slot")) (Fld true 1) (Fld true 1)
    (Fld true (Some (mk_banner (Fld true 320) (Fld true 50) None))) (Fld false None) (Fld false None) (Fld true (-5)) None.
Definition device1 : ngx_com_request_device_t :=
  mk_device (Fld true (Some [mk_did (Fld true (lit "868")) (Fld true 1) None; mk_did (Fld true (lit "")) (Fld true 7) None]))
    (Fld true 1) (Fld true 2) (Fld true (lit "9")) (Fld false 0) (Fld true 4) (Fld false ngx_str_null)
    (Fld false ngx_str_null) (Fld true (lit "ua")) (Fld true (lit "10.0.0.1")) None.
Definition request1 : ngx_com_request_t :=
  mk_request (Fld true 3) (Fld true (lit "bid")) (Fld true (Some [slot1; slot1])) (Fld true (Some device1)) (Fld false None) None.

(** Strings of their own block are good. *)
Ltac good_example :=
  repeat (cbn; first [ done | match goal with
    | |- _ /\ _ => split
    | |- unknowns_good _ => constructor
    | |- fld_good _ _ => intros _
    | |- member_good _ _ => intros _ ? [= <-]
    | |- elements_good _ _ => intros _
    | |- member_known _ => intros _ ? [= <-]
    | |- elements_known _ => intros _
    | |- Forall _ _ => constructor
    end ]).

(** What is read back is the same. *)
Lemma request1_good : @good env0 _ _ request1 /\ @known env0 _ _ request1 /\ @norm env0 _ _ request1 = request1.
Proof. split_and!; [good_example|good_example|vm_compute; reflexivity]. Qed.

Lemma ngx_com_request_roundtrip_witness :
  exists c1 c2, @ngx_com_request__pack env0 request1 (ctx0 (replicate 100 0)) = Ok (NGX_OK, c1) /\
    NgxProtobuf.pos c1 = 0 + ngx_com_request__size request1 /\
    @ngx_com_request__unpack env0 100 request_zero (reader c1 0) = Ok (NGX_OK, @norm env0 _ _ request1, c2).
Proof.
  refine (proj1 (@ngx_com_request_roundtrip env0 request1 (ctx0 (replicate 100 0)) 100 _ _ _ _ _ _ _));
    [apply request1_good|apply request1_good|vm_compute; done|done|vm_compute; repeat split; discriminate|vm_compute; done|].
  apply Nat.leb_le. vm_compute. reflexivity.
Defined.

Definition response1 : ngx_com_response_t :=
  mk_response (Fld true (lit "bid")) (Fld true (Some [mk_rslot (Fld true (lit "slot")) (Fld true 1) (Fld true 1) (Fld true 250)
    (Fld true (lit "<div>")) (Fld false ngx_str_null) None])) None.

Lemma response1_good : @good env0 _ _ response1 /\ @known env0 _ _ response1 /\ @norm env0 _ _ response1 = response1.
Proof.
  split_and!; [good_example|good_example|vm_compute; reflexivity].
Qed.

Lemma ngx_com_response_roundtrip_witness :
  exists c1 c2, @ngx_com_response__pack env0 response1 (ctx0 (replicate 40 0)) = Ok (NGX_OK, c1) /\
    NgxProtobuf.pos c1 = 0 + ngx_com_response__size response1 /\
    @ngx_com_response__unpack env0 40 response_zero (reader c1 0) = Ok (NGX_OK, @norm env0 _ _ response1, c2).
Proof.
  refine (@ngx_com_response_roundtrip env0 response1 (ctx0 (replicate 40 0)) 40 _ _ _ _ _ _ _);
    [apply response1_good|apply response1_good|vm_compute; done|done|vm_compute; repeat split; discriminate|vm_compute; done|].
  apply Nat.leb_le. vm_compute. reflexivity.
Defined.

Lemma ngx_com_request_pack_within_witness :
  @ngx_com_request__pack env0 request1 (ctx0 (replicate 100 0)) = Ok (NGX_OK, put (ctx0 (replicate 100 0)) (@enc env0 _ _ request1)) /\
  @ngx_com_request__pack env0 request1 (ctx0 [1; 2; 3]) = Ok (NGX_ABORT, ctx0 [1; 2; 3]).
Proof.
  split.
  - refine (proj1 (proj2 (@ngx_com_request_pack_within env0 request1 (ctx0 (replicate 100 0)) _ _ _ _ _ _ _)) _);
      first [apply request1_good|vm_compute; done|vm_compute; discriminate].
  - refine (proj2 (proj2 (@ngx_com_request_pack_within env0 request1 (ctx0 [1; 2; 3]) _ _ _ _ _ _ _)) _);
      first [apply request1_good|vm_compute; done|vm_compute; discriminate].
Defined.

Lemma adx_com_to_chain_holds_witness :
  exists p q m', @adx_com_to_chain (fun _ => true) (fun n => replicate (Z.to_nat n) 7) true env0 (AdxChain.Mem ∅ ∅ 0 1) request1 = Ok (p, m') /\
    AdxChain.get_chain m' p = Ok (Chain q 0) /\
    AdxChain.get_buf m' q = Ok (Buf (@enc env0 _ _ request1) 0 (lenz (@enc env0 _ _ request1)) 1 1) /\
    (@known env0 _ _ request1 -> (forall k n, 0 <= n < 4294967296 -> @ao env0 k n = true) -> exists c2,
      @ngx_com_request__unpack env0 (length (@enc env0 _ _ request1)) request_zero
        (Ctx (@enc env0 _ _ request1) 0 (lenz (@enc env0 _ _ request1)) false true 0) =
      Ok (NGX_OK, @norm env0 _ _ request1, c2)).
Proof.
  refine (proj2 (@adx_com_to_chain_holds env0 (fun _ => true) (fun n => replicate (Z.to_nat n) 7) true
    (AdxChain.Mem ∅ ∅ 0 1) request1 _ _ _ _ _ _ _) _).
  - apply request1_good.
  - vm_compute. done.
  - done.
  - intros n Hn. rewrite length_replicate. lia.
  - vm_compute. discriminate.
  - vm_compute. done.
  - vm_compute. done.
  - vm_compute. discriminate.
Defined.

Lemma adx_com_init_spec_witness :
  exists c1 c2, @ngx_com_request__pack env0 init_request (Ctx ([0; 0; 0; 0] ++ []) 0 4 false true 0) = Ok (NGX_OK, c1) /\
    NgxProtobuf.mem c1 = [34; 0; 42; 0] ++ [] /\
    @ngx_com_request__unpack env0 4 request_zero (reader c1 0) = Ok (NGX_OK, request_zero, c2).
Proof.
  refine (proj2 (proj2 (@adx_com_init_spec env0 (fun _ => true) 0 4 [])) _ _ _ _); [vm_compute; discriminate|vm_compute; done|lia|done].
Defined.

Lemma ngx_com_request_unpack_endless_witness :
  endless = [10; 245; 255; 255; 255; 255; 255; 255; 255; 255; 1] /\
  @ngx_com_request__unpack env0 50 request_zero (Ctx endless 0 11 false true 0) = NoFuel.
Proof. refine (@ngx_com_request_unpack_endless env0 50 request_zero false true 0 _). vm_compute. done. Defined.
