(* ===== verification/NgxBaiduProto.v ===== *)
(** The messages of baidu.proto as adx_module/adx_com_baidu/ngx_baidu_proto.h
    and ngx_baidu_proto.c hold, unpack, measure and pack them: the request with
    every message inside it, and three messages of the response.  Every
    definition is the C function of its name, in the order of the source; the
    code of a field is the function of NgxProtobufMsg.v or NgxProtobufScalar.v
    for its type.  A size adds the fields in the order of the declaration, the
    packing function writes them in the order of their numbers.  The fuel
    bounds the turns of each loop over the fields of a message and over packed
    values. *)

From Stdlib Require Import ZArith.
From S2P Require Import Prelude NgxProtobuf NgxProtobufMsg NgxProtobufScalar.

Open Scope Z_scope.

(** ** BidRequest.BaiduId *)

Record ngx_bid_request_baidu_id_t := mk_baidu_id { baidu_id_baidu_user_id : fld ngx_str_t;
    baidu_id_baidu_user_id_version : fld Z; baidu_id_unknown : array ngx_protobuf_unknown_field_t }.

(** What [ngx_bid_request_baidu_id__alloc] and [__clear] give. *)
Definition baidu_id_zero : ngx_bid_request_baidu_id_t := mk_baidu_id (Fld false ngx_str_null) (Fld false 0) None.

Definition with_baidu_id_baidu_user_id '(mk_baidu_id _ a2 a3) x :=
  mk_baidu_id x a2 a3.
Definition with_baidu_id_baidu_user_id_version '(mk_baidu_id a1 _ a3) x :=
  mk_baidu_id a1 x a3.
Definition with_baidu_id_unknown '(mk_baidu_id a1 a2 _) x :=
  mk_baidu_id a1 a2 x.

Section Env.
Context `{NgxEnv}.

Definition baidu_id_switch (field wire : Z) (obj : ngx_bid_request_baidu_id_t) (c : ngx_protobuf_context_t)
  : result ngx_bid_request_baidu_id_t :=
  match field with
  | 1 => unpack_str baidu_id_baidu_user_id with_baidu_id_baidu_user_id wire obj c
  | 2 => unpack_u32 i32 with_baidu_id_baidu_user_id_version wire obj c
  | _ => unpack_unknown baidu_id_unknown with_baidu_id_unknown field wire obj c
  end.

Definition ngx_bid_request_baidu_id__unpack (fuel : nat) := unpack_loop baidu_id_switch fuel.

Definition ngx_bid_request_baidu_id__size (obj : ngx_bid_request_baidu_id_t) : Z :=
  let size := 0 in
  let size := u64 (size + size_str (baidu_id_baidu_user_id obj) 1) in
  let size := u64 (size + size_u32 (baidu_id_baidu_user_id_version obj) 2) in
  size_unknowns (baidu_id_unknown obj) size.

Definition ngx_bid_request_baidu_id__pack (obj : ngx_bid_request_baidu_id_t) (c : ngx_protobuf_context_t)
  : cres (ngx_rc * ngx_protobuf_context_t) :=
  pack_guard (ngx_bid_request_baidu_id__size obj) c (fun c =>
    c ← pack_str (baidu_id_baidu_user_id obj) 1 c;
    c ← pack_u32 (baidu_id_baidu_user_id_version obj) 2 c;
    pack_unknowns (elts (baidu_id_unknown obj)) c).
End Env.

(** ** BidRequest.CustomizedUserTag.AmsTag *)

Record ngx_bid_request_customized_user_tag_ams_tag_t := mk_ams_tag { ams_tag_tag_id : fld Z;
    ams_tag_unknown : array ngx_protobuf_unknown_field_t }.

(** What [ngx_bid_request_customized_user_tag_ams_tag__alloc] and [__clear] give. *)
Definition ams_tag_zero : ngx_bid_request_customized_user_tag_ams_tag_t := mk_ams_tag (Fld false 0) None.

Definition with_ams_tag_tag_id '(mk_ams_tag _ a2) x :=
  mk_ams_tag x a2.
Definition with_ams_tag_unknown '(mk_ams_tag a1 _) x :=
  mk_ams_tag a1 x.

Section Env.
Context `{NgxEnv}.

Definition ams_tag_switch (field wire : Z) (obj : ngx_bid_request_customized_user_tag_ams_tag_t) (c : ngx_protobuf_context_t)
  : result ngx_bid_request_customized_user_tag_ams_tag_t :=
  match field with
  | 1 => unpack_u64 id with_ams_tag_tag_id wire obj c
  | _ => unpack_unknown ams_tag_unknown with_ams_tag_unknown field wire obj c
  end.

Definition ngx_bid_request_customized_user_tag_ams_tag__unpack (fuel : nat) := unpack_loop ams_tag_switch fuel.

Definition ngx_bid_request_customized_user_tag_ams_tag__size (obj : ngx_bid_request_customized_user_tag_ams_tag_t) : Z :=
  let size := 0 in
  let size := u64 (size + size_u64 (ams_tag_tag_id obj) 1) in
  size_unknowns (ams_tag_unknown obj) size.

Definition ngx_bid_request_customized_user_tag_ams_tag__pack (obj : ngx_bid_request_customized_user_tag_ams_tag_t) (c : ngx_protobuf_context_t)
  : cres (ngx_rc * ngx_protobuf_context_t) :=
  pack_guard (ngx_bid_request_customized_user_tag_ams_tag__size obj) c (fun c =>
    c ← pack_u64 (ams_tag_tag_id obj) 1 c;
    pack_unknowns (elts (ams_tag_unknown obj)) c).
End Env.

(** ** BidRequest.CustomizedUserTag *)

Record ngx_bid_request_customized_user_tag_t := mk_user_tag {
    user_tag_ams_tag_list : fld (array ngx_bid_request_customized_user_tag_ams_tag_t);
    user_tag_unknown : array ngx_protobuf_unknown_field_t }.

(** What [ngx_bid_request_customized_user_tag__alloc] and [__clear] give. *)
Definition user_tag_zero : ngx_bid_request_customized_user_tag_t := mk_user_tag (Fld false None) None.

Definition with_user_tag_ams_tag_list '(mk_user_tag _ a2) x :=
  mk_user_tag x a2.
Definition with_user_tag_unknown '(mk_user_tag a1 _) x :=
  mk_user_tag a1 x.

Section Env.
Context `{NgxEnv}.

Definition ngx_bid_request_customized_user_tag__add__ams_tag_list (obj : ngx_bid_request_customized_user_tag_t) (pl : bool) (c : ngx_protobuf_context_t) :=
  add_element ams_tag_zero user_tag_ams_tag_list with_user_tag_ams_tag_list obj pl c.

Definition ngx_bid_request_customized_user_tag__unpack_ams_tag_list (fuel : nat) :=
  unpack_element ams_tag_zero (ngx_bid_request_customized_user_tag_ams_tag__unpack fuel) user_tag_ams_tag_list with_user_tag_ams_tag_list.

Definition user_tag_switch (fuel : nat) (field wire : Z) (obj : ngx_bid_request_customized_user_tag_t) (c : ngx_protobuf_context_t)
  : result ngx_bid_request_customized_user_tag_t :=
  match field with
  | 1 => unpack_msg (ngx_bid_request_customized_user_tag__unpack_ams_tag_list fuel) wire obj c
  | _ => unpack_unknown user_tag_unknown with_user_tag_unknown field wire obj c
  end.

Definition ngx_bid_request_customized_user_tag__unpack (fuel : nat) := unpack_loop (user_tag_switch fuel) fuel.

Definition ngx_bid_request_customized_user_tag__size (obj : ngx_bid_request_customized_user_tag_t) : Z :=
  let size := 0 in
  let size := size_elements ngx_bid_request_customized_user_tag_ams_tag__size (user_tag_ams_tag_list obj) 1 size in
  size_unknowns (user_tag_unknown obj) size.

Definition ngx_bid_request_customized_user_tag__pack (obj : ngx_bid_request_customized_user_tag_t) (c : ngx_protobuf_context_t)
  : cres (ngx_rc * ngx_protobuf_context_t) :=
  pack_guard (ngx_bid_request_customized_user_tag__size obj) c (fun c =>
    c ← pack_elements ngx_bid_request_customized_user_tag_ams_tag__size ngx_bid_request_customized_user_tag_ams_tag__pack
           (user_tag_ams_tag_list obj) 1 c;
    pack_unknowns (elts (user_tag_unknown obj)) c).
End Env.

(** ** BidRequest.Geo.Coordinate *)

Record ngx_bid_request_geo_coordinate_t := mk_coordinate { coordinate_standard : fld Z; coordinate_latitude : fld Z;
    coordinate_longitude : fld Z; coordinate_unknown : array ngx_protobuf_unknown_field_t }.

(** What [ngx_bid_request_geo_coordinate__alloc] and [__clear] give. *)
Definition coordinate_zero : ngx_bid_request_geo_coordinate_t := mk_coordinate (Fld false 0) (Fld false 0)
    (Fld false 0) None.

Definition with_coordinate_standard '(mk_coordinate _ a2 a3 a4) x :=
  mk_coordinate x a2 a3 a4.
Definition with_coordinate_latitude '(mk_coordinate a1 _ a3 a4) x :=
  mk_coordinate a1 x a3 a4.
Definition with_coordinate_longitude '(mk_coordinate a1 a2 _ a4) x :=
  mk_coordinate a1 a2 x a4.
Definition with_coordinate_unknown '(mk_coordinate a1 a2 a3 _) x :=
  mk_coordinate a1 a2 a3 x.

Section Env.
Context `{NgxEnv}.

Definition coordinate_switch (field wire : Z) (obj : ngx_bid_request_geo_coordinate_t) (c : ngx_protobuf_context_t)
  : result ngx_bid_request_geo_coordinate_t :=
  match field with
  | 1 => unpack_u32 id with_coordinate_standard wire obj c
  | 2 => unpack_float coordinate_latitude with_coordinate_latitude wire obj c
  | 3 => unpack_float coordinate_longitude with_coordinate_longitude wire obj c
  | _ => unpack_unknown coordinate_unknown with_coordinate_unknown field wire obj c
  end.

Definition ngx_bid_request_geo_coordinate__unpack (fuel : nat) := unpack_loop coordinate_switch fuel.

Definition ngx_bid_request_geo_coordinate__size (obj : ngx_bid_request_geo_coordinate_t) : Z :=
  let size := 0 in
  let size := u64 (size + size_u32 (coordinate_standard obj) 1) in
  let size := u64 (size + size_float (coordinate_latitude obj) 2) in
  let size := u64 (size + size_float (coordinate_longitude obj) 3) in
  size_unknowns (coordinate_unknown obj) size.

Definition ngx_bid_request_geo_coordinate__pack (obj : ngx_bid_request_geo_coordinate_t) (c : ngx_protobuf_context_t)
  : cres (ngx_rc * ngx_protobuf_context_t) :=
  pack_guard (ngx_bid_request_geo_coordinate__size obj) c (fun c =>
    c ← pack_u32 (coordinate_standard obj) 1 c;
    c ← pack_float (coordinate_latitude obj) 2 c;
    c ← pack_float (coordinate_longitude obj) 3 c;
    pack_unknowns (elts (coordinate_unknown obj)) c).
End Env.

(** ** BidRequest.Geo.UserLocation *)

Record ngx_bid_request_geo_user_location_t := mk_location { location_province : fld ngx_str_t;
    location_city : fld ngx_str_t; location_district : fld ngx_str_t; location_street : fld ngx_str_t;
    location_unknown : array ngx_protobuf_unknown_field_t }.

(** What [ngx_bid_request_geo_user_location__alloc] and [__clear] give. *)
Definition location_zero : ngx_bid_request_geo_user_location_t := mk_location (Fld false ngx_str_null)
    (Fld false ngx_str_null) (Fld false ngx_str_null) (Fld false ngx_str_null) None.

Definition with_location_province '(mk_location _ a2 a3 a4 a5) x :=
  mk_location x a2 a3 a4 a5.
Definition with_location_city '(mk_location a1 _ a3 a4 a5) x :=
  mk_location a1 x a3 a4 a5.
Definition with_location_district '(mk_location a1 a2 _ a4 a5) x :=
  mk_location a1 a2 x a4 a5.
Definition with_location_street '(mk_location a1 a2 a3 _ a5) x :=
  mk_location a1 a2 a3 x a5.
Definition with_location_unknown '(mk_location a1 a2 a3 a4 _) x :=
  mk_location a1 a2 a3 a4 x.

Section Env.
Context `{NgxEnv}.

Definition location_switch (field wire : Z) (obj : ngx_bid_request_geo_user_location_t) (c : ngx_protobuf_context_t)
  : result ngx_bid_request_geo_user_location_t :=
  match field with
  | 1 => unpack_str location_province with_location_province wire obj c
  | 2 => unpack_str location_city with_location_city wire obj c
  | 3 => unpack_str location_district with_location_district wire obj c
  | 4 => unpack_str location_street with_location_street wire obj c
  | _ => unpack_unknown location_unknown with_location_unknown field wire obj c
  end.

Definition ngx_bid_request_geo_user_location__unpack (fuel : nat) := unpack_loop location_switch fuel.

Definition ngx_bid_request_geo_user_location__size (obj : ngx_bid_request_geo_user_location_t) : Z :=
  let size := 0 in
  let size := u64 (size + size_str (location_province obj) 1) in
  let size := u64 (size + size_str (location_city obj) 2) in
  let size := u64 (size + size_str (location_district obj) 3) in
  let size := u64 (size + size_str (location_street obj) 4) in
  size_unknowns (location_unknown obj) size.

Definition ngx_bid_request_geo_user_location__pack (obj : ngx_bid_request_geo_user_location_t) (c : ngx_protobuf_context_t)
  : cres (ngx_rc * ngx_protobuf_context_t) :=
  pack_guard (ngx_bid_request_geo_user_location__size obj) c (fun c =>
    c ← pack_str (location_province obj) 1 c;
    c ← pack_str (location_city obj) 2 c;
    c ← pack_str (location_district obj) 3 c;
    c ← pack_str (location_street obj) 4 c;
    pack_unknowns (elts (location_unknown obj)) c).
End Env.

(** ** BidRequest.Geo *)

Record ngx_bid_request_geo_t := mk_geo { geo_user_coordinate : fld (array ngx_bid_request_geo_coordinate_t);
    geo_user_location : fld (option ngx_bid_request_geo_user_location_t);
    geo_unknown : array ngx_protobuf_unknown_field_t }.

(** What [ngx_bid_request_geo__alloc] and [__clear] give. *)
Definition geo_zero : ngx_bid_request_geo_t := mk_geo (Fld false None) (Fld false None) None.

Definition with_geo_user_coordinate '(mk_geo _ a2 a3) x :=
  mk_geo x a2 a3.
Definition with_geo_user_location '(mk_geo a1 _ a3) x :=
  mk_geo a1 x a3.
Definition with_geo_unknown '(mk_geo a1 a2 _) x :=
  mk_geo a1 a2 x.

Section Env.
Context `{NgxEnv}.

Definition ngx_bid_request_geo__add__user_coordinate (obj : ngx_bid_request_geo_t) (pl : bool) (c : ngx_protobuf_context_t) :=
  add_element coordinate_zero geo_user_coordinate with_geo_user_coordinate obj pl c.

Definition ngx_bid_request_geo__unpack_user_coordinate (fuel : nat) :=
  unpack_element coordinate_zero (ngx_bid_request_geo_coordinate__unpack fuel) geo_user_coordinate with_geo_user_coordinate.
Definition ngx_bid_request_geo__unpack_user_location (fuel : nat) :=
  unpack_member location_zero (ngx_bid_request_geo_user_location__unpack fuel) geo_user_location with_geo_user_location.

Definition geo_switch (fuel : nat) (field wire : Z) (obj : ngx_bid_request_geo_t) (c : ngx_protobuf_context_t)
  : result ngx_bid_request_geo_t :=
  match field with
  | 1 => unpack_msg (ngx_bid_request_geo__unpack_user_coordinate fuel) wire obj c
  | 2 => unpack_msg (ngx_bid_request_geo__unpack_user_location fuel) wire obj c
  | _ => unpack_unknown geo_unknown with_geo_unknown field wire obj c
  end.

Definition ngx_bid_request_geo__unpack (fuel : nat) := unpack_loop (geo_switch fuel) fuel.

Definition ngx_bid_request_geo__size (obj : ngx_bid_request_geo_t) : Z :=
  let size := 0 in
  let size := size_elements ngx_bid_request_geo_coordinate__size (geo_user_coordinate obj) 1 size in
  let size := u64 (size + size_member ngx_bid_request_geo_user_location__size (geo_user_location obj) 2) in
  size_unknowns (geo_unknown obj) size.

Definition ngx_bid_request_geo__pack (obj : ngx_bid_request_geo_t) (c : ngx_protobuf_context_t)
  : cres (ngx_rc * ngx_protobuf_context_t) :=
  pack_guard (ngx_bid_request_geo__size obj) c (fun c =>
    c ← pack_elements ngx_bid_request_geo_coordinate__size ngx_bid_request_geo_coordinate__pack
           (geo_user_coordinate obj) 1 c;
    c ← pack_member ngx_bid_request_geo_user_location__size ngx_bid_request_geo_user_location__pack
           (geo_user_location obj) 2 c;
    pack_unknowns (elts (geo_unknown obj)) c).
End Env.

(** ** BidRequest.Mobile.MobileID *)

Record ngx_bid_request_mobile_mobile_id_t := mk_mid { mid_type : fld Z; mid_id : fld ngx_str_t;
    mid_unknown : array ngx_protobuf_unknown_field_t }.

(** What [ngx_bid_request_mobile_mobile_id__alloc] and [__clear] give. *)
Definition mid_zero : ngx_bid_request_mobile_mobile_id_t := mk_mid (Fld false 0) (Fld false ngx_str_null) None.

Definition with_mid_type '(mk_mid _ a2 a3) x :=
  mk_mid x a2 a3.
Definition with_mid_id '(mk_mid a1 _ a3) x :=
  mk_mid a1 x a3.
Definition with_mid_unknown '(mk_mid a1 a2 _) x :=
  mk_mid a1 a2 x.

Section Env.
Context `{NgxEnv}.

Definition mid_switch (field wire : Z) (obj : ngx_bid_request_mobile_mobile_id_t) (c : ngx_protobuf_context_t)
  : result ngx_bid_request_mobile_mobile_id_t :=
  match field with
  | 1 => unpack_u32 id with_mid_type wire obj c
  | 2 => unpack_str mid_id with_mid_id wire obj c
  | _ => unpack_unknown mid_unknown with_mid_unknown field wire obj c
  end.

Definition ngx_bid_request_mobile_mobile_id__unpack (fuel : nat) := unpack_loop mid_switch fuel.

Definition ngx_bid_request_mobile_mobile_id__size (obj : ngx_bid_request_mobile_mobile_id_t) : Z :=
  let size := 0 in
  let size := u64 (size + size_u32 (mid_type obj) 1) in
  let size := u64 (size + size_str (mid_id obj) 2) in
  size_unknowns (mid_unknown obj) size.

Definition ngx_bid_request_mobile_mobile_id__pack (obj : ngx_bid_request_mobile_mobile_id_t) (c : ngx_protobuf_context_t)
  : cres (ngx_rc * ngx_protobuf_context_t) :=
  pack_guard (ngx_bid_request_mobile_mobile_id__size obj) c (fun c =>
    c ← pack_u32 (mid_type obj) 1 c;
    c ← pack_str (mid_id obj) 2 c;
    pack_unknowns (elts (mid_unknown obj)) c).
End Env.

(** ** BidRequest.Mobile.DeviceOsVersion *)

Record ngx_bid_request_mobile_device_os_version_t := mk_osv { osv_os_version_major : fld Z;
    osv_os_version_minor : fld Z; osv_os_version_micro : fld Z; osv_unknown : array ngx_protobuf_unknown_field_t }.

(** What [ngx_bid_request_mobile_device_os_version__alloc] and [__clear] give. *)
Definition osv_zero : ngx_bid_request_mobile_device_os_version_t := mk_osv (Fld false 0) (Fld false 0) (Fld false 0)
    None.

Definition with_osv_os_version_major '(mk_osv _ a2 a3 a4) x :=
  mk_osv x a2 a3 a4.
Definition with_osv_os_version_minor '(mk_osv a1 _ a3 a4) x :=
  mk_osv a1 x a3 a4.
Definition with_osv_os_version_micro '(mk_osv a1 a2 _ a4) x :=
  mk_osv a1 a2 x a4.
Definition with_osv_unknown '(mk_osv a1 a2 a3 _) x :=
  mk_osv a1 a2 a3 x.

Section Env.
Context `{NgxEnv}.

Definition osv_switch (field wire : Z) (obj : ngx_bid_request_mobile_device_os_version_t) (c : ngx_protobuf_context_t)
  : result ngx_bid_request_mobile_device_os_version_t :=
  match field with
  | 1 => unpack_u32 i32 with_osv_os_version_major wire obj c
  | 2 => unpack_u32 i32 with_osv_os_version_minor wire obj c
  | 3 => unpack_u32 i32 with_osv_os_version_micro wire obj c
  | _ => unpack_unknown osv_unknown with_osv_unknown field wire obj c
  end.

Definition ngx_bid_request_mobile_device_os_version__unpack (fuel : nat) := unpack_loop osv_switch fuel.

Definition ngx_bid_request_mobile_device_os_version__size (obj : ngx_bid_request_mobile_device_os_version_t) : Z :=
  let size := 0 in
  let size := u64 (size + size_u32 (osv_os_version_major obj) 1) in
  let size := u64 (size + size_u32 (osv_os_version_minor obj) 2) in
  let size := u64 (size + size_u32 (osv_os_version_micro obj) 3) in
  size_unknowns (osv_unknown obj) size.

Definition ngx_bid_request_mobile_device_os_version__pack (obj : ngx_bid_request_mobile_device_os_version_t) (c : ngx_protobuf_context_t)
  : cres (ngx_rc * ngx_protobuf_context_t) :=
  pack_guard (ngx_bid_request_mobile_device_os_version__size obj) c (fun c =>
    c ← pack_u32 (osv_os_version_major obj) 1 c;
    c ← pack_u32 (osv_os_version_minor obj) 2 c;
    c ← pack_u32 (osv_os_version_micro obj) 3 c;
    pack_unknowns (elts (osv_unknown obj)) c).
End Env.

(** ** BidRequest.Mobile.ForAdvertisingID *)

Record ngx_bid_request_mobile_for_advertising_id_t := mk_faid { faid_type : fld Z; faid_id : fld ngx_str_t;
    faid_unknown : array ngx_protobuf_unknown_field_t }.

(** What [ngx_bid_request_mobile_for_advertising_id__alloc] and [__clear] give. *)
Definition faid_zero : ngx_bid_request_mobile_for_advertising_id_t := mk_faid (Fld false 0) (Fld false ngx_str_null)
    None.

Definition with_faid_type '(mk_faid _ a2 a3) x :=
  mk_faid x a2 a3.
Definition with_faid_id '(mk_faid a1 _ a3) x :=
  mk_faid a1 x a3.
Definition with_faid_unknown '(mk_faid a1 a2 _) x :=
  mk_faid a1 a2 x.

Section Env.
Context `{NgxEnv}.

Definition faid_switch (field wire : Z) (obj : ngx_bid_request_mobile_for_advertising_id_t) (c : ngx_protobuf_context_t)
  : result ngx_bid_request_mobile_for_advertising_id_t :=
  match field with
  | 1 => unpack_u32 id with_faid_type wire obj c
  | 2 => unpack_str faid_id with_faid_id wire obj c
  | _ => unpack_unknown faid_unknown with_faid_unknown field wire obj c
  end.

Definition ngx_bid_request_mobile_for_advertising_id__unpack (fuel : nat) := unpack_loop faid_switch fuel.

Definition ngx_bid_request_mobile_for_advertising_id__size (obj : ngx_bid_request_mobile_for_advertising_id_t) : Z :=
  let size := 0 in
  let size := u64 (size + size_u32 (faid_type obj) 1) in
  let size := u64 (size + size_str (faid_id obj) 2) in
  size_unknowns (faid_unknown obj) size.

Definition ngx_bid_request_mobile_for_advertising_id__pack (obj : ngx_bid_request_mobile_for_advertising_id_t) (c : ngx_protobuf_context_t)
  : cres (ngx_rc * ngx_protobuf_context_t) :=
  pack_guard (ngx_bid_request_mobile_for_advertising_id__size obj) c (fun c =>
    c ← pack_u32 (faid_type obj) 1 c;
    c ← pack_str (faid_id obj) 2 c;
    pack_unknowns (elts (faid_unknown obj)) c).
End Env.

(** ** BidRequest.Mobile.MobileApp *)

Record ngx_bid_request_mobile_mobile_app_t := mk_mapp { mapp_app_id : fld ngx_str_t;
    mapp_app_bundle_id : fld ngx_str_t; mapp_app_category : fld Z; mapp_app_publisher_id : fld Z;
    mapp_app_interaction_type : fld (array Z); mapp_unknown : array ngx_protobuf_unknown_field_t }.

(** What [ngx_bid_request_mobile_mobile_app__alloc] and [__clear] give. *)
Definition mapp_zero : ngx_bid_request_mobile_mobile_app_t := mk_mapp (Fld false ngx_str_null)
    (Fld false ngx_str_null) (Fld false 0) (Fld false 0) (Fld false None) None.

Definition with_mapp_app_id '(mk_mapp _ a2 a3 a4 a5 a6) x :=
  mk_mapp x a2 a3 a4 a5 a6.
Definition with_mapp_app_bundle_id '(mk_mapp a1 _ a3 a4 a5 a6) x :=
  mk_mapp a1 x a3 a4 a5 a6.
Definition with_mapp_app_category '(mk_mapp a1 a2 _ a4 a5 a6) x :=
  mk_mapp a1 a2 x a4 a5 a6.
Definition with_mapp_app_publisher_id '(mk_mapp a1 a2 a3 _ a5 a6) x :=
  mk_mapp a1 a2 a3 x a5 a6.
Definition with_mapp_app_interaction_type '(mk_mapp a1 a2 a3 a4 _ a6) x :=
  mk_mapp a1 a2 a3 a4 x a6.
Definition with_mapp_unknown '(mk_mapp a1 a2 a3 a4 a5 _) x :=
  mk_mapp a1 a2 a3 a4 a5 x.

Section Env.
Context `{NgxEnv}.

Definition ngx_bid_request_mobile_mobile_app__add__app_interaction_type (obj : ngx_bid_request_mobile_mobile_app_t) (pl : bool) (c : ngx_protobuf_context_t) :=
  add_element 0 mapp_app_interaction_type with_mapp_app_interaction_type obj pl c.

Definition mapp_switch (field wire : Z) (obj : ngx_bid_request_mobile_mobile_app_t) (c : ngx_protobuf_context_t)
  : result ngx_bid_request_mobile_mobile_app_t :=
  match field with
  | 1 => unpack_str mapp_app_id with_mapp_app_id wire obj c
  | 2 => unpack_str mapp_app_bundle_id with_mapp_app_bundle_id wire obj c
  | 3 => unpack_u32 i32 with_mapp_app_category wire obj c
  | 4 => unpack_u32 i32 with_mapp_app_publisher_id wire obj c
  | 5 => unpack_u32s id mapp_app_interaction_type with_mapp_app_interaction_type wire obj c
  | _ => unpack_unknown mapp_unknown with_mapp_unknown field wire obj c
  end.

Definition ngx_bid_request_mobile_mobile_app__unpack (fuel : nat) := unpack_loop mapp_switch fuel.

Definition ngx_bid_request_mobile_mobile_app__size (obj : ngx_bid_request_mobile_mobile_app_t) : Z :=
  let size := 0 in
  let size := u64 (size + size_str (mapp_app_id obj) 1) in
  let size := u64 (size + size_str (mapp_app_bundle_id obj) 2) in
  let size := u64 (size + size_u32 (mapp_app_category obj) 3) in
  let size := u64 (size + size_u32 (mapp_app_publisher_id obj) 4) in
  let size := size_u32s (mapp_app_interaction_type obj) 5 size in
  size_unknowns (mapp_unknown obj) size.

Definition ngx_bid_request_mobile_mobile_app__pack (obj : ngx_bid_request_mobile_mobile_app_t) (c : ngx_protobuf_context_t)
  : cres (ngx_rc * ngx_protobuf_context_t) :=
  pack_guard (ngx_bid_request_mobile_mobile_app__size obj) c (fun c =>
    c ← pack_str (mapp_app_id obj) 1 c;
    c ← pack_str (mapp_app_bundle_id obj) 2 c;
    c ← pack_u32 (mapp_app_category obj) 3 c;
    c ← pack_u32 (mapp_app_publisher_id obj) 4 c;
    c ← pack_u32s (mapp_app_interaction_type obj) 5 c;
    pack_unknowns (elts (mapp_unknown obj)) c).
End Env.

(** ** BidRequest.Mobile *)

Record ngx_bid_request_mobile_t := mk_mobile { mobile_DEPRECATED_device_id : fld ngx_str_t;
    mobile_id : fld (array ngx_bid_request_mobile_mobile_id_t); mobile_device_type : fld Z; mobile_platform : fld Z;
    mobile_os_version : fld (option ngx_bid_request_mobile_device_os_version_t); mobile_brand : fld ngx_str_t;
    mobile_model : fld ngx_str_t; mobile_screen_width : fld Z; mobile_screen_height : fld Z;
    mobile_screen_density : fld Z; mobile_carrier_id : fld Z; mobile_wireless_network_type : fld Z;
    mobile_DEPRECATED_for_advertising_id : fld ngx_str_t;
    mobile_for_advertising_id : fld (array ngx_bid_request_mobile_for_advertising_id_t);
    mobile_mobile_app : fld (option ngx_bid_request_mobile_mobile_app_t);
    mobile_unknown : array ngx_protobuf_unknown_field_t }.

(** What [ngx_bid_request_mobile__alloc] and [__clear] give. *)
Definition mobile_zero : ngx_bid_request_mobile_t := mk_mobile (Fld false ngx_str_null) (Fld false None)
    (Fld false 0) (Fld false 0) (Fld false None) (Fld false ngx_str_null) (Fld false ngx_str_null) (Fld false 0)
    (Fld false 0) (Fld false 0) (Fld false 0) (Fld false 0) (Fld false ngx_str_null) (Fld false None)
    (Fld false None) None.

Definition with_mobile_DEPRECATED_device_id '(mk_mobile _ a2 a3 a4 a5 a6 a7 a8 a9 a10 a11 a12 a13 a14 a15 a16) x :=
  mk_mobile x a2 a3 a4 a5 a6 a7 a8 a9 a10 a11 a12 a13 a14 a15 a16.
Definition with_mobile_id '(mk_mobile a1 _ a3 a4 a5 a6 a7 a8 a9 a10 a11 a12 a13 a14 a15 a16) x :=
  mk_mobile a1 x a3 a4 a5 a6 a7 a8 a9 a10 a11 a12 a13 a14 a15 a16.
Definition with_mobile_device_type '(mk_mobile a1 a2 _ a4 a5 a6 a7 a8 a9 a10 a11 a12 a13 a14 a15 a16) x :=
  mk_mobile a1 a2 x a4 a5 a6 a7 a8 a9 a10 a11 a12 a13 a14 a15 a16.
Definition with_mobile_platform '(mk_mobile a1 a2 a3 _ a5 a6 a7 a8 a9 a10 a11 a12 a13 a14 a15 a16) x :=
  mk_mobile a1 a2 a3 x a5 a6 a7 a8 a9 a10 a11 a12 a13 a14 a15 a16.
Definition with_mobile_os_version '(mk_mobile a1 a2 a3 a4 _ a6 a7 a8 a9 a10 a11 a12 a13 a14 a15 a16) x :=
  mk_mobile a1 a2 a3 a4 x a6 a7 a8 a9 a10 a11 a12 a13 a14 a15 a16.
Definition with_mobile_brand '(mk_mobile a1 a2 a3 a4 a5 _ a7 a8 a9 a10 a11 a12 a13 a14 a15 a16) x :=
  mk_mobile a1 a2 a3 a4 a5 x a7 a8 a9 a10 a11 a12 a13 a14 a15 a16.
Definition with_mobile_model '(mk_mobile a1 a2 a3 a4 a5 a6 _ a8 a9 a10 a11 a12 a13 a14 a15 a16) x :=
  mk_mobile a1 a2 a3 a4 a5 a6 x a8 a9 a10 a11 a12 a13 a14 a15 a16.
Definition with_mobile_screen_width '(mk_mobile a1 a2 a3 a4 a5 a6 a7 _ a9 a10 a11 a12 a13 a14 a15 a16) x :=
  mk_mobile a1 a2 a3 a4 a5 a6 a7 x a9 a10 a11 a12 a13 a14 a15 a16.
Definition with_mobile_screen_height '(mk_mobile a1 a2 a3 a4 a5 a6 a7 a8 _ a10 a11 a12 a13 a14 a15 a16) x :=
  mk_mobile a1 a2 a3 a4 a5 a6 a7 a8 x a10 a11 a12 a13 a14 a15 a16.
Definition with_mobile_screen_density '(mk_mobile a1 a2 a3 a4 a5 a6 a7 a8 a9 _ a11 a12 a13 a14 a15 a16) x :=
  mk_mobile a1 a2 a3 a4 a5 a6 a7 a8 a9 x a11 a12 a13 a14 a15 a16.
Definition with_mobile_carrier_id '(mk_mobile a1 a2 a3 a4 a5 a6 a7 a8 a9 a10 _ a12 a13 a14 a15 a16) x :=
  mk_mobile a1 a2 a3 a4 a5 a6 a7 a8 a9 a10 x a12 a13 a14 a15 a16.
Definition with_mobile_wireless_network_type '(mk_mobile a1 a2 a3 a4 a5 a6 a7 a8 a9 a10 a11 _ a13 a14 a15 a16) x :=
  mk_mobile a1 a2 a3 a4 a5 a6 a7 a8 a9 a10 a11 x a13 a14 a15 a16.
Definition with_mobile_DEPRECATED_for_advertising_id '(mk_mobile a1 a2 a3 a4 a5 a6 a7 a8 a9 a10 a11 a12 _ a14 a15
    a16) x :=
  mk_mobile a1 a2 a3 a4 a5 a6 a7 a8 a9 a10 a11 a12 x a14 a15 a16.
Definition with_mobile_for_advertising_id '(mk_mobile a1 a2 a3 a4 a5 a6 a7 a8 a9 a10 a11 a12 a13 _ a15 a16) x :=
  mk_mobile a1 a2 a3 a4 a5 a6 a7 a8 a9 a10 a11 a12 a13 x a15 a16.
Definition with_mobile_mobile_app '(mk_mobile a1 a2 a3 a4 a5 a6 a7 a8 a9 a10 a11 a12 a13 a14 _ a16) x :=
  mk_mobile a1 a2 a3 a4 a5 a6 a7 a8 a9 a10 a11 a12 a13 a14 x a16.
Definition with_mobile_unknown '(mk_mobile a1 a2 a3 a4 a5 a6 a7 a8 a9 a10 a11 a12 a13 a14 a15 _) x :=
  mk_mobile a1 a2 a3 a4 a5 a6 a7 a8 a9 a10 a11 a12 a13 a14 a15 x.

Section Env.
Context `{NgxEnv}.

Definition ngx_bid_request_mobile__add__id (obj : ngx_bid_request_mobile_t) (pl : bool) (c : ngx_protobuf_context_t) :=
  add_element mid_zero mobile_id with_mobile_id obj pl c.
Definition ngx_bid_request_mobile__add__for_advertising_id (obj : ngx_bid_request_mobile_t) (pl : bool) (c : ngx_protobuf_context_t) :=
  add_element faid_zero mobile_for_advertising_id with_mobile_for_advertising_id obj pl c.

Definition ngx_bid_request_mobile__unpack_id (fuel : nat) :=
  unpack_element mid_zero (ngx_bid_request_mobile_mobile_id__unpack fuel) mobile_id with_mobile_id.
Definition ngx_bid_request_mobile__unpack_os_version (fuel : nat) :=
  unpack_member osv_zero (ngx_bid_request_mobile_device_os_version__unpack fuel) mobile_os_version with_mobile_os_version.
Definition ngx_bid_request_mobile__unpack_for_advertising_id (fuel : nat) :=
  unpack_element faid_zero (ngx_bid_request_mobile_for_advertising_id__unpack fuel) mobile_for_advertising_id with_mobile_for_advertising_id.
Definition ngx_bid_request_mobile__unpack_mobile_app (fuel : nat) :=
  unpack_member mapp_zero (ngx_bid_request_mobile_mobile_app__unpack fuel) mobile_mobile_app with_mobile_mobile_app.

Definition mobile_switch (fuel : nat) (field wire : Z) (obj : ngx_bid_request_mobile_t) (c : ngx_protobuf_context_t)
  : result ngx_bid_request_mobile_t :=
  match field with
  | 1 => unpack_str mobile_DEPRECATED_device_id with_mobile_DEPRECATED_device_id wire obj c
  | 13 => unpack_msg (ngx_bid_request_mobile__unpack_id fuel) wire obj c
  | 2 => unpack_u32 id with_mobile_device_type wire obj c
  | 3 => unpack_u32 id with_mobile_platform wire obj c
  | 4 => unpack_msg (ngx_bid_request_mobile__unpack_os_version fuel) wire obj c
  | 5 => unpack_str mobile_brand with_mobile_brand wire obj c
  | 6 => unpack_str mobile_model with_mobile_model wire obj c
  | 7 => unpack_u32 i32 with_mobile_screen_width wire obj c
  | 8 => unpack_u32 i32 with_mobile_screen_height wire obj c
  | 15 => unpack_float mobile_screen_density with_mobile_screen_density wire obj c
  | 9 => unpack_u64 i64 with_mobile_carrier_id wire obj c
  | 10 => unpack_u32 id with_mobile_wireless_network_type wire obj c
  | 11 => unpack_str mobile_DEPRECATED_for_advertising_id with_mobile_DEPRECATED_for_advertising_id wire obj c
  | 14 => unpack_msg (ngx_bid_request_mobile__unpack_for_advertising_id fuel) wire obj c
  | 12 => unpack_msg (ngx_bid_request_mobile__unpack_mobile_app fuel) wire obj c
  | _ => unpack_unknown mobile_unknown with_mobile_unknown field wire obj c
  end.

Definition ngx_bid_request_mobile__unpack (fuel : nat) := unpack_loop (mobile_switch fuel) fuel.

Definition ngx_bid_request_mobile__size (obj : ngx_bid_request_mobile_t) : Z :=
  let size := 0 in
  let size := u64 (size + size_str (mobile_DEPRECATED_device_id obj) 1) in
  let size := size_elements ngx_bid_request_mobile_mobile_id__size (mobile_id obj) 13 size in
  let size := u64 (size + size_u32 (mobile_device_type obj) 2) in
  let size := u64 (size + size_u32 (mobile_platform obj) 3) in
  let size := u64 (size + size_member ngx_bid_request_mobile_device_os_version__size (mobile_os_version obj) 4) in
  let size := u64 (size + size_str (mobile_brand obj) 5) in
  let size := u64 (size + size_str (mobile_model obj) 6) in
  let size := u64 (size + size_u32 (mobile_screen_width obj) 7) in
  let size := u64 (size + size_u32 (mobile_screen_height obj) 8) in
  let size := u64 (size + size_float (mobile_screen_density obj) 15) in
  let size := u64 (size + size_u64 (mobile_carrier_id obj) 9) in
  let size := u64 (size + size_u32 (mobile_wireless_network_type obj) 10) in
  let size := u64 (size + size_str (mobile_DEPRECATED_for_advertising_id obj) 11) in
  let size := size_elements ngx_bid_request_mobile_for_advertising_id__size (mobile_for_advertising_id obj) 14 size in
  let size := u64 (size + size_member ngx_bid_request_mobile_mobile_app__size (mobile_mobile_app obj) 12) in
  size_unknowns (mobile_unknown obj) size.

Definition ngx_bid_request_mobile__pack (obj : ngx_bid_request_mobile_t) (c : ngx_protobuf_context_t)
  : cres (ngx_rc * ngx_protobuf_context_t) :=
  pack_guard (ngx_bid_request_mobile__size obj) c (fun c =>
    c ← pack_str (mobile_DEPRECATED_device_id obj) 1 c;
    c ← pack_u32 (mobile_device_type obj) 2 c;
    c ← pack_u32 (mobile_platform obj) 3 c;
    c ← pack_member ngx_bid_request_mobile_device_os_version__size ngx_bid_request_mobile_device_os_version__pack
           (mobile_os_version obj) 4 c;
    c ← pack_str (mobile_brand obj) 5 c;
    c ← pack_str (mobile_model obj) 6 c;
    c ← pack_u32 (mobile_screen_width obj) 7 c;
    c ← pack_u32 (mobile_screen_height obj) 8 c;
    c ← pack_u64 (mobile_carrier_id obj) 9 c;
    c ← pack_u32 (mobile_wireless_network_type obj) 10 c;
    c ← pack_str (mobile_DEPRECATED_for_advertising_id obj) 11 c;
    c ← pack_member ngx_bid_request_mobile_mobile_app__size ngx_bid_request_mobile_mobile_app__pack
           (mobile_mobile_app obj) 12 c;
    c ← pack_elements ngx_bid_request_mobile_mobile_id__size ngx_bid_request_mobile_mobile_id__pack
           (mobile_id obj) 13 c;
    c ← pack_elements ngx_bid_request_mobile_for_advertising_id__size ngx_bid_request_mobile_for_advertising_id__pack
           (mobile_for_advertising_id obj) 14 c;
    c ← pack_float (mobile_screen_density obj) 15 c;
    pack_unknowns (elts (mobile_unknown obj)) c).
End Env.

(** ** BidRequest.Video *)

Record ngx_bid_request_video_t := mk_bvideo { bvideo_title : fld ngx_str_t; bvideo_tags : fld (array ngx_str_t);
    bvideo_content_length : fld Z; bvideo_channel_id : fld (array Z);
    bvideo_unknown : array ngx_protobuf_unknown_field_t }.

(** What [ngx_bid_request_video__alloc] and [__clear] give. *)
Definition bvideo_zero : ngx_bid_request_video_t := mk_bvideo (Fld false ngx_str_null) (Fld false None)
    (Fld false 0) (Fld false None) None.

Definition with_bvideo_title '(mk_bvideo _ a2 a3 a4 a5) x :=
  mk_bvideo x a2 a3 a4 a5.
Definition with_bvideo_tags '(mk_bvideo a1 _ a3 a4 a5) x :=
  mk_bvideo a1 x a3 a4 a5.
Definition with_bvideo_content_length '(mk_bvideo a1 a2 _ a4 a5) x :=
  mk_bvideo a1 a2 x a4 a5.
Definition with_bvideo_channel_id '(mk_bvideo a1 a2 a3 _ a5) x :=
  mk_bvideo a1 a2 a3 x a5.
Definition with_bvideo_unknown '(mk_bvideo a1 a2 a3 a4 _) x :=
  mk_bvideo a1 a2 a3 a4 x.

Section Env.
Context `{NgxEnv}.

Definition ngx_bid_request_video__add__tags (obj : ngx_bid_request_video_t) (pl : bool) (c : ngx_protobuf_context_t) :=
  add_element ngx_str_null bvideo_tags with_bvideo_tags obj pl c.
Definition ngx_bid_request_video__add__channel_id (obj : ngx_bid_request_video_t) (pl : bool) (c : ngx_protobuf_context_t) :=
  add_element 0 bvideo_channel_id with_bvideo_channel_id obj pl c.

Definition bvideo_switch (field wire : Z) (obj : ngx_bid_request_video_t) (c : ngx_protobuf_context_t)
  : result ngx_bid_request_video_t :=
  match field with
  | 1 => unpack_str bvideo_title with_bvideo_title wire obj c
  | 2 => unpack_strs bvideo_tags with_bvideo_tags wire obj c
  | 3 => unpack_u32 i32 with_bvideo_content_length wire obj c
  | 4 => unpack_u64s i64 bvideo_channel_id with_bvideo_channel_id wire obj c
  | _ => unpack_unknown bvideo_unknown with_bvideo_unknown field wire obj c
  end.

Definition ngx_bid_request_video__unpack (fuel : nat) := unpack_loop bvideo_switch fuel.

Definition ngx_bid_request_video__size (obj : ngx_bid_request_video_t) : Z :=
  let size := 0 in
  let size := u64 (size + size_str (bvideo_title obj) 1) in
  let size := size_strs (bvideo_tags obj) 2 size in
  let size := u64 (size + size_u32 (bvideo_content_length obj) 3) in
  let size := size_u64s (bvideo_channel_id obj) 4 size in
  size_unknowns (bvideo_unknown obj) size.

Definition ngx_bid_request_video__pack (obj : ngx_bid_request_video_t) (c : ngx_protobuf_context_t)
  : cres (ngx_rc * ngx_protobuf_context_t) :=
  pack_guard (ngx_bid_request_video__size obj) c (fun c =>
    c ← pack_str (bvideo_title obj) 1 c;
    c ← pack_strs (bvideo_tags obj) 2 c;
    c ← pack_u32 (bvideo_content_length obj) 3 c;
    c ← pack_u64s (bvideo_channel_id obj) 4 c;
    pack_unknowns (elts (bvideo_unknown obj)) c).
End Env.

(** ** BidRequest.AdSlot.VideoInfo *)

Record ngx_bid_request_ad_slot_video_info_t := mk_video_info { video_info_max_video_duration : fld Z;
    video_info_min_video_duration : fld Z; video_info_video_start_delay : fld Z;
    video_info_unknown : array ngx_protobuf_unknown_field_t }.

(** What [ngx_bid_request_ad_slot_video_info__alloc] and [__clear] give. *)
Definition video_info_zero : ngx_bid_request_ad_slot_video_info_t := mk_video_info (Fld false 0) (Fld false 0)
    (Fld false 0) None.

Definition with_video_info_max_video_duration '(mk_video_info _ a2 a3 a4) x :=
  mk_video_info x a2 a3 a4.
Definition with_video_info_min_video_duration '(mk_video_info a1 _ a3 a4) x :=
  mk_video_info a1 x a3 a4.
Definition with_video_info_video_start_delay '(mk_video_info a1 a2 _ a4) x :=
  mk_video_info a1 a2 x a4.
Definition with_video_info_unknown '(mk_video_info a1 a2 a3 _) x :=
  mk_video_info a1 a2 a3 x.

Section Env.
Context `{NgxEnv}.

Definition video_info_switch (field wire : Z) (obj : ngx_bid_request_ad_slot_video_info_t) (c : ngx_protobuf_context_t)
  : result ngx_bid_request_ad_slot_video_info_t :=
  match field with
  | 1 => unpack_u32 i32 with_video_info_max_video_duration wire obj c
  | 2 => unpack_u32 i32 with_video_info_min_video_duration wire obj c
  | 3 => unpack_u32 i32 with_video_info_video_start_delay wire obj c
  | _ => unpack_unknown video_info_unknown with_video_info_unknown field wire obj c
  end.

Definition ngx_bid_request_ad_slot_video_info__unpack (fuel : nat) := unpack_loop video_info_switch fuel.

Definition ngx_bid_request_ad_slot_video_info__size (obj : ngx_bid_request_ad_slot_video_info_t) : Z :=
  let size := 0 in
  let size := u64 (size + size_u32 (video_info_max_video_duration obj) 1) in
  let size := u64 (size + size_u32 (video_info_min_video_duration obj) 2) in
  let size := u64 (size + size_u32 (video_info_video_start_delay obj) 3) in
  size_unknowns (video_info_unknown obj) size.

Definition ngx_bid_request_ad_slot_video_info__pack (obj : ngx_bid_request_ad_slot_video_info_t) (c : ngx_protobuf_context_t)
  : cres (ngx_rc * ngx_protobuf_context_t) :=
  pack_guard (ngx_bid_request_ad_slot_video_info__size obj) c (fun c =>
    c ← pack_u32 (video_info_max_video_duration obj) 1 c;
    c ← pack_u32 (video_info_min_video_duration obj) 2 c;
    c ← pack_u32 (video_info_video_start_delay obj) 3 c;
    pack_unknowns (elts (video_info_unknown obj)) c).
End Env.

(** ** BidRequest.AdSlot.LinkUnitInfo.ProposedKeyword *)

Record ngx_bid_request_ad_slot_link_unit_info_proposed_keyword_t := mk_keyword { keyword_text : fld ngx_str_t;
    keyword_pctr1 : fld Z; keyword_unknown : array ngx_protobuf_unknown_field_t }.

(** What [ngx_bid_request_ad_slot_link_unit_info_proposed_keyword__alloc] and [__clear] give. *)
Definition keyword_zero : ngx_bid_request_ad_slot_link_unit_info_proposed_keyword_t := mk_keyword
    (Fld false ngx_str_null) (Fld false 0) None.

Definition with_keyword_text '(mk_keyword _ a2 a3) x :=
  mk_keyword x a2 a3.
Definition with_keyword_pctr1 '(mk_keyword a1 _ a3) x :=
  mk_keyword a1 x a3.
Definition with_keyword_unknown '(mk_keyword a1 a2 _) x :=
  mk_keyword a1 a2 x.

Section Env.
Context `{NgxEnv}.

Definition keyword_switch (field wire : Z) (obj : ngx_bid_request_ad_slot_link_unit_info_proposed_keyword_t) (c : ngx_protobuf_context_t)
  : result ngx_bid_request_ad_slot_link_unit_info_proposed_keyword_t :=
  match field with
  | 1 => unpack_str keyword_text with_keyword_text wire obj c
  | 2 => unpack_float keyword_pctr1 with_keyword_pctr1 wire obj c
  | _ => unpack_unknown keyword_unknown with_keyword_unknown field wire obj c
  end.

Definition ngx_bid_request_ad_slot_link_unit_info_proposed_keyword__unpack (fuel : nat) := unpack_loop keyword_switch fuel.

Definition ngx_bid_request_ad_slot_link_unit_info_proposed_keyword__size (obj : ngx_bid_request_ad_slot_link_unit_info_proposed_keyword_t) : Z :=
  let size := 0 in
  let size := u64 (size + size_str (keyword_text obj) 1) in
  let size := u64 (size + size_float (keyword_pctr1 obj) 2) in
  size_unknowns (keyword_unknown obj) size.

Definition ngx_bid_request_ad_slot_link_unit_info_proposed_keyword__pack (obj : ngx_bid_request_ad_slot_link_unit_info_proposed_keyword_t) (c : ngx_protobuf_context_t)
  : cres (ngx_rc * ngx_protobuf_context_t) :=
  pack_guard (ngx_bid_request_ad_slot_link_unit_info_proposed_keyword__size obj) c (fun c =>
    c ← pack_str (keyword_text obj) 1 c;
    c ← pack_float (keyword_pctr1 obj) 2 c;
    pack_unknowns (elts (keyword_unknown obj)) c).
End Env.

(** ** BidRequest.AdSlot.LinkUnitInfo *)

Record ngx_bid_request_ad_slot_link_unit_info_t := mk_link_unit { link_unit_style_type : fld (array Z);
    link_unit_req_keyword_num : fld Z; link_unit_proposed_keyword : fld (array ngx_str_t);
    link_unit_keywords : fld (array ngx_bid_request_ad_slot_link_unit_info_proposed_keyword_t);
    link_unit_unknown : array ngx_protobuf_unknown_field_t }.

(** What [ngx_bid_request_ad_slot_link_unit_info__alloc] and [__clear] give. *)
Definition link_unit_zero : ngx_bid_request_ad_slot_link_unit_info_t := mk_link_unit (Fld false None) (Fld false 0)
    (Fld false None) (Fld false None) None.

Definition with_link_unit_style_type '(mk_link_unit _ a2 a3 a4 a5) x :=
  mk_link_unit x a2 a3 a4 a5.
Definition with_link_unit_req_keyword_num '(mk_link_unit a1 _ a3 a4 a5) x :=
  mk_link_unit a1 x a3 a4 a5.
Definition with_link_unit_proposed_keyword '(mk_link_unit a1 a2 _ a4 a5) x :=
  mk_link_unit a1 a2 x a4 a5.
Definition with_link_unit_keywords '(mk_link_unit a1 a2 a3 _ a5) x :=
  mk_link_unit a1 a2 a3 x a5.
Definition with_link_unit_unknown '(mk_link_unit a1 a2 a3 a4 _) x :=
  mk_link_unit a1 a2 a3 a4 x.

Section Env.
Context `{NgxEnv}.

Definition ngx_bid_request_ad_slot_link_unit_info__add__style_type (obj : ngx_bid_request_ad_slot_link_unit_info_t) (pl : bool) (c : ngx_protobuf_context_t) :=
  add_element 0 link_unit_style_type with_link_unit_style_type obj pl c.
Definition ngx_bid_request_ad_slot_link_unit_info__add__proposed_keyword (obj : ngx_bid_request_ad_slot_link_unit_info_t) (pl : bool) (c : ngx_protobuf_context_t) :=
  add_element ngx_str_null link_unit_proposed_keyword with_link_unit_proposed_keyword obj pl c.
Definition ngx_bid_request_ad_slot_link_unit_info__add__keywords (obj : ngx_bid_request_ad_slot_link_unit_info_t) (pl : bool) (c : ngx_protobuf_context_t) :=
  add_element keyword_zero link_unit_keywords with_link_unit_keywords obj pl c.

Definition ngx_bid_request_ad_slot_link_unit_info__unpack_keywords (fuel : nat) :=
  unpack_element keyword_zero (ngx_bid_request_ad_slot_link_unit_info_proposed_keyword__unpack fuel) link_unit_keywords with_link_unit_keywords.

Definition link_unit_switch (fuel : nat) (field wire : Z) (obj : ngx_bid_request_ad_slot_link_unit_info_t) (c : ngx_protobuf_context_t)
  : result ngx_bid_request_ad_slot_link_unit_info_t :=
  match field with
  | 1 => unpack_u32s i32 link_unit_style_type with_link_unit_style_type wire obj c
  | 2 => unpack_u32 i32 with_link_unit_req_keyword_num wire obj c
  | 3 => unpack_strs link_unit_proposed_keyword with_link_unit_proposed_keyword wire obj c
  | 4 => unpack_msg (ngx_bid_request_ad_slot_link_unit_info__unpack_keywords fuel) wire obj c
  | _ => unpack_unknown link_unit_unknown with_link_unit_unknown field wire obj c
  end.

Definition ngx_bid_request_ad_slot_link_unit_info__unpack (fuel : nat) := unpack_loop (link_unit_switch fuel) fuel.

Definition ngx_bid_request_ad_slot_link_unit_info__size (obj : ngx_bid_request_ad_slot_link_unit_info_t) : Z :=
  let size := 0 in
  let size := size_u32s (link_unit_style_type obj) 1 size in
  let size := u64 (size + size_u32 (link_unit_req_keyword_num obj) 2) in
  let size := size_strs (link_unit_proposed_keyword obj) 3 size in
  let size := size_elements ngx_bid_request_ad_slot_link_unit_info_proposed_keyword__size (link_unit_keywords obj) 4 size in
  size_unknowns (link_unit_unknown obj) size.

Definition ngx_bid_request_ad_slot_link_unit_info__pack (obj : ngx_bid_request_ad_slot_link_unit_info_t) (c : ngx_protobuf_context_t)
  : cres (ngx_rc * ngx_protobuf_context_t) :=
  pack_guard (ngx_bid_request_ad_slot_link_unit_info__size obj) c (fun c =>
    c ← pack_u32s (link_unit_style_type obj) 1 c;
    c ← pack_u32 (link_unit_req_keyword_num obj) 2 c;
    c ← pack_strs (link_unit_proposed_keyword obj) 3 c;
    c ← pack_elements ngx_bid_request_ad_slot_link_unit_info_proposed_keyword__size ngx_bid_request_ad_slot_link_unit_info_proposed_keyword__pack
           (link_unit_keywords obj) 4 c;
    pack_unknowns (elts (link_unit_unknown obj)) c).
End Env.

(** ** BidRequest.AdSlot.PreferredOrderInfo.PreferredOrder *)

Record ngx_bid_request_ad_slot_preferred_order_info_preferred_order_t := mk_porder {
    porder_order_id : fld ngx_str_t; porder_fixed_cpm : fld Z;
    porder_unknown : array ngx_protobuf_unknown_field_t }.

(** What [ngx_bid_request_ad_slot_preferred_order_info_preferred_order__alloc] and [__clear] give. *)
Definition porder_zero : ngx_bid_request_ad_slot_preferred_order_info_preferred_order_t := mk_porder
    (Fld false ngx_str_null) (Fld false 0) None.

Definition with_porder_order_id '(mk_porder _ a2 a3) x :=
  mk_porder x a2 a3.
Definition with_porder_fixed_cpm '(mk_porder a1 _ a3) x :=
  mk_porder a1 x a3.
Definition with_porder_unknown '(mk_porder a1 a2 _) x :=
  mk_porder a1 a2 x.

Section Env.
Context `{NgxEnv}.

Definition porder_switch (field wire : Z) (obj : ngx_bid_request_ad_slot_preferred_order_info_preferred_order_t) (c : ngx_protobuf_context_t)
  : result ngx_bid_request_ad_slot_preferred_order_info_preferred_order_t :=
  match field with
  | 1 => unpack_str porder_order_id with_porder_order_id wire obj c
  | 2 => unpack_u64 i64 with_porder_fixed_cpm wire obj c
  | _ => unpack_unknown porder_unknown with_porder_unknown field wire obj c
  end.

Definition ngx_bid_request_ad_slot_preferred_order_info_preferred_order__unpack (fuel : nat) := unpack_loop porder_switch fuel.

Definition ngx_bid_request_ad_slot_preferred_order_info_preferred_order__size (obj : ngx_bid_request_ad_slot_preferred_order_info_preferred_order_t) : Z :=
  let size := 0 in
  let size := u64 (size + size_str (porder_order_id obj) 1) in
  let size := u64 (size + size_u64 (porder_fixed_cpm obj) 2) in
  size_unknowns (porder_unknown obj) size.

Definition ngx_bid_request_ad_slot_preferred_order_info_preferred_order__pack (obj : ngx_bid_request_ad_slot_preferred_order_info_preferred_order_t) (c : ngx_protobuf_context_t)
  : cres (ngx_rc * ngx_protobuf_context_t) :=
  pack_guard (ngx_bid_request_ad_slot_preferred_order_info_preferred_order__size obj) c (fun c =>
    c ← pack_str (porder_order_id obj) 1 c;
    c ← pack_u64 (porder_fixed_cpm obj) 2 c;
    pack_unknowns (elts (porder_unknown obj)) c).
End Env.

(** ** BidRequest.AdSlot.PreferredOrderInfo *)

Record ngx_bid_request_ad_slot_preferred_order_info_t := mk_pinfo {
    pinfo_preferred_orders : fld (array ngx_bid_request_ad_slot_preferred_order_info_preferred_order_t);
    pinfo_allow_auction : fld Z; pinfo_unknown : array ngx_protobuf_unknown_field_t }.

(** What [ngx_bid_request_ad_slot_preferred_order_info__alloc] and [__clear] give. *)
Definition pinfo_zero : ngx_bid_request_ad_slot_preferred_order_info_t := mk_pinfo (Fld false None) (Fld false 0)
    None.

Definition with_pinfo_preferred_orders '(mk_pinfo _ a2 a3) x :=
  mk_pinfo x a2 a3.
Definition with_pinfo_allow_auction '(mk_pinfo a1 _ a3) x :=
  mk_pinfo a1 x a3.
Definition with_pinfo_unknown '(mk_pinfo a1 a2 _) x :=
  mk_pinfo a1 a2 x.

Section Env.
Context `{NgxEnv}.

Definition ngx_bid_request_ad_slot_preferred_order_info__add__preferred_orders (obj : ngx_bid_request_ad_slot_preferred_order_info_t) (pl : bool) (c : ngx_protobuf_context_t) :=
  add_element porder_zero pinfo_preferred_orders with_pinfo_preferred_orders obj pl c.

Definition ngx_bid_request_ad_slot_preferred_order_info__unpack_preferred_orders (fuel : nat) :=
  unpack_element porder_zero (ngx_bid_request_ad_slot_preferred_order_info_preferred_order__unpack fuel) pinfo_preferred_orders with_pinfo_preferred_orders.

Definition pinfo_switch (fuel : nat) (field wire : Z) (obj : ngx_bid_request_ad_slot_preferred_order_info_t) (c : ngx_protobuf_context_t)
  : result ngx_bid_request_ad_slot_preferred_order_info_t :=
  match field with
  | 1 => unpack_msg (ngx_bid_request_ad_slot_preferred_order_info__unpack_preferred_orders fuel) wire obj c
  | 2 => unpack_bool with_pinfo_allow_auction wire obj c
  | _ => unpack_unknown pinfo_unknown with_pinfo_unknown field wire obj c
  end.

Definition ngx_bid_request_ad_slot_preferred_order_info__unpack (fuel : nat) := unpack_loop (pinfo_switch fuel) fuel.

Definition ngx_bid_request_ad_slot_preferred_order_info__size (obj : ngx_bid_request_ad_slot_preferred_order_info_t) : Z :=
  let size := 0 in
  let size := size_elements ngx_bid_request_ad_slot_preferred_order_info_preferred_order__size (pinfo_preferred_orders obj) 1 size in
  let size := u64 (size + size_bool (pinfo_allow_auction obj) 2) in
  size_unknowns (pinfo_unknown obj) size.

Definition ngx_bid_request_ad_slot_preferred_order_info__pack (obj : ngx_bid_request_ad_slot_preferred_order_info_t) (c : ngx_protobuf_context_t)
  : cres (ngx_rc * ngx_protobuf_context_t) :=
  pack_guard (ngx_bid_request_ad_slot_preferred_order_info__size obj) c (fun c =>
    c ← pack_elements ngx_bid_request_ad_slot_preferred_order_info_preferred_order__size ngx_bid_request_ad_slot_preferred_order_info_preferred_order__pack
           (pinfo_preferred_orders obj) 1 c;
    c ← pack_bool (pinfo_allow_auction obj) 2 c;
    pack_unknowns (elts (pinfo_unknown obj)) c).
End Env.

(** ** BidRequest.AdSlot.GuaranteedOrder.Charge *)

Record ngx_bid_request_ad_slot_guaranteed_order_charge_t := mk_charge { charge_price : fld Z;
    charge_charge_mode : fld Z; charge_unknown : array ngx_protobuf_unknown_field_t }.

(** What [ngx_bid_request_ad_slot_guaranteed_order_charge__alloc] and [__clear] give. *)
Definition charge_zero : ngx_bid_request_ad_slot_guaranteed_order_charge_t := mk_charge (Fld false 0) (Fld false 0)
    None.

Definition with_charge_price '(mk_charge _ a2 a3) x :=
  mk_charge x a2 a3.
Definition with_charge_charge_mode '(mk_charge a1 _ a3) x :=
  mk_charge a1 x a3.
Definition with_charge_unknown '(mk_charge a1 a2 _) x :=
  mk_charge a1 a2 x.

Section Env.
Context `{NgxEnv}.

Definition charge_switch (field wire : Z) (obj : ngx_bid_request_ad_slot_guaranteed_order_charge_t) (c : ngx_protobuf_context_t)
  : result ngx_bid_request_ad_slot_guaranteed_order_charge_t :=
  match field with
  | 1 => unpack_u32 i32 with_charge_price wire obj c
  | 2 => unpack_u32 id with_charge_charge_mode wire obj c
  | _ => unpack_unknown charge_unknown with_charge_unknown field wire obj c
  end.

Definition ngx_bid_request_ad_slot_guaranteed_order_charge__unpack (fuel : nat) := unpack_loop charge_switch fuel.

Definition ngx_bid_request_ad_slot_guaranteed_order_charge__size (obj : ngx_bid_request_ad_slot_guaranteed_order_charge_t) : Z :=
  let size := 0 in
  let size := u64 (size + size_u32 (charge_price obj) 1) in
  let size := u64 (size + size_u32 (charge_charge_mode obj) 2) in
  size_unknowns (charge_unknown obj) size.

Definition ngx_bid_request_ad_slot_guaranteed_order_charge__pack (obj : ngx_bid_request_ad_slot_guaranteed_order_charge_t) (c : ngx_protobuf_context_t)
  : cres (ngx_rc * ngx_protobuf_context_t) :=
  pack_guard (ngx_bid_request_ad_slot_guaranteed_order_charge__size obj) c (fun c =>
    c ← pack_u32 (charge_price obj) 1 c;
    c ← pack_u32 (charge_charge_mode obj) 2 c;
    pack_unknowns (elts (charge_unknown obj)) c).
End Env.

(** ** BidRequest.AdSlot.GuaranteedOrder *)

Record ngx_bid_request_ad_slot_guaranteed_order_t := mk_gorder { gorder_order_id : fld Z;
    gorder_charge : fld (option ngx_bid_request_ad_slot_guaranteed_order_charge_t);
    gorder_unknown : array ngx_protobuf_unknown_field_t }.

(** What [ngx_bid_request_ad_slot_guaranteed_order__alloc] and [__clear] give. *)
Definition gorder_zero : ngx_bid_request_ad_slot_guaranteed_order_t := mk_gorder (Fld false 0) (Fld false None)
    None.

Definition with_gorder_order_id '(mk_gorder _ a2 a3) x :=
  mk_gorder x a2 a3.
Definition with_gorder_charge '(mk_gorder a1 _ a3) x :=
  mk_gorder a1 x a3.
Definition with_gorder_unknown '(mk_gorder a1 a2 _) x :=
  mk_gorder a1 a2 x.

Section Env.
Context `{NgxEnv}.

Definition ngx_bid_request_ad_slot_guaranteed_order__unpack_charge (fuel : nat) :=
  unpack_member charge_zero (ngx_bid_request_ad_slot_guaranteed_order_charge__unpack fuel) gorder_charge with_gorder_charge.

Definition gorder_switch (fuel : nat) (field wire : Z) (obj : ngx_bid_request_ad_slot_guaranteed_order_t) (c : ngx_protobuf_context_t)
  : result ngx_bid_request_ad_slot_guaranteed_order_t :=
  match field with
  | 1 => unpack_u32 id with_gorder_order_id wire obj c
  | 2 => unpack_msg (ngx_bid_request_ad_slot_guaranteed_order__unpack_charge fuel) wire obj c
  | _ => unpack_unknown gorder_unknown with_gorder_unknown field wire obj c
  end.

Definition ngx_bid_request_ad_slot_guaranteed_order__unpack (fuel : nat) := unpack_loop (gorder_switch fuel) fuel.

Definition ngx_bid_request_ad_slot_guaranteed_order__size (obj : ngx_bid_request_ad_slot_guaranteed_order_t) : Z :=
  let size := 0 in
  let size := u64 (size + size_u32 (gorder_order_id obj) 1) in
  let size := u64 (size + size_member ngx_bid_request_ad_slot_guaranteed_order_charge__size (gorder_charge obj) 2) in
  size_unknowns (gorder_unknown obj) size.

Definition ngx_bid_request_ad_slot_guaranteed_order__pack (obj : ngx_bid_request_ad_slot_guaranteed_order_t) (c : ngx_protobuf_context_t)
  : cres (ngx_rc * ngx_protobuf_context_t) :=
  pack_guard (ngx_bid_request_ad_slot_guaranteed_order__size obj) c (fun c =>
    c ← pack_u32 (gorder_order_id obj) 1 c;
    c ← pack_member ngx_bid_request_ad_slot_guaranteed_order_charge__size ngx_bid_request_ad_slot_guaranteed_order_charge__pack
           (gorder_charge obj) 2 c;
    pack_unknowns (elts (gorder_unknown obj)) c).
End Env.

(** ** BidRequest.AdSlot.ExpandCreativeInfo *)

Record ngx_bid_request_ad_slot_expand_creative_info_t := mk_expand { expand_expand_action_type : fld (array Z);
    expand_expand_direction : fld Z; expand_expand_creative_type : fld (array Z); expand_expand_width : fld Z;
    expand_expand_height : fld Z; expand_expand_duration : fld Z;
    expand_unknown : array ngx_protobuf_unknown_field_t }.

(** What [ngx_bid_request_ad_slot_expand_creative_info__alloc] and [__clear] give. *)
Definition expand_zero : ngx_bid_request_ad_slot_expand_creative_info_t := mk_expand (Fld false None) (Fld false 0)
    (Fld false None) (Fld false 0) (Fld false 0) (Fld false 0) None.

Definition with_expand_expand_action_type '(mk_expand _ a2 a3 a4 a5 a6 a7) x :=
  mk_expand x a2 a3 a4 a5 a6 a7.
Definition with_expand_expand_direction '(mk_expand a1 _ a3 a4 a5 a6 a7) x :=
  mk_expand a1 x a3 a4 a5 a6 a7.
Definition with_expand_expand_creative_type '(mk_expand a1 a2 _ a4 a5 a6 a7) x :=
  mk_expand a1 a2 x a4 a5 a6 a7.
Definition with_expand_expand_width '(mk_expand a1 a2 a3 _ a5 a6 a7) x :=
  mk_expand a1 a2 a3 x a5 a6 a7.
Definition with_expand_expand_height '(mk_expand a1 a2 a3 a4 _ a6 a7) x :=
  mk_expand a1 a2 a3 a4 x a6 a7.
Definition with_expand_expand_duration '(mk_expand a1 a2 a3 a4 a5 _ a7) x :=
  mk_expand a1 a2 a3 a4 a5 x a7.
Definition with_expand_unknown '(mk_expand a1 a2 a3 a4 a5 a6 _) x :=
  mk_expand a1 a2 a3 a4 a5 a6 x.

Section Env.
Context `{NgxEnv}.

Definition ngx_bid_request_ad_slot_expand_creative_info__add__expand_action_type (obj : ngx_bid_request_ad_slot_expand_creative_info_t) (pl : bool) (c : ngx_protobuf_context_t) :=
  add_element 0 expand_expand_action_type with_expand_expand_action_type obj pl c.
Definition ngx_bid_request_ad_slot_expand_creative_info__add__expand_creative_type (obj : ngx_bid_request_ad_slot_expand_creative_info_t) (pl : bool) (c : ngx_protobuf_context_t) :=
  add_element 0 expand_expand_creative_type with_expand_expand_creative_type obj pl c.

Definition expand_switch (fuel : nat) (field wire : Z) (obj : ngx_bid_request_ad_slot_expand_creative_info_t) (c : ngx_protobuf_context_t)
  : result ngx_bid_request_ad_slot_expand_creative_info_t :=
  match field with
  | 1 => unpack_u32s id expand_expand_action_type with_expand_expand_action_type wire obj c
  | 2 => unpack_u32 id with_expand_expand_direction wire obj c
  | 3 => unpack_packed fuel i32 expand_expand_creative_type with_expand_expand_creative_type wire obj c
  | 4 => unpack_u32 i32 with_expand_expand_width wire obj c
  | 5 => unpack_u32 i32 with_expand_expand_height wire obj c
  | 6 => unpack_u32 i32 with_expand_expand_duration wire obj c
  | _ => unpack_unknown expand_unknown with_expand_unknown field wire obj c
  end.

Definition ngx_bid_request_ad_slot_expand_creative_info__unpack (fuel : nat) := unpack_loop (expand_switch fuel) fuel.

Definition ngx_bid_request_ad_slot_expand_creative_info__size (obj : ngx_bid_request_ad_slot_expand_creative_info_t) : Z :=
  let size := 0 in
  let size := size_u32s (expand_expand_action_type obj) 1 size in
  let size := u64 (size + size_u32 (expand_expand_direction obj) 2) in
  let size := size_packed (expand_expand_creative_type obj) 3 size in
  let size := u64 (size + size_u32 (expand_expand_width obj) 4) in
  let size := u64 (size + size_u32 (expand_expand_height obj) 5) in
  let size := u64 (size + size_u32 (expand_expand_duration obj) 6) in
  size_unknowns (expand_unknown obj) size.

Definition ngx_bid_request_ad_slot_expand_creative_info__pack (obj : ngx_bid_request_ad_slot_expand_creative_info_t) (c : ngx_protobuf_context_t)
  : cres (ngx_rc * ngx_protobuf_context_t) :=
  pack_guard (ngx_bid_request_ad_slot_expand_creative_info__size obj) c (fun c =>
    c ← pack_u32s (expand_expand_action_type obj) 1 c;
    c ← pack_u32 (expand_expand_direction obj) 2 c;
    c ← pack_packed (expand_expand_creative_type obj) 3 c;
    c ← pack_u32 (expand_expand_width obj) 4 c;
    c ← pack_u32 (expand_expand_height obj) 5 c;
    c ← pack_u32 (expand_expand_duration obj) 6 c;
    pack_unknowns (elts (expand_unknown obj)) c).
End Env.

(** ** BidRequest.AdSlot.NativeAdParam.ImageEle *)

Record ngx_bid_request_ad_slot_native_ad_param_image_ele_t := mk_image_ele { image_ele_width : fld Z;
    image_ele_height : fld Z; image_ele_shape : fld Z; image_ele_unknown : array ngx_protobuf_unknown_field_t }.

(** What [ngx_bid_request_ad_slot_native_ad_param_image_ele__alloc] and [__clear] give. *)
Definition image_ele_zero : ngx_bid_request_ad_slot_native_ad_param_image_ele_t := mk_image_ele (Fld false 0)
    (Fld false 0) (Fld false 0) None.

Definition with_image_ele_width '(mk_image_ele _ a2 a3 a4) x :=
  mk_image_ele x a2 a3 a4.
Definition with_image_ele_height '(mk_image_ele a1 _ a3 a4) x :=
  mk_image_ele a1 x a3 a4.
Definition with_image_ele_shape '(mk_image_ele a1 a2 _ a4) x :=
  mk_image_ele a1 a2 x a4.
Definition with_image_ele_unknown '(mk_image_ele a1 a2 a3 _) x :=
  mk_image_ele a1 a2 a3 x.

Section Env.
Context `{NgxEnv}.

Definition image_ele_switch (field wire : Z) (obj : ngx_bid_request_ad_slot_native_ad_param_image_ele_t) (c : ngx_protobuf_context_t)
  : result ngx_bid_request_ad_slot_native_ad_param_image_ele_t :=
  match field with
  | 1 => unpack_u32 i32 with_image_ele_width wire obj c
  | 2 => unpack_u32 i32 with_image_ele_height wire obj c
  | 3 => unpack_u32 i32 with_image_ele_shape wire obj c
  | _ => unpack_unknown image_ele_unknown with_image_ele_unknown field wire obj c
  end.

Definition ngx_bid_request_ad_slot_native_ad_param_image_ele__unpack (fuel : nat) := unpack_loop image_ele_switch fuel.

Definition ngx_bid_request_ad_slot_native_ad_param_image_ele__size (obj : ngx_bid_request_ad_slot_native_ad_param_image_ele_t) : Z :=
  let size := 0 in
  let size := u64 (size + size_u32 (image_ele_width obj) 1) in
  let size := u64 (size + size_u32 (image_ele_height obj) 2) in
  let size := u64 (size + size_u32 (image_ele_shape obj) 3) in
  size_unknowns (image_ele_unknown obj) size.

Definition ngx_bid_request_ad_slot_native_ad_param_image_ele__pack (obj : ngx_bid_request_ad_slot_native_ad_param_image_ele_t) (c : ngx_protobuf_context_t)
  : cres (ngx_rc * ngx_protobuf_context_t) :=
  pack_guard (ngx_bid_request_ad_slot_native_ad_param_image_ele__size obj) c (fun c =>
    c ← pack_u32 (image_ele_width obj) 1 c;
    c ← pack_u32 (image_ele_height obj) 2 c;
    c ← pack_u32 (image_ele_shape obj) 3 c;
    pack_unknowns (elts (image_ele_unknown obj)) c).
End Env.

(** ** BidRequest.AdSlot.NativeAdParam *)

Record ngx_bid_request_ad_slot_native_ad_param_t := mk_native_param { native_param_required_fields : fld (array Z);
    native_param_title_max_length : fld Z; native_param_desc_max_length : fld Z;
    native_param_logo_icon : fld (option ngx_bid_request_ad_slot_native_ad_param_image_ele_t);
    native_param_image : fld (option ngx_bid_request_ad_slot_native_ad_param_image_ele_t);
    native_param_image_num : fld Z; native_param_unknown : array ngx_protobuf_unknown_field_t }.

(** What [ngx_bid_request_ad_slot_native_ad_param__alloc] and [__clear] give. *)
Definition native_param_zero : ngx_bid_request_ad_slot_native_ad_param_t := mk_native_param (Fld false None)
    (Fld false 0) (Fld false 0) (Fld false None) (Fld false None) (Fld false 0) None.

Definition with_native_param_required_fields '(mk_native_param _ a2 a3 a4 a5 a6 a7) x :=
  mk_native_param x a2 a3 a4 a5 a6 a7.
Definition with_native_param_title_max_length '(mk_native_param a1 _ a3 a4 a5 a6 a7) x :=
  mk_native_param a1 x a3 a4 a5 a6 a7.
Definition with_native_param_desc_max_length '(mk_native_param a1 a2 _ a4 a5 a6 a7) x :=
  mk_native_param a1 a2 x a4 a5 a6 a7.
Definition with_native_param_logo_icon '(mk_native_param a1 a2 a3 _ a5 a6 a7) x :=
  mk_native_param a1 a2 a3 x a5 a6 a7.
Definition with_native_param_image '(mk_native_param a1 a2 a3 a4 _ a6 a7) x :=
  mk_native_param a1 a2 a3 a4 x a6 a7.
Definition with_native_param_image_num '(mk_native_param a1 a2 a3 a4 a5 _ a7) x :=
  mk_native_param a1 a2 a3 a4 a5 x a7.
Definition with_native_param_unknown '(mk_native_param a1 a2 a3 a4 a5 a6 _) x :=
  mk_native_param a1 a2 a3 a4 a5 a6 x.

Section Env.
Context `{NgxEnv}.

Definition ngx_bid_request_ad_slot_native_ad_param__add__required_fields (obj : ngx_bid_request_ad_slot_native_ad_param_t) (pl : bool) (c : ngx_protobuf_context_t) :=
  add_element 0 native_param_required_fields with_native_param_required_fields obj pl c.

Definition ngx_bid_request_ad_slot_native_ad_param__unpack_logo_icon (fuel : nat) :=
  unpack_member image_ele_zero (ngx_bid_request_ad_slot_native_ad_param_image_ele__unpack fuel) native_param_logo_icon with_native_param_logo_icon.
Definition ngx_bid_request_ad_slot_native_ad_param__unpack_image (fuel : nat) :=
  unpack_member image_ele_zero (ngx_bid_request_ad_slot_native_ad_param_image_ele__unpack fuel) native_param_image with_native_param_image.

Definition native_param_switch (fuel : nat) (field wire : Z) (obj : ngx_bid_request_ad_slot_native_ad_param_t) (c : ngx_protobuf_context_t)
  : result ngx_bid_request_ad_slot_native_ad_param_t :=
  match field with
  | 1 => unpack_u64s i64 native_param_required_fields with_native_param_required_fields wire obj c
  | 2 => unpack_u32 i32 with_native_param_title_max_length wire obj c
  | 3 => unpack_u32 i32 with_native_param_desc_max_length wire obj c
  | 4 => unpack_msg (ngx_bid_request_ad_slot_native_ad_param__unpack_logo_icon fuel) wire obj c
  | 5 => unpack_msg (ngx_bid_request_ad_slot_native_ad_param__unpack_image fuel) wire obj c
  | 6 => unpack_u32 i32 with_native_param_image_num wire obj c
  | _ => unpack_unknown native_param_unknown with_native_param_unknown field wire obj c
  end.

Definition ngx_bid_request_ad_slot_native_ad_param__unpack (fuel : nat) := unpack_loop (native_param_switch fuel) fuel.

Definition ngx_bid_request_ad_slot_native_ad_param__size (obj : ngx_bid_request_ad_slot_native_ad_param_t) : Z :=
  let size := 0 in
  let size := size_u64s (native_param_required_fields obj) 1 size in
  let size := u64 (size + size_u32 (native_param_title_max_length obj) 2) in
  let size := u64 (size + size_u32 (native_param_desc_max_length obj) 3) in
  let size := u64 (size + size_member ngx_bid_request_ad_slot_native_ad_param_image_ele__size (native_param_logo_icon obj) 4) in
  let size := u64 (size + size_member ngx_bid_request_ad_slot_native_ad_param_image_ele__size (native_param_image obj) 5) in
  let size := u64 (size + size_u32 (native_param_image_num obj) 6) in
  size_unknowns (native_param_unknown obj) size.

Definition ngx_bid_request_ad_slot_native_ad_param__pack (obj : ngx_bid_request_ad_slot_native_ad_param_t) (c : ngx_protobuf_context_t)
  : cres (ngx_rc * ngx_protobuf_context_t) :=
  pack_guard (ngx_bid_request_ad_slot_native_ad_param__size obj) c (fun c =>
    c ← pack_u64s (native_param_required_fields obj) 1 c;
    c ← pack_u32 (native_param_title_max_length obj) 2 c;
    c ← pack_u32 (native_param_desc_max_length obj) 3 c;
    c ← pack_member ngx_bid_request_ad_slot_native_ad_param_image_ele__size ngx_bid_request_ad_slot_native_ad_param_image_ele__pack
           (native_param_logo_icon obj) 4 c;
    c ← pack_member ngx_bid_request_ad_slot_native_ad_param_image_ele__size ngx_bid_request_ad_slot_native_ad_param_image_ele__pack
           (native_param_image obj) 5 c;
    c ← pack_u32 (native_param_image_num obj) 6 c;
    pack_unknowns (elts (native_param_unknown obj)) c).
End Env.

(** ** BidRequest.AdSlot *)

Record ngx_bid_request_ad_slot_t := mk_adslot { adslot_ad_block_key : fld Z; adslot_sequence_id : fld Z;
    adslot_adslot_type : fld Z; adslot_width : fld Z; adslot_height : fld Z; adslot_actual_width : fld Z;
    adslot_actual_height : fld Z; adslot_slot_visibility : fld Z; adslot_creative_type : fld (array Z);
    adslot_creative_desc_type : fld (array Z); adslot_excluded_landing_page_url : fld (array ngx_str_t);
    adslot_publisher_settings_list_id : fld (array Z); adslot_minimum_cpm : fld Z;
    adslot_max_video_duration : fld Z; adslot_min_video_duration : fld Z; adslot_video_start_delay : fld Z;
    adslot_video_info : fld (option ngx_bid_request_ad_slot_video_info_t);
    adslot_link_unit_info : fld (option ngx_bid_request_ad_slot_link_unit_info_t);
    adslot_preferred_order_info : fld (option ngx_bid_request_ad_slot_preferred_order_info_t);
    adslot_guaranteed_orders : fld (array ngx_bid_request_ad_slot_guaranteed_order_t);
    adslot_expand_creative_info : fld (option ngx_bid_request_ad_slot_expand_creative_info_t);
    adslot_adslot_level : fld Z; adslot_allowed_non_nativead : fld Z;
    adslot_nativead_param : fld (option ngx_bid_request_ad_slot_native_ad_param_t); adslot_secure : fld Z;
    adslot_unknown : array ngx_protobuf_unknown_field_t }.

(** What [ngx_bid_request_ad_slot__alloc] and [__clear] give. *)
Definition adslot_zero : ngx_bid_request_ad_slot_t := mk_adslot (Fld false 0) (Fld false 0) (Fld false 0)
    (Fld false 0) (Fld false 0) (Fld false 0) (Fld false 0) (Fld false 0) (Fld false None) (Fld false None)
    (Fld false None) (Fld false None) (Fld false 0) (Fld false 0) (Fld false 0) (Fld false 0) (Fld false None)
    (Fld false None) (Fld false None) (Fld false None) (Fld false None) (Fld false 0) (Fld false 0) (Fld false None)
    (Fld false 0) None.

Definition with_adslot_ad_block_key '(mk_adslot _ a2 a3 a4 a5 a6 a7 a8 a9 a10 a11 a12 a13 a14 a15 a16 a17 a18 a19
    a20 a21 a22 a23 a24 a25 a26) x :=
  mk_adslot x a2 a3 a4 a5 a6 a7 a8 a9 a10 a11 a12 a13 a14 a15 a16 a17 a18 a19 a20 a21 a22 a23 a24 a25 a26.
Definition with_adslot_sequence_id '(mk_adslot a1 _ a3 a4 a5 a6 a7 a8 a9 a10 a11 a12 a13 a14 a15 a16 a17 a18 a19 a20
    a21 a22 a23 a24 a25 a26) x :=
  mk_adslot a1 x a3 a4 a5 a6 a7 a8 a9 a10 a11 a12 a13 a14 a15 a16 a17 a18 a19 a20 a21 a22 a23 a24 a25 a26.
Definition with_adslot_adslot_type '(mk_adslot a1 a2 _ a4 a5 a6 a7 a8 a9 a10 a11 a12 a13 a14 a15 a16 a17 a18 a19 a20
    a21 a22 a23 a24 a25 a26) x :=
  mk_adslot a1 a2 x a4 a5 a6 a7 a8 a9 a10 a11 a12 a13 a14 a15 a16 a17 a18 a19 a20 a21 a22 a23 a24 a25 a26.
Definition with_adslot_width '(mk_adslot a1 a2 a3 _ a5 a6 a7 a8 a9 a10 a11 a12 a13 a14 a15 a16 a17 a18 a19 a20 a21
    a22 a23 a24 a25 a26) x :=
  mk_adslot a1 a2 a3 x a5 a6 a7 a8 a9 a10 a11 a12 a13 a14 a15 a16 a17 a18 a19 a20 a21 a22 a23 a24 a25 a26.
Definition with_adslot_height '(mk_adslot a1 a2 a3 a4 _ a6 a7 a8 a9 a10 a11 a12 a13 a14 a15 a16 a17 a18 a19 a20 a21
    a22 a23 a24 a25 a26) x :=
  mk_adslot a1 a2 a3 a4 x a6 a7 a8 a9 a10 a11 a12 a13 a14 a15 a16 a17 a18 a19 a20 a21 a22 a23 a24 a25 a26.
Definition with_adslot_actual_width '(mk_adslot a1 a2 a3 a4 a5 _ a7 a8 a9 a10 a11 a12 a13 a14 a15 a16 a17 a18 a19
    a20 a21 a22 a23 a24 a25 a26) x :=
  mk_adslot a1 a2 a3 a4 a5 x a7 a8 a9 a10 a11 a12 a13 a14 a15 a16 a17 a18 a19 a20 a21 a22 a23 a24 a25 a26.
Definition with_adslot_actual_height '(mk_adslot a1 a2 a3 a4 a5 a6 _ a8 a9 a10 a11 a12 a13 a14 a15 a16 a17 a18 a19
    a20 a21 a22 a23 a24 a25 a26) x :=
  mk_adslot a1 a2 a3 a4 a5 a6 x a8 a9 a10 a11 a12 a13 a14 a15 a16 a17 a18 a19 a20 a21 a22 a23 a24 a25 a26.
Definition with_adslot_slot_visibility '(mk_adslot a1 a2 a3 a4 a5 a6 a7 _ a9 a10 a11 a12 a13 a14 a15 a16 a17 a18 a19
    a20 a21 a22 a23 a24 a25 a26) x :=
  mk_adslot a1 a2 a3 a4 a5 a6 a7 x a9 a10 a11 a12 a13 a14 a15 a16 a17 a18 a19 a20 a21 a22 a23 a24 a25 a26.
Definition with_adslot_creative_type '(mk_adslot a1 a2 a3 a4 a5 a6 a7 a8 _ a10 a11 a12 a13 a14 a15 a16 a17 a18 a19
    a20 a21 a22 a23 a24 a25 a26) x :=
  mk_adslot a1 a2 a3 a4 a5 a6 a7 a8 x a10 a11 a12 a13 a14 a15 a16 a17 a18 a19 a20 a21 a22 a23 a24 a25 a26.
Definition with_adslot_creative_desc_type '(mk_adslot a1 a2 a3 a4 a5 a6 a7 a8 a9 _ a11 a12 a13 a14 a15 a16 a17 a18
    a19 a20 a21 a22 a23 a24 a25 a26) x :=
  mk_adslot a1 a2 a3 a4 a5 a6 a7 a8 a9 x a11 a12 a13 a14 a15 a16 a17 a18 a19 a20 a21 a22 a23 a24 a25 a26.
Definition with_adslot_excluded_landing_page_url '(mk_adslot a1 a2 a3 a4 a5 a6 a7 a8 a9 a10 _ a12 a13 a14 a15 a16
    a17 a18 a19 a20 a21 a22 a23 a24 a25 a26) x :=
  mk_adslot a1 a2 a3 a4 a5 a6 a7 a8 a9 a10 x a12 a13 a14 a15 a16 a17 a18 a19 a20 a21 a22 a23 a24 a25 a26.
Definition with_adslot_publisher_settings_list_id '(mk_adslot a1 a2 a3 a4 a5 a6 a7 a8 a9 a10 a11 _ a13 a14 a15 a16
    a17 a18 a19 a20 a21 a22 a23 a24 a25 a26) x :=
  mk_adslot a1 a2 a3 a4 a5 a6 a7 a8 a9 a10 a11 x a13 a14 a15 a16 a17 a18 a19 a20 a21 a22 a23 a24 a25 a26.
Definition with_adslot_minimum_cpm '(mk_adslot a1 a2 a3 a4 a5 a6 a7 a8 a9 a10 a11 a12 _ a14 a15 a16 a17 a18 a19 a20
    a21 a22 a23 a24 a25 a26) x :=
  mk_adslot a1 a2 a3 a4 a5 a6 a7 a8 a9 a10 a11 a12 x a14 a15 a16 a17 a18 a19 a20 a21 a22 a23 a24 a25 a26.
Definition with_adslot_max_video_duration '(mk_adslot a1 a2 a3 a4 a5 a6 a7 a8 a9 a10 a11 a12 a13 _ a15 a16 a17 a18
    a19 a20 a21 a22 a23 a24 a25 a26) x :=
  mk_adslot a1 a2 a3 a4 a5 a6 a7 a8 a9 a10 a11 a12 a13 x a15 a16 a17 a18 a19 a20 a21 a22 a23 a24 a25 a26.
Definition with_adslot_min_video_duration '(mk_adslot a1 a2 a3 a4 a5 a6 a7 a8 a9 a10 a11 a12 a13 a14 _ a16 a17 a18
    a19 a20 a21 a22 a23 a24 a25 a26) x :=
  mk_adslot a1 a2 a3 a4 a5 a6 a7 a8 a9 a10 a11 a12 a13 a14 x a16 a17 a18 a19 a20 a21 a22 a23 a24 a25 a26.
Definition with_adslot_video_start_delay '(mk_adslot a1 a2 a3 a4 a5 a6 a7 a8 a9 a10 a11 a12 a13 a14 a15 _ a17 a18
    a19 a20 a21 a22 a23 a24 a25 a26) x :=
  mk_adslot a1 a2 a3 a4 a5 a6 a7 a8 a9 a10 a11 a12 a13 a14 a15 x a17 a18 a19 a20 a21 a22 a23 a24 a25 a26.
Definition with_adslot_video_info '(mk_adslot a1 a2 a3 a4 a5 a6 a7 a8 a9 a10 a11 a12 a13 a14 a15 a16 _ a18 a19 a20
    a21 a22 a23 a24 a25 a26) x :=
  mk_adslot a1 a2 a3 a4 a5 a6 a7 a8 a9 a10 a11 a12 a13 a14 a15 a16 x a18 a19 a20 a21 a22 a23 a24 a25 a26.
Definition with_adslot_link_unit_info '(mk_adslot a1 a2 a3 a4 a5 a6 a7 a8 a9 a10 a11 a12 a13 a14 a15 a16 a17 _ a19
    a20 a21 a22 a23 a24 a25 a26) x :=
  mk_adslot a1 a2 a3 a4 a5 a6 a7 a8 a9 a10 a11 a12 a13 a14 a15 a16 a17 x a19 a20 a21 a22 a23 a24 a25 a26.
Definition with_adslot_preferred_order_info '(mk_adslot a1 a2 a3 a4 a5 a6 a7 a8 a9 a10 a11 a12 a13 a14 a15 a16 a17
    a18 _ a20 a21 a22 a23 a24 a25 a26) x :=
  mk_adslot a1 a2 a3 a4 a5 a6 a7 a8 a9 a10 a11 a12 a13 a14 a15 a16 a17 a18 x a20 a21 a22 a23 a24 a25 a26.
Definition with_adslot_guaranteed_orders '(mk_adslot a1 a2 a3 a4 a5 a6 a7 a8 a9 a10 a11 a12 a13 a14 a15 a16 a17 a18
    a19 _ a21 a22 a23 a24 a25 a26) x :=
  mk_adslot a1 a2 a3 a4 a5 a6 a7 a8 a9 a10 a11 a12 a13 a14 a15 a16 a17 a18 a19 x a21 a22 a23 a24 a25 a26.
Definition with_adslot_expand_creative_info '(mk_adslot a1 a2 a3 a4 a5 a6 a7 a8 a9 a10 a11 a12 a13 a14 a15 a16 a17
    a18 a19 a20 _ a22 a23 a24 a25 a26) x :=
  mk_adslot a1 a2 a3 a4 a5 a6 a7 a8 a9 a10 a11 a12 a13 a14 a15 a16 a17 a18 a19 a20 x a22 a23 a24 a25 a26.
Definition with_adslot_adslot_level '(mk_adslot a1 a2 a3 a4 a5 a6 a7 a8 a9 a10 a11 a12 a13 a14 a15 a16 a17 a18 a19
    a20 a21 _ a23 a24 a25 a26) x :=
  mk_adslot a1 a2 a3 a4 a5 a6 a7 a8 a9 a10 a11 a12 a13 a14 a15 a16 a17 a18 a19 a20 a21 x a23 a24 a25 a26.
Definition with_adslot_allowed_non_nativead '(mk_adslot a1 a2 a3 a4 a5 a6 a7 a8 a9 a10 a11 a12 a13 a14 a15 a16 a17
    a18 a19 a20 a21 a22 _ a24 a25 a26) x :=
  mk_adslot a1 a2 a3 a4 a5 a6 a7 a8 a9 a10 a11 a12 a13 a14 a15 a16 a17 a18 a19 a20 a21 a22 x a24 a25 a26.
Definition with_adslot_nativead_param '(mk_adslot a1 a2 a3 a4 a5 a6 a7 a8 a9 a10 a11 a12 a13 a14 a15 a16 a17 a18 a19
    a20 a21 a22 a23 _ a25 a26) x :=
  mk_adslot a1 a2 a3 a4 a5 a6 a7 a8 a9 a10 a11 a12 a13 a14 a15 a16 a17 a18 a19 a20 a21 a22 a23 x a25 a26.
Definition with_adslot_secure '(mk_adslot a1 a2 a3 a4 a5 a6 a7 a8 a9 a10 a11 a12 a13 a14 a15 a16 a17 a18 a19 a20 a21
    a22 a23 a24 _ a26) x :=
  mk_adslot a1 a2 a3 a4 a5 a6 a7 a8 a9 a10 a11 a12 a13 a14 a15 a16 a17 a18 a19 a20 a21 a22 a23 a24 x a26.
Definition with_adslot_unknown '(mk_adslot a1 a2 a3 a4 a5 a6 a7 a8 a9 a10 a11 a12 a13 a14 a15 a16 a17 a18 a19 a20
    a21 a22 a23 a24 a25 _) x :=
  mk_adslot a1 a2 a3 a4 a5 a6 a7 a8 a9 a10 a11 a12 a13 a14 a15 a16 a17 a18 a19 a20 a21 a22 a23 a24 a25 x.

Section Env.
Context `{NgxEnv}.

Definition ngx_bid_request_ad_slot__add__creative_type (obj : ngx_bid_request_ad_slot_t) (pl : bool) (c : ngx_protobuf_context_t) :=
  add_element 0 adslot_creative_type with_adslot_creative_type obj pl c.
Definition ngx_bid_request_ad_slot__add__creative_desc_type (obj : ngx_bid_request_ad_slot_t) (pl : bool) (c : ngx_protobuf_context_t) :=
  add_element 0 adslot_creative_desc_type with_adslot_creative_desc_type obj pl c.
Definition ngx_bid_request_ad_slot__add__excluded_landing_page_url (obj : ngx_bid_request_ad_slot_t) (pl : bool) (c : ngx_protobuf_context_t) :=
  add_element ngx_str_null adslot_excluded_landing_page_url with_adslot_excluded_landing_page_url obj pl c.
Definition ngx_bid_request_ad_slot__add__publisher_settings_list_id (obj : ngx_bid_request_ad_slot_t) (pl : bool) (c : ngx_protobuf_context_t) :=
  add_element 0 adslot_publisher_settings_list_id with_adslot_publisher_settings_list_id obj pl c.
Definition ngx_bid_request_ad_slot__add__guaranteed_orders (obj : ngx_bid_request_ad_slot_t) (pl : bool) (c : ngx_protobuf_context_t) :=
  add_element gorder_zero adslot_guaranteed_orders with_adslot_guaranteed_orders obj pl c.

Definition ngx_bid_request_ad_slot__unpack_video_info (fuel : nat) :=
  unpack_member video_info_zero (ngx_bid_request_ad_slot_video_info__unpack fuel) adslot_video_info with_adslot_video_info.
Definition ngx_bid_request_ad_slot__unpack_link_unit_info (fuel : nat) :=
  unpack_member link_unit_zero (ngx_bid_request_ad_slot_link_unit_info__unpack fuel) adslot_link_unit_info with_adslot_link_unit_info.
Definition ngx_bid_request_ad_slot__unpack_preferred_order_info (fuel : nat) :=
  unpack_member pinfo_zero (ngx_bid_request_ad_slot_preferred_order_info__unpack fuel) adslot_preferred_order_info with_adslot_preferred_order_info.
Definition ngx_bid_request_ad_slot__unpack_guaranteed_orders (fuel : nat) :=
  unpack_element gorder_zero (ngx_bid_request_ad_slot_guaranteed_order__unpack fuel) adslot_guaranteed_orders with_adslot_guaranteed_orders.
Definition ngx_bid_request_ad_slot__unpack_expand_creative_info (fuel : nat) :=
  unpack_member expand_zero (ngx_bid_request_ad_slot_expand_creative_info__unpack fuel) adslot_expand_creative_info with_adslot_expand_creative_info.
Definition ngx_bid_request_ad_slot__unpack_nativead_param (fuel : nat) :=
  unpack_member native_param_zero (ngx_bid_request_ad_slot_native_ad_param__unpack fuel) adslot_nativead_param with_adslot_nativead_param.

Definition adslot_switch (fuel : nat) (field wire : Z) (obj : ngx_bid_request_ad_slot_t) (c : ngx_protobuf_context_t)
  : result ngx_bid_request_ad_slot_t :=
  match field with
  | 1 => unpack_u64 id with_adslot_ad_block_key wire obj c
  | 2 => unpack_u32 i32 with_adslot_sequence_id wire obj c
  | 3 => unpack_u32 i32 with_adslot_adslot_type wire obj c
  | 4 => unpack_u32 i32 with_adslot_width wire obj c
  | 5 => unpack_u32 i32 with_adslot_height wire obj c
  | 18 => unpack_u32 i32 with_adslot_actual_width wire obj c
  | 19 => unpack_u32 i32 with_adslot_actual_height wire obj c
  | 6 => unpack_u32 i32 with_adslot_slot_visibility wire obj c
  | 7 => unpack_packed fuel i32 adslot_creative_type with_adslot_creative_type wire obj c
  | 22 => unpack_u32s id adslot_creative_desc_type with_adslot_creative_desc_type wire obj c
  | 8 => unpack_strs adslot_excluded_landing_page_url with_adslot_excluded_landing_page_url wire obj c
  | 14 => unpack_fixed64s adslot_publisher_settings_list_id with_adslot_publisher_settings_list_id wire obj c
  | 9 => unpack_u32 i32 with_adslot_minimum_cpm wire obj c
  | 10 => unpack_u32 i32 with_adslot_max_video_duration wire obj c
  | 11 => unpack_u32 i32 with_adslot_min_video_duration wire obj c
  | 12 => unpack_u32 i32 with_adslot_video_start_delay wire obj c
  | 15 => unpack_msg (ngx_bid_request_ad_slot__unpack_video_info fuel) wire obj c
  | 16 => unpack_msg (ngx_bid_request_ad_slot__unpack_link_unit_info fuel) wire obj c
  | 13 => unpack_msg (ngx_bid_request_ad_slot__unpack_preferred_order_info fuel) wire obj c
  | 20 => unpack_msg (ngx_bid_request_ad_slot__unpack_guaranteed_orders fuel) wire obj c
  | 17 => unpack_msg (ngx_bid_request_ad_slot__unpack_expand_creative_info fuel) wire obj c
  | 21 => unpack_u32 id with_adslot_adslot_level wire obj c
  | 23 => unpack_bool with_adslot_allowed_non_nativead wire obj c
  | 24 => unpack_msg (ngx_bid_request_ad_slot__unpack_nativead_param fuel) wire obj c
  | 25 => unpack_bool with_adslot_secure wire obj c
  | _ => unpack_unknown adslot_unknown with_adslot_unknown field wire obj c
  end.

Definition ngx_bid_request_ad_slot__unpack (fuel : nat) := unpack_loop (adslot_switch fuel) fuel.

Definition ngx_bid_request_ad_slot__size (obj : ngx_bid_request_ad_slot_t) : Z :=
  let size := 0 in
  let size := u64 (size + size_u64 (adslot_ad_block_key obj) 1) in
  let size := u64 (size + size_u32 (adslot_sequence_id obj) 2) in
  let size := u64 (size + size_u32 (adslot_adslot_type obj) 3) in
  let size := u64 (size + size_u32 (adslot_width obj) 4) in
  let size := u64 (size + size_u32 (adslot_height obj) 5) in
  let size := u64 (size + size_u32 (adslot_actual_width obj) 18) in
  let size := u64 (size + size_u32 (adslot_actual_height obj) 19) in
  let size := u64 (size + size_u32 (adslot_slot_visibility obj) 6) in
  let size := size_packed (adslot_creative_type obj) 7 size in
  let size := size_u32s (adslot_creative_desc_type obj) 22 size in
  let size := size_strs (adslot_excluded_landing_page_url obj) 8 size in
  let size := size_fixed64s (adslot_publisher_settings_list_id obj) 14 size in
  let size := u64 (size + size_u32 (adslot_minimum_cpm obj) 9) in
  let size := u64 (size + size_u32 (adslot_max_video_duration obj) 10) in
  let size := u64 (size + size_u32 (adslot_min_video_duration obj) 11) in
  let size := u64 (size + size_u32 (adslot_video_start_delay obj) 12) in
  let size := u64 (size + size_member ngx_bid_request_ad_slot_video_info__size (adslot_video_info obj) 15) in
  let size := u64 (size + size_member ngx_bid_request_ad_slot_link_unit_info__size (adslot_link_unit_info obj) 16) in
  let size := u64 (size + size_member ngx_bid_request_ad_slot_preferred_order_info__size (adslot_preferred_order_info obj) 13) in
  let size := size_elements ngx_bid_request_ad_slot_guaranteed_order__size (adslot_guaranteed_orders obj) 20 size in
  let size := u64 (size + size_member ngx_bid_request_ad_slot_expand_creative_info__size (adslot_expand_creative_info obj) 17) in
  let size := u64 (size + size_u32 (adslot_adslot_level obj) 21) in
  let size := u64 (size + size_bool (adslot_allowed_non_nativead obj) 23) in
  let size := u64 (size + size_member ngx_bid_request_ad_slot_native_ad_param__size (adslot_nativead_param obj) 24) in
  let size := u64 (size + size_bool (adslot_secure obj) 25) in
  size_unknowns (adslot_unknown obj) size.

Definition ngx_bid_request_ad_slot__pack (obj : ngx_bid_request_ad_slot_t) (c : ngx_protobuf_context_t)
  : cres (ngx_rc * ngx_protobuf_context_t) :=
  pack_guard (ngx_bid_request_ad_slot__size obj) c (fun c =>
    c ← pack_u64 (adslot_ad_block_key obj) 1 c;
    c ← pack_u32 (adslot_sequence_id obj) 2 c;
    c ← pack_u32 (adslot_adslot_type obj) 3 c;
    c ← pack_u32 (adslot_width obj) 4 c;
    c ← pack_u32 (adslot_height obj) 5 c;
    c ← pack_u32 (adslot_slot_visibility obj) 6 c;
    c ← pack_packed (adslot_creative_type obj) 7 c;
    c ← pack_strs (adslot_excluded_landing_page_url obj) 8 c;
    c ← pack_u32 (adslot_minimum_cpm obj) 9 c;
    c ← pack_u32 (adslot_max_video_duration obj) 10 c;
    c ← pack_u32 (adslot_min_video_duration obj) 11 c;
    c ← pack_u32 (adslot_video_start_delay obj) 12 c;
    c ← pack_member ngx_bid_request_ad_slot_preferred_order_info__size ngx_bid_request_ad_slot_preferred_order_info__pack
           (adslot_preferred_order_info obj) 13 c;
    c ← pack_fixed64s (adslot_publisher_settings_list_id obj) 14 c;
    c ← pack_member ngx_bid_request_ad_slot_video_info__size ngx_bid_request_ad_slot_video_info__pack
           (adslot_video_info obj) 15 c;
    c ← pack_member ngx_bid_request_ad_slot_link_unit_info__size ngx_bid_request_ad_slot_link_unit_info__pack
           (adslot_link_unit_info obj) 16 c;
    c ← pack_member ngx_bid_request_ad_slot_expand_creative_info__size ngx_bid_request_ad_slot_expand_creative_info__pack
           (adslot_expand_creative_info obj) 17 c;
    c ← pack_u32 (adslot_actual_width obj) 18 c;
    c ← pack_u32 (adslot_actual_height obj) 19 c;
    c ← pack_elements ngx_bid_request_ad_slot_guaranteed_order__size ngx_bid_request_ad_slot_guaranteed_order__pack
           (adslot_guaranteed_orders obj) 20 c;
    c ← pack_u32 (adslot_adslot_level obj) 21 c;
    c ← pack_u32s (adslot_creative_desc_type obj) 22 c;
    c ← pack_bool (adslot_allowed_non_nativead obj) 23 c;
    c ← pack_member ngx_bid_request_ad_slot_native_ad_param__size ngx_bid_request_ad_slot_native_ad_param__pack
           (adslot_nativead_param obj) 24 c;
    c ← pack_bool (adslot_secure obj) 25 c;
    pack_unknowns (elts (adslot_unknown obj)) c).
End Env.

(** ** BidRequest *)

Record ngx_bid_request_t := mk_bid { bid_id : fld ngx_str_t; bid_ip : fld ngx_str_t; bid_user_agent : fld ngx_str_t;
    bid_baidu_user_id : fld ngx_str_t; bid_baidu_user_id_version : fld Z;
    bid_baidu_id_list : fld (array ngx_bid_request_baidu_id_t); bid_buyer_user_id : fld ngx_str_t;
    bid_user_category : fld (array Z); bid_customized_user_tag : fld (option ngx_bid_request_customized_user_tag_t);
    bid_gender : fld Z; bid_detected_language : fld ngx_str_t; bid_flash_version : fld ngx_str_t;
    bid_user_geo_info : fld (option ngx_bid_request_geo_t); bid_url : fld ngx_str_t; bid_referer : fld ngx_str_t;
    bid_site_category : fld Z; bid_site_quality : fld Z; bid_page_type : fld Z;
    bid_page_keyword : fld (array ngx_str_t); bid_page_quality : fld Z; bid_page_vertical : fld Z;
    bid_excluded_product_category : fld (array Z); bid_mobile : fld (option ngx_bid_request_mobile_t);
    bid_video : fld (option ngx_bid_request_video_t); bid_adslot : fld (array ngx_bid_request_ad_slot_t);
    bid_is_test : fld Z; bid_is_ping : fld Z; bid_unknown : array ngx_protobuf_unknown_field_t }.

(** What [ngx_bid_request__alloc] and [__clear] give. *)
Definition bid_zero : ngx_bid_request_t := mk_bid (Fld false ngx_str_null) (Fld false ngx_str_null)
    (Fld false ngx_str_null) (Fld false ngx_str_null) (Fld false 0) (Fld false None) (Fld false ngx_str_null)
    (Fld false None) (Fld false None) (Fld false 0) (Fld false ngx_str_null) (Fld false ngx_str_null)
    (Fld false None) (Fld false ngx_str_null) (Fld false ngx_str_null) (Fld false 0) (Fld false 0) (Fld false 0)
    (Fld false None) (Fld false 0) (Fld false 0) (Fld false None) (Fld false None) (Fld false None) (Fld false None)
    (Fld false 0) (Fld false 0) None.

Definition with_bid_id '(mk_bid _ a2 a3 a4 a5 a6 a7 a8 a9 a10 a11 a12 a13 a14 a15 a16 a17 a18 a19 a20 a21 a22 a23
    a24 a25 a26 a27 a28) x :=
  mk_bid x a2 a3 a4 a5 a6 a7 a8 a9 a10 a11 a12 a13 a14 a15 a16 a17 a18 a19 a20 a21 a22 a23 a24 a25 a26 a27 a28.
Definition with_bid_ip '(mk_bid a1 _ a3 a4 a5 a6 a7 a8 a9 a10 a11 a12 a13 a14 a15 a16 a17 a18 a19 a20 a21 a22 a23
    a24 a25 a26 a27 a28) x :=
  mk_bid a1 x a3 a4 a5 a6 a7 a8 a9 a10 a11 a12 a13 a14 a15 a16 a17 a18 a19 a20 a21 a22 a23 a24 a25 a26 a27 a28.
Definition with_bid_user_agent '(mk_bid a1 a2 _ a4 a5 a6 a7 a8 a9 a10 a11 a12 a13 a14 a15 a16 a17 a18 a19 a20 a21
    a22 a23 a24 a25 a26 a27 a28) x :=
  mk_bid a1 a2 x a4 a5 a6 a7 a8 a9 a10 a11 a12 a13 a14 a15 a16 a17 a18 a19 a20 a21 a22 a23 a24 a25 a26 a27 a28.
Definition with_bid_baidu_user_id '(mk_bid a1 a2 a3 _ a5 a6 a7 a8 a9 a10 a11 a12 a13 a14 a15 a16 a17 a18 a19 a20 a21
    a22 a23 a24 a25 a26 a27 a28) x :=
  mk_bid a1 a2 a3 x a5 a6 a7 a8 a9 a10 a11 a12 a13 a14 a15 a16 a17 a18 a19 a20 a21 a22 a23 a24 a25 a26 a27 a28.
Definition with_bid_baidu_user_id_version '(mk_bid a1 a2 a3 a4 _ a6 a7 a8 a9 a10 a11 a12 a13 a14 a15 a16 a17 a18 a19
    a20 a21 a22 a23 a24 a25 a26 a27 a28) x :=
  mk_bid a1 a2 a3 a4 x a6 a7 a8 a9 a10 a11 a12 a13 a14 a15 a16 a17 a18 a19 a20 a21 a22 a23 a24 a25 a26 a27 a28.
Definition with_bid_baidu_id_list '(mk_bid a1 a2 a3 a4 a5 _ a7 a8 a9 a10 a11 a12 a13 a14 a15 a16 a17 a18 a19 a20 a21
    a22 a23 a24 a25 a26 a27 a28) x :=
  mk_bid a1 a2 a3 a4 a5 x a7 a8 a9 a10 a11 a12 a13 a14 a15 a16 a17 a18 a19 a20 a21 a22 a23 a24 a25 a26 a27 a28.
Definition with_bid_buyer_user_id '(mk_bid a1 a2 a3 a4 a5 a6 _ a8 a9 a10 a11 a12 a13 a14 a15 a16 a17 a18 a19 a20 a21
    a22 a23 a24 a25 a26 a27 a28) x :=
  mk_bid a1 a2 a3 a4 a5 a6 x a8 a9 a10 a11 a12 a13 a14 a15 a16 a17 a18 a19 a20 a21 a22 a23 a24 a25 a26 a27 a28.
Definition with_bid_user_category '(mk_bid a1 a2 a3 a4 a5 a6 a7 _ a9 a10 a11 a12 a13 a14 a15 a16 a17 a18 a19 a20 a21
    a22 a23 a24 a25 a26 a27 a28) x :=
  mk_bid a1 a2 a3 a4 a5 a6 a7 x a9 a10 a11 a12 a13 a14 a15 a16 a17 a18 a19 a20 a21 a22 a23 a24 a25 a26 a27 a28.
Definition with_bid_customized_user_tag '(mk_bid a1 a2 a3 a4 a5 a6 a7 a8 _ a10 a11 a12 a13 a14 a15 a16 a17 a18 a19
    a20 a21 a22 a23 a24 a25 a26 a27 a28) x :=
  mk_bid a1 a2 a3 a4 a5 a6 a7 a8 x a10 a11 a12 a13 a14 a15 a16 a17 a18 a19 a20 a21 a22 a23 a24 a25 a26 a27 a28.
Definition with_bid_gender '(mk_bid a1 a2 a3 a4 a5 a6 a7 a8 a9 _ a11 a12 a13 a14 a15 a16 a17 a18 a19 a20 a21 a22 a23
    a24 a25 a26 a27 a28) x :=
  mk_bid a1 a2 a3 a4 a5 a6 a7 a8 a9 x a11 a12 a13 a14 a15 a16 a17 a18 a19 a20 a21 a22 a23 a24 a25 a26 a27 a28.
Definition with_bid_detected_language '(mk_bid a1 a2 a3 a4 a5 a6 a7 a8 a9 a10 _ a12 a13 a14 a15 a16 a17 a18 a19 a20
    a21 a22 a23 a24 a25 a26 a27 a28) x :=
  mk_bid a1 a2 a3 a4 a5 a6 a7 a8 a9 a10 x a12 a13 a14 a15 a16 a17 a18 a19 a20 a21 a22 a23 a24 a25 a26 a27 a28.
Definition with_bid_flash_version '(mk_bid a1 a2 a3 a4 a5 a6 a7 a8 a9 a10 a11 _ a13 a14 a15 a16 a17 a18 a19 a20 a21
    a22 a23 a24 a25 a26 a27 a28) x :=
  mk_bid a1 a2 a3 a4 a5 a6 a7 a8 a9 a10 a11 x a13 a14 a15 a16 a17 a18 a19 a20 a21 a22 a23 a24 a25 a26 a27 a28.
Definition with_bid_user_geo_info '(mk_bid a1 a2 a3 a4 a5 a6 a7 a8 a9 a10 a11 a12 _ a14 a15 a16 a17 a18 a19 a20 a21
    a22 a23 a24 a25 a26 a27 a28) x :=
  mk_bid a1 a2 a3 a4 a5 a6 a7 a8 a9 a10 a11 a12 x a14 a15 a16 a17 a18 a19 a20 a21 a22 a23 a24 a25 a26 a27 a28.
Definition with_bid_url '(mk_bid a1 a2 a3 a4 a5 a6 a7 a8 a9 a10 a11 a12 a13 _ a15 a16 a17 a18 a19 a20 a21 a22 a23
    a24 a25 a26 a27 a28) x :=
  mk_bid a1 a2 a3 a4 a5 a6 a7 a8 a9 a10 a11 a12 a13 x a15 a16 a17 a18 a19 a20 a21 a22 a23 a24 a25 a26 a27 a28.
Definition with_bid_referer '(mk_bid a1 a2 a3 a4 a5 a6 a7 a8 a9 a10 a11 a12 a13 a14 _ a16 a17 a18 a19 a20 a21 a22
    a23 a24 a25 a26 a27 a28) x :=
  mk_bid a1 a2 a3 a4 a5 a6 a7 a8 a9 a10 a11 a12 a13 a14 x a16 a17 a18 a19 a20 a21 a22 a23 a24 a25 a26 a27 a28.
Definition with_bid_site_category '(mk_bid a1 a2 a3 a4 a5 a6 a7 a8 a9 a10 a11 a12 a13 a14 a15 _ a17 a18 a19 a20 a21
    a22 a23 a24 a25 a26 a27 a28) x :=
  mk_bid a1 a2 a3 a4 a5 a6 a7 a8 a9 a10 a11 a12 a13 a14 a15 x a17 a18 a19 a20 a21 a22 a23 a24 a25 a26 a27 a28.
Definition with_bid_site_quality '(mk_bid a1 a2 a3 a4 a5 a6 a7 a8 a9 a10 a11 a12 a13 a14 a15 a16 _ a18 a19 a20 a21
    a22 a23 a24 a25 a26 a27 a28) x :=
  mk_bid a1 a2 a3 a4 a5 a6 a7 a8 a9 a10 a11 a12 a13 a14 a15 a16 x a18 a19 a20 a21 a22 a23 a24 a25 a26 a27 a28.
Definition with_bid_page_type '(mk_bid a1 a2 a3 a4 a5 a6 a7 a8 a9 a10 a11 a12 a13 a14 a15 a16 a17 _ a19 a20 a21 a22
    a23 a24 a25 a26 a27 a28) x :=
  mk_bid a1 a2 a3 a4 a5 a6 a7 a8 a9 a10 a11 a12 a13 a14 a15 a16 a17 x a19 a20 a21 a22 a23 a24 a25 a26 a27 a28.
Definition with_bid_page_keyword '(mk_bid a1 a2 a3 a4 a5 a6 a7 a8 a9 a10 a11 a12 a13 a14 a15 a16 a17 a18 _ a20 a21
    a22 a23 a24 a25 a26 a27 a28) x :=
  mk_bid a1 a2 a3 a4 a5 a6 a7 a8 a9 a10 a11 a12 a13 a14 a15 a16 a17 a18 x a20 a21 a22 a23 a24 a25 a26 a27 a28.
Definition with_bid_page_quality '(mk_bid a1 a2 a3 a4 a5 a6 a7 a8 a9 a10 a11 a12 a13 a14 a15 a16 a17 a18 a19 _ a21
    a22 a23 a24 a25 a26 a27 a28) x :=
  mk_bid a1 a2 a3 a4 a5 a6 a7 a8 a9 a10 a11 a12 a13 a14 a15 a16 a17 a18 a19 x a21 a22 a23 a24 a25 a26 a27 a28.
Definition with_bid_page_vertical '(mk_bid a1 a2 a3 a4 a5 a6 a7 a8 a9 a10 a11 a12 a13 a14 a15 a16 a17 a18 a19 a20 _
    a22 a23 a24 a25 a26 a27 a28) x :=
  mk_bid a1 a2 a3 a4 a5 a6 a7 a8 a9 a10 a11 a12 a13 a14 a15 a16 a17 a18 a19 a20 x a22 a23 a24 a25 a26 a27 a28.
Definition with_bid_excluded_product_category '(mk_bid a1 a2 a3 a4 a5 a6 a7 a8 a9 a10 a11 a12 a13 a14 a15 a16 a17
    a18 a19 a20 a21 _ a23 a24 a25 a26 a27 a28) x :=
  mk_bid a1 a2 a3 a4 a5 a6 a7 a8 a9 a10 a11 a12 a13 a14 a15 a16 a17 a18 a19 a20 a21 x a23 a24 a25 a26 a27 a28.
Definition with_bid_mobile '(mk_bid a1 a2 a3 a4 a5 a6 a7 a8 a9 a10 a11 a12 a13 a14 a15 a16 a17 a18 a19 a20 a21 a22 _
    a24 a25 a26 a27 a28) x :=
  mk_bid a1 a2 a3 a4 a5 a6 a7 a8 a9 a10 a11 a12 a13 a14 a15 a16 a17 a18 a19 a20 a21 a22 x a24 a25 a26 a27 a28.
Definition with_bid_video '(mk_bid a1 a2 a3 a4 a5 a6 a7 a8 a9 a10 a11 a12 a13 a14 a15 a16 a17 a18 a19 a20 a21 a22
    a23 _ a25 a26 a27 a28) x :=
  mk_bid a1 a2 a3 a4 a5 a6 a7 a8 a9 a10 a11 a12 a13 a14 a15 a16 a17 a18 a19 a20 a21 a22 a23 x a25 a26 a27 a28.
Definition with_bid_adslot '(mk_bid a1 a2 a3 a4 a5 a6 a7 a8 a9 a10 a11 a12 a13 a14 a15 a16 a17 a18 a19 a20 a21 a22
    a23 a24 _ a26 a27 a28) x :=
  mk_bid a1 a2 a3 a4 a5 a6 a7 a8 a9 a10 a11 a12 a13 a14 a15 a16 a17 a18 a19 a20 a21 a22 a23 a24 x a26 a27 a28.
Definition with_bid_is_test '(mk_bid a1 a2 a3 a4 a5 a6 a7 a8 a9 a10 a11 a12 a13 a14 a15 a16 a17 a18 a19 a20 a21 a22
    a23 a24 a25 _ a27 a28) x :=
  mk_bid a1 a2 a3 a4 a5 a6 a7 a8 a9 a10 a11 a12 a13 a14 a15 a16 a17 a18 a19 a20 a21 a22 a23 a24 a25 x a27 a28.
Definition with_bid_is_ping '(mk_bid a1 a2 a3 a4 a5 a6 a7 a8 a9 a10 a11 a12 a13 a14 a15 a16 a17 a18 a19 a20 a21 a22
    a23 a24 a25 a26 _ a28) x :=
  mk_bid a1 a2 a3 a4 a5 a6 a7 a8 a9 a10 a11 a12 a13 a14 a15 a16 a17 a18 a19 a20 a21 a22 a23 a24 a25 a26 x a28.
Definition with_bid_unknown '(mk_bid a1 a2 a3 a4 a5 a6 a7 a8 a9 a10 a11 a12 a13 a14 a15 a16 a17 a18 a19 a20 a21 a22
    a23 a24 a25 a26 a27 _) x :=
  mk_bid a1 a2 a3 a4 a5 a6 a7 a8 a9 a10 a11 a12 a13 a14 a15 a16 a17 a18 a19 a20 a21 a22 a23 a24 a25 a26 a27 x.

Section Env.
Context `{NgxEnv}.

Definition ngx_bid_request__add__baidu_id_list (obj : ngx_bid_request_t) (pl : bool) (c : ngx_protobuf_context_t) :=
  add_element baidu_id_zero bid_baidu_id_list with_bid_baidu_id_list obj pl c.
Definition ngx_bid_request__add__user_category (obj : ngx_bid_request_t) (pl : bool) (c : ngx_protobuf_context_t) :=
  add_element 0 bid_user_category with_bid_user_category obj pl c.
Definition ngx_bid_request__add__page_keyword (obj : ngx_bid_request_t) (pl : bool) (c : ngx_protobuf_context_t) :=
  add_element ngx_str_null bid_page_keyword with_bid_page_keyword obj pl c.
Definition ngx_bid_request__add__excluded_product_category (obj : ngx_bid_request_t) (pl : bool) (c : ngx_protobuf_context_t) :=
  add_element 0 bid_excluded_product_category with_bid_excluded_product_category obj pl c.
Definition ngx_bid_request__add__adslot (obj : ngx_bid_request_t) (pl : bool) (c : ngx_protobuf_context_t) :=
  add_element adslot_zero bid_adslot with_bid_adslot obj pl c.

Definition ngx_bid_request__unpack_baidu_id_list (fuel : nat) :=
  unpack_element baidu_id_zero (ngx_bid_request_baidu_id__unpack fuel) bid_baidu_id_list with_bid_baidu_id_list.
Definition ngx_bid_request__unpack_customized_user_tag (fuel : nat) :=
  unpack_member user_tag_zero (ngx_bid_request_customized_user_tag__unpack fuel) bid_customized_user_tag with_bid_customized_user_tag.
Definition ngx_bid_request__unpack_user_geo_info (fuel : nat) :=
  unpack_member geo_zero (ngx_bid_request_geo__unpack fuel) bid_user_geo_info with_bid_user_geo_info.
Definition ngx_bid_request__unpack_mobile (fuel : nat) :=
  unpack_member mobile_zero (ngx_bid_request_mobile__unpack fuel) bid_mobile with_bid_mobile.
Definition ngx_bid_request__unpack_video (fuel : nat) :=
  unpack_member bvideo_zero (ngx_bid_request_video__unpack fuel) bid_video with_bid_video.
Definition ngx_bid_request__unpack_adslot (fuel : nat) :=
  unpack_element adslot_zero (ngx_bid_request_ad_slot__unpack fuel) bid_adslot with_bid_adslot.

Definition bid_switch (fuel : nat) (field wire : Z) (obj : ngx_bid_request_t) (c : ngx_protobuf_context_t)
  : result ngx_bid_request_t :=
  match field with
  | 1 => unpack_str bid_id with_bid_id wire obj c
  | 2 => unpack_str bid_ip with_bid_ip wire obj c
  | 3 => unpack_str bid_user_agent with_bid_user_agent wire obj c
  | 4 => unpack_str bid_baidu_user_id with_bid_baidu_user_id wire obj c
  | 5 => unpack_u32 i32 with_bid_baidu_user_id_version wire obj c
  | 8 => unpack_msg (ngx_bid_request__unpack_baidu_id_list fuel) wire obj c
  | 32 => unpack_str bid_buyer_user_id with_bid_buyer_user_id wire obj c
  | 6 => unpack_u64s i64 bid_user_category with_bid_user_category wire obj c
  | 31 => unpack_msg (ngx_bid_request__unpack_customized_user_tag fuel) wire obj c
  | 7 => unpack_u32 id with_bid_gender wire obj c
  | 9 => unpack_str bid_detected_language with_bid_detected_language wire obj c
  | 10 => unpack_str bid_flash_version with_bid_flash_version wire obj c
  | 28 => unpack_msg (ngx_bid_request__unpack_user_geo_info fuel) wire obj c
  | 11 => unpack_str bid_url with_bid_url wire obj c
  | 12 => unpack_str bid_referer with_bid_referer wire obj c
  | 13 => unpack_u32 i32 with_bid_site_category wire obj c
  | 14 => unpack_u32 i32 with_bid_site_quality wire obj c
  | 15 => unpack_u32 i32 with_bid_page_type wire obj c
  | 17 => unpack_strs bid_page_keyword with_bid_page_keyword wire obj c
  | 18 => unpack_u32 i32 with_bid_page_quality wire obj c
  | 21 => unpack_u32 i32 with_bid_page_vertical wire obj c
  | 19 => unpack_packed fuel i32 bid_excluded_product_category with_bid_excluded_product_category wire obj c
  | 29 => unpack_msg (ngx_bid_request__unpack_mobile fuel) wire obj c
  | 30 => unpack_msg (ngx_bid_request__unpack_video fuel) wire obj c
  | 20 => unpack_msg (ngx_bid_request__unpack_adslot fuel) wire obj c
  | 26 => unpack_bool with_bid_is_test wire obj c
  | 27 => unpack_bool with_bid_is_ping wire obj c
  | _ => unpack_unknown bid_unknown with_bid_unknown field wire obj c
  end.

Definition ngx_bid_request__unpack (fuel : nat) := unpack_loop (bid_switch fuel) fuel.

Definition ngx_bid_request__size (obj : ngx_bid_request_t) : Z :=
  let size := 0 in
  let size := u64 (size + size_str (bid_id obj) 1) in
  let size := u64 (size + size_str (bid_ip obj) 2) in
  let size := u64 (size + size_str (bid_user_agent obj) 3) in
  let size := u64 (size + size_str (bid_baidu_user_id obj) 4) in
  let size := u64 (size + size_u32 (bid_baidu_user_id_version obj) 5) in
  let size := size_elements ngx_bid_request_baidu_id__size (bid_baidu_id_list obj) 8 size in
  let size := u64 (size + size_str (bid_buyer_user_id obj) 32) in
  let size := size_u64s (bid_user_category obj) 6 size in
  let size := u64 (size + size_member ngx_bid_request_customized_user_tag__size (bid_customized_user_tag obj) 31) in
  let size := u64 (size + size_u32 (bid_gender obj) 7) in
  let size := u64 (size + size_str (bid_detected_language obj) 9) in
  let size := u64 (size + size_str (bid_flash_version obj) 10) in
  let size := u64 (size + size_member ngx_bid_request_geo__size (bid_user_geo_info obj) 28) in
  let size := u64 (size + size_str (bid_url obj) 11) in
  let size := u64 (size + size_str (bid_referer obj) 12) in
  let size := u64 (size + size_u32 (bid_site_category obj) 13) in
  let size := u64 (size + size_u32 (bid_site_quality obj) 14) in
  let size := u64 (size + size_u32 (bid_page_type obj) 15) in
  let size := size_strs (bid_page_keyword obj) 17 size in
  let size := u64 (size + size_u32 (bid_page_quality obj) 18) in
  let size := u64 (size + size_u32 (bid_page_vertical obj) 21) in
  let size := size_packed (bid_excluded_product_category obj) 19 size in
  let size := u64 (size + size_member ngx_bid_request_mobile__size (bid_mobile obj) 29) in
  let size := u64 (size + size_member ngx_bid_request_video__size (bid_video obj) 30) in
  let size := size_elements ngx_bid_request_ad_slot__size (bid_adslot obj) 20 size in
  let size := u64 (size + size_bool (bid_is_test obj) 26) in
  let size := u64 (size + size_bool (bid_is_ping obj) 27) in
  size_unknowns (bid_unknown obj) size.

Definition ngx_bid_request__pack (obj : ngx_bid_request_t) (c : ngx_protobuf_context_t)
  : cres (ngx_rc * ngx_protobuf_context_t) :=
  pack_guard (ngx_bid_request__size obj) c (fun c =>
    c ← pack_str (bid_id obj) 1 c;
    c ← pack_str (bid_ip obj) 2 c;
    c ← pack_str (bid_user_agent obj) 3 c;
    c ← pack_str (bid_baidu_user_id obj) 4 c;
    c ← pack_u32 (bid_baidu_user_id_version obj) 5 c;
    c ← pack_u64s (bid_user_category obj) 6 c;
    c ← pack_u32 (bid_gender obj) 7 c;
    c ← pack_elements ngx_bid_request_baidu_id__size ngx_bid_request_baidu_id__pack (bid_baidu_id_list obj) 8 c;
    c ← pack_str (bid_detected_language obj) 9 c;
    c ← pack_str (bid_flash_version obj) 10 c;
    c ← pack_str (bid_url obj) 11 c;
    c ← pack_str (bid_referer obj) 12 c;
    c ← pack_u32 (bid_site_category obj) 13 c;
    c ← pack_u32 (bid_site_quality obj) 14 c;
    c ← pack_u32 (bid_page_type obj) 15 c;
    c ← pack_strs (bid_page_keyword obj) 17 c;
    c ← pack_u32 (bid_page_quality obj) 18 c;
    c ← pack_packed (bid_excluded_product_category obj) 19 c;
    c ← pack_elements ngx_bid_request_ad_slot__size ngx_bid_request_ad_slot__pack (bid_adslot obj) 20 c;
    c ← pack_u32 (bid_page_vertical obj) 21 c;
    c ← pack_bool (bid_is_test obj) 26 c;
    c ← pack_bool (bid_is_ping obj) 27 c;
    c ← pack_member ngx_bid_request_geo__size ngx_bid_request_geo__pack (bid_user_geo_info obj) 28 c;
    c ← pack_member ngx_bid_request_mobile__size ngx_bid_request_mobile__pack (bid_mobile obj) 29 c;
    c ← pack_member ngx_bid_request_video__size ngx_bid_request_video__pack (bid_video obj) 30 c;
    c ← pack_member ngx_bid_request_customized_user_tag__size ngx_bid_request_customized_user_tag__pack
           (bid_customized_user_tag obj) 31 c;
    c ← pack_str (bid_buyer_user_id obj) 32 c;
    pack_unknowns (elts (bid_unknown obj)) c).
End Env.

(** ** BidResponse.Ad.LinkUnitKeyword *)

Record ngx_bid_response_ad_link_unit_keyword_t := mk_rkeyword { rkeyword_keyword : fld ngx_str_t;
    rkeyword_selected_style_type : fld (array Z); rkeyword_unknown : array ngx_protobuf_unknown_field_t }.

(** What [ngx_bid_response_ad_link_unit_keyword__alloc] and [__clear] give. *)
Definition rkeyword_zero : ngx_bid_response_ad_link_unit_keyword_t := mk_rkeyword (Fld false ngx_str_null)
    (Fld false None) None.

Definition with_rkeyword_keyword '(mk_rkeyword _ a2 a3) x :=
  mk_rkeyword x a2 a3.
Definition with_rkeyword_selected_style_type '(mk_rkeyword a1 _ a3) x :=
  mk_rkeyword a1 x a3.
Definition with_rkeyword_unknown '(mk_rkeyword a1 a2 _) x :=
  mk_rkeyword a1 a2 x.

Section Env.
Context `{NgxEnv}.

Definition ngx_bid_response_ad_link_unit_keyword__add__selected_style_type (obj : ngx_bid_response_ad_link_unit_keyword_t) (pl : bool) (c : ngx_protobuf_context_t) :=
  add_element 0 rkeyword_selected_style_type with_rkeyword_selected_style_type obj pl c.

Definition rkeyword_switch (field wire : Z) (obj : ngx_bid_response_ad_link_unit_keyword_t) (c : ngx_protobuf_context_t)
  : result ngx_bid_response_ad_link_unit_keyword_t :=
  match field with
  | 1 => unpack_str rkeyword_keyword with_rkeyword_keyword wire obj c
  | 2 => unpack_u32s i32 rkeyword_selected_style_type with_rkeyword_selected_style_type wire obj c
  | _ => unpack_unknown rkeyword_unknown with_rkeyword_unknown field wire obj c
  end.

Definition ngx_bid_response_ad_link_unit_keyword__unpack (fuel : nat) := unpack_loop rkeyword_switch fuel.

Definition ngx_bid_response_ad_link_unit_keyword__size (obj : ngx_bid_response_ad_link_unit_keyword_t) : Z :=
  let size := 0 in
  let size := u64 (size + size_str (rkeyword_keyword obj) 1) in
  let size := size_u32s (rkeyword_selected_style_type obj) 2 size in
  size_unknowns (rkeyword_unknown obj) size.

Definition ngx_bid_response_ad_link_unit_keyword__pack (obj : ngx_bid_response_ad_link_unit_keyword_t) (c : ngx_protobuf_context_t)
  : cres (ngx_rc * ngx_protobuf_context_t) :=
  pack_guard (ngx_bid_response_ad_link_unit_keyword__size obj) c (fun c =>
    c ← pack_str (rkeyword_keyword obj) 1 c;
    c ← pack_u32s (rkeyword_selected_style_type obj) 2 c;
    pack_unknowns (elts (rkeyword_unknown obj)) c).
End Env.

(** ** BidResponse.Ad.ExpandCreativeInfo *)

Record ngx_bid_response_ad_expand_creative_info_t := mk_rexpand { rexpand_creative_width : fld Z;
    rexpand_creative_height : fld Z; rexpand_creative_landing_page : fld ngx_str_t; rexpand_creative_type : fld Z;
    rexpand_unknown : array ngx_protobuf_unknown_field_t }.

(** What [ngx_bid_response_ad_expand_creative_info__alloc] and [__clear] give. *)
Definition rexpand_zero : ngx_bid_response_ad_expand_creative_info_t := mk_rexpand (Fld false 0) (Fld false 0)
    (Fld false ngx_str_null) (Fld false 0) None.

Definition with_rexpand_creative_width '(mk_rexpand _ a2 a3 a4 a5) x :=
  mk_rexpand x a2 a3 a4 a5.
Definition with_rexpand_creative_height '(mk_rexpand a1 _ a3 a4 a5) x :=
  mk_rexpand a1 x a3 a4 a5.
Definition with_rexpand_creative_landing_page '(mk_rexpand a1 a2 _ a4 a5) x :=
  mk_rexpand a1 a2 x a4 a5.
Definition with_rexpand_creative_type '(mk_rexpand a1 a2 a3 _ a5) x :=
  mk_rexpand a1 a2 a3 x a5.
Definition with_rexpand_unknown '(mk_rexpand a1 a2 a3 a4 _) x :=
  mk_rexpand a1 a2 a3 a4 x.

Section Env.
Context `{NgxEnv}.

Definition rexpand_switch (field wire : Z) (obj : ngx_bid_response_ad_expand_creative_info_t) (c : ngx_protobuf_context_t)
  : result ngx_bid_response_ad_expand_creative_info_t :=
  match field with
  | 1 => unpack_u32 i32 with_rexpand_creative_width wire obj c
  | 2 => unpack_u32 i32 with_rexpand_creative_height wire obj c
  | 3 => unpack_str rexpand_creative_landing_page with_rexpand_creative_landing_page wire obj c
  | 4 => unpack_u32 i32 with_rexpand_creative_type wire obj c
  | _ => unpack_unknown rexpand_unknown with_rexpand_unknown field wire obj c
  end.

Definition ngx_bid_response_ad_expand_creative_info__unpack (fuel : nat) := unpack_loop rexpand_switch fuel.

Definition ngx_bid_response_ad_expand_creative_info__size (obj : ngx_bid_response_ad_expand_creative_info_t) : Z :=
  let size := 0 in
  let size := u64 (size + size_u32 (rexpand_creative_width obj) 1) in
  let size := u64 (size + size_u32 (rexpand_creative_height obj) 2) in
  let size := u64 (size + size_str (rexpand_creative_landing_page obj) 3) in
  let size := u64 (size + size_u32 (rexpand_creative_type obj) 4) in
  size_unknowns (rexpand_unknown obj) size.

Definition ngx_bid_response_ad_expand_creative_info__pack (obj : ngx_bid_response_ad_expand_creative_info_t) (c : ngx_protobuf_context_t)
  : cres (ngx_rc * ngx_protobuf_context_t) :=
  pack_guard (ngx_bid_response_ad_expand_creative_info__size obj) c (fun c =>
    c ← pack_u32 (rexpand_creative_width obj) 1 c;
    c ← pack_u32 (rexpand_creative_height obj) 2 c;
    c ← pack_str (rexpand_creative_landing_page obj) 3 c;
    c ← pack_u32 (rexpand_creative_type obj) 4 c;
    pack_unknowns (elts (rexpand_unknown obj)) c).
End Env.

(** ** BidResponse.Ad.DeeplinkInfo *)

Record ngx_bid_response_ad_deeplink_info_t := mk_deeplink { deeplink_deeplink_url : fld ngx_str_t;
    deeplink_app_version : fld Z; deeplink_fallback_url : fld ngx_str_t; deeplink_fallback_type : fld Z;
    deeplink_unknown : array ngx_protobuf_unknown_field_t }.

(** What [ngx_bid_response_ad_deeplink_info__alloc] and [__clear] give. *)
Definition deeplink_zero : ngx_bid_response_ad_deeplink_info_t := mk_deeplink (Fld false ngx_str_null) (Fld false 0)
    (Fld false ngx_str_null) (Fld false 0) None.

Definition with_deeplink_deeplink_url '(mk_deeplink _ a2 a3 a4 a5) x :=
  mk_deeplink x a2 a3 a4 a5.
Definition with_deeplink_app_version '(mk_deeplink a1 _ a3 a4 a5) x :=
  mk_deeplink a1 x a3 a4 a5.
Definition with_deeplink_fallback_url '(mk_deeplink a1 a2 _ a4 a5) x :=
  mk_deeplink a1 a2 x a4 a5.
Definition with_deeplink_fallback_type '(mk_deeplink a1 a2 a3 _ a5) x :=
  mk_deeplink a1 a2 a3 x a5.
Definition with_deeplink_unknown '(mk_deeplink a1 a2 a3 a4 _) x :=
  mk_deeplink a1 a2 a3 a4 x.

Section Env.
Context `{NgxEnv}.

Definition deeplink_switch (field wire : Z) (obj : ngx_bid_response_ad_deeplink_info_t) (c : ngx_protobuf_context_t)
  : result ngx_bid_response_ad_deeplink_info_t :=
  match field with
  | 1 => unpack_str deeplink_deeplink_url with_deeplink_deeplink_url wire obj c
  | 2 => unpack_u32 id with_deeplink_app_version wire obj c
  | 3 => unpack_str deeplink_fallback_url with_deeplink_fallback_url wire obj c
  | 4 => unpack_u32 id with_deeplink_fallback_type wire obj c
  | _ => unpack_unknown deeplink_unknown with_deeplink_unknown field wire obj c
  end.

Definition ngx_bid_response_ad_deeplink_info__unpack (fuel : nat) := unpack_loop deeplink_switch fuel.

Definition ngx_bid_response_ad_deeplink_info__size (obj : ngx_bid_response_ad_deeplink_info_t) : Z :=
  let size := 0 in
  let size := u64 (size + size_str (deeplink_deeplink_url obj) 1) in
  let size := u64 (size + size_u32 (deeplink_app_version obj) 2) in
  let size := u64 (size + size_str (deeplink_fallback_url obj) 3) in
  let size := u64 (size + size_u32 (deeplink_fallback_type obj) 4) in
  size_unknowns (deeplink_unknown obj) size.

Definition ngx_bid_response_ad_deeplink_info__pack (obj : ngx_bid_response_ad_deeplink_info_t) (c : ngx_protobuf_context_t)
  : cres (ngx_rc * ngx_protobuf_context_t) :=
  pack_guard (ngx_bid_response_ad_deeplink_info__size obj) c (fun c =>
    c ← pack_str (deeplink_deeplink_url obj) 1 c;
    c ← pack_u32 (deeplink_app_version obj) 2 c;
    c ← pack_str (deeplink_fallback_url obj) 3 c;
    c ← pack_u32 (deeplink_fallback_type obj) 4 c;
    pack_unknowns (elts (deeplink_unknown obj)) c).
End Env.

(** ** Required fields *)

(** The one function [..__is_initialized] with something to test. *)
Definition ngx_bid_request__is_initialized (obj : ngx_bid_request_t) : bool := has (bid_id obj).
