(* ===== verification/NgxBaiduProtoLaws.v ===== *)
(** The messages of NgxBaiduProto.v obey the laws of NgxProtobufMember.v: each
    computes its size, packs to its bytes and unpacks them.  [good] excludes
    packed values, which are not packed as they are measured, and [known]
    numbers of fixed width, which are not read; packed values are read. *)

From Stdlib Require Import ZArith Lia.
From S2P Require Import Prelude NgxProtobuf NgxProtobufWire NgxProtobufMsg NgxProtobufCodec NgxProtobufRead.
From S2P Require Import NgxProtobufMember NgxProtobufScalar NgxProtobufScalarLaws NgxProtobufLaws NgxBaiduProto.

Open Scope Z_scope.

(** ** BidRequest.BaiduId *)

#[export] Instance baidu_id_message `{NgxEnv} : Message ngx_bid_request_baidu_id_t := {
  zero := baidu_id_zero;
  msize := ngx_bid_request_baidu_id__size;
  mpack := ngx_bid_request_baidu_id__pack;
  munpack := ngx_bid_request_baidu_id__unpack;
  enc o := enc_str (baidu_id_baidu_user_id o) 1 ++ enc_u32 (baidu_id_baidu_user_id_version o) 2 ++
    enc_unknowns (baidu_id_unknown o);
  good o := fld_good str_good (baidu_id_baidu_user_id o) /\ unknowns_good (baidu_id_unknown o);
  known o := fld_good str_good (baidu_id_baidu_user_id o) /\ elts (baidu_id_unknown o) = [];
  norm o := mk_baidu_id (pick_str (baidu_id_baidu_user_id o) (Fld false ngx_str_null))
    (pick_u32 i32 (baidu_id_baidu_user_id_version o) (Fld false 0)) None;
  vmap g o := mk_baidu_id (vstr g (baidu_id_baidu_user_id o)) (baidu_id_baidu_user_id_version o)
    (baidu_id_unknown o) }.

Lemma baidu_id_size `{NgxEnv} (o : ngx_bid_request_baidu_id_t) :
  good o -> lenz (enc o) < 4294967296 -> msize o = lenz (enc o).
Proof. size_law baidu_id_message ngx_bid_request_baidu_id__size (idtac). Qed.

Lemma baidu_id_pack `{NgxEnv} (o : ngx_bid_request_baidu_id_t) :
  good o -> lenz (enc o) < 4294967296 -> Packs (mpack o) (enc o).
Proof. pack_law baidu_id_message ngx_bid_request_baidu_id__pack baidu_id_size (idtac). Qed.

Lemma baidu_id_unpack `{NgxEnv} (m : ngx_bid_request_baidu_id_t) fuel c :
  known m -> lenz (enc m) < 4294967296 -> ahead c (enc m) -> last c = pos c + lenz (enc m) ->
  reading c -> (length (enc m) <= fuel)%nat ->
  exists o k, munpack fuel zero c = Ok (NGX_OK, o, adv c (length (enc m)) k) /\ vmap (view c) o = norm m.
Proof.
  unpack_law baidu_id_message ngx_bid_request_baidu_id__unpack
    (unpack_field baidu_id_baidu_user_id with_baidu_id_baidu_user_id;
    unpack_field baidu_id_baidu_user_id_version with_baidu_id_baidu_user_id_version).
Qed.

Lemma baidu_id_vmap `{NgxEnv} g (m : ngx_bid_request_baidu_id_t) : (forall s, g s = s) -> vmap g m = m.
Proof. vmap_law baidu_id_message. Qed.

Lemma baidu_id_vmap_enc `{NgxEnv} g (m : ngx_bid_request_baidu_id_t) : same_bytes g -> enc (vmap g m) = enc m.
Proof. vmap_enc_law baidu_id_message. Qed.

Lemma baidu_id_vmap_good `{NgxEnv} g (m : ngx_bid_request_baidu_id_t) : same_bytes g -> good (vmap g m) -> good m.
Proof. vmap_good_law baidu_id_message. Qed.

#[export] Instance baidu_id_laws `{NgxEnv} : MessageLaws ngx_bid_request_baidu_id_t :=
  {| size_enc := baidu_id_size; pack_enc := baidu_id_pack; unpack_enc := baidu_id_unpack;
     vmap_id := baidu_id_vmap; vmap_enc := baidu_id_vmap_enc; vmap_good := baidu_id_vmap_good |}.

(** ** BidRequest.CustomizedUserTag.AmsTag *)

#[export] Instance ams_tag_message `{NgxEnv} : Message ngx_bid_request_customized_user_tag_ams_tag_t := {
  zero := ams_tag_zero;
  msize := ngx_bid_request_customized_user_tag_ams_tag__size;
  mpack := ngx_bid_request_customized_user_tag_ams_tag__pack;
  munpack := ngx_bid_request_customized_user_tag_ams_tag__unpack;
  enc o := enc_u64 (ams_tag_tag_id o) 1 ++ enc_unknowns (ams_tag_unknown o);
  good o := unknowns_good (ams_tag_unknown o);
  known o := elts (ams_tag_unknown o) = [];
  norm o := mk_ams_tag (pick_u64 id (ams_tag_tag_id o) (Fld false 0)) None;
  vmap g o := mk_ams_tag (ams_tag_tag_id o) (ams_tag_unknown o) }.

Lemma ams_tag_size `{NgxEnv} (o : ngx_bid_request_customized_user_tag_ams_tag_t) :
  good o -> lenz (enc o) < 4294967296 -> msize o = lenz (enc o).
Proof. size_law ams_tag_message ngx_bid_request_customized_user_tag_ams_tag__size (idtac). Qed.

Lemma ams_tag_pack `{NgxEnv} (o : ngx_bid_request_customized_user_tag_ams_tag_t) :
  good o -> lenz (enc o) < 4294967296 -> Packs (mpack o) (enc o).
Proof. pack_law ams_tag_message ngx_bid_request_customized_user_tag_ams_tag__pack ams_tag_size (idtac). Qed.

Lemma ams_tag_unpack `{NgxEnv} (m : ngx_bid_request_customized_user_tag_ams_tag_t) fuel c :
  known m -> lenz (enc m) < 4294967296 -> ahead c (enc m) -> last c = pos c + lenz (enc m) ->
  reading c -> (length (enc m) <= fuel)%nat ->
  exists o k, munpack fuel zero c = Ok (NGX_OK, o, adv c (length (enc m)) k) /\ vmap (view c) o = norm m.
Proof.
  unpack_law ams_tag_message ngx_bid_request_customized_user_tag_ams_tag__unpack
    (unpack_field ams_tag_tag_id with_ams_tag_tag_id).
Qed.

Lemma ams_tag_vmap `{NgxEnv} g (m : ngx_bid_request_customized_user_tag_ams_tag_t) : (forall s, g s = s) -> vmap g m = m.
Proof. vmap_law ams_tag_message. Qed.

Lemma ams_tag_vmap_enc `{NgxEnv} g (m : ngx_bid_request_customized_user_tag_ams_tag_t) : same_bytes g -> enc (vmap g m) = enc m.
Proof. vmap_enc_law ams_tag_message. Qed.

Lemma ams_tag_vmap_good `{NgxEnv} g (m : ngx_bid_request_customized_user_tag_ams_tag_t) : same_bytes g -> good (vmap g m) -> good m.
Proof. vmap_good_law ams_tag_message. Qed.

#[export] Instance ams_tag_laws `{NgxEnv} : MessageLaws ngx_bid_request_customized_user_tag_ams_tag_t :=
  {| size_enc := ams_tag_size; pack_enc := ams_tag_pack; unpack_enc := ams_tag_unpack;
     vmap_id := ams_tag_vmap; vmap_enc := ams_tag_vmap_enc; vmap_good := ams_tag_vmap_good |}.

(** ** BidRequest.CustomizedUserTag *)

#[export] Instance user_tag_message `{NgxEnv} : Message ngx_bid_request_customized_user_tag_t := {
  zero := user_tag_zero;
  msize := ngx_bid_request_customized_user_tag__size;
  mpack := ngx_bid_request_customized_user_tag__pack;
  munpack := ngx_bid_request_customized_user_tag__unpack;
  enc o := enc_elements enc (user_tag_ams_tag_list o) 1 ++ enc_unknowns (user_tag_unknown o);
  good o := elements_good good (user_tag_ams_tag_list o) /\ unknowns_good (user_tag_unknown o);
  known o := elements_known (user_tag_ams_tag_list o) /\ elts (user_tag_unknown o) = [];
  norm o := mk_user_tag (pick_elements (user_tag_ams_tag_list o) (Fld false None)) None;
  vmap g o := mk_user_tag (velements g (user_tag_ams_tag_list o)) (user_tag_unknown o) }.

Lemma user_tag_size `{NgxEnv} (o : ngx_bid_request_customized_user_tag_t) :
  good o -> lenz (enc o) < 4294967296 -> msize o = lenz (enc o).
Proof. size_law user_tag_message ngx_bid_request_customized_user_tag__size
  (change ngx_bid_request_customized_user_tag_ams_tag__size with (msize (M := ngx_bid_request_customized_user_tag_ams_tag_t))). Qed.

Lemma user_tag_pack `{NgxEnv} (o : ngx_bid_request_customized_user_tag_t) :
  good o -> lenz (enc o) < 4294967296 -> Packs (mpack o) (enc o).
Proof. pack_law user_tag_message ngx_bid_request_customized_user_tag__pack user_tag_size
  (change ngx_bid_request_customized_user_tag_ams_tag__size with (msize (M := ngx_bid_request_customized_user_tag_ams_tag_t));
  change ngx_bid_request_customized_user_tag_ams_tag__pack with (mpack (M := ngx_bid_request_customized_user_tag_ams_tag_t))). Qed.

Lemma user_tag_unpack `{NgxEnv} (m : ngx_bid_request_customized_user_tag_t) fuel c :
  known m -> lenz (enc m) < 4294967296 -> ahead c (enc m) -> last c = pos c + lenz (enc m) ->
  reading c -> (length (enc m) <= fuel)%nat ->
  exists o k, munpack fuel zero c = Ok (NGX_OK, o, adv c (length (enc m)) k) /\ vmap (view c) o = norm m.
Proof.
  unpack_law user_tag_message ngx_bid_request_customized_user_tag__unpack
    (unpack_field user_tag_ams_tag_list with_user_tag_ams_tag_list).
Qed.

Lemma user_tag_vmap `{NgxEnv} g (m : ngx_bid_request_customized_user_tag_t) : (forall s, g s = s) -> vmap g m = m.
Proof. vmap_law user_tag_message. Qed.

Lemma user_tag_vmap_enc `{NgxEnv} g (m : ngx_bid_request_customized_user_tag_t) : same_bytes g -> enc (vmap g m) = enc m.
Proof. vmap_enc_law user_tag_message. Qed.

Lemma user_tag_vmap_good `{NgxEnv} g (m : ngx_bid_request_customized_user_tag_t) : same_bytes g -> good (vmap g m) -> good m.
Proof. vmap_good_law user_tag_message. Qed.

#[export] Instance user_tag_laws `{NgxEnv} : MessageLaws ngx_bid_request_customized_user_tag_t :=
  {| size_enc := user_tag_size; pack_enc := user_tag_pack; unpack_enc := user_tag_unpack;
     vmap_id := user_tag_vmap; vmap_enc := user_tag_vmap_enc; vmap_good := user_tag_vmap_good |}.

(** ** BidRequest.Geo.Coordinate *)

#[export] Instance coordinate_message `{NgxEnv} : Message ngx_bid_request_geo_coordinate_t := {
  zero := coordinate_zero;
  msize := ngx_bid_request_geo_coordinate__size;
  mpack := ngx_bid_request_geo_coordinate__pack;
  munpack := ngx_bid_request_geo_coordinate__unpack;
  enc o := enc_u32 (coordinate_standard o) 1 ++ enc_float (coordinate_latitude o) 2 ++
    enc_float (coordinate_longitude o) 3 ++ enc_unknowns (coordinate_unknown o);
  good o := unknowns_good (coordinate_unknown o);
  known o := has (coordinate_latitude o) = false /\ has (coordinate_longitude o) = false /\
    elts (coordinate_unknown o) = [];
  norm o := mk_coordinate (pick_u32 id (coordinate_standard o) (Fld false 0)) (Fld false 0) (Fld false 0) None;
  vmap g o := mk_coordinate (coordinate_standard o) (coordinate_latitude o) (coordinate_longitude o)
    (coordinate_unknown o) }.

Lemma coordinate_size `{NgxEnv} (o : ngx_bid_request_geo_coordinate_t) :
  good o -> lenz (enc o) < 4294967296 -> msize o = lenz (enc o).
Proof. size_law coordinate_message ngx_bid_request_geo_coordinate__size (idtac). Qed.

Lemma coordinate_pack `{NgxEnv} (o : ngx_bid_request_geo_coordinate_t) :
  good o -> lenz (enc o) < 4294967296 -> Packs (mpack o) (enc o).
Proof. pack_law coordinate_message ngx_bid_request_geo_coordinate__pack coordinate_size (idtac). Qed.

Lemma coordinate_unpack `{NgxEnv} (m : ngx_bid_request_geo_coordinate_t) fuel c :
  known m -> lenz (enc m) < 4294967296 -> ahead c (enc m) -> last c = pos c + lenz (enc m) ->
  reading c -> (length (enc m) <= fuel)%nat ->
  exists o k, munpack fuel zero c = Ok (NGX_OK, o, adv c (length (enc m)) k) /\ vmap (view c) o = norm m.
Proof.
  unpack_law coordinate_message ngx_bid_request_geo_coordinate__unpack
    (unpack_field coordinate_standard with_coordinate_standard;
    unpack_field coordinate_latitude with_coordinate_latitude;
    unpack_field coordinate_longitude with_coordinate_longitude).
Qed.

Lemma coordinate_vmap `{NgxEnv} g (m : ngx_bid_request_geo_coordinate_t) : (forall s, g s = s) -> vmap g m = m.
Proof. vmap_law coordinate_message. Qed.

Lemma coordinate_vmap_enc `{NgxEnv} g (m : ngx_bid_request_geo_coordinate_t) : same_bytes g -> enc (vmap g m) = enc m.
Proof. vmap_enc_law coordinate_message. Qed.

Lemma coordinate_vmap_good `{NgxEnv} g (m : ngx_bid_request_geo_coordinate_t) : same_bytes g -> good (vmap g m) -> good m.
Proof. vmap_good_law coordinate_message. Qed.

#[export] Instance coordinate_laws `{NgxEnv} : MessageLaws ngx_bid_request_geo_coordinate_t :=
  {| size_enc := coordinate_size; pack_enc := coordinate_pack; unpack_enc := coordinate_unpack;
     vmap_id := coordinate_vmap; vmap_enc := coordinate_vmap_enc; vmap_good := coordinate_vmap_good |}.

(** ** BidRequest.Geo.UserLocation *)

#[export] Instance location_message `{NgxEnv} : Message ngx_bid_request_geo_user_location_t := {
  zero := location_zero;
  msize := ngx_bid_request_geo_user_location__size;
  mpack := ngx_bid_request_geo_user_location__pack;
  munpack := ngx_bid_request_geo_user_location__unpack;
  enc o := enc_str (location_province o) 1 ++ enc_str (location_city o) 2 ++ enc_str (location_district o) 3 ++
    enc_str (location_street o) 4 ++ enc_unknowns (location_unknown o);
  good o := fld_good str_good (location_province o) /\ fld_good str_good (location_city o) /\
    fld_good str_good (location_district o) /\ fld_good str_good (location_street o) /\
    unknowns_good (location_unknown o);
  known o := fld_good str_good (location_province o) /\ fld_good str_good (location_city o) /\
    fld_good str_good (location_district o) /\ fld_good str_good (location_street o) /\
    elts (location_unknown o) = [];
  norm o := mk_location (pick_str (location_province o) (Fld false ngx_str_null))
    (pick_str (location_city o) (Fld false ngx_str_null)) (pick_str (location_district o) (Fld false ngx_str_null))
    (pick_str (location_street o) (Fld false ngx_str_null)) None;
  vmap g o := mk_location (vstr g (location_province o)) (vstr g (location_city o)) (vstr g (location_district o))
    (vstr g (location_street o)) (location_unknown o) }.

Lemma location_size `{NgxEnv} (o : ngx_bid_request_geo_user_location_t) :
  good o -> lenz (enc o) < 4294967296 -> msize o = lenz (enc o).
Proof. size_law location_message ngx_bid_request_geo_user_location__size (idtac). Qed.

Lemma location_pack `{NgxEnv} (o : ngx_bid_request_geo_user_location_t) :
  good o -> lenz (enc o) < 4294967296 -> Packs (mpack o) (enc o).
Proof. pack_law location_message ngx_bid_request_geo_user_location__pack location_size (idtac). Qed.

Lemma location_unpack `{NgxEnv} (m : ngx_bid_request_geo_user_location_t) fuel c :
  known m -> lenz (enc m) < 4294967296 -> ahead c (enc m) -> last c = pos c + lenz (enc m) ->
  reading c -> (length (enc m) <= fuel)%nat ->
  exists o k, munpack fuel zero c = Ok (NGX_OK, o, adv c (length (enc m)) k) /\ vmap (view c) o = norm m.
Proof.
  unpack_law location_message ngx_bid_request_geo_user_location__unpack
    (unpack_field location_province with_location_province;
    unpack_field location_city with_location_city;
    unpack_field location_district with_location_district;
    unpack_field location_street with_location_street).
Qed.

Lemma location_vmap `{NgxEnv} g (m : ngx_bid_request_geo_user_location_t) : (forall s, g s = s) -> vmap g m = m.
Proof. vmap_law location_message. Qed.

Lemma location_vmap_enc `{NgxEnv} g (m : ngx_bid_request_geo_user_location_t) : same_bytes g -> enc (vmap g m) = enc m.
Proof. vmap_enc_law location_message. Qed.

Lemma location_vmap_good `{NgxEnv} g (m : ngx_bid_request_geo_user_location_t) : same_bytes g -> good (vmap g m) -> good m.
Proof. vmap_good_law location_message. Qed.

#[export] Instance location_laws `{NgxEnv} : MessageLaws ngx_bid_request_geo_user_location_t :=
  {| size_enc := location_size; pack_enc := location_pack; unpack_enc := location_unpack;
     vmap_id := location_vmap; vmap_enc := location_vmap_enc; vmap_good := location_vmap_good |}.

(** ** BidRequest.Geo *)

#[export] Instance geo_message `{NgxEnv} : Message ngx_bid_request_geo_t := {
  zero := geo_zero;
  msize := ngx_bid_request_geo__size;
  mpack := ngx_bid_request_geo__pack;
  munpack := ngx_bid_request_geo__unpack;
  enc o := enc_elements enc (geo_user_coordinate o) 1 ++ enc_member enc (geo_user_location o) 2 ++
    enc_unknowns (geo_unknown o);
  good o := elements_good good (geo_user_coordinate o) /\ member_good good (geo_user_location o) /\
    unknowns_good (geo_unknown o);
  known o := elements_known (geo_user_coordinate o) /\ member_known (geo_user_location o) /\
    elts (geo_unknown o) = [];
  norm o := mk_geo (pick_elements (geo_user_coordinate o) (Fld false None))
    (pick_member (geo_user_location o) (Fld false None)) None;
  vmap g o := mk_geo (velements g (geo_user_coordinate o)) (vmember g (geo_user_location o)) (geo_unknown o) }.

Lemma geo_size `{NgxEnv} (o : ngx_bid_request_geo_t) :
  good o -> lenz (enc o) < 4294967296 -> msize o = lenz (enc o).
Proof. size_law geo_message ngx_bid_request_geo__size
  (change ngx_bid_request_geo_coordinate__size with (msize (M := ngx_bid_request_geo_coordinate_t));
  change ngx_bid_request_geo_user_location__size with (msize (M := ngx_bid_request_geo_user_location_t))). Qed.

Lemma geo_pack `{NgxEnv} (o : ngx_bid_request_geo_t) :
  good o -> lenz (enc o) < 4294967296 -> Packs (mpack o) (enc o).
Proof. pack_law geo_message ngx_bid_request_geo__pack geo_size
  (change ngx_bid_request_geo_coordinate__size with (msize (M := ngx_bid_request_geo_coordinate_t));
  change ngx_bid_request_geo_coordinate__pack with (mpack (M := ngx_bid_request_geo_coordinate_t));
  change ngx_bid_request_geo_user_location__size with (msize (M := ngx_bid_request_geo_user_location_t));
  change ngx_bid_request_geo_user_location__pack with (mpack (M := ngx_bid_request_geo_user_location_t))). Qed.

Lemma geo_unpack `{NgxEnv} (m : ngx_bid_request_geo_t) fuel c :
  known m -> lenz (enc m) < 4294967296 -> ahead c (enc m) -> last c = pos c + lenz (enc m) ->
  reading c -> (length (enc m) <= fuel)%nat ->
  exists o k, munpack fuel zero c = Ok (NGX_OK, o, adv c (length (enc m)) k) /\ vmap (view c) o = norm m.
Proof.
  unpack_law geo_message ngx_bid_request_geo__unpack
    (unpack_field geo_user_coordinate with_geo_user_coordinate;
    unpack_field geo_user_location with_geo_user_location).
Qed.

Lemma geo_vmap `{NgxEnv} g (m : ngx_bid_request_geo_t) : (forall s, g s = s) -> vmap g m = m.
Proof. vmap_law geo_message. Qed.

Lemma geo_vmap_enc `{NgxEnv} g (m : ngx_bid_request_geo_t) : same_bytes g -> enc (vmap g m) = enc m.
Proof. vmap_enc_law geo_message. Qed.

Lemma geo_vmap_good `{NgxEnv} g (m : ngx_bid_request_geo_t) : same_bytes g -> good (vmap g m) -> good m.
Proof. vmap_good_law geo_message. Qed.

#[export] Instance geo_laws `{NgxEnv} : MessageLaws ngx_bid_request_geo_t :=
  {| size_enc := geo_size; pack_enc := geo_pack; unpack_enc := geo_unpack;
     vmap_id := geo_vmap; vmap_enc := geo_vmap_enc; vmap_good := geo_vmap_good |}.

(** ** BidRequest.Mobile.MobileID *)

#[export] Instance mid_message `{NgxEnv} : Message ngx_bid_request_mobile_mobile_id_t := {
  zero := mid_zero;
  msize := ngx_bid_request_mobile_mobile_id__size;
  mpack := ngx_bid_request_mobile_mobile_id__pack;
  munpack := ngx_bid_request_mobile_mobile_id__unpack;
  enc o := enc_u32 (mid_type o) 1 ++ enc_str (mid_id o) 2 ++ enc_unknowns (mid_unknown o);
  good o := fld_good str_good (mid_id o) /\ unknowns_good (mid_unknown o);
  known o := fld_good str_good (mid_id o) /\ elts (mid_unknown o) = [];
  norm o := mk_mid (pick_u32 id (mid_type o) (Fld false 0)) (pick_str (mid_id o) (Fld false ngx_str_null)) None;
  vmap g o := mk_mid (mid_type o) (vstr g (mid_id o)) (mid_unknown o) }.

Lemma mid_size `{NgxEnv} (o : ngx_bid_request_mobile_mobile_id_t) :
  good o -> lenz (enc o) < 4294967296 -> msize o = lenz (enc o).
Proof. size_law mid_message ngx_bid_request_mobile_mobile_id__size (idtac). Qed.

Lemma mid_pack `{NgxEnv} (o : ngx_bid_request_mobile_mobile_id_t) :
  good o -> lenz (enc o) < 4294967296 -> Packs (mpack o) (enc o).
Proof. pack_law mid_message ngx_bid_request_mobile_mobile_id__pack mid_size (idtac). Qed.

Lemma mid_unpack `{NgxEnv} (m : ngx_bid_request_mobile_mobile_id_t) fuel c :
  known m -> lenz (enc m) < 4294967296 -> ahead c (enc m) -> last c = pos c + lenz (enc m) ->
  reading c -> (length (enc m) <= fuel)%nat ->
  exists o k, munpack fuel zero c = Ok (NGX_OK, o, adv c (length (enc m)) k) /\ vmap (view c) o = norm m.
Proof.
  unpack_law mid_message ngx_bid_request_mobile_mobile_id__unpack
    (unpack_field mid_type with_mid_type;
    unpack_field mid_id with_mid_id).
Qed.

Lemma mid_vmap `{NgxEnv} g (m : ngx_bid_request_mobile_mobile_id_t) : (forall s, g s = s) -> vmap g m = m.
Proof. vmap_law mid_message. Qed.

Lemma mid_vmap_enc `{NgxEnv} g (m : ngx_bid_request_mobile_mobile_id_t) : same_bytes g -> enc (vmap g m) = enc m.
Proof. vmap_enc_law mid_message. Qed.

Lemma mid_vmap_good `{NgxEnv} g (m : ngx_bid_request_mobile_mobile_id_t) : same_bytes g -> good (vmap g m) -> good m.
Proof. vmap_good_law mid_message. Qed.

#[export] Instance mid_laws `{NgxEnv} : MessageLaws ngx_bid_request_mobile_mobile_id_t :=
  {| size_enc := mid_size; pack_enc := mid_pack; unpack_enc := mid_unpack;
     vmap_id := mid_vmap; vmap_enc := mid_vmap_enc; vmap_good := mid_vmap_good |}.

(** ** BidRequest.Mobile.DeviceOsVersion *)

#[export] Instance osv_message `{NgxEnv} : Message ngx_bid_request_mobile_device_os_version_t := {
  zero := osv_zero;
  msize := ngx_bid_request_mobile_device_os_version__size;
  mpack := ngx_bid_request_mobile_device_os_version__pack;
  munpack := ngx_bid_request_mobile_device_os_version__unpack;
  enc o := enc_u32 (osv_os_version_major o) 1 ++ enc_u32 (osv_os_version_minor o) 2 ++
    enc_u32 (osv_os_version_micro o) 3 ++ enc_unknowns (osv_unknown o);
  good o := unknowns_good (osv_unknown o);
  known o := elts (osv_unknown o) = [];
  norm o := mk_osv (pick_u32 i32 (osv_os_version_major o) (Fld false 0))
    (pick_u32 i32 (osv_os_version_minor o) (Fld false 0)) (pick_u32 i32 (osv_os_version_micro o) (Fld false 0))
    None;
  vmap g o := mk_osv (osv_os_version_major o) (osv_os_version_minor o) (osv_os_version_micro o) (osv_unknown o) }.

Lemma osv_size `{NgxEnv} (o : ngx_bid_request_mobile_device_os_version_t) :
  good o -> lenz (enc o) < 4294967296 -> msize o = lenz (enc o).
Proof. size_law osv_message ngx_bid_request_mobile_device_os_version__size (idtac). Qed.

Lemma osv_pack `{NgxEnv} (o : ngx_bid_request_mobile_device_os_version_t) :
  good o -> lenz (enc o) < 4294967296 -> Packs (mpack o) (enc o).
Proof. pack_law osv_message ngx_bid_request_mobile_device_os_version__pack osv_size (idtac). Qed.

Lemma osv_unpack `{NgxEnv} (m : ngx_bid_request_mobile_device_os_version_t) fuel c :
  known m -> lenz (enc m) < 4294967296 -> ahead c (enc m) -> last c = pos c + lenz (enc m) ->
  reading c -> (length (enc m) <= fuel)%nat ->
  exists o k, munpack fuel zero c = Ok (NGX_OK, o, adv c (length (enc m)) k) /\ vmap (view c) o = norm m.
Proof.
  unpack_law osv_message ngx_bid_request_mobile_device_os_version__unpack
    (unpack_field osv_os_version_major with_osv_os_version_major;
    unpack_field osv_os_version_minor with_osv_os_version_minor;
    unpack_field osv_os_version_micro with_osv_os_version_micro).
Qed.

Lemma osv_vmap `{NgxEnv} g (m : ngx_bid_request_mobile_device_os_version_t) : (forall s, g s = s) -> vmap g m = m.
Proof. vmap_law osv_message. Qed.

Lemma osv_vmap_enc `{NgxEnv} g (m : ngx_bid_request_mobile_device_os_version_t) : same_bytes g -> enc (vmap g m) = enc m.
Proof. vmap_enc_law osv_message. Qed.

Lemma osv_vmap_good `{NgxEnv} g (m : ngx_bid_request_mobile_device_os_version_t) : same_bytes g -> good (vmap g m) -> good m.
Proof. vmap_good_law osv_message. Qed.

#[export] Instance osv_laws `{NgxEnv} : MessageLaws ngx_bid_request_mobile_device_os_version_t :=
  {| size_enc := osv_size; pack_enc := osv_pack; unpack_enc := osv_unpack;
     vmap_id := osv_vmap; vmap_enc := osv_vmap_enc; vmap_good := osv_vmap_good |}.

(** ** BidRequest.Mobile.ForAdvertisingID *)

#[export] Instance faid_message `{NgxEnv} : Message ngx_bid_request_mobile_for_advertising_id_t := {
  zero := faid_zero;
  msize := ngx_bid_request_mobile_for_advertising_id__size;
  mpack := ngx_bid_request_mobile_for_advertising_id__pack;
  munpack := ngx_bid_request_mobile_for_advertising_id__unpack;
  enc o := enc_u32 (faid_type o) 1 ++ enc_str (faid_id o) 2 ++ enc_unknowns (faid_unknown o);
  good o := fld_good str_good (faid_id o) /\ unknowns_good (faid_unknown o);
  known o := fld_good str_good (faid_id o) /\ elts (faid_unknown o) = [];
  norm o := mk_faid (pick_u32 id (faid_type o) (Fld false 0)) (pick_str (faid_id o) (Fld false ngx_str_null)) None;
  vmap g o := mk_faid (faid_type o) (vstr g (faid_id o)) (faid_unknown o) }.

Lemma faid_size `{NgxEnv} (o : ngx_bid_request_mobile_for_advertising_id_t) :
  good o -> lenz (enc o) < 4294967296 -> msize o = lenz (enc o).
Proof. size_law faid_message ngx_bid_request_mobile_for_advertising_id__size (idtac). Qed.

Lemma faid_pack `{NgxEnv} (o : ngx_bid_request_mobile_for_advertising_id_t) :
  good o -> lenz (enc o) < 4294967296 -> Packs (mpack o) (enc o).
Proof. pack_law faid_message ngx_bid_request_mobile_for_advertising_id__pack faid_size (idtac). Qed.

Lemma faid_unpack `{NgxEnv} (m : ngx_bid_request_mobile_for_advertising_id_t) fuel c :
  known m -> lenz (enc m) < 4294967296 -> ahead c (enc m) -> last c = pos c + lenz (enc m) ->
  reading c -> (length (enc m) <= fuel)%nat ->
  exists o k, munpack fuel zero c = Ok (NGX_OK, o, adv c (length (enc m)) k) /\ vmap (view c) o = norm m.
Proof.
  unpack_law faid_message ngx_bid_request_mobile_for_advertising_id__unpack
    (unpack_field faid_type with_faid_type;
    unpack_field faid_id with_faid_id).
Qed.

Lemma faid_vmap `{NgxEnv} g (m : ngx_bid_request_mobile_for_advertising_id_t) : (forall s, g s = s) -> vmap g m = m.
Proof. vmap_law faid_message. Qed.

Lemma faid_vmap_enc `{NgxEnv} g (m : ngx_bid_request_mobile_for_advertising_id_t) : same_bytes g -> enc (vmap g m) = enc m.
Proof. vmap_enc_law faid_message. Qed.

Lemma faid_vmap_good `{NgxEnv} g (m : ngx_bid_request_mobile_for_advertising_id_t) : same_bytes g -> good (vmap g m) -> good m.
Proof. vmap_good_law faid_message. Qed.

#[export] Instance faid_laws `{NgxEnv} : MessageLaws ngx_bid_request_mobile_for_advertising_id_t :=
  {| size_enc := faid_size; pack_enc := faid_pack; unpack_enc := faid_unpack;
     vmap_id := faid_vmap; vmap_enc := faid_vmap_enc; vmap_good := faid_vmap_good |}.

(** ** BidRequest.Mobile.MobileApp *)

#[export] Instance mapp_message `{NgxEnv} : Message ngx_bid_request_mobile_mobile_app_t := {
  zero := mapp_zero;
  msize := ngx_bid_request_mobile_mobile_app__size;
  mpack := ngx_bid_request_mobile_mobile_app__pack;
  munpack := ngx_bid_request_mobile_mobile_app__unpack;
  enc o := enc_str (mapp_app_id o) 1 ++ enc_str (mapp_app_bundle_id o) 2 ++ enc_u32 (mapp_app_category o) 3 ++
    enc_u32 (mapp_app_publisher_id o) 4 ++ enc_u32s (mapp_app_interaction_type o) 5 ++
    enc_unknowns (mapp_unknown o);
  good o := fld_good str_good (mapp_app_id o) /\ fld_good str_good (mapp_app_bundle_id o) /\
    unknowns_good (mapp_unknown o);
  known o := fld_good str_good (mapp_app_id o) /\ fld_good str_good (mapp_app_bundle_id o) /\
    elts (mapp_unknown o) = [];
  norm o := mk_mapp (pick_str (mapp_app_id o) (Fld false ngx_str_null))
    (pick_str (mapp_app_bundle_id o) (Fld false ngx_str_null)) (pick_u32 i32 (mapp_app_category o) (Fld false 0))
    (pick_u32 i32 (mapp_app_publisher_id o) (Fld false 0))
    (pick_each (fun v => id (u32 v)) (mapp_app_interaction_type o) (Fld false None)) None;
  vmap g o := mk_mapp (vstr g (mapp_app_id o)) (vstr g (mapp_app_bundle_id o)) (mapp_app_category o)
    (mapp_app_publisher_id o) (mapp_app_interaction_type o) (mapp_unknown o) }.

Lemma mapp_size `{NgxEnv} (o : ngx_bid_request_mobile_mobile_app_t) :
  good o -> lenz (enc o) < 4294967296 -> msize o = lenz (enc o).
Proof. size_law mapp_message ngx_bid_request_mobile_mobile_app__size (idtac). Qed.

Lemma mapp_pack `{NgxEnv} (o : ngx_bid_request_mobile_mobile_app_t) :
  good o -> lenz (enc o) < 4294967296 -> Packs (mpack o) (enc o).
Proof. pack_law mapp_message ngx_bid_request_mobile_mobile_app__pack mapp_size (idtac). Qed.

Lemma mapp_unpack `{NgxEnv} (m : ngx_bid_request_mobile_mobile_app_t) fuel c :
  known m -> lenz (enc m) < 4294967296 -> ahead c (enc m) -> last c = pos c + lenz (enc m) ->
  reading c -> (length (enc m) <= fuel)%nat ->
  exists o k, munpack fuel zero c = Ok (NGX_OK, o, adv c (length (enc m)) k) /\ vmap (view c) o = norm m.
Proof.
  unpack_law mapp_message ngx_bid_request_mobile_mobile_app__unpack
    (unpack_field mapp_app_id with_mapp_app_id;
    unpack_field mapp_app_bundle_id with_mapp_app_bundle_id;
    unpack_field mapp_app_category with_mapp_app_category;
    unpack_field mapp_app_publisher_id with_mapp_app_publisher_id;
    unpack_field mapp_app_interaction_type with_mapp_app_interaction_type).
Qed.

Lemma mapp_vmap `{NgxEnv} g (m : ngx_bid_request_mobile_mobile_app_t) : (forall s, g s = s) -> vmap g m = m.
Proof. vmap_law mapp_message. Qed.

Lemma mapp_vmap_enc `{NgxEnv} g (m : ngx_bid_request_mobile_mobile_app_t) : same_bytes g -> enc (vmap g m) = enc m.
Proof. vmap_enc_law mapp_message. Qed.

Lemma mapp_vmap_good `{NgxEnv} g (m : ngx_bid_request_mobile_mobile_app_t) : same_bytes g -> good (vmap g m) -> good m.
Proof. vmap_good_law mapp_message. Qed.

#[export] Instance mapp_laws `{NgxEnv} : MessageLaws ngx_bid_request_mobile_mobile_app_t :=
  {| size_enc := mapp_size; pack_enc := mapp_pack; unpack_enc := mapp_unpack;
     vmap_id := mapp_vmap; vmap_enc := mapp_vmap_enc; vmap_good := mapp_vmap_good |}.

(** ** BidRequest.Mobile *)

#[export] Instance mobile_message `{NgxEnv} : Message ngx_bid_request_mobile_t := {
  zero := mobile_zero;
  msize := ngx_bid_request_mobile__size;
  mpack := ngx_bid_request_mobile__pack;
  munpack := ngx_bid_request_mobile__unpack;
  enc o := enc_str (mobile_DEPRECATED_device_id o) 1 ++ enc_u32 (mobile_device_type o) 2 ++
    enc_u32 (mobile_platform o) 3 ++ enc_member enc (mobile_os_version o) 4 ++ enc_str (mobile_brand o) 5 ++
    enc_str (mobile_model o) 6 ++ enc_u32 (mobile_screen_width o) 7 ++ enc_u32 (mobile_screen_height o) 8 ++
    enc_u64 (mobile_carrier_id o) 9 ++ enc_u32 (mobile_wireless_network_type o) 10 ++
    enc_str (mobile_DEPRECATED_for_advertising_id o) 11 ++ enc_member enc (mobile_mobile_app o) 12 ++
    enc_elements enc (mobile_id o) 13 ++ enc_elements enc (mobile_for_advertising_id o) 14 ++
    enc_float (mobile_screen_density o) 15 ++ enc_unknowns (mobile_unknown o);
  good o := fld_good str_good (mobile_DEPRECATED_device_id o) /\ elements_good good (mobile_id o) /\
    member_good good (mobile_os_version o) /\ fld_good str_good (mobile_brand o) /\
    fld_good str_good (mobile_model o) /\ fld_good str_good (mobile_DEPRECATED_for_advertising_id o) /\
    elements_good good (mobile_for_advertising_id o) /\ member_good good (mobile_mobile_app o) /\
    unknowns_good (mobile_unknown o);
  known o := fld_good str_good (mobile_DEPRECATED_device_id o) /\ elements_known (mobile_id o) /\
    member_known (mobile_os_version o) /\ fld_good str_good (mobile_brand o) /\
    fld_good str_good (mobile_model o) /\ has (mobile_screen_density o) = false /\
    fld_good str_good (mobile_DEPRECATED_for_advertising_id o) /\ elements_known (mobile_for_advertising_id o) /\
    member_known (mobile_mobile_app o) /\ elts (mobile_unknown o) = [];
  norm o := mk_mobile (pick_str (mobile_DEPRECATED_device_id o) (Fld false ngx_str_null))
    (pick_elements (mobile_id o) (Fld false None)) (pick_u32 id (mobile_device_type o) (Fld false 0))
    (pick_u32 id (mobile_platform o) (Fld false 0)) (pick_member (mobile_os_version o) (Fld false None))
    (pick_str (mobile_brand o) (Fld false ngx_str_null)) (pick_str (mobile_model o) (Fld false ngx_str_null))
    (pick_u32 i32 (mobile_screen_width o) (Fld false 0)) (pick_u32 i32 (mobile_screen_height o) (Fld false 0))
    (Fld false 0) (pick_u64 i64 (mobile_carrier_id o) (Fld false 0))
    (pick_u32 id (mobile_wireless_network_type o) (Fld false 0))
    (pick_str (mobile_DEPRECATED_for_advertising_id o) (Fld false ngx_str_null))
    (pick_elements (mobile_for_advertising_id o) (Fld false None))
    (pick_member (mobile_mobile_app o) (Fld false None)) None;
  vmap g o := mk_mobile (vstr g (mobile_DEPRECATED_device_id o)) (velements g (mobile_id o)) (mobile_device_type o)
    (mobile_platform o) (vmember g (mobile_os_version o)) (vstr g (mobile_brand o)) (vstr g (mobile_model o))
    (mobile_screen_width o) (mobile_screen_height o) (mobile_screen_density o) (mobile_carrier_id o)
    (mobile_wireless_network_type o) (vstr g (mobile_DEPRECATED_for_advertising_id o))
    (velements g (mobile_for_advertising_id o)) (vmember g (mobile_mobile_app o)) (mobile_unknown o) }.

Lemma mobile_size `{NgxEnv} (o : ngx_bid_request_mobile_t) :
  good o -> lenz (enc o) < 4294967296 -> msize o = lenz (enc o).
Proof. size_law mobile_message ngx_bid_request_mobile__size
  (change ngx_bid_request_mobile_mobile_id__size with (msize (M := ngx_bid_request_mobile_mobile_id_t));
  change ngx_bid_request_mobile_device_os_version__size with (msize (M := ngx_bid_request_mobile_device_os_version_t));
  change ngx_bid_request_mobile_for_advertising_id__size with (msize (M := ngx_bid_request_mobile_for_advertising_id_t));
  change ngx_bid_request_mobile_mobile_app__size with (msize (M := ngx_bid_request_mobile_mobile_app_t))). Qed.

Lemma mobile_pack `{NgxEnv} (o : ngx_bid_request_mobile_t) :
  good o -> lenz (enc o) < 4294967296 -> Packs (mpack o) (enc o).
Proof. pack_law mobile_message ngx_bid_request_mobile__pack mobile_size
  (change ngx_bid_request_mobile_mobile_id__size with (msize (M := ngx_bid_request_mobile_mobile_id_t));
  change ngx_bid_request_mobile_mobile_id__pack with (mpack (M := ngx_bid_request_mobile_mobile_id_t));
  change ngx_bid_request_mobile_device_os_version__size with (msize (M := ngx_bid_request_mobile_device_os_version_t));
  change ngx_bid_request_mobile_device_os_version__pack with (mpack (M := ngx_bid_request_mobile_device_os_version_t));
  change ngx_bid_request_mobile_for_advertising_id__size with (msize (M := ngx_bid_request_mobile_for_advertising_id_t));
  change ngx_bid_request_mobile_for_advertising_id__pack with (mpack (M := ngx_bid_request_mobile_for_advertising_id_t));
  change ngx_bid_request_mobile_mobile_app__size with (msize (M := ngx_bid_request_mobile_mobile_app_t));
  change ngx_bid_request_mobile_mobile_app__pack with (mpack (M := ngx_bid_request_mobile_mobile_app_t))). Qed.

Lemma mobile_unpack `{NgxEnv} (m : ngx_bid_request_mobile_t) fuel c :
  known m -> lenz (enc m) < 4294967296 -> ahead c (enc m) -> last c = pos c + lenz (enc m) ->
  reading c -> (length (enc m) <= fuel)%nat ->
  exists o k, munpack fuel zero c = Ok (NGX_OK, o, adv c (length (enc m)) k) /\ vmap (view c) o = norm m.
Proof.
  unpack_law mobile_message ngx_bid_request_mobile__unpack
    (unpack_field mobile_DEPRECATED_device_id with_mobile_DEPRECATED_device_id;
    unpack_field mobile_device_type with_mobile_device_type;
    unpack_field mobile_platform with_mobile_platform;
    unpack_field mobile_os_version with_mobile_os_version;
    unpack_field mobile_brand with_mobile_brand;
    unpack_field mobile_model with_mobile_model;
    unpack_field mobile_screen_width with_mobile_screen_width;
    unpack_field mobile_screen_height with_mobile_screen_height;
    unpack_field mobile_carrier_id with_mobile_carrier_id;
    unpack_field mobile_wireless_network_type with_mobile_wireless_network_type;
    unpack_field mobile_DEPRECATED_for_advertising_id with_mobile_DEPRECATED_for_advertising_id;
    unpack_field mobile_mobile_app with_mobile_mobile_app;
    unpack_field mobile_id with_mobile_id;
    unpack_field mobile_for_advertising_id with_mobile_for_advertising_id;
    unpack_field mobile_screen_density with_mobile_screen_density).
Qed.

Lemma mobile_vmap `{NgxEnv} g (m : ngx_bid_request_mobile_t) : (forall s, g s = s) -> vmap g m = m.
Proof. vmap_law mobile_message. Qed.

Lemma mobile_vmap_enc `{NgxEnv} g (m : ngx_bid_request_mobile_t) : same_bytes g -> enc (vmap g m) = enc m.
Proof. vmap_enc_law mobile_message. Qed.

Lemma mobile_vmap_good `{NgxEnv} g (m : ngx_bid_request_mobile_t) : same_bytes g -> good (vmap g m) -> good m.
Proof. vmap_good_law mobile_message. Qed.

#[export] Instance mobile_laws `{NgxEnv} : MessageLaws ngx_bid_request_mobile_t :=
  {| size_enc := mobile_size; pack_enc := mobile_pack; unpack_enc := mobile_unpack;
     vmap_id := mobile_vmap; vmap_enc := mobile_vmap_enc; vmap_good := mobile_vmap_good |}.

(** ** BidRequest.Video *)

#[export] Instance bvideo_message `{NgxEnv} : Message ngx_bid_request_video_t := {
  zero := bvideo_zero;
  msize := ngx_bid_request_video__size;
  mpack := ngx_bid_request_video__pack;
  munpack := ngx_bid_request_video__unpack;
  enc o := enc_str (bvideo_title o) 1 ++ enc_strs (bvideo_tags o) 2 ++ enc_u32 (bvideo_content_length o) 3 ++
    enc_u64s (bvideo_channel_id o) 4 ++ enc_unknowns (bvideo_unknown o);
  good o := fld_good str_good (bvideo_title o) /\ strs_good (bvideo_tags o) /\ unknowns_good (bvideo_unknown o);
  known o := fld_good str_good (bvideo_title o) /\ strs_good (bvideo_tags o) /\ elts (bvideo_unknown o) = [];
  norm o := mk_bvideo (pick_str (bvideo_title o) (Fld false ngx_str_null))
    (pick_each copy_str (bvideo_tags o) (Fld false None)) (pick_u32 i32 (bvideo_content_length o) (Fld false 0))
    (pick_each (fun v => i64 (u64 v)) (bvideo_channel_id o) (Fld false None)) None;
  vmap g o := mk_bvideo (vstr g (bvideo_title o)) (vstrs g (bvideo_tags o)) (bvideo_content_length o)
    (bvideo_channel_id o) (bvideo_unknown o) }.

Lemma bvideo_size `{NgxEnv} (o : ngx_bid_request_video_t) :
  good o -> lenz (enc o) < 4294967296 -> msize o = lenz (enc o).
Proof. size_law bvideo_message ngx_bid_request_video__size (idtac). Qed.

Lemma bvideo_pack `{NgxEnv} (o : ngx_bid_request_video_t) :
  good o -> lenz (enc o) < 4294967296 -> Packs (mpack o) (enc o).
Proof. pack_law bvideo_message ngx_bid_request_video__pack bvideo_size (idtac). Qed.

Lemma bvideo_unpack `{NgxEnv} (m : ngx_bid_request_video_t) fuel c :
  known m -> lenz (enc m) < 4294967296 -> ahead c (enc m) -> last c = pos c + lenz (enc m) ->
  reading c -> (length (enc m) <= fuel)%nat ->
  exists o k, munpack fuel zero c = Ok (NGX_OK, o, adv c (length (enc m)) k) /\ vmap (view c) o = norm m.
Proof.
  unpack_law bvideo_message ngx_bid_request_video__unpack
    (unpack_field bvideo_title with_bvideo_title;
    unpack_field bvideo_tags with_bvideo_tags;
    unpack_field bvideo_content_length with_bvideo_content_length;
    unpack_field bvideo_channel_id with_bvideo_channel_id).
Qed.

Lemma bvideo_vmap `{NgxEnv} g (m : ngx_bid_request_video_t) : (forall s, g s = s) -> vmap g m = m.
Proof. vmap_law bvideo_message. Qed.

Lemma bvideo_vmap_enc `{NgxEnv} g (m : ngx_bid_request_video_t) : same_bytes g -> enc (vmap g m) = enc m.
Proof. vmap_enc_law bvideo_message. Qed.

Lemma bvideo_vmap_good `{NgxEnv} g (m : ngx_bid_request_video_t) : same_bytes g -> good (vmap g m) -> good m.
Proof. vmap_good_law bvideo_message. Qed.

#[export] Instance bvideo_laws `{NgxEnv} : MessageLaws ngx_bid_request_video_t :=
  {| size_enc := bvideo_size; pack_enc := bvideo_pack; unpack_enc := bvideo_unpack;
     vmap_id := bvideo_vmap; vmap_enc := bvideo_vmap_enc; vmap_good := bvideo_vmap_good |}.

(** ** BidRequest.AdSlot.VideoInfo *)

#[export] Instance video_info_message `{NgxEnv} : Message ngx_bid_request_ad_slot_video_info_t := {
  zero := video_info_zero;
  msize := ngx_bid_request_ad_slot_video_info__size;
  mpack := ngx_bid_request_ad_slot_video_info__pack;
  munpack := ngx_bid_request_ad_slot_video_info__unpack;
  enc o := enc_u32 (video_info_max_video_duration o) 1 ++ enc_u32 (video_info_min_video_duration o) 2 ++
    enc_u32 (video_info_video_start_delay o) 3 ++ enc_unknowns (video_info_unknown o);
  good o := unknowns_good (video_info_unknown o);
  known o := elts (video_info_unknown o) = [];
  norm o := mk_video_info (pick_u32 i32 (video_info_max_video_duration o) (Fld false 0))
    (pick_u32 i32 (video_info_min_video_duration o) (Fld false 0))
    (pick_u32 i32 (video_info_video_start_delay o) (Fld false 0)) None;
  vmap g o := mk_video_info (video_info_max_video_duration o) (video_info_min_video_duration o)
    (video_info_video_start_delay o) (video_info_unknown o) }.

Lemma video_info_size `{NgxEnv} (o : ngx_bid_request_ad_slot_video_info_t) :
  good o -> lenz (enc o) < 4294967296 -> msize o = lenz (enc o).
Proof. size_law video_info_message ngx_bid_request_ad_slot_video_info__size (idtac). Qed.

Lemma video_info_pack `{NgxEnv} (o : ngx_bid_request_ad_slot_video_info_t) :
  good o -> lenz (enc o) < 4294967296 -> Packs (mpack o) (enc o).
Proof. pack_law video_info_message ngx_bid_request_ad_slot_video_info__pack video_info_size (idtac). Qed.

Lemma video_info_unpack `{NgxEnv} (m : ngx_bid_request_ad_slot_video_info_t) fuel c :
  known m -> lenz (enc m) < 4294967296 -> ahead c (enc m) -> last c = pos c + lenz (enc m) ->
  reading c -> (length (enc m) <= fuel)%nat ->
  exists o k, munpack fuel zero c = Ok (NGX_OK, o, adv c (length (enc m)) k) /\ vmap (view c) o = norm m.
Proof.
  unpack_law video_info_message ngx_bid_request_ad_slot_video_info__unpack
    (unpack_field video_info_max_video_duration with_video_info_max_video_duration;
    unpack_field video_info_min_video_duration with_video_info_min_video_duration;
    unpack_field video_info_video_start_delay with_video_info_video_start_delay).
Qed.

Lemma video_info_vmap `{NgxEnv} g (m : ngx_bid_request_ad_slot_video_info_t) : (forall s, g s = s) -> vmap g m = m.
Proof. vmap_law video_info_message. Qed.

Lemma video_info_vmap_enc `{NgxEnv} g (m : ngx_bid_request_ad_slot_video_info_t) : same_bytes g -> enc (vmap g m) = enc m.
Proof. vmap_enc_law video_info_message. Qed.

Lemma video_info_vmap_good `{NgxEnv} g (m : ngx_bid_request_ad_slot_video_info_t) : same_bytes g -> good (vmap g m) -> good m.
Proof. vmap_good_law video_info_message. Qed.

#[export] Instance video_info_laws `{NgxEnv} : MessageLaws ngx_bid_request_ad_slot_video_info_t :=
  {| size_enc := video_info_size; pack_enc := video_info_pack; unpack_enc := video_info_unpack;
     vmap_id := video_info_vmap; vmap_enc := video_info_vmap_enc; vmap_good := video_info_vmap_good |}.

(** ** BidRequest.AdSlot.LinkUnitInfo.ProposedKeyword *)

#[export] Instance keyword_message `{NgxEnv} : Message ngx_bid_request_ad_slot_link_unit_info_proposed_keyword_t := {
  zero := keyword_zero;
  msize := ngx_bid_request_ad_slot_link_unit_info_proposed_keyword__size;
  mpack := ngx_bid_request_ad_slot_link_unit_info_proposed_keyword__pack;
  munpack := ngx_bid_request_ad_slot_link_unit_info_proposed_keyword__unpack;
  enc o := enc_str (keyword_text o) 1 ++ enc_float (keyword_pctr1 o) 2 ++ enc_unknowns (keyword_unknown o);
  good o := fld_good str_good (keyword_text o) /\ unknowns_good (keyword_unknown o);
  known o := fld_good str_good (keyword_text o) /\ has (keyword_pctr1 o) = false /\ elts (keyword_unknown o) = [];
  norm o := mk_keyword (pick_str (keyword_text o) (Fld false ngx_str_null)) (Fld false 0) None;
  vmap g o := mk_keyword (vstr g (keyword_text o)) (keyword_pctr1 o) (keyword_unknown o) }.

Lemma keyword_size `{NgxEnv} (o : ngx_bid_request_ad_slot_link_unit_info_proposed_keyword_t) :
  good o -> lenz (enc o) < 4294967296 -> msize o = lenz (enc o).
Proof. size_law keyword_message ngx_bid_request_ad_slot_link_unit_info_proposed_keyword__size (idtac). Qed.

Lemma keyword_pack `{NgxEnv} (o : ngx_bid_request_ad_slot_link_unit_info_proposed_keyword_t) :
  good o -> lenz (enc o) < 4294967296 -> Packs (mpack o) (enc o).
Proof. pack_law keyword_message ngx_bid_request_ad_slot_link_unit_info_proposed_keyword__pack keyword_size (idtac). Qed.

Lemma keyword_unpack `{NgxEnv} (m : ngx_bid_request_ad_slot_link_unit_info_proposed_keyword_t) fuel c :
  known m -> lenz (enc m) < 4294967296 -> ahead c (enc m) -> last c = pos c + lenz (enc m) ->
  reading c -> (length (enc m) <= fuel)%nat ->
  exists o k, munpack fuel zero c = Ok (NGX_OK, o, adv c (length (enc m)) k) /\ vmap (view c) o = norm m.
Proof.
  unpack_law keyword_message ngx_bid_request_ad_slot_link_unit_info_proposed_keyword__unpack
    (unpack_field keyword_text with_keyword_text;
    unpack_field keyword_pctr1 with_keyword_pctr1).
Qed.

Lemma keyword_vmap `{NgxEnv} g (m : ngx_bid_request_ad_slot_link_unit_info_proposed_keyword_t) : (forall s, g s = s) -> vmap g m = m.
Proof. vmap_law keyword_message. Qed.

Lemma keyword_vmap_enc `{NgxEnv} g (m : ngx_bid_request_ad_slot_link_unit_info_proposed_keyword_t) : same_bytes g -> enc (vmap g m) = enc m.
Proof. vmap_enc_law keyword_message. Qed.

Lemma keyword_vmap_good `{NgxEnv} g (m : ngx_bid_request_ad_slot_link_unit_info_proposed_keyword_t) : same_bytes g -> good (vmap g m) -> good m.
Proof. vmap_good_law keyword_message. Qed.

#[export] Instance keyword_laws `{NgxEnv} : MessageLaws ngx_bid_request_ad_slot_link_unit_info_proposed_keyword_t :=
  {| size_enc := keyword_size; pack_enc := keyword_pack; unpack_enc := keyword_unpack;
     vmap_id := keyword_vmap; vmap_enc := keyword_vmap_enc; vmap_good := keyword_vmap_good |}.

(** ** BidRequest.AdSlot.LinkUnitInfo *)

#[export] Instance link_unit_message `{NgxEnv} : Message ngx_bid_request_ad_slot_link_unit_info_t := {
  zero := link_unit_zero;
  msize := ngx_bid_request_ad_slot_link_unit_info__size;
  mpack := ngx_bid_request_ad_slot_link_unit_info__pack;
  munpack := ngx_bid_request_ad_slot_link_unit_info__unpack;
  enc o := enc_u32s (link_unit_style_type o) 1 ++ enc_u32 (link_unit_req_keyword_num o) 2 ++
    enc_strs (link_unit_proposed_keyword o) 3 ++ enc_elements enc (link_unit_keywords o) 4 ++
    enc_unknowns (link_unit_unknown o);
  good o := strs_good (link_unit_proposed_keyword o) /\ elements_good good (link_unit_keywords o) /\
    unknowns_good (link_unit_unknown o);
  known o := strs_good (link_unit_proposed_keyword o) /\ elements_known (link_unit_keywords o) /\
    elts (link_unit_unknown o) = [];
  norm o := mk_link_unit (pick_each (fun v => i32 (u32 v)) (link_unit_style_type o) (Fld false None))
    (pick_u32 i32 (link_unit_req_keyword_num o) (Fld false 0))
    (pick_each copy_str (link_unit_proposed_keyword o) (Fld false None))
    (pick_elements (link_unit_keywords o) (Fld false None)) None;
  vmap g o := mk_link_unit (link_unit_style_type o) (link_unit_req_keyword_num o)
    (vstrs g (link_unit_proposed_keyword o)) (velements g (link_unit_keywords o)) (link_unit_unknown o) }.

Lemma link_unit_size `{NgxEnv} (o : ngx_bid_request_ad_slot_link_unit_info_t) :
  good o -> lenz (enc o) < 4294967296 -> msize o = lenz (enc o).
Proof. size_law link_unit_message ngx_bid_request_ad_slot_link_unit_info__size
  (change ngx_bid_request_ad_slot_link_unit_info_proposed_keyword__size with (msize (M := ngx_bid_request_ad_slot_link_unit_info_proposed_keyword_t))). Qed.

Lemma link_unit_pack `{NgxEnv} (o : ngx_bid_request_ad_slot_link_unit_info_t) :
  good o -> lenz (enc o) < 4294967296 -> Packs (mpack o) (enc o).
Proof. pack_law link_unit_message ngx_bid_request_ad_slot_link_unit_info__pack link_unit_size
  (change ngx_bid_request_ad_slot_link_unit_info_proposed_keyword__size with (msize (M := ngx_bid_request_ad_slot_link_unit_info_proposed_keyword_t));
  change ngx_bid_request_ad_slot_link_unit_info_proposed_keyword__pack with (mpack (M := ngx_bid_request_ad_slot_link_unit_info_proposed_keyword_t))). Qed.

Lemma link_unit_unpack `{NgxEnv} (m : ngx_bid_request_ad_slot_link_unit_info_t) fuel c :
  known m -> lenz (enc m) < 4294967296 -> ahead c (enc m) -> last c = pos c + lenz (enc m) ->
  reading c -> (length (enc m) <= fuel)%nat ->
  exists o k, munpack fuel zero c = Ok (NGX_OK, o, adv c (length (enc m)) k) /\ vmap (view c) o = norm m.
Proof.
  unpack_law link_unit_message ngx_bid_request_ad_slot_link_unit_info__unpack
    (unpack_field link_unit_style_type with_link_unit_style_type;
    unpack_field link_unit_req_keyword_num with_link_unit_req_keyword_num;
    unpack_field link_unit_proposed_keyword with_link_unit_proposed_keyword;
    unpack_field link_unit_keywords with_link_unit_keywords).
Qed.

Lemma link_unit_vmap `{NgxEnv} g (m : ngx_bid_request_ad_slot_link_unit_info_t) : (forall s, g s = s) -> vmap g m = m.
Proof. vmap_law link_unit_message. Qed.

Lemma link_unit_vmap_enc `{NgxEnv} g (m : ngx_bid_request_ad_slot_link_unit_info_t) : same_bytes g -> enc (vmap g m) = enc m.
Proof. vmap_enc_law link_unit_message. Qed.

Lemma link_unit_vmap_good `{NgxEnv} g (m : ngx_bid_request_ad_slot_link_unit_info_t) : same_bytes g -> good (vmap g m) -> good m.
Proof. vmap_good_law link_unit_message. Qed.

#[export] Instance link_unit_laws `{NgxEnv} : MessageLaws ngx_bid_request_ad_slot_link_unit_info_t :=
  {| size_enc := link_unit_size; pack_enc := link_unit_pack; unpack_enc := link_unit_unpack;
     vmap_id := link_unit_vmap; vmap_enc := link_unit_vmap_enc; vmap_good := link_unit_vmap_good |}.

(** ** BidRequest.AdSlot.PreferredOrderInfo.PreferredOrder *)

#[export] Instance porder_message `{NgxEnv} : Message ngx_bid_request_ad_slot_preferred_order_info_preferred_order_t := {
  zero := porder_zero;
  msize := ngx_bid_request_ad_slot_preferred_order_info_preferred_order__size;
  mpack := ngx_bid_request_ad_slot_preferred_order_info_preferred_order__pack;
  munpack := ngx_bid_request_ad_slot_preferred_order_info_preferred_order__unpack;
  enc o := enc_str (porder_order_id o) 1 ++ enc_u64 (porder_fixed_cpm o) 2 ++ enc_unknowns (porder_unknown o);
  good o := fld_good str_good (porder_order_id o) /\ unknowns_good (porder_unknown o);
  known o := fld_good str_good (porder_order_id o) /\ elts (porder_unknown o) = [];
  norm o := mk_porder (pick_str (porder_order_id o) (Fld false ngx_str_null))
    (pick_u64 i64 (porder_fixed_cpm o) (Fld false 0)) None;
  vmap g o := mk_porder (vstr g (porder_order_id o)) (porder_fixed_cpm o) (porder_unknown o) }.

Lemma porder_size `{NgxEnv} (o : ngx_bid_request_ad_slot_preferred_order_info_preferred_order_t) :
  good o -> lenz (enc o) < 4294967296 -> msize o = lenz (enc o).
Proof. size_law porder_message ngx_bid_request_ad_slot_preferred_order_info_preferred_order__size (idtac). Qed.

Lemma porder_pack `{NgxEnv} (o : ngx_bid_request_ad_slot_preferred_order_info_preferred_order_t) :
  good o -> lenz (enc o) < 4294967296 -> Packs (mpack o) (enc o).
Proof. pack_law porder_message ngx_bid_request_ad_slot_preferred_order_info_preferred_order__pack porder_size (idtac). Qed.

Lemma porder_unpack `{NgxEnv} (m : ngx_bid_request_ad_slot_preferred_order_info_preferred_order_t) fuel c :
  known m -> lenz (enc m) < 4294967296 -> ahead c (enc m) -> last c = pos c + lenz (enc m) ->
  reading c -> (length (enc m) <= fuel)%nat ->
  exists o k, munpack fuel zero c = Ok (NGX_OK, o, adv c (length (enc m)) k) /\ vmap (view c) o = norm m.
Proof.
  unpack_law porder_message ngx_bid_request_ad_slot_preferred_order_info_preferred_order__unpack
    (unpack_field porder_order_id with_porder_order_id;
    unpack_field porder_fixed_cpm with_porder_fixed_cpm).
Qed.

Lemma porder_vmap `{NgxEnv} g (m : ngx_bid_request_ad_slot_preferred_order_info_preferred_order_t) : (forall s, g s = s) -> vmap g m = m.
Proof. vmap_law porder_message. Qed.

Lemma porder_vmap_enc `{NgxEnv} g (m : ngx_bid_request_ad_slot_preferred_order_info_preferred_order_t) : same_bytes g -> enc (vmap g m) = enc m.
Proof. vmap_enc_law porder_message. Qed.

Lemma porder_vmap_good `{NgxEnv} g (m : ngx_bid_request_ad_slot_preferred_order_info_preferred_order_t) : same_bytes g -> good (vmap g m) -> good m.
Proof. vmap_good_law porder_message. Qed.

#[export] Instance porder_laws `{NgxEnv} : MessageLaws ngx_bid_request_ad_slot_preferred_order_info_preferred_order_t :=
  {| size_enc := porder_size; pack_enc := porder_pack; unpack_enc := porder_unpack;
     vmap_id := porder_vmap; vmap_enc := porder_vmap_enc; vmap_good := porder_vmap_good |}.

(** ** BidRequest.AdSlot.PreferredOrderInfo *)

#[export] Instance pinfo_message `{NgxEnv} : Message ngx_bid_request_ad_slot_preferred_order_info_t := {
  zero := pinfo_zero;
  msize := ngx_bid_request_ad_slot_preferred_order_info__size;
  mpack := ngx_bid_request_ad_slot_preferred_order_info__pack;
  munpack := ngx_bid_request_ad_slot_preferred_order_info__unpack;
  enc o := enc_elements enc (pinfo_preferred_orders o) 1 ++ enc_bool (pinfo_allow_auction o) 2 ++
    enc_unknowns (pinfo_unknown o);
  good o := elements_good good (pinfo_preferred_orders o) /\ unknowns_good (pinfo_unknown o);
  known o := elements_known (pinfo_preferred_orders o) /\ elts (pinfo_unknown o) = [];
  norm o := mk_pinfo (pick_elements (pinfo_preferred_orders o) (Fld false None))
    (pick_bool (pinfo_allow_auction o) (Fld false 0)) None;
  vmap g o := mk_pinfo (velements g (pinfo_preferred_orders o)) (pinfo_allow_auction o) (pinfo_unknown o) }.

Lemma pinfo_size `{NgxEnv} (o : ngx_bid_request_ad_slot_preferred_order_info_t) :
  good o -> lenz (enc o) < 4294967296 -> msize o = lenz (enc o).
Proof. size_law pinfo_message ngx_bid_request_ad_slot_preferred_order_info__size
  (change ngx_bid_request_ad_slot_preferred_order_info_preferred_order__size with (msize (M := ngx_bid_request_ad_slot_preferred_order_info_preferred_order_t))). Qed.

Lemma pinfo_pack `{NgxEnv} (o : ngx_bid_request_ad_slot_preferred_order_info_t) :
  good o -> lenz (enc o) < 4294967296 -> Packs (mpack o) (enc o).
Proof. pack_law pinfo_message ngx_bid_request_ad_slot_preferred_order_info__pack pinfo_size
  (change ngx_bid_request_ad_slot_preferred_order_info_preferred_order__size with (msize (M := ngx_bid_request_ad_slot_preferred_order_info_preferred_order_t));
  change ngx_bid_request_ad_slot_preferred_order_info_preferred_order__pack with (mpack (M := ngx_bid_request_ad_slot_preferred_order_info_preferred_order_t))). Qed.

Lemma pinfo_unpack `{NgxEnv} (m : ngx_bid_request_ad_slot_preferred_order_info_t) fuel c :
  known m -> lenz (enc m) < 4294967296 -> ahead c (enc m) -> last c = pos c + lenz (enc m) ->
  reading c -> (length (enc m) <= fuel)%nat ->
  exists o k, munpack fuel zero c = Ok (NGX_OK, o, adv c (length (enc m)) k) /\ vmap (view c) o = norm m.
Proof.
  unpack_law pinfo_message ngx_bid_request_ad_slot_preferred_order_info__unpack
    (unpack_field pinfo_preferred_orders with_pinfo_preferred_orders;
    unpack_field pinfo_allow_auction with_pinfo_allow_auction).
Qed.

Lemma pinfo_vmap `{NgxEnv} g (m : ngx_bid_request_ad_slot_preferred_order_info_t) : (forall s, g s = s) -> vmap g m = m.
Proof. vmap_law pinfo_message. Qed.

Lemma pinfo_vmap_enc `{NgxEnv} g (m : ngx_bid_request_ad_slot_preferred_order_info_t) : same_bytes g -> enc (vmap g m) = enc m.
Proof. vmap_enc_law pinfo_message. Qed.

Lemma pinfo_vmap_good `{NgxEnv} g (m : ngx_bid_request_ad_slot_preferred_order_info_t) : same_bytes g -> good (vmap g m) -> good m.
Proof. vmap_good_law pinfo_message. Qed.

#[export] Instance pinfo_laws `{NgxEnv} : MessageLaws ngx_bid_request_ad_slot_preferred_order_info_t :=
  {| size_enc := pinfo_size; pack_enc := pinfo_pack; unpack_enc := pinfo_unpack;
     vmap_id := pinfo_vmap; vmap_enc := pinfo_vmap_enc; vmap_good := pinfo_vmap_good |}.

(** ** BidRequest.AdSlot.GuaranteedOrder.Charge *)

#[export] Instance charge_message `{NgxEnv} : Message ngx_bid_request_ad_slot_guaranteed_order_charge_t := {
  zero := charge_zero;
  msize := ngx_bid_request_ad_slot_guaranteed_order_charge__size;
  mpack := ngx_bid_request_ad_slot_guaranteed_order_charge__pack;
  munpack := ngx_bid_request_ad_slot_guaranteed_order_charge__unpack;
  enc o := enc_u32 (charge_price o) 1 ++ enc_u32 (charge_charge_mode o) 2 ++ enc_unknowns (charge_unknown o);
  good o := unknowns_good (charge_unknown o);
  known o := elts (charge_unknown o) = [];
  norm o := mk_charge (pick_u32 i32 (charge_price o) (Fld false 0))
    (pick_u32 id (charge_charge_mode o) (Fld false 0)) None;
  vmap g o := mk_charge (charge_price o) (charge_charge_mode o) (charge_unknown o) }.

Lemma charge_size `{NgxEnv} (o : ngx_bid_request_ad_slot_guaranteed_order_charge_t) :
  good o -> lenz (enc o) < 4294967296 -> msize o = lenz (enc o).
Proof. size_law charge_message ngx_bid_request_ad_slot_guaranteed_order_charge__size (idtac). Qed.

Lemma charge_pack `{NgxEnv} (o : ngx_bid_request_ad_slot_guaranteed_order_charge_t) :
  good o -> lenz (enc o) < 4294967296 -> Packs (mpack o) (enc o).
Proof. pack_law charge_message ngx_bid_request_ad_slot_guaranteed_order_charge__pack charge_size (idtac). Qed.

Lemma charge_unpack `{NgxEnv} (m : ngx_bid_request_ad_slot_guaranteed_order_charge_t) fuel c :
  known m -> lenz (enc m) < 4294967296 -> ahead c (enc m) -> last c = pos c + lenz (enc m) ->
  reading c -> (length (enc m) <= fuel)%nat ->
  exists o k, munpack fuel zero c = Ok (NGX_OK, o, adv c (length (enc m)) k) /\ vmap (view c) o = norm m.
Proof.
  unpack_law charge_message ngx_bid_request_ad_slot_guaranteed_order_charge__unpack
    (unpack_field charge_price with_charge_price;
    unpack_field charge_charge_mode with_charge_charge_mode).
Qed.

Lemma charge_vmap `{NgxEnv} g (m : ngx_bid_request_ad_slot_guaranteed_order_charge_t) : (forall s, g s = s) -> vmap g m = m.
Proof. vmap_law charge_message. Qed.

Lemma charge_vmap_enc `{NgxEnv} g (m : ngx_bid_request_ad_slot_guaranteed_order_charge_t) : same_bytes g -> enc (vmap g m) = enc m.
Proof. vmap_enc_law charge_message. Qed.

Lemma charge_vmap_good `{NgxEnv} g (m : ngx_bid_request_ad_slot_guaranteed_order_charge_t) : same_bytes g -> good (vmap g m) -> good m.
Proof. vmap_good_law charge_message. Qed.

#[export] Instance charge_laws `{NgxEnv} : MessageLaws ngx_bid_request_ad_slot_guaranteed_order_charge_t :=
  {| size_enc := charge_size; pack_enc := charge_pack; unpack_enc := charge_unpack;
     vmap_id := charge_vmap; vmap_enc := charge_vmap_enc; vmap_good := charge_vmap_good |}.

(** ** BidRequest.AdSlot.GuaranteedOrder *)

#[export] Instance gorder_message `{NgxEnv} : Message ngx_bid_request_ad_slot_guaranteed_order_t := {
  zero := gorder_zero;
  msize := ngx_bid_request_ad_slot_guaranteed_order__size;
  mpack := ngx_bid_request_ad_slot_guaranteed_order__pack;
  munpack := ngx_bid_request_ad_slot_guaranteed_order__unpack;
  enc o := enc_u32 (gorder_order_id o) 1 ++ enc_member enc (gorder_charge o) 2 ++ enc_unknowns (gorder_unknown o);
  good o := member_good good (gorder_charge o) /\ unknowns_good (gorder_unknown o);
  known o := member_known (gorder_charge o) /\ elts (gorder_unknown o) = [];
  norm o := mk_gorder (pick_u32 id (gorder_order_id o) (Fld false 0))
    (pick_member (gorder_charge o) (Fld false None)) None;
  vmap g o := mk_gorder (gorder_order_id o) (vmember g (gorder_charge o)) (gorder_unknown o) }.

Lemma gorder_size `{NgxEnv} (o : ngx_bid_request_ad_slot_guaranteed_order_t) :
  good o -> lenz (enc o) < 4294967296 -> msize o = lenz (enc o).
Proof. size_law gorder_message ngx_bid_request_ad_slot_guaranteed_order__size
  (change ngx_bid_request_ad_slot_guaranteed_order_charge__size with (msize (M := ngx_bid_request_ad_slot_guaranteed_order_charge_t))). Qed.

Lemma gorder_pack `{NgxEnv} (o : ngx_bid_request_ad_slot_guaranteed_order_t) :
  good o -> lenz (enc o) < 4294967296 -> Packs (mpack o) (enc o).
Proof. pack_law gorder_message ngx_bid_request_ad_slot_guaranteed_order__pack gorder_size
  (change ngx_bid_request_ad_slot_guaranteed_order_charge__size with (msize (M := ngx_bid_request_ad_slot_guaranteed_order_charge_t));
  change ngx_bid_request_ad_slot_guaranteed_order_charge__pack with (mpack (M := ngx_bid_request_ad_slot_guaranteed_order_charge_t))). Qed.

Lemma gorder_unpack `{NgxEnv} (m : ngx_bid_request_ad_slot_guaranteed_order_t) fuel c :
  known m -> lenz (enc m) < 4294967296 -> ahead c (enc m) -> last c = pos c + lenz (enc m) ->
  reading c -> (length (enc m) <= fuel)%nat ->
  exists o k, munpack fuel zero c = Ok (NGX_OK, o, adv c (length (enc m)) k) /\ vmap (view c) o = norm m.
Proof.
  unpack_law gorder_message ngx_bid_request_ad_slot_guaranteed_order__unpack
    (unpack_field gorder_order_id with_gorder_order_id;
    unpack_field gorder_charge with_gorder_charge).
Qed.

Lemma gorder_vmap `{NgxEnv} g (m : ngx_bid_request_ad_slot_guaranteed_order_t) : (forall s, g s = s) -> vmap g m = m.
Proof. vmap_law gorder_message. Qed.

Lemma gorder_vmap_enc `{NgxEnv} g (m : ngx_bid_request_ad_slot_guaranteed_order_t) : same_bytes g -> enc (vmap g m) = enc m.
Proof. vmap_enc_law gorder_message. Qed.

Lemma gorder_vmap_good `{NgxEnv} g (m : ngx_bid_request_ad_slot_guaranteed_order_t) : same_bytes g -> good (vmap g m) -> good m.
Proof. vmap_good_law gorder_message. Qed.

#[export] Instance gorder_laws `{NgxEnv} : MessageLaws ngx_bid_request_ad_slot_guaranteed_order_t :=
  {| size_enc := gorder_size; pack_enc := gorder_pack; unpack_enc := gorder_unpack;
     vmap_id := gorder_vmap; vmap_enc := gorder_vmap_enc; vmap_good := gorder_vmap_good |}.

(** ** BidRequest.AdSlot.ExpandCreativeInfo *)

#[export] Instance expand_message `{NgxEnv} : Message ngx_bid_request_ad_slot_expand_creative_info_t := {
  zero := expand_zero;
  msize := ngx_bid_request_ad_slot_expand_creative_info__size;
  mpack := ngx_bid_request_ad_slot_expand_creative_info__pack;
  munpack := ngx_bid_request_ad_slot_expand_creative_info__unpack;
  enc o := enc_u32s (expand_expand_action_type o) 1 ++ enc_u32 (expand_expand_direction o) 2 ++
    enc_packed (expand_expand_creative_type o) 3 ++ enc_u32 (expand_expand_width o) 4 ++
    enc_u32 (expand_expand_height o) 5 ++ enc_u32 (expand_expand_duration o) 6 ++ enc_unknowns (expand_unknown o);
  good o := no_values (expand_expand_creative_type o) /\ unknowns_good (expand_unknown o);
  known o := elts (expand_unknown o) = [];
  norm o := mk_expand (pick_each (fun v => id (u32 v)) (expand_expand_action_type o) (Fld false None))
    (pick_u32 id (expand_expand_direction o) (Fld false 0))
    (pick_each (fun v => i32 (u32 v)) (expand_expand_creative_type o) (Fld false None))
    (pick_u32 i32 (expand_expand_width o) (Fld false 0)) (pick_u32 i32 (expand_expand_height o) (Fld false 0))
    (pick_u32 i32 (expand_expand_duration o) (Fld false 0)) None;
  vmap g o := mk_expand (expand_expand_action_type o) (expand_expand_direction o) (expand_expand_creative_type o)
    (expand_expand_width o) (expand_expand_height o) (expand_expand_duration o) (expand_unknown o) }.

Lemma expand_size `{NgxEnv} (o : ngx_bid_request_ad_slot_expand_creative_info_t) :
  good o -> lenz (enc o) < 4294967296 -> msize o = lenz (enc o).
Proof. size_law expand_message ngx_bid_request_ad_slot_expand_creative_info__size (idtac). Qed.

Lemma expand_pack `{NgxEnv} (o : ngx_bid_request_ad_slot_expand_creative_info_t) :
  good o -> lenz (enc o) < 4294967296 -> Packs (mpack o) (enc o).
Proof. pack_law expand_message ngx_bid_request_ad_slot_expand_creative_info__pack expand_size (idtac). Qed.

Lemma expand_unpack `{NgxEnv} (m : ngx_bid_request_ad_slot_expand_creative_info_t) fuel c :
  known m -> lenz (enc m) < 4294967296 -> ahead c (enc m) -> last c = pos c + lenz (enc m) ->
  reading c -> (length (enc m) <= fuel)%nat ->
  exists o k, munpack fuel zero c = Ok (NGX_OK, o, adv c (length (enc m)) k) /\ vmap (view c) o = norm m.
Proof.
  unpack_law expand_message ngx_bid_request_ad_slot_expand_creative_info__unpack
    (unpack_field expand_expand_action_type with_expand_expand_action_type;
    unpack_field expand_expand_direction with_expand_expand_direction;
    unpack_field expand_expand_creative_type with_expand_expand_creative_type;
    unpack_field expand_expand_width with_expand_expand_width;
    unpack_field expand_expand_height with_expand_expand_height;
    unpack_field expand_expand_duration with_expand_expand_duration).
Qed.

Lemma expand_vmap `{NgxEnv} g (m : ngx_bid_request_ad_slot_expand_creative_info_t) : (forall s, g s = s) -> vmap g m = m.
Proof. vmap_law expand_message. Qed.

Lemma expand_vmap_enc `{NgxEnv} g (m : ngx_bid_request_ad_slot_expand_creative_info_t) : same_bytes g -> enc (vmap g m) = enc m.
Proof. vmap_enc_law expand_message. Qed.

Lemma expand_vmap_good `{NgxEnv} g (m : ngx_bid_request_ad_slot_expand_creative_info_t) : same_bytes g -> good (vmap g m) -> good m.
Proof. vmap_good_law expand_message. Qed.

#[export] Instance expand_laws `{NgxEnv} : MessageLaws ngx_bid_request_ad_slot_expand_creative_info_t :=
  {| size_enc := expand_size; pack_enc := expand_pack; unpack_enc := expand_unpack;
     vmap_id := expand_vmap; vmap_enc := expand_vmap_enc; vmap_good := expand_vmap_good |}.

(** ** BidRequest.AdSlot.NativeAdParam.ImageEle *)

#[export] Instance image_ele_message `{NgxEnv} : Message ngx_bid_request_ad_slot_native_ad_param_image_ele_t := {
  zero := image_ele_zero;
  msize := ngx_bid_request_ad_slot_native_ad_param_image_ele__size;
  mpack := ngx_bid_request_ad_slot_native_ad_param_image_ele__pack;
  munpack := ngx_bid_request_ad_slot_native_ad_param_image_ele__unpack;
  enc o := enc_u32 (image_ele_width o) 1 ++ enc_u32 (image_ele_height o) 2 ++ enc_u32 (image_ele_shape o) 3 ++
    enc_unknowns (image_ele_unknown o);
  good o := unknowns_good (image_ele_unknown o);
  known o := elts (image_ele_unknown o) = [];
  norm o := mk_image_ele (pick_u32 i32 (image_ele_width o) (Fld false 0))
    (pick_u32 i32 (image_ele_height o) (Fld false 0)) (pick_u32 i32 (image_ele_shape o) (Fld false 0)) None;
  vmap g o := mk_image_ele (image_ele_width o) (image_ele_height o) (image_ele_shape o) (image_ele_unknown o) }.

Lemma image_ele_size `{NgxEnv} (o : ngx_bid_request_ad_slot_native_ad_param_image_ele_t) :
  good o -> lenz (enc o) < 4294967296 -> msize o = lenz (enc o).
Proof. size_law image_ele_message ngx_bid_request_ad_slot_native_ad_param_image_ele__size (idtac). Qed.

Lemma image_ele_pack `{NgxEnv} (o : ngx_bid_request_ad_slot_native_ad_param_image_ele_t) :
  good o -> lenz (enc o) < 4294967296 -> Packs (mpack o) (enc o).
Proof. pack_law image_ele_message ngx_bid_request_ad_slot_native_ad_param_image_ele__pack image_ele_size (idtac). Qed.

Lemma image_ele_unpack `{NgxEnv} (m : ngx_bid_request_ad_slot_native_ad_param_image_ele_t) fuel c :
  known m -> lenz (enc m) < 4294967296 -> ahead c (enc m) -> last c = pos c + lenz (enc m) ->
  reading c -> (length (enc m) <= fuel)%nat ->
  exists o k, munpack fuel zero c = Ok (NGX_OK, o, adv c (length (enc m)) k) /\ vmap (view c) o = norm m.
Proof.
  unpack_law image_ele_message ngx_bid_request_ad_slot_native_ad_param_image_ele__unpack
    (unpack_field image_ele_width with_image_ele_width;
    unpack_field image_ele_height with_image_ele_height;
    unpack_field image_ele_shape with_image_ele_shape).
Qed.

Lemma image_ele_vmap `{NgxEnv} g (m : ngx_bid_request_ad_slot_native_ad_param_image_ele_t) : (forall s, g s = s) -> vmap g m = m.
Proof. vmap_law image_ele_message. Qed.

Lemma image_ele_vmap_enc `{NgxEnv} g (m : ngx_bid_request_ad_slot_native_ad_param_image_ele_t) : same_bytes g -> enc (vmap g m) = enc m.
Proof. vmap_enc_law image_ele_message. Qed.

Lemma image_ele_vmap_good `{NgxEnv} g (m : ngx_bid_request_ad_slot_native_ad_param_image_ele_t) : same_bytes g -> good (vmap g m) -> good m.
Proof. vmap_good_law image_ele_message. Qed.

#[export] Instance image_ele_laws `{NgxEnv} : MessageLaws ngx_bid_request_ad_slot_native_ad_param_image_ele_t :=
  {| size_enc := image_ele_size; pack_enc := image_ele_pack; unpack_enc := image_ele_unpack;
     vmap_id := image_ele_vmap; vmap_enc := image_ele_vmap_enc; vmap_good := image_ele_vmap_good |}.

(** ** BidRequest.AdSlot.NativeAdParam *)

#[export] Instance native_param_message `{NgxEnv} : Message ngx_bid_request_ad_slot_native_ad_param_t := {
  zero := native_param_zero;
  msize := ngx_bid_request_ad_slot_native_ad_param__size;
  mpack := ngx_bid_request_ad_slot_native_ad_param__pack;
  munpack := ngx_bid_request_ad_slot_native_ad_param__unpack;
  enc o := enc_u64s (native_param_required_fields o) 1 ++ enc_u32 (native_param_title_max_length o) 2 ++
    enc_u32 (native_param_desc_max_length o) 3 ++ enc_member enc (native_param_logo_icon o) 4 ++
    enc_member enc (native_param_image o) 5 ++ enc_u32 (native_param_image_num o) 6 ++
    enc_unknowns (native_param_unknown o);
  good o := member_good good (native_param_logo_icon o) /\ member_good good (native_param_image o) /\
    unknowns_good (native_param_unknown o);
  known o := member_known (native_param_logo_icon o) /\ member_known (native_param_image o) /\
    elts (native_param_unknown o) = [];
  norm o := mk_native_param (pick_each (fun v => i64 (u64 v)) (native_param_required_fields o) (Fld false None))
    (pick_u32 i32 (native_param_title_max_length o) (Fld false 0))
    (pick_u32 i32 (native_param_desc_max_length o) (Fld false 0))
    (pick_member (native_param_logo_icon o) (Fld false None)) (pick_member (native_param_image o) (Fld false None))
    (pick_u32 i32 (native_param_image_num o) (Fld false 0)) None;
  vmap g o := mk_native_param (native_param_required_fields o) (native_param_title_max_length o)
    (native_param_desc_max_length o) (vmember g (native_param_logo_icon o)) (vmember g (native_param_image o))
    (native_param_image_num o) (native_param_unknown o) }.

Lemma native_param_size `{NgxEnv} (o : ngx_bid_request_ad_slot_native_ad_param_t) :
  good o -> lenz (enc o) < 4294967296 -> msize o = lenz (enc o).
Proof. size_law native_param_message ngx_bid_request_ad_slot_native_ad_param__size
  (change ngx_bid_request_ad_slot_native_ad_param_image_ele__size with (msize (M := ngx_bid_request_ad_slot_native_ad_param_image_ele_t))). Qed.

Lemma native_param_pack `{NgxEnv} (o : ngx_bid_request_ad_slot_native_ad_param_t) :
  good o -> lenz (enc o) < 4294967296 -> Packs (mpack o) (enc o).
Proof. pack_law native_param_message ngx_bid_request_ad_slot_native_ad_param__pack native_param_size
  (change ngx_bid_request_ad_slot_native_ad_param_image_ele__size with (msize (M := ngx_bid_request_ad_slot_native_ad_param_image_ele_t));
  change ngx_bid_request_ad_slot_native_ad_param_image_ele__pack with (mpack (M := ngx_bid_request_ad_slot_native_ad_param_image_ele_t))). Qed.

Lemma native_param_unpack `{NgxEnv} (m : ngx_bid_request_ad_slot_native_ad_param_t) fuel c :
  known m -> lenz (enc m) < 4294967296 -> ahead c (enc m) -> last c = pos c + lenz (enc m) ->
  reading c -> (length (enc m) <= fuel)%nat ->
  exists o k, munpack fuel zero c = Ok (NGX_OK, o, adv c (length (enc m)) k) /\ vmap (view c) o = norm m.
Proof.
  unpack_law native_param_message ngx_bid_request_ad_slot_native_ad_param__unpack
    (unpack_field native_param_required_fields with_native_param_required_fields;
    unpack_field native_param_title_max_length with_native_param_title_max_length;
    unpack_field native_param_desc_max_length with_native_param_desc_max_length;
    unpack_field native_param_logo_icon with_native_param_logo_icon;
    unpack_field native_param_image with_native_param_image;
    unpack_field native_param_image_num with_native_param_image_num).
Qed.

Lemma native_param_vmap `{NgxEnv} g (m : ngx_bid_request_ad_slot_native_ad_param_t) : (forall s, g s = s) -> vmap g m = m.
Proof. vmap_law native_param_message. Qed.

Lemma native_param_vmap_enc `{NgxEnv} g (m : ngx_bid_request_ad_slot_native_ad_param_t) : same_bytes g -> enc (vmap g m) = enc m.
Proof. vmap_enc_law native_param_message. Qed.

Lemma native_param_vmap_good `{NgxEnv} g (m : ngx_bid_request_ad_slot_native_ad_param_t) : same_bytes g -> good (vmap g m) -> good m.
Proof. vmap_good_law native_param_message. Qed.

#[export] Instance native_param_laws `{NgxEnv} : MessageLaws ngx_bid_request_ad_slot_native_ad_param_t :=
  {| size_enc := native_param_size; pack_enc := native_param_pack; unpack_enc := native_param_unpack;
     vmap_id := native_param_vmap; vmap_enc := native_param_vmap_enc; vmap_good := native_param_vmap_good |}.

(** ** BidRequest.AdSlot *)

#[export] Instance adslot_message `{NgxEnv} : Message ngx_bid_request_ad_slot_t := {
  zero := adslot_zero;
  msize := ngx_bid_request_ad_slot__size;
  mpack := ngx_bid_request_ad_slot__pack;
  munpack := ngx_bid_request_ad_slot__unpack;
  enc o := enc_u64 (adslot_ad_block_key o) 1 ++ enc_u32 (adslot_sequence_id o) 2 ++
    enc_u32 (adslot_adslot_type o) 3 ++ enc_u32 (adslot_width o) 4 ++ enc_u32 (adslot_height o) 5 ++
    enc_u32 (adslot_slot_visibility o) 6 ++ enc_packed (adslot_creative_type o) 7 ++
    enc_strs (adslot_excluded_landing_page_url o) 8 ++ enc_u32 (adslot_minimum_cpm o) 9 ++
    enc_u32 (adslot_max_video_duration o) 10 ++ enc_u32 (adslot_min_video_duration o) 11 ++
    enc_u32 (adslot_video_start_delay o) 12 ++ enc_member enc (adslot_preferred_order_info o) 13 ++
    enc_fixed64s (adslot_publisher_settings_list_id o) 14 ++ enc_member enc (adslot_video_info o) 15 ++
    enc_member enc (adslot_link_unit_info o) 16 ++ enc_member enc (adslot_expand_creative_info o) 17 ++
    enc_u32 (adslot_actual_width o) 18 ++ enc_u32 (adslot_actual_height o) 19 ++
    enc_elements enc (adslot_guaranteed_orders o) 20 ++ enc_u32 (adslot_adslot_level o) 21 ++
    enc_u32s (adslot_creative_desc_type o) 22 ++ enc_bool (adslot_allowed_non_nativead o) 23 ++
    enc_member enc (adslot_nativead_param o) 24 ++ enc_bool (adslot_secure o) 25 ++ enc_unknowns (adslot_unknown o);
  good o := no_values (adslot_creative_type o) /\ strs_good (adslot_excluded_landing_page_url o) /\
    member_good good (adslot_video_info o) /\ member_good good (adslot_link_unit_info o) /\
    member_good good (adslot_preferred_order_info o) /\ elements_good good (adslot_guaranteed_orders o) /\
    member_good good (adslot_expand_creative_info o) /\ member_good good (adslot_nativead_param o) /\
    unknowns_good (adslot_unknown o);
  known o := strs_good (adslot_excluded_landing_page_url o) /\ no_values (adslot_publisher_settings_list_id o) /\
    member_known (adslot_video_info o) /\ member_known (adslot_link_unit_info o) /\
    member_known (adslot_preferred_order_info o) /\ elements_known (adslot_guaranteed_orders o) /\
    member_known (adslot_expand_creative_info o) /\ member_known (adslot_nativead_param o) /\
    elts (adslot_unknown o) = [];
  norm o := mk_adslot (pick_u64 id (adslot_ad_block_key o) (Fld false 0))
    (pick_u32 i32 (adslot_sequence_id o) (Fld false 0)) (pick_u32 i32 (adslot_adslot_type o) (Fld false 0))
    (pick_u32 i32 (adslot_width o) (Fld false 0)) (pick_u32 i32 (adslot_height o) (Fld false 0))
    (pick_u32 i32 (adslot_actual_width o) (Fld false 0)) (pick_u32 i32 (adslot_actual_height o) (Fld false 0))
    (pick_u32 i32 (adslot_slot_visibility o) (Fld false 0))
    (pick_each (fun v => i32 (u32 v)) (adslot_creative_type o) (Fld false None))
    (pick_each (fun v => id (u32 v)) (adslot_creative_desc_type o) (Fld false None))
    (pick_each copy_str (adslot_excluded_landing_page_url o) (Fld false None)) (Fld false None)
    (pick_u32 i32 (adslot_minimum_cpm o) (Fld false 0)) (pick_u32 i32 (adslot_max_video_duration o) (Fld false 0))
    (pick_u32 i32 (adslot_min_video_duration o) (Fld false 0))
    (pick_u32 i32 (adslot_video_start_delay o) (Fld false 0)) (pick_member (adslot_video_info o) (Fld false None))
    (pick_member (adslot_link_unit_info o) (Fld false None))
    (pick_member (adslot_preferred_order_info o) (Fld false None))
    (pick_elements (adslot_guaranteed_orders o) (Fld false None))
    (pick_member (adslot_expand_creative_info o) (Fld false None))
    (pick_u32 id (adslot_adslot_level o) (Fld false 0)) (pick_bool (adslot_allowed_non_nativead o) (Fld false 0))
    (pick_member (adslot_nativead_param o) (Fld false None)) (pick_bool (adslot_secure o) (Fld false 0)) None;
  vmap g o := mk_adslot (adslot_ad_block_key o) (adslot_sequence_id o) (adslot_adslot_type o) (adslot_width o)
    (adslot_height o) (adslot_actual_width o) (adslot_actual_height o) (adslot_slot_visibility o)
    (adslot_creative_type o) (adslot_creative_desc_type o) (vstrs g (adslot_excluded_landing_page_url o))
    (adslot_publisher_settings_list_id o) (adslot_minimum_cpm o) (adslot_max_video_duration o)
    (adslot_min_video_duration o) (adslot_video_start_delay o) (vmember g (adslot_video_info o))
    (vmember g (adslot_link_unit_info o)) (vmember g (adslot_preferred_order_info o))
    (velements g (adslot_guaranteed_orders o)) (vmember g (adslot_expand_creative_info o)) (adslot_adslot_level o)
    (adslot_allowed_non_nativead o) (vmember g (adslot_nativead_param o)) (adslot_secure o) (adslot_unknown o) }.

Lemma adslot_size `{NgxEnv} (o : ngx_bid_request_ad_slot_t) :
  good o -> lenz (enc o) < 4294967296 -> msize o = lenz (enc o).
Proof. size_law adslot_message ngx_bid_request_ad_slot__size
  (change ngx_bid_request_ad_slot_video_info__size with (msize (M := ngx_bid_request_ad_slot_video_info_t));
  change ngx_bid_request_ad_slot_link_unit_info__size with (msize (M := ngx_bid_request_ad_slot_link_unit_info_t));
  change ngx_bid_request_ad_slot_preferred_order_info__size with (msize (M := ngx_bid_request_ad_slot_preferred_order_info_t));
  change ngx_bid_request_ad_slot_guaranteed_order__size with (msize (M := ngx_bid_request_ad_slot_guaranteed_order_t));
  change ngx_bid_request_ad_slot_expand_creative_info__size with (msize (M := ngx_bid_request_ad_slot_expand_creative_info_t));
  change ngx_bid_request_ad_slot_native_ad_param__size with (msize (M := ngx_bid_request_ad_slot_native_ad_param_t))). Qed.

Lemma adslot_pack `{NgxEnv} (o : ngx_bid_request_ad_slot_t) :
  good o -> lenz (enc o) < 4294967296 -> Packs (mpack o) (enc o).
Proof. pack_law adslot_message ngx_bid_request_ad_slot__pack adslot_size
  (change ngx_bid_request_ad_slot_video_info__size with (msize (M := ngx_bid_request_ad_slot_video_info_t));
  change ngx_bid_request_ad_slot_video_info__pack with (mpack (M := ngx_bid_request_ad_slot_video_info_t));
  change ngx_bid_request_ad_slot_link_unit_info__size with (msize (M := ngx_bid_request_ad_slot_link_unit_info_t));
  change ngx_bid_request_ad_slot_link_unit_info__pack with (mpack (M := ngx_bid_request_ad_slot_link_unit_info_t));
  change ngx_bid_request_ad_slot_preferred_order_info__size with (msize (M := ngx_bid_request_ad_slot_preferred_order_info_t));
  change ngx_bid_request_ad_slot_preferred_order_info__pack with (mpack (M := ngx_bid_request_ad_slot_preferred_order_info_t));
  change ngx_bid_request_ad_slot_guaranteed_order__size with (msize (M := ngx_bid_request_ad_slot_guaranteed_order_t));
  change ngx_bid_request_ad_slot_guaranteed_order__pack with (mpack (M := ngx_bid_request_ad_slot_guaranteed_order_t));
  change ngx_bid_request_ad_slot_expand_creative_info__size with (msize (M := ngx_bid_request_ad_slot_expand_creative_info_t));
  change ngx_bid_request_ad_slot_expand_creative_info__pack with (mpack (M := ngx_bid_request_ad_slot_expand_creative_info_t));
  change ngx_bid_request_ad_slot_native_ad_param__size with (msize (M := ngx_bid_request_ad_slot_native_ad_param_t));
  change ngx_bid_request_ad_slot_native_ad_param__pack with (mpack (M := ngx_bid_request_ad_slot_native_ad_param_t))). Qed.

Lemma adslot_unpack `{NgxEnv} (m : ngx_bid_request_ad_slot_t) fuel c :
  known m -> lenz (enc m) < 4294967296 -> ahead c (enc m) -> last c = pos c + lenz (enc m) ->
  reading c -> (length (enc m) <= fuel)%nat ->
  exists o k, munpack fuel zero c = Ok (NGX_OK, o, adv c (length (enc m)) k) /\ vmap (view c) o = norm m.
Proof.
  unpack_law adslot_message ngx_bid_request_ad_slot__unpack
    (unpack_field adslot_ad_block_key with_adslot_ad_block_key;
    unpack_field adslot_sequence_id with_adslot_sequence_id;
    unpack_field adslot_adslot_type with_adslot_adslot_type;
    unpack_field adslot_width with_adslot_width;
    unpack_field adslot_height with_adslot_height;
    unpack_field adslot_slot_visibility with_adslot_slot_visibility;
    unpack_field adslot_creative_type with_adslot_creative_type;
    unpack_field adslot_excluded_landing_page_url with_adslot_excluded_landing_page_url;
    unpack_field adslot_minimum_cpm with_adslot_minimum_cpm;
    unpack_field adslot_max_video_duration with_adslot_max_video_duration;
    unpack_field adslot_min_video_duration with_adslot_min_video_duration;
    unpack_field adslot_video_start_delay with_adslot_video_start_delay;
    unpack_field adslot_preferred_order_info with_adslot_preferred_order_info;
    unpack_field adslot_publisher_settings_list_id with_adslot_publisher_settings_list_id;
    unpack_field adslot_video_info with_adslot_video_info;
    unpack_field adslot_link_unit_info with_adslot_link_unit_info;
    unpack_field adslot_expand_creative_info with_adslot_expand_creative_info;
    unpack_field adslot_actual_width with_adslot_actual_width;
    unpack_field adslot_actual_height with_adslot_actual_height;
    unpack_field adslot_guaranteed_orders with_adslot_guaranteed_orders;
    unpack_field adslot_adslot_level with_adslot_adslot_level;
    unpack_field adslot_creative_desc_type with_adslot_creative_desc_type;
    unpack_field adslot_allowed_non_nativead with_adslot_allowed_non_nativead;
    unpack_field adslot_nativead_param with_adslot_nativead_param;
    unpack_field adslot_secure with_adslot_secure).
Qed.

Lemma adslot_vmap `{NgxEnv} g (m : ngx_bid_request_ad_slot_t) : (forall s, g s = s) -> vmap g m = m.
Proof. vmap_law adslot_message. Qed.

Lemma adslot_vmap_enc `{NgxEnv} g (m : ngx_bid_request_ad_slot_t) : same_bytes g -> enc (vmap g m) = enc m.
Proof. vmap_enc_law adslot_message. Qed.

Lemma adslot_vmap_good `{NgxEnv} g (m : ngx_bid_request_ad_slot_t) : same_bytes g -> good (vmap g m) -> good m.
Proof. vmap_good_law adslot_message. Qed.

#[export] Instance adslot_laws `{NgxEnv} : MessageLaws ngx_bid_request_ad_slot_t :=
  {| size_enc := adslot_size; pack_enc := adslot_pack; unpack_enc := adslot_unpack;
     vmap_id := adslot_vmap; vmap_enc := adslot_vmap_enc; vmap_good := adslot_vmap_good |}.

(** ** BidRequest *)

#[export] Instance bid_message `{NgxEnv} : Message ngx_bid_request_t := {
  zero := bid_zero;
  msize := ngx_bid_request__size;
  mpack := ngx_bid_request__pack;
  munpack := ngx_bid_request__unpack;
  enc o := enc_str (bid_id o) 1 ++ enc_str (bid_ip o) 2 ++ enc_str (bid_user_agent o) 3 ++
    enc_str (bid_baidu_user_id o) 4 ++ enc_u32 (bid_baidu_user_id_version o) 5 ++
    enc_u64s (bid_user_category o) 6 ++ enc_u32 (bid_gender o) 7 ++ enc_elements enc (bid_baidu_id_list o) 8 ++
    enc_str (bid_detected_language o) 9 ++ enc_str (bid_flash_version o) 10 ++ enc_str (bid_url o) 11 ++
    enc_str (bid_referer o) 12 ++ enc_u32 (bid_site_category o) 13 ++ enc_u32 (bid_site_quality o) 14 ++
    enc_u32 (bid_page_type o) 15 ++ enc_strs (bid_page_keyword o) 17 ++ enc_u32 (bid_page_quality o) 18 ++
    enc_packed (bid_excluded_product_category o) 19 ++ enc_elements enc (bid_adslot o) 20 ++
    enc_u32 (bid_page_vertical o) 21 ++ enc_bool (bid_is_test o) 26 ++ enc_bool (bid_is_ping o) 27 ++
    enc_member enc (bid_user_geo_info o) 28 ++ enc_member enc (bid_mobile o) 29 ++
    enc_member enc (bid_video o) 30 ++ enc_member enc (bid_customized_user_tag o) 31 ++
    enc_str (bid_buyer_user_id o) 32 ++ enc_unknowns (bid_unknown o);
  good o := fld_good str_good (bid_id o) /\ fld_good str_good (bid_ip o) /\ fld_good str_good (bid_user_agent o) /\
    fld_good str_good (bid_baidu_user_id o) /\ elements_good good (bid_baidu_id_list o) /\
    fld_good str_good (bid_buyer_user_id o) /\ member_good good (bid_customized_user_tag o) /\
    fld_good str_good (bid_detected_language o) /\ fld_good str_good (bid_flash_version o) /\
    member_good good (bid_user_geo_info o) /\ fld_good str_good (bid_url o) /\ fld_good str_good (bid_referer o) /\
    strs_good (bid_page_keyword o) /\ no_values (bid_excluded_product_category o) /\
    member_good good (bid_mobile o) /\ member_good good (bid_video o) /\ elements_good good (bid_adslot o) /\
    unknowns_good (bid_unknown o);
  known o := fld_good str_good (bid_id o) /\ fld_good str_good (bid_ip o) /\ fld_good str_good (bid_user_agent o) /\
    fld_good str_good (bid_baidu_user_id o) /\ elements_known (bid_baidu_id_list o) /\
    fld_good str_good (bid_buyer_user_id o) /\ member_known (bid_customized_user_tag o) /\
    fld_good str_good (bid_detected_language o) /\ fld_good str_good (bid_flash_version o) /\
    member_known (bid_user_geo_info o) /\ fld_good str_good (bid_url o) /\ fld_good str_good (bid_referer o) /\
    strs_good (bid_page_keyword o) /\ member_known (bid_mobile o) /\ member_known (bid_video o) /\
    elements_known (bid_adslot o) /\ elts (bid_unknown o) = [];
  norm o := mk_bid (pick_str (bid_id o) (Fld false ngx_str_null)) (pick_str (bid_ip o) (Fld false ngx_str_null))
    (pick_str (bid_user_agent o) (Fld false ngx_str_null)) (pick_str (bid_baidu_user_id o) (Fld false ngx_str_null))
    (pick_u32 i32 (bid_baidu_user_id_version o) (Fld false 0))
    (pick_elements (bid_baidu_id_list o) (Fld false None)) (pick_str (bid_buyer_user_id o) (Fld false ngx_str_null))
    (pick_each (fun v => i64 (u64 v)) (bid_user_category o) (Fld false None))
    (pick_member (bid_customized_user_tag o) (Fld false None)) (pick_u32 id (bid_gender o) (Fld false 0))
    (pick_str (bid_detected_language o) (Fld false ngx_str_null))
    (pick_str (bid_flash_version o) (Fld false ngx_str_null)) (pick_member (bid_user_geo_info o) (Fld false None))
    (pick_str (bid_url o) (Fld false ngx_str_null)) (pick_str (bid_referer o) (Fld false ngx_str_null))
    (pick_u32 i32 (bid_site_category o) (Fld false 0)) (pick_u32 i32 (bid_site_quality o) (Fld false 0))
    (pick_u32 i32 (bid_page_type o) (Fld false 0)) (pick_each copy_str (bid_page_keyword o) (Fld false None))
    (pick_u32 i32 (bid_page_quality o) (Fld false 0)) (pick_u32 i32 (bid_page_vertical o) (Fld false 0))
    (pick_each (fun v => i32 (u32 v)) (bid_excluded_product_category o) (Fld false None))
    (pick_member (bid_mobile o) (Fld false None)) (pick_member (bid_video o) (Fld false None))
    (pick_elements (bid_adslot o) (Fld false None)) (pick_bool (bid_is_test o) (Fld false 0))
    (pick_bool (bid_is_ping o) (Fld false 0)) None;
  vmap g o := mk_bid (vstr g (bid_id o)) (vstr g (bid_ip o)) (vstr g (bid_user_agent o))
    (vstr g (bid_baidu_user_id o)) (bid_baidu_user_id_version o) (velements g (bid_baidu_id_list o))
    (vstr g (bid_buyer_user_id o)) (bid_user_category o) (vmember g (bid_customized_user_tag o)) (bid_gender o)
    (vstr g (bid_detected_language o)) (vstr g (bid_flash_version o)) (vmember g (bid_user_geo_info o))
    (vstr g (bid_url o)) (vstr g (bid_referer o)) (bid_site_category o) (bid_site_quality o) (bid_page_type o)
    (vstrs g (bid_page_keyword o)) (bid_page_quality o) (bid_page_vertical o) (bid_excluded_product_category o)
    (vmember g (bid_mobile o)) (vmember g (bid_video o)) (velements g (bid_adslot o)) (bid_is_test o)
    (bid_is_ping o) (bid_unknown o) }.

Lemma bid_size `{NgxEnv} (o : ngx_bid_request_t) :
  good o -> lenz (enc o) < 4294967296 -> msize o = lenz (enc o).
Proof. size_law bid_message ngx_bid_request__size
  (change ngx_bid_request_baidu_id__size with (msize (M := ngx_bid_request_baidu_id_t));
  change ngx_bid_request_customized_user_tag__size with (msize (M := ngx_bid_request_customized_user_tag_t));
  change ngx_bid_request_geo__size with (msize (M := ngx_bid_request_geo_t));
  change ngx_bid_request_mobile__size with (msize (M := ngx_bid_request_mobile_t));
  change ngx_bid_request_video__size with (msize (M := ngx_bid_request_video_t));
  change ngx_bid_request_ad_slot__size with (msize (M := ngx_bid_request_ad_slot_t))). Qed.

Lemma bid_pack `{NgxEnv} (o : ngx_bid_request_t) :
  good o -> lenz (enc o) < 4294967296 -> Packs (mpack o) (enc o).
Proof. pack_law bid_message ngx_bid_request__pack bid_size
  (change ngx_bid_request_baidu_id__size with (msize (M := ngx_bid_request_baidu_id_t));
  change ngx_bid_request_baidu_id__pack with (mpack (M := ngx_bid_request_baidu_id_t));
  change ngx_bid_request_customized_user_tag__size with (msize (M := ngx_bid_request_customized_user_tag_t));
  change ngx_bid_request_customized_user_tag__pack with (mpack (M := ngx_bid_request_customized_user_tag_t));
  change ngx_bid_request_geo__size with (msize (M := ngx_bid_request_geo_t));
  change ngx_bid_request_geo__pack with (mpack (M := ngx_bid_request_geo_t));
  change ngx_bid_request_mobile__size with (msize (M := ngx_bid_request_mobile_t));
  change ngx_bid_request_mobile__pack with (mpack (M := ngx_bid_request_mobile_t));
  change ngx_bid_request_video__size with (msize (M := ngx_bid_request_video_t));
  change ngx_bid_request_video__pack with (mpack (M := ngx_bid_request_video_t));
  change ngx_bid_request_ad_slot__size with (msize (M := ngx_bid_request_ad_slot_t));
  change ngx_bid_request_ad_slot__pack with (mpack (M := ngx_bid_request_ad_slot_t))). Qed.

Lemma bid_unpack `{NgxEnv} (m : ngx_bid_request_t) fuel c :
  known m -> lenz (enc m) < 4294967296 -> ahead c (enc m) -> last c = pos c + lenz (enc m) ->
  reading c -> (length (enc m) <= fuel)%nat ->
  exists o k, munpack fuel zero c = Ok (NGX_OK, o, adv c (length (enc m)) k) /\ vmap (view c) o = norm m.
Proof.
  unpack_law bid_message ngx_bid_request__unpack
    (unpack_field bid_id with_bid_id;
    unpack_field bid_ip with_bid_ip;
    unpack_field bid_user_agent with_bid_user_agent;
    unpack_field bid_baidu_user_id with_bid_baidu_user_id;
    unpack_field bid_baidu_user_id_version with_bid_baidu_user_id_version;
    unpack_field bid_user_category with_bid_user_category;
    unpack_field bid_gender with_bid_gender;
    unpack_field bid_baidu_id_list with_bid_baidu_id_list;
    unpack_field bid_detected_language with_bid_detected_language;
    unpack_field bid_flash_version with_bid_flash_version;
    unpack_field bid_url with_bid_url;
    unpack_field bid_referer with_bid_referer;
    unpack_field bid_site_category with_bid_site_category;
    unpack_field bid_site_quality with_bid_site_quality;
    unpack_field bid_page_type with_bid_page_type;
    unpack_field bid_page_keyword with_bid_page_keyword;
    unpack_field bid_page_quality with_bid_page_quality;
    unpack_field bid_excluded_product_category with_bid_excluded_product_category;
    unpack_field bid_adslot with_bid_adslot;
    unpack_field bid_page_vertical with_bid_page_vertical;
    unpack_field bid_is_test with_bid_is_test;
    unpack_field bid_is_ping with_bid_is_ping;
    unpack_field bid_user_geo_info with_bid_user_geo_info;
    unpack_field bid_mobile with_bid_mobile;
    unpack_field bid_video with_bid_video;
    unpack_field bid_customized_user_tag with_bid_customized_user_tag;
    unpack_field bid_buyer_user_id with_bid_buyer_user_id).
Qed.

Lemma bid_vmap `{NgxEnv} g (m : ngx_bid_request_t) : (forall s, g s = s) -> vmap g m = m.
Proof. vmap_law bid_message. Qed.

Lemma bid_vmap_enc `{NgxEnv} g (m : ngx_bid_request_t) : same_bytes g -> enc (vmap g m) = enc m.
Proof. vmap_enc_law bid_message. Qed.

Lemma bid_vmap_good `{NgxEnv} g (m : ngx_bid_request_t) : same_bytes g -> good (vmap g m) -> good m.
Proof. vmap_good_law bid_message. Qed.

#[export] Instance bid_laws `{NgxEnv} : MessageLaws ngx_bid_request_t :=
  {| size_enc := bid_size; pack_enc := bid_pack; unpack_enc := bid_unpack;
     vmap_id := bid_vmap; vmap_enc := bid_vmap_enc; vmap_good := bid_vmap_good |}.

(** ** BidResponse.Ad.LinkUnitKeyword *)

#[export] Instance rkeyword_message `{NgxEnv} : Message ngx_bid_response_ad_link_unit_keyword_t := {
  zero := rkeyword_zero;
  msize := ngx_bid_response_ad_link_unit_keyword__size;
  mpack := ngx_bid_response_ad_link_unit_keyword__pack;
  munpack := ngx_bid_response_ad_link_unit_keyword__unpack;
  enc o := enc_str (rkeyword_keyword o) 1 ++ enc_u32s (rkeyword_selected_style_type o) 2 ++
    enc_unknowns (rkeyword_unknown o);
  good o := fld_good str_good (rkeyword_keyword o) /\ unknowns_good (rkeyword_unknown o);
  known o := fld_good str_good (rkeyword_keyword o) /\ elts (rkeyword_unknown o) = [];
  norm o := mk_rkeyword (pick_str (rkeyword_keyword o) (Fld false ngx_str_null))
    (pick_each (fun v => i32 (u32 v)) (rkeyword_selected_style_type o) (Fld false None)) None;
  vmap g o := mk_rkeyword (vstr g (rkeyword_keyword o)) (rkeyword_selected_style_type o) (rkeyword_unknown o) }.

Lemma rkeyword_size `{NgxEnv} (o : ngx_bid_response_ad_link_unit_keyword_t) :
  good o -> lenz (enc o) < 4294967296 -> msize o = lenz (enc o).
Proof. size_law rkeyword_message ngx_bid_response_ad_link_unit_keyword__size (idtac). Qed.

Lemma rkeyword_pack `{NgxEnv} (o : ngx_bid_response_ad_link_unit_keyword_t) :
  good o -> lenz (enc o) < 4294967296 -> Packs (mpack o) (enc o).
Proof. pack_law rkeyword_message ngx_bid_response_ad_link_unit_keyword__pack rkeyword_size (idtac). Qed.

Lemma rkeyword_unpack `{NgxEnv} (m : ngx_bid_response_ad_link_unit_keyword_t) fuel c :
  known m -> lenz (enc m) < 4294967296 -> ahead c (enc m) -> last c = pos c + lenz (enc m) ->
  reading c -> (length (enc m) <= fuel)%nat ->
  exists o k, munpack fuel zero c = Ok (NGX_OK, o, adv c (length (enc m)) k) /\ vmap (view c) o = norm m.
Proof.
  unpack_law rkeyword_message ngx_bid_response_ad_link_unit_keyword__unpack
    (unpack_field rkeyword_keyword with_rkeyword_keyword;
    unpack_field rkeyword_selected_style_type with_rkeyword_selected_style_type).
Qed.

Lemma rkeyword_vmap `{NgxEnv} g (m : ngx_bid_response_ad_link_unit_keyword_t) : (forall s, g s = s) -> vmap g m = m.
Proof. vmap_law rkeyword_message. Qed.

Lemma rkeyword_vmap_enc `{NgxEnv} g (m : ngx_bid_response_ad_link_unit_keyword_t) : same_bytes g -> enc (vmap g m) = enc m.
Proof. vmap_enc_law rkeyword_message. Qed.

Lemma rkeyword_vmap_good `{NgxEnv} g (m : ngx_bid_response_ad_link_unit_keyword_t) : same_bytes g -> good (vmap g m) -> good m.
Proof. vmap_good_law rkeyword_message. Qed.

#[export] Instance rkeyword_laws `{NgxEnv} : MessageLaws ngx_bid_response_ad_link_unit_keyword_t :=
  {| size_enc := rkeyword_size; pack_enc := rkeyword_pack; unpack_enc := rkeyword_unpack;
     vmap_id := rkeyword_vmap; vmap_enc := rkeyword_vmap_enc; vmap_good := rkeyword_vmap_good |}.

(** ** BidResponse.Ad.ExpandCreativeInfo *)

#[export] Instance rexpand_message `{NgxEnv} : Message ngx_bid_response_ad_expand_creative_info_t := {
  zero := rexpand_zero;
  msize := ngx_bid_response_ad_expand_creative_info__size;
  mpack := ngx_bid_response_ad_expand_creative_info__pack;
  munpack := ngx_bid_response_ad_expand_creative_info__unpack;
  enc o := enc_u32 (rexpand_creative_width o) 1 ++ enc_u32 (rexpand_creative_height o) 2 ++
    enc_str (rexpand_creative_landing_page o) 3 ++ enc_u32 (rexpand_creative_type o) 4 ++
    enc_unknowns (rexpand_unknown o);
  good o := fld_good str_good (rexpand_creative_landing_page o) /\ unknowns_good (rexpand_unknown o);
  known o := fld_good str_good (rexpand_creative_landing_page o) /\ elts (rexpand_unknown o) = [];
  norm o := mk_rexpand (pick_u32 i32 (rexpand_creative_width o) (Fld false 0))
    (pick_u32 i32 (rexpand_creative_height o) (Fld false 0))
    (pick_str (rexpand_creative_landing_page o) (Fld false ngx_str_null))
    (pick_u32 i32 (rexpand_creative_type o) (Fld false 0)) None;
  vmap g o := mk_rexpand (rexpand_creative_width o) (rexpand_creative_height o)
    (vstr g (rexpand_creative_landing_page o)) (rexpand_creative_type o) (rexpand_unknown o) }.

Lemma rexpand_size `{NgxEnv} (o : ngx_bid_response_ad_expand_creative_info_t) :
  good o -> lenz (enc o) < 4294967296 -> msize o = lenz (enc o).
Proof. size_law rexpand_message ngx_bid_response_ad_expand_creative_info__size (idtac). Qed.

Lemma rexpand_pack `{NgxEnv} (o : ngx_bid_response_ad_expand_creative_info_t) :
  good o -> lenz (enc o) < 4294967296 -> Packs (mpack o) (enc o).
Proof. pack_law rexpand_message ngx_bid_response_ad_expand_creative_info__pack rexpand_size (idtac). Qed.

Lemma rexpand_unpack `{NgxEnv} (m : ngx_bid_response_ad_expand_creative_info_t) fuel c :
  known m -> lenz (enc m) < 4294967296 -> ahead c (enc m) -> last c = pos c + lenz (enc m) ->
  reading c -> (length (enc m) <= fuel)%nat ->
  exists o k, munpack fuel zero c = Ok (NGX_OK, o, adv c (length (enc m)) k) /\ vmap (view c) o = norm m.
Proof.
  unpack_law rexpand_message ngx_bid_response_ad_expand_creative_info__unpack
    (unpack_field rexpand_creative_width with_rexpand_creative_width;
    unpack_field rexpand_creative_height with_rexpand_creative_height;
    unpack_field rexpand_creative_landing_page with_rexpand_creative_landing_page;
    unpack_field rexpand_creative_type with_rexpand_creative_type).
Qed.

Lemma rexpand_vmap `{NgxEnv} g (m : ngx_bid_response_ad_expand_creative_info_t) : (forall s, g s = s) -> vmap g m = m.
Proof. vmap_law rexpand_message. Qed.

Lemma rexpand_vmap_enc `{NgxEnv} g (m : ngx_bid_response_ad_expand_creative_info_t) : same_bytes g -> enc (vmap g m) = enc m.
Proof. vmap_enc_law rexpand_message. Qed.

Lemma rexpand_vmap_good `{NgxEnv} g (m : ngx_bid_response_ad_expand_creative_info_t) : same_bytes g -> good (vmap g m) -> good m.
Proof. vmap_good_law rexpand_message. Qed.

#[export] Instance rexpand_laws `{NgxEnv} : MessageLaws ngx_bid_response_ad_expand_creative_info_t :=
  {| size_enc := rexpand_size; pack_enc := rexpand_pack; unpack_enc := rexpand_unpack;
     vmap_id := rexpand_vmap; vmap_enc := rexpand_vmap_enc; vmap_good := rexpand_vmap_good |}.

(** ** BidResponse.Ad.DeeplinkInfo *)

#[export] Instance deeplink_message `{NgxEnv} : Message ngx_bid_response_ad_deeplink_info_t := {
  zero := deeplink_zero;
  msize := ngx_bid_response_ad_deeplink_info__size;
  mpack := ngx_bid_response_ad_deeplink_info__pack;
  munpack := ngx_bid_response_ad_deeplink_info__unpack;
  enc o := enc_str (deeplink_deeplink_url o) 1 ++ enc_u32 (deeplink_app_version o) 2 ++
    enc_str (deeplink_fallback_url o) 3 ++ enc_u32 (deeplink_fallback_type o) 4 ++
    enc_unknowns (deeplink_unknown o);
  good o := fld_good str_good (deeplink_deeplink_url o) /\ fld_good str_good (deeplink_fallback_url o) /\
    unknowns_good (deeplink_unknown o);
  known o := fld_good str_good (deeplink_deeplink_url o) /\ fld_good str_good (deeplink_fallback_url o) /\
    elts (deeplink_unknown o) = [];
  norm o := mk_deeplink (pick_str (deeplink_deeplink_url o) (Fld false ngx_str_null))
    (pick_u32 id (deeplink_app_version o) (Fld false 0))
    (pick_str (deeplink_fallback_url o) (Fld false ngx_str_null))
    (pick_u32 id (deeplink_fallback_type o) (Fld false 0)) None;
  vmap g o := mk_deeplink (vstr g (deeplink_deeplink_url o)) (deeplink_app_version o)
    (vstr g (deeplink_fallback_url o)) (deeplink_fallback_type o) (deeplink_unknown o) }.

Lemma deeplink_size `{NgxEnv} (o : ngx_bid_response_ad_deeplink_info_t) :
  good o -> lenz (enc o) < 4294967296 -> msize o = lenz (enc o).
Proof. size_law deeplink_message ngx_bid_response_ad_deeplink_info__size (idtac). Qed.

Lemma deeplink_pack `{NgxEnv} (o : ngx_bid_response_ad_deeplink_info_t) :
  good o -> lenz (enc o) < 4294967296 -> Packs (mpack o) (enc o).
Proof. pack_law deeplink_message ngx_bid_response_ad_deeplink_info__pack deeplink_size (idtac). Qed.

Lemma deeplink_unpack `{NgxEnv} (m : ngx_bid_response_ad_deeplink_info_t) fuel c :
  known m -> lenz (enc m) < 4294967296 -> ahead c (enc m) -> last c = pos c + lenz (enc m) ->
  reading c -> (length (enc m) <= fuel)%nat ->
  exists o k, munpack fuel zero c = Ok (NGX_OK, o, adv c (length (enc m)) k) /\ vmap (view c) o = norm m.
Proof.
  unpack_law deeplink_message ngx_bid_response_ad_deeplink_info__unpack
    (unpack_field deeplink_deeplink_url with_deeplink_deeplink_url;
    unpack_field deeplink_app_version with_deeplink_app_version;
    unpack_field deeplink_fallback_url with_deeplink_fallback_url;
    unpack_field deeplink_fallback_type with_deeplink_fallback_type).
Qed.

Lemma deeplink_vmap `{NgxEnv} g (m : ngx_bid_response_ad_deeplink_info_t) : (forall s, g s = s) -> vmap g m = m.
Proof. vmap_law deeplink_message. Qed.

Lemma deeplink_vmap_enc `{NgxEnv} g (m : ngx_bid_response_ad_deeplink_info_t) : same_bytes g -> enc (vmap g m) = enc m.
Proof. vmap_enc_law deeplink_message. Qed.

Lemma deeplink_vmap_good `{NgxEnv} g (m : ngx_bid_response_ad_deeplink_info_t) : same_bytes g -> good (vmap g m) -> good m.
Proof. vmap_good_law deeplink_message. Qed.

#[export] Instance deeplink_laws `{NgxEnv} : MessageLaws ngx_bid_response_ad_deeplink_info_t :=
  {| size_enc := deeplink_size; pack_enc := deeplink_pack; unpack_enc := deeplink_unpack;
     vmap_id := deeplink_vmap; vmap_enc := deeplink_vmap_enc; vmap_good := deeplink_vmap_good |}.
