(* ===== verification/NgxBaiduResponse.v ===== *)
(** The response of baidu.proto as adx_module/adx_com_baidu/ngx_baidu_proto.h
    and ngx_baidu_proto.c hold, unpack, measure and pack it: [BidResponse] and
    [BidResponse.Ad], the message with a tree of extensions, and the extension
    [ad_status].  Every definition is the C function or macro of its name, in
    the order of the source; the code of a field is the function of
    NgxProtobufMsg.v or NgxProtobufScalar.v for its type, that of the
    extensions in NgxProtobufExt.v.  The fuel is that of NgxBaiduProto.v. *)

From Stdlib Require Import ZArith.
From S2P Require Import Prelude NgxRbtree NgxProtobuf NgxProtobufMsg NgxProtobufScalar NgxProtobufExt NgxBaiduProto.

Open Scope Z_scope.

(** What the code of an extension depends on: the type of the messages an
    extension may hold, with the object of zero bytes; what a [double] is after
    its way through a [float]; and the static variable that holds the registry,
    [None] for NULL, as it is while a message is treated. *)
Class NgxExtensions := {
  extension_message : Type;
  extension_zero : extension_message;
  narrow : Z -> Z;
  ngx_bid_response_ad__extensions : option (rbtree (option (ngx_protobuf_field_descriptor_t extension_message)))
}.
Abbreviation extensions := (option (rbtree (ngx_protobuf_extension_field_t extension_message))).
Abbreviation registry := (option (rbtree (option (ngx_protobuf_field_descriptor_t extension_message)))).

(** ** BidResponse.Ad *)

Section Ad.
Context `{X : NgxExtensions}.

Record ngx_bid_response_ad_t := mk_rad { rad_sequence_id : fld Z; rad_creative_id : fld Z;
    rad_html_snippet : fld ngx_str_t; rad_link_unit_keyword : fld (option ngx_bid_response_ad_link_unit_keyword_t);
    rad_expand_creative_info : fld (option ngx_bid_response_ad_expand_creative_info_t); rad_advertiser_id : fld Z;
    rad_width : fld Z; rad_height : fld Z; rad_category : fld Z; rad_type : fld Z; rad_landing_page : fld ngx_str_t;
    rad_target_url : fld (array ngx_str_t); rad_monitor_urls : fld (array ngx_str_t); rad_max_cpm : fld Z;
    rad_extdata : fld ngx_str_t; rad_is_cookie_matching : fld Z; rad_preferred_order_id : fld ngx_str_t;
    rad_guaranteed_order_id : fld Z; rad_deeplink_info : fld (option ngx_bid_response_ad_deeplink_info_t);
    rad_extensions : extensions; rad_unknown : array ngx_protobuf_unknown_field_t }.

(** [rad_extensions] is the tree [__extensions].  What [ngx_bid_response_ad__alloc] and [__clear] give. *)
Definition rad_zero : ngx_bid_response_ad_t := mk_rad (Fld false 0) (Fld false 0) (Fld false ngx_str_null)
    (Fld false None) (Fld false None) (Fld false 0) (Fld false 0) (Fld false 0) (Fld false 0) (Fld false 0)
    (Fld false ngx_str_null) (Fld false None) (Fld false None) (Fld false 0) (Fld false ngx_str_null) (Fld false 0)
    (Fld false ngx_str_null) (Fld false 0) (Fld false None) None None.

Definition with_rad_sequence_id '(mk_rad _ a2 a3 a4 a5 a6 a7 a8 a9 a10 a11 a12 a13 a14 a15 a16 a17 a18 a19 a20
    a21) x :=
  mk_rad x a2 a3 a4 a5 a6 a7 a8 a9 a10 a11 a12 a13 a14 a15 a16 a17 a18 a19 a20 a21.
Definition with_rad_creative_id '(mk_rad a1 _ a3 a4 a5 a6 a7 a8 a9 a10 a11 a12 a13 a14 a15 a16 a17 a18 a19 a20
    a21) x :=
  mk_rad a1 x a3 a4 a5 a6 a7 a8 a9 a10 a11 a12 a13 a14 a15 a16 a17 a18 a19 a20 a21.
Definition with_rad_html_snippet '(mk_rad a1 a2 _ a4 a5 a6 a7 a8 a9 a10 a11 a12 a13 a14 a15 a16 a17 a18 a19 a20
    a21) x :=
  mk_rad a1 a2 x a4 a5 a6 a7 a8 a9 a10 a11 a12 a13 a14 a15 a16 a17 a18 a19 a20 a21.
Definition with_rad_link_unit_keyword '(mk_rad a1 a2 a3 _ a5 a6 a7 a8 a9 a10 a11 a12 a13 a14 a15 a16 a17 a18 a19 a20
    a21) x :=
  mk_rad a1 a2 a3 x a5 a6 a7 a8 a9 a10 a11 a12 a13 a14 a15 a16 a17 a18 a19 a20 a21.
Definition with_rad_expand_creative_info '(mk_rad a1 a2 a3 a4 _ a6 a7 a8 a9 a10 a11 a12 a13 a14 a15 a16 a17 a18 a19
    a20 a21) x :=
  mk_rad a1 a2 a3 a4 x a6 a7 a8 a9 a10 a11 a12 a13 a14 a15 a16 a17 a18 a19 a20 a21.
Definition with_rad_advertiser_id '(mk_rad a1 a2 a3 a4 a5 _ a7 a8 a9 a10 a11 a12 a13 a14 a15 a16 a17 a18 a19 a20
    a21) x :=
  mk_rad a1 a2 a3 a4 a5 x a7 a8 a9 a10 a11 a12 a13 a14 a15 a16 a17 a18 a19 a20 a21.
Definition with_rad_width '(mk_rad a1 a2 a3 a4 a5 a6 _ a8 a9 a10 a11 a12 a13 a14 a15 a16 a17 a18 a19 a20 a21) x :=
  mk_rad a1 a2 a3 a4 a5 a6 x a8 a9 a10 a11 a12 a13 a14 a15 a16 a17 a18 a19 a20 a21.
Definition with_rad_height '(mk_rad a1 a2 a3 a4 a5 a6 a7 _ a9 a10 a11 a12 a13 a14 a15 a16 a17 a18 a19 a20 a21) x :=
  mk_rad a1 a2 a3 a4 a5 a6 a7 x a9 a10 a11 a12 a13 a14 a15 a16 a17 a18 a19 a20 a21.
Definition with_rad_category '(mk_rad a1 a2 a3 a4 a5 a6 a7 a8 _ a10 a11 a12 a13 a14 a15 a16 a17 a18 a19 a20
    a21) x :=
  mk_rad a1 a2 a3 a4 a5 a6 a7 a8 x a10 a11 a12 a13 a14 a15 a16 a17 a18 a19 a20 a21.
Definition with_rad_type '(mk_rad a1 a2 a3 a4 a5 a6 a7 a8 a9 _ a11 a12 a13 a14 a15 a16 a17 a18 a19 a20 a21) x :=
  mk_rad a1 a2 a3 a4 a5 a6 a7 a8 a9 x a11 a12 a13 a14 a15 a16 a17 a18 a19 a20 a21.
Definition with_rad_landing_page '(mk_rad a1 a2 a3 a4 a5 a6 a7 a8 a9 a10 _ a12 a13 a14 a15 a16 a17 a18 a19 a20
    a21) x :=
  mk_rad a1 a2 a3 a4 a5 a6 a7 a8 a9 a10 x a12 a13 a14 a15 a16 a17 a18 a19 a20 a21.
Definition with_rad_target_url '(mk_rad a1 a2 a3 a4 a5 a6 a7 a8 a9 a10 a11 _ a13 a14 a15 a16 a17 a18 a19 a20
    a21) x :=
  mk_rad a1 a2 a3 a4 a5 a6 a7 a8 a9 a10 a11 x a13 a14 a15 a16 a17 a18 a19 a20 a21.
Definition with_rad_monitor_urls '(mk_rad a1 a2 a3 a4 a5 a6 a7 a8 a9 a10 a11 a12 _ a14 a15 a16 a17 a18 a19 a20
    a21) x :=
  mk_rad a1 a2 a3 a4 a5 a6 a7 a8 a9 a10 a11 a12 x a14 a15 a16 a17 a18 a19 a20 a21.
Definition with_rad_max_cpm '(mk_rad a1 a2 a3 a4 a5 a6 a7 a8 a9 a10 a11 a12 a13 _ a15 a16 a17 a18 a19 a20 a21) x :=
  mk_rad a1 a2 a3 a4 a5 a6 a7 a8 a9 a10 a11 a12 a13 x a15 a16 a17 a18 a19 a20 a21.
Definition with_rad_extdata '(mk_rad a1 a2 a3 a4 a5 a6 a7 a8 a9 a10 a11 a12 a13 a14 _ a16 a17 a18 a19 a20 a21) x :=
  mk_rad a1 a2 a3 a4 a5 a6 a7 a8 a9 a10 a11 a12 a13 a14 x a16 a17 a18 a19 a20 a21.
Definition with_rad_is_cookie_matching '(mk_rad a1 a2 a3 a4 a5 a6 a7 a8 a9 a10 a11 a12 a13 a14 a15 _ a17 a18 a19 a20
    a21) x :=
  mk_rad a1 a2 a3 a4 a5 a6 a7 a8 a9 a10 a11 a12 a13 a14 a15 x a17 a18 a19 a20 a21.
Definition with_rad_preferred_order_id '(mk_rad a1 a2 a3 a4 a5 a6 a7 a8 a9 a10 a11 a12 a13 a14 a15 a16 _ a18 a19 a20
    a21) x :=
  mk_rad a1 a2 a3 a4 a5 a6 a7 a8 a9 a10 a11 a12 a13 a14 a15 a16 x a18 a19 a20 a21.
Definition with_rad_guaranteed_order_id '(mk_rad a1 a2 a3 a4 a5 a6 a7 a8 a9 a10 a11 a12 a13 a14 a15 a16 a17 _ a19
    a20 a21) x :=
  mk_rad a1 a2 a3 a4 a5 a6 a7 a8 a9 a10 a11 a12 a13 a14 a15 a16 a17 x a19 a20 a21.
Definition with_rad_deeplink_info '(mk_rad a1 a2 a3 a4 a5 a6 a7 a8 a9 a10 a11 a12 a13 a14 a15 a16 a17 a18 _ a20
    a21) x :=
  mk_rad a1 a2 a3 a4 a5 a6 a7 a8 a9 a10 a11 a12 a13 a14 a15 a16 a17 a18 x a20 a21.
Definition with_rad_extensions '(mk_rad a1 a2 a3 a4 a5 a6 a7 a8 a9 a10 a11 a12 a13 a14 a15 a16 a17 a18 a19 _
    a21) x :=
  mk_rad a1 a2 a3 a4 a5 a6 a7 a8 a9 a10 a11 a12 a13 a14 a15 a16 a17 a18 a19 x a21.
Definition with_rad_unknown '(mk_rad a1 a2 a3 a4 a5 a6 a7 a8 a9 a10 a11 a12 a13 a14 a15 a16 a17 a18 a19 a20 _) x :=
  mk_rad a1 a2 a3 a4 a5 a6 a7 a8 a9 a10 a11 a12 a13 a14 a15 a16 a17 a18 a19 a20 x.
End Ad.

Section Env.
Context `{E : NgxEnv, R : NgxRbtree, X : NgxExtensions}.

Definition ngx_bid_response_ad__add__target_url (obj : ngx_bid_response_ad_t) (pl : bool) (c : ngx_protobuf_context_t) :=
  add_element ngx_str_null rad_target_url with_rad_target_url obj pl c.
Definition ngx_bid_response_ad__add__monitor_urls (obj : ngx_bid_response_ad_t) (pl : bool) (c : ngx_protobuf_context_t) :=
  add_element ngx_str_null rad_monitor_urls with_rad_monitor_urls obj pl c.

Definition ngx_bid_response_ad__unpack_link_unit_keyword (fuel : nat) :=
  unpack_member rkeyword_zero (ngx_bid_response_ad_link_unit_keyword__unpack fuel) rad_link_unit_keyword with_rad_link_unit_keyword.
Definition ngx_bid_response_ad__unpack_expand_creative_info (fuel : nat) :=
  unpack_member rexpand_zero (ngx_bid_response_ad_expand_creative_info__unpack fuel) rad_expand_creative_info with_rad_expand_creative_info.
Definition ngx_bid_response_ad__unpack_deeplink_info (fuel : nat) :=
  unpack_member deeplink_zero (ngx_bid_response_ad_deeplink_info__unpack fuel) rad_deeplink_info with_rad_deeplink_info.

(** The case [default]. *)
Definition rad_default (fuel : nat) (field wire : Z) (obj : ngx_bid_response_ad_t) (c : ngx_protobuf_context_t)
  : cres (ngx_rc * ngx_bid_response_ad_t * ngx_protobuf_context_t) :=
  '(rc, ext, c) ← ngx_protobuf_unpack_extension extension_zero fuel field wire c ngx_bid_response_ad__extensions
                    (rad_extensions obj);
  let obj := with_rad_extensions obj ext in
  if decide (rc ≠ NGX_OK) then
    if decide (rc = NGX_DECLINED) then
      '(rc, u, c) ← ngx_protobuf_unpack_unknown_field field wire c (rad_unknown obj);
      mret (rc, with_rad_unknown obj u, c)
    else mret (rc, obj, c)
  else mret (NGX_OK, obj, c).

Definition rad_switch (fuel : nat) (field wire : Z) (obj : ngx_bid_response_ad_t) (c : ngx_protobuf_context_t)
  : result ngx_bid_response_ad_t :=
  match field with
  | 1 => unpack_u32 i32 with_rad_sequence_id wire obj c
  | 2 => unpack_u64 i64 with_rad_creative_id wire obj c
  | 7 => unpack_str rad_html_snippet with_rad_html_snippet wire obj c
  | 18 => unpack_msg (ngx_bid_response_ad__unpack_link_unit_keyword fuel) wire obj c
  | 19 => unpack_msg (ngx_bid_response_ad__unpack_expand_creative_info fuel) wire obj c
  | 8 => unpack_u64 id with_rad_advertiser_id wire obj c
  | 9 => unpack_u32 i32 with_rad_width wire obj c
  | 10 => unpack_u32 i32 with_rad_height wire obj c
  | 11 => unpack_u32 i32 with_rad_category wire obj c
  | 12 => unpack_u32 i32 with_rad_type wire obj c
  | 13 => unpack_str rad_landing_page with_rad_landing_page wire obj c
  | 14 => unpack_strs rad_target_url with_rad_target_url wire obj c
  | 17 => unpack_strs rad_monitor_urls with_rad_monitor_urls wire obj c
  | 3 => unpack_u32 i32 with_rad_max_cpm wire obj c
  | 5 => unpack_str rad_extdata with_rad_extdata wire obj c
  | 6 => unpack_bool with_rad_is_cookie_matching wire obj c
  | 15 => unpack_str rad_preferred_order_id with_rad_preferred_order_id wire obj c
  | 20 => unpack_u32 id with_rad_guaranteed_order_id wire obj c
  | 21 => unpack_msg (ngx_bid_response_ad__unpack_deeplink_info fuel) wire obj c
  | _ => rad_default fuel field wire obj c
  end.

Definition ngx_bid_response_ad__unpack (fuel : nat) := unpack_loop (rad_switch fuel) fuel.

Definition ngx_bid_response_ad__size (obj : ngx_bid_response_ad_t) : cres Z :=
  let size := 0 in
  let size := u64 (size + size_u32 (rad_sequence_id obj) 1) in
  let size := u64 (size + size_u64 (rad_creative_id obj) 2) in
  let size := u64 (size + size_str (rad_html_snippet obj) 7) in
  let size := u64 (size + size_member ngx_bid_response_ad_link_unit_keyword__size (rad_link_unit_keyword obj) 18) in
  let size := u64 (size + size_member ngx_bid_response_ad_expand_creative_info__size (rad_expand_creative_info obj) 19) in
  let size := u64 (size + size_u64 (rad_advertiser_id obj) 8) in
  let size := u64 (size + size_u32 (rad_width obj) 9) in
  let size := u64 (size + size_u32 (rad_height obj) 10) in
  let size := u64 (size + size_u32 (rad_category obj) 11) in
  let size := u64 (size + size_u32 (rad_type obj) 12) in
  let size := u64 (size + size_str (rad_landing_page obj) 13) in
  let size := size_strs (rad_target_url obj) 14 size in
  let size := size_strs (rad_monitor_urls obj) 17 size in
  let size := u64 (size + size_u32 (rad_max_cpm obj) 3) in
  let size := u64 (size + size_str (rad_extdata obj) 5) in
  let size := u64 (size + size_bool (rad_is_cookie_matching obj) 6) in
  let size := u64 (size + size_str (rad_preferred_order_id obj) 15) in
  let size := u64 (size + size_u32 (rad_guaranteed_order_id obj) 20) in
  let size := u64 (size + size_member ngx_bid_response_ad_deeplink_info__size (rad_deeplink_info obj) 21) in
  size ← match rad_extensions obj with
         | Some ext => n ← ngx_protobuf_size_extensions extension_zero ext; mret (u64 (size + n))
         | None => mret size
         end;
  mret (size_unknowns (rad_unknown obj) size).

Definition ngx_bid_response_ad__pack (obj : ngx_bid_response_ad_t) (c : ngx_protobuf_context_t)
  : cres (ngx_rc * ngx_protobuf_context_t) :=
  size ← ngx_bid_response_ad__size obj;
  pack_guard size c (fun c =>
    c ← pack_u32 (rad_sequence_id obj) 1 c;
    c ← pack_u64 (rad_creative_id obj) 2 c;
    c ← pack_u32 (rad_max_cpm obj) 3 c;
    c ← pack_str (rad_extdata obj) 5 c;
    c ← pack_bool (rad_is_cookie_matching obj) 6 c;
    c ← pack_str (rad_html_snippet obj) 7 c;
    c ← pack_u64 (rad_advertiser_id obj) 8 c;
    c ← pack_u32 (rad_width obj) 9 c;
    c ← pack_u32 (rad_height obj) 10 c;
    c ← pack_u32 (rad_category obj) 11 c;
    c ← pack_u32 (rad_type obj) 12 c;
    c ← pack_str (rad_landing_page obj) 13 c;
    c ← pack_strs (rad_target_url obj) 14 c;
    c ← pack_str (rad_preferred_order_id obj) 15 c;
    c ← pack_strs (rad_monitor_urls obj) 17 c;
    c ← pack_member ngx_bid_response_ad_link_unit_keyword__size ngx_bid_response_ad_link_unit_keyword__pack
           (rad_link_unit_keyword obj) 18 c;
    c ← pack_member ngx_bid_response_ad_expand_creative_info__size ngx_bid_response_ad_expand_creative_info__pack
           (rad_expand_creative_info obj) 19 c;
    c ← pack_u32 (rad_guaranteed_order_id obj) 20 c;
    c ← pack_member ngx_bid_response_ad_deeplink_info__size ngx_bid_response_ad_deeplink_info__pack
           (rad_deeplink_info obj) 21 c;
    '(rc, c) ← match rad_extensions obj with
               | Some ext => ngx_protobuf_pack_extensions extension_zero narrow ext 100 200 c
               | None => mret (NGX_OK, c)
               end;
    if decide (rc ≠ NGX_OK) then mret (rc, c) else pack_unknowns (elts (rad_unknown obj)) c).
End Env.

(** ** The registry of extensions

    The only extension of the file; it is put into the registry when nginx
    reads its configuration. *)
Section Registry.
Context `{E : NgxEnv, R : NgxRbtree, X : NgxExtensions}.

Definition ngx_bid_response_ad_ad_status : ngx_protobuf_field_descriptor_t extension_message :=
  Desc 101 NGX_PROTOBUF_WIRETYPE_VARINT NGX_PROTOBUF_LABEL_OPTIONAL NGX_PROTOBUF_TYPE_INT32 4 false None None None.

(** [reg] is [ngx_bid_response_ad__extensions] before and after. *)
Definition ngx_bid_response_ad__import_extension (reg : registry) (desc : ngx_protobuf_field_descriptor_t extension_message)
    (cycle : ngx_protobuf_context_t) : ngx_rc * registry * ngx_protobuf_context_t :=
  ngx_protobuf_import_extension reg desc cycle.
Definition ngx_baidu_proto__register_extensions (reg : registry) (cycle : ngx_protobuf_context_t)
  : ngx_rc * registry * ngx_protobuf_context_t :=
  let '(rc, reg, cycle) := ngx_bid_response_ad__import_extension reg ngx_bid_response_ad_ad_status cycle in
  if decide (rc ≠ NGX_OK) then (NGX_ERROR, reg, cycle) else (NGX_OK, reg, cycle).

Definition ngx_bid_response_ad__set_extension (ext : extensions) (field : Z) (val : option (ngx_protobuf_value extension_message))
    (c : ngx_protobuf_context_t) : cres (ngx_rc * extensions * ngx_protobuf_context_t) :=
  ngx_protobuf_set_extension ext ngx_bid_response_ad__extensions field val c.
(** Whether the result is not NULL, and the tree. *)
Definition ngx_bid_response_ad__add_extension (ext : extensions) (field : Z) (c : ngx_protobuf_context_t)
  : cres (bool * extensions * ngx_protobuf_context_t) :=
  '(rc, ext, c) ← ngx_protobuf_add_extension extension_zero ext ngx_bid_response_ad__extensions field c;
  mret (bool_decide (rc = NGX_OK), ext, c).

(** ** BidResponse.Ad.ad_status *)

Definition ngx_bid_response_ad__has_ad_status (obj : ngx_bid_response_ad_t) : bool :=
  match ngx_protobuf_get_extension (rad_extensions obj) 101 with Some _ => true | None => false end.
Definition ngx_bid_response_ad__clear_ad_status (obj : ngx_bid_response_ad_t) : ngx_bid_response_ad_t :=
  with_rad_extensions obj (ngx_protobuf_clear_extension (rad_extensions obj) 101).
Definition ngx_bid_response_ad__get_ad_status (obj : ngx_bid_response_ad_t) : cres Z :=
  match ngx_protobuf_get_extension (rad_extensions obj) 101 with
  | None => mret 0
  | Some val =>
      if negb (v_exists val) then mret 0
      else if decide (v_type val ≠ Some NGX_PROTOBUF_TYPE_INT32) then mret 0
      else v ← v_uint32 (v_u val); mret (i32 v)
  end.
(** The union of the local variable [val] is not set: [junk] is what it
    holds. *)
Definition ngx_bid_response_ad__set_ad_status (junk : ngx_protobuf_union_t extension_message) (obj : ngx_bid_response_ad_t)
    (ext : Z) (c : ngx_protobuf_context_t) : cres (ngx_rc * ngx_bid_response_ad_t * ngx_protobuf_context_t) :=
  let val := PValue (Some NGX_PROTOBUF_TYPE_INT32) true junk in
  '(rc, e, c) ← ngx_bid_response_ad__set_extension (rad_extensions obj) 101 (Some val) c;
  mret (rc, with_rad_extensions obj e, c).
End Registry.

(** ** BidResponse *)

Section Response.
Context `{X : NgxExtensions}.

Record ngx_bid_response_t := mk_bresp { bresp_id : fld ngx_str_t; bresp_ad : fld (array ngx_bid_response_ad_t);
    bresp_debug_string : fld ngx_str_t; bresp_processing_time_ms : fld Z;
    bresp_unknown : array ngx_protobuf_unknown_field_t }.

(** What [ngx_bid_response__alloc] and [__clear] give. *)
Definition bresp_zero : ngx_bid_response_t := mk_bresp (Fld false ngx_str_null) (Fld false None)
    (Fld false ngx_str_null) (Fld false 0) None.

Definition with_bresp_id '(mk_bresp _ a2 a3 a4 a5) x :=
  mk_bresp x a2 a3 a4 a5.
Definition with_bresp_ad '(mk_bresp a1 _ a3 a4 a5) x :=
  mk_bresp a1 x a3 a4 a5.
Definition with_bresp_debug_string '(mk_bresp a1 a2 _ a4 a5) x :=
  mk_bresp a1 a2 x a4 a5.
Definition with_bresp_processing_time_ms '(mk_bresp a1 a2 a3 _ a5) x :=
  mk_bresp a1 a2 a3 x a5.
Definition with_bresp_unknown '(mk_bresp a1 a2 a3 a4 _) x :=
  mk_bresp a1 a2 a3 a4 x.
End Response.

Section Env.
Context `{E : NgxEnv, R : NgxRbtree, X : NgxExtensions}.

Definition ngx_bid_response__add__ad (obj : ngx_bid_response_t) (pl : bool) (c : ngx_protobuf_context_t) :=
  add_element rad_zero bresp_ad with_bresp_ad obj pl c.

Definition ngx_bid_response__unpack_ad (fuel : nat) :=
  unpack_element rad_zero (ngx_bid_response_ad__unpack fuel) bresp_ad with_bresp_ad.

Definition bresp_switch (fuel : nat) (field wire : Z) (obj : ngx_bid_response_t) (c : ngx_protobuf_context_t)
  : result ngx_bid_response_t :=
  match field with
  | 1 => unpack_str bresp_id with_bresp_id wire obj c
  | 2 => unpack_msg (ngx_bid_response__unpack_ad fuel) wire obj c
  | 3 => unpack_str bresp_debug_string with_bresp_debug_string wire obj c
  | 4 => unpack_u32 i32 with_bresp_processing_time_ms wire obj c
  | _ => unpack_unknown bresp_unknown with_bresp_unknown field wire obj c
  end.

Definition ngx_bid_response__unpack (fuel : nat) := unpack_loop (bresp_switch fuel) fuel.

(** The loops over [obj->ad]; the result of packing an element is dropped. *)
Fixpoint size_ads (vals : list ngx_bid_response_ad_t) (size : Z) : cres Z :=
  match vals with
  | [] => mret size
  | m :: vals => n ← ngx_bid_response_ad__size m; size_ads vals (u64 (size + ngx_protobuf_size_message_field n 2))
  end.
Definition pack_ad (m : ngx_bid_response_ad_t) (c : ngx_protobuf_context_t) : cres ngx_protobuf_context_t :=
  n ← ngx_bid_response_ad__size m;
  c ← ngx_protobuf_write_message_header c n 2;
  '(_, c) ← ngx_bid_response_ad__pack m c;
  mret c.

Definition ngx_bid_response__size (obj : ngx_bid_response_t) : cres Z :=
  let size := 0 in
  let size := u64 (size + size_str (bresp_id obj) 1) in
  size ← (if has (bresp_ad obj) then size_ads (elts (val (bresp_ad obj))) size else mret size);
  let size := u64 (size + size_str (bresp_debug_string obj) 3) in
  let size := u64 (size + size_u32 (bresp_processing_time_ms obj) 4) in
  mret (size_unknowns (bresp_unknown obj) size).

Definition ngx_bid_response__pack (obj : ngx_bid_response_t) (c : ngx_protobuf_context_t)
  : cres (ngx_rc * ngx_protobuf_context_t) :=
  size ← ngx_bid_response__size obj;
  pack_guard size c (fun c =>
    c ← pack_str (bresp_id obj) 1 c;
    c ← (if has (bresp_ad obj) then pack_list pack_ad (elts (val (bresp_ad obj))) c else mret c);
    c ← pack_str (bresp_debug_string obj) 3 c;
    c ← pack_u32 (bresp_processing_time_ms obj) 4 c;
    pack_unknowns (elts (bresp_unknown obj)) c).
End Env.

(** ** Required fields *)

Definition ngx_bid_response__is_initialized `{NgxExtensions} (obj : ngx_bid_response_t) : bool := has (bresp_id obj).
Definition ngx_bid_response_ad__is_initialized `{NgxExtensions} (obj : ngx_bid_response_ad_t) : bool := true.
