(* ===== verification/NgxBaiduResponseLaws.v ===== *)
(** The response of NgxBaiduResponse.v obeys the laws of NgxProtobufMember.v:
    each message computes its size, packs to its bytes and unpacks them.
    [good] asks of the extensions that every node has bytes (NgxProtobufExtLaws.v)
    and a number in the range that is packed, [known] that the value is read
    back (NgxProtobufExtRead.v) and that the registry has its descriptor. *)

From Stdlib Require Import ZArith Lia.
From S2P Require Import Prelude NgxRbtree NgxProtobuf NgxProtobufWire NgxProtobufMsg NgxProtobufCodec NgxProtobufRead.
From S2P Require Import NgxProtobufMember NgxProtobufScalar NgxProtobufScalarLaws NgxProtobufLaws NgxBaiduProto NgxBaiduProtoLaws.
From S2P Require Import NgxProtobufExt NgxProtobufExtTree NgxProtobufExtLaws NgxProtobufExtRead NgxBaiduResponse.

Open Scope Z_scope.

(** ** The extensions of an object *)

Section Exts.
Context `{E : NgxEnv, R : NgxRbtree, X : NgxExtensions}.

Definition enc_exts (e : extensions) : bytes := concat (map (fun kn => node_enc (snd kn)) (inorder (default Nil e))).
Definition exts_good (e : extensions) : Prop :=
  Forall (fun kn => 100 <= fst kn <= 200 /\ ext_bytes narrow (snd kn) (node_enc (snd kn))) (inorder (default Nil e)).
Definition exts_known (e : extensions) : Prop :=
  match e with
  | None => True
  | Some t => bst t /\ exists reg, ngx_bid_response_ad__extensions = Some reg /\
                Forall (fun kn => 100 <= fst kn <= 200 /\ node_readable reg kn) (inorder t)
  end.

Lemma exts_bytes e : exts_good e ->
  Forall2 (ext_bytes narrow) (map snd (inorder (default Nil e))) (map (fun kn => node_enc (snd kn)) (inorder (default Nil e))).
Proof. induction 1 as [|kn l [_ Hb] Hl IH]; cbn [map]; by constructor. Qed.
Lemma exts_keys e : exts_good e -> Forall (fun k => 100 <= k <= 200) (map fst (inorder (default Nil e))).
Proof. induction 1 as [|kn l [Hk _] Hl IH]; cbn [map]; by constructor. Qed.

Lemma exts_size e s : exts_good e -> 0 <= s -> s + lenz (enc_exts e) < 4294967296 ->
  match e with Some ext => n ← ngx_protobuf_size_extensions extension_zero ext; mret (u64 (s + n)) | None => mret s end =
  Ok (s + lenz (enc_exts e)).
Proof.
  intros He Hs Hl. pose proof (exts_bytes e He) as Hb. pose proof (exts_keys e He) as Hk. unfold enc_exts in *.
  destruct e as [t|]; cbn [default id] in *; [|cbn; do 2 f_equal; lia].
  assert (Forall (fun k => 0 <= k < 4294967296) (map fst (inorder t))) as Hk' by (eapply Forall_impl; [exact Hk|intros k; cbn beta; lia]).
  rewrite (extensions_size _ _ _ _ Hb), ok_bind, u64_id by (done || lia). done.
Qed.

Lemma packs_then p q b1 b2 : Packs p b1 -> Packs q b2 ->
  Packs (fun c => '(rc, c) ← p c; if decide (rc ≠ NGX_OK) then mret (rc, c) else q c) (b1 ++ b2).
Proof.
  intros H1 H2 c Hf. assert (Hf' := Hf). rewrite length_app, Nat2Z.inj_add in Hf.
  rewrite H1, ok_bind, decide_False by first [eapply fits_le; [exact Hf|lia]|intros H; by apply H].
  rewrite H2 by (apply fits_put; [exact Hf|lia]). do 2 f_equal. apply put_app, Hf'.
Qed.

Lemma exts_pack e : exts_good e -> lenz (enc_exts e) < 4294967296 ->
  Packs (fun c => match e with
                  | Some ext => ngx_protobuf_pack_extensions extension_zero narrow ext 100 200 c
                  | None => mret (NGX_OK, c) end) (enc_exts e).
Proof.
  intros He Hl. pose proof (exts_bytes e He) as Hb. pose proof (exts_keys e He) as Hk. unfold enc_exts in *.
  destruct e as [t|]; cbn [default id] in *; [by apply extensions_pack|]. intros c ((? & ?) & _). by rewrite put_nil.
Qed.
End Exts.

(** ** BidResponse.Ad *)

(** The fields but the extensions and the unknown ones. *)
Definition rad_regular `{E : NgxEnv, R : NgxRbtree, X : NgxExtensions} (o : ngx_bid_response_ad_t) : bytes :=
  enc_u32 (rad_sequence_id o) 1 ++ enc_u64 (rad_creative_id o) 2 ++ enc_u32 (rad_max_cpm o) 3 ++
  enc_str (rad_extdata o) 5 ++ enc_bool (rad_is_cookie_matching o) 6 ++ enc_str (rad_html_snippet o) 7 ++
  enc_u64 (rad_advertiser_id o) 8 ++ enc_u32 (rad_width o) 9 ++ enc_u32 (rad_height o) 10 ++
  enc_u32 (rad_category o) 11 ++ enc_u32 (rad_type o) 12 ++ enc_str (rad_landing_page o) 13 ++
  enc_strs (rad_target_url o) 14 ++ enc_str (rad_preferred_order_id o) 15 ++ enc_strs (rad_monitor_urls o) 17 ++
  enc_member enc (rad_link_unit_keyword o) 18 ++ enc_member enc (rad_expand_creative_info o) 19 ++
  enc_u32 (rad_guaranteed_order_id o) 20 ++ enc_member enc (rad_deeplink_info o) 21.

#[export] Instance rad_message `{E : NgxEnv, R : NgxRbtree, X : NgxExtensions} : Message ngx_bid_response_ad_t := {
  zero := rad_zero;
  msize o := match ngx_bid_response_ad__size o with Ok size => size | _ => 0 end;
  mpack := ngx_bid_response_ad__pack;
  munpack := ngx_bid_response_ad__unpack;
  enc o := rad_regular o ++ enc_exts (rad_extensions o) ++ enc_unknowns (rad_unknown o);
  good o := fld_good str_good (rad_html_snippet o) /\ member_good good (rad_link_unit_keyword o) /\
    member_good good (rad_expand_creative_info o) /\ fld_good str_good (rad_landing_page o) /\
    strs_good (rad_target_url o) /\ strs_good (rad_monitor_urls o) /\ fld_good str_good (rad_extdata o) /\
    fld_good str_good (rad_preferred_order_id o) /\ member_good good (rad_deeplink_info o) /\
    exts_good (rad_extensions o) /\ unknowns_good (rad_unknown o);
  known o := fld_good str_good (rad_html_snippet o) /\ member_known (rad_link_unit_keyword o) /\
    member_known (rad_expand_creative_info o) /\ fld_good str_good (rad_landing_page o) /\
    strs_good (rad_target_url o) /\ strs_good (rad_monitor_urls o) /\ fld_good str_good (rad_extdata o) /\
    fld_good str_good (rad_preferred_order_id o) /\ member_known (rad_deeplink_info o) /\
    exts_known (rad_extensions o) /\ elts (rad_unknown o) = [];
  norm o := mk_rad (pick_u32 i32 (rad_sequence_id o) (Fld false 0)) (pick_u64 i64 (rad_creative_id o) (Fld false 0))
    (pick_str (rad_html_snippet o) (Fld false ngx_str_null))
    (pick_member (rad_link_unit_keyword o) (Fld false None))
    (pick_member (rad_expand_creative_info o) (Fld false None)) (pick_u64 id (rad_advertiser_id o) (Fld false 0))
    (pick_u32 i32 (rad_width o) (Fld false 0)) (pick_u32 i32 (rad_height o) (Fld false 0))
    (pick_u32 i32 (rad_category o) (Fld false 0)) (pick_u32 i32 (rad_type o) (Fld false 0))
    (pick_str (rad_landing_page o) (Fld false ngx_str_null))
    (pick_each copy_str (rad_target_url o) (Fld false None))
    (pick_each copy_str (rad_monitor_urls o) (Fld false None)) (pick_u32 i32 (rad_max_cpm o) (Fld false 0))
    (pick_str (rad_extdata o) (Fld false ngx_str_null)) (pick_bool (rad_is_cookie_matching o) (Fld false 0))
    (pick_str (rad_preferred_order_id o) (Fld false ngx_str_null))
    (pick_u32 id (rad_guaranteed_order_id o) (Fld false 0)) (pick_member (rad_deeplink_info o) (Fld false None))
    (read_back None (inorder (default Nil (rad_extensions o)))) None;
  vmap g o := mk_rad (rad_sequence_id o) (rad_creative_id o) (vstr g (rad_html_snippet o))
    (vmember g (rad_link_unit_keyword o)) (vmember g (rad_expand_creative_info o)) (rad_advertiser_id o)
    (rad_width o) (rad_height o) (rad_category o) (rad_type o) (vstr g (rad_landing_page o))
    (vstrs g (rad_target_url o)) (vstrs g (rad_monitor_urls o)) (rad_max_cpm o) (vstr g (rad_extdata o))
    (rad_is_cookie_matching o) (vstr g (rad_preferred_order_id o)) (rad_guaranteed_order_id o)
    (vmember g (rad_deeplink_info o)) (rad_extensions o) (rad_unknown o) }.

Lemma rad_size_ok `{E : NgxEnv, R : NgxRbtree, X : NgxExtensions} (o : ngx_bid_response_ad_t) :
  good o -> lenz (enc o) < 4294967296 -> ngx_bid_response_ad__size o = Ok (lenz (enc o)).
Proof.
  cbn [enc good rad_message]. unfold rad_regular. intros Hgood Hlen. unfold ngx_bid_response_ad__size.
  change ngx_bid_response_ad_link_unit_keyword__size with (msize (M := ngx_bid_response_ad_link_unit_keyword_t));
  change ngx_bid_response_ad_expand_creative_info__size with (msize (M := ngx_bid_response_ad_expand_creative_info_t));
  change ngx_bid_response_ad_deeplink_info__size with (msize (M := ngx_bid_response_ad_deeplink_info_t)).
  cbn zeta. law_hyps. repeat size_step.
  rewrite exts_size by (assumption || lia). rewrite ok_bind, size_unknowns_enc by (assumption || lia).
  cbn [mret cres_ret]. f_equal. lia.
Qed.

Lemma rad_size `{E : NgxEnv, R : NgxRbtree, X : NgxExtensions} (o : ngx_bid_response_ad_t) :
  good o -> lenz (enc o) < 4294967296 -> msize o = lenz (enc o).
Proof. intros Hgood Hlen. cbn [msize rad_message]. by rewrite rad_size_ok. Qed.

Lemma rad_pack `{E : NgxEnv, R : NgxRbtree, X : NgxExtensions} (o : ngx_bid_response_ad_t) :
  good o -> lenz (enc o) < 4294967296 -> Packs (mpack o) (enc o).
Proof.
  intros Hgood Hlen. pose proof (rad_size_ok o Hgood Hlen) as Hsize. cbn [mpack rad_message]. unfold ngx_bid_response_ad__pack.
  intros c. rewrite Hsize, ok_bind. revert c. apply (packs_guard _ (fun c => _)); [done|]. clear Hsize.
  cbn [enc good rad_message] in *. unfold rad_regular in *. rewrite <- !app_assoc in *.
  change ngx_bid_response_ad_link_unit_keyword__size with (msize (M := ngx_bid_response_ad_link_unit_keyword_t));
  change ngx_bid_response_ad_link_unit_keyword__pack with (mpack (M := ngx_bid_response_ad_link_unit_keyword_t));
  change ngx_bid_response_ad_expand_creative_info__size with (msize (M := ngx_bid_response_ad_expand_creative_info_t));
  change ngx_bid_response_ad_expand_creative_info__pack with (mpack (M := ngx_bid_response_ad_expand_creative_info_t));
  change ngx_bid_response_ad_deeplink_info__size with (msize (M := ngx_bid_response_ad_deeplink_info_t));
  change ngx_bid_response_ad_deeplink_info__pack with (mpack (M := ngx_bid_response_ad_deeplink_info_t)).
  law_hyps. repeat (apply packs_bind; [pack_field|]).
  apply packs_then; [apply exts_pack; [assumption|lia]|apply packs_unknowns; [assumption|lia]].
Qed.

(** The extensions are read where the regular fields end. *)
Lemma rad_switch_extension `{E : NgxEnv, R : NgxRbtree, X : NgxExtensions} fuel k wire obj c :
  100 <= k -> rad_switch fuel k wire obj c = rad_default fuel k wire obj c.
Proof. intros Hk. destruct k as [|p|p]; [lia| |lia]. do 5 (destruct p as [p|p|]; try lia); done. Qed.

Lemma rad_extension_turn `{E : NgxEnv, R : NgxRbtree, X : NgxExtensions} fuel reg k n d obj c :
  ngx_bid_response_ad__extensions = Some reg -> 100 <= k -> f_descriptor n = Some d ->
  ngx_protobuf_find_node reg k = Some (Some d) -> value_readable d (v_u (f_value n)) ->
  bst (default Nil (rad_extensions obj)) -> ngx_protobuf_find_node (default Nil (rad_extensions obj)) k = None ->
  lenz (value_payload d (v_u (f_value n))) < 4294967296 -> ahead c (value_payload d (v_u (f_value n))) ->
  pos c + lenz (value_payload d (v_u (f_value n))) <= last c -> reading c ->
  exists k', rad_switch fuel k (d_wire_type d) obj c =
    Ok (NGX_OK, with_rad_extensions obj (ext_store (rad_extensions obj) k (node_norm n)),
        adv c (length (value_payload d (v_u (f_value n)))) k').
Proof.
  intros Hreg Hk Hd Hfind Hv Hb Hnone Hl Ha Hend Hc.
  destruct (unpack_extension_readable extension_zero fuel reg (rad_extensions obj) k d (v_u (f_value n)) c) as (k' & Ek); try done.
  exists k'. rewrite rad_switch_extension by done. unfold rad_default, node_norm. rewrite Hreg, Ek, ok_bind, Hd.
  by rewrite decide_False by (intros H; by apply H).
Qed.

Lemma rad_exts_loop `{E : NgxEnv, R : NgxRbtree, X : NgxExtensions} fuel reg l : ngx_bid_response_ad__extensions = Some reg -> forall obj c,
  Forall (fun kn => 100 <= fst kn <= 200 /\ node_readable reg kn) l -> NoDup (map fst l) ->
  bst (default Nil (rad_extensions obj)) ->
  (forall k, k ∈ map fst l -> ngx_protobuf_find_node (default Nil (rad_extensions obj)) k = None) ->
  let e := concat (map (fun kn => node_enc (snd kn)) l) in
  lenz e < 4294967296 -> ahead c e -> last c = pos c + lenz e -> reading c ->
  runs (unpack_loop (rad_switch fuel) (length e) obj c)
    (fun r => exists k, r = (NGX_OK, with_rad_extensions obj (read_back (rad_extensions obj) l), adv c (length e) k)).
Proof.
  intros Hreg. induction l as [|[k n] l IH]; intros obj c Hl Hd Hb Hk e Hlen Ha Hlast Hc; subst e; cbn [map concat fst snd] in *.
  { eexists. split; [cbn [unpack_loop length]; by rewrite decide_True by (cbn [length] in *; lia)|].
    exists (calls c). cbn [read_back foldl length]. rewrite adv_0. by destruct obj. }
  apply Forall_cons in Hl as [[Hrange (d & Hdesc & Hnum & Hn & Hw & Hfind & Hv)] Hl]. apply NoDup_cons in Hd as [Hk0 Hd].
  cbn [fst] in *. cbn [read_back foldl fst snd]. assert (Hnode := eq_refl (node_enc n)). unfold node_enc in Hnode at 2.
  rewrite Hdesc in Hnode. destruct (v_exists (f_value n)) eqn:He; rewrite Hnode in *; cbn [app] in *.
  2:{ apply IH; try done. intros k1 Hk1. by apply Hk, list_elem_of_further. }
  specialize (Hv eq_refl). unfold enc_value in *. rewrite Hnum in *. clear Hnode.
  set (e := concat _) in *. set (pl := value_payload d (v_u (f_value n))) in *.
  destruct (ahead_app _ _ _ (calls c) Ha) as [Ha1 _]. destruct (ahead_app _ _ _ (calls c) Ha1) as [_ Hap].
  rewrite !length_app, !Nat2Z.inj_add in Hlast. rewrite !length_app, !Nat2Z.inj_add in Hlen.
  destruct (rad_extension_turn fuel reg k n d obj (adv c (length (enc_key k (d_wire_type d))) (calls c))) as (k' & Ek); try done.
  { lia. } { apply Hk, list_elem_of_here. } { fold pl. lia. } { fold pl. cbn [adv pos last]. lia. }
  fold pl in Ek. rewrite adv_adv, <- length_app in Ek.
  destruct (ext_store_ok (rad_extensions obj) k (node_norm n) Hb) as [Hb' Hf']; [apply Hk, list_elem_of_here|].
  rewrite length_app. eapply loop_turn; [done|done|by apply payload_nonempty|done|rewrite length_app; fold pl; lia|exact Ek|].
  destruct (ahead_app _ _ _ k' Ha) as [_ Ha2].
  destruct (IH (with_rad_extensions obj (ext_store (rad_extensions obj) k (node_norm n)))
    (adv c (length (enc_key k (d_wire_type d) ++ pl)) k')) as (r & Er & k2 & ->); try done.
  { by destruct obj. }
  { intros k1 Hk1. replace (rad_extensions (with_rad_extensions obj _)) with (ext_store (rad_extensions obj) k (node_norm n)) by by destruct obj.
    rewrite Hf', decide_False by (intros ->; done). by apply Hk, list_elem_of_further. }
  { fold e. lia. }
  { cbn [adv pos last]. rewrite length_app. fold e. lia. }
  eexists. split; [exact Er|]. exists k2. rewrite adv_adv, <- length_app. fold e. by destruct obj.
Qed.

(** The regular fields as one step from the object of zero bytes. *)
Lemma rad_regular_decodes `{E : NgxEnv, R : NgxRbtree, X : NgxExtensions} (m : ngx_bid_response_ad_t) fuel :
  known m -> lenz (rad_regular m) < 4294967296 -> (length (rad_regular m) <= fuel)%nat ->
  exists f, Decodes vmap (rad_switch fuel) (rad_regular m) f /\ f rad_zero = with_rad_extensions (norm m) None.
Proof.
  intros Hknown Hlen Hf. cbn [norm known rad_message] in *. unfold rad_regular in *.
  eexists. split; [law_hyps;
    rewrite <- (app_nil_r (enc_member enc (rad_deeplink_info m) 21));
    unpack_field rad_sequence_id with_rad_sequence_id;
    unpack_field rad_creative_id with_rad_creative_id;
    unpack_field rad_max_cpm with_rad_max_cpm;
    unpack_field rad_extdata with_rad_extdata;
    unpack_field rad_is_cookie_matching with_rad_is_cookie_matching;
    unpack_field rad_html_snippet with_rad_html_snippet;
    unpack_field rad_advertiser_id with_rad_advertiser_id;
    unpack_field rad_width with_rad_width;
    unpack_field rad_height with_rad_height;
    unpack_field rad_category with_rad_category;
    unpack_field rad_type with_rad_type;
    unpack_field rad_landing_page with_rad_landing_page;
    unpack_field rad_target_url with_rad_target_url;
    unpack_field rad_preferred_order_id with_rad_preferred_order_id;
    unpack_field rad_monitor_urls with_rad_monitor_urls;
    unpack_field rad_link_unit_keyword with_rad_link_unit_keyword;
    unpack_field rad_expand_creative_info with_rad_expand_creative_info;
    unpack_field rad_guaranteed_order_id with_rad_guaranteed_order_id;
    unpack_field rad_deeplink_info with_rad_deeplink_info; apply decodes_nil|picked].
Qed.

Lemma rad_vmap_extensions `{E : NgxEnv, R : NgxRbtree, X : NgxExtensions} g (o : ngx_bid_response_ad_t) e :
  rad_extensions (vmap g o) = rad_extensions o /\ vmap g (with_rad_extensions o e) = with_rad_extensions (vmap g o) e.
Proof. by destruct o. Qed.

Lemma rad_unpack `{E : NgxEnv, R : NgxRbtree, X : NgxExtensions} (m : ngx_bid_response_ad_t) fuel c :
  known m -> lenz (enc m) < 4294967296 -> ahead c (enc m) -> last c = pos c + lenz (enc m) ->
  reading c -> (length (enc m) <= fuel)%nat ->
  exists o k, munpack fuel zero c = Ok (NGX_OK, o, adv c (length (enc m)) k) /\ vmap (view c) o = norm m.
Proof.
  intros Hknown Hlen Ha Hlast Hc Hf.
  assert (enc m = rad_regular m ++ enc_exts (rad_extensions m)) as Ee.
  { cbn [enc known rad_message] in *. law_hyps. unfold enc_unknowns.
    match goal with Hu : elts (rad_unknown m) = [] |- _ => rewrite Hu end. cbn [map concat]. by rewrite app_nil_r. }
  rewrite Ee in *. rewrite length_app, Nat2Z.inj_add in Hlen. assert (Hf' := Hf). rewrite length_app in Hf'.
  destruct (rad_regular_decodes m fuel Hknown) as (f & Hd & Hz); [lia|lia|].
  cbn [munpack zero rad_message]. eapply (decodes_run_then vmap); [exact Hd|exact Ha|exact Hlast|exact Hc|exact Hf|].
  intros o k Ho. assert (vmap (view c) rad_zero = rad_zero) as Ez
    by (cbn [vmap rad_message]; unfold vstr, view; destruct (reuse_strings c); reflexivity).
  rewrite Ez, Hz in Ho. assert (rad_extensions o = None) as Hnone.
  { destruct (rad_vmap_extensions (view c) o None) as [<- _]. rewrite Ho. done. }
  assert (exts_known (rad_extensions m)) as Hx by (cbn [known rad_message] in Hknown; tauto).
  assert (exists k', unpack_loop (rad_switch fuel) (length (enc_exts (rad_extensions m))) o (adv c (length (rad_regular m)) k) =
    Ok (NGX_OK, with_rad_extensions o (read_back None (inorder (default Nil (rad_extensions m)))),
        adv c (length (rad_regular m ++ enc_exts (rad_extensions m))) k')) as (k' & Ek).
  { unfold enc_exts in *. destruct (rad_extensions m) as [t|]; cbn [default id] in *.
    - destruct Hx as (Ht & reg & Hreg & Hl). destruct (ahead_app _ _ _ k Ha) as [_ Ha2].
      destruct (rad_exts_loop fuel reg (inorder t) Hreg o (adv c (length (rad_regular m)) k)) as (r & Er & k' & ->);
        rewrite ?Hnone; try done; [by apply bst_keys|constructor|lia|rewrite length_app in Hlast; cbn [adv last pos]; lia|].
      exists k'. rewrite Er, Hnone, adv_adv, <- length_app. done.
    - exists k. cbn [inorder map concat length unpack_loop] in *. rewrite length_app in *. cbn [length] in *.
      rewrite decide_True by (cbn [adv last pos]; lia). rewrite Nat.add_0_r. by destruct o; cbn in Hnone; subst. }
  eexists _, k'. split; [exact Ek|].
  destruct (rad_vmap_extensions (view c) o (read_back None (inorder (default Nil (rad_extensions m))))) as [_ ->]. by rewrite Ho.
Qed.

Lemma rad_vmap `{E : NgxEnv, R : NgxRbtree, X : NgxExtensions} g (m : ngx_bid_response_ad_t) : (forall s, g s = s) -> vmap g m = m.
Proof. vmap_law rad_message. Qed.

Lemma rad_vmap_enc `{E : NgxEnv, R : NgxRbtree, X : NgxExtensions} g (m : ngx_bid_response_ad_t) : same_bytes g -> enc (vmap g m) = enc m.
Proof.
  intros Hg. cbn [enc vmap rad_message]. unfold rad_regular. repeat apply (f_equal2 (@app Z)); vmap_enc_field Hg.
Qed.

Lemma rad_vmap_good `{E : NgxEnv, R : NgxRbtree, X : NgxExtensions} g (m : ngx_bid_response_ad_t) : same_bytes g -> good (vmap g m) -> good m.
Proof. vmap_good_law rad_message. Qed.

#[export] Instance rad_laws `{E : NgxEnv, R : NgxRbtree, X : NgxExtensions} : MessageLaws ngx_bid_response_ad_t :=
  {| size_enc := rad_size; pack_enc := rad_pack; unpack_enc := rad_unpack;
     vmap_id := rad_vmap; vmap_enc := rad_vmap_enc; vmap_good := rad_vmap_good |}.

(** ** BidResponse *)

Lemma size_ads_ok `{E : NgxEnv, R : NgxRbtree, X : NgxExtensions} f s : elements_good good f -> 0 <= s -> s + lenz (enc_elements enc f 2) < 4294967296 ->
  (if has f then size_ads (elts (val f)) s else mret s) = Ok (s + lenz (enc_elements enc f 2)).
Proof.
  unfold enc_elements, elements_good, fld_good. destruct (has f); [|intros; cbn; do 2 f_equal; lia]. intros Hf. specialize (Hf eq_refl).
  revert s. induction Hf as [|m l Hm Hl IH]; intros s Hs Hlen; cbn [size_ads map concat] in *; [cbn; do 2 f_equal; lia|].
  rewrite length_app in *. pose proof (enc_bytes_lt 2 (enc m)). rewrite rad_size_ok by (done || lia).
  rewrite ok_bind, size_message_field_enc, u64_id, IH, Nat2Z.inj_add, Z.add_assoc by lia. done.
Qed.

Lemma pack_ads_ok `{E : NgxEnv, R : NgxRbtree, X : NgxExtensions} f : elements_good good f -> lenz (enc_elements enc f 2) < 4294967296 ->
  Writes (fun c => if has f then pack_list pack_ad (elts (val f)) c else mret c) (enc_elements enc f 2).
Proof.
  unfold enc_elements, elements_good, fld_good. destruct (has f); [|intros; apply writes_nil]. intros Hf. specialize (Hf eq_refl). intros Hlen.
  apply (writes_pack_list _ (fun m => enc_bytes 2 (enc m))). apply Forall_forall. intros m Hm. eapply Forall_forall in Hf; [|done].
  pose proof (enc_bytes_lt 2 (enc m)). pose proof (concat_map_lt (fun m => enc_bytes 2 (enc m)) _ _ Hm). cbn beta in *.
  intros c Hc. unfold pack_ad. rewrite rad_size_ok, ok_bind by (done || lia).
  pose proof (writes_pack_one m 2 ltac:(lia) Hf ltac:(lia) c Hc) as Hw. unfold pack_one in Hw. by rewrite rad_size in Hw by (done || lia).
Qed.

#[export] Instance bresp_message `{E : NgxEnv, R : NgxRbtree, X : NgxExtensions} : Message ngx_bid_response_t := {
  zero := bresp_zero;
  msize o := match ngx_bid_response__size o with Ok size => size | _ => 0 end;
  mpack := ngx_bid_response__pack;
  munpack := ngx_bid_response__unpack;
  enc o := enc_str (bresp_id o) 1 ++ enc_elements enc (bresp_ad o) 2 ++ enc_str (bresp_debug_string o) 3 ++
    enc_u32 (bresp_processing_time_ms o) 4 ++ enc_unknowns (bresp_unknown o);
  good o := fld_good str_good (bresp_id o) /\ elements_good good (bresp_ad o) /\
    fld_good str_good (bresp_debug_string o) /\ unknowns_good (bresp_unknown o);
  known o := fld_good str_good (bresp_id o) /\ elements_known (bresp_ad o) /\
    fld_good str_good (bresp_debug_string o) /\ elts (bresp_unknown o) = [];
  norm o := mk_bresp (pick_str (bresp_id o) (Fld false ngx_str_null)) (pick_elements (bresp_ad o) (Fld false None))
    (pick_str (bresp_debug_string o) (Fld false ngx_str_null))
    (pick_u32 i32 (bresp_processing_time_ms o) (Fld false 0)) None;
  vmap g o := mk_bresp (vstr g (bresp_id o)) (velements g (bresp_ad o)) (vstr g (bresp_debug_string o))
    (bresp_processing_time_ms o) (bresp_unknown o) }.

Lemma bresp_size_ok `{E : NgxEnv, R : NgxRbtree, X : NgxExtensions} (o : ngx_bid_response_t) :
  good o -> lenz (enc o) < 4294967296 -> ngx_bid_response__size o = Ok (lenz (enc o)).
Proof.
  cbn [enc good bresp_message]. intros Hgood Hlen. unfold ngx_bid_response__size.
  cbn zeta. law_hyps. repeat size_step.
  rewrite size_ads_ok by (assumption || lia). rewrite ok_bind. repeat size_step.
  rewrite size_unknowns_enc by (assumption || lia). cbn [mret cres_ret]. f_equal. lia.
Qed.

Lemma bresp_size `{E : NgxEnv, R : NgxRbtree, X : NgxExtensions} (o : ngx_bid_response_t) :
  good o -> lenz (enc o) < 4294967296 -> msize o = lenz (enc o).
Proof. intros Hgood Hlen. cbn [msize bresp_message]. by rewrite bresp_size_ok. Qed.

Lemma bresp_pack `{E : NgxEnv, R : NgxRbtree, X : NgxExtensions} (o : ngx_bid_response_t) :
  good o -> lenz (enc o) < 4294967296 -> Packs (mpack o) (enc o).
Proof.
  intros Hgood Hlen. pose proof (bresp_size_ok o Hgood Hlen) as Hsize. cbn [mpack bresp_message]. unfold ngx_bid_response__pack.
  intros c. rewrite Hsize, ok_bind. revert c. apply (packs_guard _ (fun c => _)); [done|]. clear Hsize.
  cbn [enc good bresp_message] in *. law_hyps.
  repeat (apply packs_bind; [first [apply pack_ads_ok; [assumption|lia]|pack_field]|]). apply packs_unknowns; [assumption|lia].
Qed.

Lemma bresp_unpack `{E : NgxEnv, R : NgxRbtree, X : NgxExtensions} (m : ngx_bid_response_t) fuel c :
  known m -> lenz (enc m) < 4294967296 -> ahead c (enc m) -> last c = pos c + lenz (enc m) ->
  reading c -> (length (enc m) <= fuel)%nat ->
  exists o k, munpack fuel zero c = Ok (NGX_OK, o, adv c (length (enc m)) k) /\ vmap (view c) o = norm m.
Proof.
  unpack_law bresp_message ngx_bid_response__unpack
    (unpack_field bresp_id with_bresp_id;
    unpack_field bresp_ad with_bresp_ad;
    unpack_field bresp_debug_string with_bresp_debug_string;
    unpack_field bresp_processing_time_ms with_bresp_processing_time_ms).
Qed.

Lemma bresp_vmap `{E : NgxEnv, R : NgxRbtree, X : NgxExtensions} g (m : ngx_bid_response_t) : (forall s, g s = s) -> vmap g m = m.
Proof. vmap_law bresp_message. Qed.

Lemma bresp_vmap_enc `{E : NgxEnv, R : NgxRbtree, X : NgxExtensions} g (m : ngx_bid_response_t) : same_bytes g -> enc (vmap g m) = enc m.
Proof. vmap_enc_law bresp_message. Qed.

Lemma bresp_vmap_good `{E : NgxEnv, R : NgxRbtree, X : NgxExtensions} g (m : ngx_bid_response_t) : same_bytes g -> good (vmap g m) -> good m.
Proof. vmap_good_law bresp_message. Qed.

#[export] Instance bresp_laws `{E : NgxEnv, R : NgxRbtree, X : NgxExtensions} : MessageLaws ngx_bid_response_t :=
  {| size_enc := bresp_size; pack_enc := bresp_pack; unpack_enc := bresp_unpack;
     vmap_id := bresp_vmap; vmap_enc := bresp_vmap_enc; vmap_good := bresp_vmap_good |}.
