(* ===== verification/NgxBaiduResponseSpec.v ===== *)
(** What the response of Baidu's exchange promises as a message
    (NgxBaiduResponse.v): it is read back from its bytes with its extensions,
    and what becomes of the extension [ad_status]. *)

From Stdlib Require Import ZArith Lia.
From S2P Require Import Prelude NgxRbtree NgxProtobuf NgxProtobufWire NgxProtobufMsg NgxProtobufCodec NgxProtobufRead.
From S2P Require Import NgxProtobufMember NgxProtobufScalar NgxProtobufScalarLaws NgxProtobufLaws NgxBaiduProto NgxBaiduProtoLaws.
From S2P Require Import NgxProtobufExt NgxProtobufExtTree NgxProtobufExtLaws NgxProtobufExtRead NgxBaiduResponse NgxBaiduResponseLaws.

Open Scope Z_scope.

(** C13: The response survives the wire with its ads and their extensions.  Its
    function packs it to the bytes of the protocol, as many as
    [ngx_bid_response__size] says, and gives [NGX_ABORT] without a write when
    the buffer is too short for them.  From these bytes [ngx_bid_response__unpack]
    gives an object that stands for the copy of the response: every extension
    that is set is found again under its number.  Extensions are single
    strings and numbers that are varints, registered with numbers from 100 to
    200; unknown fields are left out. *)
Theorem ngx_bid_response_roundtrip `{E : NgxEnv, R : NgxRbtree, X : NgxExtensions} (r : ngx_bid_response_t) (fuel : nat) :
  known r -> good r -> 0 < lenz (enc r) < 4294967296 ->
  ngx_bid_response__size r = Ok (lenz (enc r)) /\
  (forall c, fits c (lenz (enc r)) -> ngx_bid_response__pack r c = Ok (NGX_OK, put c (enc r))) /\
  (forall c, 0 <= base -> 0 <= pos c -> base + pos c + 4294967296 < 18446744073709551616 -> last c < pos c + lenz (enc r) ->
   ngx_bid_response__pack r c = Ok (NGX_ABORT, c)) /\
  (forall c, ahead c (enc r) -> last c = pos c + lenz (enc r) -> reading c -> (length (enc r) <= fuel)%nat ->
   exists o k, ngx_bid_response__unpack fuel bresp_zero c = Ok (NGX_OK, o, adv c (length (enc r)) k) /\
     (if reuse_strings c then vmap (deref (mem c)) o else o) = norm r).
Proof.
  intros Hk Hg Hl. pose proof (bresp_size_ok r Hg) as Hs. split; [apply Hs; lia|]. split; [|split].
  - intros c Hf. apply (bresp_pack r); [done|lia|done].
  - intros c Hb Hp Hw Hlt. unfold ngx_bid_response__pack. rewrite Hs, ok_bind by lia.
    by apply (pack_guard_abort _ _ _ (lenz (enc r))).
  - intros c Ha Hlast Hc Hf. destruct (bresp_unpack r fuel c) as (o & k & Eo & Ho); try (done || lia). exists o, k.
    split; [exact Eo|]. rewrite <- Ho. unfold view. destruct (reuse_strings c); [done|]. by rewrite bresp_vmap.
Qed.

(** ** The extension ad_status *)

Section Status.
Context `{E : NgxEnv, R : NgxRbtree, X : NgxExtensions}.

(** The registry is what the configuration of nginx has made of it. *)
Definition registered : Prop := exists reg cycle cycle', bst (default Nil reg) /\
  ngx_baidu_proto__register_extensions reg cycle = (NGX_OK, ngx_bid_response_ad__extensions, cycle').

Lemma registered_find : pool_grants -> registered ->
  exists reg, ngx_bid_response_ad__extensions = Some reg /\ bst reg /\
    ngx_protobuf_find_node reg 101 = Some (Some ngx_bid_response_ad_ad_status).
Proof.
  intros Hao (reg & c & c' & Hb & Hr). unfold ngx_baidu_proto__register_extensions, ngx_bid_response_ad__import_extension in Hr.
  destruct (import_extension_ok Hao reg ngx_bid_response_ad_ad_status c Hb) as (reg' & c1 & Ei & Hb' & Hf). rewrite Ei in Hr.
  rewrite decide_False in Hr by (intros H; by apply H). injection Hr as <- _. exists reg'. split; [done|]. split; [done|].
  by rewrite Hf.
Qed.

Lemma with_extensions_get (o : ngx_bid_response_ad_t) e : rad_extensions (with_rad_extensions o e) = e.
Proof. by destruct o. Qed.
(** The status of an object whose extensions have been read back. *)
Lemma status_read_back (m o : ngx_bid_response_ad_t) reg :
  ngx_bid_response_ad__extensions = Some reg -> ngx_protobuf_find_node reg 101 = Some (Some ngx_bid_response_ad_ad_status) ->
  exts_known (rad_extensions m) -> rad_extensions o = read_back None (inorder (default Nil (rad_extensions m))) ->
  (forall v, ngx_protobuf_get_extension (rad_extensions m) 101 = Some v -> v_exists v = true -> v_type v = Some NGX_PROTOBUF_TYPE_INT32) ->
  ngx_bid_response_ad__get_ad_status o = ngx_bid_response_ad__get_ad_status m /\
  (ngx_bid_response_ad__has_ad_status o = true <->
   exists v, ngx_protobuf_get_extension (rad_extensions m) 101 = Some v /\ v_exists v = true).
Proof.
  intros Er Hfind Hx Ho Hty. unfold ngx_bid_response_ad__get_ad_status, ngx_bid_response_ad__has_ad_status. rewrite Ho.
  destruct (rad_extensions m) as [t|]; cbn [default id exts_known] in *; [|split; [done|split; [done|by intros (? & ? & _)]]].
  destruct Hx as (Ht & reg' & Er' & Hl). rewrite Er in Er'. injection Er' as <-. rewrite read_back_get by done.
  cbn [ngx_protobuf_get_extension] in *. destruct (ngx_protobuf_find_node t 101) as [n|] eqn:En; cbn [fmap option_fmap option_map] in *;
    [|split; [done|split; [done|by intros (? & ? & _)]]].
  specialize (Hty _ eq_refl). destruct (v_exists (f_value n)) eqn:He; cbn [negb].
  2:{ split; [done|]. split; [done|]. intros (v & [= <-] & Hv). congruence. }
  rewrite Hty by done.
  apply find_inorder in En; [|done]. destruct (proj1 (Forall_forall _ _) Hl _ En) as [_ (d & Hd & _ & _ & _ & Hd' & Hv)].
  rewrite Hfind in Hd'. injection Hd' as <-. destruct (Hv He) as [_ [_ (x & Hx)]].
  unfold node_norm, node_read, value_read. rewrite Hd.
  change (d_type ngx_bid_response_ad_ad_status) with NGX_PROTOBUF_TYPE_INT32 in *.
  cbn [f_value v_exists v_type v_u negb] in *. rewrite Hx, !decide_False by (intros H; by apply H). split; [|split; eauto].
  unfold number_value in Hx. cbn [number_width] in Hx. pose proof (v_uint32_range _ _ Hx). rewrite Hx.
  unfold v_uint32, v_uint64. cbn [mret cres_ret]. by rewrite !ok_bind, u64_id, u32_id by lia.
Qed.
End Status.

(** C16: The status of an ad is never what it is set to.  After nginx has
    registered the extension, [set_ad_status] gives [NGX_OK] whatever the
    status is, changes no other extension, and the object then has a status:
    the one that the memory of its local variable happened to hold, the same
    for every argument.  [clear_ad_status] clears the value, but
    [has_ad_status] still says that there is one.  Without a registry
    [set_ad_status] stops the worker. *)
Theorem ngx_bid_response_ad_status_uninitialised `{E : NgxEnv, R : NgxRbtree, X : NgxExtensions}
    (junk : ngx_protobuf_union_t extension_message) (obj : ngx_bid_response_ad_t) (c : ngx_protobuf_context_t) :
  (pool_grants -> registered -> (forall reg, ngx_bid_response_ad__extensions = Some reg -> ext_ok reg (rad_extensions obj)) ->
   exists obj' c', (forall status, ngx_bid_response_ad__set_ad_status junk obj status c = Ok (NGX_OK, obj', c')) /\
     ngx_bid_response_ad__has_ad_status obj' = true /\
     ngx_bid_response_ad__get_ad_status obj' = (v ← v_uint32 junk; mret (i32 v)) /\
     (forall k, k ≠ 101 -> ngx_protobuf_get_extension (rad_extensions obj') k = ngx_protobuf_get_extension (rad_extensions obj) k) /\
     let cleared := ngx_bid_response_ad__clear_ad_status obj' in
     ngx_bid_response_ad__get_ad_status cleared = Ok 0 /\ ngx_bid_response_ad__has_ad_status cleared = true) /\
  (ngx_bid_response_ad__extensions = None -> forall status, ngx_bid_response_ad__set_ad_status junk obj status c = UB).
Proof.
  split.
  - intros Hao Hreg Hext. destruct (registered_find Hao Hreg) as (reg & Er & Hb & Hf). specialize (Hext reg Er).
    destruct (set_extension_ok Hao reg (rad_extensions obj) 101 ngx_bid_response_ad_ad_status
      (Some (PValue (Some NGX_PROTOBUF_TYPE_INT32) true junk)) c Hext Hf) as (rc & v & e & c' & Es & He & Hget & Hrc).
    cbn [v_exists v_type] in Hrc. rewrite decide_True in Hrc by done. destruct Hrc as [-> ->].
    exists (with_rad_extensions obj e), c'.
    unfold ngx_bid_response_ad__has_ad_status, ngx_bid_response_ad__get_ad_status, ngx_bid_response_ad__clear_ad_status.
    rewrite !with_extensions_get. destruct (clear_extension_ok reg e 101 He) as [_ Hclear]. rewrite Hclear, !Hget, !decide_True by done.
    cbn [v_exists v_type negb fmap option_fmap option_map value_zero]. split_and!; try done.
    + intros status. unfold ngx_bid_response_ad__set_ad_status, ngx_bid_response_ad__set_extension. by rewrite Er, Es, ok_bind.
    + intros k Hk. by rewrite Hget, decide_False.
  - intros Er status. unfold ngx_bid_response_ad__set_ad_status, ngx_bid_response_ad__set_extension. by rewrite Er.
Qed.

(** A status that an ad has is read back.  When the object is packed by
    [ngx_bid_response_ad__pack] and [ngx_bid_response_ad__unpack] reads these
    bytes, with the extension registered, the new object has a status just
    when the packed one has a value for it, and [get_ad_status] gives the same
    number for both; a cleared status is not there any more. *)
Theorem ngx_bid_response_ad_status_survives `{E : NgxEnv, R : NgxRbtree, X : NgxExtensions}
    (m : ngx_bid_response_ad_t) (fuel : nat) (c c' : ngx_protobuf_context_t) :
  known m -> good m -> lenz (enc m) < 4294967296 -> pool_grants -> registered ->
  (forall v, ngx_protobuf_get_extension (rad_extensions m) 101 = Some v -> v_exists v = true -> v_type v = Some NGX_PROTOBUF_TYPE_INT32) ->
  fits c (lenz (enc m)) -> c' = Ctx (mem (put c (enc m))) (pos c) (pos c + lenz (enc m)) (reuse_strings c) true (calls c) ->
  base + last c + 4294967296 < 18446744073709551616 -> (length (enc m) <= fuel)%nat ->
  ngx_bid_response_ad__pack m c = Ok (NGX_OK, put c (enc m)) /\
  exists o k, ngx_bid_response_ad__unpack fuel rad_zero c' = Ok (NGX_OK, o, adv c' (length (enc m)) k) /\
    ngx_bid_response_ad__get_ad_status o = ngx_bid_response_ad__get_ad_status m /\
    (ngx_bid_response_ad__has_ad_status o = true <->
     exists v, ngx_protobuf_get_extension (rad_extensions m) 101 = Some v /\ v_exists v = true).
Proof.
  intros Hk Hg Hl Hao Hreg Hty Hf -> Hw Hfuel. split; [by apply (rad_pack m)|].
  destruct (registered_find Hao Hreg) as (reg & Er & Hbr & Hfind). assert (Hf' := Hf). destruct Hf' as (Hr & Hlast & Hb0 & _).
  destruct (rad_unpack m fuel (Ctx (mem (put c (enc m))) (pos c) (pos c + lenz (enc m)) (reuse_strings c) true (calls c)))
    as (o & k & Eo & Ho); [done|done|by apply (put_ahead c)|done| |done|].
  { split_and!; [done|exact Hao|done|cbn [last]; lia]. }
  exists o, k. split; [exact Eo|]. apply (status_read_back m o reg); try done; [cbn [known rad_message] in Hk; tauto|].
  destruct (rad_vmap_extensions (view (Ctx (mem (put c (enc m))) (pos c) (pos c + lenz (enc m)) (reuse_strings c) true (calls c))) o None)
    as [<- _]. by rewrite Ho.
Qed.

(** ** A response with one ad that has a status *)

(** The registry as the configuration of nginx leaves it; no extension of the
    file is a message. *)
Definition status_extensions : NgxExtensions := {|
  extension_message := unit; extension_zero := tt; narrow := id;
  ngx_bid_response_ad__extensions := Some (Node false Nil 101 (Some (Desc 101 NGX_PROTOBUF_WIRETYPE_VARINT
    NGX_PROTOBUF_LABEL_OPTIONAL NGX_PROTOBUF_TYPE_INT32 4 false None None None)) Nil) |}.
#[local] Existing Instances env_granted ngx_rbtree_insertion status_extensions.

Definition ad1 : ngx_bid_response_ad_t :=
  with_rad_extensions (with_rad_sequence_id rad_zero (Fld true 1))
    (Some (Node false Nil 101 (Field (Some ngx_bid_response_ad_ad_status)
       (PValue (Some NGX_PROTOBUF_TYPE_INT32) true (UWord 300))) Nil)).
Definition bid_response1 : ngx_bid_response_t :=
  with_bresp_ad (with_bresp_id bresp_zero (Fld true (Str 2 (PBlock [98; 49])))) (Fld true (Some [ad1])).

Lemma status_granted : pool_grants.
Proof. by intros k n _. Qed.
Lemma status_registered : registered.
Proof. eexists None, ctx_empty, _. split; [repeat constructor|]. vm_compute. reflexivity. Qed.

Lemma ad1_readable : value_readable (M := unit) ngx_bid_response_ad_ad_status (UWord 300).
Proof. split; [done|]. split; [done|]. by exists 300. Qed.
Lemma ad1_known : known ad1.
Proof.
  split_and!; try done. cbn. split; [repeat constructor|]. eexists. split; [reflexivity|]. constructor; [|constructor].
  split; [done|]. eexists. split; [reflexivity|]. split_and!; try done. intros _. apply ad1_readable.
Qed.
Lemma ad1_good : good ad1.
Proof.
  split_and!; try done; [|constructor]. constructor; [|constructor]. split; [done|].
  eapply (bytes_present _ _ ngx_bid_response_ad_ad_status); [done|done|done|]. by apply readable_bytes, ad1_readable.
Qed.
Lemma bid_response1_known : known bid_response1.
Proof.
  split_and!; try done. intros _. constructor; [apply ad1_known|constructor].
Qed.
Lemma bid_response1_good : good bid_response1.
Proof.
  split_and!; try done; [|constructor]. intros _. constructor; [apply ad1_good|constructor].
Qed.

Lemma ngx_bid_response_roundtrip_witness :
  enc bid_response1 = [10; 2; 98; 49; 18; 6; 8; 1; 168; 6; 172; 2] /\
  exists o k, ngx_bid_response__unpack 20 bresp_zero (Ctx (enc bid_response1) 0 12 false true 0) =
    Ok (NGX_OK, o, adv (Ctx (enc bid_response1) 0 12 false true 0) (length (enc bid_response1)) k) /\ o = norm bid_response1.
Proof.
  split; [vm_compute; reflexivity|].
  refine (proj2 (proj2 (proj2 (ngx_bid_response_roundtrip bid_response1 20 bid_response1_known bid_response1_good _)))
    (Ctx (enc bid_response1) 0 12 false true 0) _ _ _ _).
  - vm_compute. done.
  - split; [done|]. exists []. by rewrite app_nil_r.
  - vm_compute. done.
  - split_and!; done.
  - apply Nat.leb_le. vm_compute. done.
Defined.

Lemma ngx_bid_response_ad_status_uninitialised_witness :
  exists obj' c', (forall status, ngx_bid_response_ad__set_ad_status (UWord 7) ad1 status ctx_empty = Ok (NGX_OK, obj', c')) /\
    ngx_bid_response_ad__get_ad_status ad1 = Ok 300 /\ ngx_bid_response_ad__get_ad_status obj' = Ok 7.
Proof.
  destruct (proj1 (ngx_bid_response_ad_status_uninitialised (UWord 7) ad1 ctx_empty) status_granted status_registered)
    as (o & c & Hs & _ & Hg & _).
  - intros reg [= <-]. split; [repeat constructor|]. intros k n. cbn. repeat case_decide; try done.
    intros [= <-]. eexists. split; [|reflexivity]. by replace k with 101 by lia.
  - exists o, c. split; [exact Hs|]. split; [reflexivity|exact Hg].
Defined.

Lemma ngx_bid_response_ad_status_survives_witness :
  exists o k, ngx_bid_response_ad__unpack 20 rad_zero (Ctx (enc ad1) 0 6 false true 0) =
    Ok (NGX_OK, o, adv (Ctx (enc ad1) 0 6 false true 0) 6 k) /\ ngx_bid_response_ad__get_ad_status o = Ok 300.
Proof.
  refine (match ngx_bid_response_ad_status_survives ad1 20 (Ctx (replicate 6 0) 0 6 false true 0) (Ctx (enc ad1) 0 6 false true 0)
    ad1_known ad1_good _ status_granted status_registered _ _ _ _ _ with
    conj _ (ex_intro _ o (ex_intro _ k (conj Hu (conj Hg _)))) => ex_intro _ o (ex_intro _ k (conj Hu Hg)) end).
  - vm_compute. done.
  - intros v [= <-] _. reflexivity.
  - vm_compute. split_and!; done.
  - vm_compute. reflexivity.
  - vm_compute. reflexivity.
  - apply Nat.leb_le. vm_compute. done.
Defined.
