(* ===== verification/NgxProtobufTyped.v ===== *)
(** Protocol buffers, what unpacking keeps whatever the bytes are: every number
    of a message lies in the range of its C type, and the context gives back the
    end of the buffer it was called with.  A message promises this to the
    messages that contain it through the class [TypedLaws]. *)

From Stdlib Require Import ZArith Lia.
From S2P Require Import Prelude NgxProtobuf NgxProtobufWire NgxProtobufMsg NgxProtobufCodec NgxProtobufRead.
From S2P Require Import NgxProtobufScalar NgxProtobufScalarLaws.

Open Scope Z_scope.

(** ** Ranges *)

Definition i32_range (v : Z) : Prop := -2147483648 <= v < 2147483648.
Definition u32_range (v : Z) : Prop := 0 <= v < 4294967296.
Definition i64_range (v : Z) : Prop := -9223372036854775808 <= v < 9223372036854775808.
Definition u64_range (v : Z) : Prop := 0 <= v < 18446744073709551616.
Definition bool_range (v : Z) : Prop := 0 <= v < 2.
Definition str_range (s : ngx_str_t) : Prop := u64_range (len s).
Definition member_range {M} (P : M -> Prop) (f : fld (option M)) : Prop := forall m, val f = Some m -> P m.
Definition elements_range {V} (P : V -> Prop) (f : fld (array V)) : Prop := Forall P (elts (val f)).

Lemma i32_i32 v : i32_range (i32 v).
Proof. unfold i32_range, i32. zdiv. Qed.
Lemma i64_i64 v : i64_range (i64 v).
Proof. unfold i64_range, i64. zdiv. Qed.
Lemma u32_u32 v : u32_range (u32 v).
Proof. apply u32_bound. Qed.
Lemma bool_bool v : bool_range (c_bool v).
Proof. apply c_bool_bound. Qed.

(** ** Results *)

(** [P] holds of the result, if there is one. *)
Definition Post {A} (m : cres A) (P : A -> Prop) : Prop := forall x, m = Ok x -> P x.

Lemma post_ret {A} (x : A) (P : A -> Prop) : P x -> Post (mret x) P.
Proof. by intros Hx y [= <-]. Qed.
Lemma post_bind {A B} (m : cres A) (f : A -> cres B) (P : A -> Prop) (Q : B -> Prop) :
  Post m P -> (forall x, P x -> Post (f x) Q) -> Post (m ≫= f) Q.
Proof. intros Hm Hf y. destruct m as [x| |]; [|done..]. rewrite ok_bind. intros Hy. by apply (Hf x); [apply Hm|]. Qed.
Lemma post_weaken {A} (m : cres A) (P Q : A -> Prop) : Post m P -> (forall x, P x -> Q x) -> Post m Q.
Proof. intros Hm HPQ x Hx. auto. Qed.
Lemma post_none {A} (P : A -> Prop) : Post NoFuel P.
Proof. done. Qed.

(** What a context keeps. *)
Definition same (c c' : ngx_protobuf_context_t) : Prop :=
  last c' = last c /\ reuse_strings c' = reuse_strings c /\ pool c' = pool c /\ length (mem c') = length (mem c) /\
  (calls c <= calls c')%nat.

Lemma same_refl c : same c c.
Proof. by unfold same. Qed.
Lemma same_trans c1 c2 c3 : same c1 c2 -> same c2 c3 -> same c1 c3.
Proof. unfold same. intros (-> & -> & -> & -> & ?) (-> & -> & -> & -> & ?). split_and!; try done. lia. Qed.
Lemma same_set_pos c p : same c (set_pos c p).
Proof. by unfold same. Qed.
(** The nested message ends before the end of the enclosing one, which is put back. *)
Lemma same_nested c c' l : same (set_last c l) c' -> same c (set_last c' (last c)).
Proof. intros (_ & ? & ? & ? & ?). by unfold same. Qed.

Lemma bwrite_same c m p bs : bwrite (mem c) p bs = Ok m -> same c (set_mem c m).
Proof.
  unfold bwrite. case_decide; [|done]. intros [= <-]. unfold same. cbn. split_and!; try done.
  rewrite !length_app, length_take, length_drop. lia.
Qed.

Section Env.
Context `{NgxEnv}.

Definition reads {V} (c : ngx_protobuf_context_t) (P : V -> Prop) (r : ngx_rc * ngx_protobuf_context_t * V) : Prop :=
  same c r.1.2 /\ P r.2.

Lemma palloc_same c n ok c' : ngx_palloc c n = (ok, c') -> same c c'.
Proof. intros [= _ <-]. unfold same. cbn. split_and!; try done. lia. Qed.

Lemma lor_u64 a b : u64_range a -> u64_range b -> u64_range (Z.lor a b).
Proof.
  unfold u64_range. intros Ha Hb. split; [apply Z.lor_nonneg; lia|].
  destruct (decide (Z.lor a b = 0)) as [->|Hne]; [lia|]. pose proof (proj2 (Z.lor_nonneg a b) ltac:(lia)).
  change 18446744073709551616 with (2 ^ 64). apply Z.log2_lt_pow2; [lia|]. rewrite Z.log2_lor by lia.
  assert (forall x, 0 <= x < 18446744073709551616 -> Z.log2 x < 64) as Hx.
  { intros x Hx. destruct (decide (x = 0)) as [->|]; [done|]. apply Z.log2_lt_pow2; [lia|]. change (2 ^ 64) with 18446744073709551616. lia. }
  pose proof (Hx a Ha). pose proof (Hx b Hb). lia.
Qed.

Lemma read_uint64_loop_range fuel : forall m p end_ s v, u64_range v ->
  Post (read_uint64_loop fuel m p end_ s v) (fun r => u64_range r.2).
Proof.
  induction fuel as [|fuel IH]; intros m p end_ s v Hv; [done|]. cbn [read_uint64_loop].
  eapply post_bind with (P := fun _ => True); [done|]. intros b _. cbn zeta.
  assert (u64_range (Z.lor v (u64 (Z.shiftl (Z.land b 127) s)))) by (apply lor_u64; [done|apply u64_bound]).
  case_decide; [by apply IH|by apply post_ret].
Qed.

Lemma read_uint64_post c end_ old (P : Z -> Prop) : P old -> (forall v, u64_range v -> P v) ->
  Post (ngx_protobuf_read_uint64 c end_ old) (reads c P).
Proof.
  intros Ho Hv. unfold ngx_protobuf_read_uint64. case_decide; [by apply post_ret; split; [apply same_refl|]|].
  eapply post_bind; [apply read_uint64_loop_range; done|]. intros [p v] Hr. cbn [snd] in Hr.
  eapply post_bind with (P := fun _ => True); [done|]. intros b _.
  case_decide; apply post_ret; (split; [apply same_set_pos|auto]).
Qed.

Lemma read_uint32_post c end_ old (P : Z -> Prop) : P old -> (forall v, u32_range v -> P v) ->
  Post (ngx_protobuf_read_uint32 c end_ old) (reads c P).
Proof.
  intros Ho Hv. unfold ngx_protobuf_read_uint32. eapply post_bind; [by apply (read_uint64_post _ _ _ (fun _ => True))|].
  intros [[rc c'] v] [Hs _]. cbn [fst snd] in Hs. case_decide; apply post_ret; (split; [exact Hs|]); [done|]. apply Hv, u32_bound.
Qed.

Lemma read_copy_post c end_ v size : Post (NGX_PROTOBUF_READ_COPY c end_ v size) (fun r => same c r.2).
Proof.
  unfold NGX_PROTOBUF_READ_COPY. case_decide; [by apply post_ret, same_refl|].
  eapply post_bind with (P := fun m => same c (set_mem c m)); [intros m; apply bwrite_same|].
  intros m Hm. apply post_ret. exact Hm.
Qed.

Lemma read_fixed_post c end_ old size (P : Z -> Prop) : P old ->
  Post ('(rc, c) ← NGX_PROTOBUF_READ_COPY c end_ old size; mret (rc, c, old)) (reads c P).
Proof. intros Ho. eapply post_bind; [apply read_copy_post|]. intros [rc c'] Hs. by apply post_ret. Qed.

Lemma read_string_post c end_ old pl : str_range old -> Post (ngx_protobuf_read_string c end_ old pl) (reads c str_range).
Proof.
  intros Ho. unfold ngx_protobuf_read_string. case_decide; [by apply post_ret; split; [apply same_refl|]|].
  eapply post_bind; [apply (read_uint64_post _ _ _ u64_range); done|]. intros [[rc c1] v] [Hs Hv]. cbn [fst snd] in Hs, Hv.
  case_decide; [by apply post_ret|]. case_decide; [by apply post_ret|]. destruct pl; [|by apply post_ret].
  destruct (ngx_palloc c1 v) as [ok c2] eqn:E. apply palloc_same in E.
  assert (same c c2) as Hs2 by (by eapply same_trans).
  destruct ok; cbn [negb]; [|by apply post_ret]. eapply post_bind with (P := fun _ => True); [done|]. intros s _. by apply post_ret.
Qed.

Lemma skip_post c end_ wire : Post (ngx_protobuf_skip c end_ wire) (fun r => same c r.2).
Proof.
  unfold ngx_protobuf_skip. repeat case_decide; [..|by apply post_ret, same_refl].
  - eapply post_bind; [by apply (read_uint64_post _ _ _ (fun _ => True))|]. intros [[rc c'] v] [Hs _]. by apply post_ret.
  - eapply post_bind; [by apply (read_fixed_post _ _ _ 8 (fun _ => True))|]. intros [[rc c'] v] [Hs _]. by apply post_ret.
  - eapply post_bind; [by apply read_string_post|]. intros [[rc c'] v] [Hs _]. by apply post_ret.
  - eapply post_bind; [by apply (read_fixed_post _ _ _ 4 (fun _ => True))|]. intros [[rc c'] v] [Hs _]. by apply post_ret.
Qed.

Lemma push_array_same {A} (z : A) a c pl ok a' c' (P : A -> Prop) :
  ngx_protobuf_push_array z a c pl = (ok, a', c') -> Forall P (elts a) -> P z -> same c c' /\ Forall P (elts a').
Proof.
  unfold ngx_protobuf_push_array. intros Hp Ha Hz.
  assert (forall l c1, same c c1 -> Forall P l -> (let '(ok, c2) := ngx_palloc c1 1 in
    if ok then (true, Some (l ++ [z]), c2) else (false, Some l, c2)) = (ok, a', c') -> same c c' /\ Forall P (elts a')) as Hl.
  { intros l c1 Hs Hl. destruct (ngx_palloc c1 1) as [ok2 c2] eqn:E. apply palloc_same in E.
    assert (same c c2) by (by eapply same_trans). destruct ok2; intros [= <- <- <-]; (split; [done|]); [|done].
    apply Forall_app. by repeat constructor. }
  destruct a as [l|]; [by apply (Hl l c (same_refl c))|]. destruct pl.
  - destruct (ngx_palloc c 1) as [ok1 c1] eqn:E. apply palloc_same in E. destruct ok1.
    + apply (Hl [] c1 E); [constructor|exact Hp].
    + injection Hp as <- <- <-. by split.
  - injection Hp as <- <- <-. split; [apply same_refl|done].
Qed.
End Env.

(** ** Fields *)

(** [w] keeps [T] of its object, and the context. *)
Definition Keeps {A} (T : A -> Prop) (w : A -> ngx_protobuf_context_t -> result A) : Prop :=
  forall o c, T o -> Post (w o c) (fun r => T r.1.2 /\ same c r.2).

Section Fields.
Context `{NgxEnv} {A : Type} (T : A -> Prop).

Lemma post_keep rc o c c' : T o -> same c c' -> Post (mret (rc, o, c') : result A) (fun r => T r.1.2 /\ same c r.2).
Proof. intros Ho Hs. by apply post_ret. Qed.

Lemma keeps_skip wire : Keeps T (skip_case wire).
Proof.
  intros o c Ho. unfold skip_case. eapply post_bind; [apply skip_post|]. intros [rc c'] Hs. by apply post_keep.
Qed.

(** A value read by [read] into the object. *)
Lemma post_read {V} (r : cres (ngx_rc * ngx_protobuf_context_t * V)) (P : V -> Prop)
    (f : ngx_rc -> V -> ngx_rc * A) o c :
  Post r (reads c P) -> (forall rc v, P v -> T (f rc v).2) -> T o ->
  Post ('(rc, c, v) ← r; mret (f rc v, c)) (fun r => T r.1.2 /\ same c r.2).
Proof.
  intros Hr Hf Ho. eapply post_bind; [exact Hr|]. intros [[rc c'] v] [Hs Hv]. apply post_ret. cbn [fst snd] in *. auto.
Qed.

Section Numbers.
Context (conv : Z -> Z) (upd : A -> fld Z -> A) (P : Z -> Prop).
Hypothesis Hupd : forall o x, T o -> P (val x) -> T (upd o x).

Lemma keeps_u32 wire : (forall v, u32_range v -> P (conv v)) -> Keeps T (unpack_u32 conv upd wire).
Proof.
  intros Hc o c Ho. unfold unpack_u32. case_decide; [|by apply keeps_skip].
  eapply post_bind; [by apply (read_uint32_post _ _ _ u32_range)|]. intros [[rc c'] v] [Hs Hv]. cbn [fst snd] in *.
  case_decide; (apply post_keep; [|done]); first [done|apply Hupd; [done|cbn [val]; auto]].
Qed.
Lemma keeps_u64 wire : (forall v, u64_range v -> P (conv v)) -> Keeps T (unpack_u64 conv upd wire).
Proof.
  intros Hc o c Ho. unfold unpack_u64. case_decide; [|by apply keeps_skip].
  eapply post_bind; [by apply (read_uint64_post _ _ _ u64_range)|]. intros [[rc c'] v] [Hs Hv]. cbn [fst snd] in *.
  case_decide; (apply post_keep; [|done]); first [done|apply Hupd; [done|cbn [val]; auto]].
Qed.
Lemma keeps_float (get : A -> fld Z) wire : (forall o, T o -> P (val (get o))) -> Keeps T (unpack_float get upd wire).
Proof.
  intros Hg o c Ho. unfold unpack_float. case_decide; [|by apply keeps_skip].
  eapply post_bind; [by apply (read_fixed_post _ _ _ 4 P); auto|]. intros [[rc c'] v] [Hs Hv]. cbn [fst snd] in *.
  case_decide; (apply post_keep; [|done]); first [done|apply Hupd; [done|cbn [val]; auto]].
Qed.
End Numbers.

Lemma keeps_str (get : A -> fld ngx_str_t) upd wire :
  (forall o, T o -> str_range (val (get o))) -> (forall o x, T o -> str_range (val x) -> T (upd o x)) ->
  Keeps T (unpack_str get upd wire).
Proof.
  intros Hg Hupd o c Ho. unfold unpack_str. case_decide; [|by apply keeps_skip].
  eapply post_bind; [by apply read_string_post; auto|]. intros [[rc c'] v] [Hs Hv]. cbn [fst snd] in *.
  case_decide; (apply post_keep; [|done]); first [done|apply Hupd; [done|cbn [val]; auto]].
Qed.

Lemma keeps_unknown (get : A -> array ngx_protobuf_unknown_field_t) upd field wire :
  (forall o x, T o -> T (upd o x)) -> Keeps T (unpack_unknown get upd field wire).
Proof.
  intros Hupd o c Ho. unfold unpack_unknown.
  eapply post_bind with (P := fun r => same c r.2); [|intros [[rc u] c'] Hs; apply post_keep; auto].
  unfold ngx_protobuf_unpack_unknown_field. destruct (ngx_protobuf_push_array _ _ _ _) as [[ok u] c1] eqn:E.
  apply (push_array_same _ _ _ _ _ _ _ (fun _ => True)) in E as [Hs1 _]; [|by apply Forall_true|done].
  destruct ok; cbn [negb]; [|by apply post_ret].
  assert (forall c2, same c1 c2 -> same c c2) as Ht by (intros c2; by apply same_trans).
  repeat case_decide; [..|by apply post_ret].
  - eapply post_bind; [by apply (read_uint64_post _ _ _ (fun _ => True))|]. intros [[rc c'] v] [Hs _]. apply post_ret. auto.
  - eapply post_bind; [by apply (read_fixed_post _ _ _ 8 (fun _ => True))|]. intros [[rc c'] v] [Hs _]. apply post_ret. auto.
  - eapply post_bind; [by apply read_string_post|]. intros [[rc c'] v] [Hs _]. apply post_ret. auto.
  - eapply post_bind; [by apply (read_fixed_post _ _ _ 4 (fun _ => True))|]. intros [[rc c'] v] [Hs _]. apply post_ret. auto.
Qed.

(** ** Arrays *)

Section Arrays.
Context {V : Type} (zero : V) (P : V -> Prop) (get : A -> fld (array V)) (upd : A -> fld (array V) -> A).
Hypothesis Hzero : P zero.
Hypothesis Hget : forall o, T o -> elements_range P (get o).
Hypothesis Hupd : forall o x, T o -> elements_range P x -> T (upd o x).

Lemma set_last_range l v : Forall P l -> P v -> Forall P (set_last_value l v).
Proof. intros Hl Hv. apply Forall_app. split; [by apply Forall_take|by repeat constructor]. Qed.

Lemma add_element_keeps o pl c ok o' c' : T o -> add_element zero get upd o pl c = (ok, o', c') -> T o' /\ same c c'.
Proof.
  intros Ho. unfold add_element. destruct (ngx_protobuf_push_array _ _ _ _) as [[ok1 a] c1] eqn:E.
  apply (push_array_same _ _ _ _ _ _ _ P) in E as [Hs Ha]; [|by apply Hget|done]. intros [= _ <- <-]. auto.
Qed.

Lemma keeps_push read : (forall c, Post (read c) (reads c P)) -> Keeps T (push_value zero read get upd).
Proof.
  intros Hread o c Ho. unfold push_value. destruct (add_element _ _ _ _ _ _) as [[ok o1] c1] eqn:E.
  apply add_element_keeps in E as [Ho1 Hs1]; [|done]. destruct ok; cbn [negb]; [|by apply post_keep].
  eapply post_bind; [apply Hread|]. intros [[rc c2] v] [Hs Hv]. cbn [fst snd] in *.
  apply post_keep; [|by eapply same_trans]. apply Hupd; [done|]. apply set_last_range; [by apply Hget|done].
Qed.

Lemma keeps_element (unpack : V -> ngx_protobuf_context_t -> result V) len : Keeps P unpack -> Keeps T (unpack_element zero unpack get upd len).
Proof.
  intros Hu o c Ho. unfold unpack_element. case_decide; [by apply post_keep, same_refl|]. case_decide; [by apply post_keep, same_refl|].
  destruct (add_element _ _ _ _ _ _) as [[ok o1] c1] eqn:E. apply add_element_keeps in E as [Ho1 Hs1]; [|done].
  destruct ok; cbn [negb]; [|by apply post_keep]. eapply post_bind; [by apply Hu|]. intros [[rc m] c2] [Hm Hs]. cbn [fst snd] in *.
  apply post_keep; [|eapply same_trans; [exact Hs1|by eapply same_nested]].
  apply Hupd; [done|]. apply set_last_range; [by apply Hget|done].
Qed.
End Arrays.

Lemma keeps_member {M} (P : M -> Prop) zero unpack (get : A -> fld (option M)) upd len :
  P zero -> (forall o, T o -> member_range P (get o)) -> (forall o x, T o -> member_range P x -> T (upd o x)) ->
  Keeps P unpack -> Keeps T (unpack_member zero unpack get upd len).
Proof.
  intros Hz Hg Hupd Hu o c Ho. unfold unpack_member. case_decide; [by apply post_keep, same_refl|].
  case_decide; [by apply post_keep, same_refl|].
  assert (forall ok c1, same c c1 -> Post (if negb ok then mret (NGX_ERROR, o, c1) else
    '(rc, m, c) ← unpack zero (set_last c1 (ptr_add (pos c) len));
    mret (rc, upd o (Fld (if decide (rc = NGX_OK) then true else has (get o)) (Some m)), set_last c (last c1)))
    (fun r => T r.1.2 /\ same c r.2)) as Hn.
  { intros ok c1 Hs1. destruct ok; cbn [negb]; [|by apply post_keep]. eapply post_bind; [by apply Hu|].
    intros [[rc m] c2] [Hm Hs]. cbn [fst snd] in *.
    apply post_keep; [|eapply same_trans; [exact Hs1|by eapply same_nested]]. apply Hupd; [done|]. by intros ? [= <-]. }
  destruct (val (get o)); [by apply Hn, same_refl|]. destruct (pool c); [|by apply Hn, same_refl].
  destruct (ngx_palloc c 1) as [ok c1] eqn:E. apply palloc_same in E. by apply Hn.
Qed.

Lemma keeps_msg (unpack : Z -> A -> ngx_protobuf_context_t -> result A) wire :
  (forall len, Keeps T (unpack len)) -> Keeps T (unpack_msg unpack wire).
Proof.
  intros Hu o c Ho. unfold unpack_msg. case_decide; [|by apply keeps_skip].
  eapply post_bind; [by apply (read_uint32_post _ _ _ (fun _ => True))|]. intros [[rc c1] v] [Hs _]. cbn [fst snd] in Hs.
  case_decide; [by apply post_keep|]. eapply post_weaken; [by apply Hu|]. intros r [Hr Hsr]. split; [done|by eapply same_trans].
Qed.

(** ** The loop *)

Lemma keeps_loop step : (forall field wire, Keeps T (step field wire)) -> forall fuel, Keeps T (unpack_loop step fuel).
Proof.
  intros Hstep fuel. induction fuel as [|fuel IH]; intros o c Ho; cbn [unpack_loop]; (case_decide; [by apply post_keep, same_refl|]); [done|].
  eapply post_bind; [by apply (read_uint32_post _ _ _ (fun _ => True))|]. intros [[rc c1] v] [Hs1 _]. cbn [fst snd] in Hs1.
  case_decide; [by apply post_keep|]. case_decide; [by apply post_keep|].
  eapply post_bind; [by apply Hstep|]. intros [[rc2 o2] c2] [Ho2 Hs2]. cbn [fst snd] in *.
  assert (same c c2) by (by eapply same_trans). case_decide; [by apply post_keep|].
  eapply post_weaken; [by apply IH|]. intros r [Hr Hsr]. split; [done|by eapply same_trans].
Qed.
End Fields.

Section Repeated.
Context `{NgxEnv} {A : Type} (T : A -> Prop).

Section Numbers.
Context (conv : Z -> Z) (get : A -> fld (array Z)) (upd : A -> fld (array Z) -> A) (P : Z -> Prop).
Hypothesis Hzero : P 0.
Hypothesis Hconv0 : P (conv 0).
Hypothesis Hget : forall o, T o -> elements_range P (get o).
Hypothesis Hupd : forall o x, T o -> elements_range P x -> T (upd o x).

Lemma read_into_post r c : Post r (reads c (fun v => P (conv v))) -> Post (read_into conv r) (reads c P).
Proof. intros Hr. eapply post_bind; [exact Hr|]. intros [[rc c'] v] [Hs Hv]. by apply post_ret. Qed.

Lemma keeps_push_u32 : (forall v, u32_range v -> P (conv v)) -> Keeps T (push_u32 conv get upd).
Proof. intros Hc. apply (keeps_push T 0 P); try done. intros c. by apply read_into_post, read_uint32_post. Qed.

Lemma keeps_u32s wire : (forall v, u32_range v -> P (conv v)) -> Keeps T (unpack_u32s conv get upd wire).
Proof. intros Hc o c Ho. unfold unpack_u32s. case_decide; [by apply keeps_push_u32|by apply keeps_skip]. Qed.

Lemma keeps_u64s wire : (forall v, u64_range v -> P (conv v)) -> Keeps T (unpack_u64s conv get upd wire).
Proof.
  intros Hc o c Ho. unfold unpack_u64s. case_decide; [|by apply keeps_skip].
  apply (keeps_push T 0 P); try done. intros c1. by apply read_into_post, read_uint64_post.
Qed.

Lemma keeps_fixed64s wire : Keeps T (unpack_fixed64s get upd wire).
Proof.
  intros o c Ho. unfold unpack_fixed64s. case_decide; [|by apply keeps_skip].
  apply (keeps_push T 0 P); try done. intros c1. by apply read_fixed_post.
Qed.

Lemma keeps_packed_loop push mend : Keeps T push -> forall fuel, Keeps T (packed_loop push fuel mend).
Proof.
  intros Hp fuel. induction fuel as [|fuel IH]; intros o c Ho; cbn [packed_loop]; (case_decide; [by apply post_keep, same_refl|]); [done|].
  eapply post_bind; [by apply Hp|]. intros [[rc o1] c1] [Ho1 Hs1]. cbn [fst snd] in *. case_decide; [by apply post_keep|].
  eapply post_weaken; [by apply IH|]. intros r [Hr Hsr]. split; [done|by eapply same_trans].
Qed.

Lemma keeps_packed fuel wire : (forall v, u32_range v -> P (conv v)) -> Keeps T (unpack_packed fuel conv get upd wire).
Proof.
  intros Hc o c Ho. unfold unpack_packed. pose proof (keeps_push_u32 Hc) as Hp. case_decide; [by apply Hp|].
  case_decide; [|by apply keeps_skip].
  eapply post_bind; [by apply (read_uint32_post _ _ _ (fun _ => True))|]. intros [[rc c1] v] [Hs _]. cbn [fst snd] in Hs.
  case_decide; [by apply post_keep|]. cbn zeta. case_decide; [by apply post_keep|].
  eapply post_weaken; [by apply keeps_packed_loop|]. intros r [Hr Hsr]. split; [done|by eapply same_trans].
Qed.
End Numbers.

Lemma keeps_strs (get : A -> fld (array ngx_str_t)) upd wire :
  (forall o, T o -> elements_range str_range (get o)) -> (forall o x, T o -> elements_range str_range x -> T (upd o x)) ->
  Keeps T (unpack_strs get upd wire).
Proof.
  intros Hg Hu o c Ho. unfold unpack_strs. case_decide; [|by apply keeps_skip].
  apply (keeps_push T ngx_str_null str_range); try done. intros c1. by apply read_string_post.
Qed.
End Repeated.

(** ** Messages *)

(** The ranges of the fields of a message; a new object is within them, and
    unpacking keeps them. *)
Class TypedLaws {E : NgxEnv} (M : Type) `{!Message M} := {
  typed : M -> Prop;
  typed_zero : typed zero;
  typed_unpack fuel : Keeps typed (munpack fuel)
}.

(** One case of the [switch] at a time. *)
Ltac keeps_upd := let o := fresh in intros o; destruct o; cbn; tauto.
Ltac keeps_zero := lazymatch goal with |- @typed ?E ?M ?m ?t _ => exact (@typed_zero E M m t) end.
Ltac keeps_inner := lazymatch goal with |- Keeps (@typed ?E ?M ?m ?t) _ => exact (@typed_unpack E M m t _) end.
Ltac keeps_field :=
  lazymatch goal with
  | |- Keeps _ (unpack_u32 i32 _ _) => apply keeps_u32 with (P := i32_range); [keeps_upd|intros; apply i32_i32]
  | |- Keeps _ (unpack_u32 id _ _) => apply keeps_u32 with (P := u32_range); [keeps_upd|done]
  | |- Keeps _ (unpack_bool _ _) => apply keeps_u32 with (P := bool_range); [keeps_upd|intros; apply bool_bool]
  | |- Keeps _ (unpack_u64 i64 _ _) => apply keeps_u64 with (P := i64_range); [keeps_upd|intros; apply i64_i64]
  | |- Keeps _ (unpack_u64 id _ _) => apply keeps_u64 with (P := u64_range); [keeps_upd|done]
  | |- Keeps _ (unpack_float _ _ _) => apply keeps_float with (P := u32_range); [keeps_upd..]
  | |- Keeps _ (unpack_str _ _ _) => apply keeps_str; [keeps_upd..]
  | |- Keeps _ (unpack_strs _ _ _) => apply keeps_strs; [keeps_upd..]
  | |- Keeps _ (unpack_u32s i32 _ _ _) => apply keeps_u32s with (P := i32_range); [done|done|keeps_upd|keeps_upd|intros; apply i32_i32]
  | |- Keeps _ (unpack_u32s id _ _ _) => apply keeps_u32s with (P := u32_range); [done|done|keeps_upd|keeps_upd|done]
  | |- Keeps _ (unpack_u64s i64 _ _ _) => apply keeps_u64s with (P := i64_range); [done|done|keeps_upd|keeps_upd|intros; apply i64_i64]
  | |- Keeps _ (unpack_fixed64s _ _ _) => apply keeps_fixed64s with (P := u64_range); [done|keeps_upd|keeps_upd]
  | |- Keeps _ (unpack_packed _ i32 _ _ _) => apply keeps_packed with (P := i32_range); [done|done|keeps_upd|keeps_upd|intros; apply i32_i32]
  | |- Keeps _ (unpack_unknown _ _ _ _) => apply keeps_unknown; keeps_upd
  | |- Keeps _ (unpack_msg ?u _) =>
      apply keeps_msg; intros ?;
      lazymatch goal with
      | |- Keeps ?T ?u => let u := eval red in u in change (Keeps T u)
      end;
      lazymatch goal with
      | |- Keeps _ (unpack_member _ _ _ _ _) =>
          eapply keeps_member with (P := typed); [keeps_zero|keeps_upd|keeps_upd|keeps_inner]
      | |- Keeps _ (unpack_element _ _ _ _ _) =>
          eapply keeps_element with (P := typed); [keeps_zero|keeps_upd|keeps_upd|keeps_inner]
      end
  end.
Ltac typed_zero_law :=
  hnf; cbn; split_and?;
  first [ by constructor | by intros ? [=] | unfold i32_range, u32_range, i64_range, u64_range, bool_range, str_range; cbn; lia ].
Tactic Notation "typed_law" reference(def) reference(unpack) reference(switch) :=
  unfold unpack; apply keeps_loop; intros field wire; unfold switch; unfold def; repeat case_match;
  lazymatch goal with |- Keeps ?T (fun o c => ?f o c) => change (Keeps T f) end; keeps_field.
