(* ===== verification/NgxComTyped.v ===== *)
(** The messages of NgxComProto.v keep the ranges of their fields
    (NgxProtobufTyped.v). *)

From Stdlib Require Import ZArith Lia.
From S2P Require Import Prelude NgxProtobuf NgxProtobufMsg NgxProtobufCodec NgxProtobufRead NgxProtobufScalar NgxProtobufTyped.
From S2P Require Import NgxComProto NgxComProtoLaws.

Open Scope Z_scope.

(** ** ComRequest.AdxSlot.Banner *)

Definition banner_typed `{NgxEnv} (o : ngx_com_request_adx_slot_banner_t) : Prop :=
    i32_range (val (banner_width o)) /\ i32_range (val (banner_height o)).

Lemma banner_typed_unpack `{NgxEnv} fuel : Keeps banner_typed (ngx_com_request_adx_slot_banner__unpack fuel).
Proof. typed_law banner_typed ngx_com_request_adx_slot_banner__unpack banner_switch. Qed.

#[export] Instance banner_typed_laws `{NgxEnv} : TypedLaws ngx_com_request_adx_slot_banner_t.
Proof. exists banner_typed; [typed_zero_law|exact banner_typed_unpack]. Defined.

(** ** ComRequest.AdxSlot.Native *)

Definition native_typed `{NgxEnv} (o : ngx_com_request_adx_slot_native_t) : Prop :=
    i32_range (val (native_icon_width o)) /\ i32_range (val (native_icon_height o)) /\
    i32_range (val (native_width o)) /\ i32_range (val (native_height o)).

Lemma native_typed_unpack `{NgxEnv} fuel : Keeps native_typed (ngx_com_request_adx_slot_native__unpack fuel).
Proof. typed_law native_typed ngx_com_request_adx_slot_native__unpack native_switch. Qed.

#[export] Instance native_typed_laws `{NgxEnv} : TypedLaws ngx_com_request_adx_slot_native_t.
Proof. exists native_typed; [typed_zero_law|exact native_typed_unpack]. Defined.

(** ** ComRequest.AdxSlot.Video *)

Definition video_typed `{NgxEnv} (o : ngx_com_request_adx_slot_video_t) : Prop := i32_range (val (video_width o)) /\
    i32_range (val (video_height o)) /\ i32_range (val (video_min_duration o)) /\
    i32_range (val (video_max_duration o)).

Lemma video_typed_unpack `{NgxEnv} fuel : Keeps video_typed (ngx_com_request_adx_slot_video__unpack fuel).
Proof. typed_law video_typed ngx_com_request_adx_slot_video__unpack video_switch. Qed.

#[export] Instance video_typed_laws `{NgxEnv} : TypedLaws ngx_com_request_adx_slot_video_t.
Proof. exists video_typed; [typed_zero_law|exact video_typed_unpack]. Defined.

(** ** ComRequest.AdxSlot *)

Definition slot_typed `{NgxEnv} (o : ngx_com_request_adx_slot_t) : Prop := str_range (val (slot_adx_slot_id o)) /\
    i32_range (val (slot_adx_slot_sequence_id o)) /\ u32_range (val (slot_adx_slot_type o)) /\
    member_range (typed (M := ngx_com_request_adx_slot_banner_t)) (slot_banner o) /\
    member_range (typed (M := ngx_com_request_adx_slot_native_t)) (slot_native o) /\
    member_range (typed (M := ngx_com_request_adx_slot_video_t)) (slot_video o) /\
    i32_range (val (slot_price_floor o)).

Lemma slot_typed_unpack `{NgxEnv} fuel : Keeps slot_typed (ngx_com_request_adx_slot__unpack fuel).
Proof. typed_law slot_typed ngx_com_request_adx_slot__unpack slot_switch. Qed.

#[export] Instance slot_typed_laws `{NgxEnv} : TypedLaws ngx_com_request_adx_slot_t.
Proof. exists slot_typed; [typed_zero_law|exact slot_typed_unpack]. Defined.

(** ** ComRequest.Device.DeviceID *)

Definition did_typed `{NgxEnv} (o : ngx_com_request_device_device_id_t) : Prop := str_range (val (did_id o)) /\
    u32_range (val (did_type o)).

Lemma did_typed_unpack `{NgxEnv} fuel : Keeps did_typed (ngx_com_request_device_device_id__unpack fuel).
Proof. typed_law did_typed ngx_com_request_device_device_id__unpack did_switch. Qed.

#[export] Instance did_typed_laws `{NgxEnv} : TypedLaws ngx_com_request_device_device_id_t.
Proof. exists did_typed; [typed_zero_law|exact did_typed_unpack]. Defined.

(** ** ComRequest.Device *)

Definition device_typed `{NgxEnv} (o : ngx_com_request_device_t) : Prop :=
    elements_range (typed (M := ngx_com_request_device_device_id_t)) (device_device_id o) /\
    u32_range (val (device_device_type o)) /\ u32_range (val (device_os o)) /\
    str_range (val (device_os_version o)) /\ u32_range (val (device_carrier o)) /\
    u32_range (val (device_connection o)) /\ str_range (val (device_brand o)) /\ str_range (val (device_model o)) /\
    str_range (val (device_user_agent o)) /\ str_range (val (device_ip o)).

Lemma device_typed_unpack `{NgxEnv} fuel : Keeps device_typed (ngx_com_request_device__unpack fuel).
Proof. typed_law device_typed ngx_com_request_device__unpack device_switch. Qed.

#[export] Instance device_typed_laws `{NgxEnv} : TypedLaws ngx_com_request_device_t.
Proof. exists device_typed; [typed_zero_law|exact device_typed_unpack]. Defined.

(** ** ComRequest.App *)

Definition app_typed `{NgxEnv} (o : ngx_com_request_app_t) : Prop := str_range (val (app_app_id o)) /\
    i32_range (val (app_app_category o)).

Lemma app_typed_unpack `{NgxEnv} fuel : Keeps app_typed (ngx_com_request_app__unpack fuel).
Proof. typed_law app_typed ngx_com_request_app__unpack app_switch. Qed.

#[export] Instance app_typed_laws `{NgxEnv} : TypedLaws ngx_com_request_app_t.
Proof. exists app_typed; [typed_zero_law|exact app_typed_unpack]. Defined.

(** ** ComRequest *)

Definition request_typed `{NgxEnv} (o : ngx_com_request_t) : Prop := i32_range (val (request_adx o)) /\
    str_range (val (request_bid o)) /\
    elements_range (typed (M := ngx_com_request_adx_slot_t)) (request_adx_slot o) /\
    member_range (typed (M := ngx_com_request_device_t)) (request_device o) /\
    member_range (typed (M := ngx_com_request_app_t)) (request_app o).

Lemma request_typed_unpack `{NgxEnv} fuel : Keeps request_typed (ngx_com_request__unpack fuel).
Proof. typed_law request_typed ngx_com_request__unpack request_switch. Qed.

#[export] Instance request_typed_laws `{NgxEnv} : TypedLaws ngx_com_request_t.
Proof. exists request_typed; [typed_zero_law|exact request_typed_unpack]. Defined.

(** ** ComResponse.AdxSlot *)

Definition rslot_typed `{NgxEnv} (o : ngx_com_response_adx_slot_t) : Prop :=
    str_range (val (rslot_adx_slot_id o)) /\ i32_range (val (rslot_adx_slot_sequence_id o)) /\
    u32_range (val (rslot_adx_slot_type o)) /\ i32_range (val (rslot_price o)) /\
    str_range (val (rslot_template o)) /\ str_range (val (rslot_ext o)).

Lemma rslot_typed_unpack `{NgxEnv} fuel : Keeps rslot_typed (ngx_com_response_adx_slot__unpack fuel).
Proof. typed_law rslot_typed ngx_com_response_adx_slot__unpack rslot_switch. Qed.

#[export] Instance rslot_typed_laws `{NgxEnv} : TypedLaws ngx_com_response_adx_slot_t.
Proof. exists rslot_typed; [typed_zero_law|exact rslot_typed_unpack]. Defined.

(** ** ComResponse *)

Definition response_typed `{NgxEnv} (o : ngx_com_response_t) : Prop := str_range (val (response_bid o)) /\
    elements_range (typed (M := ngx_com_response_adx_slot_t)) (response_adx_slot o).

Lemma response_typed_unpack `{NgxEnv} fuel : Keeps response_typed (ngx_com_response__unpack fuel).
Proof. typed_law response_typed ngx_com_response__unpack response_switch. Qed.

#[export] Instance response_typed_laws `{NgxEnv} : TypedLaws ngx_com_response_t.
Proof. exists response_typed; [typed_zero_law|exact response_typed_unpack]. Defined.
