(* ===== verification/NgxBaiduTyped.v ===== *)
(** The messages of NgxBaiduProto.v keep the ranges of their fields
    (NgxProtobufTyped.v). *)

From Stdlib Require Import ZArith Lia.
From S2P Require Import Prelude NgxProtobuf NgxProtobufMsg NgxProtobufCodec NgxProtobufRead NgxProtobufScalar NgxProtobufTyped.
From S2P Require Import NgxBaiduProto NgxBaiduProtoLaws.

Open Scope Z_scope.

(** ** BidRequest.BaiduId *)

Definition baidu_id_typed `{NgxEnv} (o : ngx_bid_request_baidu_id_t) : Prop :=
    str_range (val (baidu_id_baidu_user_id o)) /\ i32_range (val (baidu_id_baidu_user_id_version o)).

Lemma baidu_id_typed_unpack `{NgxEnv} fuel : Keeps baidu_id_typed (ngx_bid_request_baidu_id__unpack fuel).
Proof. typed_law baidu_id_typed ngx_bid_request_baidu_id__unpack baidu_id_switch. Qed.

#[export] Instance baidu_id_typed_laws `{NgxEnv} : TypedLaws ngx_bid_request_baidu_id_t.
Proof. exists baidu_id_typed; [typed_zero_law|exact baidu_id_typed_unpack]. Defined.

(** ** BidRequest.CustomizedUserTag.AmsTag *)

Definition ams_tag_typed `{NgxEnv} (o : ngx_bid_request_customized_user_tag_ams_tag_t) : Prop :=
    u64_range (val (ams_tag_tag_id o)).

Lemma ams_tag_typed_unpack `{NgxEnv} fuel : Keeps ams_tag_typed (ngx_bid_request_customized_user_tag_ams_tag__unpack fuel).
Proof. typed_law ams_tag_typed ngx_bid_request_customized_user_tag_ams_tag__unpack ams_tag_switch. Qed.

#[export] Instance ams_tag_typed_laws `{NgxEnv} : TypedLaws ngx_bid_request_customized_user_tag_ams_tag_t.
Proof. exists ams_tag_typed; [typed_zero_law|exact ams_tag_typed_unpack]. Defined.

(** ** BidRequest.CustomizedUserTag *)

Definition user_tag_typed `{NgxEnv} (o : ngx_bid_request_customized_user_tag_t) : Prop :=
    elements_range (typed (M := ngx_bid_request_customized_user_tag_ams_tag_t)) (user_tag_ams_tag_list o).

Lemma user_tag_typed_unpack `{NgxEnv} fuel : Keeps user_tag_typed (ngx_bid_request_customized_user_tag__unpack fuel).
Proof. typed_law user_tag_typed ngx_bid_request_customized_user_tag__unpack user_tag_switch. Qed.

#[export] Instance user_tag_typed_laws `{NgxEnv} : TypedLaws ngx_bid_request_customized_user_tag_t.
Proof. exists user_tag_typed; [typed_zero_law|exact user_tag_typed_unpack]. Defined.

(** ** BidRequest.Geo.Coordinate *)

Definition coordinate_typed `{NgxEnv} (o : ngx_bid_request_geo_coordinate_t) : Prop :=
    u32_range (val (coordinate_standard o)) /\ u32_range (val (coordinate_latitude o)) /\
    u32_range (val (coordinate_longitude o)).

Lemma coordinate_typed_unpack `{NgxEnv} fuel : Keeps coordinate_typed (ngx_bid_request_geo_coordinate__unpack fuel).
Proof. typed_law coordinate_typed ngx_bid_request_geo_coordinate__unpack coordinate_switch. Qed.

#[export] Instance coordinate_typed_laws `{NgxEnv} : TypedLaws ngx_bid_request_geo_coordinate_t.
Proof. exists coordinate_typed; [typed_zero_law|exact coordinate_typed_unpack]. Defined.

(** ** BidRequest.Geo.UserLocation *)

Definition location_typed `{NgxEnv} (o : ngx_bid_request_geo_user_location_t) : Prop :=
    str_range (val (location_province o)) /\ str_range (val (location_city o)) /\
    str_range (val (location_district o)) /\ str_range (val (location_street o)).

Lemma location_typed_unpack `{NgxEnv} fuel : Keeps location_typed (ngx_bid_request_geo_user_location__unpack fuel).
Proof. typed_law location_typed ngx_bid_request_geo_user_location__unpack location_switch. Qed.

#[export] Instance location_typed_laws `{NgxEnv} : TypedLaws ngx_bid_request_geo_user_location_t.
Proof. exists location_typed; [typed_zero_law|exact location_typed_unpack]. Defined.

(** ** BidRequest.Geo *)

Definition geo_typed `{NgxEnv} (o : ngx_bid_request_geo_t) : Prop :=
    elements_range (typed (M := ngx_bid_request_geo_coordinate_t)) (geo_user_coordinate o) /\
    member_range (typed (M := ngx_bid_request_geo_user_location_t)) (geo_user_location o).

Lemma geo_typed_unpack `{NgxEnv} fuel : Keeps geo_typed (ngx_bid_request_geo__unpack fuel).
Proof. typed_law geo_typed ngx_bid_request_geo__unpack geo_switch. Qed.

#[export] Instance geo_typed_laws `{NgxEnv} : TypedLaws ngx_bid_request_geo_t.
Proof. exists geo_typed; [typed_zero_law|exact geo_typed_unpack]. Defined.

(** ** BidRequest.Mobile.MobileID *)

Definition mid_typed `{NgxEnv} (o : ngx_bid_request_mobile_mobile_id_t) : Prop := u32_range (val (mid_type o)) /\
    str_range (val (mid_id o)).

Lemma mid_typed_unpack `{NgxEnv} fuel : Keeps mid_typed (ngx_bid_request_mobile_mobile_id__unpack fuel).
Proof. typed_law mid_typed ngx_bid_request_mobile_mobile_id__unpack mid_switch. Qed.

#[export] Instance mid_typed_laws `{NgxEnv} : TypedLaws ngx_bid_request_mobile_mobile_id_t.
Proof. exists mid_typed; [typed_zero_law|exact mid_typed_unpack]. Defined.

(** ** BidRequest.Mobile.DeviceOsVersion *)

Definition osv_typed `{NgxEnv} (o : ngx_bid_request_mobile_device_os_version_t) : Prop :=
    i32_range (val (osv_os_version_major o)) /\ i32_range (val (osv_os_version_minor o)) /\
    i32_range (val (osv_os_version_micro o)).

Lemma osv_typed_unpack `{NgxEnv} fuel : Keeps osv_typed (ngx_bid_request_mobile_device_os_version__unpack fuel).
Proof. typed_law osv_typed ngx_bid_request_mobile_device_os_version__unpack osv_switch. Qed.

#[export] Instance osv_typed_laws `{NgxEnv} : TypedLaws ngx_bid_request_mobile_device_os_version_t.
Proof. exists osv_typed; [typed_zero_law|exact osv_typed_unpack]. Defined.

(** ** BidRequest.Mobile.ForAdvertisingID *)

Definition faid_typed `{NgxEnv} (o : ngx_bid_request_mobile_for_advertising_id_t) : Prop :=
    u32_range (val (faid_type o)) /\ str_range (val (faid_id o)).

Lemma faid_typed_unpack `{NgxEnv} fuel : Keeps faid_typed (ngx_bid_request_mobile_for_advertising_id__unpack fuel).
Proof. typed_law faid_typed ngx_bid_request_mobile_for_advertising_id__unpack faid_switch. Qed.

#[export] Instance faid_typed_laws `{NgxEnv} : TypedLaws ngx_bid_request_mobile_for_advertising_id_t.
Proof. exists faid_typed; [typed_zero_law|exact faid_typed_unpack]. Defined.

(** ** BidRequest.Mobile.MobileApp *)

Definition mapp_typed `{NgxEnv} (o : ngx_bid_request_mobile_mobile_app_t) : Prop :=
    str_range (val (mapp_app_id o)) /\ str_range (val (mapp_app_bundle_id o)) /\
    i32_range (val (mapp_app_category o)) /\ i32_range (val (mapp_app_publisher_id o)) /\
    elements_range u32_range (mapp_app_interaction_type o).

Lemma mapp_typed_unpack `{NgxEnv} fuel : Keeps mapp_typed (ngx_bid_request_mobile_mobile_app__unpack fuel).
Proof. typed_law mapp_typed ngx_bid_request_mobile_mobile_app__unpack mapp_switch. Qed.

#[export] Instance mapp_typed_laws `{NgxEnv} : TypedLaws ngx_bid_request_mobile_mobile_app_t.
Proof. exists mapp_typed; [typed_zero_law|exact mapp_typed_unpack]. Defined.

(** ** BidRequest.Mobile *)

Definition mobile_typed `{NgxEnv} (o : ngx_bid_request_mobile_t) : Prop :=
    str_range (val (mobile_DEPRECATED_device_id o)) /\
    elements_range (typed (M := ngx_bid_request_mobile_mobile_id_t)) (mobile_id o) /\
    u32_range (val (mobile_device_type o)) /\ u32_range (val (mobile_platform o)) /\
    member_range (typed (M := ngx_bid_request_mobile_device_os_version_t)) (mobile_os_version o) /\
    str_range (val (mobile_brand o)) /\ str_range (val (mobile_model o)) /\
    i32_range (val (mobile_screen_width o)) /\ i32_range (val (mobile_screen_height o)) /\
    u32_range (val (mobile_screen_density o)) /\ i64_range (val (mobile_carrier_id o)) /\
    u32_range (val (mobile_wireless_network_type o)) /\ str_range (val (mobile_DEPRECATED_for_advertising_id o)) /\
    elements_range (typed (M := ngx_bid_request_mobile_for_advertising_id_t)) (mobile_for_advertising_id o) /\
    member_range (typed (M := ngx_bid_request_mobile_mobile_app_t)) (mobile_mobile_app o).

Lemma mobile_typed_unpack `{NgxEnv} fuel : Keeps mobile_typed (ngx_bid_request_mobile__unpack fuel).
Proof. typed_law mobile_typed ngx_bid_request_mobile__unpack mobile_switch. Qed.

#[export] Instance mobile_typed_laws `{NgxEnv} : TypedLaws ngx_bid_request_mobile_t.
Proof. exists mobile_typed; [typed_zero_law|exact mobile_typed_unpack]. Defined.

(** ** BidRequest.Video *)

Definition bvideo_typed `{NgxEnv} (o : ngx_bid_request_video_t) : Prop := str_range (val (bvideo_title o)) /\
    elements_range str_range (bvideo_tags o) /\ i32_range (val (bvideo_content_length o)) /\
    elements_range i64_range (bvideo_channel_id o).

Lemma bvideo_typed_unpack `{NgxEnv} fuel : Keeps bvideo_typed (ngx_bid_request_video__unpack fuel).
Proof. typed_law bvideo_typed ngx_bid_request_video__unpack bvideo_switch. Qed.

#[export] Instance bvideo_typed_laws `{NgxEnv} : TypedLaws ngx_bid_request_video_t.
Proof. exists bvideo_typed; [typed_zero_law|exact bvideo_typed_unpack]. Defined.

(** ** BidRequest.AdSlot.VideoInfo *)

Definition video_info_typed `{NgxEnv} (o : ngx_bid_request_ad_slot_video_info_t) : Prop :=
    i32_range (val (video_info_max_video_duration o)) /\ i32_range (val (video_info_min_video_duration o)) /\
    i32_range (val (video_info_video_start_delay o)).

Lemma video_info_typed_unpack `{NgxEnv} fuel : Keeps video_info_typed (ngx_bid_request_ad_slot_video_info__unpack fuel).
Proof. typed_law video_info_typed ngx_bid_request_ad_slot_video_info__unpack video_info_switch. Qed.

#[export] Instance video_info_typed_laws `{NgxEnv} : TypedLaws ngx_bid_request_ad_slot_video_info_t.
Proof. exists video_info_typed; [typed_zero_law|exact video_info_typed_unpack]. Defined.

(** ** BidRequest.AdSlot.LinkUnitInfo.ProposedKeyword *)

Definition keyword_typed `{NgxEnv} (o : ngx_bid_request_ad_slot_link_unit_info_proposed_keyword_t) : Prop :=
    str_range (val (keyword_text o)) /\ u32_range (val (keyword_pctr1 o)).

Lemma keyword_typed_unpack `{NgxEnv} fuel : Keeps keyword_typed (ngx_bid_request_ad_slot_link_unit_info_proposed_keyword__unpack fuel).
Proof. typed_law keyword_typed ngx_bid_request_ad_slot_link_unit_info_proposed_keyword__unpack keyword_switch. Qed.

#[export] Instance keyword_typed_laws `{NgxEnv} : TypedLaws ngx_bid_request_ad_slot_link_unit_info_proposed_keyword_t.
Proof. exists keyword_typed; [typed_zero_law|exact keyword_typed_unpack]. Defined.

(** ** BidRequest.AdSlot.LinkUnitInfo *)

Definition link_unit_typed `{NgxEnv} (o : ngx_bid_request_ad_slot_link_unit_info_t) : Prop :=
    elements_range i32_range (link_unit_style_type o) /\ i32_range (val (link_unit_req_keyword_num o)) /\
    elements_range str_range (link_unit_proposed_keyword o) /\
    elements_range (typed (M := ngx_bid_request_ad_slot_link_unit_info_proposed_keyword_t)) (link_unit_keywords o).

Lemma link_unit_typed_unpack `{NgxEnv} fuel : Keeps link_unit_typed (ngx_bid_request_ad_slot_link_unit_info__unpack fuel).
Proof. typed_law link_unit_typed ngx_bid_request_ad_slot_link_unit_info__unpack link_unit_switch. Qed.

#[export] Instance link_unit_typed_laws `{NgxEnv} : TypedLaws ngx_bid_request_ad_slot_link_unit_info_t.
Proof. exists link_unit_typed; [typed_zero_law|exact link_unit_typed_unpack]. Defined.

(** ** BidRequest.AdSlot.PreferredOrderInfo.PreferredOrder *)

Definition porder_typed `{NgxEnv} (o : ngx_bid_request_ad_slot_preferred_order_info_preferred_order_t) : Prop :=
    str_range (val (porder_order_id o)) /\ i64_range (val (porder_fixed_cpm o)).

Lemma porder_typed_unpack `{NgxEnv} fuel : Keeps porder_typed (ngx_bid_request_ad_slot_preferred_order_info_preferred_order__unpack fuel).
Proof. typed_law porder_typed ngx_bid_request_ad_slot_preferred_order_info_preferred_order__unpack porder_switch. Qed.

#[export] Instance porder_typed_laws `{NgxEnv} : TypedLaws ngx_bid_request_ad_slot_preferred_order_info_preferred_order_t.
Proof. exists porder_typed; [typed_zero_law|exact porder_typed_unpack]. Defined.

(** ** BidRequest.AdSlot.PreferredOrderInfo *)

Definition pinfo_typed `{NgxEnv} (o : ngx_bid_request_ad_slot_preferred_order_info_t) : Prop :=
    elements_range (typed (M := ngx_bid_request_ad_slot_preferred_order_info_preferred_order_t)) (pinfo_preferred_orders o) /\
    bool_range (val (pinfo_allow_auction o)).

Lemma pinfo_typed_unpack `{NgxEnv} fuel : Keeps pinfo_typed (ngx_bid_request_ad_slot_preferred_order_info__unpack fuel).
Proof. typed_law pinfo_typed ngx_bid_request_ad_slot_preferred_order_info__unpack pinfo_switch. Qed.

#[export] Instance pinfo_typed_laws `{NgxEnv} : TypedLaws ngx_bid_request_ad_slot_preferred_order_info_t.
Proof. exists pinfo_typed; [typed_zero_law|exact pinfo_typed_unpack]. Defined.

(** ** BidRequest.AdSlot.GuaranteedOrder.Charge *)

Definition charge_typed `{NgxEnv} (o : ngx_bid_request_ad_slot_guaranteed_order_charge_t) : Prop :=
    i32_range (val (charge_price o)) /\ u32_range (val (charge_charge_mode o)).

Lemma charge_typed_unpack `{NgxEnv} fuel : Keeps charge_typed (ngx_bid_request_ad_slot_guaranteed_order_charge__unpack fuel).
Proof. typed_law charge_typed ngx_bid_request_ad_slot_guaranteed_order_charge__unpack charge_switch. Qed.

#[export] Instance charge_typed_laws `{NgxEnv} : TypedLaws ngx_bid_request_ad_slot_guaranteed_order_charge_t.
Proof. exists charge_typed; [typed_zero_law|exact charge_typed_unpack]. Defined.

(** ** BidRequest.AdSlot.GuaranteedOrder *)

Definition gorder_typed `{NgxEnv} (o : ngx_bid_request_ad_slot_guaranteed_order_t) : Prop :=
    u32_range (val (gorder_order_id o)) /\
    member_range (typed (M := ngx_bid_request_ad_slot_guaranteed_order_charge_t)) (gorder_charge o).

Lemma gorder_typed_unpack `{NgxEnv} fuel : Keeps gorder_typed (ngx_bid_request_ad_slot_guaranteed_order__unpack fuel).
Proof. typed_law gorder_typed ngx_bid_request_ad_slot_guaranteed_order__unpack gorder_switch. Qed.

#[export] Instance gorder_typed_laws `{NgxEnv} : TypedLaws ngx_bid_request_ad_slot_guaranteed_order_t.
Proof. exists gorder_typed; [typed_zero_law|exact gorder_typed_unpack]. Defined.

(** ** BidRequest.AdSlot.ExpandCreativeInfo *)

Definition expand_typed `{NgxEnv} (o : ngx_bid_request_ad_slot_expand_creative_info_t) : Prop :=
    elements_range u32_range (expand_expand_action_type o) /\ u32_range (val (expand_expand_direction o)) /\
    elements_range i32_range (expand_expand_creative_type o) /\ i32_range (val (expand_expand_width o)) /\
    i32_range (val (expand_expand_height o)) /\ i32_range (val (expand_expand_duration o)).

Lemma expand_typed_unpack `{NgxEnv} fuel : Keeps expand_typed (ngx_bid_request_ad_slot_expand_creative_info__unpack fuel).
Proof. typed_law expand_typed ngx_bid_request_ad_slot_expand_creative_info__unpack expand_switch. Qed.

#[export] Instance expand_typed_laws `{NgxEnv} : TypedLaws ngx_bid_request_ad_slot_expand_creative_info_t.
Proof. exists expand_typed; [typed_zero_law|exact expand_typed_unpack]. Defined.

(** ** BidRequest.AdSlot.NativeAdParam.ImageEle *)

Definition image_ele_typed `{NgxEnv} (o : ngx_bid_request_ad_slot_native_ad_param_image_ele_t) : Prop :=
    i32_range (val (image_ele_width o)) /\ i32_range (val (image_ele_height o)) /\
    i32_range (val (image_ele_shape o)).

Lemma image_ele_typed_unpack `{NgxEnv} fuel : Keeps image_ele_typed (ngx_bid_request_ad_slot_native_ad_param_image_ele__unpack fuel).
Proof. typed_law image_ele_typed ngx_bid_request_ad_slot_native_ad_param_image_ele__unpack image_ele_switch. Qed.

#[export] Instance image_ele_typed_laws `{NgxEnv} : TypedLaws ngx_bid_request_ad_slot_native_ad_param_image_ele_t.
Proof. exists image_ele_typed; [typed_zero_law|exact image_ele_typed_unpack]. Defined.

(** ** BidRequest.AdSlot.NativeAdParam *)

Definition native_param_typed `{NgxEnv} (o : ngx_bid_request_ad_slot_native_ad_param_t) : Prop :=
    elements_range i64_range (native_param_required_fields o) /\
    i32_range (val (native_param_title_max_length o)) /\ i32_range (val (native_param_desc_max_length o)) /\
    member_range (typed (M := ngx_bid_request_ad_slot_native_ad_param_image_ele_t)) (native_param_logo_icon o) /\
    member_range (typed (M := ngx_bid_request_ad_slot_native_ad_param_image_ele_t)) (native_param_image o) /\
    i32_range (val (native_param_image_num o)).

Lemma native_param_typed_unpack `{NgxEnv} fuel : Keeps native_param_typed (ngx_bid_request_ad_slot_native_ad_param__unpack fuel).
Proof. typed_law native_param_typed ngx_bid_request_ad_slot_native_ad_param__unpack native_param_switch. Qed.

#[export] Instance native_param_typed_laws `{NgxEnv} : TypedLaws ngx_bid_request_ad_slot_native_ad_param_t.
Proof. exists native_param_typed; [typed_zero_law|exact native_param_typed_unpack]. Defined.

(** ** BidRequest.AdSlot *)

Definition adslot_typed `{NgxEnv} (o : ngx_bid_request_ad_slot_t) : Prop :=
    u64_range (val (adslot_ad_block_key o)) /\ i32_range (val (adslot_sequence_id o)) /\
    i32_range (val (adslot_adslot_type o)) /\ i32_range (val (adslot_width o)) /\
    i32_range (val (adslot_height o)) /\ i32_range (val (adslot_actual_width o)) /\
    i32_range (val (adslot_actual_height o)) /\ i32_range (val (adslot_slot_visibility o)) /\
    elements_range i32_range (adslot_creative_type o) /\ elements_range u32_range (adslot_creative_desc_type o) /\
    elements_range str_range (adslot_excluded_landing_page_url o) /\
    elements_range u64_range (adslot_publisher_settings_list_id o) /\ i32_range (val (adslot_minimum_cpm o)) /\
    i32_range (val (adslot_max_video_duration o)) /\ i32_range (val (adslot_min_video_duration o)) /\
    i32_range (val (adslot_video_start_delay o)) /\
    member_range (typed (M := ngx_bid_request_ad_slot_video_info_t)) (adslot_video_info o) /\
    member_range (typed (M := ngx_bid_request_ad_slot_link_unit_info_t)) (adslot_link_unit_info o) /\
    member_range (typed (M := ngx_bid_request_ad_slot_preferred_order_info_t)) (adslot_preferred_order_info o) /\
    elements_range (typed (M := ngx_bid_request_ad_slot_guaranteed_order_t)) (adslot_guaranteed_orders o) /\
    member_range (typed (M := ngx_bid_request_ad_slot_expand_creative_info_t)) (adslot_expand_creative_info o) /\
    u32_range (val (adslot_adslot_level o)) /\ bool_range (val (adslot_allowed_non_nativead o)) /\
    member_range (typed (M := ngx_bid_request_ad_slot_native_ad_param_t)) (adslot_nativead_param o) /\
    bool_range (val (adslot_secure o)).

Lemma adslot_typed_unpack `{NgxEnv} fuel : Keeps adslot_typed (ngx_bid_request_ad_slot__unpack fuel).
Proof. typed_law adslot_typed ngx_bid_request_ad_slot__unpack adslot_switch. Qed.

#[export] Instance adslot_typed_laws `{NgxEnv} : TypedLaws ngx_bid_request_ad_slot_t.
Proof. exists adslot_typed; [typed_zero_law|exact adslot_typed_unpack]. Defined.

(** ** BidRequest *)

Definition bid_typed `{NgxEnv} (o : ngx_bid_request_t) : Prop := str_range (val (bid_id o)) /\
    str_range (val (bid_ip o)) /\ str_range (val (bid_user_agent o)) /\ str_range (val (bid_baidu_user_id o)) /\
    i32_range (val (bid_baidu_user_id_version o)) /\
    elements_range (typed (M := ngx_bid_request_baidu_id_t)) (bid_baidu_id_list o) /\
    str_range (val (bid_buyer_user_id o)) /\ elements_range i64_range (bid_user_category o) /\
    member_range (typed (M := ngx_bid_request_customized_user_tag_t)) (bid_customized_user_tag o) /\
    u32_range (val (bid_gender o)) /\ str_range (val (bid_detected_language o)) /\
    str_range (val (bid_flash_version o)) /\
    member_range (typed (M := ngx_bid_request_geo_t)) (bid_user_geo_info o) /\ str_range (val (bid_url o)) /\
    str_range (val (bid_referer o)) /\ i32_range (val (bid_site_category o)) /\
    i32_range (val (bid_site_quality o)) /\ i32_range (val (bid_page_type o)) /\
    elements_range str_range (bid_page_keyword o) /\ i32_range (val (bid_page_quality o)) /\
    i32_range (val (bid_page_vertical o)) /\ elements_range i32_range (bid_excluded_product_category o) /\
    member_range (typed (M := ngx_bid_request_mobile_t)) (bid_mobile o) /\
    member_range (typed (M := ngx_bid_request_video_t)) (bid_video o) /\
    elements_range (typed (M := ngx_bid_request_ad_slot_t)) (bid_adslot o) /\ bool_range (val (bid_is_test o)) /\
    bool_range (val (bid_is_ping o)).

Lemma bid_typed_unpack `{NgxEnv} fuel : Keeps bid_typed (ngx_bid_request__unpack fuel).
Proof. typed_law bid_typed ngx_bid_request__unpack bid_switch. Qed.

#[export] Instance bid_typed_laws `{NgxEnv} : TypedLaws ngx_bid_request_t.
Proof. exists bid_typed; [typed_zero_law|exact bid_typed_unpack]. Defined.

(** ** BidResponse.Ad.LinkUnitKeyword *)

Definition rkeyword_typed `{NgxEnv} (o : ngx_bid_response_ad_link_unit_keyword_t) : Prop :=
    str_range (val (rkeyword_keyword o)) /\ elements_range i32_range (rkeyword_selected_style_type o).

Lemma rkeyword_typed_unpack `{NgxEnv} fuel : Keeps rkeyword_typed (ngx_bid_response_ad_link_unit_keyword__unpack fuel).
Proof. typed_law rkeyword_typed ngx_bid_response_ad_link_unit_keyword__unpack rkeyword_switch. Qed.

#[export] Instance rkeyword_typed_laws `{NgxEnv} : TypedLaws ngx_bid_response_ad_link_unit_keyword_t.
Proof. exists rkeyword_typed; [typed_zero_law|exact rkeyword_typed_unpack]. Defined.

(** ** BidResponse.Ad.ExpandCreativeInfo *)

Definition rexpand_typed `{NgxEnv} (o : ngx_bid_response_ad_expand_creative_info_t) : Prop :=
    i32_range (val (rexpand_creative_width o)) /\ i32_range (val (rexpand_creative_height o)) /\
    str_range (val (rexpand_creative_landing_page o)) /\ i32_range (val (rexpand_creative_type o)).

Lemma rexpand_typed_unpack `{NgxEnv} fuel : Keeps rexpand_typed (ngx_bid_response_ad_expand_creative_info__unpack fuel).
Proof. typed_law rexpand_typed ngx_bid_response_ad_expand_creative_info__unpack rexpand_switch. Qed.

#[export] Instance rexpand_typed_laws `{NgxEnv} : TypedLaws ngx_bid_response_ad_expand_creative_info_t.
Proof. exists rexpand_typed; [typed_zero_law|exact rexpand_typed_unpack]. Defined.

(** ** BidResponse.Ad.DeeplinkInfo *)

Definition deeplink_typed `{NgxEnv} (o : ngx_bid_response_ad_deeplink_info_t) : Prop :=
    str_range (val (deeplink_deeplink_url o)) /\ u32_range (val (deeplink_app_version o)) /\
    str_range (val (deeplink_fallback_url o)) /\ u32_range (val (deeplink_fallback_type o)).

Lemma deeplink_typed_unpack `{NgxEnv} fuel : Keeps deeplink_typed (ngx_bid_response_ad_deeplink_info__unpack fuel).
Proof. typed_law deeplink_typed ngx_bid_response_ad_deeplink_info__unpack deeplink_switch. Qed.

#[export] Instance deeplink_typed_laws `{NgxEnv} : TypedLaws ngx_bid_response_ad_deeplink_info_t.
Proof. exists deeplink_typed; [typed_zero_law|exact deeplink_typed_unpack]. Defined.
