(* ===== verification/AdxComBaidu.v ===== *)
(** The adapter of Baidu's exchange: adx_com_adapter.c of
    adx_module/adx_com_baidu, between the messages of NgxBaiduProto.v, the
    request of NgxComProto.v and the chains of AdxChain.v.

    A pointer the code follows must not be NULL: [of_opt] gives [UB] for NULL.
    The members [device] and [app] of the request, which the code sets first
    and fills through their pointers, are built first and set last.  The arrays
    [os_version_str] and [adx_slot_id_str] end with their functions and blocks,
    before the strings that refer to them are read: [PFrame 0] is the former,
    [PFrame (S i)] the latter in turn [i] of its loop. *)

From Stdlib Require Import ZArith Lia.
From S2P Require Import Prelude AdxChain NgxProtobuf NgxProtobufWire NgxProtobufMsg NgxProtobufCodec.
From S2P Require Import NgxProtobufRead NgxProtobufMember NgxProtobufScalar NgxComProto NgxBaiduProto AdxCom.

Open Scope Z_scope.

(** ** Constants of ngx_adx_com_proto.h *)

Definition NGX_COMREQUEST_ADXSLOT_ADX_SLOT_UNKNOWN : Z := 0.
Definition NGX_COMREQUEST_ADXSLOT_ADX_SLOT_BANNER : Z := 1.
Definition NGX_COMREQUEST_ADXSLOT_ADX_SLOT_NATIVE : Z := 2.
Definition NGX_COMREQUEST_ADXSLOT_ADX_SLOT_VIDEO : Z := 3.
Definition NGX_COMREQUEST_DEVICE_ADX_DEVICEID_UNKNOW : Z := 0.
Definition NGX_COMREQUEST_DEVICE_ADX_DEVICEID_IMEI : Z := 1.
Definition NGX_COMREQUEST_DEVICE_ADX_DEVICEID_ANDROID_ID : Z := 4.
Definition NGX_COMREQUEST_DEVICE_ADX_DEVICEID_IDFA : Z := 7.
Definition NGX_COMREQUEST_DEVICE_ADX_DEVICEID_MAC : Z := 10.
Definition NGX_COMREQUEST_DEVICE_ADX_DEVICE_UNKNOWN : Z := 0.
Definition NGX_COMREQUEST_DEVICE_ADX_DEVICE_MOBILE : Z := 1.
Definition NGX_COMREQUEST_DEVICE_ADX_DEVICE_PAD : Z := 2.
Definition NGX_COMREQUEST_DEVICE_ADX_OS_UNKNOWN : Z := 0.
Definition NGX_COMREQUEST_DEVICE_ADX_OS_IOS : Z := 1.
Definition NGX_COMREQUEST_DEVICE_ADX_OS_ANDROID : Z := 2.
Definition NGX_COMREQUEST_DEVICE_ADX_OS_WINDOWS : Z := 3.
Definition NGX_COMREQUEST_DEVICE_ADX_CARRIER_UNKNOWN : Z := 0.
Definition NGX_COMREQUEST_DEVICE_ADX_CARRIER_CHINA_MOBILE : Z := 1.
Definition NGX_COMREQUEST_DEVICE_ADX_CARRIER_CHINA_UNICOM : Z := 2.
Definition NGX_COMREQUEST_DEVICE_ADX_CARRIER_CHINA_TELECOM : Z := 3.
Definition NGX_COMREQUEST_DEVICE_ADX_CONNECTION_UNKNOWN : Z := 0.
Definition NGX_COMREQUEST_DEVICE_ADX_CONNECTION_WIFI : Z := 1.
Definition NGX_COMREQUEST_DEVICE_ADX_CONNECTION_2G : Z := 2.
Definition NGX_COMREQUEST_DEVICE_ADX_CONNECTION_3G : Z := 3.
Definition NGX_COMREQUEST_DEVICE_ADX_CONNECTION_4G : Z := 4.

(** ** The codes of the exchange *)

Definition com_adx_slot_type (adx_slot_type : Z) : Z :=
  if decide (adx_slot_type = 0 \/ adx_slot_type = 1 \/ adx_slot_type = 11 \/ adx_slot_type = 12 \/ adx_slot_type = 26)
  then NGX_COMREQUEST_ADXSLOT_ADX_SLOT_BANNER
  else if decide (adx_slot_type = 8 \/ adx_slot_type = 13) then NGX_COMREQUEST_ADXSLOT_ADX_SLOT_NATIVE
  else if decide (adx_slot_type = 21 \/ adx_slot_type = 22 \/ adx_slot_type = 23) then NGX_COMREQUEST_ADXSLOT_ADX_SLOT_VIDEO
  else NGX_COMREQUEST_ADXSLOT_ADX_SLOT_UNKNOWN.

(** Of [mobile->id]. *)
Definition com_mobile_id_type (type : Z) : Z :=
  if decide (type = 1) then NGX_COMREQUEST_DEVICE_ADX_DEVICEID_IMEI
  else if decide (type = 2) then NGX_COMREQUEST_DEVICE_ADX_DEVICEID_MAC
  else NGX_COMREQUEST_DEVICE_ADX_DEVICEID_UNKNOW.
(** Of [mobile->for_advertising_id]. *)
Definition com_for_advertising_id_type (type : Z) : Z :=
  if decide (type = 4) then NGX_COMREQUEST_DEVICE_ADX_DEVICEID_ANDROID_ID
  else if decide (type = 5) then NGX_COMREQUEST_DEVICE_ADX_DEVICEID_IDFA
  else NGX_COMREQUEST_DEVICE_ADX_DEVICEID_UNKNOW.

Definition com_device_type (device_type : Z) : Z :=
  if decide (device_type = 1) then NGX_COMREQUEST_DEVICE_ADX_DEVICE_MOBILE
  else if decide (device_type = 2) then NGX_COMREQUEST_DEVICE_ADX_DEVICE_PAD
  else NGX_COMREQUEST_DEVICE_ADX_DEVICE_UNKNOWN.

Definition com_os (os : Z) : Z :=
  if decide (os = 1) then NGX_COMREQUEST_DEVICE_ADX_OS_IOS
  else if decide (os = 2) then NGX_COMREQUEST_DEVICE_ADX_OS_ANDROID
  else if decide (os = 3) then NGX_COMREQUEST_DEVICE_ADX_OS_WINDOWS
  else NGX_COMREQUEST_DEVICE_ADX_OS_UNKNOWN.

Definition com_carrier (carrier : Z) : Z :=
  if decide (carrier = 46000 \/ carrier = 46002 \/ carrier = 46007 \/ carrier = 46008 \/ carrier = 46020)
  then NGX_COMREQUEST_DEVICE_ADX_CARRIER_CHINA_MOBILE
  else if decide (carrier = 46001 \/ carrier = 46006 \/ carrier = 46009)
  then NGX_COMREQUEST_DEVICE_ADX_CARRIER_CHINA_UNICOM
  else if decide (carrier = 46003 \/ carrier = 46005 \/ carrier = 46011)
  then NGX_COMREQUEST_DEVICE_ADX_CARRIER_CHINA_TELECOM
  else NGX_COMREQUEST_DEVICE_ADX_CARRIER_UNKNOWN.

Definition com_connection (connection : Z) : Z :=
  if decide (connection = 1) then NGX_COMREQUEST_DEVICE_ADX_CONNECTION_WIFI
  else if decide (connection = 2) then NGX_COMREQUEST_DEVICE_ADX_CONNECTION_2G
  else if decide (connection = 3) then NGX_COMREQUEST_DEVICE_ADX_CONNECTION_3G
  else if decide (connection = 4) then NGX_COMREQUEST_DEVICE_ADX_CONNECTION_4G
  else NGX_COMREQUEST_DEVICE_ADX_CONNECTION_UNKNOWN.

(** [sprintf] into an array that the function leaves. *)
Definition sprintf_frame (text : bytes) (k : nat) : ngx_str_t := Str (lenz text) (PFrame k).

Section Env.
Context `{NgxEnv}.

(** A block of the pool for an object, or NULL. *)
Definition ngx_pcalloc {A} (zero : A) (c : ngx_protobuf_context_t) : option A * ngx_protobuf_context_t :=
  let '(ok, c) := ngx_palloc c 1 in (if ok then Some zero else None, c).

(** ** The request translated *)

(** Turn [i] of the loop over [bid_request->adslot]; [c] is the pool. *)
Definition to_com_adslot (i : nat) (adx_slot : ngx_bid_request_ad_slot_t) (com_request : ngx_com_request_t)
    (c : ngx_protobuf_context_t) : cres (ngx_com_request_t * ngx_protobuf_context_t) :=
  let '(ok, com_request, c) := ngx_com_request__add__adx_slot com_request true c in
  if negb ok then UB else
  let s := slot_zero in
  let adx_slot_id := sprintf_frame (dec (u64 (val (adslot_ad_block_key adx_slot)))) (S i) in
  let s := with_slot_adx_slot_id s (NGX_PROTOBUF_SET_NUMBER adx_slot_id) in
  let s := with_slot_adx_slot_sequence_id s (NGX_PROTOBUF_SET_NUMBER (val (adslot_sequence_id adx_slot))) in
  let s := with_slot_price_floor s (NGX_PROTOBUF_SET_NUMBER (val (adslot_minimum_cpm adx_slot))) in
  let type := com_adx_slot_type (val (adslot_adslot_type adx_slot)) in
  let s := with_slot_adx_slot_type s (NGX_PROTOBUF_SET_NUMBER type) in
  '(s, c) ← (if decide (type = NGX_COMREQUEST_ADXSLOT_ADX_SLOT_BANNER) then
               let '(com_banner, c) := ngx_pcalloc banner_zero c in
               b ← of_opt com_banner;
               let b := with_banner_width b (NGX_PROTOBUF_SET_NUMBER (val (adslot_width adx_slot))) in
               let b := with_banner_height b (NGX_PROTOBUF_SET_NUMBER (val (adslot_height adx_slot))) in
               mret (with_slot_banner s (NGX_PROTOBUF_SET_MEMBER (slot_banner s) (Some b)), c)
             else mret (s, c));
  let slots := set_last_value (elts (val (request_adx_slot com_request))) s in
  mret (with_request_adx_slot com_request (Fld (has (request_adx_slot com_request)) (Some slots)), c).

Fixpoint to_com_adslots (i : nat) (adx_slots : list ngx_bid_request_ad_slot_t) (com_request : ngx_com_request_t)
    (c : ngx_protobuf_context_t) : cres (ngx_com_request_t * ngx_protobuf_context_t) :=
  match adx_slots with
  | [] => mret (com_request, c)
  | adx_slot :: adx_slots =>
      '(com_request, c) ← to_com_adslot i adx_slot com_request c;
      to_com_adslots (S i) adx_slots com_request c
  end.

(** One device identifier, from either loop. *)
Definition to_com_device_id (id : ngx_str_t) (type : Z) (com_device : ngx_com_request_device_t)
    (c : ngx_protobuf_context_t) : cres (ngx_com_request_device_t * ngx_protobuf_context_t) :=
  let '(ok, com_device, c) := ngx_com_request_device__add__device_id com_device true c in
  if negb ok then UB else
  let d := with_did_id did_zero (NGX_PROTOBUF_SET_NUMBER id) in
  let d := with_did_type d (NGX_PROTOBUF_SET_NUMBER type) in
  let ids := set_last_value (elts (val (device_device_id com_device))) d in
  mret (with_device_device_id com_device (Fld (has (device_device_id com_device)) (Some ids)), c).

Fixpoint to_com_device_ids (ids : list (ngx_str_t * Z)) (com_device : ngx_com_request_device_t)
    (c : ngx_protobuf_context_t) : cres (ngx_com_request_device_t * ngx_protobuf_context_t) :=
  match ids with
  | [] => mret (com_device, c)
  | (id, type) :: ids =>
      '(com_device, c) ← to_com_device_id id type com_device c;
      to_com_device_ids ids com_device c
  end.

Definition adx_com_baidu_adapter_to_com (bid_request : ngx_bid_request_t) (c : ngx_protobuf_context_t)
  : cres (ngx_com_request_t * ngx_protobuf_context_t) :=
  mobile ← of_opt (val (bid_mobile bid_request));
  let app := val (mobile_mobile_app mobile) in
  let '(com_request, c) := ngx_pcalloc request_zero c in
  let '(com_device, c) := ngx_pcalloc device_zero c in
  let '(com_app, c) := ngx_pcalloc app_zero c in
  com_request ← of_opt com_request;
  let com_request := with_request_adx com_request (NGX_PROTOBUF_SET_NUMBER 8) in
  let com_request := with_request_bid com_request (NGX_PROTOBUF_SET_NUMBER (val (bid_id bid_request))) in
  adx_slots ← of_opt (val (bid_adslot bid_request));
  '(com_request, c) ← to_com_adslots 0 adx_slots com_request c;
  device_ids ← of_opt (val (mobile_id mobile));
  com_device ← of_opt com_device;
  '(com_device, c) ← to_com_device_ids
      (map (fun d => (val (mid_id d), com_mobile_id_type (i32 (val (mid_type d))))) device_ids) com_device c;
  device2_ids ← of_opt (val (mobile_for_advertising_id mobile));
  '(com_device, c) ← to_com_device_ids
      (map (fun d => (val (faid_id d), com_for_advertising_id_type (i32 (val (faid_type d))))) device2_ids) com_device c;
  let com_device := with_device_device_type com_device
      (NGX_PROTOBUF_SET_NUMBER (com_device_type (i32 (val (mobile_device_type mobile))))) in
  let com_device := with_device_os com_device (NGX_PROTOBUF_SET_NUMBER (com_os (i32 (val (mobile_platform mobile))))) in
  os_version ← of_opt (val (mobile_os_version mobile));
  let os_version_str := dec (val (osv_os_version_major os_version)) ++ [46] ++
      dec (val (osv_os_version_minor os_version)) ++ [46] ++ dec (val (osv_os_version_micro os_version)) in
  let com_device := with_device_os_version com_device (NGX_PROTOBUF_SET_NUMBER (sprintf_frame os_version_str 0)) in
  let com_device := with_device_carrier com_device
      (NGX_PROTOBUF_SET_NUMBER (com_carrier (i32 (val (mobile_carrier_id mobile))))) in
  let com_device := with_device_connection com_device
      (NGX_PROTOBUF_SET_NUMBER (com_connection (i32 (val (mobile_wireless_network_type mobile))))) in
  let com_device := with_device_model com_device (NGX_PROTOBUF_SET_NUMBER (val (mobile_model mobile))) in
  let com_device := with_device_brand com_device (NGX_PROTOBUF_SET_NUMBER (val (mobile_brand mobile))) in
  let com_device := with_device_user_agent com_device (NGX_PROTOBUF_SET_NUMBER (val (bid_user_agent bid_request))) in
  let com_device := with_device_ip com_device (NGX_PROTOBUF_SET_NUMBER (val (bid_ip bid_request))) in
  app ← of_opt app;
  com_app ← of_opt com_app;
  let com_app := with_app_app_id com_app (NGX_PROTOBUF_SET_NUMBER (val (mapp_app_bundle_id app))) in
  let com_app := with_app_app_category com_app (NGX_PROTOBUF_SET_NUMBER (val (mapp_app_category app))) in
  let com_request := with_request_device com_request (NGX_PROTOBUF_SET_MEMBER (request_device com_request) (Some com_device)) in
  let com_request := with_request_app com_request (NGX_PROTOBUF_SET_MEMBER (request_app com_request) (Some com_app)) in
  mret (com_request, c).

(** ** From chain to chain *)

Context (alloc : nat -> bool).

(** The message read from a chain, with the context of the reading; [NGX_OK] or
    not, its result is not used.  Unpacking into NULL is [UB]: so is all that
    is done with a NULL request. *)
Definition adx_com_baidu_adapter_init (fuel : nat) (m : AdxChain.mem) (src : Z)
  : cres (ngx_bid_request_t * ngx_protobuf_context_t * AdxChain.mem) :=
  '(buffer, m) ← adx_chain_to_str alloc fuel m src;
  let ctx := Ctx (default [] (AdxChain.data buffer)) 0 (AdxChain.len buffer) true true 0 in
  let '(bid_request, ctx) := ngx_pcalloc bid_zero ctx in
  bid_request ← of_opt bid_request;
  '(_, bid_request, ctx) ← ngx_bid_request__unpack fuel bid_request ctx;
  mret (bid_request, ctx, m).
End Env.

(** The environment in which strings refer to the message [m]. *)
Definition with_input (E : NgxEnv) (m : bytes) : NgxEnv :=
  {| base := base; ao := ao; junk32 := junk32; junk64 := junk64; input := m; frame := frame |}.

Section Request.
Context `{E : NgxEnv} (alloc : nat -> bool) (fresh : Z -> bytes) (flag : bool).

Definition adx_com_baidu_adapter_request (fuel : nat) (m : AdxChain.mem) (src : Z) : cres (Z * AdxChain.mem) :=
  '(bid_request, ctx, m) ← adx_com_baidu_adapter_init alloc fuel m src;
  '(com_request, ctx) ← adx_com_baidu_adapter_to_com bid_request ctx;
  @adx_com_to_chain alloc fresh flag (with_input E (NgxProtobuf.mem ctx)) m com_request.

(** ["OK\r\n"], whatever the answer was. *)
Definition ok_text : bytes := B "OK" ++ [13; 10; 0].
Definition adx_com_baidu_adapter_response (m : AdxChain.mem) (src : Z) : cres (Z * AdxChain.mem) :=
  adx_chain_alloc_r alloc true m (Some ok_text).
End Request.

(** NULL. *)
Definition adx_com_baidu_adapter_from_com (com_response : ngx_com_response_t) : option ngx_bid_request_t := None.
