(* ===== verification/AdxComBaiduSpec.v ===== *)
(** What the adapter of Baidu's exchange promises (AdxComBaidu.v): the request
    it translates to, field by field, and the bytes it hands on. *)

From Stdlib Require Import ZArith Lia.
From S2P Require Import Prelude AdxChain NgxProtobuf NgxProtobufWire NgxProtobufMsg NgxProtobufCodec.
From S2P Require Import NgxProtobufRead NgxProtobufMember NgxProtobufScalar NgxProtobufScalarLaws NgxProtobufLaws NgxProtobufSpec.
From S2P Require Import NgxProtobufTyped NgxComTyped NgxBaiduTyped.
From S2P Require Import NgxComProto NgxComProtoLaws NgxBaiduProto NgxBaiduProtoLaws AdxCom AdxComBaidu.

Open Scope Z_scope.

(** ** The translation *)

Definition slot_of (i : nat) (s : ngx_bid_request_ad_slot_t) : ngx_com_request_adx_slot_t :=
  let type := com_adx_slot_type (val (adslot_adslot_type s)) in
  mk_slot (Fld true (sprintf_frame (dec (u64 (val (adslot_ad_block_key s)))) (S i)))
    (Fld true (val (adslot_sequence_id s))) (Fld true type)
    (if decide (type = NGX_COMREQUEST_ADXSLOT_ADX_SLOT_BANNER)
     then Fld true (Some (mk_banner (Fld true (val (adslot_width s))) (Fld true (val (adslot_height s))) None))
     else Fld false None)
    (Fld false None) (Fld false None) (Fld true (val (adslot_minimum_cpm s))) None.
Fixpoint slots_of (i : nat) (l : list ngx_bid_request_ad_slot_t) : list ngx_com_request_adx_slot_t :=
  match l with [] => [] | s :: l => slot_of i s :: slots_of (S i) l end.

Definition id_of (d : ngx_str_t * Z) : ngx_com_request_device_device_id_t := mk_did (Fld true d.1) (Fld true d.2) None.
Definition ids_of (m : ngx_bid_request_mobile_t) : list (ngx_str_t * Z) :=
  map (fun d => (val (mid_id d), com_mobile_id_type (i32 (val (mid_type d))))) (elts (val (mobile_id m))) ++
  map (fun d => (val (faid_id d), com_for_advertising_id_type (i32 (val (faid_type d))))) (elts (val (mobile_for_advertising_id m))).

Definition version_text (v : ngx_bid_request_mobile_device_os_version_t) : bytes :=
  dec (val (osv_os_version_major v)) ++ [46] ++ dec (val (osv_os_version_minor v)) ++ [46] ++ dec (val (osv_os_version_micro v)).

(** A repeated member is present when it has elements. *)
Definition array_of {A} (l : list A) : fld (array A) := match l with [] => Fld false None | _ => Fld true (Some l) end.

Definition device_of (r : ngx_bid_request_t) (m : ngx_bid_request_mobile_t) (v : ngx_bid_request_mobile_device_os_version_t)
  : ngx_com_request_device_t :=
  mk_device (array_of (map id_of (ids_of m))) (Fld true (com_device_type (i32 (val (mobile_device_type m)))))
    (Fld true (com_os (i32 (val (mobile_platform m))))) (Fld true (sprintf_frame (version_text v) 0))
    (Fld true (com_carrier (i32 (val (mobile_carrier_id m)))))
    (Fld true (com_connection (i32 (val (mobile_wireless_network_type m)))))
    (Fld true (val (mobile_brand m))) (Fld true (val (mobile_model m)))
    (Fld true (val (bid_user_agent r))) (Fld true (val (bid_ip r))) None.

(** The parts of the request the code needs, and the request made of them. *)
Definition com_of (r : ngx_bid_request_t) : option ngx_com_request_t :=
  m ← val (bid_mobile r);
  slots ← val (bid_adslot r);
  _ ← val (mobile_id m);
  _ ← val (mobile_for_advertising_id m);
  v ← val (mobile_os_version m);
  a ← val (mobile_mobile_app m);
  Some (mk_request (Fld true 8) (Fld true (val (bid_id r))) (array_of (slots_of 0 slots))
    (Fld true (Some (device_of r m v)))
    (Fld true (Some (mk_app (Fld true (val (mapp_app_bundle_id a))) (Fld true (val (mapp_app_category a))) None))) None).

Section Env.
Context `{E : NgxEnv}.
Hypothesis Hao : forall k n, 0 <= n < 4294967296 -> ao k n = true.

Lemma pcalloc_granted {A} (z : A) c : ngx_pcalloc z c = (Some z, with_calls c (S (calls c))).
Proof. unfold ngx_pcalloc, ngx_palloc. by rewrite Hao by lia. Qed.

(** A new element at the end of an array. *)
Lemma add_element_granted {A M} (z : M) (get : A -> fld (array M)) upd obj c :
  exists k, add_element z get upd obj true c =
    (true, upd obj (Fld true (Some (elts (val (get obj)) ++ [z]))), with_calls c k).
Proof.
  unfold add_element, ngx_protobuf_push_array, ngx_palloc.
  destruct (val (get obj)) as [l|]; cbn [calls NgxProtobuf.mem pos last reuse_strings pool]; rewrite !Hao by lia; by eexists.
Qed.

Definition extend {A} (f : fld (array A)) (l : list A) : fld (array A) :=
  match l with [] => f | _ => Fld true (Some (elts (val f) ++ l)) end.

Lemma extend_cons {A} (f : fld (array A)) x l : extend (Fld true (Some (elts (val f) ++ [x]))) l = extend f (x :: l).
Proof. unfold extend. destruct l; cbn [val]; [done|]. change (elts (Some ?a)) with a. by rewrite <- app_assoc. Qed.
Lemma extend_app {A} (f : fld (array A)) l1 l2 : extend (extend f l1) l2 = extend f (l1 ++ l2).
Proof.
  destruct l1 as [|x l1]; [done|]. cbn [extend app]. destruct l2 as [|y l2]; cbn [extend val]; [by rewrite app_nil_r|].
  change (elts (Some ?a)) with a. by rewrite <- app_assoc.
Qed.
Lemma extend_none {A} (l : list A) : extend (Fld false None) l = array_of l.
Proof. by destruct l. Qed.

Lemma to_com_adslot_ok i s q c :
  exists k, to_com_adslot i s q c = Ok (with_request_adx_slot q (extend (request_adx_slot q) [slot_of i s]), with_calls c k).
Proof.
  unfold to_com_adslot, ngx_com_request__add__adx_slot.
  destruct (add_element_granted slot_zero request_adx_slot with_request_adx_slot q c) as (k & ->). cbn [negb].
  unfold slot_of. destruct q as [qa qb qs qd qp qu]. cbn zeta.
  destruct (decide (com_adx_slot_type (val (adslot_adslot_type s)) = NGX_COMREQUEST_ADXSLOT_ADX_SLOT_BANNER)).
  - rewrite pcalloc_granted. cbn [of_opt mret cres_ret]. rewrite !ok_bind.
    cbn [with_request_adx_slot request_adx_slot has val]. change (elts (Some ?a)) with a. rewrite set_last_value_snoc.
    by eexists.
  - cbn [mret cres_ret]. rewrite ok_bind. cbn [with_request_adx_slot request_adx_slot has val].
    change (elts (Some ?a)) with a. rewrite set_last_value_snoc. by eexists.
Qed.

Lemma to_com_adslots_ok l : forall i q c,
  exists k, to_com_adslots i l q c = Ok (with_request_adx_slot q (extend (request_adx_slot q) (slots_of i l)), with_calls c k).
Proof.
  induction l as [|s l IH]; intros i q c; cbn [to_com_adslots slots_of].
  - exists (calls c). destruct q, c. done.
  - destruct (to_com_adslot_ok i s q c) as (k & ->). rewrite ok_bind.
    destruct (IH (S i) (with_request_adx_slot q (extend (request_adx_slot q) [slot_of i s])) (with_calls c k)) as (k' & ->).
    exists k'. destruct q as [qa qb qs qd qp qu]. cbn [with_request_adx_slot request_adx_slot]. do 3 f_equal.
    by rewrite extend_app.
Qed.

Lemma to_com_device_ids_ok l : forall d c,
  exists k, to_com_device_ids l d c = Ok (with_device_device_id d (extend (device_device_id d) (map id_of l)), with_calls c k).
Proof.
  induction l as [|[id type] l IH]; intros d c; cbn [to_com_device_ids map].
  - exists (calls c). destruct d, c. done.
  - unfold to_com_device_id, ngx_com_request_device__add__device_id.
    destruct (add_element_granted did_zero device_device_id with_device_device_id d c) as (k & ->). cbn [negb].
    rewrite ok_bind. destruct (IH (with_device_device_id d (extend (device_device_id d) [id_of (id, type)])) (with_calls c k)) as (k' & E').
    exists k'. destruct d as [d0 d1 d2 d3 d4 d5 d6 d7 d8 d9 d10]. cbn [with_device_device_id device_device_id has val] in *.
    change (elts (Some ?a)) with a. rewrite set_last_value_snoc. cbn [extend] in E'. unfold id_of in E'. cbn [fst snd] in E'.
    etransitivity; [exact E'|]. do 3 f_equal. by rewrite extend_cons.
Qed.

Lemma to_com_ok (r : ngx_bid_request_t) (c : ngx_protobuf_context_t) :
  exists k, adx_com_baidu_adapter_to_com r c = match com_of r with Some q => Ok (q, with_calls c k) | None => UB end.
Proof.
  unfold adx_com_baidu_adapter_to_com, com_of.
  destruct (val (bid_mobile r)) as [m|]; [|by exists 0%nat]. cbn [of_opt mbind option_bind]. rewrite ok_bind.
  rewrite !pcalloc_granted. cbn [of_opt]. rewrite ok_bind.
  destruct (val (bid_adslot r)) as [slots|]; [|by exists 0%nat]. cbn [of_opt]. rewrite ok_bind.
  set (q0 := with_request_bid _ _). set (c0 := with_calls _ _).
  destruct (to_com_adslots_ok slots 0 q0 c0) as (k1 & ->). rewrite ok_bind.
  destruct (val (mobile_id m)) as [ids|] eqn:Eids; [|by exists 0%nat]. cbn [of_opt]. rewrite !ok_bind.
  match goal with |- context [to_com_device_ids ?l device_zero ?c'] =>
    destruct (to_com_device_ids_ok l device_zero c') as (k2 & ->) end. rewrite ok_bind.
  destruct (val (mobile_for_advertising_id m)) as [faids|] eqn:Efaids; [|by exists 0%nat]. cbn [of_opt]. rewrite ok_bind.
  match goal with |- context [to_com_device_ids ?l ?d ?c'] =>
    destruct (to_com_device_ids_ok l d c') as (k3 & ->) end. rewrite ok_bind.
  destruct (val (mobile_os_version m)) as [v|]; [|by exists 0%nat]. cbn [of_opt]. rewrite ok_bind.
  destruct (val (mobile_mobile_app m)) as [a|]; [|by exists 0%nat]. cbn [of_opt]. rewrite !ok_bind.
  exists k3. subst q0 c0. unfold device_of, ids_of. rewrite Eids, Efaids. cbn [elts default from_option]. rewrite map_app.
  cbn [mret cres_ret device_device_id with_device_device_id device_zero]. rewrite extend_app, extend_none.
  cbn [with_request_bid with_request_adx with_request_adx_slot request_adx_slot request_zero]. rewrite extend_none. reflexivity.
Qed.
End Env.

(** C17: [adx_com_baidu_adapter_to_com] computes the translation [com_of], for any
    request whatsoever: exchange number 8, Baidu's identifier, the slots in
    their order with their types mapped and a banner of the slot's size for
    banners only, the device with both lists of identifiers, its type, system,
    version, carrier and connection mapped, and the application.  Without
    mobile, application, slots, either list of identifiers, or the version it
    follows NULL; so it does, for every request, when the pool refuses the
    block of the request. *)
Theorem adx_com_baidu_to_com_spec `{E : NgxEnv} (r : ngx_bid_request_t) (c : ngx_protobuf_context_t) :
  ((forall k n, 0 <= n < 4294967296 -> ao k n = true) -> exists k,
    adx_com_baidu_adapter_to_com r c = match com_of r with Some q => Ok (q, with_calls c k) | None => UB end) /\
  (ao (NgxProtobuf.calls c) 1 = false -> adx_com_baidu_adapter_to_com r c = UB).
Proof.
  split; [intros Hao; by apply to_com_ok|]. intros Hr. unfold adx_com_baidu_adapter_to_com.
  destruct (val (bid_mobile r)) as [m|]; [|done]. cbn [of_opt]. rewrite ok_bind. unfold ngx_pcalloc at 1, ngx_palloc at 1.
  rewrite Hr. by destruct (ngx_pcalloc device_zero _), (ngx_pcalloc app_zero _).
Qed.

(** ** Strings that refer to the message *)

Definition keeps_frames (g : ngx_str_t -> ngx_str_t) : Prop := forall n k, g (Str n (PFrame k)) = Str n (PFrame k).

Lemma deref_frames m : keeps_frames (deref m).
Proof. done. Qed.

Section Vmap.
Context `{E : NgxEnv} (g : ngx_str_t -> ngx_str_t) (Hg : keeps_frames g).

Lemma slot_of_vmap i s : slot_of i (vmap g s) = vmap g (slot_of i s).
Proof.
  unfold slot_of. cbn [vmap slot_message adslot_message]. cbn.
  destruct (decide _); unfold vstr, vmember; cbn; unfold sprintf_frame; by rewrite Hg.
Qed.

Lemma slots_of_vmap l : forall i, slots_of i (map (vmap g) l) = map (vmap g) (slots_of i l).
Proof. induction l as [|s l IH]; intros i; cbn [map slots_of]; [done|]. by rewrite slot_of_vmap, IH. Qed.

Lemma array_of_vmap {M} `{!Message M} (l : list M) : array_of (map (vmap g) l) = velements g (array_of l).
Proof. by destruct l. Qed.

Definition vid (d : ngx_str_t * Z) : ngx_str_t * Z := (g d.1, d.2).
Lemma ids_of_vmap m : ids_of (vmap g m) = map vid (ids_of m).
Proof.
  unfold ids_of. rewrite map_app, !map_map. cbn [vmap mobile_message mobile_id mobile_for_advertising_id].
  unfold velements. cbn [val]. rewrite !elts_fmap, !map_map. done.
Qed.
Lemma map_id_of_vmap l : map id_of (map vid l) = map (vmap g) (map id_of l).
Proof. rewrite !map_map. by apply map_ext. Qed.

Lemma device_of_vmap r m v : device_of (vmap g r) (vmap g m) (vmap g v) = vmap g (device_of r m v).
Proof.
  unfold device_of. rewrite ids_of_vmap, map_id_of_vmap, array_of_vmap. cbn [vmap device_message]. cbn.
  unfold sprintf_frame, vstr. cbn. by rewrite Hg.
Qed.

Lemma com_of_vmap r : com_of (vmap g r) = vmap g <$> com_of r.
Proof.
  unfold com_of. change (val (bid_mobile (vmap g r))) with (vmap g <$> val (bid_mobile r)).
  change (val (bid_adslot (vmap g r))) with (map (vmap g) <$> val (bid_adslot r)).
  change (val (bid_id (vmap g r))) with (g (val (bid_id r))).
  destruct (val (bid_mobile r)) as [m|]; cbn [fmap option_fmap option_map mbind option_bind]; [|done].
  change (val (mobile_id (vmap g m))) with (map (vmap g) <$> val (mobile_id m)).
  change (val (mobile_for_advertising_id (vmap g m))) with (map (vmap g) <$> val (mobile_for_advertising_id m)).
  change (val (mobile_os_version (vmap g m))) with (vmap g <$> val (mobile_os_version m)).
  change (val (mobile_mobile_app (vmap g m))) with (vmap g <$> val (mobile_mobile_app m)).
  destruct (val (bid_adslot r)) as [slots|]; cbn [fmap option_fmap option_map mbind option_bind]; [|done].
  destruct (val (mobile_id m)) as [ids|]; cbn [fmap option_fmap option_map mbind option_bind]; [|done].
  destruct (val (mobile_for_advertising_id m)) as [faids|]; cbn [fmap option_fmap option_map mbind option_bind]; [|done].
  destruct (val (mobile_os_version m)) as [v|]; cbn [fmap option_fmap option_map mbind option_bind]; [|done].
  destruct (val (mobile_mobile_app m)) as [a|]; cbn [fmap option_fmap option_map mbind option_bind]; [|done].
  rewrite slots_of_vmap, array_of_vmap, device_of_vmap. reflexivity.
Qed.
End Vmap.

(** ** The translated request can be written and read *)

Section Good.
Context `{E : NgxEnv}.

Lemma str_good_ok s b : str_bytes s = Ok b -> str_good s.
Proof. intros Hs. unfold str_good, sbytes. by rewrite Hs. Qed.

Lemma copy_good s : str_good s -> str_good (copy_str s).
Proof.
  intros Hs. pose proof (str_good_len s Hs) as Hl. apply (str_good_ok _ (sbytes s)). unfold copy_str, str_bytes at 1. cbn [len data].
  case_decide as Hz.
  - destruct (sbytes s); [done|]. cbn [length] in Hl. lia.
  - unfold slice. rewrite decide_True by lia. by rewrite drop_0, take_ge by lia.
Qed.

Lemma picked_good f : fld_good str_good f -> str_good (val (pick_str f (Fld false ngx_str_null))).
Proof. intros Hf. unfold pick_str. destruct (has f) eqn:Hh; [|done]. by apply copy_good, Hf. Qed.

Lemma picked_member `{!Message M} (f : fld (option M)) m' : member_known f ->
  val (pick_member f (Fld false None)) = Some m' -> exists m, known m /\ m' = norm m.
Proof.
  intros Hf. unfold pick_member. destruct (has f) eqn:Hh; [|done]. destruct (val f) as [m|] eqn:Hm; [|done].
  case_decide; [done|]. intros [= <-]. exists m. split; [|done]. by apply Hf.
Qed.

Lemma picked_elements `{!Message M} (f : fld (array M)) : elements_known f ->
  Forall (fun m' => exists m, known m /\ m' = norm m) (elts (val (pick_elements f (Fld false None)))).
Proof.
  intros Hf. unfold pick_elements. destruct (has f) eqn:Hh; [|constructor]. specialize (Hf Hh).
  assert (Forall (fun m' => exists m, known m /\ m' = norm m) (elts (val (Fld false (None : array M))))) as Hz by constructor.
  revert Hz. generalize (Fld false (None : array M)). induction Hf as [|m l Hm Hl IH]; intros z Hz; cbn [foldl]; [done|].
  apply IH. unfold push_element. case_decide; [done|]. cbn [val elts default from_option]. apply Forall_app. split; [done|].
  constructor; [by exists m|constructor].
Qed.

(** The arrays of the two functions have their sizes. *)
Definition frames_sized : Prop := lenz (frame 0) = 256 /\ forall i, lenz (frame (S i)) = 128.

Lemma frame_bytes t k : lenz t <= lenz (frame k) -> str_bytes (sprintf_frame t k) = Ok (take (length t) (frame k)).
Proof.
  intros Hl. unfold sprintf_frame, str_bytes. cbn [len data]. case_decide as Hz; [destruct t; done|].
  unfold slice. rewrite decide_True by lia. by rewrite drop_0, Nat2Z.id.
Qed.
Lemma frame_good t k : lenz t <= lenz (frame k) -> str_good (sprintf_frame t k).
Proof. intros Hl. eapply str_good_ok. by apply frame_bytes. Qed.

Lemma version_le v : (length (version_text v) <= 65)%nat.
Proof.
  unfold version_text. rewrite !length_app. cbn [length]. pose proof (dec_le (val (osv_os_version_major v))).
  pose proof (dec_le (val (osv_os_version_minor v))). pose proof (dec_le (val (osv_os_version_micro v))). lia.
Qed.

Hypothesis Hf : frames_sized.

Lemma slot_of_good i s : good (slot_of i s) /\ known (slot_of i s).
Proof.
  assert (fld_good str_good (slot_adx_slot_id (slot_of i s))) as Hid.
  { intros _. apply frame_good. rewrite (proj2 Hf). pose proof (dec_le (u64 (val (adslot_ad_block_key s)))). lia. }
  assert (forall P : _ -> Prop, P (mk_banner (Fld true (val (adslot_width s))) (Fld true (val (adslot_height s))) None) ->
    member_good P (slot_banner (slot_of i s))) as Hb.
  { intros P HP. unfold slot_of. cbn [slot_banner]. destruct (decide _); [|done]. by intros _ b [= <-]. }
  cbn [good known slot_message]. split_and!; first [done|apply Hb; first [done|constructor]|constructor].
Qed.

Lemma slots_of_good l : forall i, Forall (fun s => good s /\ known s) (slots_of i l).
Proof. induction l as [|s l IH]; intros i; cbn [slots_of]; constructor; [apply slot_of_good|apply IH]. Qed.

Lemma array_of_good {A} (P : A -> Prop) l : Forall P l -> elements_good P (array_of l).
Proof. intros Hl. destruct l; intros Hh; [done|exact Hl]. Qed.

Lemma id_of_good d : str_good d.1 -> good (id_of d) /\ known (id_of d).
Proof. intros Hd. cbn [good known did_message]. split_and!; try done; [intros _; exact Hd|constructor|intros _; exact Hd]. Qed.

Lemma ids_of_good m : known m -> Forall (fun d => str_good d.1) (ids_of (norm m)).
Proof.
  intros Hm. cbn [known mobile_message] in Hm. destruct Hm as (_ & Hids & _ & _ & _ & _ & _ & Hfa & _).
  unfold ids_of. cbn [norm mobile_message mobile_id mobile_for_advertising_id]. apply Forall_app. split; apply List.Forall_map.
  - eapply Forall_impl; [exact (picked_elements _ Hids)|]. intros d (d' & Hd & ->). cbn [fst]. cbn [norm mid_message mid_id].
    apply picked_good. by apply Hd.
  - eapply Forall_impl; [exact (picked_elements _ Hfa)|]. intros d (d' & Hd & ->). cbn [fst]. cbn [norm faid_message faid_id].
    apply picked_good. by apply Hd.
Qed.

Lemma device_of_good r m v : known r -> known m -> good (device_of (norm r) (norm m) v) /\ known (device_of (norm r) (norm m) v).
Proof.
  intros Hr Hm. pose proof (ids_of_good m Hm) as Hids.
  assert (Forall (fun d => good d /\ known d) (map id_of (ids_of (norm m)))) as Hd.
  { apply List.Forall_map. eapply Forall_impl; [exact Hids|]. intros d. apply id_of_good. }
  apply Forall_and in Hd as [Hdg Hdk].
  assert (str_good (sprintf_frame (version_text v) 0)) as Hv.
  { apply frame_good. rewrite (proj1 Hf). pose proof (version_le v). lia. }
  cbn [known bid_message] in Hr. destruct Hr as (_ & Hip & Hua & _).
  cbn [known mobile_message] in Hm. destruct Hm as (_ & _ & _ & Hbr & Hmo & _).
  pose proof (picked_good _ Hip). pose proof (picked_good _ Hua). pose proof (picked_good _ Hbr). pose proof (picked_good _ Hmo).
  cbn [good known device_message device_of device_device_id]. split_and!; try (by apply array_of_good);
    first [done|intros _; assumption|constructor].
Qed.

Lemma com_of_good r q : known r -> com_of (norm r) = Some q -> good q /\ known q.
Proof.
  intros Hr. assert (Hr' := Hr). cbn [known bid_message] in Hr'. unfold com_of. cbn [norm bid_message bid_mobile bid_adslot bid_id].
  destruct Hr' as (Hid & _ & _ & _ & _ & _ & _ & _ & _ & _ & _ & _ & _ & Hmob & _).
  destruct (val (pick_member (bid_mobile r) (Fld false None))) as [m'|] eqn:Em; cbn [mbind option_bind]; [|done].
  apply picked_member in Em as (m & Hm & ->); [|done].
  destruct (val (pick_elements (bid_adslot r) (Fld false None))) as [slots|]; cbn [mbind option_bind]; [|done].
  destruct (val (mobile_id (norm m))) as [ids|]; cbn [mbind option_bind]; [|done].
  destruct (val (mobile_for_advertising_id (norm m))) as [faids|]; cbn [mbind option_bind]; [|done].
  destruct (val (mobile_os_version (norm m))) as [v|]; cbn [mbind option_bind]; [|done].
  destruct (val (mobile_mobile_app (norm m))) as [a|] eqn:Ea; cbn [mbind option_bind]; [|done].
  intros [= <-]. cbn [known mobile_message] in Hm. assert (Hm' := Hm). destruct Hm' as (_ & _ & _ & _ & _ & _ & _ & _ & Happ & _).
  cbn [norm mobile_message mobile_mobile_app] in Ea. apply picked_member in Ea as (a' & Ha & ->); [|done].
  cbn [known mapp_message] in Ha. destruct Ha as (_ & Hbundle & _). pose proof (picked_good _ Hbundle) as Hb.
  pose proof (picked_good _ Hid) as Hi. destruct (device_of_good r m v Hr Hm) as [Hdg Hdk].
  pose proof (slots_of_good slots 0) as Hs. apply Forall_and in Hs as [Hsg Hsk].
  cbn [good known request_message]. split_and!; first
    [ by apply array_of_good | done | intros _; exact Hi
    | intros _ x [= <-]; first [exact Hdg|exact Hdk]
    | intros _ x [= <-]; cbn [good known app_message]; split_and!; first [done|constructor|intros _; exact Hb]
    | constructor ].
Qed.
End Good.

(** ** From the exchange's bytes to the bidding server's *)

Lemma with_input_same (E : NgxEnv) : with_input E input = E.
Proof. by destruct E. Qed.

Lemma com_of_written `{E : NgxEnv} r q : com_of r = Some q -> enc q ≠ [].
Proof.
  unfold com_of. intros Hq. repeat (apply bind_Some in Hq as (? & _ & Hq)). injection Hq as <-.
  cbn [enc request_message request_adx]. unfold enc_u32. cbn [has val]. intros Hn.
  apply app_eq_nil in Hn as [Hn _]. by apply app_eq_nil in Hn as [_ Hn%varint_nonempty].
Qed.

(** The request is read from the chain with its strings in place. *)
Lemma baidu_init_ok `{E : NgxEnv} alloc fuel m src xs ts (r : ngx_bid_request_t) :
  known r -> seg m src xs 0 -> holds xs ts -> concat ts = enc r -> 0 < lenz (enc r) <= 2147483646 ->
  0 < AdxChain.top m -> (length xs <= fuel)%nat -> (length (enc r) <= fuel)%nat -> (forall k, alloc k = true) ->
  (forall k n, 0 <= n < 4294967296 -> ao k n = true) -> 0 <= base -> base + 6442450944 < 18446744073709551616 ->
  exists o c m', adx_com_baidu_adapter_init alloc fuel m src = Ok (o, c, m') /\ 0 < AdxChain.top m' /\
    NgxProtobuf.mem c = enc r ++ [0] /\ vmap (deref (enc r ++ [0])) o = norm r.
Proof.
  intros Hk Hseg Hh Hts Hl Ht Hf1 Hf2 Ha Hao Hb0 Hb1.
  assert (total ts = lenz (enc r)) as Htot by (unfold total; by rewrite Hts).
  destruct (chain_to_str_ok alloc fuel m src xs ts Hseg Hh) as (_ & m1 & _ & Ht1 & E1); [lia|done|done|].
  unfold adx_com_baidu_adapter_init. rewrite E1, Htot, decide_True, Ha, Hts, ok_bind by lia.
  cbn [AdxChain.data AdxChain.len default from_option]. rewrite (pcalloc_granted Hao). cbn [of_opt]. rewrite ok_bind.
  set (c := with_calls _ _).
  destruct (unpack_enc r fuel c) as (o & k & Eo & Ho); try done.
  { lia. }
  { split; [done|]. by exists [0]. }
  { split_and!; try done. change (NgxProtobuf.last c) with (lenz (enc r)). lia. }
  change (munpack fuel zero c) with (ngx_bid_request__unpack fuel bid_zero c) in Eo. rewrite Eo, ok_bind.
  by exists o, (adv c (length (enc r)) k), m1.
Qed.

Lemma baidu_request_ok `{E : NgxEnv} (alloc : nat -> bool) (fresh : Z -> bytes) (flag : bool)
    (fuel : nat) (m : AdxChain.mem) (src : Z) (xs : list (Z * Z * ngx_buf_t)) (ts : list bytes)
    (r : ngx_bid_request_t) (q : ngx_com_request_t) :
  known r -> seg m src xs 0 -> holds xs ts -> concat ts = enc r -> 0 < lenz (enc r) <= 2147483646 ->
  0 < AdxChain.top m -> (length xs <= fuel)%nat -> (length (enc r) <= fuel)%nat -> (forall k, alloc k = true) ->
  (forall k n, 0 <= n < 4294967296 -> ao k n = true) -> (forall n, 0 <= n -> lenz (fresh n) = n) ->
  0 <= base -> base + 6442450944 < 18446744073709551616 -> input = enc r ++ [0] -> frames_sized ->
  com_of (norm r) = Some q -> lenz (enc q) < 2147483648 ->
  exists p b m' c', adx_com_baidu_adapter_request alloc fresh flag fuel m src = Ok (p, m') /\ 0 < AdxChain.top m' /\ p ≠ 0 /\
    get_chain m' p = Ok (Chain b 0) /\ get_buf m' b = Ok (Buf (enc q) 0 (lenz (enc q)) 1 1) /\
    ngx_com_request__unpack (length (enc q)) request_zero (Ctx (enc q) 0 (lenz (enc q)) false true 0) =
    Ok (NGX_OK, norm q, c').
Proof.
  intros Hk Hseg Hh Hts Hl Ht Hf1 Hf2 Ha Hao Hfresh Hb0 Hb1 Hin Hfr Hq Hlq.
  destruct (baidu_init_ok alloc fuel m src xs ts r) as (o & c & m1 & Ei & Ht1 & Hm & Ho); try done.
  unfold adx_com_baidu_adapter_request. rewrite Ei, ok_bind. rewrite <- Hin in Hm, Ho.
  pose proof (com_of_vmap (deref input) (deref_frames _) o) as Hv. rewrite Ho, Hq in Hv.
  destruct (com_of o) as [q0|] eqn:E0; [|done]. cbn [fmap option_fmap option_map] in Hv. apply (inj Some) in Hv.
  destruct (to_com_ok Hao o c) as (k & ->). rewrite E0, ok_bind. cbn [with_calls NgxProtobuf.mem].
  rewrite Hm, with_input_same.
  destruct (com_of_good Hfr r q Hk Hq) as [Hgq Hkq].
  assert (good q0) as Hg0 by (apply (vmap_good (deref input)); [apply deref_same|by rewrite <- Hv]).
  assert (enc q0 = enc q) as Henc by (rewrite Hv; symmetry; apply vmap_enc, deref_same).
  destruct (to_chain_ok alloc fresh flag m1 q0) as [_ Hc]; try done; [by rewrite Henc|].
  destruct Hc as (p & b & m' & Ec & Ht' & Hp0 & Hp & Hb & _); [rewrite Henc; by eapply com_of_written|]. rewrite Henc in Hb.
  destruct (munpack_copying q (length (enc q)) (Ctx (enc q) 0 (lenz (enc q)) false true 0)) as (k' & Ek); try done.
  { lia. }
  { split; [done|]. exists []. by rewrite app_nil_r. }
  { split_and!; try done. cbn [NgxProtobuf.last]. lia. }
  by exists p, b, m', (adv (Ctx (enc q) 0 (lenz (enc q)) false true 0) (length (enc q)) k').
Qed.

(** C8: The exchange of Baidu, from chain to chain.  The bytes of a request,
    however they are divided into buffers, come out of
    [adx_com_baidu_adapter_request] as one buffer with the bytes of the request
    translated, with no more turns of a loop than there are bytes; the bidding
    server unpacks them to a copy of the translation.  The strings of the
    translation are read where they lie in the message; those that lie in
    arrays of functions that have returned are what these arrays read as then
    ([frame]). *)
Theorem adx_com_baidu_request_translates `{E : NgxEnv} (alloc : nat -> bool) (fresh : Z -> bytes) (flag : bool)
    (fuel : nat) (m : AdxChain.mem) (src : Z) (xs : list (Z * Z * ngx_buf_t)) (ts : list bytes)
    (r : ngx_bid_request_t) (q : ngx_com_request_t) :
  known r -> seg m src xs 0 -> holds xs ts -> concat ts = enc r -> 0 < lenz (enc r) <= 2147483646 ->
  0 < AdxChain.top m -> (length xs <= fuel)%nat -> (length (enc r) <= fuel)%nat -> (forall k, alloc k = true) ->
  (forall k n, 0 <= n < 4294967296 -> ao k n = true) -> (forall n, 0 <= n -> lenz (fresh n) = n) ->
  0 <= base -> base + 6442450944 < 18446744073709551616 -> input = enc r ++ [0] -> frames_sized ->
  com_of (norm r) = Some q -> lenz (enc q) < 2147483648 ->
  exists p b m' c', adx_com_baidu_adapter_request alloc fresh flag fuel m src = Ok (p, m') /\
    get_chain m' p = Ok (Chain b 0) /\ get_buf m' b = Ok (Buf (enc q) 0 (lenz (enc q)) 1 1) /\
    ngx_com_request__unpack (length (enc q)) request_zero (Ctx (enc q) 0 (lenz (enc q)) false true 0) =
    Ok (NGX_OK, norm q, c').
Proof.
  intros. destruct (baidu_request_ok alloc fresh flag fuel m src xs ts r q) as (p & b & m' & c' & ? & _ & _ & ?); try done.
  by exists p, b, m', c'.
Qed.

(** ** Strings in arrays of functions that have returned *)

(** The request with other keys of its slots. *)
Definition rekeyed (f : Z -> Z) (r : ngx_bid_request_t) : ngx_bid_request_t :=
  with_bid_adslot r (Fld (has (bid_adslot r))
    (map (fun s => with_adslot_ad_block_key s (Fld (has (adslot_ad_block_key s)) (f (val (adslot_ad_block_key s))))) <$>
     val (bid_adslot r))).

Lemma slots_of_lookup l : forall i j, slots_of i l !! j = slot_of (i + j) <$> l !! j.
Proof.
  induction l as [|s l IH]; intros i [|j]; cbn [slots_of lookup list_lookup]; [done|done|by rewrite Nat.add_0_r|].
  by rewrite IH, Nat.add_succ_r.
Qed.

Lemma slots_of_rekeyed f l : (forall k, length (dec (u64 (f k))) = length (dec (u64 k))) -> forall i,
  slots_of i (map (fun s => with_adslot_ad_block_key s (Fld (has (adslot_ad_block_key s)) (f (val (adslot_ad_block_key s))))) l) =
  slots_of i l.
Proof.
  intros Hf. induction l as [|s l IH]; intros i; cbn [map slots_of]; [done|]. rewrite IH. f_equal. unfold slot_of, sprintf_frame.
  destruct s. cbn. by rewrite Hf.
Qed.

(** The identifiers of the slots and the version of the system do not reach
    the bidding server.  Their strings refer to the arrays that [sprintf]
    filled, and are read after the function has returned: the bytes sent are
    what these arrays read as then, and of the identifier of a slot only the
    number of digits is left, so that requests whose slots have other keys of
    as many digits are translated alike. *)
Theorem adx_com_baidu_ids_lost `{E : NgxEnv} (r : ngx_bid_request_t) (q : ngx_com_request_t) (f : Z -> Z) :
  frames_sized -> com_of r = Some q -> (forall k, length (dec (u64 (f k))) = length (dec (u64 k))) ->
  com_of (rekeyed f r) = Some q /\
  (forall i s, elts (val (bid_adslot r)) !! i = Some s -> exists s', elts (val (request_adx_slot q)) !! i = Some s' /\
     sbytes (val (slot_adx_slot_id s')) = take (length (dec (u64 (val (adslot_ad_block_key s))))) (frame (S i))) /\
  (exists d n, val (request_device q) = Some d /\ sbytes (val (device_os_version d)) = take n (frame 0)).
Proof.
  intros Hfr Hq Hf. assert (Hq' := Hq). unfold com_of in Hq |- *.
  assert (bid_mobile (rekeyed f r) = bid_mobile r) as -> by (by destruct r).
  assert (bid_id (rekeyed f r) = bid_id r) as -> by (by destruct r).
  assert (forall m v, device_of (rekeyed f r) m v = device_of r m v) as Ed by (intros; by destruct r).
  assert (val (bid_adslot (rekeyed f r)) = map (fun s => with_adslot_ad_block_key s (Fld (has (adslot_ad_block_key s))
    (f (val (adslot_ad_block_key s))))) <$> val (bid_adslot r)) as -> by (by destruct r).
  destruct (val (bid_mobile r)) as [m|]; cbn [mbind option_bind] in *; [|done].
  destruct (val (bid_adslot r)) as [slots|]; cbn [mbind option_bind fmap option_fmap option_map] in *; [|done].
  destruct (val (mobile_id m)) as [ids|]; cbn [mbind option_bind] in *; [|done].
  destruct (val (mobile_for_advertising_id m)) as [faids|]; cbn [mbind option_bind] in *; [|done].
  destruct (val (mobile_os_version m)) as [v|]; cbn [mbind option_bind] in *; [|done].
  destruct (val (mobile_mobile_app m)) as [a|]; cbn [mbind option_bind] in *; [|done].
  rewrite Ed, slots_of_rekeyed by done. split; [exact Hq|]. injection Hq as <-. cbn [request_adx_slot request_device val]. split.
  - change (elts (Some slots)) with slots. intros i s Hs. exists (slot_of i s). split.
    + assert (slots_of 0 slots !! i = Some (slot_of i s)) as E1 by (rewrite slots_of_lookup, Hs; done).
      destruct (slots_of 0 slots); [done|exact E1].
    + unfold sbytes, slot_of. cbn [slot_adx_slot_id val]. rewrite frame_bytes; [done|]. rewrite (proj2 Hfr).
      pose proof (dec_le (u64 (val (adslot_ad_block_key s)))). lia.
  - exists (device_of r m v), (length (version_text v)). split; [done|]. unfold sbytes, device_of. cbn [device_os_version val].
    rewrite frame_bytes; [done|]. rewrite (proj1 Hfr). pose proof (version_le v). lia.
Qed.

(** ** Types *)

Section Typed.
Context `{E : NgxEnv}.

Lemma frame_range t k : lenz t < 18446744073709551616 -> str_range (sprintf_frame t k).
Proof. intros Ht. unfold str_range, u64_range, sprintf_frame. cbn [len]. lia. Qed.

(** The codes of the common protocol are small numbers. *)
Ltac codes := unfold u32_range; repeat case_decide; vm_compute; split; done.
Lemma codes_range z : u32_range (com_adx_slot_type z) /\ u32_range (com_mobile_id_type z) /\
  u32_range (com_for_advertising_id_type z) /\ u32_range (com_device_type z) /\ u32_range (com_os z) /\
  u32_range (com_carrier z) /\ u32_range (com_connection z).
Proof.
  unfold com_adx_slot_type, com_mobile_id_type, com_for_advertising_id_type, com_device_type, com_os, com_carrier, com_connection.
  split_and!; codes.
Qed.

Lemma slot_of_typed i s : adslot_typed s -> slot_typed (slot_of i s).
Proof.
  intros Hs. unfold adslot_typed in Hs. destruct Hs as (_ & Hq & _ & Hw & Hh & _ & _ & _ & _ & _ & _ & _ & Hm & _).
  assert (forall P : _ -> Prop, P (mk_banner (Fld true (val (adslot_width s))) (Fld true (val (adslot_height s))) None) ->
    member_range P (slot_banner (slot_of i s))) as Hb.
  { intros P HP. unfold slot_of. cbn [slot_banner]. destruct (decide _); intros b; [by intros [= <-]|done]. }
  unfold slot_typed. split_and!; try done; [|by apply codes_range|by apply Hb].
  apply frame_range. pose proof (dec_le (u64 (val (adslot_ad_block_key s)))). lia.
Qed.

Lemma slots_of_typed l : Forall adslot_typed l -> forall i, Forall slot_typed (slots_of i l).
Proof. induction 1 as [|s l Hs Hl IH]; intros i; cbn [slots_of]; constructor; [by apply slot_of_typed|apply IH]. Qed.

Lemma array_of_typed {A} (P : A -> Prop) l : Forall P l -> elements_range P (array_of l).
Proof. by destruct l. Qed.

Lemma ids_of_typed m : mobile_typed m -> Forall (fun d => str_range d.1 /\ u32_range d.2) (ids_of m).
Proof.
  intros (_ & Hi & _ & _ & _ & _ & _ & _ & _ & _ & _ & _ & _ & Hf & _). apply Forall_app. split; apply List.Forall_map.
  - eapply Forall_impl; [exact Hi|]. intros d Hd. split; [apply Hd|apply codes_range].
  - eapply Forall_impl; [exact Hf|]. intros d Hd. split; [apply Hd|apply codes_range].
Qed.

Lemma device_of_typed r m v : bid_typed r -> mobile_typed m -> device_typed (device_of r m v).
Proof.
  intros (_ & Hip & Hua & _) Hm. pose proof (ids_of_typed m Hm) as Hi. destruct Hm as (_ & _ & _ & _ & _ & Hb & Hmo & _).
  unfold device_typed. cbn [device_of device_device_id device_device_type device_os device_os_version device_carrier device_connection
    device_brand device_model device_user_agent device_ip val]. split_and!; try done; try by apply codes_range.
  - apply array_of_typed, List.Forall_map. eapply Forall_impl; [exact Hi|]. by intros d [H1 H2].
  - apply frame_range. pose proof (version_le v). lia.
Qed.

Lemma com_of_typed r q : bid_typed r -> com_of r = Some q -> request_typed q.
Proof.
  intros Hr. assert (Hr' := Hr). unfold bid_typed in Hr'. unfold com_of.
  destruct Hr' as (Hid & _ & _ & _ & _ & _ & _ & _ & _ & _ & _ & _ & _ & _ & _ & _ & _ & _ & _ & _ & _ & _ & Hmob & _ & Hs & _).
  destruct (val (bid_mobile r)) as [m|] eqn:Em; cbn [mbind option_bind]; [|done]. specialize (Hmob m Em).
  destruct (val (bid_adslot r)) as [slots|] eqn:Es; cbn [mbind option_bind]; [|done]. unfold elements_range in Hs. rewrite Es in Hs.
  destruct (val (mobile_id m)); cbn [mbind option_bind]; [|done].
  destruct (val (mobile_for_advertising_id m)); cbn [mbind option_bind]; [|done].
  destruct (val (mobile_os_version m)) as [v|]; cbn [mbind option_bind]; [|done].
  destruct (val (mobile_mobile_app m)) as [a|] eqn:Ea; cbn [mbind option_bind]; [|done]. intros [= <-].
  assert (mapp_typed a) as Hap.
  { assert (Hm := Hmob). destruct Hm as (_ & _ & _ & _ & _ & _ & _ & _ & _ & _ & _ & _ & _ & _ & Ha). by apply Ha. }
  destruct Hap as (_ & Hb & Hc & _). unfold request_typed. cbn [request_adx request_bid request_adx_slot request_device request_app val].
  split_and!; try done.
  - by apply array_of_typed, slots_of_typed.
  - intros d [= <-]. by apply device_of_typed.
  - by intros d [= <-].
Qed.

Lemma baidu_init_typed alloc fuel m src :
  Post (adx_com_baidu_adapter_init alloc fuel m src) (fun r => bid_typed r.1.1).
Proof.
  unfold adx_com_baidu_adapter_init. eapply post_bind with (P := fun _ => True); [done|]. intros [buffer m1] _. cbn zeta.
  destruct (ngx_pcalloc bid_zero _) as [o c] eqn:Ep. assert (forall r, of_opt o = Ok r -> r = bid_zero) as Ho.
  { intros r Hr. apply of_opt_ok in Hr as ->. revert Ep. unfold ngx_pcalloc. destruct (ngx_palloc _ _) as [[] ?]; congruence. }
  eapply post_bind; [exact Ho|]. intros r ->. eapply post_bind; [apply bid_typed_unpack; exact (typed_zero (TypedLaws := bid_typed_laws))|].
  intros [[rc o'] c'] [Ht _]. by apply post_ret.
Qed.
End Typed.

(** C18: Types.  Whatever bytes are posted, well formed or not, when the adapter
    goes on with them: every number of the request that it has read, and of the
    request that it translates to, lies in the range of its C type (enumerations
    as 32-bit numbers, truth values 0 or 1), every length in that of [size_t];
    so the writing functions get numbers they were written for. *)
Theorem adx_com_baidu_request_typed `{E : NgxEnv} (alloc : nat -> bool) (fuel : nat) (m m' : AdxChain.mem) (src : Z)
    (r : ngx_bid_request_t) (c : ngx_protobuf_context_t) :
  (forall k n, 0 <= n < 4294967296 -> ao k n = true) -> adx_com_baidu_adapter_init alloc fuel m src = Ok (r, c, m') ->
  bid_typed r /\ (forall q c', adx_com_baidu_adapter_to_com r c = Ok (q, c') -> request_typed q).
Proof.
  intros Hao Hi. pose proof (baidu_init_typed alloc fuel m src _ Hi) as Ht. split; [exact Ht|]. intros q c'.
  destruct (to_com_ok Hao r c) as (k & ->). destruct (com_of r) as [q'|] eqn:Eq; [|done]. intros [= <- _].
  by apply (com_of_typed r).
Qed.

(** ** Examples *)

Definition baidu_app : ngx_bid_request_mobile_mobile_app_t :=
  with_mapp_app_category (with_mapp_app_bundle_id mapp_zero (Fld true (lit "org.app"))) (Fld true 3).
Definition baidu_mobile : ngx_bid_request_mobile_t :=
  let m := with_mobile_id mobile_zero (Fld true (Some [mk_mid (Fld true 1) (Fld true (lit "868")) None])) in
  let m := with_mobile_for_advertising_id m (Fld true (Some [mk_faid (Fld true 5) (Fld true (lit "idfa")) None])) in
  let m := with_mobile_device_type m (Fld true 1) in
  let m := with_mobile_platform m (Fld true 2) in
  let m := with_mobile_os_version m (Fld true (Some (mk_osv (Fld true 9) (Fld true 0) (Fld true 1) None))) in
  let m := with_mobile_carrier_id m (Fld true 46001) in
  with_mobile_mobile_app m (Fld true (Some baidu_app)).
Definition baidu_slot (key type : Z) : ngx_bid_request_ad_slot_t :=
  let s := with_adslot_ad_block_key adslot_zero (Fld true key) in
  let s := with_adslot_adslot_type s (Fld true type) in
  let s := with_adslot_width (with_adslot_height s (Fld true 50)) (Fld true 320) in
  with_adslot_minimum_cpm (with_adslot_creative_type s (Fld true (Some [1; 300]))) (Fld true 25).
Definition baidu1 : ngx_bid_request_t :=
  let r := with_bid_id bid_zero (Fld true (lit "bid")) in
  let r := with_bid_mobile r (Fld true (Some baidu_mobile)) in
  with_bid_adslot r (Fld true (Some [baidu_slot 123 0; baidu_slot 45678 13])).

(** The message is the input, and the dead arrays are full of [A]. *)
Definition baidu1_bytes : bytes := Eval vm_compute in @enc env0 _ _ baidu1.
Definition env1 : NgxEnv :=
  {| base := 4096; ao := fun _ _ => true; junk32 := 7; junk64 := 7; input := baidu1_bytes ++ [0];
     frame := fun k => replicate (match k with O => 256 | S _ => 128 end) 65 |}.
Definition baidu1_com : ngx_com_request_t := Eval vm_compute in default request_zero (@com_of (@norm env1 _ _ baidu1)).
(** The message in two buffers. *)
Definition baidu1_bufs : list ngx_buf_t :=
  [Buf (take 10 baidu1_bytes) 0 10 1 0; Buf (drop 9 baidu1_bytes) 1 (lenz (drop 9 baidu1_bytes)) 1 1].
Definition baidu1_mem : AdxChain.mem :=
  AdxChain.Mem {[ 1 := Chain 11 2; 2 := Chain 12 0 ]}
    {[ 11 := nth 0 baidu1_bufs (Buf [] 0 0 0 0); 12 := nth 1 baidu1_bufs (Buf [] 0 0 0 0) ]} 0 20.

Lemma frames_env1 : @frames_sized env1.
Proof. split; [vm_compute; done|intros i; vm_compute; done]. Qed.

Lemma baidu1_known : @known env1 _ _ baidu1.
Proof. good_example. Qed.

Lemma adx_com_baidu_to_com_spec_witness :
  exists k, @adx_com_baidu_adapter_to_com env1 (@norm env1 _ _ baidu1) (ctx0 []) = Ok (baidu1_com, with_calls (ctx0 []) k).
Proof. refine (proj1 (@adx_com_baidu_to_com_spec env1 (@norm env1 _ _ baidu1) (ctx0 [])) _). done. Defined.

Lemma adx_com_baidu_request_translates_witness :
  exists p b m' c', @adx_com_baidu_adapter_request env1 (fun _ => true) (fun n => replicate (Z.to_nat n) 7) true 400 baidu1_mem 1 = Ok (p, m') /\
    get_chain m' p = Ok (Chain b 0) /\
    get_buf m' b = Ok (Buf (@enc env1 _ _ baidu1_com) 0 (lenz (@enc env1 _ _ baidu1_com)) 1 1) /\
    @ngx_com_request__unpack env1 (length (@enc env1 _ _ baidu1_com)) request_zero
      (Ctx (@enc env1 _ _ baidu1_com) 0 (lenz (@enc env1 _ _ baidu1_com)) false true 0) = Ok (NGX_OK, @norm env1 _ _ baidu1_com, c').
Proof.
  refine (@adx_com_baidu_request_translates env1 (fun _ => true) (fun n => replicate (Z.to_nat n) 7) true 400 baidu1_mem 1
    (zip [(1, 11); (2, 12)] baidu1_bufs) [take 10 baidu1_bytes; drop 10 baidu1_bytes] baidu1 baidu1_com
    baidu1_known _ _ _ _ _ _ _ _ _ _ _ _ _ frames_env1 _ _).
  - vm_compute. split_and!; try done. eexists. split_and!; try done. by eexists.
  - repeat constructor.
  - vm_compute. done.
  - vm_compute. done.
  - done.
  - cbn. lia.
  - apply Nat.leb_le. vm_compute. done.
  - done.
  - done.
  - intros n Hn. rewrite length_replicate. lia.
  - done.
  - done.
  - vm_compute. done.
  - vm_compute. done.
  - vm_compute. done.
Defined.

Lemma adx_com_baidu_ids_lost_witness :
  @com_of (rekeyed (fun k => if decide (k = 123) then 987 else k) (@norm env1 _ _ baidu1)) = Some baidu1_com /\
  (forall i s, elts (val (bid_adslot (@norm env1 _ _ baidu1))) !! i = Some s -> exists s', elts (val (request_adx_slot baidu1_com)) !! i = Some s' /\
     @sbytes env1 (val (slot_adx_slot_id s')) = take (length (dec (u64 (val (adslot_ad_block_key s))))) (@frame env1 (S i))) /\
  (exists d n, val (request_device baidu1_com) = Some d /\ @sbytes env1 (val (device_os_version d)) = take n (@frame env1 0)).
Proof.
  refine (@adx_com_baidu_ids_lost env1 (@norm env1 _ _ baidu1) baidu1_com (fun k => if decide (k = 123) then 987 else k) frames_env1 _ _).
  - vm_compute. done.
  - intros k. cbn beta. case_decide as Hk; [by rewrite Hk|done].
Defined.

(** A message that breaks off in a key: what was read before is kept. *)
Definition torn : bytes := [10; 3; 98; 105; 100; 112; 255; 255; 255; 255; 255; 255; 255; 255; 255; 1; 248].
Definition torn_mem : AdxChain.mem := AdxChain.Mem {[ 1 := Chain 11 0 ]} {[ 11 := Buf torn 0 (lenz torn) 1 1 ]} 0 20.
Lemma adx_com_baidu_request_typed_witness :
  @bid_typed env1 (with_bid_site_quality (with_bid_id bid_zero (Fld true (Str 3 (PInput 2)))) (Fld true (-1))).
Proof.
  refine (proj1 (@adx_com_baidu_request_typed env1 (fun _ => true) 30 torn_mem _ 1 _ _ _ _)); [done|].
  vm_compute. reflexivity.
Defined.
