(* ===== verification/NgxBaiduSpec.v ===== *)
(** What the request of Baidu's exchange promises as a message
    (NgxBaiduProto.v): it is read back from its bytes, with its strings copied
    or in place, and where its packing function does not write them. *)

From Stdlib Require Import ZArith Lia.
From S2P Require Import Prelude NgxProtobuf NgxProtobufWire NgxProtobufMsg NgxProtobufCodec.
From S2P Require Import NgxProtobufRead NgxProtobufMember NgxProtobufScalar NgxProtobufScalarLaws NgxProtobufLaws NgxProtobufSpec.
From S2P Require Import NgxComProto AdxCom NgxBaiduProto NgxBaiduProtoLaws.

Open Scope Z_scope.

(** ** Round trips *)

(** C12: The request of the exchange survives the wire.  Its function packs it,
    when it has no packed values, to the bytes of the protocol, as many as
    [ngx_bid_request__size] says.  From these bytes, with packed values too,
    [ngx_bid_request__unpack] gives an object that stands for the copy of the
    request: the copy itself when strings are copied, and when they are not, an
    object that is the copy once its strings are read where they lie in the
    message.  Numbers of fixed width are left out: they are not read. *)
Theorem ngx_bid_request_roundtrip `{NgxEnv} (r : ngx_bid_request_t) (fuel : nat) :
  known r -> lenz (enc r) < 4294967296 ->
  (forall c, good r -> fits c (lenz (enc r)) ->
   ngx_bid_request__size r = lenz (enc r) /\ ngx_bid_request__pack r c = Ok (NGX_OK, put c (enc r))) /\
  (forall c, ahead c (enc r) -> last c = pos c + lenz (enc r) -> reading c -> (length (enc r) <= fuel)%nat ->
   exists o k, ngx_bid_request__unpack fuel bid_zero c = Ok (NGX_OK, o, adv c (length (enc r)) k) /\
     (if reuse_strings c then vmap (deref (mem c)) o else o) = norm r).
Proof.
  intros Hk Hl. split.
  - intros c Hg Hf. split; [by apply (bid_size r)|by apply (bid_pack r)].
  - intros c Ha Hlast Hc Hf. destruct (bid_unpack r fuel c) as (o & k & Eo & Ho); try done. exists o, k.
    split; [exact Eo|]. rewrite <- Ho. unfold view. destruct (reuse_strings c); [done|]. by rewrite bid_vmap.
Qed.

(** ** Packed values *)

(** The bytes before and after the packed field. *)
Definition enc_before `{NgxEnv} (o : ngx_bid_request_t) : bytes :=
  enc_str (bid_id o) 1 ++ enc_str (bid_ip o) 2 ++ enc_str (bid_user_agent o) 3 ++ enc_str (bid_baidu_user_id o) 4 ++
  enc_u32 (bid_baidu_user_id_version o) 5 ++ enc_u64s (bid_user_category o) 6 ++ enc_u32 (bid_gender o) 7 ++
  enc_elements enc (bid_baidu_id_list o) 8 ++ enc_str (bid_detected_language o) 9 ++ enc_str (bid_flash_version o) 10 ++
  enc_str (bid_url o) 11 ++ enc_str (bid_referer o) 12 ++ enc_u32 (bid_site_category o) 13 ++
  enc_u32 (bid_site_quality o) 14 ++ enc_u32 (bid_page_type o) 15 ++ enc_strs (bid_page_keyword o) 17 ++
  enc_u32 (bid_page_quality o) 18.
Definition enc_after `{NgxEnv} (o : ngx_bid_request_t) : bytes :=
  enc_elements enc (bid_adslot o) 20 ++ enc_u32 (bid_page_vertical o) 21 ++ enc_bool (bid_is_test o) 26 ++
  enc_bool (bid_is_ping o) 27 ++ enc_member enc (bid_user_geo_info o) 28 ++ enc_member enc (bid_mobile o) 29 ++
  enc_member enc (bid_video o) 30 ++ enc_member enc (bid_customized_user_tag o) 31 ++
  enc_str (bid_buyer_user_id o) 32 ++ enc_unknowns (bid_unknown o).
(** What is written. *)
Definition enc_written `{NgxEnv} (o : ngx_bid_request_t) : bytes :=
  enc_before o ++ enc_packed_written (bid_excluded_product_category o) 19 ++ enc_after o.

(** The request without its packed values. *)
Definition unpacked (o : ngx_bid_request_t) : ngx_bid_request_t :=
  with_bid_excluded_product_category o (Fld false None).

(** The messages inside it, through their interface. *)
Ltac fold_bid_members :=
  change ngx_bid_request_baidu_id__size with (msize (M := ngx_bid_request_baidu_id_t));
  change ngx_bid_request_baidu_id__pack with (mpack (M := ngx_bid_request_baidu_id_t));
  change ngx_bid_request_customized_user_tag__size with (msize (M := ngx_bid_request_customized_user_tag_t));
  change ngx_bid_request_customized_user_tag__pack with (mpack (M := ngx_bid_request_customized_user_tag_t));
  change ngx_bid_request_geo__size with (msize (M := ngx_bid_request_geo_t));
  change ngx_bid_request_geo__pack with (mpack (M := ngx_bid_request_geo_t));
  change ngx_bid_request_mobile__size with (msize (M := ngx_bid_request_mobile_t));
  change ngx_bid_request_mobile__pack with (mpack (M := ngx_bid_request_mobile_t));
  change ngx_bid_request_video__size with (msize (M := ngx_bid_request_video_t));
  change ngx_bid_request_video__pack with (mpack (M := ngx_bid_request_video_t));
  change ngx_bid_request_ad_slot__size with (msize (M := ngx_bid_request_ad_slot_t));
  change ngx_bid_request_ad_slot__pack with (mpack (M := ngx_bid_request_ad_slot_t)).

Section Env.
Context `{NgxEnv}.

Lemma bid_enc_split o : enc o = enc_before o ++ enc_packed (bid_excluded_product_category o) 19 ++ enc_after o.
Proof. unfold enc_before, enc_after. cbn [enc bid_message]. by rewrite <- !app_assoc. Qed.

Lemma written_length o : has (bid_excluded_product_category o) = true -> elts (val (bid_excluded_product_category o)) ≠ [] ->
  lenz (enc_written o) = lenz (enc o) + 2 * lenz (elts (val (bid_excluded_product_category o))).
Proof.
  intros Hh Hne. pose proof (packed_overrun (bid_excluded_product_category o) 19 ltac:(lia) Hh Hne) as Hw.
  rewrite bid_enc_split. unfold enc_written. rewrite !length_app, !Nat2Z.inj_add, Hw. change (lenz (enc_key 19 0)) with 2. lia.
Qed.

(** The size is that of the protocol's bytes. *)
Lemma bid_size_packed (o : ngx_bid_request_t) :
  good (unpacked o) -> lenz (enc o) < 4294967296 -> ngx_bid_request__size o = lenz (enc o).
Proof.
  change ngx_bid_request__size with (msize (M := ngx_bid_request_t)). destruct o.
  size_law bid_message ngx_bid_request__size (fold_bid_members).
Qed.

(** ** Writing *)

Lemma pack_guard_pass size body c :
  0 < size -> 0 <= base -> 0 <= pos c -> pos c + size <= last c -> base + last c < 18446744073709551616 ->
  pack_guard size c body = body c.
Proof. intros. unfold pack_guard, ptr_add. by rewrite decide_False, u64_id, decide_False by lia. Qed.

Lemma bid_pack_packed (o : ngx_bid_request_t) c :
  good (unpacked o) -> lenz (enc_written o) < 4294967296 -> 0 < lenz (enc o) <= lenz (enc_written o) ->
  fits c (lenz (enc_written o)) -> ngx_bid_request__pack o c = Ok (NGX_OK, put c (enc_written o)).
Proof.
  intros Hg Hw Hle Hf. unfold ngx_bid_request__pack. assert (Hf' := Hf). destruct Hf' as ((? & ?) & ? & ? & ?).
  match goal with |- pack_guard _ c ?body = _ => enough (Packs body (enc_written o)) as Hp
    by (rewrite pack_guard_pass by (rewrite ?bid_size_packed by (done || lia); lia); by apply Hp) end.
  clear Hf. rewrite bid_enc_split in Hle. unfold enc_written, enc_before, enc_after in *. rewrite <- !app_assoc. fold_bid_members.
  destruct o. cbn [good bid_message] in Hg. law_hyps.
  repeat (apply packs_bind; [first [apply writes_pack_packed; lia|pack_field]|]). apply packs_unknowns; [assumption|lia].
Qed.

(** ** Running out of the buffer *)

(** The block ends with the buffer, [k] bytes after the position. *)
Definition starved (c : ngx_protobuf_context_t) (k : Z) : Prop :=
  0 <= base /\ base + last c < 18446744073709551616 /\ 0 <= pos c /\ pos c + k = last c /\ last c = lenz (mem c).
Definition RunsOut {T} (w : ngx_protobuf_context_t -> cres T) (k : Z) : Prop := forall c, starved c k -> w c = UB.

Lemma starved_fits c k n : starved c k -> 0 <= n <= k -> fits c n.
Proof. intros (? & ? & ? & ? & ?) ?. split_and!; try lia. unfold room. lia. Qed.

Lemma starved_put c bs k : starved c k -> lenz bs <= k -> starved (put c bs) (k - lenz bs).
Proof.
  intros Hs Hl. destruct (starved_fits c k (lenz bs) Hs) as (Hr & _); [lia|]. pose proof (put_mem_length c bs Hr) as Hm.
  destruct Hs as (? & ? & ? & ? & ?). split_and!; rewrite ?put_last, ?put_pos, ?Hm; lia.
Qed.

Lemma runs_out_first {T U} (w1 : ngx_protobuf_context_t -> cres T) (w2 : T -> cres U) k :
  RunsOut w1 k -> RunsOut (fun c => x ← w1 c; w2 x) k.
Proof. intros Hw c Hs. by rewrite Hw. Qed.

Lemma runs_out_after {T} w1 (w2 : ngx_protobuf_context_t -> cres T) b1 k :
  Writes w1 b1 -> lenz b1 <= k -> RunsOut w2 (k - lenz b1) -> RunsOut (fun c => c ← w1 c; w2 c) k.
Proof. intros Hw Hk H2 c Hs. rewrite Hw, ok_bind; [apply H2; by apply starved_put|eapply starved_fits; [done|lia]]. Qed.

Lemma write_byte_out b : RunsOut (fun c => write_byte c b) 0.
Proof. intros c (? & ? & ? & ? & ?). unfold write_byte, bset. by rewrite decide_False by lia. Qed.

Lemma write_uint_loop_out fuel : forall v k, 0 <= v -> 0 <= k < lenz (varint_loop fuel v) ->
  RunsOut (fun c => write_uint_loop fuel c v) k.
Proof.
  induction fuel as [|fuel IH]; intros v k Hv Hk; [simpl in Hk; lia|]. cbn [write_uint_loop varint_loop] in *.
  destruct (decide (k = 0)) as [->|]; [apply runs_out_first, write_byte_out|].
  case_decide as Hlt; cbn [length] in Hk; [lia|].
  assert (Writes (fun c => write_byte c (u8 (Z.lor v 128))) [u8 (Z.lor v 128)]) as Hw
    by (apply writes_put; intros c Hr; by apply write_byte_put).
  apply (runs_out_after _ _ _ _ Hw); cbn [length]; [lia|]. intros c Hs. cbn beta zeta.
  rewrite shiftr7, decide_False by (rewrite div128_zero; lia). eapply IH; [apply Z.div_pos; lia| |exact Hs]. lia.
Qed.

Lemma write_uint32_out v k : 0 <= k < lenz (varint (u32 v)) -> RunsOut (fun c => ngx_protobuf_write_uint32 c v) k.
Proof.
  intros Hk. apply (runs_out_first (fun c => write_uint_loop 10 c (u32 v))). apply write_uint_loop_out; [apply u32_bound|done].
Qed.

Lemma uint32_field_out v n k : 0 <= n < 536870912 -> 0 <= k < lenz (enc_key n 0 ++ varint (u32 v)) ->
  RunsOut (fun c => ngx_protobuf_write_uint32_field c v n) k.
Proof.
  intros Hn Hk. rewrite length_app, Nat2Z.inj_add in Hk. unfold ngx_protobuf_write_uint32_field. wires.
  destruct (decide (k < lenz (enc_key n 0))).
  - apply runs_out_first, write_uint32_out. rewrite header_key by lia. unfold enc_key in *. rewrite u32_id by lia. lia.
  - eapply runs_out_after; [apply writes_key; lia|lia|]. apply write_uint32_out. lia.
Qed.

Lemma pack_values_out n l : 0 <= n < 536870912 -> forall k, 0 <= k < lenz (concat (map (fun v => enc_key n 0 ++ varint (u32 v)) l)) ->
  RunsOut (pack_list (fun v c => ngx_protobuf_write_uint32_field c v n) l) k.
Proof.
  intros Hn. induction l as [|v l IH]; intros k Hk; cbn [map concat length] in *; [lia|].
  change (RunsOut (fun c => c ← ngx_protobuf_write_uint32_field c v n; pack_list (fun v c => ngx_protobuf_write_uint32_field c v n) l c) k).
  rewrite length_app, Nat2Z.inj_add in Hk. destruct (decide (k < lenz (enc_key n 0 ++ varint (u32 v)))).
  - apply runs_out_first, uint32_field_out; [done|lia].
  - eapply runs_out_after; [by apply writes_uint32_field|lia|]. apply IH. lia.
Qed.

Lemma pack_packed_out f n k : 0 <= n < 536870912 -> has f = true -> elts (val f) ≠ [] -> lenz (enc_packed f n) < 4294967296 ->
  lenz (enc_packed f n) <= k < lenz (enc_packed_written f n) -> RunsOut (pack_packed f n) k.
Proof.
  intros Hn Hh Hne. unfold pack_packed, enc_packed, enc_packed_written. rewrite Hh.
  destruct (elts (val f)) as [|v l]; [done|]. set (vs := v :: l). intros Hl Hk. unfold enc_bytes in *.
  pose proof (Zle_0_nat (length (packed_bytes vs))). rewrite !length_app, !Nat2Z.inj_add in *.
  rewrite packed_size_bytes by lia. eapply runs_out_after.
  - apply writes_bind; [apply writes_key; [done|wires; lia]|apply writes_varint; lia].
  - wires. rewrite length_app, Nat2Z.inj_add. lia.
  - wires. rewrite length_app, Nat2Z.inj_add. apply pack_values_out; [done|]. lia.
Qed.

(** The same as [pack_field] when the bytes are not given. *)
Ltac next_field :=
  first [ apply writes_pack_u32; lia | apply writes_pack_str; [lia|assumption|lia] | apply writes_pack_u64s; lia
        | apply writes_pack_elements; [lia|assumption|lia] | apply writes_pack_strs; [lia|assumption|lia] ].

(** Nothing follows the packed values. *)
Definition nothing_after (o : ngx_bid_request_t) : Prop := enc_after o = [].

Lemma bid_pack_out (o : ngx_bid_request_t) c :
  good (unpacked o) -> lenz (enc_written o) < 4294967296 -> nothing_after o ->
  has (bid_excluded_product_category o) = true -> elts (val (bid_excluded_product_category o)) ≠ [] ->
  starved c (lenz (enc o)) -> ngx_bid_request__pack o c = UB.
Proof.
  intros Hg Hw Ha Hh Hne Hs. pose proof (written_length o Hh Hne) as Hlen. pose proof (Zle_0_nat (length (enc o))).
  assert (0 < lenz (elts (val (bid_excluded_product_category o)))) by (destruct (elts _); [done|cbn [length]; lia]).
  pose proof (packed_overrun (bid_excluded_product_category o) 19 ltac:(lia) Hh Hne) as Hov.
  assert (Hs' := Hs). destruct Hs' as (? & ? & ? & ? & ?). unfold ngx_bid_request__pack.
  match goal with |- pack_guard _ c ?body = _ => enough (RunsOut body (lenz (enc o))) as Hp end.
  - assert (0 < lenz (enc o)).
    { rewrite bid_enc_split. unfold enc_packed. rewrite Hh. destruct (elts _) as [|v l]; [done|]. rewrite !length_app.
      pose proof (enc_bytes_lt 19 (packed_bytes (v :: l))). lia. }
    rewrite pack_guard_pass by (rewrite ?bid_size_packed by (done || lia); lia). by apply Hp.
  - clear Hs. unfold nothing_after in Ha. unfold enc_written in Hw. rewrite bid_enc_split, Ha, app_nil_r in *. rewrite length_app, Nat2Z.inj_add in *.
    change (lenz (enc_key 19 0)) with 2 in Hov. unfold enc_before in *. fold_bid_members.
    destruct o. cbn [good bid_message] in Hg. law_hyps.
    repeat (eapply runs_out_after; [next_field|lia|]).
    apply runs_out_first. apply pack_packed_out; try done; try lia.
Qed.
End Env.

(** C23: Packed values are written outside the buffer that the size announces.
    [ngx_bid_request__size] counts the values of [excluded_product_category] as
    the protocol has them, in one string; [ngx_bid_request__pack] writes the
    header of that string and then every value with a key of its own: two bytes
    more for each value, in a buffer that has the room, and past the end of a
    buffer of the size announced, which passes the test at the start. *)
Theorem ngx_bid_request_pack_overrun `{NgxEnv} (r : ngx_bid_request_t) (c : ngx_protobuf_context_t) :
  let l := elts (val (bid_excluded_product_category r)) in
  good (unpacked r) -> has (bid_excluded_product_category r) = true -> l ≠ [] -> lenz (enc_written r) < 4294967296 ->
  ngx_bid_request__size r = lenz (enc r) /\ lenz (enc_written r) = lenz (enc r) + 2 * lenz l /\
  (fits c (lenz (enc_written r)) -> ngx_bid_request__pack r c = Ok (NGX_OK, put c (enc_written r))) /\
  (nothing_after r -> starved c (ngx_bid_request__size r) -> ngx_bid_request__pack r c = UB).
Proof.
  intros l Hg Hh Hne Hw. pose proof (written_length r Hh Hne) as Hlen. fold l in Hlen.
  assert (0 < lenz l) by (destruct l; [done|cbn [length]; lia]).
  assert (0 < lenz (enc r)).
  { rewrite bid_enc_split. unfold enc_packed. rewrite Hh. fold l. destruct l as [|v l']; [done|]. rewrite !length_app.
    pose proof (enc_bytes_lt 19 (packed_bytes (v :: l'))). lia. }
  assert (ngx_bid_request__size r = lenz (enc r)) as Hs by (apply bid_size_packed; [done|lia]). split_and!; [done|done| |].
  - intros Hf. apply bid_pack_packed; [done|done|lia|done].
  - rewrite Hs. intros Ha Hst. by apply bid_pack_out.
Qed.

(** ** Examples *)

Definition categories1 : ngx_bid_request_t :=
  with_bid_excluded_product_category (with_bid_id bid_zero (Fld true (lit "bid"))) (Fld true (Some [7; 300])).

Lemma categories1_known : @known env0 _ _ categories1.
Proof. good_example. Qed.
Lemma categories1_good : @good env0 _ _ (unpacked categories1).
Proof. good_example. Qed.

Lemma ngx_bid_request_roundtrip_witness :
  exists o k, @ngx_bid_request__unpack env0 20 bid_zero (Ctx (@enc env0 _ _ categories1) 0 11 true true 0) =
    Ok (NGX_OK, o, adv (Ctx (@enc env0 _ _ categories1) 0 11 true true 0) (length (@enc env0 _ _ categories1)) k) /\
    @vmap env0 _ _ (deref (@enc env0 _ _ categories1)) o = @norm env0 _ _ categories1.
Proof.
  refine (proj2 (@ngx_bid_request_roundtrip env0 categories1 20 categories1_known _) (Ctx (@enc env0 _ _ categories1) 0 11 true true 0) _ _ _ _).
  - vm_compute. done.
  - split; [done|]. exists []. by rewrite app_nil_r.
  - vm_compute. done.
  - split_and!; done.
  - apply Nat.leb_le. vm_compute. done.
Defined.

Lemma ngx_bid_request_pack_overrun_witness :
  ngx_bid_request__size categories1 = 11 /\ lenz (@enc_written env0 categories1) = 15 /\
  @ngx_bid_request__pack env0 categories1 (ctx0 (replicate 11 0)) = UB.
Proof.
  assert (Hw : lenz (@enc_written env0 categories1) < 4294967296) by (vm_compute; done).
  destruct (@ngx_bid_request_pack_overrun env0 categories1 (ctx0 (replicate 11 0)) categories1_good eq_refl ltac:(done) Hw)
    as (H1 & H2 & _ & H3).
  split; [exact H1|]. split; [exact H2|]. apply H3; [done|]. vm_compute. split_and!; done.
Defined.
