(* ===== verification/AdxComModule.v ===== *)
(** The nginx module of an exchange: adx_com_module.c of
    adx_module/adx_com_baidu (that of adx_com_inmobi is the same text with the
    other name), between nginx and the adapter of the exchange.

    A request of the exchange goes through four steps, each a function that
    nginx calls: [adx_com_baidu_handler] for the request, [.._post_handler]
    when its body has been read, [.._subrequest_handler] when the bidding server
    has answered the subrequest, [.._write_event_handler] to send the answer.
    nginx's own functions are parameters. *)

From Stdlib Require Import ZArith Lia.
From S2P Require Import Prelude NgxProtobuf NgxProtobufMsg NgxProtobufCodec NgxProtobufRead NgxProtobufMember.
From S2P Require Import NgxComProto NgxComProtoLaws NgxBaiduProto NgxBaiduProtoLaws AdxCom AdxComBaidu AdxComBaiduSpec.
From S2P Require Import AdxChain AdxNetwork.

Open Scope Z_scope.

(** ** Constants of nginx *)

Definition NGX_DONE : Z := -4.
Definition NGX_HTTP_POST : Z := 8.
Definition NGX_HTTP_SPECIAL_RESPONSE : Z := 300.
Definition NGX_HTTP_SUBREQUEST_IN_MEMORY : Z := 2.
Definition NGX_HTTP_SUBREQUEST_WAITED : Z := 4.

(** What the module needs of its adapter: the two functions from chain to chain. *)
Class ComAdapter := {
  adapter_request : mem -> Z -> cres (Z * mem);
  adapter_response : mem -> Z -> cres (Z * mem)
}.

(** [r->request_body]. *)
Record request_body := Body { body_bufs : Z; body_busy : Z }.

(** What the module reads and writes of an [ngx_http_request_t]: [net] is what
    AdxNetwork.v has of it, [in_content_length] the value of the header, [None]
    when there is none, [write_handler] whether [write_event_handler] is that
    of the module. *)
Record http_request := Http {
  net : request;
  method : Z;
  body : option request_body;
  in_content_length : option ngx_str_t;
  in_content_length_n : Z;
  write_handler : bool
}.
Definition set_net (r : http_request) (n : request) : http_request :=
  Http n (method r) (body r) (in_content_length r) (in_content_length_n r) (write_handler r).
Definition set_body (r : http_request) (b : request_body) : http_request :=
  Http (net r) (method r) (Some b) (in_content_length r) (in_content_length_n r) (write_handler r).
Definition set_content_length (r : http_request) (v : ngx_str_t) (n : Z) : http_request :=
  Http (net r) (method r) (body r) (Some v) n (write_handler r).

(** The subrequest: its status, and [r->upstream->out_bufs] when there is an
    upstream. *)
Record sub_request := Sub { sub_status : Z; upstream : option Z }.

(** The configuration of a location. *)
Record adx_com_baidu_conf := Conf { adx_com_location : ngx_str_t }.

(** [ngx_pcalloc] gives it empty; [None] is [NGX_CONF_ERROR]. *)
Definition adx_com_baidu_create (granted : bool) : option adx_com_baidu_conf :=
  if granted then Some (Conf ngx_null_string) else None.

(** The directive [adx_com_baidu]: [args] is [cf->args], [core] whether the
    location's handler is that of the module; [None] is [NGX_CONF_ERROR]. *)
Definition adx_com_baidu_command (args : list ngx_str_t) (conf : adx_com_baidu_conf) (core : bool)
  : option (adx_com_baidu_conf * bool) :=
  match args with
  | [_; value1] => Some (Conf value1, true)
  | _ => None
  end.

Section Module.
Context (ao : nat -> bool) `{!ComAdapter}.
Context (send_header : request -> Z * request) (output_filter : request -> mem -> Z -> Z * request).
Context (finalize_request : http_request -> Z -> http_request).
(** [ngx_http_subrequest] with the module's handler, for a uri and flags. *)
Context (http_subrequest : http_request -> ngx_str_t -> Z -> http_request).
(** [ngx_http_read_client_request_body] with the function it calls. *)
Context (read_body : (http_request -> mem -> cres (http_request * mem)) -> http_request -> mem -> cres (Z * http_request * mem)).
Context (fuel : nat).

Definition adx_com_baidu_write_event_handler (r : http_request) (m : mem) : cres http_request :=
  let '(_, n) := send_header (net r) in
  let r := set_net r n in
  b ← of_opt (body r);
  let '(rc, n) := output_filter (net r) m (body_bufs b) in
  mret (finalize_request (set_net r n) rc).

(** [r] is the subrequest, [data] unused. *)
Definition adx_com_baidu_subrequest_handler (r : sub_request) (parent_request : http_request) (rc : Z) (m : mem)
  : cres (Z * http_request * mem) :=
  let p := parent_request in
  let n := Req (sub_status r) (out_content_type (net p)) 0 (header_only (net p)) in
  let p := Http n (method p) (body p) (in_content_length p) (in_content_length_n p) true in
  b ← of_opt (body p);
  let p := set_body p (Body 0 (body_busy b)) in
  if decide (default 0 (upstream r) ≠ 0) then
    '(bufs, m) ← adapter_response m (default 0 (upstream r));
    len ← adx_chain_len fuel m bufs;
    let n := Req (out_status n) (out_content_type n) len (header_only n) in
    mret (rc, set_body (set_net p n) (Body bufs (body_busy b)), m)
  else mret (rc, p, m).

Definition adx_com_baidu_post_handler (conf : adx_com_baidu_conf) (r : http_request) (m : mem) : cres (http_request * mem) :=
  b ← of_opt (body r);
  '(bufs, m) ← adapter_request m (body_bufs b);
  let r := set_body r (Body bufs bufs) in
  content_length ← adx_chain_len fuel m bufs;
  _ ← of_opt (in_content_length r);
  '(value, m) ← adx_number_to_str ao m content_length;
  let r := set_content_length r value content_length in
  let '(post_subrequest, m) := ngx_pcalloc ao m in
  if decide (post_subrequest = 0) then mret (finalize_request r NGX_ERROR, m) else
  mret (http_subrequest r (adx_com_location conf) (Z.lor NGX_HTTP_SUBREQUEST_IN_MEMORY NGX_HTTP_SUBREQUEST_WAITED), m).

Definition adx_com_baidu_handler (conf : adx_com_baidu_conf) (r : http_request) (m : mem) : cres (Z * http_request * mem) :=
  if decide (method r ≠ NGX_HTTP_POST) then
    '(rc, n, m) ← adx_network_send_not_found ao send_header output_filter m (net r);
    mret (rc, set_net r n, m)
  else
    '(rc, r, m) ← read_body (adx_com_baidu_post_handler conf) r m;
    if decide (NGX_HTTP_SPECIAL_RESPONSE <= rc) then mret (rc, r, m) else
    mret (NGX_DONE, r, m).
End Module.

(** The adapter of Baidu's exchange; [alloc] decides the pool's answers. *)
Definition baidu_adapter `{E : NgxEnv} (alloc : nat -> bool) (fresh : Z -> bytes) (flag : bool) (fuel : nat) : ComAdapter :=
  {| adapter_request := adx_com_baidu_adapter_request alloc fresh flag fuel;
     adapter_response := adx_com_baidu_adapter_response alloc |}.

(** ** Chains of one buffer *)

Lemma chain_len_one fuel m p b t : p ≠ 0 -> (0 < fuel)%nat -> lenz t < 2147483648 ->
  get_chain m p = Ok (Chain b 0) -> get_buf m b = Ok (Buf t 0 (lenz t) 1 1) -> adx_chain_len fuel m p = Ok (lenz t).
Proof.
  intros Hp Hf Ht Hc Hb. unfold get_chain, get_buf, of_opt in Hc, Hb.
  destruct (chains m !! p) as [c|] eqn:Ec; [|done]. destruct (bufs m !! b) as [b'|] eqn:Eb; [|done].
  injection Hc as ->. injection Hb as ->.
  assert (concat [t] = t) as Et by (cbn [concat]; by rewrite app_nil_r).
  unfold adx_chain_len. rewrite (chain_len_loop_ok m [(p, b, Buf t 0 (lenz t) 1 1)] [t]).
  - unfold total. by rewrite Et.
  - constructor; [|constructor]. exact (link_contents t 1).
  - cbn [seg]. split_and!; [done|done|done|]. by exists 0.
  - done.
  - unfold total. rewrite Et. lia.
  - exact Hf.
Qed.

(** ["OK\r\n"] as a chain. *)
Lemma response_ok alloc m src : (forall k, alloc k = true) -> 0 < top m ->
  exists p b m', adx_com_baidu_adapter_response alloc m src = Ok (p, m') /\ p ≠ 0 /\
    get_chain m' p = Ok (Chain b 0) /\ get_buf m' b = Ok (Buf (B "OK" ++ CRLF) 0 4 1 1).
Proof.
  intros Ha Ht. unfold adx_com_baidu_adapter_response, adx_chain_alloc_r.
  assert (cstr ok_text = Ok (B "OK" ++ CRLF)) as -> by done. rewrite ok_bind, decide_False by done.
  change (u64 (i32 (lenz (B "OK" ++ CRLF)))) with 4.
  assert (0 < 4 <= lenz ok_text) as Hl by (vm_compute; split; done).
  unfold adx_chain_alloc, ngx_pcalloc. rewrite bool_decide_eq_false_2 by lia. cbn [negb orb].
  rewrite !Ha. cbn [set_chain set_buf chains bufs calls top]. rewrite !(decide_False (P := _ = 0)), decide_True by lia.
  eexists _, _, _. split; [done|]. split; [lia|]. unfold get_chain, get_buf. cbn [set_buf chains bufs].
  rewrite !lookup_insert_eq. done.
Qed.

(** The text of a number in its block. *)
Lemma number_to_str_ok ao m n : (forall k, ao k = true) -> 0 < top m ->
  exists s tl m', adx_number_to_str ao m n = Ok (NStr (lenz (dec n)) (Some s), m') /\ s = dec n ++ 0 :: tl /\
    chains m' = chains m /\ bufs m' = bufs m.
Proof.
  intros Ha Ht. unfold adx_number_to_str, ngx_pcalloc. rewrite Ha, decide_False by lia. pose proof (dec_le n) as Hd.
  unfold bwrite. rewrite decide_True by (rewrite length_app, length_replicate; cbn [length]; lia). cbn [mret cres_ret].
  rewrite ok_bind. change (Z.to_nat 0) with 0%nat. cbn [take app]. rewrite drop_replicate, <- app_assoc. by eexists _, _, _.
Qed.

(** ** The exchange with the bidding server *)

Section Exchange.
Context `{E : NgxEnv} (alloc : nat -> bool) (fresh : Z -> bytes) (flag : bool) (fuel : nat).
Context (send_header : request -> Z * request) (output_filter : request -> mem -> Z -> Z * request).
Context (finalize_request : http_request -> Z -> http_request) (http_subrequest : http_request -> ngx_str_t -> Z -> http_request).
Abbreviation adapter := (baidu_adapter alloc fresh flag fuel).
Abbreviation post conf := (adx_com_baidu_post_handler (H := adapter) alloc finalize_request http_subrequest fuel conf).

(** A pool that grants everything, and what it gives. *)
Definition granting : Prop :=
  (forall k, alloc k = true) /\ (forall k n, 0 <= n < 4294967296 -> ao k n = true) /\
  (forall n, 0 <= n -> lenz (fresh n) = n) /\ 0 <= base /\ base + 6442450944 < 18446744073709551616 /\ frames_sized.

(** The bytes of [r] in the links [xs] of the body, where strings refer to. *)
Definition posted (m : mem) (src : Z) (xs : list (Z * Z * ngx_buf_t)) (ts : list bytes) (r : ngx_bid_request_t) : Prop :=
  known r /\ seg m src xs 0 /\ holds xs ts /\ concat ts = enc r /\ 0 < lenz (enc r) <= 2147483646 /\ 0 < top m /\
  (length xs <= fuel)%nat /\ (length (enc r) <= fuel)%nat /\ input = enc r ++ [0].

(** What is handed to the subrequest. *)
Definition forwarded (r r1 : http_request) (m1 : mem) (q : ngx_com_request_t) : Prop :=
  exists p b s tl, r1 = set_content_length (set_body r (Body p p)) (NStr (lenz (dec (lenz (enc q)))) (Some s)) (lenz (enc q)) /\
    s = dec (lenz (enc q)) ++ 0 :: tl /\
    get_chain m1 p = Ok (Chain b 0) /\ get_buf m1 b = Ok (Buf (enc q) 0 (lenz (enc q)) 1 1) /\
    exists c, ngx_com_request__unpack (length (enc q)) request_zero (Ctx (enc q) 0 (lenz (enc q)) false true 0) =
      Ok (NgxProtobuf.NGX_OK, norm q, c).

Lemma post_handler_ok conf r m src xs ts busy h b q :
  granting -> posted m src xs ts b -> body r = Some (Body src busy) -> in_content_length r = Some h ->
  com_of (norm b) = Some q -> lenz (enc q) < 2147483648 ->
  exists r1 m1, post conf r m = Ok (http_subrequest r1 (adx_com_location conf) 6, m1) /\ forwarded r r1 m1 q.
Proof.
  intros (Ha & Hao & Hfr & Hb0 & Hb1 & Hfs) (Hk & Hseg & Hh & Hts & Hl & Ht & Hf1 & Hf2 & Hin) Hr Hcl Hq Hlq.
  destruct (baidu_request_ok alloc fresh flag fuel m src xs ts b q) as (p & bu & m1 & c & Er & Ht1 & Hp & Hc & Hbu & Hu); try done.
  unfold adx_com_baidu_post_handler. rewrite Hr. cbn [of_opt body_bufs]. rewrite ok_bind.
  cbn [adapter_request baidu_adapter body_bufs]. rewrite Er, ok_bind.
  cbn [set_body in_content_length].
  rewrite (chain_len_one fuel m1 p bu (enc q)) by (try done; assert (0 < length (enc b))%nat by lia; lia). rewrite ok_bind, Hcl.
  cbn [of_opt]. rewrite ok_bind.
  destruct (number_to_str_ok alloc m1 (lenz (enc q)) Ha Ht1) as (s & tl & m2 & En & Hs & Hc2 & Hb2). rewrite En, ok_bind.
  assert (0 < top m2) as Ht2.
  { revert En. unfold adx_number_to_str, ngx_pcalloc. rewrite Ha, decide_False by lia.
    destruct (bwrite _ _ _); [|done..]. rewrite ok_bind. intros [= _ <-]. cbn [top]. lia. }
  unfold ngx_pcalloc. rewrite Ha, decide_False by lia. eexists _, _. split; [done|].
  exists p, bu, s, tl. split_and!; try done.
  - unfold get_chain in *. cbn [chains]. by rewrite Hc2.
  - unfold get_buf in *. cbn [bufs]. by rewrite Hb2.
  - by exists c.
Qed.

(** A request from which the translation cannot be made. *)
Lemma adapter_request_fault m src xs ts b : granting -> posted m src xs ts b -> com_of (norm b) = None ->
  adx_com_baidu_adapter_request alloc fresh flag fuel m src = UB.
Proof.
  intros (Ha & Hao & Hfr & Hb0 & Hb1 & Hfs) (Hk & Hseg & Hh & Hts & Hl & Ht & Hf1 & Hf2 & Hin) Hq.
  destruct (baidu_init_ok alloc fuel m src xs ts b) as (o & c & m1 & Ei & Ht1 & Hm & Ho); try done.
  unfold adx_com_baidu_adapter_request. rewrite Ei, ok_bind.
  pose proof (com_of_vmap (deref (enc b ++ [0])) (deref_frames _) o) as Hv. rewrite Ho, Hq in Hv.
  destruct (com_of o) as [q0|] eqn:E0; [done|]. destruct (to_com_ok Hao o c) as (k & ->). by rewrite E0.
Qed.

Lemma adapter_request_null m : granting -> adx_com_baidu_adapter_request alloc fresh flag fuel m 0 = UB.
Proof.
  intros (_ & Hao & _). unfold adx_com_baidu_adapter_request, adx_com_baidu_adapter_init, adx_chain_to_str, adx_chain_len.
  assert (chain_len_loop fuel m 0 0 = Ok 0) as -> by (by destruct fuel). rewrite ok_bind, decide_True by lia. cbn [mret cres_ret].
  rewrite ok_bind. cbn [data len ngx_null_string default from_option]. rewrite (pcalloc_granted Hao). cbn [of_opt]. rewrite ok_bind.
  match goal with |- context [ngx_bid_request__unpack fuel bid_zero ?c] =>
    assert (ngx_bid_request__unpack fuel bid_zero c = Ok (NgxProtobuf.NGX_OK, bid_zero, c)) as ->
      by (unfold ngx_bid_request__unpack; by destruct fuel) end.
  rewrite ok_bind. cbn [mret cres_ret]. by rewrite ok_bind.
Qed.
End Exchange.

(** C7: The whole exchange.  A posted request of the exchange, once nginx has
    read its body into the links [xs], is forwarded: the module's handler gives
    [NGX_DONE] after asking for a subrequest to the configured location, in
    memory and waited for, whose body is one buffer with the bytes of the
    translation and whose Content-Length, as text and as a number, is their
    count; the bidding server unpacks them to a copy of the translation.  When
    the subrequest is done, whatever it answered, the request gets its status,
    and the four bytes ["OK\r\n"] when there was an answer, or no body at all;
    the write handler sends the header and that body and ends the request with
    the result. *)
Theorem adx_com_baidu_exchange `{E : NgxEnv} (alloc : nat -> bool) (fresh : Z -> bytes) (flag : bool) (fuel : nat)
    (send_header : request -> Z * request) (output_filter : request -> mem -> Z -> Z * request)
    (finalize_request : http_request -> Z -> http_request) (http_subrequest : http_request -> ngx_str_t -> Z -> http_request)
    (read_body : (http_request -> mem -> cres (http_request * mem)) -> http_request -> mem -> cres (Z * http_request * mem))
    (conf : adx_com_baidu_conf) (r : http_request) (m m0 : mem) (src busy rc0 : Z) (xs : list (Z * Z * ngx_buf_t))
    (ts : list bytes) (h : ngx_str_t) (b : ngx_bid_request_t) (q : ngx_com_request_t) :
  granting alloc fresh -> posted fuel m0 src xs ts b -> com_of (norm b) = Some q -> lenz (enc q) < 2147483648 ->
  method r = NGX_HTTP_POST -> in_content_length r = Some h -> rc0 < NGX_HTTP_SPECIAL_RESPONSE ->
  (forall cb, read_body cb r m = '(r, m) ← cb (set_body r (Body src busy)) m0; mret (rc0, r, m)) ->
  (exists r1 m1, adx_com_baidu_handler (H := baidu_adapter alloc fresh flag fuel) alloc send_header output_filter
       finalize_request http_subrequest read_body fuel conf r m =
     Ok (NGX_DONE, http_subrequest r1 (adx_com_location conf) 6, m1) /\ forwarded (set_body r (Body src busy)) r1 m1 q) /\
  (forall sub parent pb rc m2, body parent = Some pb -> 0 < top m2 -> exists parent' m3,
     adx_com_baidu_subrequest_handler (H := baidu_adapter alloc fresh flag fuel) fuel sub parent rc m2 = Ok (rc, parent', m3) /\
     out_status (net parent') = sub_status sub /\ write_handler parent' = true /\
     exists p, body parent' = Some (Body p (body_busy pb)) /\
       (default 0 (upstream sub) = 0 -> p = 0 /\ out_content_length_n (net parent') = 0) /\
       (default 0 (upstream sub) ≠ 0 -> out_content_length_n (net parent') = 4 /\
          exists bu, get_chain m3 p = Ok (Chain bu 0) /\ get_buf m3 bu = Ok (Buf (B "OK" ++ CRLF) 0 4 1 1)) /\
       let n := (send_header (net parent')).2 in
       adx_com_baidu_write_event_handler send_header output_filter finalize_request parent' m3 =
         Ok (finalize_request (set_net parent' (output_filter n m3 p).2) (output_filter n m3 p).1)).
Proof.
  intros Hg Hp Hq Hlq Hm Hcl Hrc Hread. split.
  - destruct (post_handler_ok alloc fresh flag fuel finalize_request http_subrequest conf (set_body r (Body src busy)) m0 src xs ts
      busy h b q) as (r1 & m1 & E1 & Hf); try done.
    exists r1, m1. split; [|exact Hf]. unfold adx_com_baidu_handler. rewrite decide_False by (intros Hn; by apply Hn).
    rewrite Hread, E1, ok_bind. cbn [mret cres_ret]. by rewrite ok_bind, decide_False by lia.
  - intros sub parent pb rc m2 Hpb Ht2. unfold adx_com_baidu_subrequest_handler. cbn [body]. rewrite Hpb. cbn [of_opt].
    rewrite ok_bind. destruct (decide (default 0 (upstream sub) ≠ 0)) as [Hu|Hu].
    + destruct Hg as (Ha & _). destruct Hp as (_ & _ & _ & _ & ? & _ & _ & Hf & _).
      destruct (response_ok alloc m2 (default 0 (upstream sub)) Ha Ht2) as (p & bu & m3 & Er & Hp0 & Hc & Hbu).
      cbn [adapter_response baidu_adapter]. rewrite Er, ok_bind.
      rewrite (chain_len_one fuel m3 p bu (B "OK" ++ CRLF)), ok_bind by (done || lia).
      eexists _, _. split; [done|]. split_and!; try done. exists p. split_and!; try done.
      * intros _. split; [done|]. by exists bu.
      * unfold adx_com_baidu_write_event_handler. cbn [set_body set_net net].
        destruct (send_header _) as [rc1 n]. cbn [set_net set_body body of_opt snd net body_bufs]. rewrite ok_bind. cbn [body_bufs].
        by destruct (output_filter n m3 p).
    + assert (default 0 (upstream sub) = 0) as Hu0 by lia. eexists _, _. split; [done|]. split_and!; try done. exists 0.
      split_and!; try done.
      unfold adx_com_baidu_write_event_handler. cbn [set_body set_net net].
      destruct (send_header _) as [rc1 n]. cbn [set_net set_body body of_opt snd net body_bufs]. rewrite ok_bind. cbn [body_bufs].
      by destruct (output_filter n m2 0).
Qed.

(** C19: Requests that stop the worker.  Whoever may post to the exchange's
    location makes [adx_com_baidu_post_handler] follow a NULL pointer: with no
    body at all; with any well-formed request that lacks one of the parts
    [com_of] needs; and with a complete request without a Content-Length
    header, as a chunked body has none. *)
Theorem adx_com_baidu_post_handler_faults `{E : NgxEnv} (alloc : nat -> bool) (fresh : Z -> bytes) (flag : bool) (fuel : nat)
    (finalize_request : http_request -> Z -> http_request) (http_subrequest : http_request -> ngx_str_t -> Z -> http_request)
    (conf : adx_com_baidu_conf) (r : http_request) (m : mem) (src busy : Z) :
  let post := adx_com_baidu_post_handler (H := baidu_adapter alloc fresh flag fuel) alloc finalize_request http_subrequest fuel conf r m in
  granting alloc fresh -> body r = Some (Body src busy) ->
  (src = 0 -> post = UB) /\
  (forall xs ts b, posted fuel m src xs ts b -> com_of (norm b) = None -> post = UB) /\
  (forall xs ts b q, posted fuel m src xs ts b -> com_of (norm b) = Some q -> lenz (enc q) < 2147483648 ->
     in_content_length r = None -> post = UB).
Proof.
  intros post Hg Hr. subst post. unfold adx_com_baidu_post_handler. rewrite Hr. cbn [of_opt]. rewrite ok_bind.
  cbn [adapter_request baidu_adapter body_bufs]. split_and!.
  - intros ->. by rewrite adapter_request_null.
  - intros xs ts b Hp Hq. by erewrite adapter_request_fault.
  - intros xs ts b q (Hk & Hseg & Hh & Hts & Hl & Ht & Hf1 & Hf2 & Hin) Hq Hlq Hcl. destruct Hg as (Ha & Hao & Hfr & Hb0 & Hb1 & Hfs).
    destruct (baidu_request_ok alloc fresh flag fuel m src xs ts b q) as (p & bu & m1 & c & -> & Ht1 & Hp & Hc & Hbu & Hu); try done.
    rewrite ok_bind. cbn [set_body in_content_length].
    rewrite (chain_len_one fuel m1 p bu (enc q)) by (try done; assert (0 < length (enc b))%nat by lia; lia).
    by rewrite ok_bind, Hcl.
Qed.

(** ** Examples *)

Lemma granting_env1 : @granting env1 (fun _ => true) (fun n => replicate (Z.to_nat n) 7).
Proof.
  split_and!; try done. intros n Hn. rewrite length_replicate. lia.
Qed.

Lemma posted_env1 : @posted env1 400 baidu1_mem 1 (zip [(1, 11); (2, 12)] baidu1_bufs)
  [take 10 baidu1_bytes; drop 10 baidu1_bytes] baidu1.
Proof.
  split; [exact baidu1_known|]. split_and!.
  - vm_compute. split_and!; try done. eexists. split_and!; try done. by eexists.
  - repeat constructor.
  - vm_compute. done.
  - vm_compute. done.
  - vm_compute. done.
  - done.
  - cbn. lia.
  - apply Nat.leb_le. vm_compute. done.
  - vm_compute. done.
Qed.

Definition exchange_request (h : option ngx_str_t) : http_request :=
  Http (Req 200 ngx_null_string 0 false) 8 (Some (Body 1 0)) h 5 false.

Lemma adx_com_baidu_exchange_witness :
  exists r1 m1, @adx_com_baidu_handler (fun _ => true)
     (@baidu_adapter env1 (fun _ => true) (fun n => replicate (Z.to_nat n) 7) true 400)
     (fun n => (0, n)) (fun n _ _ => (0, n)) (fun r _ => r) (fun r _ _ => r)
     (fun cb r _ => '(r, m) ← cb (set_body r (Body 1 0)) baidu1_mem; mret (0, r, m)) 400 (Conf ngx_null_string)
     (exchange_request (Some ngx_null_string)) baidu1_mem =
   Ok (NGX_DONE, r1, m1) /\ @forwarded env1 (set_body (exchange_request (Some ngx_null_string)) (Body 1 0)) r1 m1 baidu1_com.
Proof.
  refine (proj1 (@adx_com_baidu_exchange env1 (fun _ => true) (fun n => replicate (Z.to_nat n) 7) true 400
    (fun n => (0, n)) (fun n _ _ => (0, n)) (fun r _ => r) (fun r _ _ => r)
    (fun cb r _ => '(r, m) ← cb (set_body r (Body 1 0)) baidu1_mem; mret (0, r, m)) (Conf ngx_null_string)
    (exchange_request (Some ngx_null_string)) baidu1_mem baidu1_mem 1 0 0 (zip [(1, 11); (2, 12)] baidu1_bufs)
    [take 10 baidu1_bytes; drop 10 baidu1_bytes] ngx_null_string baidu1 baidu1_com granting_env1 posted_env1 _ _ _ _ _ _)).
  - vm_compute. done.
  - vm_compute. done.
  - done.
  - done.
  - done.
  - done.
Defined.

Lemma adx_com_baidu_post_handler_faults_witness :
  @adx_com_baidu_post_handler (fun _ => true) (@baidu_adapter env1 (fun _ => true) (fun n => replicate (Z.to_nat n) 7) true 400)
    (fun r _ => r) (fun r _ _ => r) 400 (Conf ngx_null_string) (exchange_request None) baidu1_mem = UB.
Proof.
  refine (proj2 (proj2 (@adx_com_baidu_post_handler_faults env1 (fun _ => true) (fun n => replicate (Z.to_nat n) 7) true 400
    (fun r _ => r) (fun r _ _ => r) (Conf ngx_null_string) (exchange_request None) baidu1_mem 1 0 granting_env1 _)) _ _ baidu1 baidu1_com
    posted_env1 _ _ _).
  - done.
  - vm_compute. done.
  - vm_compute. done.
  - done.
Defined.
