(* ===== verification/AdxComInmobi.v ===== *)
(** The adapter of InMobi's exchange
    (adx_module/adx_com_inmobi/adx_com_adapter.c).

    A request is a JSON document; the adapter parses it, prints what it found
    on the standard output, and hands the chain on as it came.  The text printed
    is the second part of the result.  Addresses of JSON nodes are those of
    AdxJson.v, 0 for NULL. *)

From Stdlib Require Import ZArith Lia.
From S2P Require Import Prelude AdxJson AdxJsonDoc AdxJsonRound AdxJsonPrint AdxJsonApi AdxJsonHeap.
From S2P Require AdxChain.

Open Scope Z_scope.

(** ** Printing *)

(** [fprintf(stdout, "<label> = %d\n", z)] and the same with [%s]. *)
Definition line_d (label : string) (z : Z) : bytes := B label ++ B " = " ++ dec z ++ [10].
Definition line_s (label : string) (s : option bytes) : bytes := B label ++ B " = " ++ percent_s s ++ [10].

(** [adx_list_for_each] over children, each printing. *)
Fixpoint for_each (f : Z -> cres bytes) (cs : list Z) : cres bytes :=
  match cs with
  | [] => mret []
  | c :: cs => out ← f c; rest ← for_each f cs; mret (out ++ rest)
  end.

(** The value of a number, converted to [int]. *)
Definition int_member (m : jmem) (root : Z) (k : string) : cres Z :=
  v ← adx_json_find_value_number m root (Some (B k)); mret (i32 v).
Definition string_member (m : jmem) (root : Z) (k : string) : cres (option bytes) :=
  adx_json_find_value_string m root (Some (B k)).

(** The members of a group, each on a line. *)
Fixpoint print_strings (m : jmem) (root : Z) (ks : list (string * string)) : cres bytes :=
  match ks with
  | [] => mret []
  | (label, k) :: ks => v ← string_member m root k; rest ← print_strings m root ks; mret (line_s label v ++ rest)
  end.

(** ** The parts of a request *)

Definition parse_mime (m : jmem) (c : Z) : cres bytes :=
  node ← get m c;
  mret (if decide (type node = ADX_JSON_STRING) then line_s "banner -> mimes" (val node) else []).

Definition adx_com_inmobi_parse_banner (m : jmem) (banner : Z) : cres bytes :=
  w ← int_member m banner "w";
  h ← int_member m banner "h";
  let out := line_d "banner -> w" w ++ line_d "banner -> h" h in
  mimes ← adx_json_find m banner (Some (B "mimes"));
  ok ← adx_json_array_check m mimes;
  if decide (ok ≠ 0) then mret out else
  node ← get m mimes;
  rest ← for_each (parse_mime m) (child node);
  mret (out ++ rest).

Definition parse_asset (m : jmem) (node : Z) : cres bytes :=
  img ← adx_json_find m node (Some (B "img"));
  type ← int_member m img "type";
  if decide (type = 1) then
    w ← int_member m img "wmin";
    h ← int_member m img "hmin";
    mret (line_d "native -> w" w ++ line_d "native -> h" h)
  else if decide (type = 3) then
    w ← int_member m img "wmin";
    h ← int_member m img "hmin";
    mret (line_d "native -> w" w ++ line_d "native -> h" h)
  else mret [].

Definition adx_com_inmobi_parse_native (m : jmem) (native : Z) : cres bytes :=
  requestobj ← adx_json_find m native (Some (B "requestobj"));
  layout ← int_member m requestobj "layout";
  let out := line_d "native -> layout" layout in
  assets ← adx_json_find m requestobj (Some (B "assets"));
  ok ← adx_json_array_check m assets;
  if decide (ok ≠ 0) then mret out else
  node ← get m assets;
  rest ← for_each (parse_asset m) (child node);
  mret (out ++ rest).

Definition device_ids : list (string * string) :=
  [("device -> device_id -> ifa", "ifa"); ("device -> device_id -> imei_sha1", "didsha1");
   ("device -> device_id -> imei_md5", "didmd5"); ("device -> device_id -> android_id_sha1", "dpidsha1");
   ("device -> device_id -> android_id_md5", "dpidmd5")]%string.
Definition device_ext_ids : list (string * string) :=
  [("device -> device_id -> idfa_sha1", "idfasha1"); ("device -> device_id -> idfa_md5", "idfamd5");
   ("device -> device_id -> android_id", "gpid")]%string.
Definition device_os : list (string * string) := [("device -> os", "os"); ("device -> osv", "osv")]%string.
Definition device_rest : list (string * string) :=
  [("device -> model", "model"); ("device -> brand", "make"); ("device -> ua", "ua"); ("device -> ip", "ip")]%string.

Definition adx_com_inmobi_parse_device (m : jmem) (device : Z) : cres bytes :=
  ids ← print_strings m device device_ids;
  ext ← adx_json_find m device (Some (B "ext"));
  ext_ids ← print_strings m ext device_ext_ids;
  device_type ← int_member m device "devicetype";
  os ← print_strings m device device_os;
  connection_type ← int_member m device "connectiontype";
  rest ← print_strings m device device_rest;
  mret (ids ++ ext_ids ++ line_d "device -> device_type" device_type ++ os ++
        line_d "device -> connection_type" connection_type ++ rest).

Definition adx_com_inmobi_parse_app (m : jmem) (app : Z) : cres bytes :=
  print_strings m app [("app -> id", "id"); ("app -> name", "name")]%string.

Definition parse_slot (m : jmem) (adx_slot : Z) : cres bytes :=
  banner ← adx_json_find m adx_slot (Some (B "banner"));
  native ← adx_json_find m adx_slot (Some (B "native"));
  out1 ← (if decide (banner ≠ 0) then adx_com_inmobi_parse_banner m banner else mret []);
  out2 ← (if decide (native ≠ 0) then adx_com_inmobi_parse_native m native else mret []);
  mret (out1 ++ out2).

(** After [adx_json_parse]; [json] is 0 when the text is no document. *)
Definition parse_root (m : jmem) (json : Z) : cres bytes :=
  bid ← string_member m json "id";
  let out := line_s "bid" bid in
  adx_slots ← adx_json_find m json (Some (B "imp"));
  ok ← adx_json_array_check m adx_slots;
  if decide (ok ≠ 0) then mret out else
  node ← get m adx_slots;
  slots ← for_each (parse_slot m) (child node);
  device ← adx_json_find m json (Some (B "device"));
  dev ← adx_com_inmobi_parse_device m device;
  app ← adx_json_find m json (Some (B "app"));
  app ← adx_com_inmobi_parse_app m app;
  mret (out ++ slots ++ dev ++ app).

Section Adapter.
Context (alloc ao : nat -> bool) (fuel : nat).

(** [buffer] is NULL or a block; [adx_json_parse] reads through it once the
    root has been created. *)
Definition adx_com_inmobi_parse (m : jmem) (buffer : option bytes) : cres (bytes * jmem) :=
  '(json, m) ← match buffer with
               | Some b => s ← cstr b; adx_json_parse ao m s
               | None => '(root, m) ← adx_json_create ao m 0 None 0; if decide (root = 0) then mret (0, m) else UB
               end;
  out ← parse_root m json;
  mret (out, m).

Definition adx_com_inmobi_adapter_request (m : AdxChain.mem) (jm : jmem) (src : Z) : cres (Z * bytes * AdxChain.mem * jmem) :=
  '(str, m) ← AdxChain.adx_chain_to_str alloc fuel m src;
  '(out, jm) ← adx_com_inmobi_parse jm (AdxChain.data str);
  mret (src, out, m, jm).

Definition adx_com_inmobi_adapter_response (m : AdxChain.mem) (src : Z) : cres (Z * AdxChain.mem) := mret (src, m).
End Adapter.

(** ** What is printed of a document *)

(** The elements of an array member. *)
Definition elements_of (l : list (option bytes * jv)) (k : bytes) : list jv :=
  match first_member l k with Some (Coll true xs) => map snd xs | _ => [] end.

Definition int_of (l : list (option bytes * jv)) (k : string) : Z := i32 (number_of l (B k)).
Definition report_strings (l : list (option bytes * jv)) (ks : list (string * string)) : bytes :=
  concat (map (fun lk => line_s lk.1 (text_of l (B lk.2))) ks).

Definition report_mime (v : jv) : bytes :=
  match v with Leaf t s => if decide (t = ADX_JSON_STRING) then line_s "banner -> mimes" (Some s) else [] | Coll _ _ => [] end.
Definition report_banner (l : list (option bytes * jv)) : bytes :=
  line_d "banner -> w" (int_of l "w") ++ line_d "banner -> h" (int_of l "h") ++
  concat (map report_mime (elements_of l (B "mimes"))).

Definition report_asset (v : jv) : bytes :=
  let img := members_of (members v) (B "img") in
  if decide (int_of img "type" = 1 \/ int_of img "type" = 3)
  then line_d "native -> w" (int_of img "wmin") ++ line_d "native -> h" (int_of img "hmin") else [].
Definition report_native (l : list (option bytes * jv)) : bytes :=
  let o := members_of l (B "requestobj") in
  line_d "native -> layout" (int_of o "layout") ++ concat (map report_asset (elements_of o (B "assets"))).

Definition report_slot (v : jv) : bytes :=
  match first_member (members v) (B "banner") with Some b => report_banner (members b) | None => [] end ++
  match first_member (members v) (B "native") with Some n => report_native (members n) | None => [] end.

Definition report_device (l : list (option bytes * jv)) : bytes :=
  report_strings l device_ids ++ report_strings (members_of l (B "ext")) device_ext_ids ++
  line_d "device -> device_type" (int_of l "devicetype") ++ report_strings l device_os ++
  line_d "device -> connection_type" (int_of l "connectiontype") ++ report_strings l device_rest.

Definition report (l : list (option bytes * jv)) : bytes :=
  line_s "bid" (text_of l (B "id")) ++
  match elements_of l (B "imp") with
  | [] => []
  | slots => concat (map report_slot slots) ++ report_device (members_of l (B "device")) ++
             report_strings (members_of l (B "app")) [("app -> id", "id"); ("app -> name", "name")]%string
  end.

(** ** The functions print it *)

Section Reports.
Context (m : jmem).

Lemma int_member_ok a l k : lists m a l -> int_member m a k = Ok (int_of l k).
Proof. intros Ha. unfold int_member. by rewrite (find_number_ok m a l) by done. Qed.

Lemma print_strings_ok a l ks : lists m a l -> print_strings m a ks = Ok (report_strings l ks).
Proof.
  intros Ha. induction ks as [|[label k] ks IH]; [done|]. cbn [print_strings]. unfold string_member.
  rewrite (find_text m a l), ok_bind, IH by done. done.
Qed.

(** Members that are well-formed values. *)
Definition oks (l : list (option bytes * jv)) : Prop := Forall (fun kv => jv_ok kv.2) l.

Lemma members_ok v : jv_ok v -> oks (members v).
Proof.
  destruct v as [arr l|t s]; [|by intros _; constructor]. intros [_ H]%jv_ok_coll. eapply Forall_impl; [exact H|]. by intros kv [_ ?].
Qed.

Lemma members_of_ok l k : oks l -> oks (members_of l k).
Proof.
  intros Hl. unfold members_of. pose proof (first_member_ok jv_ok l k Hl) as H. destruct (first_member l k); [by apply members_ok|constructor].
Qed.

(** The children of a collection, walked by [f]. *)
Lemma for_each_ok lo hi cs xs f (g : jv -> bytes) : 0 < lo ->
  Forall2 (fun c kv => holds lo hi m c kv.1 kv.2) cs xs -> oks xs ->
  (forall c k v, rep m c k (Some v) -> jv_ok v -> f c = Ok (g v)) -> for_each f cs = Ok (concat (map g (map snd xs))).
Proof.
  intros Hlo Hc Hv Hf. revert Hv. induction Hc as [|c kv cs kvs Hkv Hc IH]; intros Hv; [done|].
  apply Forall_cons in Hv as [Hv1 Hv2]. cbn [for_each map concat].
  by rewrite (Hf c kv.1 kv.2), ok_bind, IH, ok_bind by (done || by exists lo, hi).
Qed.

(** An array member, walked by [f]. *)
Lemma array_ok a l k out f (g : jv -> bytes) : lists m a l -> oks l ->
  (forall c k v, rep m c k (Some v) -> jv_ok v -> f c = Ok (g v)) ->
  (p ← adx_json_find m a (Some k);
   ok ← adx_json_array_check m p;
   if decide (ok ≠ 0) then mret out else
   node ← get m p; rest ← for_each f (child node); mret (out ++ rest)) = Ok (out ++ concat (map g (elements_of l k))).
Proof.
  intros Ha Hok Hf. destruct (json_find_ok m a l k Ha) as (p & -> & Hp). rewrite ok_bind.
  pose proof (first_member_ok jv_ok l k Hok) as Hv. unfold elements_of.
  rewrite (array_check_ok m p _ _ Hp Hv), ok_bind. destruct (first_member l k) as [[[] [|x xs]|t s]|];
    try (rewrite decide_True by done; cbn [map concat]; by rewrite app_nil_r).
  rewrite decide_False by (intros H; by apply H). destruct Hp as (lo & hi & Hlo & Hp). apply members_ok in Hv. cbn [members] in Hv.
  apply holds_inv in Hp as (_ & n & Hn & _ & _ & Hc & _). unfold get at 1. rewrite Hn. cbn [of_opt members] in *. rewrite ok_bind.
  by rewrite (for_each_ok lo hi _ _ f g Hlo Hc Hv Hf), ok_bind.
Qed.

Lemma mime_ok c k v : rep m c k (Some v) -> jv_ok v -> parse_mime m c = Ok (report_mime v).
Proof.
  unfold parse_mime. intros (_ & n & -> & Ht & Hv)%rep_node Hok. rewrite ok_bind, Ht.
  destruct v as [[] l|t s]; [done|done|]. cbn [jtype report_mime]. by rewrite Hv.
Qed.

Lemma banner_ok a l : lists m a l -> oks l -> adx_com_inmobi_parse_banner m a = Ok (report_banner l).
Proof.
  intros Ha Hl. unfold adx_com_inmobi_parse_banner. rewrite !(int_member_ok a l), !ok_bind by done. cbv zeta.
  rewrite (array_ok a l _ _ _ report_mime); [|done|done|exact mime_ok]. unfold report_banner. by rewrite app_assoc.
Qed.

Lemma asset_ok c k v : rep m c k (Some v) -> jv_ok v -> parse_asset m c = Ok (report_asset v).
Proof.
  intros Hc%rep_lists Hok. unfold parse_asset, report_asset.
  destruct (find_members m c (members v) (B "img") Hc) as (img & -> & Hi). rewrite ok_bind, !(int_member_ok img _ _ Hi), !ok_bind.
  repeat case_decide; try done; tauto.
Qed.

Lemma native_ok a l : lists m a l -> oks l -> adx_com_inmobi_parse_native m a = Ok (report_native l).
Proof.
  intros Ha Hl. unfold adx_com_inmobi_parse_native.
  destruct (find_members m a l (B "requestobj") Ha) as (o & -> & Ho). rewrite ok_bind, (int_member_ok o _ _ Ho), ok_bind. cbv zeta.
  apply (array_ok o (members_of l (B "requestobj")) _ _ _ report_asset); [done|by apply members_of_ok|exact asset_ok].
Qed.

Lemma device_ok a l : lists m a l -> adx_com_inmobi_parse_device m a = Ok (report_device l).
Proof.
  intros Ha. unfold adx_com_inmobi_parse_device. rewrite !(print_strings_ok a l), !(int_member_ok a l), ok_bind by done.
  destruct (find_members m a l (B "ext") Ha) as (e & -> & He). rewrite ok_bind, (print_strings_ok e _ _ He), ok_bind.
  by rewrite !ok_bind.
Qed.

Lemma slot_ok c k v : rep m c k (Some v) -> jv_ok v -> parse_slot m c = Ok (report_slot v).
Proof.
  intros Hc%rep_lists Hok%members_ok. unfold parse_slot, report_slot.
  destruct (json_find_ok m c (members v) (B "banner") Hc) as (b & -> & Hb). rewrite ok_bind.
  destruct (json_find_ok m c (members v) (B "native") Hc) as (n & -> & Hn). rewrite ok_bind.
  pose proof (first_member_ok jv_ok _ (B "banner") Hok) as Hbo. pose proof (first_member_ok jv_ok _ (B "native") Hok) as Hno.
  pose proof (rep_lists _ _ _ _ Hb) as Lb. pose proof (rep_lists _ _ _ _ Hn) as Ln.
  assert ((if decide (b ≠ 0) then adx_com_inmobi_parse_banner m b else mret []) =
    Ok match first_member (members v) (B "banner") with Some b => report_banner (members b) | None => [] end) as ->.
  { destruct (first_member (members v) (B "banner")); [|subst; by rewrite decide_False by (intros H; by apply H)].
    rewrite decide_True by (by eapply rep_node). apply banner_ok; [done|by apply members_ok]. }
  assert ((if decide (n ≠ 0) then adx_com_inmobi_parse_native m n else mret []) =
    Ok match first_member (members v) (B "native") with Some b => report_native (members b) | None => [] end) as ->.
  { destruct (first_member (members v) (B "native")); [|subst; by rewrite decide_False by (intros H; by apply H)].
    rewrite decide_True by (by eapply rep_node). apply native_ok; [done|by apply members_ok]. }
  done.
Qed.

Lemma root_report a l : lists m a l -> oks l -> parse_root m a = Ok (report l).
Proof.
  intros Ha Hl. unfold parse_root, report. unfold string_member at 1. rewrite (find_text m a l), ok_bind by done. cbv zeta.
  destruct (json_find_ok m a l (B "imp") Ha) as (p & -> & Hp). rewrite ok_bind.
  pose proof (first_member_ok jv_ok l (B "imp") Hl) as Hv. unfold elements_of.
  rewrite (array_check_ok m p _ _ Hp Hv), ok_bind. destruct (first_member l (B "imp")) as [[[] [|x xs]|t s]|];
    try (rewrite decide_True by done; cbn [map]; by rewrite app_nil_r).
  rewrite decide_False by (intros H; by apply H). destruct Hp as (lo & hi & Hlo & Hp). apply members_ok in Hv. cbn [members] in Hv.
  apply holds_inv in Hp as (_ & n & Hn & _ & _ & Hc & _). unfold get at 1. rewrite Hn. cbn [of_opt members] in *. rewrite ok_bind.
  rewrite (for_each_ok lo hi _ _ _ _ Hlo Hc Hv slot_ok), ok_bind. destruct (find_members m a l (B "device") Ha) as (d & -> & Hd). rewrite ok_bind, (device_ok d _ Hd), ok_bind.
  destruct (find_members m a l (B "app") Ha) as (p' & -> & Hp'). rewrite ok_bind.
  unfold adx_com_inmobi_parse_app. rewrite (print_strings_ok p' _ _ Hp'), ok_bind. done.
Qed.
End Reports.

(** ** On any document they print something *)

(** A computation that succeeds. *)
Definition prints (r : cres bytes) : Prop := exists out, r = Ok out.

Section Safe.
Context (m : jmem) (Hm : closed m).

Lemma int_member_safe a k : pointer m a -> exists z, int_member m a k = Ok z.
Proof. intros Ha. unfold int_member. destruct (find_number_safe m Hm a (Some (B k)) Ha) as [v ->]. rewrite ok_bind. eauto. Qed.

Lemma print_strings_safe a ks : pointer m a -> prints (print_strings m a ks).
Proof.
  intros Ha. induction ks as [|[label k] ks [out IH]]; [by eexists|]. cbn [print_strings]. unfold string_member.
  destruct (find_string_safe m Hm a (Some (B k)) Ha) as [v ->]. rewrite ok_bind, IH, ok_bind. by eexists.
Qed.

Lemma for_each_safe f cs : Forall (fun c => is_Some (nodes m !! c)) cs ->
  (forall c, is_Some (nodes m !! c) -> prints (f c)) -> prints (for_each f cs).
Proof.
  intros Hcs Hf. induction Hcs as [|c cs Hc Hcs [rest IH]]; [by eexists|]. cbn [for_each].
  destruct (Hf c Hc) as [out ->]. rewrite ok_bind, IH, ok_bind. by eexists.
Qed.

Lemma array_safe a out f (k : bytes -> cres bytes) : pointer m a -> (forall c, is_Some (nodes m !! c) -> prints (f c)) ->
  (forall rest, prints (k rest)) -> prints out ->
  prints (ok ← adx_json_array_check m a; if decide (ok ≠ 0) then out else node ← get m a; rest ← for_each f (child node); k rest).
Proof.
  intros Ha Hf Hk Hout. destruct (array_check_safe m Hm a Ha) as (r & -> & Hr). rewrite ok_bind. case_decide as E; [done|].
  destruct Hr as (n & -> & Hn); [lia|]. rewrite ok_bind. destruct (for_each_safe f (child n) Hn Hf) as [rest ->]. by rewrite ok_bind.
Qed.

(** One lookup after the other. *)
Ltac lookups :=
  repeat match goal with
  | |- prints (mret _) => by eexists
  | |- pointer m _ => assumption
  | |- prints (if decide _ then _ else _) => case_decide
  | |- prints (adx_json_find m ?a ?k ≫= _) =>
      let c := fresh "c" in let Hc := fresh "Hc" in
      destruct (find_safe m Hm a k) as (c & -> & Hc); [|rewrite ok_bind]
  | |- prints (int_member m ?a ?k ≫= _) =>
      let z := fresh "z" in destruct (int_member_safe a k) as (z & ->); [|rewrite ok_bind]
  | |- prints (print_strings m ?a ?ks ≫= _) =>
      let o := fresh "o" in destruct (print_strings_safe a ks) as (o & ->); [|rewrite ok_bind]
  end.

Lemma banner_safe a : pointer m a -> prints (adx_com_inmobi_parse_banner m a).
Proof.
  intros Ha. unfold adx_com_inmobi_parse_banner. lookups. apply array_safe; [done| |by eexists|by eexists].
  intros q [n Hn]. unfold parse_mime, get. rewrite Hn. by eexists.
Qed.

Lemma native_safe a : pointer m a -> prints (adx_com_inmobi_parse_native m a).
Proof.
  intros Ha. unfold adx_com_inmobi_parse_native. lookups. apply array_safe; [done| |by eexists|by eexists].
  intros q Hq. assert (pointer m q) by (by right). unfold parse_asset. lookups.
Qed.

Lemma slot_safe q : is_Some (nodes m !! q) -> prints (parse_slot m q).
Proof.
  intros Hq. assert (pointer m q) by (by right). unfold parse_slot. lookups.
  assert (prints (if decide (c ≠ 0) then adx_com_inmobi_parse_banner m c else mret [])) as [o ->]
    by (case_decide; [by apply banner_safe|by eexists]).
  assert (prints (if decide (c0 ≠ 0) then adx_com_inmobi_parse_native m c0 else mret [])) as [o' ->]
    by (case_decide; [by apply native_safe|by eexists]). by eexists.
Qed.

Lemma root_safe a : pointer m a -> prints (parse_root m a).
Proof.
  intros Ha. unfold parse_root, string_member. destruct (find_string_safe m Hm a (Some (B "id")) Ha) as [v ->]. rewrite ok_bind.
  lookups. apply array_safe; [done|exact slot_safe| |by eexists]. intros slots. lookups.
  unfold adx_com_inmobi_parse_device, adx_com_inmobi_parse_app.
  assert (prints (adx_com_inmobi_parse_device m c0)) as [o E] by (unfold adx_com_inmobi_parse_device; lookups).
  unfold adx_com_inmobi_parse_device in E. rewrite E, ok_bind. lookups.
Qed.
End Safe.

(** ** The adapter *)

Lemma cstr_no_nul b s : cstr b = Ok s -> no_nul s.
Proof.
  revert s. induction b as [|c b IH]; intros s; cbn [cstr]; [done|]. case_decide; [intros [= <-]; constructor|].
  intros (t & E & [= <-])%cres_bind_ok. constructor; [done|]. by apply IH.
Qed.

Lemma cstr_nul b : exists s, cstr (b ++ [0]) = Ok s /\ (length s <= length b)%nat.
Proof.
  induction b as [|c b (s & IH & Hs)]; [by exists []|]. cbn [app cstr length]. case_decide; [exists []; simpl; auto with lia|].
  rewrite IH, ok_bind. eexists. split; [done|]. simpl. lia.
Qed.

Section Request.
Context (alloc ao : nat -> bool) (fuel : nat).
Abbreviation request := (adx_com_inmobi_adapter_request alloc ao fuel).

(** A chain with text. *)
Lemma request_text m jm src xs ts :
  AdxChain.seg m src xs 0 -> AdxChain.holds xs ts -> 0 < AdxChain.total ts <= 2147483646 -> 0 < AdxChain.top m ->
  (length xs <= fuel)%nat -> alloc (AdxChain.calls m) = true ->
  exists m1, AdxChain.seg m1 src xs 0 /\ 0 < AdxChain.top m1 /\
    request m jm src = '(out, jm) ← adx_com_inmobi_parse ao jm (Some (concat ts ++ [0])); mret (src, out, m1, jm).
Proof.
  intros Hs Hh Ht Htop Hf Ha.
  destruct (AdxChain.chain_to_str_ok alloc fuel m src xs ts Hs Hh) as (_ & m1 & Hs1 & Ht1 & E); [lia|done|done|].
  rewrite decide_True, Ha in E by lia. exists m1. split_and!; [done|done|].
  unfold adx_com_inmobi_adapter_request. by rewrite E, ok_bind.
Qed.

(** A chain without any, or a refused block. *)
Lemma request_null m jm src xs ts :
  AdxChain.seg m src xs 0 -> AdxChain.holds xs ts -> AdxChain.total ts <= 2147483646 -> 0 < AdxChain.top m ->
  (length xs <= fuel)%nat -> AdxChain.total ts = 0 \/ alloc (AdxChain.calls m) = false ->
  ao (nalloc jm) = true -> request m jm src = UB.
Proof.
  intros Hs Hh Ht Htop Hf Hn Ha.
  destruct (AdxChain.chain_to_str_ok alloc fuel m src xs ts Hs Hh) as (_ & m1 & Hs1 & Ht1 & E); [lia|done|done|].
  unfold adx_com_inmobi_adapter_request. rewrite E. 
  assert ((if decide (0 < AdxChain.total ts) then
            if alloc (AdxChain.calls m) then AdxChain.NStr (AdxChain.total ts) (Some (concat ts ++ [0])) else AdxChain.ngx_null_string
          else AdxChain.ngx_null_string) = AdxChain.ngx_null_string) as ->.
  { case_decide; [|done]. destruct Hn as [Hn| ->]; [lia|done]. }
  rewrite ok_bind. cbn [AdxChain.data AdxChain.ngx_null_string]. unfold adx_com_inmobi_parse, adx_json_create.
  rewrite alloc_small by apply small_size_json. rewrite Ha, ok_bind, decide_False by lia. cbn [mret cres_ret]. rewrite ok_bind, decide_False by (intros [H _]; by destruct H).
  rewrite decide_True by done. cbn [mret cres_ret]. rewrite !ok_bind, decide_False by lia. done.
Qed.

Lemma parse_total jm b : closed jm -> Z.of_nat (length b) < 2147483647 -> exists out jm', adx_com_inmobi_parse ao jm (Some (b ++ [0])) = Ok (out, jm') /\ closed jm'.
Proof.
  intros Hm Hb. unfold adx_com_inmobi_parse. destruct (cstr_nul b) as (s & Es & Hs). rewrite Es, ok_bind.
  destruct (parse_safe ao jm s (cstr_no_nul _ _ Es) ltac:(lia)) as (root & jm1 & Ep & Hr). rewrite Ep, ok_bind.
  assert (closed jm1) as Hm1 by (by eapply parse_keeps). destruct (root_safe jm1 Hm1 root Hr) as [out ->]. rewrite ok_bind. by exists out, jm1.
Qed.

(** A posted document. *)
Lemma parse_document jm l : (forall k, ao k = true) -> wf jm -> jv_ok (Coll false l) ->
  Z.of_nat (length (body (Coll false l))) < 2147483647 ->
  exists jm', adx_com_inmobi_parse ao jm (Some (body (Coll false l) ++ [0])) = Ok (report l, jm').
Proof.
  intros Hao Hm Hl Hmax. unfold adx_com_inmobi_parse. rewrite cstr_app, ok_bind by (by apply body_no_nul).
  destruct (parse_doc_ok ao Hao jm l Hm) as (root & jm1 & -> & Hr & Hdoc & Hwf & _); [by apply jv_ok_coll in Hl as [? _]|done|done|].
  rewrite ok_bind, (root_report jm1 root l); [rewrite ok_bind; by exists jm1|by apply doc_lists|].
  apply jv_ok_coll in Hl as [_ Hl]. eapply Forall_impl; [exact Hl|]. by intros kv [_ ?].
Qed.
End Request.

(** C20: InMobi's adapter answers every request.  For any posted
    bytes, document or not, with any refusals in the middle of the parse, the
    adapter terminates without following a bad pointer and returns the posted
    chain itself; of a JSON document it prints exactly the [report]: the bid, and
    when there is an array of slots their sizes, kinds of picture and native
    assets, the identifiers and description of the device and the application,
    with [(null)] and 0 for what is absent or of another type.  But an empty body,
    as a POST without one has, makes it parse NULL. *)
Theorem adx_com_inmobi_request_spec (alloc ao : nat -> bool) (fuel : nat) (m : AdxChain.mem) (jm : jmem) (src : Z)
    (xs : list (Z * Z * AdxChain.ngx_buf_t)) (ts : list bytes) :
  AdxChain.seg m src xs 0 -> AdxChain.holds xs ts -> AdxChain.total ts <= 2147483646 -> 0 < AdxChain.top m ->
  (length xs <= fuel)%nat ->
  (0 < AdxChain.total ts -> alloc (AdxChain.calls m) = true -> closed jm ->
     exists out m' jm', adx_com_inmobi_adapter_request alloc ao fuel m jm src = Ok (src, out, m', jm') /\
       AdxChain.seg m' src xs 0 /\ closed jm') /\
  (forall l, concat ts = body (Coll false l) -> jv_ok (Coll false l) -> alloc (AdxChain.calls m) = true ->
     (forall k, ao k = true) -> wf jm ->
     exists m' jm', adx_com_inmobi_adapter_request alloc ao fuel m jm src = Ok (src, report l, m', jm')) /\
  (AdxChain.total ts = 0 -> ao (nalloc jm) = true -> adx_com_inmobi_adapter_request alloc ao fuel m jm src = UB).
Proof.
  intros Hs Hh Ht Htop Hf. split_and!.
  - intros Hp Ha Hm. destruct (request_text alloc ao fuel m jm src xs ts) as (m1 & Hs1 & _ & ->); try done.
    destruct (parse_total ao jm (concat ts) Hm) as (out & jm' & -> & Hc); [unfold AdxChain.total in Ht; lia|].
    rewrite ok_bind. by eexists _, _, _.
  - intros l El Hl Ha Hao Hm. destruct (request_text alloc ao fuel m jm src xs ts) as (m1 & Hs1 & _ & ->); try done.
    { split; [|done]. unfold AdxChain.total. rewrite El, body_coll. simpl. lia. }
    rewrite El. destruct (parse_document ao jm l Hao Hm Hl) as (jm' & ->); [rewrite <- El; unfold AdxChain.total in Ht; lia|]. rewrite ok_bind. by eexists _, _.
  - intros H0 Ha. eapply request_null; try done. by left.
Qed.

(** ** Examples *)

(** A request with one slot, in two buffers. *)
Definition inmobi_doc : list (option bytes * jv) :=
  [(Some (B "id"), JStr (B "b1"));
   (Some (B "imp"), JArr [JObj [
      (B "banner", JObj [(B "w", JNum (B "640")); (B "h", JNum (B "100")); (B "mimes", JArr [JStr (B "image/png"); JNum (B "7")])]);
      (B "native", JObj [(B "requestobj", JObj [(B "layout", JNum (B "3"));
         (B "assets", JArr [JObj [(B "img", JObj [(B "type", JNum (B "3")); (B "wmin", JNum (B "627"))])];
                            JObj [(B "img", JObj [(B "type", JNum (B "2"))])]])])])]]);
   (Some (B "device"), JObj [(B "ifa", JStr (B "F1")); (B "devicetype", JNum (B "4294967297")); (B "os", JNum (B "1"))])].
Definition inmobi_text : bytes := body (Coll false inmobi_doc).
Definition inmobi_bufs : list AdxChain.ngx_buf_t :=
  [AdxChain.Buf inmobi_text 0 9 1 0; AdxChain.Buf inmobi_text 9 (Z.of_nat (length inmobi_text)) 1 1].
Definition inmobi_mem : AdxChain.mem :=
  AdxChain.Mem {[1 := AdxChain.Chain 11 2; 2 := AdxChain.Chain 12 0]} (list_to_map (zip [11; 12] inmobi_bufs)) 0 20.

Lemma inmobi_doc_ok : jv_ok (Coll false inmobi_doc).
Proof. cbn -[B]. json_ok. Qed.

Lemma inmobi_posted : AdxChain.seg inmobi_mem 1 (zip [(1, 11); (2, 12)] inmobi_bufs) 0 /\
  AdxChain.holds (zip [(1, 11); (2, 12)] inmobi_bufs) [take 9 inmobi_text; drop 9 inmobi_text].
Proof.
  split; [vm_compute; split_and!; try done; eexists; split_and!; try done; by eexists|].
  constructor; [vm_compute; reflexivity|]. constructor; [vm_compute; reflexivity|constructor].
Qed.

(** A number is cut to 32 bits, a picture of another kind is passed over, and
    what is not there is printed as [(null)] and 0. *)
Example inmobi_report :
  take 12 (report inmobi_doc) = B "bid = b1" ++ [10] ++ B "ban" /\
  report_slot (snd (List.nth 0 (members (List.nth 1 (map snd inmobi_doc) (JStr []))) (None, JStr []))) =
    B "banner -> w = 640" ++ [10] ++ B "banner -> h = 100" ++ [10] ++ B "banner -> mimes = image/png" ++ [10] ++
    B "native -> layout = 3" ++ [10] ++ B "native -> w = 627" ++ [10] ++ B "native -> h = 0" ++ [10] /\
  int_of (members_of inmobi_doc (B "device")) "devicetype" = 1 /\
  text_of (members_of inmobi_doc (B "device")) (B "os") = None.
Proof. vm_compute. done. Qed.

Lemma adx_com_inmobi_request_spec_witness : exists m' jm',
  adx_com_inmobi_adapter_request (fun _ => true) (fun _ => true) 2 inmobi_mem (JMem ∅ 0) 1 = Ok (1, report inmobi_doc, m', jm').
Proof.
  destruct inmobi_posted as [Hs Hh].
  refine (proj1 (proj2 (adx_com_inmobi_request_spec (fun _ => true) (fun _ => true) 2 inmobi_mem (JMem ∅ 0) 1 _ _ Hs Hh _ _ _))
    inmobi_doc _ inmobi_doc_ok eq_refl (fun _ => eq_refl) _).
  - vm_compute. discriminate.
  - done.
  - cbn. lia.
  - vm_compute. reflexivity.
  - intros a n Ha. simpl in Ha. by rewrite lookup_empty in Ha.
Defined.
