(* ===== verification/AdxComInmobiModule.v ===== *)
(** The nginx module of InMobi's exchange (adx_module/adx_com_inmobi/
    adx_com_module.c): the four functions of AdxComModule.v with the adapter of
    AdxComInmobi.v.  A posted body is forwarded as it came, and so is the
    answer. *)

From Stdlib Require Import ZArith Lia.
From S2P Require Import Prelude NgxProtobufCodec AdxChain AdxNetwork AdxComModule.
From S2P Require AdxJson AdxJsonRound AdxJsonHeap AdxComInmobi.

Open Scope Z_scope.

Section Module.
(** The pool: [alloc] for blocks, [ao] for nodes of JSON, of which [jm] is the
    state when the request arrives. *)
Context (alloc ao : nat -> bool) (fuel : nat) (jm : AdxJson.jmem).
Context (send_header : request -> Z * request) (output_filter : request -> mem -> Z -> Z * request).
Context (finalize_request : http_request -> Z -> http_request).
Context (http_subrequest : http_request -> ngx_str_t -> Z -> http_request).
Context (read_body : (http_request -> mem -> cres (http_request * mem)) -> http_request -> mem -> cres (Z * http_request * mem)).

#[local] Instance inmobi_adapter : ComAdapter :=
  {| adapter_request m src := '(src, _, m, _) ← AdxComInmobi.adx_com_inmobi_adapter_request alloc ao fuel m jm src; mret (src, m);
     adapter_response m src := AdxComInmobi.adx_com_inmobi_adapter_response m src |}.

Definition adx_com_inmobi_create := adx_com_baidu_create.
Definition adx_com_inmobi_command := adx_com_baidu_command.
Definition adx_com_inmobi_write_event_handler := adx_com_baidu_write_event_handler send_header output_filter finalize_request.
Definition adx_com_inmobi_subrequest_handler := adx_com_baidu_subrequest_handler fuel.
Definition adx_com_inmobi_post_handler := adx_com_baidu_post_handler alloc finalize_request http_subrequest fuel.
Definition adx_com_inmobi_handler :=
  adx_com_baidu_handler alloc send_header output_filter finalize_request http_subrequest read_body fuel.
End Module.

(** The store of chains does not depend on what was allocated since. *)
Lemma seg_store m m' p xs q : chains m' = chains m -> bufs m' = bufs m -> seg m p xs q -> seg m' p xs q.
Proof.
  intros Ec Eb. revert p. induction xs as [|[[c b] bf] xs IH]; intros p; [done|]. cbn [seg]. rewrite Ec, Eb.
  intros (? & ? & ? & n & ? & ?). split_and!; [done..|]. exists n. split; [done|by apply IH].
Qed.

(** What is handed to the subrequest: the posted links, busy as well, and
    their length in the header. *)
Definition passed_on (r r1 : http_request) (m1 : mem) (src : Z) (xs : list (Z * Z * ngx_buf_t)) (n : Z) : Prop :=
  exists s tl, r1 = set_content_length (set_body r (Body src src)) (NStr (lenz (dec n)) (Some s)) n /\
    s = dec n ++ 0 :: tl /\ seg m1 src xs 0.

(** C21: The exchange with InMobi passes bytes on.  A POST whose body nginx
    put into the links [xs], whatever the bytes, JSON or not, is forwarded as
    it came: [NGX_DONE], after asking for a subrequest to the configured
    location with the same links as body and their length, as text and as a
    number, as Content-Length.  When the subrequest is done the links of its answer are
    the body of the answer, with their length and the subrequest's status.  But
    an empty body, or one without a Content-Length header, stops the worker. *)
Theorem adx_com_inmobi_exchange (alloc ao : nat -> bool) (fuel : nat) (jm : AdxJson.jmem)
    (send_header : request -> Z * request) (output_filter : request -> mem -> Z -> Z * request)
    (finalize_request : http_request -> Z -> http_request) (http_subrequest : http_request -> ngx_str_t -> Z -> http_request)
    (read_body : (http_request -> mem -> cres (http_request * mem)) -> http_request -> mem -> cres (Z * http_request * mem))
    (conf : adx_com_baidu_conf) (r : http_request) (m m0 : mem) (src busy rc0 : Z) (xs : list (Z * Z * ngx_buf_t)) (ts : list bytes) :
  let handler := adx_com_inmobi_handler alloc ao fuel jm send_header output_filter finalize_request http_subrequest read_body conf r m in
  (forall k, alloc k = true) -> AdxJsonHeap.closed jm ->
  seg m0 src xs 0 -> holds xs ts -> total ts <= 2147483646 -> 0 < top m0 -> (length xs <= fuel)%nat ->
  method r = NGX_HTTP_POST -> rc0 < NGX_HTTP_SPECIAL_RESPONSE ->
  (forall cb, read_body cb r m = '(r, m) ← cb (set_body r (Body src busy)) m0; mret (rc0, r, m)) ->
  (0 < total ts -> is_Some (in_content_length r) -> exists r1 m1,
     handler = Ok (NGX_DONE, http_subrequest r1 (adx_com_location conf) 6, m1) /\
     passed_on (set_body r (Body src busy)) r1 m1 src xs (total ts)) /\
  (total ts = 0 -> ao (AdxJson.nalloc jm) = true -> handler = UB) /\
  (0 < total ts -> in_content_length r = None -> handler = UB) /\
  (forall sub parent pb rc m2 p ys us, body parent = Some pb -> seg m2 p ys 0 -> holds ys us -> (length ys <= fuel)%nat ->
     total us <= 9223372036854775807 -> upstream sub = Some p -> p ≠ 0 ->
     exists parent', adx_com_inmobi_subrequest_handler alloc ao fuel jm sub parent rc m2 = Ok (rc, parent', m2) /\
       out_status (net parent') = sub_status sub /\ out_content_length_n (net parent') = total us /\
       write_handler parent' = true /\ body parent' = Some (Body p (body_busy pb))).
Proof.
  intros handler Ha Hjm Hseg Hh Ht Htop Hf Hm Hrc Hread.
  assert (handler = '(r, m) ← adx_com_inmobi_post_handler alloc ao fuel jm finalize_request http_subrequest conf (set_body r (Body src busy)) m0;
    '(rc, r, m) ← mret (rc0, r, m); if decide (NGX_HTTP_SPECIAL_RESPONSE <= rc) then mret (rc, r, m) else mret (NGX_DONE, r, m)) as ->.
  { subst handler. unfold adx_com_inmobi_handler, adx_com_baidu_handler. rewrite decide_False by (intros Hn; by apply Hn).
    rewrite Hread. unfold adx_com_inmobi_post_handler. by destruct (adx_com_baidu_post_handler _ _ _ _ _ _) as [[? ?]| |]. }
  assert (0 < total ts -> exists m1, seg m1 src xs 0 /\ 0 < top m1 /\
    @adapter_request (inmobi_adapter alloc ao fuel jm) m0 src = Ok (src, m1)) as Hreq.
  { intros Hp. cbn [adapter_request inmobi_adapter].
    destruct (AdxComInmobi.request_text alloc ao fuel m0 jm src xs ts) as (m1 & Hs1 & Ht1 & E); try done. rewrite E.
    destruct (AdxComInmobi.parse_total ao jm (concat ts) Hjm) as (out & jm' & Ep & _); [unfold total in Ht; lia|]. rewrite Ep, !ok_bind. by exists m1. }
  unfold adx_com_inmobi_post_handler, adx_com_baidu_post_handler. cbn [set_body body of_opt body_bufs]. rewrite ok_bind. cbn [body_bufs].
  split_and!.
  - intros Hp [h Hcl]. destruct (Hreq Hp) as (m1 & Hs1 & Ht1 & ->). rewrite ok_bind. unfold adx_chain_len.
    rewrite (chain_len_loop_ok m1 xs ts Hh fuel src 0 Hs1), ok_bind by (done || lia). cbn [set_body in_content_length].
    rewrite Hcl. cbn [of_opt]. rewrite ok_bind, Z.add_0_l.
    destruct (number_to_str_ok alloc m1 (total ts) Ha Ht1) as (s & tl & m2 & En & Hs & Hc2 & Hb2). rewrite En, ok_bind.
    assert (0 < top m2) as Ht2.
    { revert En. unfold adx_number_to_str, ngx_pcalloc. rewrite Ha, decide_False by lia.
      destruct (bwrite _ _ _); [|done..]. rewrite ok_bind. intros [= _ <-]. cbn [top]. lia. }
    unfold ngx_pcalloc. rewrite Ha, decide_False by lia. cbn [mret cres_ret]. rewrite !ok_bind, decide_False by lia.
    eexists _, _. split; [done|]. exists s, tl. split_and!; [done|done|]. by eapply seg_store; [..|exact Hs1].
  - intros H0 Hao. cbn [adapter_request inmobi_adapter].
    rewrite (AdxComInmobi.request_null alloc ao fuel m0 jm src xs ts) by (done || by left). done.
  - intros Hp Hcl. destruct (Hreq Hp) as (m1 & Hs1 & Ht1 & ->). rewrite ok_bind. unfold adx_chain_len.
    rewrite (chain_len_loop_ok m1 xs ts Hh fuel src 0 Hs1), ok_bind by (done || lia). cbn [set_body in_content_length].
    by rewrite Hcl.
  - intros sub parent pb rc m2 p ys us Hpb Hs Hy Hfy Hu Hup Hp0. unfold adx_com_inmobi_subrequest_handler, adx_com_baidu_subrequest_handler.
    cbn [body]. rewrite Hpb. cbn [of_opt]. rewrite ok_bind, Hup. cbn [default from_option]. unfold id. rewrite decide_True by done.
    change (adapter_response m2 p) with (Ok (p, m2)). rewrite ok_bind. unfold adx_chain_len. rewrite (chain_len_loop_ok m2 ys us Hy fuel p 0 Hs), ok_bind by (done || lia).
    eexists. split; [done|]. split_and!; try done. 
Qed.

Lemma adx_com_inmobi_exchange_witness : exists r1 m1,
  adx_com_inmobi_handler (fun _ => true) (fun _ => false) 2 (AdxJson.JMem ∅ 0) (fun n => (0, n)) (fun n _ _ => (0, n))
    (fun r _ => r) (fun r _ _ => r) (fun cb r _ => '(r, m) ← cb (set_body r (Body 1 0)) AdxComInmobi.inmobi_mem; mret (0, r, m))
    (Conf ngx_null_string) (exchange_request (Some ngx_null_string)) AdxComInmobi.inmobi_mem = Ok (NGX_DONE, r1, m1) /\
  passed_on (set_body (exchange_request (Some ngx_null_string)) (Body 1 0)) r1 m1 1
    (zip [(1, 11); (2, 12)] AdxComInmobi.inmobi_bufs) (lenz AdxComInmobi.inmobi_text).
Proof.
  destruct AdxComInmobi.inmobi_posted as [Hs Hh].
  refine (proj1 (adx_com_inmobi_exchange (fun _ => true) (fun _ => false) 2 (AdxJson.JMem ∅ 0) (fun n => (0, n)) (fun n _ _ => (0, n))
    (fun r _ => r) (fun r _ _ => r) (fun cb r _ => '(r, m) ← cb (set_body r (Body 1 0)) AdxComInmobi.inmobi_mem; mret (0, r, m))
    (Conf ngx_null_string) (exchange_request (Some ngx_null_string)) AdxComInmobi.inmobi_mem AdxComInmobi.inmobi_mem 1 0 0 _ _
    (fun _ => eq_refl) _ Hs Hh _ _ _ _ _ _) _ _); done.
Defined.
